(* ===== verification/_CoqProject ===== *)
-Q . S2P
Prelude.v
Floats.v
Identity.v
Frozen.v
Leasing.v
EvalConfigs.v
Reward.v
Tools.v
Admission.v
Objectives.v
Plan.v
Aggregate.v
JsonText.v
TaskSelection.v
Sampling.v
Process.v
Sha256.v
Claims.v
PartialRecord.v
LocalFs.v
PartialLog.v
PartialCrash.v
PartialDurable.v
ToolStore.v
Executor.v
Candidate.v
Cost.v
Provider.v
OptimContracts.v
IssuedCalls.v
RunCost.v
RunStore.v
Harness.v
RunLog.v
Runs.v
Copro.v
CoproAdapter.v
CoproRounds.v
CoproSteps.v
Controller.v
Drives.v
Miprov2Demos.v
Miprov2Evals.v
Miprov2Random.v
Miprov2Control.v
Miprov2Render.v
Miprov2Space.v
Miprov2Study.v
Miprov2Replay.v
Miprov2Resume.v
