(* ===== verification/Prelude.v ===== *)
(** * Whetstone verification development

    Whetstone optimizes prompt candidates: an optimizer proposes candidates in
    steps, each step's candidates are evaluated on planned task and seed
    matrices, calls of tools are metered against a capacity, and everything
    that decides the outcome is a content-addressed record in one durable
    object store, so that any process may crash and another may take over.
    This library models that core and proves what makes it correct. All paths
    below are under [src/src/whetstone/].

    ** Layers

    - Ground. [Prelude.v] (this file): Python values, strings, dicts, errors,
      sorting, the shared tactics and hint databases. [Floats.v]: binary64, its
      order and [sum]. [Identity.v] ([core/identity.py]): validated values,
      frozen JSON, hashes, typed references, the config resolver.
    - Records. [EvalConfigs.v] ([eval/config.py]), [Reward.v]
      ([experiment/reward.py]), [Tools.v] ([optim/tools/contracts.py]),
      [Objectives.v] ([experiment/objectives.py]), [Plan.v] ([eval/plan.py]),
      [Aggregate.v] ([eval/aggregate.py], [eval/aggregation.py]),
      [TaskSelection.v] ([experiment/task_selection/]), [Sampling.v]
      ([experiment/sampling.py]), [Candidate.v] ([experiment/candidate.py]),
      [Cost.v] ([optim/cost.py]), [OptimContracts.v] ([optim/contracts.py],
      [optim/adapters.py], [optim/proposal/mutation.py]). Each Python model is a
      Record; its validators are functions to [result], in the order the code
      runs them, so that the first failing check is the error.
    - Tool calls. [Leasing.v] ([core/leasing.py]): the boundary to dr-store's
      leases. [Admission.v] ([optim/tools/admission.py], [_memory.py]): the
      ledger that debits a capacity scope. [ToolStore.v] ([optim/tools/facade.py])
      joins it with the object store; [Executor.v] ([optim/tools/execution.py])
      decides, evaluates, completes and loads one call.
    - Processes. [Process.v]: programs over the shared store, a step relation
      that interleaves any number of threads at every call that leaves the
      thread, and the proof rule [safe]. [Claims.v]
      ([coordination/eval_claims.py], [eval_service.py]): who evaluates a
      request. [IssuedCalls.v] ([optim/tools/issued.py]), [RunStore.v]
      ([optim/run_store.py]), [RunCost.v] ([optim/cost_aggregation.py]) and
      [Harness.v] ([optim/harness.py]): the steps of a run. [RunLog.v] is the
      specification of a run, an append-only log; [Runs.v] proves that the
      harness refines it.
    - Provider calls. [Provider.v] ([provider/policy.py], [classification.py],
      [attempt.py], [driver.py], [execution/call_support.py]): one logical call
      of a language model, its retries and what it is billed for.
    - COPRO. [Frozen.v]: documents that are JSON and their frozen images.
      [Copro.v] ([optim/copro/control.py], [proposal_contract.py] and the
      driver of [adapter.py]): measured attempts, their ranking, the state of a
      search and its statistics. [CoproAdapter.v] ([optim/copro/prompts.py],
      the adapter of [adapter.py], [optim/proposal/proposer.py]): one
      invocation. [CoproRounds.v] proves that no draft makes it raise, and
      [CoproSteps.v] ([optim/copro/step_contract.py]) follows the requests and
      results of a whole run.
    - MIPROv2. [Miprov2Demos.v] ([optim/miprov2/demo.py], [demo_mode.py]),
      [Miprov2Evals.v] ([eval_config.py]), [Miprov2Random.v] ([rng.py]): the
      generator that a checkpoint replays. [Miprov2Control.v] ([control.py]):
      the resolved control of a run. [Miprov2Render.v] ([render.py]): the prompt
      of a candidate. [Miprov2Space.v], [Miprov2Study.v], [Miprov2Replay.v]
      ([study.py]): the search space and the schedule, the transcript of a
      study and its validators, and the study that is rebuilt from it;
      [Miprov2Resume.v] holds the theorems about it.
    - Partial calls. [Sha256.v] and [JsonText.v]: hashes and [json.dumps].
      [PartialRecord.v] ([execution/partials.py]): the row of a call, its
      checks and the line it is written as. [LocalFs.v]: programs over a file
      system whose calls may fail and which may lose power. [PartialLog.v]: the
      log of rows that a crash leaves whole ([append], [load], [delete]).
      [PartialCrash.v] follows every operation through every point it may be
      stopped at and [PartialDurable.v] holds the theorems.
    - Controllers. [Controller.v] ([coordination/harness_run_controller.py],
      [step_contracts.py], [step_request_builder.py]): launches and the drive of
      a run through the contract of its optimizer, COPRO's included;
      [Drives.v] proves that all controllers of a run agree.

    ** What the theorems show

    - Freezing and dumping records loses nothing:
      [Identity.frozen_object_roundtrip], [Leasing.effect_terminal_roundtrip],
      [Plan.seed_plan_roundtrip]; a failure comes back from its lease form
      exactly when its details leave one reserved key unused
      ([Leasing.lease_failure_total_roundtrip]); hashes cover every field
      ([Tools.tool_config_identity_covers]).
    - Scores: assignments, rewards, dominance and the Pareto front, the
      unweighted task mean, task selection, splits that cannot leak
      ([EvalConfigs], [Reward], [Objectives], [Aggregate], [TaskSelection],
      [Sampling]).
    - Templates: the index scanner of a template is equivalent to its grammar
      and rendering is exact ([Candidate]).
    - Capacity: a ledger never debits more than its maximum, decisions are
      final, every decided call has a durable result, and evaluations stay
      within capacity, under any interleaving and any crash ([Admission],
      [ToolStore], [Executor]).
    - Claims: under every interleaving of owners and heartbeats the claim
      stream stays in order, resolvers agree, and what is bound is what was
      attested ([Claims]).
    - Runs: budgets balance over the whole chain of steps, accepted candidates
      are proposed ones, replayed work costs nothing, the harness refines the
      run log, and processes that ran the same step agree ([OptimContracts],
      [RunCost], [RunLog], [Runs]).
    - Provider calls: a call makes at most [max_attempts] turns, returns the
      valid record of exactly its turns, and its telemetry is all or nothing
      ([Provider]).
    - COPRO: the ranking is the first-best of every instruction in descending
      order, every state restores from its own history, and a run ends after at
      most as many continuing steps as its depth, whatever drafts its proposer
      answers with and whatever its evaluations score, as long as the proposer
      answers and the statistics are finite ([Copro], [CoproSteps]).
    - MIPROv2: a resolved control loses no task and its random draws can be
      replayed, only the instruction of a composed prompt is a template under
      any of the three render kinds, the
      trials of an accepted transcript are those of the schedule, a study is
      rebuilt from every transcript it produced, and recording a sample refuses
      what the schedule does not allow ([Miprov2Control], [Miprov2Render],
      [Miprov2Resume]).
    - Partial calls: a row reads back as it was written, what an append has
      returned for survives kills and power losses, a load returns only whole
      rows that were appended, a publication that fails is taken back, and no
      crash leaves a log that cannot be used again ([PartialRecord],
      [PartialDurable]).
    - Controllers: a launch is read back as it was bound, drives of a run that
      ended agree, and their steps are those the contract asks for ([Drives]).

    ** Parameters

    Code that is not in the repository is a class with named laws, and every
    theorem that uses a law has a witness that instantiates it: dr-serialize
    ([DrSerialize], [DrSerializeLaws]), dr-store's documents, objects and
    leases ([DrStore], [DrObjectStore], [DrObjectStoreLaws], [DrLease],
    [LeaseAuthority], [LeaseMaintenance]); pydantic's decoding of a stored JSON
    document into records ([EvalRecords], [OptimRecords], [CoproRecords] and
    their laws), and of a launch ([LaunchRecords], [CoproControlRecords]); the conversions between floats and text ([FloatText]), the Unicode tables of
    identifiers and digits ([UnicodeIdentifiers], [UnicodeDigits]) and texts that
    only appear in prompts ([PyText]); [random.Random] ([PyRandom],
    [PyRandomLaws]), [math.log2] ([FloatLog2]) and optuna ([Optuna],
    [OptunaLaws]: only a trial that runs takes suggestions and may be told, and
    a parameter keeps its categories); dr-serialize's strict reader ([StrictJsonBytes]), pydantic's
    numbers of text ([PydanticText]), and [os] and dr-store's [localfs]
    ([LocalFs], [LocalFsLaws], [LocalFsFailures]): a call answers as documented,
    fails and changes nothing, or is interrupted after its effect, and a power
    loss keeps one of the contents a directory had since it was last synced and
    any bytes for a file that was not synced. [DrTotal] says that hashing and storing a JSON document does
    not fail, which only the theorems that a COPRO run ends and that a MIPROv2
    study resumes need. Inside a program a collaborator's answer is unconstrained: an evaluator, an adapter or an engine may answer
    anything or raise, and the guards of the code must hold up.

    ** Bounds and fuel

    Loops that the code leaves unbounded take the number of turns as an
    argument, and the theorems about them hold for every number:
    [Claims.latest_loop], [publish_loop], [claim_loop], [heartbeat_loop] and
    the turns of a tool-using adapter in [Harness.invoke_with_tools].
    [Claims.latest_claim_total] gives the number that is enough to read a
    stream. [Candidate.fields_loop] gets one turn per character, which
    [Candidate.placeholder_fields_exact] shows is enough. A reservation of a
    slot in [IssuedCalls.reserve] gets one turn more than its limit, the number
    of slots it may try. [CoproAdapter.fresh_id] tries one name more than
    are taken, which [CoproRounds.fresh_id_fresh] shows is enough. The read and
    write loops of [PartialLog] take their turns as an argument;
    [PartialDurable.log_recovers] shows that one turn more than the bytes of the
    longest row is enough. A crash is a
    thread that is never scheduled again.
    Integers are unbounded, as Python's; floats are binary64, and a
    [FiniteFloat] field records [-0.0] as [0.0].

    ** Equality

    [==] of two frozen JSON objects compares their canonical JSON, so that the
    order of keys does not count ([Identity.frozen_eq], [Frozen.same_object]).
    Records that hold such objects are compared by it where the code compares
    them: [Identity.TerminalFailure_eq], [Leasing.EffectTerminal_eq],
    [Tools.ToolCall_eq], [Tools.ToolCallRef_eq], [Admission.entry_eq]; the
    records of runs, steps and studies by [OptimContracts.same], which compares
    their dumps with sorted keys. What the ledger, the store and the executor
    guarantee of a call they guarantee of every equal call ([Tools.same_call]).
    Records without such a field are compared by Rocq's equality.

    ** Not modelled

    Left out because they are input and output around a library or another process: SQL
    backends of the ledger ([optim/tools/_sqlite.py], [_postgres.py]), the
    Codex process and its containment ([optim/codex/]), deployment, command
    line and fan-in of the platform, subprocess rollouts, language-model calls,
    the test doubles and the sandbox. In modelled files: the text encoding of
    ledger entries, the row path of the evaluation service, eviction of
    deferred intents, and concurrent calls of one adapter (the harness issues
    them one after another). In [PartialLog]: the paths in error messages, and
    the races the file lock excludes. For want of room: the step
    contracts of the other optimizers (any contract that binds no key of a run
    is an argument of [Controller.drive]), the stored schemas of evaluations and their validation ([eval/schema.py],
    [eval/evidence_validation.py]), the prompt cache
    ([execution/prompt_cache.py]), the contracts and control of GEPA
    ([optim/gepa/contracts.py], [control.py]) and the bootstrap and proposal
    state machines of MIPROv2 ([optim/miprov2/bootstrap.py], [proposal.py]). *)

From stdpp Require Export base gmap sets list strings sorting.
From stdpp Require Import pretty.
From Stdlib Require Export ZArith Lia.
From Stdlib Require Import SpecFloat.


Declare Scope py_scope.
Delimit Scope py_scope with py.

(** ** Python strings

    A Python [str] is a sequence of code points, unpaired surrogates included;
    it is modelled as the list of their numbers. *)

Abbreviation pystr := (list Z).

(** The string literal [s] of the source (ASCII in every use). *)
Definition py (s : string) : pystr :=
  (λ c, Z.of_N (Ascii.N_of_ascii c)) <$> String.list_ascii_of_string s.
Arguments py : simpl never.

Notation "'$' s" := (py s%string) (at level 1, format "'$' s") : py_scope.
Open Scope py_scope.

(** [str(n)] of an integer. *)
Definition int_text (n : Z) : pystr := py (pretty n).

Lemma py_inj s t : py s = py t → s = t.
Proof.
  assert (Inj (=) (=) (λ c, Z.of_N (Ascii.N_of_ascii c))) as Hinj.
  { intros a b Hab%(inj Z.of_N).
    by rewrite <-(Ascii.ascii_N_embedding a), <-(Ascii.ascii_N_embedding b), Hab. }
  unfold py. intros H%list_fmap_eq_inj; [|done].
  by rewrite <-(String.string_of_list_ascii_of_string s),
    <-(String.string_of_list_ascii_of_string t), H.
Qed.

Lemma int_text_inj m n : int_text m = int_text n → m = n.
Proof. intros H%py_inj. by apply (inj pretty). Qed.

(** A decimal numeral has no [#], so that text before the last [#] of a key can
    be read off. *)
Lemma pretty_N_go_chars (P : Ascii.ascii → Prop) x s :
  (∀ d, P (pretty_N_char d)) → Forall P (String.list_ascii_of_string s) →
  Forall P (String.list_ascii_of_string (pretty_N_go x s)).
Proof.
  intros HP. revert s. induction (N.lt_wf_0 x) as [x _ IH]; intros s Hs.
  destruct (decide (x = 0)%N) as [->|]; [by rewrite pretty_N_go_0|].
  rewrite pretty_N_go_step by lia. apply IH; [by apply N.div_lt; lia|]. simpl. by constructor.
Qed.

(** A decimal numeral has digits and a sign only. *)
Lemma int_text_not (x n : Z) :
  (x = 45 ∨ 48 <= x <= 57 → False)%Z → x ∉ int_text n.
Proof.
  intros Hx. unfold int_text, py. rewrite list_elem_of_fmap. intros (c & Hc & Hin).
  assert (Forall (λ c, Z.of_N (Ascii.N_of_ascii c) ≠ x)
            (String.list_ascii_of_string (pretty n))) as Hall.
  { assert (∀ p, Forall (λ c, Z.of_N (Ascii.N_of_ascii c) ≠ x)
              (String.list_ascii_of_string (pretty_N_go (Npos p) ""))) as Hp.
    { intros p. apply pretty_N_go_chars; [|constructor]. intros d. unfold pretty_N_char.
      repeat case_match; simpl; lia. }
    destruct n as [|p|p]; simpl.
    - constructor; [simpl; lia|constructor].
    - apply Hp.
    - constructor; [simpl; lia|apply Hp]. }
  rewrite Forall_forall in Hall. by apply (Hall c Hin).
Qed.

Lemma int_text_no_hash n : (35 ∉ int_text n)%Z.
Proof. apply int_text_not. lia. Qed.

Lemma split_first {A} (x : A) (u v a b : list A) :
  x ∉ u → x ∉ v → u ++ x :: a = v ++ x :: b → u = v ∧ a = b.
Proof.
  revert v. induction u as [|y u IH]; intros [|z v] Hu Hv H; simpl in H; simplify_eq; [done| | |].
  - destruct Hv. set_solver.
  - destruct Hu. set_solver.
  - destruct (IH v) as [-> ->]; [set_solver|set_solver|done|done].
Qed.

Lemma split_last {A} (x : A) (a b u v : list A) :
  x ∉ u → x ∉ v → a ++ x :: u = b ++ x :: v → a = b ∧ u = v.
Proof.
  intros Hu Hv. revert b. induction a as [|y a IH]; intros [|z b] H; simpl in H; simplify_eq; [done| | |].
  - destruct Hu. set_solver.
  - destruct Hv. set_solver.
  - destruct (IH b) as [-> ->]; done.
Qed.

(** [str.isspace] of one character (the Unicode white space of [str.strip]). *)
Definition is_space (c : Z) : bool :=
  ((9 <=? c) && (c <=? 13) || (28 <=? c) && (c <=? 32) || (c =? 133) ||
   (c =? 160) || (c =? 5760) || (8192 <=? c) && (c <=? 8202) || (c =? 8232) ||
   (c =? 8233) || (c =? 8239) || (c =? 8287) || (c =? 12288))%Z.

(** The truth value of [s.strip()]: some character is not white space. *)
Definition nonblank (s : pystr) : bool := existsb (λ c, negb (is_space c)) s.

(** ** Exceptions and the result monad *)

(** The exception classes the modelled code raises. *)
Inductive exn_class : Set :=
| TypeError | ValueError | KeyError | IndexError | AttributeError | RuntimeError
| AssertionError | ZeroDivisionError | OverflowError | StrictJsonError
| StaleLeaseError | TerminalConflictError
| ToolCallStoreConflictError | BindingConflictError
| IssuedToolCallConflictError | LeaseLostError
| RewardIsNotAnObjectiveError | OfficialRewardError
| TaskSplitManifestError | HeldOutReferencedError | SplitOverlapError
| SplitProcedureMismatchError | VariableError | EvalPlatformDeferred
| ToolExecutionBusyError | ToolExecutionConflictError | ToolExecutionRecoveryRequiredError
| DiffCheckError | ProposalValidationError | AdapterReplayPolicyMismatchError
| StepResultConflictError | OptimRunConflictError | OptimResultConflictError
| EffectBusyError | EffectRequestConflictError | EffectRecoveryRequiredError
| StudyTranscriptMismatch
| OSError | FileNotFoundError | FileExistsError | InterruptedError
| PrivatePathViolationError | StrictJsonDecodeError | ValidationError | PromptCacheError
| KeyboardInterrupt.

#[export] Instance exn_class_eq_dec : EqDecision exn_class.
Proof. solve_decision. Defined.

(** [class C(parent)]: the base class an exception class derives from.  No base
    is assumed for the classes dr-serialize and dr-store declare
    ([StrictJsonError], [StrictJsonDecodeError], [PrivatePathViolationError]). *)
Definition exn_parent (c : exn_class) : option exn_class :=
  match c with
  | ToolCallStoreConflictError => Some RuntimeError
  | IssuedToolCallConflictError => Some ValueError
  | LeaseLostError => Some RuntimeError
  | RewardIsNotAnObjectiveError => Some ValueError
  | OfficialRewardError => Some ValueError
  | TaskSplitManifestError => Some ValueError
  | HeldOutReferencedError => Some AssertionError
  | SplitOverlapError => Some AssertionError
  | SplitProcedureMismatchError => Some ValueError
  | VariableError => Some ValueError
  | EvalPlatformDeferred => Some RuntimeError
  | ToolExecutionBusyError => Some RuntimeError
  | ToolExecutionConflictError => Some RuntimeError
  | ToolExecutionRecoveryRequiredError => Some RuntimeError
  | DiffCheckError => Some ValueError
  | ProposalValidationError => Some DiffCheckError
  | AdapterReplayPolicyMismatchError => Some ValueError
  | EffectBusyError => Some RuntimeError
  | EffectRequestConflictError => Some RuntimeError
  | EffectRecoveryRequiredError => Some RuntimeError
  | StudyTranscriptMismatch => Some ValueError
  | FileNotFoundError => Some OSError
  | FileExistsError => Some OSError
  | InterruptedError => Some OSError
  | ValidationError => Some ValueError
  | PromptCacheError => Some RuntimeError
  | _ => None
  end.

(** [isinstance(exc, c)]: the class itself, its parent or (the hierarchy is
    three deep) the parent of its parent. *)
Definition exn_isa (e c : exn_class) : bool :=
  bool_decide (e = c) || bool_decide (exn_parent e = Some c) ||
  bool_decide ((exn_parent e ≫= exn_parent) = Some c).

(** A raised exception: its class and the fixed text of its message (the
    operands the source interpolates are left out). *)
Record exn := Raise { exn_cls : exn_class; exn_msg : string }.

#[export] Instance exn_eq_dec : EqDecision exn.
Proof. solve_decision. Defined.

Inductive result (A : Type) : Type :=
| Ok (a : A)
| Err (e : exn).
Arguments Ok {A} a.
Arguments Err {A} e.

#[export] Instance Ok_inj A : Inj (=) (=) (@Ok A).
Proof. by intros x y [=]. Qed.

#[export] Instance result_eq_dec `{EqDecision A} : EqDecision (result A).
Proof. solve_decision. Defined.

#[export] Instance result_ret : MRet result := λ A a, Ok a.
#[export] Instance result_bind : MBind result := λ A B f x,
  match x with Ok a => f a | Err e => Err e end.
#[export] Instance result_fmap : FMap result := λ A B f x,
  match x with Ok a => Ok (f a) | Err e => Err e end.

Definition raise {A} (c : exn_class) (msg : string) : result A :=
  Err (Raise c msg).

(** [if not b: raise c(msg)]. *)
Definition require (b : bool) (c : exn_class) (msg : string) : result unit :=
  if b then Ok tt else raise c msg.

Definition is_ok {A} (r : result A) : bool :=
  match r with Ok _ => true | Err _ => false end.

(** The value of a result that is one. *)
Definition got {A} (r : result A) : is_ok r = true → A :=
  match r with
  | Ok a => λ _, a
  | Err _ => λ H, match Bool.diff_false_true H with end
  end.

(** The value of [x] when it is present, the exception otherwise. *)
Definition of_option {A} (x : option A) (c : exn_class) (msg : string) : result A :=
  match x with Some a => Ok a | None => raise c msg end.

(** [x is not None]. *)
Definition is_some {A} (x : option A) : bool := match x with Some _ => true | None => false end.

(** [except c as error: raise c'(msg)]. *)
Definition rewrap {A} (c c' : exn_class) (msg : string) (r : result A) : result A :=
  match r with
  | Err e => if exn_isa (exn_cls e) c then raise c' msg else Err e
  | Ok a => Ok a
  end.

Section ResultLemmas.
Context {A B : Type}.
Implicit Types (x : result A) (f : A → result B).

Lemma bind_Ok x f b : (x ≫= f) = Ok b ↔ ∃ a, x = Ok a ∧ f a = Ok b.
Proof.
  destruct x as [a|e]; simpl; [|split; [done|by intros (?&?&?)]].
  split; [eauto|by intros (?&[= <-]&?)].
Qed.

Lemma fmap_Ok x (g : A → B) b : g <$> x = Ok b ↔ ∃ a, x = Ok a ∧ b = g a.
Proof.
  destruct x; simpl; naive_solver.
Qed.

Lemma is_ok_Ok x : is_ok x = true ↔ ∃ a, x = Ok a.
Proof. destruct x; simpl; naive_solver. Qed.

Lemma of_option_Ok (o : option A) c msg a : of_option o c msg = Ok a ↔ o = Some a.
Proof. destruct o; simpl; naive_solver. Qed.
End ResultLemmas.

Lemma rewrap_Ok {A} c c' msg (r : result A) a : rewrap c c' msg r = Ok a ↔ r = Ok a.
Proof. destruct r as [|e]; simpl; [done|]. by destruct (exn_isa _ _). Qed.

Lemma is_some_Some {A} (x : option A) : is_some x = true ↔ is_Some x.
Proof. destruct x; simpl; split; [by eexists|done|done|by intros [? ?]]. Qed.

Lemma require_Ok b c msg u : require b c msg = Ok u ↔ b = true.
Proof. destruct b, u; simpl; naive_solver. Qed.

Lemma require_true c msg : require true c msg = Ok tt.
Proof. done. Qed.

(** [inv_result] decomposes hypotheses that say a computation in the monad
    returned; [step_result] rewrites a goal with the guards that hold. *)
Ltac inv_result :=
  repeat match goal with
  | H : mret _ = Ok _ |- _ => apply (inj Ok) in H
  | H : Ok _ = Ok _ |- _ => apply (inj Ok) in H
  | H : Err _ = Ok _ |- _ => discriminate H
  | H : Ok _ = Err _ |- _ => discriminate H
  | H : raise _ _ = Ok _ |- _ => discriminate H
  | H : mbind _ _ = Ok _ |- _ =>
      let a := fresh "a" in let Ha := fresh "Hiv" in let Hb := fresh "Hik" in
      apply bind_Ok in H as (a & Ha & Hb)
  | H : fmap _ _ = Ok _ |- _ =>
      let a := fresh "a" in let Ha := fresh "Hiv" in let Hb := fresh "Hik" in
      apply fmap_Ok in H as (a & Ha & Hb)
  | H : require _ _ _ = Ok _ |- _ => apply require_Ok in H
  | H : of_option _ _ _ = Ok _ |- _ => apply of_option_Ok in H
  | H : rewrap _ _ _ _ = Ok _ |- _ => apply rewrap_Ok in H
  end; subst.

Create HintDb py.
Create Rewrite HintDb pyrw.
#[export] Hint Rewrite require_true : pyrw.

(** ** JSON-like Python values

    The values that flow through records, identity payloads and JSON
    documents. [PTuple] and [PFrozen] ([ImmutableJsonObject]) are the immutable
    counterparts of [PList] and [PDict]; a float is a binary64 number. *)
Inductive pyval : Type :=
| PNone
| PBool (b : bool)
| PInt (n : Z)
| PFloat (f : spec_float)
| PStr (s : pystr)
| PList (l : list pyval)
| PTuple (l : list pyval)
| PDict (kvs : list (pystr * pyval))
| PFrozen (kvs : list (pystr * pyval)).

Section PyvalInd.
Variable P : pyval → Prop.
Hypothesis HNone : P PNone.
Hypothesis HBool : ∀ b, P (PBool b).
Hypothesis HInt : ∀ n, P (PInt n).
Hypothesis HFloat : ∀ f, P (PFloat f).
Hypothesis HStr : ∀ s, P (PStr s).
Hypothesis HList : ∀ l, Forall P l → P (PList l).
Hypothesis HTuple : ∀ l, Forall P l → P (PTuple l).
Hypothesis HDict : ∀ kvs, Forall (λ kv, P kv.2) kvs → P (PDict kvs).
Hypothesis HFrozen : ∀ kvs, Forall (λ kv, P kv.2) kvs → P (PFrozen kvs).

Fixpoint pyval_nested_ind (v : pyval) : P v :=
  let go_list := fix go l : Forall P l :=
    match l with
    | [] => Forall_nil_2 P
    | x :: l => Forall_cons_2 P x l (pyval_nested_ind x) (go l)
    end in
  let go_kvs := fix go kvs : Forall (λ kv, P kv.2) kvs :=
    match kvs with
    | [] => Forall_nil_2 _
    | kv :: kvs => Forall_cons_2 _ kv kvs (pyval_nested_ind kv.2) (go kvs)
    end in
  match v with
  | PNone => HNone | PBool b => HBool b | PInt n => HInt n
  | PFloat f => HFloat f | PStr s => HStr s
  | PList l => HList l (go_list l) | PTuple l => HTuple l (go_list l)
  | PDict kvs => HDict kvs (go_kvs kvs)
  | PFrozen kvs => HFrozen kvs (go_kvs kvs)
  end.
End PyvalInd.

#[export] Instance pyval_eq_dec : EqDecision pyval.
Proof.
  assert (EqDecision spec_float) by solve_decision.
  refine (fix go (v1 v2 : pyval) : Decision (v1 = v2) :=
    let _ : EqDecision pyval := go in
    match v1, v2 with
    | PNone, PNone => left eq_refl
    | PBool b1, PBool b2 => cast_if (decide (b1 = b2))
    | PInt n1, PInt n2 => cast_if (decide (n1 = n2))
    | PFloat f1, PFloat f2 => cast_if (decide (f1 = f2))
    | PStr s1, PStr s2 => cast_if (decide (s1 = s2))
    | PList l1, PList l2 => cast_if (decide (l1 = l2))
    | PTuple l1, PTuple l2 => cast_if (decide (l1 = l2))
    | PDict k1, PDict k2 => cast_if (decide (k1 = k2))
    | PFrozen k1, PFrozen k2 => cast_if (decide (k1 = k2))
    | _, _ => right _
    end); abstract congruence.
Defined.

(** ** Dictionaries as ordered association lists

    A Python [dict] keeps insertion order: assigning to a present key keeps
    its place, a new key goes last. *)
Section Dict.
Context {K V : Type} `{EqDecision K}.

Fixpoint dict_get (kvs : list (K * V)) (k : K) : option V :=
  match kvs with
  | [] => None
  | (k', v) :: kvs => if decide (k = k') then Some v else dict_get kvs k
  end.

Fixpoint dict_set (kvs : list (K * V)) (k : K) (v : V) : list (K * V) :=
  match kvs with
  | [] => [(k, v)]
  | (k', v') :: kvs =>
      if decide (k = k') then (k, v) :: kvs else (k', v') :: dict_set kvs k v
  end.

(** [d.pop(k, None)] leaves the other entries in place. *)
Definition dict_pop (kvs : list (K * V)) (k : K) : list (K * V) :=
  filter (λ kv, kv.1 ≠ k) kvs.

Lemma dict_get_set_eq kvs k v : dict_get (dict_set kvs k v) k = Some v.
Proof.
  induction kvs as [|[k' v'] kvs IH]; simpl; repeat (case_decide; simpl); done.
Qed.

Lemma dict_get_set_ne kvs k k' v :
  k ≠ k' → dict_get (dict_set kvs k v) k' = dict_get kvs k'.
Proof.
  intros Hk. induction kvs as [|[k2 v2] kvs IH]; simpl;
    repeat (case_decide; simplify_eq/=); done.
Qed.

Lemma dict_get_None kvs k : dict_get kvs k = None ↔ k ∉ kvs.*1.
Proof.
  induction kvs as [|[k' v'] kvs IH]; simpl; [set_solver|].
  case_decide; set_solver.
Qed.

Lemma dict_pop_notin kvs k : k ∉ kvs.*1 → dict_pop kvs k = kvs.
Proof.
  unfold dict_pop. induction kvs as [|[k' v'] kvs IH]; csimpl; [done|].
  rewrite filter_cons; simpl. intros Hk.
  rewrite decide_True by set_solver. f_equal. set_solver.
Qed.

Lemma dict_pop_set kvs k v : k ∉ kvs.*1 → dict_pop (dict_set kvs k v) k = kvs.
Proof.
  unfold dict_pop. induction kvs as [|[k' v'] kvs IH]; simpl; intros Hk.
  - rewrite filter_cons, decide_False; [done|simpl; tauto].
  - rewrite decide_False by set_solver.
    rewrite filter_cons, decide_True by set_solver. f_equal. set_solver.
Qed.

Lemma dict_set_keys kvs k v x : x ∈ (dict_set kvs k v).*1 ↔ x = k ∨ x ∈ kvs.*1.
Proof.
  induction kvs as [|[k' v'] kvs IH]; csimpl.
  - rewrite list_elem_of_singleton, elem_of_nil. tauto.
  - case_decide; csimpl; rewrite !elem_of_cons, ?IH; naive_solver.
Qed.

Lemma dict_set_keys_present kvs k v : k ∈ kvs.*1 → (dict_set kvs k v).*1 = kvs.*1.
Proof.
  induction kvs as [|[k' v'] kvs IH]; csimpl; [by intros ?%elem_of_nil|].
  rewrite elem_of_cons. case_decide; csimpl; [by subst|]. intros [?|Hk]; [done|].
  by rewrite IH.
Qed.

Lemma dict_set_NoDup kvs k v : NoDup kvs.*1 → NoDup (dict_set kvs k v).*1.
Proof.
  induction kvs as [|[k' v'] kvs IH]; csimpl; [intros _; apply NoDup_singleton|].
  rewrite NoDup_cons. intros [Hk' Hnd]. case_decide; csimpl; rewrite NoDup_cons.
  - naive_solver.
  - rewrite dict_set_keys. naive_solver.
Qed.

Lemma dict_set_id kvs k v : dict_get kvs k = Some v → dict_set kvs k v = kvs.
Proof.
  induction kvs as [|[k' v'] kvs IH]; simpl; [done|].
  case_decide; [by intros [= ->]; subst|]. intros Hv. by rewrite IH.
Qed.

Lemma dict_get_Some kvs k v : dict_get kvs k = Some v → (k, v) ∈ kvs.
Proof.
  induction kvs as [|[k' v'] kvs IH]; simpl; [done|]. rewrite elem_of_cons.
  case_decide; [intros [= ->]; subst|]; auto.
Qed.

Lemma dict_get_NoDup kvs k v : NoDup kvs.*1 → (k, v) ∈ kvs → dict_get kvs k = Some v.
Proof.
  induction kvs as [|[k' v'] kvs IH]; csimpl; [intros _ []%elem_of_nil|].
  rewrite NoDup_cons, elem_of_cons. intros [Hk Hnd] [[= -> ->]|Hin]; [by rewrite decide_True|].
  rewrite decide_False; [by apply IH|]. intros ->. apply Hk.
  apply list_elem_of_fmap. by exists (k', v).
Qed.

Lemma dict_set_elem kvs k v x : x ∈ dict_set kvs k v → x = (k, v) ∨ x ∈ kvs.
Proof.
  induction kvs as [|[k' v'] kvs IH]; simpl; [by rewrite list_elem_of_singleton; auto|].
  case_decide; rewrite !elem_of_cons; naive_solver.
Qed.

(** Replacing an entry by one with the same image keeps the images. *)
Lemma omap_dict_set {B} (f : K * V → option B) kvs k v v' :
  dict_get kvs k = Some v → f (k, v') = f (k, v) → omap f (dict_set kvs k v') = omap f kvs.
Proof.
  induction kvs as [|[k1 v1] kvs IH]; simpl; [done|].
  case_decide; [subst; intros [= ->] Hf; csimpl; by rewrite Hf|].
  intros Hg Hf. csimpl. by rewrite IH.
Qed.

Lemma dict_set_fresh kvs k v : k ∉ kvs.*1 → dict_set kvs k v = kvs ++ [(k, v)].
Proof.
  induction kvs as [|[k' v'] kvs IH]; csimpl; [done|]. rewrite elem_of_cons. intros Hk.
  rewrite decide_False by tauto. f_equal. tauto.
Qed.

Lemma dict_set_set kvs k v1 v2 :
  dict_set (dict_set kvs k v1) k v2 = dict_set kvs k v2.
Proof.
  induction kvs as [|[k' v'] kvs IH]; simpl;
    repeat (case_decide; simplify_eq/=); congruence.
Qed.
End Dict.

(** ** Lists *)

(** [len(set(l)) == len(l)]. *)
Definition all_unique {A} `{EqDecision A} (l : list A) : bool :=
  bool_decide (NoDup l).

Lemma all_unique_NoDup {A} `{EqDecision A} (l : list A) :
  all_unique l = true ↔ NoDup l.
Proof. unfold all_unique. by rewrite bool_decide_eq_true. Qed.

Lemma forallb_Forall {A} (f : A → bool) (l : list A) :
  forallb f l = true ↔ Forall (λ x, f x = true) l.
Proof. rewrite List.forallb_forall, List.Forall_forall. done. Qed.

(** Element by element identities lift to a list and to the values of a
    dictionary. *)
Lemma fmap_id_on {A} (f : A → A) (l : list A) :
  Forall (λ x, f x = x) l → f <$> l = l.
Proof. induction 1; csimpl; congruence. Qed.

Lemma fmap_kv_id_on {K V} (f : V → V) (kvs : list (K * V)) :
  Forall (λ kv, f kv.2 = kv.2) kvs → (λ kv, (kv.1, f kv.2)) <$> kvs = kvs.
Proof. induction 1 as [|[] ? Hx]; csimpl in *; congruence. Qed.

(** Combine an induction hypothesis [Forall (λ x, P x → Q x) l] with
    [Forall P l]. *)
Lemma Forall_mp {A} (P Q : A → Prop) (l : list A) :
  Forall (λ x, P x → Q x) l → Forall P l → Forall Q l.
Proof. rewrite !Forall_forall. naive_solver. Qed.

(** ** Stateful computations that may raise

    A raised exception keeps the state reached so far: what was written to a
    durable store before it stays written. *)
Definition stm (S A : Type) : Type := S → result A * S.

#[export] Instance stm_ret S : MRet (stm S) := λ A a s, (Ok a, s).
#[export] Instance stm_bind S : MBind (stm S) := λ A B f m s,
  match m s with
  | (Ok a, s') => f a s'
  | (Err e, s') => (Err e, s')
  end.
#[export] Instance stm_fmap S : FMap (stm S) := λ A B f m s,
  match m s with
  | (Ok a, s') => (Ok (f a), s')
  | (Err e, s') => (Err e, s')
  end.

Definition lift {S A} (r : result A) : stm S A := λ s, (r, s).
Definition gets {S A} (f : S → A) : stm S A := λ s, (Ok (f s), s).
Definition modify {S} (f : S → S) : stm S unit := λ s, (Ok tt, f s).

(** [try: m except exc: h(exc)], where [h] answers [None] for the exceptions
    it does not catch. *)
Definition try_except {S A} (m : stm S A) (h : exn → option (stm S A)) : stm S A := λ s,
  match m s with
  | (Ok a, s') => (Ok a, s')
  | (Err e, s') => match h e with Some m' => m' s' | None => (Err e, s') end
  end.

Lemma stm_bind_Ok {S A B} (m : stm S A) (f : A → stm S B) s b s' :
  (m ≫= f) s = (Ok b, s') ↔ ∃ a s1, m s = (Ok a, s1) ∧ f a s1 = (Ok b, s').
Proof.
  unfold mbind, stm_bind. destruct (m s) as [[a|e] s1] eqn:E; naive_solver.
Qed.

Lemma stm_run {S A B} (m : stm S A) (f : A → stm S B) s :
  (m ≫= f) s = match m s with (Ok a, s') => f a s' | (Err e, s') => (Err e, s') end.
Proof. done. Qed.

(** ** Python equality and order

    [==] compares numbers by value across [bool], [int] and [float], lists and
    tuples element by element and dictionaries regardless of order. *)

(** The exact comparison [n == f] of an integer with a finite float. *)
Definition int_eq_float (n : Z) (f : spec_float) : bool :=
  match f with
  | S754_zero _ => (n =? 0)%Z
  | S754_finite s m e =>
      let m := if s then Z.neg m else Z.pos m in
      if (0 <=? e)%Z then (n =? m * 2 ^ e)%Z else (n * 2 ^ (- e) =? m)%Z
  | _ => false
  end.

(** The number a [bool] or an [int] stands for. *)
Definition int_of (v : pyval) : option Z :=
  match v with
  | PBool b => Some (if b then 1 else 0)%Z
  | PInt n => Some n
  | _ => None
  end.

Definition scalar_eq (a b : pyval) : bool :=
  match int_of a, int_of b, a, b with
  | Some n, Some m, _, _ => (n =? m)%Z
  | Some n, None, _, PFloat f => int_eq_float n f
  | None, Some n, PFloat f, _ => int_eq_float n f
  | None, None, PFloat f, PFloat g => SFeqb f g
  | None, None, PStr s, PStr t => bool_decide (s = t)
  | None, None, PNone, PNone => true
  | _, _, _, _ => false
  end.

Fixpoint py_eq (a b : pyval) {struct a} : bool :=
  let go := fix go (l1 l2 : list pyval) {struct l1} : bool :=
    match l1, l2 with
    | [], [] => true
    | x :: l1, y :: l2 => py_eq x y && go l1 l2
    | _, _ => false
    end in
  match a, b with
  | PList l1, PList l2 | PTuple l1, PTuple l2 => go l1 l2
  | PDict k1, PDict k2 =>
      (length k1 =? length k2)%nat &&
      forallb (λ kv, match dict_get k2 kv.1 with
                     | Some v => py_eq kv.2 v | None => false end) k1
  | _, _ => scalar_eq a b
  end.

(** [value in allowed]. *)
Definition py_in (v : pyval) (l : list pyval) : bool := existsb (py_eq v) l.

(** [s <= t] on strings: lexicographic on code points. *)
Fixpoint str_leb (s t : pystr) : bool :=
  match s, t with
  | [], _ => true
  | _ :: _, [] => false
  | c :: s, d :: t => (c <? d)%Z || (c =? d)%Z && str_leb s t
  end.

Lemma str_leb_total s t : str_leb s t = true ∨ str_leb t s = true.
Proof.
  revert t. induction s as [|c s IH]; intros [|d t]; simpl; auto.
  destruct (Z.lt_trichotomy c d) as [?|[->|?]].
  - left. by rewrite (proj2 (Z.ltb_lt c d)).
  - rewrite Z.ltb_irrefl, Z.eqb_refl. apply IH.
  - right. by rewrite (proj2 (Z.ltb_lt d c)).
Qed.

Lemma str_leb_trans s t u : str_leb s t = true → str_leb t u = true → str_leb s u = true.
Proof.
  revert t u. induction s as [|c s IH]; intros [|d t] [|e u]; simpl; try done.
  rewrite !orb_true_iff, !andb_true_iff, !Z.ltb_lt, !Z.eqb_eq.
  intros [?|[-> ?]] [?|[-> ?]]; [left; lia|left; lia|left; lia|].
  right. split; [done|]. by eapply IH.
Qed.

Lemma str_leb_antisym s t : str_leb s t = true → str_leb t s = true → s = t.
Proof.
  revert t. induction s as [|c s IH]; intros [|d t]; simpl; try done.
  rewrite !orb_true_iff, !andb_true_iff, !Z.ltb_lt, !Z.eqb_eq.
  intros [?|[-> ?]] [?|[? ?]]; try lia. f_equal. auto.
Qed.

(** ** Stable sorting

    Python's [sorted] is stable, which fixes its result; insertion from the
    right is the stable sort modelled here. *)
Section Sorting.
Context {A : Type} (leb : A → A → bool).

Fixpoint sort_insert (x : A) (l : list A) : list A :=
  match l with
  | [] => [x]
  | y :: l => if leb x y then x :: y :: l else y :: sort_insert x l
  end.

Definition py_sorted (l : list A) : list A := foldr sort_insert [] l.

Lemma sort_insert_perm x l : sort_insert x l ≡ₚ x :: l.
Proof.
  induction l as [|y l IH]; simpl; [done|]. case_match; [done|].
  rewrite IH. apply Permutation_swap.
Qed.

Lemma py_sorted_perm l : py_sorted l ≡ₚ l.
Proof.
  induction l as [|x l IH]; simpl; [done|]. by rewrite sort_insert_perm, IH.
Qed.

(** The order need only be one on the elements sorted, those of [P]. *)
Variable P : A → Prop.
Hypothesis leb_total : ∀ x y, P x → P y → leb x y = true ∨ leb y x = true.
Hypothesis leb_trans : ∀ x y z, P x → P y → P z →
  leb x y = true → leb y z = true → leb x z = true.

Lemma sort_insert_sorted x l :
  P x → Forall P l → StronglySorted (λ x y, leb x y = true) l →
  StronglySorted (λ x y, leb x y = true) (sort_insert x l).
Proof.
  intros Hx Hl. induction 1 as [|y l Hs IH Hy]; simpl; [by repeat constructor|].
  inversion_clear Hl as [|? ? HPy HPl]. destruct (leb x y) eqn:E.
  - constructor; [by constructor|]. constructor; [done|].
    apply Forall_forall. intros z Hz. rewrite !Forall_forall in *. eauto.
  - constructor; [by apply IH|]. rewrite sort_insert_perm. constructor; [|done].
    destruct (leb_total x y); congruence.
Qed.

Lemma py_sorted_sorted l : Forall P l → StronglySorted (λ x y, leb x y = true) (py_sorted l).
Proof.
  induction 1 as [|x l Hx Hl IH]; simpl; [constructor|]. apply sort_insert_sorted; [done| |done].
  by rewrite py_sorted_perm.
Qed.

(** The sort is stable: the elements tied with [r] keep their order. *)
Lemma sort_insert_ties r x l :
  P r → P x → Forall P l →
  filter (λ y, leb r y && leb y r = true) (sort_insert x l) =
  filter (λ y, leb r y && leb y r = true) (x :: l).
Proof.
  intros Hr Hx. induction 1 as [|y l Hy Hl IH]; simpl; [done|].
  destruct (leb x y) eqn:Hxy; [done|]. rewrite filter_cons, IH, !filter_cons.
  destruct (decide (leb r x && leb x r = true)) as [Hxr|Hxr].
  - assert (¬ leb r y && leb y r = true) as Hyr.
    { intros Hyr. apply andb_true_iff in Hxr as [_ ?], Hyr as [? _].
      assert (leb x y = true) by (by apply (leb_trans x r y)). congruence. }
    by repeat case_decide.
  - simpl. by case_decide.
Qed.

Lemma py_sorted_ties r l :
  P r → Forall P l →
  filter (λ y, leb r y && leb y r = true) (py_sorted l) = filter (λ y, leb r y && leb y r = true) l.
Proof.
  intros Hr. induction 1 as [|x l Hx Hl IH]; simpl; [done|].
  rewrite sort_insert_ties; [|done|done|by rewrite py_sorted_perm].
  by rewrite !filter_cons, IH.
Qed.
End Sorting.

Lemma length_py_sorted {A} (leb : A → A → bool) l : length (py_sorted leb l) = length l.
Proof. apply Permutation_length, py_sorted_perm. Qed.

(** ** Loops that may raise *)

Lemma mapM_Ok_Forall2 {A B} (f : A → result B) l k :
  mapM f l = Ok k ↔ Forall2 (λ x y, f x = Ok y) l k.
Proof.
  split.
  - revert k. induction l as [|x l IH]; intros k H; simpl in H; inv_result; [constructor|].
    constructor; auto.
  - induction 1 as [|x y l k Hx Hl IH]; simpl; [done|]. rewrite Hx. simpl. by rewrite IH.
Qed.

Lemma mapM_Ok_map {A B} (f : A → result B) (g : A → B) (l : list A) :
  (∀ x, x ∈ l → f x = Ok (g x)) → mapM f l = Ok (g <$> l).
Proof.
  intros Hf. apply mapM_Ok_Forall2, Forall2_fmap_r, Forall_Forall2_diag, Forall_forall. done.
Qed.

(** [inv_bool] turns boolean hypotheses into the propositions they decide;
    [inv_ok] does it for every guard of a computation that returned. *)
Ltac inv_bool :=
  repeat match goal with
  | H : true = true |- _ => clear H
  | H : ?b = true |- _ => is_var b; subst b
  | H : bool_decide _ = true |- _ => apply bool_decide_eq_true in H
  | H : bool_decide _ = false |- _ => apply bool_decide_eq_false in H
  | H : negb _ = true |- _ => apply negb_true_iff in H
  | H : negb _ = false |- _ => apply negb_false_iff in H
  | H : _ && _ = true |- _ => apply andb_true_iff in H as [? H]
  | H : all_unique _ = true |- _ => apply all_unique_NoDup in H
  | H : (_ <? _)%Z = true |- _ => apply Z.ltb_lt in H
  | H : (_ <? _)%Z = false |- _ => apply Z.ltb_ge in H
  | H : (_ <=? _)%Z = true |- _ => apply Z.leb_le in H
  | H : (_ =? _)%Z = true |- _ => apply Z.eqb_eq in H
  | H : (_ <? _)%nat = true |- _ => apply Nat.ltb_lt in H
  | H : (_ <=? _)%nat = true |- _ => apply Nat.leb_le in H
  | H : (_ =? _)%nat = true |- _ => apply Nat.eqb_eq in H
  end.

Ltac inv_ok := repeat progress (inv_result; inv_bool).

(** Guards whose condition is known to hold, in the goal. *)
Lemma require_bool_decide (P : Prop) `{Decision P} c msg :
  P → require (bool_decide P) c msg = Ok tt.
Proof. intros HP. by rewrite bool_decide_true. Qed.

Lemma require_not (P : Prop) `{Decision P} c msg :
  ¬ P → require (negb (bool_decide P)) c msg = Ok tt.
Proof. intros HP. by rewrite bool_decide_false. Qed.

Lemma require_unique {A} `{EqDecision A} (l : list A) c msg :
  NoDup l → require (all_unique l) c msg = Ok tt.
Proof. intros Hl. by rewrite (proj2 (all_unique_NoDup l)). Qed.

Lemma bind_Ok_l {A B} (a : A) (f : A → result B) : (Ok a ≫= f) = f a.
Proof. done. Qed.

#[export] Hint Rewrite @bind_Ok_l : pyrw.

(** [hide f] names every application of [f] in the goal, so that [injection]
    stops at it. *)
Ltac hide f := repeat match goal with |- context [f ?x] => remember (f x) eqn:? end.
