(* ===== verification/Floats.v ===== *)
(** * Floats: Python's binary64 arithmetic

    A Python [float] is a binary64 number ([SpecFloat.spec_float] at precision
    53 and exponent bound 1024).  This file fixes the operations the code uses,
    the order they are compared by, and [sum] over floats as CPython computes
    it. *)

From S2P Require Import Prelude.
From Stdlib Require Import SpecFloat.

Abbreviation float := spec_float.

Definition fadd (x y : float) : float := SFadd 53 1024 x y.
Definition fsub (x y : float) : float := SFsub 53 1024 x y.
Definition fmul (x y : float) : float := SFmul 53 1024 x y.
Definition fdiv (x y : float) : float := SFdiv 53 1024 x y.
Definition fopp (x : float) : float := SFopp x.
Definition fabs (x : float) : float := SFabs x.
Definition flt (x y : float) : bool := SFltb x y.
Definition fle (x y : float) : bool := SFleb x y.
Definition feq (x y : float) : bool := SFeqb x y.
Definition fzero : float := S754_zero false.
Definition fone : float := binary_normalize 53 1024 1 0 false.

(** The float nearest to an integer below the overflow threshold. *)
Definition float_of_Z (n : Z) : float := binary_normalize 53 1024 n 0 false.

Definition fisfinite (f : float) : bool :=
  match f with S754_infinity _ | S754_nan => false | _ => true end.

(** ** [sum] over floats

    CPython adds the items with the Neumaier correction: the running sum, the
    running compensation, and the compensation added at the end when it is
    neither zero nor infinite. *)
Definition neumaier_step (acc : float * float) (x : float) : float * float :=
  let '(s, c) := acc in
  let t := fadd s x in
  let c := if fle (fabs x) (fabs s)
           then fadd c (fadd (fsub s t) x)
           else fadd c (fadd (fsub x t) s) in
  (t, c).

(** [sum(xs)] of a non-empty sequence of floats: the integer start value is
    added to the first item, the rest is compensated. *)
Definition float_sum (xs : list float) : float :=
  match xs with
  | [] => fzero
  | x :: xs =>
      let '(s, c) := foldl neumaier_step (fadd fzero x, fzero) xs in
      if negb (feq c fzero) && fisfinite c then fadd s c else s
  end.

(** ** The sign of zero

    [FiniteFloat] turns [-0.0] into [0.0].  Two floats are the same number when
    they agree up to that sign; the arithmetic keeps to it. *)
Definition unsigned_zero (f : float) : float :=
  match f with S754_zero _ => fzero | _ => f end.

Definition same_number (x y : float) : Prop := unsigned_zero x = unsigned_zero y.

#[export] Instance same_number_equiv : Equivalence same_number.
Proof. unfold same_number. split; [by intros x|by intros x y|intros x y z]. congruence. Qed.

Lemma unsigned_zero_same x : same_number (unsigned_zero x) x.
Proof. by destruct x. Qed.

Lemma same_number_cases x y :
  same_number x y → x = y ∨ ∃ s s', x = S754_zero s ∧ y = S754_zero s'.
Proof. unfold same_number. destruct x, y; simpl; naive_solver. Qed.

#[export] Instance fopp_proper : Proper (same_number ==> same_number) fopp.
Proof. intros x y [->|(s & s' & -> & ->)]%same_number_cases; done. Qed.

#[export] Instance fmul_proper : Proper (same_number ==> same_number ==> same_number) fmul.
Proof.
  intros x x' [->|(? & ? & -> & ->)]%same_number_cases y y' [->|(? & ? & -> & ->)]%same_number_cases;
    [done|by destruct x'|by destruct y'|done].
Qed.

#[export] Instance fadd_proper : Proper (same_number ==> same_number ==> same_number) fadd.
Proof.
  intros x x' [->|(s1 & s2 & -> & ->)]%same_number_cases y y' [->|(s3 & s4 & -> & ->)]%same_number_cases;
    [done|by destruct x' as [[]| | |], s3, s4|by destruct y' as [[]| | |], s1, s2
    |by destruct s1, s2, s3, s4].
Qed.

#[export] Instance fisfinite_proper : Proper (same_number ==> (=)) fisfinite.
Proof. intros x y [->|(s & s' & -> & ->)]%same_number_cases; done. Qed.

(** ** The order

    Every number has a key: its class (negative infinity to positive
    infinity), then its signed exponent, then its signed mantissa; the numeric
    comparison is the lexicographic comparison of the keys, and only NaN has
    none. *)

Local Open Scope Z_scope.

Definition fkey (f : float) : option (Z * Z * Z) :=
  match f with
  | S754_nan => None
  | S754_infinity s => Some (if s then -2 else 2, 0, 0)
  | S754_zero _ => Some (0, 0, 0)
  | S754_finite s m e => Some (if s then (-1, -e, Z.neg m) else (1, e, Z.pos m))
  end.

Definition lex_compare (a b : Z * Z * Z) : comparison :=
  match a.1.1 ?= b.1.1 with
  | Eq => match a.1.2 ?= b.1.2 with
          | Eq => a.2 ?= b.2
          | c => c
          end
  | c => c
  end.

Lemma SFcompare_key f g :
  SFcompare f g = match fkey f, fkey g with
                  | Some a, Some b => Some (lex_compare a b)
                  | _, _ => None
                  end.
Proof.
  destruct f as [sf|sf| |sf mf ef], g as [sg|sg| |sg mg eg];
    try destruct sf; try destruct sg; try done; unfold lex_compare; simpl.
  rewrite (Z.compare_opp ef eg), (Z.compare_antisym ef eg).
  by destruct (ef ?= eg).
Qed.

Lemma lex_compare_Eq a b : lex_compare a b = Eq ↔ a = b.
Proof.
  destruct a as [[a1 a2] a3], b as [[b1 b2] b3]. unfold lex_compare. simpl. split.
  - destruct (Z.compare_spec a1 b1), (Z.compare_spec a2 b2), (Z.compare_spec a3 b3); naive_solver.
  - intros [= -> -> ->]. by rewrite !Z.compare_refl.
Qed.

Lemma lex_compare_antisym a b : lex_compare b a = CompOpp (lex_compare a b).
Proof.
  unfold lex_compare. rewrite (Z.compare_antisym a.1.1), (Z.compare_antisym a.1.2),
    (Z.compare_antisym a.2).
  by destruct (a.1.1 ?= b.1.1), (a.1.2 ?= b.1.2).
Qed.

Lemma lex_compare_Lt_trans a b c :
  lex_compare a b = Lt → lex_compare b c = Lt → lex_compare a c = Lt.
Proof.
  destruct a as [[a1 a2] a3], b as [[b1 b2] b3], c as [[c1 c2] c3].
  unfold lex_compare; simpl.
  destruct (Z.compare_spec a1 b1), (Z.compare_spec b1 c1), (Z.compare_spec a1 c1); try (done || lia);
  destruct (Z.compare_spec a2 b2), (Z.compare_spec b2 c2), (Z.compare_spec a2 c2); try (done || lia);
  rewrite !Z.compare_lt_iff; lia.
Qed.

Definition fnumber (f : float) : Prop := f ≠ S754_nan.

Lemma fnumber_key f : fnumber f ↔ ∃ k, fkey f = Some k.
Proof. destruct f; unfold fnumber; simpl; naive_solver. Qed.

Lemma fisfinite_number f : fisfinite f = true → fnumber f.
Proof. by destruct f. Qed.

(** The comparisons through the keys. *)
Lemma flt_key f g :
  flt f g = true ↔ ∃ a b, fkey f = Some a ∧ fkey g = Some b ∧ lex_compare a b = Lt.
Proof.
  unfold flt, SFltb. rewrite SFcompare_key.
  destruct (fkey f) as [a|], (fkey g) as [b|]; try by (split; [done|intros (?&?&?&?&?)]).
  destruct (lex_compare a b) eqn:E;
    (split; [by eauto 10|intros (?&?&[= ->]&[= ->]&?); congruence]).
Qed.

Lemma feq_key f g : feq f g = true ↔ ∃ a, fkey f = Some a ∧ fkey g = Some a.
Proof.
  unfold feq, SFeqb. rewrite SFcompare_key.
  destruct (fkey f) as [a|], (fkey g) as [b|]; try by (split; [done|intros (?&?&?)]).
  destruct (lex_compare a b) eqn:E.
  - apply lex_compare_Eq in E as ->. split; [by eauto|done].
  - split; [done|]. intros (?&[= ->]&[= ->]). by rewrite (proj2 (lex_compare_Eq _ _) eq_refl) in E.
  - split; [done|]. intros (?&[= ->]&[= ->]). by rewrite (proj2 (lex_compare_Eq _ _) eq_refl) in E.
Qed.

Lemma flt_irrefl f : flt f f = false.
Proof.
  apply not_true_is_false. intros (a & b & Ha & Hb & Hlt)%flt_key. simplify_eq.
  by rewrite (proj2 (lex_compare_Eq _ _) eq_refl) in Hlt.
Qed.

Lemma flt_trans f g h : flt f g = true → flt g h = true → flt f h = true.
Proof.
  intros (a & b & Ha & Hb & Hab)%flt_key (b' & c & Hb' & Hc & Hbc)%flt_key. simplify_eq.
  apply flt_key. eauto 10 using lex_compare_Lt_trans.
Qed.

Lemma flt_asym f g : flt f g = true → flt g f = false.
Proof.
  intros H1. apply not_true_is_false. intros H2.
  pose proof (flt_trans _ _ _ H1 H2) as H. by rewrite flt_irrefl in H.
Qed.

Lemma feq_refl f : fnumber f → feq f f = true.
Proof. intros [k Hk]%fnumber_key. apply feq_key. eauto. Qed.

(** [==] does not see the sign of zero. *)
Lemma feq_same f g : fnumber f → same_number f g → feq f g = true.
Proof. intros Hf [->|(s & s' & -> & ->)]%same_number_cases; [by apply feq_refl|done]. Qed.

Lemma feq_sym f g : feq f g = true → feq g f = true.
Proof. rewrite !feq_key. naive_solver. Qed.

(** Numbers are totally ordered up to [feq]. *)
Lemma flt_total f g :
  fnumber f → fnumber g → flt f g = true ∨ feq f g = true ∨ flt g f = true.
Proof.
  intros [a Ha]%fnumber_key [b Hb]%fnumber_key.
  destruct (lex_compare a b) eqn:E.
  - right; left. apply lex_compare_Eq in E as ->. apply feq_key. eauto.
  - left. apply flt_key. eauto 10.
  - right; right. apply flt_key. exists b, a. split_and!; [done..|].
    by rewrite lex_compare_antisym, E.
Qed.

Lemma flt_feq_l f g h : feq f g = true → flt f h = flt g h.
Proof.
  intros (a & Hf & Hg)%feq_key. apply eq_true_iff_eq. rewrite !flt_key. naive_solver.
Qed.

Lemma flt_feq_r f g h : feq f g = true → flt h f = flt h g.
Proof.
  intros (a & Hf & Hg)%feq_key. apply eq_true_iff_eq. rewrite !flt_key. naive_solver.
Qed.

(** [x <= y] is [not (y < x)] on numbers. *)
Lemma fle_flt f g : fnumber f → fnumber g → fle f g = negb (flt g f).
Proof.
  intros [a Ha]%fnumber_key [b Hb]%fnumber_key. unfold fle, SFleb, flt, SFltb.
  rewrite !SFcompare_key, Ha, Hb, (lex_compare_antisym a b). by destruct (lex_compare a b).
Qed.

Lemma not_flt_trans f g h :
  fnumber f → fnumber g → flt f g = false → flt g h = false → flt f h = false.
Proof.
  intros Hf Hg Hfg Hgh. destruct (flt_total f g Hf Hg) as [?|[He|Hlt]]; [congruence|..].
  - by rewrite (flt_feq_l _ _ _ He).
  - apply not_true_is_false. intros Hfh. by rewrite (flt_trans _ _ _ Hlt Hfh) in Hgh.
Qed.

Lemma flt_not_flt_trans f g h :
  fnumber g → fnumber h → flt g f = true → flt g h = false → flt h f = true.
Proof.
  intros Hg Hh Hgf Hgh. destruct (flt_total g h Hg Hh) as [?|[He|Hlt]]; [congruence|..].
  - by rewrite <-(flt_feq_l _ _ _ He).
  - by eapply flt_trans.
Qed.

Lemma not_flt_flt_trans f g h :
  fnumber f → fnumber g → flt f g = false → flt h g = true → flt h f = true.
Proof.
  intros Hf Hg Hfg Hhg. destruct (flt_total f g Hf Hg) as [?|[He|Hlt]]; [congruence|..].
  - by rewrite (flt_feq_r _ _ _ He).
  - by eapply flt_trans.
Qed.

Lemma flt_fle f g : flt f g = true → fle f g = true.
Proof. unfold flt, fle, SFltb, SFleb. destruct (SFcompare f g) as [[]|]; done. Qed.

Lemma fle_trans f g h : fle f g = true → fle g h = true → fle f h = true.
Proof.
  unfold fle, SFleb. rewrite !SFcompare_key.
  destruct (fkey f) as [a|], (fkey g) as [b|], (fkey h) as [c|]; try done.
  destruct (lex_compare a b) eqn:E1; try done; destruct (lex_compare b c) eqn:E2; try done.
  - apply lex_compare_Eq in E1 as ->. by rewrite E2.
  - apply lex_compare_Eq in E1 as ->. by rewrite E2.
  - apply lex_compare_Eq in E2 as ->. by rewrite E1.
  - by rewrite (lex_compare_Lt_trans _ _ _ E1 E2).
Qed.

Lemma fle_refl f : fnumber f → fle f f = true.
Proof. intros Hf. by rewrite fle_flt, flt_irrefl. Qed.

Lemma feq_fle f g : feq f g = true → fle f g = true.
Proof. unfold feq, fle, SFeqb, SFleb. destruct (SFcompare f g) as [[]|]; done. Qed.

Lemma fnumber_lt_false f g : fnumber f → fnumber g → flt f g = false → fle g f = true.
Proof. intros Hf Hg H. by rewrite fle_flt, H. Qed.
