(* ===== verification/Identity.v ===== *)
(** * Identity: strict values, frozen JSON and content references

    Models [src/whetstone/core/identity.py]: the validated string and number
    types, the deeply immutable JSON object, the identity hash of a payload and
    the typed reference of a stored record.  Canonical JSON, the identity
    document and the digest belong to the libraries dr-serialize and dr-store;
    they are the operations of the classes [DrSerialize] and [DrStore]. *)

From S2P Require Import Prelude Floats.
From Stdlib Require Import SpecFloat.

(** ** The external libraries *)

(** dr-serialize: strict JSON validation, canonical text, identity documents. *)
Class DrSerialize := {
  validate_strict_json : pyval → result pyval;
  canonical_json : pyval → result pystr;
  build_identity_document : pystr → Z → pyval → result pyval;
  identity_document_hash : pyval → result pystr;
}.

(** dr-store's [ObjectReference]: the pair (schema, content hash). *)
Record ObjectReference := {
  or_schema : pystr;
  or_content_hash : pystr;
}.

(** [ObjectReference.for_record(schema, record)] addresses the record's
    content. *)
Class DrStore := {
  for_record : pystr → pyval → result ObjectReference;
}.

(** ** Validated strings and numbers *)

Section Validated.
Local Open Scope Z_scope.

Definition is_hex (c : Z) : bool :=
  (48 <=? c) && (c <=? 57) || (97 <=? c) && (c <=? 102).

Definition require_full_hash (value : pyval) : result pystr :=
  match value with
  | PStr s =>
      if negb (length s =? 64)%nat || existsb (λ c, negb (is_hex c)) s
      then raise ValueError "must be a full 64-char lowercase SHA-256 hash"
      else Ok s
  | _ => raise TypeError "must be a string"
  end.

(** [_ValidatedString.__new__] with the class's [_validate]. *)
Definition ValidatedString_new (validate : pystr → result unit) (value : pyval) : result pystr :=
  match value with
  | PStr s => validate s ;; Ok s
  | _ => raise TypeError "must be a string"
  end.

Definition hash_validate (s : pystr) : result unit :=
  require_full_hash (PStr s) ;; Ok tt.
Definition IdentityHash (value : pyval) : result pystr :=
  ValidatedString_new hash_validate value.
Definition ContentHash (value : pyval) : result pystr :=
  ValidatedString_new hash_validate value.

Definition nonempty_validate (s : pystr) : result unit :=
  require (negb (bool_decide (s = []))) ValueError "must be non-empty".
Definition NonEmptyId (value : pyval) : result pystr :=
  ValidatedString_new nonempty_validate value.
Definition OpaqueKey (value : pyval) : result pystr :=
  ValidatedString_new nonempty_validate value.

(** [type(value) is int]: a [bool] is refused. *)
Definition NonNegativeInt (value : pyval) : result Z :=
  match value with
  | PInt n => require (negb (n <? 0)) ValueError "nonnegative integer cannot be negative" ;; Ok n
  | _ => raise TypeError "nonnegative integer must be a strict integer"
  end.

(** [float(n)] rounds to nearest, ties to even, and overflows past the
    largest finite binary64 number. *)
Definition float_of_int (n : Z) : result spec_float :=
  match float_of_Z n with
  | S754_infinity _ => raise OverflowError "int too large to convert to float"
  | f => Ok f
  end.

Definition FiniteFloat (value : pyval) : result spec_float :=
  converted ← match value with
              | PInt n => float_of_int n
              | PFloat f => Ok f
              | _ => raise TypeError "finite float must be a number, not a boolean"
              end;
  require (fisfinite converted) ValueError "finite float must be finite" ;;
  Ok (unsigned_zero converted).
End Validated.

Arguments require_full_hash : simpl never.
Arguments IdentityHash : simpl never.
Arguments ContentHash : simpl never.
Arguments NonEmptyId : simpl never.
Arguments OpaqueKey : simpl never.
Arguments NonNegativeInt : simpl never.
Arguments FiniteFloat : simpl never.

(** ** Frozen JSON *)

Fixpoint freeze_validated_json (value : pyval) : pyval :=
  match value with
  | PDict kvs => PFrozen ((λ kv, (kv.1, freeze_validated_json kv.2)) <$> kvs)
  | PList l => PTuple (freeze_validated_json <$> l)
  | _ => value
  end.

(** [ImmutableJsonObject._from_validated]. *)
Definition from_validated (kvs : list (pystr * pyval)) : pyval :=
  PFrozen ((λ kv, (kv.1, freeze_validated_json kv.2)) <$> kvs).

Fixpoint json_value (value : pyval) : pyval :=
  match value with
  | PFrozen kvs => PDict ((λ kv, (kv.1, json_value kv.2)) <$> kvs)
  | PTuple l => PList (json_value <$> l)
  | _ => value
  end.

(** A strict JSON value: scalars, lists and dictionaries with distinct keys. *)
Fixpoint is_json (v : pyval) : bool :=
  match v with
  | PNone | PBool _ | PInt _ | PStr _ => true
  | PFloat f => fisfinite f
  | PList l => forallb is_json l
  | PDict kvs => all_unique kvs.*1 && forallb (λ kv, is_json kv.2) kvs
  | PTuple _ | PFrozen _ => false
  end.

(** No mutable container anywhere inside the value. *)
Fixpoint deeply_immutable (v : pyval) : bool :=
  match v with
  | PList _ | PDict _ => false
  | PTuple l => forallb deeply_immutable l
  | PFrozen kvs => forallb (λ kv, deeply_immutable kv.2) kvs
  | _ => true
  end.

Section ImmutableJsonObject.
Context `{DSer : !DrSerialize}.

(** [ImmutableJsonObject.__init__]. *)
Definition ImmutableJsonObject (value : pyval) : result pyval :=
  match validate_strict_json value with
  | Ok (PDict kvs) => Ok (from_validated kvs)
  | Ok _ => raise TypeError "immutable JSON object requires a JSON object"
  | Err e =>
      if exn_isa (exn_cls e) StrictJsonError
      then raise ValueError "value must be strict finite JSON with string object keys"
      else Err e
  end.

Definition frozen_getitem (obj : list (pystr * pyval)) (key : pystr) : result pyval :=
  of_option (dict_get obj key) KeyError "".
Definition frozen_iter (obj : list (pystr * pyval)) : list pystr := obj.*1.
Definition frozen_len (obj : list (pystr * pyval)) : nat := length obj.

(** [ImmutableJsonObject.__setattr__]. *)
Definition frozen_setattr (obj : list (pystr * pyval)) (name : pystr) (value : pyval) :
  result unit := raise AttributeError "immutable JSON objects cannot be modified".

Definition to_json (obj : list (pystr * pyval)) : pyval := json_value (PFrozen obj).

(** [normalized] unwraps a frozen object, and tuples down to the first list
    or dictionary. *)
Fixpoint normalized (value : pyval) : pyval :=
  match value with
  | PFrozen kvs => to_json kvs
  | PTuple l => PList (normalized <$> l)
  | _ => value
  end.

Definition canonical_json_equal (left right : pyval) : result bool :=
  left_json ← validate_strict_json (normalized left);
  right_json ← validate_strict_json (normalized right);
  l ← canonical_json left_json;
  r ← canonical_json right_json;
  Ok (bool_decide (l = r)).

(** [ImmutableJsonObject.__eq__]. *)
Definition frozen_eq (self : list (pystr * pyval)) (other : pyval) : result bool :=
  match other with
  | PDict _ | PFrozen _ =>
      match canonical_json_equal (PFrozen self) other with
      | Ok b => Ok b
      | Err e =>
          if exn_isa (exn_cls e) StrictJsonError || exn_isa (exn_cls e) TypeError
             || exn_isa (exn_cls e) ValueError
          then Ok false else Err e
      end
  | _ => Ok false
  end.

(** [validate] of the pydantic core schema: an instance is kept. *)
Definition frozen_validate (value : pyval) : result pyval :=
  match value with
  | PFrozen _ => Ok value
  | PDict _ => ImmutableJsonObject value
  | _ => raise TypeError "immutable JSON object requires a JSON object"
  end.

Definition freeze_json_object (value : pyval) : result pyval :=
  match value with
  | PFrozen _ => Ok value
  | _ =>
      match ImmutableJsonObject value with
      | Ok v => Ok v
      | Err e =>
          if exn_isa (exn_cls e) TypeError || exn_isa (exn_cls e) ValueError
          then raise ValueError (exn_msg e) else Err e
      end
  end.

Fixpoint unwrapped (item : pyval) : pyval :=
  match item with
  | PFrozen kvs | PDict kvs => PDict ((λ kv, (kv.1, unwrapped kv.2)) <$> kvs)
  | PList l | PTuple l => PList (unwrapped <$> l)
  | _ => item
  end.

Definition reject_non_json (value : pyval) : result unit :=
  match canonical_json (unwrapped value) with
  | Ok _ => Ok tt
  | Err e =>
      if exn_isa (exn_cls e) TypeError || exn_isa (exn_cls e) ValueError
      then raise ValueError (exn_msg e) else Err e
  end.
End ImmutableJsonObject.

(** ** Identity hashes and references *)

Record TypedRef := {
  tref_schema_name : pystr;
  tref_content_hash : pystr;
}.

Record IdentityRef := {
  iref_record_ref : TypedRef;
  iref_record_hash : pystr;
}.

Record TerminalFailure := {
  tf_code : pystr;
  tf_message : pystr;
  tf_details : list (pystr * pyval);
}.

(** [TerminalFailure.__eq__]: field by field, the details by canonical JSON. *)
Definition TerminalFailure_eq `{!DrSerialize} (self other : TerminalFailure) : result bool :=
  if bool_decide (tf_code self = tf_code other ∧ tf_message self = tf_message other)
  then frozen_eq (tf_details self) (PFrozen (tf_details other)) else Ok false.

(** [==] of two optional values. *)
Definition optional_eq {A} (eq : A → A → result bool) (self other : option A) : result bool :=
  match self, other with
  | Some a, Some b => eq a b
  | None, None => Ok true
  | _, _ => Ok false
  end.

#[export] Instance TypedRef_eq_dec : EqDecision TypedRef.
Proof. solve_decision. Defined.
#[export] Instance ObjectReference_eq_dec : EqDecision ObjectReference.
Proof. solve_decision. Defined.
#[export] Instance IdentityRef_eq_dec : EqDecision IdentityRef.
Proof. solve_decision. Defined.
#[export] Instance TerminalFailure_eq_dec : EqDecision TerminalFailure.
Proof. solve_decision. Defined.

#[export] Instance TypedRef_countable : Countable TypedRef.
Proof.
  refine (inj_countable' (λ r, (tref_schema_name r, tref_content_hash r))
    (λ p, {| tref_schema_name := p.1; tref_content_hash := p.2 |}) _); by intros [].
Defined.

Definition TypedRef_new (schema_name content_hash : pyval) : result TypedRef :=
  s ← NonEmptyId schema_name;
  h ← ContentHash content_hash;
  Ok {| tref_schema_name := s; tref_content_hash := h |}.

(** [TypedRef.reference]. *)
Definition TypedRef_reference (r : TypedRef) : ObjectReference :=
  {| or_schema := tref_schema_name r; or_content_hash := tref_content_hash r |}.

Definition IdentityRef_new (record_ref : TypedRef) (record_hash : pyval) : result IdentityRef :=
  h ← IdentityHash record_hash;
  Ok {| iref_record_ref := record_ref; iref_record_hash := h |}.

Section Hashing.
Context `{DSer : !DrSerialize, DSto : !DrStore}.

Definition compute_identity_hash (schema : pystr) (schema_version : Z) (payload : pyval) :
    result pystr :=
  document ← build_identity_document schema schema_version payload;
  digest ← identity_document_hash document;
  IdentityHash (PStr digest).

Definition compute_prefixed_identity_key (schema : pystr) (schema_version : Z)
    (prefix : pystr) (payload : pyval) : result pystr :=
  digest ← compute_identity_hash schema schema_version payload;
  OpaqueKey (PStr (prefix ++ digest)).

Definition typed_ref_for_record (schema : pystr) (record : pyval) : result TypedRef :=
  reference ← for_record schema record;
  TypedRef_new (PStr (or_schema reference)) (PStr (or_content_hash reference)).

(** The [record] argument of [assert_materialized_ref_matches]: a model with
    its JSON dump and its [identity_hash] attribute as text, or a mapping. *)
Inductive record_arg :=
| RModel (dump : pyval) (identity_hash : option pystr)
| RMapping (content : list (pystr * pyval)).

(** [str(value)] of a JSON value; [repr] renders the values that are not
    strings. *)
Definition str_of (repr : pyval → pystr) (value : pyval) : pystr :=
  match value with PStr s => s | _ => repr value end.

Definition record_arg_content (record : record_arg) : pyval :=
  match record with RModel dump _ => dump | RMapping content => PDict content end.

Definition record_arg_hash (repr : pyval → pystr) (record : record_arg) : option pystr :=
  match record with
  | RModel _ h => h
  | RMapping content =>
      match dict_get content $"identity_hash" with
      | None | Some PNone => None
      | Some v => Some (str_of repr v)
      end
  end.

Definition assert_materialized_ref_matches (repr : pyval → pystr)
    (record : record_arg) (ref : IdentityRef) (schema : pystr) : result unit :=
  materialized_ref ← typed_ref_for_record schema (record_arg_content record);
  require (bool_decide (materialized_ref = iref_record_ref ref)) ValueError
    "resolved record reference does not match IdentityRef" ;;
  let valid_hashes :=
    tref_content_hash materialized_ref ::
    match record_arg_hash repr record with Some h => [h] | None => [] end in
  require (bool_decide (iref_record_hash ref ∈ valid_hashes)) ValueError
    "resolved record hash does not match IdentityRef".

Definition identity_ref_from_config_variable (variable : list (pystr * pyval)) :
    result IdentityRef :=
  let schema_name := default PNone (dict_get variable $"schema_name") in
  let identity_hash := default PNone (dict_get variable $"identity_hash") in
  require (match schema_name with PStr s => nonblank s | _ => false end) ValueError
    "config reference schema_name must be non-empty" ;;
  resolved_hash ← require_full_hash identity_hash;
  content_hash ← ContentHash (PStr resolved_hash);
  record_ref ← TypedRef_new schema_name (PStr content_hash);
  record_hash ← IdentityHash (PStr resolved_hash);
  IdentityRef_new record_ref (PStr record_hash).

(** [store_config_resolver(store, schema, model)]: the store's [get], and the
    model's validation, JSON dump and [identity_hash] attribute, are the
    arguments the closure captures. *)
Definition store_config_resolver {T : Type} (repr : pyval → pystr)
    (store_get : ObjectReference → result pyval) (schema : pystr)
    (model_validate : pyval → result T) (model_arg : T → record_arg)
    (ref : IdentityRef) : result T :=
  require (bool_decide (tref_schema_name (iref_record_ref ref) = schema)) ValueError
    "expected config schema" ;;
  content ← store_get (TypedRef_reference (iref_record_ref ref));
  require (match content with PDict _ => true | _ => false end) ValueError
    "stored config content must be a JSON object" ;;
  instance ← model_validate content;
  assert_materialized_ref_matches repr (model_arg instance) ref schema ;;
  Ok instance.
End Hashing.

(** ** Theorems *)

Section FreezeTheorems.
Implicit Types v : pyval.

Lemma freeze_immutable v :
  is_json v = true → deeply_immutable (freeze_validated_json v) = true.
Proof.
  induction v as [| | | | |l IH| |kvs IH|] using pyval_nested_ind; simpl; try done.
  - rewrite !forallb_Forall, Forall_fmap. by apply Forall_mp.
  - rewrite andb_true_iff, !forallb_Forall, Forall_fmap. intros [_ Hk].
    revert Hk. by apply Forall_mp.
Qed.

Lemma json_value_freeze v :
  is_json v = true → json_value (freeze_validated_json v) = v.
Proof.
  induction v as [| | | | |l IH| |kvs IH|] using pyval_nested_ind; simpl; try done.
  - rewrite forallb_Forall. intros Hl. f_equal. rewrite <-list_fmap_compose.
    apply fmap_id_on. revert Hl. by apply Forall_mp.
  - rewrite andb_true_iff, forallb_Forall. intros [_ Hl]. f_equal.
    rewrite <-list_fmap_compose.
    apply (fmap_kv_id_on (λ v, json_value (freeze_validated_json v))).
    revert Hl. by apply Forall_mp.
Qed.

Lemma freeze_json_value v :
  deeply_immutable v = true → freeze_validated_json (json_value v) = v.
Proof.
  induction v as [| | | | | |l IH| |kvs IH] using pyval_nested_ind; simpl; try done.
  - rewrite forallb_Forall. intros Hl. f_equal. rewrite <-list_fmap_compose.
    apply fmap_id_on. revert Hl. by apply Forall_mp.
  - rewrite forallb_Forall. intros Hl. f_equal.
    rewrite <-list_fmap_compose.
    apply (fmap_kv_id_on (λ v, freeze_validated_json (json_value v))).
    revert Hl. by apply Forall_mp.
Qed.

Lemma from_validated_to_json kvs :
  deeply_immutable (PFrozen kvs) = true →
  (λ kv, (kv.1, freeze_validated_json kv.2)) <$>
    ((λ kv, (kv.1, json_value kv.2)) <$> kvs) = kvs.
Proof.
  intros H. pose proof (freeze_json_value (PFrozen kvs) H) as Hf. simpl in Hf.
  by injection Hf.
Qed.
End FreezeTheorems.

(** dr-serialize's documented contract: validation accepts exactly the strict
    finite JSON values and returns the value it was given. *)
Class DrSerializeLaws `{!DrSerialize} : Prop := {
  validate_json v : is_json v = true → validate_strict_json v = Ok v;
  validate_sound v v' : validate_strict_json v = Ok v' → is_json v' = true;
}.

(** dr-serialize and dr-store serve every strict JSON value, and their hashes
    are SHA-256 digests in hexadecimal. *)
Class DrTotal `{!DrSerialize, !DrStore} : Prop := {
  canonical_json_total v : is_json v = true → ∃ s, canonical_json v = Ok s;
  identity_document_total schema version payload : is_json payload = true →
    ∃ document h, build_identity_document schema version payload = Ok document ∧
      identity_document_hash document = Ok h ∧ require_full_hash (PStr h) = Ok h;
  for_record_total schema v : is_json v = true →
    ∃ r, for_record schema v = Ok r ∧ or_schema r = schema ∧
      require_full_hash (PStr (or_content_hash r)) = Ok (or_content_hash r);
}.

Section Total.
Context `{DrTotal}.

Lemma compute_identity_hash_total schema version payload :
  is_json payload = true → ∃ h, compute_identity_hash schema version payload = Ok h.
Proof.
  intros Hj. destruct (identity_document_total schema version payload Hj) as (d & h & Hd & Hh & Hf).
  exists h. unfold compute_identity_hash. rewrite Hd. simpl. rewrite Hh. simpl.
  unfold IdentityHash, ValidatedString_new, hash_validate. by rewrite Hf.
Qed.

Lemma typed_ref_for_record_total schema v :
  schema ≠ [] → is_json v = true → ∃ r, typed_ref_for_record schema v = Ok r.
Proof.
  intros Hs Hj. destruct (for_record_total schema v Hj) as (r & Hr & Hrs & Hh).
  unfold typed_ref_for_record. rewrite Hr. simpl. unfold TypedRef_new, NonEmptyId, ContentHash.
  unfold ValidatedString_new, hash_validate, nonempty_validate.
  rewrite Hrs, bool_decide_false by done. simpl. rewrite Hh. simpl. by eexists.
Qed.
End Total.

(** A concrete dr-serialize and dr-store, used by the witnesses: validation by
    [is_json], a tagged rendering as canonical text, and a digest that hashes
    every document to the 64-digit rendering of its text length. *)
Module Concrete.
Fixpoint render (v : pyval) : pystr :=
  match v with
  | PNone => $"n"
  | PBool b => if b then $"t" else $"f"
  | PInt n => [105; n]
  | PFloat f => $"d"
  | PStr s => 115 :: s
  | PList l | PTuple l => 91 :: foldr (λ x acc, render x ++ 44 :: acc) [93] l
  | PDict kvs | PFrozen kvs =>
      123 :: foldr (λ kv acc, kv.1 ++ 58 :: render kv.2 ++ 44 :: acc) [125] kvs
  end%Z.

Fixpoint sort_keys (v : pyval) : pyval :=
  match v with
  | PDict kvs => PDict (py_sorted (λ a b, str_leb a.1 b.1) ((λ kv, (kv.1, sort_keys kv.2)) <$> kvs))
  | PList l => PList (sort_keys <$> l)
  | _ => v
  end.

Definition digest (v : pyval) : pystr :=
  let n := Z.of_nat (length (render v)) in
  (λ i, 48 + (n / 10 ^ Z.of_nat i) mod 10)%Z <$> seq 0 64.

#[export] Instance serialize : DrSerialize := {|
  validate_strict_json v := if is_json v then Ok v else raise StrictJsonError "";
  canonical_json v := if is_json v then Ok (render (sort_keys v)) else raise StrictJsonError "";
  build_identity_document schema version payload :=
    Ok (PDict [($"schema", PStr schema); ($"version", PInt version); ($"payload", payload)]);
  identity_document_hash v := Ok (digest v);
|}.

#[export] Instance store : DrStore := {|
  for_record schema v :=
    if is_json v then Ok {| or_schema := schema; or_content_hash := digest v |}
    else raise StrictJsonError "";
|}.

#[export] Instance serialize_laws : DrSerializeLaws.
Proof.
  split; intros v; simpl.
  - by intros ->.
  - intros v'. destruct (is_json v) eqn:E; [by intros [= <-]|done].
Qed.

Lemma digest_full v : require_full_hash (PStr (digest v)) = Ok (digest v).
Proof.
  unfold require_full_hash, digest. rewrite length_fmap, length_seq, Nat.eqb_refl. cbn [negb orb].
  match goal with |- context [existsb ?f ?l] => destruct (existsb f l) eqn:E end; [|done].
  apply existsb_exists in E as (c & Hc & Hx). apply list_elem_of_In in Hc.
  apply list_elem_of_fmap in Hc as (i & -> & _). apply negb_true_iff in Hx. unfold is_hex in Hx.
  pose proof (Z.mod_pos_bound (Z.of_nat (length (render v)) / 10 ^ Z.of_nat i) 10 ltac:(lia)).
  lia.
Qed.

#[export] Instance dr_total : DrTotal.
Proof.
  split; simpl.
  - intros v ->. by eexists.
  - intros schema version payload _. do 2 eexists. split_and!; [done|done|]. apply digest_full.
  - intros schema v ->. eexists. split_and!; [done|done|]. apply digest_full.
Qed.
End Concrete.

(** C1. Freezing a strict JSON object is lossless and leaves nothing mutable:
    the constructor accepts every such object; [to_json] gives back the very
    object; the frozen value holds no list or dictionary at any depth; the
    keys keep their order; and a lookup is the frozen image of the original
    entry (a missing key is a [KeyError]). *)
Theorem frozen_object_roundtrip `{!DrSerialize} {_ : DrSerializeLaws} (kvs : list (pystr * pyval)) :
  is_json (PDict kvs) = true →
  ∃ items, ImmutableJsonObject (PDict kvs) = Ok (PFrozen items) ∧
    to_json items = PDict kvs ∧
    deeply_immutable (PFrozen items) = true ∧
    frozen_iter items = kvs.*1 ∧ frozen_len items = length kvs ∧
    ∀ key, frozen_getitem items key =
      (freeze_validated_json <$> of_option (dict_get kvs key) KeyError "").
Proof.
  intros Hj. eexists. unfold ImmutableJsonObject. rewrite validate_json by done.
  split_and!; [done| | | | |].
  - exact (json_value_freeze (PDict kvs) Hj).
  - exact (freeze_immutable (PDict kvs) Hj).
  - unfold frozen_iter. by rewrite <-list_fmap_compose.
  - unfold frozen_len. by rewrite length_fmap.
  - intros key. unfold frozen_getitem. clear Hj.
    induction kvs as [|[k v] kvs IH]; simpl; [done|]. by case_decide.
Qed.

Section ResolverTheorems.
Context `{DSer : !DrSerialize, DSto : !DrStore} {T : Type}.
Variables (repr : pyval → pystr) (store_get : ObjectReference → result pyval).
Variables (model_validate : pyval → result T) (model_arg : T → record_arg).

(** Whatever the store holds, a configuration the resolver returns is the
    one the reference names: the reference has the resolver's schema, the
    returned instance came out of the model's validation of the object
    stored under it, its own dump is addressed by the reference's record
    reference, and the reference's hash is that content hash or the
    instance's identity hash. *)
Theorem store_config_resolver_sound schema ref instance :
  store_config_resolver repr store_get schema model_validate model_arg ref = Ok instance →
  tref_schema_name (iref_record_ref ref) = schema ∧
  (∃ kvs, store_get (TypedRef_reference (iref_record_ref ref)) = Ok (PDict kvs) ∧
          model_validate (PDict kvs) = Ok instance) ∧
  typed_ref_for_record schema (record_arg_content (model_arg instance)) =
    Ok (iref_record_ref ref) ∧
  (iref_record_hash ref = tref_content_hash (iref_record_ref ref) ∨
   record_arg_hash repr (model_arg instance) = Some (iref_record_hash ref)).
Proof.
  unfold store_config_resolver, assert_materialized_ref_matches. intros H. inv_result.
  repeat match goal with
  | Hb : bool_decide _ = true |- _ => apply bool_decide_eq_true in Hb end.
  subst. split; [done|]. destruct a0; try done. split; [by eauto|]. split; [done|].
  destruct (record_arg_hash _ _); set_solver.
Qed.
End ResolverTheorems.

Section IdentityWitnesses.
Import Concrete.

Lemma frozen_object_roundtrip_witness :
  let kvs := [($"a", PList [PInt 1; PDict [($"b", PNone)]])] in
  is_json (PDict kvs) = true ∧
  ∃ items, ImmutableJsonObject (PDict kvs) = Ok (PFrozen items) ∧
    to_json items = PDict kvs ∧
    deeply_immutable (PFrozen items) = true ∧
    frozen_iter items = kvs.*1 ∧ frozen_len items = length kvs ∧
    ∀ key, frozen_getitem items key =
      (freeze_validated_json <$> of_option (dict_get kvs key) KeyError "").
Proof.
  intros kvs. assert (is_json (PDict kvs) = true) as H by (vm_compute; reflexivity).
  split; [exact H|]. exact (frozen_object_roundtrip kvs H).
Defined.

Lemma store_config_resolver_sound_witness :
  let content := PDict [($"k", PInt 3)] in
  let ref := {| iref_record_ref := {| tref_schema_name := $"s";
                  tref_content_hash := Concrete.digest content |};
                iref_record_hash := Concrete.digest content |} in
  let get := λ _ : ObjectReference, Ok content in
  let arg := λ v : pyval, RModel v None in
  store_config_resolver (λ _, []) get $"s" Ok arg ref = Ok content ∧
  tref_schema_name (iref_record_ref ref) = $"s" ∧
  (∃ kvs, get (TypedRef_reference (iref_record_ref ref)) = Ok (PDict kvs) ∧
          Ok (PDict kvs) = Ok content) ∧
  typed_ref_for_record $"s" (record_arg_content (arg content)) = Ok (iref_record_ref ref) ∧
  (iref_record_hash ref = tref_content_hash (iref_record_ref ref) ∨
   record_arg_hash (λ _, []) (arg content) = Some (iref_record_hash ref)).
Proof.
  intros content ref get arg.
  assert (store_config_resolver (λ _, []) get $"s" Ok arg ref = Ok content) as H
    by (vm_compute; reflexivity).
  split; [exact H|].
  exact (store_config_resolver_sound (λ _, []) get Ok arg $"s" ref content H).
Defined.
End IdentityWitnesses.
