(* ===== verification/Frozen.v ===== *)
(** * Frozen: what holds of JSON objects and their frozen images

    The documents of the development are built as dictionaries, frozen by
    [ImmutableJsonObject] ([core/identity.py]) and read back with [to_json].
    These lemmas say that nothing on that way fails or is lost. *)

From S2P Require Import Prelude Floats Identity.

(** ** Dictionaries whose values are mapped *)

Section MapValues.
Context {K V W : Type} `{EqDecision K} (f : V → W).
Implicit Types (kvs : list (K * V)) (k : K) (v : V).

Definition map_values kvs : list (K * W) := (λ kv, (kv.1, f kv.2)) <$> kvs.

Lemma dict_get_map kvs k : dict_get (map_values kvs) k = f <$> dict_get kvs k.
Proof. induction kvs as [|[k' v'] kvs IH]; simpl; [done|]. by case_decide. Qed.

Lemma dict_set_map kvs k v : map_values (dict_set kvs k v) = dict_set (map_values kvs) k (f v).
Proof.
  induction kvs as [|[k' v'] kvs IH]; simpl; [done|]. case_decide; csimpl; [done|]. by rewrite <-IH.
Qed.

Lemma dict_pop_map kvs k : dict_pop (map_values kvs) k = map_values (dict_pop kvs k).
Proof.
  unfold dict_pop. induction kvs as [|[k' v'] kvs IH]; simpl; [done|].
  rewrite !filter_cons. simpl. case_decide; csimpl; by rewrite IH.
Qed.

Lemma map_values_keys kvs : (map_values kvs).*1 = kvs.*1.
Proof. unfold map_values. by rewrite <-list_fmap_compose. Qed.
End MapValues.

Section PopSet.
Context {K V : Type} `{EqDecision K}.
Implicit Types (kvs : list (K * V)).

(** What [k] is set to does not show in the other entries. *)
Lemma dict_pop_set_any kvs k v : NoDup kvs.*1 → dict_pop (dict_set kvs k v) k = dict_pop kvs k.
Proof.
  unfold dict_pop. induction kvs as [|[k' v'] kvs IH]; csimpl.
  { intros _. rewrite filter_cons. simpl. by rewrite decide_False by tauto. }
  rewrite NoDup_cons. intros [Hk Hnd]. destruct (decide (k = k')) as [<-|Hne]; rewrite !filter_cons; simpl.
  - by rewrite !decide_False by tauto.
  - rewrite !decide_True by congruence. by rewrite IH.
Qed.

Lemma dict_pop_NoDup kvs k : NoDup kvs.*1 → NoDup (dict_pop kvs k).*1.
Proof.
  unfold dict_pop. induction kvs as [|[k' v'] kvs IH]; csimpl; [done|]. rewrite NoDup_cons. intros [Hk Hnd].
  rewrite filter_cons. case_decide; csimpl; [|by apply IH]. constructor; [|by apply IH].
  intros ([k2 v2] & -> & [_ Hin]%list_elem_of_filter)%list_elem_of_fmap. apply Hk.
  by apply (list_elem_of_fmap_2 fst _ (k2, v2)).
Qed.
End PopSet.

(** ** JSON objects *)

Implicit Types kvs : list (pystr * pyval).

Lemma is_json_dict kvs :
  is_json (PDict kvs) = true ↔ NoDup kvs.*1 ∧ Forall (λ kv, is_json kv.2 = true) kvs.
Proof. simpl. by rewrite andb_true_iff, all_unique_NoDup, forallb_Forall. Qed.

Lemma is_json_get kvs k v : is_json (PDict kvs) = true → dict_get kvs k = Some v → is_json v = true.
Proof.
  rewrite is_json_dict, Forall_forall. intros [_ Hj] Hg%dict_get_Some. by apply (Hj (k, v)).
Qed.

Lemma is_json_set kvs k v :
  is_json (PDict kvs) = true → is_json v = true → is_json (PDict (dict_set kvs k v)) = true.
Proof.
  rewrite !is_json_dict. intros [Hnd Hj] Hv. split; [by apply dict_set_NoDup|].
  rewrite Forall_forall in *. intros x [->|Hx]%dict_set_elem; [done|]. by apply Hj.
Qed.

Lemma is_json_pop kvs k : is_json (PDict kvs) = true → is_json (PDict (dict_pop kvs k)) = true.
Proof.
  rewrite !is_json_dict. intros [Hnd Hj]. split; [by apply dict_pop_NoDup|].
  unfold dict_pop. rewrite Forall_forall in *. intros x [_ Hx]%list_elem_of_filter. by apply Hj.
Qed.

Lemma is_json_list l : is_json (PList l) = true ↔ Forall (λ v, is_json v = true) l.
Proof. simpl. apply forallb_Forall. Qed.

Definition freeze kvs : list (pystr * pyval) := map_values freeze_validated_json kvs.

Lemma to_json_freeze kvs : is_json (PDict kvs) = true → to_json (freeze kvs) = PDict kvs.
Proof. exact (json_value_freeze (PDict kvs)). Qed.

Lemma freeze_scalars kvs :
  Forall (λ kv, match kv.2 with PList _ | PDict _ => False | _ => True end) kvs → freeze kvs = kvs.
Proof.
  induction 1 as [|[k v] kvs Hv _ IH]; [done|]. unfold freeze in *. csimpl. rewrite IH.
  by destruct v.
Qed.

Section Freezing.
Context `{DSer : !DrSerialize, DLaws : !DrSerializeLaws}.

Lemma ImmutableJsonObject_json kvs :
  is_json (PDict kvs) = true → ImmutableJsonObject (PDict kvs) = Ok (PFrozen (freeze kvs)).
Proof. intros Hj. unfold ImmutableJsonObject. by rewrite validate_json. Qed.

(** Only a JSON object is frozen; which one, if another than was given, is
    dr-serialize's. *)
Lemma ImmutableJsonObject_Ok v frozen :
  ImmutableJsonObject v = Ok frozen → ∃ kvs, frozen = PFrozen (freeze kvs) ∧ is_json (PDict kvs) = true.
Proof.
  unfold ImmutableJsonObject. destruct (validate_strict_json v) as [w|e] eqn:E.
  - destruct w as [| | | | | | |kvs|]; try done. intros [= <-]. exists kvs. split; [done|].
    by eapply validate_sound.
  - by destruct (exn_isa _ _).
Qed.
End Freezing.

Section Equality.
Context `{DSer : !DrSerialize, DSto : !DrStore, DLaws : !DrSerializeLaws, DTot : !DrTotal}.

Lemma canonical_json_equal_refl v w :
  normalized v = normalized w → is_json (normalized v) = true → canonical_json_equal v w = Ok true.
Proof.
  intros Heq Hj. unfold canonical_json_equal. rewrite <-Heq, validate_json by done. simpl.
  destruct (canonical_json_total _ Hj) as [s ->]. simpl. by rewrite bool_decide_true.
Qed.

Lemma frozen_eq_refl kvs : is_json (PDict kvs) = true → frozen_eq (freeze kvs) (PFrozen (freeze kvs)) = Ok true.
Proof.
  intros Hj. unfold frozen_eq. rewrite canonical_json_equal_refl; [done|done|]. cbn [normalized].
  by rewrite to_json_freeze.
Qed.

(** The text an object is compared by. *)
Definition canonical_text (obj : list (pystr * pyval)) : result pystr :=
  json ← validate_strict_json (to_json obj); canonical_json json.

Lemma canonical_text_total obj :
  is_json (to_json obj) = true → ∃ s, canonical_text obj = Ok s.
Proof.
  intros Hj. unfold canonical_text. rewrite validate_json by done. by apply canonical_json_total.
Qed.

(** Two frozen objects that are the same one or that [__eq__] cannot tell
    apart. *)
Definition same_object (a b : list (pystr * pyval)) : Prop :=
  a = b ∨ ∃ s, canonical_text a = Ok s ∧ canonical_text b = Ok s.

#[export] Instance same_object_equiv : Equivalence same_object.
Proof.
  unfold same_object. split; [by left|intros a b [->|(s & Ha & Hb)]; [by left|by eauto]|].
  intros a b c [->|(s & Ha & Hb)] [->|(s' & Hb' & Hc)]; eauto.
  rewrite Hb in Hb'. injection Hb' as <-. eauto.
Qed.

Lemma frozen_eq_texts a b :
  frozen_eq a (PFrozen b) = Ok true ↔ ∃ s, canonical_text a = Ok s ∧ canonical_text b = Ok s.
Proof.
  unfold frozen_eq, canonical_json_equal, canonical_text. cbn [normalized].
  change (json_value (PFrozen ?k)) with (to_json k).
  split.
  - intros H. destruct (_ ≫= _) as [[]|] eqn:E in H; [|done|by case_match].
    apply bind_Ok in E as (ja & -> & (jb & -> & (l & Hl & (r & Hr & E)%bind_Ok)%bind_Ok)%bind_Ok).
    injection E as ->%bool_decide_eq_true. exists r. split; [exact Hl|exact Hr].
  - intros (s & (ja & -> & Ha)%bind_Ok & (jb & -> & Hb)%bind_Ok). simpl. rewrite Ha, Hb. simpl.
    by rewrite bool_decide_true.
Qed.

Lemma frozen_eq_same a b : frozen_eq a (PFrozen b) = Ok true → same_object a b.
Proof. intros H%frozen_eq_texts. by right. Qed.

(** Between objects that have a text [__eq__] returns, and tells whether they
    are the same. *)
Definition has_text (obj : list (pystr * pyval)) : Prop := ∃ s, canonical_text obj = Ok s.

Lemma json_has_text obj : is_json (to_json obj) = true → has_text obj.
Proof. apply canonical_text_total. Qed.

Lemma same_object_text a b : same_object a b → has_text b → has_text a.
Proof. intros [->|(s & Ha & Hb)] Ht; [done|by exists s]. Qed.

Lemma frozen_eq_decides a b :
  has_text a → has_text b → ∃ r, frozen_eq a (PFrozen b) = Ok r ∧ (r = true ↔ same_object a b).
Proof.
  intros [sa Ha] [sb Hb]. exists (bool_decide (sa = sb)). split.
  - unfold frozen_eq, canonical_json_equal. cbn [normalized].
    unfold canonical_text in *. apply bind_Ok in Ha as (ja & -> & Ha), Hb as (jb & -> & Hb). simpl.
    by rewrite Ha, Hb.
  - rewrite bool_decide_eq_true. unfold same_object. split; [intros ->; eauto|].
    intros [->|(s & Ha' & Hb')]; congruence.
Qed.
End Equality.

(** A dictionary of fixed keys is JSON when its values are. *)
Ltac json_dict :=
  apply is_json_dict; split;
    [apply (bool_decide_unpack _); vm_compute; exact I
    |repeat (apply Forall_cons_2; [cbn [snd]|]); [..|apply Forall_nil_2]; try reflexivity].
