(* ===== verification/Leasing.v ===== *)
(** * Leasing: the boundary onto dr-store's lease authority

    Models [src/whetstone/core/leasing.py]: the coercion of failure text into
    the shape dr-store accepts, the envelope that keeps the original text, its
    inversion, and the whetstone-typed wrappers around a lease authority.  The
    lease models and the authority itself are dr-store's: their validation is
    the class [DrLease], the authority's operations are the record
    [LeaseAuthority]. *)

From S2P Require Import Prelude Floats Identity Frozen.

(** ** dr-store's lease models *)

Inductive ReplayPolicy := IDEMPOTENT | DURABLE_WORKFLOW | NO_REDRIVE.
Inductive TerminalOutcome := SUCCEEDED | FAILED | RECOVERY_REQUIRED.
(** [SUCCEEDED], [FAILED] and [RECOVERY_REQUIRED] report the terminal found. *)
Inductive AcquireOutcome :=
| ACQUIRED | BUSY | AcquireSUCCEEDED | AcquireFAILED | AcquireRECOVERY_REQUIRED
| REQUEST_CONFLICT.

Record LeaseRequest := {
  lr_semantic_key : pystr;
  lr_request_hash : pystr;
  lr_replay_policy : ReplayPolicy;
}.

Record LeaseTerminalFailure := {
  ltf_code : pystr;
  ltf_message : pystr;
  ltf_details : list (pystr * pyval);
}.

Record Terminal := {
  term_request : LeaseRequest;
  term_outcome : TerminalOutcome;
  term_owner_id : pystr;
  term_attempt_id : pystr;
  term_fence : Z;
  term_result_ref : option ObjectReference;
  term_failure : option LeaseTerminalFailure;
}.

#[export] Instance ReplayPolicy_eq_dec : EqDecision ReplayPolicy.
Proof. solve_decision. Defined.
#[export] Instance TerminalOutcome_eq_dec : EqDecision TerminalOutcome.
Proof. solve_decision. Defined.
#[export] Instance AcquireOutcome_eq_dec : EqDecision AcquireOutcome.
Proof. solve_decision. Defined.
#[export] Instance LeaseRequest_eq_dec : EqDecision LeaseRequest.
Proof. solve_decision. Defined.

(** The validation of dr-store's models, run by their constructors. *)
Class DrLease := {
  lease_request_validate : LeaseRequest → result unit;
  lease_failure_validate : LeaseTerminalFailure → result unit;
  terminal_validate : Terminal → result unit;
}.

(** ** The escaped original text *)

Section UnicodeEscape.
Local Open Scope Z_scope.

Definition hex_digit (d : Z) : Z := if d <? 10 then 48 + d else 87 + d.

(** The [n] lower-case hexadecimal digits of [v], most significant first. *)
Fixpoint hex_digits (n : nat) (v : Z) : pystr :=
  match n with
  | O => []
  | S n => hex_digits n (v / 16) ++ [hex_digit (v mod 16)]
  end.

(** One character under the [unicode-escape] codec. *)
Definition escape_char (c : Z) : pystr :=
  if c =? 92 then [92; 92]
  else if (32 <=? c) && (c <? 127) then [c]
  else if c =? 9 then [92; 116]
  else if c =? 10 then [92; 110]
  else if c =? 13 then [92; 114]
  else if c <? 256 then 92 :: 120 :: hex_digits 2 c
  else if c <? 65536 then 92 :: 117 :: hex_digits 4 c
  else 92 :: 85 :: hex_digits 8 c.

Definition escape_lease_original (value : pystr) : pystr := value ≫= escape_char.

(** The decoder reads the escapes one character at a time: plain text, after
    a backslash, inside a hexadecimal or octal escape ([n] more digits
    allowed, value so far), inside a character name. *)
Inductive decode_state :=
| Plain
| Escape
| Hex (n : nat) (acc : Z)
| Octal (n : nat) (acc : Z)
| NameOpen
| Name (rev_name : pystr).

Definition hex_value (c : Z) : option Z :=
  if (48 <=? c) && (c <=? 57) then Some (c - 48)
  else if (97 <=? c) && (c <=? 102) then Some (c - 87)
  else if (65 <=? c) && (c <=? 70) then Some (c - 55)
  else None.

(** The characters with a one-letter escape. *)
Definition simple_escape (c : Z) : option Z :=
  if (c =? 92) || (c =? 39) || (c =? 34) then Some c
  else if c =? 97 then Some 7 else if c =? 98 then Some 8
  else if c =? 102 then Some 12 else if c =? 110 then Some 10
  else if c =? 114 then Some 13 else if c =? 116 then Some 9
  else if c =? 118 then Some 11 else None.

Definition is_octal (c : Z) : bool := (48 <=? c) && (c <=? 55).

(** A character read in plain text: what it emits and the next state. *)
Definition read_plain (c : Z) : pystr * decode_state :=
  if c =? 92 then ([], Escape) else ([c], Plain).

(** [unicode_name] looks a character name up in the Unicode database. *)
Definition decode_step (unicode_name : pystr → option Z) (st : decode_state) (c : Z) :
    result (pystr * decode_state) :=
  match st with
  | Plain => Ok (read_plain c)
  | Escape =>
      if c =? 10 then Ok ([], Plain)
      else match simple_escape c with
      | Some d => Ok ([d], Plain)
      | None =>
          if is_octal c then Ok ([], Octal 2 (c - 48))
          else if c =? 120 then Ok ([], Hex 2 0)
          else if c =? 117 then Ok ([], Hex 4 0)
          else if c =? 85 then Ok ([], Hex 8 0)
          else if c =? 78 then Ok ([], NameOpen)
          else Ok ([92; c], Plain)
      end
  | Hex n acc =>
      match hex_value c with
      | None => raise ValueError "truncated escape"
      | Some d =>
          let acc := acc * 16 + d in
          match n with
          | S (S n) => Ok ([], Hex (S n) acc)
          | _ => if acc <=? 1114111 then Ok ([acc], Plain)
                 else raise ValueError "illegal Unicode character"
          end
      end
  | Octal n acc =>
      match n with
      | S n =>
          if is_octal c then
            let acc := acc * 8 + (c - 48) in
            match n with O => Ok ([acc], Plain) | _ => Ok ([], Octal n acc) end
          else let '(out, st) := read_plain c in Ok (acc :: out, st)
      | O => let '(out, st) := read_plain c in Ok (acc :: out, st)
      end
  | NameOpen =>
      if c =? 123 then Ok ([], Name [])
      else raise ValueError "malformed \N character escape"
  | Name rev_name =>
      if c =? 125 then
        match rev_name, unicode_name (rev rev_name) with
        | [], _ => raise ValueError "malformed \N character escape"
        | _, Some d => Ok ([d], Plain)
        | _, None => raise ValueError "unknown Unicode character name"
        end
      else Ok ([], Name (c :: rev_name))
  end.

Fixpoint decode (unicode_name : pystr → option Z) (st : decode_state) (l : pystr) :
    result pystr :=
  match l with
  | [] =>
      match st with
      | Plain => Ok []
      | Octal _ acc => Ok [acc]
      | _ => raise ValueError "truncated escape"
      end
  | c :: l =>
      '(out, st) ← decode_step unicode_name st c;
      rest ← decode unicode_name st l;
      Ok (out ++ rest)
  end.

(** [value.encode("ascii").decode("unicode-escape")]. *)
Definition unescape_lease_original (unicode_name : pystr → option Z) (value : pystr) :
    result pystr :=
  require (forallb (λ c, c <? 128) value) ValueError "ordinal not in range(128)" ;;
  decode unicode_name Plain value.

(** A Python string: every element is a code point. *)
Definition valid_str (s : pystr) : Prop := Forall (λ c, 0 <= c < 1114112) s.
End UnicodeEscape.

(** ** The text coercion *)

Section LeaseText.
Local Open Scope Z_scope.

Definition LEASE_TEXT_LIMIT : nat := 1024.
Definition TRUNCATION_SUFFIX : pystr := $"...".
Definition LEASE_ORIGINAL_KEY : pystr := $"_whetstone_lease_original".

Definition is_surrogate (c : Z) : bool := (55296 <=? c) && (c <=? 57343).

(** The text [_lease_text] returns. *)
Definition coerce_lease_text (value field : pystr) : pystr :=
  let coerced := filter (λ c, c ≠ 0) value in
  let coerced := filter (λ c, is_surrogate c = false) coerced in
  let coerced :=
    if (LEASE_TEXT_LIMIT <? length coerced)%nat
    then take (LEASE_TEXT_LIMIT - length TRUNCATION_SUFFIX) coerced ++ TRUNCATION_SUFFIX
    else coerced in
  if negb (nonblank coerced) then $"<unprintable " ++ field ++ $">" else coerced.

(** [_lease_text]: the coerced text and the details, where the original is
    recorded when the coercion lost something. *)
Definition lease_text (value field : pystr) (details : list (pystr * pyval)) :
    pystr * list (pystr * pyval) :=
  let coerced := coerce_lease_text value field in
  if bool_decide (coerced = value) then (coerced, details)
  else
    let envelope :=
      match dict_get details LEASE_ORIGINAL_KEY with
      | Some (PDict envelope) => envelope
      | _ => []
      end in
    (coerced,
     dict_set details LEASE_ORIGINAL_KEY
       (PDict (dict_set envelope field (PStr (escape_lease_original value))))).

Definition lease_text_shape (value field : pystr) : pystr :=
  (lease_text value field []).1.
End LeaseText.

(** The JSON dump of a failure's details. *)
Definition dump_details (details : list (pystr * pyval)) : list (pystr * pyval) :=
  (λ kv, (kv.1, json_value kv.2)) <$> details.

Section Conversions.
Context `{DSer : !DrSerialize, DLease : !DrLease}.

Definition effect_request (semantic_key request_hash : pystr) (replay_policy : ReplayPolicy) :
    result LeaseRequest :=
  let request := {| lr_semantic_key := semantic_key; lr_request_hash := request_hash;
                    lr_replay_policy := replay_policy |} in
  lease_request_validate request ;; Ok request.

Definition typed_ref (reference : ObjectReference) : result TypedRef :=
  s ← NonEmptyId (PStr (or_schema reference));
  h ← ContentHash (PStr (or_content_hash reference));
  TypedRef_new (PStr s) (PStr h).

Definition to_lease_failure (failure : TerminalFailure) : result LeaseTerminalFailure :=
  let details := dump_details (tf_details failure) in
  let '(code, details) := lease_text (tf_code failure) $"code" details in
  let '(message, details) := lease_text (tf_message failure) $"message" details in
  let f := {| ltf_code := code; ltf_message := message; ltf_details := details |} in
  lease_failure_validate f ;; Ok f.

(** One turn of the loop over ("code", "message"). *)
Definition restore_field (unicode_name : pystr → option Z)
    (envelope : list (pystr * pyval)) (field text : pystr) : result pystr :=
  match dict_get envelope field with
  | Some (PStr encoded) =>
      original ← unescape_lease_original unicode_name encoded;
      Ok (if bool_decide (lease_text_shape original field = text) then original else text)
  | _ => Ok text
  end.

(** [TerminalFailure.model_validate] of the three fields. *)
Definition TerminalFailure_validate (code message : pystr) (details : list (pystr * pyval)) :
    result TerminalFailure :=
  code ← NonEmptyId (PStr code);
  message ← NonEmptyId (PStr message);
  frozen ← frozen_validate (PDict details);
  match frozen with
  | PFrozen items => Ok {| tf_code := code; tf_message := message; tf_details := items |}
  | _ => raise TypeError "immutable JSON object requires a JSON object"
  end.

Definition from_lease_failure (unicode_name : pystr → option Z)
    (failure : LeaseTerminalFailure) : result TerminalFailure :=
  let envelope := dict_get (ltf_details failure) LEASE_ORIGINAL_KEY in
  let details := dict_pop (ltf_details failure) LEASE_ORIGINAL_KEY in
  '(code, message) ←
    match envelope with
    | Some (PDict envelope) =>
        code ← restore_field unicode_name envelope $"code" (ltf_code failure);
        message ← restore_field unicode_name envelope $"message" (ltf_message failure);
        Ok (code, message)
    | _ => Ok (ltf_code failure, ltf_message failure)
    end;
  TerminalFailure_validate code message details.
End Conversions.

(** ** Terminals and acquire results in whetstone's vocabulary *)

Record EffectTerminal := {
  et_request : LeaseRequest;
  et_outcome : TerminalOutcome;
  et_owner_id : pystr;
  et_attempt_id : pystr;
  et_fence : Z;
  et_result_ref : option TypedRef;
  et_failure : option TerminalFailure;
}.

#[export] Instance EffectTerminal_eq_dec : EqDecision EffectTerminal.
Proof. solve_decision. Defined.

(** [EffectTerminal.__eq__]. *)
Definition EffectTerminal_eq `{!DrSerialize} (self other : EffectTerminal) : result bool :=
  if bool_decide (et_request self = et_request other ∧ et_outcome self = et_outcome other ∧
       et_owner_id self = et_owner_id other ∧ et_attempt_id self = et_attempt_id other ∧
       et_fence self = et_fence other ∧ et_result_ref self = et_result_ref other)
  then optional_eq TerminalFailure_eq (et_failure self) (et_failure other) else Ok false.

(** [None if x is None else f(x)]. *)
Definition map_opt {A B} (f : A → result B) (x : option A) : result (option B) :=
  match x with
  | None => Ok None
  | Some a => b ← f a; Ok (Some b)
  end.

Section Terminals.
Context `{DSer : !DrSerialize, DLease : !DrLease}.
Variable unicode_name : pystr → option Z.

Definition EffectTerminal_to_lease (self : EffectTerminal) : result Terminal :=
  failure ← map_opt to_lease_failure (et_failure self);
  let t := {| term_request := et_request self; term_outcome := et_outcome self;
              term_owner_id := et_owner_id self; term_attempt_id := et_attempt_id self;
              term_fence := et_fence self;
              term_result_ref := TypedRef_reference <$> et_result_ref self;
              term_failure := failure |} in
  terminal_validate t ;; Ok t.

Definition fence_validate (value : Z) : result Z :=
  require ((1 <=? value) && (value <=? Z.shiftl 1 63 - 1))%Z ValueError
    "fence must be a positive signed 64-bit integer" ;;
  Ok value.

(** [EffectTerminal(...)]: the field validators, then [to_lease()]. *)
Definition EffectTerminal_new (request : LeaseRequest) (outcome : TerminalOutcome)
    (owner_id attempt_id : pystr) (fence : Z) (result_ref : option TypedRef)
    (failure : option TerminalFailure) : result EffectTerminal :=
  owner_id ← NonEmptyId (PStr owner_id);
  attempt_id ← NonEmptyId (PStr attempt_id);
  fence ← fence_validate fence;
  let self := {| et_request := request; et_outcome := outcome; et_owner_id := owner_id;
                 et_attempt_id := attempt_id; et_fence := fence;
                 et_result_ref := result_ref; et_failure := failure |} in
  EffectTerminal_to_lease self ;; Ok self.

Definition EffectTerminal_from_lease (terminal : Terminal) : result EffectTerminal :=
  owner_id ← NonEmptyId (PStr (term_owner_id terminal));
  attempt_id ← NonEmptyId (PStr (term_attempt_id terminal));
  result_ref ← map_opt typed_ref (term_result_ref terminal);
  failure ← map_opt (from_lease_failure unicode_name) (term_failure terminal);
  EffectTerminal_new (term_request terminal) (term_outcome terminal) owner_id attempt_id
    (term_fence terminal) result_ref failure.

(** dr-store's acquire result over its lease handles [L]; instants are
    integers. *)
Record AcquireResult (L : Type) := {
  ar_request : LeaseRequest;
  ar_outcome : AcquireOutcome;
  ar_lease : option L;
  ar_terminal : option Terminal;
  ar_busy_expires_at : option Z;
  ar_existing_request_hash : option pystr;
  ar_existing_replay_policy : option ReplayPolicy;
}.

Record EffectAcquireResult (L : Type) := {
  ear_request : LeaseRequest;
  ear_outcome : AcquireOutcome;
  ear_lease : option L;
  ear_terminal : option EffectTerminal;
  ear_busy_expires_at : option Z;
  ear_existing_request_hash : option pystr;
  ear_existing_replay_policy : option ReplayPolicy;
}.

Definition EffectAcquireResult_from_lease {L} (r : AcquireResult L) :
    result (EffectAcquireResult L) :=
  terminal ← map_opt EffectTerminal_from_lease (ar_terminal L r);
  existing ← map_opt (λ h, IdentityHash (PStr h)) (ar_existing_request_hash L r);
  Ok {| ear_request := ar_request L r; ear_outcome := ar_outcome L r;
        ear_lease := ar_lease L r; ear_terminal := terminal;
        ear_busy_expires_at := ar_busy_expires_at L r;
        ear_existing_request_hash := existing;
        ear_existing_replay_policy := ar_existing_replay_policy L r |}.

(** The operations of a [LeaseAuthority] with state [S] and handles [L]. *)
Record LeaseAuthority (S L : Type) := {
  la_acquire : LeaseRequest → pystr → pystr → Z → stm S (AcquireResult L);
  la_renew : L → Z → stm S L;
  la_succeed : L → ObjectReference → stm S Terminal;
  la_fail : L → ObjectReference → LeaseTerminalFailure → stm S Terminal;
  la_verify_terminal : Terminal → stm S Terminal;
}.

Section Authority.
Context {S L : Type} (authority : LeaseAuthority S L).

Definition authority_acquire (request : LeaseRequest) (owner_id attempt_id : pystr)
    (lease_duration : Z) : stm S (EffectAcquireResult L) :=
  r ← la_acquire S L authority request owner_id attempt_id lease_duration;
  lift (EffectAcquireResult_from_lease r).

Definition authority_renew (lease : L) (lease_duration : Z) : stm S L :=
  la_renew S L authority lease lease_duration.

Definition authority_succeed (lease : L) (result_ref : TypedRef) : stm S EffectTerminal :=
  t ← la_succeed S L authority lease (TypedRef_reference result_ref);
  lift (EffectTerminal_from_lease t).

Definition authority_fail (lease : L) (result_ref : TypedRef) (failure : TerminalFailure) :
    stm S EffectTerminal :=
  f ← lift (to_lease_failure failure);
  t ← la_fail S L authority lease (TypedRef_reference result_ref) f;
  lift (EffectTerminal_from_lease t).

Definition authority_verify_terminal (terminal : EffectTerminal) : stm S EffectTerminal :=
  t ← lift (EffectTerminal_to_lease terminal);
  t ← la_verify_terminal S L authority t;
  lift (EffectTerminal_from_lease t).
End Authority.
End Terminals.

(** ** The escape codec is lossless *)

Section CodecLemmas.
Local Open Scope Z_scope.
Variable unicode_name : pystr → option Z.
Local Abbreviation decode := (decode unicode_name).

Lemma hex_value_digit d : 0 <= d < 16 → hex_value (hex_digit d) = Some d.
Proof.
  intros Hd. unfold hex_value, hex_digit.
  destruct (Z.ltb_spec d 10); repeat case_match; try lia; f_equal; lia.
Qed.

Lemma decode_silent st c st' l :
  decode_step unicode_name st c = Ok ([], st') → decode st (c :: l) = decode st' l.
Proof. intros E. simpl. rewrite E. simpl. by destruct (Leasing.decode _ st' l). Qed.

Lemma decode_emit st c d l :
  decode_step unicode_name st c = Ok ([d], Plain) →
  decode st (c :: l) = (r ← decode Plain l; Ok (d :: r)).
Proof. intros E. simpl. by rewrite E. Qed.

(** The first [n] of [n + S m] digits only accumulate. *)
Lemma decode_hex_prefix n m acc v rest :
  0 <= v < 16 ^ Z.of_nat n →
  decode (Hex (n + S m) acc) (hex_digits n v ++ rest) =
    decode (Hex (S m) (acc * 16 ^ Z.of_nat n + v)) rest.
Proof.
  revert m acc v rest. induction n as [|n IH]; intros m acc v rest Hv.
  - do 3 f_equal. change (Z.of_nat 0) with 0 in *. lia.
  - rewrite Nat2Z.inj_succ, Z.pow_succ_r in * by lia.
    pose proof (Z.div_mod v 16 ltac:(lia)). pose proof (Z.mod_pos_bound v 16 ltac:(lia)).
    simpl hex_digits. rewrite <-app_assoc. simpl app.
    replace (S n + S m)%nat with (n + S (S m))%nat by lia.
    rewrite IH by (split; [apply Z.div_pos; lia|apply Z.div_lt_upper_bound; lia]).
    apply decode_silent. simpl. rewrite hex_value_digit by lia.
    do 3 f_equal. lia.
Qed.

(** The [n + 1] digits of [v] decode to [v]. *)
Lemma decode_hex_digits n v rest :
  0 <= v < 16 ^ Z.of_nat (S n) → v < 1114112 →
  decode (Hex (S n) 0) (hex_digits (S n) v ++ rest) =
    (r ← decode Plain rest; Ok (v :: r)).
Proof.
  intros Hv Hmax. rewrite Nat2Z.inj_succ, Z.pow_succ_r in Hv by lia.
  pose proof (Z.div_mod v 16 ltac:(lia)). pose proof (Z.mod_pos_bound v 16 ltac:(lia)).
  simpl hex_digits. rewrite <-app_assoc. simpl app.
  replace (S n) with (n + 1)%nat at 1 by lia.
  rewrite decode_hex_prefix
    by (split; [apply Z.div_pos; lia|apply Z.div_lt_upper_bound; lia]).
  apply decode_emit. simpl. rewrite hex_value_digit by lia.
  replace ((0 * 16 ^ Z.of_nat n + v / 16) * 16 + v mod 16) with v by lia.
  by rewrite (proj2 (Z.leb_le v 1114111)) by lia.
Qed.

(** A backslash and a one-letter escape. *)
Local Ltac two_char := simpl app; erewrite decode_silent by done; by apply decode_emit.

Lemma decode_escape_char c rest :
  0 <= c < 1114112 →
  decode Plain (escape_char c ++ rest) = (r ← decode Plain rest; Ok (c :: r)).
Proof.
  intros Hc. unfold escape_char.
  destruct (Z.eqb_spec c 92) as [->|]; [two_char|].
  case_match eqn:Hp; [apply decode_emit; simpl; unfold read_plain; case_match; [lia|done]|].
  destruct (Z.eqb_spec c 9) as [->|].
  { two_char. }
  destruct (Z.eqb_spec c 10) as [->|]; [two_char|].
  destruct (Z.eqb_spec c 13) as [->|]; [two_char|].
  destruct (Z.ltb_spec c 256).
  { simpl app. erewrite !decode_silent by done. apply (decode_hex_digits 1); lia. }
  destruct (Z.ltb_spec c 65536); simpl app; erewrite !decode_silent by done.
  - apply (decode_hex_digits 3); lia.
  - apply (decode_hex_digits 7); lia.
Qed.

Lemma hex_digits_ascii n v : 0 <= v → Forall (λ c, 0 <= c < 128) (hex_digits n v).
Proof.
  revert v. induction n as [|n IH]; intros v Hv; simpl; [done|].
  apply Forall_app. split; [apply IH, Z.div_pos; lia|].
  pose proof (Z.mod_pos_bound v 16 ltac:(lia)).
  constructor; [|done]. unfold hex_digit. case_match; lia.
Qed.

Lemma escape_char_ascii c : 0 <= c → Forall (λ c, 0 <= c < 128) (escape_char c).
Proof.
  intros Hc. unfold escape_char.
  repeat case_match;
    repeat first [by apply hex_digits_ascii | by apply Forall_nil
                 | apply Forall_cons; split; [lia|]].
Qed.

Lemma unescape_escape value :
  valid_str value →
  unescape_lease_original unicode_name (escape_lease_original value) = Ok value.
Proof.
  intros Hv. unfold unescape_lease_original, escape_lease_original.
  assert (forallb (λ c, c <? 128) (value ≫= escape_char) = true) as ->.
  { apply forallb_Forall, Forall_forall. intros c (a & Ha & Hin)%list_elem_of_bind.
    unfold valid_str in Hv. rewrite Forall_forall in Hv.
    pose proof (escape_char_ascii a ltac:(naive_solver lia)) as Hf.
    rewrite Forall_forall in Hf. specialize (Hf _ Ha). lia. }
  simpl. induction Hv as [|c value Hc Hv IH]; [done|].
  csimpl. rewrite decode_escape_char by done. by rewrite IH.
Qed.
End CodecLemmas.

(** ** What dr-store accepts, and what the coercion produces *)

(** dr-store accepts a failure text when it is at most [LEASE_TEXT_LIMIT]
    characters long, has no NUL and no surrogate, and is not blank. *)
Definition lease_text_accepted (s : pystr) : bool :=
  (length s <=? LEASE_TEXT_LIMIT)%nat
  && forallb (λ c, negb (c =? 0)%Z && negb (is_surrogate c)) s
  && nonblank s.

Section CoercionLemmas.
Local Open Scope Z_scope.

Lemma forallb_clean_filters s :
  forallb (λ c, negb (c =? 0) && negb (is_surrogate c))
    (filter (λ c, is_surrogate c = false) (filter (λ c, c ≠ 0) s)) = true.
Proof.
  apply forallb_Forall, Forall_forall.
  intros c [Hs [H0 _]%list_elem_of_filter]%list_elem_of_filter.
  rewrite Hs. by rewrite (proj2 (Z.eqb_neq c 0)).
Qed.

Lemma coerce_accepted value field :
  field = $"code" ∨ field = $"message" →
  lease_text_accepted (coerce_lease_text value field) = true.
Proof.
  intros Hf. unfold coerce_lease_text.
  set (clean := filter _ (filter _ value)).
  assert (forallb (λ c, negb (c =? 0) && negb (is_surrogate c)) clean = true) as Hclean
    by apply forallb_clean_filters.
  set (cut := if (_ <? _)%nat then _ else _).
  destruct (nonblank cut) eqn:Hb; simpl; last by destruct Hf as [-> | ->].
  unfold lease_text_accepted. rewrite Hb, !andb_true_iff. split_and!; [|subst cut|done].
  - apply Nat.leb_le. subst cut. destruct (Nat.ltb_spec LEASE_TEXT_LIMIT (length clean)); [|done].
    rewrite length_app, length_take. change (length TRUNCATION_SUFFIX) with 3%nat.
    pose proof (Nat.leb_le 3 LEASE_TEXT_LIMIT) as [Hlim _]. specialize (Hlim eq_refl). lia.
  - case_match; [|done]. rewrite forallb_app. apply andb_true_iff. split; [|done].
    rewrite forallb_Forall in *. by apply Forall_take.
Qed.

Lemma coerce_id value field :
  lease_text_accepted value = true → coerce_lease_text value field = value.
Proof.
  unfold lease_text_accepted. rewrite !andb_true_iff. intros [[Hlen Hclean] Hb].
  unfold coerce_lease_text.
  assert (filter (λ c, is_surrogate c = false) (filter (λ c, c ≠ 0) value) = value) as ->.
  { clear -Hclean. induction value as [|c value IH]; [done|]. simpl in Hclean.
    apply andb_true_iff in Hclean as [[H0 Hs]%andb_true_iff Hc].
    rewrite (filter_cons_True _ c) by lia.
    rewrite filter_cons_True by (by apply negb_true_iff). f_equal. auto. }
  apply Nat.leb_le in Hlen. rewrite (proj2 (Nat.ltb_ge _ _)) by done. by rewrite Hb.
Qed.

(** The three ways the envelope can read in [lease_text]. *)
Lemma lease_text_fst value field details :
  (lease_text value field details).1 = coerce_lease_text value field.
Proof. unfold lease_text. by case_bool_decide. Qed.

Lemma lease_text_unchanged value field details :
  coerce_lease_text value field = value → lease_text value field details = (value, details).
Proof. intros E. unfold lease_text. rewrite E. by rewrite bool_decide_true. Qed.

Lemma lease_text_changed value field details :
  coerce_lease_text value field ≠ value →
  lease_text value field details =
    (coerce_lease_text value field,
     dict_set details LEASE_ORIGINAL_KEY
       (PDict (dict_set
          match dict_get details LEASE_ORIGINAL_KEY with
          | Some (PDict envelope) => envelope | _ => [] end
          field (PStr (escape_lease_original value))))).
Proof. intros E. unfold lease_text. by rewrite bool_decide_false. Qed.

Lemma restore_recorded unicode_name envelope field value :
  valid_str value →
  dict_get envelope field = Some (PStr (escape_lease_original value)) →
  restore_field unicode_name envelope field (coerce_lease_text value field) = Ok value.
Proof.
  intros Hv He. unfold restore_field. rewrite He, unescape_escape by done. simpl.
  unfold lease_text_shape. rewrite lease_text_fst. by rewrite bool_decide_true.
Qed.

Lemma restore_absent unicode_name envelope field text :
  dict_get envelope field = None →
  restore_field unicode_name envelope field text = Ok text.
Proof. intros He. unfold restore_field. by rewrite He. Qed.
End CoercionLemmas.

(** The coercion is total and loses nothing: the text it returns is always
    one dr-store accepts; a text dr-store accepts passes unchanged and leaves
    the details alone; and whenever the text had to change, the details record
    the escaped original under the reserved key and keep every other entry. *)
Theorem lease_text_total value field details :
  field = $"code" ∨ field = $"message" →
  lease_text_accepted (lease_text value field details).1 = true ∧
  (lease_text_accepted value = true → lease_text value field details = (value, details)) ∧
  (lease_text_accepted value = false →
    (∃ envelope,
      dict_get (lease_text value field details).2 LEASE_ORIGINAL_KEY = Some (PDict envelope) ∧
      dict_get envelope field = Some (PStr (escape_lease_original value))) ∧
    ∀ key, key ≠ LEASE_ORIGINAL_KEY →
      dict_get (lease_text value field details).2 key = dict_get details key).
Proof.
  intros Hf. pose proof (coerce_accepted value field Hf) as Hacc.
  split_and!.
  - by rewrite lease_text_fst.
  - intros H. by apply lease_text_unchanged, coerce_id.
  - intros H. rewrite lease_text_changed by congruence. split.
    + eexists. split; [apply dict_get_set_eq|apply dict_get_set_eq].
    + intros key Hk. by apply dict_get_set_ne.
Qed.

Lemma lease_text_total_witness :
  let value := ([55296; 104; 0; 105] : pystr)%Z in
  ($"code" = $"code" ∨ $"code" = $"message") ∧
  lease_text_accepted value = false ∧
  (lease_text value $"code" []).1 = $"hi" ∧
  (lease_text_accepted (lease_text value $"code" []).1 = true ∧
  (lease_text_accepted value = true → lease_text value $"code" [] = (value, [])) ∧
  (lease_text_accepted value = false →
    (∃ envelope,
      dict_get (lease_text value $"code" []).2 LEASE_ORIGINAL_KEY = Some (PDict envelope) ∧
      dict_get envelope $"code" = Some (PStr (escape_lease_original value))) ∧
    ∀ key, key ≠ LEASE_ORIGINAL_KEY →
      dict_get (lease_text value $"code" []).2 key = dict_get [] key)).
Proof.
  intros value. split; [by left|]. split; [by vm_compute|]. split; [by vm_compute|].
  apply (lease_text_total value $"code" []). by left.
Defined.

(** ** Round trips *)

(** A whetstone failure as its constructor leaves it: non-empty texts of code
    points and frozen strict JSON details. *)
Definition TerminalFailure_wf (f : TerminalFailure) : Prop :=
  tf_code f ≠ [] ∧ valid_str (tf_code f) ∧ tf_message f ≠ [] ∧ valid_str (tf_message f) ∧
  deeply_immutable (PFrozen (tf_details f)) = true ∧
  is_json (PDict (dump_details (tf_details f))) = true.

(** A validated typed reference. *)
Definition TypedRef_wf (r : TypedRef) : Prop :=
  TypedRef_new (PStr (tref_schema_name r)) (PStr (tref_content_hash r)) = Ok r.

Lemma TypedRef_wf_fields r :
  TypedRef_wf r ↔ NonEmptyId (PStr (tref_schema_name r)) = Ok (tref_schema_name r) ∧
                  ContentHash (PStr (tref_content_hash r)) = Ok (tref_content_hash r).
Proof.
  unfold TypedRef_wf, TypedRef_new. destruct r as [s h]; cbn [tref_schema_name tref_content_hash].
  split; [|by intros [-> ->]].
  destruct (NonEmptyId (PStr s)); [|done]. destruct (ContentHash (PStr h)); [|done].
  by intros [= -> ->].
Qed.

(** Recording an original keeps the details JSON. *)
Lemma lease_text_json value field details :
  is_json (PDict details) = true → is_json (PDict (lease_text value field details).2) = true.
Proof.
  intros Hj. unfold lease_text. case_bool_decide; [done|]. cbn [snd]. apply is_json_set; [done|].
  apply is_json_set; [|done].
  destruct (dict_get details LEASE_ORIGINAL_KEY) as [v|] eqn:Hg; [|done].
  pose proof (is_json_get _ _ _ Hj Hg). by destruct v.
Qed.

Section RoundTrips.
Context `{DSer : !DrSerialize, DLaws : !DrSerializeLaws, DLease : !DrLease}.
Variable unicode_name : pystr → option Z.

Lemma dump_details_keys details : (dump_details details).*1 = details.*1.
Proof. unfold dump_details. by rewrite <-list_fmap_compose. Qed.

Lemma failure_validate_dump f :
  TerminalFailure_wf f →
  TerminalFailure_validate (tf_code f) (tf_message f) (dump_details (tf_details f)) = Ok f.
Proof.
  intros (Hc & _ & Hm & _ & Hd & Hj). unfold TerminalFailure_validate, NonEmptyId.
  unfold ValidatedString_new, nonempty_validate.
  rewrite (bool_decide_false _ Hc), (bool_decide_false _ Hm). simpl.
  unfold ImmutableJsonObject. rewrite validate_json by done.
  unfold from_validated. simpl. unfold dump_details.
  rewrite from_validated_to_json by done. by destruct f.
Qed.

(** The details after both coercions, and what the envelope then records. *)
Lemma lease_details_cases f :
  LEASE_ORIGINAL_KEY ∉ (tf_details f).*1 →
  let D := dump_details (tf_details f) in
  let code := tf_code f in let message := tf_message f in
  let r1 := lease_text code $"code" D in
  let r2 := lease_text message $"message" r1.2 in
  (coerce_lease_text code $"code" = code ∧
   coerce_lease_text message $"message" = message ∧ r2.2 = D) ∨
  ∃ envelope, r2.2 = dict_set D LEASE_ORIGINAL_KEY (PDict envelope) ∧
    (∀ fld v, (fld, v) ∈ [($"code", code); ($"message", message)] →
      if bool_decide (coerce_lease_text v fld = v) then dict_get envelope fld = None
      else dict_get envelope fld = Some (PStr (escape_lease_original v))) ∧
    is_json (PDict envelope) = true.
Proof.
  intros Hk D code message r1 r2.
  assert (dict_get D LEASE_ORIGINAL_KEY = None) as HD
    by (apply dict_get_None; subst D; by rewrite dump_details_keys).
  subst r2 r1.
  destruct (decide (coerce_lease_text code $"code" = code)) as [Ec|Ec];
    [rewrite (lease_text_unchanged code) by done|rewrite (lease_text_changed code) by done];
    cbn [snd];
    (destruct (decide (coerce_lease_text message $"message" = message)) as [Em|Em];
      [rewrite (lease_text_unchanged message) by done
      |rewrite (lease_text_changed message) by done]); cbn [snd];
    rewrite ?dict_get_set_eq, ?dict_set_set, ?HD; [by left|right..];
    (eexists; split; [reflexivity|]; split; [|by vm_compute]);
    intros fld v; rewrite !elem_of_cons, elem_of_nil;
    (intros [[= -> ->]|[[= -> ->]|[]]]; case_bool_decide; try done).
Qed.

Lemma to_from_lease_failure f lf :
  TerminalFailure_wf f → LEASE_ORIGINAL_KEY ∉ (tf_details f).*1 →
  to_lease_failure f = Ok lf → from_lease_failure unicode_name lf = Ok f.
Proof.
  intros Hwf Hk. unfold to_lease_failure.
  pose proof (lease_details_cases f Hk) as Hcases. cbv zeta in Hcases.
  pose proof (lease_text_fst (tf_code f) $"code" (dump_details (tf_details f))) as Hcode.
  destruct (lease_text (tf_code f) _ _) as [code d1]. cbn [fst snd] in *.
  pose proof (lease_text_fst (tf_message f) $"message" d1) as Hmessage.
  destruct (lease_text (tf_message f) _ _) as [message d2]. cbn [fst snd] in *.
  intros Hto. inv_result. unfold from_lease_failure. cbn [ltf_details ltf_code ltf_message].
  assert (LEASE_ORIGINAL_KEY ∉ (dump_details (tf_details f)).*1) as HkD
    by (by rewrite dump_details_keys).
  pose proof Hwf as (_ & Hvc & _ & Hvm & _).
  destruct Hcases as [(Ec & Em & ->)|(envelope & -> & Henv & _)].
  - rewrite (proj2 (dict_get_None _ _) HkD), dict_pop_notin, Ec, Em by done.
    by apply failure_validate_dump.
  - rewrite dict_get_set_eq, dict_pop_set by done.
    assert (∀ fld v, (fld, v) ∈ [($"code", tf_code f); ($"message", tf_message f)] →
      valid_str v →
      restore_field unicode_name envelope fld (coerce_lease_text v fld) = Ok v) as Hr.
    { intros fld v Hin Hv. specialize (Henv fld v Hin). case_bool_decide as E.
      - rewrite E. by apply restore_absent.
      - by apply restore_recorded. }
    rewrite (Hr $"code" (tf_code f)), (Hr $"message" (tf_message f))
      by (done || set_solver). by apply failure_validate_dump.
Qed.
End RoundTrips.

Section TerminalRoundTrip.
Context `{DSer : !DrSerialize, DLaws : !DrSerializeLaws, DLease : !DrLease}.
Variable unicode_name : pystr → option Z.

Lemma typed_ref_reference r : TypedRef_wf r → typed_ref (TypedRef_reference r) = Ok r.
Proof.
  intros Hr. pose proof Hr as [Hs Hh]%TypedRef_wf_fields.
  unfold typed_ref, TypedRef_reference. cbn [or_schema or_content_hash].
  rewrite Hs. simpl. rewrite Hh. exact Hr.
Qed.

Lemma to_lease_failure_Ok f lf :
  to_lease_failure f = Ok lf →
  ltf_code lf = coerce_lease_text (tf_code f) $"code" ∧
  ltf_message lf = coerce_lease_text (tf_message f) $"message" ∧
  (is_json (PDict (dump_details (tf_details f))) = true → is_json (PDict (ltf_details lf)) = true).
Proof.
  unfold to_lease_failure.
  pose proof (lease_text_fst (tf_code f) $"code" (dump_details (tf_details f))) as Hcode.
  pose proof (lease_text_json (tf_code f) $"code" (dump_details (tf_details f))) as Hj1.
  destruct (lease_text (tf_code f) _ _) as [code d1]. cbn [fst snd] in *.
  pose proof (lease_text_fst (tf_message f) $"message" d1) as Hmessage.
  pose proof (lease_text_json (tf_message f) $"message" d1) as Hj2.
  destruct (lease_text (tf_message f) _ _) as [message d2]. cbn [fst snd] in *.
  intros Hto. inv_result. cbn [ltf_code ltf_message ltf_details]. auto.
Qed.

Lemma to_lease_failure_total f :
  TerminalFailure_wf f →
  (∀ lf, lease_text_accepted (ltf_code lf) = true → lease_text_accepted (ltf_message lf) = true →
         is_json (PDict (ltf_details lf)) = true → lease_failure_validate lf = Ok tt) →
  ∃ lf, to_lease_failure f = Ok lf.
Proof.
  intros Hwf Hval. pose proof Hwf as (_ & _ & _ & _ & _ & Hj). unfold to_lease_failure.
  pose proof (lease_text_fst (tf_code f) $"code" (dump_details (tf_details f))) as Hcode.
  pose proof (lease_text_json (tf_code f) $"code" _ Hj) as Hj1.
  destruct (lease_text (tf_code f) _ _) as [code d1]. cbn [fst snd] in *.
  pose proof (lease_text_fst (tf_message f) $"message" d1) as Hmessage.
  pose proof (lease_text_json (tf_message f) $"message" _ Hj1) as Hj2.
  destruct (lease_text (tf_message f) _ _) as [message d2]. cbn [fst snd] in *.
  rewrite Hval; [by eexists|..]; cbn [ltf_code ltf_message ltf_details]; subst; [..|done];
    apply coerce_accepted; auto.
Qed.

(** What comes back never holds the reserved key. *)
Lemma from_lease_failure_key lf f :
  is_json (PDict (ltf_details lf)) = true → from_lease_failure unicode_name lf = Ok f →
  LEASE_ORIGINAL_KEY ∉ (tf_details f).*1.
Proof.
  intros Hj Hf. unfold from_lease_failure in Hf.
  apply bind_Ok in Hf as ([code message] & _ & Hf).
  unfold TerminalFailure_validate, frozen_validate in Hf.
  rewrite ImmutableJsonObject_json in Hf by (by apply is_json_pop). inv_result.
  injection Hik as <-. cbn [tf_details]. unfold freeze. rewrite map_values_keys. unfold dict_pop.
  by intros (kv & -> & [Hne _]%list_elem_of_filter)%list_elem_of_fmap.
Qed.

Lemma result_ref_roundtrip (rref : option TypedRef) :
  (∀ r, rref = Some r → TypedRef_wf r) →
  map_opt typed_ref (TypedRef_reference <$> rref) = Ok rref.
Proof. destruct rref as [r|]; simpl; [|done]. intros Hr. by rewrite typed_ref_reference by auto. Qed.

Lemma failure_roundtrip (fail : option TerminalFailure) lfail :
  (∀ f, fail = Some f → TerminalFailure_wf f ∧ LEASE_ORIGINAL_KEY ∉ (tf_details f).*1) →
  map_opt to_lease_failure fail = Ok lfail →
  map_opt (from_lease_failure unicode_name) lfail = Ok fail.
Proof.
  destruct fail as [f|]; simpl; intros Hf H; inv_result; [|done].
  destruct (Hf f eq_refl) as [Hwf Hk]. simpl. by erewrite to_from_lease_failure.
Qed.

(** C4. The failure conversion is total, and invertible but for one reserved
    key: given a dr-store that accepts every failure with acceptable texts and
    JSON details, each whetstone failure converts to a lease failure, and
    converting that back gives the very same failure (over-long, blank, NUL- or
    surrogate-carrying texts included) exactly when its details leave the
    reserved envelope key alone.  A failure whose details use that key loses
    it. *)
Theorem lease_failure_total_roundtrip f :
  TerminalFailure_wf f →
  (∀ lf, lease_text_accepted (ltf_code lf) = true → lease_text_accepted (ltf_message lf) = true →
         is_json (PDict (ltf_details lf)) = true → lease_failure_validate lf = Ok tt) →
  ∃ lf, to_lease_failure f = Ok lf ∧
    (from_lease_failure unicode_name lf = Ok f ↔ LEASE_ORIGINAL_KEY ∉ (tf_details f).*1).
Proof.
  intros Hwf Hval. destruct (to_lease_failure_total f Hwf Hval) as [lf Hlf].
  exists lf. split; [done|]. split; [|by intros Hk; apply to_from_lease_failure].
  apply from_lease_failure_key. destruct (to_lease_failure_Ok f lf Hlf) as (_ & _ & Hj).
  apply Hj. by destruct Hwf as (_ & _ & _ & _ & _ & ?).
Qed.

(** Persisting a terminal through the lease authority is exact: every
    effect terminal its constructor accepts converts to dr-store's
    vocabulary and back to the very same terminal, its failure text included
    however the transport coerced it, as long as the caller's details leave
    the reserved envelope key alone. *)
Theorem effect_terminal_roundtrip t :
  EffectTerminal_new (et_request t) (et_outcome t) (et_owner_id t) (et_attempt_id t)
    (et_fence t) (et_result_ref t) (et_failure t) = Ok t →
  (∀ r, et_result_ref t = Some r → TypedRef_wf r) →
  (∀ f, et_failure t = Some f →
        TerminalFailure_wf f ∧ LEASE_ORIGINAL_KEY ∉ (tf_details f).*1) →
  ∃ lt, EffectTerminal_to_lease t = Ok lt ∧ EffectTerminal_from_lease unicode_name lt = Ok t.
Proof.
  destruct t as [req out own att fence rref fail]. cbn. intros Hnew Href Hfail.
  pose proof Hnew as Hnew'. unfold EffectTerminal_new in Hnew'. inv_result.
  match goal with H : Build_EffectTerminal _ _ _ _ _ _ _ = _ |- _ => injection H as -> -> -> end.
  match goal with H : EffectTerminal_to_lease _ = Ok ?lt |- _ => exists lt; rename H into Hto end.
  split; [done|]. unfold EffectTerminal_to_lease in Hto. cbn in Hto. inv_result.
  unfold EffectTerminal_from_lease. cbn [term_owner_id term_attempt_id term_fence
    term_result_ref term_failure term_request term_outcome].
  repeat match goal with
  | H : NonEmptyId (PStr ?s) = _ |- context [NonEmptyId (PStr ?s)] => rewrite H; cbn [mbind result_bind]
  end.
  rewrite result_ref_roundtrip by done. cbn [mbind result_bind].
  by erewrite failure_roundtrip by done.
Qed.
End TerminalRoundTrip.

(** A concrete dr-store lease validation for the witnesses. *)
Module ConcreteLease.
#[export] Instance lease : DrLease := {|
  lease_request_validate r :=
    require (nonblank (lr_semantic_key r)) ValueError "semantic_key" ;;
    hash_validate (lr_request_hash r);
  lease_failure_validate lf :=
    require (lease_text_accepted (ltf_code lf) && lease_text_accepted (ltf_message lf)
             && is_json (PDict (ltf_details lf))) ValueError "failure";
  terminal_validate t :=
    require (match term_outcome t, term_failure t with
             | FAILED, Some _ | SUCCEEDED, None | RECOVERY_REQUIRED, _ => true
             | _, _ => false end) ValueError "outcome";
|}.

(** A failure whose code has a surrogate and whose message is blank. *)
Definition failure : TerminalFailure := {|
  tf_code := [120; 56320]%Z; tf_message := [32; 0]%Z;
  tf_details := [($"k", PTuple [PInt 1])] |}.

Definition terminal : EffectTerminal := {|
  et_request := {| lr_semantic_key := $"k"; lr_request_hash := Concrete.digest PNone;
                   lr_replay_policy := IDEMPOTENT |};
  et_outcome := FAILED; et_owner_id := $"owner"; et_attempt_id := $"a1"; et_fence := 7%Z;
  et_result_ref := Some {| tref_schema_name := $"s"; tref_content_hash := Concrete.digest PNone |};
  et_failure := Some failure |}.

Lemma failure_wf : TerminalFailure_wf failure ∧ LEASE_ORIGINAL_KEY ∉ (tf_details failure).*1.
Proof.
  split; [|apply (bool_decide_unpack _); by vm_compute].
  unfold TerminalFailure_wf. split_and!; try done; repeat constructor; lia.
Qed.
End ConcreteLease.

Section LeasingWitnesses.
Import Concrete ConcreteLease.

Lemma lease_failure_total_roundtrip_witness :
  TerminalFailure_wf failure ∧
  ∃ lf, to_lease_failure failure = Ok lf ∧
    (from_lease_failure (λ _, None) lf = Ok failure ↔ LEASE_ORIGINAL_KEY ∉ (tf_details failure).*1).
Proof.
  destruct failure_wf as [Hwf Hk]. split; [exact Hwf|].
  apply (lease_failure_total_roundtrip (λ _, None) failure Hwf).
  intros lf Hc Hm Hj. apply require_Ok. by rewrite Hc, Hm, Hj.
Defined.

(** A failure whose details hold an envelope of their own comes back without
    it. *)
Definition stuffed : TerminalFailure := {|
  tf_code := $"c"; tf_message := $"m";
  tf_details := [(LEASE_ORIGINAL_KEY, PFrozen [($"code", PStr $"x")]); ($"k", PInt 1)] |}.

Example stuffed_loses_key :
  (lf ← to_lease_failure stuffed; from_lease_failure (λ _, None) lf) =
  Ok {| tf_code := $"c"; tf_message := $"m"; tf_details := [($"k", PInt 1)] |}.
Proof. vm_compute. reflexivity. Qed.

Lemma effect_terminal_roundtrip_witness :
  ∃ lt, EffectTerminal_to_lease terminal = Ok lt ∧
        EffectTerminal_from_lease (λ _, None) lt = Ok terminal.
Proof.
  apply (effect_terminal_roundtrip (λ _, None) terminal).
  - by vm_compute.
  - intros r [= <-]. by vm_compute.
  - intros f [= <-]. exact failure_wf.
Defined.
End LeasingWitnesses.
