(* ===== verification/EvalConfigs.v ===== *)
(** * EvalConfigs: definitions materialized into content-addressed configs

    Models [src/whetstone/eval/config.py]: variable specifications and the
    resolution of an assignment against them, the definitions of sampling,
    preprocessing, metric extraction, evaluation procedure, aggregation and
    evaluation, and the configs they materialize with their identity hashes. *)

From S2P Require Import Prelude Identity.

(** ** Schema names *)

Definition SCHEMA_VERSION : Z := 1.
Definition SCHEMA_SAMPLING_DEFINITION := $"whetstone.sampling.definition".
Definition SCHEMA_SAMPLING_CONFIG := $"whetstone.sampling.config".
Definition SCHEMA_PREPROCESSING_DEFINITION := $"whetstone.preprocessing.definition".
Definition SCHEMA_PREPROCESSING_CONFIG := $"whetstone.preprocessing.config".
Definition SCHEMA_METRIC_EXTRACTION_DEFINITION := $"whetstone.metric_extraction.definition".
Definition SCHEMA_METRIC_EXTRACTION_CONFIG := $"whetstone.metric_extraction.config".
Definition SCHEMA_EVAL_PROCEDURE_DEFINITION := $"whetstone.eval_procedure.definition".
Definition SCHEMA_EVAL_PROCEDURE_CONFIG := $"whetstone.eval_procedure.config".
Definition SCHEMA_AGGREGATION_DEFINITION := $"whetstone.aggregation.definition".
Definition SCHEMA_AGGREGATION_CONFIG := $"whetstone.aggregation.config".
Definition SCHEMA_EVAL_DEFINITION := $"whetstone.eval.definition".
Definition SCHEMA_EVAL_CONFIG := $"whetstone.eval.config".
Definition SCHEMA_TASK_SET := $"whetstone.task_set".
Definition SCHEMA_SEED_PLAN := $"whetstone.seed_plan".
Definition SCHEMA_TASK_TRIAL_ID := $"whetstone.task_trial_id".

(** ** Variables and assignments *)

Record VariableSpec := {
  vs_name : pystr;
  vs_allowed : option (list pyval);
  vs_default : pyval;
  vs_has_default : bool;
}.

#[export] Instance VariableSpec_eq_dec : EqDecision VariableSpec.
Proof. solve_decision. Defined.

Definition VariableSpec_validate (self : VariableSpec) : result VariableSpec :=
  require (negb (vs_has_default self &&
                 match vs_allowed self with
                 | Some allowed => negb (py_in (vs_default self) allowed)
                 | None => false
                 end)) VariableError "default is not in its allowed values" ;;
  Ok self.

(** The value one specification takes from the assignment. *)
Definition resolve_value (assignment : list (pystr * pyval)) (spec : VariableSpec) :
    result pyval :=
  value ← match dict_get assignment (vs_name spec) with
          | Some value => Ok value
          | None =>
              if vs_has_default spec then Ok (vs_default spec)
              else raise VariableError "variable is unassigned"
          end;
  require (match vs_allowed spec with
           | Some allowed => py_in value allowed
           | None => true
           end) VariableError "not an allowed value" ;;
  Ok value.

(** The loop over the specifications, [resolved] holding the values so far. *)
Fixpoint resolve_loop (assignment : list (pystr * pyval)) (specs : list VariableSpec)
    (resolved : list (pystr * pyval)) : result (list (pystr * pyval)) :=
  match specs with
  | [] => Ok resolved
  | spec :: specs =>
      value ← resolve_value assignment spec;
      resolve_loop assignment specs (dict_set resolved (vs_name spec) value)
  end.

Definition resolve_assignment (specs : list VariableSpec) (assignment : list (pystr * pyval)) :
    result (list (pystr * pyval)) :=
  require (all_unique (vs_name <$> specs)) VariableError "variable names must be unique" ;;
  require (forallb (λ name, bool_decide (name ∈ vs_name <$> specs)) assignment.*1)
    VariableError "unknown variables" ;;
  resolve_loop assignment specs [].

Record DefinitionRef := {
  dr_definition_id : pystr;
  dr_version : pystr;
  dr_schema_name : pystr;
  dr_identity_hash : pystr;
}.

#[export] Instance DefinitionRef_eq_dec : EqDecision DefinitionRef.
Proof. solve_decision. Defined.

Definition spec_payload (spec : VariableSpec) : pyval :=
  PDict [($"name", PStr (vs_name spec));
         ($"allowed", match vs_allowed spec with None => PNone | Some l => PList l end);
         ($"has_default", PBool (vs_has_default spec));
         ($"default", if vs_has_default spec then vs_default spec else PNone)].

(** [payload.update(extra)]. *)
Definition dict_update (kvs extra : list (pystr * pyval)) : list (pystr * pyval) :=
  foldl (λ d kv, dict_set d kv.1 kv.2) kvs extra.

Definition assignment_payload (assignment : list (pystr * pyval)) : pyval :=
  PList ((λ kv, PList [PStr kv.1; kv.2]) <$> assignment).

Section Hashes.
Context `{DSer : !DrSerialize}.

Definition identity_hash_for (schema : pystr) (payload : pyval) : result pystr :=
  compute_identity_hash schema SCHEMA_VERSION payload.

Definition definition_config_hash (schema definition_id version : pystr)
    (variables : list VariableSpec) (extra : list (pystr * pyval)) : result pystr :=
  identity_hash_for schema
    (PDict (dict_update
      [($"definition_id", PStr definition_id); ($"version", PStr version);
       ($"variables", PList (spec_payload <$> variables))] extra)).

(** ** Canonical settings *)

Fixpoint canonicalize_validated_json (value : pyval) : pyval :=
  match value with
  | PDict kvs =>
      PDict (py_sorted (λ a b, str_leb a.1 b.1)
        ((λ kv, (kv.1, canonicalize_validated_json kv.2)) <$> kvs))
  | PList l => PList (canonicalize_validated_json <$> l)
  | _ => value
  end.

Definition canonical_json_value (value : pyval) : result pyval :=
  validated ← validate_strict_json value;
  Ok (canonicalize_validated_json validated).

(** ** Sampling *)

Record SamplingDefinition := {
  sd_definition_id : pystr;
  sd_version : pystr;
  sd_variables : list VariableSpec;
}.

(** [VariableSpec(name=name)]. *)
Definition plain_variable (name : pystr) : VariableSpec :=
  {| vs_name := name; vs_allowed := None; vs_default := PNone; vs_has_default := false |}.

Definition sampling_variables : list VariableSpec :=
  [plain_variable $"task_set_hash"; plain_variable $"seed_plan_hash"].

Definition SamplingDefinition_identity_hash (self : SamplingDefinition) : result pystr :=
  definition_config_hash SCHEMA_SAMPLING_DEFINITION (sd_definition_id self) (sd_version self)
    (sd_variables self) [].

Definition SamplingDefinition_ref (self : SamplingDefinition) : result DefinitionRef :=
  h ← SamplingDefinition_identity_hash self;
  Ok {| dr_definition_id := sd_definition_id self; dr_version := sd_version self;
        dr_schema_name := SCHEMA_SAMPLING_DEFINITION; dr_identity_hash := h |}.

Record SamplingConfig := {
  sc_definition_ref : DefinitionRef;
  sc_assignment : list (pystr * pyval);
  sc_config_hash : pystr;
}.

Definition SamplingConfig_create (definition : SamplingDefinition)
    (assignment : list (pystr * pyval)) : result SamplingConfig :=
  definition_identity ← SamplingDefinition_identity_hash definition;
  config_hash ← identity_hash_for SCHEMA_SAMPLING_CONFIG
    (PDict [($"definition_identity", PStr definition_identity);
            ($"assignment", assignment_payload assignment)]);
  ref ← SamplingDefinition_ref definition;
  Ok {| sc_definition_ref := ref; sc_assignment := assignment; sc_config_hash := config_hash |}.

Definition SamplingDefinition_materialize (self : SamplingDefinition)
    (assignment : list (pystr * pyval)) : result SamplingConfig :=
  resolved ← resolve_assignment (sd_variables self) assignment;
  SamplingConfig_create self resolved.

Definition SamplingConfig_assignment_dict (self : SamplingConfig) : list (pystr * pyval) :=
  dict_update [] (sc_assignment self).

(** ** Preprocessing *)

Record PreprocessingStepBinding := {
  psb_instance_name : pystr;
  psb_step : pystr;
  psb_settings : list (pystr * pyval);
}.

(** The [before] validator of [settings]: a mapping becomes its items. *)
Definition preprocessing_normalize_settings (value : pyval) : pyval :=
  match value with
  | PDict kvs => PTuple ((λ kv, PTuple [PStr kv.1; kv.2]) <$> kvs)
  | _ => value
  end.

Definition PreprocessingStepBinding_validate (self : PreprocessingStepBinding) :
    result PreprocessingStepBinding :=
  require (all_unique (psb_settings self).*1) ValueError
    "preprocessing setting names must be unique" ;;
  Ok self.

Record PreprocessingDefinition := {
  pd_definition_id : pystr;
  pd_version : pystr;
  pd_steps : list PreprocessingStepBinding;
  pd_variables : list VariableSpec;
}.

Definition PreprocessingDefinition_validate (self : PreprocessingDefinition) :
    result PreprocessingDefinition :=
  require (all_unique (psb_instance_name <$> pd_steps self)) ValueError
    "preprocessing instance names must be unique" ;;
  Ok self.

(** [[list(pair) for pair in settings]]. *)
Definition settings_payload (settings : list (pystr * pyval)) : pyval :=
  PList ((λ kv, PList [PStr kv.1; kv.2]) <$> settings).

Definition PreprocessingDefinition_identity_hash (self : PreprocessingDefinition) :
    result pystr :=
  definition_config_hash SCHEMA_PREPROCESSING_DEFINITION (pd_definition_id self)
    (pd_version self) (pd_variables self)
    [($"steps", PList ((λ binding,
        PDict [($"instance_name", PStr (psb_instance_name binding));
               ($"step", PStr (psb_step binding));
               ($"settings", settings_payload (psb_settings binding))]) <$> pd_steps self))].

Definition PreprocessingDefinition_ref (self : PreprocessingDefinition) : result DefinitionRef :=
  h ← PreprocessingDefinition_identity_hash self;
  Ok {| dr_definition_id := pd_definition_id self; dr_version := pd_version self;
        dr_schema_name := SCHEMA_PREPROCESSING_DEFINITION; dr_identity_hash := h |}.

Record PreprocessingConfig := {
  pc_definition_ref : DefinitionRef;
  pc_assignment : list (pystr * pyval);
  pc_resolved_step_versions : list (pystr * pystr * pystr);
  pc_config_hash : pystr;
}.

Definition PreprocessingConfig_create (definition : PreprocessingDefinition)
    (assignment : list (pystr * pyval)) (resolved_steps : list (pystr * pystr * pystr)) :
    result PreprocessingConfig :=
  definition_identity ← PreprocessingDefinition_identity_hash definition;
  config_hash ← identity_hash_for SCHEMA_PREPROCESSING_CONFIG
    (PDict [($"definition_identity", PStr definition_identity);
            ($"assignment", assignment_payload assignment);
            ($"resolved_step_versions",
              PList ((λ '(a, b, c), PList [PStr a; PStr b; PStr c]) <$> resolved_steps))]);
  ref ← PreprocessingDefinition_ref definition;
  Ok {| pc_definition_ref := ref; pc_assignment := assignment;
        pc_resolved_step_versions := resolved_steps; pc_config_hash := config_hash |}.

Definition PreprocessingDefinition_materialize (self : PreprocessingDefinition)
    (assignment : list (pystr * pyval)) (resolved_steps : list (pystr * pystr * pystr)) :
    result PreprocessingConfig :=
  require (length resolved_steps =? length (pd_steps self))%nat ValueError
    "resolved preprocessing steps must match definition steps" ;;
  require (bool_decide (((λ '(name, step, _), (name, step)) <$> resolved_steps) =
                        ((λ b, (psb_instance_name b, psb_step b)) <$> pd_steps self))) ValueError
    "resolved preprocessing steps must preserve definition order" ;;
  resolved ← resolve_assignment (pd_variables self) assignment;
  PreprocessingConfig_create self resolved resolved_steps.

(** ** Metric extraction *)

Record MetricQuestionBinding := {
  mqb_metric : pystr;
  mqb_on : pystr;
  mqb_settings : list (pystr * pyval);
}.

(** A pair of the list form: a two-element sequence that starts with a name. *)
Definition as_pair (v : pyval) : option (pystr * pyval) :=
  match v with
  | PList [PStr name; x] | PTuple [PStr name; x] => Some (name, x)
  | _ => None
  end.

(** The loop over the pairs; [None] is the early [return value]. *)
Fixpoint normalize_pairs (pairs : list pyval) : result (option (list (pystr * pyval))) :=
  match pairs with
  | [] => Ok (Some [])
  | p :: pairs =>
      match as_pair p with
      | None => Ok None
      | Some (name, setting_value) =>
          v ← canonical_json_value setting_value;
          rest ← normalize_pairs pairs;
          Ok (option_map (cons (name, v)) rest)
      end
  end.

Definition items_value (kvs : list (pystr * pyval)) : pyval :=
  PTuple ((λ kv, PTuple [PStr kv.1; kv.2]) <$> kvs).

(** The [before] validator of a metric question's settings. *)
Definition metric_normalize_settings (value : pyval) : result pyval :=
  match value with
  | PDict _ =>
      canonical ← canonical_json_value value;
      match canonical with
      | PDict kvs => Ok (items_value kvs)
      | _ => raise TypeError "metric settings must be a JSON object"
      end
  | PList pairs | PTuple pairs =>
      normalized ← normalize_pairs pairs;
      match normalized with
      | Some kvs => Ok (items_value (py_sorted (λ a b, str_leb a.1 b.1) kvs))
      | None => Ok value
      end
  | _ => Ok value
  end.

Definition MetricQuestionBinding_validate (self : MetricQuestionBinding) :
    result MetricQuestionBinding :=
  require (all_unique (mqb_settings self).*1) ValueError "metric setting names must be unique" ;;
  Ok self.

Definition MetricQuestionBinding_settings_dict (self : MetricQuestionBinding) :
    list (pystr * pyval) := dict_update [] (mqb_settings self).

Record MetricExtractionDefinition := {
  md_definition_id : pystr;
  md_version : pystr;
  md_questions : list MetricQuestionBinding;
  md_variables : list VariableSpec;
}.

(** [json_dumps] is [json.dumps] with sorted keys and compact separators. *)
Definition MetricExtractionDefinition_validate (json_dumps : pyval → pystr)
    (self : MetricExtractionDefinition) : result MetricExtractionDefinition :=
  let identities :=
    (λ question, (mqb_metric question, mqb_on question,
                  json_dumps (settings_payload (mqb_settings question)))) <$> md_questions self in
  require (all_unique identities) ValueError
    "metric questions must have unique (metric, on, settings) triples" ;;
  Ok self.

Definition MetricExtractionDefinition_identity_hash (self : MetricExtractionDefinition) :
    result pystr :=
  definition_config_hash SCHEMA_METRIC_EXTRACTION_DEFINITION (md_definition_id self)
    (md_version self) (md_variables self)
    [($"questions", PList ((λ question,
        PDict [($"metric", PStr (mqb_metric question));
               ($"on", PStr (mqb_on question));
               ($"settings", settings_payload (mqb_settings question))]) <$> md_questions self))].

Definition MetricExtractionDefinition_ref (self : MetricExtractionDefinition) :
    result DefinitionRef :=
  h ← MetricExtractionDefinition_identity_hash self;
  Ok {| dr_definition_id := md_definition_id self; dr_version := md_version self;
        dr_schema_name := SCHEMA_METRIC_EXTRACTION_DEFINITION; dr_identity_hash := h |}.

Record MetricExtractionConfig := {
  mc_definition_ref : DefinitionRef;
  mc_assignment : list (pystr * pyval);
  mc_resolved_operator_versions : list (pystr * pystr);
  mc_config_hash : pystr;
}.

Definition MetricExtractionConfig_create (definition : MetricExtractionDefinition)
    (assignment : list (pystr * pyval)) (resolved_operators : list (pystr * pystr)) :
    result MetricExtractionConfig :=
  definition_identity ← MetricExtractionDefinition_identity_hash definition;
  config_hash ← identity_hash_for SCHEMA_METRIC_EXTRACTION_CONFIG
    (PDict [($"definition_identity", PStr definition_identity);
            ($"assignment", assignment_payload assignment);
            ($"resolved_operator_versions",
              PList ((λ '(a, b), PList [PStr a; PStr b]) <$> resolved_operators))]);
  ref ← MetricExtractionDefinition_ref definition;
  Ok {| mc_definition_ref := ref; mc_assignment := assignment;
        mc_resolved_operator_versions := resolved_operators; mc_config_hash := config_hash |}.

Definition MetricExtractionDefinition_materialize (self : MetricExtractionDefinition)
    (assignment : list (pystr * pyval)) (resolved_operators : list (pystr * pystr)) :
    result MetricExtractionConfig :=
  require (length resolved_operators =? length (md_questions self))%nat ValueError
    "resolved metric operators must match definition questions" ;;
  require (bool_decide (resolved_operators.*1 = mqb_metric <$> md_questions self)) ValueError
    "resolved metric operators must preserve question order" ;;
  resolved ← resolve_assignment (md_variables self) assignment;
  MetricExtractionConfig_create self resolved resolved_operators.

(** ** Evaluation procedure *)

Record EvalProcedureDefinition := {
  epd_definition_id : pystr;
  epd_version : pystr;
  epd_variables : list VariableSpec;
}.

Definition procedure_variables : list VariableSpec :=
  [{| vs_name := $"zero_denominator";
      vs_allowed := Some [PStr $"not_applicable"; PStr $"error"];
      vs_default := PNone; vs_has_default := false |}].

Definition EvalProcedureDefinition_identity_hash (self : EvalProcedureDefinition) :
    result pystr :=
  definition_config_hash SCHEMA_EVAL_PROCEDURE_DEFINITION (epd_definition_id self)
    (epd_version self) (epd_variables self) [].

Definition EvalProcedureDefinition_ref (self : EvalProcedureDefinition) : result DefinitionRef :=
  h ← EvalProcedureDefinition_identity_hash self;
  Ok {| dr_definition_id := epd_definition_id self; dr_version := epd_version self;
        dr_schema_name := SCHEMA_EVAL_PROCEDURE_DEFINITION; dr_identity_hash := h |}.

Record EvalProcedureConfig := {
  epc_definition_ref : DefinitionRef;
  epc_preprocessing_config_hash : pystr;
  epc_metric_extraction_config_hash : pystr;
  epc_assignment : list (pystr * pyval);
  epc_config_hash : pystr;
}.

Definition EvalProcedureConfig_create (definition : EvalProcedureDefinition)
    (preprocessing : PreprocessingConfig) (metric_extraction : MetricExtractionConfig)
    (assignment : list (pystr * pyval)) : result EvalProcedureConfig :=
  definition_identity ← EvalProcedureDefinition_identity_hash definition;
  config_hash ← identity_hash_for SCHEMA_EVAL_PROCEDURE_CONFIG
    (PDict [($"definition_identity", PStr definition_identity);
            ($"preprocessing_config", PStr (pc_config_hash preprocessing));
            ($"metric_extraction_config", PStr (mc_config_hash metric_extraction));
            ($"assignment", assignment_payload assignment)]);
  ref ← EvalProcedureDefinition_ref definition;
  Ok {| epc_definition_ref := ref;
        epc_preprocessing_config_hash := pc_config_hash preprocessing;
        epc_metric_extraction_config_hash := mc_config_hash metric_extraction;
        epc_assignment := assignment; epc_config_hash := config_hash |}.

Definition EvalProcedureDefinition_materialize (self : EvalProcedureDefinition)
    (preprocessing : PreprocessingConfig) (metric_extraction : MetricExtractionConfig)
    (assignment : list (pystr * pyval)) : result EvalProcedureConfig :=
  resolved ← resolve_assignment (epd_variables self) assignment;
  EvalProcedureConfig_create self preprocessing metric_extraction resolved.

(** ** Aggregation *)

Record AggregationDefinition := {
  ad_definition_id : pystr;
  ad_version : pystr;
  ad_variables : list VariableSpec;
}.

Definition aggregation_variables : list VariableSpec :=
  [{| vs_name := $"reduction"; vs_allowed := Some [PStr $"mean"; PStr $"sum"];
      vs_default := PNone; vs_has_default := false |};
   {| vs_name := $"missing_data"; vs_allowed := Some [PStr $"propagate"; PStr $"skip"];
      vs_default := PStr $"propagate"; vs_has_default := true |};
   {| vs_name := $"zero_denominator";
      vs_allowed := Some [PStr $"not_applicable"; PStr $"error"];
      vs_default := PStr $"not_applicable"; vs_has_default := true |}].

Definition AggregationDefinition_identity_hash (self : AggregationDefinition) : result pystr :=
  definition_config_hash SCHEMA_AGGREGATION_DEFINITION (ad_definition_id self)
    (ad_version self) (ad_variables self) [].

Definition AggregationDefinition_ref (self : AggregationDefinition) : result DefinitionRef :=
  h ← AggregationDefinition_identity_hash self;
  Ok {| dr_definition_id := ad_definition_id self; dr_version := ad_version self;
        dr_schema_name := SCHEMA_AGGREGATION_DEFINITION; dr_identity_hash := h |}.

Record AggregationConfig := {
  ac_definition_ref : DefinitionRef;
  ac_assignment : list (pystr * pyval);
  ac_config_hash : pystr;
}.

Definition AggregationConfig_create (definition : AggregationDefinition)
    (assignment : list (pystr * pyval)) : result AggregationConfig :=
  definition_identity ← AggregationDefinition_identity_hash definition;
  config_hash ← identity_hash_for SCHEMA_AGGREGATION_CONFIG
    (PDict [($"definition_identity", PStr definition_identity);
            ($"assignment", assignment_payload assignment)]);
  ref ← AggregationDefinition_ref definition;
  Ok {| ac_definition_ref := ref; ac_assignment := assignment; ac_config_hash := config_hash |}.

Definition AggregationDefinition_materialize (self : AggregationDefinition)
    (assignment : list (pystr * pyval)) : result AggregationConfig :=
  resolved ← resolve_assignment (ad_variables self) assignment;
  AggregationConfig_create self resolved.

Definition AggregationConfig_assignment_dict (self : AggregationConfig) : list (pystr * pyval) :=
  dict_update [] (ac_assignment self).

(** ** Evaluation *)

Record EvalDefinition := {
  ed_definition_id : pystr;
  ed_version : pystr;
  ed_variables : list VariableSpec;
}.

Definition eval_variables : list VariableSpec :=
  [plain_variable $"sampling_config_hash"; plain_variable $"evaluation_procedure_config_hash";
   plain_variable $"aggregation_config_hash"].

Definition EvalDefinition_identity_hash (self : EvalDefinition) : result pystr :=
  definition_config_hash SCHEMA_EVAL_DEFINITION (ed_definition_id self)
    (ed_version self) (ed_variables self) [].

Definition EvalDefinition_ref (self : EvalDefinition) : result DefinitionRef :=
  h ← EvalDefinition_identity_hash self;
  Ok {| dr_definition_id := ed_definition_id self; dr_version := ed_version self;
        dr_schema_name := SCHEMA_EVAL_DEFINITION; dr_identity_hash := h |}.

Record EvalConfig := {
  ec_definition_ref : DefinitionRef;
  ec_sampling_config_hash : pystr;
  ec_evaluation_procedure_config_hash : pystr;
  ec_aggregation_config_hash : pystr;
  ec_config_hash : pystr;
}.

(** The payload whose hash is the config's identity. *)
Definition EvalConfig_payload (definition_identity sampling procedure aggregation : pystr) :
    pyval :=
  PDict [($"definition_identity", PStr definition_identity);
         ($"sampling_config", PStr sampling);
         ($"evaluation_procedure_config", PStr procedure);
         ($"aggregation_config", PStr aggregation)].

Definition EvalConfig_create (definition : EvalDefinition) (sampling : SamplingConfig)
    (evaluation_procedure : EvalProcedureConfig) (aggregation : AggregationConfig) :
    result EvalConfig :=
  definition_identity ← EvalDefinition_identity_hash definition;
  config_hash ← identity_hash_for SCHEMA_EVAL_CONFIG
    (EvalConfig_payload definition_identity (sc_config_hash sampling)
       (epc_config_hash evaluation_procedure) (ac_config_hash aggregation));
  ref ← EvalDefinition_ref definition;
  Ok {| ec_definition_ref := ref;
        ec_sampling_config_hash := sc_config_hash sampling;
        ec_evaluation_procedure_config_hash := epc_config_hash evaluation_procedure;
        ec_aggregation_config_hash := ac_config_hash aggregation;
        ec_config_hash := config_hash |}.

Definition EvalDefinition_materialize (self : EvalDefinition) (sampling : SamplingConfig)
    (evaluation_procedure : EvalProcedureConfig) (aggregation : AggregationConfig) :
    result EvalConfig :=
  EvalConfig_create self sampling evaluation_procedure aggregation.
End Hashes.

#[export] Instance EvalConfig_eq_dec : EqDecision EvalConfig.
Proof. solve_decision. Defined.
#[export] Instance AggregationConfig_eq_dec : EqDecision AggregationConfig.
Proof. solve_decision. Defined.
#[export] Instance SamplingConfig_eq_dec : EqDecision SamplingConfig.
Proof. solve_decision. Defined.

(** The [model_dump(mode="json")] of a definition reference and of an
    evaluation config. *)
Definition DefinitionRef_dump (r : DefinitionRef) : pyval :=
  PDict [($"definition_id", PStr (dr_definition_id r)); ($"version", PStr (dr_version r));
         ($"schema_name", PStr (dr_schema_name r));
         ($"identity_hash", PStr (dr_identity_hash r))].

Definition EvalConfig_dump (c : EvalConfig) : pyval :=
  PDict [($"definition_ref", DefinitionRef_dump (ec_definition_ref c));
         ($"sampling_config_hash", PStr (ec_sampling_config_hash c));
         ($"evaluation_procedure_config_hash", PStr (ec_evaluation_procedure_config_hash c));
         ($"aggregation_config_hash", PStr (ec_aggregation_config_hash c));
         ($"config_hash", PStr (ec_config_hash c))].

(** ** Theorems on resolution *)

Section ResolveTheorems.
Implicit Types assignment resolved r : list (pystr * pyval).

(** What one specification contributes to the resolved assignment. *)
Definition resolves assignment (spec : VariableSpec) (kv : pystr * pyval) : Prop :=
  kv.1 = vs_name spec ∧ resolve_value assignment spec = Ok kv.2.

Lemma resolves_keys assignment specs r :
  Forall2 (resolves assignment) specs r → r.*1 = vs_name <$> specs.
Proof. induction 1 as [|spec kv specs r [Hk _] _ IH]; csimpl; [done|]. by rewrite Hk, IH. Qed.

Lemma resolve_loop_Ok assignment specs resolved r :
  NoDup (resolved.*1 ++ (vs_name <$> specs)) →
  resolve_loop assignment specs resolved = Ok r ↔
  ∃ r', r = resolved ++ r' ∧ Forall2 (resolves assignment) specs r'.
Proof.
  revert resolved. induction specs as [|spec specs IH]; intros resolved Hnd; simpl.
  - split; [intros; inv_result; exists []; by rewrite app_nil_r|].
    intros (r' & -> & ->%Forall2_nil_inv_l). by rewrite app_nil_r.
  - rewrite fmap_cons in Hnd.
    assert (vs_name spec ∉ resolved.*1) as Hfresh.
    { apply NoDup_app in Hnd as (_ & Hd & _). intros Hin. by apply (Hd _ Hin), list_elem_of_here. }
    assert (∀ v, NoDup ((dict_set resolved (vs_name spec) v).*1 ++ (vs_name <$> specs))) as Hnd'.
    { intros v. rewrite dict_set_fresh by done. rewrite fmap_app, <-app_assoc. done. }
    rewrite bind_Ok. split.
    + intros (v & Hv & (r' & -> & Hf)%IH); [|done]. rewrite dict_set_fresh by done.
      exists ((vs_name spec, v) :: r'). rewrite <-app_assoc. split; [done|]. by constructor.
    + intros (r' & -> & ([k v] & r2 & [Hk Hv] & Hf & ->)%Forall2_cons_inv_l).
      simpl in Hk, Hv. subst k. exists v. split; [done|]. apply IH; [done|].
      exists r2. rewrite dict_set_fresh by done. by rewrite <-app_assoc.
Qed.

Lemma resolve_assignment_Ok specs assignment r :
  resolve_assignment specs assignment = Ok r ↔
  NoDup (vs_name <$> specs) ∧ assignment.*1 ⊆ vs_name <$> specs ∧
  Forall2 (resolves assignment) specs r.
Proof.
  assert (forallb (λ name, bool_decide (name ∈ vs_name <$> specs)) assignment.*1 = true ↔
          assignment.*1 ⊆ vs_name <$> specs) as Hsub.
  { rewrite forallb_Forall, Forall_forall. by setoid_rewrite bool_decide_eq_true. }
  unfold resolve_assignment. split.
  - intros H. inv_result.
    match goal with H : all_unique _ = true |- _ => apply all_unique_NoDup in H as Hnd end.
    match goal with H : resolve_loop _ _ _ = _ |- _ => apply resolve_loop_Ok in H as (r' & -> & Hf) end;
      [|done]. by rewrite <-Hsub.
  - intros (Hnd & Hk & Hf). rewrite (proj2 (all_unique_NoDup _) Hnd), (proj2 Hsub Hk). simpl.
    apply resolve_loop_Ok; [done|]. by exists r.
Qed.

(** A value resolved from the resolved assignment is the same value. *)
Lemma resolves_again assignment specs r :
  NoDup (vs_name <$> specs) → Forall2 (resolves assignment) specs r →
  Forall2 (resolves r) specs r.
Proof.
  intros Hnd Hf. pose proof (resolves_keys _ _ _ Hf) as Hkeys.
  apply Forall2_same_length_lookup. split; [by eapply Forall2_length|].
  intros i spec [k v] Hs Hkv. eapply Forall2_lookup_lr in Hf as [Hk Hv]; [|done..].
  simpl in *. subst k. split; [done|]. simpl. unfold resolve_value in *.
  assert (dict_get r (vs_name spec) = Some v) as ->.
  { rewrite <-Hkeys in Hnd. clear -Hnd Hkv. revert i Hkv.
    induction r as [|[k' v'] r IH]; intros [|i] Hkv; simplify_eq/=.
    - by rewrite decide_True.
    - apply NoDup_cons in Hnd as [Hn Hnd]. rewrite decide_False; [by eauto|].
      intros Heq. apply Hn. rewrite <-Heq. apply list_elem_of_fmap.
      exists (vs_name spec, v). split; [done|].
      by eapply list_elem_of_lookup_2. }
  destruct (dict_get assignment _); simpl in *; inv_result; simplify_eq/=.
  - match goal with H : ?b = true |- context [require ?b _ _] => by rewrite H end.
  - destruct (vs_has_default spec); simplify_eq/=. inv_result.
    match goal with H : ?b = true |- context [require ?b _ _] => by rewrite H end.
Qed.
End ResolveTheorems.

(** Resolution is exact: it succeeds precisely when the variable names are
    unique, the assignment names only declared variables, and every variable
    has an allowed value, assigned or defaulted; the result then lists one
    value per variable in declaration order, and resolving that result again
    gives it back. *)
Theorem resolve_assignment_exact specs assignment r :
  (resolve_assignment specs assignment = Ok r ↔
   NoDup (vs_name <$> specs) ∧ assignment.*1 ⊆ vs_name <$> specs ∧
   Forall2 (λ spec kv, kv.1 = vs_name spec ∧
     (dict_get assignment (vs_name spec) = Some kv.2 ∨
      dict_get assignment (vs_name spec) = None ∧ vs_has_default spec = true ∧
      kv.2 = vs_default spec) ∧
     (∀ allowed, vs_allowed spec = Some allowed → py_in kv.2 allowed = true)) specs r) ∧
  (resolve_assignment specs assignment = Ok r → resolve_assignment specs r = Ok r).
Proof.
  split.
  - rewrite resolve_assignment_Ok. do 2 f_equiv.
    split; intros Hf; (eapply Forall2_impl; [exact Hf|]); clear Hf.
    + intros spec [k v] [-> Hv]. simpl in *. split; [done|]. unfold resolve_value in Hv.
      destruct (dict_get assignment _), (vs_has_default spec), (vs_allowed spec);
        simpl in *; inv_result; naive_solver.
    + intros spec [k v] (Hk & Hv & Ha). simpl in *. subst k. split; [done|]. simpl. unfold resolve_value.
      destruct (vs_allowed spec) as [l|].
      * specialize (Ha l eq_refl). destruct Hv as [->|(-> & -> & ->)]; simpl; by rewrite Ha.
      * by destruct Hv as [->|(-> & -> & ->)].
  - intros (Hnd & Hsub & Hf)%resolve_assignment_Ok. apply resolve_assignment_Ok.
    split; [done|]. split; [|by eapply resolves_again].
    by rewrite (resolves_keys _ _ _ Hf).
Qed.

Lemma resolve_assignment_exact_witness :
  let r := [($"reduction", PStr $"mean"); ($"missing_data", PStr $"skip");
            ($"zero_denominator", PStr $"not_applicable")] in
  resolve_assignment aggregation_variables
    [($"missing_data", PStr $"skip"); ($"reduction", PStr $"mean")] = Ok r ∧
  resolve_assignment aggregation_variables r = Ok r.
Proof.
  intros r.
  assert (resolve_assignment aggregation_variables
    [($"missing_data", PStr $"skip"); ($"reduction", PStr $"mean")] = Ok r) as Hr
    by (vm_compute; reflexivity).
  split; [exact Hr|].
  exact (proj2 (resolve_assignment_exact aggregation_variables
    [($"missing_data", PStr $"skip"); ($"reduction", PStr $"mean")] r) Hr).
Defined.
