(* ===== verification/Reward.v ===== *)
(** * Reward: scalarizing evaluation aggregates

    Models [src/whetstone/experiment/reward.py] and [core/roles.py]: reward
    policies, their application to named aggregates, the citations of a reward
    and the validation that re-derives its value, bit for bit, from them. *)

From S2P Require Import Prelude Identity Floats.
From Stdlib Require Import SpecFloat.

Inductive EvalRole := INTERNAL | OFFICIAL | HELD_OUT.

#[export] Instance EvalRole_eq_dec : EqDecision EvalRole.
Proof. solve_decision. Defined.

Definition EvalRole_value (r : EvalRole) : pystr :=
  match r with INTERNAL => $"internal" | OFFICIAL => $"official" | HELD_OUT => $"held_out" end.

Definition REWARD_SCHEMA : pystr := $"whetstone.reward".
Definition REWARD_POLICY_SCHEMA : pystr := $"whetstone.reward_policy".
Definition REWARD_POLICY_SCHEMA_VERSION : Z := 1.

Inductive MissingDataPolicy := FAIL | WORST | SKIP.

#[export] Instance MissingDataPolicy_eq_dec : EqDecision MissingDataPolicy.
Proof. solve_decision. Defined.

Definition MissingDataPolicy_value (m : MissingDataPolicy) : pystr :=
  match m with FAIL => $"fail" | WORST => $"worst" | SKIP => $"skip" end.

#[export] Instance float_eq_dec : EqDecision float.
Proof. solve_decision. Defined.

(** ** Policies *)

Record RewardTerm := {
  rt_name : pystr;
  rt_weight : float;
  rt_maximize : bool;
  rt_worst_value : float;
}.

Record RewardPolicy := {
  rp_policy_name : pystr;
  rp_reward_name : pystr;
  rp_terms : list RewardTerm;
  rp_missing_data : MissingDataPolicy;
}.

#[export] Instance RewardTerm_eq_dec : EqDecision RewardTerm.
Proof. solve_decision. Defined.
#[export] Instance RewardPolicy_eq_dec : EqDecision RewardPolicy.
Proof. solve_decision. Defined.

(** A [FiniteFloat] field: strict, finite, and [-0.0] read as [0.0]. *)
Definition finite_field (f : float) : result float :=
  require (fisfinite f) ValueError "finite number" ;; FiniteFloat (PFloat f).

Definition RewardTerm_new (name : pystr) (weight : float) (maximize : bool)
    (worst_value : float) : result RewardTerm :=
  name ← NonEmptyId (PStr name);
  weight ← finite_field weight;
  worst_value ← finite_field worst_value;
  Ok {| rt_name := name; rt_weight := weight; rt_maximize := maximize;
        rt_worst_value := worst_value |}.

Definition RewardTerm_identity_payload (self : RewardTerm) : pyval :=
  PDict [($"name", PStr (rt_name self)); ($"weight", PFloat (rt_weight self));
         ($"maximize", PBool (rt_maximize self));
         ($"worst_value", PFloat (rt_worst_value self))].

(** The model validator of [RewardPolicy]. *)
Definition RewardPolicy_validate (self : RewardPolicy) : result RewardPolicy :=
  require (negb (bool_decide (rp_terms self = []))) ValueError
    "a Reward Policy must have at least one term" ;;
  require (all_unique (rt_name <$> rp_terms self)) ValueError
    "Reward Policy term names must be unique" ;;
  Ok self.

Definition RewardPolicy_new (policy_name reward_name : pystr) (terms : list RewardTerm)
    (missing_data : MissingDataPolicy) : result RewardPolicy :=
  policy_name ← NonEmptyId (PStr policy_name);
  reward_name ← NonEmptyId (PStr reward_name);
  RewardPolicy_validate
    {| rp_policy_name := policy_name; rp_reward_name := reward_name; rp_terms := terms;
       rp_missing_data := missing_data |}.

Definition RewardPolicy_identity_payload (self : RewardPolicy) : pyval :=
  PDict [($"policy_name", PStr (rp_policy_name self));
         ($"reward_name", PStr (rp_reward_name self));
         ($"terms", PList (RewardTerm_identity_payload <$> rp_terms self));
         ($"missing_data", PStr (MissingDataPolicy_value (rp_missing_data self)))].

Definition RewardPolicy_identity_hash `{!DrSerialize} (self : RewardPolicy) : result pystr :=
  compute_identity_hash REWARD_POLICY_SCHEMA REWARD_POLICY_SCHEMA_VERSION
    (RewardPolicy_identity_payload self).

(** ** Citations *)

Record RewardInputCitation := {
  ric_name : pystr;
  ric_value : option float;
  ric_contributed : float;
  ric_was_missing : bool;
}.

#[export] Instance RewardInputCitation_eq_dec : EqDecision RewardInputCitation.
Proof. solve_decision. Defined.

Definition RewardInputCitation_new (name : pystr) (value : option float) (contributed : float)
    (was_missing : bool) : result RewardInputCitation :=
  name ← NonEmptyId (PStr name);
  value ← match value with None => Ok None | Some v => v ← finite_field v; Ok (Some v) end;
  contributed ← finite_field contributed;
  require (bool_decide (was_missing = bool_decide (value = None))) ValueError
    "Reward citation missingness must match its exact value" ;;
  Ok {| ric_name := name; ric_value := value; ric_contributed := contributed;
        ric_was_missing := was_missing |}.

Definition scalarize_term (term : RewardTerm) (value : option float) (was_missing : bool)
    (missing_data : MissingDataPolicy) : result float :=
  let weigh used :=
    let signed := if rt_maximize term then used else fopp used in
    fmul (rt_weight term) signed in
  if was_missing then
    match missing_data with
    | FAIL => raise ValueError
        "a FAIL Reward Policy cannot produce a Reward from missing input"
    | SKIP => Ok fzero
    | WORST => Ok (weigh (rt_worst_value term))
    end
  else
    value ← of_option value AssertionError "";
    Ok (weigh value).

(** ** Rewards *)

Record Reward := {
  rw_reward_name : pystr;
  rw_value : float;
  rw_reward_policy : RewardPolicy;
  rw_evidence_role : EvalRole;
  rw_input_citations : list RewardInputCitation;
  rw_evidence_refs : list TypedRef;
  rw_provenance_ordinal : option Z;
}.

#[export] Instance Reward_eq_dec : EqDecision Reward.
Proof. solve_decision. Defined.

(** The loop of [Reward._validate] over terms and citations; it is entered with
    lists of equal length. *)
Fixpoint citations_total (missing_data : MissingDataPolicy) (terms : list RewardTerm)
    (citations : list RewardInputCitation) (expected_total : float) : result float :=
  match terms, citations with
  | term :: terms, citation :: citations =>
      expected ← scalarize_term term (ric_value citation) (ric_was_missing citation) missing_data;
      require (feq (ric_contributed citation) expected) ValueError
        "Reward citation contribution must exactly apply its Reward Policy term" ;;
      citations_total missing_data terms citations (fadd expected_total expected)
  | _, _ => Ok expected_total
  end.

(** The model validator of [Reward]. *)
Definition Reward_validate (self : Reward) : result Reward :=
  require (bool_decide (rw_evidence_role self = INTERNAL)) ValueError
    "a Reward may only cite evidence with the internal Evaluation Role" ;;
  require (negb (bool_decide (rw_input_citations self = []))) ValueError
    "a Reward must cite at least one input term" ;;
  require (negb (bool_decide (rw_evidence_refs self = []))) ValueError
    "an internal Reward must cite at least one exact evidence ref" ;;
  require (all_unique (rw_evidence_refs self)) ValueError
    "Reward evidence_refs must be unique" ;;
  require (bool_decide (rw_reward_name self = rp_reward_name (rw_reward_policy self))) ValueError
    "Reward name must match its exact Reward Policy" ;;
  require (bool_decide ((ric_name <$> rw_input_citations self) =
                        (rt_name <$> rp_terms (rw_reward_policy self)))) ValueError
    "Reward input citations must exactly match Reward Policy term names and order" ;;
  expected_total ← citations_total (rp_missing_data (rw_reward_policy self))
    (rp_terms (rw_reward_policy self)) (rw_input_citations self) fzero;
  require (feq (rw_value self) expected_total) ValueError
    "Reward value must equal the exact scalarized citation total" ;;
  Ok self.

(** [Reward(...)]: the field validation, then the model validator. *)
Definition Reward_new (reward_name : pystr) (value : float) (reward_policy : RewardPolicy)
    (evidence_role : EvalRole) (input_citations : list RewardInputCitation)
    (evidence_refs : list TypedRef) (provenance_ordinal : option Z) : result Reward :=
  reward_name ← NonEmptyId (PStr reward_name);
  value ← finite_field value;
  require (match provenance_ordinal with Some n => (0 <=? n)%Z | None => true end) ValueError
    "greater than or equal to 0" ;;
  Reward_validate
    {| rw_reward_name := reward_name; rw_value := value; rw_reward_policy := reward_policy;
       rw_evidence_role := evidence_role; rw_input_citations := input_citations;
       rw_evidence_refs := evidence_refs; rw_provenance_ordinal := provenance_ordinal |}.

Definition Reward_policy_hash `{!DrSerialize} (self : Reward) : result pystr :=
  RewardPolicy_identity_hash (rw_reward_policy self).

(** The JSON dump of a reward ([record_content]). *)
Definition POption {A} (f : A → pyval) (x : option A) : pyval :=
  match x with None => PNone | Some a => f a end.

Definition TypedRef_dump (r : TypedRef) : pyval :=
  PDict [($"schema_name", PStr (tref_schema_name r));
         ($"content_hash", PStr (tref_content_hash r))].

Definition RewardPolicy_dump (p : RewardPolicy) : pyval := RewardPolicy_identity_payload p.

Definition RewardInputCitation_dump (c : RewardInputCitation) : pyval :=
  PDict [($"name", PStr (ric_name c)); ($"value", POption PFloat (ric_value c));
         ($"contributed", PFloat (ric_contributed c));
         ($"was_missing", PBool (ric_was_missing c))].

Definition Reward_record_content (self : Reward) : pyval :=
  PDict [($"reward_name", PStr (rw_reward_name self));
         ($"value", PFloat (rw_value self));
         ($"reward_policy", RewardPolicy_dump (rw_reward_policy self));
         ($"evidence_role", PStr (EvalRole_value (rw_evidence_role self)));
         ($"input_citations", PList (RewardInputCitation_dump <$> rw_input_citations self));
         ($"evidence_refs", PList (TypedRef_dump <$> rw_evidence_refs self));
         ($"provenance_ordinal", POption PInt (rw_provenance_ordinal self))].

Record RewardRef := {
  rwr_record : Reward;
  rwr_record_ref : TypedRef;
}.

#[export] Instance RewardRef_eq_dec : EqDecision RewardRef.
Proof. solve_decision. Defined.

Section RewardRefs.
Context `{DSer : !DrSerialize, DSto : !DrStore}.

Definition RewardRef_new (record : Reward) (record_ref : TypedRef) : result RewardRef :=
  expected ← typed_ref_for_record REWARD_SCHEMA (Reward_record_content record);
  require (bool_decide (record_ref = expected)) ValueError
    "Reward record_ref must address the exact Reward record" ;;
  Ok {| rwr_record := record; rwr_record_ref := record_ref |}.

Definition reward_reference (reward : Reward) : result RewardRef :=
  ref ← typed_ref_for_record REWARD_SCHEMA (Reward_record_content reward);
  RewardRef_new reward ref.
End RewardRefs.

(** ** Applying a policy *)

(** [_finite_or_missing]; an absent aggregate reads as [None]. *)
Definition finite_or_missing (value : pyval) : result (option float) :=
  match value with
  | PInt n =>
      converted ← float_of_int n;
      Ok (if fisfinite converted then Some converted else None)
  | PFloat f => Ok (if fisfinite f then Some f else None)
  | _ => Ok None
  end.

(** One turn of the loop: the term's contribution and its citation. *)
Definition cite_term (policy : RewardPolicy) (aggregates : list (pystr * pyval))
    (term : RewardTerm) : result (float * RewardInputCitation) :=
  raw ← finite_or_missing (default PNone (dict_get aggregates (rt_name term)));
  let missing := bool_decide (raw = None) in
  require (negb (missing && bool_decide (rp_missing_data policy = FAIL))) ValueError
    "Reward Policy term is missing or invalid and the missing-data policy is FAIL" ;;
  contribution ← scalarize_term term raw missing (rp_missing_data policy);
  citation ← RewardInputCitation_new (rt_name term) (if missing then None else raw)
    contribution missing;
  Ok (contribution, citation).

Fixpoint cite_terms (policy : RewardPolicy) (aggregates : list (pystr * pyval))
    (terms : list RewardTerm) (total : float) (citations : list RewardInputCitation) :
    result (float * list RewardInputCitation) :=
  match terms with
  | [] => Ok (total, citations)
  | term :: terms =>
      '(contribution, citation) ← cite_term policy aggregates term;
      cite_terms policy aggregates terms (fadd total contribution) (citations ++ [citation])
  end.

Definition apply_reward_policy (policy : RewardPolicy) (aggregates : list (pystr * pyval))
    (evidence_role : EvalRole) (evidence_refs : list TypedRef)
    (provenance_ordinal : option Z) : result Reward :=
  require (bool_decide (evidence_role = INTERNAL)) OfficialRewardError
    "apply_reward_policy refuses official-role evidence" ;;
  '(total, citations) ← cite_terms policy aggregates (rp_terms policy) fzero [];
  Reward_new (rp_reward_name policy) total policy evidence_role citations evidence_refs
    provenance_ordinal.

(** ** Theorems *)

Section RewardTheorems.
Implicit Types (policy : RewardPolicy) (term : RewardTerm) (r : Reward).

Lemma finite_field_Ok f g : finite_field f = Ok g ↔ g = unsigned_zero f ∧ fisfinite f = true.
Proof.
  unfold finite_field, FiniteFloat. cbn [mbind result_bind].
  destruct (fisfinite f); simpl; naive_solver.
Qed.

Lemma NonEmptyId_Ok s t : NonEmptyId (PStr s) = Ok t ↔ t = s ∧ s ≠ [].
Proof.
  unfold NonEmptyId, ValidatedString_new, nonempty_validate.
  case_bool_decide; simpl; naive_solver.
Qed.

(** The scalarization does not see the sign of a zero. *)
Lemma scalarize_term_same term v v' missing missing_data c :
  option_Forall2 same_number v v' →
  scalarize_term term v missing missing_data = Ok c →
  ∃ c', scalarize_term term v' missing missing_data = Ok c' ∧ same_number c c'.
Proof.
  unfold scalarize_term. intros Hv. destruct missing; [by intros ->; eexists|].
  destruct Hv as [x y Hxy|]; [|done]. intros [= <-]. eexists. split; [done|].
  destruct (rt_maximize term); by rewrite Hxy.
Qed.

(** A citation the loop makes carries its term's name and, up to the sign of
    a zero, the finite contribution that the validator re-derives. *)
Lemma cite_term_Ok policy aggregates term c citation :
  cite_term policy aggregates term = Ok (c, citation) →
  ric_name citation = rt_name term ∧ ric_contributed citation = unsigned_zero c ∧
  fisfinite c = true ∧
  ∃ c', scalarize_term term (ric_value citation) (ric_was_missing citation)
    (rp_missing_data policy) = Ok c' ∧ same_number c c'.
Proof.
  unfold cite_term, RewardInputCitation_new. intros H. inv_result.
  destruct a as [v|]; simpl in *; inv_result;
    repeat match goal with
    | H : NonEmptyId _ = Ok _ |- _ => apply NonEmptyId_Ok in H as [-> ?]
    | H : finite_field _ = Ok _ |- _ => apply finite_field_Ok in H as [-> ?]
    | H : (_, _) = (_, _) |- _ => injection H as <- <-
    end; split_and!; try done; cbn [ric_value ric_was_missing].
  - apply (scalarize_term_same _ (Some v)); [|done]. constructor. by rewrite unsigned_zero_same.
  - by eexists.
Qed.

Lemma cite_terms_mapM policy aggregates terms total citations :
  cite_terms policy aggregates terms total citations =
    (cs ← mapM (cite_term policy aggregates) terms;
     Ok (foldl fadd total cs.*1, citations ++ cs.*2)).
Proof.
  revert total citations. induction terms as [|term terms IH]; intros total citations; simpl.
  - by rewrite app_nil_r.
  - destruct (cite_term policy aggregates term) as [[c citation]|]; [|done]. simpl.
    rewrite IH. destruct (mapM _ terms); simpl; [|done]. by rewrite <-app_assoc.
Qed.

(** The validator's loop re-derives the applied total. *)
Lemma citations_total_applied policy aggregates terms cs total total' :
  Forall2 (λ term p, cite_term policy aggregates term = Ok p) terms cs →
  same_number total total' →
  ∃ t, citations_total (rp_missing_data policy) terms cs.*2 total' = Ok t ∧
       same_number (foldl fadd total cs.*1) t.
Proof.
  intros Hf. revert total total'.
  induction Hf as [|term [c citation] terms cs Hc _ IH]; intros total total' Ht; csimpl; [by eauto|].
  apply cite_term_Ok in Hc as (_ & Hcon & Hfin & c' & Hs & Hcc). rewrite Hs. simpl.
  rewrite Hcon, feq_same; [|by apply fisfinite_number; rewrite unsigned_zero_same
                           |by rewrite unsigned_zero_same].
  simpl. apply IH. by rewrite Ht, Hcc.
Qed.

Lemma cited_names policy aggregates terms cs :
  Forall2 (λ term p, cite_term policy aggregates term = Ok p) terms cs →
  ric_name <$> cs.*2 = rt_name <$> terms.
Proof.
  induction 1 as [|term [c citation] terms cs Hc _ IH]; csimpl; [done|].
  apply cite_term_Ok in Hc as (-> & _). by rewrite IH.
Qed.
End RewardTheorems.

(** C7. Applying a policy is exact: it returns a reward precisely when the
    evidence is internal, the evidence references are non-empty and distinct,
    the provenance ordinal is not negative, every term could be cited and the
    total is finite; and then the reward is the one whose citations are the
    terms' citations in policy order and whose value is the floating-point sum
    of their contributions from the left, [-0.0] read as [0.0].  The validator
    that re-derives every contribution and the total never refuses what the
    application computed, although the fields of a citation and of the reward
    lost the sign of a zero. *)
Theorem apply_reward_policy_exact policy aggregates role refs ordinal r :
  RewardPolicy_new (rp_policy_name policy) (rp_reward_name policy) (rp_terms policy)
    (rp_missing_data policy) = Ok policy →
  apply_reward_policy policy aggregates role refs ordinal = Ok r ↔
  role = INTERNAL ∧ refs ≠ [] ∧ NoDup refs ∧ (∀ n, ordinal = Some n → (0 <= n)%Z) ∧
  ∃ cs, mapM (cite_term policy aggregates) (rp_terms policy) = Ok cs ∧
    fisfinite (foldl fadd fzero cs.*1) = true ∧
    r = {| rw_reward_name := rp_reward_name policy;
           rw_value := unsigned_zero (foldl fadd fzero cs.*1);
           rw_reward_policy := policy; rw_evidence_role := INTERNAL;
           rw_input_citations := cs.*2; rw_evidence_refs := refs;
           rw_provenance_ordinal := ordinal |}.
Proof.
  intros Hpol. unfold RewardPolicy_new, RewardPolicy_validate in Hpol. inv_ok.
  repeat match goal with H : NonEmptyId _ = Ok _ |- _ => apply NonEmptyId_Ok in H as [-> ?] end.
  unfold apply_reward_policy. rewrite cite_terms_mapM. unfold Reward_new, Reward_validate. split.
  - intros Hres. inv_ok.
    match goal with H : mapM _ _ = Ok ?cs |- _ =>
      pose proof (proj1 (mapM_Ok_Forall2 _ _ _) H) as Hf end.
    repeat match goal with
    | H : NonEmptyId _ = Ok _ |- _ => apply NonEmptyId_Ok in H as [-> ?]
    | H : finite_field _ = Ok _ |- _ => apply finite_field_Ok in H as [-> ?]
    end. simpl in *. inv_ok.
    split_and!; try done.
    + intros n ->. by inv_bool.
    + eexists. split_and!; [done..|]. done.
  - intros (-> & Hrefs & Hnd & Hord & cs & Hcs & Hfin & ->).
    pose proof (proj1 (mapM_Ok_Forall2 _ _ _) Hcs) as Hf.
    rewrite Hcs. simpl.
    rewrite (proj2 (NonEmptyId_Ok _ _)) by done. simpl.
    rewrite (proj2 (finite_field_Ok _ _)) by done. simpl.
    assert (match ordinal with Some n => (0 <=? n)%Z | None => true end = true) as ->
      by (destruct ordinal; [apply Z.leb_le; auto|done]).
    assert (cs.*2 ≠ []) as Hcites.
    { intros ->%fmap_nil_inv. apply Forall2_nil_inv_r in Hf. simpl in *. congruence. }
    rewrite !require_not, require_unique, !require_bool_decide
      by (done || by eapply cited_names). simpl.
    destruct (citations_total_applied _ _ _ _ fzero fzero Hf) as (t & Ht & Hsame); [done|].
    rewrite Ht. simpl. rewrite feq_same; [done|..].
    + apply fisfinite_number. by rewrite unsigned_zero_same.
    + by rewrite unsigned_zero_same.
Qed.

Lemma apply_reward_policy_exact_witness :
  let policy := {| rp_policy_name := $"p"; rp_reward_name := $"reward";
    rp_terms := [{| rt_name := $"acc"; rt_weight := float_of_Z 2; rt_maximize := true;
                    rt_worst_value := fzero |};
                 {| rt_name := $"cost"; rt_weight := float_of_Z 1; rt_maximize := false;
                    rt_worst_value := float_of_Z 9 |}];
    rp_missing_data := WORST |} in
  let refs := [{| tref_schema_name := $"s"; tref_content_hash := $"h" |}] in
  ∃ r, apply_reward_policy policy [($"acc", PInt 3)] INTERNAL refs (Some 1%Z) = Ok r ∧
       rw_value r = float_of_Z (-3).
Proof.
  intros policy refs.
  set (cs := match mapM (cite_term policy [($"acc", PInt 3)]) (rp_terms policy) with
             | Ok cs => cs | Err _ => [] end).
  assert (mapM (cite_term policy [($"acc", PInt 3)]) (rp_terms policy) = Ok cs) as Hcs
    by (vm_compute; reflexivity).
  eexists. split.
  - apply (apply_reward_policy_exact policy); [vm_compute; reflexivity|].
    split_and!; [reflexivity|done|apply NoDup_singleton|intros n [= <-]; lia|].
    exists cs. split; [exact Hcs|]. split; [vm_compute; reflexivity|reflexivity].
  - vm_compute. reflexivity.
Defined.

(** A minimized aggregate of zero contributes [0.0], not [-0.0]. *)
Example negative_zero_cited :
  let term := {| rt_name := $"cost"; rt_weight := float_of_Z 1; rt_maximize := false;
                 rt_worst_value := fzero |} in
  let policy := {| rp_policy_name := $"p"; rp_reward_name := $"r"; rp_terms := [term];
                   rp_missing_data := FAIL |} in
  cite_term policy [($"cost", PInt 0)] term =
    Ok (S754_zero true, {| ric_name := $"cost"; ric_value := Some fzero;
                           ric_contributed := fzero; ric_was_missing := false |}).
Proof. vm_compute. reflexivity. Qed.

(** What a citation must say of its term's aggregate, zeros unsigned. *)
Definition citation_of (policy : RewardPolicy) (aggregates : list (pystr * pyval))
    (term : RewardTerm) (citation : RewardInputCitation) : Prop :=
  let weigh used := fmul (rt_weight term) (if rt_maximize term then used else fopp used) in
  ric_name citation = rt_name term ∧
  match finite_or_missing (default PNone (dict_get aggregates (rt_name term))) with
  | Ok (Some v) =>
      ric_was_missing citation = false ∧ ric_value citation = Some (unsigned_zero v) ∧
      ric_contributed citation = unsigned_zero (weigh v)
  | Ok None =>
      ric_was_missing citation = true ∧ ric_value citation = None ∧
      match rp_missing_data policy with
      | FAIL => False
      | SKIP => ric_contributed citation = fzero
      | WORST => ric_contributed citation = unsigned_zero (weigh (rt_worst_value term))
      end
  | Err _ => False
  end.

(** The citations of an applied reward follow the missing-data policy term
    by term: a present finite aggregate contributes its weighted, signed value;
    a missing or non-finite one contributes the weighted worst value under
    WORST and nothing under SKIP; and under FAIL a reward exists only when no
    term was missing. *)
Theorem reward_follows_missing_policy policy aggregates role refs ordinal r :
  apply_reward_policy policy aggregates role refs ordinal = Ok r →
  Forall2 (citation_of policy aggregates) (rp_terms policy) (rw_input_citations r).
Proof.
  unfold apply_reward_policy. rewrite cite_terms_mapM. unfold Reward_new, Reward_validate.
  intros Hres. inv_ok. simpl.
  match goal with H : mapM _ _ = Ok _ |- _ => apply mapM_Ok_Forall2 in H as Hf end.
  clear -Hf. induction Hf as [|term [c citation] terms cs Hc _ IH]; csimpl; [constructor|].
  constructor; [|done]. clear IH. pose proof (cite_term_Ok _ _ _ _ _ Hc) as (Hname & Hcon & _ & Hs).
  split; [done|]. unfold cite_term, RewardInputCitation_new in Hc.
  destruct (finite_or_missing _) as [[v|]|]; simpl in Hc; inv_ok; simpl in *;
    repeat match goal with
    | H : NonEmptyId _ = Ok _ |- _ => apply NonEmptyId_Ok in H as [-> ?]
    | H : finite_field _ = Ok _ |- _ => apply finite_field_Ok in H as [-> ?]
    | H : (_, _) = (_, _) |- _ => injection H as <- <-
    end; simpl in *; inv_ok; [done|].
  destruct (rp_missing_data policy); simpl in *; inv_ok; done.
Qed.

Lemma reward_follows_missing_policy_witness :
  let policy := {| rp_policy_name := $"p"; rp_reward_name := $"reward";
    rp_terms := [{| rt_name := $"acc"; rt_weight := float_of_Z 2; rt_maximize := true;
                    rt_worst_value := fzero |};
                 {| rt_name := $"cost"; rt_weight := float_of_Z 1; rt_maximize := false;
                    rt_worst_value := float_of_Z 9 |}];
    rp_missing_data := SKIP |} in
  let refs := [{| tref_schema_name := $"s"; tref_content_hash := $"h" |}] in
  ∃ r, apply_reward_policy policy [($"acc", PInt 3)] INTERNAL refs None = Ok r ∧
       Forall2 (citation_of policy [($"acc", PInt 3)]) (rp_terms policy) (rw_input_citations r).
Proof.
  intros policy refs.
  destruct (apply_reward_policy policy [($"acc", PInt 3)] INTERNAL refs None) as [r|] eqn:E.
  - exists r. split; [reflexivity|]. exact (reward_follows_missing_policy _ _ _ _ _ _ E).
  - exfalso. vm_compute in E. discriminate E.
Defined.
