(* ===== verification/Tools.v ===== *)
(** * Tools: the contracts of tools, calls and results

    Models [src/whetstone/optim/tools/contracts.py]: capacity bindings, tool
    definitions and configs with their identity payloads, the runtime handle,
    and the records of calls, refusals and results with the validation their
    constructors run. *)

From S2P Require Import Prelude Floats Identity Frozen EvalConfigs Reward.

Definition TOOL_DEFINITION_SCHEMA := $"whetstone.tool_definition".
Definition TOOL_DEFINITION_SCHEMA_VERSION : Z := 1.
Definition TOOL_CONFIG_SCHEMA := $"whetstone.tool_config".
Definition TOOL_CONFIG_SCHEMA_VERSION : Z := 1.
Definition TOOL_CALL_SCHEMA := $"whetstone.tool_call".
Definition TOOL_RESULT_SCHEMA := $"whetstone.tool_result".
Definition EVAL_CONFIG_SCHEMA := SCHEMA_EVAL_CONFIG.
Definition GLOBAL_CAPACITY_SCOPE_ID := $"global".
Definition RUN_CAPACITY_SUBJECT_SCHEMA := $"whetstone.optim_run".
Definition STEP_CAPACITY_SUBJECT_SCHEMA := $"whetstone.optim_step_request".

Inductive RefusalClass := AUTHORIZATION | CAPACITY | BUDGET | VALIDATION.
Inductive ToolCapacityScope := GLOBAL | RUN | STEP.

#[export] Instance RefusalClass_eq_dec : EqDecision RefusalClass.
Proof. solve_decision. Defined.
#[export] Instance ToolCapacityScope_eq_dec : EqDecision ToolCapacityScope.
Proof. solve_decision. Defined.

Definition RefusalClass_value (c : RefusalClass) : pystr :=
  match c with
  | AUTHORIZATION => $"authorization" | CAPACITY => $"capacity"
  | BUDGET => $"budget" | VALIDATION => $"validation"
  end.

Definition ToolCapacityScope_value (s : ToolCapacityScope) : pystr :=
  match s with GLOBAL => $"global" | RUN => $"run" | STEP => $"step" end.

(** [set(a) == set(b)]. *)
Definition same_elements (a b : list pystr) : bool :=
  forallb (λ x, bool_decide (x ∈ b)) a && forallb (λ x, bool_decide (x ∈ a)) b.

(** ** Capacity bindings *)

Record ToolCapacityBinding := {
  tcb_scope : ToolCapacityScope;
  tcb_subject_ref : option TypedRef;
}.

#[export] Instance ToolCapacityBinding_eq_dec : EqDecision ToolCapacityBinding.
Proof. solve_decision. Defined.

(** The model validator of [ToolCapacityBinding]. *)
Definition ToolCapacityBinding_validate (self : ToolCapacityBinding) :
    result ToolCapacityBinding :=
  match tcb_scope self with
  | GLOBAL =>
      require (bool_decide (tcb_subject_ref self = None)) ValueError
        "GLOBAL Tool Capacity requires no subject_ref" ;;
      Ok self
  | _ =>
      subject_ref ← of_option (tcb_subject_ref self) ValueError
        "Tool Capacity requires subject_ref";
      let expected_schema :=
        match tcb_scope self with
        | RUN => RUN_CAPACITY_SUBJECT_SCHEMA | _ => STEP_CAPACITY_SUBJECT_SCHEMA end in
      require (bool_decide (tref_schema_name subject_ref = expected_schema)) ValueError
        "Tool Capacity subject_ref must use its schema" ;;
      Ok self
  end.

Definition capacity_scope_id (self : ToolCapacityBinding) : result pystr :=
  match tcb_scope self with
  | GLOBAL => NonEmptyId (PStr GLOBAL_CAPACITY_SCOPE_ID)
  | _ =>
      subject_ref ← of_option (tcb_subject_ref self) AssertionError "";
      NonEmptyId (PStr (tref_content_hash subject_ref))
  end.

Definition tool_capacity_binding (scope : ToolCapacityScope) (subject_ref : option TypedRef) :
    result ToolCapacityBinding :=
  ToolCapacityBinding_validate {| tcb_scope := scope; tcb_subject_ref := subject_ref |}.

Definition ToolCapacityBinding_dump (b : ToolCapacityBinding) : pyval :=
  PDict [($"scope", PStr (ToolCapacityScope_value (tcb_scope b)));
         ($"subject_ref", POption TypedRef_dump (tcb_subject_ref b))].

(** ** Definitions *)

Record ToolDefinition := {
  td_tool_name : pystr;
  td_version : Z;
  td_input_fields : list pystr;
  td_output_fields : list pystr;
  td_refusal_classes : list RefusalClass;
  td_expansion_semantics : option pystr;
}.

#[export] Instance ToolDefinition_eq_dec : EqDecision ToolDefinition.
Proof. solve_decision. Defined.

(** The model validator of [ToolDefinition]. *)
Definition ToolDefinition_validate (self : ToolDefinition) : result ToolDefinition :=
  require (negb (td_version self =? 0)%Z) ValueError "Tool Definition version must be positive" ;;
  require (negb (bool_decide (td_input_fields self = []))) ValueError
    "a Tool Definition must declare input_fields" ;;
  require (negb (bool_decide (td_output_fields self = []))) ValueError
    "a Tool Definition must declare output_fields" ;;
  require (all_unique (td_input_fields self)) ValueError
    "Tool Definition input_fields must be unique" ;;
  require (all_unique (td_output_fields self)) ValueError
    "Tool Definition output_fields must be unique" ;;
  require (all_unique (td_refusal_classes self)) ValueError
    "Tool Definition refusal_classes must be unique" ;;
  require (negb (bool_decide (td_refusal_classes self = []))) ValueError
    "a Tool Definition must declare refusal_classes" ;;
  Ok self.

Definition ToolDefinition_identity_payload (self : ToolDefinition) : pyval :=
  PDict [($"tool_name", PStr (td_tool_name self)); ($"version", PInt (td_version self));
         ($"input_fields", PList (PStr <$> td_input_fields self));
         ($"output_fields", PList (PStr <$> td_output_fields self));
         ($"refusal_classes",
           PList ((λ c, PStr (RefusalClass_value c)) <$> td_refusal_classes self));
         ($"expansion_semantics", POption PStr (td_expansion_semantics self))].

(** The JSON dump has the same six fields. *)
Definition ToolDefinition_record_content (self : ToolDefinition) : pyval :=
  ToolDefinition_identity_payload self.

Record ToolDefinitionRef := {
  tdr_record : ToolDefinition;
  tdr_record_ref : TypedRef;
  tdr_config_hash : pystr;
}.

#[export] Instance ToolDefinitionRef_eq_dec : EqDecision ToolDefinitionRef.
Proof. solve_decision. Defined.

Definition ToolDefinitionRef_dump (r : ToolDefinitionRef) : pyval :=
  PDict [($"record", ToolDefinition_record_content (tdr_record r));
         ($"record_ref", TypedRef_dump (tdr_record_ref r));
         ($"config_hash", PStr (tdr_config_hash r))].

Section Definitions.
Context `{DSer : !DrSerialize, DSto : !DrStore}.

Definition ToolDefinition_identity_hash (self : ToolDefinition) : result pystr :=
  compute_identity_hash TOOL_DEFINITION_SCHEMA TOOL_DEFINITION_SCHEMA_VERSION
    (ToolDefinition_identity_payload self).

Definition ToolDefinitionRef_validate (self : ToolDefinitionRef) : result ToolDefinitionRef :=
  expected_ref ← typed_ref_for_record TOOL_DEFINITION_SCHEMA
    (ToolDefinition_record_content (tdr_record self));
  require (bool_decide (tdr_record_ref self = expected_ref)) ValueError
    "Tool Definition record_ref must address the exact record" ;;
  h ← ToolDefinition_identity_hash (tdr_record self);
  require (bool_decide (tdr_config_hash self = h)) ValueError
    "Tool Definition config_hash must match the exact record" ;;
  Ok self.

Definition tool_definition_reference (definition : ToolDefinition) : result ToolDefinitionRef :=
  ref ← typed_ref_for_record TOOL_DEFINITION_SCHEMA (ToolDefinition_record_content definition);
  h ← ToolDefinition_identity_hash definition;
  ToolDefinitionRef_validate
    {| tdr_record := definition; tdr_record_ref := ref; tdr_config_hash := h |}.
End Definitions.

(** ** Configs *)

Record ToolCapacity := {
  tcap_max_accepted_calls : Z;
  tcap_scope : ToolCapacityScope;
}.

#[export] Instance ToolCapacity_eq_dec : EqDecision ToolCapacity.
Proof. solve_decision. Defined.

Record ToolConfig := {
  tc_definition : ToolDefinitionRef;
  tc_endpoint_key : pystr;
  tc_eval_config : EvalConfig;
  tc_reward_policy_hash : pystr;
  tc_capacity : ToolCapacity;
  tc_timeout_policy_ref : option TypedRef;
  tc_operational_policy_refs : list TypedRef;
  tc_store_namespace_key : pystr;
  tc_idempotent_replay : bool;
  tc_candidate_template_field : pystr;
}.

#[export] Instance ToolConfig_eq_dec : EqDecision ToolConfig.
Proof. solve_decision. Defined.

(** The model validator of [ToolConfig]. *)
Definition ToolConfig_validate (self : ToolConfig) : result ToolConfig :=
  require (all_unique (tc_operational_policy_refs self)) ValueError
    "Tool Config operational_policy_refs must be unique" ;;
  IdentityHash (PStr (ec_config_hash (tc_eval_config self))) ;;
  Ok self.

Definition tool_name (self : ToolConfig) : pystr := td_tool_name (tdr_record (tc_definition self)).

Definition eval_config_hash (self : ToolConfig) : result pystr :=
  IdentityHash (PStr (ec_config_hash (tc_eval_config self))).

Definition ToolConfig_identity_payload (self : ToolConfig) : pyval :=
  let definition := tc_definition self in
  let eval_config := tc_eval_config self in
  PDict
    [($"definition",
       PDict [($"record", ToolDefinition_identity_payload (tdr_record definition));
              ($"record_ref", TypedRef_dump (tdr_record_ref definition));
              ($"identity_hash", PStr (tdr_config_hash definition))]);
     ($"endpoint_key", PStr (tc_endpoint_key self));
     ($"eval_config",
       PDict [($"definition_ref", DefinitionRef_dump (ec_definition_ref eval_config));
              ($"sampling_config_hash", PStr (ec_sampling_config_hash eval_config));
              ($"evaluation_procedure_config_hash",
                PStr (ec_evaluation_procedure_config_hash eval_config));
              ($"aggregation_config_hash", PStr (ec_aggregation_config_hash eval_config));
              ($"config_hash", PStr (ec_config_hash eval_config))]);
     ($"reward_policy_hash", PStr (tc_reward_policy_hash self));
     ($"capacity",
       PDict [($"max_accepted_calls", PInt (tcap_max_accepted_calls (tc_capacity self)));
              ($"scope", PStr (ToolCapacityScope_value (tcap_scope (tc_capacity self))))]);
     ($"timeout_policy_ref", POption TypedRef_dump (tc_timeout_policy_ref self));
     ($"operational_policy_refs", PList (TypedRef_dump <$> tc_operational_policy_refs self));
     ($"store_namespace_key", PStr (tc_store_namespace_key self));
     ($"idempotent_replay", PBool (tc_idempotent_replay self));
     ($"candidate_template_field", PStr (tc_candidate_template_field self))].

(** The JSON dump of a config: as the identity payload, except that the nested
    definition reference is dumped whole. *)
Definition ToolConfig_record_content (self : ToolConfig) : pyval :=
  PDict
    [($"definition", ToolDefinitionRef_dump (tc_definition self));
     ($"endpoint_key", PStr (tc_endpoint_key self));
     ($"eval_config", EvalConfig_dump (tc_eval_config self));
     ($"reward_policy_hash", PStr (tc_reward_policy_hash self));
     ($"capacity",
       PDict [($"max_accepted_calls", PInt (tcap_max_accepted_calls (tc_capacity self)));
              ($"scope", PStr (ToolCapacityScope_value (tcap_scope (tc_capacity self))))]);
     ($"timeout_policy_ref", POption TypedRef_dump (tc_timeout_policy_ref self));
     ($"operational_policy_refs", PList (TypedRef_dump <$> tc_operational_policy_refs self));
     ($"store_namespace_key", PStr (tc_store_namespace_key self));
     ($"idempotent_replay", PBool (tc_idempotent_replay self));
     ($"candidate_template_field", PStr (tc_candidate_template_field self))].

Record ToolConfigRef := {
  tcr_record : ToolConfig;
  tcr_record_ref : TypedRef;
  tcr_config_hash : pystr;
}.

#[export] Instance ToolConfigRef_eq_dec : EqDecision ToolConfigRef.
Proof. solve_decision. Defined.

Definition ToolConfigRef_dump (r : ToolConfigRef) : pyval :=
  PDict [($"record", ToolConfig_record_content (tcr_record r));
         ($"record_ref", TypedRef_dump (tcr_record_ref r));
         ($"config_hash", PStr (tcr_config_hash r))].

Section Configs.
Context `{DSer : !DrSerialize, DSto : !DrStore}.

Definition eval_config_ref (self : ToolConfig) : result TypedRef :=
  typed_ref_for_record EVAL_CONFIG_SCHEMA (EvalConfig_dump (tc_eval_config self)).

Definition ToolConfig_identity_hash (self : ToolConfig) : result pystr :=
  compute_identity_hash TOOL_CONFIG_SCHEMA TOOL_CONFIG_SCHEMA_VERSION
    (ToolConfig_identity_payload self).

Definition ToolConfigRef_validate (self : ToolConfigRef) : result ToolConfigRef :=
  expected_ref ← typed_ref_for_record TOOL_CONFIG_SCHEMA
    (ToolConfig_record_content (tcr_record self));
  require (bool_decide (tcr_record_ref self = expected_ref)) ValueError
    "Tool Config record_ref must address the exact record" ;;
  h ← ToolConfig_identity_hash (tcr_record self);
  require (bool_decide (tcr_config_hash self = h)) ValueError
    "Tool Config config_hash must match the exact record" ;;
  Ok self.

Definition tool_config_reference (config : ToolConfig) : result ToolConfigRef :=
  ref ← typed_ref_for_record TOOL_CONFIG_SCHEMA (ToolConfig_record_content config);
  h ← ToolConfig_identity_hash config;
  ToolConfigRef_validate {| tcr_record := config; tcr_record_ref := ref; tcr_config_hash := h |}.
End Configs.

(** ** Calls *)

Record ToolCall := {
  tcall_call_id : pystr;
  tcall_tool_config : ToolConfigRef;
  tcall_capacity_binding : ToolCapacityBinding;
  tcall_args : list (pystr * pyval);
}.

#[export] Instance ToolCall_eq_dec : EqDecision ToolCall.
Proof. solve_decision. Defined.

Definition ToolCall_tool_config_hash (self : ToolCall) : pystr :=
  tcr_config_hash (tcall_tool_config self).
Definition ToolCall_store_namespace_key (self : ToolCall) : pystr :=
  tc_store_namespace_key (tcr_record (tcall_tool_config self)).
Definition ToolCall_capacity_scope (self : ToolCall) : ToolCapacityScope :=
  tcap_scope (tc_capacity (tcr_record (tcall_tool_config self))).
Definition ToolCall_capacity_scope_id (self : ToolCall) : result pystr :=
  capacity_scope_id (tcall_capacity_binding self).

(** The model validator of [ToolCall]. *)
Definition ToolCall_validate (self : ToolCall) : result ToolCall :=
  require (bool_decide (tcb_scope (tcall_capacity_binding self) = ToolCall_capacity_scope self))
    ValueError "Tool Call capacity binding scope must match the exact Tool Config" ;;
  require (same_elements (tcall_args self).*1
             (td_input_fields (tdr_record (tc_definition (tcr_record (tcall_tool_config self))))))
    ValueError "Tool Call args must exactly match Definition input_fields" ;;
  Ok self.

Definition ToolCall_record_content (self : ToolCall) : pyval :=
  PDict [($"call_id", PStr (tcall_call_id self));
         ($"tool_config", ToolConfigRef_dump (tcall_tool_config self));
         ($"capacity_binding", ToolCapacityBinding_dump (tcall_capacity_binding self));
         ($"args", to_json (tcall_args self))].

Record ToolCallRef := {
  tcallr_record : ToolCall;
  tcallr_record_ref : TypedRef;
}.

#[export] Instance ToolCallRef_eq_dec : EqDecision ToolCallRef.
Proof. solve_decision. Defined.

(** [==] of two calls and of two references to calls: field by field, the
    arguments by their canonical JSON; the other fields hold no JSON object. *)
Definition ToolCall_eq `{!DrSerialize} (self other : ToolCall) : result bool :=
  if bool_decide (tcall_call_id self = tcall_call_id other ∧
       tcall_tool_config self = tcall_tool_config other ∧
       tcall_capacity_binding self = tcall_capacity_binding other)
  then frozen_eq (tcall_args self) (PFrozen (tcall_args other)) else Ok false.

Definition ToolCallRef_eq `{!DrSerialize} (self other : ToolCallRef) : result bool :=
  same_record ← ToolCall_eq (tcallr_record self) (tcallr_record other);
  Ok (same_record && bool_decide (tcallr_record_ref self = tcallr_record_ref other)).

Definition ToolCallRef_dump (r : ToolCallRef) : pyval :=
  PDict [($"record", ToolCall_record_content (tcallr_record r));
         ($"record_ref", TypedRef_dump (tcallr_record_ref r))].

Section Calls.
Context `{DSer : !DrSerialize, DSto : !DrStore}.

Definition ToolCallRef_validate (self : ToolCallRef) : result ToolCallRef :=
  expected ← typed_ref_for_record TOOL_CALL_SCHEMA (ToolCall_record_content (tcallr_record self));
  require (bool_decide (tcallr_record_ref self = expected)) ValueError
    "Tool Call record_ref must address the exact call record" ;;
  Ok self.

Definition tool_call_reference (call : ToolCall) : result ToolCallRef :=
  ref ← typed_ref_for_record TOOL_CALL_SCHEMA (ToolCall_record_content call);
  ToolCallRef_validate {| tcallr_record := call; tcallr_record_ref := ref |}.
End Calls.

(** *** The same call

    What [==] tells of two calls that it does not tell apart: everything but
    the order in which the keys of the arguments stand. *)
Section SameCall.
Context `{DSer : !DrSerialize}.

Record same_call (c c' : ToolCall) : Prop := {
  sc_call_id : tcall_call_id c = tcall_call_id c';
  sc_tool_config : tcall_tool_config c = tcall_tool_config c';
  sc_capacity_binding : tcall_capacity_binding c = tcall_capacity_binding c';
  sc_args : same_object (tcall_args c) (tcall_args c');
}.

#[export] Instance same_call_equiv : Equivalence same_call.
Proof.
  split; [by intros c|intros c c' []; by split|]. intros c1 c2 c3 [????] [????].
  split; by etrans.
Qed.

#[export] Instance tcall_call_id_proper : Proper (same_call ==> (=)) tcall_call_id.
Proof. by intros c c' []. Qed.
#[export] Instance tcall_tool_config_proper : Proper (same_call ==> (=)) tcall_tool_config.
Proof. by intros c c' []. Qed.
#[export] Instance tcall_capacity_binding_proper :
  Proper (same_call ==> (=)) tcall_capacity_binding.
Proof. by intros c c' []. Qed.

Definition same_call_ref (r r' : ToolCallRef) : Prop :=
  same_call (tcallr_record r) (tcallr_record r') ∧ tcallr_record_ref r = tcallr_record_ref r'.

#[export] Instance same_call_ref_equiv : Equivalence same_call_ref.
Proof.
  split; [by intros r|intros r r' [? ?]; by split|]. intros r1 r2 r3 [? ?] [? ?]. split; by etrans.
Qed.

Lemma ToolCallRef_eq_same r r' : ToolCallRef_eq r r' = Ok true → same_call_ref r r'.
Proof.
  intros (b & Hb & [= [-> Href%bool_decide_eq_true]%andb_true_iff])%bind_Ok.
  unfold ToolCall_eq in Hb. case_bool_decide as H; [|done]. destruct H as (? & ? & ?).
  split; [|done]. split; [done..|]. by apply frozen_eq_same.
Qed.

Lemma same_call_ref_text r r' :
  same_call_ref r r' → has_text (tcall_args (tcallr_record r')) → has_text (tcall_args (tcallr_record r)).
Proof. intros [[_ _ _ Hargs] _]. by apply same_object_text. Qed.

Lemma ToolCallRef_eq_decides r r' :
  has_text (tcall_args (tcallr_record r)) → has_text (tcall_args (tcallr_record r')) →
  ∃ b, ToolCallRef_eq r r' = Ok b ∧ (b = true ↔ same_call_ref r r').
Proof.
  intros Hr Hr'. unfold ToolCallRef_eq, ToolCall_eq.
  destruct (bool_decide (tcall_call_id _ = _ ∧ _)) eqn:H;
    [apply bool_decide_eq_true in H|apply bool_decide_eq_false in H].
  - destruct (frozen_eq_decides _ _ Hr Hr') as (b & -> & Hb). eexists. split; [by rewrite bind_Ok_l|].
    rewrite andb_true_iff, bool_decide_eq_true, Hb. destruct H as (? & ? & ?).
    split; [by intros []|]. by intros [[] ?].
  - exists false. split; [by rewrite bind_Ok_l|]. split; [done|]. intros [[? ? ? _] _]. by destruct H.
Qed.

Lemma ToolCallRef_eq_refl r :
  has_text (tcall_args (tcallr_record r)) → ToolCallRef_eq r r = Ok true.
Proof.
  intros Hr. destruct (ToolCallRef_eq_decides r r Hr Hr) as ([] & -> & Hb); [done|].
  by destruct (proj2 Hb ltac:(done)).
Qed.
End SameCall.

(** ** Refusals and results *)

Record ToolRefusal := {
  tr_refusal_class : RefusalClass;
  tr_reason : pystr;
}.

(** [ToolRefusal(refusal_class, reason)]. *)
Definition ToolRefusal_new (refusal_class : RefusalClass) (reason : pystr) : result ToolRefusal :=
  reason ← NonEmptyId (PStr reason);
  Ok {| tr_refusal_class := refusal_class; tr_reason := reason |}.

#[export] Instance ToolRefusal_eq_dec : EqDecision ToolRefusal.
Proof. solve_decision. Defined.

Record ToolResult := {
  res_call : ToolCallRef;
  res_output : option (list (pystr * pyval));
  res_refusal : option ToolRefusal;
  res_terminal_failure : option TerminalFailure;
  res_evaluation_evidence_refs : list TypedRef;
  res_reward : option RewardRef;
  res_provenance_note : option pystr;
  res_provenance_ordinal : option Z;
}.

#[export] Instance ToolResult_eq_dec : EqDecision ToolResult.
Proof. solve_decision. Defined.

Definition ToolResult_call_id (self : ToolResult) : pystr :=
  tcall_call_id (tcallr_record (res_call self)).
Definition ToolResult_tool_config (self : ToolResult) : ToolConfigRef :=
  tcall_tool_config (tcallr_record (res_call self)).
Definition ToolResult_tool_config_hash (self : ToolResult) : pystr :=
  tcr_config_hash (ToolResult_tool_config self).
Definition ToolResult_store_namespace_key (self : ToolResult) : pystr :=
  ToolCall_store_namespace_key (tcallr_record (res_call self)).

(** [sum(terminal_variants)]: how many variants are present. *)
Definition count_true (l : list bool) : nat := length (filter (λ b, b = true) l).

(** The model validator of [ToolResult]. *)
Definition ToolResult_validate `{!DrSerialize} (self : ToolResult) : result ToolResult :=
  let terminal_variants :=
    [is_some (res_output self); is_some (res_refusal self);
     is_some (res_terminal_failure self)] in
  require (count_true terminal_variants =? 1)%nat ValueError
    "a Tool Result must model exactly success, pre-execution refusal, or terminal failure" ;;
  let definition := tdr_record (tc_definition (tcr_record (ToolResult_tool_config self))) in
  require (all_unique (res_evaluation_evidence_refs self)) ValueError
    "Tool Result evaluation_evidence_refs must be unique" ;;
  match res_refusal self with
  | Some refusal =>
      require (bool_decide (tr_refusal_class refusal ∈ td_refusal_classes definition)) ValueError
        "Tool Refusal class is not declared by the exact Tool Definition" ;;
      require (bool_decide (res_evaluation_evidence_refs self = []) &&
               negb (is_some (res_reward self))) ValueError
        "a pre-execution refusal carries no evaluation evidence or Reward"
  | None => Ok tt
  end ;;
  require (negb (is_some (res_terminal_failure self) && is_some (res_reward self))) ValueError
    "a failed Tool Result carries no Reward" ;;
  match res_reward self with
  | Some reward =>
      policy_hash ← Reward_policy_hash (rwr_record reward);
      require (bool_decide (policy_hash =
                 tc_reward_policy_hash (tcr_record (ToolResult_tool_config self)))) ValueError
        "Tool Result Reward policy must match the exact Tool Config" ;;
      require (bool_decide (rw_evidence_refs (rwr_record reward) =
                            res_evaluation_evidence_refs self)) ValueError
        "Tool Result Reward evidence_refs must exactly equal evaluation_evidence_refs"
  | None => Ok tt
  end ;;
  match res_output self with
  | Some output =>
      require (same_elements output.*1 (td_output_fields definition)) ValueError
        "Tool Result output must exactly match Definition output_fields"
  | None => Ok tt
  end ;;
  match res_refusal self with
  | Some _ =>
      require (negb (is_some (res_provenance_ordinal self))) ValueError
        "a pre-execution refusal has no provenance ordinal"
  | None =>
      require (match res_provenance_ordinal self with
               | Some n => negb (n =? 0)%Z | None => false end) ValueError
        "a non-refused Tool Result requires a positive provenance ordinal"
  end ;;
  Ok self.

Definition ToolRefusal_dump (r : ToolRefusal) : pyval :=
  PDict [($"refusal_class", PStr (RefusalClass_value (tr_refusal_class r)));
         ($"reason", PStr (tr_reason r))].

Definition TerminalFailure_dump (f : TerminalFailure) : pyval :=
  PDict [($"code", PStr (tf_code f)); ($"message", PStr (tf_message f));
         ($"details", to_json (tf_details f))].

Definition RewardRef_dump (r : RewardRef) : pyval :=
  PDict [($"record", Reward_record_content (rwr_record r));
         ($"record_ref", TypedRef_dump (rwr_record_ref r))].

Definition ToolResult_record_content (self : ToolResult) : pyval :=
  PDict [($"call", ToolCallRef_dump (res_call self));
         ($"output", POption to_json (res_output self));
         ($"refusal", POption ToolRefusal_dump (res_refusal self));
         ($"terminal_failure", POption TerminalFailure_dump (res_terminal_failure self));
         ($"evaluation_evidence_refs",
           PList (TypedRef_dump <$> res_evaluation_evidence_refs self));
         ($"reward", POption RewardRef_dump (res_reward self));
         ($"provenance_note", POption PStr (res_provenance_note self));
         ($"provenance_ordinal", POption PInt (res_provenance_ordinal self))].

Record ToolResultRef := {
  resr_record : ToolResult;
  resr_record_ref : TypedRef;
}.

#[export] Instance ToolResultRef_eq_dec : EqDecision ToolResultRef.
Proof. solve_decision. Defined.

Section Results.
Context `{DSer : !DrSerialize, DSto : !DrStore}.

Definition ToolResultRef_validate (self : ToolResultRef) : result ToolResultRef :=
  expected ← typed_ref_for_record TOOL_RESULT_SCHEMA
    (ToolResult_record_content (resr_record self));
  require (bool_decide (resr_record_ref self = expected)) ValueError
    "Tool Result record_ref must address the exact result record" ;;
  Ok self.

Definition tool_result_reference (result : ToolResult) : Prelude.result ToolResultRef :=
  ref ← typed_ref_for_record TOOL_RESULT_SCHEMA (ToolResult_record_content result);
  ToolResultRef_validate {| resr_record := result; resr_record_ref := ref |}.

(** ** The runtime handle

    The handle closes over its config, its binding and the tool's executor,
    which acts on some state [S]. *)
Record RuntimeToolHandle (S : Type) := {
  rth_config : ToolConfig;
  rth_binding : ToolCapacityBinding;
  rth_execute : ToolCall → stm S ToolResult;
}.

Definition RuntimeToolHandle_new {S} (config : ToolConfig) (binding : ToolCapacityBinding)
    (execute : ToolCall → stm S ToolResult) : result (RuntimeToolHandle S) :=
  require (bool_decide (tcb_scope binding = tcap_scope (tc_capacity config))) ValueError
    "Runtime Tool binding scope must match the exact Tool Config" ;;
  Ok {| rth_config := config; rth_binding := binding; rth_execute := execute |}.

Definition RuntimeToolHandle_tool_config_ref {S} (self : RuntimeToolHandle S) :
    result ToolConfigRef := tool_config_reference (rth_config S self).

Definition RuntimeToolHandle_tool_config_hash {S} (self : RuntimeToolHandle S) : result pystr :=
  ref ← RuntimeToolHandle_tool_config_ref self;
  Ok (tcr_config_hash ref).

(** [RuntimeToolHandle.__call__]. *)
Definition RuntimeToolHandle_call {S} (self : RuntimeToolHandle S) (call : ToolCall) :
    stm S ToolResult :=
  ref ← lift (RuntimeToolHandle_tool_config_ref self);
  lift (require (bool_decide (tcall_tool_config call = ref)) ValueError
    "Tool Call config must match the Runtime Tool Handle") ;;
  lift (require (bool_decide (tcall_capacity_binding call = rth_binding S self)) ValueError
    "Tool Call capacity binding must match the Runtime Tool Handle") ;;
  rth_execute S self call.
End Results.

(** ** Theorems *)

Lemma POption_inj {A} (f : A → pyval) (x y : option A) :
  (∀ a, f a ≠ PNone) → (∀ a b, f a = f b → a = b) → POption f x = POption f y → x = y.
Proof. intros Hn Hf. destruct x, y; simpl; naive_solver. Qed.

Lemma fmap_inj_on {A B} (f : A → B) (l k : list A) :
  (∀ a b, f a = f b → a = b) → f <$> l = f <$> k → l = k.
Proof. intros Hf. apply list_fmap_eq_inj. intros a b. apply Hf. Qed.

Lemma TypedRef_dump_inj a b : TypedRef_dump a = TypedRef_dump b → a = b.
Proof. destruct a, b. by intros [= -> ->]. Qed.

Lemma RefusalClass_value_inj a b : RefusalClass_value a = RefusalClass_value b → a = b.
Proof. by destruct a, b. Qed.

Lemma ToolCapacityScope_value_inj a b :
  ToolCapacityScope_value a = ToolCapacityScope_value b → a = b.
Proof. by destruct a, b. Qed.

Lemma ToolDefinition_payload_inj a b :
  ToolDefinition_identity_payload a = ToolDefinition_identity_payload b → a = b.
Proof.
  destruct a, b. unfold ToolDefinition_identity_payload. simpl.
  intros [= -> -> Hin Hout Hrc Hes].
  apply fmap_inj_on in Hin as ->; [|by intros ?? [=]].
  apply fmap_inj_on in Hout as ->; [|by intros ?? [=]].
  apply fmap_inj_on in Hrc as ->; [|intros ?? [= ?]; by apply RefusalClass_value_inj].
  apply POption_inj in Hes as ->; [done|done|by intros ?? [=]].
Qed.

Lemma DefinitionRef_dump_inj a b : DefinitionRef_dump a = DefinitionRef_dump b → a = b.
Proof. destruct a, b. by intros [= -> -> -> ->]. Qed.

Lemma refs_dump_inj (a b : list TypedRef) :
  TypedRef_dump <$> a = TypedRef_dump <$> b → a = b.
Proof. apply fmap_inj_on, TypedRef_dump_inj. Qed.

Lemma ref_option_dump_inj (a b : option TypedRef) :
  POption TypedRef_dump a = POption TypedRef_dump b → a = b.
Proof. apply POption_inj; [done|apply TypedRef_dump_inj]. Qed.

Lemma ToolConfig_payload_inj a b :
  ToolConfig_identity_payload a = ToolConfig_identity_payload b → a = b.
Proof.
  destruct a as [[] ? [] ? []], b as [[] ? [] ? []]. unfold ToolConfig_identity_payload.
  hide ToolDefinition_identity_payload. hide TypedRef_dump. hide DefinitionRef_dump.
  hide ToolCapacityScope_value. hide (POption TypedRef_dump). simpl. intros Heq.
  injection Heq. intros. subst.
  f_equal; eauto using refs_dump_inj, ref_option_dump_inj; f_equal;
    eauto using ToolDefinition_payload_inj, TypedRef_dump_inj, DefinitionRef_dump_inj,
      ToolCapacityScope_value_inj.
Qed.

Lemma ToolDefinitionRef_dump_inj a b : ToolDefinitionRef_dump a = ToolDefinitionRef_dump b → a = b.
Proof.
  destruct a, b. unfold ToolDefinitionRef_dump, ToolDefinition_record_content.
  hide ToolDefinition_identity_payload. hide TypedRef_dump. simpl. intros Heq.
  injection Heq. intros. subst.
  f_equal; eauto using ToolDefinition_payload_inj, TypedRef_dump_inj.
Qed.

Lemma EvalConfig_dump_inj a b : EvalConfig_dump a = EvalConfig_dump b → a = b.
Proof.
  destruct a, b. unfold EvalConfig_dump. hide DefinitionRef_dump. simpl. intros Heq.
  injection Heq. intros. subst. f_equal. eauto using DefinitionRef_dump_inj.
Qed.

Lemma ToolConfig_content_inj a b :
  ToolConfig_record_content a = ToolConfig_record_content b → a = b.
Proof.
  destruct a as [? ? ? ? []], b as [? ? ? ? []]. unfold ToolConfig_record_content.
  hide ToolDefinitionRef_dump. hide EvalConfig_dump. hide ToolCapacityScope_value.
  hide (POption TypedRef_dump). simpl. intros Heq. injection Heq. intros. subst.
  f_equal; eauto using refs_dump_inj, ref_option_dump_inj, ToolDefinitionRef_dump_inj,
    EvalConfig_dump_inj; f_equal; eauto using ToolCapacityScope_value_inj.
Qed.

Lemma ToolConfigRef_dump_inj a b : ToolConfigRef_dump a = ToolConfigRef_dump b → a = b.
Proof.
  destruct a, b. unfold ToolConfigRef_dump. hide ToolConfig_record_content. hide TypedRef_dump.
  simpl. intros Heq. injection Heq. intros. subst.
  f_equal; eauto using ToolConfig_content_inj, TypedRef_dump_inj.
Qed.

Lemma ToolCapacityBinding_dump_inj a b :
  ToolCapacityBinding_dump a = ToolCapacityBinding_dump b → a = b.
Proof.
  destruct a, b. unfold ToolCapacityBinding_dump. hide ToolCapacityScope_value.
  hide (POption TypedRef_dump). simpl. intros Heq. injection Heq. intros. subst.
  f_equal; eauto using ref_option_dump_inj, ToolCapacityScope_value_inj.
Qed.

Lemma to_json_inj a b :
  deeply_immutable (PFrozen a) = true → deeply_immutable (PFrozen b) = true →
  to_json a = to_json b → a = b.
Proof.
  unfold to_json. intros Ha Hb Heq. apply freeze_json_value in Ha, Hb.
  rewrite Heq in Ha. congruence.
Qed.

(** The arguments of a call are frozen. *)
Definition ToolCall_frozen (c : ToolCall) : Prop :=
  deeply_immutable (PFrozen (tcall_args c)) = true.

Lemma ToolCall_content_inj a b :
  ToolCall_frozen a → ToolCall_frozen b →
  ToolCall_record_content a = ToolCall_record_content b → a = b.
Proof.
  destruct a, b. unfold ToolCall_frozen, ToolCall_record_content.
  hide ToolConfigRef_dump. hide ToolCapacityBinding_dump. hide to_json. simpl tcall_args in *.
  intros Ha Hb Heq. injection Heq. intros. subst.
  f_equal; eauto using ToolConfigRef_dump_inj, ToolCapacityBinding_dump_inj, to_json_inj.
Qed.

Section ToolTheorems.
Context `{DSer : !DrSerialize, DSto : !DrStore}.

(** A tool config's identity hash covers the whole config: two configs with
    the same identity hash are the same config, field by field, provided an
    identity document embeds its payload and the digest does not collide on
    the two documents. *)
Theorem tool_config_identity_covers (c1 c2 : ToolConfig) h :
  (∀ p1 p2 d, build_identity_document TOOL_CONFIG_SCHEMA TOOL_CONFIG_SCHEMA_VERSION p1 = Ok d →
     build_identity_document TOOL_CONFIG_SCHEMA TOOL_CONFIG_SCHEMA_VERSION p2 = Ok d → p1 = p2) →
  (∀ d1 d2,
     build_identity_document TOOL_CONFIG_SCHEMA TOOL_CONFIG_SCHEMA_VERSION
       (ToolConfig_identity_payload c1) = Ok d1 →
     build_identity_document TOOL_CONFIG_SCHEMA TOOL_CONFIG_SCHEMA_VERSION
       (ToolConfig_identity_payload c2) = Ok d2 →
     identity_document_hash d1 = identity_document_hash d2 → d1 = d2) →
  ToolConfig_identity_hash c1 = Ok h → ToolConfig_identity_hash c2 = Ok h → c1 = c2.
Proof.
  unfold ToolConfig_identity_hash, compute_identity_hash, IdentityHash, ValidatedString_new.
  intros Hembed Hdigest H1 H2. inv_ok. apply ToolConfig_payload_inj.
  assert (a2 = a) as ->.
  { apply Hdigest; [done|done|]. congruence. }
  by eapply Hembed.
Qed.

(** The subject of a validated binding is a validated reference. *)
Definition binding_subject_wf (b : ToolCapacityBinding) : Prop :=
  ∀ r, tcb_subject_ref b = Some r →
    ContentHash (PStr (tref_content_hash r)) = Ok (tref_content_hash r).

(** The pair (scope, scope id) that keys capacity identifies the binding:
    every binding its constructor accepts has a scope id, and two accepted
    bindings with the same scope and the same scope id are equal. *)
Theorem capacity_scope_id_identifies b1 b2 :
  tool_capacity_binding (tcb_scope b1) (tcb_subject_ref b1) = Ok b1 →
  tool_capacity_binding (tcb_scope b2) (tcb_subject_ref b2) = Ok b2 →
  binding_subject_wf b1 → binding_subject_wf b2 →
  (∃ i, capacity_scope_id b1 = Ok i ∧ (i = GLOBAL_CAPACITY_SCOPE_ID ↔ tcb_scope b1 = GLOBAL)) ∧
  (tcb_scope b1 = tcb_scope b2 → capacity_scope_id b1 = capacity_scope_id b2 → b1 = b2).
Proof.
  assert (∀ r, ContentHash (PStr (tref_content_hash r)) = Ok (tref_content_hash r) →
    length (tref_content_hash r) = 64%nat) as Hlen.
  { intros r Hr. unfold ContentHash, ValidatedString_new, hash_validate, require_full_hash in Hr.
    destruct (length _ =? 64)%nat eqn:E; [by apply Nat.eqb_eq in E|done]. }
  assert (∀ r, ContentHash (PStr (tref_content_hash r)) = Ok (tref_content_hash r) →
    NonEmptyId (PStr (tref_content_hash r)) = Ok (tref_content_hash r)) as Hid.
  { intros r Hr%Hlen. apply NonEmptyId_Ok. split; [done|]. intros E. by rewrite E in Hr. }
  intros H1 H2 Hs1 Hs2. unfold tool_capacity_binding, ToolCapacityBinding_validate in H1, H2.
  destruct b1 as [s1 r1], b2 as [s2 r2]. simpl in *. split.
  - destruct s1; simpl in *; inv_ok; simpl in *; subst.
    + eexists. split; [by vm_compute|done].
    + specialize (Hs1 _ eq_refl). eexists. unfold capacity_scope_id. simpl.
      rewrite Hid by done. split; [done|]. apply Hlen in Hs1. split; [|done].
      intros E. by rewrite E in Hs1.
    + specialize (Hs1 _ eq_refl). eexists. unfold capacity_scope_id. simpl.
      rewrite Hid by done. split; [done|]. apply Hlen in Hs1. split; [|done].
      intros E. by rewrite E in Hs1.
  - intros <-. unfold capacity_scope_id. simpl. destruct s1; simpl in *; inv_ok; simpl in *; subst;
      [done|..]; rewrite !Hid by eauto; intros [= E]; do 2 f_equal;
      destruct a, a1; simpl in *; congruence.
Qed.
End ToolTheorems.

Lemma same_elements_spec a b : same_elements a b = true ↔ ∀ x, x ∈ a ↔ x ∈ b.
Proof.
  unfold same_elements. rewrite andb_true_iff, !forallb_Forall, !Forall_forall.
  setoid_rewrite bool_decide_eq_true. naive_solver.
Qed.

(** The shapes a validated result can have. *)
Definition result_definition (self : ToolResult) : ToolDefinition :=
  tdr_record (tc_definition (tcr_record (ToolResult_tool_config self))).

Definition reward_matches `{!DrSerialize} (self : ToolResult) (reward : RewardRef) : Prop :=
  Reward_policy_hash (rwr_record reward) =
    Ok (tc_reward_policy_hash (tcr_record (ToolResult_tool_config self))) ∧
  rw_evidence_refs (rwr_record reward) = res_evaluation_evidence_refs self.

Inductive ToolResult_shape `{!DrSerialize} (self : ToolResult) : Prop :=
| Success output n :
    res_output self = Some output → res_refusal self = None →
    res_terminal_failure self = None →
    (∀ k, k ∈ output.*1 ↔ k ∈ td_output_fields (result_definition self)) →
    (∀ reward, res_reward self = Some reward → reward_matches self reward) →
    NoDup (res_evaluation_evidence_refs self) →
    res_provenance_ordinal self = Some n → n ≠ 0%Z → ToolResult_shape self
| Refused refusal :
    res_output self = None → res_refusal self = Some refusal →
    res_terminal_failure self = None →
    tr_refusal_class refusal ∈ td_refusal_classes (result_definition self) →
    res_evaluation_evidence_refs self = [] → res_reward self = None →
    res_provenance_ordinal self = None → ToolResult_shape self
| Failed failure n :
    res_output self = None → res_refusal self = None →
    res_terminal_failure self = Some failure → res_reward self = None →
    NoDup (res_evaluation_evidence_refs self) →
    res_provenance_ordinal self = Some n → n ≠ 0%Z → ToolResult_shape self.

(** A tool result passes validation exactly when it is one of three
    disjoint things: a success whose output has precisely the declared fields
    and whose reward, if any, belongs to the config's policy and cites exactly
    the result's evidence; a refusal of a declared class with no evidence, no
    reward and no ordinal; or a terminal failure with an ordinal and no
    reward. *)
Theorem tool_result_shapes `{!DrSerialize} (self r : ToolResult) :
  ToolResult_validate self = Ok r ↔ r = self ∧ ToolResult_shape self.
Proof.
  unfold ToolResult_validate. fold (result_definition self).
  destruct self as [call out ref fail refs rew note ord].
  cbn [res_output res_refusal res_terminal_failure res_evaluation_evidence_refs res_reward
       res_provenance_ordinal]. split.
  - intros Hres. inv_ok. split; [done|].
    destruct out as [out|], ref as [ref|], fail as [fail|]; try done; simpl in *; inv_ok.
    + destruct ord as [n|]; [|done]. inv_ok.
      match goal with H : same_elements _ _ = true |- _ =>
        pose proof (proj1 (same_elements_spec _ _) H) as Hout end.
      eapply (Success _ out n); try done; [|by apply Z.eqb_neq].
      intros reward [= ->]. inv_ok. split; [congruence|done].
    + eapply Refused; try done; [by destruct rew|by destruct ord].
    + destruct ord as [n|]; [|done]. inv_ok.
      eapply (Failed _ fail n); try done; [by destruct rew|by apply Z.eqb_neq].
  - intros [-> Hshape].
    destruct Hshape as [out' n|ref'|fail' n]; simpl in *; subst; simpl.
    + rewrite require_unique by done. simpl.
      assert ((n =? 0)%Z = false) as Hn by by apply Z.eqb_neq.
      match goal with H : ∀ k, _ ↔ _ |- _ => apply same_elements_spec in H as Hout end.
      rewrite Hout, Hn. simpl.
      destruct rew as [reward|]; [|done]. simpl.
      match goal with H : ∀ reward, _ = Some reward → _ |- _ =>
        destruct (H reward eq_refl) as [-> Hrefs] end. simpl. rewrite !require_bool_decide by done. done.
    + by rewrite require_bool_decide.
    + rewrite require_unique by done. simpl.
      assert ((n =? 0)%Z = false) as -> by by apply Z.eqb_neq. done.
Qed.

(** ** Concrete instances *)
Section ToolWitnesses.
Import Concrete.

Definition example_binding : ToolCapacityBinding :=
  {| tcb_scope := RUN;
     tcb_subject_ref := Some {| tref_schema_name := RUN_CAPACITY_SUBJECT_SCHEMA;
                                tref_content_hash := replicate 64 48%Z |} |}.

Lemma capacity_scope_id_identifies_witness :
  tool_capacity_binding RUN (tcb_subject_ref example_binding) = Ok example_binding ∧
  (∃ i, capacity_scope_id example_binding = Ok i ∧
        (i = GLOBAL_CAPACITY_SCOPE_ID ↔ tcb_scope example_binding = GLOBAL)).
Proof.
  split; [vm_compute; reflexivity|].
  assert (binding_subject_wf example_binding) as Hwf.
  { intros r [= <-]. vm_compute. reflexivity. }
  refine (proj1 (capacity_scope_id_identifies example_binding example_binding _ _ Hwf Hwf));
    vm_compute; reflexivity.
Defined.

Definition example_definition : ToolDefinition :=
  {| td_tool_name := $"evaluate"; td_version := 1; td_input_fields := [$"template"];
     td_output_fields := [$"score"]; td_refusal_classes := [CAPACITY];
     td_expansion_semantics := None |}.

Definition example_config : ToolConfig :=
  {| tc_definition :=
       {| tdr_record := example_definition;
          tdr_record_ref := {| tref_schema_name := TOOL_DEFINITION_SCHEMA;
            tref_content_hash := digest (ToolDefinition_record_content example_definition) |};
          tdr_config_hash := replicate 64 48%Z |};
     tc_endpoint_key := $"endpoint";
     tc_eval_config :=
       {| ec_definition_ref := {| dr_definition_id := $"e"; dr_version := $"1";
            dr_schema_name := SCHEMA_EVAL_DEFINITION; dr_identity_hash := replicate 64 48%Z |};
          ec_sampling_config_hash := replicate 64 48%Z;
          ec_evaluation_procedure_config_hash := replicate 64 48%Z;
          ec_aggregation_config_hash := replicate 64 48%Z;
          ec_config_hash := replicate 64 48%Z |};
     tc_reward_policy_hash := replicate 64 48%Z;
     tc_capacity := {| tcap_max_accepted_calls := 2; tcap_scope := RUN |};
     tc_timeout_policy_ref := None; tc_operational_policy_refs := [];
     tc_store_namespace_key := $"tools"; tc_idempotent_replay := true;
     tc_candidate_template_field := $"template" |}.

Lemma tool_config_identity_covers_witness :
  ∃ h, ToolConfig_identity_hash example_config = Ok h ∧ example_config = example_config.
Proof.
  eexists. split; [vm_compute; reflexivity|].
  eapply (tool_config_identity_covers example_config example_config);
    [|by intros d1 d2 H1 H2 _; rewrite H1 in H2; injection H2|vm_compute; reflexivity
     |vm_compute; reflexivity].
  intros p1 p2 d H1 H2. rewrite <-H2 in H1. injection H1. done.
Defined.
End ToolWitnesses.
