(* ===== verification/Admission.v ===== *)
(** * Admission: the tool admission ledger and its capacity accounting

    Models [src/whetstone/optim/tools/admission.py] (the entry record, the
    effect request of a call, the replay and completion rules, scope keys),
    [src/whetstone/optim/tools/_memory.py] (the in-memory backend) and
    [ToolAdmissionAuthority] of [facade.py].  The backend's lock makes each of
    its methods one atomic step on [MemState].  Entries and calls are compared
    as [==] compares them, by the canonical JSON of their arguments. *)

From S2P Require Import Prelude Floats Identity Frozen Leasing EvalConfigs Reward Tools.

Definition TOOL_EFFECT_SCHEMA := $"whetstone.tool_execution_effect".
Definition TOOL_EFFECT_SCHEMA_VERSION : Z := 1.
Definition TOOL_EFFECT_KEY_SCHEMA := $"whetstone.tool_execution_effect_key".
Definition TOOL_EFFECT_KEY_SCHEMA_VERSION : Z := 1.
Definition TOOL_EFFECT_KEY_PREFIX := $"whetstone.tool_execution:".

Inductive ToolCallState := ACCEPTED | REFUSED | COMPLETED.

#[export] Instance ToolCallState_eq_dec : EqDecision ToolCallState.
Proof. solve_decision. Defined.

(** The decisions the ledger stores. *)
Record ToolCallStoreEntry := {
  sce_tool_call : ToolCallRef;
  sce_tool_config : ToolConfigRef;
  sce_store_namespace_key : pystr;
  sce_capacity_scope : ToolCapacityScope;
  sce_capacity_scope_id : pystr;
  sce_state : ToolCallState;
  sce_capacity_debit_ordinal : option Z;
  sce_refusal : option ToolRefusal;
  sce_tool_result_ref : option TypedRef;
  sce_effect_terminal : option EffectTerminal;
}.

#[export] Instance ToolCallStoreEntry_eq_dec : EqDecision ToolCallStoreEntry.
Proof. solve_decision. Defined.

Definition sce_tool_call_ref (self : ToolCallStoreEntry) : TypedRef :=
  tcallr_record_ref (sce_tool_call self).
Definition sce_tool_config_hash (self : ToolCallStoreEntry) : pystr :=
  tcr_config_hash (sce_tool_config self).
Definition sce_call_id (self : ToolCallStoreEntry) : pystr :=
  tcall_call_id (tcallr_record (sce_tool_call self)).

Section Admission.
Context `{DSer : !DrSerialize, DSto : !DrStore, DLease : !DrLease}.

(** ** Validation of a dumped record

    [Model.model_validate(record.model_dump(mode="json"))] rebuilds the record:
    its fields keep the values their types accepted when it was first built, so
    what can still fail are the model validators, nested records first. *)
Definition ToolConfig_model_validate (config : ToolConfig) : result ToolConfig :=
  ToolDefinition_validate (tdr_record (tc_definition config)) ;;
  ToolDefinitionRef_validate (tc_definition config) ;;
  ToolConfig_validate config.

Definition ToolConfigRef_model_validate (ref : ToolConfigRef) : result ToolConfigRef :=
  ToolConfig_model_validate (tcr_record ref) ;;
  ToolConfigRef_validate ref.

Definition ToolCall_model_validate (call : ToolCall) : result ToolCall :=
  ToolConfigRef_model_validate (tcall_tool_config call) ;;
  ToolCapacityBinding_validate (tcall_capacity_binding call) ;;
  ToolCall_validate call.

Definition ToolCallRef_model_validate (ref : ToolCallRef) : result ToolCallRef :=
  ToolCall_model_validate (tcallr_record ref) ;;
  ToolCallRef_validate ref.

(** ** The effect request of a call *)
Definition tool_effect_request (call : ToolCall) : result LeaseRequest :=
  exact ← ToolCall_model_validate call;
  let replay_policy :=
    if tc_idempotent_replay (tcr_record (tcall_tool_config exact))
    then IDEMPOTENT else NO_REDRIVE in
  semantic_key ← compute_prefixed_identity_key TOOL_EFFECT_KEY_SCHEMA
    TOOL_EFFECT_KEY_SCHEMA_VERSION TOOL_EFFECT_KEY_PREFIX
    (PDict [($"store_namespace_key", PStr (ToolCall_store_namespace_key exact));
            ($"call_id", PStr (tcall_call_id exact))]);
  scope_id ← ToolCall_capacity_scope_id exact;
  request_hash ← compute_identity_hash TOOL_EFFECT_SCHEMA TOOL_EFFECT_SCHEMA_VERSION
    (PDict [($"tool_call", ToolCall_record_content exact);
            ($"tool_config_record_ref", TypedRef_dump (tcr_record_ref (tcall_tool_config exact)));
            ($"store_namespace_key", PStr (ToolCall_store_namespace_key exact));
            ($"capacity_scope", PStr (ToolCapacityScope_value (ToolCall_capacity_scope exact)));
            ($"capacity_scope_id", PStr scope_id)]);
  let request := {| lr_semantic_key := semantic_key; lr_request_hash := request_hash;
                    lr_replay_policy := replay_policy |} in
  lease_request_validate request ;; Ok request.

(** ** Entries *)

(** [_capacity_scope_key]. *)
Definition capacity_scope_key (binding : ToolCapacityBinding) :
    result (ToolCapacityScope * pystr) :=
  exact ← ToolCapacityBinding_validate binding;
  scope_id ← capacity_scope_id exact;
  Ok (tcb_scope exact, scope_id).

(** The model validator of [ToolCallStoreEntry], in three parts: what ties the
    entry to its call, what its state requires, what ties its terminal. *)
Definition entry_cites_call (self : ToolCallStoreEntry) : result unit :=
  let call := tcallr_record (sce_tool_call self) in
  require (bool_decide (sce_tool_config self = tcall_tool_config call)) ValueError
    "Tool Call Store entry must cite the call's exact Tool Config" ;;
  require (bool_decide (sce_store_namespace_key self = ToolCall_store_namespace_key call))
    ValueError "Tool Call Store entry namespace must match the exact call" ;;
  require (bool_decide (sce_capacity_scope self = ToolCall_capacity_scope call)) ValueError
    "Tool Call Store entry scope must match the exact call" ;;
  scope_id ← ToolCall_capacity_scope_id call;
  require (bool_decide (sce_capacity_scope_id self = scope_id)) ValueError
    "Tool Call Store entry scope ID must match the exact call" ;;
  capacity_scope_key (tcall_capacity_binding call) ;;
  Ok tt.

Definition entry_state_shape (self : ToolCallStoreEntry) : result unit :=
  match sce_state self with
  | ACCEPTED =>
      ordinal ← of_option (sce_capacity_debit_ordinal self) ValueError
        "an accepted entry must record an ordinal";
      require (negb (ordinal =? 0)%Z) ValueError "capacity debit ordinals are one-based" ;;
      require (negb (is_some (sce_refusal self) || is_some (sce_tool_result_ref self) ||
                     is_some (sce_effect_terminal self))) ValueError
        "an accepted entry has no refusal or terminal result"
  | REFUSED =>
      require (negb (is_some (sce_capacity_debit_ordinal self))) ValueError
        "a refused entry consumes no capacity" ;;
      require (is_some (sce_refusal self) && is_some (sce_tool_result_ref self) &&
               negb (is_some (sce_effect_terminal self))) ValueError
        "a refused entry requires its exact refusal and result"
  | COMPLETED =>
      ordinal ← of_option (sce_capacity_debit_ordinal self) ValueError
        "a completed entry retains its capacity ordinal";
      require (negb (ordinal =? 0)%Z) ValueError "capacity debit ordinals are one-based" ;;
      require (negb (is_some (sce_refusal self)) && is_some (sce_tool_result_ref self) &&
               is_some (sce_effect_terminal self)) ValueError
        "a completed entry requires its exact effect terminal and result"
  end.

Definition entry_terminal_exact (self : ToolCallStoreEntry) : result unit :=
  match sce_tool_result_ref self with
  | Some ref => require (bool_decide (tref_schema_name ref = TOOL_RESULT_SCHEMA)) ValueError
                  "terminal entry must reference a Tool Result"
  | None => Ok tt
  end ;;
  match sce_effect_terminal self with
  | Some terminal =>
      request ← tool_effect_request (tcallr_record (sce_tool_call self));
      require (bool_decide (et_request terminal = request)) ValueError
        "completed entry effect terminal belongs to another exact Tool request" ;;
      require (bool_decide (et_outcome terminal ∈ [SUCCEEDED; FAILED])) ValueError
        "recovery-required effects have no completed Tool Result" ;;
      require (bool_decide (et_result_ref terminal = sce_tool_result_ref self)) ValueError
        "completed entry effect terminal references another exact Tool Result"
  | None => Ok tt
  end.

Definition entry_validate (self : ToolCallStoreEntry) : result ToolCallStoreEntry :=
  entry_cites_call self ;; entry_state_shape self ;; entry_terminal_exact self ;; Ok self.

(** [ToolCallStoreEntry.model_validate] of a dumped entry: the field types, the
    nested records, the model validator. *)
Definition ordinal_field (ordinal : option Z) : result unit :=
  match ordinal with
  | Some n => NonNegativeInt (PInt n) ;; Ok tt
  | None => Ok tt
  end.

Definition entry_model_validate (self : ToolCallStoreEntry) : result ToolCallStoreEntry :=
  ToolCallRef_model_validate (sce_tool_call self) ;;
  ToolConfigRef_model_validate (sce_tool_config self) ;;
  ordinal_field (sce_capacity_debit_ordinal self) ;;
  match sce_effect_terminal self with
  | Some t => EffectTerminal_new (et_request t) (et_outcome t) (et_owner_id t) (et_attempt_id t)
                (et_fence t) (et_result_ref t) (et_failure t) ;; Ok tt
  | None => Ok tt
  end ;;
  entry_validate self.

Definition with_ordinal (self : ToolCallStoreEntry) (ordinal : Z) : ToolCallStoreEntry :=
  {| sce_tool_call := sce_tool_call self; sce_tool_config := sce_tool_config self;
     sce_store_namespace_key := sce_store_namespace_key self;
     sce_capacity_scope := sce_capacity_scope self;
     sce_capacity_scope_id := sce_capacity_scope_id self; sce_state := sce_state self;
     sce_capacity_debit_ordinal := Some ordinal; sce_refusal := sce_refusal self;
     sce_tool_result_ref := sce_tool_result_ref self;
     sce_effect_terminal := sce_effect_terminal self |}.

(** [_accepted_with_ordinal]. *)
Definition accepted_with_ordinal (accepted : ToolCallStoreEntry) (ordinal : Z) :
    result ToolCallStoreEntry :=
  entry_model_validate (with_ordinal accepted ordinal).

(** ** Replay, conflict and completion *)

(** [ToolCallStoreEntry.__eq__], its fields in order: calls compare by
    [ToolCallRef_eq], terminals by [EffectTerminal_eq]. *)
Definition entry_eq (self other : ToolCallStoreEntry) : result bool :=
  same_tool_call ← ToolCallRef_eq (sce_tool_call self) (sce_tool_call other);
  if same_tool_call &&
     bool_decide (sce_tool_config self = sce_tool_config other ∧
       sce_store_namespace_key self = sce_store_namespace_key other ∧
       sce_capacity_scope self = sce_capacity_scope other ∧
       sce_capacity_scope_id self = sce_capacity_scope_id other ∧
       sce_state self = sce_state other ∧
       sce_capacity_debit_ordinal self = sce_capacity_debit_ordinal other ∧
       sce_refusal self = sce_refusal other ∧
       sce_tool_result_ref self = sce_tool_result_ref other)
  then optional_eq EffectTerminal_eq (sce_effect_terminal self) (sce_effect_terminal other)
  else Ok false.

(** [_replay_or_conflict]. *)
Definition replay_or_conflict (existing attempted : ToolCallStoreEntry) :
    result ToolCallStoreEntry :=
  same_tool_call ← ToolCallRef_eq (sce_tool_call existing) (sce_tool_call attempted);
  if negb same_tool_call then
    raise ToolCallStoreConflictError "the existing key cites a different exact Tool Call"
  else if bool_decide (sce_state attempted = ACCEPTED) then Ok existing
  else
    same_entry ← entry_eq existing attempted;
    if same_entry : bool then Ok existing
    else raise ToolCallStoreConflictError "the existing key has a different immutable decision".

(** [_complete_transition]. *)
Definition complete_transition (existing : option ToolCallStoreEntry)
    (completed : ToolCallStoreEntry) : result ToolCallStoreEntry :=
  match existing with
  | None => raise ToolCallStoreConflictError "the exact Tool Call was never admitted"
  | Some existing =>
      same_tool_call ← ToolCallRef_eq (sce_tool_call existing) (sce_tool_call completed);
      if negb same_tool_call then
        raise ToolCallStoreConflictError "the terminal result belongs to a different Tool Call"
      else if bool_decide (sce_state existing = COMPLETED) then
        replay_or_conflict existing completed
      else if negb (bool_decide (sce_state existing = ACCEPTED)) then
        raise ToolCallStoreConflictError "a refused call cannot become completed"
      else if negb (bool_decide (sce_capacity_debit_ordinal existing =
                                 sce_capacity_debit_ordinal completed)) then
        raise ToolCallStoreConflictError "completion changed the accepted capacity ordinal"
      else Ok completed
  end.

(** ** Keys and scopes *)

Definition EntryKey : Type := pystr * pystr.
Definition ScopeKey : Type := pystr * pystr * pystr * pystr.

(** [_entry_key]. *)
Definition entry_key (entry : ToolCallStoreEntry) : EntryKey :=
  (sce_store_namespace_key entry, sce_call_id entry).

(** [_backend_scope_id]. *)
Definition backend_scope_id (capacity_scope : ToolCapacityScope) (capacity_scope_id : pystr) :
    result pystr :=
  require (negb (bool_decide (capacity_scope = GLOBAL) &&
                 negb (bool_decide (capacity_scope_id = GLOBAL_CAPACITY_SCOPE_ID)))) ValueError
    "GLOBAL Tool Capacity requires capacity_scope_id" ;;
  Ok capacity_scope_id.

(** [_scope_key]. *)
Definition scope_key (entry : ToolCallStoreEntry) : result ScopeKey :=
  '(scope, scope_id) ← capacity_scope_key
    (tcall_capacity_binding (tcallr_record (sce_tool_call entry)));
  Ok (sce_store_namespace_key entry, sce_tool_config_hash entry,
      ToolCapacityScope_value scope, scope_id).

(** The test of the comprehension in [_entries_in_scope]. *)
Definition in_scope (scope : ScopeKey) (entry : ToolCallStoreEntry) : result bool :=
  match sce_capacity_debit_ordinal entry with
  | None => Ok false
  | Some _ =>
      '(s, i) ← capacity_scope_key (tcall_capacity_binding (tcallr_record (sce_tool_call entry)));
      i ← backend_scope_id s i;
      Ok (bool_decide ((sce_store_namespace_key entry, sce_tool_config_hash entry,
                        ToolCapacityScope_value s, i) = scope))
  end.

Fixpoint filter_result {A} (f : A → result bool) (l : list A) : result (list A) :=
  match l with
  | [] => Ok []
  | x :: l =>
      b ← f x;
      rest ← filter_result f l;
      Ok (if b : bool then x :: rest else rest)
  end.

(** [int(entry.capacity_debit_ordinal or 0)]. *)
Definition debit_ordinal (entry : ToolCallStoreEntry) : Z :=
  default 0%Z (sce_capacity_debit_ordinal entry).

(** [_entries_in_scope]. *)
Definition entries_in_scope (entries : list ToolCallStoreEntry)
    (store_namespace_key tool_config_hash : pystr) (capacity_scope : ToolCapacityScope)
    (capacity_scope_id : pystr) : result (list ToolCallStoreEntry) :=
  scope_id ← backend_scope_id capacity_scope capacity_scope_id;
  let scope := (store_namespace_key, tool_config_hash,
                ToolCapacityScope_value capacity_scope, scope_id) in
  selected ← filter_result (in_scope scope) entries;
  Ok (py_sorted (λ a b, debit_ordinal a <=? debit_ordinal b)%Z selected).

(** [_validate_admission_attempt]. *)
Definition validate_admission_attempt (accepted refused : ToolCallStoreEntry)
    (max_accepted_calls : Z) : result unit :=
  require (bool_decide (sce_state accepted = ACCEPTED)) ValueError
    "admission accepted candidate must be accepted" ;;
  require (bool_decide (sce_state refused = REFUSED)) ValueError
    "admission refused candidate must be refused" ;;
  same_tool_call ← ToolCallRef_eq (sce_tool_call accepted) (sce_tool_call refused);
  require same_tool_call ValueError
    "admission candidates must cite one exact Tool Call" ;;
  require (match sce_refusal refused with
           | Some r => bool_decide (tr_refusal_class r = CAPACITY) | None => false end) ValueError
    "admission refusal must be a capacity refusal" ;;
  require (negb (max_accepted_calls <? 0)%Z) ValueError "max_accepted_calls must be non-negative".

(** ** The in-memory backend *)

(** The two dictionaries: decisions by entry key, and per scope the maximum
    and the calls consumed. *)
Record MemState := {
  ms_entries : list (EntryKey * ToolCallStoreEntry);
  ms_capacity : list (ScopeKey * (Z * Z));
}.

Definition empty_state : MemState := {| ms_entries := []; ms_capacity := [] |}.

Definition set_entry (key : EntryKey) (entry : ToolCallStoreEntry) : stm MemState unit :=
  modify (λ st, {| ms_entries := dict_set (ms_entries st) key entry;
                   ms_capacity := ms_capacity st |}).

Definition set_capacity (key : ScopeKey) (v : Z * Z) : stm MemState unit :=
  modify (λ st, {| ms_entries := ms_entries st;
                   ms_capacity := dict_set (ms_capacity st) key v |}).

Definition memory_admit (accepted refused : ToolCallStoreEntry) (max_accepted_calls : Z) :
    stm MemState ToolCallStoreEntry :=
  let key := entry_key accepted in
  existing ← gets (λ st, dict_get (ms_entries st) key);
  match existing with
  | Some existing => lift (replay_or_conflict existing accepted)
  | None =>
      scope ← lift (scope_key accepted);
      capacity ← gets (λ st, default (max_accepted_calls, 0%Z) (dict_get (ms_capacity st) scope));
      let '(maximum, consumed) := capacity : Z * Z in
      lift (require (maximum =? max_accepted_calls)%Z RuntimeError
        "capacity maximum changed within one scope") ;;
      decision ←
        (if (consumed <? maximum)%Z then
           let ordinal := (consumed + 1)%Z in
           decision ← lift (accepted_with_ordinal accepted ordinal);
           set_capacity scope (maximum, ordinal) ;;
           mret decision
         else mret refused);
      set_entry key decision ;;
      mret decision
  end.

Definition memory_refuse (entry : ToolCallStoreEntry) : stm MemState ToolCallStoreEntry :=
  let key := entry_key entry in
  existing ← gets (λ st, dict_get (ms_entries st) key);
  match existing with
  | Some existing => lift (replay_or_conflict existing entry)
  | None => set_entry key entry ;; mret entry
  end.

Definition memory_get (store_namespace_key call_id : pystr) :
    stm MemState (option ToolCallStoreEntry) :=
  gets (λ st, dict_get (ms_entries st) (store_namespace_key, call_id)).

Definition memory_complete (entry : ToolCallStoreEntry) : stm MemState ToolCallStoreEntry :=
  let key := entry_key entry in
  existing ← gets (λ st, dict_get (ms_entries st) key);
  completed ← lift (complete_transition existing entry);
  set_entry key completed ;;
  mret completed.

Definition memory_accepted_count (store_namespace_key tool_config_hash : pystr)
    (capacity_scope : ToolCapacityScope) (capacity_scope_id : pystr) : stm MemState Z :=
  scope_id ← lift (backend_scope_id capacity_scope capacity_scope_id);
  gets (λ st, (default (0, 0)%Z (dict_get (ms_capacity st)
    (store_namespace_key, tool_config_hash, ToolCapacityScope_value capacity_scope, scope_id))).2).

Definition memory_admitted_entries (store_namespace_key tool_config_hash : pystr)
    (capacity_scope : ToolCapacityScope) (capacity_scope_id : pystr) :
    stm MemState (list ToolCallStoreEntry) :=
  entries ← gets (λ st, (ms_entries st).*2);
  lift (entries_in_scope entries store_namespace_key tool_config_hash capacity_scope
          capacity_scope_id).

(** ** The backend interface and the authority *)

Record AdmissionBackend (S : Type) := {
  ab_admit : ToolCallStoreEntry → ToolCallStoreEntry → Z → stm S ToolCallStoreEntry;
  ab_refuse : ToolCallStoreEntry → stm S ToolCallStoreEntry;
  ab_get : pystr → pystr → stm S (option ToolCallStoreEntry);
  ab_complete : ToolCallStoreEntry → stm S ToolCallStoreEntry;
  ab_accepted_count : pystr → pystr → ToolCapacityScope → pystr → stm S Z;
  ab_admitted_entries : pystr → pystr → ToolCapacityScope → pystr →
    stm S (list ToolCallStoreEntry);
}.

Definition memory_backend : AdmissionBackend MemState :=
  {| ab_admit := memory_admit; ab_refuse := memory_refuse; ab_get := memory_get;
     ab_complete := memory_complete; ab_accepted_count := memory_accepted_count;
     ab_admitted_entries := memory_admitted_entries |}.

Section Authority.
Context {S : Type} (backend : AdmissionBackend S).

Definition authority_admit (accepted refused : ToolCallStoreEntry) (max_accepted_calls : Z) :
    stm S ToolCallStoreEntry :=
  lift (validate_admission_attempt accepted refused max_accepted_calls) ;;
  ab_admit S backend accepted refused max_accepted_calls.

Definition authority_refuse (entry : ToolCallStoreEntry) : stm S ToolCallStoreEntry :=
  lift (require (bool_decide (sce_state entry = REFUSED)) ValueError
    "refusal candidate must be refused") ;;
  lift (require (match sce_refusal entry with
                 | Some r => negb (bool_decide (tr_refusal_class r = CAPACITY))
                 | None => true end) ValueError
    "capacity refusal is owned by admission") ;;
  ab_refuse S backend entry.

Definition authority_complete (entry : ToolCallStoreEntry) : stm S ToolCallStoreEntry :=
  lift (require (bool_decide (sce_state entry = COMPLETED)) ValueError
    "completion candidate must be completed") ;;
  ab_complete S backend entry.
End Authority.
End Admission.

(** ** The capacity invariant *)

Section AdmissionTheorems.
Context `{DSer : !DrSerialize, DSto : !DrStore, DLease : !DrLease}.
Implicit Types (st : MemState) (e a r d : ToolCallStoreEntry) (sk : ScopeKey).

(** The ordinals debited to a scope, in the order of the entries. *)
Definition debited sk (ke : EntryKey * ToolCallStoreEntry) : option Z :=
  if decide (scope_key ke.2 = Ok sk) then sce_capacity_debit_ordinal ke.2 else None.

Definition ordinals st sk : list Z := omap (debited sk) (ms_entries st).

Definition consumed st sk : Z := (default (0, 0)%Z (dict_get (ms_capacity st) sk)).2.

(** Keys are unique and each leads to a valid entry of that key; no scope has
    consumed more than its maximum; and the ordinals debited to a scope are the
    numbers from one to the calls it consumed, each exactly once. *)
Record mem_inv st : Prop := {
  inv_keys : NoDup (ms_entries st).*1;
  inv_entry : ∀ k e, (k, e) ∈ ms_entries st → k = entry_key e ∧ entry_validate e = Ok e;
  inv_capacity : ∀ sk m n, dict_get (ms_capacity st) sk = Some (m, n) → (0 <= n <= m)%Z;
  inv_ordinals : ∀ sk, ordinals st sk ≡ₚ seqZ 1 (consumed st sk);
}.

Lemma empty_inv : mem_inv empty_state.
Proof. split; [constructor|by intros ?? ?%elem_of_nil|done|done]. Qed.

(** What a valid entry's key and scope depend on. *)
Lemma valid_entry_key e :
  entry_validate e = Ok e →
  entry_key e = (ToolCall_store_namespace_key (tcallr_record (sce_tool_call e)),
                 tcall_call_id (tcallr_record (sce_tool_call e))).
Proof.
  unfold entry_validate, entry_cites_call. intros H. inv_ok.
  unfold entry_key, sce_call_id. congruence.
Qed.

Lemma valid_scope_key e :
  entry_validate e = Ok e →
  ∃ i, capacity_scope_key (tcall_capacity_binding (tcallr_record (sce_tool_call e))) = Ok i ∧
    scope_key e = Ok (ToolCall_store_namespace_key (tcallr_record (sce_tool_call e)),
      tcr_config_hash (tcall_tool_config (tcallr_record (sce_tool_call e))),
      ToolCapacityScope_value i.1, i.2).
Proof.
  unfold entry_validate, entry_cites_call, scope_key. intros H.
  inv_ok. match goal with H : capacity_scope_key _ = Ok ?i |- _ => exists i; rewrite H; destruct i end.
  split; [done|]. simpl. unfold sce_tool_config_hash. congruence.
Qed.

(** Two valid entries of one call have the same key and the same scope. *)
Lemma same_call_same_keys e1 e2 :
  entry_validate e1 = Ok e1 → entry_validate e2 = Ok e2 →
  same_call_ref (sce_tool_call e1) (sce_tool_call e2) →
  entry_key e1 = entry_key e2 ∧ scope_key e1 = scope_key e2.
Proof.
  intros H1 H2 [[Hid Hconfig Hbinding _] _].
  rewrite (valid_entry_key _ H1), (valid_entry_key _ H2).
  destruct (valid_scope_key _ H1) as (i1 & Hi1 & ->), (valid_scope_key _ H2) as (i2 & Hi2 & ->).
  unfold ToolCall_store_namespace_key. rewrite Hid, Hconfig. split; [done|]. congruence.
Qed.

Lemma accepted_with_ordinal_Ok a n d :
  accepted_with_ordinal a n = Ok d →
  d = with_ordinal a n ∧ entry_validate d = Ok d ∧ (0 <= n)%Z.
Proof.
  unfold accepted_with_ordinal, entry_model_validate. intros H. inv_ok.
  match goal with H : entry_validate _ = Ok d |- _ => rename H into Hv end.
  assert (d = with_ordinal a n) as ->.
  { unfold entry_validate in Hv. inv_ok. done. }
  split_and!; [done|done|].
  match goal with H : ordinal_field _ = _ |- _ => unfold ordinal_field, NonNegativeInt in H;
    simpl in H; inv_ok end. lia.
Qed.

Lemma refused_no_ordinal r :
  entry_validate r = Ok r → sce_state r = REFUSED → sce_capacity_debit_ordinal r = None.
Proof.
  unfold entry_validate, entry_state_shape. intros H Hs. inv_ok.
  rewrite Hs in *. inv_ok. by destruct (sce_capacity_debit_ordinal r).
Qed.

(** *** Preservation *)

(** A new entry without ordinal. *)
Lemma inv_add_free st e :
  mem_inv st → entry_validate e = Ok e → dict_get (ms_entries st) (entry_key e) = None →
  sce_capacity_debit_ordinal e = None →
  mem_inv {| ms_entries := dict_set (ms_entries st) (entry_key e) e;
             ms_capacity := ms_capacity st |}.
Proof.
  intros [Hk He Hc Ho] Hv Hfresh Hn. split; simpl.
  - by apply dict_set_NoDup.
  - intros k e' [[= -> ->]|?]%dict_set_elem; [done|by apply He].
  - done.
  - intros sk. unfold ordinals. simpl. apply dict_get_None in Hfresh.
    rewrite dict_set_fresh by done. rewrite omap_app. csimpl. unfold debited at 2. simpl.
    rewrite Hn. destruct (decide _); simpl; rewrite app_nil_r; apply Ho.
Qed.

(** A new entry that debits the next ordinal of its scope. *)
Lemma inv_add_debit st e sk m n :
  mem_inv st → entry_validate e = Ok e → dict_get (ms_entries st) (entry_key e) = None →
  scope_key e = Ok sk → sce_capacity_debit_ordinal e = Some (n + 1)%Z →
  default (m, 0%Z) (dict_get (ms_capacity st) sk) = (m, n) → (n < m)%Z →
  mem_inv {| ms_entries := dict_set (ms_entries st) (entry_key e) e;
             ms_capacity := dict_set (ms_capacity st) sk (m, n + 1)%Z |}.
Proof.
  intros [Hk He Hc Ho] Hv Hfresh Hsk Hn Hmn Hlt.
  assert (consumed st sk = n ∧ (0 <= n)%Z) as [Hcons Hpos].
  { unfold consumed. destruct (dict_get (ms_capacity st) sk) as [[m' n']|] eqn:E; simpl in *.
    - simplify_eq. apply Hc in E. lia.
    - simplify_eq. lia. }
  split; simpl.
  - by apply dict_set_NoDup.
  - intros k e' [[= -> ->]|?]%dict_set_elem; [done|by apply He].
  - intros sk' m' n'. destruct (decide (sk = sk')) as [<-|Hne].
    + rewrite dict_get_set_eq. intros [= <- <-]. lia.
    + rewrite dict_get_set_ne by done. apply Hc.
  - intros sk'. unfold ordinals, consumed. simpl. apply dict_get_None in Hfresh.
    rewrite dict_set_fresh by done. rewrite omap_app. csimpl. unfold debited at 2. simpl.
    rewrite Hsk, Hn. destruct (decide (sk = sk')) as [<-|Hne].
    + rewrite decide_True by done. rewrite dict_get_set_eq. simpl.
      rewrite (seqZ_app 1 n 1) by lia. f_equiv; [|by rewrite Z.add_comm].
      rewrite <-Hcons. apply Ho.
    + rewrite decide_False by congruence. rewrite dict_get_set_ne by done.
      rewrite app_nil_r. apply Ho.
Qed.

(** A stored entry replaced by one of the same call and ordinal. *)
Lemma inv_replace st e e' :
  mem_inv st → entry_validate e' = Ok e' →
  dict_get (ms_entries st) (entry_key e') = Some e →
  same_call_ref (sce_tool_call e) (sce_tool_call e') →
  sce_capacity_debit_ordinal e = sce_capacity_debit_ordinal e' →
  mem_inv {| ms_entries := dict_set (ms_entries st) (entry_key e') e';
             ms_capacity := ms_capacity st |}.
Proof.
  intros [Hk He Hc Ho] Hv Hget Hcall Hord. pose proof (dict_get_Some _ _ _ Hget) as Hin.
  destruct (He _ _ Hin) as [_ Hve]. destruct (same_call_same_keys e e') as [_ Hsk]; [done..|].
  split; simpl.
  - by apply dict_set_NoDup.
  - intros k e'' [[= -> ->]|?]%dict_set_elem; [done|by apply He].
  - done.
  - intros sk. unfold ordinals. simpl. erewrite omap_dict_set; [apply Ho|exact Hget|].
    unfold debited. simpl. by rewrite Hsk, Hord.
Qed.

(** *** Steps *)

(** One call of the authority over the memory backend, with records their
    constructors accepted; what the call returns or raises does not matter. *)
Inductive admission_step st : MemState → Prop :=
| step_admit a r m :
    entry_validate a = Ok a → entry_validate r = Ok r →
    admission_step st (authority_admit memory_backend a r m st).2
| step_refuse e :
    entry_validate e = Ok e → admission_step st (authority_refuse memory_backend e st).2
| step_complete e :
    entry_validate e = Ok e → admission_step st (authority_complete memory_backend e st).2.

(** What a call can do to the state: without a debit, nothing, a refusal under a
    fresh key or the completion of an accepted call; or one debit. *)
Inductive undebited_update st : MemState → Prop :=
| update_none : undebited_update st st
| update_free e :
    entry_validate e = Ok e → dict_get (ms_entries st) (entry_key e) = None →
    sce_state e = REFUSED → sce_capacity_debit_ordinal e = None →
    undebited_update st {| ms_entries := dict_set (ms_entries st) (entry_key e) e;
                           ms_capacity := ms_capacity st |}
| update_complete e e' :
    entry_validate e' = Ok e' → dict_get (ms_entries st) (entry_key e') = Some e →
    same_call_ref (sce_tool_call e) (sce_tool_call e') →
    sce_capacity_debit_ordinal e = sce_capacity_debit_ordinal e' →
    sce_state e = ACCEPTED → sce_state e' = COMPLETED →
    undebited_update st {| ms_entries := dict_set (ms_entries st) (entry_key e') e';
                           ms_capacity := ms_capacity st |}.

Inductive admission_update st : MemState → Prop :=
| update_undebited st' : undebited_update st st' → admission_update st st'
| update_debit e sk m n :
    entry_validate e = Ok e → dict_get (ms_entries st) (entry_key e) = None →
    sce_state e = ACCEPTED → scope_key e = Ok sk →
    sce_capacity_debit_ordinal e = Some (n + 1)%Z →
    default (m, 0%Z) (dict_get (ms_capacity st) sk) = (m, n) → (n < m)%Z →
    admission_update st {| ms_entries := dict_set (ms_entries st) (entry_key e) e;
                           ms_capacity := dict_set (ms_capacity st) sk (m, n + 1)%Z |}.

Lemma memory_state_eta st :
  {| ms_entries := ms_entries st; ms_capacity := ms_capacity st |} = st.
Proof. by destruct st. Qed.

(** The decision of [admit] on a fresh key. *)
Lemma memory_admit_fresh st a r m sk n :
  dict_get (ms_entries st) (entry_key a) = None → scope_key a = Ok sk →
  default (m, 0%Z) (dict_get (ms_capacity st) sk) = (m, n) →
  memory_admit a r m st =
    if (n <? m)%Z then
      match accepted_with_ordinal a (n + 1)%Z with
      | Ok d => (Ok d, {| ms_entries := dict_set (ms_entries st) (entry_key a) d;
                          ms_capacity := dict_set (ms_capacity st) sk (m, n + 1)%Z |})
      | Err e => (Err e, st)
      end
    else (Ok r, {| ms_entries := dict_set (ms_entries st) (entry_key a) r;
                   ms_capacity := ms_capacity st |}).
Proof.
  intros Hfresh Hsk Hcap. unfold memory_admit, gets, lift, set_entry, set_capacity, modify,
    mbind, stm_bind, mret, stm_ret. rewrite Hfresh, Hsk, Hcap, Z.eqb_refl. simpl.
  destruct (n <? m)%Z; [|done]. by destruct (accepted_with_ordinal _ _).
Qed.

Lemma memory_admit_existing st a r m e :
  dict_get (ms_entries st) (entry_key a) = Some e →
  memory_admit a r m st = (replay_or_conflict e a, st).
Proof. unfold memory_admit, gets, lift, mbind, stm_bind. by intros ->. Qed.

(** What an admission can do to the state. *)
Inductive admit_effect st a r m : MemState → Prop :=
| admit_same : admit_effect st a r m st
| admit_refused :
    dict_get (ms_entries st) (entry_key a) = None → entry_key a = entry_key r →
    sce_state r = REFUSED →
    admit_effect st a r m {| ms_entries := dict_set (ms_entries st) (entry_key a) r;
                             ms_capacity := ms_capacity st |}
| admit_debited sk n :
    dict_get (ms_entries st) (entry_key a) = None → scope_key a = Ok sk →
    sce_state a = ACCEPTED → entry_validate (with_ordinal a (n + 1)) = Ok (with_ordinal a (n + 1)) →
    default (m, 0%Z) (dict_get (ms_capacity st) sk) = (m, n) → (n < m)%Z →
    admit_effect st a r m
      {| ms_entries := dict_set (ms_entries st) (entry_key a) (with_ordinal a (n + 1));
         ms_capacity := dict_set (ms_capacity st) sk (m, n + 1)%Z |}.

(** The two candidates of an admission cite one call. *)
Lemma attempt_same_call a r m :
  validate_admission_attempt a r m = Ok tt → same_call_ref (sce_tool_call a) (sce_tool_call r).
Proof. unfold validate_admission_attempt. intros H. inv_ok. by apply ToolCallRef_eq_same. Qed.

Lemma admit_cases st a r m :
  entry_validate a = Ok a → entry_validate r = Ok r →
  admit_effect st a r m (authority_admit memory_backend a r m st).2.
Proof.
  intros Ha Hr. unfold authority_admit. simpl. unfold mbind at 1, stm_bind at 1, lift at 1.
  destruct (validate_admission_attempt a r m) as [[]|] eqn:Hv; [|constructor].
  pose proof (attempt_same_call _ _ _ Hv) as Hcall.
  unfold validate_admission_attempt in Hv. inv_ok.
  destruct (dict_get (ms_entries st) (entry_key a)) as [e|] eqn:Hget.
  { rewrite (memory_admit_existing _ _ _ _ _ Hget). constructor. }
  destruct (valid_scope_key a Ha) as (i & _ & Hsk).
  destruct (same_call_same_keys a r Ha Hr Hcall) as [Hkey _].
  set (sk := (_, _, _, _)) in Hsk. clearbody sk.
  destruct (default (m, 0%Z) (dict_get (ms_capacity st) sk)) as [m' n] eqn:Hcap.
  destruct (decide (m' = m)) as [->|Hne].
  - rewrite (memory_admit_fresh st a r m sk n) by done. destruct (n <? m)%Z eqn:Hlt.
    + destruct (accepted_with_ordinal a (n + 1)) as [d|] eqn:Hd; [|constructor].
      apply accepted_with_ordinal_Ok in Hd as (-> & Hd & _).
      apply Z.ltb_lt in Hlt. by econstructor.
    + by constructor.
  - unfold memory_admit, gets, lift, mbind, stm_bind. rewrite Hget, Hsk, Hcap.
    rewrite (proj2 (Z.eqb_neq _ _)) by done. constructor.
Qed.

Lemma admit_update st a r m :
  entry_validate a = Ok a → entry_validate r = Ok r →
  admission_update st (authority_admit memory_backend a r m st).2.
Proof.
  intros Ha Hr. destruct (admit_cases st a r m Ha Hr) as [|Hget Hkey ?|sk n].
  - repeat constructor.
  - rewrite Hkey in *. do 2 econstructor; auto using refused_no_ordinal.
  - change (entry_key a) with (entry_key (with_ordinal a (n + 1))). by econstructor.
Qed.

Lemma refuse_update st e :
  entry_validate e = Ok e → undebited_update st (authority_refuse memory_backend e st).2.
Proof.
  intros He. unfold authority_refuse. simpl. unfold mbind, stm_bind, lift.
  destruct (require (bool_decide _) _ _) as [[]|] eqn:Hs; [|constructor]. inv_ok.
  destruct (require _ _ _) as [[]|]; [|constructor].
  unfold memory_refuse, gets, mbind, stm_bind, lift, set_entry, modify.
  destruct (dict_get (ms_entries st) (entry_key e)) eqn:Hget; [constructor|].
  constructor; auto using refused_no_ordinal.
Qed.

Lemma replay_or_conflict_Ok e a d :
  replay_or_conflict e a = Ok d →
  d = e ∧ same_call_ref (sce_tool_call e) (sce_tool_call a) ∧
  (sce_state a = ACCEPTED ∨ entry_eq e a = Ok true).
Proof.
  unfold replay_or_conflict. intros (b & Hb & H)%bind_Ok. destruct b; [|done]. simpl in H.
  apply ToolCallRef_eq_same in Hb. case_bool_decide; [injection H as <-; auto|].
  apply bind_Ok in H as ([] & He & H); [|done]. injection H as <-. auto.
Qed.

(** What [==] tells of two entries. *)
Lemma entry_eq_same e e' :
  entry_eq e e' = Ok true →
  same_call_ref (sce_tool_call e) (sce_tool_call e') ∧ entry_key e = entry_key e' ∧
  sce_state e = sce_state e' ∧ sce_capacity_debit_ordinal e = sce_capacity_debit_ordinal e' ∧
  sce_refusal e = sce_refusal e' ∧ sce_tool_result_ref e = sce_tool_result_ref e'.
Proof.
  unfold entry_eq. intros (b & Hb & H)%bind_Ok. destruct b; [|done]. simpl in H.
  case_bool_decide as Hfields; [|done]. apply ToolCallRef_eq_same in Hb.
  destruct Hfields as (? & Hns & ? & ? & ? & ? & ? & ?).
  assert (sce_call_id e = sce_call_id e') as Hid by by destruct Hb as [[]].
  split_and!; [done| |done..]. unfold entry_key. by rewrite Hns, Hid.
Qed.

(** A completion keeps the stored entry or replaces an accepted one of the same
    call. *)
Lemma complete_transition_Ok x e d :
  complete_transition (Some x) e = Ok d →
  same_call_ref (sce_tool_call x) (sce_tool_call e) ∧
  (d = x ∨
   d = e ∧ sce_state x = ACCEPTED ∧
   sce_capacity_debit_ordinal x = sce_capacity_debit_ordinal e).
Proof.
  unfold complete_transition. intros (b & Hb & H)%bind_Ok. destruct b; [|done]. simpl in H.
  split; [by apply ToolCallRef_eq_same|]. case_bool_decide.
  - apply replay_or_conflict_Ok in H as (-> & _). auto.
  - repeat (case_bool_decide; simpl in H; [|done]). injection H as ->. auto.
Qed.

Lemma complete_update st e :
  entry_validate e = Ok e → undebited_update st (authority_complete memory_backend e st).2.
Proof.
  intros He. unfold authority_complete. simpl. unfold mbind, stm_bind, lift.
  destruct (require _ _ _) as [[]|] eqn:Hs; [|constructor]. inv_ok.
  unfold memory_complete, gets, mbind, stm_bind, lift, set_entry, modify.
  destruct (dict_get (ms_entries st) (entry_key e)) as [x|] eqn:Hget; [|constructor].
  destruct (complete_transition (Some x) e) as [d|] eqn:Hd; [|constructor]. simpl.
  apply complete_transition_Ok in Hd as (Hcall & [->|(-> & Hacc & Hord)]).
  - rewrite dict_set_id, memory_state_eta by done. constructor.
  - by econstructor.
Qed.

Lemma step_update st st' : admission_step st st' → admission_update st st'.
Proof. destruct 1; auto using admit_update, update_undebited, refuse_update, complete_update. Qed.

Lemma update_inv st st' : mem_inv st → admission_update st st' → mem_inv st'.
Proof.
  intros Hinv. destruct 1 as [? []|]; eauto using inv_add_free, inv_add_debit, inv_replace.
Qed.

Lemma reachable_inv st : rtc admission_step empty_state st → mem_inv st.
Proof.
  apply (rtc_ind_r (R:=admission_step) mem_inv);
    eauto using empty_inv, update_inv, step_update.
Qed.

(** *** Reading a scope *)

Lemma capacity_scope_key_backend b i :
  capacity_scope_key b = Ok i → backend_scope_id i.1 i.2 = Ok i.2.
Proof.
  unfold capacity_scope_key, backend_scope_id. intros H. inv_ok. simpl.
  match goal with H : ToolCapacityBinding_validate b = Ok ?x |- _ =>
    assert (x = b) as -> by (unfold ToolCapacityBinding_validate in H;
      destruct (tcb_scope b); inv_ok; done) end.
  case_bool_decide as Hs; [|done].
  match goal with H : capacity_scope_id b = _ |- _ => unfold capacity_scope_id in H;
    rewrite Hs in H; vm_compute in H; injection H as <- end.
  by rewrite bool_decide_true.
Qed.

(** On valid entries the scope test is the debit's scope. *)
Lemma in_scope_valid sk e :
  entry_validate e = Ok e →
  in_scope sk e = Ok (is_some (debited sk (entry_key e, e))).
Proof.
  intros (i & Hi & Hsk)%valid_scope_key. pose proof Hsk as Hsk'.
  unfold in_scope, debited. simpl. unfold scope_key in Hsk.
  rewrite Hi in *. pose proof (capacity_scope_key_backend _ _ Hi) as Hb. destruct i as [s i].
  simpl in *. rewrite Hsk'. destruct (sce_capacity_debit_ordinal e) as [n|]; [|by destruct (decide _)].
  rewrite Hb. simpl. apply (inj Ok) in Hsk. rewrite Hsk. f_equal.
  destruct (decide (_ = Ok sk)) as [Heq|Hne]; [apply (inj Ok) in Heq; by rewrite bool_decide_true|].
  rewrite bool_decide_false; [done|]. intros <-. by apply Hne.
Qed.

Lemma filter_result_scope sk (l : list (EntryKey * ToolCallStoreEntry)) :
  Forall (λ ke, ke.1 = entry_key ke.2 ∧ entry_validate ke.2 = Ok ke.2) l →
  ∃ k, filter_result (in_scope sk) l.*2 = Ok k ∧ debit_ordinal <$> k = omap (debited sk) l ∧
    (∀ e, e ∈ k ↔ ∃ ke, ke ∈ l ∧ ke.2 = e ∧ is_some (debited sk ke) = true).
Proof.
  induction 1 as [|[key e] l [Hkey He] _ (k & Hk & Hord & Hin)]; csimpl.
  { exists []. split_and!; [done|done|]. intros e. rewrite elem_of_nil.
    split; [done|]. by intros (?&?%elem_of_nil&_). }
  simpl in *. subst key. rewrite in_scope_valid by done. rewrite Hk. simpl.
  destruct (debited sk (entry_key e, e)) as [n|] eqn:Hd; simpl; eexists; (split; [done|]).
  - split.
    + csimpl. rewrite Hord. f_equal. unfold debited in Hd. simpl in Hd.
      destruct (decide _); [|done]. unfold debit_ordinal. by rewrite Hd.
    + intros e'. rewrite elem_of_cons, Hin. setoid_rewrite elem_of_cons. split.
      * intros [->|(ke & ? & ? & ?)]; [|by eauto]. exists (entry_key e, e). by rewrite Hd; auto.
      * intros (ke & [->|?] & <- & ?); [by auto|]. right. eauto.
  - split; [done|]. intros e'. rewrite Hin. setoid_rewrite elem_of_cons. split.
    + intros (ke & ? & ? & ?). by eauto.
    + intros (ke & [->|?] & ? & Hsome); [by rewrite Hd in Hsome|eauto].
Qed.

Lemma StronglySorted_fmap {A B} (R : relation A) (S : relation B) (f : A → B) (l : list A) :
  (∀ x y, R x y → S (f x) (f y)) → StronglySorted R l → StronglySorted S (f <$> l).
Proof.
  intros Hf. induction 1 as [|x l Hl IH Hx]; csimpl; constructor; [done|].
  rewrite Forall_fmap. eapply Forall_impl; [exact Hx|]. intros y. apply Hf.
Qed.

Lemma seqZ_StronglySorted m n : StronglySorted Z.le (seqZ m n).
Proof.
  unfold seqZ. eapply (StronglySorted_fmap lt); [intros x y ?; lia|].
  generalize 0%nat. induction (Z.to_nat n) as [|k IH]; simpl; constructor; [done|].
  apply Forall_forall. intros x Hx%elem_of_seq. lia.
Qed.

(** C12. Capacity is never exceeded, and the ledger accounts for it exactly:
    in every state the authority can reach over the memory backend, by any
    sequence of admissions, refusals and completions whatever they returned or
    raised, every scope has consumed at most its maximum, [accepted_count]
    reports what it consumed, and [admitted_entries] returns, in debit order,
    stored entries with the ordinals one to that count, each exactly once. *)
Theorem admission_capacity_exact st ns h scope scope_id :
  rtc admission_step empty_state st →
  backend_scope_id scope scope_id = Ok scope_id →
  ∃ n l,
    memory_accepted_count ns h scope scope_id st = (Ok n, st) ∧
    memory_admitted_entries ns h scope scope_id st = (Ok l, st) ∧
    debit_ordinal <$> l = seqZ 1 n ∧
    (∀ e, e ∈ l → dict_get (ms_entries st) (entry_key e) = Some e ∧
                  scope_key e = Ok (ns, h, ToolCapacityScope_value scope, scope_id)) ∧
    (∀ m k, dict_get (ms_capacity st) (ns, h, ToolCapacityScope_value scope, scope_id) =
            Some (m, k) → k = n ∧ (0 <= n <= m)%Z).
Proof.
  intros Hst%reachable_inv Hid. destruct Hst as [Hk He Hc Ho].
  set (sk := (ns, h, ToolCapacityScope_value scope, scope_id)).
  destruct (filter_result_scope sk (ms_entries st)) as (k & Hf & Hord & Hin).
  { apply Forall_forall. intros [key e] Hke. by apply He. }
  exists (consumed st sk), (py_sorted (λ a b, debit_ordinal a <=? debit_ordinal b)%Z k).
  split_and!.
  - unfold memory_accepted_count. by rewrite Hid.
  - unfold memory_admitted_entries, entries_in_scope, gets, lift, mbind, stm_bind.
    rewrite Hid. simpl. fold sk. by rewrite Hf.
  - apply (StronglySorted_unique Z.le); [|apply seqZ_StronglySorted|].
    + eapply (StronglySorted_fmap (λ a b, (debit_ordinal a <=? debit_ordinal b)%Z = true)).
      { intros x y. apply Z.leb_le. }
      apply (py_sorted_sorted _ (λ _, True)); [intros; rewrite ?Z.leb_le in *; lia..|].
      by apply Forall_true.
    + rewrite py_sorted_perm, Hord. apply Ho.
  - intros e He'. rewrite py_sorted_perm in He'. apply Hin in He' as ([key e'] & Hke & <- & Hs).
    destruct (He _ _ Hke) as [-> _]. simpl in *. split; [by apply dict_get_NoDup|].
    unfold debited in Hs. simpl in Hs. by destruct (decide _).
  - intros m n Hcap. unfold consumed. fold sk in Hcap. rewrite Hcap. split; [done|].
    by eapply Hc.
Qed.

(** One step keeps an entry or completes it. *)
Lemma step_keeps_decision st st' k e :
  admission_step st st' → dict_get (ms_entries st) k = Some e →
  ∃ e', dict_get (ms_entries st') k = Some e' ∧
    (e' = e ∨
     sce_state e = ACCEPTED ∧ sce_state e' = COMPLETED ∧
     same_call_ref (sce_tool_call e') (sce_tool_call e) ∧
     sce_capacity_debit_ordinal e' = sce_capacity_debit_ordinal e).
Proof.
  intros Hstep Hget.
  destruct (step_update _ _ Hstep) as [st' [|e0 ? Hf|x x' ? Hx]|e0 ???? Hf]; simpl; [by eauto|..].
  1,3: exists e; rewrite dict_get_set_ne by congruence; by auto.
  destruct (decide (entry_key x' = k)) as [<-|Hne].
  - exists x'. rewrite dict_get_set_eq. rewrite Hget in Hx. injection Hx as ->.
    split; [done|]. right. split_and!; [done..|by symmetry|done].
  - exists e. rewrite dict_get_set_ne by done. by auto.
Qed.

(** C13. Decisions are durable: across any sequence of calls an entry stays
    under its key; it either stays the very same or, when it was accepted, has
    become the completion of the same call, the order of its arguments' keys
    apart, with the same ordinal, and a refused or completed entry never
    changes. *)
Theorem admission_decisions_final st st' k e :
  rtc admission_step st st' → dict_get (ms_entries st) k = Some e →
  ∃ e', dict_get (ms_entries st') k = Some e' ∧
    (e' = e ∨
     sce_state e = ACCEPTED ∧ sce_state e' = COMPLETED ∧
     same_call_ref (sce_tool_call e') (sce_tool_call e) ∧
     sce_capacity_debit_ordinal e' = sce_capacity_debit_ordinal e).
Proof.
  intros Hrtc. revert e. induction Hrtc as [st|st st1 st' Hstep _ IH]; intros e Hget; [by eauto|].
  destruct (step_keeps_decision _ _ _ _ Hstep Hget) as (e1 & Hget1 & He1).
  destruct (IH _ Hget1) as (e2 & Hget2 & He2). exists e2. split; [done|].
  destruct He1 as [->|(?&?&?&?)], He2 as [->|(?&?&?&?)]; auto 10; congruence.
Qed.

Lemma authority_admit_memory st a r m :
  validate_admission_attempt a r m = Ok tt →
  authority_admit memory_backend a r m st = memory_admit a r m st.
Proof. unfold authority_admit, mbind, stm_bind, lift. by intros ->. Qed.

(** What an admission that returned did. *)
Lemma authority_admit_Ok st a r m d st' :
  entry_validate a = Ok a → entry_validate r = Ok r →
  authority_admit memory_backend a r m st = (Ok d, st') →
  dict_get (ms_entries st') (entry_key a) = Some d ∧
  same_call_ref (sce_tool_call d) (sce_tool_call a) ∧
  (dict_get (ms_entries st) (entry_key a) = None → ∀ sk, scope_key a = Ok sk →
     d = (if (consumed st sk <? m)%Z then with_ordinal a (consumed st sk + 1) else r) ∧
     consumed st' sk = (consumed st sk + if (consumed st sk <? m)%Z then 1 else 0)%Z).
Proof.
  intros Ha Hr Hadmit.
  assert (validate_admission_attempt a r m = Ok tt) as Hv.
  { unfold authority_admit, mbind, stm_bind, lift in Hadmit.
    by destruct (validate_admission_attempt a r m) as [[]|]. }
  rewrite authority_admit_memory in Hadmit by done.
  destruct (dict_get (ms_entries st) (entry_key a)) as [e|] eqn:Hget.
  { rewrite (memory_admit_existing _ _ _ _ _ Hget) in Hadmit. injection Hadmit as Hd <-.
    apply replay_or_conflict_Ok in Hd as (-> & ? & _). by auto. }
  destruct (valid_scope_key a Ha) as (i & _ & Hsk). set (sk := (_, _, _, _)) in Hsk. clearbody sk.
  destruct (default (m, 0%Z) (dict_get (ms_capacity st) sk)) as [m' n] eqn:Hcap.
  assert (m' = m) as ->.
  { unfold memory_admit, gets, lift, mbind, stm_bind in Hadmit. rewrite Hget, Hsk, Hcap in Hadmit.
    destruct (m' =? m)%Z eqn:Em; [by apply Z.eqb_eq in Em|done]. }
  assert (consumed st sk = n) as Hn.
  { unfold consumed. destruct (dict_get (ms_capacity st) sk) as [[]|]; simpl in *; congruence. }
  rewrite (memory_admit_fresh st a r m sk n) in Hadmit by done.
  destruct (n <? m)%Z eqn:Hlt.
  - destruct (accepted_with_ordinal a (n + 1)) as [d'|] eqn:Hd; [|done]. injection Hadmit as <- <-.
    apply accepted_with_ordinal_Ok in Hd as (-> & _). simpl.
    rewrite dict_get_set_eq. split_and!; [done|done|]. intros _ sk' Hsk'.
    rewrite Hsk in Hsk'. injection Hsk' as <-. rewrite Hn, Hlt. split; [done|].
    unfold consumed. simpl. by rewrite dict_get_set_eq.
  - injection Hadmit as <- <-. simpl. rewrite dict_get_set_eq.
    split_and!; [done|by symmetry; eapply attempt_same_call|].
    intros _ sk' Hsk'. rewrite Hsk in Hsk'. injection Hsk' as <-. rewrite Hn, Hlt. split; [done|].
    unfold consumed in *. simpl. lia.
Qed.

(** What a call can add to the entries. *)
Lemma admit_entries st a r m k e :
  entry_validate a = Ok a → entry_validate r = Ok r →
  dict_get (ms_entries (authority_admit memory_backend a r m st).2) k = Some e →
  dict_get (ms_entries st) k = Some e ∨ e = r ∨ sce_state e = ACCEPTED.
Proof.
  intros Ha Hr. destruct (admit_cases st a r m Ha Hr); simpl; [by auto|..];
    (destruct (decide (entry_key a = k)) as [<-|];
      [rewrite dict_get_set_eq; intros [= <-]; auto|rewrite dict_get_set_ne by done; auto]).
Qed.

Lemma refuse_entries st e x k :
  dict_get (ms_entries (authority_refuse memory_backend e st).2) k = Some x →
  dict_get (ms_entries st) k = Some x ∨ x = e.
Proof.
  unfold authority_refuse. simpl. unfold mbind, stm_bind, lift.
  destruct (require (bool_decide _) _ _); [|by left]. destruct (require _ _ _); [|by left].
  unfold memory_refuse, gets, mbind, stm_bind, lift, set_entry, modify.
  destruct (dict_get (ms_entries st) (entry_key e)); [by left|]. simpl.
  destruct (decide (entry_key e = k)) as [<-|].
  - rewrite dict_get_set_eq. intros [= <-]. by right.
  - rewrite dict_get_set_ne by done. by left.
Qed.

Lemma complete_entries st e x k :
  dict_get (ms_entries (authority_complete memory_backend e st).2) k = Some x →
  dict_get (ms_entries st) k = Some x ∨ x = e.
Proof.
  unfold authority_complete. simpl. unfold mbind, stm_bind, lift.
  destruct (require _ _ _); [|by left].
  unfold memory_complete, gets, mbind, stm_bind, lift, set_entry, modify.
  destruct (complete_transition _ e) as [d|] eqn:Hd; [|by left]. simpl.
  destruct (decide (entry_key e = k)) as [<-|]; [|rewrite dict_get_set_ne by done; by left].
  rewrite dict_get_set_eq. intros [= <-].
  destruct (dict_get (ms_entries st) (entry_key e)) as [y|]; [|done].
  apply complete_transition_Ok in Hd as (_ & [->|(-> & _)]); auto.
Qed.

(** C14. Admission decides a call once. When an admission returns, its decision
    is stored under the call's key: the accepted candidate with the next
    ordinal while the scope has capacity left, which debits one, and the
    refusal candidate otherwise, which debits nothing. Admitting the same call
    again, its arguments in whatever key order, with whatever candidates and
    maximum, returns that decision and changes nothing; admitting another call
    under the same key is a conflict and changes nothing. *)
Theorem admission_decides_once st a r m d st' :
  entry_validate a = Ok a → entry_validate r = Ok r →
  has_text (tcall_args (tcallr_record (sce_tool_call a))) →
  authority_admit memory_backend a r m st = (Ok d, st') →
  (dict_get (ms_entries st) (entry_key a) = None → ∀ sk, scope_key a = Ok sk →
     d = (if (consumed st sk <? m)%Z then with_ordinal a (consumed st sk + 1) else r) ∧
     consumed st' sk = (consumed st sk + if (consumed st sk <? m)%Z then 1 else 0)%Z) ∧
  (∀ a2 r2 m2, validate_admission_attempt a2 r2 m2 = Ok tt → entry_key a2 = entry_key a →
     has_text (tcall_args (tcallr_record (sce_tool_call a2))) →
     (same_call_ref (sce_tool_call a2) (sce_tool_call a) →
        authority_admit memory_backend a2 r2 m2 st' = (Ok d, st')) ∧
     (¬ same_call_ref (sce_tool_call a2) (sce_tool_call a) →
        authority_admit memory_backend a2 r2 m2 st' =
          (raise ToolCallStoreConflictError
             "the existing key cites a different exact Tool Call", st'))).
Proof.
  intros Ha Hr Ht Hadmit.
  destruct (authority_admit_Ok st a r m d st' Ha Hr Hadmit) as (Hget & Hcall & Hfresh).
  split; [done|]. intros a2 r2 m2 Hv Hkey Ht2.
  rewrite authority_admit_memory by done. rewrite (memory_admit_existing _ _ _ _ d) by congruence.
  pose proof (same_call_ref_text _ _ Hcall Ht) as Htd.
  destruct (ToolCallRef_eq_decides _ _ Htd Ht2) as (b & Hb & Hsame).
  unfold replay_or_conflict. rewrite Hb. simpl. unfold validate_admission_attempt in Hv. inv_ok.
  split; intros H.
  - destruct b; [by rewrite bool_decide_true|].
    rewrite Hcall in Hsame. symmetry in H. by apply Hsame in H.
  - destruct b; [|done]. destruct H. rewrite <-Hcall. symmetry. by apply Hsame.
Qed.
End AdmissionTheorems.

(** ** A concrete ledger

    Two calls of a tool that may be called once in the run. *)
Module ConcreteAdmission.
Import Concrete ConcreteLease.

Definition get_ok {A} (r : result A) (d : A) : A := match r with Ok a => a | Err _ => d end.

Definition blank_ref (schema : pystr) : TypedRef :=
  {| tref_schema_name := schema; tref_content_hash := replicate 64 48%Z |}.

Definition definition_ref : ToolDefinitionRef :=
  get_ok (tool_definition_reference example_definition) (tc_definition example_config).

Definition config : ToolConfig :=
  {| tc_definition := definition_ref; tc_endpoint_key := $"endpoint";
     tc_eval_config := tc_eval_config example_config;
     tc_reward_policy_hash := replicate 64 48%Z;
     tc_capacity := {| tcap_max_accepted_calls := 1; tcap_scope := RUN |};
     tc_timeout_policy_ref := None; tc_operational_policy_refs := [];
     tc_store_namespace_key := $"tools"; tc_idempotent_replay := true;
     tc_candidate_template_field := $"template" |}.

Definition config_ref : ToolConfigRef :=
  get_ok (tool_config_reference config)
    {| tcr_record := config; tcr_record_ref := blank_ref TOOL_CONFIG_SCHEMA;
       tcr_config_hash := [] |}.

Definition call (call_id : pystr) : ToolCallRef :=
  let c := {| tcall_call_id := call_id; tcall_tool_config := config_ref;
              tcall_capacity_binding := example_binding;
              tcall_args := [($"template", PStr $"t")] |} in
  get_ok (tool_call_reference c)
    {| tcallr_record := c; tcallr_record_ref := blank_ref TOOL_CALL_SCHEMA |}.

Definition entry (call_id : pystr) (state : ToolCallState) : ToolCallStoreEntry :=
  {| sce_tool_call := call call_id; sce_tool_config := config_ref;
     sce_store_namespace_key := $"tools"; sce_capacity_scope := RUN;
     sce_capacity_scope_id := replicate 64 48%Z; sce_state := state;
     sce_capacity_debit_ordinal := if decide (state = ACCEPTED) then Some 1%Z else None;
     sce_refusal :=
       if decide (state = REFUSED)
       then Some {| tr_refusal_class := CAPACITY; tr_reason := $"exhausted" |} else None;
     sce_tool_result_ref :=
       if decide (state = REFUSED) then Some (blank_ref TOOL_RESULT_SCHEMA) else None;
     sce_effect_terminal := None |}.

Definition admit_one (call_id : pystr) (st : MemState) : result ToolCallStoreEntry * MemState :=
  authority_admit memory_backend (entry call_id ACCEPTED) (entry call_id REFUSED) 1 st.

Lemma entry_valid_a state :
  state ≠ COMPLETED → entry_validate (entry $"a" state) = Ok (entry $"a" state).
Proof. destruct state; [intros _; vm_compute; reflexivity..|done]. Qed.

Lemma entry_valid_b state :
  state ≠ COMPLETED → entry_validate (entry $"b" state) = Ok (entry $"b" state).
Proof. destruct state; [intros _; vm_compute; reflexivity..|done]. Qed.

(** The first call takes the capacity, the second is refused. *)
Definition state_a : MemState := (admit_one $"a" empty_state).2.
Definition state_ab : MemState := (admit_one $"b" state_a).2.

Lemma reachable_ab : rtc admission_step empty_state state_ab.
Proof.
  eapply rtc_l; [|eapply rtc_l; [|apply rtc_refl]].
  - apply (step_admit empty_state (entry $"a" ACCEPTED) (entry $"a" REFUSED) 1);
      by apply entry_valid_a.
  - apply (step_admit state_a (entry $"b" ACCEPTED) (entry $"b" REFUSED) 1);
      by apply entry_valid_b.
Qed.

(** *** Calls of a tool with two inputs

    The same call with its arguments in two orders. *)
Definition pair_definition : ToolDefinition :=
  {| td_tool_name := $"evaluate"; td_version := 1; td_input_fields := [$"template"; $"size"];
     td_output_fields := [$"score"]; td_refusal_classes := [CAPACITY];
     td_expansion_semantics := None |}.

Definition pair_config : ToolConfig :=
  {| tc_definition := get_ok (tool_definition_reference pair_definition) definition_ref;
     tc_endpoint_key := tc_endpoint_key config; tc_eval_config := tc_eval_config config;
     tc_reward_policy_hash := tc_reward_policy_hash config; tc_capacity := tc_capacity config;
     tc_timeout_policy_ref := None; tc_operational_policy_refs := [];
     tc_store_namespace_key := $"tools"; tc_idempotent_replay := true;
     tc_candidate_template_field := $"template" |}.

Definition pair_call (args : list (pystr * pyval)) : ToolCallRef :=
  let c := {| tcall_call_id := $"p";
              tcall_tool_config := get_ok (tool_config_reference pair_config) config_ref;
              tcall_capacity_binding := example_binding; tcall_args := args |} in
  get_ok (tool_call_reference c)
    {| tcallr_record := c; tcallr_record_ref := blank_ref TOOL_CALL_SCHEMA |}.

Definition pair_entry (args : list (pystr * pyval)) (state : ToolCallState) : ToolCallStoreEntry :=
  let e := entry $"p" state in
  {| sce_tool_call := pair_call args;
     sce_tool_config := tcall_tool_config (tcallr_record (pair_call args));
     sce_store_namespace_key := $"tools"; sce_capacity_scope := RUN;
     sce_capacity_scope_id := sce_capacity_scope_id e; sce_state := state;
     sce_capacity_debit_ordinal := sce_capacity_debit_ordinal e; sce_refusal := sce_refusal e;
     sce_tool_result_ref := sce_tool_result_ref e; sce_effect_terminal := None |}.

Definition in_order : list (pystr * pyval) := [($"template", PStr $"t"); ($"size", PInt 3)].
Definition reordered : list (pystr * pyval) := [($"size", PInt 3); ($"template", PStr $"t")].
Definition other_args : list (pystr * pyval) := [($"template", PStr $"u"); ($"size", PInt 3)].

Definition admit_pair (args : list (pystr * pyval)) (st : MemState) :=
  authority_admit memory_backend (pair_entry args ACCEPTED) (pair_entry args REFUSED) 1 st.

Definition state_pair : MemState := (admit_pair in_order empty_state).2.

Lemma pair_valid state :
  state ≠ COMPLETED → entry_validate (pair_entry in_order state) = Ok (pair_entry in_order state).
Proof. destruct state; [intros _; vm_compute; reflexivity..|done]. Qed.

Lemma reordered_same :
  same_call_ref (sce_tool_call (pair_entry reordered ACCEPTED))
    (sce_tool_call (pair_entry in_order ACCEPTED)).
Proof. apply ToolCallRef_eq_same. vm_compute. reflexivity. Qed.
End ConcreteAdmission.

Section AdmissionWitnesses.
Import Concrete ConcreteLease ConcreteAdmission.

Lemma admission_capacity_exact_witness :
  let sk := (tcr_config_hash config_ref, RUN, replicate 64 48%Z) in
  ∃ n l,
    memory_accepted_count $"tools" sk.1.1 sk.1.2 sk.2 state_ab = (Ok n, state_ab) ∧
    memory_admitted_entries $"tools" sk.1.1 sk.1.2 sk.2 state_ab = (Ok l, state_ab) ∧
    debit_ordinal <$> l = seqZ 1 n ∧ n = 1%Z.
Proof.
  intros sk.
  destruct (admission_capacity_exact state_ab $"tools" sk.1.1 sk.1.2 sk.2)
    as (n & l & Hn & Hl & Hseq & _ & _); [exact reachable_ab|vm_compute; reflexivity|].
  exists n, l. split; [exact Hn|]. split; [exact Hl|]. split; [exact Hseq|].
  vm_compute in Hn. injection Hn as <-. reflexivity.
Defined.

Lemma admission_decisions_final_witness :
  ∃ e e', dict_get (ms_entries state_a) ($"tools", $"a") = Some e ∧
    dict_get (ms_entries state_ab) ($"tools", $"a") = Some e' ∧
    (e' = e ∨ sce_state e = ACCEPTED ∧ sce_state e' = COMPLETED ∧
     same_call_ref (sce_tool_call e') (sce_tool_call e) ∧
     sce_capacity_debit_ordinal e' = sce_capacity_debit_ordinal e).
Proof.
  assert (dict_get (ms_entries state_a) ($"tools", $"a") =
          Some (with_ordinal (entry $"a" ACCEPTED) 1)) as H by (vm_compute; reflexivity).
  assert (rtc admission_step state_a state_ab) as Hstep.
  { apply rtc_once.
    apply (step_admit state_a (entry $"b" ACCEPTED) (entry $"b" REFUSED) 1);
      by apply entry_valid_b. }
  destruct (admission_decisions_final state_a state_ab _ _ Hstep H) as (e' & He' & Hor).
  eexists _, e'. split; [exact H|]. split; [exact He'|exact Hor].
Defined.

Lemma admission_decides_once_witness :
  let d := with_ordinal (pair_entry in_order ACCEPTED) 1 in
  in_order ≠ reordered ∧ admit_pair in_order empty_state = (Ok d, state_pair) ∧
  admit_pair reordered state_pair = (Ok d, state_pair) ∧
  is_ok (admit_pair other_args state_pair).1 = false.
Proof.
  intros d.
  assert (admit_pair in_order empty_state = (Ok d, state_pair)) as H by (vm_compute; reflexivity).
  split; [discriminate|]. split; [exact H|]. split; [|vm_compute; reflexivity].
  destruct (admission_decides_once empty_state (pair_entry in_order ACCEPTED)
    (pair_entry in_order REFUSED) 1 d state_pair) as [_ Hagain];
    [by apply pair_valid|by apply pair_valid|apply json_has_text; vm_compute; reflexivity|exact H|].
  destruct (Hagain (pair_entry reordered ACCEPTED) (pair_entry reordered REFUSED) 1%Z)
    as [Hsame _]; [vm_compute; reflexivity|vm_compute; reflexivity
                  |apply json_has_text; vm_compute; reflexivity|].
  apply Hsame. exact reordered_same.
Defined.
End AdmissionWitnesses.
