(* ===== verification/Objectives.v ===== *)
(** * Objectives: dominance and the Pareto front

    Models [src/whetstone/experiment/objectives.py]: objectives and objective
    vectors with their validation, dominance, and the Pareto front.  Objective
    values are floats, as annotated. *)

From S2P Require Import Prelude Floats Identity.

Definition RESERVED_OBJECTIVE_NAMES : list pystr := [$"reward"].

Inductive Direction := MAXIMIZE | MINIMIZE.
Inductive ObjectiveDerivationSource := SCORE | AGGREGATE.
Inductive TieBehavior := STABLE_INDEX.

#[export] Instance Direction_eq_dec : EqDecision Direction.
Proof. solve_decision. Defined.

(** [str.lower] on ASCII. The other characters keep their code here; the only
    ones [str.lower] turns into ASCII letters give [k] and [i], so a comparison
    with a reserved name is unaffected. *)
Definition lower_char (c : Z) : Z := if ((65 <=? c) && (c <=? 90))%Z then (c + 32)%Z else c.
Definition lower (s : pystr) : pystr := lower_char <$> s.

Definition reject_reward_name (name : pystr) : result unit :=
  require (negb (bool_decide (lower name ∈ RESERVED_OBJECTIVE_NAMES))) RewardIsNotAnObjectiveError
    "reserved Reward name".

(** ** Objectives *)

Record ObjectiveDerivation := {
  od_source : ObjectiveDerivationSource;
  od_source_name : pystr;
  od_graph_hash : option pystr;
  od_eval_config_hash : option pystr;
  od_derivation_id : pystr;
}.

Definition ObjectiveDerivation_validate (self : ObjectiveDerivation) :
    result ObjectiveDerivation :=
  require (negb (bool_decide (od_source_name self = []))) ValueError
    "ObjectiveDerivation source_name must be set" ;;
  require (negb (bool_decide (od_derivation_id self = []))) ValueError
    "ObjectiveDerivation derivation_id must be set" ;;
  Ok self.

Record Objective := {
  obj_name : pystr;
  obj_value : float;
  obj_direction : Direction;
  obj_derivation : ObjectiveDerivation;
}.

Definition Objective_validate (self : Objective) : result Objective :=
  require (negb (bool_decide (obj_name self = []))) ValueError
    "Objective name must be non-empty" ;;
  require (fisfinite (obj_value self)) ValueError "Objective value must be finite" ;;
  reject_reward_name (obj_name self) ;;
  Ok self.

Definition is_better_than (self : Objective) (other_value : float) : bool :=
  match obj_direction self with
  | MAXIMIZE => flt other_value (obj_value self)
  | MINIMIZE => flt (obj_value self) other_value
  end.

(** The body the two constructors below share. *)
Definition objective_from (source : ObjectiveDerivationSource) (name : pystr) (value : float)
    (direction : Direction) (source_name : pystr) (graph_hash eval_config_hash : option pystr)
    (derivation_id : pystr) : result Objective :=
  reject_reward_name name ;;
  derivation ← ObjectiveDerivation_validate
    {| od_source := source; od_source_name := source_name; od_graph_hash := graph_hash;
       od_eval_config_hash := eval_config_hash; od_derivation_id := derivation_id |};
  Objective_validate
    {| obj_name := name; obj_value := value; obj_direction := direction;
       obj_derivation := derivation |}.

Definition objective_from_aggregate_value := objective_from AGGREGATE.
Definition objective_from_score_value := objective_from SCORE.

(** ** Vectors and dominance *)

Abbreviation ObjectiveVector := (list Objective).

Definition names (self : ObjectiveVector) : list pystr := obj_name <$> self.
Definition directions (self : ObjectiveVector) : list Direction := obj_direction <$> self.
Definition values (self : ObjectiveVector) : list float := obj_value <$> self.

Definition ObjectiveVector_validate (self : ObjectiveVector) : result ObjectiveVector :=
  require (negb (bool_decide (length self = 0%nat))) ValueError
    "an Objective Vector must have >=1 Objective" ;;
  require (all_unique (names self)) ValueError "Objective Vector names must be unique" ;;
  Ok self.

(** One turn of the loop of [dominates] on (no_worse_everywhere,
    strictly_better_somewhere). *)
Definition dominance_step (acc : bool * bool) (ab : Objective * Objective) : bool * bool :=
  let '(no_worse, strictly_better) := acc in
  let '(a, b) := ab in
  match obj_direction a with
  | MAXIMIZE =>
      if flt (obj_value a) (obj_value b) then (false, strictly_better)
      else if flt (obj_value b) (obj_value a) then (no_worse, true)
      else (no_worse, strictly_better)
  | MINIMIZE =>
      if flt (obj_value b) (obj_value a) then (false, strictly_better)
      else if flt (obj_value a) (obj_value b) then (no_worse, true)
      else (no_worse, strictly_better)
  end.

(** The vectors have the same length once their names agree, so the strict
    [zip] never raises. *)
Definition dominates (a b : ObjectiveVector) : result bool :=
  require (bool_decide (names a = names b)) ValueError
    "dominance requires identical objective names in the same order" ;;
  require (bool_decide (directions a = directions b)) ValueError
    "dominance requires identical objective directions" ;;
  let '(no_worse, strictly_better) := foldl dominance_step (true, false) (zip a b) in
  Ok (no_worse && strictly_better).

(** ** The Pareto front *)

Record ParetoMember := {
  pm_original_index : Z;
  pm_candidate_id : pystr;
  pm_vector : ObjectiveVector;
}.

Definition ParetoMember_validate (self : ParetoMember) : result ParetoMember :=
  require (negb (pm_original_index self <? 0)%Z) ValueError "original_index cannot be negative" ;;
  require (negb (bool_decide (pm_candidate_id self = []))) ValueError
    "candidate_id must be non-empty" ;;
  Ok self.

Record ParetoFront := {
  pf_objective_names : list pystr;
  pf_objective_directions : list Direction;
  pf_tie_behavior : TieBehavior;
  pf_members : list ParetoMember;
}.

Fixpoint check_members (names' : list pystr) (directions' : list Direction) (prior : Z)
    (members : list ParetoMember) : result unit :=
  match members with
  | [] => Ok tt
  | member :: members =>
      require (negb (pm_original_index member <=? prior)%Z) ValueError
        "Pareto Front members must be in strictly ascending original-index order" ;;
      require (bool_decide (names (pm_vector member) = names')) ValueError
        "Pareto member vector names must match the front's declared objective names" ;;
      require (bool_decide (directions (pm_vector member) = directions')) ValueError
        "Pareto member vector directions must match the front's declared directions" ;;
      check_members names' directions' (pm_original_index member) members
  end.

Definition ParetoFront_validate (self : ParetoFront) : result ParetoFront :=
  require (length (pf_objective_names self) =? length (pf_objective_directions self))%nat
    ValueError "objective_names and objective_directions must align" ;;
  check_members (pf_objective_names self) (pf_objective_directions self) (-1)
    (pf_members self) ;;
  Ok self.

Abbreviation Candidate := (pystr * ObjectiveVector)%type.

(** The loop that compares every candidate's names and directions with the
    first one's. *)
Fixpoint check_candidates (names' : list pystr) (directions' : list Direction)
    (candidates : list Candidate) : result unit :=
  match candidates with
  | [] => Ok tt
  | (_, vector) :: candidates =>
      require (bool_decide (names vector = names')) ValueError
        "all candidate vectors must share the same ordered objective names" ;;
      require (bool_decide (directions vector = directions')) ValueError
        "all candidate vectors must share the same objective directions" ;;
      check_candidates names' directions' candidates
  end.

(** [any(dominates(other, vector) for ... if other_index != index)]. *)
Fixpoint any_dominates (index : nat) (vector : ObjectiveVector) (other_index : nat)
    (others : list Candidate) : result bool :=
  match others with
  | [] => Ok false
  | (_, other_vector) :: others =>
      if (other_index =? index)%nat then any_dominates index vector (S other_index) others
      else
        b ← dominates other_vector vector;
        if (b : bool) then Ok true else any_dominates index vector (S other_index) others
  end.

Fixpoint front_members (candidates : list Candidate) (index : nat) (rest : list Candidate) :
    result (list ParetoMember) :=
  match rest with
  | [] => Ok []
  | (candidate_id, vector) :: rest =>
      dominated ← any_dominates index vector 0 candidates;
      if (dominated : bool) then front_members candidates (S index) rest
      else
        member ← ParetoMember_validate
          {| pm_original_index := Z.of_nat index; pm_candidate_id := candidate_id;
             pm_vector := vector |};
        members ← front_members candidates (S index) rest;
        Ok (member :: members)
  end.

Definition pareto_front (candidates : list Candidate) (tie_behavior : TieBehavior) :
    result ParetoFront :=
  match candidates with
  | [] => raise ValueError "pareto_front requires at least one candidate"
  | (_, first) :: _ =>
      let names' := names first in
      let directions' := directions first in
      check_candidates names' directions' candidates ;;
      members ← front_members candidates 0 candidates;
      ParetoFront_validate
        {| pf_objective_names := names'; pf_objective_directions := directions';
           pf_tie_behavior := tie_behavior; pf_members := members |}
  end.

(** ** Dominance as an order *)

Definition worse (a b : Objective) : bool :=
  match obj_direction a with
  | MAXIMIZE => flt (obj_value a) (obj_value b)
  | MINIMIZE => flt (obj_value b) (obj_value a)
  end.

Definition better (a b : Objective) : bool := is_better_than a (obj_value b).

Lemma worse_not_better a b : worse a b = true → better a b = false.
Proof. unfold worse, better, is_better_than. destruct (obj_direction a); apply flt_asym. Qed.

Lemma dominance_loop l nw sb :
  foldl dominance_step (nw, sb) l =
    (nw && forallb (λ ab, negb (worse ab.1 ab.2)) l, sb || existsb (λ ab, better ab.1 ab.2) l).
Proof.
  revert nw sb. induction l as [|[a b] l IH]; intros nw sb; simpl.
  { by rewrite andb_true_r, orb_false_r. }
  pose proof (worse_not_better a b) as Hwb.
  assert (dominance_step (nw, sb) (a, b) = (nw && negb (worse a b), sb || better a b)) as Hstep.
  { unfold dominance_step, worse, better, is_better_than in *.
    destruct (obj_direction a);
      destruct (flt (obj_value a) (obj_value b)), (flt (obj_value b) (obj_value a)),
        nw, sb; simpl in *; try done; by specialize (Hwb eq_refl). }
  unfold dominance_step in Hstep. rewrite Hstep, IH. f_equal; by rewrite ?andb_assoc, ?orb_assoc.
Qed.

(** Vectors that may be compared: the same names and directions, and only
    finite values. *)
Definition comparable (a b : ObjectiveVector) : Prop :=
  names a = names b ∧ directions a = directions b.

Definition finite_vector (v : ObjectiveVector) : Prop :=
  Forall (λ o, fisfinite (obj_value o) = true) v.

Lemma dominates_Ok a b r :
  dominates a b = Ok r ↔
  comparable a b ∧ r = forallb (λ ab, negb (worse ab.1 ab.2)) (zip a b) &&
                       existsb (λ ab, better ab.1 ab.2) (zip a b).
Proof.
  unfold dominates, comparable. rewrite dominance_loop. simpl. split.
  - intros H. inv_ok. done.
  - intros [[Hn Hd] ->]. by rewrite !require_bool_decide by done.
Qed.

Lemma dominates_true a b :
  dominates a b = Ok true ↔
  comparable a b ∧ Forall2 (λ x y, worse x y = false) a b ∧
  ∃ x y, (x, y) ∈ zip a b ∧ better x y = true.
Proof.
  rewrite dominates_Ok. split.
  - intros [[Hn Hd] Heq]. split; [done|]. symmetry in Heq. apply andb_true_iff in Heq as [Hall Hex].
    split.
    + apply forallb_Forall in Hall. assert (length a = length b) as Hlen.
      { unfold names in Hn. apply (f_equal length) in Hn. by rewrite !length_fmap in Hn. }
      clear Hn Hd Hex. revert b Hall Hlen. induction a as [|x a IH]; intros [|y b] Hall Hlen;
        try done; constructor.
      * inversion_clear Hall. by apply negb_true_iff.
      * apply IH; [by inversion_clear Hall|]. simpl in Hlen. lia.
    + apply existsb_exists in Hex as ([x y] & Hin & Hb).
      exists x, y. split; [by apply list_elem_of_In|done].
  - intros (Hc & Hall & x & y & Hin & Hb). split; [done|]. symmetry. apply andb_true_iff. split.
    + clear -Hall. induction Hall as [|u v a b Huv _ IH]; simpl; [done|]. by rewrite Huv.
    + apply existsb_exists. exists (x, y). split; [by apply list_elem_of_In|done].
Qed.

(** One objective at a time. *)
Section Pointwise.
Variables x y z : Objective.
Hypothesis Hxy : obj_direction x = obj_direction y.
Hypothesis Hx : fisfinite (obj_value x) = true.
Hypothesis Hy : fisfinite (obj_value y) = true.
Hypothesis Hz : fisfinite (obj_value z) = true.

Lemma worse_trans : worse x y = false → worse y z = false → worse x z = false.
Proof.
  unfold worse. rewrite <-Hxy. destruct (obj_direction x); intros H1 H2.
  - eapply (not_flt_trans _ (obj_value y)); eauto using fisfinite_number.
  - eapply (not_flt_trans _ (obj_value y)); eauto using fisfinite_number.
Qed.

Lemma better_trans_l : better x y = true → worse y z = false → better x z = true.
Proof.
  unfold worse, better, is_better_than. rewrite <-Hxy. destruct (obj_direction x); intros H1 H2.
  - eapply (flt_not_flt_trans _ (obj_value y)); eauto using fisfinite_number.
  - eapply (not_flt_flt_trans _ (obj_value y)); eauto using fisfinite_number.
Qed.

Lemma better_trans_r : worse x y = false → better y z = true → better x z = true.
Proof.
  unfold worse, better, is_better_than. rewrite <-Hxy. destruct (obj_direction x); intros H1 H2.
  - eapply (not_flt_flt_trans _ (obj_value y)); eauto using fisfinite_number.
  - eapply (flt_not_flt_trans _ (obj_value y)); eauto using fisfinite_number.
Qed.
End Pointwise.

Lemma elem_of_zip_lookup {A B} (l : list A) (k : list B) x y :
  (x, y) ∈ zip l k ↔ ∃ i, l !! i = Some x ∧ k !! i = Some y.
Proof.
  rewrite list_elem_of_lookup. setoid_rewrite lookup_zip_with_Some. naive_solver.
Qed.

Lemma comparable_lookup a b i x y :
  comparable a b → a !! i = Some x → b !! i = Some y → obj_direction x = obj_direction y.
Proof.
  intros [_ Hd] Hx Hy. apply (f_equal (lookup i)) in Hd. unfold directions in Hd.
  rewrite !list_lookup_fmap, Hx, Hy in Hd. by injection Hd.
Qed.

Lemma comparable_lookup_is_Some a b i x :
  comparable a b → a !! i = Some x → ∃ y, b !! i = Some y.
Proof.
  intros [Hn _] Hx. apply (f_equal (lookup i)) in Hn. unfold names in Hn.
  rewrite !list_lookup_fmap, Hx in Hn. destruct (b !! i); [by eauto|done].
Qed.

Lemma comparable_trans a b c : comparable a b → comparable b c → comparable a c.
Proof. unfold comparable. intuition congruence. Qed.

(** On vectors of finite values dominance is a strict partial order that
    means what it says: it holds exactly when the vectors have the same names
    and directions in the same order, no objective of the first is worse and
    some objective is strictly better; no vector dominates itself; and
    dominance is transitive. *)
Theorem dominates_strict_order (a b c : ObjectiveVector) :
  finite_vector a → finite_vector b → finite_vector c →
  (dominates a b = Ok true ↔
     comparable a b ∧ (∀ i x y, a !! i = Some x → b !! i = Some y → worse x y = false) ∧
     ∃ i x y, a !! i = Some x ∧ b !! i = Some y ∧ better x y = true) ∧
  dominates a a = Ok false ∧
  (dominates a b = Ok true → dominates b c = Ok true → dominates a c = Ok true).
Proof.
  intros Ha Hb Hc. unfold finite_vector in *. rewrite Forall_lookup in Ha, Hb, Hc.
  assert (∀ u v, dominates u v = Ok true ↔ comparable u v ∧
    (∀ i x y, u !! i = Some x → v !! i = Some y → worse x y = false) ∧
    ∃ i x y, u !! i = Some x ∧ v !! i = Some y ∧ better x y = true) as Hdom.
  { intros u v. rewrite dominates_true, Forall2_lookup. setoid_rewrite elem_of_zip_lookup. split.
    - intros (Hcmp & Hall & x & y & (i & ? & ?) & ?). split_and!; [done| |by eauto 10].
      intros j x' y' Hx' Hy'. specialize (Hall j). rewrite Hx', Hy' in Hall. by inversion Hall.
    - intros (Hcmp & Hall & i & x & y & ? & ? & ?). split_and!; [done| |by eauto 10].
      intros j. destruct (u !! j) as [x'|] eqn:Hx', (v !! j) as [y'|] eqn:Hy'; try constructor.
      + by eapply Hall.
      + destruct (comparable_lookup_is_Some _ _ _ _ Hcmp Hx'). congruence.
      + destruct (comparable_lookup_is_Some v u j y') as [? ?]; [|done|congruence].
        destruct Hcmp. by split. }
  split_and!.
  - apply Hdom.
  - destruct (dominates a a) as [[]|] eqn:E; [|done|].
    + apply Hdom in E as (_ & _ & i & x & y & Hx & Hy & Hb'). simplify_eq.
      unfold better, is_better_than in Hb'.
      destruct (obj_direction x); by rewrite flt_irrefl in Hb'.
    + unfold dominates in E. rewrite !require_bool_decide in E by done.
      by destruct (foldl _ _ _) in E.
  - rewrite !Hdom. intros (Hab & Hw1 & i & x & y & Hx & Hy & Hbet) (Hbc & Hw2 & _).
    split_and!; [by eapply comparable_trans| |].
    + intros j u w Hu Hw. destruct (comparable_lookup_is_Some _ _ _ _ Hab Hu) as [v Hv].
      eapply (worse_trans u v w); eauto using comparable_lookup.
    + destruct (comparable_lookup_is_Some _ _ _ _ Hbc Hy) as [z Hz]. exists i, x, z.
      split_and!; [done..|]. eapply (better_trans_l x y z); eauto using comparable_lookup.
Qed.

(** ** The front *)

Lemma check_candidates_Ok ns ds cs u :
  check_candidates ns ds cs = Ok u ↔
  Forall (λ c : Candidate, names c.2 = ns ∧ directions c.2 = ds) cs.
Proof.
  induction cs as [|[i v] cs IH]; simpl; [destruct u; by split; constructor|].
  rewrite Forall_cons. simpl. split.
  - intros H. inv_ok. by rewrite <-IH.
  - intros [[<- <-] H]. rewrite !require_bool_decide by done. by apply IH.
Qed.

(** Candidates that share their names and directions can all be compared. *)
Definition all_comparable (cs : list Candidate) : Prop :=
  ∀ c d, c ∈ cs → d ∈ cs → comparable c.2 d.2.

Lemma dominates_comparable a b : comparable a b → ∃ r, dominates a b = Ok r.
Proof. intros Hc. eexists. by apply dominates_Ok. Qed.

Lemma any_dominates_Ok index v k others :
  (∀ c, c ∈ others → comparable c.2 v) →
  ∃ r, any_dominates index v k others = Ok r ∧
    (r = true ↔ ∃ j c, others !! j = Some c ∧ (k + j)%nat ≠ index ∧ dominates c.2 v = Ok true).
Proof.
  revert k. induction others as [|[i w] others IH]; intros k Hc; simpl.
  { exists false. split; [done|]. split; [done|]. by intros (j & c & Hj & _). }
  destruct (IH (S k)) as (r & -> & Hr); [intros c ?; apply Hc; by constructor|].
  assert (∀ P : Prop, (r = true ↔ P) → (∃ j c, others !! j = Some c ∧ (S k + j)%nat ≠ index ∧
    dominates c.2 v = Ok true) ↔ P) as Hr' by (intros P HP; by rewrite <-Hr).
  destruct (k =? index)%nat eqn:Ek.
  - apply Nat.eqb_eq in Ek as ->. exists r. split; [done|]. rewrite Hr. split.
    + intros (j & c & ? & ? & ?). exists (S j), c. split_and!; [done|lia|done].
    + intros ([|j] & c & Hj & Hne & Hd); [lia|]. exists j, c. split_and!; [done|lia|done].
  - apply Nat.eqb_neq in Ek. destruct (dominates_comparable w v) as [b Hb];
      [apply (Hc (i, w)); by constructor|]. rewrite Hb. simpl. destruct b.
    + exists true. split; [done|]. split; [|done]. intros _. exists 0%nat, (i, w).
      split_and!; [done|lia|done].
    + exists r. split; [done|]. rewrite Hr. split.
      * intros (j & c & ? & ? & ?). exists (S j), c. split_and!; [done|lia|done].
      * intros ([|j] & c & Hj & Hne & Hd); simpl in Hj; [simplify_eq; simpl in *; congruence|].
        exists j, c. split_and!; [done|lia|done].
Qed.

(** A candidate at a position is in the front when no other one dominates it. *)
Definition undominated (cs : list Candidate) (i : nat) (v : ObjectiveVector) : Prop :=
  ¬ ∃ j c, cs !! j = Some c ∧ j ≠ i ∧ dominates c.2 v = Ok true.

Lemma front_members_Ok cs index rest ms :
  (∀ c d, c ∈ cs → d ∈ rest → comparable c.2 d.2) →
  front_members cs index rest = Ok ms →
  StronglySorted (λ a b, pm_original_index a < pm_original_index b)%Z ms ∧
  ∀ m, m ∈ ms ↔ ∃ j c, rest !! j = Some c ∧ undominated cs (index + j) c.2 ∧
    m = {| pm_original_index := Z.of_nat (index + j); pm_candidate_id := c.1;
           pm_vector := c.2 |}.
Proof.
  revert index ms. induction rest as [|[i v] rest IH]; intros index ms Hc Hms; simpl in Hms.
  { inv_ok. split; [constructor|]. intros m. rewrite elem_of_nil. split; [done|].
    by intros (j & c & Hj & _). }
  assert (∀ c d, c ∈ cs → d ∈ rest → comparable c.2 d.2) as Hc'
    by (intros; apply Hc; [done|by constructor]).
  destruct (any_dominates_Ok index v 0 cs) as (r & Hr & Hdom).
  { intros c Hin. apply (Hc c (i, v)); [done|by constructor]. }
  rewrite Hr in Hms. simpl in Hms, Hdom. destruct r.
  - destruct (IH _ _ Hc' Hms) as [Hs Hin]. split; [done|]. intros m. rewrite Hin. split.
    + intros (j & c & Hj & Hu & ->). exists (S j), c. rewrite <-Nat.add_succ_comm. done.
    + intros ([|j] & c & Hj & Hu & ->); simpl in Hj.
      * simplify_eq. rewrite Nat.add_0_r in Hu. destruct Hu. by apply Hdom.
      * exists j, c. rewrite <-Nat.add_succ_comm in *. done.
  - inv_ok. match goal with H : front_members _ _ _ = Ok ?l |- _ =>
      destruct (IH _ _ Hc' H) as [Hs Hin]; rename l into ms end.
    match goal with H : ParetoMember_validate ?x = Ok ?y |- _ =>
      assert (y = x) as -> by (unfold ParetoMember_validate in H; inv_ok; done) end.
    split.
    + constructor; [done|]. apply Forall_forall. intros m (j & c & _ & _ & ->)%Hin. simpl. lia.
    + intros m. rewrite elem_of_cons, Hin. split.
      * intros [->|(j & c & Hj & Hu & ->)].
        -- exists 0%nat, (i, v). rewrite Nat.add_0_r. split_and!; [done| |done].
           intros Hx. by apply Hdom in Hx.
        -- exists (S j), c. rewrite <-Nat.add_succ_comm. done.
      * intros ([|j] & c & Hj & Hu & ->); simpl in Hj.
        -- simplify_eq. left. by rewrite Nat.add_0_r.
        -- right. exists j, c. rewrite <-Nat.add_succ_comm in *. done.
Qed.

(** In a finite strict order every element is maximal or below a maximal one. *)
Lemma maximal_above {A} (R : A → A → Prop) `{!RelDecision R} (l : list A) :
  (∀ x, x ∈ l → ¬ R x x) → (∀ x y z, x ∈ l → y ∈ l → z ∈ l → R x y → R y z → R x z) →
  ∀ v, v ∈ l → ∃ u, u ∈ l ∧ (u = v ∨ R u v) ∧ ∀ w, w ∈ l → ¬ R w u.
Proof.
  intros Hirr Htrans v. remember (length (filter (λ w, R w v) l)) as n eqn:Hn.
  revert v Hn. induction (lt_wf n) as [n _ IH]. intros v -> Hv.
  destruct (decide (Exists (λ w, R w v) l)) as [Hex|Hno].
  - apply Exists_exists in Hex as (w & Hw & Hwv).
    destruct (IH (length (filter (λ x, R x w) l))) with (v := w) as (u & Hu & Huw & Hmax);
      [|done|done|].
    + clear IH. assert (∀ k, k ⊆ l → (length (filter (λ x, R x w) k) <= length (filter (λ x, R x v) k))%nat
        ∧ (w ∈ k → length (filter (λ x, R x w) k) < length (filter (λ x, R x v) k))%nat) as Hlt;
        [|by apply Hlt].
      induction k as [|x k IHk]; [by split; [done|intros ?%elem_of_nil]|]. intros Hsub.
      destruct IHk as [IH1 IH2]; [set_solver|].
      assert (x ∈ l) as Hx by (apply Hsub; by constructor). rewrite !filter_cons.
      split; [|rewrite elem_of_cons; intros [->|Hk]]; repeat case_decide; simpl; try lia;
        try (exfalso; eapply Hirr; [exact Hw|done]);
        try (exfalso; naive_solver); try (specialize (IH2 Hk); lia).
    + exists u. split; [done|]. split; [|done]. right. destruct Huw as [->|Huw]; [done|].
      by eapply (Htrans u w v).
  - exists v. split; [done|]. split; [by left|]. intros w Hw Hwv. apply Hno, Exists_exists. eauto.
Qed.

Definition beats (x y : Candidate) : Prop := dominates x.2 y.2 = Ok true.

#[export] Instance beats_decision : RelDecision beats.
Proof. intros x y. unfold beats. apply _. Defined.

Lemma finite_dominates_irreflexive v : finite_vector v → dominates v v ≠ Ok true.
Proof. intros Hv. by rewrite (proj1 (proj2 (dominates_strict_order v v v Hv Hv Hv))). Qed.

(** A position of the front as a member. *)
Definition member_at (i : nat) (c : Candidate) : ParetoMember :=
  {| pm_original_index := Z.of_nat i; pm_candidate_id := c.1; pm_vector := c.2 |}.

Lemma front_members_total cs index rest :
  (∀ c d, c ∈ cs → d ∈ rest → comparable c.2 d.2) → (∀ c, c ∈ rest → c.1 ≠ []) →
  ∃ ms, front_members cs index rest = Ok ms.
Proof.
  revert index. induction rest as [|[i v] rest IH]; intros index Hc Hid; simpl; [by eauto|].
  destruct (any_dominates_Ok index v 0 cs) as (r & -> & _).
  { intros c Hin. apply (Hc c (i, v)); [done|by constructor]. }
  destruct (IH (S index)) as (ms & Hms).
  { intros; apply Hc; [done|by constructor]. } { intros; apply Hid; by constructor. }
  rewrite Hms. simpl. destruct r; [by eauto|]. unfold ParetoMember_validate. simpl.
  assert ((Z.of_nat index <? 0)%Z = false) as -> by (apply Z.ltb_ge; lia). simpl.
  rewrite require_not by (apply (Hid (i, v)); by constructor). simpl. by eauto.
Qed.

Lemma check_members_Ok ns ds prior ms :
  StronglySorted (λ a b, pm_original_index a < pm_original_index b)%Z ms →
  (∀ m, m ∈ ms → (prior < pm_original_index m)%Z ∧ names (pm_vector m) = ns ∧
                 directions (pm_vector m) = ds) →
  check_members ns ds prior ms = Ok tt.
Proof.
  intros Hs. revert prior. induction Hs as [|m ms Hs IH Hm]; intros prior Hall; simpl; [done|].
  destruct (Hall m) as (Hp & <- & <-); [by constructor|].
  assert ((pm_original_index m <=? prior)%Z = false) as -> by (apply Z.leb_gt; lia). simpl.
  rewrite !require_bool_decide by done. simpl. apply IH. intros m' Hm'.
  rewrite Forall_forall in Hm. destruct (Hall m') as (_ & Hn & Hd); [by constructor|]. by auto.
Qed.

Lemma shared_comparable (cs : list Candidate) ns ds :
  Forall (λ c : Candidate, names c.2 = ns ∧ directions c.2 = ds) cs → all_comparable cs.
Proof.
  rewrite Forall_forall. intros Hall c d Hc Hd.
  destruct (Hall _ Hc), (Hall _ Hd). split; congruence.
Qed.

(** C16. The Pareto front is exact. On candidates of finite values,
    [pareto_front] returns whenever there is a candidate, all share their names
    and directions and every id is set. When it returns, the members are in
    strictly ascending index order; they are exactly the candidates no
    candidate dominates, each with its own index; and every candidate is a
    member or dominated by one, so the front is never empty. *)
Theorem pareto_front_exact (cs : list Candidate) tie :
  (∀ c, c ∈ cs → finite_vector c.2) →
  (cs ≠ [] → all_comparable cs → (∀ c, c ∈ cs → c.1 ≠ []) →
     ∃ front, pareto_front cs tie = Ok front) ∧
  (∀ front, pareto_front cs tie = Ok front →
     StronglySorted (λ a b, pm_original_index a < pm_original_index b)%Z (pf_members front) ∧
     (∀ m, m ∈ pf_members front ↔ ∃ i c, cs !! i = Some c ∧ m = member_at i c ∧
             ∀ d, d ∈ cs → dominates d.2 c.2 ≠ Ok true) ∧
     (∀ c, c ∈ cs → ∃ m, m ∈ pf_members front ∧
             (pm_vector m = c.2 ∨ dominates (pm_vector m) c.2 = Ok true))).
Proof.
  intros Hfin. split.
  - intros Hne Hcmp Hid. destruct cs as [|[i0 v0] cs']; [done|]. set (cs := (i0, v0) :: cs') in *.
    assert ((i0, v0) ∈ cs) as Hin0 by constructor.
    assert (Forall (λ c : Candidate, names c.2 = names v0 ∧ directions c.2 = directions v0) cs)
      as Hshare by (apply Forall_forall; intros c Hc; by apply (Hcmp c (i0, v0))).
    assert (pareto_front cs tie =
      (check_candidates (names v0) (directions v0) cs ;;
       members ← front_members cs 0 cs;
       ParetoFront_validate
         {| pf_objective_names := names v0; pf_objective_directions := directions v0;
            pf_tie_behavior := tie; pf_members := members |})) as -> by done.
    rewrite (proj2 (check_candidates_Ok _ _ _ tt) Hshare), bind_Ok_l.
    destruct (front_members_total cs 0 cs) as (ms & Hms); [intros; by apply Hcmp|done|].
    rewrite Hms, bind_Ok_l. unfold ParetoFront_validate. simpl.
    rewrite (proj2 (Nat.eqb_eq _ _)) by (unfold names, directions; by rewrite !length_fmap).
    destruct (front_members_Ok cs 0 cs ms) as [Hs Hin]; [intros; by apply Hcmp|done|]. simpl.
    rewrite check_members_Ok; [by eexists|done|].
    intros m (j & c & Hj & _ & ->)%Hin. simpl. split; [lia|].
    rewrite Forall_forall in Hshare. apply Hshare. by eapply list_elem_of_lookup_2.
  - intros front Hf. destruct cs as [|[i0 v0] cs']; [done|].
    assert (∃ ms, front_members ((i0, v0) :: cs') 0 ((i0, v0) :: cs') = Ok ms ∧
      pf_members front = ms ∧ all_comparable ((i0, v0) :: cs')) as (ms & Hms & Hpf & Hcmp).
    { unfold pareto_front in Hf. apply bind_Ok in Hf as (u & Hu & Hf).
      apply bind_Ok in Hf as (ms & Hms & Hf). exists ms. split; [done|].
      unfold ParetoFront_validate in Hf. inv_ok.
      split; [done|]. by eapply shared_comparable, check_candidates_Ok. }
    set (cs := (i0, v0) :: cs') in *. clearbody cs.
    rewrite Hpf. clear Hpf Hf front.
    destruct (front_members_Ok cs 0 cs ms) as [Hs Hin]; [intros; by apply Hcmp|done|].
    assert (∀ i c, cs !! i = Some c →
      (undominated cs i c.2 ↔ ∀ d, d ∈ cs → dominates d.2 c.2 ≠ Ok true)) as Hund.
    { intros i c Hc. unfold undominated. split.
      - intros Hno d [j Hd]%list_elem_of_lookup Hdom. destruct (decide (j = i)) as [->|Hne].
        + simplify_eq. eapply finite_dominates_irreflexive; [|exact Hdom]. eapply Hfin.
          by eapply list_elem_of_lookup_2.
        + by eauto 10.
      - intros Hno (j & d & Hd & _ & Hdom). eapply Hno; [|exact Hdom].
        by eapply list_elem_of_lookup_2. }
    assert (∀ m, m ∈ ms ↔ ∃ i c, cs !! i = Some c ∧ m = member_at i c ∧
      ∀ d, d ∈ cs → dominates d.2 c.2 ≠ Ok true) as Hin'.
    { intros m. rewrite Hin. simpl. split.
      - intros (j & c & Hj & Hu & ->). exists j, c. rewrite <-Hund by done. done.
      - intros (j & c & Hj & -> & Hu). exists j, c. rewrite Hund by done. done. }
    split_and!; [done|done|]. intros c Hc.
    destruct (maximal_above beats cs) with (v := c)
      as (u & Hu & Huc & Hmax); [| |done|].
    + intros x Hx. by apply finite_dominates_irreflexive, Hfin.
    + intros x y z Hx Hy Hz. unfold beats. by apply dominates_strict_order; apply Hfin.
    + destruct (proj1 (list_elem_of_lookup _ _) Hu) as [i Hi].
      exists (member_at i u). split; [apply Hin'; by exists i, u|]. simpl.
      destruct Huc as [->|?]; auto.
Qed.

(** ** Concrete instances *)
Section ObjectiveWitnesses.
Definition example_objective (name : pystr) (n : Z) (d : Direction) : Objective :=
  {| obj_name := name; obj_value := float_of_Z n; obj_direction := d;
     obj_derivation := {| od_source := SCORE; od_source_name := $"s"; od_graph_hash := None;
                          od_eval_config_hash := None; od_derivation_id := $"identity" |} |}.

(** Quality and cost of three candidates; the second is dominated. *)
Definition example_vector (quality cost : Z) : ObjectiveVector :=
  [example_objective $"quality" quality MAXIMIZE; example_objective $"cost" cost MINIMIZE].
Definition example_candidates : list Candidate :=
  [($"a", example_vector 3 5); ($"b", example_vector 2 5); ($"c", example_vector 2 1)].

Lemma dominates_strict_order_witness :
  dominates (example_vector 3 5) (example_vector 2 5) = Ok true ∧
  dominates (example_vector 2 5) (example_vector 2 6) = Ok true ∧
  dominates (example_vector 3 5) (example_vector 2 6) = Ok true.
Proof.
  assert (dominates (example_vector 3 5) (example_vector 2 5) = Ok true) as H1
    by (vm_compute; reflexivity).
  assert (dominates (example_vector 2 5) (example_vector 2 6) = Ok true) as H2
    by (vm_compute; reflexivity).
  split; [exact H1|]. split; [exact H2|].
  refine (proj2 (proj2 (dominates_strict_order (example_vector 3 5) (example_vector 2 5)
    (example_vector 2 6) _ _ _)) H1 H2); repeat constructor.
Defined.

Lemma pareto_front_exact_witness :
  ∃ front, pareto_front example_candidates STABLE_INDEX = Ok front ∧
    pm_candidate_id <$> pf_members front = [$"a"; $"c"].
Proof.
  destruct (proj1 (pareto_front_exact example_candidates STABLE_INDEX ltac:(
    intros c Hc; unfold example_candidates in Hc;
    repeat (apply elem_of_cons in Hc as [->|Hc]; [repeat constructor|]);
    by apply elem_of_nil in Hc))) as (front & Hfront).
  - done.
  - apply (shared_comparable _ [$"quality"; $"cost"] [MAXIMIZE; MINIMIZE]). by repeat constructor.
  - intros c Hc. unfold example_candidates in Hc.
    repeat (apply elem_of_cons in Hc as [->|Hc]; [done|]). by apply elem_of_nil in Hc.
  - exists front. split; [exact Hfront|]. vm_compute in Hfront. injection Hfront as <-. reflexivity.
Defined.
End ObjectiveWitnesses.
