(* ===== verification/Plan.v ===== *)
(** * Plan: task sets, seed plans and their trials

    Models [src/whetstone/eval/plan.py]: task sets, trial ids, seed plans with
    the slots they span, and the reconstruction of a seed plan from provenance
    rows. *)

From S2P Require Import Prelude Floats Identity EvalConfigs.
From stdpp Require Import pretty.

(** [str(n)] of a non-negative integer. *)
Definition str_int (n : Z) : pystr := py (pretty (Z.to_N n)).

(** [f"{task_hash}#{index}"]. *)
Definition slot_key (task_hash : pystr) (index : Z) : pystr := task_hash ++ $"#" ++ str_int index.

(** [range(n)]. *)
Definition range (n : Z) : list Z := seqZ 0 n.

(** [dict(pairs)]. *)
Definition dict_of {K V} `{EqDecision K} (pairs : list (K * V)) : list (K * V) :=
  foldl (λ d kv, dict_set d kv.1 kv.2) [] pairs.

(** ** Task sets *)

Record SelectionRule := {
  sr_kind : pystr;
  sr_params : list (pystr * pystr);
}.

Record TaskSet := {
  ts_manifest_id : pystr;
  ts_version : pystr;
  ts_dataset_revision : pystr;
  ts_task_hashes : list pystr;
  ts_selection_rule : option SelectionRule;
}.

Definition TaskSet_validate (self : TaskSet) : result TaskSet :=
  let has_list := negb (bool_decide (ts_task_hashes self = [])) in
  let has_rule := match ts_selection_rule self with Some _ => true | None => false end in
  require (negb (Bool.eqb has_list has_rule)) ValueError
    "TaskSet carries exactly one of task_hashes or selection_rule" ;;
  require (all_unique (ts_task_hashes self)) ValueError "task_hashes must be unique" ;;
  Ok self.

Definition TaskSet_identity_payload (self : TaskSet) : pyval :=
  PDict ([($"manifest_id", PStr (ts_manifest_id self)); ($"version", PStr (ts_version self));
          ($"dataset_revision", PStr (ts_dataset_revision self))] ++
    match ts_selection_rule self with
    | Some rule =>
        [($"selection_rule",
           PDict [($"kind", PStr (sr_kind rule));
                  ($"params", PList ((λ pair, PList [PStr pair.1; PStr pair.2]) <$>
                                     sr_params rule))])]
    | None => [($"task_hashes", PList (PStr <$> ts_task_hashes self))]
    end).

(** ** Trials and plans *)

Record TaskTrialProvenanceRow := {
  row_task_hash : pystr;
  row_seed_index : Z;
  row_rng_seed : option Z;
}.

Definition TaskTrialProvenanceRow_validate (self : TaskTrialProvenanceRow) :
    result TaskTrialProvenanceRow :=
  require (negb (row_seed_index self <? 0)%Z) ValueError "seed_index must be non-negative" ;;
  Ok self.

Record TaskTrialId := {
  tid_task_hash : pystr;
  tid_seed_index : Z;
  tid_rng_seed : option Z;
}.

Definition validate_seed_index (value : Z) : result Z :=
  require (negb (value <? 0)%Z) ValueError "seed_index must be non-negative" ;; Ok value.

Definition TaskTrialId_new (task_hash : pystr) (seed_index : Z) (rng_seed : option Z) :
    result TaskTrialId :=
  seed_index ← validate_seed_index seed_index;
  Ok {| tid_task_hash := task_hash; tid_seed_index := seed_index; tid_rng_seed := rng_seed |}.

(** The seed of a trial is not part of its identity. *)
Definition TaskTrialId_identity_payload (self : TaskTrialId) : pyval :=
  PDict [($"task_hash", PStr (tid_task_hash self)); ($"seed_index", PInt (tid_seed_index self))].

Record TaskTrial := { tt_task_trial_id : TaskTrialId }.

Record SeedPlan := {
  sp_plan_id : pystr;
  sp_version : pystr;
  sp_task_hashes : list pystr;
  sp_num_seeds : Z;
  sp_rng_seeds : list (pystr * Z);
}.

(** [for task_hash in task_hashes for index in range(num_seeds)]. *)
Definition slots (task_hashes : list pystr) (num_seeds : Z) : list (pystr * Z) :=
  task_hashes ≫= λ task_hash, (λ index, (task_hash, index)) <$> range num_seeds.

Definition validate_num_seeds (value : Z) : result Z :=
  require (negb (value <? 1)%Z) ValueError "num_seeds must be at least 1" ;; Ok value.

Definition SeedPlan_validate (self : SeedPlan) : result SeedPlan :=
  validate_num_seeds (sp_num_seeds self) ;;
  require (negb (bool_decide (sp_task_hashes self = []))) ValueError
    "task_hashes must not be empty" ;;
  require (all_unique (sp_task_hashes self)) ValueError "task_hashes must be unique" ;;
  let valid_keys :=
    (λ slot, slot_key slot.1 slot.2) <$> slots (sp_task_hashes self) (sp_num_seeds self) in
  let seed_keys := (sp_rng_seeds self).*1 in
  require (all_unique seed_keys) ValueError "repeat seed keys must be unique" ;;
  require (forallb (λ key, bool_decide (key ∈ valid_keys)) seed_keys) ValueError
    "repeat seeds reference unknown slots" ;;
  Ok self.

Definition task_trials (self : SeedPlan) : result (list TaskTrial) :=
  let seeds := dict_of (sp_rng_seeds self) in
  mapM (λ slot,
    id ← TaskTrialId_new slot.1 slot.2 (dict_get seeds (slot_key slot.1 slot.2));
    Ok {| tt_task_trial_id := id |}) (slots (sp_task_hashes self) (sp_num_seeds self)).

Definition SeedPlan_identity_payload (self : SeedPlan) : pyval :=
  PDict [($"plan_id", PStr (sp_plan_id self)); ($"version", PStr (sp_version self));
         ($"task_hashes", PList (PStr <$> sp_task_hashes self));
         ($"num_seeds", PInt (sp_num_seeds self))].

Section PlanHashes.
Context `{DSer : !DrSerialize}.

Definition TaskSet_identity_hash (self : TaskSet) : result pystr :=
  identity_hash_for SCHEMA_TASK_SET (TaskSet_identity_payload self).
Definition TaskTrialId_identity_hash (self : TaskTrialId) : result pystr :=
  identity_hash_for SCHEMA_TASK_TRIAL_ID (TaskTrialId_identity_payload self).
Definition SeedPlan_identity_hash (self : SeedPlan) : result pystr :=
  identity_hash_for SCHEMA_SEED_PLAN (SeedPlan_identity_payload self).
End PlanHashes.

(** ** Reconstruction from provenance *)

(** The accumulators of the loop: task order, index sets by task, seeds. *)
Record RowState := {
  rs_task_order : list pystr;
  rs_indices_by_task : list (pystr * list Z);
  rs_seeds : list ((pystr * Z) * Z);
}.

Definition collect_row (st : RowState) (row : TaskTrialProvenanceRow) : result RowState :=
  let h := row_task_hash row in
  let '(order, indices_by_task) :=
    match dict_get (rs_indices_by_task st) h with
    | None => (rs_task_order st ++ [h], dict_set (rs_indices_by_task st) h [])
    | Some _ => (rs_task_order st, rs_indices_by_task st)
    end in
  let indices := default [] (dict_get indices_by_task h) in
  require (negb (bool_decide (row_seed_index row ∈ indices))) ValueError
    "duplicate (task_hash, seed_index) in provenance rows" ;;
  Ok {| rs_task_order := order;
        rs_indices_by_task := dict_set indices_by_task h (indices ++ [row_seed_index row]);
        rs_seeds :=
          match row_rng_seed row with
          | Some seed => dict_set (rs_seeds st) (h, row_seed_index row) seed
          | None => rs_seeds st
          end |}.

Fixpoint collect_rows (st : RowState) (rows : list TaskTrialProvenanceRow) : result RowState :=
  match rows with
  | [] => Ok st
  | row :: rows => st ← collect_row st row; collect_rows st rows
  end.

(** [indices == set(range(n))]. *)
Definition is_range (indices : list Z) (n : Z) : bool :=
  forallb (λ i, bool_decide (i ∈ range n)) indices &&
  forallb (λ i, bool_decide (i ∈ indices)) (range n).

Definition seed_pairs (st : RowState) (num_seeds : Z) : list (pystr * Z) :=
  omap (λ slot, (λ seed, (slot_key slot.1 slot.2, seed)) <$> dict_get (rs_seeds st) slot)
    (slots (rs_task_order st) num_seeds).

Definition empty_rows : RowState :=
  {| rs_task_order := []; rs_indices_by_task := []; rs_seeds := [] |}.

Definition seed_plan_from_provenance (rows : list TaskTrialProvenanceRow)
    (plan_id version : pystr) : result SeedPlan :=
  st ← collect_rows empty_rows rows;
  require (negb (bool_decide (rs_task_order st = []))) ValueError "provenance rows are empty" ;;
  let counts := (λ kv, Z.of_nat (length kv.2)) <$> rs_indices_by_task st in
  let num_seeds := default 0%Z (head counts) in
  require (forallb (Z.eqb num_seeds) counts) ValueError
    "every task must have the same number of repeat slots" ;;
  require (forallb (λ kv, is_range kv.2 num_seeds) (rs_indices_by_task st)) ValueError
    "repeat indices are not contiguous" ;;
  SeedPlan_validate
    {| sp_plan_id := plan_id; sp_version := version; sp_task_hashes := rs_task_order st;
       sp_num_seeds := num_seeds; sp_rng_seeds := seed_pairs st num_seeds |}.

(** ** Slot keys name their slots *)

Lemma str_int_inj n m : (0 <= n)%Z → (0 <= m)%Z → str_int n = str_int m → n = m.
Proof. unfold str_int. intros ?? Heq%py_inj%(inj pretty). lia. Qed.

Definition hash_free (s : string) : Prop := 35%Z ∉ py s.

Lemma pretty_N_hash_free (n : N) : hash_free (pretty n).
Proof.
  assert (∀ x s, hash_free s → hash_free (pretty_N_go x s)) as Hgo.
  { intros x. induction (N.lt_wf_0 x) as [x _ IH]. intros s Hs.
    assert (x = 0 ∨ 0 < x)%N as [->|Hx] by lia; [by rewrite pretty_N_go_0|].
    rewrite pretty_N_go_step by done. apply IH; [by apply N.div_lt|].
    unfold hash_free, py in *. simpl. rewrite not_elem_of_cons. split; [|done].
    unfold pretty_N_char. by repeat case_match. }
  unfold pretty, pretty_N. destruct (decide _).
  - apply (bool_decide_unpack _). by vm_compute.
  - apply Hgo. unfold hash_free. simpl. apply not_elem_of_nil.
Qed.

Lemma app_separator_inj {A} (x : A) (l1 l2 k1 k2 : list A) :
  x ∉ k1 → x ∉ k2 → l1 ++ x :: k1 = l2 ++ x :: k2 → l1 = l2 ∧ k1 = k2.
Proof.
  intros H1 H2. revert l2. induction l1 as [|y l1 IH]; intros [|z l2]; simpl.
  - by intros [= ->].
  - intros [= -> ->]. destruct H1. apply elem_of_app. right. by constructor.
  - intros [= -> <-]. destruct H2. apply elem_of_app. right. by constructor.
  - intros [= -> Heq]. by destruct (IH _ Heq) as [-> ->].
Qed.

Lemma slot_key_inj h h' i i' :
  (0 <= i)%Z → (0 <= i')%Z → slot_key h i = slot_key h' i' → h = h' ∧ i = i'.
Proof.
  unfold slot_key. intros Hi Hi' Heq. change ($"#") with [35%Z] in Heq. simpl in Heq.
  apply app_separator_inj in Heq as [-> Heq]; [|apply pretty_N_hash_free..].
  split; [done|]. by apply str_int_inj.
Qed.

(** ** Slots and dictionaries of pairs *)

Lemma elem_of_slots hs n h i : (h, i) ∈ slots hs n ↔ h ∈ hs ∧ (0 <= i < n)%Z.
Proof.
  unfold slots, range. rewrite list_elem_of_bind. setoid_rewrite list_elem_of_fmap.
  setoid_rewrite elem_of_seqZ. naive_solver lia.
Qed.

Lemma NoDup_slots hs n : NoDup hs → NoDup (slots hs n).
Proof.
  unfold slots. induction 1 as [|h hs Hh _ IH]; csimpl; [constructor|].
  apply NoDup_app. split_and!; [|intros [h' i]; fold (slots hs n)|done].
  - apply NoDup_fmap_2; [by intros x y [=]|apply NoDup_seqZ].
  - intros (i' & [= -> ->] & _)%list_elem_of_fmap Hin%elem_of_slots. naive_solver.
Qed.

Lemma dict_of_NoDup {K V} `{EqDecision K} (l : list (K * V)) : NoDup l.*1 → dict_of l = l.
Proof.
  unfold dict_of. intros Hnd.
  assert (∀ acc, NoDup (acc ++ l).*1 → foldl (λ d kv, dict_set d kv.1 kv.2) acc l = acc ++ l)
    as Hgo; [|by apply Hgo].
  clear Hnd. induction l as [|[k v] l IH]; intros acc; simpl; [by rewrite app_nil_r|].
  rewrite fmap_app, NoDup_app. csimpl. intros (Hacc & Hdis & Hl).
  rewrite dict_set_fresh by (intros Hk; apply (Hdis k Hk); by constructor).
  rewrite IH; [by rewrite <-app_assoc|]. rewrite <-app_assoc, fmap_app. csimpl.
  apply NoDup_app. done.
Qed.

Lemma dict_get_elem {K V} `{EqDecision K} (l : list (K * V)) k v :
  NoDup l.*1 → dict_get l k = Some v ↔ (k, v) ∈ l.
Proof. split; [apply dict_get_Some|by apply dict_get_NoDup]. Qed.

(** The trials of a plan, which is never an error. *)
Definition trial_of (seeds : list (pystr * Z)) (slot : pystr * Z) : TaskTrial :=
  {| tt_task_trial_id :=
       {| tid_task_hash := slot.1; tid_seed_index := slot.2;
          tid_rng_seed := dict_get seeds (slot_key slot.1 slot.2) |} |}.

Lemma task_trials_Ok p :
  task_trials p = Ok (trial_of (dict_of (sp_rng_seeds p)) <$> slots (sp_task_hashes p) (sp_num_seeds p)).
Proof.
  unfold task_trials. apply mapM_Ok_map. intros [h i] [_ Hi]%elem_of_slots.
  unfold TaskTrialId_new, validate_seed_index. simpl.
  assert ((i <? 0)%Z = false) as -> by (apply Z.ltb_ge; lia). done.
Qed.

(** ** The row loop *)

Definition row_slot (row : TaskTrialProvenanceRow) : pystr * Z :=
  (row_task_hash row, row_seed_index row).

(** The task hashes in the order of their first row. *)
Definition add_task (order : list pystr) (row : TaskTrialProvenanceRow) : list pystr :=
  if decide (row_task_hash row ∈ order) then order else order ++ [row_task_hash row].
Definition order_of (rows : list TaskTrialProvenanceRow) : list pystr := foldl add_task [] rows.

Record rows_inv (rows : list TaskTrialProvenanceRow) (st : RowState) : Prop := {
  ri_keys : (rs_indices_by_task st).*1 = rs_task_order st;
  ri_order : rs_task_order st = order_of rows;
  ri_nodup : NoDup (rs_task_order st);
  ri_slots : NoDup (row_slot <$> rows);
  ri_task : ∀ h, h ∈ rs_task_order st ↔ ∃ i, (h, i) ∈ row_slot <$> rows;
  ri_indices : ∀ h l, dict_get (rs_indices_by_task st) h = Some l →
    NoDup l ∧ ∀ i, i ∈ l ↔ (h, i) ∈ row_slot <$> rows;
  ri_seeds : ∀ h i s, dict_get (rs_seeds st) (h, i) = Some s ↔
    {| row_task_hash := h; row_seed_index := i; row_rng_seed := Some s |} ∈ rows;
}.

Lemma empty_rows_inv : rows_inv [] empty_rows.
Proof.
  split; simpl; try done; try by constructor.
  - intros h. rewrite elem_of_nil. split; [done|]. by intros (i & []%elem_of_nil).
  - intros h i s. rewrite elem_of_nil. done.
Qed.

Lemma order_of_snoc rows row : order_of (rows ++ [row]) = add_task (order_of rows) row.
Proof. unfold order_of. by rewrite foldl_app. Qed.

Lemma elem_of_slots_snoc (rows : list TaskTrialProvenanceRow) row s :
  s ∈ row_slot <$> (rows ++ [row]) ↔ s ∈ row_slot <$> rows ∨ s = row_slot row.
Proof. rewrite fmap_app, elem_of_app. csimpl. by rewrite list_elem_of_singleton. Qed.

(** The seeds after one more row of a fresh slot. *)
Lemma seeds_snoc rows st row :
  rows_inv rows st → row_slot row ∉ row_slot <$> rows →
  ∀ h i s,
  dict_get match row_rng_seed row with
           | Some seed => dict_set (rs_seeds st) (row_slot row) seed
           | None => rs_seeds st
           end (h, i) = Some s ↔
  {| row_task_hash := h; row_seed_index := i; row_rng_seed := Some s |} ∈ rows ++ [row].
Proof.
  intros Hinv Hfresh h i s. rewrite elem_of_app, list_elem_of_singleton, <-(ri_seeds _ _ Hinv).
  assert (dict_get (rs_seeds st) (row_slot row) = None) as Hnone.
  { destruct (dict_get (rs_seeds st) (row_slot row)) as [s'|] eqn:E; [|done].
    destruct Hfresh. unfold row_slot in E. apply (ri_seeds _ _ Hinv) in E.
    change (row_slot row) with (row_slot {| row_task_hash := row_task_hash row;
      row_seed_index := row_seed_index row; row_rng_seed := Some s' |}).
    by apply list_elem_of_fmap_2. }
  destruct row as [h' i' [seed|]]; unfold row_slot in *; simpl in *.
  - destruct (decide ((h', i') = (h, i))) as [Heq|Hne].
    + rewrite <-Heq, dict_get_set_eq, Hnone. simplify_eq. split; [|naive_solver].
      intros [= ->]. by right.
    + rewrite dict_get_set_ne by done. split; [by left|]. intros [?|[= -> -> ->]]; [done|].
      by destruct Hne.
  - split; [by left|]. by intros [?|[=]].
Qed.

Lemma collect_row_inv rows st row :
  rows_inv rows st →
  match collect_row st row with
  | Ok st' => rows_inv (rows ++ [row]) st'
  | Err _ => row_slot row ∈ row_slot <$> rows
  end.
Proof.
  intros Hinv. pose proof Hinv as [Hkeys Horder Hnd Hslots Htask Hind Hseeds].
  unfold collect_row. set (h := row_task_hash row). set (i := row_seed_index row).
  destruct (dict_get (rs_indices_by_task st) h) as [l|] eqn:Hl.
  - rewrite Hl. simpl. destruct (Hind h l Hl) as [Hndl Hmem].
    assert (h ∈ rs_task_order st) as Hh.
    { destruct (decide (h ∈ rs_task_order st)) as [|Hno]; [done|].
      rewrite <-Hkeys in Hno. apply dict_get_None in Hno. congruence. }
    case_bool_decide as Hi; simpl; [by apply Hmem|].
    assert (row_slot row ∉ row_slot <$> rows) as Hfresh by (intros ?; by apply Hi, Hmem).
    split; simpl.
    + rewrite <-Hkeys. apply dict_set_keys_present. by rewrite Hkeys.
    + rewrite order_of_snoc, <-Horder. unfold add_task. by rewrite decide_True.
    + done.
    + rewrite fmap_app. csimpl. apply NoDup_app. split_and!; [done| |by apply NoDup_singleton].
      intros s Hs ->%list_elem_of_singleton. done.
    + intros h'. rewrite Htask. setoid_rewrite elem_of_slots_snoc. split; [naive_solver|].
      intros (j & [?|[= -> ->]]); [by eauto|]. by apply Htask.
    + intros h' l'. destruct (decide (h = h')) as [<-|Hne].
      * rewrite dict_get_set_eq. intros [= <-]. split.
        -- apply NoDup_app. split_and!; [done| |by apply NoDup_singleton].
           intros j Hj ->%list_elem_of_singleton. done.
        -- intros j. rewrite elem_of_app, list_elem_of_singleton, Hmem, elem_of_slots_snoc.
           unfold row_slot at 3. fold h i. naive_solver.
      * rewrite dict_get_set_ne by done. intros Hl'. destruct (Hind _ _ Hl') as [? Hmem'].
        split; [done|]. intros j. rewrite Hmem', elem_of_slots_snoc. unfold row_slot at 3.
        fold h i. naive_solver.
    + by apply seeds_snoc.
  - rewrite dict_get_set_eq, dict_set_set.
    assert (h ∉ rs_task_order st) as Hh by (rewrite <-Hkeys; by apply dict_get_None).
    rewrite bool_decide_false by (simpl; apply not_elem_of_nil). simpl.
    assert (row_slot row ∉ row_slot <$> rows) as Hfresh.
    { intros Hin. apply Hh, Htask. by exists i. }
    split; simpl.
    + rewrite dict_set_fresh by by rewrite Hkeys. rewrite fmap_app. by rewrite Hkeys.
    + rewrite order_of_snoc, <-Horder. unfold add_task. by rewrite decide_False.
    + apply NoDup_app. split_and!; [done| |by apply NoDup_singleton].
      intros x Hx ->%list_elem_of_singleton. done.
    + rewrite fmap_app. csimpl. apply NoDup_app. split_and!; [done| |by apply NoDup_singleton].
      intros s Hs ->%list_elem_of_singleton. done.
    + intros h'. rewrite elem_of_app, list_elem_of_singleton, Htask.
      setoid_rewrite elem_of_slots_snoc. unfold row_slot at 3. fold h i. naive_solver.
    + intros h' l'. destruct (decide (h = h')) as [<-|Hne].
      * rewrite dict_get_set_eq. intros [= <-]. split; [by apply NoDup_singleton|].
        intros j. rewrite list_elem_of_singleton, elem_of_slots_snoc. unfold row_slot at 2.
        fold h i. split; [naive_solver|]. intros [Hin|[= ->]]; [|done].
        destruct Hh. apply Htask. by eauto.
      * rewrite dict_get_set_ne by done. intros Hl'. destruct (Hind _ _ Hl') as [? Hmem'].
        split; [done|]. intros j. rewrite Hmem', elem_of_slots_snoc. unfold row_slot at 3.
        fold h i. naive_solver.
    + by apply seeds_snoc.
Qed.

Lemma collect_rows_inv done_rows st rows :
  rows_inv done_rows st →
  match collect_rows st rows with
  | Ok st' => rows_inv (done_rows ++ rows) st'
  | Err _ => ¬ NoDup (row_slot <$> done_rows ++ rows)
  end.
Proof.
  revert done_rows st. induction rows as [|row rows IH]; intros done_rows st Hinv; simpl.
  { by rewrite app_nil_r. }
  pose proof (collect_row_inv _ _ row Hinv) as Hrow.
  destruct (collect_row st row) as [st'|]; simpl.
  - specialize (IH _ _ Hrow). rewrite <-app_assoc in IH. done.
  - intros Hnd. rewrite fmap_app in Hnd. apply NoDup_app in Hnd as (_ & Hdis & _).
    apply (Hdis _ Hrow). csimpl. by constructor.
Qed.

(** ** The reconstructed plan *)

(** Every task of the rows has exactly the slots [0 .. n-1]. *)
Definition rectangular (rows : list TaskTrialProvenanceRow) (n : Z) : Prop :=
  ∀ h i, h ∈ order_of rows → (h, i) ∈ row_slot <$> rows ↔ (0 <= i < n)%Z.

Lemma is_range_spec l n : is_range l n = true ↔ ∀ i, i ∈ l ↔ (0 <= i < n)%Z.
Proof.
  unfold is_range, range. rewrite andb_true_iff, !forallb_Forall, !Forall_forall.
  setoid_rewrite bool_decide_eq_true. setoid_rewrite elem_of_seqZ.
  split; [intros [H1 H2] i; specialize (H1 i); specialize (H2 i); split; intros ?|
    intros H; split; intros i ?; specialize (H i)]; naive_solver lia.
Qed.

Lemma keyed_omap_NoDup {A K V} (key : A → K) (g : A → option V) (l : list A) :
  NoDup l → (∀ x y, x ∈ l → y ∈ l → key x = key y → x = y) →
  NoDup (omap (λ x, (λ s, (key x, s)) <$> g x) l).*1.
Proof.
  induction 1 as [|x l Hx Hl IH]; csimpl; intros Hinj; [constructor|].
  assert (NoDup (omap (λ x, (λ s, (key x, s)) <$> g x) l).*1) as Hrec.
  { apply IH. intros a b ??. apply Hinj; by constructor. }
  destruct (g x) as [s|]; csimpl; [|done]. constructor; [|done].
  intros ([k v] & Hk & Hin)%list_elem_of_fmap. simpl in Hk. subst k.
  apply list_elem_of_omap in Hin as (y & Hy & Hg). destruct (g y); [|done].
  simpl in Hg. simplify_eq. apply Hx.
  rewrite (Hinj x y); [done|by constructor|by constructor|done].
Qed.

Lemma slots_keys_inj hs n s t :
  s ∈ slots hs n → t ∈ slots hs n → slot_key s.1 s.2 = slot_key t.1 t.2 → s = t.
Proof.
  destruct s as [h i], t as [h' i']. intros [_ Hi]%elem_of_slots [_ Hi']%elem_of_slots Heq.
  simpl in Heq. by destruct (slot_key_inj h h' i i') as [-> ->]; [lia|lia|exact Heq|].
Qed.

Section SeedPairs.
Context {rows : list TaskTrialProvenanceRow} {st : RowState} {n : Z}.
Hypothesis Hinv : rows_inv rows st.

Lemma seed_pairs_NoDup : NoDup (seed_pairs st n).*1.
Proof.
  apply (keyed_omap_NoDup (λ slot, slot_key slot.1 slot.2)).
  - apply NoDup_slots. apply Hinv.
  - intros s t. apply slots_keys_inj.
Qed.

Lemma elem_of_seed_pairs k s :
  (k, s) ∈ seed_pairs st n ↔
  ∃ slot, slot ∈ slots (rs_task_order st) n ∧ dict_get (rs_seeds st) slot = Some s ∧
    k = slot_key slot.1 slot.2.
Proof.
  unfold seed_pairs. rewrite list_elem_of_omap. split.
  - intros (slot & Hin & Hs). destruct (dict_get (rs_seeds st) slot) eqn:E; [|done].
    simpl in Hs. simplify_eq. eauto.
  - intros (slot & Hin & Hs & ->). exists slot. by rewrite Hs.
Qed.

Lemma seed_pairs_lookup slot :
  slot ∈ slots (rs_task_order st) n →
  dict_get (dict_of (seed_pairs st n)) (slot_key slot.1 slot.2) = dict_get (rs_seeds st) slot.
Proof.
  intros Hslot. rewrite dict_of_NoDup by apply seed_pairs_NoDup. apply option_eq. intros s.
  rewrite dict_get_elem by apply seed_pairs_NoDup. rewrite elem_of_seed_pairs. split; [|by eauto].
  intros (t & Ht & Hs & Heq). by rewrite (slots_keys_inj _ _ _ _ Hslot Ht Heq).
Qed.

Definition rebuilt (plan_id version : pystr) : SeedPlan :=
  {| sp_plan_id := plan_id; sp_version := version; sp_task_hashes := rs_task_order st;
     sp_num_seeds := n; sp_rng_seeds := seed_pairs st n |}.

Lemma rebuilt_valid plan_id version :
  rs_task_order st ≠ [] → (1 <= n)%Z →
  SeedPlan_validate (rebuilt plan_id version) = Ok (rebuilt plan_id version).
Proof.
  intros Hne Hn. unfold SeedPlan_validate, validate_num_seeds. simpl.
  assert ((n <? 1)%Z = false) as -> by (apply Z.ltb_ge; lia). simpl.
  rewrite require_not by done. rewrite (require_unique (rs_task_order st)) by apply Hinv.
  rewrite (require_unique (seed_pairs st n).*1) by apply seed_pairs_NoDup. rewrite !bind_Ok_l.
  assert (forallb (λ key, bool_decide (key ∈ (λ slot, slot_key slot.1 slot.2) <$>
    slots (rs_task_order st) n)) (seed_pairs st n).*1 = true) as ->; [|done].
  apply forallb_Forall, Forall_forall. intros k ([k' s] & -> & Hin)%list_elem_of_fmap.
  apply bool_decide_eq_true. apply elem_of_seed_pairs in Hin as (slot & Hslot & _ & ->). simpl.
  by apply (list_elem_of_fmap_2 (λ slot, slot_key slot.1 slot.2)).
Qed.
End SeedPairs.
Arguments rebuilt : clear implicits.

Lemma from_provenance_Ok rows plan_id version p :
  seed_plan_from_provenance rows plan_id version = Ok p ↔
  ∃ st n, collect_rows empty_rows rows = Ok st ∧ rs_task_order st ≠ [] ∧ (1 <= n)%Z ∧
    rectangular rows n ∧ p = rebuilt st n plan_id version.
Proof.
  unfold seed_plan_from_provenance.
  pose proof (collect_rows_inv [] empty_rows rows empty_rows_inv) as Hinv. simpl in Hinv.
  destruct (collect_rows empty_rows rows) as [st|]; simpl; [|naive_solver].
  pose proof Hinv as [Hkeys Horder Hnd Hslots Htask Hind Hseeds].
  assert (∀ h, h ∈ rs_task_order st → ∃ l, dict_get (rs_indices_by_task st) h = Some l) as Hsome.
  { intros h. rewrite <-Hkeys. destruct (dict_get _ h) eqn:E; [by eauto|].
    apply dict_get_None in E. done. }
  split.
  - intros H. inv_ok. eexists st, _. split_and!; [done|done| | |].
    3:{ match goal with H : SeedPlan_validate _ = Ok p |- _ =>
          unfold SeedPlan_validate in H; inv_ok; reflexivity end. }
    + match goal with H : SeedPlan_validate _ = Ok p |- _ =>
        unfold SeedPlan_validate, validate_num_seeds in H; simpl in H; inv_ok end. lia.
    + intros h i Hh. rewrite <-Horder in Hh. destruct (Hsome h Hh) as [l Hl].
      destruct (Hind _ _ Hl) as [_ <-].
      match goal with H : forallb (λ kv, is_range _ _) _ = true |- _ =>
        apply forallb_Forall in H; rewrite Forall_forall in H;
        specialize (H _ (dict_get_Some _ _ _ Hl)); simpl in H end.
      by apply is_range_spec.
  - intros (? & n & [= <-] & Hne & Hn & Hrect & ->). rewrite require_not by done. simpl.
    assert (Forall (λ kv : pystr * list Z, (∀ i, i ∈ kv.2 ↔ (0 <= i < n)%Z) ∧
      Z.of_nat (length kv.2) = n) (rs_indices_by_task st)) as Hall.
    { apply Forall_forall. intros [h l] Hhl. simpl.
      assert (dict_get (rs_indices_by_task st) h = Some l) as Hl.
      { apply dict_get_NoDup; [by rewrite Hkeys|done]. }
      destruct (Hind _ _ Hl) as [Hndl Hmem].
      assert (∀ i, i ∈ l ↔ (0 <= i < n)%Z) as Hi.
      { intros i. rewrite Hmem. apply Hrect. rewrite <-Horder, <-Hkeys.
        by apply (list_elem_of_fmap_2 fst _ (h, l)). }
      split; [done|]. assert (l ≡ₚ seqZ 0 n) as ->.
      { apply NoDup_Permutation; [done|apply NoDup_seqZ|]. intros i. rewrite Hi, elem_of_seqZ. lia. }
      rewrite length_seqZ. lia. }
    assert (default 0%Z (head ((λ kv : pystr * list Z, Z.of_nat (length kv.2)) <$>
      rs_indices_by_task st)) = n) as ->.
    { destruct (rs_indices_by_task st) as [|[h l] ind].
      - simpl in Hkeys. by rewrite <-Hkeys in Hne.
      - inversion_clear Hall as [|? ? [_ Hlen]]. done. }
    rewrite (proj2 (forallb_Forall _ _)), (proj2 (forallb_Forall _ _)).
    + simpl. by apply (rebuilt_valid Hinv).
    + rewrite Forall_fmap. eapply Forall_impl; [exact Hall|]. intros kv [_ <-]. apply Z.eqb_refl.
    + eapply Forall_impl; [exact Hall|]. intros kv [Hi _]. by apply is_range_spec.
Qed.

(** A trial as a provenance row. *)
Definition row_of (t : TaskTrial) : TaskTrialProvenanceRow :=
  let id := tt_task_trial_id t in
  {| row_task_hash := tid_task_hash id; row_seed_index := tid_seed_index id;
     row_rng_seed := tid_rng_seed id |}.

Lemma row_slot_trials seeds hs n :
  row_slot <$> (row_of <$> (trial_of seeds <$> slots hs n)) = slots hs n.
Proof. rewrite <-!list_fmap_compose. apply fmap_id_on, Forall_forall. by intros []. Qed.

Lemma elem_of_trial_rows seeds hs n row :
  row ∈ row_of <$> (trial_of seeds <$> slots hs n) ↔
  ∃ slot, slot ∈ slots hs n ∧ row = row_of (trial_of seeds slot).
Proof.
  rewrite list_elem_of_fmap. setoid_rewrite list_elem_of_fmap. naive_solver.
Qed.

Lemma add_task_present order rows :
  (∀ row, row ∈ rows → row_task_hash row ∈ order) → foldl add_task order rows = order.
Proof.
  induction rows as [|row rows IH]; simpl; intros Hall; [done|].
  unfold add_task at 2. rewrite decide_True by (apply Hall; by constructor).
  apply IH. intros r ?. apply Hall. by constructor.
Qed.

Lemma order_of_trials seeds hs n :
  (1 <= n)%Z → NoDup hs → order_of (row_of <$> (trial_of seeds <$> slots hs n)) = hs.
Proof.
  intros Hn Hhs. unfold order_of.
  assert (∀ order, NoDup (order ++ hs) → foldl add_task order
    (row_of <$> (trial_of seeds <$> slots hs n)) = order ++ hs) as Hgo; [|by apply Hgo].
  clear Hhs. induction hs as [|h hs IH]; intros order Hnd; csimpl; [by rewrite app_nil_r|].
  change (slots (h :: hs) n) with (((λ i, (h, i)) <$> range n) ++ slots hs n).
  rewrite !fmap_app, foldl_app. rewrite <-!list_fmap_compose.
  assert (h ∉ order) as Hh.
  { intros Hh. apply NoDup_app in Hnd as (_ & Hdis & _). apply (Hdis _ Hh). by constructor. }
  assert (range n = 0%Z :: seqZ 1 (n - 1)) as ->.
  { unfold range. rewrite seqZ_cons by lia. f_equal; f_equal; lia. }
  csimpl. unfold add_task at 3. simpl. rewrite decide_False by done.
  rewrite (add_task_present (order ++ [h]) (_ <$> seqZ 1 (n - 1))).
  - rewrite list_fmap_compose, IH by by rewrite <-app_assoc. by rewrite <-app_assoc.
  - intros row (i & -> & _)%list_elem_of_fmap. apply elem_of_app. right. by constructor.
Qed.

(** A plan reconstructed from provenance is the provenance: when
    [seed_plan_from_provenance] returns, the plan is valid, its tasks are the
    tasks of the rows in the order of their first row, and its trials are
    exactly the rows, each once, with the same seeds. *)
Theorem seed_plan_from_provenance_exact rows plan_id version p :
  seed_plan_from_provenance rows plan_id version = Ok p →
  SeedPlan_validate p = Ok p ∧ sp_task_hashes p = order_of rows ∧
  ∃ trials, task_trials p = Ok trials ∧ row_of <$> trials ≡ₚ rows.
Proof.
  intros (st & n & Hst & Hne & Hn & Hrect & ->)%from_provenance_Ok.
  pose proof (collect_rows_inv [] empty_rows rows empty_rows_inv) as Hinv.
  rewrite Hst in Hinv. simpl in Hinv.
  split; [by apply (rebuilt_valid Hinv)|]. split; [apply Hinv|].
  eexists. split; [apply task_trials_Ok|]. simpl. apply NoDup_Permutation.
  - apply (NoDup_fmap_1 row_slot). rewrite row_slot_trials. apply NoDup_slots, Hinv.
  - apply (NoDup_fmap_1 row_slot), Hinv.
  - intros row. rewrite elem_of_trial_rows.
    assert (∀ slot, slot ∈ slots (rs_task_order st) n ↔ slot ∈ row_slot <$> rows) as Hslot.
    { intros [h i]. rewrite elem_of_slots, (ri_order _ _ Hinv). split.
      - intros [Hh Hi]. by apply (Hrect h i).
      - intros Hin. assert (h ∈ order_of rows) as Hh.
        { rewrite <-(ri_order _ _ Hinv). apply (ri_task _ _ Hinv). by exists i. }
        split; [done|]. by apply (Hrect h i Hh). }
    assert (∀ slot, slot ∈ slots (rs_task_order st) n →
      row_of (trial_of (dict_of (seed_pairs st n)) slot) =
      {| row_task_hash := slot.1; row_seed_index := slot.2;
         row_rng_seed := dict_get (rs_seeds st) slot |}) as Hrow.
    { intros slot Hin. unfold trial_of, row_of. simpl. by rewrite (seed_pairs_lookup Hinv). }
    assert (∀ row, row ∈ rows → dict_get (rs_seeds st) (row_slot row) = row_rng_seed row) as Hseed.
    { intros r Hr. apply option_eq. intros s. unfold row_slot. rewrite (ri_seeds _ _ Hinv).
      split; [|intros Hs; rewrite <-Hs; by destruct r].
      intros Hin. pose proof (ri_slots _ _ Hinv) as Hnd.
      apply list_elem_of_lookup in Hin as [j Hj], Hr as [k Hk].
      assert (j = k) as ->; [|rewrite Hj in Hk; by injection Hk as <-].
      apply (NoDup_lookup (row_slot <$> rows) j k (row_slot r) Hnd); rewrite list_lookup_fmap.
      - by rewrite Hj.
      - by rewrite Hk. }
    split.
    + intros (slot & Hin & ->). rewrite Hrow by done. apply Hslot in Hin as Hin'.
      apply list_elem_of_fmap in Hin' as (r & -> & Hr). rewrite Hseed by done. by destruct r.
    + intros Hr. exists (row_slot row).
      assert (row_slot row ∈ slots (rs_task_order st) n) as Hin
        by (apply Hslot; by apply list_elem_of_fmap_2).
      split; [done|]. rewrite Hrow, Hseed by done. by destruct row.
Qed.

(** C18. Recording a plan's trials as provenance rows and reconstructing loses
    nothing: for every valid seed plan the reconstruction returns a plan of
    the same identity with the very same trials, seeds included. *)
Theorem seed_plan_roundtrip p :
  SeedPlan_validate p = Ok p →
  ∃ trials p', task_trials p = Ok trials ∧
    seed_plan_from_provenance (row_of <$> trials) (sp_plan_id p) (sp_version p) = Ok p' ∧
    SeedPlan_identity_payload p' = SeedPlan_identity_payload p ∧
    task_trials p' = Ok trials.
Proof.
  intros Hp. unfold SeedPlan_validate, validate_num_seeds in Hp. inv_ok.
  set (trials := trial_of (dict_of (sp_rng_seeds p)) <$> slots (sp_task_hashes p) (sp_num_seeds p)).
  pose proof (collect_rows_inv [] empty_rows (row_of <$> trials) empty_rows_inv) as Hinv.
  simpl in Hinv.
  assert (row_slot <$> (row_of <$> trials) = slots (sp_task_hashes p) (sp_num_seeds p)) as Hslots
    by apply row_slot_trials.
  assert (order_of (row_of <$> trials) = sp_task_hashes p) as Horder by by apply order_of_trials.
  destruct (collect_rows empty_rows (row_of <$> trials)) as [st|] eqn:Hst.
  2: { destruct Hinv. rewrite Hslots. by apply NoDup_slots. }
  assert (rs_task_order st = sp_task_hashes p) as Hst_order by by rewrite (ri_order _ _ Hinv).
  exists trials, (rebuilt st (sp_num_seeds p) (sp_plan_id p) (sp_version p)).
  split_and!.
  - apply task_trials_Ok.
  - apply from_provenance_Ok. exists st, (sp_num_seeds p). split_and!; [done|congruence|done| |done].
    intros h i. rewrite Horder, Hslots, elem_of_slots. tauto.
  - unfold SeedPlan_identity_payload, rebuilt. simpl. by rewrite Hst_order.
  - rewrite task_trials_Ok. simpl. rewrite Hst_order. f_equal. unfold trials.
    apply list_fmap_ext. intros j [h i] Hj%list_elem_of_lookup_2. unfold trial_of. do 2 f_equal.
    rewrite (seed_pairs_lookup Hinv) by by rewrite Hst_order.
    apply option_eq. intros s. rewrite (ri_seeds _ _ Hinv). unfold trials.
    rewrite elem_of_trial_rows. simpl. split.
    + intros ([h' i'] & Hin & [= -> -> ->]). done.
    + intros Hs. exists (h, i). split; [done|]. unfold row_of, trial_of. simpl. by rewrite Hs.
Qed.

(** ** Concrete instances *)

Definition example_plan : SeedPlan :=
  {| sp_plan_id := $"p"; sp_version := $"1"; sp_task_hashes := [$"a"; $"b#1"]; sp_num_seeds := 11;
     sp_rng_seeds := [(slot_key $"b#1" 10, 7%Z); (slot_key $"a" 0, 5%Z)] |}.

Lemma seed_plan_roundtrip_witness :
  SeedPlan_validate example_plan = Ok example_plan ∧
  ∃ trials p', task_trials example_plan = Ok trials ∧
    seed_plan_from_provenance (row_of <$> trials) (sp_plan_id example_plan)
      (sp_version example_plan) = Ok p' ∧
    SeedPlan_identity_payload p' = SeedPlan_identity_payload example_plan ∧
    task_trials p' = Ok trials.
Proof.
  assert (SeedPlan_validate example_plan = Ok example_plan) as H by (vm_compute; reflexivity).
  split; [exact H|]. exact (seed_plan_roundtrip example_plan H).
Defined.

Definition example_rows : list TaskTrialProvenanceRow :=
  [{| row_task_hash := $"t"; row_seed_index := 1; row_rng_seed := Some 3%Z |};
   {| row_task_hash := $"u"; row_seed_index := 0; row_rng_seed := None |};
   {| row_task_hash := $"t"; row_seed_index := 0; row_rng_seed := None |};
   {| row_task_hash := $"u"; row_seed_index := 1; row_rng_seed := Some 4%Z |}].

Lemma seed_plan_from_provenance_exact_witness :
  ∃ p, seed_plan_from_provenance example_rows $"p" $"1" = Ok p ∧
    sp_task_hashes p = order_of example_rows ∧
    ∃ trials, task_trials p = Ok trials ∧ row_of <$> trials ≡ₚ example_rows.
Proof.
  destruct (seed_plan_from_provenance example_rows $"p" $"1") as [p|e] eqn:H;
    [|vm_compute in H; discriminate H].
  exists p. split; [reflexivity|].
  exact (proj2 (seed_plan_from_provenance_exact example_rows $"p" $"1" p H)).
Defined.
