(* ===== verification/Aggregate.v ===== *)
(** * Aggregate: reductions, completeness and the unweighted task mean

    Models [src/whetstone/eval/aggregation.py], [src/whetstone/eval/aggregate.py]
    and [require_exclusive_row_state] of [src/whetstone/eval/attribution.py]:
    one reduction, the completeness policy encoded in an aggregation config,
    the planned matrix, and the mean over tasks of the means over seeds. *)

From S2P Require Import Prelude Floats Identity EvalConfigs Plan.

(** ** One reduction *)

Inductive AggregationStatus := OK | MISSING_DATA | NOT_APPLICABLE | ZERO_DENOMINATOR.

#[export] Instance AggregationStatus_eq_dec : EqDecision AggregationStatus.
Proof. solve_decision. Defined.

Definition AggregationStatus_value (s : AggregationStatus) : pystr :=
  match s with
  | OK => $"ok" | MISSING_DATA => $"missing_data"
  | NOT_APPLICABLE => $"not_applicable" | ZERO_DENOMINATOR => $"zero_denominator"
  end.

Record AggregationInput := {
  ai_value : option float;
  ai_applicable : bool;
}.

Record AggregationOutput := {
  ao_status : AggregationStatus;
  ao_value : option float;
  ao_count_total : Z;
  ao_count_applicable : Z;
  ao_count_present : Z;
}.

Definition len {A} (l : list A) : Z := Z.of_nat (length l).

(** [assignment.get(key, fallback) == text]. *)
Definition assigned (assignment : list (pystr * pyval)) (key : pystr) (fallback : pyval)
    (text : pystr) : bool :=
  py_eq (default fallback (dict_get assignment key)) (PStr text).

Definition applicable_inputs (inputs : list AggregationInput) : list AggregationInput :=
  filter (λ i, ai_applicable i = true) inputs.

Definition present_values (applicable : list AggregationInput) : list float :=
  omap ai_value applicable.

Definition aggregate (config : AggregationConfig) (inputs : list AggregationInput) :
    result AggregationOutput :=
  let assignment := AggregationConfig_assignment_dict config in
  reduction ← of_option (dict_get assignment $"reduction") KeyError "";
  let applicable := applicable_inputs inputs in
  let present := present_values applicable in
  let output status value :=
    {| ao_status := status; ao_value := value; ao_count_total := len inputs;
       ao_count_applicable := len applicable; ao_count_present := len present |} in
  if bool_decide (length applicable = 0%nat) then Ok (output NOT_APPLICABLE None)
  else if (length present <? length applicable)%nat &&
          assigned assignment $"missing_data" (PStr $"propagate") $"propagate" then
    Ok (output MISSING_DATA None)
  else if py_eq reduction (PStr $"sum") then Ok (output OK (Some (float_sum present)))
  else if bool_decide (length present = 0%nat) then
    if assigned assignment $"zero_denominator" (PStr $"not_applicable") $"error" then
      raise ZeroDivisionError "mean aggregation has zero contributing values"
    else Ok (output ZERO_DENOMINATOR None)
  else Ok (output OK (Some (fdiv (float_sum present) (float_of_Z (len present))))).

(** ** The completeness policy *)

Inductive RowPolicy := PROPAGATE | SKIP.

#[export] Instance RowPolicy_eq_dec : EqDecision RowPolicy.
Proof. solve_decision. Defined.

(** [RowPolicy(value)]. *)
Definition RowPolicy_of (value : option pyval) : result RowPolicy :=
  match value with
  | Some v =>
      if py_eq v (PStr $"propagate") then Ok PROPAGATE
      else if py_eq v (PStr $"skip") then Ok SKIP
      else raise ValueError ""
  | None => raise ValueError ""
  end.

Record CompletenessPolicy := {
  cp_row_policy : RowPolicy;
  cp_max_skip_fraction : float;
}.

Definition CompletenessPolicy_validate (self : CompletenessPolicy) : result CompletenessPolicy :=
  require (fle fzero (cp_max_skip_fraction self) && fle (cp_max_skip_fraction self) fone)
    ValueError "max_skip_fraction must be in [0.0, 1.0]" ;;
  Ok self.

Definition missing_data (self : CompletenessPolicy) : pystr :=
  match cp_row_policy self with PROPAGATE => $"propagate" | SKIP => $"skip" end.

(** [skipped / planned] of two counts, which are exact as floats. *)
Definition within_tolerance (self : CompletenessPolicy) (skipped planned : Z) : bool :=
  (planned <=? 0)%Z ||
  fle (fdiv (float_of_Z skipped) (float_of_Z planned)) (cp_max_skip_fraction self).

(** Python's conversions between floats and decimal text: [float(text)]
    (a [ValueError] on text that is not a number) and [repr(x)]. *)
Class FloatText := {
  float_of_text : pystr → result float;
  float_repr : float → pystr;
}.

Definition SKIP_TOLERANCE_VARIABLE := $"max_skip_fraction".

Definition tolerance_variable_spec : VariableSpec :=
  {| vs_name := SKIP_TOLERANCE_VARIABLE; vs_allowed := None; vs_default := PStr $"0.0";
     vs_has_default := true |}.

Definition aggregation_definition (definition_id : pystr) : AggregationDefinition :=
  {| ad_definition_id := definition_id; ad_version := $"1";
     ad_variables := aggregation_variables ++ [tolerance_variable_spec] |}.

Section Policy.
Context `{DText : !FloatText}.

Definition skip_fraction_token (self : CompletenessPolicy) : pystr :=
  if feq (cp_max_skip_fraction self) fzero then $"0.0" else float_repr (cp_max_skip_fraction self).

(** [try: r except ValueError: raise ValueError(msg)]. *)
Definition value_error {A} (r : result A) (msg : string) : result A :=
  match r with
  | Err e => if exn_isa (exn_cls e) ValueError then raise ValueError msg else Err e
  | _ => r
  end.

Definition policy_from_aggregation_config (config : AggregationConfig) :
    result CompletenessPolicy :=
  let assignment := AggregationConfig_assignment_dict config in
  require (assigned assignment $"reduction" PNone $"mean") ValueError
    "aggregation_config reduction must be 'mean'" ;;
  require (assigned assignment $"zero_denominator" PNone $"not_applicable") ValueError
    "aggregation_config zero_denominator must be 'not_applicable'" ;;
  row_policy ← value_error (RowPolicy_of (dict_get assignment $"missing_data"))
    "aggregation_config missing_data must be 'propagate' or 'skip'";
  match dict_get assignment SKIP_TOLERANCE_VARIABLE with
  | Some (PStr token) =>
      policy ← value_error
        (max_skip_fraction ← float_of_text token;
         CompletenessPolicy_validate
           {| cp_row_policy := row_policy; cp_max_skip_fraction := max_skip_fraction |})
        "aggregation_config max_skip_fraction must be a finite float in [0.0, 1.0]";
      require (bool_decide (token = skip_fraction_token policy)) ValueError
        "aggregation_config max_skip_fraction must use its exact round-trippable token" ;;
      Ok policy
  | _ => raise ValueError "aggregation_config max_skip_fraction must be a canonical string"
  end.
End Policy.

(** ** The planned matrix *)

Record EvalMatrixPlan := {
  emp_eval_config : EvalConfig;
  emp_sampling_config : SamplingConfig;
  emp_task_set : TaskSet;
  emp_seed_plan : SeedPlan;
  emp_aggregation_config : AggregationConfig;
}.

Section Matrix.
Context `{DSer : !DrSerialize, DText : !FloatText}.

Definition EvalMatrixPlan_validate (self : EvalMatrixPlan) : result EvalMatrixPlan :=
  require (bool_decide (ec_sampling_config_hash (emp_eval_config self) =
                        sc_config_hash (emp_sampling_config self))) ValueError
    "eval_config sampling_config_hash does not match sampling_config" ;;
  require (bool_decide (ec_aggregation_config_hash (emp_eval_config self) =
                        ac_config_hash (emp_aggregation_config self))) ValueError
    "eval_config aggregation_config_hash does not match aggregation_config" ;;
  let sampling := SamplingConfig_assignment_dict (emp_sampling_config self) in
  task_set_hash ← TaskSet_identity_hash (emp_task_set self);
  require (assigned sampling $"task_set_hash" PNone task_set_hash) ValueError
    "sampling_config task_set_hash does not match task_set" ;;
  seed_plan_hash ← SeedPlan_identity_hash (emp_seed_plan self);
  require (assigned sampling $"seed_plan_hash" PNone seed_plan_hash) ValueError
    "sampling_config seed_plan_hash does not match seed_plan" ;;
  require (match ts_selection_rule (emp_task_set self) with None => true | _ => false end)
    ValueError "task_set must be an explicit task identity manifest" ;;
  require (bool_decide (ts_task_hashes (emp_task_set self) =
                        sp_task_hashes (emp_seed_plan self))) ValueError
    "task_set and seed_plan task identities do not match" ;;
  policy_from_aggregation_config (emp_aggregation_config self) ;;
  Ok self.

Definition policy (self : EvalMatrixPlan) : result CompletenessPolicy :=
  policy_from_aggregation_config (emp_aggregation_config self).
End Matrix.

(** ** Rows *)

Definition require_exclusive_row_state (scored failed missing invalid : bool) : result unit :=
  let state_count := ((if failed then 1 else 0) + (if missing then 1 else 0) +
                      (if invalid then 1 else 0))%Z in
  require (negb (scored && negb (state_count =? 0)%Z)) ValueError
    "a scored row must be present" ;;
  require (negb (negb scored && negb (state_count =? 1)%Z)) ValueError
    "an unscored row requires exactly one of failed / missing / invalid".

Record RowValue := {
  rv_value : option float;
  rv_failed : bool;
  rv_missing : bool;
  rv_invalid : bool;
}.

Definition is_present (self : RowValue) : bool :=
  match rv_value self with Some _ => true | None => false end.

Definition RowValue_validate (self : RowValue) : result RowValue :=
  require_exclusive_row_state (is_present self) (rv_failed self) (rv_missing self)
    (rv_invalid self) ;;
  Ok self.

Definition to_aggregation_input (self : RowValue) : AggregationInput :=
  if is_present self then {| ai_value := rv_value self; ai_applicable := true |}
  else if rv_invalid self then {| ai_value := None; ai_applicable := false |}
  else {| ai_value := None; ai_applicable := true |}.

Record TaskRows := {
  tr_task_hash : pystr;
  tr_rows : list RowValue;
}.

Definition missing_row : RowValue :=
  {| rv_value := None; rv_failed := false; rv_missing := true; rv_invalid := false |}.

Definition completed_rows (self : TaskRows) (num_seeds : Z) : result (list RowValue) :=
  require (negb (num_seeds <? len (tr_rows self))%Z) ValueError
    "task has more rows than plan num_seeds" ;;
  let shortfall := (num_seeds - len (tr_rows self))%Z in
  row ← RowValue_validate missing_row;
  Ok (tr_rows self ++ replicate (Z.to_nat shortfall) row).

Definition row_counts (rows : list RowValue) : Z * Z * Z * Z :=
  let count (f : RowValue → bool) := len (filter (λ r, f r = true) rows) in
  (count is_present, count rv_missing, count rv_failed, count rv_invalid).

(** ** Aggregates *)

Definition AGGREGATE_SCHEMA := $"whetstone.aggregate".

Record Aggregate := {
  agg_name : pystr;
  agg_graph_hash : pystr;
  agg_eval_config_hash : pystr;
  agg_task_count : Z;
  agg_num_seeds : Z;
  agg_output : AggregationOutput;
  agg_rows_present : Z;
  agg_rows_missing : Z;
  agg_rows_failed : Z;
  agg_rows_invalid : Z;
}.

Definition Aggregate_validate (self : Aggregate) : result Aggregate :=
  require_full_hash (PStr (agg_graph_hash self)) ;;
  require_full_hash (PStr (agg_eval_config_hash self)) ;;
  require (negb (agg_task_count self <? 0)%Z) ValueError "task_count cannot be negative" ;;
  require (negb (agg_num_seeds self <? 1)%Z) ValueError "num_seeds must be at least 1" ;;
  let planned := (agg_task_count self * agg_num_seeds self)%Z in
  let counts := [agg_rows_present self; agg_rows_missing self; agg_rows_failed self;
                 agg_rows_invalid self] in
  require (forallb (λ count, negb (count <? 0)%Z) counts) ValueError
    "row counts cannot be negative" ;;
  let accounted := (agg_rows_present self + agg_rows_missing self + agg_rows_failed self +
                    agg_rows_invalid self)%Z in
  require (accounted =? planned)%Z ValueError
    "row accounting does not cover the complete planned matrix" ;;
  Ok self.

Definition AggregationOutput_dump (o : AggregationOutput) : pyval :=
  PDict [($"status", PStr (AggregationStatus_value (ao_status o)));
         ($"value", match ao_value o with Some v => PFloat v | None => PNone end);
         ($"count_total", PInt (ao_count_total o));
         ($"count_applicable", PInt (ao_count_applicable o));
         ($"count_present", PInt (ao_count_present o))].

Definition Aggregate_record_content (self : Aggregate) : pyval :=
  PDict [($"name", PStr (agg_name self)); ($"graph_hash", PStr (agg_graph_hash self));
         ($"eval_config_hash", PStr (agg_eval_config_hash self));
         ($"task_count", PInt (agg_task_count self)); ($"num_seeds", PInt (agg_num_seeds self));
         ($"aggregation_output", AggregationOutput_dump (agg_output self));
         ($"rows_present", PInt (agg_rows_present self));
         ($"rows_missing", PInt (agg_rows_missing self));
         ($"rows_failed", PInt (agg_rows_failed self));
         ($"rows_invalid", PInt (agg_rows_invalid self))].

Definition Aggregate_record_ref `{!DrSerialize, !DrStore} (self : Aggregate) : result TypedRef :=
  typed_ref_for_record AGGREGATE_SCHEMA (Aggregate_record_content self).

(** ** The unweighted task mean *)

Definition enforce_skip_tolerance (output : AggregationOutput) (policy : CompletenessPolicy)
    (skipped planned : Z) : AggregationOutput :=
  if negb (bool_decide (cp_row_policy policy = SKIP)) then output
  else if within_tolerance policy skipped planned then output
  else {| ao_status := MISSING_DATA; ao_value := None; ao_count_total := ao_count_total output;
          ao_count_applicable := ao_count_applicable output;
          ao_count_present := ao_count_present output |}.

Fixpoint observe (observed : list (pystr * TaskRows)) (task_rows : list TaskRows) :
    result (list (pystr * TaskRows)) :=
  match task_rows with
  | [] => Ok observed
  | task :: task_rows =>
      require (negb (bool_decide (tr_task_hash task ∈ observed.*1))) ValueError
        "duplicate observed task identity" ;;
      observe (dict_set observed (tr_task_hash task) task) task_rows
  end.

(** What a task contributes to the outer reduction. *)
Definition task_input (output : AggregationOutput) : AggregationInput :=
  match ao_status output with
  | OK => {| ai_value := ao_value output; ai_applicable := true |}
  | NOT_APPLICABLE => {| ai_value := None; ai_applicable := false |}
  | _ => {| ai_value := None; ai_applicable := true |}
  end.

Fixpoint reduce_tasks (config : AggregationConfig) (num_seeds : Z) (all_rows : list RowValue)
    (per_task_inputs : list AggregationInput) (tasks : list TaskRows) :
    result (list RowValue * list AggregationInput) :=
  match tasks with
  | [] => Ok (all_rows, per_task_inputs)
  | task :: tasks =>
      completed ← completed_rows task num_seeds;
      task_output ← aggregate config (to_aggregation_input <$> completed);
      reduce_tasks config num_seeds (all_rows ++ completed)
        (per_task_inputs ++ [task_input task_output]) tasks
  end.

Definition unweighted_task_mean `{!FloatText} (aggregate_name graph_hash : pystr)
    (task_rows : list TaskRows) (plan : EvalMatrixPlan) : result Aggregate :=
  require (nonblank aggregate_name) ValueError "aggregate_name must be nonblank" ;;
  policy ← policy plan;
  let num_seeds := sp_num_seeds (emp_seed_plan plan) in
  let planned_task_hashes := sp_task_hashes (emp_seed_plan plan) in
  observed ← observe [] task_rows;
  require (forallb (λ h, bool_decide (h ∈ planned_task_hashes)) observed.*1) ValueError
    "observed unplanned task identities" ;;
  let reconciled :=
    (λ task_hash, default {| tr_task_hash := task_hash; tr_rows := [] |}
                    (dict_get observed task_hash)) <$> planned_task_hashes in
  '(all_rows, per_task_inputs) ←
    reduce_tasks (emp_aggregation_config plan) num_seeds [] [] reconciled;
  output ← aggregate (emp_aggregation_config plan) per_task_inputs;
  let '(present, missing, failed, invalid) := row_counts all_rows in
  let output := enforce_skip_tolerance output policy (missing + failed + invalid)
                  (len all_rows) in
  Aggregate_validate
    {| agg_name := aggregate_name; agg_graph_hash := graph_hash;
       agg_eval_config_hash := ec_config_hash (emp_eval_config plan);
       agg_task_count := len planned_task_hashes; agg_num_seeds := num_seeds;
       agg_output := output; agg_rows_present := present; agg_rows_missing := missing;
       agg_rows_failed := failed; agg_rows_invalid := invalid |}.

(** ** Lemmas on the pieces *)

Lemma py_eq_PStr v s : py_eq v (PStr s) = true ↔ v = PStr s.
Proof.
  destruct v; simpl; unfold scalar_eq; simpl; try by split.
  rewrite bool_decide_eq_true. naive_solver.
Qed.

Lemma assigned_true assignment k fallback s :
  PStr s ≠ fallback → assigned assignment k fallback s = true →
  dict_get assignment k = Some (PStr s).
Proof.
  intros Hne. unfold assigned. rewrite py_eq_PStr. destruct (dict_get assignment k); simpl; congruence.
Qed.

(** What an aggregation config with a policy says. *)
Record mean_config (config : AggregationConfig) (row_policy : RowPolicy) : Prop := {
  mc_reduction : dict_get (AggregationConfig_assignment_dict config) $"reduction" =
    Some (PStr $"mean");
  mc_zero : dict_get (AggregationConfig_assignment_dict config) $"zero_denominator" =
    Some (PStr $"not_applicable");
  mc_missing : dict_get (AggregationConfig_assignment_dict config) $"missing_data" =
    Some (PStr (match row_policy with PROPAGATE => $"propagate" | SKIP => $"skip" end));
}.

Lemma value_error_Ok {A} (r : result A) msg a : value_error r msg = Ok a ↔ r = Ok a.
Proof. unfold value_error, raise. destruct r; [done|]. case_match; naive_solver. Qed.

Lemma policy_mean_config `{DText : !FloatText} config p :
  policy_from_aggregation_config config = Ok p → mean_config config (cp_row_policy p).
Proof.
  unfold policy_from_aggregation_config. intros H.
  apply bind_Ok in H as (u1 & Hred & H1). apply bind_Ok in H1 as (u2 & Hzero & H).
  apply require_Ok in Hred, Hzero.
  apply bind_Ok in H as (rp & Hrp & H).
  assert (cp_row_policy p = rp) as ->.
  { destruct (dict_get _ SKIP_TOLERANCE_VARIABLE) as [[| | | |token| | | |]|]; try done.
    apply bind_Ok in H as (p' & Hp' & H). apply bind_Ok in H as (? & _ & H). injection H as ->.
    apply value_error_Ok in Hp'. apply bind_Ok in Hp' as (f & _ & Hp').
    unfold CompletenessPolicy_validate in Hp'. inv_ok. done. }
  split; [by apply (assigned_true _ _ PNone)|by apply (assigned_true _ _ PNone)|].
  apply value_error_Ok in Hrp.
  destruct (dict_get _ $"missing_data") as [v|]; simpl in Hrp; [|done].
  destruct (py_eq v (PStr $"propagate")) eqn:E1.
  { apply py_eq_PStr in E1 as ->. simpl in Hrp. by injection Hrp as <-. }
  destruct (py_eq v (PStr $"skip")) eqn:E2; simpl in Hrp; [|done].
  apply py_eq_PStr in E2 as ->. by injection Hrp as <-.
Qed.

(** The result of a mean with those settings, which is never an error. *)
Definition mean_output (row_policy : RowPolicy) (inputs : list AggregationInput) :
    AggregationOutput :=
  let applicable := applicable_inputs inputs in
  let present := present_values applicable in
  let output status value :=
    {| ao_status := status; ao_value := value; ao_count_total := len inputs;
       ao_count_applicable := len applicable; ao_count_present := len present |} in
  match applicable, row_policy, present with
  | [], _, _ => output NOT_APPLICABLE None
  | _, PROPAGATE, _ =>
      if decide (length present = length applicable)
      then output OK (Some (fdiv (float_sum present) (float_of_Z (len present))))
      else output MISSING_DATA None
  | _, SKIP, [] => output ZERO_DENOMINATOR None
  | _, SKIP, _ => output OK (Some (fdiv (float_sum present) (float_of_Z (len present))))
  end.

Lemma length_present inputs : (length (present_values inputs) <= length inputs)%nat.
Proof.
  unfold present_values. induction inputs as [|i inputs IH]; csimpl; [done|].
  destruct (ai_value i); simpl; lia.
Qed.

Lemma aggregate_mean config rp inputs :
  mean_config config rp → aggregate config inputs = Ok (mean_output rp inputs).
Proof.
  intros [Hred Hzero Hmiss]. unfold aggregate, assigned, mean_output.
  rewrite Hred, Hzero, Hmiss. rewrite !bind_Ok_l || simpl.
  pose proof (length_present (applicable_inputs inputs)) as Hlen.
  destruct (applicable_inputs inputs) as [|i l]; [done|].
  set (present := present_values (i :: l)) in *.
  rewrite bool_decide_false by done.
  destruct rp; simpl default.
  - destruct (decide _) as [Heq|Hne].
    + rewrite Heq, Nat.ltb_irrefl. rewrite bool_decide_false by done. reflexivity.
    + assert ((length present <? length (i :: l))%nat = true) as -> by (apply Nat.ltb_lt; lia).
      reflexivity.
  - rewrite andb_false_r by done. destruct present; reflexivity.
Qed.

(** The observed tasks by hash. *)
Definition by_hash (task_rows : list TaskRows) : list (pystr * TaskRows) :=
  (λ t, (tr_task_hash t, t)) <$> task_rows.

Lemma by_hash_keys task_rows : (by_hash task_rows).*1 = tr_task_hash <$> task_rows.
Proof. unfold by_hash. by rewrite <-list_fmap_compose. Qed.

Lemma observe_spec observed task_rows :
  NoDup observed.*1 →
  observe observed task_rows =
    if decide (NoDup (observed.*1 ++ (tr_task_hash <$> task_rows)))
    then Ok (observed ++ by_hash task_rows)
    else raise ValueError "duplicate observed task identity".
Proof.
  revert observed. induction task_rows as [|t rows IH]; intros observed Hnd; csimpl.
  { rewrite decide_True by by rewrite app_nil_r. by rewrite app_nil_r. }
  destruct (decide (tr_task_hash t ∈ observed.*1)) as [Hin|Hnin].
  - rewrite bool_decide_true by done. simpl. rewrite decide_False; [done|].
    intros (_ & Hdis & _)%NoDup_app. apply (Hdis _ Hin). by constructor.
  - rewrite require_not by done. simpl. rewrite dict_set_fresh by done.
    assert ((observed ++ [(tr_task_hash t, t)]).*1 ++ (tr_task_hash <$> rows) =
            observed.*1 ++ tr_task_hash t :: (tr_task_hash <$> rows)) as Heq
      by by rewrite fmap_app, <-app_assoc.
    rewrite IH.
    + rewrite Heq. destruct (decide _); [|done]. by rewrite <-app_assoc.
    + rewrite fmap_app. apply NoDup_app. split_and!; [done| |by apply NoDup_singleton].
      by intros x Hx ->%list_elem_of_singleton.
Qed.

Lemma dict_get_permutation {K V} `{EqDecision K} (l k : list (K * V)) x :
  l ≡ₚ k → NoDup l.*1 → dict_get l x = dict_get k x.
Proof.
  intros Hp Hl. assert (NoDup k.*1) as Hk by by rewrite <-Hp.
  apply option_eq. intros v. rewrite !dict_get_elem by done. by rewrite Hp.
Qed.

Lemma forallb_permutation {A} (f : A → bool) (l k : list A) : l ≡ₚ k → forallb f l = forallb f k.
Proof. intros Hp. apply eq_true_iff_eq. rewrite !forallb_Forall. by rewrite Hp. Qed.

(** The unweighted task mean does not depend on the order in which tasks
    were observed: permuting the observed tasks gives the same aggregate, or
    the same error. *)
Theorem unweighted_task_mean_order `{DText : !FloatText} name graph_hash rows1 rows2 plan :
  rows1 ≡ₚ rows2 →
  unweighted_task_mean name graph_hash rows1 plan = unweighted_task_mean name graph_hash rows2 plan.
Proof.
  intros Hp. unfold unweighted_task_mean.
  rewrite !observe_spec by constructor. simpl.
  destruct (require (nonblank name) _ _); simpl; [|done].
  destruct (policy plan) as [p|]; simpl; [|done].
  destruct (decide (NoDup (tr_task_hash <$> rows1))) as [Hnd|Hnd].
  - rewrite decide_True by by rewrite <-Hp. simpl.
    assert (by_hash rows1 ≡ₚ by_hash rows2) as Hby by (unfold by_hash; by rewrite Hp).
    rewrite (forallb_permutation _ _ (by_hash rows2).*1) by by rewrite Hby.
    destruct (require _ _ _); simpl; [|done]. do 2 f_equal.
    apply list_fmap_ext. intros i h _. f_equal. apply dict_get_permutation; [done|].
    by rewrite by_hash_keys.
  - rewrite decide_False by by rewrite <-Hp. done.
Qed.

(** ** The complete matrix *)

Lemma valid_row_state r :
  RowValue_validate r = Ok r →
  ((if is_present r then 1 else 0) + (if rv_missing r then 1 else 0) +
   (if rv_failed r then 1 else 0) + (if rv_invalid r then 1 else 0) = 1)%Z.
Proof.
  unfold RowValue_validate, require_exclusive_row_state.
  by destruct (is_present r), (rv_missing r), (rv_failed r), (rv_invalid r).
Qed.

Definition count (f : RowValue → bool) (rows : list RowValue) : Z :=
  len (filter (λ r, f r = true) rows).

Lemma row_counts_count rows :
  row_counts rows = (count is_present rows, count rv_missing rows, count rv_failed rows,
                     count rv_invalid rows).
Proof. done. Qed.

Lemma count_cons f r rows : count f (r :: rows) = ((if f r then 1 else 0) + count f rows)%Z.
Proof.
  unfold count, len. rewrite filter_cons.
  destruct (f r); [rewrite decide_True by done|rewrite decide_False by done];
    cbn [length]; lia.
Qed.

Lemma count_app f rows1 rows2 : count f (rows1 ++ rows2) = (count f rows1 + count f rows2)%Z.
Proof. unfold count, len. rewrite filter_app, length_app. lia. Qed.

Lemma count_nonneg f rows : (0 <= count f rows)%Z.
Proof. unfold count, len. lia. Qed.

Lemma count_permutation f rows1 rows2 : rows1 ≡ₚ rows2 → count f rows1 = count f rows2.
Proof. unfold count, len. intros Hp. by rewrite Hp. Qed.

(** Valid rows are counted exactly once. *)
Lemma count_partition rows :
  Forall (λ r, RowValue_validate r = Ok r) rows →
  (count is_present rows + count rv_missing rows + count rv_failed rows +
   count rv_invalid rows = len rows)%Z.
Proof.
  induction 1 as [|r rows Hr _ IH]; [done|]. rewrite !count_cons.
  pose proof (valid_row_state r Hr). unfold len in *. cbn [length]. lia.
Qed.

(** A task padded to the planned seeds. *)
Definition padded (num_seeds : Z) (rows : list RowValue) : list RowValue :=
  rows ++ replicate (Z.to_nat (num_seeds - len rows)) missing_row.

Lemma completed_rows_Ok t n :
  (len (tr_rows t) <= n)%Z → completed_rows t n = Ok (padded n (tr_rows t)).
Proof.
  intros Hlen. unfold completed_rows. assert ((n <? len (tr_rows t))%Z = false) as ->
    by (apply Z.ltb_ge; lia). done.
Qed.

Lemma len_padded n rows : (len rows <= n)%Z → len (padded n rows) = n.
Proof. unfold padded, len. rewrite length_app, length_replicate. lia. Qed.

Lemma padded_valid n rows :
  Forall (λ r, RowValue_validate r = Ok r) rows →
  Forall (λ r, RowValue_validate r = Ok r) (padded n rows).
Proof. intros Hr. apply Forall_app. split; [done|]. by apply Forall_replicate. Qed.

Lemma count_replicate f k r : f r = false → count f (replicate k r) = 0%Z.
Proof. intros Hf. induction k as [|k IH]; [done|]. simpl. by rewrite count_cons, Hf, IH. Qed.

Lemma count_padded f n rows : f missing_row = false → count f (padded n rows) = count f rows.
Proof. intros Hf. unfold padded. rewrite count_app, count_replicate by done. lia. Qed.

(** The loop over the planned tasks. *)
Definition task_output (rp : RowPolicy) (n : Z) (t : TaskRows) : AggregationOutput :=
  mean_output rp (to_aggregation_input <$> padded n (tr_rows t)).

Lemma reduce_tasks_Ok config rp n rows inputs tasks :
  mean_config config rp → Forall (λ t, len (tr_rows t) <= n)%Z tasks →
  reduce_tasks config n rows inputs tasks =
    Ok (rows ++ (tasks ≫= λ t, padded n (tr_rows t)),
        inputs ++ ((λ t, task_input (task_output rp n t)) <$> tasks)).
Proof.
  intros Hc Hlen. revert rows inputs. induction Hlen as [|t tasks Ht _ IH]; intros rows inputs; simpl.
  { by rewrite !app_nil_r. }
  rewrite completed_rows_Ok by done. simpl. rewrite (aggregate_mean _ rp) by done. simpl.
  rewrite IH. by rewrite <-!app_assoc.
Qed.

Lemma length_present_lt inputs i :
  i ∈ inputs → ai_value i = None → (length (present_values inputs) < length inputs)%nat.
Proof.
  intros Hin Hi. apply list_elem_of_split in Hin as (l1 & l2 & ->).
  unfold present_values. rewrite omap_app. csimpl. rewrite Hi, !length_app. simpl.
  pose proof (length_present l1). pose proof (length_present l2). unfold present_values in *. lia.
Qed.

(** Under the propagating policy one applicable gap makes the mean missing. *)
Lemma mean_propagates_gap inputs i :
  i ∈ inputs → ai_applicable i = true → ai_value i = None →
  ao_status (mean_output PROPAGATE inputs) = MISSING_DATA ∧
  ao_value (mean_output PROPAGATE inputs) = None.
Proof.
  intros Hin Happ Hi. unfold mean_output.
  assert (i ∈ applicable_inputs inputs) as Hin' by (by apply list_elem_of_filter).
  pose proof (length_present_lt _ i Hin' Hi) as Hlt.
  destruct (applicable_inputs inputs) as [|j l]; [by apply elem_of_nil in Hin'|].
  rewrite decide_False by lia. done.
Qed.

(** Under the skipping policy it is the mean of the values there are. *)
Lemma mean_skips inputs :
  let values := present_values (applicable_inputs inputs) in
  ao_value (mean_output SKIP inputs) =
    (if bool_decide (values = []) then None
     else Some (fdiv (float_sum values) (float_of_Z (len values)))) ∧
  (values ≠ [] → ao_status (mean_output SKIP inputs) = OK) ∧
  (values = [] → ao_status (mean_output SKIP inputs) ≠ OK).
Proof.
  unfold mean_output. cbv zeta. destruct (applicable_inputs inputs) as [|i l] eqn:E; [done|].
  destruct (present_values (i :: l)); [done|]. by rewrite bool_decide_false.
Qed.

(** Without an applicable gap the two policies agree. *)
Lemma mean_no_gap inputs :
  Forall (λ i, ai_applicable i = true → ai_value i ≠ None) inputs →
  mean_output PROPAGATE inputs = mean_output SKIP inputs.
Proof.
  intros Hgap.
  assert (length (present_values (applicable_inputs inputs)) = length (applicable_inputs inputs)) as Hlen.
  { induction Hgap as [|i inputs Hi _ IH]; [done|]. unfold applicable_inputs in *.
    rewrite filter_cons. destruct (decide _) as [Ha|]; [|done]. unfold present_values in *. csimpl.
    destruct (ai_value i); [by csimpl; f_equal|by destruct (Hi Ha)]. }
  unfold mean_output. destruct (applicable_inputs inputs) as [|i l]; [done|].
  rewrite decide_True by done. by destruct (present_values (i :: l)).
Qed.

(** Where only applicable inputs have values, the values are those of all. *)
Lemma present_applicable inputs :
  Forall (λ i, ai_applicable i = false → ai_value i = None) inputs →
  present_values (applicable_inputs inputs) = omap ai_value inputs.
Proof.
  unfold present_values, applicable_inputs. induction 1 as [|i inputs Hi _ IH]; [done|].
  rewrite filter_cons. csimpl. destruct (ai_applicable i); csimpl; rewrite IH; [done|]. by rewrite Hi.
Qed.

Lemma row_input_value r :
  ai_value (to_aggregation_input r) = rv_value r ∧
  (ai_applicable (to_aggregation_input r) = false → ai_value (to_aggregation_input r) = None).
Proof.
  unfold to_aggregation_input, is_present. destruct (rv_value r); [done|].
  by destruct (rv_invalid r).
Qed.

Lemma row_values rows :
  present_values (applicable_inputs (to_aggregation_input <$> rows)) = omap rv_value rows.
Proof.
  rewrite present_applicable by (apply Forall_fmap, Forall_true; intros r; exact (proj2 (row_input_value r))).
  induction rows as [|r rows IH]; csimpl; [done|]. by rewrite (proj1 (row_input_value r)), IH.
Qed.

Lemma row_gap_input r :
  RowValue_validate r = Ok r → rv_missing r = true ∨ rv_failed r = true →
  ai_applicable (to_aggregation_input r) = true ∧ ai_value (to_aggregation_input r) = None.
Proof.
  intros Hv%valid_row_state Hor. unfold to_aggregation_input, is_present in *.
  destruct (rv_value r), (rv_missing r), (rv_failed r), (rv_invalid r); naive_solver.
Qed.

Lemma count_pos f rows : (0 < count f rows)%Z → ∃ r, r ∈ rows ∧ f r = true.
Proof.
  unfold count, len. destruct (filter _ rows) as [|r l] eqn:E; simpl; [lia|]. intros _.
  assert (r ∈ filter (λ r, f r = true) rows) as [? ?]%list_elem_of_filter
    by (rewrite E; by constructor). eauto.
Qed.

Lemma count_zero f rows : count f rows = 0%Z → ∀ r, r ∈ rows → f r = false.
Proof.
  unfold count, len. intros Hc r Hr. destruct (f r) eqn:E; [|done].
  assert (r ∈ filter (λ r, f r = true) rows) as Hin by by apply list_elem_of_filter.
  destruct (filter _ rows); [by apply elem_of_nil in Hin|simpl in Hc; lia].
Qed.

Section Reconcile.
Context (planned : list pystr) (task_rows : list TaskRows).
Hypothesis Hplanned : NoDup planned.
Hypothesis Hhashes : NoDup (tr_task_hash <$> task_rows).
Hypothesis Hsub : ∀ t, t ∈ task_rows → tr_task_hash t ∈ planned.

Definition reconcile (h : pystr) : TaskRows :=
  default {| tr_task_hash := h; tr_rows := [] |} (dict_get (by_hash task_rows) h).

Lemma reconcile_observed t : t ∈ task_rows → reconcile (tr_task_hash t) = t.
Proof.
  intros Ht. unfold reconcile.
  rewrite (dict_get_NoDup _ (tr_task_hash t) t); [done|by rewrite by_hash_keys|].
  by apply (list_elem_of_fmap_2 (λ t, (tr_task_hash t, t))).
Qed.

Lemma reconcile_unobserved h : h ∉ tr_task_hash <$> task_rows → tr_rows (reconcile h) = [].
Proof.
  intros Hh. unfold reconcile. rewrite <-by_hash_keys in Hh. apply dict_get_None in Hh.
  by rewrite Hh.
Qed.

Lemma reconcile_elem h : tr_rows (reconcile h) = [] ∨ reconcile h ∈ task_rows.
Proof.
  destruct (decide (h ∈ tr_task_hash <$> task_rows)) as [Hin|Hnin].
  - right. apply list_elem_of_fmap in Hin as (t & -> & Ht). by rewrite reconcile_observed.
  - left. by apply reconcile_unobserved.
Qed.

(** Every observed row is planned, once. *)
Lemma reconcile_rows : (planned ≫= λ h, tr_rows (reconcile h)) ≡ₚ (task_rows ≫= tr_rows).
Proof.
  assert (tr_task_hash <$> task_rows ⊆+ planned) as [rest Hrest]%submseteq_Permutation.
  { apply NoDup_submseteq; [done|]. intros h (t & -> & Ht)%list_elem_of_fmap. by apply Hsub. }
  assert (NoDup ((tr_task_hash <$> task_rows) ++ rest)) as Hnd by by rewrite <-Hrest.
  apply NoDup_app in Hnd as (_ & Hdis & _).
  rewrite Hrest, bind_app.
  assert ((rest ≫= λ h, tr_rows (reconcile h)) = []) as ->.
  { clear Hrest. induction rest as [|h rest IH]; csimpl; [done|].
    rewrite reconcile_unobserved by (intros Hh; apply (Hdis _ Hh); by constructor). simpl.
    apply IH. intros h' Hh' ?. apply (Hdis _ Hh'). by constructor. }
  rewrite app_nil_r. apply reflexive_eq.
  assert (∀ l, (∀ t, t ∈ l → t ∈ task_rows) →
    ((tr_task_hash <$> l) ≫= λ h, tr_rows (reconcile h)) = l ≫= tr_rows) as Hgo; [|by apply Hgo].
  induction l as [|t l IH]; csimpl; intros Hl; [done|].
  rewrite reconcile_observed by (apply Hl; by constructor). f_equal. apply IH.
  intros t' ?. apply Hl. by constructor.
Qed.

Lemma count_padded_matrix f n :
  f missing_row = false →
  count f (planned ≫= λ h, padded n (tr_rows (reconcile h))) = count f (task_rows ≫= tr_rows).
Proof.
  intros Hf. rewrite <-(count_permutation f _ _ reconcile_rows). clear Hplanned Hsub.
  induction planned as [|h l IH]; csimpl; [done|].
  by rewrite !count_app, count_padded, IH.
Qed.
End Reconcile.

(** The mean over the seeds of the values of one task. *)
Definition seed_mean (t : TaskRows) : float :=
  let values := omap rv_value (tr_rows t) in
  fdiv (float_sum values) (float_of_Z (len values)).

Lemma task_output_gap n t r :
  Forall (λ r, RowValue_validate r = Ok r) (tr_rows t) →
  r ∈ padded n (tr_rows t) → rv_missing r = true ∨ rv_failed r = true →
  task_input (task_output PROPAGATE n t) = {| ai_value := None; ai_applicable := true |}.
Proof.
  intros Hrows Hr Hor.
  assert (RowValue_validate r = Ok r) as Hvr.
  { pose proof (padded_valid n _ Hrows) as Hall. rewrite Forall_forall in Hall. by apply Hall. }
  destruct (row_gap_input r) as [Happ Hval]; [done..|].
  destruct (mean_propagates_gap (to_aggregation_input <$> padded n (tr_rows t))
    (to_aggregation_input r)) as [Hs _]; [by apply list_elem_of_fmap_2|done..|].
  unfold task_input, task_output. by rewrite Hs.
Qed.

Lemma len_matrix {A} n (l : list A) (f : A → list RowValue) :
  (∀ x, x ∈ l → len (f x) = n) → len (l ≫= f) = (len l * n)%Z.
Proof.
  unfold len. induction l as [|x l IH]; csimpl; intros Hl; [done|].
  rewrite length_app, Nat2Z.inj_add, (Hl x) by constructor.
  rewrite IH by (intros y ?; apply Hl; by constructor). lia.
Qed.

(** A count that reaches the length holds of every row. *)
Lemma count_le f rows : (count f rows <= len rows)%Z.
Proof.
  induction rows as [|r rows IH]; [done|]. rewrite count_cons. unfold len in *.
  cbn [length]. destruct (f r); lia.
Qed.

Lemma count_full f rows : count f rows = len rows → Forall (λ r, f r = true) rows.
Proof.
  induction rows as [|r rows IH]; intros Hc; [constructor|].
  rewrite count_cons in Hc. pose proof (count_le f rows) as Hle. unfold len in *.
  cbn [length] in Hc. destruct (f r) eqn:E; [|lia]. constructor; [done|]. apply IH. lia.
Qed.

Lemma Aggregate_validate_Ok agg :
  is_ok (require_full_hash (PStr (agg_graph_hash agg))) = true →
  is_ok (require_full_hash (PStr (agg_eval_config_hash agg))) = true →
  (0 <= agg_task_count agg)%Z → (1 <= agg_num_seeds agg)%Z →
  Forall (λ c, 0 <= c)%Z [agg_rows_present agg; agg_rows_missing agg; agg_rows_failed agg;
                         agg_rows_invalid agg] →
  (agg_rows_present agg + agg_rows_missing agg + agg_rows_failed agg + agg_rows_invalid agg =
   agg_task_count agg * agg_num_seeds agg)%Z →
  Aggregate_validate agg = Ok agg.
Proof.
  intros (h1 & Hh1)%is_ok_Ok (h2 & Hh2)%is_ok_Ok Ht Hn Hc Hsum. unfold Aggregate_validate.
  rewrite Hh1, Hh2, !bind_Ok_l.
  rewrite (proj2 (Z.ltb_ge _ _) Ht), (proj2 (Z.ltb_ge _ _) Hn). simpl negb.
  rewrite !require_true, !bind_Ok_l.
  rewrite (proj2 (forallb_Forall _ _)); [|eapply Forall_impl; [exact Hc|]; intros c Hc0].
  - rewrite require_true, bind_Ok_l, (proj2 (Z.eqb_eq _ _) Hsum). done.
  - simpl. by rewrite (proj2 (Z.ltb_ge _ _) Hc0).
Qed.

Lemma bind_fmap {A B C} (f : A → B) (g : B → list C) (l : list A) :
  (f <$> l) ≫= g = l ≫= λ x, g (f x).
Proof. induction l as [|x l IH]; csimpl; [done|]. by rewrite IH. Qed.

Section MatrixMean.
Context (planned : list pystr) (task_rows : list TaskRows) (n : Z).
Hypothesis Hnd : NoDup (tr_task_hash <$> task_rows).
Hypothesis Hn : (1 <= n)%Z.
Hypothesis Hplanned : planned ≠ [].
Hypothesis Hrows : ∀ t, t ∈ task_rows →
  (len (tr_rows t) <= n)%Z ∧ Forall (λ r, RowValue_validate r = Ok r) (tr_rows t).

Lemma reconcile_valid h :
  (len (tr_rows (reconcile task_rows h)) <= n)%Z ∧
  Forall (λ r, RowValue_validate r = Ok r) (tr_rows (reconcile task_rows h)).
Proof.
  destruct (reconcile_elem task_rows Hnd h) as [->|Hin]; [|by apply Hrows].
  split; [unfold len; simpl; lia|constructor].
Qed.

Definition matrix : list RowValue := planned ≫= λ h, padded n (tr_rows (reconcile task_rows h)).
Definition matrix_inputs (rp : RowPolicy) : list AggregationInput :=
  (λ h, task_input (task_output rp n (reconcile task_rows h))) <$> planned.

Lemma matrix_valid : Forall (λ r, RowValue_validate r = Ok r) matrix.
Proof.
  apply Forall_bind, Forall_forall. intros h _. apply padded_valid, reconcile_valid.
Qed.

Lemma len_matrix_planned : len matrix = (len planned * n)%Z.
Proof. apply len_matrix. intros h _. apply len_padded, reconcile_valid. Qed.

Lemma matrix_gap :
  (0 < count rv_missing matrix + count rv_failed matrix)%Z →
  ao_status (mean_output PROPAGATE (matrix_inputs PROPAGATE)) = MISSING_DATA ∧
  ao_value (mean_output PROPAGATE (matrix_inputs PROPAGATE)) = None.
Proof.
  intros Hpos.
  assert (∃ r, r ∈ matrix ∧ (rv_missing r = true ∨ rv_failed r = true)) as (r & Hr & Hor).
  { pose proof (count_nonneg rv_missing matrix). pose proof (count_nonneg rv_failed matrix).
    destruct (decide (0 < count rv_missing matrix)%Z) as [Hm|Hm].
    - destruct (count_pos _ _ Hm) as (r & ? & ?). eauto.
    - destruct (count_pos rv_failed matrix) as (r & ? & ?); [lia|]. eauto. }
  apply list_elem_of_bind in Hr as (h & Hr & Hh).
  apply (mean_propagates_gap _ {| ai_value := None; ai_applicable := true |}); [|done..].
  rewrite <-(task_output_gap n (reconcile task_rows h) r); [|apply reconcile_valid|done..].
  by apply (list_elem_of_fmap_2 (λ h, task_input (task_output PROPAGATE n (reconcile task_rows h)))).
Qed.

(** A task counts when one of its rows has a score. *)
Definition has_score (h : pystr) : bool := existsb is_present (tr_rows (reconcile task_rows h)).
Definition scored_tasks : list pystr := filter (λ h, has_score h = true) planned.
Definition task_means : list float := (λ h, seed_mean (reconcile task_rows h)) <$> scored_tasks.

Lemma values_nil rows : existsb is_present rows = false ↔ omap rv_value rows = [].
Proof.
  induction rows as [|r rows IH]; csimpl; [done|]. unfold is_present at 1.
  by destruct (rv_value r); csimpl.
Qed.

Lemma padded_values rows : omap rv_value (padded n rows) = omap rv_value rows.
Proof.
  unfold padded. rewrite omap_app. induction (Z.to_nat _) as [|k IH]; csimpl; [by rewrite app_nil_r|done].
Qed.

(** What a task hands to the outer mean. *)
Lemma skip_task_input t :
  let i := task_input (task_output SKIP n t) in
  ai_value i = (if existsb is_present (tr_rows t) then Some (seed_mean t) else None) ∧
  (ai_applicable i = false → ai_value i = None).
Proof.
  cbv zeta. unfold task_output. set (inputs := to_aggregation_input <$> padded n (tr_rows t)).
  destruct (mean_skips inputs) as (Hv & Hok & Hno). unfold inputs in *.
  rewrite row_values, padded_values in Hv, Hok, Hno. unfold task_input.
  destruct (existsb is_present (tr_rows t)) eqn:E.
  - assert (omap rv_value (tr_rows t) ≠ []) as Hne by (rewrite <-values_nil; congruence).
    rewrite (Hok Hne). simpl. rewrite Hv. by rewrite bool_decide_false.
  - apply values_nil in E. specialize (Hno E). by destruct (ao_status _).
Qed.

Lemma matrix_values :
  present_values (applicable_inputs (matrix_inputs SKIP)) = task_means.
Proof.
  rewrite present_applicable by (apply Forall_fmap, Forall_true; intros h; exact (proj2 (skip_task_input _))).
  unfold matrix_inputs, task_means, scored_tasks, has_score. clear Hplanned.
  induction planned as [|h l IH]; [done|]. csimpl. rewrite filter_cons.
  rewrite (proj1 (skip_task_input _)), IH.
  destruct (existsb _ _); [by rewrite decide_True|by rewrite decide_False].
Qed.

(** Without a missing or failed row the propagating policy has nothing to
    propagate. *)
Lemma matrix_no_gap :
  (count rv_missing matrix + count rv_failed matrix = 0)%Z →
  mean_output PROPAGATE (matrix_inputs PROPAGATE) = mean_output SKIP (matrix_inputs SKIP).
Proof.
  intros Hzero.
  assert (∀ h, h ∈ planned → Forall (λ i, ai_applicable i = true → ai_value i ≠ None)
    (to_aggregation_input <$> padded n (tr_rows (reconcile task_rows h)))) as Hgap.
  { intros h Hh. apply Forall_fmap, Forall_forall. intros r Hr Happ Hnone.
    assert (r ∈ matrix) as Hm by (apply list_elem_of_bind; eauto).
    pose proof (proj1 (Forall_forall _ _) matrix_valid r Hm) as Hv%valid_row_state.
    pose proof (count_nonneg rv_missing matrix). pose proof (count_nonneg rv_failed matrix).
    pose proof (count_zero rv_missing matrix ltac:(lia) r Hm) as H1.
    pose proof (count_zero rv_failed matrix ltac:(lia) r Hm) as H2.
    unfold to_aggregation_input in *. rewrite H1, H2 in Hv.
    destruct (is_present r) eqn:E; [unfold is_present in E; simpl in Hnone; by rewrite Hnone in E|].
    destruct (rv_invalid r); [done|]. by simpl in Hv. }
  assert (matrix_inputs PROPAGATE = matrix_inputs SKIP) as ->.
  { apply list_fmap_ext. intros i h Hi%list_elem_of_lookup_2. unfold task_output.
    by rewrite mean_no_gap by by apply Hgap. }
  apply mean_no_gap. apply Forall_fmap, Forall_forall. intros h Hh. cbv beta.
  unfold compose. rewrite (proj1 (skip_task_input _)).
  destruct (existsb is_present _) eqn:E; [done|]. intros Happ _.
  apply values_nil in E. unfold task_output in Happ. specialize (Hgap h Hh).
  destruct (mean_skips (to_aggregation_input <$> padded n (tr_rows (reconcile task_rows h))))
    as (_ & _ & Hno). rewrite row_values, padded_values in Hno.
  assert (applicable_inputs (to_aggregation_input <$> padded n (tr_rows (reconcile task_rows h))) = [])
    as Hnil; [|unfold mean_output in Happ; by rewrite Hnil in Happ].
  rewrite <-padded_values, <-row_values in E. unfold applicable_inputs in *. clear -Hgap E.
  induction Hgap as [|i l Hi _ IH]; [done|]. rewrite filter_cons in *.
  destruct (decide _) as [Ha|]; [|by apply IH]. unfold present_values in E. csimpl in E.
  destruct (ai_value i); [done|by destruct (Hi Ha)].
Qed.

(** In a fully scored matrix every task counts. *)
Lemma matrix_complete :
  count is_present matrix = (len planned * n)%Z → scored_tasks = planned.
Proof.
  intros Hfull. rewrite <-len_matrix_planned in Hfull. apply count_full in Hfull.
  unfold matrix in Hfull. rewrite Forall_bind in Hfull.
  unfold scored_tasks, has_score. clear Hplanned. induction Hfull as [|h l Hh _ IH]; [done|].
  rewrite filter_cons, decide_True, IH; [done|].
  unfold padded in Hh. apply Forall_app in Hh as [Hall Hpad].
  destruct (tr_rows (reconcile task_rows h)) as [|r rows]; simpl.
  - change (len []) with 0%Z in Hpad. replace (Z.to_nat (n - 0)) with (S (Z.to_nat (n - 1))) in Hpad by lia.
    simpl in Hpad. by inversion_clear Hpad.
  - inversion_clear Hall. by rewrite H.
Qed.
End MatrixMean.

(** Whether the policy lets a value be reported over the gaps of the matrix:
    the propagating one when no row is missing or failed, the skipping one when
    the rows without a score stay within the tolerated fraction. *)
Definition gaps_allowed (p : CompletenessPolicy) (agg : Aggregate) (planned_rows : Z) : bool :=
  match cp_row_policy p with
  | PROPAGATE => (agg_rows_missing agg + agg_rows_failed agg =? 0)%Z
  | SKIP => within_tolerance p (agg_rows_missing agg + agg_rows_failed agg + agg_rows_invalid agg)
              planned_rows
  end.

(** What the outer mean, cut off by the tolerance, reports. *)
Section Reported.
Context (planned : list pystr) (task_rows : list TaskRows) (n : Z) (p : CompletenessPolicy).
Hypothesis Hnd : NoDup (tr_task_hash <$> task_rows).
Hypothesis Hn : (1 <= n)%Z.
Hypothesis Hrows : ∀ t, t ∈ task_rows →
  (len (tr_rows t) <= n)%Z ∧ Forall (λ r, RowValue_validate r = Ok r) (tr_rows t).

Let m := matrix planned task_rows n.
Let means := task_means planned task_rows.

Lemma skip_reports :
  let output := mean_output SKIP (matrix_inputs planned task_rows n SKIP) in
  ao_value output = (if bool_decide (means = []) then None
                     else Some (fdiv (float_sum means) (float_of_Z (len means)))) ∧
  (ao_status output = OK ↔ ao_value output ≠ None).
Proof.
  cbv zeta. pose proof (mean_skips (matrix_inputs planned task_rows n SKIP)) as (Hv & Hok & Hno).
  rewrite (matrix_values planned task_rows n) in *. fold means in Hv, Hok, Hno. rewrite Hv.
  split; [done|]. case_bool_decide as Hm; [by specialize (Hno Hm)|by specialize (Hok Hm)].
Qed.

Lemma reported_value :
  let missing := count rv_missing m in let failed := count rv_failed m in
  let skipped := (missing + failed + count rv_invalid m)%Z in
  let allowed := match cp_row_policy p with
                 | PROPAGATE => (missing + failed =? 0)%Z
                 | SKIP => within_tolerance p skipped (len planned * n) end in
  let output := enforce_skip_tolerance
    (mean_output (cp_row_policy p) (matrix_inputs planned task_rows n (cp_row_policy p)))
    p skipped (len planned * n) in
  ao_value output = (if allowed && negb (bool_decide (means = []))
                     then Some (fdiv (float_sum means) (float_of_Z (len means))) else None) ∧
  (ao_status output = OK ↔ ao_value output ≠ None) ∧
  (allowed = false → ao_status output = MISSING_DATA).
Proof.
  cbv zeta. destruct skip_reports as [Hv Hs]. unfold enforce_skip_tolerance.
  destruct (cp_row_policy p).
  - rewrite bool_decide_false by done. cbn [negb].
    pose proof (count_nonneg rv_missing m). pose proof (count_nonneg rv_failed m).
    destruct (Z.eqb_spec (count rv_missing m + count rv_failed m) 0) as [Hz|Hz].
    + rewrite (matrix_no_gap planned task_rows n) by done. rewrite Hs, Hv.
      by destruct (bool_decide (means = [])).
    + destruct (matrix_gap planned task_rows n) as [-> ->]; [done..|fold m; lia|done].
  - rewrite bool_decide_true by done. cbn [negb].
    destruct (within_tolerance _ _ _); [|done]. rewrite Hs, Hv.
    by destruct (bool_decide (means = [])).
Qed.
End Reported.

(** C20. The unweighted task mean accounts for the complete planned matrix. For
    a plan with a valid seed plan and a completeness policy, and valid observed
    rows of distinct planned tasks, no task with more rows than seeds, it
    returns an aggregate whose counts of scored, failed and invalid rows are
    those of the observed rows and whose missing rows make up the whole matrix
    of tasks and seeds. Its value is there exactly when the policy allows the
    gaps (no missing or failed row under propagate, few enough unscored rows
    under skip) and some task has a scored row, and is then the mean over those
    tasks of the mean over their scored rows; gaps that are not allowed read as
    missing data, and in a fully scored matrix every planned task counts. *)
Theorem unweighted_task_mean_complete `{DText : !FloatText}
    name graph_hash task_rows plan p :
  let planned := sp_task_hashes (emp_seed_plan plan) in
  let n := sp_num_seeds (emp_seed_plan plan) in
  let observed := task_rows ≫= tr_rows in
  SeedPlan_validate (emp_seed_plan plan) = Ok (emp_seed_plan plan) →
  policy plan = Ok p →
  nonblank name = true → is_ok (require_full_hash (PStr graph_hash)) = true →
  is_ok (require_full_hash (PStr (ec_config_hash (emp_eval_config plan)))) = true →
  NoDup (tr_task_hash <$> task_rows) →
  (∀ t, t ∈ task_rows → tr_task_hash t ∈ planned ∧ (len (tr_rows t) <= n)%Z ∧
     Forall (λ r, RowValue_validate r = Ok r) (tr_rows t)) →
  ∃ agg, unweighted_task_mean name graph_hash task_rows plan = Ok agg ∧
    agg_rows_present agg = count is_present observed ∧
    agg_rows_failed agg = count rv_failed observed ∧
    agg_rows_invalid agg = count rv_invalid observed ∧
    (agg_rows_present agg + agg_rows_missing agg + agg_rows_failed agg + agg_rows_invalid agg =
       len planned * n)%Z ∧
    (let means := task_means planned task_rows in
     ao_value (agg_output agg) =
       (if gaps_allowed p agg (len planned * n) && negb (bool_decide (means = []))
        then Some (fdiv (float_sum means) (float_of_Z (len means))) else None)) ∧
    (ao_status (agg_output agg) = OK ↔ ao_value (agg_output agg) ≠ None) ∧
    (gaps_allowed p agg (len planned * n) = false → ao_status (agg_output agg) = MISSING_DATA) ∧
    (agg_rows_present agg = (len planned * n)%Z → scored_tasks planned task_rows = planned).
Proof.
  intros planned n observed Hseed Hpol Hname Hgraph Heval Hnd Hrows.
  assert ((1 <= n)%Z ∧ NoDup planned ∧ planned ≠ []) as (Hn & Hplanned & Hne).
  { unfold SeedPlan_validate, validate_num_seeds in Hseed. inv_ok. done. }
  pose proof (policy_mean_config _ _ Hpol) as Hmean.
  assert (∀ t, t ∈ task_rows → (len (tr_rows t) <= n)%Z ∧
    Forall (λ r, RowValue_validate r = Ok r) (tr_rows t)) as Hrows' by naive_solver.
  set (m := matrix planned task_rows n).
  assert (len m = len planned * n)%Z as Hlen by by apply len_matrix_planned.
  pose proof (count_partition m (matrix_valid planned task_rows n Hnd Hn Hrows')) as Hpart.
  assert (∀ f, f missing_row = false → count f m = count f observed) as Hcount.
  { intros f Hf. apply count_padded_matrix; [done..| |done]. naive_solver. }
  unfold unweighted_task_mean. rewrite Hname, Hpol, observe_spec by constructor.
  fold planned n. simpl. rewrite decide_True by done. simpl.
  match goal with |- context [require (forallb ?f ?l) _ _] => assert (forallb f l = true) as -> end.
  { apply forallb_Forall, Forall_forall. rewrite by_hash_keys.
    intros h (t & -> & Ht)%list_elem_of_fmap. apply bool_decide_eq_true. by apply Hrows. }
  simpl. fold (reconcile task_rows).
  rewrite (reduce_tasks_Ok _ (cp_row_policy p)); [|done|].
  2: { apply Forall_fmap, Forall_forall. intros h _. by apply reconcile_valid. }
  rewrite bind_fmap, <-list_fmap_compose, bind_Ok_l.
  change (planned ≫= λ h, padded n (tr_rows (reconcile task_rows h))) with m.
  change ((λ t, task_input (task_output (cp_row_policy p) n t)) ∘ reconcile task_rows <$> planned)
    with (matrix_inputs planned task_rows n (cp_row_policy p)).
  simpl app. rewrite (aggregate_mean _ (cp_row_policy p)), bind_Ok_l by done.
  eexists. split; [apply Aggregate_validate_Ok; simpl; fold (count is_present m)
    (count rv_missing m) (count rv_failed m) (count rv_invalid m); try done|].
  - unfold len. lia.
  - repeat constructor; apply count_nonneg.
  - lia.
  - simpl. fold (count is_present m) (count rv_missing m) (count rv_failed m) (count rv_invalid m).
    rewrite <-!Hcount, Hpart by done. split_and!; try done; try (by apply matrix_complete);
      rewrite Hlen; by apply reported_value.
Qed.

(** ** A concrete matrix *)
Section AggregateWitnesses.
(** Only the tokens of zero and of a half are needed. *)
Definition half : float := fdiv fone (float_of_Z 2).

#[local] Instance half_text : FloatText := {|
  float_of_text text :=
    if decide (text = $"0.0") then Ok fzero
    else if decide (text = $"0.5") then Ok half else raise ValueError "";
  float_repr f := if feq f half then $"0.5" else $"0.0";
|}.

Definition blank_definition : DefinitionRef :=
  {| dr_definition_id := $"d"; dr_version := $"1"; dr_schema_name := $"s";
     dr_identity_hash := replicate 64 48%Z |}.

Definition example_plan (missing_data max_skip_fraction : pystr) : EvalMatrixPlan :=
  {| emp_eval_config :=
       {| ec_definition_ref := blank_definition; ec_sampling_config_hash := [];
          ec_evaluation_procedure_config_hash := []; ec_aggregation_config_hash := [];
          ec_config_hash := replicate 64 48%Z |};
     emp_sampling_config :=
       {| sc_definition_ref := blank_definition; sc_assignment := []; sc_config_hash := [] |};
     emp_task_set :=
       {| ts_manifest_id := $"m"; ts_version := $"1"; ts_dataset_revision := $"r";
          ts_task_hashes := [$"a"; $"b"]; ts_selection_rule := None |};
     emp_seed_plan :=
       {| sp_plan_id := $"p"; sp_version := $"1"; sp_task_hashes := [$"a"; $"b"];
          sp_num_seeds := 2; sp_rng_seeds := [] |};
     emp_aggregation_config :=
       {| ac_definition_ref := blank_definition;
          ac_assignment :=
            [($"reduction", PStr $"mean"); ($"missing_data", PStr missing_data);
             ($"zero_denominator", PStr $"not_applicable");
             ($"max_skip_fraction", PStr max_skip_fraction)];
          ac_config_hash := [] |} |}.

Definition example_matrix_plan : EvalMatrixPlan := example_plan $"propagate" $"0.0".

Definition scored (n : Z) : RowValue :=
  {| rv_value := Some (float_of_Z n); rv_failed := false; rv_missing := false;
     rv_invalid := false |}.

Definition example_task_rows (last : list RowValue) : list TaskRows :=
  [{| tr_task_hash := $"b"; tr_rows := scored 4 :: last |};
   {| tr_task_hash := $"a"; tr_rows := [scored 1; scored 2] |}].

(** Task b lacks one of its two rows: under skip it still counts, under
    propagate there is no value. *)
Example gap_propagates :
  match unweighted_task_mean $"score" (replicate 64 48%Z) (example_task_rows [])
          example_matrix_plan with
  | Ok agg => bool_decide (ao_status (agg_output agg) = MISSING_DATA)
  | Err _ => false
  end = true.
Proof. vm_compute. reflexivity. Qed.

Lemma unweighted_task_mean_complete_witness :
  ∃ agg, unweighted_task_mean $"score" (replicate 64 48%Z) (example_task_rows [])
           (example_plan $"skip" $"0.5") = Ok agg ∧
    agg_rows_missing agg = 1%Z ∧
    ao_value (agg_output agg) =
      Some (fdiv (fadd (fdiv (float_of_Z 3) (float_of_Z 2)) (float_of_Z 4)) (float_of_Z 2)).
Proof.
  destruct (unweighted_task_mean_complete $"score" (replicate 64 48%Z) (example_task_rows [])
    (example_plan $"skip" $"0.5") {| cp_row_policy := SKIP; cp_max_skip_fraction := half |})
    as (agg & Hagg & Hp & Hf & Hi & Hsum & Hvalue & _);
    [vm_compute; reflexivity..| | |].
  - simpl. apply NoDup_cons. split; [|apply NoDup_singleton].
    rewrite list_elem_of_singleton. by vm_compute.
  - intros t Ht. unfold example_task_rows in Ht.
    apply elem_of_cons in Ht as [->|Ht]; [|apply list_elem_of_singleton in Ht as ->];
      (split; [simpl; rewrite ?elem_of_cons; auto|]); (split; [by vm_compute|]);
      repeat constructor.
  - exists agg. split; [exact Hagg|].
    assert (agg_rows_present agg = 3%Z) as Hp' by (rewrite Hp; vm_compute; reflexivity).
    assert (agg_rows_failed agg = 0%Z) as Hf' by (rewrite Hf; vm_compute; reflexivity).
    assert (agg_rows_invalid agg = 0%Z) as Hi' by (rewrite Hi; vm_compute; reflexivity).
    assert (agg_rows_present agg + agg_rows_missing agg + agg_rows_failed agg +
            agg_rows_invalid agg = 4)%Z as Hsum' by (rewrite Hsum; vm_compute; reflexivity).
    assert (agg_rows_missing agg = 1%Z) as Hm by lia.
    split; [exact Hm|]. cbv zeta in Hvalue. rewrite Hvalue. unfold gaps_allowed.
    cbn [cp_row_policy]. rewrite Hm, Hf', Hi'. vm_compute. reflexivity.
Defined.

Lemma unweighted_task_mean_order_witness :
  example_task_rows [] ≡ₚ reverse (example_task_rows []) ∧
  unweighted_task_mean $"score" (replicate 64 48%Z) (example_task_rows []) example_matrix_plan =
  unweighted_task_mean $"score" (replicate 64 48%Z) (reverse (example_task_rows []))
    example_matrix_plan.
Proof.
  assert (example_task_rows [] ≡ₚ reverse (example_task_rows [])) as H
    by apply Permutation_swap.
  split; [exact H|]. exact (unweighted_task_mean_order _ _ _ _ _ H).
Defined.
End AggregateWitnesses.
