(* ===== verification/JsonText.v ===== *)
(** * JsonText: what [json.dumps] writes

    The standard library's JSON encoder for the values the code gives it: the
    ASCII text of the prompts, and the UTF-8 bytes of the records kept on disk.
    [repr] of a float is the parameter [FloatText]. *)

From S2P Require Import Prelude Floats Identity Leasing EvalConfigs Plan Aggregate.
From Stdlib Require Import SpecFloat.

(** ["\\u{0:04x}"]. *)
Definition unicode_escape (n : Z) : pystr := 92%Z :: 117%Z :: hex_digits 4 n.

(** The escapes both encoders share. *)
Definition json_escape (c : Z) : option pystr :=
  (if c =? 34 then Some [92; 34] else if c =? 92 then Some [92; 92]
   else if c =? 10 then Some [92; 110] else if c =? 13 then Some [92; 114]
   else if c =? 9 then Some [92; 116] else if c =? 12 then Some [92; 102]
   else if c =? 8 then Some [92; 98] else None)%Z.

(** One character of an ASCII JSON string: a code point past the basic plane
    is a surrogate pair. *)
Definition json_ascii_char (c : Z) : pystr :=
  match json_escape c with
  | Some text => text
  | None =>
      if ((32 <=? c) && (c <=? 126))%Z then [c]
      else if (c <? 65536)%Z then unicode_escape c
      else let v := (c - 65536)%Z in
        unicode_escape (55296 + v / 1024 mod 1024)%Z ++ unicode_escape (56320 + v mod 1024)%Z
  end.

(** One character with [ensure_ascii=False]: only control characters are
    escaped. *)
Definition json_char (c : Z) : pystr :=
  match json_escape c with
  | Some text => text
  | None => if (c <? 32)%Z then unicode_escape c else [c]
  end.

Definition json_string (char : Z → pystr) (s : pystr) : pystr := 34%Z :: (s ≫= char) ++ [34%Z].

(** [",".join(items)]. *)
Fixpoint join_commas (items : list pystr) : pystr :=
  match items with
  | [] => []
  | [item] => item
  | item :: items => item ++ 44%Z :: join_commas items
  end.

Section Json.
Context `{DText : !FloatText}.

(** [float.__repr__] of a finite float; the others need [allow_nan]. *)
Definition json_float (allow_nan : bool) (f : float) : result pystr :=
  match f with
  | S754_nan =>
      require allow_nan ValueError "Out of range float values are not JSON compliant" ;; Ok $"NaN"
  | S754_infinity s =>
      require allow_nan ValueError "Out of range float values are not JSON compliant" ;;
      Ok (if s then $"-Infinity" else $"Infinity")
  | _ => Ok (float_repr f)
  end.

(** [json.dumps(value, sort_keys=True, separators=(",", ":"))], strings
    written by [char]. *)
Fixpoint json_dumps_with (char : Z → pystr) (allow_nan : bool) (value : pyval) : result pystr :=
  match value with
  | PNone => Ok $"null"
  | PBool b => Ok (if b then $"true" else $"false")
  | PInt n => Ok (int_text n)
  | PFloat f => json_float allow_nan f
  | PStr s => Ok (json_string char s)
  | PList l | PTuple l =>
      items ← mapM (json_dumps_with char allow_nan) l; Ok (91%Z :: join_commas items ++ [93%Z])
  | PDict kvs =>
      items ← mapM (λ kv, text ← json_dumps_with char allow_nan kv.2; Ok (kv.1, text)) kvs;
      let sorted := py_sorted (λ a b, str_leb a.1 b.1) items in
      Ok (123%Z :: join_commas ((λ kv, json_string char kv.1 ++ 58%Z :: kv.2) <$> sorted) ++ [125%Z])
  | PFrozen _ => raise TypeError "Object is not JSON serializable"
  end.

(** The defaults, [ensure_ascii=True] and [allow_nan=True]. *)
Definition json_dumps : pyval → result pystr := json_dumps_with json_ascii_char true.

(** ** UTF-8 *)

(** [c.encode()]: a surrogate has no encoding ([UnicodeEncodeError], a
    [ValueError]). *)
Definition utf8_char (c : Z) : result (list Z) :=
  (if c <? 128 then Ok [c]
   else if c <? 2048 then Ok [192 + c / 64; 128 + c mod 64]
   else if c <? 65536 then
     require (negb ((55296 <=? c) && (c <=? 57343))) ValueError "surrogates not allowed" ;;
     Ok [224 + c / 4096; 128 + c / 64 mod 64; 128 + c mod 64]
   else Ok [240 + c / 262144; 128 + c / 4096 mod 64; 128 + c / 64 mod 64; 128 + c mod 64])%Z.

Definition utf8 (s : pystr) : result (list Z) := bytes ← mapM utf8_char s; Ok (concat bytes).

(** The value a JSON reader makes of the text: tuples become lists, and a
    dictionary has its keys in the order they were written. *)
Fixpoint json_normal (value : pyval) : pyval :=
  match value with
  | PList l | PTuple l => PList (json_normal <$> l)
  | PDict kvs =>
      PDict (py_sorted (λ a b, str_leb a.1 b.1) ((λ kv, (kv.1, json_normal kv.2)) <$> kvs))
  | _ => value
  end.
End Json.

(** ** What a reader makes of the text is written as the same text *)

Lemma Forall2_sort_insert {A B} (R : A → B → Prop) la lb x y l k :
  (∀ x y x' y', R x y → R x' y' → la x x' = lb y y') →
  R x y → Forall2 R l k → Forall2 R (sort_insert la x l) (sort_insert lb y k).
Proof.
  intros Hleb Hx. induction 1 as [|x' y' l k Hx' Hl IH]; simpl; [by repeat constructor|].
  rewrite (Hleb x y x' y') by done. case_match; by repeat constructor.
Qed.

Lemma Forall2_py_sorted {A B} (R : A → B → Prop) la lb l k :
  (∀ x y x' y', R x y → R x' y' → la x x' = lb y y') →
  Forall2 R l k → Forall2 R (py_sorted la l) (py_sorted lb k).
Proof.
  intros Hleb. induction 1 as [|x y l k Hx Hl IH]; simpl; [constructor|].
  by apply Forall2_sort_insert.
Qed.

Lemma py_sorted_id {A} (leb : A → A → bool) l :
  StronglySorted (λ x y, leb x y = true) l → py_sorted leb l = l.
Proof.
  induction 1 as [|x l Hs IH Hx]; simpl; [done|]. rewrite IH.
  destruct l as [|y l]; simpl; [done|]. apply Forall_cons in Hx as [-> _]. done.
Qed.

Abbreviation key_leb := (λ a b, str_leb a.1 b.1).

Lemma keys_sorted {A} (l : list (pystr * A)) :
  StronglySorted (λ x y, key_leb x y = true) (py_sorted key_leb l).
Proof.
  apply (py_sorted_sorted _ (λ _, True)); [intros; apply str_leb_total| |by apply Forall_true].
  intros x y z _ _ _. apply str_leb_trans.
Qed.

Lemma json_dumps_normal `{DText : !FloatText} char allow_nan v t :
  json_dumps_with char allow_nan v = Ok t → json_dumps_with char allow_nan (json_normal v) = Ok t.
Proof.
  revert t. induction v as [|b|n|f|s|l IH|l IH|kvs IH|kvs IH] using pyval_nested_ind; intros t; try done.
  1,2: cbn [json_dumps_with json_normal]; intros (items & Hm & H)%bind_Ok; apply mapM_Ok_Forall2 in Hm;
    assert (mapM (json_dumps_with char allow_nan) (json_normal <$> l) = Ok items) as ->;
    [|exact H]; apply mapM_Ok_Forall2; clear H; induction Hm as [|x y l items Hx Hm IHm];
    [constructor|apply Forall_cons in IH as [IHx IH]; csimpl; constructor; auto].
  cbn [json_dumps_with json_normal]. intros (items & Hm & H)%bind_Ok. apply mapM_Ok_Forall2 in Hm.
  set (g := λ kv : pystr * pyval, text ← json_dumps_with char allow_nan kv.2; Ok (kv.1, text)) in *.
  assert (Forall2 (λ kv y, g kv = Ok y) ((λ kv, (kv.1, json_normal kv.2)) <$> kvs) items) as Hn.
  { clear H. induction Hm as [|x y kvs items Hx Hm IHm]; [constructor|].
    apply Forall_cons in IH as [IHx IH]. csimpl. constructor; [|by apply IHm].
    unfold g in *. cbn [fst snd]. apply bind_Ok in Hx as (text & Ht & [= <-]). by rewrite (IHx _ Ht). }
  apply (Forall2_py_sorted _ key_leb key_leb) in Hn.
  2: { unfold g. intros x y x' y' (? & _ & [= <-])%bind_Ok (? & _ & [= <-])%bind_Ok. done. }
  apply mapM_Ok_Forall2 in Hn. rewrite Hn, bind_Ok_l.
  rewrite (py_sorted_id _ _ (keys_sorted items)). exact H.
Qed.

Lemma dict_get_insert {A} (kv : pystr * A) kvs k :
  kv.1 ∉ kvs.*1 → dict_get (sort_insert key_leb kv kvs) k = dict_get (kv :: kvs) k.
Proof.
  induction kvs as [|[k' v'] kvs IH]; csimpl; [done|]. rewrite not_elem_of_cons. intros [Hne Hkv].
  case_match; [done|]. destruct kv as [k0 v0]. cbn [dict_get fst] in *. rewrite IH by done.
  repeat case_decide; congruence.
Qed.

(** Reading the object keeps the value of every key. *)
Lemma dict_get_sorted {A} (kvs : list (pystr * A)) k :
  NoDup kvs.*1 → dict_get (py_sorted key_leb kvs) k = dict_get kvs k.
Proof.
  induction kvs as [|[k' v'] kvs IH]; csimpl; [done|]. rewrite NoDup_cons. intros [Hk Hnd].
  rewrite dict_get_insert; [cbn [dict_get]; case_decide; [done|by apply IH]|].
  csimpl. intros (x & -> & Hx)%list_elem_of_fmap. apply Hk. apply list_elem_of_fmap. exists x.
  split; [done|]. by rewrite py_sorted_perm in Hx.
Qed.
