(* ===== verification/TaskSelection.v ===== *)
(** * Task selection: role manifests, selections and splits

    Models [src/whetstone/experiment/task_selection/] ([roles.py],
    [manifest.py], [pools.py], [split.py]): persisted role arrays, the
    selection of a whole role or of its historically hardest tasks, and the
    resolution of a pool's roles against the loaded tasks.  Decoding manifest
    text and hashing it belong to dr-serialize, json and hashlib: a manifest is
    modelled from its validated fields on. *)

From S2P Require Import Prelude Floats.

(** ** Roles ([roles.py]) *)

Inductive TaskSplitRole := TRAIN | VALIDATION | TEST.
Inductive TaskRoleSelectionMethod := FULL_ROLE | LOWEST_HISTORICAL_PASS_RATE.

Record TaskRoleSelection := {
  trs_manifest_content_hash : pystr;
  trs_pool_key : pystr;
  trs_role : TaskSplitRole;
  trs_task_ids : list pystr;
  trs_selection_method : TaskRoleSelectionMethod;
  trs_source_role_count : option Z;
  trs_eligible_pool_count : option Z;
  trs_excluded_task_ids : list pystr;
  trs_historical_pass_rates : list float;
}.

(** [count is None or count >= n]. *)
Definition count_covers (count : option Z) (n : nat) : bool :=
  match count with Some c => negb (c <? Z.of_nat n)%Z | None => true end.

Definition TaskRoleSelection_validate (self : TaskRoleSelection) : result TaskRoleSelection :=
  require (bool_decide (length (trs_historical_pass_rates self) = 0%nat) ||
           (length (trs_historical_pass_rates self) =? length (trs_task_ids self))%nat) ValueError
    "historical pass rates must align with selected task IDs" ;;
  require (count_covers (trs_source_role_count self) (length (trs_task_ids self))) ValueError
    "source role count cannot be smaller than selection" ;;
  require (count_covers (trs_eligible_pool_count self) (length (trs_task_ids self))) ValueError
    "eligible pool count cannot be smaller than selection" ;;
  Ok self.

Record TaskSplitRoles := {
  tsr_pool_key : pystr;
  tsr_train_ids : list pystr;
  tsr_val_ids : list pystr;
  tsr_test_ids : list pystr;
  tsr_content_hash : pystr;
}.

Definition internal_ids (self : TaskSplitRoles) : list pystr :=
  tsr_train_ids self ++ tsr_val_ids self.
Definition official_ids (self : TaskSplitRoles) : list pystr := tsr_test_ids self.

(** The elements of the frozen set. *)
Definition all_role_ids (self : TaskSplitRoles) : list pystr :=
  tsr_train_ids self ++ tsr_val_ids self ++ tsr_test_ids self.

Definition ids_for (self : TaskSplitRoles) (role : TaskSplitRole) : list pystr :=
  match role with
  | TRAIN => tsr_train_ids self
  | VALIDATION => tsr_val_ids self
  | TEST => tsr_test_ids self
  end.

(** ** Manifests ([manifest.py]) *)

Record PoolRoles := {
  pr_train : list pystr;
  pr_val : list pystr;
  pr_test : list pystr;
}.

(** The ids of one role against those seen in earlier roles. *)
Fixpoint check_role_ids (seen : list (pystr * pystr)) (role : pystr) (ids : list pystr) :
    result (list (pystr * pystr)) :=
  match ids with
  | [] => Ok seen
  | task_id :: ids =>
      require (match dict_get seen task_id with None => true | Some _ => false end) ValueError
        "manifest roles must be disjoint" ;;
      check_role_ids (dict_set seen task_id role) role ids
  end.

Fixpoint check_roles (seen : list (pystr * pystr)) (roles : list (pystr * list pystr)) :
    result unit :=
  match roles with
  | [] => Ok tt
  | (role, ids) :: roles =>
      require (all_unique ids) ValueError "role has duplicate task ids" ;;
      seen ← check_role_ids seen role ids;
      check_roles seen roles
  end.

(** [_PoolRoles.model_post_init]. *)
Definition PoolRoles_validate (self : PoolRoles) : result PoolRoles :=
  check_roles [] [($"train", pr_train self); ($"val", pr_val self); ($"test", pr_test self)] ;;
  Ok self.

Record TaskSplitManifest := {
  tsm_pools : list (pystr * PoolRoles);
  tsm_selection : option (list (pystr * float));
  tsm_content_hash : pystr;
}.

Definition pool_roles (self : TaskSplitManifest) (pool_key : pystr) : result TaskSplitRoles :=
  pool ← of_option (dict_get (tsm_pools self) pool_key) TaskSplitManifestError
    "manifest has no pool";
  Ok {| tsr_pool_key := pool_key; tsr_train_ids := pr_train pool; tsr_val_ids := pr_val pool;
        tsr_test_ids := pr_test pool; tsr_content_hash := tsm_content_hash self |}.

Definition select_role (self : TaskSplitManifest) (pool_key : pystr) (role : TaskSplitRole) :
    result TaskRoleSelection :=
  roles ← pool_roles self pool_key;
  let n := Some (Z.of_nat (length (ids_for roles role))) in
  TaskRoleSelection_validate
    {| trs_manifest_content_hash := tsm_content_hash self; trs_pool_key := tsr_pool_key roles;
       trs_role := role; trs_task_ids := ids_for roles role;
       trs_selection_method := FULL_ROLE; trs_source_role_count := n;
       trs_eligible_pool_count := n; trs_excluded_task_ids := [];
       trs_historical_pass_rates := [] |}.

(** [rates[task_id]], present wherever it is used. *)
Definition rate_of (rates : list (pystr * float)) (task_id : pystr) : float :=
  default fzero (dict_get rates task_id).

(** The order of the keys [(rates[task_id], task_id)]: [a] may come before [b]
    unless [b]'s key is smaller; tuples compare by their first unequal items. *)
Definition hardest_first (rates : list (pystr * float)) (a b : pystr) : bool :=
  if feq (rate_of rates a) (rate_of rates b) then str_leb a b
  else negb (flt (rate_of rates b) (rate_of rates a)).

Definition select_lowest_historical_pass_rate (self : TaskSplitManifest) (pool_key : pystr)
    (role : TaskSplitRole) (count : Z) (excluded_task_ids : list pystr) :
    result TaskRoleSelection :=
  require (negb (count <? 1)%Z) TaskSplitManifestError "selected task count must be positive" ;;
  require (all_unique excluded_task_ids) TaskSplitManifestError
    "excluded task IDs must be unique" ;;
  roles ← pool_roles self pool_key;
  require (forallb (λ task_id, bool_decide (task_id ∈ all_role_ids roles)) excluded_task_ids)
    TaskSplitManifestError "excluded task IDs are absent from the manifest pool" ;;
  rates ← of_option (tsm_selection self) TaskSplitManifestError
    "manifest has no historical pass-rate metadata";
  let source_ids := ids_for roles role in
  let eligible_ids := filter (λ task_id, task_id ∉ excluded_task_ids) source_ids in
  require (negb (Z.of_nat (length eligible_ids) <? count)%Z) TaskSplitManifestError
    "requested more tasks than eligible" ;;
  require (forallb (λ task_id, bool_decide (task_id ∈ rates.*1)) eligible_ids)
    TaskSplitManifestError "historical pass rates are missing for eligible tasks" ;;
  require (forallb (λ task_id, fisfinite (rate_of rates task_id)) eligible_ids)
    TaskSplitManifestError "historical pass rates are non-finite" ;;
  let selected_ids := take (Z.to_nat count) (py_sorted (hardest_first rates) eligible_ids) in
  TaskRoleSelection_validate
    {| trs_manifest_content_hash := tsm_content_hash self; trs_pool_key := tsr_pool_key roles;
       trs_role := role; trs_task_ids := selected_ids;
       trs_selection_method := LOWEST_HISTORICAL_PASS_RATE;
       trs_source_role_count := Some (Z.of_nat (length source_ids));
       trs_eligible_pool_count := Some (Z.of_nat (length eligible_ids));
       trs_excluded_task_ids := excluded_task_ids;
       trs_historical_pass_rates := rate_of rates <$> selected_ids |}.

(** ** Pools ([pools.py]) *)

Definition roles_for_pool (manifest : TaskSplitManifest) (pool_key : pystr) :
    result TaskSplitRoles :=
  require (bool_decide (pool_key ∈ (tsm_pools manifest).*1)) TaskSplitManifestError
    "manifest has no pool" ;;
  pool_roles manifest pool_key.

Definition select_role_for_pool := select_role.
Definition select_lowest_historical_pass_rate_for_pool := select_lowest_historical_pass_rate.

(** ** Splits ([split.py]) *)

Section Split.
Context {T : Type} (id_of : T → pystr).

Record ResolvedSplit := {
  rs_internal : list T;
  rs_official : list T;
  rs_manifest_tag : pystr;
  rs_official_capped : option pystr;
}.

(** [{str(id_of(item)): item for item in items}]: the last item of an id. *)
Definition items_by_id (items : list T) : list (pystr * T) :=
  foldl (λ d item, dict_set d (id_of item) item) [] items.

Definition cap_official (official : list T) (official_n : option Z) : list T * option pystr :=
  let n := Z.of_nat (length official) in
  match official_n with
  | Some k =>
      if (k <? n)%Z then
        (take (Z.to_nat k) official,
         Some ($"official_n=" ++ int_text k ++ $" caps the manifest test split (" ++ int_text n ++
               $" tasks) to its first " ++ int_text k))
      else if (n <? k)%Z then
        (official,
         Some ($"official_n=" ++ int_text k ++ $" exceeds the manifest test split size (" ++
               int_text n ++ $"); using all " ++ int_text n ++ $" test tasks"))
      else (official, None)
  | None => (official, None)
  end.

Definition resolve_manifest_split (roles : TaskSplitRoles) (items : list T)
    (official_n : option Z) : result ResolvedSplit :=
  let by_id := items_by_id items in
  require (forallb (λ i, bool_decide (i ∈ by_id.*1)) (all_role_ids roles)) TaskSplitManifestError
    "manifest pool references task ids absent from the loaded task pool" ;;
  require (match official_n with Some k => negb (k <? 1)%Z | None => true end)
    TaskSplitManifestError "official_n must be at least 1" ;;
  internal ← mapM (λ i, of_option (dict_get by_id i) KeyError "") (internal_ids roles);
  official ← mapM (λ i, of_option (dict_get by_id i) KeyError "") (official_ids roles);
  let '(official, capped) := cap_official official official_n in
  Ok {| rs_internal := internal; rs_official := official;
        rs_manifest_tag :=
          $"tsm:" ++ take 16 (tsr_content_hash roles) ++ $"." ++ tsr_pool_key roles;
        rs_official_capped := capped |}.
End Split.

(** ** Role arrays are disjoint *)

Lemma check_role_ids_Ok seen role ids seen' :
  check_role_ids seen role ids = Ok seen' ↔
  NoDup ids ∧ (∀ i, i ∈ ids → i ∉ seen.*1) ∧
  seen' = foldl (λ d i, dict_set d i role) seen ids.
Proof.
  revert seen. induction ids as [|i ids IH]; intros seen; simpl.
  { split; [intros [= ->]|intros (_ & _ & ->); done]. split_and!; [constructor|set_solver|done]. }
  destruct (dict_get seen i) as [other|] eqn:Hi; simpl.
  - split; [done|]. intros (_ & Hno & _).
    rewrite (proj2 (dict_get_None seen i)) in Hi; [done|]. apply Hno. by constructor.
  - apply dict_get_None in Hi. rewrite IH, NoDup_cons. setoid_rewrite dict_set_keys.
    setoid_rewrite elem_of_cons. naive_solver.
Qed.

Lemma seen_keys (seen : list (pystr * pystr)) role ids x :
  x ∈ (foldl (λ d i, dict_set d i role) seen ids).*1 ↔ x ∈ ids ∨ x ∈ seen.*1.
Proof.
  revert seen. induction ids as [|i ids IH]; intros seen; simpl; [set_solver|].
  rewrite IH, dict_set_keys, elem_of_cons. naive_solver.
Qed.

Lemma check_roles_Ok seen roles :
  check_roles seen roles = Ok tt ↔
  NoDup (roles ≫= snd) ∧ ∀ i, i ∈ roles ≫= snd → i ∉ seen.*1.
Proof.
  revert seen. induction roles as [|[role ids] roles IH]; intros seen; simpl.
  { split; [|done]. intros _. split; [constructor|]. by intros i ?%elem_of_nil. }
  rewrite NoDup_app. setoid_rewrite elem_of_app. split.
  - intros H. inv_ok.
    match goal with H : check_role_ids _ _ _ = Ok _ |- _ =>
      apply check_role_ids_Ok in H as (Hnd & Hseen & ->) end.
    match goal with H : check_roles _ _ = _ |- _ => apply IH in H as [Hrest Hdis] end.
    setoid_rewrite seen_keys in Hdis. split_and!; [done| |done|]; naive_solver.
  - intros [(Hnd & Hdis & Hrest) Hseen]. rewrite require_unique, bind_Ok_l by done.
    rewrite (proj2 (check_role_ids_Ok seen role ids _)) by (split_and!; [done|naive_solver|done]).
    simpl. apply IH. split; [done|]. setoid_rewrite seen_keys. naive_solver.
Qed.

(** Persisted role arrays are accepted exactly when no task id occurs
    twice, within a role or across roles: a train or validation task can never
    be in the held-out test role. *)
Theorem pool_roles_disjoint (p : PoolRoles) :
  PoolRoles_validate p = Ok p ↔ NoDup (pr_train p ++ pr_val p ++ pr_test p).
Proof.
  unfold PoolRoles_validate.
  assert (check_roles [] [($"train", pr_train p); ($"val", pr_val p); ($"test", pr_test p)] =
    Ok tt ↔ NoDup (pr_train p ++ pr_val p ++ pr_test p)) as <-.
  { rewrite check_roles_Ok. csimpl. rewrite app_nil_r. split; [by intros []|].
    intros Hnd. split; [done|]. intros i _. apply not_elem_of_nil. }
  destruct (check_roles _ _) as [[]|]; simpl; naive_solver.
Qed.

(** ** The hardest tasks *)

Lemma feq_trans f g h : feq f g = true → feq g h = true → feq f h = true.
Proof. rewrite !feq_key. naive_solver. Qed.

Section Hardest.
Variable rates : list (pystr * float).

Definition rated (i : pystr) : Prop := fisfinite (rate_of rates i) = true.

(** The meaning of the order on rated tasks. *)
Definition harder (a b : pystr) : Prop :=
  flt (rate_of rates a) (rate_of rates b) = true ∨
  (feq (rate_of rates a) (rate_of rates b) = true ∧ str_leb a b = true).

Lemma hardest_first_spec a b : rated a → rated b → hardest_first rates a b = true ↔ harder a b.
Proof.
  unfold rated, hardest_first, harder. intros Ha%fisfinite_number Hb%fisfinite_number.
  destruct (feq _ _) eqn:E.
  - rewrite (flt_feq_l _ _ _ E), flt_irrefl. naive_solver.
  - destruct (flt_total _ _ Ha Hb) as [Hlt|[?|Hlt]]; [|congruence|].
    + rewrite Hlt, (flt_asym _ _ Hlt). naive_solver.
    + rewrite Hlt, (flt_asym _ _ Hlt). naive_solver.
Qed.

Lemma hardest_first_total a b :
  rated a → rated b → hardest_first rates a b = true ∨ hardest_first rates b a = true.
Proof.
  intros Ha Hb. rewrite !hardest_first_spec by done. unfold harder.
  pose proof (fisfinite_number _ Ha) as Na. pose proof (fisfinite_number _ Hb) as Nb.
  destruct (flt_total _ _ Na Nb) as [?|[E|?]]; [by auto| |by auto].
  pose proof (feq_sym _ _ E). destruct (str_leb_total a b); auto.
Qed.

Lemma hardest_first_trans a b c :
  rated a → rated b → rated c →
  hardest_first rates a b = true → hardest_first rates b c = true →
  hardest_first rates a c = true.
Proof.
  intros Ha Hb Hc. rewrite !hardest_first_spec by done. unfold harder.
  intros [H1|[E1 S1]] [H2|[E2 S2]].
  - left. by eapply flt_trans.
  - left. by rewrite <-(flt_feq_r _ _ _ E2).
  - left. by rewrite (flt_feq_l _ _ _ E1).
  - right. eauto using feq_trans, str_leb_trans.
Qed.

Lemma hardest_sorted l :
  Forall rated l → StronglySorted (λ a b, hardest_first rates a b = true)
                     (py_sorted (hardest_first rates) l).
Proof. apply py_sorted_sorted; eauto using hardest_first_total, hardest_first_trans. Qed.
End Hardest.

Lemma StronglySorted_app_inv {A} (R : relation A) (l1 l2 : list A) :
  StronglySorted R (l1 ++ l2) → StronglySorted R l1 ∧ ∀ x y, x ∈ l1 → y ∈ l2 → R x y.
Proof.
  induction l1 as [|x l1 IH]; simpl; intros Hs.
  - split; [constructor|]. by intros x y ?%elem_of_nil.
  - inversion_clear Hs as [|? ? Hs' Hx]. destruct (IH Hs') as [Hl1 Hxy].
    rewrite Forall_app in Hx. destruct Hx as [Hx1 Hx2]. split; [by constructor|].
    intros y z [->|Hy]%elem_of_cons Hz; [|by apply Hxy]. rewrite Forall_forall in Hx2. by apply Hx2.
Qed.

(** The tasks of a role that may be selected. *)
Definition eligible (roles : TaskSplitRoles) (role : TaskSplitRole) (excluded : list pystr) :
    list pystr :=
  filter (λ task_id, task_id ∉ excluded) (ids_for roles role).

(** The record the selection returns. *)
Definition lowest_selection (manifest : TaskSplitManifest) (roles : TaskSplitRoles)
    (role : TaskSplitRole) (count : Z) (excluded : list pystr) (rates : list (pystr * float)) :
    TaskRoleSelection :=
  let candidates := eligible roles role excluded in
  let picked := take (Z.to_nat count) (py_sorted (hardest_first rates) candidates) in
  {| trs_manifest_content_hash := tsm_content_hash manifest;
     trs_pool_key := tsr_pool_key roles; trs_role := role; trs_task_ids := picked;
     trs_selection_method := LOWEST_HISTORICAL_PASS_RATE;
     trs_source_role_count := Some (Z.of_nat (length (ids_for roles role)));
     trs_eligible_pool_count := Some (Z.of_nat (length candidates));
     trs_excluded_task_ids := excluded;
     trs_historical_pass_rates := rate_of rates <$> picked |}.

Lemma lowest_selection_valid manifest roles role count excluded rates :
  TaskRoleSelection_validate (lowest_selection manifest roles role count excluded rates) =
    Ok (lowest_selection manifest roles role count excluded rates).
Proof.
  unfold TaskRoleSelection_validate. simpl. rewrite length_fmap, Nat.eqb_refl, orb_true_r.
  assert (∀ n, (length (eligible roles role excluded) <= n)%nat →
    (Z.of_nat n <? Z.of_nat (length (take (Z.to_nat count)
      (py_sorted (hardest_first rates) (eligible roles role excluded)))))%Z = false) as Hle.
  { intros n Hn. apply Z.ltb_ge. rewrite length_take, length_py_sorted. lia. }
  rewrite !Hle by first [done|apply length_filter]. done.
Qed.

Lemma select_lowest_Ok manifest pool_key role count excluded roles rates sel :
  pool_roles manifest pool_key = Ok roles → tsm_selection manifest = Some rates →
  select_lowest_historical_pass_rate manifest pool_key role count excluded = Ok sel ↔
  (1 <= count <= Z.of_nat (length (eligible roles role excluded)))%Z ∧ NoDup excluded ∧
  (∀ i, i ∈ excluded → i ∈ all_role_ids roles) ∧
  (∀ i, i ∈ eligible roles role excluded → i ∈ rates.*1 ∧ rated rates i) ∧
  sel = lowest_selection manifest roles role count excluded rates.
Proof.
  intros Hroles Hrates. unfold select_lowest_historical_pass_rate.
  rewrite Hroles, bind_Ok_l, Hrates.
  change (of_option (Some rates) ?c ?m) with (@Ok (list (pystr * float)) rates).
  rewrite bind_Ok_l. cbv beta zeta. fold (eligible roles role excluded).
  fold (lowest_selection manifest roles role count excluded rates).
  rewrite lowest_selection_valid.
  assert (∀ (f : pystr → bool) l, forallb f l = true ↔ ∀ i, i ∈ l → f i = true) as Hall
    by (intros; by rewrite forallb_Forall, Forall_forall).
  split.
  - intros H. inv_ok. rewrite !Hall in *. unfold rated.
    split_and!; [lia|lia|done| | |done].
    + intros i Hi. match goal with H : ∀ i, i ∈ excluded → _ |- _ => specialize (H i Hi) end.
      by inv_bool.
    + intros i Hi. split; [|by auto].
      match goal with H : ∀ i, _ → bool_decide (i ∈ rates.*1) = true |- _ =>
        specialize (H i Hi) end. by inv_bool.
  - intros (Hc & Hnd & Hsub & Hrated & ->).
    assert ((count <? 1)%Z = false) as -> by (apply Z.ltb_ge; lia).
    assert ((Z.of_nat (length (eligible roles role excluded)) <? count)%Z = false) as ->
      by (apply Z.ltb_ge; lia).
    rewrite (proj2 (all_unique_NoDup excluded)) by done.
    rewrite !(proj2 (Hall _ _)); [done|..]; intros i Hi; rewrite ?bool_decide_eq_true;
      first [by apply Hsub|by apply Hrated].
Qed.

(** The selection of the hardest tasks is exact. It returns exactly when
    the count is positive and covered by the eligible tasks, the exclusions are
    distinct tasks of the pool and every eligible task has a finite rate. What
    it returns are as many eligible tasks as asked for, hardest first with ties
    in id order and each with its own rate, and no eligible task left out comes
    before a selected one. *)
Theorem select_lowest_exact manifest pool_key role count excluded roles rates :
  pool_roles manifest pool_key = Ok roles → tsm_selection manifest = Some rates →
  let candidates := eligible roles role excluded in
  ((∃ sel, select_lowest_historical_pass_rate manifest pool_key role count excluded = Ok sel) ↔
     (1 <= count <= Z.of_nat (length candidates))%Z ∧ NoDup excluded ∧
     (∀ i, i ∈ excluded → i ∈ all_role_ids roles) ∧
     ∀ i, i ∈ candidates → i ∈ rates.*1 ∧ rated rates i) ∧
  (∀ sel, select_lowest_historical_pass_rate manifest pool_key role count excluded = Ok sel →
     ∃ rest, candidates ≡ₚ trs_task_ids sel ++ rest ∧
       Z.of_nat (length (trs_task_ids sel)) = count ∧
       StronglySorted (harder rates) (trs_task_ids sel) ∧
       (∀ i j, i ∈ trs_task_ids sel → j ∈ rest → harder rates i j) ∧
       trs_historical_pass_rates sel = rate_of rates <$> trs_task_ids sel).
Proof.
  intros Hroles Hrates candidates. split.
  - setoid_rewrite select_lowest_Ok; [|done..]. split; [naive_solver|].
    intros (? & ? & ? & ?). by eexists.
  - intros sel Hsel. apply (select_lowest_Ok _ _ _ _ _ roles rates) in Hsel; [|done..].
    destruct Hsel as (Hc & _ & _ & Hrated & ->). fold candidates in Hc, Hrated.
    set (sorted := py_sorted (hardest_first rates) candidates).
    assert (Forall (rated rates) candidates) as Hall
      by (apply Forall_forall; intros i Hi; by apply Hrated).
    assert (Forall (rated rates) sorted) as Hall' by (unfold sorted; by rewrite py_sorted_perm).
    exists (drop (Z.to_nat count) sorted). simpl. fold candidates sorted.
    pose proof (hardest_sorted rates candidates Hall) as Hs. fold sorted in Hs.
    assert (StronglySorted (harder rates) sorted) as Hs'.
    { clear -Hs Hall'. induction Hs as [|i l Hl IH Hi]; [constructor|].
      inversion_clear Hall' as [|? ? Hri Hrl]. constructor; [by apply IH|].
      apply Forall_forall. intros j Hj. rewrite Forall_forall in Hi, Hrl.
      apply hardest_first_spec; [done|by apply Hrl|by apply Hi]. }
    rewrite <-(take_drop (Z.to_nat count) sorted) in Hs'. apply StronglySorted_app_inv in Hs' as [Hs1 Hs2].
    split_and!; [|rewrite length_take; unfold sorted; rewrite length_py_sorted; lia|done|done|done].
    rewrite take_drop. symmetry. apply py_sorted_perm.
Qed.

(** ** Splits *)

Section SplitTheorems.
Context {T : Type} (id_of : T → pystr).

Lemma items_by_id_spec (items : list T) :
  (∀ i x, dict_get (items_by_id id_of items) i = Some x → id_of x = i ∧ x ∈ items) ∧
  (∀ i, i ∈ (items_by_id id_of items).*1 ↔ i ∈ id_of <$> items).
Proof.
  unfold items_by_id.
  assert (∀ d : list (pystr * T),
    (∀ i x, dict_get (foldl (λ d item, dict_set d (id_of item) item) d items) i = Some x →
       (id_of x = i ∧ x ∈ items) ∨ dict_get d i = Some x) ∧
    (∀ i, i ∈ (foldl (λ d item, dict_set d (id_of item) item) d items).*1 ↔
       i ∈ id_of <$> items ∨ i ∈ d.*1)) as Hgo.
  { induction items as [|y items IH]; intros d; csimpl.
    - split; [auto|]. intros i. rewrite elem_of_nil. tauto.
    - destruct (IH (dict_set d (id_of y) y)) as [IH1 IH2]. setoid_rewrite elem_of_cons. split.
      + intros i x [?|Hx]%IH1; [naive_solver|].
        destruct (decide (id_of y = i)) as [<-|Hne].
        * rewrite dict_get_set_eq in Hx. injection Hx as ->. auto.
        * rewrite dict_get_set_ne in Hx by done. auto.
      + intros i. rewrite IH2, dict_set_keys. naive_solver. }
  destruct (Hgo []) as [H1 H2]. split.
  - intros i x [?|?]%H1; [done|]. done.
  - intros i. rewrite H2, elem_of_nil. tauto.
Qed.

Lemma lookup_ids_Ok (items : list T) ids xs :
  mapM (λ i, of_option (dict_get (items_by_id id_of items) i) KeyError "") ids = Ok xs →
  id_of <$> xs = ids ∧ ∀ x, x ∈ xs → x ∈ items.
Proof.
  intros Hf%mapM_Ok_Forall2. destruct (items_by_id_spec items) as [Hget _].
  induction Hf as [|i x ids xs Hix _ [IH1 IH2]]; csimpl.
  - split; [done|]. by intros x ?%elem_of_nil.
  - apply of_option_Ok, Hget in Hix as [<- Hx]. split; [by rewrite IH1|].
    intros y [->|?]%elem_of_cons; auto.
Qed.

Lemma lookup_ids_total (items : list T) ids :
  (∀ i, i ∈ ids → i ∈ id_of <$> items) →
  ∃ xs, mapM (λ i, of_option (dict_get (items_by_id id_of items) i) KeyError "") ids = Ok xs.
Proof.
  intros Hids. destruct (items_by_id_spec items) as [_ Hkeys]. induction ids as [|i ids IH].
  { by exists []. }
  destruct IH as [xs Hxs]; [intros j ?; apply Hids; by constructor|].
  destruct (dict_get (items_by_id id_of items) i) as [x|] eqn:Hx.
  - exists (x :: xs). apply mapM_Ok_Forall2. apply mapM_Ok_Forall2 in Hxs.
    constructor; [by rewrite Hx|done].
  - apply dict_get_None in Hx. destruct Hx. apply Hkeys, Hids. by constructor.
Qed.

Lemma cap_official_spec (official : list T) n :
  match n with Some k => (1 <= k)%Z | None => True end →
  (cap_official official n).1 =
    match n with Some k => take (Z.to_nat k) official | None => official end.
Proof.
  unfold cap_official. destruct n as [k|]; [|done]. intros Hk.
  destruct (k <? _)%Z eqn:E1; [done|]. apply Z.ltb_ge in E1.
  by destruct (_ <? k)%Z; simpl; rewrite take_ge by lia.
Qed.

(** Resolving a manifest split gives each role its own tasks. For role
    arrays without repetition it returns exactly when every id of the manifest
    is loaded and the cap, if any, is positive; the internal items are then
    those of the train and validation ids and the official ones those of the
    test ids, in manifest order and cut to the cap, all of them loaded items;
    and no task is in both. *)
Theorem resolve_manifest_split_exact roles (items : list T) official_n :
  NoDup (all_role_ids roles) →
  ((∃ r, resolve_manifest_split id_of roles items official_n = Ok r) ↔
     (∀ i, i ∈ all_role_ids roles → i ∈ id_of <$> items) ∧
     match official_n with Some k => (1 <= k)%Z | None => True end) ∧
  (∀ r, resolve_manifest_split id_of roles items official_n = Ok r →
     id_of <$> rs_internal r = internal_ids roles ∧
     id_of <$> rs_official r =
       match official_n with
       | Some k => take (Z.to_nat k) (official_ids roles) | None => official_ids roles end ∧
     (∀ x, x ∈ rs_internal r ++ rs_official r → x ∈ items) ∧
     NoDup (id_of <$> (rs_internal r ++ rs_official r))).
Proof.
  intros Hnd. destruct (items_by_id_spec items) as [_ Hkeys].
  unfold resolve_manifest_split. split; [split|].
  - intros [r H]. apply bind_Ok in H as (u & Hsub & H). apply bind_Ok in H as (u' & Hcap & _).
    apply require_Ok in Hsub, Hcap. rewrite forallb_Forall, Forall_forall in Hsub. split.
    + intros i Hi. apply Hkeys. specialize (Hsub i Hi). by inv_bool.
    + destruct official_n; [inv_bool; lia|done].
  - intros [Hsub Hcap].
    assert (forallb (λ i, bool_decide (i ∈ (items_by_id id_of items).*1)) (all_role_ids roles) =
      true) as ->.
    { apply forallb_Forall, Forall_forall. intros i Hi. apply bool_decide_eq_true. by apply Hkeys, Hsub. }
    assert (match official_n with Some k => negb (k <? 1)%Z | None => true end = true) as ->.
    { destruct official_n; [|done]. apply negb_true_iff, Z.ltb_ge. lia. }
    rewrite !require_true, !bind_Ok_l.
    destruct (lookup_ids_total items (internal_ids roles)) as [xs ->].
    { intros i Hi. apply Hsub. unfold all_role_ids, internal_ids in *. set_solver. }
    destruct (lookup_ids_total items (official_ids roles)) as [ys ->].
    { intros i Hi. apply Hsub. unfold all_role_ids, official_ids in *. set_solver. }
    rewrite !bind_Ok_l. destruct (cap_official ys official_n). by eexists.
  - intros r H. apply bind_Ok in H as (u & _ & H). apply bind_Ok in H as (u' & Hcap & H).
    apply bind_Ok in H as (xs & Hxs & H). apply bind_Ok in H as (ys & Hys & H).
    apply require_Ok in Hcap.
    assert (match official_n with Some k => (1 <= k)%Z | None => True end) as Hcap'
      by (destruct official_n; [inv_bool; lia|done]).
    pose proof (cap_official_spec ys _ Hcap') as Hofficial.
    destruct (cap_official ys official_n) as [official capped]. simpl in Hofficial.
    injection H as <-. simpl. apply lookup_ids_Ok in Hxs as [Hxs Hxs'], Hys as [Hys Hys'].
    assert (official `sublist_of` ys) as Hsub by (subst; destruct official_n; [apply sublist_take|done]).
    split_and!.
    + done.
    + subst official. rewrite <-Hys. destruct official_n; [by rewrite fmap_take|done].
    + intros x [?|Hx]%elem_of_app; [auto|]. apply Hys'. by eapply elem_of_submseteq, sublist_submseteq.
    + rewrite fmap_app, Hxs. eapply sublist_NoDup; [exact Hnd|]. unfold all_role_ids, internal_ids.
      rewrite (app_assoc (tsr_train_ids roles)). apply sublist_app; [done|].
      change (tsr_test_ids roles) with (official_ids roles). rewrite <-Hys. by apply fmap_sublist.
Qed.
End SplitTheorems.

(** ** Concrete instances *)

Definition example_roles : TaskSplitRoles :=
  {| tsr_pool_key := $"pool"; tsr_train_ids := [$"a"; $"b"; $"c"]; tsr_val_ids := [$"d"];
     tsr_test_ids := [$"e"; $"f"]; tsr_content_hash := replicate 64 48%Z |}.

(** [b] and [c] have the same rate; [a] is excluded below. *)
Definition example_rates : list (pystr * float) :=
  [($"a", float_of_Z 0); ($"c", float_of_Z 1); ($"b", float_of_Z 1)].

Definition example_manifest : TaskSplitManifest :=
  {| tsm_pools := [($"pool", {| pr_train := [$"a"; $"b"; $"c"]; pr_val := [$"d"];
                               pr_test := [$"e"; $"f"] |})];
     tsm_selection := Some example_rates; tsm_content_hash := replicate 64 48%Z |}.

Lemma select_lowest_exact_witness :
  ∃ sel, select_lowest_historical_pass_rate example_manifest $"pool" TRAIN 1 [$"a"] = Ok sel ∧
    trs_task_ids sel = [$"b"].
Proof.
  destruct (select_lowest_exact example_manifest $"pool" TRAIN 1 [$"a"] example_roles example_rates
    eq_refl eq_refl) as [[_ Htotal] _].
  destruct Htotal as [sel Hsel].
  - split_and!.
    + by vm_compute.
    + by vm_compute.
    + apply NoDup_singleton.
    + intros i ->%list_elem_of_singleton. apply (bool_decide_unpack _). vm_compute. reflexivity.
    + intros i Hi. change (eligible _ _ _) with [$"b"; $"c"] in Hi.
      apply elem_of_cons in Hi as [->|Hi]; [|apply list_elem_of_singleton in Hi as ->];
        (split; [apply (bool_decide_unpack _); vm_compute; reflexivity|vm_compute; reflexivity]).
  - exists sel. split; [exact Hsel|]. vm_compute in Hsel. injection Hsel as <-. reflexivity.
Defined.

Lemma resolve_manifest_split_exact_witness :
  ∃ r, resolve_manifest_split (λ i : pystr, i) example_roles
         [$"f"; $"e"; $"d"; $"c"; $"b"; $"a"; $"z"] (Some 1%Z) = Ok r ∧
    rs_internal r = [$"a"; $"b"; $"c"; $"d"] ∧ rs_official r = [$"e"].
Proof.
  assert (NoDup (all_role_ids example_roles)) as Hnd
    by (apply (bool_decide_unpack _); vm_compute; reflexivity).
  destruct (resolve_manifest_split_exact (λ i : pystr, i) example_roles
    [$"f"; $"e"; $"d"; $"c"; $"b"; $"a"; $"z"] (Some 1%Z) Hnd) as [[_ Htotal] _].
  destruct Htotal as [r Hr].
  - split; [|lia]. assert (forallb (λ i, bool_decide (i ∈ (λ i : pystr, i) <$>
      [$"f"; $"e"; $"d"; $"c"; $"b"; $"a"; $"z"])) (all_role_ids example_roles) = true) as Hall
      by (vm_compute; reflexivity).
    rewrite forallb_Forall, Forall_forall in Hall. intros i Hi. specialize (Hall i Hi).
    by apply bool_decide_eq_true in Hall.
  - exists r. split; [exact Hr|]. vm_compute in Hr. injection Hr as <-. by split.
Defined.
