(* ===== verification/Sampling.v ===== *)
(** * Sampling: eval splits and their disjointness

    Models [src/whetstone/experiment/sampling.py]: the split roles and their
    evidence roles, eval splits with the matrix plan they induce, the eval
    configs of an experiment with the checks their construction runs, the
    leakage check, and the derivation of a split. *)

From S2P Require Import Prelude Floats Identity EvalConfigs Reward Plan Aggregate.

Definition DEFINITION_VERSION := $"1".
Definition INTERNAL_EVAL := $"internal_eval".
Definition OFFICIAL_SPLIT := $"official".
Definition HELD_OUT_SPLIT := $"held_out".
Definition SPLIT_ROLES : list pystr := [INTERNAL_EVAL; OFFICIAL_SPLIT; HELD_OUT_SPLIT].

(** [_ROLE_BY_SPLIT]. *)
Definition role_by_split : list (pystr * EvalRole) :=
  [(INTERNAL_EVAL, INTERNAL); (OFFICIAL_SPLIT, OFFICIAL); (HELD_OUT_SPLIT, HELD_OUT)].

Definition evaluation_role_for_split (split_role : pystr) : result EvalRole :=
  of_option (dict_get role_by_split split_role) ValueError "unknown evaluation split role".

Definition validate_evaluation_role_for_split (split_role : pystr) (evaluation_role : EvalRole) :
    result unit :=
  expected ← evaluation_role_for_split split_role;
  require (bool_decide (evaluation_role = expected)) ValueError
    "evaluation role does not match split role".

(** [Completeness.to_policy]; its two values are those of [RowPolicy]. *)
Definition to_policy (self : RowPolicy) (max_skip_fraction : float) :
    result CompletenessPolicy :=
  CompletenessPolicy_validate
    {| cp_row_policy := self; cp_max_skip_fraction := max_skip_fraction |}.

(** ** Splits

    [T] is the type of the sampled tasks. *)
Record EvalSplit (T : Type) := {
  es_split_role : pystr;
  es_tasks : list T;
  es_task_set : TaskSet;
  es_seed_plan : SeedPlan;
  es_sampling_config : SamplingConfig;
  es_procedure_config : EvalProcedureConfig;
  es_aggregation_config : AggregationConfig;
  es_eval_config : EvalConfig;
}.
Arguments es_split_role {T} _.
Arguments es_tasks {T} _.
Arguments es_task_set {T} _.
Arguments es_seed_plan {T} _.
Arguments es_sampling_config {T} _.
Arguments es_procedure_config {T} _.
Arguments es_aggregation_config {T} _.
Arguments es_eval_config {T} _.

Section Sampling.
Context `{DSer : !DrSerialize, DText : !FloatText} {T : Type}.

(** The arguments of [EvalMatrixPlan(...)]. *)
Definition matrix_plan_fields (self : EvalSplit T) : EvalMatrixPlan :=
  {| emp_eval_config := es_eval_config self; emp_sampling_config := es_sampling_config self;
     emp_task_set := es_task_set self; emp_seed_plan := es_seed_plan self;
     emp_aggregation_config := es_aggregation_config self |}.

Definition evaluation_matrix_plan (self : EvalSplit T) : result EvalMatrixPlan :=
  EvalMatrixPlan_validate (matrix_plan_fields self).

(** [repr] is Python's rendering of a value that is not a string. *)
Definition completeness_policy (repr : pyval → pystr) (self : EvalSplit T) :
    result CompletenessPolicy :=
  let assignment := AggregationConfig_assignment_dict (es_aggregation_config self) in
  missing_data ← of_option (dict_get assignment $"missing_data") KeyError "";
  row_policy ← RowPolicy_of (Some (PStr (str_of repr missing_data)));
  max_skip_fraction ← float_of_text
    (str_of repr (default (PStr $"0.0000") (dict_get assignment $"max_skip_fraction")));
  CompletenessPolicy_validate
    {| cp_row_policy := row_policy; cp_max_skip_fraction := max_skip_fraction |}.

(** ** The eval configs of an experiment *)

Record ExperimentEvalConfigs := {
  xc_env_name : pystr;
  xc_procedure_config_hash : pystr;
  xc_internal : EvalSplit T;
  xc_official : EvalSplit T;
  xc_held_out : option (EvalSplit T);
}.

Definition held_out_task_hashes (self : ExperimentEvalConfigs) : list pystr :=
  match xc_held_out self with None => [] | Some s => ts_task_hashes (es_task_set s) end.

(** [splits()]: the present splits by role, in [SPLIT_ROLES] order. *)
Definition splits (self : ExperimentEvalConfigs) : list (pystr * EvalSplit T) :=
  [(INTERNAL_EVAL, xc_internal self); (OFFICIAL_SPLIT, xc_official self)] ++
  match xc_held_out self with Some s => [(HELD_OUT_SPLIT, s)] | None => [] end.

Definition split_for (self : ExperimentEvalConfigs) (split_role : pystr) : result (EvalSplit T) :=
  of_option (dict_get (splits self) split_role) KeyError "no eval split for split role".

Definition eval_config_for (self : ExperimentEvalConfigs) (split_role : pystr) :
    result EvalConfig :=
  split ← split_for self split_role;
  Ok (es_eval_config split).

(** ** The leakage check *)

Definition shared_hashes (a b : EvalSplit T) : list pystr :=
  filter (λ h, h ∈ ts_task_hashes (es_task_set b)) (ts_task_hashes (es_task_set a)).

(** The inner loop: one split against the splits after it. *)
Fixpoint check_against (lhs : pystr * EvalSplit T) (later : list (pystr * EvalSplit T)) :
    result unit :=
  match later with
  | [] => Ok tt
  | rhs :: later =>
      (if bool_decide (length (shared_hashes lhs.2 rhs.2) = 0%nat) then Ok tt
       else if bool_decide (HELD_OUT_SPLIT ∈ [lhs.1; rhs.1]) then
         raise HeldOutReferencedError "splits share held-out task identities"
       else raise SplitOverlapError "splits share task identities") ;;
      check_against lhs later
  end.

Fixpoint check_pairs (l : list (pystr * EvalSplit T)) : result unit :=
  match l with
  | [] => Ok tt
  | lhs :: later => check_against lhs later ;; check_pairs later
  end.

(** The elements of the union the check returns. *)
Definition assert_split_disjointness (configs : ExperimentEvalConfigs) : result (list pystr) :=
  check_pairs (splits configs) ;;
  Ok (splits configs ≫= λ s, ts_task_hashes (es_task_set s.2)).

Definition check_role (expected : pystr) (split : option (EvalSplit T)) : result unit :=
  match split with
  | Some split => require (bool_decide (es_split_role split = expected)) ValueError
      "eval configs field carries another split role"
  | None => Ok tt
  end.

Definition check_procedure (procedure_config_hash : pystr) (split : option (EvalSplit T)) :
    result unit :=
  match split with
  | Some split =>
      require (bool_decide (epc_config_hash (es_procedure_config split) = procedure_config_hash))
        SplitProcedureMismatchError "split derived with another evaluation procedure" ;;
      require (bool_decide (ec_evaluation_procedure_config_hash (es_eval_config split) =
                            procedure_config_hash))
        SplitProcedureMismatchError "split persists another evaluation procedure"
  | None => Ok tt
  end.

(** [EvalConfigs.__post_init__]. *)
Definition ExperimentEvalConfigs_validate (self : ExperimentEvalConfigs) :
    result ExperimentEvalConfigs :=
  check_role INTERNAL_EVAL (Some (xc_internal self)) ;;
  check_role OFFICIAL_SPLIT (Some (xc_official self)) ;;
  check_role HELD_OUT_SPLIT (xc_held_out self) ;;
  check_procedure (xc_procedure_config_hash self) (Some (xc_internal self)) ;;
  check_procedure (xc_procedure_config_hash self) (Some (xc_official self)) ;;
  check_procedure (xc_procedure_config_hash self) (xc_held_out self) ;;
  assert_split_disjointness self ;;
  Ok self.

(** ** Derivation *)

Definition derive_eval_split (namespace dataset_revision split_role : pystr) (tasks : list T)
    (task_hash_of : T → pystr) (procedure : EvalProcedureConfig) (aggregation : AggregationConfig)
    (num_seeds : Z) : result (EvalSplit T) :=
  require (negb (num_seeds <? 1)%Z) ValueError "num_seeds must be at least 1" ;;
  let task_hashes := task_hash_of <$> tasks in
  let id := namespace ++ $"." ++ split_role in
  task_set ← TaskSet_validate
    {| ts_manifest_id := id; ts_version := DEFINITION_VERSION;
       ts_dataset_revision := dataset_revision; ts_task_hashes := task_hashes;
       ts_selection_rule := None |};
  seed_plan ← SeedPlan_validate
    {| sp_plan_id := id; sp_version := DEFINITION_VERSION; sp_task_hashes := task_hashes;
       sp_num_seeds := num_seeds; sp_rng_seeds := [] |};
  task_set_hash ← TaskSet_identity_hash task_set;
  seed_plan_hash ← SeedPlan_identity_hash seed_plan;
  sampling ← SamplingDefinition_materialize
    {| sd_definition_id := id ++ $".sampling"; sd_version := DEFINITION_VERSION;
       sd_variables := sampling_variables |}
    [($"task_set_hash", PStr task_set_hash); ($"seed_plan_hash", PStr seed_plan_hash)];
  eval_config ← EvalDefinition_materialize
    {| ed_definition_id := namespace ++ $".eval"; ed_version := DEFINITION_VERSION;
       ed_variables := eval_variables |} sampling procedure aggregation;
  Ok {| es_split_role := split_role; es_tasks := tasks; es_task_set := task_set;
        es_seed_plan := seed_plan; es_sampling_config := sampling;
        es_procedure_config := procedure; es_aggregation_config := aggregation;
        es_eval_config := eval_config |}.
End Sampling.
Arguments ExperimentEvalConfigs : clear implicits.

(** ** Theorems *)

Section SamplingTheorems.
Context `{DSer : !DrSerialize, DText : !FloatText} {T : Type}.

(** The task hashes of a split. *)
Definition split_hashes (s : EvalSplit T) : list pystr := ts_task_hashes (es_task_set s).

Definition disjoint_splits (a b : EvalSplit T) : Prop :=
  ∀ h, h ∈ split_hashes a → h ∉ split_hashes b.

Lemma shared_hashes_nil a b : length (shared_hashes a b) = 0%nat ↔ disjoint_splits a b.
Proof.
  rewrite length_zero_iff_nil. unfold disjoint_splits, shared_hashes, split_hashes. split.
  - intros Hnil h Ha Hb. assert (h ∈ @nil pystr) as Hin; [|by apply elem_of_nil in Hin].
    rewrite <-Hnil. by apply list_elem_of_filter.
  - intros Hdis. destruct (filter _ _) as [|h l] eqn:E; [done|].
    assert (h ∈ h :: l) as Hin by constructor. rewrite <-E in Hin.
    apply list_elem_of_filter in Hin as [Hb Ha]. by destruct (Hdis h Ha).
Qed.

Lemma check_against_Ok lhs later :
  check_against lhs later = Ok tt ↔
  Forall (λ rhs : pystr * EvalSplit T, disjoint_splits lhs.2 rhs.2) later.
Proof.
  induction later as [|rhs later IH]; simpl; [by split; [constructor|]|].
  rewrite Forall_cons, <-IH, <-shared_hashes_nil. case_bool_decide as Hs; simpl; [tauto|].
  case_match; simpl; naive_solver.
Qed.

Definition member_split (s : EvalSplit T) (role : pystr) (hash : pystr) : Prop :=
  es_split_role s = role ∧ epc_config_hash (es_procedure_config s) = hash ∧
  ec_evaluation_procedure_config_hash (es_eval_config s) = hash.

(** Every present split has its role and the experiment's procedure. *)
Definition well_formed_splits (c : ExperimentEvalConfigs T) : Prop :=
  member_split (xc_internal c) INTERNAL_EVAL (xc_procedure_config_hash c) ∧
  member_split (xc_official c) OFFICIAL_SPLIT (xc_procedure_config_hash c) ∧
  ∀ s, xc_held_out c = Some s → member_split s HELD_OUT_SPLIT (xc_procedure_config_hash c).

Lemma validate_well_formed c :
  well_formed_splits c → ExperimentEvalConfigs_validate c = (check_pairs (splits c) ;; Ok c).
Proof.
  intros ((Hr1 & Hp1 & Hq1) & (Hr2 & Hp2 & Hq2) & Hh).
  unfold ExperimentEvalConfigs_validate, check_role, check_procedure, assert_split_disjointness.
  rewrite !require_bool_decide by done. destruct (xc_held_out c) as [s|] eqn:Hs.
  - destruct (Hh s eq_refl) as (Hr3 & Hp3 & Hq3). rewrite !require_bool_decide by done.
    by destruct (check_pairs (splits c)).
  - by destruct (check_pairs (splits c)).
Qed.

Lemma validate_Ok_well_formed c :
  ExperimentEvalConfigs_validate c = Ok c → well_formed_splits c.
Proof.
  unfold ExperimentEvalConfigs_validate, check_role, check_procedure, well_formed_splits,
    member_split. intros H.
  destruct (xc_held_out c) as [s|] eqn:Hs; inv_ok; split_and!; try done; by intros s' [= <-].
Qed.

(** The pairs of the present splits. *)
Lemma check_pairs_Ok c :
  check_pairs (splits c) = Ok tt ↔
  disjoint_splits (xc_internal c) (xc_official c) ∧
  ∀ s, xc_held_out c = Some s →
    disjoint_splits (xc_internal c) s ∧ disjoint_splits (xc_official c) s.
Proof.
  assert (∀ l, check_pairs (T:=T) l = Ok tt ↔
    match l with [] => True | x :: l => check_against x l = Ok tt ∧ check_pairs l = Ok tt end)
    as Hstep.
  { intros [|x l]; simpl; [done|]. destruct (check_against x l) as [[]|]; simpl; naive_solver. }
  unfold splits. destruct (xc_held_out c) as [s|]; simpl app; rewrite !Hstep, !check_against_Ok,
    !Forall_cons, !Forall_nil; naive_solver.
Qed.

(** C24. The eval configs of an experiment cannot leak. They are accepted
    exactly when every present split carries its own role, was derived with and
    persists the experiment's procedure, and no task hash belongs to two
    splits. Of splits that pass the other checks, an overlap of the internal
    and the official split raises [SplitOverlapError], whatever the held-out
    split holds, and a held-out task in either of them raises
    [HeldOutReferencedError] only when these two are disjoint. *)
Theorem eval_configs_cannot_leak (c : ExperimentEvalConfigs T) :
  (ExperimentEvalConfigs_validate c = Ok c ↔
     well_formed_splits c ∧ disjoint_splits (xc_internal c) (xc_official c) ∧
     ∀ s, xc_held_out c = Some s →
       disjoint_splits (xc_internal c) s ∧ disjoint_splits (xc_official c) s) ∧
  (well_formed_splits c → ¬ disjoint_splits (xc_internal c) (xc_official c) →
     ∃ msg, ExperimentEvalConfigs_validate c = raise SplitOverlapError msg) ∧
  (∀ s, well_formed_splits c → disjoint_splits (xc_internal c) (xc_official c) →
     xc_held_out c = Some s →
     ¬ (disjoint_splits (xc_internal c) s ∧ disjoint_splits (xc_official c) s) →
     ∃ msg, ExperimentEvalConfigs_validate c = raise HeldOutReferencedError msg).
Proof.
  rewrite <-check_pairs_Ok. split_and!.
  - split.
    + intros H. pose proof (validate_Ok_well_formed c H) as Hwf. split; [done|].
      rewrite validate_well_formed in H by done. by destruct (check_pairs (splits c)) as [[]|].
    + intros [Hwf Hpairs]. by rewrite validate_well_formed, Hpairs.
  - intros Hwf Hover. rewrite validate_well_formed by done. rewrite <-shared_hashes_nil in Hover.
    unfold splits. simpl. rewrite bool_decide_false by done. simpl. by eexists.
  - intros s Hwf Hdis Hs Hleak. rewrite validate_well_formed by done.
    unfold splits. rewrite Hs. simpl. apply shared_hashes_nil in Hdis.
    rewrite (bool_decide_true (length (shared_hashes (xc_internal c) (xc_official c)) = _)) by done.
    simpl.
    rewrite <-!shared_hashes_nil in Hleak.
    destruct (decide (length (shared_hashes (xc_internal c) s) = 0%nat)) as [H1|H1].
    + rewrite (bool_decide_true (length (shared_hashes (xc_internal c) s) = _)) by done. simpl.
      rewrite bool_decide_false by tauto. simpl. by eexists.
    + rewrite (bool_decide_false (length (shared_hashes (xc_internal c) s) = _)) by done. simpl.
      by eexists.
Qed.

(** ** Derived splits *)

Lemma sampling_assignment (a b : pystr) :
  resolve_assignment sampling_variables
    [($"task_set_hash", PStr a); ($"seed_plan_hash", PStr b)] =
  Ok [($"task_set_hash", PStr a); ($"seed_plan_hash", PStr b)].
Proof. reflexivity. Qed.

(** A derived split is consistent with itself: its task set and seed plan
    are valid and hold the hashes of its tasks, in order, and when its
    aggregation config encodes a completeness policy its matrix plan passes
    every check of [EvalMatrixPlan]. *)
Theorem derive_eval_split_consistent namespace revision split_role (tasks : list T) task_hash_of
    procedure aggregation num_seeds s p :
  derive_eval_split namespace revision split_role tasks task_hash_of procedure aggregation
    num_seeds = Ok s →
  policy_from_aggregation_config aggregation = Ok p →
  split_hashes s = task_hash_of <$> tasks ∧ NoDup (split_hashes s) ∧
  SeedPlan_validate (es_seed_plan s) = Ok (es_seed_plan s) ∧
  sp_num_seeds (es_seed_plan s) = num_seeds ∧
  member_split s split_role (epc_config_hash procedure) ∧
  evaluation_matrix_plan s = Ok (matrix_plan_fields s).
Proof.
  intros H Hpol. unfold derive_eval_split in H.
  apply bind_Ok in H as (u & _ & H). apply bind_Ok in H as (task_set & Hts & H).
  apply bind_Ok in H as (seed_plan & Hsp & H). apply bind_Ok in H as (th & Hth & H).
  apply bind_Ok in H as (sh & Hsh & H). apply bind_Ok in H as (sampling & Hsampling & H).
  apply bind_Ok in H as (eval_config & Heval & H). injection H as <-.
  assert (ts_task_hashes task_set = task_hash_of <$> tasks ∧ ts_selection_rule task_set = None ∧
    NoDup (task_hash_of <$> tasks)) as (Htasks & Hrule & Hnd).
  { unfold TaskSet_validate in Hts. inv_ok. done. }
  assert (SeedPlan_validate seed_plan = Ok seed_plan ∧ sp_task_hashes seed_plan =
    task_hash_of <$> tasks ∧ sp_num_seeds seed_plan = num_seeds) as (Hvalid & Hhashes & Hseeds).
  { pose proof Hsp as Hsp'. unfold SeedPlan_validate in Hsp'. inv_ok. done. }
  unfold SamplingDefinition_materialize in Hsampling. simpl sd_variables in Hsampling.
  rewrite sampling_assignment, bind_Ok_l in Hsampling.
  assert (sc_assignment sampling = [($"task_set_hash", PStr th); ($"seed_plan_hash", PStr sh)])
    as Hassign by (unfold SamplingConfig_create in Hsampling; inv_ok; done).
  unfold EvalDefinition_materialize, EvalConfig_create in Heval. inv_ok.
  unfold split_hashes. simpl es_task_set. rewrite Htasks.
  split_and!; try done.
  unfold evaluation_matrix_plan, EvalMatrixPlan_validate, matrix_plan_fields. simpl.
  rewrite !require_bool_decide by congruence. simpl.
  unfold SamplingConfig_assignment_dict. rewrite Hassign, Hth, bind_Ok_l, Hsh, bind_Ok_l.
  assert (∀ x : pystr, py_eq (PStr x) (PStr x) = true) as Heq by (intros; by apply py_eq_PStr).
  unfold assigned. simpl dict_get. simpl default. rewrite !Heq, Hrule. simpl. by rewrite Hpol.
Qed.
End SamplingTheorems.

(** ** A concrete split *)
Section SamplingWitnesses.
Import Concrete.
#[local] Existing Instance half_text.

(** Splits over the given task hashes that share one procedure. *)
Definition example_split (split_role : pystr) (hashes : list pystr) : EvalSplit pystr :=
  {| es_split_role := split_role; es_tasks := hashes;
     es_task_set :=
       {| ts_manifest_id := $"m"; ts_version := $"1"; ts_dataset_revision := $"r";
          ts_task_hashes := hashes; ts_selection_rule := None |};
     es_seed_plan := emp_seed_plan example_matrix_plan;
     es_sampling_config := emp_sampling_config example_matrix_plan;
     es_procedure_config :=
       {| epc_definition_ref := blank_definition; epc_preprocessing_config_hash := [];
          epc_metric_extraction_config_hash := []; epc_assignment := [];
          epc_config_hash := [] |};
     es_aggregation_config := emp_aggregation_config example_matrix_plan;
     es_eval_config := emp_eval_config example_matrix_plan |}.

Definition example_configs (held_out : list pystr) : ExperimentEvalConfigs pystr :=
  {| xc_env_name := $"env"; xc_procedure_config_hash := [];
     xc_internal := example_split INTERNAL_EVAL [$"a"; $"b"];
     xc_official := example_split OFFICIAL_SPLIT [$"c"];
     xc_held_out := Some (example_split HELD_OUT_SPLIT held_out) |}.

Definition overlapping_configs (held_out : list pystr) : ExperimentEvalConfigs pystr :=
  {| xc_env_name := $"env"; xc_procedure_config_hash := [];
     xc_internal := example_split INTERNAL_EVAL [$"a"; $"b"];
     xc_official := example_split OFFICIAL_SPLIT [$"b"; $"c"];
     xc_held_out := Some (example_split HELD_OUT_SPLIT held_out) |}.

(** A held-out task [c] that is also official is refused as a leak, unless the
    official split overlaps the internal one as well. *)
Lemma eval_configs_cannot_leak_witness :
  ExperimentEvalConfigs_validate (example_configs [$"d"]) = Ok (example_configs [$"d"]) ∧
  (∃ msg, ExperimentEvalConfigs_validate (example_configs [$"d"; $"c"]) =
    raise HeldOutReferencedError msg) ∧
  (∃ msg, ExperimentEvalConfigs_validate (overlapping_configs [$"c"]) =
    raise SplitOverlapError msg).
Proof.
  assert (∀ h, well_formed_splits (example_configs h)) as Hwf.
  { intros h. unfold well_formed_splits, member_split.
    split_and!; try reflexivity; intros s [= <-]; split_and!; reflexivity. }
  assert (∀ a b : EvalSplit pystr,
    bool_decide (Forall (λ h, h ∉ split_hashes b) (split_hashes a)) = true →
    disjoint_splits a b) as Hdis.
  { intros a b H%bool_decide_eq_true h Hh. rewrite Forall_forall in H. by apply H. }
  assert (disjoint_splits (xc_internal (example_configs [])) (xc_official (example_configs [])))
    as Hio by (apply Hdis; vm_compute; reflexivity).
  split_and!.
  - apply (eval_configs_cannot_leak (example_configs [$"d"])).
    split; [apply Hwf|]. split; [exact Hio|]. intros s [= <-].
    split; apply Hdis; vm_compute; reflexivity.
  - apply (proj2 (proj2 (eval_configs_cannot_leak (example_configs [$"d"; $"c"])))
      (example_split HELD_OUT_SPLIT [$"d"; $"c"])); [apply Hwf|exact Hio|reflexivity|].
    intros [_ Hleak]. apply (Hleak $"c"); apply (bool_decide_unpack _); vm_compute; reflexivity.
  - apply (proj1 (proj2 (eval_configs_cannot_leak (overlapping_configs [$"c"])))).
    + unfold well_formed_splits, member_split.
      split_and!; try reflexivity; intros s [= <-]; split_and!; reflexivity.
    + intros Hover. apply (Hover $"b"); apply (bool_decide_unpack _); vm_compute; reflexivity.
Defined.

Lemma derive_eval_split_consistent_witness :
  let procedure :=
    {| epc_definition_ref := blank_definition; epc_preprocessing_config_hash := [];
       epc_metric_extraction_config_hash := []; epc_assignment := [];
       epc_config_hash := replicate 64 48%Z |} in
  ∃ s, derive_eval_split $"env" $"r1" OFFICIAL_SPLIT [$"a"; $"b"] (λ t : pystr, t) procedure
         (emp_aggregation_config example_matrix_plan) 3 = Ok s ∧
    split_hashes s = [$"a"; $"b"] ∧
    evaluation_matrix_plan s = Ok (matrix_plan_fields s).
Proof.
  intros procedure.
  destruct (derive_eval_split $"env" $"r1" OFFICIAL_SPLIT [$"a"; $"b"] (λ t : pystr, t) procedure
    (emp_aggregation_config example_matrix_plan) 3) as [s|e] eqn:H;
    [|vm_compute in H; discriminate H].
  exists s. split; [reflexivity|].
  destruct (derive_eval_split_consistent $"env" $"r1" OFFICIAL_SPLIT [$"a"; $"b"] (λ t : pystr, t)
    procedure (emp_aggregation_config example_matrix_plan) 3 s
    {| cp_row_policy := PROPAGATE; cp_max_skip_fraction := fzero |} H)
    as (Hhashes & _ & _ & _ & _ & Hplan); [vm_compute; reflexivity|].
  split; [exact Hhashes|exact Hplan].
Defined.
End SamplingWitnesses.
