(* ===== verification/Process.v ===== *)
(** * Processes over a shared durable store

    The coordination code runs in several processes and threads that share one
    dr-store object store. This file gives the language the components of
    [coordination/] are written in, a step relation that interleaves any number
    of threads at every call that leaves the thread, and the proof rule used
    for them: a thread is [safe] when, whatever the other threads did to the
    store in between, each of its own calls keeps an invariant.

    The store is dr-store's: the class [DrObjectStore] names its operations and
    [DrObjectStoreLaws] states what the code relies on. *)

From S2P Require Import Prelude Floats Identity.

(** ** The object store *)

(** [BindStatus]; [OTHER_STATUS] stands for any status the code does not name. *)
Inductive BindStatus := BOUND | IDEMPOTENT | OTHER_STATUS.

#[export] Instance BindStatus_eq_dec : EqDecision BindStatus.
Proof. solve_decision. Defined.

Class DrObjectStore := {
  ostate : Type;
  store_put : ostate → pystr → pyval → result ObjectReference * ostate;
  store_get : ostate → ObjectReference → result pyval;
  store_resolve : ostate → pystr → option ObjectReference;
  store_bind : ostate → pystr → ObjectReference → result BindStatus * ostate;
}.

(** Objects and bindings are durable. *)
Record grows `{DrObjectStore} (s s' : ostate) : Prop := {
  grows_get : ∀ r v, store_get s r = Ok v → store_get s' r = Ok v;
  grows_resolve : ∀ k r, store_resolve s k = Some r → store_resolve s' k = Some r;
}.

(** Objects are addressed by their content and never change; the first binding
    of a key wins. *)
Class DrObjectStoreLaws `{!DrObjectStore, !DrStore} : Prop := {
  put_Ok s schema v r s' :
    store_put s schema v = (Ok r, s') → for_record schema v = Ok r ∧ store_get s' r = Ok v;
  for_record_schema schema v r : for_record schema v = Ok r → or_schema r = schema;
  put_resolve s schema v k : store_resolve (store_put s schema v).2 k = store_resolve s k;
  put_get s schema v r w :
    store_get s r = Ok w → store_get (store_put s schema v).2 r = Ok w;
  bind_get s k r r' : store_get (store_bind s k r).2 r' = store_get s r';
  bind_other s k r k' : k' ≠ k → store_resolve (store_bind s k r).2 k' = store_resolve s k';
  bind_first s k r r' :
    store_resolve s k = Some r' → store_resolve (store_bind s k r).2 k = Some r';
  bind_new s k r r' :
    store_resolve s k = None → store_resolve (store_bind s k r).2 k = Some r' → r' = r;
  bind_status s k r st s' : store_bind s k r = (Ok st, s') → store_resolve s' k = Some r;
  bind_conflict s k r e s' :
    store_bind s k r = (Err e, s') → exn_isa (exn_cls e) BindingConflictError = true →
    store_resolve s' k ≠ None;
}.

#[export] Instance grows_preorder `{!DrObjectStore} : PreOrder grows.
Proof. split; [by split|]. intros s1 s2 s3 [G1 R1] [G2 R2]. split; eauto. Qed.

Lemma put_grows `{DrObjectStoreLaws} s schema v : grows s (store_put s schema v).2.
Proof. split; intros; [by apply put_get|by rewrite put_resolve]. Qed.

Lemma bind_grows `{DrObjectStoreLaws} s k r : grows s (store_bind s k r).2.
Proof.
  split; [intros; by rewrite bind_get|]. intros k' r' Hr.
  destruct (decide (k' = k)) as [->|]; [by apply bind_first|by rewrite bind_other].
Qed.

(** ** The calls a thread makes

    [Start] starts a thread running a job, [Stop] sets its stop event and
    [Join] waits for its end; [Wait] is [stop.wait(interval)] of the running
    thread. [Clock] reads the clock; [Ask] and [Compute] are calls of
    collaborators (a callback, a validation of evidence, the engine). Nothing is
    assumed of the clock's readings nor of what collaborators answer or raise. *)
Inductive effect {Job Outcome Answer : Type} : Type → Type :=
| Put (schema : pystr) (content : pyval) : effect (result ObjectReference)
| Get (reference : ObjectReference) : effect (result pyval)
| Resolve (key : pystr) : effect (option ObjectReference)
| BindKey (key : pystr) (reference : ObjectReference) : effect (result BindStatus)
| Start (job : Job) : effect nat
| Stop (thread : nat) : effect unit
| Join (thread : nat) : effect Outcome
| Wait (interval : float) : effect bool
| Clock : effect float
| Ask (callee : string) : effect (result unit)
| Compute (callee : string) : effect (result Answer).
Arguments effect : clear implicits.

(** A program: it returns, raises, makes a call, or has used up the number of
    turns its loops were given ([Spin]). *)
Inductive prog {Job Outcome Answer A : Type} : Type :=
| Ret (a : A)
| Throw (e : exn)
| Spin
| Vis {X : Type} (e : effect Job Outcome Answer X) (k : X → prog).
Arguments prog : clear implicits.

Section Programs.
Context {Job Outcome Answer : Type}.
Abbreviation program := (prog Job Outcome Answer).

#[export] Instance prog_ret : MRet program := λ A a, Ret a.
#[export] Instance prog_bind : MBind program := λ A B f,
  fix go p :=
    match p with
    | Ret a => f a
    | Throw e => Throw e
    | Spin => Spin
    | Vis e k => Vis e (λ x, go (k x))
    end.

Definition vis {X} (e : effect Job Outcome Answer X) : program X := Vis e Ret.

(** A pure computation that may raise. *)
Definition run_result {A} (r : result A) : program A :=
  match r with Ok a => Ret a | Err e => Throw e end.

Lemma run_result_bind {A B} (a : A) (f : A → program B) : (run_result (Ok a) ≫= f) = f a.
Proof. done. Qed.

(** [if not b: raise c(msg)]. *)
Definition check (b : bool) (c : exn_class) (msg : string) : program unit :=
  run_result (require b c msg).

Definition throw {A} (c : exn_class) (msg : string) : program A := Throw (Raise c msg).

(** [try: p except Exception as exc: h(exc)]. *)
Fixpoint catch {A} (p : program A) (h : exn → program A) : program A :=
  match p with
  | Ret a => Ret a
  | Throw e => h e
  | Spin => Spin
  | Vis e k => Vis e (λ x, catch (k x) h)
  end.

(** [try: p finally: q]. *)
Fixpoint finally {A} (p : program A) (q : program unit) : program A :=
  match p with
  | Ret a => q ≫= λ _, Ret a
  | Throw e => q ≫= λ _, Throw e
  | Spin => Spin
  | Vis e k => Vis e (λ x, finally (k x) q)
  end.

(** [store.put(schema, content)] and [store.get(reference)], which may raise. *)
Definition put (schema : pystr) (content : pyval) : program ObjectReference :=
  vis (Put schema content) ≫= run_result.
Definition get (reference : ObjectReference) : program pyval :=
  vis (Get reference) ≫= run_result.
Definition resolve (key : pystr) : program (option ObjectReference) := vis (Resolve key).

(** [store.bind(key, reference)], and the same inside
    [try: ... except BindingConflictError: status = None]. *)
Definition bind (key : pystr) (reference : ObjectReference) : program BindStatus :=
  vis (BindKey key reference) ≫= run_result.

Definition try_bind (key : pystr) (reference : ObjectReference) : program (option BindStatus) :=
  answer ← vis (BindKey key reference);
  match answer with
  | Ok status => Ret (Some status)
  | Err e => if exn_isa (exn_cls e) BindingConflictError then Ret None else Throw e
  end.

Definition clock : program float := vis Clock.
Definition ask (callee : string) : program unit := vis (Ask callee) ≫= run_result.
Definition compute (callee : string) : program Answer := vis (Compute callee) ≫= run_result.

(** ** Interleaving *)

Context `{DSto : !DrStore, DOs : !DrObjectStore}.

Record thread := {
  th_job : Job;
  th_prog : program Outcome;
  th_stop : bool;
}.

Record config := {
  cf_store : ostate;
  cf_threads : list thread;
}.

Definition continue (p : program Outcome) (t : thread) : thread :=
  {| th_job := th_job t; th_prog := p; th_stop := th_stop t |}.
Definition request_stop (t : thread) : thread :=
  {| th_job := th_job t; th_prog := th_prog t; th_stop := true |}.

Variable code : Job → program Outcome.

Definition new_thread (j : Job) : thread :=
  {| th_job := j; th_prog := code j; th_stop := false |}.

(** Thread [i] makes the call [e]: its answer and the configuration after. *)
Definition performs {X} (i : nat) (e : effect Job Outcome Answer X) (c : config) :
    X → config → Prop :=
  let same c' := cf_threads c' = cf_threads c in
  match e in effect _ _ _ X return X → config → Prop with
  | Put schema v => λ x c', store_put (cf_store c) schema v = (x, cf_store c') ∧ same c'
  | Get r => λ x c', x = store_get (cf_store c) r ∧ c' = c
  | Resolve k => λ x c', x = store_resolve (cf_store c) k ∧ c' = c
  | BindKey k r => λ x c', store_bind (cf_store c) k r = (x, cf_store c') ∧ same c'
  | Start j => λ x c', x = length (cf_threads c) ∧
      c' = {| cf_store := cf_store c; cf_threads := cf_threads c ++ [new_thread j] |}
  | Stop n => λ _ c',
      c' = {| cf_store := cf_store c; cf_threads := alter request_stop n (cf_threads c) |}
  | Join n => λ x c', c' = c ∧
      ∃ t, cf_threads c !! n = Some t ∧ th_prog t = Ret x
  | Wait _ => λ x c', c' = c ∧ (x = true → ∃ t, cf_threads c !! i = Some t ∧ th_stop t = true)
  | Clock | Ask _ | Compute _ => λ _ c', c' = c
  end.

(** The jobs that may arrive from outside at any time. *)
Variable external : Job → Prop.

Inductive step (c : config) : config → Prop :=
| step_arrive j :
    external j →
    step c {| cf_store := cf_store c; cf_threads := cf_threads c ++ [new_thread j] |}
| step_call i t X (e : effect Job Outcome Answer X) k x c' :
    cf_threads c !! i = Some t → th_prog t = Vis e k → performs i e c x c' →
    step c {| cf_store := cf_store c';
              cf_threads := alter (continue (k x)) i (cf_threads c') |}.

(** ** Running a schedule

    One step of thread [i], with what the clock and the collaborators answer:
    the executable counterpart of [step]. *)
Record oracle := {
  or_time : float;
  or_ask : result unit;
  or_compute : result Answer;
}.

Definition run_call {X} (i : nat) (o : oracle) (c : config) (e : effect Job Outcome Answer X) :
    option (X * config) :=
  match e in effect _ _ _ X return option (X * config) with
  | Put schema v =>
      let '(x, s) := store_put (cf_store c) schema v in
      Some (x, {| cf_store := s; cf_threads := cf_threads c |})
  | Get r => Some (store_get (cf_store c) r, c)
  | Resolve k => Some (store_resolve (cf_store c) k, c)
  | BindKey k r =>
      let '(x, s) := store_bind (cf_store c) k r in
      Some (x, {| cf_store := s; cf_threads := cf_threads c |})
  | Start j =>
      Some (length (cf_threads c),
            {| cf_store := cf_store c; cf_threads := cf_threads c ++ [new_thread j] |})
  | Stop n =>
      Some (tt, {| cf_store := cf_store c; cf_threads := alter request_stop n (cf_threads c) |})
  | Join n =>
      match cf_threads c !! n with
      | Some {| th_prog := Ret x |} => Some (x, c)
      | _ => None
      end
  | Wait _ => Some (match cf_threads c !! i with Some t => th_stop t | None => false end, c)
  | Clock => Some (or_time o, c)
  | Ask _ => Some (or_ask o, c)
  | Compute _ => Some (or_compute o, c)
  end.

Definition run_step (i : nat) (o : oracle) (c : config) : option config :=
  t ← cf_threads c !! i;
  match th_prog t with
  | Vis e k =>
      '(x, c') ← run_call i o c e;
      Some {| cf_store := cf_store c'; cf_threads := alter (continue (k x)) i (cf_threads c') |}
  | _ => None
  end.

(** Turns that cannot be taken are skipped. *)
Fixpoint run_schedule (schedule : list (nat * oracle)) (c : config) : config :=
  match schedule with
  | [] => c
  | (i, o) :: schedule => run_schedule schedule (default c (run_step i o c))
  end.

Lemma run_call_performs {X} i o c (e : effect Job Outcome Answer X) x c' :
  run_call i o c e = Some (x, c') → performs i e c x c'.
Proof.
  destruct e as [schema v|r|k|k r|j|n|n|w| |s|s]; simpl; intros H; try by simplify_eq.
  - destruct (store_put _ _ _) as [y s] eqn:E. by simplify_eq.
  - destruct (store_bind _ _ _) as [y s] eqn:E. by simplify_eq.
  - destruct (cf_threads c !! n) as [[j p b]|] eqn:E; [|done].
    destruct p; simplify_eq. split; [done|]. by eexists.
  - destruct (cf_threads c !! i) as [t|] eqn:E; simplify_eq; [|done].
    split; [done|]. intros Ht. by exists t.
Qed.

Lemma run_schedule_steps schedule c : rtc step c (run_schedule schedule c).
Proof.
  revert c. induction schedule as [|[i o] schedule IH]; intros c; simpl; [done|].
  destruct (run_step i o c) as [c'|] eqn:E; simpl; [|apply IH].
  eapply rtc_l; [|apply IH]. unfold run_step in E.
  destruct (cf_threads c !! i) as [t|] eqn:Hi; simpl in E; [|done].
  destruct (th_prog t) as [| | |X e k] eqn:Ht; try done.
  destruct (run_call i o c e) as [[x c1]|] eqn:Hc; simpl in E; [|done].
  injection E as <-. eapply step_call; [done..|]. by eapply run_call_performs.
Qed.

(** ** Safe programs *)

(** What a call does to the store and may answer, the other threads aside. *)
Definition store_effect {X} (e : effect Job Outcome Answer X) (s : ostate) : X → ostate → Prop :=
  match e in effect _ _ _ X return X → ostate → Prop with
  | Put schema v => λ x s', store_put s schema v = (x, s')
  | Get r => λ x s', x = store_get s r ∧ s' = s
  | Resolve k => λ x s', x = store_resolve s k ∧ s' = s
  | BindKey k r => λ x s', store_bind s k r = (x, s')
  | _ => λ _ s', s' = s
  end.

(** The invariant of the store and the jobs that may be started. *)
Variables (inv : ostate → Prop) (startable : Job → Prop).

Definition call_allowed {X} (e : effect Job Outcome Answer X) : Prop :=
  match e with Start j => startable j | _ => True end.

(** [safe p Φ E s]: from the store [s] on, whatever other threads append to the
    store as long as they keep the invariant, every call of [p] keeps it, a
    return satisfies [Φ] and an exception satisfies [E]. *)
Fixpoint safe {A} (p : program A) (Φ : A → ostate → Prop) (E : exn → ostate → Prop)
    (s : ostate) : Prop :=
  match p with
  | Ret a => Φ a s
  | Throw e => E e s
  | Spin => True
  | Vis e k => call_allowed e ∧
      ∀ s1 x s2, grows s s1 → inv s1 → store_effect e s1 x s2 → inv s2 ∧ safe (k x) Φ E s2
  end.
End Programs.
Abbreviation program := (prog _ _ _).
Arguments thread : clear implicits.
Arguments config Job Outcome Answer {DOs}.

(** A property of results that the growth of the store preserves. *)
Definition stable `{!DrObjectStore} {A} (Φ : A → ostate → Prop) : Prop :=
  ∀ a s s', grows s s' → Φ a s → Φ a s'.

(** ** Rules for safe programs *)
Section Rules.
Context {Job Outcome Answer : Type}.
Context `{DOs : !DrObjectStore, DSto : !DrStore, DLaws : !DrObjectStoreLaws}.
Variables (inv : ostate → Prop) (startable : Job → Prop).
Abbreviation program := (prog Job Outcome Answer).
Abbreviation safe := (safe (Job:=Job) (Outcome:=Outcome) (Answer:=Answer) inv startable).

Lemma store_effect_grows {X} (e : effect Job Outcome Answer X) s x s' :
  store_effect e s x s' → grows s s'.
Proof.
  destruct e; simpl; intros He; try first [by rewrite He|by rewrite (proj2 He)].
  - pose proof (put_grows s schema content) as Hg. by rewrite He in Hg.
  - pose proof (bind_grows s key reference) as Hg. by rewrite He in Hg.
Qed.

(** Safety survives what other threads append. *)
Lemma safe_grows {A} (p : program A) Φ E s s' :
  stable Φ → stable E → grows s s' → safe p Φ E s → safe p Φ E s'.
Proof.
  intros HΦ HE Hg. destruct p as [a|e| |X e k]; simpl; [by apply HΦ|by apply HE|done|].
  intros [Hc Hk]. split; [done|]. intros s1 x s2 Hg1. apply Hk. by transitivity s'.
Qed.

Lemma safe_weaken {A} (p : program A) (Φ Φ' : A → ostate → Prop) (E E' : exn → ostate → Prop) s :
  (∀ a s', grows s s' → Φ a s' → Φ' a s') → (∀ e s', grows s s' → E e s' → E' e s') →
  safe p Φ E s → safe p Φ' E' s.
Proof.
  revert s. induction p as [a|e| |X e k IH]; simpl; intros s HΦ HE; [by apply HΦ|by apply HE|done|].
  intros [Hc Hk]. split; [done|]. intros s1 x s2 Hg Hinv He.
  destruct (Hk s1 x s2 Hg Hinv He) as [Hi Hs]. split; [done|].
  apply store_effect_grows in He. apply IH; [| |done];
    intros ? s' Hg'; [apply HΦ|apply HE]; (do 2 (etransitivity; [eassumption|]); done).
Qed.

Lemma safe_bind {A B} (p : program A) (f : A → program B) Φ Ψ E s :
  safe p Φ E s → (∀ a s', grows s s' → Φ a s' → safe (f a) Ψ E s') → safe (p ≫= f) Ψ E s.
Proof.
  revert s. induction p as [a|e| |X e k IH]; simpl; intros s Hp Hf; [by apply Hf|done|done|].
  destruct Hp as [Hc Hk]. split; [done|]. intros s1 x s2 Hg Hinv He.
  destruct (Hk s1 x s2 Hg Hinv He) as [Hi Hs]. split; [done|].
  apply store_effect_grows in He. apply (IH x); [done|]. intros a s' Hg'. apply Hf.
  do 2 (etransitivity; [eassumption|]). done.
Qed.

Lemma safe_catch {A} (p : program A) h Φ E E' s :
  safe p Φ E s → (∀ e s', grows s s' → E e s' → safe (h e) Φ E' s') → safe (catch p h) Φ E' s.
Proof.
  revert s. induction p as [a|e| |X e k IH]; simpl; intros s Hp Hh; [done|by apply Hh|done|].
  destruct Hp as [Hc Hk]. split; [done|]. intros s1 x s2 Hg Hinv He.
  destruct (Hk s1 x s2 Hg Hinv He) as [Hi Hs]. split; [done|].
  apply store_effect_grows in He. apply (IH x); [done|]. intros a s' Hg'. apply Hh.
  do 2 (etransitivity; [eassumption|]). done.
Qed.

Lemma safe_finally {A} (p : program A) q Φ E s :
  stable Φ → stable E → safe p Φ E s → (∀ s', grows s s' → safe q (λ _ _, True) E s') →
  safe (finally p q) Φ E s.
Proof.
  intros HΦ HE. revert s. induction p as [a|e| |X e k IH]; simpl; intros s Hp Hq; [| |done|].
  - eapply safe_bind; [by apply Hq|]. intros ? s' Hg _. simpl. by eapply HΦ.
  - eapply safe_bind; [by apply Hq|]. intros ? s' Hg _. simpl. by eapply HE.
  - destruct Hp as [Hc Hk]. split; [done|]. intros s1 x s2 Hg Hinv He.
    destruct (Hk s1 x s2 Hg Hinv He) as [Hi Hs]. split; [done|].
    apply store_effect_grows in He. apply IH; [done|]. intros s' Hg'. apply Hq.
    do 2 (etransitivity; [eassumption|]). done.
Qed.

Lemma safe_run_result {A} (r : result A) (Φ : A → ostate → Prop) E s :
  (∀ a, r = Ok a → Φ a s) → (∀ e, r = Err e → E e s) → safe (run_result r) Φ E s.
Proof. destruct r; simpl; auto. Qed.

Lemma safe_check b c msg (Φ : unit → ostate → Prop) E s :
  (b = true → Φ tt s) → (b = false → E (Raise c msg) s) → safe (check b c msg) Φ E s.
Proof. unfold check. destruct b; simpl; auto. Qed.

Lemma safe_check_bind {B} b c msg (f : unit → program B) Φ E s :
  (b = true → safe (f tt) Φ E s) → (b = false → E (Raise c msg) s) →
  safe (check b c msg ≫= f) Φ E s.
Proof. unfold check. destruct b; simpl; auto. Qed.

Lemma safe_run_bind {A B} (r : result A) (f : A → program B) Φ E s :
  (∀ a, r = Ok a → safe (f a) Φ E s) → (∀ e, r = Err e → E e s) →
  safe (run_result r ≫= f) Φ E s.
Proof. destruct r; simpl; auto. Qed.

(** The calls, each followed by the rest of the program. *)
Lemma safe_get {B} r (f : pyval → program B) Φ E s :
  (∀ s1, grows s s1 → inv s1 → safe (run_result (store_get s1 r) ≫= f) Φ E s1) →
  safe (get r ≫= f) Φ E s.
Proof. intros Hf. split; [done|]. intros s1 x s2 Hg Hinv [-> ->]. split; [done|]. by apply Hf. Qed.

Lemma safe_resolve {B} k (f : option ObjectReference → program B) Φ E s :
  (∀ s1, grows s s1 → inv s1 → safe (f (store_resolve s1 k)) Φ E s1) →
  safe (resolve k ≫= f) Φ E s.
Proof. intros Hf. split; [done|]. intros s1 x s2 Hg Hinv [-> ->]. split; [done|]. by apply Hf. Qed.

Lemma safe_put {B} schema v (f : ObjectReference → program B) Φ E s :
  (∀ s1, inv s1 → inv (store_put s1 schema v).2) →
  (∀ s1 r, grows s s1 → inv s1 → for_record schema v = Ok r → store_get s1 r = Ok v →
     safe (f r) Φ E s1) →
  (∀ e s1, grows s s1 → E e s1) → safe (put schema v ≫= f) Φ E s.
Proof.
  intros Hput Hf HE. split; [done|]. intros s1 x s2 Hg Hinv He. simpl in He.
  pose proof (Hput s1 Hinv) as Hinv2. pose proof (put_grows s1 schema v) as Hg2.
  rewrite He in Hinv2, Hg2. simpl in *. split; [done|].
  destruct x as [r|e]; simpl; [|by apply HE; transitivity s1].
  destruct (put_Ok s1 schema v r s2 He) as [Hr Hv]. apply Hf; [by transitivity s1|done..].
Qed.

Lemma safe_call {X B} (e : effect Job Outcome Answer X) (f : X → program B) Φ E s :
  call_allowed startable e → (∀ s1 x s2, store_effect e s1 x s2 → s2 = s1) →
  (∀ s1 x, grows s s1 → inv s1 → safe (f x) Φ E s1) → safe (vis e ≫= f) Φ E s.
Proof.
  intros Ha Hread Hf. split; [done|]. intros s1 x s2 Hg Hinv He.
  pose proof (Hread _ _ _ He) as ->. split; [done|]. by apply Hf.
Qed.

Lemma safe_clock {B} (f : float → program B) Φ E s :
  (∀ s1 now, grows s s1 → inv s1 → safe (f now) Φ E s1) → safe (clock ≫= f) Φ E s.
Proof. by apply safe_call. Qed.

Lemma safe_ask {B} callee (f : unit → program B) Φ E s :
  (∀ s1, grows s s1 → inv s1 → safe (f tt) Φ E s1) → (∀ e s1, grows s s1 → E e s1) →
  safe (ask callee ≫= f) Φ E s.
Proof.
  intros Hf HE. split; [done|]. intros s1 x s2 Hg Hinv ->. split; [done|].
  destruct x as [[]|e]; simpl; auto.
Qed.

Lemma safe_compute {B} callee (f : Answer → program B) Φ E s :
  (∀ s1 x, grows s s1 → inv s1 → safe (f x) Φ E s1) → (∀ e s1, grows s s1 → E e s1) →
  safe (compute callee ≫= f) Φ E s.
Proof.
  intros Hf HE. split; [done|]. intros s1 x s2 Hg Hinv ->. split; [done|].
  destruct x as [x|e]; simpl; auto.
Qed.

(** Binding a key: afterwards it is bound, to [r] when the store accepted. *)
Lemma safe_try_bind {B} k r (f : option BindStatus → program B) Φ E s :
  (∀ s1, grows s s1 → inv s1 → inv (store_bind s1 k r).2) →
  (∀ s1 status, grows s s1 → inv s1 →
     match status with Some _ => store_resolve s1 k = Some r | None => store_resolve s1 k ≠ None end →
     safe (f status) Φ E s1) →
  (∀ e s1, grows s s1 → E e s1) → safe (try_bind k r ≫= f) Φ E s.
Proof.
  intros Hbind Hf HE. split; [done|]. intros s1 x s2 Hg Hinv He. simpl in He.
  pose proof (Hbind s1 Hg Hinv) as Hinv2. pose proof (bind_grows s1 k r) as Hg2.
  rewrite He in Hinv2, Hg2. simpl in *. split; [done|]. assert (grows s s2) by (by transitivity s1).
  destruct x as [st|e]; simpl.
  - apply Hf; [done..|]. by eapply bind_status.
  - destruct (exn_isa _ _) eqn:Hisa; simpl; [|by apply HE].
    apply Hf; [done..|]. by eapply bind_conflict.
Qed.

Lemma safe_bind_key {B} k r (f : BindStatus → program B) Φ E s :
  (∀ s1, grows s s1 → inv s1 → inv (store_bind s1 k r).2) →
  (∀ s1 status, grows s s1 → inv s1 → safe (f status) Φ E s1) →
  (∀ e s1, grows s s1 → E e s1) → safe (bind k r ≫= f) Φ E s.
Proof.
  intros Hbind Hf HE. split; [done|]. intros s1 x s2 Hg Hinv He. simpl in He.
  pose proof (Hbind s1 Hg Hinv) as Hinv2. pose proof (bind_grows s1 k r) as Hg2.
  rewrite He in Hinv2, Hg2. simpl in *. split; [done|]. assert (grows s s2) by (by transitivity s1).
  destruct x as [st|e]; simpl; auto.
Qed.
End Rules.

(** ** Soundness of the rules

    When every job that may start is safe, every configuration reached from a
    store that satisfies the invariant satisfies it, and every thread that
    returned established what its job promises. *)
Section Soundness.
Context {Job Outcome Answer : Type}.
Context `{DOs : !DrObjectStore, DSto : !DrStore, DLaws : !DrObjectStoreLaws}.
Variables (inv : ostate → Prop) (startable external : Job → Prop).
Variable code : Job → prog Job Outcome Answer Outcome.
Variable post : Job → Outcome → ostate → Prop.

Hypothesis post_stable : ∀ j, stable (post j).
Hypothesis external_startable : ∀ j, external j → startable j.
Hypothesis code_safe : ∀ j s, startable j → inv s →
  safe inv startable (code j) (post j) (λ _ _, True) s.

Definition thread_ok (s : ostate) (t : thread Job Outcome Answer) : Prop :=
  startable (th_job t) ∧
  safe inv startable (th_prog t) (post (th_job t)) (λ _ _, True) s.

Definition config_ok (c : config Job Outcome Answer) : Prop :=
  inv (cf_store c) ∧ Forall (thread_ok (cf_store c)) (cf_threads c).

Lemma performs_store_effect {X} i (e : effect Job Outcome Answer X) c x c' :
  performs code i e c x c' → store_effect e (cf_store c) x (cf_store c').
Proof.
  destruct e; simpl; intros He; try first [by rewrite He|by rewrite (proj1 He)|by destruct He as [? ->]].
Qed.

Lemma thread_ok_grows s s' t : grows s s' → thread_ok s t → thread_ok s' t.
Proof.
  intros Hg [Hj Hs]. split; [done|]. eapply safe_grows; [apply post_stable|by intros ? ? ? _ ?|done..].
Qed.

Lemma threads_ok_grows s s' ts :
  grows s s' → Forall (thread_ok s) ts → Forall (thread_ok s') ts.
Proof.
  intros Hg Hts. eapply Forall_impl; [exact Hts|]. intros t. by apply thread_ok_grows.
Qed.

Lemma new_thread_ok s j : inv s → startable j → thread_ok s (new_thread code j).
Proof. intros Hinv Hj. split; [done|]. by apply code_safe. Qed.

(** The threads other than the caller, after its call. *)
Lemma performs_threads_ok {X} i (e : effect Job Outcome Answer X) c x c' :
  performs code i e c x c' → call_allowed startable e → inv (cf_store c') →
  Forall (thread_ok (cf_store c')) (cf_threads c) →
  Forall (thread_ok (cf_store c')) (cf_threads c').
Proof.
  destruct e as [schema v|r|k|k r|j|n|n|w| |s|s]; simpl; intros He Ha Hi Hts.
  5: { destruct He as [_ ->]. simpl in *. apply Forall_app. split; [done|].
       apply Forall_singleton. by apply new_thread_ok. }
  5: { subst c'. simpl in *. apply Forall_alter; [done|]. intros t _ [Hj Hs]. by split. }
  all: first [by rewrite (proj2 He)|by destruct He as [_ ->]|by destruct He as [-> _]|by subst c'].
Qed.

(** A call keeps the caller's job. *)
Lemma performs_job {X} i (e : effect Job Outcome Answer X) c x c' t u :
  performs code i e c x c' → cf_threads c !! i = Some t → cf_threads c' !! i = Some u →
  th_job u = th_job t.
Proof.
  intros Hp Ht Hu.
  destruct e as [schema v|r|k|k r|j|n|n|w| |s|s]; simpl in Hp.
  5: { destruct Hp as [_ ->]. simpl in Hu.
       rewrite lookup_app_l in Hu by (by eapply lookup_lt_Some). congruence. }
  5: { subst c'. simpl in Hu. destruct (decide (n = i)) as [->|].
       - rewrite list_lookup_alter_eq, Ht in Hu. by injection Hu as <-.
       - rewrite list_lookup_alter_ne in Hu by done. congruence. }
  all: first [rewrite (proj2 Hp) in Hu|rewrite (proj1 Hp) in Hu|rewrite Hp in Hu]; congruence.
Qed.

Lemma step_ok c c' : step code external c c' → config_ok c → config_ok c'.
Proof.
  intros Hstep [Hinv Hts]. destruct Hstep as [j Hj|i t X e k x c' Hi Ht Hp].
  - split; [done|]. simpl. apply Forall_app. split; [done|]. apply Forall_singleton.
    apply new_thread_ok; auto.
  - assert (thread_ok (cf_store c) t) as [Hjob Hsafe]
      by (rewrite Forall_lookup in Hts; by eapply Hts).
    rewrite Ht in Hsafe. destruct Hsafe as [Ha Hk].
    pose proof (performs_store_effect _ _ _ _ _ Hp) as He.
    destruct (Hk (cf_store c) x (cf_store c')) as [Hinv' Hsafe']; [done..|].
    pose proof (store_effect_grows _ _ _ _ He) as Hg.
    pose proof (performs_threads_ok _ _ _ _ _ Hp Ha Hinv' (threads_ok_grows _ _ _ Hg Hts)) as Hts'.
    split; [done|]. simpl. apply Forall_lookup. intros n u Hn.
    destruct (decide (n = i)) as [->|Hne].
    + rewrite list_lookup_alter_eq in Hn. apply fmap_Some in Hn as (u' & Hu' & ->).
      pose proof (performs_job _ _ _ _ _ _ _ Hp Hi Hu') as Hu. split; simpl; by rewrite Hu.
    + rewrite list_lookup_alter_ne in Hn by done. rewrite Forall_lookup in Hts'. by eapply Hts'.
Qed.

Theorem reachable_ok c c' : rtc (step code external) c c' → config_ok c → config_ok c'.
Proof. induction 1; eauto using step_ok. Qed.

Lemma returned_post c i t o :
  config_ok c → cf_threads c !! i = Some t → th_prog t = Ret o → post (th_job t) o (cf_store c).
Proof.
  intros [_ Hts] Hi Ht. rewrite Forall_lookup in Hts. destruct (Hts i t Hi) as [_ Hs].
  by rewrite Ht in Hs.
Qed.
End Soundness.

(** ** Quiet programs

    A program that starts no thread and binds only keys that [allowed] admits
    cannot disturb an invariant of the other keys, whatever it computes. *)
Section Quiet.
Context {Job Outcome Answer : Type} (allowed : pystr → Prop).
Abbreviation program := (prog Job Outcome Answer).

Fixpoint quiet {A} (p : program A) : Prop :=
  match p with
  | Vis e k =>
      match e with BindKey key _ => allowed key | Start _ => False | _ => True end ∧
      ∀ x, quiet (k x)
  | _ => True
  end.

Lemma quiet_bind {A B} (p : program A) (f : A → program B) :
  quiet p → (∀ a, quiet (f a)) → quiet (p ≫= f).
Proof. induction p as [a|e| |X e k IH]; simpl; intros Hp Hf; naive_solver. Qed.

Lemma quiet_ret {A} (a : A) : quiet (Ret a).
Proof. done. Qed.
Lemma quiet_throw {A} c msg : quiet (throw (A:=A) c msg).
Proof. done. Qed.
Lemma quiet_run_result {A} (r : result A) : quiet (run_result r).
Proof. by destruct r. Qed.
Lemma quiet_run_bind {A B} (r : result A) (f : A → program B) :
  (∀ a, r = Ok a → quiet (f a)) → quiet (run_result r ≫= f).
Proof. destruct r; simpl; auto. Qed.
Lemma quiet_check b c msg : quiet (check b c msg).
Proof. apply quiet_run_result. Qed.
Lemma quiet_put schema v : quiet (put schema v).
Proof. split; [done|]. intros x. apply quiet_run_result. Qed.
Lemma quiet_get r : quiet (get r).
Proof. split; [done|]. intros x. apply quiet_run_result. Qed.
Lemma quiet_resolve k : quiet (resolve k).
Proof. by split. Qed.
Lemma quiet_ask callee : quiet (ask callee).
Proof. split; [done|]. intros x. apply quiet_run_result. Qed.
Lemma quiet_compute callee : quiet (compute callee).
Proof. split; [done|]. intros x. apply quiet_run_result. Qed.
Lemma quiet_bind_key k r : allowed k → quiet (Process.bind k r).
Proof. intros Hk. split; [done|]. intros x. apply quiet_run_result. Qed.
Lemma quiet_try_bind k r : allowed k → quiet (try_bind k r).
Proof. intros Hk. split; [done|]. intros [st|e]; simpl; [done|]. by destruct (exn_isa _ _). Qed.

Lemma quiet_catch {A} (p : program A) h : quiet p → (∀ e, quiet (h e)) → quiet (catch p h).
Proof. induction p as [a|e| |X e k IH]; simpl; intros Hp Hh; naive_solver. Qed.
Lemma quiet_finally {A} (p : program A) q : quiet p → quiet q → quiet (finally p q).
Proof.
  induction p as [a|e| |X e k IH]; simpl; intros Hp Hq; [| |done|naive_solver];
    by apply quiet_bind.
Qed.
Lemma quiet_mapM {A B} (f : A → program B) (l : list A) :
  (∀ x, quiet (f x)) → quiet (mapM f l).
Proof.
  intros Hf. induction l as [|x l IH]; simpl; [done|]. apply quiet_bind; [done|]. intros y.
  by apply quiet_bind.
Qed.
End Quiet.

Create HintDb quiet discriminated.
#[export] Hint Constants Opaque : quiet.
#[export] Hint Resolve quiet_ret quiet_throw quiet_run_result quiet_check quiet_put quiet_get
  quiet_resolve quiet_ask quiet_compute : quiet.

Lemma quiet_safe {Job Outcome Answer A} `{DOs : !DrObjectStore, DSto : !DrStore}
    (inv : ostate → Prop) (startable : Job → Prop) (allowed : pystr → Prop)
    (p : prog Job Outcome Answer A) s :
  (∀ s schema v, inv s → inv (store_put s schema v).2) →
  (∀ s k r, allowed k → inv s → inv (store_bind s k r).2) →
  quiet allowed p → safe inv startable p (λ _ _, True) (λ _ _, True) s.
Proof.
  intros Hput Hbind. revert s. induction p as [a|e| |X e k IH]; simpl; intros s Hq; [done..|].
  destruct Hq as [He Hk]. split; [by destruct e|]. intros s1 x s2 _ Hinv Hs. split; [|by apply IH].
  destruct e as [schema v|r|key|key r|j|n|n|w| |c|c]; simpl in Hs; try by destruct Hs as [_ ->].
  all: try by subst.
  - specialize (Hput s1 schema v Hinv). by rewrite Hs in Hput.
  - specialize (Hbind s1 key r He Hinv). by rewrite Hs in Hbind.
Qed.

(** ** A store in lists

    The objects and bindings of a concrete store, over any content addressing
    that keeps the schema. *)
Module ListStore.
Section ListStore.
Context `{DSto : !DrStore}.

(** Objects by reference and bindings by key, in lists; a hash collision is
    refused. *)
#[local] Instance list_store : DrObjectStore := {|
  ostate := list (ObjectReference * pyval) * list (pystr * ObjectReference);
  store_put s schema v :=
    match for_record schema v with
    | Ok r =>
        match dict_get s.1 r with
        | None => (Ok r, (dict_set s.1 r v, s.2))
        | Some w => if decide (w = v) then (Ok r, s) else (raise RuntimeError "", s)
        end
    | Err e => (Err e, s)
    end;
  store_get s r := of_option (dict_get s.1 r) KeyError "";
  store_resolve s k := dict_get s.2 k;
  store_bind s k r :=
    match dict_get s.2 k with
    | None => (Ok BOUND, (s.1, dict_set s.2 k r))
    | Some r' => if decide (r' = r) then (Ok IDEMPOTENT, s)
                 else (raise BindingConflictError "", s)
    end;
|}.

Hypothesis schema_kept : ∀ schema v r, for_record schema v = Ok r → or_schema r = schema.

Lemma list_store_laws : DrObjectStoreLaws.
Proof.
  split; simpl.
  - intros s schema v r s' H. destruct (for_record schema v) as [r'|]; [|done].
    destruct (dict_get s.1 r') as [w|] eqn:E; [case_decide as Hw|].
    + injection H as <- <-. split; [done|]. by rewrite E, Hw.
    + done.
    + injection H as <- <-. split; [done|]. simpl. by rewrite dict_get_set_eq.
  - exact schema_kept.
  - intros s schema v k. destruct (for_record schema v); [|done].
    destruct (dict_get s.1 _); [case_decide|]; done.
  - intros s schema v r w Hw. destruct (for_record schema v) as [r'|]; [|exact Hw].
    destruct (dict_get s.1 r') as [w'|] eqn:E; [case_decide; exact Hw|]. simpl.
    rewrite dict_get_set_ne; [exact Hw|]. intros <-. by rewrite E in Hw.
  - intros s k r r'. destruct (dict_get s.2 k); [case_decide|]; done.
  - intros s k r k' Hne. destruct (dict_get s.2 k); [case_decide|]; [done..|].
    simpl. by rewrite dict_get_set_ne.
  - intros s k r r' Hr. rewrite Hr. by case_decide.
  - intros s k r r' HNone. rewrite HNone. simpl. rewrite dict_get_set_eq. by intros [= <-].
  - intros s k r st s' H. destruct (dict_get s.2 k) as [r'|] eqn:E; [case_decide as Hr|].
    + injection H as _ <-. by rewrite E, Hr.
    + done.
    + injection H as _ <-. simpl. by rewrite dict_get_set_eq.
  - intros s k r e s' H. destruct (dict_get s.2 k) as [r'|] eqn:E; [case_decide|]; [done| |done].
    injection H as _ <-. by rewrite E.
Qed.
End ListStore.
End ListStore.
