(* ===== verification/Sha256.v ===== *)
(** * Sha256: the digest [hashlib.sha256] computes

    The standard library's SHA-256 (FIPS 180-4) on a list of bytes, written on
    32-bit words as [Z] with their wrap-around. The code names files and checks
    frames by its hexadecimal digest; the only facts used of it are its length
    and its alphabet, so that nothing rests on collisions being impossible. *)

From S2P Require Import Prelude Floats Identity Leasing.

Local Open Scope Z_scope.

Definition word (n : Z) : Z := Z.land n 4294967295.
Definition rotr (n x : Z) : Z := word (Z.lor (Z.shiftr x n) (Z.shiftl x (32 - n))).

Definition Ch (x y z : Z) : Z := Z.lxor (Z.land x y) (Z.land (Z.lxor x 4294967295) z).
Definition Maj (x y z : Z) : Z := Z.lxor (Z.lxor (Z.land x y) (Z.land x z)) (Z.land y z).
Definition Sigma0 (x : Z) : Z := Z.lxor (Z.lxor (rotr 2 x) (rotr 13 x)) (rotr 22 x).
Definition Sigma1 (x : Z) : Z := Z.lxor (Z.lxor (rotr 6 x) (rotr 11 x)) (rotr 25 x).
Definition sigma0 (x : Z) : Z := Z.lxor (Z.lxor (rotr 7 x) (rotr 18 x)) (Z.shiftr x 3).
Definition sigma1 (x : Z) : Z := Z.lxor (Z.lxor (rotr 17 x) (rotr 19 x)) (Z.shiftr x 10).

Definition round_constants : list Z :=
  [1116352408; 1899447441; 3049323471; 3921009573; 961987163; 1508970993; 2453635748;
   2870763221; 3624381080; 310598401; 607225278; 1426881987; 1925078388; 2162078206;
   2614888103; 3248222580; 3835390401; 4022224774; 264347078; 604807628; 770255983;
   1249150122; 1555081692; 1996064986; 2554220882; 2821834349; 2952996808; 3210313671;
   3336571891; 3584528711; 113926993; 338241895; 666307205; 773529912; 1294757372;
   1396182291; 1695183700; 1986661051; 2177026350; 2456956037; 2730485921; 2820302411;
   3259730800; 3345764771; 3516065817; 3600352804; 4094571909; 275423344; 430227734;
   506948616; 659060556; 883997877; 958139571; 1322822218; 1537002063; 1747873779;
   1955562222; 2024104815; 2227730452; 2361852424; 2428436474; 2756734187; 3204031479;
   3329325298].

Definition initial_words : list Z :=
  [1779033703; 3144134277; 1013904242; 2773480762; 1359893119; 2600822924; 528734635;
   1541459225].

(** [n] bytes of [x], most significant first. *)
Definition big_endian (n : nat) (x : Z) : list Z :=
  (λ i, Z.land (Z.shiftr x (8 * Z.of_nat i)) 255) <$> reverse (seq 0 n).

Definition of_big_endian (bytes : list Z) : Z := foldl (λ acc b, acc * 256 + b) 0 bytes.

(** A one bit, zeros to 56 bytes modulo 64, and the length in bits. *)
Definition padded (bytes : list Z) : list Z :=
  let n := Z.of_nat (length bytes) in
  bytes ++ 128 :: replicate (Z.to_nat ((55 - n) mod 64)) 0 ++ big_endian 8 (8 * n).

(** The message schedule, the last word first. *)
Fixpoint schedule (rounds : nat) (words : list Z) : list Z :=
  match rounds with
  | O => words
  | S rounds =>
      let at_back i := default 0 (words !! i) in
      schedule rounds
        (word (sigma1 (at_back 1%nat) + at_back 6%nat + sigma0 (at_back 14%nat) + at_back 15%nat) :: words)
  end.

Definition round (hash : list Z) (wk : Z * Z) : list Z :=
  match hash with
  | [a; b; c; d; e; f; g; h] =>
      let t1 := h + Sigma1 e + Ch e f g + wk.2 + wk.1 in
      let t2 := Sigma0 a + Maj a b c in
      [word (t1 + t2); a; b; c; word (d + t1); e; f; g]
  | _ => hash
  end.

Definition compress (hash : list Z) (block : list Z) : list Z :=
  let words := (λ i, of_big_endian (take 4 (drop (4 * i) block))) <$> seq 0 16 in
  let w := reverse (schedule 48 (reverse words)) in
  zip_with (λ x y, word (x + y)) hash (foldl round hash (zip w round_constants)).

(** The blocks of 64 bytes. *)
Fixpoint blocks (n : nat) (bytes : list Z) : list (list Z) :=
  match n with
  | O => []
  | S n => take 64 bytes :: blocks n (drop 64 bytes)
  end.

Definition sha256 (bytes : list Z) : list Z :=
  let message := padded bytes in
  foldl compress initial_words (blocks (length message / 64) message).

(** [.hexdigest()]: eight hexadecimal digits per word. *)
Definition hexdigest (bytes : list Z) : pystr := sha256 bytes ≫= hex_digits 8.

Example sha256_abc :
  hexdigest $"abc" = $"ba7816bf8f01cfea414140de5dae2223b00361a396177a9cb410ff61f20015ad".
Proof. vm_compute. reflexivity. Qed.

(** ** Its length and its alphabet *)

Lemma compress_length hash block : length hash = 8%nat → length (compress hash block) = 8%nat.
Proof.
  intros Hlen. unfold compress. rewrite length_zip_with.
  assert (∀ l h, length h = 8%nat → length (foldl round h l) = 8%nat) as Hr.
  { induction l as [|wk l IH]; intros h Hh; simpl; [done|]. apply IH.
    do 9 (destruct h as [|? h]; try done). }
  rewrite Hr by done. lia.
Qed.

Lemma sha256_length bytes : length (sha256 bytes) = 8%nat.
Proof.
  unfold sha256. generalize (blocks (length (padded bytes) / 64) (padded bytes)). intros l.
  assert (∀ h, length h = 8%nat → length (foldl compress h l) = 8%nat) as H; [|by apply H].
  induction l as [|b l IH]; intros h Hh; simpl; [done|]. by apply IH, compress_length.
Qed.

Lemma hex_digits_hex n v : Forall (λ c, is_hex c = true) (hex_digits n v).
Proof.
  revert v. induction n as [|n IH]; intros v; simpl; [constructor|].
  apply Forall_app. split; [apply IH|]. constructor; [|done].
  pose proof (Z.mod_pos_bound v 16). unfold is_hex, hex_digit. destruct (Z.ltb_spec (v mod 16) 10);
    rewrite ?orb_true_iff, !andb_true_iff, !Z.leb_le; lia.
Qed.

Lemma hex_digits_length n v : length (hex_digits n v) = n.
Proof. revert v. induction n as [|n IH]; intros v; simpl; [done|]. rewrite length_app, IH. simpl. lia. Qed.

Lemma hexdigest_hex bytes : Forall (λ c, is_hex c = true) (hexdigest bytes).
Proof.
  unfold hexdigest. induction (sha256 bytes) as [|w ws IH]; [constructor|].
  change ((w :: ws) ≫= hex_digits 8) with (hex_digits 8 w ++ (ws ≫= hex_digits 8)).
  apply Forall_app. split; [apply hex_digits_hex|exact IH].
Qed.

Lemma hexdigest_length bytes : length (hexdigest bytes) = 64%nat.
Proof.
  unfold hexdigest.
  assert (∀ ws : list Z, length (ws ≫= hex_digits 8) = (8 * length ws)%nat) as ->.
  { induction ws as [|w ws IH]; [done|].
    change ((w :: ws) ≫= hex_digits 8) with (hex_digits 8 w ++ (ws ≫= hex_digits 8)).
    rewrite length_app, IH, hex_digits_length. simpl. lia. }
  by rewrite sha256_length.
Qed.

(** A digest is a full hash. *)
Lemma hexdigest_full bytes : require_full_hash (PStr (hexdigest bytes)) = Ok (hexdigest bytes).
Proof.
  unfold require_full_hash. rewrite hexdigest_length. simpl.
  pose proof (hexdigest_hex bytes) as H. destruct (existsb _ _) eqn:E; [|done].
  apply existsb_exists in E as (c & Hc & Hx). apply list_elem_of_In in Hc.
  rewrite Forall_forall in H. by rewrite (H c Hc) in Hx.
Qed.
