(* ===== verification/Claims.v ===== *)
(** * Evaluation claims: who evaluates a request, and with what result

    Models [src/whetstone/coordination/eval_claims.py] and the parts of
    [coordination/eval_service.py] and [eval/evidence_validation.py] it runs on:
    the stream of claim events of an evaluation request, the lease renewed by a
    heartbeat thread, the attestation of the result and its binding. The
    methods are programs of [Process.v], so that any number of owners and
    heartbeats interleave at every call of the store. *)

From S2P Require Import Prelude Floats Identity Leasing Reward Tools Process.

Definition EVAL_RESULT_ATTESTATION_SCHEMA := $"whetstone.eval_result_attestation".
Definition EVAL_INTENT_CLAIM_SCHEMA := $"whetstone.eval_intent_claim".
Definition INTENT_RESOLUTION_SCHEMA := $"whetstone.optim_intent_resolution".
Definition OPTIM_EVAL_REQUEST_SCHEMA := $"whetstone.optim_eval_request".
Definition EVAL_SERVICE_NAMESPACE := $"whetstone.eval_service.v3".
Definition PLATFORM_INTENT_NAMESPACE := $"whetstone.platform_eval_intent.v1".

Inductive IntentOutcome := COMPLETED | REJECTED | FAILED.

#[export] Instance IntentOutcome_eq_dec : EqDecision IntentOutcome.
Proof. solve_decision. Defined.

(** The records of [optim/contracts.py] a claim is about, with their JSON
    dumps; [resolution_validate] is [IntentResolution.model_validate]. *)
Class EvalRecords := {
  OptimEvalRequest : Type;
  request_eq_dec :: EqDecision OptimEvalRequest;
  request_dump : OptimEvalRequest → pyval;
  IntentResolution : Type;
  resolution_eq_dec :: EqDecision IntentResolution;
  resolution_dump : IntentResolution → pyval;
  resolution_validate : pyval → result IntentResolution;
  resolution_request : IntentResolution → OptimEvalRequest;
  resolution_outcome : IntentResolution → IntentOutcome;
}.

(** Pydantic reads back what it dumped. *)
Class EvalRecordsLaws `{!EvalRecords} : Prop := {
  resolution_roundtrip r : resolution_validate (resolution_dump r) = Ok r;
}.

(** ** Claims and attestations *)

Record EvalIntentClaim := {
  eic_intent_ref : TypedRef;
  eic_owner_id : pystr;
  eic_event_ordinal : Z;
  eic_generation : Z;
  eic_heartbeat_ordinal : Z;
  eic_expires_at : float;
  eic_result_attestation_ref : option TypedRef;
}.

Definition claim_dump (self : EvalIntentClaim) : pyval :=
  PDict [($"intent_ref", TypedRef_dump (eic_intent_ref self));
         ($"owner_id", PStr (eic_owner_id self));
         ($"event_ordinal", PInt (eic_event_ordinal self));
         ($"generation", PInt (eic_generation self));
         ($"heartbeat_ordinal", PInt (eic_heartbeat_ordinal self));
         ($"expires_at", PFloat (eic_expires_at self));
         ($"result_attestation_ref", POption TypedRef_dump (eic_result_attestation_ref self))].

(** The object a model is validated from, with [extra="forbid"]. *)
Definition model_fields (names : list pystr) (v : pyval) : result (list (pystr * pyval)) :=
  match v with
  | PDict kvs =>
      require (forallb (λ k, bool_decide (k ∈ names)) kvs.*1) ValueError
        "Extra inputs are not permitted" ;;
      Ok kvs
  | _ => raise ValueError "Input should be a valid dictionary"
  end.

Definition field (kvs : list (pystr * pyval)) (name : pystr) : result pyval :=
  of_option (dict_get kvs name) ValueError "Field required".

Definition TypedRef_model_validate (v : pyval) : result TypedRef :=
  kvs ← model_fields [$"schema_name"; $"content_hash"] v;
  schema_name ← field kvs $"schema_name";
  content_hash ← field kvs $"content_hash";
  TypedRef_new schema_name content_hash.

Definition StrictInt (v : pyval) : result Z :=
  match v with PInt n => Ok n | _ => raise ValueError "Input should be a valid integer" end.
Definition StrictStr (v : pyval) : result pystr :=
  match v with PStr s => Ok s | _ => raise ValueError "Input should be a valid string" end.
Definition StrictFloat (v : pyval) : result float :=
  match v with PFloat f => Ok f | _ => raise ValueError "Input should be a valid number" end.
Definition OptionalRef (v : pyval) : result (option TypedRef) :=
  match v with PNone => Ok None | _ => r ← TypedRef_model_validate v; Ok (Some r) end.

Definition claim_field_names : list pystr :=
  [$"intent_ref"; $"owner_id"; $"event_ordinal"; $"generation"; $"heartbeat_ordinal";
   $"expires_at"; $"result_attestation_ref"].

(** [EvalIntentClaim.model_validate]. *)
Definition claim_validate (v : pyval) : result EvalIntentClaim :=
  kvs ← model_fields claim_field_names v;
  intent_ref ← field kvs $"intent_ref" ≫= TypedRef_model_validate;
  owner_id ← field kvs $"owner_id" ≫= StrictStr;
  event_ordinal ← field kvs $"event_ordinal" ≫= StrictInt;
  generation ← field kvs $"generation" ≫= StrictInt;
  heartbeat_ordinal ← field kvs $"heartbeat_ordinal" ≫= StrictInt;
  expires_at ← field kvs $"expires_at" ≫= StrictFloat;
  result_attestation_ref ← OptionalRef (default PNone (dict_get kvs $"result_attestation_ref"));
  Ok {| eic_intent_ref := intent_ref; eic_owner_id := owner_id;
        eic_event_ordinal := event_ordinal; eic_generation := generation;
        eic_heartbeat_ordinal := heartbeat_ordinal; eic_expires_at := expires_at;
        eic_result_attestation_ref := result_attestation_ref |}.

Record OwnedClaim := {
  oc_intent_ref : TypedRef;
  oc_generation : Z;
}.

Section Attestations.
Context `{Rec : !EvalRecords}.

Record EvalResultAttestation := {
  era_graph_hash : pystr;
  era_resolution : IntentResolution;
}.

#[export] Instance EvalResultAttestation_eq_dec : EqDecision EvalResultAttestation.
Proof. solve_decision. Defined.

Definition terminal_outcome (o : IntentOutcome) : bool :=
  bool_decide (o ∈ [COMPLETED; FAILED]).

(** [EvalResultAttestation(...)], its validator included. *)
Definition EvalResultAttestation_new (graph_hash : pystr) (resolution : IntentResolution) :
    result EvalResultAttestation :=
  graph_hash ← IdentityHash (PStr graph_hash);
  require (terminal_outcome (resolution_outcome resolution)) ValueError
    "an Evaluation Result Attestation requires a terminal executed outcome" ;;
  Ok {| era_graph_hash := graph_hash; era_resolution := resolution |}.

Definition attestation_dump (self : EvalResultAttestation) : pyval :=
  PDict [($"graph_hash", PStr (era_graph_hash self));
         ($"resolution", resolution_dump (era_resolution self))].

Definition attestation_validate (v : pyval) : result EvalResultAttestation :=
  kvs ← model_fields [$"graph_hash"; $"resolution"] v;
  graph_hash ← field kvs $"graph_hash" ≫= StrictStr;
  resolution ← field kvs $"resolution" ≫= resolution_validate;
  EvalResultAttestation_new graph_hash resolution.
End Attestations.
Arguments EvalResultAttestation {Rec}.

(** ** Keys *)

Section Keys.
Context `{DSto : !DrStore, Rec : !EvalRecords}.

Definition intent_ref_of (optim_eval_request : OptimEvalRequest) : result TypedRef :=
  typed_ref_for_record OPTIM_EVAL_REQUEST_SCHEMA (request_dump optim_eval_request).

Definition result_key (content_hash : pystr) : pystr :=
  EVAL_SERVICE_NAMESPACE ++ $".intent_resolution:" ++ content_hash.
Definition stream_key (content_hash : pystr) (event_ordinal : Z) : pystr :=
  EVAL_SERVICE_NAMESPACE ++ $".intent_claim:" ++ content_hash ++ $"#" ++ int_text event_ordinal.
Definition pending_key (content_hash : pystr) : pystr :=
  PLATFORM_INTENT_NAMESPACE ++ $".pending:" ++ content_hash.

(** [_key], [_claim_key] and [platform_intent_key]. *)
Definition intent_key (intent : OptimEvalRequest) : result pystr :=
  r ← intent_ref_of intent; Ok (result_key (tref_content_hash r)).
Definition claim_key (intent : OptimEvalRequest) (event_ordinal : Z) : result pystr :=
  r ← intent_ref_of intent; Ok (stream_key (tref_content_hash r) event_ordinal).
Definition platform_intent_key (intent : OptimEvalRequest) : result pystr :=
  r ← intent_ref_of intent; Ok (pending_key (tref_content_hash r)).
End Keys.

(** ** The methods *)

Section Methods.
Context `{DSto : !DrStore, Rec : !EvalRecords}.

(** The threads of a service: one resolves a request, in platform mode or not,
    another renews the lease of a claim. *)
Inductive Job :=
| ResolveJob (owner_id : pystr) (intent : OptimEvalRequest) (platform : bool)
| HeartbeatJob (owner_id : pystr) (intent : OptimEvalRequest) (owned : OwnedClaim).

(** What they end with: a resolution, or the heartbeat's errors. *)
Inductive Outcome :=
| Resolved (resolution : IntentResolution)
| HeartbeatEnded (errors : list exn).

Abbreviation program := (prog Job Outcome IntentResolution).

(** Of the service: the claim lease, the graph hash of the engine's plan and
    the records an evaluation cites, with their references. *)
Variable claim_lease_seconds : float.
Variable graph_hash : pystr.
Variable intent_targets : OptimEvalRequest → list (pystr * pyval * TypedRef).

Definition load_claim (reference : ObjectReference) : program EvalIntentClaim :=
  content ← get reference;
  run_result (claim_validate content).

(** [_load_exact]. *)
Definition load_exact (record_ref : TypedRef) (expected_schema : pystr) : program pyval :=
  check (bool_decide (tref_schema_name record_ref = expected_schema)) ValueError
    "durable record must use schema" ;;
  content ← get (TypedRef_reference record_ref);
  check (match content with PDict _ => true | _ => false end) ValueError
    "durable record content must be a JSON object" ;;
  exact ← run_result (typed_ref_for_record expected_schema content);
  check (bool_decide (exact = record_ref)) ValueError
    "durable record reference does not address its exact content" ;;
  Ret content.

Definition load_result_attestation (reference : TypedRef) (expected : OptimEvalRequest) :
    program EvalResultAttestation :=
  content ← load_exact reference EVAL_RESULT_ATTESTATION_SCHEMA;
  attestation ← run_result (attestation_validate content);
  check (bool_decide (resolution_request (era_resolution attestation) = expected)) ValueError
    "Evaluation Result Attestation belongs to another Optim Eval Request" ;;
  check (bool_decide (era_graph_hash attestation = graph_hash)) ValueError
    "Evaluation Result Attestation uses another generation graph" ;;
  Ret attestation.

(** [EvalEngineService._load]. *)
Definition load (reference : ObjectReference) (expected : OptimEvalRequest) :
    program IntentResolution :=
  record_ref ← run_result (typed_ref reference);
  check (bool_decide (tref_schema_name record_ref = INTENT_RESOLUTION_SCHEMA)) ValueError
    "Intent Resolution ref has the wrong schema" ;;
  content ← get (TypedRef_reference record_ref);
  resolution ← run_result (resolution_validate content);
  exact ← run_result (typed_ref_for_record INTENT_RESOLUTION_SCHEMA (resolution_dump resolution));
  check (bool_decide (exact = record_ref)) ValueError
    "persisted Intent Resolution ref is not exact" ;;
  ask "_validate_result_graph" ;;
  Ret resolution.

Definition bind_resolution (intent : OptimEvalRequest) (resolution : IntentResolution) :
    program IntentResolution :=
  ask "_validate_result_graph" ;;
  reference ← put INTENT_RESOLUTION_SCHEMA (resolution_dump resolution);
  key ← run_result (intent_key intent);
  status ← try_bind key reference;
  match status with
  | None =>
      winner ← resolve key;
      match winner with
      | None => throw AssertionError ""
      | Some winner => load winner intent
      end
  | Some _ => Ret resolution
  end.

(** The checks of one event against the events before it. *)
Definition check_event (intent_ref : TypedRef) (event_ordinal : Z)
    (latest : option EvalIntentClaim) (claim : EvalIntentClaim) : result unit :=
  require (bool_decide (eic_intent_ref claim = intent_ref) &&
           (eic_event_ordinal claim =? event_ordinal)%Z) ValueError
    "durable evaluation claim has invalid lease identity" ;;
  match latest with
  | None =>
      require ((eic_generation claim =? 0) && (eic_heartbeat_ordinal claim =? 0))%Z ValueError
        "durable evaluation claim stream has invalid origin"
  | Some latest =>
      match eic_result_attestation_ref latest with
      | Some _ => raise ValueError
          "durable evaluation claim stream continues after its terminal attestation"
      | None =>
          if bool_decide (eic_owner_id claim = eic_owner_id latest) then
            require ((eic_generation claim =? eic_generation latest) &&
                     (eic_heartbeat_ordinal claim =? eic_heartbeat_ordinal latest + 1))%Z ValueError
              "durable evaluation claim has invalid renewal order"
          else
            require ((eic_generation claim =? eic_generation latest + 1) &&
                     (eic_heartbeat_ordinal claim =? 0))%Z ValueError
              "durable evaluation claim has invalid takeover order"
      end
  end.

(** [while True] takes at most [fuel] turns. *)
Fixpoint latest_loop (fuel : nat) (intent : OptimEvalRequest) (intent_ref : TypedRef)
    (latest : option EvalIntentClaim) (event_ordinal : Z) : program (option EvalIntentClaim) :=
  match fuel with
  | O => Spin
  | S fuel =>
      key ← run_result (claim_key intent event_ordinal);
      bound ← resolve key;
      match bound with
      | None => Ret latest
      | Some bound =>
          claim ← load_claim bound;
          run_result (check_event intent_ref event_ordinal latest claim) ;;
          latest_loop fuel intent intent_ref (Some claim) (event_ordinal + 1)%Z
      end
  end.

Definition latest_claim (fuel : nat) (intent : OptimEvalRequest) :
    program (option EvalIntentClaim) :=
  intent_ref ← run_result (intent_ref_of intent);
  latest_loop fuel intent intent_ref None 0.

(** The ordinal of the event to append, or the reason it may not be. *)
Definition next_ordinal (owner_id : pystr) (prior : option EvalIntentClaim)
    (generation heartbeat_ordinal : Z) : program Z :=
  match prior with
  | None =>
      check ((generation =? 0) && (heartbeat_ordinal =? 0))%Z ValueError
        "initial evaluation claim must start at zero" ;;
      Ret 0%Z
  | Some prior =>
      if (generation =? eic_generation prior)%Z then
        check (bool_decide (eic_owner_id prior = owner_id) &&
               (heartbeat_ordinal =? eic_heartbeat_ordinal prior + 1)%Z) LeaseLostError
          "evaluation lease cannot be renewed by another owner" ;;
        check (match eic_result_attestation_ref prior with None => true | _ => false end)
          LeaseLostError "terminal evaluation claim cannot be extended" ;;
        Ret (eic_event_ordinal prior + 1)%Z
      else
        check ((generation =? eic_generation prior + 1) && (heartbeat_ordinal =? 0))%Z ValueError
          "evaluation takeover must start a generation" ;;
        now ← clock;
        check (negb (flt now (eic_expires_at prior))) LeaseLostError
          "evaluation lease cannot be taken over before expiry" ;;
        Ret (eic_event_ordinal prior + 1)%Z
  end.

Definition append_claim_event (owner_id : pystr) (intent : OptimEvalRequest)
    (intent_ref : TypedRef) (prior : option EvalIntentClaim) (generation heartbeat_ordinal : Z)
    (result_attestation_ref : option TypedRef) : program EvalIntentClaim :=
  event_ordinal ← next_ordinal owner_id prior generation heartbeat_ordinal;
  now ← clock;
  let claim :=
    {| eic_intent_ref := intent_ref; eic_owner_id := owner_id;
       eic_event_ordinal := event_ordinal; eic_generation := generation;
       eic_heartbeat_ordinal := heartbeat_ordinal;
       eic_expires_at := fadd now claim_lease_seconds;
       eic_result_attestation_ref := result_attestation_ref |} in
  reference ← put EVAL_INTENT_CLAIM_SCHEMA (claim_dump claim);
  key ← run_result (claim_key intent event_ordinal);
  status ← try_bind key reference;
  check (bool_decide (status ∈ [None; Some BOUND; Some IDEMPOTENT])) LeaseLostError
    "evaluation claim event was not durably bound" ;;
  bound ← resolve key;
  match bound with
  | None => throw AssertionError ""
  | Some bound =>
      persisted ← load_claim bound;
      check (bool_decide (eic_intent_ref persisted = intent_ref) &&
             (eic_event_ordinal persisted =? event_ordinal)%Z) ValueError
        "durable evaluation claim has invalid event identity" ;;
      Ret persisted
  end.

(** [latest is None or latest.owner_id != self._owner_id or
    latest.generation != owned.generation], negated. *)
Definition owns (owner_id : pystr) (owned : OwnedClaim) (claim : EvalIntentClaim) : bool :=
  bool_decide (eic_owner_id claim = owner_id) && (eic_generation claim =? oc_generation owned)%Z.
Definition owned_latest (owner_id : pystr) (owned : OwnedClaim)
    (latest : option EvalIntentClaim) : program EvalIntentClaim :=
  match latest with
  | Some latest =>
      check (owns owner_id owned latest) LeaseLostError
        "evaluation lease is not owned by this resolver" ;;
      Ret latest
  | None => throw LeaseLostError "evaluation lease is not owned by this resolver"
  end.

Fixpoint publish_loop (fuel : nat) (owner_id : pystr) (intent : OptimEvalRequest)
    (owned : OwnedClaim) (attestation : EvalResultAttestation) (attestation_ref : TypedRef) :
    program EvalResultAttestation :=
  match fuel with
  | O => Spin
  | S turns =>
      latest ← latest_claim fuel intent;
      latest ← owned_latest owner_id owned latest;
      match eic_result_attestation_ref latest with
      | Some existing_ref =>
          existing ← load_result_attestation existing_ref intent;
          check (bool_decide (existing = attestation)) LeaseLostError
            "terminal evaluation claim names another result" ;;
          Ret existing
      | None =>
          winner ← append_claim_event owner_id intent (oc_intent_ref owned) (Some latest)
                     (oc_generation owned) (eic_heartbeat_ordinal latest + 1)%Z
                     (Some attestation_ref);
          check (owns owner_id owned winner) LeaseLostError
            "evaluation result lost claim arbitration" ;;
          if bool_decide (eic_result_attestation_ref winner = Some attestation_ref)
          then Ret attestation
          else match eic_result_attestation_ref winner with
               | Some _ => throw LeaseLostError "terminal evaluation claim names another result"
               | None => publish_loop turns owner_id intent owned attestation attestation_ref
               end
      end
  end.

Definition publish_result_attestation (fuel : nat) (owner_id : pystr)
    (intent : OptimEvalRequest) (resolution : IntentResolution) (owned : OwnedClaim) :
    program EvalResultAttestation :=
  ask "_validate_result_graph" ;;
  attestation ← run_result (EvalResultAttestation_new graph_hash resolution);
  persisted ← put EVAL_RESULT_ATTESTATION_SCHEMA (attestation_dump attestation);
  attestation_ref ← run_result (typed_ref persisted);
  publish_loop fuel owner_id intent owned attestation attestation_ref.

Definition attested_resolution (fuel : nat) (intent : OptimEvalRequest) :
    program (option IntentResolution) :=
  latest ← latest_claim fuel intent;
  match latest with
  | Some {| eic_result_attestation_ref := Some reference |} =>
      attestation ← load_result_attestation reference intent;
      Ret (Some (era_resolution attestation))
  | _ => Ret None
  end.

Definition renew_claim (fuel : nat) (owner_id : pystr) (intent : OptimEvalRequest)
    (owned : OwnedClaim) : program unit :=
  latest ← latest_claim fuel intent;
  latest ← owned_latest owner_id owned latest;
  match eic_result_attestation_ref latest with
  | Some _ => Ret tt
  | None =>
      winner ← append_claim_event owner_id intent (oc_intent_ref owned) (Some latest)
                 (oc_generation owned) (eic_heartbeat_ordinal latest + 1)%Z None;
      check (owns owner_id owned winner) LeaseLostError
        "evaluation lease renewal lost claim arbitration" ;;
      ask "_renewal_published"
  end.

Definition assert_generation_current (fuel : nat) (owner_id : pystr)
    (intent : OptimEvalRequest) (owned : OwnedClaim) : program unit :=
  latest ← latest_claim fuel intent;
  owned_latest owner_id owned latest ;;
  Ret tt.

Fixpoint claim_loop (fuel : nat) (owner_id : pystr) (intent : OptimEvalRequest)
    (intent_ref : TypedRef) : program (option OwnedClaim) :=
  match fuel with
  | O => Spin
  | S turns =>
      key ← run_result (intent_key intent);
      bound ← resolve key;
      match bound with
      | Some _ => Ret None
      | None =>
          latest ← latest_claim fuel intent;
          winner ← match latest with
                   | None => append_claim_event owner_id intent intent_ref None 0 0 None
                   | Some winner => Ret winner
                   end;
          match eic_result_attestation_ref winner with
          | Some _ => Ret None
          | None =>
              if bool_decide (eic_owner_id winner = owner_id) then
                Ret (Some {| oc_intent_ref := intent_ref;
                             oc_generation := eic_generation winner |})
              else
                now ← clock;
                if fle (fsub (eic_expires_at winner) now) fzero then
                  takeover ← append_claim_event owner_id intent intent_ref (Some winner)
                               (eic_generation winner + 1)%Z 0 None;
                  if bool_decide (eic_owner_id takeover = owner_id) then
                    Ret (Some {| oc_intent_ref := intent_ref;
                                 oc_generation := eic_generation takeover |})
                  else claim_loop turns owner_id intent intent_ref
                else
                  ask "_sleep" ;;
                  claim_loop turns owner_id intent intent_ref
          end
      end
  end.

Definition claim (fuel : nat) (owner_id : pystr) (intent : OptimEvalRequest) :
    program (option OwnedClaim) :=
  intent_ref ← run_result (intent_ref_of intent);
  claim_loop fuel owner_id intent intent_ref.

Definition bind_if_owned (fuel : nat) (owner_id : pystr) (intent : OptimEvalRequest)
    (resolution : IntentResolution) (owned : OwnedClaim) : program IntentResolution :=
  (if terminal_outcome (resolution_outcome resolution) then
     publish_result_attestation fuel owner_id intent resolution owned ;; Ret tt
   else assert_generation_current fuel owner_id intent owned) ;;
  bind_resolution intent resolution.

(** [_persist_intent_targets]: the candidate, the Eval Config and the provider
    execution policy, each under the reference it is cited with. *)
Fixpoint persist_targets (targets : list (pystr * pyval * TypedRef)) : program unit :=
  match targets with
  | [] => Ret tt
  | (schema, content, expected) :: targets =>
      reference ← put schema content;
      persisted ← run_result (typed_ref reference);
      check (bool_decide (persisted = expected)) ValueError "persisted reference diverged" ;;
      persist_targets targets
  end.

Definition persist_platform_intent (intent : OptimEvalRequest) : program TypedRef :=
  persist_targets (intent_targets intent) ;;
  reference ← put OPTIM_EVAL_REQUEST_SCHEMA (request_dump intent);
  key ← run_result (platform_intent_key intent);
  bind key reference ;;
  run_result (typed_ref reference).

(** The engine's answer is a resolution of the request; building it from the
    engine's result is left to the engine. *)
Definition evaluate_and_bind (fuel : nat) (owner_id : pystr) (intent : OptimEvalRequest)
    (platform : bool) (owned : OwnedClaim) : program IntentResolution :=
  persist_targets (intent_targets intent) ;;
  key ← run_result (intent_key intent);
  existing ← resolve key;
  match existing with
  | Some existing => load existing intent
  | None =>
      if platform then
        persist_platform_intent intent ;;
        throw EvalPlatformDeferred "evaluation intent deferred to platform eval stages"
      else
        assert_generation_current fuel owner_id intent owned ;;
        resolution ← compute "engine.evaluate";
        bind_if_owned fuel owner_id intent resolution owned
  end.

Fixpoint heartbeat_loop (fuel : nat) (owner_id : pystr) (intent : OptimEvalRequest)
    (owned : OwnedClaim) : program Outcome :=
  match fuel with
  | O => Spin
  | S turns =>
      stopped ← vis (Wait (fdiv claim_lease_seconds (float_of_Z 3)));
      if (stopped : bool) then Ret (HeartbeatEnded [])
      else
        renew_claim fuel owner_id intent owned ;;
        heartbeat_loop turns owner_id intent owned
  end.

(** The closure [heartbeat]: its first exception ends it and is kept. *)
Definition heartbeat (fuel : nat) (owner_id : pystr) (intent : OptimEvalRequest)
    (owned : OwnedClaim) : program Outcome :=
  catch (heartbeat_loop fuel owner_id intent owned) (λ exc, Ret (HeartbeatEnded [exc])).

Definition evaluate_with_heartbeat (fuel : nat) (owner_id : pystr) (intent : OptimEvalRequest)
    (platform : bool) (owned : OwnedClaim) : program IntentResolution :=
  renew_claim fuel owner_id intent owned ;;
  thread ← vis (Start (HeartbeatJob owner_id intent owned));
  resolution ← finally
    (assert_generation_current fuel owner_id intent owned ;;
     evaluate_and_bind fuel owner_id intent platform owned)
    (vis (Stop thread) ;; vis (Join thread) ;; Ret tt);
  heartbeat_errors ← vis (Join thread);
  match heartbeat_errors with
  | HeartbeatEnded (_ :: _) =>
      key ← run_result (intent_key intent);
      bound ← resolve key;
      match bound with
      | None => throw RuntimeError "evaluation lease heartbeat failed"
      | Some _ => Ret resolution
      end
  | _ => Ret resolution
  end.

Definition resolve_claimed (fuel : nat) (owner_id : pystr) (intent : OptimEvalRequest)
    (platform : bool) : program IntentResolution :=
  key ← run_result (intent_key intent);
  existing ← resolve key;
  match existing with
  | Some existing => load existing intent
  | None =>
      attested ← attested_resolution fuel intent;
      match attested with
      | Some attested => bind_resolution intent attested
      | None =>
          owned ← claim fuel owner_id intent;
          existing ← resolve key;
          match existing with
          | Some existing => load existing intent
          | None =>
              attested ← attested_resolution fuel intent;
              match attested with
              | Some attested => bind_resolution intent attested
              | None =>
                  match owned with
                  | None => throw RuntimeError "evaluation claim resolved without a result"
                  | Some owned => evaluate_with_heartbeat fuel owner_id intent platform owned
                  end
              end
          end
      end
  end.

(** What each thread runs. *)
Definition service_code (fuel : nat) (job : Job) : program Outcome :=
  match job with
  | ResolveJob owner_id intent platform =>
      resolution ← resolve_claimed fuel owner_id intent platform;
      Ret (Resolved resolution)
  | HeartbeatJob owner_id intent owned => heartbeat fuel owner_id intent owned
  end.
End Methods.

(** ** Keys and codecs *)

Definition valid_hash (h : pystr) : Prop := ContentHash (PStr h) = Ok h.

Lemma valid_hash_length h : valid_hash h → length h = 64%nat.
Proof.
  unfold valid_hash, ContentHash, ValidatedString_new, hash_validate, require_full_hash.
  destruct (length h =? 64)%nat eqn:E; simpl; [intros _; by apply Nat.eqb_eq|done].
Qed.

Lemma prefix_ne (n : nat) (a b x y : pystr) :
  (n <= length a)%nat → (n <= length b)%nat → take n a ≠ take n b → a ++ x ≠ b ++ y.
Proof.
  intros Ha Hb Hne Heq. apply Hne. apply (f_equal (take n)) in Heq.
  by rewrite !take_app_le in Heq.
Qed.

Lemma app_keys_inj (p h h' x x' : pystr) :
  valid_hash h → valid_hash h' → p ++ h ++ x = p ++ h' ++ x' → h = h' ∧ x = x'.
Proof.
  intros Hh Hh' Heq. apply app_inv_head in Heq. apply app_inj_1 in Heq; [done|].
  by rewrite !valid_hash_length.
Qed.

Lemma stream_key_inj h n h' n' :
  valid_hash h → valid_hash h' → stream_key h n = stream_key h' n' → h = h' ∧ n = n'.
Proof.
  unfold stream_key. intros Hh Hh'. rewrite !(app_assoc EVAL_SERVICE_NAMESPACE).
  intros [-> Hn]%app_keys_inj; [|done..]. split; [done|].
  apply app_inv_head in Hn. by apply int_text_inj.
Qed.

Lemma result_key_inj h h' : result_key h = result_key h' → h = h'.
Proof. unfold result_key. rewrite !app_assoc. apply app_inv_head. Qed.

Lemma result_stream_ne h h' n : result_key h ≠ stream_key h' n.
Proof.
  unfold result_key, stream_key. intros H%app_inv_head. revert H.
  apply (prefix_ne 9); [by vm_compute; lia..|by vm_compute].
Qed.

Lemma pending_stream_ne h h' n : pending_key h ≠ stream_key h' n.
Proof. apply (prefix_ne 12); [by vm_compute; lia..|by vm_compute]. Qed.

Lemma pending_result_ne h h' : pending_key h ≠ result_key h'.
Proof. apply (prefix_ne 12); [by vm_compute; lia..|by vm_compute]. Qed.

Lemma TypedRef_roundtrip r : TypedRef_wf r → TypedRef_model_validate (TypedRef_dump r) = Ok r.
Proof. unfold TypedRef_wf. destruct r as [s h]. intros Hr. exact Hr. Qed.

Definition claim_wf (c : EvalIntentClaim) : Prop :=
  TypedRef_wf (eic_intent_ref c) ∧
  ∀ t, eic_result_attestation_ref c = Some t → TypedRef_wf t.

Lemma claim_roundtrip c : claim_wf c → claim_validate (claim_dump c) = Ok c.
Proof.
  destruct c as [r o n g b x a]. intros [Hr Ha]. simpl in *. unfold claim_validate.
  change (model_fields claim_field_names (claim_dump _)) with
    (Ok (A:=list (pystr * pyval))
       [($"intent_ref", TypedRef_dump r); ($"owner_id", PStr o); ($"event_ordinal", PInt n);
        ($"generation", PInt g); ($"heartbeat_ordinal", PInt b); ($"expires_at", PFloat x);
        ($"result_attestation_ref", POption TypedRef_dump a)]).
  rewrite bind_Ok_l.
  change (field _ $"intent_ref") with (Ok (TypedRef_dump r)).
  rewrite bind_Ok_l, TypedRef_roundtrip by done.
  change (dict_get _ $"result_attestation_ref") with (Some (POption TypedRef_dump a)).
  destruct a as [t|]; [|reflexivity].
  simpl default. assert (OptionalRef (TypedRef_dump t) = Ok (Some t)) as ->.
  { unfold OptionalRef. rewrite TypedRef_roundtrip by auto. reflexivity. }
  reflexivity.
Qed.

Section Codecs.
Context `{DSto : !DrStore, Rec : !EvalRecords, RLaws : !EvalRecordsLaws}.

Lemma attestation_roundtrip g r a :
  EvalResultAttestation_new g r = Ok a → attestation_validate (attestation_dump a) = Ok a.
Proof.
  intros Ha. pose proof Ha as Ha'. unfold EvalResultAttestation_new in Ha'.
  apply bind_Ok in Ha' as (g' & Hg & Ha'). apply bind_Ok in Ha' as (u & Hr & [= <-]).
  assert (g' = g) as ->.
  { unfold IdentityHash, ValidatedString_new in Hg. inv_ok. done. }
  unfold attestation_validate.
  change (model_fields _ _) with
    (Ok (A:=list (pystr * pyval)) [($"graph_hash", PStr g); ($"resolution", resolution_dump r)]).
  rewrite bind_Ok_l. change (field _ $"graph_hash") with (Ok (PStr g)).
  change (field _ $"resolution") with (Ok (resolution_dump r)).
  rewrite !bind_Ok_l, resolution_roundtrip. exact Ha.
Qed.
End Codecs.

(** ** The invariant of the store *)

Section Invariant.
Context `{DOs : !DrObjectStore, DSto : !DrStore, DLaws : !DrObjectStoreLaws}.
Context `{Rec : !EvalRecords, RLaws : !EvalRecordsLaws}.

(** The record [reference] addresses, read as a claim, an attestation or a
    resolution. *)
Definition loaded_claim (s : ostate) (reference : ObjectReference) (c : EvalIntentClaim) : Prop :=
  (store_get s reference ≫= claim_validate) = Ok c.
Definition loaded_attestation (s : ostate) (t : TypedRef) (a : EvalResultAttestation) : Prop :=
  (store_get s (TypedRef_reference t) ≫= attestation_validate) = Ok a.
Definition loaded_resolution (s : ostate) (reference : ObjectReference) (r : IntentResolution) :
    Prop :=
  (store_get s reference ≫= resolution_validate) = Ok r.

(** [c] is event [n] of the stream of the request with content hash [h]. *)
Definition claim_at (s : ostate) (h : pystr) (n : nat) (c : EvalIntentClaim) : Prop :=
  ∃ reference, store_resolve s (stream_key h (Z.of_nat n)) = Some reference ∧
    loaded_claim s reference c.

(** [r] is the result a claim of the stream attests. *)
Definition attested (s : ostate) (h : pystr) (r : IntentResolution) : Prop :=
  ∃ n c t a, claim_at s h n c ∧ eic_result_attestation_ref c = Some t ∧
    loaded_attestation s t a ∧ era_resolution a = r.

Definition request_ref (h : pystr) : TypedRef :=
  {| tref_schema_name := OPTIM_EVAL_REQUEST_SCHEMA; tref_content_hash := h |}.

(** [c] renews [p], or takes over from it. *)
Definition follows (p c : EvalIntentClaim) : Prop :=
  eic_result_attestation_ref p = None ∧
  (eic_owner_id c = eic_owner_id p ∧ eic_generation c = eic_generation p ∧
   eic_heartbeat_ordinal c = (eic_heartbeat_ordinal p + 1)%Z ∨
   eic_owner_id c ≠ eic_owner_id p ∧ eic_generation c = (eic_generation p + 1)%Z ∧
   eic_heartbeat_ordinal c = 0%Z).

Record claim_ok (s : ostate) (h : pystr) (n : nat) (c : EvalIntentClaim) : Prop := {
  co_intent : eic_intent_ref c = request_ref h;
  co_ordinal : eic_event_ordinal c = Z.of_nat n;
  co_order : match n with
             | O => eic_generation c = 0%Z ∧ eic_heartbeat_ordinal c = 0%Z
             | S m => ∃ p, claim_at s h m p ∧ follows p c
             end;
  co_attestation : ∀ t, eic_result_attestation_ref c = Some t → ∃ a, loaded_attestation s t a;
}.

(** Every bound event is a claim in order; every bound result is a resolution,
    one that was executed only if the stream attests it. *)
Record claims_inv (s : ostate) : Prop := {
  ci_stream h n reference :
    valid_hash h → store_resolve s (stream_key h (Z.of_nat n)) = Some reference →
    ∃ c, loaded_claim s reference c ∧ claim_ok s h n c;
  ci_result h reference :
    valid_hash h → store_resolve s (result_key h) = Some reference →
    ∃ r, loaded_resolution s reference r ∧
      (resolution_outcome r ≠ REJECTED → attested s h r);
}.

Lemma bind_get_grows {A} (f : pyval → result A) s s' r a :
  grows s s' → (store_get s r ≫= f) = Ok a → (store_get s' r ≫= f) = Ok a.
Proof. intros [Hget _] (v & Hv & Hf)%bind_Ok. by rewrite (Hget _ _ Hv). Qed.

Lemma claim_at_grows s s' h n c : grows s s' → claim_at s h n c → claim_at s' h n c.
Proof.
  intros Hg (r & Hr & Hc). exists r. split; [by apply Hg|]. by eapply bind_get_grows.
Qed.

Lemma attested_grows s s' h r : grows s s' → attested s h r → attested s' h r.
Proof.
  intros Hg (n & c & t & a & Hc & Ht & Ha & Hr). exists n, c, t, a.
  split_and!; [by eapply claim_at_grows|done|by eapply bind_get_grows|done].
Qed.

Lemma claim_ok_grows s s' h n c : grows s s' → claim_ok s h n c → claim_ok s' h n c.
Proof.
  intros Hg [Hi Ho Hord Ha]. split; [done..| |].
  - destruct n; [done|]. destruct Hord as (p & Hp & Hf). exists p. split; [|done].
    by eapply claim_at_grows.
  - intros t Ht. destruct (Ha t Ht) as [a Hat]. exists a. by eapply bind_get_grows.
Qed.

Lemma claim_at_fun s h n c c' : claim_at s h n c → claim_at s h n c' → c = c'.
Proof. intros (r & Hr & Hc) (r' & Hr' & Hc'). unfold loaded_claim in *. simplify_eq. congruence. Qed.

Lemma claim_at_ok s h n c : claims_inv s → valid_hash h → claim_at s h n c → claim_ok s h n c.
Proof.
  intros Hinv Hh Hc. pose proof Hc as (r & Hr & _).
  destruct (ci_stream s Hinv h n r Hh Hr) as (c' & Hc' & Hok).
  by rewrite (claim_at_fun s h n c c' Hc (ex_intro _ r (conj Hr Hc'))).
Qed.

(** A step keeps the invariant when what it bound is in order. *)
Lemma claims_inv_step s s' :
  claims_inv s → grows s s' →
  (∀ h n r, valid_hash h → store_resolve s (stream_key h (Z.of_nat n)) = None →
     store_resolve s' (stream_key h (Z.of_nat n)) = Some r →
     ∃ c, loaded_claim s' r c ∧ claim_ok s' h n c) →
  (∀ h r, valid_hash h → store_resolve s (result_key h) = None →
     store_resolve s' (result_key h) = Some r →
     ∃ x, loaded_resolution s' r x ∧ (resolution_outcome x ≠ REJECTED → attested s' h x)) →
  claims_inv s'.
Proof.
  intros [Hstream Hresult] Hg Hs Hr. split.
  - intros h n r Hh Hk. destruct (store_resolve s (stream_key h (Z.of_nat n))) as [r'|] eqn:E.
    + pose proof (grows_resolve _ _ Hg _ _ E) as E'. rewrite Hk in E'. injection E' as <-.
      destruct (Hstream h n r Hh E) as (c & Hc & Hok). exists c.
      split; [by eapply bind_get_grows|by eapply claim_ok_grows].
    + by apply Hs.
  - intros h r Hh Hk. destruct (store_resolve s (result_key h)) as [r'|] eqn:E.
    + pose proof (grows_resolve _ _ Hg _ _ E) as E'. rewrite Hk in E'. injection E' as <-.
      destruct (Hresult h r Hh E) as (x & Hx & Ha). exists x.
      split; [by eapply bind_get_grows|]. eauto using attested_grows.
    + by apply Hr.
Qed.

Lemma claims_inv_put s schema v : claims_inv s → claims_inv (store_put s schema v).2.
Proof.
  intros Hinv. apply (claims_inv_step s); [done|by apply put_grows| |];
    intros *; rewrite put_resolve; congruence.
Qed.

(** Binding a key: nothing changes when it is bound; a new event or result
    must be in order. *)
Lemma claims_inv_bind s k r :
  claims_inv s →
  (∀ h n, valid_hash h → k = stream_key h (Z.of_nat n) →
     ∃ c, loaded_claim s r c ∧ claim_ok s h n c) →
  (∀ h, valid_hash h → k = result_key h →
     ∃ x, loaded_resolution s r x ∧ (resolution_outcome x ≠ REJECTED → attested s h x)) →
  claims_inv (store_bind s k r).2.
Proof.
  intros Hinv Hs Hr. pose proof (bind_grows s k r) as Hg.
  apply (claims_inv_step s); [done|done| |].
  - intros h n r' Hh HNone Hk. destruct (decide (stream_key h (Z.of_nat n) = k)) as [<-|Hne].
    + apply bind_new in Hk as ->; [|done]. destruct (Hs h n Hh eq_refl) as (c & Hc & Hok).
      exists c. split; [by eapply bind_get_grows|by eapply claim_ok_grows].
    + rewrite bind_other in Hk by done. congruence.
  - intros h r' Hh HNone Hk. destruct (decide (result_key h = k)) as [<-|Hne].
    + apply bind_new in Hk as ->; [|done]. destruct (Hr h Hh eq_refl) as (x & Hx & Ha).
      exists x. split; [by eapply bind_get_grows|]. eauto using attested_grows.
    + rewrite bind_other in Hk by done. congruence.
Qed.

Lemma claims_inv_empty s : (∀ k, store_resolve s k = None) → claims_inv s.
Proof. intros Hnone. split; intros *; by rewrite Hnone. Qed.

(** ** Consequences for one stream *)

(** The bound events are contiguous from ordinal 0. *)
Lemma stream_contiguous s h n c m :
  claims_inv s → valid_hash h → claim_at s h n c → (m <= n)%nat → ∃ d, claim_at s h m d.
Proof.
  intros Hinv Hh Hc Hm. revert c Hc. induction Hm as [|n Hm IH]; intros c Hc; [by exists c|].
  apply claim_at_ok in Hc; [|done..]. destruct (co_order _ _ _ _ Hc) as (p & Hp & _). eauto.
Qed.

(** Generations never decrease along the stream, and one generation has one
    owner. *)
Lemma stream_ordered s h m c n d :
  claims_inv s → valid_hash h → claim_at s h m c → claim_at s h n d → (m <= n)%nat →
  (eic_generation c <= eic_generation d)%Z ∧
  (eic_generation c = eic_generation d → eic_owner_id c = eic_owner_id d).
Proof.
  intros Hinv Hh Hc Hd Hm. revert d Hd. induction Hm as [|n Hm IH]; intros d Hd.
  { rewrite (claim_at_fun s h m c d Hc Hd). done. }
  apply claim_at_ok in Hd; [|done..]. destruct (co_order _ _ _ _ Hd) as (p & Hp & _ & Hf).
  destruct (IH p Hp) as [Hg Ho]. destruct Hf as [(Hown & Hgen & _)|(_ & Hgen & _)].
  - rewrite Hgen, Hown. done.
  - split; lia.
Qed.

(** Nothing follows an attested event. *)
Lemma attested_last s h n c m d t :
  claims_inv s → valid_hash h → claim_at s h n c → eic_result_attestation_ref c = Some t →
  claim_at s h m d → (m <= n)%nat.
Proof.
  intros Hinv Hh Hc Ht Hd. destruct (decide (m <= n)%nat) as [|Hlt]; [done|].
  destruct (stream_contiguous s h m d (S n) Hinv Hh Hd) as [e He]; [lia|].
  apply claim_at_ok in He; [|done..]. destruct (co_order _ _ _ _ He) as (p & Hp & Hp' & _).
  rewrite (claim_at_fun s h n c p Hc Hp) in Ht. congruence.
Qed.

Lemma attested_fun s h r r' :
  claims_inv s → valid_hash h → attested s h r → attested s h r' → r = r'.
Proof.
  intros Hinv Hh (n & c & t & a & Hc & Ht & Ha & Hr) (n' & c' & t' & a' & Hc' & Ht' & Ha' & Hr').
  assert (n = n') as <- by (apply Nat.le_antisymm; by eapply attested_last).
  rewrite <-(claim_at_fun s h n c c' Hc Hc') in Ht'. unfold loaded_attestation in *.
  simplify_eq. congruence.
Qed.
End Invariant.

(** ** The methods keep the invariant *)

Section Safety.
Context `{DOs : !DrObjectStore, DSto : !DrStore, DLaws : !DrObjectStoreLaws}.
Context `{Rec : !EvalRecords, RLaws : !EvalRecordsLaws}.
Variable claim_lease_seconds : float.
Variable graph_hash : pystr.
Variable intent_targets : OptimEvalRequest → list (pystr * pyval * TypedRef).

(** A heartbeat is started for a claim of its own request. *)
Definition startable (job : Job) : Prop :=
  match job with
  | ResolveJob _ _ _ => True
  | HeartbeatJob _ intent owned => intent_ref_of intent = Ok (oc_intent_ref owned)
  end.

Abbreviation safe :=
  (safe (Outcome:=Outcome) (Answer:=IntentResolution) claims_inv startable).
Abbreviation anything := (λ (_ : exn) (_ : ostate), True).

Lemma typed_ref_Ok reference t : typed_ref reference = Ok t → TypedRef_reference t = reference ∧ TypedRef_wf t.
Proof.
  unfold typed_ref. intros H. apply bind_Ok in H as (s & Hs & H). apply bind_Ok in H as (h & Hh & H).
  destruct reference as [rs rh]. simpl in *.
  assert (s = rs ∧ h = rh) as [-> ->].
  { unfold NonEmptyId, ContentHash, ValidatedString_new in Hs, Hh. inv_ok. done. }
  unfold TypedRef_new in H. rewrite Hs in H. simpl in H. rewrite Hh in H. simpl in H.
  injection H as <-. split; [done|]. unfold TypedRef_wf, TypedRef_new. simpl. by rewrite Hs, Hh.
Qed.

Lemma intent_ref_of_Ok intent r :
  intent_ref_of intent = Ok r →
  r = request_ref (tref_content_hash r) ∧ valid_hash (tref_content_hash r) ∧ TypedRef_wf r.
Proof.
  unfold intent_ref_of, typed_ref_for_record. intros (o & Ho & H)%bind_Ok.
  pose proof (for_record_schema _ _ _ Ho) as Hs.
  assert (typed_ref o = Ok r) as Ht.
  { unfold typed_ref. unfold TypedRef_new in H. apply bind_Ok in H as (s & E1 & H).
    apply bind_Ok in H as (h & E2 & [= <-]). rewrite E1. simpl. rewrite E2. simpl.
    unfold TypedRef_new. assert (s = or_schema o ∧ h = or_content_hash o) as [-> ->].
    { unfold NonEmptyId, ContentHash, ValidatedString_new in E1, E2. inv_ok. done. }
    by rewrite E1, bind_Ok_l, E2. }
  apply typed_ref_Ok in Ht as [Hr Hwf]. pose proof Hwf as [_ Hh]%TypedRef_wf_fields.
  split_and!; [|done|done]. destruct r as [rs rh]. unfold request_ref. simpl. f_equal.
  rewrite <-Hr in Hs. exact Hs.
Qed.

Section OneRequest.
Variables (intent : OptimEvalRequest) (h : pystr).
Hypothesis intent_ref : intent_ref_of intent = Ok (request_ref h).

Lemma h_valid : valid_hash h.
Proof. by apply intent_ref_of_Ok in intent_ref as (_ & ? & _). Qed.
Lemma request_wf : TypedRef_wf (request_ref h).
Proof. by apply intent_ref_of_Ok in intent_ref as (_ & _ & ?). Qed.
Lemma claim_key_Ok n : claim_key intent n = Ok (stream_key h n).
Proof. unfold claim_key. by rewrite intent_ref. Qed.
Lemma intent_key_Ok : intent_key intent = Ok (result_key h).
Proof. unfold intent_key. by rewrite intent_ref. Qed.

(** [c] is an event of the stream, in order. *)
Definition claim_in (s : ostate) (c : EvalIntentClaim) : Prop :=
  ∃ n, claim_at s h n c ∧ claim_ok s h n c.

(** [r] is the durable result. *)
Definition bound_result (s : ostate) (r : IntentResolution) : Prop :=
  ∃ reference, store_resolve s (result_key h) = Some reference ∧ loaded_resolution s reference r.

Lemma claim_in_grows s s' c : grows s s' → claim_in s c → claim_in s' c.
Proof.
  intros Hg (n & Hc & Hok). exists n. split; [by eapply claim_at_grows|by eapply claim_ok_grows].
Qed.

Lemma bound_result_grows s s' r : grows s s' → bound_result s r → bound_result s' r.
Proof.
  intros Hg (o & Ho & Hr). exists o. split; [by apply Hg|by eapply bind_get_grows].
Qed.

Lemma load_claim_safe s reference c E :
  loaded_claim s reference c → safe (load_claim reference) (λ c' _, c' = c) E s.
Proof.
  intros Hc. apply safe_get. intros s1 Hg _.
  pose proof (bind_get_grows _ _ _ _ _ Hg Hc) as (v & Hs & Hv)%bind_Ok. rewrite Hs. simpl.
  by rewrite Hv.
Qed.

Lemma check_event_ok s n latest c :
  claim_ok s h n c →
  match n with O => latest = None | S m => ∃ p, latest = Some p ∧ claim_at s h m p end →
  check_event (request_ref h) (Z.of_nat n) latest c = Ok tt.
Proof.
  intros [Hi Ho Hord _] Hl. unfold check_event. rewrite bool_decide_true by done.
  rewrite (proj2 (Z.eqb_eq _ _) Ho). simpl andb. rewrite require_true, bind_Ok_l.
  destruct n as [|m].
  - subst latest. destruct Hord as [Hgen Hhb].
    by rewrite Hgen, Hhb.
  - destruct Hl as (p & -> & Hp). destruct Hord as (p' & Hp' & Hatt & Hf).
    rewrite <-(claim_at_fun s h m p p' Hp Hp') in Hatt, Hf. rewrite Hatt.
    destruct Hf as [(-> & -> & ->)|(Hne & -> & ->)].
    + by rewrite bool_decide_true, !Z.eqb_refl.
    + by rewrite bool_decide_false, !Z.eqb_refl.
Qed.

(** Reading the stream never raises and returns one of its events. *)
Lemma latest_loop_safe fuel latest n s :
  match n with O => latest = None | S m => ∃ p, latest = Some p ∧ claim_at s h m p end →
  match latest with Some c => claim_in s c | None => True end →
  safe (latest_loop fuel intent (request_ref h) latest (Z.of_nat n))
    (λ o s, match o with Some c => claim_in s c | None => True end) (λ _ _, False) s.
Proof.
  revert latest n s. induction fuel as [|fuel IH]; intros latest n s Hn Hin; [done|].
  cbn [latest_loop]. rewrite claim_key_Ok, run_result_bind.
  apply safe_resolve. intros s1 Hg Hinv.
  assert (match latest with Some c => claim_in s1 c | None => True end) as Hin1
    by (destruct latest; eauto using claim_in_grows).
  destruct (store_resolve s1 (stream_key h (Z.of_nat n))) as [bound|] eqn:Hb; [|done].
  destruct (ci_stream s1 Hinv h n bound h_valid Hb) as (c & Hc & Hok).
  eapply safe_bind; [by apply load_claim_safe|]. intros c' s2 Hg2 ->.
  assert (claim_at s2 h n c) as Hat
    by (eapply claim_at_grows; [exact Hg2|]; by exists bound).
  pose proof (claim_ok_grows _ _ _ _ _ Hg2 Hok) as Hok2.
  apply safe_run_bind.
  - intros [] _. replace (Z.of_nat n + 1)%Z with (Z.of_nat (S n)) by lia.
    apply IH; [by eexists|by exists n].
  - intros e He. rewrite (check_event_ok s2 n latest c) in He; [done|done|].
    destruct n; [done|]. destruct Hn as (p & ? & Hp). exists p. split; [done|].
    eapply claim_at_grows; [|exact Hp]. by transitivity s1.
Qed.

Lemma latest_claim_safe fuel s :
  safe (latest_claim fuel intent)
    (λ o s, match o with Some c => claim_in s c | None => True end) (λ _ _, False) s.
Proof.
  unfold latest_claim. rewrite intent_ref. apply (latest_loop_safe _ _ 0); done.
Qed.

Lemma latest_safe {B} fuel (f : option EvalIntentClaim → prog Job Outcome IntentResolution B)
    Φ E s :
  (∀ o s', grows s s' → match o with Some c => claim_in s' c | None => True end →
     safe (f o) Φ E s') →
  safe (latest_claim fuel intent ≫= f) Φ E s.
Proof.
  intros Hf. eapply safe_bind; [|exact Hf].
  eapply safe_weaken; [| |apply latest_claim_safe]; [done|]. intros ? ? _ [].
Qed.

(** The event a resolver may append next. *)
Definition next_in_order (s : ostate) (n : nat) (c : EvalIntentClaim) : Prop :=
  match n with
  | O => eic_generation c = 0%Z ∧ eic_heartbeat_ordinal c = 0%Z
  | S m => ∃ p, claim_at s h m p ∧ follows p c
  end.

(** What the callers of [append_claim_event] guarantee of the event before: a
    takeover is from another owner's event, not an attested one. *)
Definition may_append (s : ostate) (owner_id : pystr) (generation : Z)
    (prior : option EvalIntentClaim) : Prop :=
  match prior with
  | None => True
  | Some p => claim_in s p ∧
      (generation ≠ eic_generation p →
       eic_owner_id p ≠ owner_id ∧ eic_result_attestation_ref p = None)
  end.

Lemma next_ordinal_safe owner_id prior generation heartbeat_ordinal s :
  may_append s owner_id generation prior →
  safe (next_ordinal owner_id prior generation heartbeat_ordinal)
    (λ z s, ∃ n, z = Z.of_nat n ∧ ∀ c, eic_owner_id c = owner_id → eic_generation c = generation →
       eic_heartbeat_ordinal c = heartbeat_ordinal → next_in_order s n c) anything s.
Proof.
  destruct prior as [p|]; simpl next_ordinal; intros Hp.
  - destruct Hp as [(n & Hat & Hok) Htake].
    assert (∀ s', grows s s' → (eic_event_ordinal p + 1)%Z = Z.of_nat (S n) ∧ claim_at s' h n p)
      as Hn.
    { intros s' Hg. split; [|by eapply claim_at_grows]. rewrite (co_ordinal _ _ _ _ Hok). lia. }
    destruct (generation =? eic_generation p)%Z eqn:E.
    + apply Z.eqb_eq in E. apply safe_check_bind; [intros Hown|done].
      apply safe_check_bind; [intros Hatt|done]. inv_bool. destruct (Hn s) as [-> Hn']; [done|].
      exists (S n). split; [done|]. intros c Ho Hc Hh. exists p. split; [done|].
      destruct (eic_result_attestation_ref p) eqn:Ea; [done|]. split; [done|]. left.
      split_and!; congruence.
    + apply Z.eqb_neq in E. destruct (Htake E) as [Hne Hatt].
      apply safe_check_bind; [intros Hgen|done]. apply safe_clock. intros s1 now Hg _.
      apply safe_check_bind; [intros _|done]. inv_bool. destruct (Hn s1) as [-> Hn']; [done|].
      exists (S n). split; [done|]. intros c Ho Hc Hh. exists p. split; [done|].
      split; [done|]. right. split_and!; congruence.
  - apply safe_check_bind; [intros Hz|done]. inv_bool. exists O. split; [done|].
    intros c _ Hc Hh. simpl. lia.
Qed.

Lemma resolve_stream {B} s1 n E Φ (f : EvalIntentClaim → prog Job Outcome IntentResolution B) :
  claims_inv s1 → store_resolve s1 (stream_key h (Z.of_nat n)) ≠ None →
  (∀ c s2, grows s1 s2 → claim_in s2 c → safe (f c) Φ E s2) →
  safe (match store_resolve s1 (stream_key h (Z.of_nat n)) with
        | Some bound => load_claim bound ≫= f
        | None => throw AssertionError ""
        end) Φ E s1.
Proof.
  intros Hinv Hne Hf. destruct (store_resolve s1 _) as [bound|] eqn:Hb; [|done].
  destruct (ci_stream s1 Hinv h n bound h_valid Hb) as (c & Hc & Hok).
  eapply safe_bind; [by apply load_claim_safe|]. intros c' s2 Hg ->. apply Hf; [done|].
  apply (claim_in_grows s1); [done|]. exists n. split; [|done]. by exists bound.
Qed.

Lemma append_safe owner_id prior generation heartbeat_ordinal attestation_ref s :
  may_append s owner_id generation prior →
  (∀ t, attestation_ref = Some t → TypedRef_wf t ∧ ∃ a, loaded_attestation s t a) →
  safe (append_claim_event claim_lease_seconds owner_id intent (request_ref h) prior generation
          heartbeat_ordinal attestation_ref)
    (λ c s, claim_in s c) anything s.
Proof.
  intros Hprior Hatt. eapply safe_bind; [by apply next_ordinal_safe|].
  intros z s1 Hg1 (n & -> & Hnext). apply safe_clock. intros s2 now Hg2 Hinv2. cbv zeta.
  set (c := {| eic_intent_ref := _ |}).
  specialize (Hnext c eq_refl eq_refl eq_refl).
  apply safe_put; [intros; by apply claims_inv_put| |done].
  intros s3 reference Hg3 Hinv3 _ Hget.
  assert (loaded_claim s3 reference c) as Hloaded.
  { unfold loaded_claim. rewrite Hget. apply claim_roundtrip. split; [apply request_wf|].
    intros t Ht. by apply Hatt. }
  assert (∀ s4, grows s3 s4 → claim_ok s4 h n c) as Hok.
  { intros s4 Hg4. assert (grows s1 s4) as Hg14 by (do 2 (etransitivity; [eassumption|]); done).
    split; [done|done| |].
    - destruct n as [|m]; [done|]. destruct Hnext as (p & Hp & Hf). exists p. split; [|done].
      by eapply claim_at_grows.
    - intros t Ht. destruct (Hatt t Ht) as (_ & a & Ha). exists a.
      eapply bind_get_grows; [|exact Ha]. by transitivity s1. }
  rewrite claim_key_Ok, run_result_bind. apply safe_try_bind; [|intros s4 status Hg4 Hinv4 Hst|done].
  - intros s4 Hg4 Hinv4. apply claims_inv_bind; [done| |].
    + intros h' n' Hh' Heq. apply stream_key_inj in Heq as [<- Hn]; [|apply h_valid|done].
      apply Nat2Z.inj in Hn as <-. exists c. split; [by eapply bind_get_grows|by apply Hok].
    + intros h' _ Heq. by apply eq_sym, result_stream_ne in Heq.
  - apply safe_check_bind; [intros _|done]. apply safe_resolve. intros s5 Hg5 Hinv5.
    apply (resolve_stream s5); [done| |].
    + destruct (store_resolve s4 (stream_key h (Z.of_nat n))) as [r'|] eqn:Er.
      * by rewrite (grows_resolve _ _ Hg5 _ _ Er).
      * by destruct status.
    + intros c' s6 _ Hc'. by apply safe_check_bind.
Qed.

(** Records read back by their exact references. *)
Lemma load_exact_safe t a schema s :
  loaded_attestation s t a →
  safe (load_exact t schema) (λ v _, attestation_validate v = Ok a) anything s.
Proof.
  intros Ha. apply safe_check_bind; [intros _|done]. apply safe_get. intros s1 Hg _.
  pose proof (bind_get_grows _ _ _ _ _ Hg Ha) as (v & Hs & Hv)%bind_Ok. rewrite Hs, run_result_bind.
  apply safe_check_bind; [intros _|done]. apply safe_run_bind; [intros r _|done].
  by apply safe_check_bind.
Qed.

Lemma load_result_attestation_safe t a s :
  loaded_attestation s t a →
  safe (load_result_attestation graph_hash t intent) (λ a' _, a' = a) anything s.
Proof.
  intros Ha. eapply safe_bind; [by apply load_exact_safe|]. intros v s1 _ Hv.
  rewrite Hv, run_result_bind. apply safe_check_bind; [intros _|done]. by apply safe_check_bind.
Qed.

Lemma load_safe reference s :
  store_resolve s (result_key h) = Some reference →
  safe (load reference intent) (λ r s, bound_result s r) anything s.
Proof.
  intros Hr. apply safe_run_bind; [intros t Ht|done]. apply typed_ref_Ok in Ht as [Ht _].
  apply safe_check_bind; [intros _|done]. rewrite Ht. apply safe_get. intros s1 Hg _.
  apply safe_run_bind; [intros v Hv|done]. apply safe_run_bind; [intros r Hvalid|done].
  apply safe_run_bind; [intros t' _|done]. apply safe_check_bind; [intros _|done].
  apply safe_ask; [intros s2 Hg2 _|done]. exists reference. split.
  - apply Hg2, Hg, Hr.
  - apply (bind_get_grows _ s1); [done|]. by rewrite Hv.
Qed.

(** [_bind]: a terminal resolution is bound only when it is attested. *)
Lemma bind_resolution_safe r s :
  (resolution_outcome r ≠ REJECTED → attested s h r) →
  safe (bind_resolution intent r) (λ r s, bound_result s r) anything s.
Proof.
  intros Hatt. apply safe_ask; [intros s1 Hg1 _|done].
  apply safe_put; [intros; by apply claims_inv_put|intros s2 reference Hg2 _ _ Hget|done].
  assert (loaded_resolution s2 reference r) as Hr
    by (unfold loaded_resolution; rewrite Hget; apply resolution_roundtrip).
  rewrite intent_key_Ok, run_result_bind. apply safe_try_bind; [|intros s3 status Hg3 _ Hst|done].
  - intros s3 Hg3 Hinv3. apply claims_inv_bind; [done| |].
    + intros h' n' _ Heq. by apply result_stream_ne in Heq.
    + intros h' _ <-%result_key_inj. exists r. split; [by eapply bind_get_grows|].
      intros Ho. eapply attested_grows; [|by apply Hatt].
      do 2 (etransitivity; [eassumption|]). done.
  - destruct status as [st|].
    + exists reference. split; [done|by eapply bind_get_grows].
    + apply safe_resolve. intros s4 Hg4 _.
      destruct (store_resolve s4 (result_key h)) as [winner|] eqn:Hw; [|done].
      by apply load_safe.
Qed.

Lemma owned_latest_safe {B} owner_id owned o
    (f : EvalIntentClaim → prog Job Outcome IntentResolution B) Φ s :
  match o with Some c => claim_in s c | None => True end →
  (∀ c, claim_in s c → owns owner_id owned c = true → safe (f c) Φ anything s) →
  safe (owned_latest owner_id owned o ≫= f) Φ anything s.
Proof.
  intros Ho Hf. destruct o as [c|]; [|done]. unfold owned_latest, check.
  destruct (owns owner_id owned c) eqn:E; [|done]. by apply Hf.
Qed.

(** A renewal of the owner's own claim. *)
Lemma may_renew s owner_id owned c :
  claim_in s c → owns owner_id owned c = true →
  may_append s owner_id (oc_generation owned) (Some c).
Proof.
  intros Hc Howns. unfold owns in Howns. inv_bool. split; [done|]. intros Hne. by destruct Hne.
Qed.

Lemma publish_loop_safe fuel owner_id owned attestation t s :
  oc_intent_ref owned = request_ref h → TypedRef_wf t → loaded_attestation s t attestation →
  safe (publish_loop claim_lease_seconds graph_hash fuel owner_id intent owned attestation t)
    (λ a s, a = attestation ∧ attested s h (era_resolution attestation)) anything s.
Proof.
  intros Href Hwf. revert s. induction fuel as [|fuel IH]; intros s Ha; [done|].
  cbn [publish_loop]. apply latest_safe. intros o s1 Hg1 Ho.
  apply owned_latest_safe; [done|]. intros c Hc Howns.
  destruct (eic_result_attestation_ref c) as [existing_ref|] eqn:Et.
  - destruct Hc as (n & Hat & Hok). destruct (co_attestation _ _ _ _ Hok _ Et) as [a' Ha'].
    eapply safe_bind; [by apply load_result_attestation_safe|]. intros a s2 Hg2 ->.
    apply safe_check_bind; [intros Heq|done]. inv_bool. subst a'. split; [done|].
    exists n, c, existing_ref, attestation.
    split_and!; [by eapply claim_at_grows|done|by eapply bind_get_grows|done].
  - rewrite Href. eapply safe_bind.
    + apply append_safe; [by apply may_renew|]. intros t' [= <-]. split; [done|].
      exists attestation. by eapply bind_get_grows.
    + intros winner s2 Hg2 (n & Hat & Hok). apply safe_check_bind; [intros _|done].
      assert (loaded_attestation s2 t attestation) as Ha2.
      { eapply bind_get_grows; [|exact Ha]. by transitivity s1. }
      case_bool_decide as Hw.
      * split; [done|]. by exists n, winner, t, attestation.
      * destruct (eic_result_attestation_ref winner); [done|]. by apply IH.
Qed.

Lemma publish_safe fuel owner_id resolution owned s :
  oc_intent_ref owned = request_ref h →
  safe (publish_result_attestation claim_lease_seconds graph_hash fuel owner_id intent resolution
          owned)
    (λ _ s, attested s h resolution) anything s.
Proof.
  intros Href. apply safe_ask; [intros s1 Hg1 _|done].
  apply safe_run_bind; [intros a Ha|done].
  apply safe_put; [intros; by apply claims_inv_put|intros s2 reference Hg2 _ _ Hget|done].
  apply safe_run_bind; [intros t Ht|done]. apply typed_ref_Ok in Ht as [Ht Hwf].
  assert (era_resolution a = resolution) as Hres.
  { unfold EvalResultAttestation_new in Ha. inv_ok. done. }
  eapply safe_weaken; [| |apply (publish_loop_safe _ _ _ a t)]; [|done|done|done|].
  - intros a' s' _ [_ Hatt]. by rewrite <-Hres.
  - unfold loaded_attestation. rewrite Ht, Hget. by eapply attestation_roundtrip.
Qed.

Lemma attested_resolution_safe fuel s :
  safe (attested_resolution graph_hash fuel intent)
    (λ o s, match o with Some r => attested s h r | None => True end) anything s.
Proof.
  unfold attested_resolution. apply latest_safe. intros o s1 _ Ho.
  destruct o as [c|]; [|done]. destruct Ho as (n & Hat & Hok).
  pose proof (co_attestation _ _ _ _ Hok) as Hatt.
  destruct c as [r ow m g b x [t|]]; [|done]. destruct (Hatt t eq_refl) as [a Ha].
  eapply safe_bind; [by apply load_result_attestation_safe|]. intros a' s2 Hg2 ->.
  exists n, {| eic_intent_ref := r; eic_owner_id := ow; eic_event_ordinal := m;
    eic_generation := g; eic_heartbeat_ordinal := b; eic_expires_at := x;
    eic_result_attestation_ref := Some t |}, t, a.
  split_and!; [by eapply claim_at_grows|done|by eapply bind_get_grows|done].
Qed.

Lemma renew_claim_safe fuel owner_id owned s :
  oc_intent_ref owned = request_ref h →
  safe (renew_claim claim_lease_seconds fuel owner_id intent owned) (λ _ _, True) anything s.
Proof.
  intros Href. apply latest_safe. intros o s1 _ Ho. apply owned_latest_safe; [done|].
  intros c Hc Howns. destruct (eic_result_attestation_ref c); [done|]. rewrite Href.
  eapply safe_bind; [apply append_safe; [by apply may_renew|done]|].
  intros winner s2 _ _. apply safe_check_bind; [intros _|done].
  split; [done|]. intros s3 x s4 _ Hinv ->. split; [done|]. by destruct x as [[]|].
Qed.

Lemma assert_generation_current_safe fuel owner_id owned s :
  safe (assert_generation_current fuel owner_id intent owned) (λ _ _, True) anything s.
Proof.
  apply latest_safe. intros o s1 _ Ho. by apply owned_latest_safe.
Qed.

(** A claim that is owned is an event of the stream with that owner. *)
Definition owned_in (s : ostate) (owner_id : pystr) (owned : OwnedClaim) : Prop :=
  oc_intent_ref owned = request_ref h ∧
  ∃ c, claim_in s c ∧ owns owner_id owned c = true.

Lemma owned_in_new s owner_id c g :
  claim_in s c → eic_owner_id c = owner_id → eic_generation c = g →
  owned_in s owner_id {| oc_intent_ref := request_ref h; oc_generation := g |}.
Proof.
  intros Hc Ho <-. split; [done|]. exists c. split; [done|]. unfold owns. simpl.
  by rewrite bool_decide_true, Z.eqb_refl.
Qed.

Lemma claim_loop_safe fuel owner_id s :
  safe (claim_loop claim_lease_seconds fuel owner_id intent (request_ref h))
    (λ o s, match o with Some owned => owned_in s owner_id owned | None => True end) anything s.
Proof.
  revert s. induction fuel as [|fuel IH]; intros s; [done|]. cbn [claim_loop].
  rewrite intent_key_Ok, run_result_bind. apply safe_resolve. intros s1 _ _.
  destruct (store_resolve s1 (result_key h)); [done|].
  apply latest_safe. intros o s2 _ Ho.
  apply (safe_bind _ _ _ _ (λ c s, claim_in s c)).
  { destruct o as [c|]; [done|]. apply append_safe; done. }
  intros winner s3 _ Hw. destruct (eic_result_attestation_ref winner) as [t|] eqn:Et; [done|].
  case_bool_decide as Hown; [by eapply owned_in_new|].
  apply safe_clock. intros s4 now Hg4 _. destruct (fle _ _).
  - eapply safe_bind.
    + apply append_safe; [|done]. split; [by eapply claim_in_grows|done].
    + intros takeover s5 _ Htake. case_bool_decide; [by apply (owned_in_new _ _ takeover)|apply IH].
  - apply safe_ask; [intros; apply IH|done].
Qed.

Lemma claim_safe fuel owner_id s :
  safe (Claims.claim claim_lease_seconds fuel owner_id intent)
    (λ o s, match o with Some owned => owned_in s owner_id owned | None => True end) anything s.
Proof. unfold Claims.claim. rewrite intent_ref. apply claim_loop_safe. Qed.

Lemma bind_if_owned_safe fuel owner_id resolution owned s :
  oc_intent_ref owned = request_ref h →
  safe (bind_if_owned claim_lease_seconds graph_hash fuel owner_id intent resolution owned)
    (λ r s, bound_result s r) anything s.
Proof.
  intros Href. unfold bind_if_owned.
  apply (safe_bind _ _ _ _ (λ _ s, resolution_outcome resolution ≠ REJECTED → attested s h resolution)).
  - destruct (terminal_outcome (resolution_outcome resolution)) eqn:Et.
    + eapply safe_bind; [by apply publish_safe|]. by intros ? s1 _ Ha ?.
    + eapply safe_weaken; [| |apply assert_generation_current_safe]; [|done].
      intros ? s1 _ _ Ho. unfold terminal_outcome in Et. inv_bool.
      destruct Et. destruct (resolution_outcome resolution) eqn:E; [by left|by destruct Ho|right; by left].
  - intros ? s1 _ Ha. by apply bind_resolution_safe.
Qed.

Lemma persist_targets_safe targets s :
  safe (persist_targets targets) (λ _ _, True) anything s.
Proof.
  revert s. induction targets as [|[[schema v] expected] targets IH]; intros s; [done|].
  cbn [persist_targets]. apply safe_put; [intros; by apply claims_inv_put|intros s1 r _ _ _ _|done].
  apply safe_run_bind; [intros t _|done]. apply safe_check_bind; [intros _; apply IH|done].
Qed.

Lemma persist_platform_intent_safe s :
  safe (persist_platform_intent intent_targets intent) (λ _ _, True) anything s.
Proof.
  eapply safe_bind; [apply persist_targets_safe|]. intros ? s1 _ _.
  apply safe_put; [intros; by apply claims_inv_put|intros s2 r _ _ _ _|done].
  apply safe_run_bind; [intros k Hk|done].
  unfold platform_intent_key in Hk. rewrite intent_ref in Hk. injection Hk as <-.
  apply safe_bind_key; [|intros; by apply safe_run_result|done].
  intros s3 _ Hinv. apply claims_inv_bind; [done| |]; intros *.
  - intros _ Heq. by apply pending_stream_ne in Heq.
  - intros _ Heq. by apply pending_result_ne in Heq.
Qed.

Lemma evaluate_and_bind_safe fuel owner_id platform owned s :
  oc_intent_ref owned = request_ref h →
  safe (evaluate_and_bind claim_lease_seconds graph_hash intent_targets fuel owner_id intent
          platform owned)
    (λ r s, bound_result s r) anything s.
Proof.
  intros Href. eapply safe_bind; [apply persist_targets_safe|]. intros ? s1 _ _.
  rewrite intent_key_Ok, run_result_bind. apply safe_resolve. intros s2 _ _.
  destruct (store_resolve s2 (result_key h)) as [existing|] eqn:He; [by apply load_safe|].
  destruct platform.
  - eapply safe_bind; [apply persist_platform_intent_safe|]. done.
  - eapply safe_bind; [apply assert_generation_current_safe|]. intros ? s3 _ _.
    apply safe_compute; [intros; by apply bind_if_owned_safe|done].
Qed.

Lemma heartbeat_safe fuel owner_id owned s :
  oc_intent_ref owned = request_ref h →
  safe (heartbeat claim_lease_seconds fuel owner_id intent owned) (λ _ _, True) anything s.
Proof.
  intros Href. eapply (safe_catch _ _ _ _ _ anything); [|done].
  revert s. induction fuel as [|fuel IH]; intros s; [done|]. cbn [heartbeat_loop].
  apply safe_call; [done|done|]. intros s1 stopped _ _. destruct stopped; [done|].
  eapply safe_bind; [by apply renew_claim_safe|]. intros ? s2 _ _. apply IH.
Qed.

Lemma evaluate_with_heartbeat_safe fuel owner_id platform owned s :
  oc_intent_ref owned = request_ref h →
  safe (evaluate_with_heartbeat claim_lease_seconds graph_hash intent_targets fuel owner_id intent
          platform owned)
    (λ r s, bound_result s r) anything s.
Proof.
  intros Href. eapply safe_bind; [by apply renew_claim_safe|]. intros ? s1 _ _.
  apply safe_call; [by rewrite <-Href in intent_ref|done|]. intros s2 thread _ _.
  eapply safe_bind.
  - apply safe_finally; [by intros r s3 s4; apply bound_result_grows|done| |].
    + eapply safe_bind; [apply assert_generation_current_safe|]. intros ? s3 _ _.
      by apply evaluate_and_bind_safe.
    + intros s3 _. apply safe_call; [done..|]. intros s4 _ _ _. by apply safe_call.
  - intros r s3 _ Hr. simpl in Hr. apply safe_call; [done..|]. intros s4 errors Hg4 _.
    assert (bound_result s4 r) as Hr4 by (by eapply bound_result_grows).
    destruct errors as [|[|]]; [done|done|].
    rewrite intent_key_Ok, run_result_bind. apply safe_resolve. intros s5 Hg5 _.
    destruct (store_resolve s5 (result_key h)); [|done]. by eapply bound_result_grows.
Qed.

Lemma resolve_claimed_safe fuel owner_id platform s :
  safe (resolve_claimed claim_lease_seconds graph_hash intent_targets fuel owner_id intent platform)
    (λ r s, bound_result s r) anything s.
Proof.
  unfold resolve_claimed. rewrite intent_key_Ok, run_result_bind.
  apply safe_resolve. intros s1 _ _.
  destruct (store_resolve s1 (result_key h)) as [existing|] eqn:E1; [by apply load_safe|].
  eapply safe_bind; [apply attested_resolution_safe|]. intros o s2 _ Ho.
  destruct o as [r|]; [by apply bind_resolution_safe|].
  eapply safe_bind; [apply claim_safe|]. intros owned s3 _ Howned.
  apply safe_resolve. intros s4 _ _.
  destruct (store_resolve s4 (result_key h)) as [existing|] eqn:E4; [by apply load_safe|].
  eapply safe_bind; [apply attested_resolution_safe|]. intros o' s5 _ Ho'.
  destruct o' as [r|]; [by apply bind_resolution_safe|].
  destruct owned as [owned|]; [|done]. by apply evaluate_with_heartbeat_safe; destruct Howned.
Qed.
End OneRequest.

(** ** Every thread is safe *)

(** What a thread established when it ended. *)
Definition job_post (job : Job) (o : Outcome) (s : ostate) : Prop :=
  match job, o with
  | ResolveJob _ intent _, Resolved r =>
      ∃ h, intent_ref_of intent = Ok (request_ref h) ∧ bound_result h s r
  | ResolveJob _ _ _, HeartbeatEnded _ => False
  | HeartbeatJob _ _ _, _ => True
  end.

Lemma job_post_stable job : stable (job_post job).
Proof.
  intros o s s' Hg. destruct job, o; simpl; [|done..].
  intros (h & Hh & Hr). exists h. split; [done|]. by eapply bound_result_grows.
Qed.

Lemma service_code_safe fuel job s :
  startable job →
  safe (service_code claim_lease_seconds graph_hash intent_targets fuel job)
    (job_post job) anything s.
Proof.
  destruct job as [owner_id intent platform|owner_id intent owned]; intros Hj; simpl service_code.
  - destruct (intent_ref_of intent) as [r|e] eqn:Href.
    + pose proof Href as [Hr _]%intent_ref_of_Ok. rewrite Hr in Href.
      eapply safe_bind; [by apply resolve_claimed_safe|]. intros x s1 _ Hx.
      by exists (tref_content_hash r).
    + unfold resolve_claimed, intent_key. by rewrite Href.
  - pose proof Hj as [Hr _]%intent_ref_of_Ok. simpl in Hj. rewrite Hr in Hj.
    eapply safe_weaken; [| |by apply (heartbeat_safe intent _ Hj)]; done.
Qed.
End Safety.

(** ** Theorems *)

Section ClaimTheorems.
Context `{DOs : !DrObjectStore, DSto : !DrStore, DLaws : !DrObjectStoreLaws}.
Context `{Rec : !EvalRecords, RLaws : !EvalRecordsLaws}.
Variable claim_lease_seconds : float.
Variable graph_hash : pystr.
Variable intent_targets : OptimEvalRequest → list (pystr * pyval * TypedRef).
Variable fuel : nat.

(** Requests to resolve come from outside; heartbeats are started by them. *)
Definition external (job : Job) : Prop :=
  match job with ResolveJob _ _ _ => True | HeartbeatJob _ _ _ => False end.

Definition initial (s : ostate) : config Job Outcome IntentResolution :=
  {| cf_store := s; cf_threads := [] |}.

(** The configurations any number of services reaches from a store without
    bindings, however their threads interleave. *)
Definition reachable (c : config Job Outcome IntentResolution) : Prop :=
  ∃ s, (∀ k, store_resolve s k = None) ∧
    rtc (step (service_code claim_lease_seconds graph_hash intent_targets fuel) external)
      (initial s) c.

Lemma reachable_config_ok c :
  reachable c → config_ok claims_inv startable job_post c.
Proof.
  intros (s & Hs & Hsteps). eapply (reachable_ok claims_inv startable external); [| | |exact Hsteps|].
  - apply job_post_stable.
  - by intros [].
  - intros j s1 Hj _. by apply service_code_safe.
  - split; [by apply claims_inv_empty|constructor].
Qed.

(** C26. The claim stream of a request stays in order under every interleaving
    of any number of owners and heartbeats. Its events are contiguous from
    ordinal 0; each renews the event before it (same owner and generation, next
    heartbeat) or takes over from it (another owner, next generation,
    heartbeat 0); a generation belongs to one owner; and nothing follows an
    event that attests a result. *)
Theorem claim_stream_in_order c h :
  reachable c → valid_hash h →
  (∀ n reference, store_resolve (cf_store c) (stream_key h (Z.of_nat n)) = Some reference →
     ∃ e, claim_at (cf_store c) h n e ∧ eic_intent_ref e = request_ref h ∧
       eic_event_ordinal e = Z.of_nat n ∧
       match n with
       | O => eic_generation e = 0%Z ∧ eic_heartbeat_ordinal e = 0%Z
       | S m => ∃ p, claim_at (cf_store c) h m p ∧ follows p e
       end) ∧
  (∀ m n d e, claim_at (cf_store c) h m d → claim_at (cf_store c) h n e →
     eic_generation d = eic_generation e → eic_owner_id d = eic_owner_id e) ∧
  (∀ m n d e t, claim_at (cf_store c) h m d → claim_at (cf_store c) h n e →
     eic_result_attestation_ref d = Some t → (n <= m)%nat).
Proof.
  intros [Hinv _]%reachable_config_ok Hh. split_and!.
  - intros n reference Hr. destruct (ci_stream _ Hinv h n reference Hh Hr) as (e & He & Hok).
    exists e. destruct Hok as [Hi Ho Hord _]. split; [by exists reference|]. done.
  - intros m n d e Hd He Hg. destruct (Nat.le_ge_cases m n) as [Hmn|Hnm].
    + symmetry. destruct (stream_ordered _ h m d n e Hinv Hh Hd He Hmn) as [_ Ho]. symmetry. auto.
    + destruct (stream_ordered _ h n e m d Hinv Hh He Hd Hnm) as [_ Ho]. symmetry. auto.
  - intros m n d e t Hd He Ht. by eapply attested_last.
Qed.

(** C27. All resolvers agree. Whatever threads of whatever owners resolved the
    same request, they return the same resolution, and it is the one durably
    bound to the request. *)
Theorem resolvers_agree c intent i j owner_i owner_j mode_i mode_j t u ri rj :
  reachable c →
  cf_threads c !! i = Some t → th_job t = ResolveJob owner_i intent mode_i →
  th_prog t = Ret (Resolved ri) →
  cf_threads c !! j = Some u → th_job u = ResolveJob owner_j intent mode_j →
  th_prog u = Ret (Resolved rj) →
  ri = rj ∧ ∃ r reference, intent_ref_of intent = Ok r ∧
    store_resolve (cf_store c) (result_key (tref_content_hash r)) = Some reference ∧
    loaded_resolution (cf_store c) reference ri.
Proof.
  intros Hc%reachable_config_ok Ht Hjt Hpt Hu Hju Hpu.
  assert (∀ k v o r, cf_threads c !! k = Some v → th_job v = ResolveJob o intent mode_i ∨
    th_job v = ResolveJob o intent mode_j → th_prog v = Ret (Resolved r) →
    ∃ h, intent_ref_of intent = Ok (request_ref h) ∧ bound_result h (cf_store c) r) as Hpost.
  { intros k v o r Hk Hj Hp. pose proof (returned_post _ _ _ c k v _ Hc Hk Hp) as Hpost.
    by destruct Hj as [Hj|Hj]; rewrite Hj in Hpost. }
  destruct (Hpost i t owner_i ri) as (h & Hh & reference & Hr & Hl); auto.
  destruct (Hpost j u owner_j rj) as (h' & Hh' & reference' & Hr' & Hl'); auto.
  assert (h' = h) as -> by (unfold request_ref in *; congruence).
  assert (reference' = reference) as -> by congruence.
  split; [unfold loaded_resolution in *; congruence|].
  by exists (request_ref h), reference.
Qed.

(** C28. A bound result is a resolution, and one that was executed (completed
    or failed) is the result the claim stream attests, of which there is at
    most one. *)
Theorem bound_result_attested c h reference :
  reachable c → valid_hash h → store_resolve (cf_store c) (result_key h) = Some reference →
  ∃ r, loaded_resolution (cf_store c) reference r ∧
    (resolution_outcome r ≠ REJECTED →
     attested (cf_store c) h r ∧ ∀ r', attested (cf_store c) h r' → r' = r).
Proof.
  intros [Hinv _]%reachable_config_ok Hh Hr.
  destruct (ci_result _ Hinv h reference Hh Hr) as (r & Hl & Hatt). exists r.
  split; [done|]. intros Ho. specialize (Hatt Ho). split; [done|]. intros r' Hr'.
  by eapply attested_fun.
Qed.

(** Reading alone: the calls that read the store, answered by it. *)
Fixpoint run_alone {A} (p : prog Job Outcome IntentResolution A) (s : ostate) :
    option (result A) :=
  match p with
  | Ret a => Some (Ok a)
  | Throw e => Some (Err e)
  | Spin => None
  | Vis e k =>
      match e in effect _ _ _ X return (X → option (result A)) → option (result A) with
      | Get r => λ go, go (store_get s r)
      | Resolve key => λ go, go (store_resolve s key)
      | _ => λ _, None
      end (λ x, run_alone (k x) s)
  end.

Lemma run_alone_resolve {A} k (f : _ → prog Job Outcome IntentResolution A) s :
  run_alone (resolve k ≫= f) s = run_alone (f (store_resolve s k)) s.
Proof. done. Qed.

Lemma run_alone_load {A} bound e (f : _ → prog Job Outcome IntentResolution A) s :
  loaded_claim s bound e → run_alone (load_claim bound ≫= f) s = run_alone (f e) s.
Proof. intros (v & Hv & He)%bind_Ok. simpl. rewrite Hv. simpl. by rewrite He. Qed.

Lemma latest_loop_run intent h s n : ∀ turns m latest,
  claims_inv s → intent_ref_of intent = Ok (request_ref h) →
  store_resolve s (stream_key h (Z.of_nat n)) = None → (m <= n)%nat →
  (∀ k, (k < n)%nat → store_resolve s (stream_key h (Z.of_nat k)) ≠ None) →
  match m with O => latest = None | S k => ∃ p, latest = Some p ∧ claim_at s h k p end →
  (n - m < turns)%nat →
  ∃ o, run_alone (latest_loop turns intent (request_ref h) latest (Z.of_nat m)) s = Some (Ok o) ∧
    match n with O => o = None | S k => ∃ e, o = Some e ∧ claim_at s h k e end.
Proof.
  intros turns. induction turns as [|turns IH]; intros m latest Hinv Href Hn Hm Hbound Hl Hturns; [lia|].
  pose proof (h_valid intent h Href) as Hh.
  cbn [latest_loop]. rewrite (claim_key_Ok intent h Href), run_result_bind, run_alone_resolve.
  destruct (decide (m = n)) as [->|Hne].
  - rewrite Hn. exists latest. split; [done|exact Hl].
  - destruct (store_resolve s (stream_key h (Z.of_nat m))) as [bound|] eqn:Hb;
      [|by destruct (Hbound m); [lia|]].
    destruct (ci_stream s Hinv h m bound Hh Hb) as (e & He & Hok).
    rewrite (run_alone_load bound e) by done.
    rewrite (check_event_ok h s m latest e Hok Hl), run_result_bind.
    replace (Z.of_nat m + 1)%Z with (Z.of_nat (S m)) by lia.
    apply IH; [done|done|done|lia|done| |lia]. exists e. split; [done|]. by exists bound.
Qed.

(** C29. Reading a claim stream never fails. In a reachable store whose stream
    has [n] events, [_latest_claim] run alone returns the last one (none when
    [n] is 0) once its loop may take more than [n] turns; and whatever other
    threads append while it reads, it never raises, and an event it returns is
    an event of the stream. *)
Theorem latest_claim_total c intent r n turns :
  reachable c → intent_ref_of intent = Ok r →
  let h := tref_content_hash r in
  store_resolve (cf_store c) (stream_key h (Z.of_nat n)) = None →
  (∀ k, (k < n)%nat → store_resolve (cf_store c) (stream_key h (Z.of_nat k)) ≠ None) →
  (n < turns)%nat →
  (∃ o, run_alone (latest_claim turns intent) (cf_store c) = Some (Ok o) ∧
     match n with O => o = None | S m => ∃ e, o = Some e ∧ claim_at (cf_store c) h m e end) ∧
  ∀ turns', safe claims_inv startable (latest_claim turns' intent)
    (λ o s, match o with Some e => ∃ m, claim_at s h m e | None => True end)
    (λ _ _, False) (cf_store c).
Proof.
  intros [Hinv _]%reachable_config_ok Href h Hn Hbound Hturns.
  pose proof Href as (Hr & Hh & _)%intent_ref_of_Ok. fold h in Hr. rewrite Hr in Href. split.
  - unfold latest_claim. rewrite Href, run_result_bind.
    apply (latest_loop_run _ _ _ n turns 0 None); [done|done|done|lia|done|done|lia].
  - intros turns'. eapply safe_weaken; [| |by apply latest_claim_safe]; [|done].
    intros [e|] s _ He; [|done]. destruct He as (m & He & _). by exists m.
Qed.
End ClaimTheorems.

(** ** A concrete store and two resolvers *)
Module ConcreteClaims.
Import Concrete.

(** 64 hexadecimal digits, of the last characters of the text. *)
Definition hex_digit (c : Z) : Z :=
  let n := Z.land c 15 in if (n <? 10)%Z then (48 + n)%Z else (87 + n)%Z.
Definition hash (s : pystr) : pystr :=
  hex_digit <$> take 64 (rev_append s (replicate 64 0%Z)).

#[export] Instance hashed : DrStore := {|
  for_record schema v := Ok {| or_schema := schema; or_content_hash := hash (render v) |};
|}.

#[export] Instance list_store : DrObjectStore := ListStore.list_store.

#[export] Instance list_store_laws : DrObjectStoreLaws.
Proof. apply ListStore.list_store_laws. by intros schema v r [= <-]. Qed.

Definition outcome_text (o : IntentOutcome) : pystr :=
  match o with COMPLETED => $"completed" | REJECTED => $"rejected" | FAILED => $"failed" end.

(** A request is a name, a resolution its request and outcome. *)
#[export] Instance named_requests : EvalRecords := {|
  OptimEvalRequest := pystr;
  request_dump name := PStr name;
  IntentResolution := pystr * IntentOutcome;
  resolution_dump r := PTuple [PStr r.1; PStr (outcome_text r.2)];
  resolution_validate v :=
    match v with
    | PTuple [PStr name; PStr o] =>
        if decide (o = $"completed") then Ok (name, COMPLETED)
        else if decide (o = $"rejected") then Ok (name, REJECTED) else Ok (name, FAILED)
    | _ => raise ValueError ""
    end;
  resolution_request := fst;
  resolution_outcome := snd;
|}.

#[export] Instance named_requests_laws : EvalRecordsLaws.
Proof. split. by intros [name []]. Qed.

(** The engine completes the request; the clock stands still. *)
Definition answers : oracle :=
  {| or_time := float_of_Z 100; or_ask := Ok tt; or_compute := Ok ($"q", COMPLETED) |}.

Definition empty_store : ostate := ([], []).

(** Two owners resolve the same request: the first evaluates it (its heartbeat,
    thread 2, takes a few turns), the second starts in between. *)
Definition two_resolvers : config Job Outcome (pystr * IntentOutcome) :=
  let code := service_code (float_of_Z 300) (hash []) (λ _, []) 5 in
  let arrive j c :=
    {| cf_store := cf_store c; cf_threads := cf_threads c ++ [new_thread code j] |} in
  run_schedule code
    ((λ i, (i, answers)) <$>
       replicate 30 0%nat ++ replicate 2 1%nat ++ replicate 30 0%nat ++ replicate 2 2%nat ++
       replicate 60 0%nat ++ replicate 20 2%nat ++ replicate 20 0%nat ++ replicate 20 1%nat)
    (arrive (ResolveJob (Rec:=named_requests) $"bob" $"q" false)
       (arrive (ResolveJob (Rec:=named_requests) $"ann" $"q" false) (initial empty_store))).

Lemma two_resolvers_reachable :
  reachable (float_of_Z 300) (hash []) (λ _, []) 5 two_resolvers.
Proof.
  exists empty_store. split; [done|].
  eapply rtc_l;
    [apply (step_arrive _ _ _ (ResolveJob (Rec:=named_requests) $"ann" $"q" false)); exact I|].
  eapply rtc_l;
    [apply (step_arrive _ _ _ (ResolveJob (Rec:=named_requests) $"bob" $"q" false)); exact I|].
  apply run_schedule_steps.
Qed.

(** What became of the request, read off the final configuration. *)
Definition example_hash : pystr := hash (render (PStr $"q")).

Definition event_bound (c : config Job Outcome (pystr * IntentOutcome)) (n : nat) : bool :=
  match store_resolve (cf_store c) (stream_key example_hash (Z.of_nat n)) with
  | Some _ => true | None => false
  end.

Definition resolved_by (owner_id : pystr)
    (t : option (thread Job Outcome (pystr * IntentOutcome))) : bool :=
  match t with
  | Some {| th_job := ResolveJob o name false; th_prog := Ret (Resolved r) |} =>
      bool_decide (o = owner_id) && bool_decide (name = $"q") &&
      bool_decide (r = ($"q", COMPLETED))
  | _ => false
  end.

Definition resolved_facts (c : config Job Outcome (pystr * IntentOutcome)) : bool :=
  event_bound c 0 && event_bound c 1 && event_bound c 2 && negb (event_bound c 3) &&
  resolved_by $"ann" (cf_threads c !! 0%nat) && resolved_by $"bob" (cf_threads c !! 1%nat).

Lemma two_resolvers_facts : resolved_facts two_resolvers = true.
Proof. vm_compute. reflexivity. Qed.

Lemma resolved_by_spec owner_id t :
  resolved_by owner_id t = true →
  ∃ u, t = Some u ∧ th_job u = ResolveJob (Rec:=named_requests) owner_id $"q" false ∧
    th_prog u = Ret (Resolved (Rec:=named_requests) ($"q", COMPLETED)).
Proof.
  destruct t as [[[o name []|] [[r|]|e| |] stop]|]; simpl; try done. intros H. inv_bool.
  subst. by eexists.
Qed.

(** The stream has three events and both threads returned. *)
Lemma resolved_facts_spec c :
  resolved_facts c = true →
  (∀ n, (n < 3)%nat → ∃ reference,
     store_resolve (cf_store c) (stream_key example_hash (Z.of_nat n)) = Some reference) ∧
  store_resolve (cf_store c) (stream_key example_hash (Z.of_nat 3)) = None ∧
  (∃ t, cf_threads c !! 0%nat = Some t ∧
     th_job t = ResolveJob (Rec:=named_requests) $"ann" $"q" false ∧
     th_prog t = Ret (Resolved (Rec:=named_requests) ($"q", COMPLETED))) ∧
  ∃ t, cf_threads c !! 1%nat = Some t ∧
     th_job t = ResolveJob (Rec:=named_requests) $"bob" $"q" false ∧
     th_prog t = Ret (Resolved (Rec:=named_requests) ($"q", COMPLETED)).
Proof.
  unfold resolved_facts, event_bound. rewrite !andb_true_iff.
  intros (((((H0 & H1) & H2) & H3) & Ha) & Hb). split_and!.
  - intros n Hn. destruct n as [|[|[|n]]]; [| | |lia];
      match goal with |- ∃ r, ?x = Some r => destruct x; [by eexists|done] end.
  - by destruct (store_resolve (cf_store c) (stream_key example_hash (Z.of_nat 3))).
  - by apply resolved_by_spec.
  - by apply resolved_by_spec.
Qed.

Definition bound_outcome (c : config Job Outcome (pystr * IntentOutcome)) :
    option IntentOutcome :=
  match store_resolve (cf_store c) (result_key example_hash) with
  | Some reference =>
      match store_get (cf_store c) reference with
      | Ok v => match resolution_validate v with
                | Ok r => Some (resolution_outcome r) | Err _ => None end
      | Err _ => None
      end
  | None => None
  end.

Lemma bound_outcome_spec c o :
  bound_outcome c = Some o →
  ∃ reference r, store_resolve (cf_store c) (result_key example_hash) = Some reference ∧
    loaded_resolution (Rec:=named_requests) (cf_store c) reference r ∧ resolution_outcome r = o.
Proof.
  unfold bound_outcome, loaded_resolution. intros H.
  destruct (store_resolve _ _) as [reference|]; [|done].
  destruct (store_get _ _) as [v|] eqn:Hv; [|done].
  destruct (resolution_validate v) as [r|] eqn:Hr; [|done]. injection H as <-.
  exists reference, r. by rewrite Hv.
Qed.

Lemma two_resolvers_outcome : bound_outcome two_resolvers = Some COMPLETED.
Proof. vm_compute. reflexivity. Qed.

Lemma example_valid : valid_hash example_hash.
Proof. vm_compute. reflexivity. Qed.
End ConcreteClaims.

Section ClaimWitnesses.
Import ConcreteClaims.

Lemma claim_stream_in_order_witness :
  ∃ e p, claim_at (cf_store two_resolvers) example_hash 1 e ∧
    claim_at (cf_store two_resolvers) example_hash 0 p ∧ follows p e.
Proof.
  destruct (resolved_facts_spec _ two_resolvers_facts) as (Hbound & _).
  destruct (Hbound 1%nat (le_S 2 2 (le_n 2))) as [reference Hr].
  destruct (claim_stream_in_order _ _ _ _ two_resolvers example_hash two_resolvers_reachable
    example_valid) as (Hevents & _ & _).
  destruct (Hevents 1%nat reference Hr) as (e & He & _ & _ & p & Hp & Hf).
  exists e, p. split; [exact He|]. split; [exact Hp|exact Hf].
Defined.

Lemma resolvers_agree_witness :
  ∃ r reference, intent_ref_of (Rec:=named_requests) $"q" = Ok r ∧
    store_resolve (cf_store two_resolvers) (result_key (tref_content_hash r)) = Some reference ∧
    loaded_resolution (cf_store two_resolvers) reference ($"q", COMPLETED).
Proof.
  destruct (resolved_facts_spec _ two_resolvers_facts) as (_ & _ & Hann & Hbob).
  destruct Hann as (t & Ht & Hjt & Hpt). destruct Hbob as (u & Hu & Hju & Hpu).
  exact (proj2 (resolvers_agree _ _ _ _ two_resolvers $"q" 0 1 _ _ _ _ t u _ _
    two_resolvers_reachable Ht Hjt Hpt Hu Hju Hpu)).
Defined.

Lemma bound_result_attested_witness :
  ∃ r, resolution_outcome r = COMPLETED ∧ attested (cf_store two_resolvers) example_hash r.
Proof.
  destruct (bound_outcome_spec _ _ two_resolvers_outcome) as (reference & r' & Hr & Hl' & Ho).
  destruct (bound_result_attested _ _ _ _ two_resolvers example_hash reference
    two_resolvers_reachable example_valid Hr) as (r & Hl & Hatt).
  pose proof (eq_trans (eq_sym Hl) Hl') as Heq. injection Heq as ->.
  exists r'. split; [exact Ho|]. apply Hatt. rewrite Ho. discriminate.
Defined.

Lemma latest_claim_total_witness :
  ∃ o, run_alone (latest_claim (Rec:=named_requests) 4 $"q") (cf_store two_resolvers) = Some (Ok o) ∧
    ∃ e, o = Some e ∧ claim_at (cf_store two_resolvers) example_hash 2 e.
Proof.
  destruct (resolved_facts_spec _ two_resolvers_facts) as (Hbound & Hend & _).
  destruct (latest_claim_total (Rec:=named_requests) _ _ _ _ two_resolvers $"q"
    (request_ref example_hash) 3 4 two_resolvers_reachable) as [Halone _].
  - vm_compute. reflexivity.
  - exact Hend.
  - intros k Hk Hnone. destruct (Hbound k Hk) as [reference Hr].
    pose proof (eq_trans (eq_sym Hnone) Hr) as Heq. discriminate Heq.
  - apply Nat.lt_succ_diag_r.
  - exact Halone.
Defined.
End ClaimWitnesses.
