(* ===== verification/PartialRecord.v ===== *)
(** * PartialRecord: the rows of the partial-call log

    Models the records of [execution/partials.py]: one provider call as it is
    kept on disk, the canonical UTC time it is stamped with, the checks of its
    values, the checksummed frame it is written as and the file name its key
    gives it. The strict decoder of dr-serialize and pydantic's reading of a
    number from a string are parameters. *)

From S2P Require Import Prelude Floats Identity Leasing EvalConfigs Reward Plan Aggregate Admission Claims.
From S2P Require Import Sha256 JsonText Frozen.
From Stdlib Require Import SpecFloat.

Definition PARTIAL_FRAME_SCHEMA := $"whetstone.execution.partial_frame/v3".
Definition PARTIAL_SCHEMA := $"whetstone.execution.partial_call/v3".

(** dr-serialize's [decode_strict_json_bytes(raw, max_bytes, max_depth)]. *)
Class StrictJsonBytes := { decode_strict_json_bytes : list Z → Z → Z → result pyval }.

(** pydantic's reading of a string as a float, in its lax mode. *)
Class PydanticText := { float_of_str : pystr → option float }.

(** ** Time

    [datetime.now(UTC).isoformat()]: the date and time of day in UTC, the
    fraction left out when it is zero. *)
Record datetime := {
  dt_year : Z; dt_month : Z; dt_day : Z;
  dt_hour : Z; dt_minute : Z; dt_second : Z; dt_microsecond : Z;
}.

Definition digit_char (n : Z) : Z := (48 + n mod 10)%Z.
Definition two_digits (n : Z) : pystr := [digit_char (n / 10); digit_char n].
Definition four_digits (n : Z) : pystr := two_digits (n / 100) ++ two_digits n.
Definition six_digits (n : Z) : pystr := two_digits (n / 10000) ++ four_digits n.

Definition is_leap (year : Z) : bool :=
  ((year mod 4 =? 0) && negb (year mod 100 =? 0) || (year mod 400 =? 0))%Z.

Definition days_in_month (year month : Z) : Z :=
  if (month =? 2)%Z then (if is_leap year then 29 else 28)%Z
  else if bool_decide (month ∈ [4; 6; 9; 11]%Z) then 30%Z else 31%Z.

(** The instants a [datetime] can hold. *)
Definition valid_datetime (d : datetime) : bool :=
  ((1 <=? dt_year d) && (dt_year d <=? 9999) && (1 <=? dt_month d) && (dt_month d <=? 12) &&
   (1 <=? dt_day d) && (dt_day d <=? days_in_month (dt_year d) (dt_month d)) &&
   (0 <=? dt_hour d) && (dt_hour d <? 24) && (0 <=? dt_minute d) && (dt_minute d <? 60) &&
   (0 <=? dt_second d) && (dt_second d <? 60) && (0 <=? dt_microsecond d) &&
   (dt_microsecond d <? 1000000))%Z.

(** [d.astimezone(UTC).isoformat()] of a time in UTC. *)
Definition isoformat (d : datetime) : pystr :=
  four_digits (dt_year d) ++ $"-" ++ two_digits (dt_month d) ++ $"-" ++ two_digits (dt_day d) ++
  $"T" ++ two_digits (dt_hour d) ++ $":" ++ two_digits (dt_minute d) ++ $":" ++
  two_digits (dt_second d) ++
  (if (dt_microsecond d =? 0)%Z then [] else $"." ++ six_digits (dt_microsecond d)) ++ $"+00:00".

(** The number a text of decimal digits denotes. *)
Definition number_of (s : pystr) : option Z :=
  if forallb (λ c, (48 <=? c) && (c <=? 57))%Z s
  then Some (foldl (λ acc c, acc * 10 + (c - 48))%Z 0%Z s) else None.

(** [datetime.fromisoformat(value)] of the texts [isoformat] writes. It reads
    other layouts and offsets as well; their time, written back in UTC, is
    another text. *)
Definition fromisoformat (value : pystr) : option datetime :=
  let at_ i n := number_of (take n (drop i value)) in
  year ← at_ 0%nat 4%nat; month ← at_ 5%nat 2%nat; day ← at_ 8%nat 2%nat;
  hour ← at_ 11%nat 2%nat; minute ← at_ 14%nat 2%nat; second ← at_ 17%nat 2%nat;
  microsecond ← (if (length value =? 32)%nat then at_ 20%nat 6%nat else Some 0%Z);
  let d := {| dt_year := year; dt_month := month; dt_day := day; dt_hour := hour;
              dt_minute := minute; dt_second := second; dt_microsecond := microsecond |} in
  if valid_datetime d then Some d else None.

Definition validate_timestamp (value : pystr) : result unit :=
  require (negb (bool_decide (value = []))) ValueError
    "partial row at must be a non-empty timestamp" ;;
  parsed ← of_option (fromisoformat value) ValueError "partial row at must be an ISO 8601 timestamp";
  require (bool_decide (value = isoformat parsed)) ValueError
    "partial row at must use canonical UTC ISO 8601 formatting".

(** ** Values *)

Fixpoint reject_non_finite (value : pyval) : result unit :=
  match value with
  | PFloat f => require (fisfinite f) ValueError "must contain only finite numbers"
  | PDict kvs => foldr (λ kv rest, reject_non_finite kv.2 ;; rest) (Ok tt) kvs
  | PList l | PTuple l => foldr (λ v rest, reject_non_finite v ;; rest) (Ok tt) l
  | _ => Ok tt
  end.

Fixpoint validate_finite_json (value : pyval) : result unit :=
  match value with
  | PNone | PStr _ | PBool _ | PInt _ => Ok tt
  | PFloat f => require (fisfinite f) ValueError "must contain only finite numbers"
  | PList l => foldr (λ v rest, validate_finite_json v ;; rest) (Ok tt) l
  | PDict kvs => foldr (λ kv rest, validate_finite_json kv.2 ;; rest) (Ok tt) kvs
  | PTuple _ | PFrozen _ => raise ValueError "must contain only JSON values"
  end.

(** ** The record *)

Record PartialCallRecord := {
  pc_phase : pystr;
  pc_task_id : pystr;
  pc_unit : pystr;
  pc_seed_index : Z;
  pc_request_hash : pystr;
  pc_redrive_pending : bool;
  pc_score : option float;
  pc_failed : bool;
  pc_failure_code : pystr;
  pc_prompt_tokens : option Z;
  pc_completion_tokens : option Z;
  pc_total_tokens : option Z;
  pc_reasoning_tokens : option Z;
  pc_latency_s : option float;
  pc_output_text : option pystr;
  pc_raw_response : pystr;
  pc_observation_payload : pyval;
  pc_finish_reason : option pystr;
  pc_provider_error : option (list (pystr * pyval));
  pc_split_role : option pystr;
  pc_at : option pystr;
  pc_schema_name : pystr;
  pc_cache_hit : bool;
  pc_cache_source_phase : option pystr;
  pc_cache_source_unit : option pystr;
  pc_cache_source_call_id : option pystr;
  pc_cache_source_at : option pystr;
}.

#[export] Instance PartialCallRecord_eq_dec : EqDecision PartialCallRecord.
Proof. assert (EqDecision spec_float) by solve_decision. solve_decision. Defined.

(** The identity of a row. *)
Definition partial_identity : Type := pystr * pystr * pystr * Z * pystr.

Definition partial_key (phase task_id unit : pystr) (seed_index : Z) (request_hash : pystr) :
    partial_identity := (phase, task_id, unit, seed_index, request_hash).

Definition key (self : PartialCallRecord) : partial_identity :=
  partial_key (pc_phase self) (pc_task_id self) (pc_unit self) (pc_seed_index self)
    (pc_request_hash self).

Definition PARTIAL_FIELDS : list pystr :=
  [$"schema"; $"phase"; $"task_id"; $"unit"; $"seed_index"; $"request_hash"; $"redrive_pending";
   $"split_role"; $"score"; $"failed"; $"failure_code"; $"prompt_tokens"; $"completion_tokens";
   $"total_tokens"; $"reasoning_tokens"; $"latency_s"; $"output_text"; $"raw_response";
   $"observation_payload"; $"finish_reason"; $"provider_error"; $"at"; $"cache_hit";
   $"cache_source_phase"; $"cache_source_unit"; $"cache_source_call_id"; $"cache_source_at"].

Definition FRAME_FIELDS : list pystr := [$"schema"; $"checksum"; $"record"].

Definition as_dict (self : PartialCallRecord) : list (pystr * pyval) :=
  [($"schema", PStr (pc_schema_name self));
   ($"phase", PStr (pc_phase self));
   ($"task_id", PStr (pc_task_id self));
   ($"unit", PStr (pc_unit self));
   ($"seed_index", PInt (pc_seed_index self));
   ($"request_hash", PStr (pc_request_hash self));
   ($"redrive_pending", PBool (pc_redrive_pending self));
   ($"split_role", POption PStr (pc_split_role self));
   ($"score", POption PFloat (pc_score self));
   ($"failed", PBool (pc_failed self));
   ($"failure_code", PStr (pc_failure_code self));
   ($"prompt_tokens", POption PInt (pc_prompt_tokens self));
   ($"completion_tokens", POption PInt (pc_completion_tokens self));
   ($"total_tokens", POption PInt (pc_total_tokens self));
   ($"reasoning_tokens", POption PInt (pc_reasoning_tokens self));
   ($"latency_s", POption PFloat (pc_latency_s self));
   ($"output_text", POption PStr (pc_output_text self));
   ($"raw_response", PStr (pc_raw_response self));
   ($"observation_payload", pc_observation_payload self);
   ($"finish_reason", POption PStr (pc_finish_reason self));
   ($"provider_error", POption PDict (pc_provider_error self));
   ($"at", POption PStr (pc_at self));
   ($"cache_hit", PBool (pc_cache_hit self));
   ($"cache_source_phase", POption PStr (pc_cache_source_phase self));
   ($"cache_source_unit", POption PStr (pc_cache_source_unit self));
   ($"cache_source_call_id", POption PStr (pc_cache_source_call_id self));
   ($"cache_source_at", POption PStr (pc_cache_source_at self))].

Section Records.
Context `{Pyd : !PydanticText}.

Definition StrictBool (v : pyval) : result bool :=
  match v with PBool b => Ok b | _ => raise ValueError "Input should be a valid boolean" end.

(** [T | None]. *)
Definition Optional {A} (validate : pyval → result A) (v : pyval) : result (option A) :=
  match v with PNone => Ok None | _ => a ← validate v; Ok (Some a) end.

(** pydantic's [float]: numbers, booleans and text that reads as a number. *)
Definition LaxFloat (v : pyval) : result float :=
  match v with
  | PFloat f => Ok f
  | PInt n => rewrap OverflowError ValueError "Input should be a valid number" (float_of_int n)
  | PBool b => Ok (float_of_Z (if b then 1 else 0))
  | PStr s => of_option (float_of_str s) ValueError "Input should be a valid number"
  | _ => raise ValueError "Input should be a valid number"
  end.

(** pydantic's [dict[str, object]] takes any mapping. *)
Definition MappingOf (v : pyval) : result (list (pystr * pyval)) :=
  match v with
  | PDict kvs | PFrozen kvs => Ok kvs
  | _ => raise ValueError "Input should be a valid dictionary"
  end.

Definition validate_at (value : option pystr) : result unit :=
  match value with Some value => validate_timestamp value | None => Ok tt end.

(** [[0-9a-f]{64}]. *)
Definition is_digest (s : pystr) : bool := (length s =? 64)%nat && forallb is_hex s.

Definition validate_request_hash (value : pystr) : result unit :=
  require (is_digest value) ValueError
    "request_hash must be a canonical 64-character lowercase hexadecimal digest".

(** [_validate_current_record]. *)
Definition validate_current_record (self : PartialCallRecord) : result unit :=
  reject_non_finite (POption PFloat (pc_score self)) ;;
  reject_non_finite (POption PFloat (pc_latency_s self)) ;;
  reject_non_finite (POption PDict (pc_provider_error self)) ;;
  require (negb (bool_decide (pc_phase self = []) || bool_decide (pc_task_id self = []) ||
                 bool_decide (pc_unit self = []))) ValueError
    "partial identity fields must be non-empty" ;;
  require (negb (pc_seed_index self <? 0)%Z) ValueError "seed_index must be non-negative" ;;
  let sources := [pc_cache_source_phase self; pc_cache_source_unit self;
                  pc_cache_source_call_id self; pc_cache_source_at self] in
  require (negb (pc_cache_hit self &&
                 (existsb (λ s, negb (is_some s)) sources || is_some (pc_latency_s self)))) ValueError
    "a cache hit requires complete provenance and null latency" ;;
  require (negb (negb (pc_cache_hit self) && existsb is_some sources)) ValueError
    "cache provenance is only valid for a cache hit".

(** The validators that run on a record whose fields have their types. *)
Definition PartialCallRecord_validate (self : PartialCallRecord) : result PartialCallRecord :=
  validate_at (pc_at self) ;;
  validate_request_hash (pc_request_hash self) ;;
  validate_finite_json (pc_observation_payload self) ;;
  require (bool_decide (pc_schema_name self = PARTIAL_SCHEMA)) ValueError "Input should be the schema" ;;
  validate_current_record self ;;
  Ok self.

(** [cls.model_validate(data)], every field present. *)
Definition PartialCallRecord_model_validate (data : list (pystr * pyval)) :
    result PartialCallRecord :=
  phase ← field data $"phase" ≫= StrictStr;
  task_id ← field data $"task_id" ≫= StrictStr;
  unit ← field data $"unit" ≫= StrictStr;
  seed_index ← field data $"seed_index" ≫= StrictInt;
  request_hash ← field data $"request_hash" ≫= StrictStr;
  redrive_pending ← field data $"redrive_pending" ≫= StrictBool;
  score ← field data $"score" ≫= Optional LaxFloat;
  failed ← field data $"failed" ≫= StrictBool;
  failure_code ← field data $"failure_code" ≫= StrictStr;
  prompt_tokens ← field data $"prompt_tokens" ≫= Optional StrictInt;
  completion_tokens ← field data $"completion_tokens" ≫= Optional StrictInt;
  total_tokens ← field data $"total_tokens" ≫= Optional StrictInt;
  reasoning_tokens ← field data $"reasoning_tokens" ≫= Optional StrictInt;
  latency_s ← field data $"latency_s" ≫= Optional LaxFloat;
  output_text ← field data $"output_text" ≫= Optional StrictStr;
  raw_response ← field data $"raw_response" ≫= StrictStr;
  observation_payload ← field data $"observation_payload";
  finish_reason ← field data $"finish_reason" ≫= Optional StrictStr;
  provider_error ← field data $"provider_error" ≫= Optional MappingOf;
  split_role ← field data $"split_role" ≫= Optional StrictStr;
  at_ ← field data $"at" ≫= Optional StrictStr;
  schema_name ← field data $"schema" ≫= StrictStr;
  cache_hit ← field data $"cache_hit" ≫= StrictBool;
  cache_source_phase ← field data $"cache_source_phase" ≫= Optional StrictStr;
  cache_source_unit ← field data $"cache_source_unit" ≫= Optional StrictStr;
  cache_source_call_id ← field data $"cache_source_call_id" ≫= Optional StrictStr;
  cache_source_at ← field data $"cache_source_at" ≫= Optional StrictStr;
  PartialCallRecord_validate
    {| pc_phase := phase; pc_task_id := task_id; pc_unit := unit; pc_seed_index := seed_index;
       pc_request_hash := request_hash; pc_redrive_pending := redrive_pending; pc_score := score;
       pc_failed := failed; pc_failure_code := failure_code; pc_prompt_tokens := prompt_tokens;
       pc_completion_tokens := completion_tokens; pc_total_tokens := total_tokens;
       pc_reasoning_tokens := reasoning_tokens; pc_latency_s := latency_s;
       pc_output_text := output_text; pc_raw_response := raw_response;
       pc_observation_payload := observation_payload; pc_finish_reason := finish_reason;
       pc_provider_error := provider_error; pc_split_role := split_role; pc_at := at_;
       pc_schema_name := schema_name; pc_cache_hit := cache_hit;
       pc_cache_source_phase := cache_source_phase; pc_cache_source_unit := cache_source_unit;
       pc_cache_source_call_id := cache_source_call_id; pc_cache_source_at := cache_source_at |}.

(** [frozenset(data) == names]. *)
Definition same_fields (names : list pystr) (data : list (pystr * pyval)) : bool :=
  forallb (λ k, bool_decide (k ∈ names)) data.*1 && forallb (λ k, bool_decide (k ∈ data.*1)) names.

Definition from_dict (data : list (pystr * pyval)) : result PartialCallRecord :=
  require (same_fields PARTIAL_FIELDS data) ValueError
    "partial row does not match the current schema" ;;
  schema ← of_option (dict_get data $"schema") KeyError "schema";
  require (bool_decide (schema = PStr PARTIAL_SCHEMA)) ValueError "partial row schema" ;;
  PartialCallRecord_model_validate data.

(** ** Frames *)

Context `{DText : !FloatText, Strict : !StrictJsonBytes}.

Definition canonical_json_bytes (value : pyval) : result (list Z) :=
  text ← json_dumps_with json_char false value; utf8 text.

Definition encode_frame (record : PartialCallRecord) : result (list Z) :=
  let record_body := PDict (as_dict record) in
  body ← canonical_json_bytes record_body;
  frame ← canonical_json_bytes
    (PDict [($"schema", PStr PARTIAL_FRAME_SCHEMA); ($"checksum", PStr (hexdigest body));
            ($"record", record_body)]);
  Ok (frame ++ [10%Z]).

(** [hmac.compare_digest] of two strings takes ASCII only. *)
Definition compare_digest (a b : pystr) : result bool :=
  require (forallb (λ c, c <? 128)%Z a && forallb (λ c, c <? 128)%Z b) TypeError
    "comparing strings with non-ASCII characters is not supported" ;;
  Ok (bool_decide (a = b)).

Definition decode_frame (raw : list Z) : result PartialCallRecord :=
  let limit := Z.of_nat (length raw) in
  decoded ← rewrap StrictJsonDecodeError ValueError "invalid partial JSON"
    (decode_strict_json_bytes raw limit limit);
  frame ← match decoded with
          | PDict frame => Ok frame
          | _ => raise ValueError "partial frame must be an object"
          end;
  require (same_fields FRAME_FIELDS frame) ValueError
    "partial frame does not match the current schema" ;;
  schema ← of_option (dict_get frame $"schema") KeyError "schema";
  require (bool_decide (schema = PStr PARTIAL_FRAME_SCHEMA)) ValueError "partial frame schema" ;;
  checksum ← of_option (dict_get frame $"checksum") KeyError "checksum";
  record_body ← of_option (dict_get frame $"record") KeyError "record";
  match checksum, record_body with
  | PStr checksum, PDict record_body =>
      body ← canonical_json_bytes (PDict record_body);
      equal ← compare_digest checksum (hexdigest body);
      require equal ValueError "partial frame checksum mismatch" ;;
      from_dict record_body
  | _, _ => raise ValueError "partial frame checksum and record are invalid"
  end.

Definition entry_name (record : PartialCallRecord) : result pystr :=
  identity ← canonical_json_bytes
    (PDict [($"phase", PStr (pc_phase record)); ($"task_id", PStr (pc_task_id record));
            ($"unit", PStr (pc_unit record)); ($"seed_index", PInt (pc_seed_index record));
            ($"request_hash", PStr (pc_request_hash record))]);
  Ok (hexdigest identity ++ $".json").

(** ** What a directory entry holds *)

(** [_ENTRY_NAME]: a digest and [.json]. *)
Definition is_entry_name (name : pystr) : bool :=
  (length name =? 69)%nat && is_digest (take 64 name) && bool_decide (drop 64 name = $".json").

(** [_TEMPORARY_NAME]: a dot, a digest, a dot, 32 hexadecimal digits, [.tmp]. *)
Definition is_temporary_name (name : pystr) : bool :=
  (length name =? 102)%nat && bool_decide (take 1 name = $".") && is_digest (take 64 (drop 1 name)) &&
  bool_decide (take 1 (drop 65 name) = $".") && forallb is_hex (take 32 (drop 66 name)) &&
  bool_decide (drop 98 name = $".tmp").

(** The record in the bytes of a complete entry of this name. *)
Definition entry_record (name : pystr) (raw : list Z) : result PartialCallRecord :=
  require (bool_decide (last raw = Some 10%Z)) ValueError "partial record is not complete" ;;
  record ← decode_frame raw;
  expected ← entry_name record;
  require (bool_decide (name = expected)) ValueError
    "partial record filename does not match its key" ;;
  Ok record.
End Records.

(** ** Time *)

Local Open Scope Z_scope.

Lemma number_of_digits (l : list Z) :
  number_of (digit_char <$> l) = Some (foldl (λ acc n, acc * 10 + n mod 10) 0 l).
Proof.
  unfold number_of. assert (forallb (λ c, (48 <=? c) && (c <=? 57)) (digit_char <$> l) = true) as ->.
  { apply forallb_forall. intros c Hc. apply list_elem_of_In, list_elem_of_fmap in Hc as (n & -> & _).
    unfold digit_char. pose proof (Z.mod_pos_bound n 10). rewrite andb_true_iff, !Z.leb_le. lia. }
  f_equal. generalize 0. induction l as [|n l IH]; intros acc; [done|].
  cbn [fmap list_fmap foldl]. rewrite IH. f_equal. unfold digit_char. lia.
Qed.

Lemma digit_step m : m / 10 * 10 + m mod 10 = m.
Proof. pose proof (Z.div_mod m 10). lia. Qed.

Lemma top_digit m : 0 <= m < 10 → 0 * 10 + m mod 10 = m.
Proof. intros Hm. rewrite Z.mod_small by lia. lia. Qed.

Lemma number_of_two n : 0 <= n < 100 → number_of (two_digits n) = Some n.
Proof.
  intros Hn. change (two_digits n) with (digit_char <$> [n / 10; n]). rewrite number_of_digits.
  cbn [foldl]. rewrite top_digit, digit_step; [done|].
  split; [apply Z.div_pos; lia|apply Z.div_lt_upper_bound; lia].
Qed.

Lemma number_of_four n : 0 <= n < 10000 → number_of (four_digits n) = Some n.
Proof.
  intros Hn. change (four_digits n) with (digit_char <$> [n / 100 / 10; n / 100; n / 10; n]).
  rewrite number_of_digits. cbn [foldl].
  rewrite (top_digit (n / 100 / 10)), digit_step.
  - replace (n / 100) with (n / 10 / 10) by (by rewrite Z.div_div). by rewrite !digit_step.
  - rewrite Z.div_div by lia. split; [apply Z.div_pos; lia|apply Z.div_lt_upper_bound; lia].
Qed.

Lemma number_of_six n : 0 <= n < 1000000 → number_of (six_digits n) = Some n.
Proof.
  intros Hn.
  change (six_digits n) with (digit_char <$> [n / 10000 / 10; n / 10000; n / 100 / 10; n / 100; n / 10; n]).
  rewrite number_of_digits. cbn [foldl].
  rewrite (top_digit (n / 10000 / 10)), digit_step.
  - replace (n / 10000) with (n / 100 / 10 / 10) by (by rewrite !Z.div_div). rewrite !digit_step.
    replace (n / 100) with (n / 10 / 10) by (by rewrite Z.div_div). by rewrite !digit_step.
  - rewrite Z.div_div by lia. split; [apply Z.div_pos; lia|apply Z.div_lt_upper_bound; lia].
Qed.

(** A time reads back from its text. *)
Lemma fromisoformat_isoformat d : valid_datetime d = true → fromisoformat (isoformat d) = Some d.
Proof.
  intros Hd. destruct d as [y mo dd h mi s us]. pose proof Hd as Hv. unfold valid_datetime in Hv.
  cbn [dt_year dt_month dt_day dt_hour dt_minute dt_second dt_microsecond] in Hv.
  rewrite !andb_true_iff, !Z.leb_le, !Z.ltb_lt in Hv.
  assert (days_in_month y mo <= 31) as Hdm by (unfold days_in_month; repeat case_match; lia).
  destruct Hv as (((((((((((((? & ?) & ?) & ?) & ?) & ?) & ?) & ?) & ?) & ?) & ?) & ?) & ?) & ?).
  unfold isoformat. cbn [dt_year dt_month dt_day dt_hour dt_minute dt_second dt_microsecond].
  unfold fromisoformat.
  destruct (Z.eqb_spec us 0) as [->|Hus].
  - set (value := _ ++ _). change (take 4 (drop 0 value)) with (four_digits y).
    change (take 2 (drop 5 value)) with (two_digits mo). change (take 2 (drop 8 value)) with (two_digits dd).
    change (take 2 (drop 11 value)) with (two_digits h). change (take 2 (drop 14 value)) with (two_digits mi).
    change (take 2 (drop 17 value)) with (two_digits s). change (length value =? 32)%nat with false.
    rewrite number_of_four, !number_of_two by lia. cbn [mbind option_bind]. by rewrite Hd.
  - set (value := _ ++ _). change (take 4 (drop 0 value)) with (four_digits y).
    change (take 2 (drop 5 value)) with (two_digits mo). change (take 2 (drop 8 value)) with (two_digits dd).
    change (take 2 (drop 11 value)) with (two_digits h). change (take 2 (drop 14 value)) with (two_digits mi).
    change (take 2 (drop 17 value)) with (two_digits s). change (length value =? 32)%nat with true.
    change (take 6 (drop 20 value)) with (six_digits us).
    rewrite number_of_four, number_of_six, !number_of_two by lia. cbn [mbind option_bind]. by rewrite Hd.
Qed.

(** What the clock is stamped as passes the check of the time. *)
Lemma validate_isoformat d : valid_datetime d = true → validate_timestamp (isoformat d) = Ok tt.
Proof.
  intros Hd. unfold validate_timestamp. rewrite bool_decide_false.
  2: { unfold isoformat. done. }
  cbn [negb require]. rewrite bind_Ok_l, fromisoformat_isoformat by done. cbn [of_option].
  by rewrite bind_Ok_l, bool_decide_true.
Qed.

Local Close Scope Z_scope.

(** ** Checked records *)

Section RecordLemmas.
Context `{Pyd : !PydanticText, DText : !FloatText, Strict : !StrictJsonBytes}.

Lemma PartialCallRecord_validate_id r r' : PartialCallRecord_validate r = Ok r' → r' = r.
Proof. unfold PartialCallRecord_validate. intros H. by inv_result. Qed.

(** A record that was read has passed every check. *)
Lemma from_dict_valid data r : from_dict data = Ok r → PartialCallRecord_validate r = Ok r.
Proof.
  unfold from_dict, PartialCallRecord_model_validate. intros H.
  repeat lazymatch type of H with
    | PartialCallRecord_validate _ = Ok _ => fail
    | _ => apply bind_Ok in H as (? & _ & H)
    end.
  pose proof (PartialCallRecord_validate_id _ _ H) as Hr. by rewrite <-Hr in H.
Qed.

(** The record a reader makes of its text. *)
Definition normal_error (error : list (pystr * pyval)) : list (pystr * pyval) :=
  py_sorted key_leb ((λ kv, (kv.1, json_normal kv.2)) <$> error).

Definition normal_record (r : PartialCallRecord) : PartialCallRecord :=
  {| pc_phase := pc_phase r; pc_task_id := pc_task_id r; pc_unit := pc_unit r;
     pc_seed_index := pc_seed_index r; pc_request_hash := pc_request_hash r;
     pc_redrive_pending := pc_redrive_pending r; pc_score := pc_score r;
     pc_failed := pc_failed r; pc_failure_code := pc_failure_code r;
     pc_prompt_tokens := pc_prompt_tokens r; pc_completion_tokens := pc_completion_tokens r;
     pc_total_tokens := pc_total_tokens r; pc_reasoning_tokens := pc_reasoning_tokens r;
     pc_latency_s := pc_latency_s r; pc_output_text := pc_output_text r;
     pc_raw_response := pc_raw_response r;
     pc_observation_payload := json_normal (pc_observation_payload r);
     pc_finish_reason := pc_finish_reason r;
     pc_provider_error := normal_error <$> pc_provider_error r;
     pc_split_role := pc_split_role r; pc_at := pc_at r; pc_schema_name := pc_schema_name r;
     pc_cache_hit := pc_cache_hit r; pc_cache_source_phase := pc_cache_source_phase r;
     pc_cache_source_unit := pc_cache_source_unit r;
     pc_cache_source_call_id := pc_cache_source_call_id r;
     pc_cache_source_at := pc_cache_source_at r |}.

Lemma rejects_Forall {A} (check : A → result unit) l :
  foldr (λ x rest, check x ;; rest) (Ok tt) l = Ok tt ↔ Forall (λ x, check x = Ok tt) l.
Proof.
  induction l as [|x l IH]; simpl; [by split|]. rewrite Forall_cons, <-IH, bind_Ok. split.
  - by intros ([] & ? & ?).
  - intros [? ?]. by exists tt.
Qed.

Lemma Forall_py_sorted {A} (leb : A → A → bool) (P : A → Prop) l :
  Forall P l → Forall P (py_sorted leb l).
Proof. by rewrite py_sorted_perm. Qed.

Lemma reject_non_finite_normal v : reject_non_finite v = Ok tt → reject_non_finite (json_normal v) = Ok tt.
Proof.
  induction v as [|b|n|f|s|l IH|l IH|kvs IH|kvs IH] using pyval_nested_ind; try done.
  1,2: cbn [reject_non_finite json_normal]; rewrite !rejects_Forall; intros H;
    apply Forall_fmap; by apply (Forall_mp _ _ _ IH).
  cbn [reject_non_finite json_normal].
  rewrite !(rejects_Forall (λ kv : pystr * pyval, reject_non_finite kv.2)). intros H.
  apply Forall_py_sorted, Forall_fmap. by apply (Forall_mp _ _ _ IH).
Qed.

Lemma validate_finite_json_normal v :
  validate_finite_json v = Ok tt → validate_finite_json (json_normal v) = Ok tt.
Proof.
  induction v as [|b|n|f|s|l IH|l IH|kvs IH|kvs IH] using pyval_nested_ind; try done.
  - cbn [validate_finite_json json_normal]. rewrite !rejects_Forall. intros H.
    apply Forall_fmap. by apply (Forall_mp _ _ _ IH).
  - cbn [validate_finite_json json_normal].
    rewrite !(rejects_Forall (λ kv : pystr * pyval, validate_finite_json kv.2)). intros H.
    apply Forall_py_sorted, Forall_fmap. by apply (Forall_mp _ _ _ IH).
Qed.

Lemma normal_record_valid r :
  PartialCallRecord_validate r = Ok r → PartialCallRecord_validate (normal_record r) = Ok (normal_record r).
Proof.
  unfold PartialCallRecord_validate, validate_current_record. intros H. cbn [normal_record pc_at pc_request_hash
    pc_observation_payload pc_schema_name pc_score pc_latency_s pc_provider_error pc_phase pc_task_id
    pc_unit pc_seed_index pc_cache_source_phase pc_cache_source_unit pc_cache_source_call_id
    pc_cache_source_at pc_cache_hit].
  apply bind_Ok in H as ([] & Hat & H). apply bind_Ok in H as ([] & Hh & H).
  apply bind_Ok in H as ([] & Ho & H). apply bind_Ok in H as ([] & Hs & H).
  apply bind_Ok in H as ([] & H & _). apply bind_Ok in H as ([] & Hsc & H).
  apply bind_Ok in H as ([] & Hl & H). apply bind_Ok in H as ([] & He & H).
  rewrite Hat, Hh, Hs, Hsc, Hl, (validate_finite_json_normal _ Ho), !bind_Ok_l.
  assert (reject_non_finite (POption PDict (normal_error <$> pc_provider_error r)) = Ok tt) as ->.
  { destruct (pc_provider_error r) as [e|]; [|done]. exact (reject_non_finite_normal _ He). }
  rewrite bind_Ok_l. by rewrite H.
Qed.

(** ** A row reads back from its dictionary *)

Lemma normal_optional {A} (f : A → pyval) (validate : pyval → result A) x :
  (∀ a, json_normal (f a) = f a ∧ f a ≠ PNone ∧ validate (f a) = Ok a) →
  Optional validate (json_normal (POption f x)) = Ok x.
Proof.
  intros Hf. destruct x as [a|]; [|done]. destruct (Hf a) as (Hn & H0 & Hv). simpl. rewrite Hn.
  unfold Optional. rewrite Hv. by destruct (f a).
Qed.

Lemma normal_mapping x :
  Optional MappingOf (json_normal (POption PDict x)) = Ok (normal_error <$> x).
Proof. by destruct x. Qed.

(** The dictionary of a record after the round trip. *)
Definition normal_dict (kvs : list (pystr * pyval)) : list (pystr * pyval) :=
  py_sorted key_leb ((λ kv, (kv.1, json_normal kv.2)) <$> kvs).

Lemma normal_dict_get kvs k :
  NoDup kvs.*1 → dict_get (normal_dict kvs) k = json_normal <$> dict_get kvs k.
Proof.
  intros Hnd. unfold normal_dict. rewrite dict_get_sorted; [exact (dict_get_map json_normal kvs k)|].
  by rewrite <-list_fmap_compose.
Qed.

Lemma normal_dict_field kvs k v :
  NoDup kvs.*1 → dict_get kvs k = Some v → field (normal_dict kvs) k = Ok (json_normal v).
Proof. intros Hnd Hk. unfold field. by rewrite normal_dict_get, Hk. Qed.

Lemma same_fields_normal names kvs :
  same_fields names kvs = true → same_fields names (normal_dict kvs) = true.
Proof.
  unfold same_fields. rewrite !andb_true_iff, !forallb_forall. unfold normal_dict.
  assert (∀ k, k ∈ (py_sorted key_leb ((λ kv, (kv.1, json_normal kv.2)) <$> kvs)).*1 ↔ k ∈ kvs.*1) as Hk.
  { intros k. rewrite !list_elem_of_fmap. split; intros (x & -> & Hx).
    - rewrite py_sorted_perm in Hx. apply list_elem_of_fmap in Hx as (y & -> & Hy). by exists y.
    - exists (x.1, json_normal x.2). split; [done|]. rewrite py_sorted_perm. apply list_elem_of_fmap.
      by exists x. }
  intros [H1 H2]. split; intros k Hin.
  - apply H1. apply list_elem_of_In, Hk. by apply list_elem_of_In.
  - specialize (H2 k Hin). rewrite bool_decide_eq_true in *. by apply Hk.
Qed.

Lemma as_dict_keys r : (as_dict r).*1 = PARTIAL_FIELDS.
Proof. done. Qed.

Lemma as_dict_NoDup r : NoDup (as_dict r).*1.
Proof. rewrite as_dict_keys. apply all_unique_NoDup. vm_compute. reflexivity. Qed.

Lemma as_dict_fields r : same_fields PARTIAL_FIELDS (as_dict r) = true.
Proof. unfold same_fields. rewrite as_dict_keys. vm_compute. reflexivity. Qed.

Ltac read_field r :=
  match goal with
  | |- context [field (normal_dict (as_dict r)) ?k] =>
      rewrite (normal_dict_field (as_dict r) k _ (as_dict_NoDup r) eq_refl), bind_Ok_l
  end.

Lemma from_dict_normal r :
  PartialCallRecord_validate r = Ok r →
  from_dict (normal_dict (as_dict r)) = Ok (normal_record r).
Proof.
  intros Hv. assert (pc_schema_name r = PARTIAL_SCHEMA) as Hs.
  { unfold PartialCallRecord_validate in Hv. inv_result. by inv_bool. }
  unfold from_dict. rewrite same_fields_normal by apply as_dict_fields. rewrite require_true, bind_Ok_l.
  rewrite normal_dict_get by apply as_dict_NoDup.
  change (dict_get (as_dict r) $"schema") with (Some (PStr (pc_schema_name r))).
  cbn [fmap option_fmap option_map json_normal of_option]. rewrite bind_Ok_l, Hs, bool_decide_true by done.
  rewrite require_true, bind_Ok_l.
  unfold PartialCallRecord_model_validate.
  repeat (read_field r;
    rewrite ?(normal_optional PStr StrictStr), ?(normal_optional PInt StrictInt),
      ?(normal_optional PFloat LaxFloat), ?normal_mapping by (by intros a; repeat split);
    cbn [json_normal StrictStr StrictInt StrictBool]; rewrite ?bind_Ok_l).
  apply (normal_record_valid r Hv).
Qed.

Lemma plain_optional {A} (f : A → pyval) (validate : pyval → result A) x :
  (∀ a, f a ≠ PNone ∧ validate (f a) = Ok a) → Optional validate (POption f x) = Ok x.
Proof.
  intros Hf. destruct x as [a|]; [|done]. destruct (Hf a) as (H0 & Hv). simpl.
  unfold Optional. rewrite Hv. by destruct (f a).
Qed.

Lemma field_of {kvs k v} : dict_get kvs k = Some v → field kvs k = Ok v.
Proof. unfold field. by intros ->. Qed.

(** A record is rebuilt from its dictionary exactly when it is valid. *)
Lemma from_dict_as_dict r v : from_dict (as_dict r) = Ok v ↔ PartialCallRecord_validate r = Ok r ∧ v = r.
Proof.
  unfold from_dict. rewrite as_dict_fields, require_true, bind_Ok_l.
  change (dict_get (as_dict r) $"schema") with (Some (PStr (pc_schema_name r))).
  cbn [of_option]. rewrite bind_Ok_l.
  assert (PartialCallRecord_model_validate (as_dict r) = PartialCallRecord_validate r) as ->.
  { unfold PartialCallRecord_model_validate.
    repeat (match goal with
            | |- context [field (as_dict r) ?k] => rewrite (@field_of (as_dict r) k _ eq_refl), bind_Ok_l
            end;
      rewrite ?(plain_optional PStr StrictStr), ?(plain_optional PInt StrictInt),
        ?(plain_optional PFloat LaxFloat), ?(plain_optional PDict MappingOf) by done;
      cbn [StrictStr StrictInt StrictBool]; rewrite ?bind_Ok_l).
    by destruct r. }
  split.
  - intros ([] & _ & H)%bind_Ok. pose proof (PartialCallRecord_validate_id _ _ H) as ->. done.
  - intros [Hv ->]. rewrite Hv. unfold PartialCallRecord_validate in Hv. inv_result. inv_bool.
    by rewrite bool_decide_true by congruence.
Qed.

(** ** A frame reads back *)

(** A value [json.dumps] can write and whose dictionaries have distinct keys,
    as Python dictionaries have. *)
Fixpoint dumpable (v : pyval) : bool :=
  match v with
  | PNone | PBool _ | PInt _ | PStr _ => true
  | PFloat f => fisfinite f
  | PList l | PTuple l => forallb dumpable l
  | PDict kvs => all_unique kvs.*1 && forallb (λ kv, dumpable kv.2) kvs
  | PFrozen _ => false
  end.

(** dr-serialize reads the text of a value back: a document that ends with a
    line break, within the limits it is given. *)
Definition reads_back (v : pyval) : Prop :=
  ∀ bytes, canonical_json_bytes v = Ok bytes →
    let n := Z.of_nat (length (bytes ++ [10%Z])) in
    decode_strict_json_bytes (bytes ++ [10%Z]) n n = Ok (json_normal v).

(** The document a record is written as. *)
Definition frame_of (record : PartialCallRecord) (checksum : pystr) : pyval :=
  PDict [($"schema", PStr PARTIAL_FRAME_SCHEMA); ($"checksum", PStr checksum);
         ($"record", PDict (as_dict record))].

Definition record_reads_back (record : PartialCallRecord) : Prop :=
  ∀ body, canonical_json_bytes (PDict (as_dict record)) = Ok body → reads_back (frame_of record (hexdigest body)).

Lemma canonical_json_bytes_normal v b :
  canonical_json_bytes v = Ok b → canonical_json_bytes (json_normal v) = Ok b.
Proof.
  unfold canonical_json_bytes. intros (text & Ht & H)%bind_Ok.
  by rewrite (json_dumps_normal _ _ _ _ Ht).
Qed.

Lemma hex_ascii s : Forall (λ c, is_hex c = true) s → forallb (λ c, (c <? 128)%Z) s = true.
Proof.
  intros H. apply forallb_forall. intros c Hc. apply list_elem_of_In in Hc.
  rewrite Forall_forall in H. specialize (H c Hc). unfold is_hex in H. apply Z.ltb_lt.
  rewrite orb_true_iff, !andb_true_iff, !Z.leb_le in H. lia.
Qed.

Lemma compare_digest_same bytes : compare_digest (hexdigest bytes) (hexdigest bytes) = Ok true.
Proof.
  unfold compare_digest. rewrite (hex_ascii _ (hexdigest_hex bytes)). cbn [andb].
  rewrite require_true, bind_Ok_l. by rewrite bool_decide_true.
Qed.

Lemma json_normal_frame record checksum :
  json_normal (frame_of record checksum) =
    PDict [($"checksum", PStr checksum); ($"record", PDict (normal_dict (as_dict record)));
           ($"schema", PStr PARTIAL_FRAME_SCHEMA)].
Proof. reflexivity. Qed.

Lemma encode_frame_Ok record raw :
  encode_frame record = Ok raw →
  ∃ body frame, canonical_json_bytes (PDict (as_dict record)) = Ok body ∧
    canonical_json_bytes (frame_of record (hexdigest body)) = Ok frame ∧ raw = frame ++ [10%Z].
Proof.
  unfold encode_frame. intros (body & Hb & H)%bind_Ok. apply bind_Ok in H as (frame & Hf & [= <-]).
  by exists body, frame.
Qed.

(** Reading a written row gives the row, its free-form values as the reader
    makes them. *)
Lemma decode_encode record raw :
  PartialCallRecord_validate record = Ok record → record_reads_back record →
  encode_frame record = Ok raw → decode_frame raw = Ok (normal_record record).
Proof.
  intros Hv Hr (body & frame & Hb & Hf & ->)%encode_frame_Ok.
  unfold decode_frame. rewrite (Hr _ Hb _ Hf). cbn [rewrap]. rewrite bind_Ok_l, json_normal_frame, bind_Ok_l.
  set (kvs := normal_dict (as_dict record)).
  change (same_fields FRAME_FIELDS [($"checksum", PStr (hexdigest body)); ($"record", PDict kvs);
    ($"schema", PStr PARTIAL_FRAME_SCHEMA)]) with true.
  rewrite require_true, bind_Ok_l.
  change (dict_get _ $"schema") with (Some (PStr PARTIAL_FRAME_SCHEMA)).
  change (dict_get _ $"checksum") with (Some (PStr (hexdigest body))).
  change (dict_get _ $"record") with (Some (PDict kvs)). cbn [of_option].
  rewrite bind_Ok_l, bool_decide_true, require_true, !bind_Ok_l by done.
  apply canonical_json_bytes_normal in Hb. change (json_normal (PDict (as_dict record))) with (PDict kvs) in Hb.
  rewrite Hb, bind_Ok_l, compare_digest_same, bind_Ok_l, require_true, bind_Ok_l.
  by apply from_dict_normal.
Qed.

Lemma entry_name_key r r' : key r = key r' → entry_name r = entry_name r'.
Proof. unfold key, partial_key, entry_name. by intros [= -> -> -> -> ->]. Qed.

Lemma normal_record_key r : key (normal_record r) = key r.
Proof. done. Qed.

Lemma entry_name_is_entry r name : entry_name r = Ok name → is_entry_name name = true.
Proof.
  unfold entry_name. intros (identity & _ & [= <-])%bind_Ok. unfold is_entry_name, is_digest.
  pose proof (hexdigest_length identity) as Hlen.
  rewrite length_app, Hlen. rewrite take_app_length' by done. rewrite Hlen.
  rewrite drop_app_length' by done. rewrite bool_decide_true by done.
  assert (forallb is_hex (hexdigest identity) = true) as ->; [|done].
  apply forallb_forall. intros c Hc. apply list_elem_of_In in Hc.
  pose proof (hexdigest_hex identity) as H. rewrite Forall_forall in H. auto.
Qed.

Lemma entry_not_temporary name : is_entry_name name = true → is_temporary_name name = false.
Proof.
  unfold is_entry_name, is_temporary_name. intros H.
  apply andb_true_iff in H as [H _]. apply andb_true_iff in H as [H _].
  apply Nat.eqb_eq in H as ->. done.
Qed.

(** An entry of the log: what is written for a record under its name. *)
Lemma entry_record_written record name raw :
  PartialCallRecord_validate record = Ok record → record_reads_back record →
  encode_frame record = Ok raw → entry_name record = Ok name →
  entry_record name raw = Ok (normal_record record).
Proof.
  intros Hv Hr He Hn. unfold entry_record.
  pose proof He as (body & frame & _ & _ & ->)%encode_frame_Ok.
  rewrite last_snoc, bool_decide_true, require_true, bind_Ok_l by done.
  rewrite (decode_encode record) by done. rewrite bind_Ok_l.
  rewrite (entry_name_key _ _ (normal_record_key record)), Hn, bind_Ok_l.
  by rewrite bool_decide_true.
Qed.

Lemma entry_record_name name raw r : entry_record name raw = Ok r → entry_name r = Ok name.
Proof.
  unfold entry_record. intros (_ & _ & H)%bind_Ok. apply bind_Ok in H as (r' & _ & H).
  apply bind_Ok in H as (n & Hn & H). apply bind_Ok in H as (u & Hne & [= <-]).
  apply require_Ok in Hne. inv_bool. by rewrite Hn, Hne.
Qed.
End RecordLemmas.
