(* ===== verification/LocalFs.v ===== *)
(** * LocalFs: programs over a local file system

    The execution layer keeps files: it writes a temporary, syncs it and renames
    it over the entry. This file gives the machine those programs run on: the
    inodes, the directories as they are and as a power loss may leave them, and
    the calls of [os] and of dr-store's [localfs], each of which may fail or be
    interrupted. dr-store is a parameter: [LocalFs] is the relation its calls
    make, [LocalFsLaws] that each is a call of the machine as documented. A run
    of a program may be stopped at any point, and the machine may lose power. *)

From S2P Require Import Prelude Floats Identity Leasing EvalConfigs Reward Plan Aggregate Admission Claims.
From S2P Require Import Sha256 JsonText Frozen PartialRecord.

(** ** The machine *)

(** What [os.stat] reports besides the inode and the size: the device, the
    kind and permissions in [st_mode], the owner, the links and the times. *)
Record Attrs := {
  at_dev : Z;
  at_regular : bool;
  at_perm : Z;
  at_uid : Z;
  at_gid : Z;
  at_nlink : Z;
  at_mtime_ns : Z;
  at_ctime_ns : Z;
}.

#[export] Instance Attrs_eq_dec : EqDecision Attrs.
Proof. solve_decision. Defined.

(** A file: its bytes, and whether they are on the disk. *)
Record inode := {
  in_data : list Z;
  in_synced : bool;
  in_attrs : Attrs;
}.

(** A directory: what its names refer to now, and what they referred to since
    it was last synced; a power loss may leave any of these. *)
Record dirstate := {
  dir_now : gmap pystr nat;
  dir_past : list (gmap pystr nat);
}.

Record disk := {
  dk_inodes : gmap nat inode;
  dk_next : nat;
  dk_dirs : gmap pystr dirstate;
  dk_euid : Z;
}.

Record Stat := { st_ino : nat; st_size : nat; st_attrs : Attrs }.

#[export] Instance Stat_eq_dec : EqDecision Stat.
Proof. solve_decision. Defined.

Definition stat_of (i : nat) (x : inode) : Stat :=
  {| st_ino := i; st_size := length (in_data x); st_attrs := in_attrs x |}.

(** ** Calls *)

Inductive call : Type → Type :=
| OpenNew (dir name : pystr) : call nat
| OpenRead (dir name : pystr) : call nat
| Write (fd : nat) (bytes : list Z) : call nat
| Pread (fd : nat) (size : N) (offset : nat) : call (list Z)
| Fstat (fd : nat) : call Stat
| Fsync (fd : nat) : call unit
| Close (fd : nat) : call unit
| StatName (dir name : pystr) : call Stat
| Unlink (dir name : pystr) : call unit
| Replace (dir source target : pystr) : call unit
| SyncDir (dir : pystr) : call unit
| ListNames (dir : pystr) : call (list pystr)
| OpenDir (dir : pystr) (create : bool) : call unit
| CloseDir (dir : pystr) : call unit
| GetEuid : call Z
| TokenHex : call pystr
| Now : call datetime
| Acquire (lock : pystr) (shared : bool) : call unit
| Release (lock : pystr) : call unit.

(** How a call goes: as documented, as a failure that changed nothing, or
    interrupted after it took effect. *)
Inductive fault := NoFault | Fails (e : exn) | InterruptedAfter (msg : string).

(** The rest of what is not determined: how many bytes a read or a write
    transfers, the order names are listed in, the random text, the time, and the
    times a file is stamped with. *)
Record choice := {
  ch_fault : fault;
  ch_count : nat;
  ch_order : list pystr → list pystr;
  ch_token : pystr;
  ch_now : datetime;
  ch_stamp : Z;
}.

(** The exceptions a failing call may raise. *)
Definition fault_class (c : exn_class) : bool :=
  bool_decide (c ∈ [OSError; InterruptedError; PrivatePathViolationError; KeyboardInterrupt]).

Record choice_ok (o : choice) : Prop := {
  co_fault e : ch_fault o = Fails e → fault_class (exn_cls e) = true;
  co_order l : ch_order o l ≡ₚ l;
  co_token : length (ch_token o) = 32%nat ∧ forallb is_hex (ch_token o) = true;
  co_now : valid_datetime (ch_now o) = true;
}.

Definition PRIVATE_PERM : Z := 384.

Definition private_attrs (euid stamp : Z) : Attrs :=
  {| at_dev := 0; at_regular := true; at_perm := PRIVATE_PERM; at_uid := euid; at_gid := 0;
     at_nlink := 1; at_mtime_ns := stamp; at_ctime_ns := stamp |}.

Definition restamp (stamp : Z) (a : Attrs) : Attrs :=
  {| at_dev := at_dev a; at_regular := at_regular a; at_perm := at_perm a; at_uid := at_uid a;
     at_gid := at_gid a; at_nlink := at_nlink a; at_mtime_ns := stamp; at_ctime_ns := stamp |}.

Definition set_inode (i : nat) (x : inode) (s : disk) : disk :=
  {| dk_inodes := <[i := x]> (dk_inodes s); dk_next := dk_next s; dk_dirs := dk_dirs s;
     dk_euid := dk_euid s |}.

Definition set_dir (dir : pystr) (x : dirstate) (s : disk) : disk :=
  {| dk_inodes := dk_inodes s; dk_next := dk_next s; dk_dirs := <[dir := x]> (dk_dirs s);
     dk_euid := dk_euid s |}.

(** The names of the directory change; the old ones may come back. *)
Definition rename_to (dir : pystr) (names : gmap pystr nat) (x : dirstate) (s : disk) : disk :=
  set_dir dir {| dir_now := names; dir_past := dir_now x :: dir_past x |} s.

(** A file of the directory, by its name. *)
Definition named (dir name : pystr) (s : disk) : option (nat * inode) :=
  x ← dk_dirs s !! dir; i ← dir_now x !! name; f ← dk_inodes s !! i; Some (i, f).

Definition not_found {A} : result A := raise FileNotFoundError "".

(** The documented effect of a call. *)
Definition answer {X} (o : choice) (c : call X) (s : disk) : result X * disk :=
  match c in call X return result X * disk with
  | OpenNew dir name =>
      match dk_dirs s !! dir with
      | None => (not_found, s)
      | Some x =>
          if is_some (dir_now x !! name) then (raise FileExistsError "", s)
          else
            let i := dk_next s in
            (Ok i, rename_to dir (<[name := i]> (dir_now x)) x
               {| dk_inodes := <[i := {| in_data := []; in_synced := false;
                                         in_attrs := private_attrs (dk_euid s) (ch_stamp o) |}]>
                                 (dk_inodes s);
                  dk_next := S i; dk_dirs := dk_dirs s; dk_euid := dk_euid s |})
      end
  | OpenRead dir name =>
      (match named dir name s with Some (i, _) => Ok i | None => not_found end, s)
  | Write fd bytes =>
      match dk_inodes s !! fd with
      | None => (raise OSError "", s)
      | Some f =>
          let n := (ch_count o `min` length bytes)%nat in
          (Ok n, set_inode fd {| in_data := in_data f ++ take n bytes; in_synced := false;
                                 in_attrs := restamp (ch_stamp o) (in_attrs f) |} s)
      end
  | Pread fd size offset =>
      (match dk_inodes s !! fd with
       | None => raise OSError ""
       | Some f => Ok (take (N.to_nat (N.min (N.of_nat (S (ch_count o))) size)) (drop offset (in_data f)))
       end, s)
  | Fstat fd => (match dk_inodes s !! fd with Some f => Ok (stat_of fd f) | None => raise OSError "" end, s)
  | Fsync fd =>
      match dk_inodes s !! fd with
      | None => (raise OSError "", s)
      | Some f => (Ok tt, set_inode fd {| in_data := in_data f; in_synced := true;
                                          in_attrs := in_attrs f |} s)
      end
  | Close _ => (Ok tt, s)
  | StatName dir name =>
      (match named dir name s with Some (i, f) => Ok (stat_of i f) | None => not_found end, s)
  | Unlink dir name =>
      match dk_dirs s !! dir with
      | Some x =>
          if is_some (dir_now x !! name) then (Ok tt, rename_to dir (delete name (dir_now x)) x s)
          else (not_found, s)
      | None => (not_found, s)
      end
  | Replace dir source target =>
      match dk_dirs s !! dir with
      | Some x =>
          match dir_now x !! source with
          | Some i =>
              (Ok tt, rename_to dir (<[target := i]> (delete source (dir_now x))) x
                 (match dk_inodes s !! i with
                  | Some f => set_inode i {| in_data := in_data f; in_synced := in_synced f;
                                             in_attrs := restamp (ch_stamp o) (in_attrs f) |} s
                  | None => s
                  end))
          | None => (not_found, s)
          end
      | None => (not_found, s)
      end
  | SyncDir dir =>
      match dk_dirs s !! dir with
      | Some x => (Ok tt, set_dir dir {| dir_now := dir_now x; dir_past := [] |} s)
      | None => (raise OSError "", s)
      end
  | ListNames dir =>
      (match dk_dirs s !! dir with
       | Some x => Ok (ch_order o (map_to_list (dir_now x)).*1)
       | None => raise OSError ""
       end, s)
  | OpenDir dir create =>
      match dk_dirs s !! dir with
      | Some _ => (Ok tt, s)
      | None =>
          if create then (Ok tt, set_dir dir {| dir_now := ∅; dir_past := [] |} s)
          else (not_found, s)
      end
  | CloseDir _ => (Ok tt, s)
  | GetEuid => (Ok (dk_euid s), s)
  | TokenHex => (Ok (ch_token o), s)
  | Now => (Ok (ch_now o), s)
  | Acquire _ _ => (Ok tt, s)
  | Release _ => (Ok tt, s)
  end.

Definition perform {X} (o : choice) (c : call X) (s : disk) : result X * disk :=
  match ch_fault o with
  | NoFault => answer o c s
  | Fails e => (Err e, s)
  | InterruptedAfter msg => (raise KeyboardInterrupt msg, (answer o c s).2)
  end.

(** A call made by the machine. *)
Definition posix {X} (c : call X) (s : disk) (r : result X) (s' : disk) : Prop :=
  ∃ o, choice_ok o ∧ perform o c s = (r, s').

(** dr-store's [localfs] and the [os] module. *)
Class LocalFs := { lf_call {X} : call X → disk → result X → disk → Prop }.

Class LocalFsLaws `{!LocalFs} : Prop := {
  lf_documented {X} (c : call X) s r s' : lf_call c s r s' → posix c s r s';
}.

(** A power loss: every directory is one of what it was since it was synced, the
    files that were synced have their bytes, the others any bytes. *)
Record power_loss (s s' : disk) : Prop := {
  pl_dir dir : match dk_dirs s !! dir, dk_dirs s' !! dir with
               | Some x, Some x' => dir_now x' ∈ dir_now x :: dir_past x ∧ dir_past x' = []
               | None, None => True
               | _, _ => False
               end;
  pl_inode i f : dk_inodes s !! i = Some f →
    ∃ f', dk_inodes s' !! i = Some f' ∧ in_attrs f' = in_attrs f ∧
      (in_synced f = true → in_data f' = in_data f ∧ in_synced f' = true);
  pl_next : dk_next s' = dk_next s;
  pl_fresh i : dk_inodes s !! i = None → dk_inodes s' !! i = None;
  pl_euid : dk_euid s' = dk_euid s;
}.

(** ** Programs *)

Inductive io {A : Type} : Type :=
| IoRet (a : A)
| IoRaise (e : exn)
| IoSpin
| IoCall {X : Type} (c : call X) (k : result X → io).
Arguments io : clear implicits.

#[export] Instance io_ret : MRet io := λ A a, IoRet a.
#[export] Instance io_bind : MBind io := λ A B f,
  fix go p :=
    match p with
    | IoRet a => f a
    | IoRaise e => IoRaise e
    | IoSpin => IoSpin
    | IoCall c k => IoCall c (λ x, go (k x))
    end.

Definition io_result {A} (r : result A) : io A :=
  match r with Ok a => IoRet a | Err e => IoRaise e end.

Definition do {X} (c : call X) : io X := IoCall c io_result.

Definition io_throw {A} (c : exn_class) (msg : string) : io A := IoRaise (Raise c msg).

(** [if not b: raise c(msg)]. *)
Definition io_require (b : bool) (c : exn_class) (msg : string) : io unit :=
  io_result (require b c msg).

(** [try: p except BaseException as e: h(e)]. *)
Fixpoint io_try {A} (p : io A) (h : exn → io A) : io A :=
  match p with
  | IoRet a => IoRet a
  | IoRaise e => h e
  | IoSpin => IoSpin
  | IoCall c k => IoCall c (λ x, io_try (k x) h)
  end.

(** [try: p except c as e: h(e)]. *)
Definition io_except {A} (p : io A) (c : exn_class) (h : exn → io A) : io A :=
  io_try p (λ e, if exn_isa (exn_cls e) c then h e else IoRaise e).

(** [try: p finally: q]. *)
Fixpoint io_finally {A} (p : io A) (q : io unit) : io A :=
  match p with
  | IoRet a => q ≫= λ _, IoRet a
  | IoRaise e => q ≫= λ _, IoRaise e
  | IoSpin => IoSpin
  | IoCall c k => IoCall c (λ x, io_finally (k x) q)
  end.

(** [with FileLock(path): body] and [with directory: body]. *)
Definition with_lock {A} (lock : pystr) (shared : bool) (body : io A) : io A :=
  do (Acquire lock shared) ≫= λ _, io_finally body (do (Release lock)).

(** ** Runs *)

Inductive outcome {A : Type} := Returned (a : A) | Raised (e : exn) | Killed.
Arguments outcome : clear implicits.

Inductive runs `{!LocalFs} {A} : io A → disk → outcome A → disk → Prop :=
| runs_ret a s : runs (IoRet a) s (Returned a) s
| runs_raise e s : runs (IoRaise e) s (Raised e) s
| runs_killed p s : runs p s Killed s
| runs_call X (c : call X) k s r s1 o s' :
    lf_call c s r s1 → runs (k r) s1 o s' → runs (IoCall c k) s o s'.

(** The machine itself, and a run of it under a list of choices. *)
Definition machine : LocalFs := {| lf_call X c s r s' := posix c s r s' |}.

Fixpoint execute {A} (choices : list choice) (p : io A) (s : disk) : outcome A * disk :=
  match p, choices with
  | IoRet a, _ => (Returned a, s)
  | IoRaise e, _ => (Raised e, s)
  | IoSpin, _ | IoCall _ _, [] => (Killed, s)
  | IoCall c k, o :: choices => let '(r, s') := perform o c s in execute choices (k r) s'
  end.

Lemma machine_laws : @LocalFsLaws machine.
Proof. by split. Qed.

Lemma execute_runs {A} (choices : list choice) (p : io A) s :
  Forall choice_ok choices → @runs machine A p s (execute choices p s).1 (execute choices p s).2.
Proof.
  intros Hok. revert p s. induction Hok as [|o choices Ho Hok IH]; intros [a|e| |X c k] s; simpl;
    try by constructor.
  destruct (perform o c s) as [r s'] eqn:E. econstructor; [|apply IH]. exists o. by split.
Qed.

(** ** The proof rule

    [wp C m p Φ E s]: run from [s], every call answered by the machine in mode
    [m], [p] keeps [C] at every point it may be stopped at, returns only into
    [Φ] and raises only into [E]. In the mode [Calm] no call fails, a write makes
    progress and a random token is new, and then the program must not run out of
    turns; in the mode [Failures] a call that fails has changed nothing. *)

Inductive mode := Calm | Failures | Interrupts.

(** Nothing goes wrong in the call. *)
Record calm_choice (o : choice) (s : disk) : Prop := {
  ca_fault : ch_fault o = NoFault;
  ca_count : ch_count o ≠ 0%nat;
  ca_token dir x name : dk_dirs s !! dir = Some x → is_Some (dir_now x !! name) →
    take 32 (drop 66 name) ≠ ch_token o;
}.

Definition allowed (m : mode) (o : choice) (s : disk) : Prop :=
  match m with
  | Calm => calm_choice o s
  | Failures => ∀ msg, ch_fault o ≠ InterruptedAfter msg
  | Interrupts => True
  end.

Definition answered (m : mode) {X} (c : call X) (s : disk) (r : result X) (s' : disk) : Prop :=
  ∃ o, choice_ok o ∧ allowed m o s ∧ perform o c s = (r, s').

(** A file system whose failing calls change nothing. *)
Class LocalFsFailures `{!LocalFs} : Prop := {
  lf_failures {X} (c : call X) s r s' : lf_call c s r s' → answered Failures c s r s';
}.

Fixpoint wp (C : disk → Prop) (m : mode) {A} (p : io A) (Φ : A → disk → Prop)
    (E : exn → disk → Prop) (s : disk) : Prop :=
  C s ∧
  match p with
  | IoRet a => Φ a s
  | IoRaise e => E e s
  | IoSpin => m ≠ Calm
  | IoCall c k => ∀ r s', answered m c s r s' → wp C m (k r) Φ E s'
  end.

(** A program that ends by returning when no call fails. *)
Fixpoint returns {A} (p : io A) (s : disk) : Prop :=
  match p with
  | IoRet a => True
  | IoRaise e => False
  | IoSpin => False
  | IoCall c k => ∀ r s', answered Calm c s r s' → returns (k r) s'
  end.

(** The machine whose failing calls change nothing. *)
Definition steady_machine : LocalFs := {| lf_call X c s r s' := answered Failures c s r s' |}.

Lemma steady_machine_laws : @LocalFsLaws steady_machine.
Proof. split. intros X c s r s' (o & Ho & _ & Hp). by exists o. Qed.

Lemma steady_machine_failures : @LocalFsFailures steady_machine.
Proof. by split. Qed.

Lemma execute_steady {A} (choices : list choice) (p : io A) s :
  Forall (λ o, choice_ok o ∧ ∀ msg, ch_fault o ≠ InterruptedAfter msg) choices →
  @runs steady_machine A p s (execute choices p s).1 (execute choices p s).2.
Proof.
  intros Hok. revert p s. induction Hok as [|o choices [Ho Hf] Hok IH]; intros [a|e| |X c k] s; simpl;
    try by constructor.
  destruct (perform o c s) as [r s'] eqn:E. econstructor; [|apply IH]. by exists o.
Qed.

Lemma wp_stopped C m {A} (p : io A) Φ E s : wp C m p Φ E s → C s.
Proof. by destruct p; intros []. Qed.

Lemma wp_returns C {A} (p : io A) Φ E s :
  wp C Calm p Φ E s → (∀ e s', ¬ E e s') → returns p s.
Proof.
  intros H HE. revert s H. induction p as [a|e| |X c k IH]; intros s [_ H]; simpl; [done|by eapply HE|done|].
  intros r s' Hr. apply IH. by apply H.
Qed.

Lemma wp_runs_in `{!LocalFs} m C {A} (p : io A) Φ E s o s' :
  (∀ X (c : call X) s r s', lf_call c s r s' → answered m c s r s') →
  wp C m p Φ E s → runs p s o s' →
  C s' ∧ match o with Returned a => Φ a s' | Raised e => E e s' | Killed => True end.
Proof.
  intros Hm Hwp Hruns. induction Hruns as [a s|e s|p s|X c k s r s1 o s' Hc Hruns IH].
  - by destruct Hwp.
  - by destruct Hwp.
  - split; [by eapply wp_stopped|done].
  - apply IH. destruct Hwp as [_ Hwp]. by apply Hwp, Hm.
Qed.

Lemma wp_runs `{LocalFsLaws} C {A} (p : io A) Φ E s o s' :
  wp C Interrupts p Φ E s → runs p s o s' →
  C s' ∧ match o with Returned a => Φ a s' | Raised e => E e s' | Killed => True end.
Proof.
  apply wp_runs_in. intros X c s1 r s2 (ch & Hok & Hp)%lf_documented. by exists ch.
Qed.

Section Rules.
Context (C : disk → Prop) (m : mode).
Abbreviation wp p Φ E s := (wp C m p Φ E s).

Lemma wp_weaken {A} (p : io A) (Φ Φ' : A → disk → Prop) (E E' : exn → disk → Prop) s :
  wp p Φ E s → (∀ a s', C s' → Φ a s' → Φ' a s') → (∀ e s', C s' → E e s' → E' e s') → wp p Φ' E' s.
Proof.
  revert s. induction p as [a|e| |X c k IH]; intros s [HC H] HΦ HE; split; simpl; auto.
Qed.

Lemma wp_ret {A} (a : A) Φ E s : C s → Φ a s → wp (IoRet a) Φ E s.
Proof. by split. Qed.

Lemma wp_raise {A} e (Φ : A → disk → Prop) E s : C s → E e s → wp (IoRaise e) Φ E s.
Proof. by split. Qed.

Lemma wp_bind {A B} (p : io A) (f : A → io B) Φ Ψ E s :
  wp p Φ E s → (∀ a s', C s' → Φ a s' → wp (f a) Ψ E s') → wp (p ≫= f) Ψ E s.
Proof.
  revert s. induction p as [a|e| |X c k IH]; intros s [HC H] Hf; [by apply Hf|by split|by split|].
  split; [done|]. intros r s' Hr. apply IH; auto.
Qed.

Lemma wp_result {A} (r : result A) Φ E s :
  C s → (∀ a, r = Ok a → Φ a s) → (∀ e, r = Err e → E e s) → wp (io_result r) Φ E s.
Proof. destruct r; split; auto. Qed.

Lemma wp_result_bind {A B} (r : result A) (f : A → io B) Φ E s :
  C s → (∀ a, r = Ok a → wp (f a) Φ E s) → (∀ e, r = Err e → E e s) →
  wp (io_result r ≫= f) Φ E s.
Proof. intros HC Hf HE. destruct r; [by apply Hf|split; auto]. Qed.

(** A guard that holds. *)
Lemma wp_require {B} b c msg (f : unit → io B) Φ E s :
  b = true → wp (f tt) Φ E s → wp (io_require b c msg ≫= f) Φ E s.
Proof. by intros ->. Qed.

Lemma wp_try {A} (p : io A) h (Φ : A → disk → Prop) E E' s :
  wp p Φ E s → (∀ e s', C s' → E e s' → wp (h e) Φ E' s') → wp (io_try p h) Φ E' s.
Proof.
  revert s. induction p as [a|e| |X c k IH]; intros s [HC H] Hh; [by split|by apply Hh|by split|].
  split; [done|]. intros r s' Hr. apply IH; auto.
Qed.

Lemma wp_finally {A} (p : io A) q (Φ Φ' : A → disk → Prop) E E' s :
  wp p Φ E s →
  (∀ a s', C s' → Φ a s' → wp q (λ _, Φ' a) E' s') →
  (∀ e s', C s' → E e s' → wp q (λ _, E' e) E' s') →
  wp (io_finally p q) Φ' E' s.
Proof.
  revert s. induction p as [a|e| |X c k IH]; intros s [HC H] Hret Herr; simpl.
  - eapply wp_bind; [by apply Hret|]. intros u s' HC' Ha. by split.
  - eapply wp_bind; [by apply Herr|]. intros u s' HC' He. by split.
  - by split.
  - split; [done|]. intros r s' Hr. apply IH; auto.
Qed.

(** A call: its effect, or a failure when calls may fail. *)
Lemma wp_do {X} (c : call X) (Φ : X → disk → Prop) E s :
  C s →
  (∀ o, choice_ok o → (m = Calm → calm_choice o s) →
     match answer o c s with
     | (Ok x, s') => C s' ∧ Φ x s' ∧
         (m = Interrupts → ∀ msg, E (Raise KeyboardInterrupt msg) s')
     | (Err e, s') => s' = s ∧ E e s
     end) →
  (m ≠ Calm → ∀ e, fault_class (exn_cls e) = true → E e s) →
  wp (do c) Φ E s.
Proof.
  intros HC Hans Hfault. split; [done|]. intros r s' (o & Ho & Hall & Hp).
  assert (m = Calm → calm_choice o s) as Hcalm by (by intros ->).
  specialize (Hans o Ho Hcalm). unfold perform in Hp. destruct (ch_fault o) as [|e|msg] eqn:Hf.
  - rewrite Hp in Hans. destruct r as [x|e]; [by destruct Hans as (? & ? & _)|].
    destruct Hans as (-> & ?). by split.
  - injection Hp as <- <-. split; [done|]. apply Hfault; [|by eapply co_fault].
    intros Hm. apply Hcalm in Hm as [Hn _ _]. by rewrite Hf in Hn.
  - assert (m = Interrupts) as Hm.
    { destruct m; [|by destruct (Hall msg)|done]. destruct Hall as [Hn _ _]. by rewrite Hf in Hn. }
    destruct (answer o c s) as [[x|e] s1]; injection Hp as <- <-.
    + destruct Hans as (? & _ & Hans). split; [done|by apply Hans].
    + destruct Hans as (-> & _). split; [done|]. apply Hfault; [by rewrite Hm|done].
Qed.

(** A call that only looks. *)
Lemma wp_look {X} (c : call X) (Φ : X → Prop) (E : exn → Prop) s :
  C s →
  (∀ o, choice_ok o → (m = Calm → calm_choice o s) →
     ∃ r, answer o c s = (r, s) ∧ match r with Ok x => Φ x | Err e => E e end) →
  (m ≠ Calm → ∀ e, fault_class (exn_cls e) = true → E e) →
  wp (do c) (λ x s', s' = s ∧ Φ x) (λ e s', s' = s ∧ E e) s.
Proof.
  intros HC Hans Hfault. apply wp_do; [done| |by intros; split; auto].
  intros o Ho Hcalm. destruct (Hans o Ho Hcalm) as (r & -> & Hr). destruct r as [x|e]; [|done].
  split_and!; [done..|]. intros Hm msg. split; [done|]. apply Hfault; [by rewrite Hm|done].
Qed.
End Rules.
