(* ===== verification/PartialLog.v ===== *)
(** * PartialLog: rows that survive a crash

    Models the storage of [execution/partials.py]: each row is a file named by
    its key, published by writing a temporary, syncing it and renaming it over
    the entry, and taken back when the publication cannot be confirmed. The
    file lock of a log admits one writer at a time or any number of readers, so
    that an operation runs by itself; it may still fail at every call and be
    stopped anywhere. The loops take the number of turns they may make. *)

From S2P Require Import Prelude Floats Identity Leasing EvalConfigs Reward Plan Aggregate Admission Claims.
From S2P Require Import Sha256 JsonText Frozen PartialRecord LocalFs.

(** ** The log and its directory *)

Record PartialLog := { pl_path : pystr }.

Definition lock_path (self : PartialLog) : pystr := $"." ++ pl_path self ++ $".lock".

Definition same_file_snapshot (l r : Stat) : bool :=
  (at_dev (st_attrs l) =? at_dev (st_attrs r))%Z && (st_ino l =? st_ino r)%nat &&
  bool_decide (at_regular (st_attrs l) = at_regular (st_attrs r)) &&
  (at_perm (st_attrs l) =? at_perm (st_attrs r))%Z && (at_uid (st_attrs l) =? at_uid (st_attrs r))%Z &&
  (at_gid (st_attrs l) =? at_gid (st_attrs r))%Z && (st_size l =? st_size r)%nat &&
  (at_mtime_ns (st_attrs l) =? at_mtime_ns (st_attrs r))%Z &&
  (at_ctime_ns (st_attrs l) =? at_ctime_ns (st_attrs r))%Z.

Section PartialLog.
Context `{Pyd : !PydanticText, DText : !FloatText, Strict : !StrictJsonBytes}.
Variable turns : nat.

(** ** Reading an entry *)

Definition CHUNK : N := 1048576.

(** The loop of [_read_all], [offset] bytes into the file. *)
Fixpoint read_from (turns : nat) (fd offset : nat) (chunks : list Z) : io (list Z) :=
  match turns with
  | O => IoSpin
  | S turns =>
      chunk ← do (Pread fd CHUNK offset);
      match chunk with
      | [] => IoRet chunks
      | _ => read_from turns fd (offset + length chunk) (chunks ++ chunk)
      end
  end.

Definition read_all (fd : nat) : io (list Z) := read_from turns fd 0 [].

Definition read_entry (fd : nat) (dir name : pystr) : io (PartialCallRecord * list Z * Stat) :=
  before ← do (Fstat fd);
  raw ← read_all fd;
  after ← do (Fstat fd);
  io_require (same_file_snapshot before after) OSError "partial record changed while reading" ;;
  visible ← do (StatName dir name);
  io_require (same_file_snapshot after visible) OSError "partial record path changed while reading" ;;
  io_require (bool_decide (last raw = Some 10%Z)) ValueError "partial record is not complete" ;;
  record ← io_result (decode_frame raw);
  expected ← io_result (entry_name record);
  io_require (bool_decide (name = expected)) ValueError
    "partial record filename does not match its key" ;;
  IoRet (record, raw, after).

Record PriorEntry := { pe_record : PartialCallRecord; pe_body : list Z; pe_snapshot : Stat }.

Definition validate_existing_key (dir name : pystr) (expected : PartialCallRecord) :
    io (option PriorEntry) :=
  io_except (fd ← do (OpenRead dir name); IoRet (Some fd)) FileNotFoundError (λ _, IoRet None)
  ≫= λ opened : option nat,
  match opened with
  | None => IoRet None
  | Some fd =>
      '(record, body, snapshot) ← io_finally (read_entry fd dir name) (do (Close fd));
      io_require (bool_decide (key record = key expected)) ValueError
        "partial record key does not match target" ;;
      IoRet (Some {| pe_record := record; pe_body := body; pe_snapshot := snapshot |})
  end.

(** ** Temporaries *)

Definition temporary_name (target_stem token : pystr) : pystr :=
  $"." ++ target_stem ++ $"." ++ token ++ $".tmp".

(** [Path(target_name).stem] of an entry's name. *)
Definition stem (target_name : pystr) : pystr := take 64 target_name.

Fixpoint create_temporary_in (tries : nat) (dir target_stem : pystr) : io (pystr * nat) :=
  match tries with
  | O => io_throw FileExistsError "could not allocate a unique partial temporary"
  | S tries =>
      token ← do TokenHex;
      let temporary := temporary_name target_stem token in
      opened ← io_except (fd ← do (OpenNew dir temporary); IoRet (Some fd)) FileExistsError
        (λ _, IoRet None);
      match opened with
      | Some fd => IoRet (temporary, fd)
      | None => create_temporary_in tries dir target_stem
      end
  end.

Definition create_temporary (dir target_name : pystr) : io (pystr * nat) :=
  create_temporary_in 4 dir (stem target_name).

Fixpoint write_all (turns : nat) (fd : nat) (remaining : list Z) : io unit :=
  match remaining with
  | [] => IoRet tt
  | _ =>
      match turns with
      | O => IoSpin
      | S turns =>
          io_except (n ← do (Write fd remaining); IoRet (Some n)) InterruptedError (λ _, IoRet None)
          ≫= λ written : option nat,
          match written with
          | None => write_all turns fd remaining
          | Some n =>
              io_require (negb (n =? 0)%nat) OSError "partial frame write made no progress" ;;
              write_all turns fd (drop n remaining)
          end
      end
  end.

(** ** Removing a file *)

Definition validate_cleanup_candidate (dir name : pystr) (require_private_mode : bool) : io Stat :=
  before ← do (StatName dir name);
  euid ← do GetEuid;
  let a := st_attrs before in
  io_require (negb (negb (at_regular a) || negb (at_uid a =? euid)%Z || negb (at_nlink a =? 1)%Z ||
                    (require_private_mode && negb (at_perm a =? PRIVATE_PERM)%Z))) OSError
    "unsafe managed partial entry" ;;
  IoRet before.

Definition verified_unlink (dir name : pystr) (require_private_mode : bool) : io unit :=
  before ← validate_cleanup_candidate dir name require_private_mode;
  fd ← do (OpenRead dir name);
  opened ← io_finally (do (Fstat fd)) (do (Close fd));
  io_require (negb (negb (at_dev (st_attrs opened) =? at_dev (st_attrs before))%Z ||
                    negb (st_ino opened =? st_ino before)%nat)) OSError
    "managed partial entry changed before cleanup" ;;
  current ← do (StatName dir name);
  io_require (same_file_snapshot opened current) OSError
    "managed partial entry changed before cleanup" ;;
  do (Unlink dir name).

Definition entry_exists (dir name : pystr) : io bool :=
  io_except (do (StatName dir name) ;; IoRet true) FileNotFoundError (λ _, IoRet false).

(** [if _entry_exists(...): _verified_unlink(...)]. *)
Definition discard_temporary (dir temporary : pystr) : io unit :=
  exists_ ← entry_exists dir temporary;
  if (exists_ : bool) then verified_unlink dir temporary true else IoRet tt.

(** ** Publishing *)

Definition validate_published_entry (dir name : pystr) (record : PartialCallRecord)
    (body : list Z) (published_status : Stat) : io unit :=
  fd ← do (OpenRead dir name);
  '(visible_record, visible_body, visible_status) ←
    io_finally (read_entry fd dir name) (do (Close fd));
  io_require (negb (negb (bool_decide (key visible_record = key record)) ||
                    negb (bool_decide (visible_body = body)) ||
                    negb (at_dev (st_attrs visible_status) =? at_dev (st_attrs published_status))%Z ||
                    negb (st_ino visible_status =? st_ino published_status)%nat)) OSError
    "published partial record changed" ;;
  path_status ← do (StatName dir name);
  io_require (same_file_snapshot visible_status path_status) OSError
    "published partial record path changed" ;;
  diagnostic_status ← io_except (do (StatName dir name)) OSError
    (λ _, io_throw OSError "published partial record is not visible by path");
  io_require (same_file_snapshot visible_status diagnostic_status) OSError
    "published partial record path changed".

(** The body is written to the temporary, which is synced and closed. *)
Definition write_temporary (fd : nat) (body : list Z) : io Stat :=
  io_finally (write_all turns fd body ;; do (Fsync fd) ;; do (Fstat fd)) (do (Close fd)).

(** The written temporary takes the entry's place. *)
Definition rename_over (dir temporary name : pystr) (fd : nat) (body : list Z) : io Stat :=
  status ← write_temporary fd body;
  do (Replace dir temporary name) ;;
  IoRet status.

Definition restore_prior (dir name : pystr) (prior : option PriorEntry) : io unit :=
  match prior with
  | None => verified_unlink dir name false ;; do (SyncDir dir)
  | Some prior =>
      '(temporary, fd) ← create_temporary dir name;
      io_finally
        (restored_status ← rename_over dir temporary name fd (pe_body prior);
         do (SyncDir dir) ;;
         validate_published_entry dir name (pe_record prior) (pe_body prior) restored_status)
        (discard_temporary dir temporary)
  end.

Definition ROLLBACK_FAILED : string := "partial publication rollback failed".

(** Once the entry is renamed: confirm it, or take it back. *)
Definition confirm_entry (dir name : pystr) (record : PartialCallRecord) (body : list Z)
    (prior : option PriorEntry) (published_status : Stat) : io unit :=
  io_try (do (SyncDir dir) ;; validate_published_entry dir name record body published_status)
    (λ e, io_try (restore_prior dir name prior) (λ _, io_throw OSError ROLLBACK_FAILED) ;;
          IoRaise e).

(** The temporary is discarded when it was not renamed. *)
Definition publish_entry (dir name : pystr) (record : PartialCallRecord) (body : list Z)
    (prior : option PriorEntry) : io unit :=
  '(temporary, fd) ← create_temporary dir name;
  published_status ←
    io_try (rename_over dir temporary name fd body)
      (λ e, discard_temporary dir temporary ;; IoRaise e);
  confirm_entry dir name record body prior published_status.

(** ** The operations *)

Definition open_record_directory (name : pystr) (create : bool) : io unit :=
  io_try (do (OpenDir name create)) (λ e,
    if exn_isa (exn_cls e) FileNotFoundError then IoRaise e
    else if exn_isa (exn_cls e) OSError || exn_isa (exn_cls e) PrivatePathViolationError
    then io_throw ValueError "partial storage must be a current per-key record directory"
    else IoRaise e).

Definition with_at (record : PartialCallRecord) (at_ : option pystr) : PartialCallRecord :=
  {| pc_phase := pc_phase record; pc_task_id := pc_task_id record; pc_unit := pc_unit record;
     pc_seed_index := pc_seed_index record; pc_request_hash := pc_request_hash record;
     pc_redrive_pending := pc_redrive_pending record; pc_score := pc_score record;
     pc_failed := pc_failed record; pc_failure_code := pc_failure_code record;
     pc_prompt_tokens := pc_prompt_tokens record; pc_completion_tokens := pc_completion_tokens record;
     pc_total_tokens := pc_total_tokens record; pc_reasoning_tokens := pc_reasoning_tokens record;
     pc_latency_s := pc_latency_s record; pc_output_text := pc_output_text record;
     pc_raw_response := pc_raw_response record;
     pc_observation_payload := pc_observation_payload record;
     pc_finish_reason := pc_finish_reason record; pc_provider_error := pc_provider_error record;
     pc_split_role := pc_split_role record; pc_at := at_; pc_schema_name := pc_schema_name record;
     pc_cache_hit := pc_cache_hit record; pc_cache_source_phase := pc_cache_source_phase record;
     pc_cache_source_unit := pc_cache_source_unit record;
     pc_cache_source_call_id := pc_cache_source_call_id record;
     pc_cache_source_at := pc_cache_source_at record |}.

(** The time a row without one is stamped with. *)
Definition stamped_record (validated : PartialCallRecord) : io PartialCallRecord :=
  match pc_at validated with
  | Some _ => IoRet validated
  | None => now ← do Now; IoRet (with_at validated (Some (isoformat now)))
  end.

(** What [append] does inside the opened directory. *)
Definition append_row (dir : pystr) (stamped : PartialCallRecord) (body : list Z) : io unit :=
  name ← io_result (entry_name stamped);
  prior ← validate_existing_key dir name stamped;
  publish_entry dir name stamped body prior.

Definition append (self : PartialLog) (record : PartialCallRecord) : io unit :=
  validated ← io_result (from_dict (as_dict record));
  stamped ← stamped_record validated;
  io_result (validate_timestamp (default [] (pc_at stamped))) ;;
  body ← io_result (encode_frame stamped);
  with_lock (lock_path self) false
    (let dir := pl_path self in
     open_record_directory dir true ;;
     io_finally (append_row dir stamped body) (do (CloseDir dir))).

(** One name of the listing. *)
Definition load_name (dir name : pystr) : io (option PartialCallRecord) :=
  if is_temporary_name name then IoRet None
  else
    io_require (is_entry_name name) ValueError "unexpected partial storage entry" ;;
    fd ← do (OpenRead dir name);
    '(record, _, _) ← io_finally (read_entry fd dir name) (do (Close fd));
    IoRet (Some record).

Fixpoint load_names (dir : pystr) (names : list pystr) : io (list PartialCallRecord) :=
  match names with
  | [] => IoRet []
  | name :: names =>
      record ← load_name dir name;
      records ← load_names dir names;
      IoRet (match record with Some record => record :: records | None => records end)
  end.

(** The time of a row, then its file name. *)
Definition row_leb (a b : pystr * pystr * PartialCallRecord) : bool :=
  if decide (a.1.1 = b.1.1) then str_leb a.1.2 b.1.2 else str_leb a.1.1 b.1.1.

Definition in_time_order (records : list PartialCallRecord) : result (list PartialCallRecord) :=
  rows ← mapM (λ r, name ← entry_name r; Ok (default [] (pc_at r), name, r)) records;
  Ok (snd <$> py_sorted row_leb rows).

Definition load (self : PartialLog) : io (list PartialCallRecord) :=
  with_lock (lock_path self) true
    (let dir := pl_path self in
     opened ← io_except (open_record_directory dir false ;; IoRet true) FileNotFoundError
       (λ _, IoRet false);
     if (opened : bool) then
       records ← io_finally
         (names ← do (ListNames dir); load_names dir (py_sorted str_leb names))
         (do (CloseDir dir));
       io_result (in_time_order records)
     else IoRet []).

Definition recorded_keys (self : PartialLog) : io (list partial_identity) :=
  records ← load self; IoRet (remove_dups (key <$> records)).

(** [for item in l: p(item)]. *)
Fixpoint each (l : list pystr) (p : pystr → io unit) : io unit :=
  match l with [] => IoRet tt | x :: l => p x ;; each l p end.

Definition delete_log (self : PartialLog) : io unit :=
  with_lock (lock_path self) false
    (let dir := pl_path self in
     opened ← io_except (open_record_directory dir false ;; IoRet true) FileNotFoundError
       (λ _, IoRet false);
     if (opened : bool) then
       io_finally
         (listed ← do (ListNames dir);
          let names := py_sorted str_leb listed in
          each names (λ name, io_require (is_entry_name name || is_temporary_name name) ValueError
            "unexpected partial storage entry") ;;
          each names (λ name, validate_cleanup_candidate dir name (is_temporary_name name) ;; IoRet tt) ;;
          each names (λ name, verified_unlink dir name (is_temporary_name name)) ;;
          do (SyncDir dir))
         (do (CloseDir dir))
     else IoRet tt).
End PartialLog.
