(* ===== verification/PartialCrash.v ===== *)
(** * PartialCrash: what a partial-call log keeps through a crash

    The proofs about [PartialLog.v]. A log is a map from file names to the bytes
    of a row; the directory [holds] a log when every entry is a complete, synced
    row. The directory may hold different logs in the contents a power loss may
    leave: [every P] says that each of them holds a log of [P]. An append keeps
    [every] of the old and the new log at each point it may be stopped at, and
    when it returns, only the new log is left. *)

From S2P Require Import Prelude Floats Identity Leasing EvalConfigs Reward Plan Aggregate Admission Claims.
From S2P Require Import Sha256 JsonText Frozen PartialRecord LocalFs PartialLog.

(** ** What a directory holds *)
Section Contents.
Context `{Pyd : !PydanticText, DText : !FloatText, Strict : !StrictJsonBytes}.
Variable dir : pystr.

Abbreviation rows := (gmap pystr (list Z)).

(** Every row of the log reads. *)
Definition valid_log (L : rows) : Prop :=
  ∀ name raw, L !! name = Some raw → ∃ r, entry_record name raw = Ok r.

(** A file its owner alone may use. *)
Definition private_file (s : disk) (f : inode) : Prop :=
  at_regular (in_attrs f) = true ∧ at_perm (in_attrs f) = PRIVATE_PERM ∧
  at_uid (in_attrs f) = dk_euid s ∧ at_nlink (in_attrs f) = 1%Z.

(** The names [D] are temporaries and the synced rows of [L]. *)
Record holds (s : disk) (D : gmap pystr nat) (L : rows) : Prop := {
  ho_name name i : D !! name = Some i →
    ∃ f, dk_inodes s !! i = Some f ∧ private_file s f ∧
      (is_temporary_name name = true ∨ L !! name = Some (in_data f) ∧ in_synced f = true);
  ho_row name raw : L !! name = Some raw → is_Some (D !! name);
  ho_valid : valid_log L;
}.

(** The contents a power loss may leave; a directory that does not exist yet
    holds nothing. *)
Definition now (s : disk) : gmap pystr nat :=
  match dk_dirs s !! dir with Some x => dir_now x | None => ∅ end.
Definition past (s : disk) : list (gmap pystr nat) :=
  match dk_dirs s !! dir with Some x => dir_past x | None => [] end.

(** The inodes that are not in use yet. *)
Definition fresh_inodes (s : disk) : Prop := ∀ i, (dk_next s ≤ i)%nat → dk_inodes s !! i = None.

Definition every (P : rows → Prop) (s : disk) : Prop :=
  fresh_inodes s ∧ Forall (λ D, ∃ L, P L ∧ holds s D L) (now s :: past s).

Definition shows (s : disk) (L : rows) : Prop := holds s (now s) L.

Lemma every_weaken (P Q : rows → Prop) s : every P s → (∀ L, P L → Q L) → every Q s.
Proof.
  intros [Hf H] HPQ. split; [done|]. eapply Forall_impl; [exact H|]. naive_solver.
Qed.

Lemma every_shows P s : every P s → ∃ L, P L ∧ shows s L.
Proof. intros [_ H]. by apply Forall_cons in H as [? _]. Qed.

Lemma holds_row s D L name raw :
  holds s D L → L !! name = Some raw →
  is_temporary_name name = false ∧ is_entry_name name = true ∧
  ∃ i f, D !! name = Some i ∧ dk_inodes s !! i = Some f ∧ private_file s f ∧
    in_data f = raw ∧ in_synced f = true.
Proof.
  intros [Hn Hr Hv] HL. destruct (Hv _ _ HL) as (r & Hrec%entry_record_name%entry_name_is_entry).
  pose proof (entry_not_temporary _ Hrec) as Ht. split_and!; [done..|].
  destruct (Hr _ _ HL) as [i Hi]. destruct (Hn _ _ Hi) as (f & Hf & Hp & [?|[Hd Hs]]); [congruence|].
  exists i, f. split_and!; [done..|congruence|done].
Qed.

Lemma holds_entry s D L name i :
  holds s D L → D !! name = Some i → is_temporary_name name = false →
  ∃ f, dk_inodes s !! i = Some f ∧ private_file s f ∧ L !! name = Some (in_data f) ∧ in_synced f = true.
Proof.
  intros [Hn _ _] Hi Ht. destruct (Hn _ _ Hi) as (f & ? & ? & [?|[? ?]]); [congruence|]. by exists f.
Qed.

(** The log a content holds is determined by it. *)
Lemma holds_unique s D L L' : holds s D L → holds s D L' → L = L'.
Proof.
  assert (∀ L1 L2 name raw, holds s D L1 → holds s D L2 → L1 !! name = Some raw → L2 !! name = Some raw) as H.
  { intros L1 L2 name raw H1 H2 HL.
    destruct (holds_row _ _ _ _ _ H1 HL) as (Ht & _ & i & f & Hi & Hf & _ & <- & _).
    destruct (holds_entry _ _ _ _ _ H2 Hi Ht) as (f' & Hf' & _ & HL' & _). congruence. }
  intros H1 H2. apply map_eq. intros name.
  destruct (L !! name) as [raw|] eqn:E; [symmetry; by apply (H L L')|].
  destruct (L' !! name) as [raw|] eqn:E'; [|done]. rewrite (H L' L name raw) in E by done. done.
Qed.

(** Files that are not rows of any content may change. *)
Definition preserves (s s' : disk) (D : gmap pystr nat) : Prop :=
  dk_euid s' = dk_euid s ∧
  ∀ name i f, D !! name = Some i → dk_inodes s !! i = Some f →
    ∃ f', dk_inodes s' !! i = Some f' ∧ (private_file s f → private_file s f') ∧
      (is_temporary_name name = false → in_synced f = true →
       in_data f' = in_data f ∧ in_synced f' = true).

Lemma holds_preserved s s' D L : preserves s s' D → holds s D L → holds s' D L.
Proof.
  intros [He Hp] [Hn Hr Hv]. split; [|done..]. intros name i Hi.
  destruct (Hn _ _ Hi) as (f & Hf & Hpf & Hc). destruct (Hp _ _ _ Hi Hf) as (f' & Hf' & Hpf' & Hd).
  exists f'. split_and!; [done| |].
  - unfold private_file in *. rewrite He. tauto.
  - destruct (is_temporary_name name) eqn:Ht; [by left|]. destruct Hc as [?|[Hc Hs]]; [done|].
    destruct (Hd eq_refl Hs) as [-> ->]. by right.
Qed.

Lemma preserves_same_inodes s s' D :
  dk_euid s' = dk_euid s → dk_inodes s' = dk_inodes s → preserves s s' D.
Proof. intros He Hi. split; [done|]. intros name i f _ Hf. rewrite Hi. exists f. tauto. Qed.

(** ** Changes to the directory *)

(** The directory exists, it shows [L], and its contents hold logs of [Q]. *)
Record at_log (Q : rows → Prop) (L : rows) (s : disk) : Prop := {
  al_every : every Q s;
  al_shows : shows s L;
  al_dir : is_Some (dk_dirs s !! dir);
}.

(** The temporary [t] has the inode [i], which no entry has, with [data]. *)
Record own_temp (s : disk) (t : pystr) (i : nat) (data : list Z) (synced : bool) : Prop := {
  ot_name : is_temporary_name t = true;
  ot_now : now s !! t = Some i;
  ot_file : ∃ f, dk_inodes s !! i = Some f ∧ private_file s f ∧ in_data f = data ∧ in_synced f = synced;
  ot_only D name : D ∈ now s :: past s → D !! name = Some i → is_temporary_name name = true;
}.

Lemma now_rename D x s : now (rename_to dir D x s) = D.
Proof. unfold now, rename_to, set_dir. simpl. by rewrite lookup_insert_eq. Qed.

Lemma past_rename D x s : past (rename_to dir D x s) = dir_now x :: dir_past x.
Proof. unfold past, rename_to, set_dir. simpl. by rewrite lookup_insert_eq. Qed.

Lemma now_past_dir s x : dk_dirs s !! dir = Some x → dir_now x = now s ∧ dir_past x = past s.
Proof. unfold now, past. by intros ->. Qed.

(** Renaming: the inodes become those of [s1], the names [D]. *)
Lemma at_log_rename Q L L' D x s s1 :
  at_log Q L s → dk_dirs s !! dir = Some x → Q L' → fresh_inodes s1 →
  (∀ D, D ∈ now s :: past s → preserves s s1 D) → holds s1 D L' →
  at_log Q L' (rename_to dir D x s1).
Proof.
  intros [[_ Hall] _ _] Hx HQ Hfr Hp HD. destruct (now_past_dir _ _ Hx) as [En Ep].
  assert (∀ D L, holds s1 D L → holds (rename_to dir D x s1) D L) as Hs1.
  { intros D0 L0. apply holds_preserved. by apply preserves_same_inodes. }
  assert (∀ D0 L0, holds s1 D0 L0 → holds (rename_to dir D x s1) D0 L0) as Hs2.
  { intros D0 L0. apply holds_preserved. by apply preserves_same_inodes. }
  split.
  - split; [done|]. rewrite now_rename, past_rename, En, Ep. constructor; [exists L'; auto|].
    apply Forall_forall. intros D0 HD0. rewrite Forall_forall in Hall.
    destruct (Hall D0 HD0) as (L0 & HQ0 & Hh). exists L0. split; [done|].
    apply Hs2. by eapply holds_preserved; [apply Hp|].
  - unfold shows. rewrite now_rename. auto.
  - unfold rename_to, set_dir. simpl. rewrite lookup_insert_eq. by eexists.
Qed.

Lemma holds_in_use s D L name i :
  fresh_inodes s → holds s D L → D !! name = Some i → (i < dk_next s)%nat.
Proof.
  intros Hf [Hn _ _] Hi. destruct (Hn _ _ Hi) as (f & Hf' & _).
  destruct (decide (dk_next s ≤ i)%nat) as [Hle|]; [|lia]. rewrite Hf in Hf' by done. done.
Qed.

Lemma every_in_use Q s D name i :
  every Q s → D ∈ now s :: past s → D !! name = Some i → (i < dk_next s)%nat.
Proof.
  intros [Hf Hall] HD Hi. rewrite Forall_forall in Hall. destruct (Hall D HD) as (L & _ & Hh).
  by eapply holds_in_use.
Qed.

(** A new temporary. *)
Definition with_file (stamp : Z) (s : disk) : disk :=
  {| dk_inodes := <[dk_next s := {| in_data := []; in_synced := false;
                                    in_attrs := private_attrs (dk_euid s) stamp |}]> (dk_inodes s);
     dk_next := S (dk_next s); dk_dirs := dk_dirs s; dk_euid := dk_euid s |}.

Lemma at_log_new_temp Q L stamp t x s :
  at_log Q L s → Q L → dk_dirs s !! dir = Some x → is_temporary_name t = true → now s !! t = None →
  let s' := rename_to dir (<[t := dk_next s]> (dir_now x)) x (with_file stamp s) in
  at_log Q L s' ∧ own_temp s' t (dk_next s) [] false.
Proof.
  intros Hal HQ Hx Ht Hnone s'. pose proof Hal as [Hev Hsh _]. pose proof Hev as [Hfr _].
  destruct (now_past_dir _ _ Hx) as [En Ep].
  assert (∀ D, D ∈ now s :: past s → preserves s (with_file stamp s) D) as Hpres.
  { intros D HD. split; [done|]. intros name i f Hi Hf. exists f. split; [|tauto]. simpl.
    rewrite lookup_insert_ne; [done|]. apply (every_in_use _ _ _ _ _ Hev HD) in Hi. lia. }
  assert (at_log Q L s') as Hal'.
  { eapply at_log_rename; [done..| |done|].
    - intros i Hi. simpl in *. rewrite lookup_insert_ne by lia. apply Hfr. lia.
    - rewrite En. pose proof (holds_preserved _ _ _ _ (Hpres _ (list_elem_of_here _ _)) Hsh) as Hh.
      destruct Hh as [Hn Hr Hv]. split; [| |done].
      + intros name i [[<- <-]|[_ Hi]]%lookup_insert_Some; [|by apply Hn].
        eexists. simpl. rewrite lookup_insert_eq. split_and!; [done| |by left]. done.
      + intros name raw HL. rewrite lookup_insert_is_Some'. right. by apply Hr in HL. }
  split; [done|]. split; [done|..].
  - unfold s'. by rewrite now_rename, lookup_insert_eq.
  - eexists. simpl. rewrite lookup_insert_eq. split_and!; done.
  - unfold s'. intros D name. rewrite now_rename, past_rename, En, Ep, elem_of_cons.
    intros [->|HD] Hi.
    + apply lookup_insert_Some in Hi as [[<- _]|[_ Hi]]; [done|].
      apply (every_in_use _ _ _ _ _ Hev (list_elem_of_here _ _)) in Hi. lia.
    + apply (every_in_use _ _ _ _ _ Hev HD) in Hi. lia.
Qed.

(** Writing to a file that no entry is. *)
Lemma at_log_set_inode Q L s i f f' :
  at_log Q L s → dk_inodes s !! i = Some f → (private_file s f → private_file s f') →
  (∀ D name, D ∈ now s :: past s → D !! name = Some i →
     is_temporary_name name = true ∨ in_data f' = in_data f ∧ in_synced f' = in_synced f) →
  at_log Q L (set_inode i f' s).
Proof.
  intros [[Hfr Hall] Hsh Hdir] Hi Hpf Honly.
  assert (∀ D, D ∈ now s :: past s → preserves s (set_inode i f' s) D) as Hpres.
  { intros D HD. split; [done|]. intros name j g Hj Hg. simpl. destruct (decide (j = i)) as [->|Hne].
    - rewrite lookup_insert_eq. rewrite Hi in Hg. injection Hg as <-. exists f'. split_and!; [done..|].
      intros Ht Hs. destruct (Honly D name HD Hj) as [?|[-> ->]]; [congruence|done].
    - rewrite lookup_insert_ne by done. exists g. tauto. }
  split; [split| |done].
  - intros j Hj. simpl in *. rewrite lookup_insert_ne; [by apply Hfr|].
    intros ->. by rewrite Hfr in Hi.
  - change (now (set_inode i f' s)) with (now s). change (past (set_inode i f' s)) with (past s).
    apply Forall_forall. intros D HD. rewrite Forall_forall in Hall.
    destruct (Hall D HD) as (L0 & HQ0 & Hh). exists L0. split; [done|]. by eapply holds_preserved; [apply Hpres|].
  - by eapply holds_preserved; [apply Hpres, list_elem_of_here|].
Qed.

Lemma own_temp_set_inode s t i data synced f' :
  own_temp s t i data synced → private_file s f' →
  own_temp (set_inode i f' s) t i (in_data f') (in_synced f').
Proof.
  intros [Ht Hn _ Ho] Hpf. split; [done|done| |done].
  exists f'. simpl. by rewrite lookup_insert_eq.
Qed.

Lemma private_restamp s f data synced stamp :
  private_file s f →
  private_file s {| in_data := data; in_synced := synced; in_attrs := restamp stamp (in_attrs f) |}.
Proof. done. Qed.

(** The temporary becomes the entry [name]. *)
Lemma at_log_replace Q L s t i name raw r stamp x f :
  at_log Q L s → Q (<[name := raw]> L) → dk_dirs s !! dir = Some x → own_temp s t i raw true →
  dk_inodes s !! i = Some f → entry_record name raw = Ok r →
  let f' := {| in_data := in_data f; in_synced := in_synced f;
               in_attrs := restamp stamp (in_attrs f) |} in
  let s' := rename_to dir (<[name := i]> (delete t (dir_now x))) x (set_inode i f' s) in
  at_log Q (<[name := raw]> L) s' ∧ now s' !! name = Some i ∧ dk_inodes s' !! i = Some f' ∧
  in_data f' = raw.
Proof.
  intros Hal HQ Hx [Ht Hnow (g & Hg & Hpf & Hdata & Hsync) Honly] Hf Hrec f' s'.
  rewrite Hf in Hg. injection Hg as <-. destruct (now_past_dir _ _ Hx) as [En Ep].
  assert (at_log Q L (set_inode i f' s)) as Hal1.
  { apply (at_log_set_inode _ _ _ _ f); [done..|]. intros D n HD Hn. left. by eapply Honly. }
  split; [|unfold s'; rewrite now_rename, lookup_insert_eq; simpl; by rewrite lookup_insert_eq].
  eapply (at_log_rename Q L); [done|done|done|apply Hal1|by intros; apply preserves_same_inodes|].
  rewrite En. destruct Hal1 as [_ [Hn Hr Hv] _]. change (now (set_inode i f' s)) with (now s) in *.
  pose proof (entry_name_is_entry _ _ (entry_record_name _ _ _ Hrec)) as He.
  pose proof (entry_not_temporary _ He) as Hnt. split.
  - intros n j [[<- <-]|[Hne [Hnt' Hj]%lookup_delete_Some]]%lookup_insert_Some.
    + exists f'. simpl. rewrite lookup_insert_eq. split_and!; [done..|]. right.
      rewrite lookup_insert_eq. by rewrite Hdata.
    + destruct (Hn _ _ Hj) as (g & ? & ? & Hc). exists g. split_and!; [done..|].
      by rewrite lookup_insert_ne.
  - intros n raw'. destruct (decide (n = name)) as [->|Hne]; [rewrite !lookup_insert_eq; by eexists|].
    rewrite !lookup_insert_ne by done. intros HL. rewrite lookup_delete_ne; [by eapply Hr|].
    intros <-. destruct (Hv _ _ HL) as (r' & Hr'%entry_record_name%entry_name_is_entry%entry_not_temporary).
    congruence.
  - intros n raw'. destruct (decide (n = name)) as [->|Hne].
    + rewrite lookup_insert_eq. intros [= <-]. by exists r.
    + rewrite lookup_insert_ne by done. apply Hv.
Qed.

(** Once the directory is synced only what it shows is left. *)
Lemma at_log_sync Q L s x :
  at_log Q L s → dk_dirs s !! dir = Some x →
  at_log (eq L) L (set_dir dir {| dir_now := dir_now x; dir_past := [] |} s).
Proof.
  intros [[Hfr _] Hsh _] Hx. destruct (now_past_dir _ _ Hx) as [En _].
  set (s' := set_dir _ _ _). assert (now s' = now s ∧ past s' = []) as [En' Ep'].
  { unfold now at 1, past, s', set_dir. simpl. by rewrite !lookup_insert_eq, En. }
  assert (shows s' L) as Hs'.
  { unfold shows. rewrite En'. eapply holds_preserved; [|exact Hsh]. by apply preserves_same_inodes. }
  split; [|done|unfold s', set_dir; simpl; rewrite lookup_insert_eq; by eexists].
  split; [done|]. rewrite Ep', En'. constructor; [|done]. exists L. split; [done|].
  unfold shows in Hs'. by rewrite En' in Hs'.
Qed.

(** A name is removed. *)
Lemma at_log_unlink Q L L' s x name :
  at_log Q L s → Q L' → dk_dirs s !! dir = Some x →
  (is_temporary_name name = true ∧ L' = L ∨ L' = delete name L) →
  at_log Q L' (rename_to dir (delete name (dir_now x)) x s).
Proof.
  intros Hal HQ Hx HL'. destruct (now_past_dir _ _ Hx) as [En _].
  eapply at_log_rename; [done..|apply Hal|by intros; apply preserves_same_inodes|].
  rewrite En. destruct Hal as [_ [Hn Hr Hv] _]. destruct HL' as [[Ht ->]| ->]; split.
  - intros n i [_ Hi]%lookup_delete_Some. by apply Hn.
  - intros n raw HL. rewrite lookup_delete_ne; [by eapply Hr|]. intros <-.
    destruct (Hv _ _ HL) as (r & Hrec%entry_record_name%entry_name_is_entry%entry_not_temporary). congruence.
  - done.
  - intros n i [Hne Hi]%lookup_delete_Some. destruct (Hn _ _ Hi) as (f & ? & ? & Hc).
    exists f. split_and!; [done..|]. by rewrite lookup_delete_ne.
  - intros n raw [Hne HL]%lookup_delete_Some. rewrite lookup_delete_ne by done. by eapply Hr.
  - intros n raw [_ HL]%lookup_delete_Some. by eapply Hv.
Qed.

(** A power loss leaves one of the contents, and nothing else. *)
Lemma every_power_loss P s s' : every P s → power_loss s s' → every P s'.
Proof.
  intros [Hfr Hall] [Hdir Hin Hnext Hfresh Heuid]. split.
  - intros i Hi. apply Hfresh, Hfr. lia.
  - assert (now s' ∈ now s :: past s ∧ past s' = []) as [Hnow ->].
    { specialize (Hdir dir). unfold now, past.
      destruct (dk_dirs s !! dir), (dk_dirs s' !! dir); try done. split; [by left|done]. }
    constructor; [|done]. rewrite Forall_forall in Hall. destruct (Hall _ Hnow) as (L & HP & Hh).
    exists L. split; [done|]. eapply holds_preserved; [|exact Hh]. split; [done|].
    intros name i f _ Hf. destruct (Hin i f Hf) as (f' & Hf' & Ha & Hs). exists f'. split_and!; [done| |auto].
    unfold private_file. by rewrite Ha.
Qed.
End Contents.

(** What a log holds as records: one for each row, in the order of their
    times. *)
Section Loaded.
Context `{Pyd : !PydanticText, DText : !FloatText, Strict : !StrictJsonBytes}.

Definition row_at (L : gmap pystr (list Z)) (name : pystr) (r : PartialCallRecord) : Prop :=
  ∃ raw, L !! name = Some raw ∧ entry_record name raw = Ok r.

Lemma elem_of_names {A} (M : gmap pystr A) n : n ∈ (map_to_list M).*1 ↔ is_Some (M !! n).
Proof.
  rewrite list_elem_of_fmap. split.
  - intros ([n' a] & -> & Ha%elem_of_map_to_list). by exists a.
  - intros [a Ha%elem_of_map_to_list]. by exists (n, a).
Qed.

Record loaded (L : gmap pystr (list Z)) (rs : list PartialCallRecord) : Prop := {
  ld_rows : ∃ names, names ≡ₚ (map_to_list L).*1 ∧ Forall2 (row_at L) names rs;
  ld_order : StronglySorted (λ r r', str_leb (default [] (pc_at r)) (default [] (pc_at r')) = true) rs;
}.

Lemma row_leb_iff a b :
  row_leb a b = true ↔
  a.1.1 = b.1.1 ∧ str_leb a.1.2 b.1.2 = true ∨ a.1.1 ≠ b.1.1 ∧ str_leb a.1.1 b.1.1 = true.
Proof. unfold row_leb. case_decide; tauto. Qed.

Lemma row_leb_total a b : row_leb a b = true ∨ row_leb b a = true.
Proof. unfold row_leb. repeat case_decide; try congruence; apply str_leb_total. Qed.

Lemma row_leb_trans a b c : row_leb a b = true → row_leb b c = true → row_leb a c = true.
Proof.
  rewrite !row_leb_iff. intros [[-> H1]|[N1 H1]] [[E2 H2]|[N2 H2]].
  - left. split; [done|]. by eapply str_leb_trans.
  - by right.
  - right. by rewrite <-E2.
  - right. split; [|by eapply str_leb_trans]. intros E. rewrite E in *. by apply N2, str_leb_antisym.
Qed.

Lemma in_time_order_loaded L names rs :
  names ≡ₚ (map_to_list L).*1 → Forall2 (row_at L) names rs →
  ∃ rs', in_time_order rs = Ok rs' ∧ loaded L rs'.
Proof.
  intros Hn Hrs. unfold in_time_order.
  set (row := λ r name, (default [] (pc_at r), name, r) : pystr * pystr * PartialCallRecord).
  assert (mapM (λ r, name ← entry_name r; Ok (default [] (pc_at r), name, r)) rs =
          Ok (zip_with row rs names)) as ->.
  { clear Hn. induction Hrs as [|name r names rs (raw & _ & Hr%entry_record_name) _ IH]; [done|].
    simpl. rewrite Hr. simpl. by rewrite IH. }
  eexists. split; [reflexivity|]. set (rows := zip_with row rs names).
  pose proof (py_sorted_perm row_leb rows) as Hp.
  assert (Forall (λ x, row_at L x.1.2 x.2 ∧ x.1.1 = default [] (pc_at x.2)) (py_sorted row_leb rows)) as Hall.
  { rewrite Hp. unfold rows. clear Hn rows Hp. induction Hrs; simpl; constructor; auto. }
  split.
  - exists ((λ x, x.1.2) <$> py_sorted row_leb rows). split.
    + rewrite Hp, <-Hn. unfold rows. clear -Hrs. induction Hrs as [|x r l k _ _ IH]; simpl; [done|].
      by rewrite IH.
    + clear Hp. induction Hall as [|x l [Hx _] _ IH]; simpl; constructor; auto.
  - assert (StronglySorted (λ a b, row_leb a b = true) (py_sorted row_leb rows)) as Hs.
    { apply (py_sorted_sorted row_leb (λ _, True)); [..|by apply Forall_true].
      - intros a b _ _. apply row_leb_total.
      - intros a b c _ _ _. apply row_leb_trans. }
    clear Hp. revert Hall. induction Hs as [|a l Hl IH Ha]; simpl; [constructor|].
    intros [[_ Ea] Hall]%Forall_cons. constructor; [by apply IH|]. apply Forall_fmap.
    eapply Forall_impl; [apply Forall_and; split; [exact Ha|exact Hall]|].
    intros b [Hab [_ Eb]]. simpl. rewrite <-Ea, <-Eb. apply row_leb_iff in Hab as [[-> _]|[_ H]]; [|done].
    by destruct (str_leb_total b.1.1 b.1.1).
Qed.
End Loaded.

(** ** The steps of the operations *)
Section Steps.
Context `{Pyd : !PydanticText, DText : !FloatText, Strict : !StrictJsonBytes}.
Variables (dir : pystr) (turns : nat) (m : mode) (Q : gmap pystr (list Z) → Prop).

Abbreviation C := (every dir Q).
Abbreviation wp p Φ E s := (LocalFs.wp C m p Φ E s).
Abbreviation at_log Q L s := (PartialCrash.at_log dir Q L s).
Abbreviation now s := (PartialCrash.now dir s).

(** Looking at the machine leaves it as it is. *)
Definition looked {A} (Φ : A → Prop) (s : disk) (a : A) (s' : disk) : Prop := s' = s ∧ Φ a.
Definition look_failed (s : disk) (e : exn) (s' : disk) : Prop := s' = s ∧ m ≠ Calm.

(** Something failed, and the directory still shows [L]. *)
Definition failed (L : gmap pystr (list Z)) (e : exn) (s' : disk) : Prop := m ≠ Calm ∧ at_log Q L s'.

Lemma named_now name s :
  named dir name s = (i ← now s !! name; f ← dk_inodes s !! i; Some (i, f)).
Proof.
  unfold named, PartialCrash.now. destruct (dk_dirs s !! dir); [done|]. simpl. by rewrite lookup_empty.
Qed.

Lemma named_file name s i f :
  now s !! name = Some i → dk_inodes s !! i = Some f → named dir name s = Some (i, f).
Proof. intros Hn Hf. rewrite named_now, Hn. simpl. by rewrite Hf. Qed.

(** A look that succeeds. *)
Lemma wp_look_Ok {X} (c : call X) x s :
  C s → (∀ o, answer o c s = (Ok x, s)) → wp (do c) (looked (eq x) s) (look_failed s) s.
Proof.
  intros HC Hans. apply wp_look; [done| |done]. intros o _ _. exists (Ok x). split; [apply Hans|done].
Qed.

Lemma wp_look_bind {X A} (c : call X) (k : X → io A) x Φ E s :
  C s → (∀ o, answer o c s = (Ok x, s)) →
  wp (k x) Φ E s → (∀ e, m ≠ Calm → E e s) → wp (do c ≫= k) Φ E s.
Proof.
  intros HC Hans Hk HE. eapply wp_bind.
  - eapply wp_weaken; [by apply wp_look_Ok|by intros a s' _ H; exact H|].
    intros e s' _ [-> Hm]. auto.
  - by intros a s' _ [-> <-].
Qed.

(** [wp_bind] after a program that only looks. *)
Lemma wp_looked_bind {A B} (p : io A) (k : A → io B) Ψ Φ E s :
  wp p (looked Ψ s) (look_failed s) s →
  (∀ a, Ψ a → wp (k a) Φ E s) → (∀ e, m ≠ Calm → E e s) → wp (p ≫= k) Φ E s.
Proof.
  intros Hp Hk HE. eapply wp_bind.
  - eapply wp_weaken; [exact Hp|by intros a s' _ H; exact H|]. intros e s' _ [-> Hm]. auto.
  - intros a s' _ [-> Ha]. auto.
Qed.

Lemma wp_close_dir {A} (p : io A) Φ s :
  C s → wp p (looked Φ s) (look_failed s) s →
  wp (io_finally p (do (CloseDir dir))) (looked Φ s) (look_failed s) s.
Proof.
  intros HC Hp. eapply wp_finally; [exact Hp| |].
  - intros a s' _ [-> Ha]. eapply wp_weaken; [by apply (wp_look_Ok _ tt)|by intros ? ? _ [-> _]|done].
  - intros e s' _ [-> He]. eapply wp_weaken; [by apply (wp_look_Ok _ tt)|by intros ? ? _ [-> _]|done].
Qed.

Lemma wp_close {A} (p : io A) Φ s fd :
  C s → wp p (looked Φ s) (look_failed s) s →
  wp (io_finally p (do (Close fd))) (looked Φ s) (look_failed s) s.
Proof.
  intros HC Hp. eapply wp_finally; [exact Hp| |].
  - intros a s' _ [-> Ha]. eapply wp_weaken; [by apply (wp_look_Ok _ tt)|by intros ? ? _ [-> _]|done].
  - intros e s' _ [-> He]. eapply wp_weaken; [by apply (wp_look_Ok _ tt)|by intros ? ? _ [-> _]|done].
Qed.

(** ** Reading *)

Lemma wp_read_from n fd offset chunks f s :
  C s → dk_inodes s !! fd = Some f → (m = Calm → length (in_data f) - offset < n)%nat →
  wp (read_from n fd offset chunks) (looked (eq (chunks ++ drop offset (in_data f))) s) (look_failed s) s.
Proof.
  intros HC Hf. revert offset chunks. induction n as [|n IH]; intros offset chunks Hn; cbn [read_from].
  { split; [done|]. intros Hm. specialize (Hn Hm). lia. }
  eapply wp_looked_bind with (Ψ := λ chunk, ∃ k, (0 < k)%nat ∧ chunk = take k (drop offset (in_data f))).
  - apply wp_look; [done| |done]. intros o _ _. eexists. cbn [answer]. rewrite Hf. split; [done|].
    eexists. split; [|done]. unfold CHUNK. lia.
  - intros chunk (k & Hk & Hchunk). destruct chunk as [|c chunk].
    + apply wp_ret; [done|]. split; [done|].
      destruct (drop offset (in_data f)) as [|z l] eqn:E; [by rewrite app_nil_r|].
      destruct k; [lia|done].
    + assert (0 < length (drop offset (in_data f)))%nat as Hlen.
      { destruct (drop offset (in_data f)); [by rewrite take_nil in Hchunk|simpl; lia]. }
      rewrite length_drop in Hlen.
      assert (drop offset (in_data f) = (c :: chunk) ++ drop (offset + length (c :: chunk)) (in_data f)) as ->.
      { rewrite <-drop_drop. rewrite Hchunk at 1 2. rewrite length_take.
        rewrite <-(take_drop k (drop offset (in_data f))) at 1. f_equal.
        destruct (decide (k ≤ length (drop offset (in_data f)))%nat).
        - by rewrite Nat.min_l by lia.
        - rewrite Nat.min_r by lia. rewrite !drop_ge; [done|lia|lia]. }
      rewrite app_assoc. apply IH. intros Hm. specialize (Hn Hm). simpl. lia.
  - intros e Hm. done.
Qed.

Lemma same_file_snapshot_refl x : same_file_snapshot x x = true.
Proof.
  unfold same_file_snapshot. rewrite !Z.eqb_refl, !Nat.eqb_refl, bool_decide_true by done. done.
Qed.

Lemma entry_record_parts name raw r :
  entry_record name raw = Ok r →
  last raw = Some 10%Z ∧ decode_frame raw = Ok r ∧ entry_name r = Ok name.
Proof.
  intros H. pose proof (entry_record_name _ _ _ H). unfold entry_record in H.
  apply bind_Ok in H as (u & Hl & H). apply require_Ok in Hl. apply bool_decide_eq_true in Hl.
  apply bind_Ok in H as (r' & Hd & H). apply bind_Ok in H as (? & _ & H). apply bind_Ok in H as (? & _ & [= <-]).
  done.
Qed.

Lemma wp_read_entry fd name f r s :
  C s → now s !! name = Some fd → dk_inodes s !! fd = Some f → entry_record name (in_data f) = Ok r →
  (m = Calm → length (in_data f) < turns)%nat →
  wp (read_entry turns fd dir name) (looked (eq (r, in_data f, stat_of fd f)) s) (look_failed s) s.
Proof.
  intros HC Hnow Hf Hrec Hn. destruct (entry_record_parts _ _ _ Hrec) as (Hl & Hd & He).
  pose proof (named_file _ _ _ _ Hnow Hf) as Hnamed. unfold read_entry.
  assert (∀ e : exn, m ≠ Calm → look_failed s e s) as HE by done.
  apply (wp_look_bind _ _ (stat_of fd f)); [done|intros o; simpl; by rewrite Hf| |done].
  eapply wp_looked_bind; [apply (wp_read_from _ _ 0 [] f); [done..|]| |done].
  { intros Hm. specialize (Hn Hm). lia. }
  intros raw <-. rewrite drop_0, app_nil_l.
  apply (wp_look_bind _ _ (stat_of fd f)); [done|intros o; simpl; by rewrite Hf| |done].
  apply wp_require; [apply same_file_snapshot_refl|].
  apply (wp_look_bind _ _ (stat_of fd f)); [done|intros o; simpl; by rewrite Hnamed| |done].
  apply wp_require; [apply same_file_snapshot_refl|].
  apply wp_require; [by rewrite bool_decide_true|].
  rewrite Hd. simpl. rewrite He. simpl. apply wp_require; [by rewrite bool_decide_true|]. by apply wp_ret.
Qed.

(** Reading the entry a name refers to, through a descriptor that is closed. *)
Lemma wp_open_entry name fd f r s :
  C s → now s !! name = Some fd → dk_inodes s !! fd = Some f → entry_record name (in_data f) = Ok r →
  (m = Calm → length (in_data f) < turns)%nat →
  wp (io_finally (read_entry turns fd dir name) (do (Close fd)))
    (looked (eq (r, in_data f, stat_of fd f)) s) (look_failed s) s.
Proof. intros. apply wp_close; [done|]. by apply wp_read_entry. Qed.

(** What is known of the row a name has before it is written. *)
Definition prior_of (L : gmap pystr (list Z)) (name : pystr) (prior : option PriorEntry) : Prop :=
  match prior with
  | None => L !! name = None
  | Some prior => L !! name = Some (pe_body prior) ∧
      entry_record name (pe_body prior) = Ok (pe_record prior)
  end.

(** Keys whose file names agree are the same, when nothing goes wrong. *)
Definition no_collision (L : gmap pystr (list Z)) (name : pystr) (expected : PartialCallRecord) : Prop :=
  m = Calm → ∀ raw r, L !! name = Some raw → entry_record name raw = Ok r → key r = key expected.

(** The loops have turns for every row. *)
Definition fits (L : gmap pystr (list Z)) : Prop :=
  m = Calm → ∀ name raw, L !! name = Some raw → (length raw < turns)%nat.

(** A failing call is not a missing or an existing file. *)
Lemma fault_not_missing e :
  fault_class (exn_cls e) = true →
  exn_isa (exn_cls e) FileNotFoundError = false ∧ exn_isa (exn_cls e) FileExistsError = false.
Proof.
  unfold fault_class. rewrite bool_decide_eq_true, !elem_of_cons. destruct e as [c msg]. simpl.
  intros [->|[->|[->|[->|[]%elem_of_nil]]]]; done.
Qed.

(** [try: ... except FileNotFoundError: ...] around one call. *)
Lemma wp_look_or_missing {X Y} (c : call X) (g : X → Y) (y : Y) (x : option X) s :
  C s → (∀ o, answer o c s = (match x with Some x => Ok x | None => not_found end, s)) →
  wp (io_except (a ← do c; IoRet (g a)) FileNotFoundError (λ _, IoRet y))
    (looked (eq match x with Some x => g x | None => y end) s) (look_failed s) s.
Proof.
  intros HC Hans. apply wp_try with (E := λ e s', s' = s ∧
    (if exn_isa (exn_cls e) FileNotFoundError then x = None else m ≠ Calm)).
  - eapply wp_bind with (Φ := looked (λ a, x = Some a) s).
    + eapply wp_weaken; [apply (wp_look _ _ c (λ a, x = Some a)
        (λ e, if exn_isa (exn_cls e) FileNotFoundError then x = None else m ≠ Calm))|
        by intros ? ? _ ?|by intros ? ? _ ?]; [done| |].
      * intros o _ _. eexists. split; [apply Hans|]. by destruct x.
      * intros Hm e He. by rewrite (proj1 (fault_not_missing e He)).
    + intros a s' _ [-> ->]. by apply wp_ret.
  - intros e s' HC' [-> He]. case_match; [subst x; by apply wp_ret|by apply wp_raise].
Qed.

Lemma wp_validate_existing_key L name expected s :
  at_log Q L s → entry_name expected = Ok name → no_collision L name expected → fits L →
  wp (validate_existing_key turns dir name expected) (looked (prior_of L name) s) (look_failed s) s.
Proof.
  intros [HC Hsh Hdir] Hname Hcol Hfit. unfold validate_existing_key.
  pose proof (entry_not_temporary _ (entry_name_is_entry _ _ Hname)) as Hnt.
  eapply wp_looked_bind; [apply (wp_look_or_missing (OpenRead dir name) Some None (now s !! name)); [done|]
    |intros ? <-|done].
  { intros o. cbn [answer]. rewrite named_now. destruct (now s !! name) as [i|] eqn:Hnow; [|done].
    destruct (holds_entry _ _ _ _ _ Hsh Hnow Hnt) as (f & Hf & _). simpl. by rewrite Hf. }
  destruct (now s !! name) as [i|] eqn:Hnow.
  - destruct (holds_entry _ _ _ _ _ Hsh Hnow Hnt) as (f & Hf & _ & HL & _).
    destruct (ho_valid _ _ _ Hsh _ _ HL) as (r & Hrec).
    eapply wp_looked_bind; [by apply (wp_open_entry _ _ f r); [..|intros Hm; apply (Hfit Hm name)]|
      intros ? <-|done].
    destruct (decide (key r = key expected)) as [Hk|Hk].
    + apply wp_require; [by rewrite bool_decide_true|]. by apply wp_ret.
    + rewrite bool_decide_false by done. apply wp_raise; [done|]. split; [done|].
      intros Hm. by apply Hk, (Hcol Hm (in_data f)).
  - apply wp_ret; [done|]. split; [done|]. simpl.
    destruct (L !! name) as [raw|] eqn:HL; [|done]. destruct (ho_row _ _ _ Hsh _ _ HL) as [i Hi].
    unfold PartialCrash.now in *. congruence.
Qed.

(** ** Temporaries *)

Lemma temporary_name_ok name token :
  is_entry_name name = true → length token = 32%nat → forallb is_hex token = true →
  is_temporary_name (temporary_name (stem name) token) = true ∧
  take 32 (drop 66 (temporary_name (stem name) token)) = token.
Proof.
  unfold is_entry_name, stem, temporary_name. intros H Hlen Hhex.
  apply andb_true_iff in H as [H _]. apply andb_true_iff in H as [_ Hd].
  set (d := take 64 name) in *. assert (length d = 64%nat) as Hdl.
  { unfold is_digest in Hd. apply andb_true_iff in Hd as [Hd _]. by apply Nat.eqb_eq in Hd. }
  assert (∀ r, take 64 (d ++ r) = d ∧ drop 64 (d ++ r) = r) as Hsplit.
  { intros r. by rewrite take_app_length', drop_app_length'. }
  assert (∀ r, take 32 (token ++ r) = token ∧ drop 32 (token ++ r) = r) as Htok.
  { intros r. by rewrite take_app_length', drop_app_length'. }
  change ($"." ++ d ++ $"." ++ token ++ $".tmp") with (46%Z :: d ++ 46%Z :: token ++ $".tmp").
  assert (drop 66 (46%Z :: d ++ 46%Z :: token ++ $".tmp") = token ++ $".tmp") as E66.
  { change (drop 66 (46%Z :: ?l)) with (drop 65 l). rewrite <-(drop_drop _ 1 64).
    by rewrite (proj2 (Hsplit _)). }
  split; [|rewrite E66; apply Htok].
  unfold is_temporary_name. change (drop 1 (46%Z :: ?l)) with l. rewrite E66, (proj1 (Hsplit _)), Hd.
  rewrite (proj1 (Htok _)), Hhex. change (take 1 (46%Z :: ?l)) with [46%Z].
  assert (drop 65 (46%Z :: d ++ 46%Z :: token ++ $".tmp") = 46%Z :: token ++ $".tmp") as ->.
  { change (drop 65 (46%Z :: ?l)) with (drop 64 l). by rewrite (proj2 (Hsplit _)). }
  assert (drop 98 (46%Z :: d ++ 46%Z :: token ++ $".tmp") = $".tmp") as ->.
  { rewrite <-(drop_drop _ 32 66), E66. apply Htok. }
  rewrite !bool_decide_true, !andb_true_r by done. apply Nat.eqb_eq.
  simpl. rewrite !length_app. simpl. rewrite length_app. simpl. lia.
Qed.

(** A temporary was made: it is empty, and only its name refers to it. *)
Definition made (L : gmap pystr (list Z)) (x : pystr * nat) (s : disk) : Prop :=
  at_log Q L s ∧ own_temp dir s x.1 x.2 [] false.

Lemma wp_create_temporary L tries name s :
  at_log Q L s → Q L → is_entry_name name = true → (m = Calm → tries ≠ 0%nat) →
  wp (create_temporary_in tries dir (stem name)) (made L) (failed L) s.
Proof.
  intros Hal HQ Hname. revert s Hal. induction tries as [|tries IH]; intros s Hal Htries;
    cbn [create_temporary_in].
  { apply wp_raise; [apply Hal|]. split; [|done]. intros Hm. by destruct (Htries Hm). }
  pose proof (al_every _ _ _ _ Hal) as HC. destruct (al_dir _ _ _ _ Hal) as [x Hx].
  assert (∀ e, m ≠ Calm → failed L e s) as HE by (by split).
  eapply wp_looked_bind with (Ψ := λ token, length token = 32%nat ∧ forallb is_hex token = true ∧
    (m = Calm → ∀ n, is_Some (now s !! n) → take 32 (drop 66 n) ≠ token)); [|intros token (Hlen & Hhex & Hnew)|done].
  { apply wp_look; [done| |done]. intros o Ho Hcalm. eexists. split; [reflexivity|].
    destruct (co_token _ Ho). split_and!; [done..|]. intros Hm n Hn.
    destruct (Hcalm Hm) as [_ _ Htok]. apply (Htok dir x); [done|].
    by rewrite (proj1 (now_past_dir _ _ _ Hx)). }
  destruct (temporary_name_ok _ _ Hname Hlen Hhex) as [Ht Htok]. set (t := temporary_name _ _) in *.
  eapply wp_bind with (Φ := λ opened s', match opened with
    | Some fd => made L (t, fd) s' | None => s' = s ∧ m ≠ Calm end).
  - apply wp_try with (E := λ e s', if exn_isa (exn_cls e) FileExistsError then s' = s ∧ m ≠ Calm
                                    else failed L e s').
    + eapply wp_bind with (Φ := λ fd s', made L (t, fd) s'); [|by intros fd s' HC' Hm; apply wp_ret].
      apply wp_do; [done| |].
      * intros o Ho Hcalm. cbn [answer]. rewrite Hx, (proj1 (now_past_dir _ _ _ Hx)).
        destruct (now s !! t) as [i|] eqn:Hnow; simpl.
        { split; [done|]. split; [done|]. intros Hm. by apply (Hnew Hm t). }
        destruct (at_log_new_temp dir Q L (ch_stamp o) t x s Hal HQ Hx Ht Hnow) as [Hal' Hown].
        rewrite <-(proj1 (now_past_dir _ _ _ Hx)). split_and!; [apply Hal'|by split|].
        intros Hm msg. simpl. split; [by rewrite Hm|apply Hal'].
      * intros Hm e He. rewrite (proj2 (fault_not_missing e He)). by split.
    + intros e s' HC' He. case_match; [|by apply wp_raise].
      destruct He as [-> Hm]. by apply wp_ret.
  - intros [fd|] s' HC'; [intros Hm; by apply wp_ret|]. intros [-> Hm]. apply IH; [done|].
    intros Hm'. by destruct Hm.
Qed.

(** ** Writing *)

(** The temporary holds [data], its descriptor open. *)
Definition holding (L : gmap pystr (list Z)) (t : pystr) (fd : nat) (data : list Z) (synced : bool)
    (s : disk) : Prop :=
  at_log Q L s ∧ own_temp dir s t fd data synced.

Lemma holding_set_inode L t fd data synced s f data' synced' stamp :
  holding L t fd data synced s → dk_inodes s !! fd = Some f →
  let f' := {| in_data := data'; in_synced := synced'; in_attrs := restamp stamp (in_attrs f) |} in
  holding L t fd data' synced' (set_inode fd f' s).
Proof.
  intros [Hal Hown] Hf f'. pose proof Hown as [_ _ (g & Hg & Hpf & _) Honly].
  rewrite Hf in Hg. injection Hg as <-. split.
  - apply (at_log_set_inode _ _ _ _ _ f); [done..|]. intros D n HD Hn. left. by eapply Honly.
  - by apply (own_temp_set_inode _ _ _ _ data synced).
Qed.

Lemma holding_file L t fd data synced s :
  holding L t fd data synced s → ∃ f, dk_inodes s !! fd = Some f ∧ in_data f = data ∧ in_synced f = synced.
Proof. intros [_ [_ _ (f & ? & _ & ? & ?) _]]. by exists f. Qed.

Lemma holding_failed L t fd data synced s e : holding L t fd data synced s → m ≠ Calm → failed L e s.
Proof. intros [Hal _] Hm. by split. Qed.

Lemma wp_write_all L t fd n data synced remaining s :
  holding L t fd data synced s → (m = Calm → length remaining ≤ n)%nat →
  wp (write_all n fd remaining) (λ _ s', ∃ b, holding L t fd (data ++ remaining) b s') (failed L) s.
Proof.
  revert data synced remaining s. induction n as [|n IH]; intros data synced [|c remaining] s Hh Hn;
    cbn [write_all].
  1,3: apply wp_ret; [apply Hh|]; rewrite app_nil_r; by exists synced.
  { split; [apply Hh|]. intros Hm. specialize (Hn Hm). simpl in Hn. lia. }
  pose proof (al_every _ _ _ _ (proj1 Hh)) as HC. destruct (holding_file _ _ _ _ _ _ Hh) as (f & Hf & Hd & _).
  set (l := c :: remaining) in *.
  eapply wp_bind with (Φ := λ written s', match written with
    | Some k => (k ≤ length l)%nat ∧ (m = Calm → k ≠ 0%nat) ∧ ∃ b, holding L t fd (data ++ take k l) b s'
    | None => m ≠ Calm ∧ ∃ b, holding L t fd data b s' end).
  - apply wp_try with (E := λ e s', m ≠ Calm ∧
      if exn_isa (exn_cls e) InterruptedError then ∃ b, holding L t fd data b s' else failed L e s').
    + eapply wp_bind with (Φ := λ k s', (k ≤ length l)%nat ∧ (m = Calm → k ≠ 0%nat) ∧
        ∃ b, holding L t fd (data ++ take k l) b s'); [|by intros k s' HC' Hk; apply wp_ret].
      apply wp_do; [done| |].
      * intros o Ho Hcalm. cbn [answer]. rewrite Hf. set (k := (ch_count o `min` length l)%nat).
        assert (holding L t fd (data ++ take k l) false (set_inode fd {| in_data := in_data f ++ take k l;
          in_synced := false; in_attrs := restamp (ch_stamp o) (in_attrs f) |} s)) as Hh'.
        { rewrite Hd. by eapply holding_set_inode. }
        split_and!; [apply Hh'|lia| |by eexists|].
        -- intros Hm. destruct (Hcalm Hm) as [_ Hc _]. unfold k, l. simpl. lia.
        -- intros Hm msg. simpl. split; [by rewrite Hm|]. eapply holding_failed; [done|by rewrite Hm].
      * intros Hm e _. split; [done|]. case_match; [by exists synced|]. by eapply holding_failed.
    + intros e s' HC' [Hm He]. case_match; [by apply wp_ret|by apply wp_raise].
  - intros [k|] s' HC'.
    + intros (Hk & Hk0 & b & Hh'). destruct (Nat.eqb_spec k 0) as [->|Hne].
      { apply wp_raise; [done|]. eapply holding_failed; [done|]. intros Hm. by apply Hk0. }
      apply wp_require; [done|].
      assert (data ++ l = (data ++ take k l) ++ drop k l) as -> by (by rewrite <-app_assoc, take_drop).
      eapply IH; [done|].
      intros Hm. rewrite length_drop. specialize (Hn Hm). unfold l in *. simpl in *. lia.
    + intros (Hm & b & Hh'). eapply IH; [done|]. intros Hm'. by destruct Hm.
Qed.

(** A call that leaves a temporary as it is, up to its state of sync. *)
Lemma wp_write_temporary L t fd body s :
  holding L t fd [] false s → (m = Calm → length body ≤ turns)%nat →
  wp (write_temporary turns fd body)
    (λ status s', holding L t fd body true s' ∧
       ∃ f, dk_inodes s' !! fd = Some f ∧ in_data f = body ∧ status = stat_of fd f) (failed L) s.
Proof.
  intros Hh Hn. unfold write_temporary.
  assert (∀ (P : Stat → disk → Prop) status s', C s' → P status s' →
    wp (do (Close fd)) (λ _, P status) (λ e s', P status s' ∧ m ≠ Calm) s') as Hclose.
  { intros P status s' HC' HP. eapply wp_weaken; [by apply (wp_look_Ok _ tt)|by intros ? ? _ [-> _]|
      by intros ? ? _ [-> ?]]. }
  eapply wp_finally with (E := failed L) (Φ := λ status s', holding L t fd body true s' ∧
    ∃ f, dk_inodes s' !! fd = Some f ∧ in_data f = body ∧ status = stat_of fd f).
  - eapply wp_bind; [by apply (wp_write_all L t _ _ [] false)|]. intros _ s1 HC1 (b & Hh1).
    rewrite app_nil_l in Hh1. destruct (holding_file _ _ _ _ _ _ Hh1) as (f & Hf & Hd & _).
    eapply wp_bind with (Φ := λ _ s', holding L t fd body true s').
    + apply wp_do; [done| |intros Hm e _; by eapply holding_failed].
      intros o _ _. cbn [answer]. rewrite Hf.
      set (f' := {| in_data := in_data f; in_synced := true; in_attrs := in_attrs f |}).
      assert (holding L t fd body true (set_inode fd f' s1)) as Hh2.
      { destruct Hh1 as [Hal1 Hown1]. split.
        - apply (at_log_set_inode _ _ _ _ _ f); [done..|]. intros D n HD Hn'. left. by eapply ot_only.
        - rewrite <-Hd. apply (own_temp_set_inode _ _ _ _ body b f'); [done|].
          destruct Hown1 as [_ _ (g & Hg & Hpf & _) _]. rewrite Hf in Hg. by injection Hg as <-. }
      split_and!; [apply Hh2|done|]. intros Hm msg. eapply holding_failed; [done|by rewrite Hm].
    + intros _ s2 HC2 Hh2. destruct (holding_file _ _ _ _ _ _ Hh2) as (g & Hg & Hdg & _).
      eapply wp_weaken; [apply (wp_look_Ok _ (stat_of fd g)); [done|]| |].
      * intros o. cbn [answer]. by rewrite Hg.
      * intros status s' _ [-> <-]. split; [done|]. by exists g.
      * intros e s' _ [-> Hm]. by eapply holding_failed.
  - intros status s' HC' H. eapply wp_weaken; [apply (Hclose (λ status s', holding L t fd body true s' ∧
      ∃ f, dk_inodes s' !! fd = Some f ∧ in_data f = body ∧ status = stat_of fd f) status); done|done|].
    intros e s2 _ [[Hh2 _] Hm]. by eapply holding_failed.
  - intros e s' HC' [Hm Hal']. eapply wp_weaken; [by apply (wp_look_Ok _ tt)|by intros ? ? _ [-> _]|].
    by intros ? ? _ [-> _].
Qed.

(** ** Removing *)

Lemma shows_file L s name i :
  at_log Q L s → now s !! name = Some i →
  ∃ f, dk_inodes s !! i = Some f ∧ private_file s f ∧ named dir name s = Some (i, f).
Proof.
  intros Hal Hi. destruct (ho_name _ _ _ (al_shows _ _ _ _ Hal) _ _ Hi) as (f & Hf & Hp & _).
  exists f. split_and!; [done..|]. by apply named_file.
Qed.

Lemma wp_cleanup_candidate name private i f s :
  C s → dk_inodes s !! i = Some f → private_file s f → named dir name s = Some (i, f) →
  wp (validate_cleanup_candidate dir name private) (looked (eq (stat_of i f)) s) (look_failed s) s.
Proof.
  intros HC Hf (Hreg & Hperm & Huid & Hlink) Hn. unfold validate_cleanup_candidate.
  apply (wp_look_bind _ _ (stat_of i f)); [done|intros o; cbn [answer]; by rewrite Hn| |done].
  apply (wp_look_bind _ _ (dk_euid s)); [done|done| |done].
  apply wp_require; [|by apply wp_ret]. simpl. rewrite Hreg, Hperm, Huid, Hlink, !Z.eqb_refl. simpl.
  by rewrite andb_false_r.
Qed.

(** The log without a name; a temporary is no row. *)
Definition removed (name : pystr) (L L' : gmap pystr (list Z)) : Prop :=
  is_temporary_name name = true ∧ L' = L ∨ L' = delete name L.

Lemma wp_verified_unlink L L' name private i s :
  at_log Q L s → Q L' → now s !! name = Some i → removed name L L' →
  wp (verified_unlink dir name private) (λ _ s', at_log Q L' s' ∧ now s' = delete name (now s))
    (λ e s', failed L e s' ∨ m = Interrupts ∧ at_log Q L' s') s.
Proof.
  intros Hal HQ Hi Hrm. pose proof (al_every _ _ _ _ Hal) as HC.
  destruct (shows_file _ _ _ _ Hal Hi) as (f & Hf & Hp & Hn). unfold verified_unlink.
  assert (∀ e : exn, m ≠ Calm → failed L e s ∨ m = Interrupts ∧ at_log Q L' s) as HE by (intros; left; by split).
  eapply wp_looked_bind; [by apply wp_cleanup_candidate|intros before <-|done].
  apply (wp_look_bind _ _ i); [done|intros o; cbn [answer]; by rewrite Hn| |done].
  eapply wp_looked_bind; [apply (wp_close _ (eq (stat_of i f))); [done|]|intros opened <-|done].
  { apply wp_look_Ok; [done|]. intros o. cbn [answer]. by rewrite Hf. }
  apply wp_require; [by rewrite Z.eqb_refl, Nat.eqb_refl|].
  apply (wp_look_bind _ _ (stat_of i f)); [done|intros o; cbn [answer]; by rewrite Hn| |done].
  apply wp_require; [apply same_file_snapshot_refl|].
  destruct (al_dir _ _ _ _ Hal) as [x Hx].
  apply wp_do; [done| |intros; left; by split].
  intros o _ _. cbn [answer]. rewrite Hx. pose proof (proj1 (now_past_dir _ _ _ Hx)) as En.
  rewrite En, Hi. simpl. rewrite <-En.
  assert (at_log Q L' (rename_to dir (delete name (dir_now x)) x s)) as Hal'.
  { by apply (at_log_unlink dir Q L L'). }
  split_and!; [apply Hal'|done|by rewrite now_rename, En|]. by intros Hm msg; right.
Qed.

Lemma wp_entry_exists name s :
  C s → wp (entry_exists dir name) (looked (eq (is_some (named dir name s))) s) (look_failed s) s.
Proof.
  intros HC. unfold entry_exists. eapply wp_weaken; [apply (wp_look_or_missing (StatName dir name) (λ _, true) false
    ((λ x, stat_of x.1 x.2) <$> named dir name s)); [done|]| |done].
  - intros o. cbn [answer]. by destruct (named dir name s) as [[i f]|].
  - intros b s' _ [-> <-]. split; [done|]. by destruct (named dir name s).
Qed.

Lemma wp_discard_temporary L t s :
  at_log Q L s → Q L → is_temporary_name t = true →
  wp (discard_temporary dir t) (λ _ s', at_log Q L s') (failed L) s.
Proof.
  intros Hal HQ Ht. unfold discard_temporary.
  eapply wp_looked_bind; [apply wp_entry_exists, Hal|intros b <-|by split].
  destruct (named dir t s) as [[i f]|] eqn:Hn; cbn [is_some]; [|apply wp_ret; [apply Hal|done]].
  assert (now s !! t = Some i) as Hi.
  { rewrite named_now in Hn. destruct (now s !! t) as [j|]; [|done]. simpl in Hn.
    destruct (dk_inodes s !! j); [|done]. by injection Hn as -> _. }
  eapply wp_weaken; [eapply (wp_verified_unlink L L); [done|done|exact Hi|by left]| |].
  - by intros _ s' _ [H _].
  - intros e s' _ [H|[Hm H]]; [done|]. split; [by rewrite Hm|done].
Qed.

(** ** Publishing *)

(** The entry [name] is the file [i] with these bytes. *)
Definition entry_file (name : pystr) (i : nat) (raw : list Z) (s : disk) : Prop :=
  now s !! name = Some i ∧ ∃ f, dk_inodes s !! i = Some f ∧ in_data f = raw.

Lemma wp_replace L t i name raw r s :
  holding L t i raw true s → Q (<[name := raw]> L) → entry_record name raw = Ok r →
  wp (do (Replace dir t name))
    (λ _ s', at_log Q (<[name := raw]> L) s' ∧ entry_file name i raw s' ∧ now s' !! t = None ∧
       ∀ f f', dk_inodes s !! i = Some f → dk_inodes s' !! i = Some f' →
         at_dev (in_attrs f') = at_dev (in_attrs f))
    (λ e s', failed L e s' ∨ m = Interrupts ∧ at_log Q (<[name := raw]> L) s') s.
Proof.
  intros [Hal Hown] HQ Hrec. destruct (al_dir _ _ _ _ Hal) as [x Hx].
  pose proof Hown as [_ Hnow (f & Hf & _) _].
  apply wp_do; [apply Hal| |intros; left; by split].
  intros o _ _. cbn [answer]. rewrite Hx, (proj1 (now_past_dir _ _ _ Hx)), Hnow, Hf.
  destruct (at_log_replace dir Q L s t i name raw r (ch_stamp o) x f Hal HQ Hx Hown Hf Hrec) as (Hal' & Hn' & Hf' & Hd').
  rewrite (proj1 (now_past_dir _ _ _ Hx)) in *.
  split_and!; [apply Hal'|done|by split; [|eexists]| | |by intros Hm msg; right].
  { rewrite now_rename, lookup_insert_ne, lookup_delete_eq; [done|]. intros <-.
    pose proof (entry_not_temporary _ (entry_name_is_entry _ _ (entry_record_name _ _ _ Hrec))).
    pose proof (ot_name _ _ _ _ _ _ Hown). congruence. }
  intros g g' Hg Hg'. assert (g = f) as -> by congruence. rewrite Hf' in Hg'. by injection Hg' as <-.
Qed.

Lemma wp_sync L s (P : disk → Prop) :
  at_log Q L s → Q L → (∀ s', now s' = now s → dk_inodes s' = dk_inodes s → P s') →
  wp (do (SyncDir dir)) (λ _ s', at_log (eq L) L s' ∧ at_log Q L s' ∧ P s')
    (λ e s', failed L e s' ∧ P s') s.
Proof.
  intros Hal HQ HP. destruct (al_dir _ _ _ _ Hal) as [x Hx].
  apply wp_do; [apply Hal| |by intros; split; [split|apply HP]]. intros o _ _. cbn [answer]. rewrite Hx.
  pose proof (at_log_sync dir Q L s x Hal Hx) as Hs.
  assert (at_log Q L (set_dir dir {| dir_now := dir_now x; dir_past := [] |} s)) as HsQ.
  { destruct Hs as [He ? ?]. split; [|done..]. eapply every_weaken; [done|]. by intros ? <-. }
  assert (P (set_dir dir {| dir_now := dir_now x; dir_past := [] |} s)) as HPs.
  { apply HP; [|done]. unfold PartialCrash.now, set_dir. simpl. rewrite lookup_insert_eq. simpl. by rewrite Hx. }
  split_and!; [apply HsQ|done|done|done|]. intros Hm msg. split; [|done]. split; [by rewrite Hm|done].
Qed.

Lemma wp_validate_published name record raw i dev r s :
  C s → entry_file name i raw s → entry_record name raw = Ok r → key r = key record →
  (m = Calm → length raw < turns)%nat →
  (∀ f, dk_inodes s !! i = Some f → at_dev (in_attrs f) = at_dev (st_attrs dev)) → st_ino dev = i →
  wp (validate_published_entry turns dir name record raw dev) (looked (λ _, True) s) (look_failed s) s.
Proof.
  intros HC (Hnow & f & Hf & Hd) Hrec Hkey Hturns Hdev Hino. unfold validate_published_entry.
  pose proof (named_file _ _ _ _ Hnow Hf) as Hn.
  apply (wp_look_bind _ _ i); [done|intros o; cbn [answer]; by rewrite Hn| |done].
  eapply wp_looked_bind; [apply (wp_open_entry _ _ f r); [done..|by rewrite Hd|by rewrite Hd]|intros ? <-|done].
  apply wp_require.
  { simpl. rewrite Hkey, Hd, !bool_decide_true, (Hdev f Hf), Hino, Z.eqb_refl, Nat.eqb_refl by done. done. }
  apply (wp_look_bind _ _ (stat_of i f)); [done|intros o; cbn [answer]; by rewrite Hn| |done].
  apply wp_require; [apply same_file_snapshot_refl|].
  eapply wp_looked_bind with (Ψ := eq (stat_of i f)); [|intros ? <-|done].
  { apply wp_try with (E := look_failed s).
    - apply (wp_look_Ok _ (stat_of i f)); [done|]. intros o. cbn [answer]. by rewrite Hn.
    - intros e s' HC' [-> Hm]. by case_match; apply wp_raise. }
  unfold io_require. rewrite same_file_snapshot_refl. by apply wp_ret.
Qed.

Lemma wp_discard_absent t s :
  C s → now s !! t = None →
  wp (discard_temporary dir t) (looked (λ _, True) s) (look_failed s) s.
Proof.
  intros HC Hn. unfold discard_temporary.
  eapply wp_looked_bind; [by apply wp_entry_exists|intros b <-|done].
  rewrite named_now, Hn. simpl. by split.
Qed.

(** ** A publication and its rollback *)
Section Publish.
Variables (L : gmap pystr (list Z)) (name : pystr) (raw : list Z) (r record : PartialCallRecord).
Abbreviation L' := (<[name := raw]> L).
Hypotheses (HL : Q L) (HL' : Q L').
Hypotheses (Hrec : entry_record name raw = Ok r) (Hkey : key r = key record).
Hypotheses (Hfit : fits L) (Hraw : m = Calm → (length raw < turns)%nat).

Lemma name_is_entry : is_entry_name name = true.
Proof. exact (entry_name_is_entry _ _ (entry_record_name _ _ _ Hrec)). Qed.

(** Something failed, and the directory shows the old or the new log. *)
Definition either (e : exn) (s' : disk) : Prop := failed L e s' ∨ failed L' e s'.

(** Writing a row over the entry, up to the rename. *)
Lemma wp_rename M body r0 t fd s :
  Q M → Q (<[name := body]> M) → entry_record name body = Ok r0 → (m = Calm → length body ≤ turns)%nat →
  made M (t, fd) s →
  wp (rename_over turns dir t name fd body)
    (λ status s', at_log Q (<[name := body]> M) s' ∧ entry_file name fd body s' ∧ now s' !! t = None ∧
       st_ino status = fd ∧
       ∀ f, dk_inodes s' !! fd = Some f → at_dev (in_attrs f) = at_dev (st_attrs status))
    (λ e s', failed M e s' ∨ m = Interrupts ∧ at_log Q (<[name := body]> M) s') s.
Proof.
  intros HM HM' Hbody Hlen [Hal Hown].
  eapply wp_bind.
  { eapply wp_weaken; [by apply (wp_write_temporary M t fd body)|by intros ? ? _ H; exact H|by intros; left]. }
  intros status s1 HC1 (Hh & f & Hf & Hd & ->).
  eapply wp_bind; [by apply (wp_replace M t fd name body r0)|].
  intros _ s2 HC2 (Hal2 & He2 & Ht2 & Hdev). apply wp_ret; [done|]. split_and!; [done..|].
  intros f' Hf'. simpl. by apply Hdev.
Qed.

(** What is known once [body] is the entry [name] and [t] is gone. *)
Definition renamed (M : gmap pystr (list Z)) (t : pystr) (fd : nat) (body : list Z) (status : Stat)
    (s' : disk) : Prop :=
  at_log Q M s' ∧ entry_file name fd body s' ∧ now s' !! t = None ∧ st_ino status = fd ∧
  ∀ f, dk_inodes s' !! fd = Some f → at_dev (in_attrs f) = at_dev (st_attrs status).

(** Confirming it. *)
Lemma wp_confirm M t fd body r0 record0 status s :
  Q M → renamed M t fd body status s → entry_record name body = Ok r0 → key r0 = key record0 →
  (m = Calm → length body < turns)%nat →
  wp (do (SyncDir dir) ;; validate_published_entry turns dir name record0 body status)
    (λ _ s', at_log (eq M) M s' ∧ at_log Q M s' ∧ now s' !! t = None)
    (λ e s', failed M e s' ∧ now s' !! name = Some fd) s.
Proof.
  intros HM (Hal & He & Ht & Hino & Hdev) Hbody Hk Hlen.
  set (kept := λ s', entry_file name fd body s' ∧ now s' !! t = None ∧
    ∀ f, dk_inodes s' !! fd = Some f → at_dev (in_attrs f) = at_dev (st_attrs status)).
  eapply wp_bind with (Φ := λ _ s', at_log (eq M) M s' ∧ at_log Q M s' ∧ kept s').
  { eapply wp_weaken; [apply (wp_sync M s kept); [done..|]|done|].
    - intros s' En Ei. unfold kept, entry_file. by rewrite En, Ei.
    - intros e s' _ [Hf [[Hn _] _]]. done. }
  intros _ s1 HC1 (Hs1 & Hal1 & He1 & Ht1 & Hdev1).
  eapply wp_weaken; [by apply (wp_validate_published _ _ _ fd _ r0)|by intros _ s' _ [-> _]|].
  intros e s' _ [-> Hm]. split; [by split|]. by destruct He1.
Qed.

(** The entry is what was there before. *)
Lemma wp_restore_prior prior i s :
  at_log Q L' s → now s !! name = Some i → prior_of L name prior →
  wp (restore_prior turns dir name prior) (λ _ s', at_log (eq L) L s' ∧ at_log Q L s') either s.
Proof.
  intros Hal Hi Hprior. pose proof name_is_entry as Hname. destruct prior as [[pr body snap]|]; cbn [restore_prior].
  - destruct Hprior as [Hp Hpr]. simpl in Hp, Hpr.
    assert (<[name := body]> L' = L) as EL by (by rewrite insert_insert_eq, insert_id).
    assert (m = Calm → length body < turns)%nat as Hlen by (intros Hm; by apply (Hfit Hm name)).
    eapply wp_bind.
    { eapply wp_weaken; [by apply (wp_create_temporary L' 4)|by intros ? ? _ H; exact H|by intros ? ? _ ?; right]. }
    intros [t fd] s1 HC1 Hmade. pose proof (ot_name _ _ _ _ _ _ (proj2 Hmade)) as Ht. simpl in Ht.
    eapply wp_finally with (Φ := λ _ s', at_log (eq L) L s' ∧ at_log Q L s' ∧ now s' !! t = None) (E := either).
    + eapply wp_bind with (Φ := renamed L t fd body).
      * eapply wp_weaken; [apply (wp_rename L' body pr t fd); rewrite ?EL; [done..| |done]| |].
        -- intros Hm. specialize (Hlen Hm). simpl. lia.
        -- rewrite EL. intros status s' _ H. exact H.
        -- rewrite EL. intros e s' _ [H|[Hm H]]; [by right|left]. split; [by rewrite Hm|done].
      * intros status s2 HC2 Hren.
        eapply wp_weaken; [by apply (wp_confirm L t fd body pr pr status)|done|]. by intros e s' _ [H _]; left.
    + intros _ s2 HC2 (H1 & H2 & H3). eapply wp_weaken; [by apply wp_discard_absent|by intros _ s' _ [-> _]|].
      intros e s' _ [-> Hm]. left. by split.
    + intros e s2 HC2 [[Hm H]|[Hm H]]; (eapply wp_weaken; [by eapply (wp_discard_temporary _ t)|..]).
      all: intros ? s' _ H'.
      * left. by split.
      * by left.
      * right. by split.
      * by right.
  - eapply wp_bind with (Φ := λ _ s', at_log Q L s').
    + eapply wp_weaken; [eapply (wp_verified_unlink L' L); [done|done|exact Hi|right]| |].
      * by rewrite delete_insert_id.
      * by intros _ s' _ [H _].
      * intros e s' _ [H|[Hm H]]; [by right|left]. split; [by rewrite Hm|done].
    + intros _ s1 HC1 Hal1. eapply wp_weaken; [by apply (wp_sync L s1 (λ _, True))| |].
      * by intros _ s' _ (H1 & H2 & _).
      * by intros e s' _ [H _]; left.
Qed.

(** What an append that failed may leave: in a run whose failing calls change
    nothing, the old log, unless the rollback failed as well. *)
Definition publication_failed (e : exn) (s' : disk) : Prop :=
  ∃ M, (M = L ∨ M = L') ∧ failed M e s' ∧ (m = Failures → M = L ∨ exn_msg e = ROLLBACK_FAILED).

Lemma old_log e s' : failed L e s' → publication_failed e s'.
Proof. intros H. exists L. auto. Qed.

Lemma wp_confirm_entry prior t fd status s :
  renamed L' t fd raw status s → prior_of L name prior →
  wp (confirm_entry turns dir name record raw prior status) (λ _ s', at_log (eq L') L' s')
    publication_failed s.
Proof.
  intros Hren Hprior. unfold confirm_entry.
  eapply wp_try with (E := λ e s', failed L' e s' ∧ now s' !! name = Some fd).
  - eapply wp_weaken; [by apply (wp_confirm L' t fd raw r)| |done]. by intros _ s' _ [H _].
  - intros e s1 HC1 [[Hm Hal1] Hi]. eapply wp_bind with (Φ := λ _ s', at_log Q L s').
    + eapply wp_try.
      * eapply wp_weaken; [by apply (wp_restore_prior prior fd)| |by intros ? ? _ H; exact H].
        by intros _ s' _ [_ H].
      * intros e' s' HC' [[_ H]|[_ H]]; (apply wp_raise; [done|]).
        -- by apply old_log.
        -- exists L'. split; [by right|]. split; [by split|]. by right.
    + intros _ s' HC' Hal'. apply wp_raise; [done|]. by apply old_log.
Qed.

Lemma wp_publish_entry prior s :
  at_log Q L s → prior_of L name prior →
  wp (publish_entry turns dir name record raw prior) (λ _ s', at_log (eq L') L' s') publication_failed s.
Proof.
  intros Hal Hprior. pose proof name_is_entry as Hname. unfold publish_entry.
  eapply wp_bind.
  { eapply wp_weaken; [by apply (wp_create_temporary L 4)|by intros ? ? _ H; exact H|by intros; apply old_log]. }
  intros [t fd] s1 HC1 Hmade. pose proof (ot_name _ _ _ _ _ _ (proj2 Hmade)) as Ht. simpl in Ht.
  eapply wp_bind with (Φ := renamed L' t fd raw); [|intros status s2 HC2 Hren; by eapply wp_confirm_entry].
  eapply wp_try.
  - eapply wp_weaken; [apply (wp_rename L raw r t fd); [done..| |done]| |by intros ? ? _ H; exact H].
    + intros Hm. specialize (Hraw Hm). lia.
    + intros status s' _ H. exact H.
  - intros e s2 HC2 [[Hm H]|[Hm H]].
    + eapply wp_bind; [eapply wp_weaken; [by eapply (wp_discard_temporary L t)|by intros ? ? _ H'; exact H'|]|].
      * by intros; apply old_log.
      * intros u s3 HC3 H3. apply wp_raise; [done|]. by apply old_log.
    + eapply wp_bind; [eapply wp_weaken; [by eapply (wp_discard_temporary L' t)|by intros ? ? _ H'; exact H'|]|].
      * intros e' s' _ H'. exists L'. split_and!; [by right|done|]. intros Hm'. congruence.
      * intros u s3 HC3 H3. apply wp_raise; [done|]. exists L'.
        split_and!; [by right|split; [by rewrite Hm|done]|]. intros Hm'. congruence.
Qed.
End Publish.

(** ** Appending *)

(** The row [validated] is written as: itself, or stamped with some time. *)
Definition stamped_from (validated r : PartialCallRecord) : Prop :=
  match pc_at validated with
  | Some _ => r = validated
  | None => ∃ d, valid_datetime d = true ∧ r = with_at validated (Some (isoformat d))
  end.

(** [raw] is the row of [record] and [name] its file. *)
Definition row_of (record : PartialCallRecord) (name : pystr) (raw : list Z) (r : PartialCallRecord) :
    Prop :=
  PartialCallRecord_validate record = Ok record ∧ stamped_from record r ∧
  encode_frame r = Ok raw ∧ entry_name r = Ok name.

(** A record that is valid and can be written, whenever it is. *)
Definition writable (record : PartialCallRecord) : Prop :=
  PartialCallRecord_validate record = Ok record ∧
  ∀ r, stamped_from record r → is_ok (encode_frame r) = true ∧ is_ok (entry_name r) = true.

Lemma stamped_from_valid validated r :
  PartialCallRecord_validate validated = Ok validated → stamped_from validated r →
  PartialCallRecord_validate r = Ok r ∧ validate_timestamp (default [] (pc_at r)) = Ok tt.
Proof.
  unfold stamped_from. intros Hv Hs. destruct (pc_at validated) as [a|] eqn:Ha.
  - subst r. split; [done|]. rewrite Ha. unfold PartialCallRecord_validate in Hv.
    apply bind_Ok in Hv as ([] & Hat & _). by rewrite Ha in Hat.
  - destruct Hs as (d & Hd & ->). split; [|by apply validate_isoformat].
    unfold PartialCallRecord_validate in *. apply bind_Ok in Hv as (u & _ & Hv).
    change (validate_at (pc_at (with_at validated (Some (isoformat d))))) with (validate_timestamp (isoformat d)).
    rewrite validate_isoformat, bind_Ok_l by done.
    unfold validate_current_record in *.
    cbn [with_at pc_request_hash pc_observation_payload pc_schema_name pc_score pc_latency_s pc_provider_error
      pc_phase pc_task_id pc_unit pc_seed_index pc_cache_source_phase pc_cache_source_unit
      pc_cache_source_call_id pc_cache_source_at pc_cache_hit] in *.
    apply bind_Ok in Hv as ([] & -> & Hv). rewrite bind_Ok_l. apply bind_Ok in Hv as ([] & -> & Hv).
    rewrite bind_Ok_l. apply bind_Ok in Hv as ([] & -> & Hv). rewrite bind_Ok_l.
    apply bind_Ok in Hv as ([] & -> & _). by rewrite bind_Ok_l.
Qed.

(** dr-serialize reads every form of the row back. *)
Definition row_reads_back (record : PartialCallRecord) : Prop :=
  ∀ name raw r, row_of record name raw r → record_reads_back r.

Lemma row_entry record name raw r :
  row_reads_back record → row_of record name raw r → entry_record name raw = Ok (normal_record r).
Proof.
  intros Hrb Hrow. pose proof (Hrb _ _ _ Hrow) as Hr. destruct Hrow as (Hv & Hs & He & Hn).
  destruct (stamped_from_valid _ _ Hv Hs) as [Hvr _].
  by apply entry_record_written.
Qed.

(** The directory, there or not, shows [L] and its contents are logs of [Q]. *)
Definition log_at (L : gmap pystr (list Z)) (s : disk) : Prop := C s ∧ shows dir s L.

Lemma at_log_log_at L s : at_log Q L s → log_at L s.
Proof. by intros [? ? _]. Qed.

Section Append.
Variables (L : gmap pystr (list Z)) (record : PartialCallRecord).
Hypotheses (HL : Q L) (HL' : ∀ name raw r, row_of record name raw r → Q (<[name := raw]> L)).
Hypothesis (Hread : row_reads_back record).
Hypotheses (Hfit : fits L)
  (Hraw : m = Calm → ∀ name raw r, row_of record name raw r → (length raw < turns)%nat)
  (Hcol : ∀ name raw r, row_of record name raw r → no_collision L name r).

(** The row is in the log, whatever a power loss leaves. *)
Definition appended (s' : disk) : Prop :=
  C s' ∧ ∃ name raw r, row_of record name raw r ∧ every dir (eq (<[name := raw]> L)) s'.

(** An append that raised: a call failed, or the record cannot be written. *)
Definition append_failed (e : exn) (s' : disk) : Prop := m = Calm → ¬ writable record.

Lemma not_calm_failed e s : m ≠ Calm → append_failed e s.
Proof. intros Hm Hc. by destruct Hm. Qed.

Lemma wp_open_directory s :
  log_at L s → wp (open_record_directory dir true) (λ _ s', at_log Q L s') (λ e s', m ≠ Calm ∧ log_at L s') s.
Proof.
  intros Hl. pose proof Hl as [HC Hsh]. unfold open_record_directory.
  eapply wp_try with (E := λ e s', m ≠ Calm ∧ log_at L s').
  - apply wp_do; [done| |done]. intros o _ _. cbn [answer].
    destruct (dk_dirs s !! dir) as [x|] eqn:Hx.
    { split_and!; [done|split; [done..|by rewrite Hx]|]. intros Hm msg. by rewrite Hm. }
    set (s' := set_dir dir _ s).
    assert (now s' = now s ∧ past dir s' = past dir s) as [En Ep].
    { unfold PartialCrash.now, past, s', set_dir. simpl. by rewrite lookup_insert_eq, Hx. }
    assert (∀ D M, holds s D M → holds s' D M) as Hh.
    { intros D M. apply holds_preserved. by apply preserves_same_inodes. }
    assert (log_at L s') as [HC' Hsh'].
    { destruct HC as [Hf Hall]. split; [split; [done|]|].
      - rewrite En, Ep. eapply Forall_impl; [exact Hall|]. intros D (M & HM & HD). exists M. auto.
      - unfold shows. rewrite En. by apply Hh. }
    split_and!; [done| |intros Hm msg; by rewrite Hm]. split; [done..|].
    unfold s', set_dir. simpl. rewrite lookup_insert_eq. by eexists.
  - intros e s' HC' He. repeat case_match; by apply wp_raise.
Qed.

Lemma wp_append_row r name raw s :
  row_of record name raw r → at_log Q L s →
  wp (append_row turns dir r raw) (λ _, appended) (publication_failed L name raw) s.
Proof.
  intros Hrow Hal. pose proof (row_entry _ _ _ _ Hread Hrow) as Hent.
  pose proof Hrow as (_ & _ & He & Hn). unfold append_row. rewrite Hn. cbn [io_result mbind io_bind].
  eapply wp_looked_bind; [apply (wp_validate_existing_key L); by eauto|intros prior Hprior|].
  - eapply wp_weaken; [apply (wp_publish_entry L name raw (normal_record r) r); eauto| |].
    + intros u s' HC' Hs. split; [done|]. exists name, raw, r. split; [done|apply Hs].
    + done.
  - intros e Hm. apply old_log. by split.
Qed.

(** The part of [append] that holds the directory. *)
Lemma wp_append_opened r name raw s :
  row_of record name raw r → at_log Q L s →
  wp (io_finally (append_row turns dir r raw) (do (CloseDir dir))) (λ _, appended) append_failed s.
Proof.
  intros Hrow Hal.
  eapply wp_finally with (Φ := λ _ s', appended s') (E := append_failed).
  - eapply wp_weaken; [by eapply wp_append_row|done|].
    intros e s' _ (M & _ & [Hm _] & _). by apply not_calm_failed.
  - intros u s' HC' Happ. eapply wp_weaken; [by apply (wp_look_Ok _ tt)|by intros ? ? _ [-> _]|].
    intros e s2 _ [-> Hm]. by apply not_calm_failed.
  - intros e s' HC' Hfail. eapply wp_weaken; [by apply (wp_look_Ok _ tt)|by intros ? ? _ [-> _]|].
    intros e' s2 _ [-> Hm]. by apply not_calm_failed.
Qed.

Lemma wp_stamped_record validated s :
  C s → wp (stamped_record validated) (looked (stamped_from validated) s) (look_failed s) s.
Proof.
  intros HC. unfold stamped_record, looked, stamped_from. destruct (pc_at validated); [by apply wp_ret|].
  eapply wp_bind with (Φ := looked (λ d, valid_datetime d = true) s).
  - apply wp_look; [done| |done]. intros o Ho _. eexists. split; [reflexivity|]. by apply co_now.
  - intros d s' HC' [-> Hd]. apply wp_ret; [done|]. eauto.
Qed.

(** A lock is held around a program that can be left at any point. *)
Lemma wp_with_lock {A} lock shared (body : io A) (Φ : A → disk → Prop) (E : exn → disk → Prop) s :
  C s → wp body Φ E s → (∀ e s', m ≠ Calm → E e s') → wp (with_lock lock shared body) Φ E s.
Proof.
  intros HC Hbody HE. unfold with_lock. apply (wp_look_bind _ _ tt); [done|done| |by auto].
  eapply wp_finally; [exact Hbody| |].
  - intros a s' HC' Ha. eapply wp_weaken; [by apply (wp_look_Ok _ tt)|by intros ? ? _ [-> _]|].
    intros e s2 _ [_ Hm]. auto.
  - intros e s' HC' He. eapply wp_weaken; [by apply (wp_look_Ok _ tt)|by intros ? ? _ [-> _]|].
    intros e' s2 _ [_ Hm]. auto.
Qed.

Lemma wp_append s :
  log_at L s → wp (append turns {| pl_path := dir |} record) (λ _, appended) append_failed s.
Proof.
  intros Hl. pose proof Hl as [HC _]. unfold append.
  apply wp_result_bind; [done|intros v Hv|].
  2: { intros e He _ [Hv _]. by rewrite (proj2 (from_dict_as_dict _ _) (conj Hv eq_refl)) in He. }
  apply from_dict_as_dict in Hv as [Hv ->].
  eapply wp_looked_bind; [by apply wp_stamped_record|intros r Hr|by intros; apply not_calm_failed].
  destruct (stamped_from_valid _ _ Hv Hr) as [_ ->]. cbn [io_result mbind io_bind].
  apply wp_result_bind; [done|intros raw He|].
  2: { intros e He _ [_ Hw]. destruct (Hw _ Hr) as [H _]. by rewrite He in H. }
  apply wp_with_lock; [done| |by intros; apply not_calm_failed].
  eapply wp_bind; [eapply wp_weaken; [by apply wp_open_directory|by intros ? ? _ H; exact H|]|].
  { intros e s' _ [Hm _]. by apply not_calm_failed. }
  intros u s' HC' Hal. destruct (entry_name r) as [name|e] eqn:Hn.
  - by apply (wp_append_opened r name).
  - unfold append_row. rewrite Hn. cbn [io_result mbind io_bind io_finally]. apply (wp_look_bind _ _ tt); [done|done| |].
    + apply wp_raise; [done|]. intros _ [_ Hw]. destruct (Hw _ Hr) as [_ H]. by rewrite Hn in H.
    + by intros; apply not_calm_failed.
Qed.
End Append.

(** ** Loading *)

Lemma wp_load_name L name s :
  log_at L s → fits L → is_Some (now s !! name) →
  wp (load_name turns dir name)
    (looked (λ o, match o with
                  | Some r => is_temporary_name name = false ∧ row_at L name r
                  | None => is_temporary_name name = true
                  end) s) (look_failed s) s.
Proof.
  intros [HC Hsh] Hfit [i Hi]. unfold load_name.
  destruct (is_temporary_name name) eqn:Hnt; [by apply wp_ret|].
  destruct (holds_entry _ _ _ _ _ Hsh Hi Hnt) as (f & Hf & _ & HL & _).
  destruct (ho_valid _ _ _ Hsh _ _ HL) as (r & Hrec).
  apply wp_require; [by eapply entry_name_is_entry, entry_record_name|].
  apply (wp_look_bind _ _ i); [done| | |done].
  { intros o. cbn [answer]. by rewrite (named_file _ _ _ _ Hi Hf). }
  eapply wp_looked_bind; [apply (wp_open_entry name i f r); [done..|]| |done].
  { intros Hm. by apply (Hfit Hm name). }
  intros ? <-. apply wp_ret; [done|]. split; [done|]. split; [done|]. by exists (in_data f).
Qed.

Lemma wp_load_names L names s :
  log_at L s → fits L → Forall (λ n, is_Some (now s !! n)) names →
  wp (load_names turns dir names)
    (looked (Forall2 (row_at L) (filter (λ n, is_temporary_name n = false) names)) s) (look_failed s) s.
Proof.
  intros Hl Hfit. induction 1 as [|name names Hn Hns IH]; cbn [load_names].
  { apply wp_ret; [apply Hl|]. split; [done|constructor]. }
  eapply wp_looked_bind; [by apply (wp_load_name L)|intros o Ho|done].
  eapply wp_looked_bind; [apply IH|intros rs Hrs|done].
  apply wp_ret; [apply Hl|]. split; [done|]. rewrite filter_cons. destruct o as [r|].
  - destruct Ho as [Ht Hr]. rewrite decide_True by done. by constructor.
  - by rewrite decide_False by congruence.
Qed.

(** The names a directory shows, without the temporaries, are the log's. *)
Lemma shown_names s L names :
  shows dir s L → names ≡ₚ (map_to_list (now s)).*1 →
  filter (λ n, is_temporary_name n = false) names ≡ₚ (map_to_list L).*1.
Proof.
  intros Hsh ->. apply NoDup_Permutation.
  - apply NoDup_filter, NoDup_fst_map_to_list.
  - apply NoDup_fst_map_to_list.
  - intros n. rewrite list_elem_of_filter, !elem_of_names. split.
    + intros [Ht [i Hi]]. destruct (holds_entry _ _ _ _ _ Hsh Hi Ht) as (f & _ & _ & HL & _). eauto.
    + intros [raw HL]. destruct (holds_row _ _ _ _ _ Hsh HL) as (Ht & _ & i & _ & Hi & _). eauto.
Qed.

(** The directory is opened when it exists. *)
Lemma wp_open_existing s :
  C s →
  wp (io_except (open_record_directory dir false ;; IoRet true) FileNotFoundError (λ _, IoRet false))
    (looked (λ opened : bool, opened = is_some (dk_dirs s !! dir)) s) (look_failed s) s.
Proof.
  intros HC.
  apply wp_try with (E := λ e s', s' = s ∧
    (if exn_isa (exn_cls e) FileNotFoundError then dk_dirs s !! dir = None else m ≠ Calm)).
  + eapply wp_bind with (Φ := looked (λ _, is_Some (dk_dirs s !! dir)) s).
    * unfold open_record_directory. eapply wp_try with (E := λ e s', s' = s ∧
        (if exn_isa (exn_cls e) FileNotFoundError then dk_dirs s !! dir = None else m ≠ Calm)).
      -- apply (wp_look _ _ (OpenDir dir false) (λ _, is_Some (dk_dirs s !! dir))
           (λ e, if exn_isa (exn_cls e) FileNotFoundError then dk_dirs s !! dir = None else m ≠ Calm)).
         ++ done.
         ++ intros o _ _. cbn [answer]. destruct (dk_dirs s !! dir) as [x|] eqn:Hx.
            { exists (Ok tt). split; [done|by exists x]. }
            by exists not_found.
         ++ intros Hm e He. by rewrite (proj1 (fault_not_missing e He)).
      -- intros e s' HC' [-> He]. destruct (exn_isa (exn_cls e) FileNotFoundError) eqn:Hnf.
         ++ apply wp_raise; [done|]. by rewrite Hnf.
         ++ case_match; apply wp_raise; [done|done|done|]. by rewrite Hnf.
    * intros u s' HC' [-> [x Hx]]. apply wp_ret; [done|]. by rewrite Hx.
  + intros e s' HC' [-> He]. case_match; [|by apply wp_raise]. apply wp_ret; [done|]. by rewrite He.
Qed.

Lemma wp_load L s :
  log_at L s → fits L →
  wp (load turns {| pl_path := dir |}) (λ rs s', log_at L s' ∧ loaded L rs) (λ _ _, m ≠ Calm) s.
Proof.
  intros Hl Hfit. pose proof Hl as [HC Hsh]. unfold load.
  apply wp_with_lock; [done| |done].
  eapply wp_looked_bind; [by apply wp_open_existing|intros opened ->|done].
  destruct (dk_dirs s !! dir) as [x|] eqn:Hx; cbn [is_some].
    + eapply wp_looked_bind with (Ψ := λ rs, ∃ names, names ≡ₚ (map_to_list L).*1 ∧
        Forall2 (row_at L) names rs); [apply wp_close_dir; [done|]|intros rs (names & Hn & Hrs)|done].
      * eapply wp_looked_bind with (Ψ := λ names, names ≡ₚ (map_to_list (now s)).*1);
          [|intros names Hnames|done].
        -- apply wp_look; [done| |done]. intros o Ho _. cbn [answer pl_path]. rewrite Hx. eexists.
           split; [reflexivity|]. rewrite <-(proj1 (now_past_dir _ _ _ Hx)). by apply co_order.
        -- eapply wp_weaken; [apply (wp_load_names L); [done..|]| |by intros ? ? _ ?].
           ++ rewrite py_sorted_perm, Hnames. apply Forall_forall. intros n. by rewrite elem_of_names.
           ++ intros rs s' _ [-> Hrs]. split; [done|]. eexists. split; [|exact Hrs].
              apply (shown_names s); [done|]. by rewrite py_sorted_perm.
      * destruct (in_time_order_loaded _ _ _ Hn Hrs) as (rs' & -> & Hld). by apply wp_ret.
    + apply wp_ret; [done|]. split; [done|].
      assert (L = ∅) as ->.
      { apply map_empty. intros name. destruct (L !! name) as [raw|] eqn:HL; [|done].
        destruct (ho_row _ _ _ Hsh _ _ HL) as [i Hi]. unfold PartialCrash.now in Hi.
        by rewrite Hx, lookup_empty in Hi. }
      split; [|constructor]. exists []. rewrite map_to_list_empty. split; [done|constructor].
Qed.

(** ** Deleting *)

Lemma wp_each_look names (p : pystr → io unit) s :
  C s → (∀ name, name ∈ names → wp (p name) (looked (λ _, True) s) (look_failed s) s) →
  wp (each names p) (looked (λ _, True) s) (look_failed s) s.
Proof.
  intros HC. induction names as [|name names IH]; intros Hp; cbn [each]; [by apply wp_ret|].
  eapply wp_looked_bind; [apply Hp, list_elem_of_here|intros _ _|done].
  apply IH. intros n Hn. by apply Hp, list_elem_of_further.
Qed.

Lemma wp_each_unlink names L s :
  (∀ L name, Q L → Q (delete name L)) → NoDup names → at_log Q L s → Q L →
  (∀ n, n ∈ names ↔ is_Some (now s !! n)) →
  wp (each names (λ name, verified_unlink dir name (is_temporary_name name)))
    (λ _ s', at_log Q ∅ s' ∧ Q ∅) (λ _ _, m ≠ Calm) s.
Proof.
  intros HQd Hnd. revert L s. induction Hnd as [|name names Hn Hnd IH]; intros L s Hal HQ Hnames; cbn [each].
  - assert (L = ∅) as ->; [|by apply wp_ret; [apply Hal|]].
    apply map_empty. intros n. destruct (L !! n) as [raw|] eqn:HL; [|done].
    pose proof (ho_row _ _ _ (al_shows _ _ _ _ Hal) _ _ HL) as [i Hi].
    assert (n ∈ []) as []%elem_of_nil by (apply Hnames; by exists i).
  - destruct (proj1 (Hnames name) (list_elem_of_here _ _)) as [i Hi].
    eapply wp_bind.
    { eapply wp_weaken; [apply (wp_verified_unlink L (delete name L) name _ i)|by intros ? ? _ H; exact H|];
        [done|by apply HQd|done|by right|]. intros e s' _ [[Hm _]|[Hm _]]; [done|by rewrite Hm]. }
    intros _ s' HC' [Hal' Hnow]. apply (IH (delete name L)); [done|by apply HQd|].
    intros n. rewrite Hnow, lookup_delete_is_Some, <-Hnames, elem_of_cons. split.
    + intros H. split; [by intros ->|by right].
    + by intros [Hne [->|?]].
Qed.

Lemma wp_delete_log L s :
  (∀ L name, Q L → Q (delete name L)) → log_at L s → Q L →
  wp (delete_log {| pl_path := dir |}) (λ _, every dir (eq ∅)) (λ _ _, m ≠ Calm) s.
Proof.
  intros HQd Hl HQ. pose proof Hl as [HC Hsh]. unfold delete_log.
  apply wp_with_lock; [done| |done].
  eapply wp_looked_bind; [by apply wp_open_existing|intros opened ->|done].
  destruct (dk_dirs s !! dir) as [x|] eqn:Hx; cbn [is_some].
  - assert (at_log Q L s) as Hal by (split; [done..|by exists x]).
    eapply wp_finally with (Φ := λ _ s', every dir (eq ∅) s' ∧ C s') (E := λ _ _, m ≠ Calm).
    + eapply wp_looked_bind with (Ψ := λ names, names ≡ₚ (map_to_list (now s)).*1);
        [|intros listed Hlisted|done].
      { apply wp_look; [done| |done]. intros o Ho _. cbn [answer pl_path]. rewrite Hx. eexists.
        split; [reflexivity|]. rewrite <-(proj1 (now_past_dir _ _ _ Hx)). by apply co_order. }
      set (names := py_sorted str_leb listed). pose proof (py_sorted_perm str_leb listed) as Hp.
      fold names in Hp. rewrite Hlisted in Hp. clear Hlisted.
      assert (∀ n, n ∈ names ↔ is_Some (now s !! n)) as Hin by (intros n; by rewrite Hp, elem_of_names).
      eapply wp_looked_bind; [apply wp_each_look; [done|intros n Hn]|intros _ _|done].
      { unfold io_require. rewrite (proj2 (orb_true_iff _ _)); [by apply wp_ret|].
        apply Hin in Hn as [i Hi]. destruct (is_temporary_name n) eqn:Ht; [by right|left].
        destruct (holds_entry _ _ _ _ _ Hsh Hi Ht) as (f & _ & _ & HL & _).
        by apply (holds_row _ _ _ _ _ Hsh HL). }
      eapply wp_looked_bind; [apply wp_each_look; [done|intros n Hn]|intros _ _|done].
      { apply Hin in Hn as [i Hi]. destruct (shows_file _ _ _ _ Hal Hi) as (f & Hf & Hpf & Hnm).
        eapply wp_looked_bind; [by apply wp_cleanup_candidate|intros ? _|done]. by apply wp_ret. }
      eapply wp_bind; [apply (wp_each_unlink names L); try done|].
      { rewrite Hp. apply NoDup_fst_map_to_list. }
      intros _ s' HC' [Hal' HQ']. eapply wp_weaken; [by apply (wp_sync ∅ s' (λ _, True))| |].
      * intros _ s2 HC2 ([He _ _] & _ & _). done.
      * by intros e s2 _ [[Hm _] _].
    + intros u s' HC' [He _]. eapply wp_weaken; [by apply (wp_look_Ok _ tt)|by intros ? ? _ [-> _]|].
      by intros e s2 _ [-> Hm].
    + intros e s' HC' Hm. eapply wp_weaken; [by apply (wp_look_Ok _ tt)|done|].
      by intros e' s2 _ [-> _].
  - apply wp_ret; [done|]. destruct HC as [Hf Hall]. split; [done|].
    unfold PartialCrash.now, past in *. rewrite Hx in *. constructor; [|done].
    exists ∅. split; [done|]. split; [intros n i|intros n raw|intros n raw]; by rewrite lookup_empty.
Qed.
End Steps.
