(* ===== verification/PartialDurable.v ===== *)
(** * PartialDurable: the rows of a partial-call log

    The theorems about the log of [PartialLog.v]. Its history is a sequence of
    appends, loads and deletions, each of which may return, raise or be killed
    at any point, and of power losses; the file lock of the log makes the
    operations follow one another. What an append has returned for stays; a load
    returns rows that were appended, whole; and no history leaves a log that
    cannot be appended to and loaded once calls stop failing. *)

From S2P Require Import Prelude Floats Identity Leasing EvalConfigs Reward Plan Aggregate Admission Claims.
From S2P Require Import Sha256 JsonText Frozen PartialRecord LocalFs PartialLog PartialCrash.

Section Histories.
Context `{Pyd : !PydanticText, DText : !FloatText, Strict : !StrictJsonBytes}.
Context `{Fs : !LocalFs, Laws : !LocalFsLaws}.
Variables (dir : pystr) (turns : nat).

Abbreviation log := {| pl_path := dir |}.
Abbreviation rows := (gmap pystr (list Z)).

(** A machine on which the log does not exist yet. *)
Definition initial (s : disk) : Prop := fresh_inodes s ∧ dk_dirs s !! dir = None.

(** One operation of a history that appends records of [P], and a power loss. *)
Inductive log_step (P : PartialCallRecord → Prop) (deletes : bool) (s : disk) : disk → Prop :=
| step_append record o s' :
    P record → runs (append turns log record) s o s' → log_step P deletes s s'
| step_load o s' : runs (load turns log) s o s' → log_step P deletes s s'
| step_delete o s' : deletes = true → runs (delete_log log) s o s' → log_step P deletes s s'
| step_power_loss s' : power_loss s s' → log_step P deletes s s'.

Abbreviation history P deletes := (rtc (log_step P deletes)).

Lemma initial_every (s : disk) (Q : rows → Prop) : initial s → Q ∅ → every dir Q s.
Proof.
  intros [Hf Hd] HQ. split; [done|]. unfold now, past. rewrite Hd. constructor; [|done].
  exists ∅. split; [done|]. split; [intros n i|intros n raw|intros n raw]; by rewrite lookup_empty.
Qed.

Lemma every_log_at Q s : every dir Q s → ∃ L, Q L ∧ log_at dir Q L s.
Proof. intros He. destruct (every_shows _ _ _ He) as (L & HQ & Hs). by exists L. Qed.

Lemma append_spec Q record s o s' :
  every dir Q s → row_reads_back record →
  (∀ L name raw r, Q L → row_of record name raw r → Q (<[name := raw]> L)) →
  runs (append turns log record) s o s' →
  every dir Q s' ∧ (o = Returned tt → ∃ L, Q L ∧ appended dir Q L record s').
Proof.
  intros He Hread HQ Hrun. destruct (every_log_at _ _ He) as (L & HQL & Hl).
  assert (Interrupts ≠ Calm) as Hm by done.
  pose proof (wp_append dir turns Interrupts Q L record HQL (λ n raw r, HQ L n raw r HQL) Hread
    (λ H, False_ind _ (Hm H)) (λ H, False_ind _ (Hm H)) (λ _ _ _ _ H, False_ind _ (Hm H)) s Hl) as Hwp.
  destruct (wp_runs _ _ _ _ _ _ _ Hwp Hrun) as [He' Ho]. split; [done|]. intros ->.
  exists L. exact (conj HQL Ho).
Qed.

Lemma load_spec Q s o s' :
  every dir Q s → runs (load turns log) s o s' →
  every dir Q s' ∧ (∀ rs, o = Returned rs → ∃ L, Q L ∧ loaded L rs).
Proof.
  intros He Hrun. destruct (every_log_at _ _ He) as (L & HQL & Hl).
  assert (Interrupts ≠ Calm) as Hm by done.
  pose proof (wp_load dir turns Interrupts Q L s Hl (λ H, False_ind _ (Hm H))) as Hwp.
  destruct (wp_runs _ _ _ _ _ _ _ Hwp Hrun) as [He' Ho]. split; [done|]. intros rs ->.
  exists L. by destruct Ho.
Qed.

(** What every history keeps. *)
Lemma history_every P deletes Q s s' :
  (∀ record, P record → row_reads_back record) →
  (∀ record L name raw r, P record → Q L → row_of record name raw r → Q (<[name := raw]> L)) →
  (deletes = true → ∀ L name, Q L → Q (delete name L)) →
  history P deletes s s' → every dir Q s → every dir Q s'.
Proof.
  intros HP HQ Hdel Hh He. induction Hh as [s|s s1 s' Hstep _ IH]; [done|]. apply IH. clear IH.
  destruct Hstep as [record o s1 Hr Hrun|o s1 Hrun|o s1 Hd Hrun|s1 Hloss].
  - eapply append_spec; eauto.
  - eapply load_spec; eauto.
  - destruct (every_log_at _ _ He) as (L & HQL & Hl).
    pose proof (wp_delete_log dir Interrupts Q L s (Hdel Hd) Hl HQL) as Hwp.
    by destruct (wp_runs _ _ _ _ _ _ _ Hwp Hrun).
  - by eapply every_power_loss.
Qed.

(** The row was written for a record of [P]. *)
Definition written (P : PartialCallRecord → Prop) (name : pystr) (raw : list Z) : Prop :=
  ∃ record r, P record ∧ row_of record name raw r.

Definition all_written (P : PartialCallRecord → Prop) (L : rows) : Prop :=
  ∀ name raw, L !! name = Some raw → written P name raw.

Lemma history_written P deletes s s' :
  (∀ record, P record → row_reads_back record) →
  initial s → history P deletes s s' → every dir (all_written P) s'.
Proof.
  intros HP Hi Hh. eapply history_every; [exact HP| | |exact Hh|].
  - intros record L name raw r Hr HL Hrow name' raw' [[<- <-]|[_ H]]%lookup_insert_Some; [|by apply HL].
    by exists record, r.
  - intros _ L name HL n raw [_ H]%lookup_delete_Some. by apply HL.
  - apply initial_every; [done|]. intros n raw. by rewrite lookup_empty.
Qed.

Lemma loaded_row L rs name raw r :
  loaded L rs → L !! name = Some raw → entry_record name raw = Ok r → r ∈ rs.
Proof.
  intros [(names & Hn & Hrs) _] HL Hr.
  assert (name ∈ names) as Hin by (rewrite Hn; apply elem_of_names; by exists raw).
  apply list_elem_of_lookup in Hin as [i Hi].
  destruct (Forall2_lookup_l _ _ _ _ _ Hrs Hi) as (r' & Hr' & raw' & HL' & He).
  apply list_elem_of_lookup. exists i. congruence.
Qed.

(** The name [record]'s row has, and a row of [P] there. *)
Definition keeps (P : PartialCallRecord → Prop) (record : PartialCallRecord) (L : rows) : Prop :=
  ∃ name raw, entry_name record = Ok name ∧ L !! name = Some raw ∧ written P name raw.

Lemma row_of_key record name raw r : row_of record name raw r → key r = key record.
Proof.
  intros (_ & Hs & _ & _). unfold stamped_from in Hs.
  destruct (pc_at record); [congruence|]. by destruct Hs as (d & _ & ->).
Qed.

Lemma row_of_name record name raw r : row_of record name raw r → entry_name record = Ok name.
Proof. intros Hrow. rewrite <-(entry_name_key _ _ (row_of_key _ _ _ _ Hrow)). apply Hrow. Qed.

(** C3. What an append has returned for stays until the log is deleted: whatever is
    appended, loaded, killed or lost to the power afterwards, a load that
    returns has the record's row, or one appended later under the same key. *)
Theorem append_durable P record s0 s1 s2 s3 s4 rs :
  (∀ record', P record' → row_reads_back record') → row_reads_back record →
  initial s0 → history row_reads_back true s0 s1 →
  runs (append turns log record) s1 (Returned tt) s2 →
  history P false s2 s3 → runs (load turns log) s3 (Returned rs) s4 →
  ∃ record' name raw r, (record' = record ∨ P record') ∧ entry_name record = Ok name ∧
    row_of record' name raw r ∧ normal_record r ∈ rs.
Proof.
  intros HP Hread Hinit H1 Happend H2 Hload.
  set (P' := λ record', record' = record ∨ P record').
  assert (∀ record', P' record' → row_reads_back record') as HP' by (intros record' [->|?]; auto).
  apply (history_every row_reads_back true (λ _, True)) in H1; [|done..|by apply initial_every].
  destruct (append_spec (λ _, True) record s1 (Returned tt) s2 H1 Hread) as [_ Happ]; [done|exact Happend|].
  destruct (Happ eq_refl) as (L & _ & _ & name & raw & r & Hrow & He).
  assert (every dir (keeps P' record) s2) as Hk.
  { eapply every_weaken; [exact He|]. intros _ <-. exists name, raw.
    rewrite lookup_insert_eq. split_and!; [by eapply row_of_name|done|]. exists record, r. split; [by left|done]. }
  apply (history_every P false (keeps P' record)) in H2; [|done| |done|done].
  - destruct (load_spec _ _ _ _ H2 Hload) as [_ Hrs].
    destruct (Hrs rs eq_refl) as (M & (name' & raw' & Hname & HM & record' & r' & Hr' & Hrow') & Hld).
    exists record', name', raw', r'. split_and!; [done..|].
    eapply loaded_row; [done|done|]. by apply (row_entry record'); [auto|].
  - intros record' M name' raw' r' Hr' (n & raw0 & Hn & HM & Hw) Hrow'. exists n.
    destruct (decide (n = name')) as [->|Hne].
    + exists raw'. rewrite lookup_insert_eq. split_and!; [done..|]. exists record', r'. split; [by right|done].
    + exists raw0. by rewrite lookup_insert_ne.
Qed.

(** C6. A load returns only whole rows, each of a record that was appended, at most
    one under a name, in the order of their times. *)
Theorem loads_are_whole P s0 s1 s2 rs :
  (∀ record, P record → row_reads_back record) →
  initial s0 → history P true s0 s1 → runs (load turns log) s1 (Returned rs) s2 →
  Forall (λ r', ∃ record name raw r, P record ∧ row_of record name raw r ∧ r' = normal_record r) rs ∧
  NoDup (entry_name <$> rs) ∧
  StronglySorted (λ r r', str_leb (default [] (pc_at r)) (default [] (pc_at r')) = true) rs.
Proof.
  intros HP Hinit Hh Hload. pose proof (history_written P true s0 s1 HP Hinit Hh) as Hw.
  destruct (load_spec _ _ _ _ Hw Hload) as [_ Hrs].
  destruct (Hrs rs eq_refl) as (L & HL & [(names & Hn & Hrows) Hord]). split_and!; [..|done].
  - apply Forall_forall. intros r' Hin. apply list_elem_of_lookup in Hin as [i Hi].
    destruct (Forall2_lookup_r _ _ _ _ _ Hrows Hi) as (name & _ & raw & Hraw & He).
    destruct (HL _ _ Hraw) as (record & r & Hr & Hrow). exists record, name, raw, r. split_and!; [done..|].
    rewrite (row_entry record name raw r) in He by auto. congruence.
  - assert (entry_name <$> rs = Ok <$> names) as ->.
    { clear -Hrows. induction Hrows as [|name r names rs (raw & _ & He) _ IH]; [done|].
      rewrite !fmap_cons, IH. by rewrite (entry_record_name _ _ _ He). }
    apply NoDup_fmap_2; [by intros ? ? [=]|]. rewrite Hn. apply NoDup_fst_map_to_list.
Qed.

(** C36. However the log has been interrupted, once calls stop failing an append of
    a record that can be written and a load both return. *)
Theorem log_recovers P record s0 s1 :
  (∀ record', P record' → row_reads_back record') →
  (∀ record' name raw r, P record' → row_of record' name raw r → length raw < turns)%nat →
  (∀ a b name, P a → P b → entry_name a = Ok name → entry_name b = Ok name → key a = key b) →
  initial s0 → history P true s0 s1 → P record → writable record →
  returns (append turns log record) s1 ∧ returns (load turns log) s1 ∧ returns (delete_log log) s1.
Proof.
  intros HP Hfit Hkey Hinit Hh Hr Hw. pose proof (history_written P true s0 s1 HP Hinit Hh) as He.
  destruct (every_log_at _ _ He) as (L & HL & Hl).
  assert (fits turns Calm L) as HfL.
  { intros _ name raw Hraw. destruct (HL _ _ Hraw) as (record' & r & Hr' & Hrow). by eapply Hfit. }
  split_and!.
  - eapply wp_returns; [eapply (wp_append dir turns Calm (all_written P) L record)|by intros e s' H; apply H].
    + done.
    + intros name raw r Hrow name' raw' [[<- <-]|[_ H]]%lookup_insert_Some; [|by apply HL]. by exists record, r.
    + auto.
    + done.
    + intros _ name raw r Hrow. by eapply Hfit.
    + intros name raw r Hrow _ raw' r' Hraw' Hent. destruct (HL _ _ Hraw') as (record' & r0 & Hr' & Hrow').
      rewrite (row_entry record' name raw' r0) in Hent by auto. injection Hent as <-. rewrite normal_record_key.
      rewrite (row_of_key _ _ _ _ Hrow), (row_of_key _ _ _ _ Hrow').
      eapply Hkey; [done|done|by eapply row_of_name..].
    + done.
  - eapply wp_returns; [by eapply (wp_load dir turns Calm (all_written P) L)|]. by intros e s' H; apply H.
  - eapply wp_returns; [eapply (wp_delete_log dir Calm (all_written P) L); try done|by intros e s' H; apply H].
    intros M name HM n raw [_ H]%lookup_delete_Some. by apply HM.
Qed.

(** C22. When calls may fail but are not interrupted, an append that raises while it
    writes its row leaves the log as it was, or reports that it could not. *)
Theorem failed_append_rolls_back `{Fail : !LocalFsFailures} P record name raw r L s0 s1 e s2 :
  (∀ record', P record' → row_reads_back record') →
  initial s0 → history P true s0 s1 → is_Some (dk_dirs s1 !! dir) → shows dir s1 L →
  P record → row_of record name raw r →
  runs (append_row turns dir r raw) s1 (Raised e) s2 →
  shows dir s2 L ∨ exn_msg e = ROLLBACK_FAILED ∧ shows dir s2 (<[name := raw]> L).
Proof.
  intros HP Hinit Hh Hdir Hsh Hr Hrow Hrun. pose proof (history_written P true s0 s1 HP Hinit Hh) as He.
  assert (Failures ≠ Calm) as Hm by done. set (Q := all_written P).
  assert (∀ M n raw' r', Q M → row_of record n raw' r' → Q (<[n := raw']> M)) as HQ.
  { intros M n raw' r' HM Hrow' n' w [[<- <-]|[_ H]]%lookup_insert_Some; [|by apply HM]. by exists record, r'. }
  assert (Q L) as HL.
  { destruct (every_shows _ _ _ He) as (L0 & HL0 & Hs0). by rewrite (holds_unique _ _ _ _ Hsh Hs0). }
  pose proof (wp_append_row dir turns Failures Q L record HL (λ n w r', HQ L n w r' HL) (HP _ Hr)
    (λ H, False_ind _ (Hm H)) (λ H, False_ind _ (Hm H)) (λ _ _ _ _ H, False_ind _ (Hm H)) r name raw s1
    Hrow {| al_every := He; al_shows := Hsh; al_dir := Hdir |}) as Hwp.
  destruct (wp_runs_in Failures _ _ _ _ _ _ _ (@lf_failures _ _) Hwp Hrun)
    as [_ (M & HM & [_ [_ HsM _]] & Hroll)].
  destruct HM as [-> | ->]; [by left|].
  destruct (Hroll eq_refl) as [E|E]; [left; by rewrite <-E|right; by split].
Qed.
End Histories.

(** ** A concrete log *)
Module Example.

#[export] Instance no_text_floats : PydanticText := {| float_of_str _ := None |}.

Definition record_of (unit : pystr) : PartialCallRecord :=
  {| pc_phase := $"eval"; pc_task_id := $"task"; pc_unit := unit; pc_seed_index := 0;
     pc_request_hash := replicate 64 97%Z; pc_redrive_pending := false; pc_score := None;
     pc_failed := false; pc_failure_code := []; pc_prompt_tokens := Some 7%Z;
     pc_completion_tokens := None; pc_total_tokens := None; pc_reasoning_tokens := None;
     pc_latency_s := None; pc_output_text := Some $"out"; pc_raw_response := $"raw";
     pc_observation_payload := PDict [($"b", PInt 1); ($"a", PNone)]; pc_finish_reason := None;
     pc_provider_error := None; pc_split_role := None; pc_at := Some $"2024-05-06T07:08:09.000010+00:00";
     pc_schema_name := PARTIAL_SCHEMA; pc_cache_hit := false; pc_cache_source_phase := None;
     pc_cache_source_unit := None; pc_cache_source_call_id := None; pc_cache_source_at := None |}.

Definition kept : PartialCallRecord := record_of $"kept".
Definition other : PartialCallRecord := record_of $"other".

#[local] Instance zero_text : FloatText := {| float_of_text _ := raise ValueError ""; float_repr _ := [] |}.

(** dr-serialize, for the two rows: it reads the line each is written as. *)
Definition body_of (record : PartialCallRecord) : list Z :=
  match canonical_json_bytes (PDict (as_dict record)) with Ok body => body | Err _ => [] end.
Definition frame (record : PartialCallRecord) : pyval := frame_of record (hexdigest (body_of record)).
Definition line (record : PartialCallRecord) : list Z :=
  match canonical_json_bytes (frame record) with Ok bytes => bytes ++ [10%Z] | Err _ => [] end.

#[local] Instance table_decoder : StrictJsonBytes := {|
  decode_strict_json_bytes bytes _ _ :=
    if decide (bytes = line kept) then Ok (json_normal (frame kept))
    else if decide (bytes = line other) then Ok (json_normal (frame other))
    else raise StrictJsonDecodeError "" |}.

#[local] Instance fs : LocalFs := machine.

Definition machine_at_start : disk :=
  {| dk_inodes := ∅; dk_next := 0; dk_dirs := ∅; dk_euid := 1000 |}.

(** Calls that succeed, the i-th with its own token. *)
Definition calm (i : nat) : choice :=
  {| ch_fault := NoFault; ch_count := 4096; ch_order := id;
     ch_token := replicate 31 48%Z ++ [(97 + Z.of_nat i mod 6)%Z];
     ch_now := {| dt_year := 2024; dt_month := 1; dt_day := 1; dt_hour := 0; dt_minute := 0;
                  dt_second := 0; dt_microsecond := 0 |};
     ch_stamp := Z.of_nat i |}.

Definition log : PartialLog := {| pl_path := $"log" |}.
Definition turns : nat := 1000.

Definition run_of {A} (calls : nat) (p : io A) (s : disk) : outcome A * disk :=
  execute (calm <$> seq 0 calls) p s.


(** A power loss that takes the bytes that were not synced. *)
Definition power_cut (s : disk) : disk :=
  {| dk_inodes := (λ f, {| in_data := if in_synced f then in_data f else []; in_synced := in_synced f;
                           in_attrs := in_attrs f |}) <$> dk_inodes s;
     dk_next := dk_next s;
     dk_dirs := (λ x, {| dir_now := dir_now x; dir_past := [] |}) <$> dk_dirs s;
     dk_euid := dk_euid s |}.

Lemma power_cut_loss s : power_loss s (power_cut s).
Proof.
  split; simpl; try done.
  - intros d. rewrite lookup_fmap. destruct (dk_dirs s !! d); simpl; [|done]. split; [by left|done].
  - intros i f Hf. rewrite lookup_fmap, Hf. eexists. split; [done|]. split; [done|].
    simpl. by intros ->.
  - intros i Hi. by rewrite lookup_fmap, Hi.
Qed.

(** The history: an append of [other] is killed while it writes, the power goes,
    [kept] is appended, the power goes again, [other] is appended. *)
Definition after_kill : disk := (run_of 6 (append turns log other) machine_at_start).2.
Definition before_append : disk := power_cut after_kill.
Definition after_append : disk := (run_of 40 (append turns log kept) before_append).2.
Definition after_power_loss : disk := power_cut after_append.
Definition at_the_end : disk := (run_of 40 (append turns log other) after_power_loss).2.
Definition load_run : outcome (list PartialCallRecord) * disk := run_of 40 (load turns log) at_the_end.

Definition appendable (record : PartialCallRecord) : Prop := record = kept ∨ record = other.

Lemma row_of_stamped record name raw r :
  appendable record → row_of record name raw r → r = record.
Proof. by intros [-> | ->] (_ & Hs & _). Qed.

Lemma appendable_reads_back record : appendable record → row_reads_back record.
Proof.
  intros Hr name raw r Hrow. rewrite (row_of_stamped _ _ _ _ Hr Hrow). intros body Hb bytes Hf n.
  assert (frame_of record (hexdigest body) = frame record) as E by (unfold frame, body_of; by rewrite Hb).
  rewrite E in *. assert (bytes ++ [10%Z] = line record) as -> by (unfold line; by rewrite Hf).
  clear -Hr. unfold decode_strict_json_bytes, table_decoder.
  destruct Hr as [-> | ->]; [by rewrite decide_True|].
  rewrite decide_False, decide_True; [done..|].
  apply (bool_decide_eq_false _). vm_compute. reflexivity.
Qed.

Lemma appendable_fits record name raw r :
  appendable record → row_of record name raw r → (length raw < turns)%nat.
Proof.
  intros Hr Hrow. pose proof (row_of_stamped _ _ _ _ Hr Hrow) as ->. destruct Hrow as (_ & _ & He & _).
  assert (match encode_frame record with Ok b => (length b <? turns)%nat | Err _ => false end = true) as H.
  { destruct Hr as [-> | ->]; vm_compute; reflexivity. }
  rewrite He in H. by apply Nat.ltb_lt.
Qed.

Lemma appendable_keys a b name :
  appendable a → appendable b → entry_name a = Ok name → entry_name b = Ok name → key a = key b.
Proof.
  assert (bool_decide (entry_name kept = entry_name other) = false) as H%bool_decide_eq_false_1.
  { vm_compute. reflexivity. }
  intros [-> | ->] [-> | ->]; congruence.
Qed.

Lemma kept_writable : writable kept.
Proof. split; [vm_compute; reflexivity|]. intros r ->. split; vm_compute; reflexivity. Qed.

Lemma calm_choice_ok i : choice_ok (calm i).
Proof.
  split; simpl; [done|done| |vm_compute; reflexivity].
  split; [done|]. change (is_hex (97 + Z.of_nat i mod 6) && true = true).
  assert (0 <= Z.of_nat i `mod` 6 < 6)%Z as Hd by (apply Z.mod_pos_bound; lia).
  unfold is_hex. rewrite andb_true_r. apply orb_true_iff. right. apply andb_true_iff.
  split; apply Z.leb_le; lia.
Qed.

Lemma calm_ok calls : Forall choice_ok (calm <$> seq 0 calls).
Proof. apply Forall_fmap, Forall_forall. intros i _. apply calm_choice_ok. Qed.

Lemma run_of_runs {A} calls (p : io A) s o s' :
  s' = (run_of calls p s).2 → (run_of calls p s).1 = o → runs p s o s'.
Proof. intros -> <-. apply execute_runs, calm_ok. Qed.

(** The histories before and after the append of [kept]. *)
Lemma loss_before : power_loss after_kill before_append.
Proof. exact (power_cut_loss after_kill). Qed.

Lemma loss_after : power_loss after_append after_power_loss.
Proof. exact (power_cut_loss after_append). Qed.

Lemma append_killed : runs (append turns log other) machine_at_start Killed after_kill.
Proof. apply (run_of_runs 6); [reflexivity|vm_compute; reflexivity]. Qed.

Lemma append_kept : runs (append turns log kept) before_append (Returned tt) after_append.
Proof. apply (run_of_runs 40); [reflexivity|vm_compute; reflexivity]. Qed.

Lemma append_other : runs (append turns log other) after_power_loss (Returned tt) at_the_end.
Proof. apply (run_of_runs 40); [reflexivity|vm_compute; reflexivity]. Qed.

Lemma history_before : rtc (log_step $"log" turns appendable true) machine_at_start before_append.
Proof.
  eapply rtc_l; [|apply rtc_once, step_power_loss, loss_before].
  apply (step_append _ _ _ _ _ other Killed); [by right|]. exact append_killed.
Qed.

Lemma history_after P :
  P other → rtc (log_step $"log" turns P false) after_append at_the_end.
Proof.
  intros HP. eapply rtc_l; [apply step_power_loss, loss_after|]. apply rtc_once.
  apply (step_append _ _ _ _ _ other (Returned tt)); [exact HP|]. exact append_other.
Qed.

Lemma log_step_weaken (P P' : PartialCallRecord → Prop) (b b' : bool) s s' :
  (∀ r, P r → P' r) → (b = true → b' = true) →
  rtc (log_step $"log" turns P b) s s' → rtc (log_step $"log" turns P' b') s s'.
Proof.
  intros HP Hb. induction 1 as [s|s s1 s' Hs _ IH]; [by apply rtc_refl|]. eapply rtc_l; [|exact IH].
  destruct Hs; [eapply step_append; eauto|by eapply step_load|eapply step_delete; eauto|by apply step_power_loss].
Qed.

Lemma starts_empty : initial $"log" machine_at_start.
Proof. by split. Qed.

Definition returned {A} (o : outcome (list A)) : list A :=
  match o with Returned l => l | _ => [] end.
Definition loaded_rows : list PartialCallRecord := returned load_run.1.

Lemma load_run_runs : runs (load turns log) at_the_end (Returned loaded_rows) load_run.2.
Proof. apply (run_of_runs 40); [reflexivity|vm_compute; reflexivity]. Qed.

Lemma append_durable_witness :
  ∃ record' name raw r, (record' = kept ∨ record' = other) ∧ entry_name kept = Ok name ∧
    row_of record' name raw r ∧ normal_record r ∈ loaded_rows.
Proof.
  apply (append_durable $"log" turns (λ r, r = other) kept machine_at_start before_append after_append
           at_the_end load_run.2 (Laws := machine_laws)).
  - intros ? ->. apply appendable_reads_back. by right.
  - apply appendable_reads_back. by left.
  - apply starts_empty.
  - eapply log_step_weaken; [apply appendable_reads_back|done|apply history_before].
  - exact append_kept.
  - by apply history_after.
  - apply load_run_runs.
Defined.

Lemma whole_history : rtc (log_step $"log" turns appendable true) machine_at_start at_the_end.
Proof.
  etrans; [apply history_before|]. eapply rtc_l; [|eapply (log_step_weaken (λ r, r = other) _ false);
    [|done|by apply history_after]].
  - apply (step_append _ _ _ _ _ kept (Returned tt)); [by left|]. exact append_kept.
  - intros ? ->. by right.
Qed.

Lemma loads_are_whole_witness :
  length loaded_rows = 2%nat ∧
  Forall (λ r', ∃ record name raw r, appendable record ∧ row_of record name raw r ∧ r' = normal_record r)
    loaded_rows ∧
  NoDup (entry_name <$> loaded_rows) ∧
  StronglySorted (λ r r', str_leb (default [] (pc_at r)) (default [] (pc_at r')) = true) loaded_rows.
Proof.
  split; [vm_compute; reflexivity|].
  apply (loads_are_whole $"log" turns appendable machine_at_start at_the_end load_run.2
           (Laws := machine_laws)).
  - apply appendable_reads_back.
  - apply starts_empty.
  - apply whole_history.
  - apply load_run_runs.
Defined.

Lemma log_recovers_witness :
  returns (append turns log kept) before_append ∧ returns (load turns log) before_append ∧
  returns (delete_log log) before_append.
Proof.
  apply (log_recovers $"log" turns appendable kept machine_at_start before_append (Laws := machine_laws)).
  - apply appendable_reads_back.
  - apply appendable_fits.
  - apply appendable_keys.
  - apply starts_empty.
  - apply history_before.
  - by left.
  - apply kept_writable.
Defined.

(** The row of [other] is renamed, then syncing the directory fails. *)
Definition syncing_fails (i : nat) : choice :=
  {| ch_fault := if (i =? 8)%nat then Fails (Raise OSError "") else NoFault;
     ch_count := ch_count (calm i); ch_order := ch_order (calm i); ch_token := ch_token (calm i);
     ch_now := ch_now (calm i); ch_stamp := ch_stamp (calm i) |}.

Definition name_of (record : PartialCallRecord) : pystr :=
  match entry_name record with Ok name => name | Err _ => [] end.

Lemma steady_runs {A} (f : nat → choice) calls (p : io A) s o s' :
  (∀ i, choice_ok (f i) ∧ ∀ msg, ch_fault (f i) ≠ InterruptedAfter msg) →
  s' = (execute (f <$> seq 0 calls) p s).2 → (execute (f <$> seq 0 calls) p s).1 = o →
  @runs steady_machine A p s o s'.
Proof.
  intros Hf -> <-. apply execute_steady. apply Forall_fmap, Forall_forall. intros i _. apply Hf.
Qed.

Lemma calm_steady i : choice_ok (calm i) ∧ ∀ msg, ch_fault (calm i) ≠ InterruptedAfter msg.
Proof. split; [apply calm_choice_ok|done]. Qed.

Lemma syncing_fails_steady i :
  choice_ok (syncing_fails i) ∧ ∀ msg, ch_fault (syncing_fails i) ≠ InterruptedAfter msg.
Proof.
  destruct (calm_steady i) as [[_ Ho Ht Hn] _]. unfold syncing_fails. split; [split|]; simpl; try done.
  - intros e. case_match; [|done]. by intros [= <-].
  - intros msg. by case_match.
Qed.

Lemma row_of_other : row_of other (name_of other) (line other) other.
Proof. split_and!; [vm_compute; reflexivity|reflexivity|vm_compute; reflexivity|vm_compute; reflexivity]. Qed.

(** A log with the row of [kept], and the failed append of [other]. *)
Definition kept_alone : disk := (run_of 40 (append turns log kept) machine_at_start).2.
Definition rolled_back : outcome () * disk :=
  execute (syncing_fails <$> seq 0 60) (append_row turns $"log" other (line other)) kept_alone.

Lemma history_kept :
  rtc (log_step (Fs := steady_machine) $"log" turns appendable true) machine_at_start kept_alone.
Proof.
  apply rtc_once. apply (step_append _ _ _ _ _ kept (Returned tt)); [by left|].
  apply (steady_runs calm 40); [apply calm_steady|reflexivity|vm_compute; reflexivity].
Qed.

Lemma kept_alone_shows : ∃ L, shows $"log" kept_alone L.
Proof.
  destruct (every_shows _ _ _ (history_written (Fs := steady_machine) (Laws := steady_machine_laws)
    $"log" turns appendable true _ _ appendable_reads_back starts_empty history_kept)) as (L & _ & HL).
  by exists L.
Qed.

Lemma failed_append_rolls_back_witness :
  ∃ L, shows $"log" kept_alone L ∧
    (shows $"log" rolled_back.2 L ∨
     exn_msg (Raise OSError "") = ROLLBACK_FAILED ∧
     shows $"log" rolled_back.2 (<[name_of other := line other]> L)).
Proof.
  destruct kept_alone_shows as (L & HL). exists L. split; [exact HL|].
  apply (failed_append_rolls_back $"log" turns (Laws := steady_machine_laws)
           (Fail := steady_machine_failures) appendable other (name_of other) (line other) other L
           machine_at_start kept_alone).
  - apply appendable_reads_back.
  - apply starts_empty.
  - apply history_kept.
  - apply (bool_decide_eq_true _). vm_compute. reflexivity.
  - exact HL.
  - by right.
  - apply row_of_other.
  - apply (steady_runs syncing_fails 60); [apply syncing_fails_steady|reflexivity|vm_compute; reflexivity].
Defined.
End Example.
