(* ===== verification/ToolStore.v ===== *)
(** * The tool call store

    Models [ToolCallStore] of [src/whetstone/optim/tools/facade.py]: the store
    joins the durable object store, the admission ledger and the effect lease
    authority. Its operations persist a call's records, decide and complete
    calls, and load the result of a decision. The ledger is any
    [AdmissionBackend]; the theorems are about the in-memory one. *)

From S2P Require Import Prelude Floats Identity Frozen Leasing EvalConfigs Reward Tools Admission Process.

(** The three durable states and the calls the evaluator was given so far. *)
Record World `{!DrObjectStore} (SA SL : Type) := {
  w_store : ostate;
  w_ledger : SA;
  w_leases : SL;
  w_evaluations : list ToolCall;
}.
Arguments w_store {_ _ _} _.
Arguments w_ledger {_ _ _} _.
Arguments w_leases {_ _ _} _.
Arguments w_evaluations {_ _ _} _.

Section ToolStore.
Context `{DSer : !DrSerialize, DSto : !DrStore, DOs : !DrObjectStore, DLease : !DrLease}.
Context {SA SL L : Type} (backend : AdmissionBackend SA) (authority : LeaseAuthority SL L).

(** [ToolResult.model_validate] of a stored record and the decoding of escapes
    in a lease's failure texts. *)
Variable parse_result : pyval → result ToolResult.
Variable unicode_name : pystr → option Z.

Abbreviation world := (World SA SL).

Definition on_ledger {A} (m : stm SA A) : stm world A := λ w,
  let '(x, s) := m (w_ledger w) in
  (x, {| w_store := w_store w; w_ledger := s; w_leases := w_leases w;
         w_evaluations := w_evaluations w |}).
Definition on_leases {A} (m : stm SL A) : stm world A := λ w,
  let '(x, s) := m (w_leases w) in
  (x, {| w_store := w_store w; w_ledger := w_ledger w; w_leases := s;
         w_evaluations := w_evaluations w |}).
Definition on_store {A} (m : stm ostate A) : stm world A := λ w,
  let '(x, s) := m (w_store w) in
  (x, {| w_store := s; w_ledger := w_ledger w; w_leases := w_leases w;
         w_evaluations := w_evaluations w |}).

(** ** Persisting records *)

Definition put_exact (schema : pystr) (content : pyval) : stm world TypedRef :=
  expected ← lift (typed_ref_for_record schema content);
  reference ← on_store (λ s, store_put s schema content);
  persisted ← lift (TypedRef_new (PStr (or_schema reference)) (PStr (or_content_hash reference)));
  lift (require (bool_decide (persisted = expected)) ValueError
    "persisted ref failed validation") ;;
  mret persisted.

(** [if self._put_exact(schema, content) != expected: raise]. *)
Definition put_as (schema : pystr) (content : pyval) (expected : TypedRef) : stm world unit :=
  persisted ← put_exact schema content;
  lift (require (bool_decide (persisted = expected)) ValueError
    "persisted ref failed validation").

Definition persist_call_chain (call : ToolCall) (config : ToolConfig) : stm world ToolCallRef :=
  validated_config ← lift (ToolConfig_model_validate config);
  validated_call ← lift (ToolCall_model_validate call);
  lift (capacity_scope_key (tcall_capacity_binding validated_call)) ;;
  config_ref ← lift (tool_config_reference validated_config);
  lift (require (bool_decide (tcall_tool_config validated_call = config_ref)) ValueError
    "Tool Call must cite the exact supplied Tool Config") ;;
  let definition := tc_definition (tcr_record config_ref) in
  put_as TOOL_DEFINITION_SCHEMA (ToolDefinition_record_content (tdr_record definition))
    (tdr_record_ref definition) ;;
  put_as TOOL_CONFIG_SCHEMA (ToolConfig_record_content validated_config)
    (tcr_record_ref config_ref) ;;
  call_ref ← lift (tool_call_reference validated_call);
  put_as TOOL_CALL_SCHEMA (ToolCall_record_content validated_call)
    (tcallr_record_ref call_ref) ;;
  mret call_ref.

(** [ToolResult.model_validate(result.model_dump(mode="json"))]: the nested
    records' validators, then its own. *)
Definition ToolResult_model_validate (result : ToolResult) : Prelude.result ToolResult :=
  ToolCallRef_model_validate (res_call result) ;;
  match res_reward result with
  | Some reward => Reward_validate (rwr_record reward) ;;
                   RewardRef_new (rwr_record reward) (rwr_record_ref reward) ;; Ok tt
  | None => Ok tt
  end ;;
  ToolResult_validate result.

Definition persist_result (result : ToolResult) : stm world TypedRef :=
  validated ← lift (ToolResult_model_validate result);
  match res_reward validated with
  | Some reward => put_as REWARD_SCHEMA (Reward_record_content (rwr_record reward))
                     (rwr_record_ref reward)
  | None => mret tt
  end ;;
  expected ← lift (tool_result_reference validated);
  persisted ← put_exact TOOL_RESULT_SCHEMA (ToolResult_record_content validated);
  lift (require (bool_decide (persisted = resr_record_ref expected)) ValueError
    "persisted Tool Result ref failed validation") ;;
  mret persisted.

(** ** Decisions *)

Definition get_entry (call : ToolCall) : stm world (option ToolCallStoreEntry) :=
  validated ← lift (ToolCall_model_validate call);
  lift (capacity_scope_key (tcall_capacity_binding validated)) ;;
  existing ← on_ledger (ab_get SA backend (ToolCall_store_namespace_key validated)
                          (tcall_call_id validated));
  match existing with
  | Some entry =>
      reference ← lift (tool_call_reference validated);
      same_tool_call ← lift (ToolCallRef_eq (sce_tool_call entry) reference);
      lift (require same_tool_call ToolCallStoreConflictError
        "the existing key cites a different exact Tool Call") ;;
      mret (Some entry)
  | None => mret None
  end.

Definition find_entry (store_namespace_key call_id : pystr) :
    stm world (option ToolCallStoreEntry) :=
  on_ledger (ab_get SA backend store_namespace_key call_id).

(** [ToolCallStoreEntry(...)] of a call, with what its state adds. *)
Definition new_entry (call_ref : ToolCallRef) (config_ref : ToolConfigRef)
    (state : ToolCallState) (ordinal : option Z) (refusal : option ToolRefusal)
    (tool_result_ref : option TypedRef) (effect_terminal : option EffectTerminal) :
    result ToolCallStoreEntry :=
  let record := tcallr_record call_ref in
  scope_id ← ToolCall_capacity_scope_id record;
  entry_validate
    {| sce_tool_call := call_ref; sce_tool_config := config_ref;
       sce_store_namespace_key := ToolCall_store_namespace_key record;
       sce_capacity_scope := ToolCall_capacity_scope record;
       sce_capacity_scope_id := scope_id; sce_state := state;
       sce_capacity_debit_ordinal := ordinal; sce_refusal := refusal;
       sce_tool_result_ref := tool_result_ref; sce_effect_terminal := effect_terminal |}.

(** [ToolResult(call=call_ref, refusal=refusal)]. *)
Definition refused_result (call_ref : ToolCallRef) (refusal : ToolRefusal) :
    result ToolResult :=
  ToolResult_validate
    {| res_call := call_ref; res_output := None; res_refusal := Some refusal;
       res_terminal_failure := None; res_evaluation_evidence_refs := []; res_reward := None;
       res_provenance_note := None; res_provenance_ordinal := None |}.

Definition capacity_refusal (config : ToolConfig) : ToolRefusal :=
  let n := int_text (tcap_max_accepted_calls (tc_capacity config)) in
  {| tr_refusal_class := CAPACITY;
     tr_reason := $"Tool Capacity exhausted: " ++ n ++ $"/" ++ n ++ $" accepted calls consumed" |}.

Definition admit_call (call : ToolCall) (config : ToolConfig) : stm world ToolCallStoreEntry :=
  call_ref ← persist_call_chain call config;
  config_ref ← lift (tool_config_reference config);
  accepted ← lift (new_entry call_ref config_ref ACCEPTED (Some 1%Z) None None None);
  let refusal := capacity_refusal config in
  refused_result ← lift (refused_result call_ref refusal);
  refused_ref ← persist_result refused_result;
  refused ← lift (new_entry call_ref config_ref REFUSED None (Some refusal) (Some refused_ref) None);
  on_ledger (authority_admit backend accepted refused
               (tcap_max_accepted_calls (tc_capacity config))).

Definition refuse_call (call : ToolCall) (config : ToolConfig) (refusal : ToolRefusal) :
    stm world ToolCallStoreEntry :=
  lift (require (negb (bool_decide (tr_refusal_class refusal = CAPACITY))) ValueError
    "capacity refusal is owned by admission") ;;
  call_ref ← persist_call_chain call config;
  result ← lift (refused_result call_ref refusal);
  result_ref ← persist_result result;
  entry ← lift (new_entry call_ref (tcall_tool_config (tcallr_record call_ref)) REFUSED None
                  (Some refusal) (Some result_ref) None);
  on_ledger (authority_refuse backend entry).

(** ** Completion and loading *)

Definition validate_result_authority (result : ToolResult) (entry : ToolCallStoreEntry) :
    stm world unit :=
  lift (require (negb (is_some (res_refusal result))) ValueError
    "a refused Tool Result has no capacity provenance") ;;
  ordinal ← lift (of_option (sce_capacity_debit_ordinal entry) ValueError
    "a non-refused Tool Result requires an admitted capacity ordinal");
  '(capacity_scope, scope_id) ← lift (capacity_scope_key
    (tcall_capacity_binding (tcallr_record (sce_tool_call entry))));
  accepted_count ← on_ledger (ab_accepted_count SA backend (sce_store_namespace_key entry)
    (sce_tool_config_hash entry) capacity_scope scope_id);
  lift (require ((1 <=? ordinal) && (ordinal <=? accepted_count))%Z ValueError
    "completed entry capacity ordinal is outside the durable admission projection") ;;
  lift (require (match res_provenance_ordinal result with
                 | Some n => negb (n =? 0)%Z | None => false end) ValueError
    "a non-refused Tool Result requires a positive provenance ordinal") ;;
  lift (require (bool_decide (res_provenance_ordinal result = Some ordinal)) ValueError
    "Tool Result provenance ordinal disagrees with the durable admission capacity ordinal").

(** The terminal must be the one of this exact request, result and outcome. *)
Definition check_terminal (terminal : EffectTerminal) (request : LeaseRequest)
    (result_ref : TypedRef) (result : ToolResult) : Prelude.result unit :=
  require (bool_decide (et_request terminal = request)) ValueError
    "effect terminal belongs to another exact Tool request" ;;
  require (bool_decide (et_result_ref terminal = Some result_ref)) ValueError
    "effect terminal references another exact Tool Result" ;;
  require (negb (bool_decide (et_outcome terminal = SUCCEEDED) &&
                 is_some (res_terminal_failure result))) ValueError
    "succeeded effect terminal references a failed Tool Result" ;;
  if bool_decide (et_outcome terminal = FAILED) then
    same_failure ← optional_eq TerminalFailure_eq (et_failure terminal) (res_terminal_failure result);
    require same_failure ValueError
      "failed effect terminal and Tool Result disagree"
  else
    require (bool_decide (et_outcome terminal = SUCCEEDED)) ValueError
      "recovery-required effects have no completed Tool Result".

Definition complete (result : ToolResult) (terminal : option EffectTerminal) :
    stm world ToolCallStoreEntry :=
  validated ← lift (ToolResult_model_validate result);
  lift (require (negb (is_some (res_refusal validated))) ValueError
    "a refused Tool Result is terminal at admission") ;;
  existing ← get_entry (tcallr_record (res_call validated));
  existing ← lift (of_option existing ValueError "the exact Tool Call was never admitted");
  validate_result_authority validated existing ;;
  reference ← lift (tool_result_reference validated);
  let result_ref := resr_record_ref reference in
  exact_terminal ← lift (of_option terminal ValueError
    "completion requires an exact authoritative EffectTerminal proof");
  expected_request ← lift (tool_effect_request (tcallr_record (res_call validated)));
  lift (check_terminal exact_terminal expected_request result_ref validated) ;;
  authoritative_terminal ← on_leases
    (authority_verify_terminal unicode_name authority exact_terminal);
  persist_result validated ;;
  completed ← lift (new_entry (res_call validated) (ToolResult_tool_config validated) COMPLETED
    (sce_capacity_debit_ordinal existing) None (Some result_ref) (Some authoritative_terminal));
  on_ledger (authority_complete backend completed).

(** What must agree between a terminal entry and its stored result. *)
Definition check_loaded (result : ToolResult) (entry : ToolCallStoreEntry) : stm world unit :=
  match sce_state entry with
  | REFUSED =>
      lift (require (bool_decide (res_refusal result = sce_refusal entry)) ValueError
        "persisted Tool Result and admission refusal disagree")
  | COMPLETED =>
      terminal ← lift (of_option (sce_effect_terminal entry) AssertionError
        "completed entry validation lost its effect terminal");
      let expected_outcome := if is_some (res_terminal_failure result) then FAILED else SUCCEEDED in
      lift (require (bool_decide (et_outcome terminal = expected_outcome)) ValueError
        "persisted Tool Result and effect terminal outcome disagree") ;;
      same_failure ← lift (optional_eq TerminalFailure_eq (et_failure terminal)
                             (res_terminal_failure result));
      lift (require same_failure ValueError
        "persisted Tool Result and effect terminal failure disagree") ;;
      validate_result_authority result entry
  | ACCEPTED => mret tt
  end.

Definition load_terminal_result (entry : ToolCallStoreEntry) : stm world ToolResult :=
  result_ref ← lift (of_option (sce_tool_result_ref entry) ValueError
    "entry has no terminal Tool Result");
  durable_entry ← on_ledger (ab_get SA backend (sce_store_namespace_key entry) (sce_call_id entry));
  same_entry ← lift (optional_eq entry_eq durable_entry (Some entry));
  lift (require same_entry ValueError
    "terminal entry does not match the durable admission decision") ;;
  (if bool_decide (sce_state entry = COMPLETED) then
     terminal ← lift (of_option (sce_effect_terminal entry) ValueError
       "completed entry has no exact effect terminal");
     on_leases (authority_verify_terminal unicode_name authority terminal) ;; mret tt
   else mret tt) ;;
  content ← on_store (λ s, (store_get s (TypedRef_reference result_ref), s));
  result ← lift (parse_result content);
  expected ← lift (tool_result_reference result);
  lift (require (bool_decide (resr_record_ref expected = result_ref)) ValueError
    "persisted Tool Result ref does not match the terminal entry") ;;
  same_tool_call ← lift (ToolCallRef_eq (res_call result) (sce_tool_call entry));
  lift (require same_tool_call ValueError
    "persisted Tool Result belongs to a different exact Tool Call") ;;
  check_loaded result entry ;;
  mret result.

Definition load_result (result_ref : TypedRef) (expected_call : ToolCall) :
    stm world ToolResult :=
  lift (require (bool_decide (tref_schema_name result_ref = TOOL_RESULT_SCHEMA)) ValueError
    "effect terminal references a non-Tool Result") ;;
  content ← on_store (λ s, (store_get s (TypedRef_reference result_ref), s));
  result ← lift (parse_result content);
  expected ← lift (tool_result_reference result);
  lift (require (bool_decide (resr_record_ref expected = result_ref)) ValueError
    "effect terminal Tool Result ref is not exact") ;;
  call_ref ← lift (tool_call_reference expected_call);
  same_tool_call ← lift (ToolCallRef_eq (res_call result) call_ref);
  lift (require same_tool_call ValueError
    "effect terminal Tool Result belongs to another Tool Call") ;;
  mret result.

(** ** Reading a scope *)

Definition scope_of (config : ToolConfig) (binding : ToolCapacityBinding) :
    result (pystr * pystr * ToolCapacityScope * pystr) :=
  validated ← ToolConfig_model_validate config;
  '(capacity_scope, scope_id) ← capacity_scope_key binding;
  require (bool_decide (capacity_scope = tcap_scope (tc_capacity validated))) ValueError
    "Tool Capacity binding scope must match the exact Tool Config" ;;
  hash ← ToolConfig_identity_hash validated;
  Ok (tc_store_namespace_key validated, hash, capacity_scope, scope_id).

Definition accepted_count (config : ToolConfig) (binding : ToolCapacityBinding) : stm world Z :=
  '(namespace, hash, scope, scope_id) ← lift (scope_of config binding);
  on_ledger (ab_accepted_count SA backend namespace hash scope scope_id).

Definition admitted_entries (config : ToolConfig) (binding : ToolCapacityBinding) :
    stm world (list ToolCallStoreEntry) :=
  '(namespace, hash, scope, scope_id) ← lift (scope_of config binding);
  on_ledger (ab_admitted_entries SA backend namespace hash scope scope_id).
End ToolStore.

(** ** Properties of the store over the in-memory ledger *)

(** What is paid for: the call was accepted under an ordinal and its decision
    is stored. *)
Definition call_key (call : ToolCall) : EntryKey :=
  (ToolCall_store_namespace_key call, tcall_call_id call).

Record paid `{!DrSerialize} (st : MemState) (call : ToolCall) (e : ToolCallStoreEntry) : Prop := {
  paid_stored : dict_get (ms_entries st) (call_key call) = Some e;
  paid_call : same_call (tcallr_record (sce_tool_call e)) call;
  paid_state : sce_state e ≠ REFUSED;
  paid_ordinal : sce_capacity_debit_ordinal e ≠ None;
}.

#[export] Instance call_key_proper `{!DrSerialize} : Proper (same_call ==> (=)) call_key.
Proof.
  intros c c' Hc. unfold call_key, ToolCall_store_namespace_key. by rewrite Hc.
Qed.

(** The capacity the config of an entry's call sets. *)
Definition entry_maximum (e : ToolCallStoreEntry) : Z :=
  tcap_max_accepted_calls
    (tc_capacity (tcr_record (tcall_tool_config (tcallr_record (sce_tool_call e))))).

Section Paid.
Context `{DSer : !DrSerialize, DSto : !DrStore, DLease : !DrLease}.

Lemma step_keeps_paid st st' call e :
  admission_step st st' → paid st call e → ∃ e', paid st' call e'.
Proof.
  intros Hstep [Hget Hcall Hstate Hord].
  destruct (step_keeps_decision _ _ _ _ Hstep Hget) as (e' & Hget' & [->|(?&?&?&?)]).
  - by exists e.
  - exists e'. split; [done| |congruence..]. etrans; [|done]. by destruct H1.
Qed.

Lemma steps_keep_paid st st' call e :
  rtc admission_step st st' → paid st call e → ∃ e', paid st' call e'.
Proof.
  intros Hsteps. revert e. induction Hsteps as [|st st1 st' Hstep _ IH]; intros e He; [by exists e|].
  destruct (step_keeps_paid _ _ _ _ Hstep He) as [e1 He1]. by eapply IH.
Qed.

(** Every entry that was debited found its scope's maximum to be its config's. *)
Definition maximum_inv (st : MemState) : Prop := ∀ k e sk,
  dict_get (ms_entries st) k = Some e → sce_capacity_debit_ordinal e ≠ None →
  scope_key e = Ok sk → ∃ n, dict_get (ms_capacity st) sk = Some (entry_maximum e, n).

Lemma maximum_set st k e c :
  maximum_inv st →
  (sce_capacity_debit_ordinal e = None ∨ ∃ e0, dict_get (ms_entries st) k = Some e0 ∧
     sce_capacity_debit_ordinal e0 ≠ None ∧ same_call_ref (sce_tool_call e0) (sce_tool_call e) ∧
     scope_key e0 = scope_key e) →
  c = ms_capacity st →
  maximum_inv {| ms_entries := dict_set (ms_entries st) k e; ms_capacity := c |}.
Proof.
  intros Hinv He -> k' e' sk. simpl. destruct (decide (k = k')) as [<-|Hne].
  - rewrite dict_get_set_eq. intros [= <-] Hord Hsk.
    destruct He as [|(e0 & Hget & Hord0 & Hcall & Hsk0)]; [done|].
    unfold entry_maximum. rewrite <-(sc_tool_config _ _ (proj1 Hcall)).
    by apply (Hinv k e0); [..|congruence].
  - rewrite dict_get_set_ne by done. apply Hinv.
Qed.

Lemma maximum_debit st a sk n :
  maximum_inv st → scope_key a = Ok sk →
  default (entry_maximum a, 0%Z) (dict_get (ms_capacity st) sk) = (entry_maximum a, n) →
  maximum_inv {| ms_entries := dict_set (ms_entries st) (entry_key a) (with_ordinal a (n + 1));
                 ms_capacity := dict_set (ms_capacity st) sk (entry_maximum a, n + 1)%Z |}.
Proof.
  intros Hinv Hsk Hcap k e sk'. simpl. destruct (decide (entry_key a = k)) as [<-|Hk].
  - rewrite dict_get_set_eq. intros [= <-] _ He. change (scope_key a = Ok sk') in He.
    rewrite Hsk in He. injection He as <-. rewrite dict_get_set_eq. by exists (n + 1)%Z.
  - rewrite dict_get_set_ne by done. intros Hget Hord He.
    destruct (Hinv _ _ _ Hget Hord He) as [n' Hn']. destruct (decide (sk = sk')) as [<-|Hne].
    + rewrite dict_get_set_eq. rewrite Hn' in Hcap. injection Hcap as -> _. by exists (n + 1)%Z.
    + rewrite dict_get_set_ne by done. by exists n'.
Qed.
End Paid.

Section ToolStoreTheorems.
Context `{DSer : !DrSerialize, DSto : !DrStore, DOs : !DrObjectStore, DLaws : !DrObjectStoreLaws}.
Context `{DLease : !DrLease} {SL L : Type} (authority : LeaseAuthority SL L).
Variable parse_result : pyval → result ToolResult.
Variable unicode_name : pystr → option Z.

Abbreviation world := (World MemState SL).
Abbreviation entry_at w k := (dict_get (ms_entries (w_ledger w)) k).

(** The record a terminal entry references is in the object store, is a valid
    result of the entry's call, and agrees with the entry. *)
Record durable_result (s : ostate) (e : ToolCallStoreEntry) (ref : TypedRef) (r : ToolResult) :
    Prop := {
  dr_stored : store_get s (TypedRef_reference ref) = Ok (ToolResult_record_content r);
  dr_valid : ToolResult_model_validate r = Ok r;
  dr_exact : typed_ref_for_record TOOL_RESULT_SCHEMA (ToolResult_record_content r) = Ok ref;
  dr_call : res_call r = sce_tool_call e;
  dr_refusal : res_refusal r = sce_refusal e;
  dr_ordinal : res_provenance_ordinal r = sce_capacity_debit_ordinal e;
}.

Record world_inv (w : world) : Prop := {
  wi_ledger : mem_inv (w_ledger w);
  wi_maximum : maximum_inv (w_ledger w);
  wi_durable : ∀ k e ref, entry_at w k = Some e → sce_tool_result_ref e = Some ref →
    ∃ r, durable_result (w_store w) e ref r;
  wi_paid : ∀ call, call ∈ w_evaluations w → ∃ e, paid (w_ledger w) call e;
}.

(** What any call leaves behind: stored objects stay, the ledger makes its
    steps. *)
Record world_step (w w' : world) : Prop := {
  ws_store : grows (w_store w) (w_store w');
  ws_ledger : rtc admission_step (w_ledger w) (w_ledger w');
}.

#[export] Instance world_step_preorder : PreOrder world_step.
Proof. split; [by split|]. intros w1 w2 w3 [G1 L1] [G2 L2]. split; by etrans. Qed.

(** A call that starts in [w] keeps the invariant, whether it returns or
    raises, and establishes [Q] when it returns. *)
Definition spec {A} (w : world) (m : stm world A) (Q : A → world → Prop) : Prop :=
  world_step w (m w).2 ∧ world_inv (m w).2 ∧
  match (m w).1 with Ok a => Q a (m w).2 | Err _ => True end.

Lemma spec_bind {A B} w (m : stm world A) (f : A → stm world B) Q1 Q :
  spec w m Q1 →
  (∀ a w1, world_step w w1 → world_inv w1 → Q1 a w1 → spec w1 (f a) Q) →
  spec w (m ≫= f) Q.
Proof.
  unfold spec, mbind, stm_bind. destruct (m w) as [[a|e] w1]; simpl; [|naive_solver].
  intros (Hs & Hi & HQ) Hf. destruct (Hf a w1) as (Hs' & Hi' & HQ'); [done..|].
  split; [by etrans|]. done.
Qed.

Lemma spec_weaken {A} w (m : stm world A) (Q1 Q : A → world → Prop) :
  spec w m Q1 → (∀ a w1, world_step w w1 → world_inv w1 → Q1 a w1 → Q a w1) → spec w m Q.
Proof.
  unfold spec. destruct (m w) as [[a|e] w1]; simpl; intros (?&?&?) HQ; auto.
Qed.

Lemma spec_lift {A} w (r : result A) (Q : A → world → Prop) :
  world_inv w → (∀ a, r = Ok a → Q a w) → spec w (lift r) Q.
Proof. intros Hw HQ. split; [done|]. split; [done|]. simpl. destruct r; auto. Qed.

Lemma spec_ret {A} w (a : A) (Q : A → world → Prop) : world_inv w → Q a w → spec w (mret a) Q.
Proof. intros Hw HQ. split; [done|]. by split. Qed.

(** A pure check or computation before the rest. *)
Lemma spec_lift_bind {A B} w (r : result A) (f : A → stm world B) Q :
  world_inv w → (∀ a, r = Ok a → spec w (f a) Q) → spec w (lift r ≫= f) Q.
Proof.
  intros Hw Hf. unfold spec, mbind, stm_bind, lift. destruct r as [a|e]; [by apply Hf|].
  simpl. split; [done|]. by split.
Qed.

(** [if a != b: raise]. *)
Lemma spec_same {B} w (r : result bool) cls msg (f : stm world B) Q :
  world_inv w → (r = Ok true → spec w f Q) →
  spec w (same ← lift r; lift (require same cls msg) ;; f) Q.
Proof.
  intros Hw Hf. apply spec_lift_bind; [done|]. intros b Hb. apply spec_lift_bind; [done|].
  intros [] H. inv_ok. by apply Hf.
Qed.

(** The lease authority does not touch the rest. *)
Lemma spec_leases {A} w (m : stm SL A) (Q : A → world → Prop) :
  world_inv w →
  (∀ a w1, w_store w1 = w_store w → w_ledger w1 = w_ledger w → Q a w1) → spec w (on_leases m) Q.
Proof.
  intros [Hl Hm Hd Hp] HQ. unfold spec, on_leases. destruct (m (w_leases w)) as [[a|e] s]; simpl.
  - split; [by split|]. split; [by split|]. by apply HQ.
  - split; [by split|]. split; [by split|]. done.
Qed.

Lemma durable_result_grows s s' e ref r :
  grows s s' → durable_result s e ref r → durable_result s' e ref r.
Proof. intros Hg []. split; auto. by apply Hg. Qed.

Lemma spec_store {A} w (m : stm ostate A) (Q : A → world → Prop) :
  world_inv w → grows (w_store w) (m (w_store w)).2 →
  (∀ a w1, m (w_store w) = (Ok a, w_store w1) → w_ledger w1 = w_ledger w → Q a w1) →
  spec w (on_store m) Q.
Proof.
  intros [Hl Hm Hd Hp] Hg HQ. unfold spec, on_store. destruct (m (w_store w)) as [x s] eqn:E.
  simpl in *. split; [by split|]. split; [|destruct x; [by apply HQ|done]].
  split; [done|done| |done]. intros k e ref Hk He. destruct (Hd k e ref Hk He) as [r Hr].
  exists r. by eapply durable_result_grows.
Qed.

(** Reading the ledger. *)
Lemma spec_ledger_read {A} w (m : stm MemState A) (Q : A → world → Prop) :
  world_inv w → (m (w_ledger w)).2 = w_ledger w →
  (∀ a, m (w_ledger w) = (Ok a, w_ledger w) → Q a w) → spec w (on_ledger m) Q.
Proof.
  intros Hw Hread HQ. unfold spec, on_ledger. destruct (m (w_ledger w)) as [x s] eqn:E.
  simpl in *. subst s.
  assert ({| w_store := w_store w; w_ledger := w_ledger w; w_leases := w_leases w;
             w_evaluations := w_evaluations w |} = w) as -> by by destruct w.
  split; [done|]. split; [done|]. destruct x; auto.
Qed.

(** A call of the admission authority: the new ledger and the durable results
    of the entries it can add. *)
Lemma spec_ledger_step {A} w (m : stm MemState A) (Q : A → world → Prop) :
  world_inv w → admission_step (w_ledger w) (m (w_ledger w)).2 →
  maximum_inv (m (w_ledger w)).2 →
  (∀ k e ref, dict_get (ms_entries (m (w_ledger w)).2) k = Some e → entry_at w k ≠ Some e →
     sce_tool_result_ref e = Some ref → ∃ r, durable_result (w_store w) e ref r) →
  (∀ a w1, m (w_ledger w) = (Ok a, w_ledger w1) → w_store w1 = w_store w → Q a w1) →
  spec w (on_ledger m) Q.
Proof.
  intros [Hl Hm Hd Hp] Hstep Hmax Hnew HQ. unfold spec, on_ledger.
  destruct (m (w_ledger w)) as [x s] eqn:E. simpl in *.
  split; [split; simpl; [done|by apply rtc_once]|].
  split; [|destruct x; [by apply HQ|done]]. split; simpl.
  - eapply update_inv; [exact Hl|by apply step_update].
  - done.
  - intros k e ref Hk He. destruct (decide (entry_at w k = Some e)) as [Hold|]; [|by eapply Hnew].
    by eapply Hd.
  - intros call Hcall. destruct (Hp call Hcall) as [e He]. by eapply step_keeps_paid.
Qed.

(** *** Records *)

Lemma ToolResult_model_validate_Ok r r' : ToolResult_model_validate r = Ok r' → r' = r.
Proof. unfold ToolResult_model_validate, ToolResult_validate. intros H. by inv_ok. Qed.

Lemma ToolCall_model_validate_Ok c c' : ToolCall_model_validate c = Ok c' → c' = c.
Proof. unfold ToolCall_model_validate, ToolCall_validate. intros H. by inv_ok. Qed.

Lemma ToolConfig_model_validate_Ok c c' : ToolConfig_model_validate c = Ok c' → c' = c.
Proof. unfold ToolConfig_model_validate, ToolConfig_validate. intros H. by inv_ok. Qed.

Lemma tool_call_reference_record c ref : tool_call_reference c = Ok ref → tcallr_record ref = c.
Proof. unfold tool_call_reference, ToolCallRef_validate. intros H. by inv_ok. Qed.

Lemma tool_config_reference_record c ref : tool_config_reference c = Ok ref → tcr_record ref = c.
Proof. unfold tool_config_reference, ToolConfigRef_validate. intros H. by inv_ok. Qed.

Lemma tool_result_reference_Ok r ref :
  tool_result_reference r = Ok ref →
  typed_ref_for_record TOOL_RESULT_SCHEMA (ToolResult_record_content r) = Ok (resr_record_ref ref).
Proof. unfold tool_result_reference, ToolResultRef_validate. intros H. by inv_ok. Qed.

Lemma TypedRef_new_Ok s h ref :
  TypedRef_new (PStr s) (PStr h) = Ok ref → ref = {| tref_schema_name := s; tref_content_hash := h |}.
Proof.
  unfold TypedRef_new, NonEmptyId, ContentHash, ValidatedString_new. intros H. by inv_ok.
Qed.

Lemma spec_put_exact w schema content :
  world_inv w →
  spec w (put_exact schema content) (λ p w1,
    typed_ref_for_record schema content = Ok p ∧
    store_get (w_store w1) (TypedRef_reference p) = Ok content).
Proof.
  intros Hw. unfold put_exact. apply spec_lift_bind; [done|]. intros expected Hexp.
  eapply spec_bind.
  { apply spec_store with (Q := λ reference w1,
      store_get (w_store w1) reference = Ok content); [done|apply put_grows|].
    intros reference w1 Hput _. by eapply put_Ok. }
  intros reference w1 _ Hw1 Hget. apply spec_lift_bind; [done|]. intros p Hp.
  apply spec_lift_bind; [done|]. intros [] Heq. inv_ok. apply spec_ret; [done|]. split; [done|].
  apply TypedRef_new_Ok in Hp. subst. by destruct reference.
Qed.

Lemma spec_put_as w schema content expected :
  world_inv w → spec w (put_as schema content expected) (λ _ _, True).
Proof.
  intros Hw. eapply spec_bind; [by apply spec_put_exact|]. intros p w1 _ Hw1 _.
  by apply spec_lift.
Qed.

Lemma spec_persist_call_chain w call config :
  world_inv w →
  spec w (persist_call_chain call config) (λ ref _,
    tool_call_reference call = Ok ref ∧ tcr_record (tcall_tool_config call) = config).
Proof.
  intros Hw. unfold persist_call_chain.
  apply spec_lift_bind; [done|]. intros vconfig ->%ToolConfig_model_validate_Ok.
  apply spec_lift_bind; [done|]. intros vcall ->%ToolCall_model_validate_Ok.
  apply spec_lift_bind; [done|]. intros _ _. apply spec_lift_bind; [done|]. intros config_ref Hcref.
  apply spec_lift_bind; [done|]. intros ? Hcite. inv_ok.
  eapply spec_bind; [by apply spec_put_as|]. intros ? w1 _ Hw1 _.
  eapply spec_bind; [by apply spec_put_as|]. intros ? w2 _ Hw2 _.
  apply spec_lift_bind; [done|]. intros ref Href.
  eapply spec_bind; [by apply spec_put_as|]. intros ? w3 _ Hw3 _.
  apply spec_ret; [done|]. split; [done|]. by apply tool_config_reference_record.
Qed.

Lemma spec_persist_result w r :
  world_inv w →
  spec w (persist_result r) (λ p w1,
    ToolResult_model_validate r = Ok r ∧
    typed_ref_for_record TOOL_RESULT_SCHEMA (ToolResult_record_content r) = Ok p ∧
    store_get (w_store w1) (TypedRef_reference p) = Ok (ToolResult_record_content r)).
Proof.
  intros Hw. unfold persist_result. apply spec_lift_bind; [done|]. intros v Hv.
  pose proof (ToolResult_model_validate_Ok _ _ Hv) as ->.
  eapply (spec_bind _ _ _ (λ _ _, True)).
  { destruct (res_reward r); [by apply spec_put_as|by apply spec_ret]. }
  intros ? w1 _ Hw1 _. apply spec_lift_bind; [done|]. intros expected _.
  eapply spec_bind; [by apply spec_put_exact|]. intros p w2 _ Hw2 [Hp Hget].
  apply spec_lift_bind; [done|]. intros _ _. by apply spec_ret.
Qed.

(** *** The ledger's operations *)

Lemma entry_validate_self x e : entry_validate x = Ok e → e = x.
Proof. unfold entry_validate. intros H. by inv_ok. Qed.

Lemma new_entry_Ok call_ref config_ref state ordinal refusal ref terminal e :
  new_entry call_ref config_ref state ordinal refusal ref terminal = Ok e →
  entry_validate e = Ok e ∧ sce_tool_call e = call_ref ∧ sce_state e = state ∧
  sce_capacity_debit_ordinal e = ordinal ∧ sce_refusal e = refusal ∧
  sce_tool_result_ref e = ref ∧ entry_key e = call_key (tcallr_record call_ref).
Proof.
  unfold new_entry. cbv zeta. intros H. inv_result.
  match goal with H : entry_validate _ = Ok e |- _ => pose proof (entry_validate_self _ _ H) end.
  subst. done.
Qed.

Lemma refused_result_Ok ref refusal r :
  refused_result ref refusal = Ok r →
  res_call r = ref ∧ res_refusal r = Some refusal ∧ res_provenance_ordinal r = None.
Proof. unfold refused_result, ToolResult_validate. intros H. by inv_ok. Qed.

Lemma accepted_no_result e :
  entry_validate e = Ok e → sce_state e = ACCEPTED → sce_tool_result_ref e = None.
Proof.
  unfold entry_validate, entry_state_shape. intros H Hs. inv_ok. rewrite Hs in *. inv_ok.
  by destruct (sce_refusal e), (sce_tool_result_ref e).
Qed.

Lemma not_refused_ordinal e :
  entry_validate e = Ok e → sce_state e ≠ REFUSED → sce_capacity_debit_ordinal e ≠ None.
Proof.
  unfold entry_validate, entry_state_shape. intros H Hs. inv_ok.
  destruct (sce_state e); inv_ok; congruence.
Qed.

Lemma world_entry_valid w k e : world_inv w → entry_at w k = Some e → entry_validate e = Ok e.
Proof. intros Hw Hget. by eapply (inv_entry _ (wi_ledger _ Hw)), dict_get_Some. Qed.

Lemma stored_paid w call e :
  world_inv w → entry_at w (call_key call) = Some e →
  same_call (tcallr_record (sce_tool_call e)) call →
  sce_state e ≠ REFUSED → paid (w_ledger w) call e.
Proof. intros Hw Hget Hcall Hs. split; eauto using not_refused_ordinal, world_entry_valid. Qed.

(** The call's decision is stored. *)
Definition decided (call : ToolCall) (e : ToolCallStoreEntry) (w : world) : Prop :=
  entry_at w (call_key call) = Some e ∧ same_call (tcallr_record (sce_tool_call e)) call.

Lemma maximum_undebited st st' :
  mem_inv st → maximum_inv st → undebited_update st st' → maximum_inv st'.
Proof.
  intros Hinv Hmax. destruct 1 as [|e Hv ? Hs Hord|e e' Hv Hget Hcall Hord Hs Hs']; [done|..].
  - apply maximum_set; auto.
  - pose proof (dict_get_Some _ _ _ Hget) as Hin.
    destruct (inv_entry _ Hinv _ _ Hin) as [_ Hve]. apply maximum_set; [done| |done].
    right. exists e. split; [done|]. split; [by apply not_refused_ordinal; [|congruence]|].
    split; [done|]. by apply same_call_same_keys.
Qed.

Lemma maximum_admit st a r m :
  mem_inv st → maximum_inv st → entry_validate a = Ok a → entry_validate r = Ok r →
  m = entry_maximum a → maximum_inv (authority_admit memory_backend a r m st).2.
Proof.
  intros Hinv Hmax Ha Hr ->.
  destruct (admit_cases st a r (entry_maximum a) Ha Hr) as [|? Hkey ?|sk n]; [done|..].
  - apply maximum_set; [done|left; by apply refused_no_ordinal|done].
  - by apply maximum_debit.
Qed.

Lemma spec_admit w a r m res :
  world_inv w → entry_validate a = Ok a → entry_validate r = Ok r → m = entry_maximum a →
  (∀ ref, sce_tool_result_ref r = Some ref → durable_result (w_store w) r ref res) →
  spec w (on_ledger (authority_admit memory_backend a r m)) (λ d w1,
    entry_at w1 (entry_key a) = Some d ∧ same_call_ref (sce_tool_call d) (sce_tool_call a)).
Proof.
  intros Hw Ha Hr Hm Hres. apply spec_ledger_step; [done|by constructor| | |].
  - apply maximum_admit; by try apply Hw.
  - intros k e ref Hk Hold Href. destruct (admit_entries _ _ _ _ _ _ Ha Hr Hk) as [?|[->|Hs]];
      [done|by eauto|].
    assert (mem_inv (authority_admit memory_backend a r m (w_ledger w)).2) as Hinv.
    { eapply update_inv; [by apply Hw|]. by apply step_update, step_admit. }
    rewrite accepted_no_result in Href; [done| |done]. by eapply (inv_entry _ Hinv), dict_get_Some.
  - intros d w1 Hok _. apply authority_admit_Ok in Hok as (? & ? & _); auto.
Qed.

Lemma spec_refuse w e res :
  world_inv w → entry_validate e = Ok e →
  (∀ ref, sce_tool_result_ref e = Some ref → durable_result (w_store w) e ref res) →
  spec w (on_ledger (authority_refuse memory_backend e)) (λ d w1,
    entry_at w1 (entry_key e) = Some d ∧ same_call_ref (sce_tool_call d) (sce_tool_call e)).
Proof.
  intros Hw He Hres. apply spec_ledger_step; [done|by constructor| | |].
  - eapply maximum_undebited; [apply Hw|apply Hw|by apply refuse_update].
  - intros k x ref Hk Hold Href. destruct (refuse_entries _ _ _ _ Hk) as [?| ->]; [done|eauto].
  - intros d w1 Hok _. unfold authority_refuse, mbind, stm_bind, lift in Hok. simpl in Hok.
    destruct (require _ _ _); [|done]. destruct (require _ _ _); [|done].
    unfold memory_refuse, gets, mbind, stm_bind, lift, set_entry, modify in Hok.
    destruct (dict_get (ms_entries (w_ledger w)) (entry_key e)) as [x|] eqn:Hget.
    + injection Hok as Hd <-. apply replay_or_conflict_Ok in Hd as (-> & ? & _). done.
    + injection Hok as <- <-. simpl. by rewrite dict_get_set_eq.
Qed.

Lemma spec_complete w e res :
  world_inv w → entry_validate e = Ok e →
  (∀ ref, sce_tool_result_ref e = Some ref → durable_result (w_store w) e ref res) →
  spec w (on_ledger (authority_complete memory_backend e)) (λ d w1,
    entry_at w1 (entry_key e) = Some d ∧ same_call_ref (sce_tool_call d) (sce_tool_call e)).
Proof.
  intros Hw He Hres. apply spec_ledger_step; [done|by constructor| | |].
  - eapply maximum_undebited; [apply Hw|apply Hw|by apply complete_update].
  - intros k x ref Hk Hold Href. destruct (complete_entries _ _ _ _ Hk) as [?| ->]; [done|eauto].
  - intros d w1 Hok _. unfold authority_complete, mbind, stm_bind, lift in Hok. simpl in Hok.
    destruct (require _ _ _); [|done].
    unfold memory_complete, gets, mbind, stm_bind, lift, set_entry, modify in Hok.
    destruct (complete_transition _ e) as [d'|] eqn:Hd; [|done]. injection Hok as <- <-. simpl.
    rewrite dict_get_set_eq. split; [done|].
    destruct (dict_get _ _) as [x|]; [|done].
    by apply complete_transition_Ok in Hd as (? & [->|(-> & _)]).
Qed.

(** *** The store's operations *)

Lemma spec_get_entry w call :
  world_inv w →
  spec w (get_entry memory_backend call) (λ o w1,
    match o with Some e => decided call e w1 | None => True end).
Proof.
  intros Hw. unfold get_entry. apply spec_lift_bind; [done|].
  intros v ->%ToolCall_model_validate_Ok. apply spec_lift_bind; [done|]. intros _ _.
  eapply spec_bind.
  { apply spec_ledger_read with (Q := λ o w1, o = entry_at w1 (call_key call));
      [done|done|by intros o [= <-]]. }
  intros [e|] w1 _ Hw1 He; [|by apply spec_ret].
  apply spec_lift_bind; [done|]. intros ref Href. apply spec_same; [done|].
  intros [Hcite _]%ToolCallRef_eq_same. apply spec_ret; [done|]. split; [done|].
  by rewrite <-(tool_call_reference_record _ _ Href).
Qed.

Lemma refused_durable s call_ref config_ref refusal ref result e :
  refused_result call_ref refusal = Ok result →
  ToolResult_model_validate result = Ok result →
  typed_ref_for_record TOOL_RESULT_SCHEMA (ToolResult_record_content result) = Ok ref →
  store_get s (TypedRef_reference ref) = Ok (ToolResult_record_content result) →
  new_entry call_ref config_ref REFUSED None (Some refusal) (Some ref) None = Ok e →
  ∀ ref', sce_tool_result_ref e = Some ref' → durable_result s e ref' result.
Proof.
  intros (Hcall & Hrefusal & Hord)%refused_result_Ok Hvalid Href Hget He ref' Href'.
  apply new_entry_Ok in He as (_ & ? & ? & ? & ? & ? & _). assert (ref' = ref) as -> by congruence.
  split; congruence.
Qed.

(** The entry stored under a candidate's key decides the candidate's call. *)
Lemma stored_decided w d e call_ref :
  entry_at w (entry_key e) = Some d ∧ same_call_ref (sce_tool_call d) (sce_tool_call e) →
  sce_tool_call e = call_ref → entry_key e = call_key (tcallr_record call_ref) →
  decided (tcallr_record call_ref) d w.
Proof. intros [Hd [Hcall _]] <- Hkey. split; [by rewrite <-Hkey|done]. Qed.

Lemma spec_admit_call w call config :
  world_inv w → spec w (admit_call memory_backend call config) (decided call).
Proof.
  intros Hw. unfold admit_call.
  eapply spec_bind; [by apply spec_persist_call_chain|]. intros call_ref w1 _ Hw1 [Href Hconfig].
  apply spec_lift_bind; [done|]. intros config_ref Hcref.
  apply spec_lift_bind; [done|]. intros a Ha. apply spec_lift_bind; [done|]. intros result Hresult.
  eapply spec_bind; [by apply spec_persist_result|]. intros ref w2 _ Hw2 (Hvalid & Hrref & Hget).
  apply spec_lift_bind; [done|]. intros r Hr.
  pose proof (new_entry_Ok _ _ _ _ _ _ _ _ Ha) as (Hva & Hca & _ & _ & _ & _ & Hkey).
  pose proof (new_entry_Ok _ _ _ _ _ _ _ _ Hr) as (Hvr & _).
  pose proof (tool_call_reference_record _ _ Href) as Hrec.
  eapply spec_weaken.
  { eapply spec_admit; [done..| |by eapply refused_durable].
    unfold entry_maximum. by rewrite Hca, Hrec, Hconfig. }
  intros d w3 _ _ Hd. rewrite <-Hrec. exact (stored_decided _ _ _ _ Hd Hca Hkey).
Qed.

Lemma spec_refuse_call w call config refusal :
  world_inv w → spec w (refuse_call memory_backend call config refusal) (decided call).
Proof.
  intros Hw. unfold refuse_call. apply spec_lift_bind; [done|]. intros _ _.
  eapply spec_bind; [by apply spec_persist_call_chain|]. intros call_ref w1 _ Hw1 [Href _].
  apply spec_lift_bind; [done|]. intros result Hresult.
  eapply spec_bind; [by apply spec_persist_result|]. intros ref w2 _ Hw2 (Hvalid & Hrref & Hget).
  apply spec_lift_bind; [done|]. intros r Hr.
  pose proof (new_entry_Ok _ _ _ _ _ _ _ _ Hr) as (Hvr & Hcr & _ & _ & _ & _ & Hkey).
  pose proof (tool_call_reference_record _ _ Href) as Hrec.
  eapply spec_weaken; [eapply spec_refuse; [done..|by eapply refused_durable]|].
  intros d w3 _ _ Hd. rewrite <-Hrec. exact (stored_decided _ _ _ _ Hd Hcr Hkey).
Qed.

Lemma spec_validate_result_authority w r e :
  world_inv w →
  spec w (validate_result_authority memory_backend r e) (λ _ w1, w1 = w ∧
    res_refusal r = None ∧ res_provenance_ordinal r = sce_capacity_debit_ordinal e).
Proof.
  intros Hw. unfold validate_result_authority. apply spec_lift_bind; [done|]. intros ? Hrefusal.
  apply spec_lift_bind; [done|]. intros n Hn. apply spec_lift_bind; [done|]. intros [s i] _.
  eapply spec_bind.
  { apply spec_ledger_read with (Q := λ _ w1, w1 = w); [done| |done]. simpl.
    unfold memory_accepted_count, gets, mbind, stm_bind, lift. by destruct (backend_scope_id _ _). }
  intros count w1 _ Hw1 ->. do 2 (apply spec_lift_bind; [done|]; intros _ _).
  apply spec_lift; [done|]. intros ? Heq. inv_ok. split; [done|].
  destruct (res_refusal r); [done|]. split; congruence.
Qed.

Lemma spec_complete_call w r t :
  world_inv w →
  spec w (complete memory_backend authority unicode_name r t)
    (decided (tcallr_record (res_call r))).
Proof.
  intros Hw. unfold complete. apply spec_lift_bind; [done|].
  intros v ->%ToolResult_model_validate_Ok. apply spec_lift_bind; [done|]. intros _ _.
  eapply spec_bind; [by apply spec_get_entry|]. intros o w1 _ Hw1 _.
  apply spec_lift_bind; [done|]. intros e _.
  eapply spec_bind; [by apply spec_validate_result_authority|].
  intros _ ? _ _ (-> & Hrefusal & Hord). apply spec_lift_bind; [done|]. intros ref Href.
  cbv zeta. do 3 (apply spec_lift_bind; [done|]; intros ? ?).
  eapply spec_bind; [by apply spec_leases with (Q := λ _ _, True)|]. intros terminal w2 _ Hw2 _.
  eapply spec_bind; [by apply spec_persist_result|]. intros p w3 _ Hw3 (Hvalid & Hp & Hget).
  apply spec_lift_bind; [done|]. intros x Hx.
  apply new_entry_Ok in Hx as (Hvx & Hcx & _ & Hox & Hrx & Hrefx & Hkey).
  apply tool_result_reference_Ok in Href as Hexact.
  eapply spec_weaken.
  { eapply (spec_complete _ _ r); [done..|]. intros ref' Hr'. assert (ref' = p) as -> by congruence.
    split; congruence. }
  intros d w4 _ _ Hd. exact (stored_decided _ _ _ _ Hd Hcx Hkey).
Qed.

(** What a result that [load_terminal_result] returned is, for the stored
    decision [e]. *)
Record loaded (e : ToolCallStoreEntry) (r : ToolResult) (w : world) : Prop := {
  ld_stored : entry_at w (entry_key e) = Some e;
  ld_call : same_call_ref (res_call r) (sce_tool_call e);
  ld_terminal : sce_state e ≠ ACCEPTED;
  ld_exact : ∃ ref, sce_tool_result_ref e = Some ref ∧
    typed_ref_for_record TOOL_RESULT_SCHEMA (ToolResult_record_content r) = Ok ref;
  ld_refused : sce_state e = REFUSED → res_refusal r = sce_refusal e;
  ld_completed : sce_state e = COMPLETED →
    res_refusal r = None ∧ res_provenance_ordinal r = sce_capacity_debit_ordinal e;
}.

Lemma spec_check_loaded w r e :
  world_inv w →
  spec w (check_loaded memory_backend r e) (λ _ w1, w1 = w ∧
    (sce_state e = REFUSED → res_refusal r = sce_refusal e) ∧
    (sce_state e = COMPLETED →
       res_refusal r = None ∧ res_provenance_ordinal r = sce_capacity_debit_ordinal e)).
Proof.
  intros Hw. unfold check_loaded. destruct (sce_state e).
  - by apply spec_ret.
  - apply spec_lift; [done|]. intros ? H. inv_ok. by split_and!.
  - apply spec_lift_bind; [done|]. intros terminal _. cbv zeta.
    apply spec_lift_bind; [done|]. intros _ _. apply spec_same; [done|]. intros _.
    eapply spec_weaken; [by apply spec_validate_result_authority|].
    intros ? w1 _ _ (-> & ? & ?). by split_and!.
Qed.

Lemma spec_load_terminal_result w e :
  world_inv w →
  spec w (load_terminal_result memory_backend authority parse_result unicode_name e) (λ r w1,
    ∃ e', entry_eq e' e = Ok true ∧ loaded e' r w1).
Proof.
  intros Hw. unfold load_terminal_result. apply spec_lift_bind; [done|]. intros ref Href.
  apply of_option_Ok in Href.
  eapply spec_bind.
  { apply spec_ledger_read with (Q := λ o w1, o = entry_at w1 (entry_key e)); [done|done|].
    by intros o [= <-]. }
  intros o w1 _ Hw1 Ho. apply spec_same; [done|]. intros Heq.
  destruct o as [e'|]; [|done]. simpl in Heq. symmetry in Ho.
  pose proof (entry_eq_same _ _ Heq) as (Hcalls & Hkeys & Hstate & Hord & Hrefusal & Hrefs).
  eapply (spec_bind _ _ _ (λ _ w2, w_ledger w2 = w_ledger w1)).
  { case_bool_decide; [|by apply spec_ret]. apply spec_lift_bind; [done|]. intros terminal _.
    eapply spec_bind; [by apply spec_leases with (Q := λ _ w2, w_ledger w2 = w_ledger w1)|].
    intros ? w2 _ Hw2 Hl. by apply spec_ret. }
  intros ? w2 _ Hw2 Hl2. eapply spec_bind.
  { by apply spec_store with (Q := λ _ w3, w_ledger w3 = w_ledger w2). }
  intros content w3 _ Hw3 Hl3. apply spec_lift_bind; [done|]. intros r _.
  apply spec_lift_bind; [done|]. intros expected Hexp%tool_result_reference_Ok.
  apply spec_lift_bind; [done|]. intros _ Href'%require_Ok%bool_decide_eq_true.
  apply spec_same; [done|]. intros Hcall%ToolCallRef_eq_same.
  eapply spec_bind; [by apply spec_check_loaded|].
  intros _ ? _ _ (-> & Hrefused & Hcompleted). apply spec_ret; [done|]. exists e'. split; [done|].
  assert (entry_at w3 (entry_key e') = Some e') as Hstored by (by rewrite Hl3, Hl2, Hkeys).
  rewrite <-Hstate, <-Hrefusal, <-Hord in *.
  split; [done|by rewrite Hcalls| |exists ref; split; congruence|done|done].
  intros Hs. rewrite accepted_no_result in Hrefs; [congruence| |done]. by eapply world_entry_valid.
Qed.

Lemma spec_load_result w ref call :
  world_inv w →
  spec w (load_result parse_result ref call) (λ r _,
    ∃ call_ref, tool_call_reference call = Ok call_ref ∧ same_call_ref (res_call r) call_ref).
Proof.
  intros Hw. unfold load_result. apply spec_lift_bind; [done|]. intros _ _.
  eapply spec_bind; [by apply spec_store with (Q := λ _ _, True)|]. intros content w1 _ Hw1 _.
  apply spec_lift_bind; [done|]. intros r _. apply spec_lift_bind; [done|]. intros expected _.
  apply spec_lift_bind; [done|]. intros _ _. apply spec_lift_bind; [done|]. intros call_ref Hcall.
  apply spec_same; [done|]. intros Hsame%ToolCallRef_eq_same.
  apply spec_ret; [done|]. eauto.
Qed.

Lemma refused_has_result e :
  entry_validate e = Ok e → sce_state e = REFUSED → ∃ ref, sce_tool_result_ref e = Some ref.
Proof.
  unfold entry_validate, entry_state_shape. intros H Hs. inv_ok. rewrite Hs in *. inv_ok.
  destruct (sce_refusal e), (sce_tool_result_ref e) as [ref|]; try done. by exists ref.
Qed.

Lemma tool_result_reference_exact r ref :
  typed_ref_for_record TOOL_RESULT_SCHEMA (ToolResult_record_content r) = Ok ref →
  tool_result_reference r = Ok {| resr_record := r; resr_record_ref := ref |}.
Proof.
  unfold tool_result_reference, ToolResultRef_validate. simpl. intros ->. simpl.
  by rewrite bool_decide_true.
Qed.

(** A stored refusal equals itself: it holds no effect terminal. *)
Lemma refused_entry_eq e :
  entry_validate e = Ok e → sce_state e = REFUSED →
  has_text (tcall_args (tcallr_record (sce_tool_call e))) → entry_eq e e = Ok true.
Proof.
  unfold entry_validate, entry_state_shape. intros H Hs Ht. inv_ok. rewrite Hs in *. inv_ok.
  unfold entry_eq. rewrite ToolCallRef_eq_refl by done. simpl. rewrite bool_decide_true by done.
  destruct (sce_effect_terminal e); [|done]. by inv_bool.
Qed.

(** The refusal of a call is never lost. Whatever happened in between, the
    result of a stored refusal is in the object store as it was written, it
    belongs to the entry's call and carries the entry's refusal, and loading it
    returns it and changes nothing, provided that reading the record back gives
    the record that was written. *)
Theorem refusals_load w k e :
  world_inv w → entry_at w k = Some e → sce_state e = REFUSED →
  has_text (tcall_args (tcallr_record (sce_tool_call e))) →
  ∃ ref r, sce_tool_result_ref e = Some ref ∧ durable_result (w_store w) e ref r ∧
    (parse_result (ToolResult_record_content r) = Ok r →
     load_terminal_result memory_backend authority parse_result unicode_name e w = (Ok r, w)).
Proof.
  intros Hw Hget Hs Ht. pose proof (world_entry_valid _ _ _ Hw Hget) as Hv.
  destruct (refused_has_result _ Hv Hs) as [ref Href].
  destruct (wi_durable _ Hw k e ref Hget Href) as [r Hr]. exists ref, r. split_and!; [done..|].
  intros Hparse. pose proof (dict_get_Some _ _ _ Hget) as Hin.
  destruct (inv_entry _ (wi_ledger _ Hw) _ _ Hin) as [-> _].
  unfold load_terminal_result. rewrite Href, (bool_decide_false (sce_state e = COMPLETED))
    by congruence.
  unfold mbind, stm_bind, lift, on_ledger, on_store, mret, stm_ret. simpl. unfold gets.
  change (sce_store_namespace_key e, sce_call_id e) with (entry_key e).
  rewrite Hget. simpl. rewrite (refused_entry_eq _ Hv Hs Ht). simpl. rewrite (dr_stored _ _ _ _ Hr), Hparse.
  rewrite (tool_result_reference_exact _ _ (dr_exact _ _ _ _ Hr)). simpl.
  rewrite bool_decide_true by done. simpl. rewrite (dr_call _ _ _ _ Hr), ToolCallRef_eq_refl by done.
  simpl. unfold check_loaded. rewrite Hs. unfold lift. rewrite bool_decide_true by apply Hr. simpl.
  by destruct w.
Qed.
End ToolStoreTheorems.
