(* ===== verification/Executor.v ===== *)
(** * The tool executor

    Models [EvaluatingToolExecutor] of
    [src/whetstone/optim/tools/execution.py]: one call of a tool is validated,
    decided by the ledger, evaluated under an effect lease, completed and
    loaded back. *)

From S2P Require Import Prelude Floats Identity Frozen Leasing EvalConfigs Reward Tools Admission Process.
From S2P Require Import ToolStore.

Definition TOOL_EVALUATION_REJECTED_CODE := $"tool_evaluation_rejected".

Record ToolEvaluation := {
  te_output : list (pystr * pyval);
  te_generation_refs : list TypedRef;
  te_aggregates : list (pystr * pyval);
  te_eval_config_hash : pystr;
}.

(** What [evaluator.evaluate] does when it does not raise another exception: it
    returns, raises a [ToolEvaluationError] with its failure or a
    [ToolValidationError] with its text. *)
Inductive evaluation_outcome :=
| Evaluated (evaluation : ToolEvaluation)
| EvaluationFailed (failure : TerminalFailure)
| EvaluationRejected (reason : pystr).

(** The caller's [ToolEvaluator]. [validate] answers the text of its
    [ToolValidationError], if it raised one; both may depend on the calls
    evaluated before. *)
Record ToolEvaluator := {
  ev_validate : list ToolCall → ToolCall → ToolConfig → result (option pystr);
  ev_evaluate : list ToolCall → ToolCall → ToolConfig → result evaluation_outcome;
}.

(** dr-store's maintained lease: entering [maintain(...)], the two ways to end
    the effect and the exit of the block. *)
Record LeaseMaintenance (SL L M : Type) := {
  mt_enter : L → Z → stm SL M;
  mt_succeed : M → ObjectReference → stm SL Terminal;
  mt_fail : M → ObjectReference → LeaseTerminalFailure → stm SL Terminal;
  mt_exit : M → stm SL unit;
}.

Section Executor.
Context `{DSer : !DrSerialize, DSto : !DrStore, DOs : !DrObjectStore, DLease : !DrLease}.
Context {SA SL L M : Type} (backend : AdmissionBackend SA) (authority : LeaseAuthority SL L).
Context (maintenance : LeaseMaintenance SL L M) (evaluator : ToolEvaluator).
Variable parse_result : pyval → result ToolResult.
Variable unicode_name : pystr → option Z.

(** The executor's fields. *)
Variables (reward_policy : RewardPolicy) (owner_id : pystr) (replay_policy : ReplayPolicy)
  (lease_duration : Z).

Abbreviation world := (World SA SL).
Abbreviation load := (load_terminal_result backend authority parse_result unicode_name).
Abbreviation complete := (complete backend authority unicode_name).

(** [TerminalFailure(code, message, details)]. *)
Definition new_failure (code message : pystr) (details : list (pystr * pyval)) :
    result TerminalFailure := TerminalFailure_validate code message details.

(** [_successful_result]: a [ToolEvaluationError] it raises is the outcome
    [inr]. *)
Definition successful_result (call : ToolCall) (entry_ordinal : Z) (evaluation : ToolEvaluation)
    (config : ToolConfig) : result (ToolResult + TerminalFailure) :=
  config_hash ← eval_config_hash config;
  if negb (bool_decide (te_eval_config_hash evaluation = config_hash)) then
    failure ← new_failure $"tool_eval_config_mismatch"
      $"Tool evaluation bound a different exact Eval Config"
      [($"expected", PStr config_hash); ($"actual", PStr (te_eval_config_hash evaluation))];
    Ok (inr failure)
  else
    let built :=
      reward ← apply_reward_policy reward_policy (te_aggregates evaluation) INTERNAL
        (te_generation_refs evaluation) (Some entry_ordinal);
      call_ref ← tool_call_reference call;
      reward_ref ← reward_reference reward;
      ToolResult_validate
        {| res_call := call_ref; res_output := Some (te_output evaluation); res_refusal := None;
           res_terminal_failure := None;
           res_evaluation_evidence_refs := te_generation_refs evaluation;
           res_reward := Some reward_ref; res_provenance_note := None;
           res_provenance_ordinal := Some entry_ordinal |} in
    match built with
    | Ok result => Ok (inl result)
    | Err exc =>
        if exn_isa (exn_cls exc) ValueError then
          failure ← new_failure $"tool_evaluation_contract"
            $"Tool evaluation produced invalid deterministic result evidence"
            [($"error", PStr (py (exn_msg exc)))];
          Ok (inr failure)
        else Err exc
    end.

(** [evaluator.evaluate(call, config)]; the call is given to the evaluator
    whatever comes of it. *)
Definition evaluate (call : ToolCall) (config : ToolConfig) : stm world evaluation_outcome := λ w,
  (ev_evaluate evaluator (w_evaluations w) call config,
   {| w_store := w_store w; w_ledger := w_ledger w; w_leases := w_leases w;
      w_evaluations := w_evaluations w ++ [call] |}).

Definition validate (call : ToolCall) (config : ToolConfig) : stm world (option pystr) := λ w,
  (ev_validate evaluator (w_evaluations w) call config, w).

(** [with authority.maintain(lease) as m: body]: the exit runs whether the body
    returned or raised. *)
Definition with_maintenance {A} (lease : L) (body : M → stm world A) : stm world A :=
  m ← on_leases (mt_enter SL L M maintenance lease lease_duration);
  λ w, match body m w with
       | (Ok a, w) => (on_leases (mt_exit SL L M maintenance m) ;; mret a) w
       | (Err e, w) => (on_leases (mt_exit SL L M maintenance m) ;; lift (Err e)) w
       end.

Definition maintenance_succeed (m : M) (result_ref : TypedRef) : stm world EffectTerminal :=
  t ← on_leases (mt_succeed SL L M maintenance m (TypedRef_reference result_ref));
  lift (EffectTerminal_from_lease unicode_name t).

Definition maintenance_fail (m : M) (result_ref : TypedRef) (failure : TerminalFailure) :
    stm world EffectTerminal :=
  f ← lift (to_lease_failure failure);
  t ← on_leases (mt_fail SL L M maintenance m (TypedRef_reference result_ref) f);
  lift (EffectTerminal_from_lease unicode_name t).

(** The evaluation under the lease: its result, persisted, or the failure it is
    recorded with. *)
Definition evaluate_to_result (call : ToolCall) (config : ToolConfig) (ordinal : Z) :
    stm world (ToolResult * option TerminalFailure) :=
  outcome ← evaluate call config;
  built ← lift
    match outcome with
    | Evaluated evaluation => successful_result call ordinal evaluation config
    | EvaluationFailed failure => Ok (inr failure)
    | EvaluationRejected reason =>
        failure ← new_failure TOOL_EVALUATION_REJECTED_CODE
          $"Tool evaluation was rejected after the call was admitted" [($"reason", PStr reason)];
        Ok (inr failure)
    end;
  match built with
  | inl result => mret (result, None)
  | inr failure =>
      call_ref ← lift (tool_call_reference call);
      result ← lift (ToolResult_validate
        {| res_call := call_ref; res_output := None; res_refusal := None;
           res_terminal_failure := Some failure; res_evaluation_evidence_refs := [];
           res_reward := None; res_provenance_note := None;
           res_provenance_ordinal := Some ordinal |});
      mret (result, Some failure)
  end.

Definition evaluate_under_lease (call : ToolCall) (config : ToolConfig) (ordinal : Z) (lease : L) :
    stm world (ToolResult * EffectTerminal) :=
  with_maintenance lease (λ m,
    '(result, terminal_failure) ← evaluate_to_result call config ordinal;
    result_ref ← persist_result result;
    terminal ← match terminal_failure with
               | None => maintenance_succeed m result_ref
               | Some failure => maintenance_fail m result_ref failure
               end;
    mret (result, terminal)).

(** An effect that already ended: its recorded result completes the call. *)
Definition complete_recorded (call : ToolCall) (terminal : EffectTerminal)
    (agrees : ToolResult → result unit) : stm world ToolResult :=
  result_ref ← lift (of_option (et_result_ref terminal) RuntimeError
    "Tool effect has no exact Tool Result ref");
  result ← load_result parse_result result_ref call;
  lift (agrees result) ;;
  completed ← complete result (Some terminal);
  load completed.

(** What follows the acquisition of the effect. *)
Definition execute_acquired (call : ToolCall) (config : ToolConfig) (entry : ToolCallStoreEntry)
    (acquisition : EffectAcquireResult L) : stm world ToolResult :=
  match ear_outcome L acquisition with
  | AcquireSUCCEEDED =>
      terminal ← lift (of_option (ear_terminal L acquisition) RuntimeError
        "succeeded Tool effect has no exact Tool Result ref");
      complete_recorded call terminal (λ result,
        require (negb (is_some (res_terminal_failure result))) RuntimeError
          "succeeded Tool effect references a failed Tool Result")
  | AcquireFAILED =>
      terminal ← lift (of_option (ear_terminal L acquisition) RuntimeError
        "failed Tool effect has incomplete terminal evidence");
      lift (require (is_some (et_result_ref terminal) && is_some (et_failure terminal))
        RuntimeError "failed Tool effect has incomplete terminal evidence") ;;
      complete_recorded call terminal (λ result,
        same_failure ← optional_eq TerminalFailure_eq (res_terminal_failure result)
                         (et_failure terminal);
        require same_failure RuntimeError
          "failed Tool effect and Tool Result disagree")
  | BUSY =>
      lift (of_option (ear_busy_expires_at L acquisition) RuntimeError
        "busy Tool effect has no expiration") ;;
      lift (raise ToolExecutionBusyError "Tool execution is busy")
  | REQUEST_CONFLICT =>
      lift (raise ToolExecutionConflictError "Tool execution key is bound to another exact request")
  | AcquireRECOVERY_REQUIRED =>
      lift (require (match ear_terminal L acquisition with
                     | Some terminal => is_some (et_failure terminal) | None => false end)
        RuntimeError "recovery-required Tool effect has no failure") ;;
      lift (raise ToolExecutionRecoveryRequiredError "")
  | ACQUIRED =>
      lease ← lift (of_option (ear_lease L acquisition) RuntimeError
        "unrecognized Tool effect acquisition");
      ordinal ← lift (of_option (sce_capacity_debit_ordinal entry) RuntimeError
        "accepted Tool Call entry has no capacity ordinal");
      '(result, terminal) ← evaluate_under_lease call config ordinal lease;
      completed ← complete result (Some terminal);
      load completed
  end.

(** The decision of the call: stored before, refused on validation, or made by
    admission; and whether its result is loaded at once. *)
Definition decide_call (call : ToolCall) (config : ToolConfig) :
    stm world (ToolCallStoreEntry * bool) :=
  existing ← get_entry backend call;
  match existing with
  | Some entry => mret (entry, bool_decide (sce_state entry = REFUSED))
  | None =>
      invalid ← validate call config;
      match invalid with
      | Some reason =>
          refusal ← lift (ToolRefusal_new VALIDATION reason);
          entry ← refuse_call backend call config refusal;
          mret (entry, true)
      | None =>
          entry ← admit_call backend call config;
          mret (entry, bool_decide (sce_state entry = REFUSED))
      end
  end.

(** [execute], the closure of [runtime_handle]; [attempt_id] is a fresh
    [uuid4().hex]. *)
Definition execute (validated_config : ToolConfig) (attempt_id : pystr) (raw_call : ToolCall) :
    stm world ToolResult :=
  call ← lift (ToolCall_model_validate raw_call);
  lift (require (bool_decide (tcr_record (tcall_tool_config call) = validated_config)) ValueError
    "Tool Call must cite the runtime handle's exact Config") ;;
  '(entry, refused) ← decide_call call validated_config;
  if refused : bool then load entry
  else
    request ← lift (tool_effect_request call);
    acquisition ← on_leases (authority_acquire unicode_name authority request owner_id attempt_id
                               lease_duration);
    execute_acquired call validated_config entry acquisition.

(** [EvaluatingToolExecutor.__init__]. *)
Definition EvaluatingToolExecutor_init : result unit :=
  require (negb (bool_decide (owner_id = []))) ValueError "owner_id must be non-empty" ;;
  require (0 <? lease_duration)%Z ValueError "lease_duration must be positive".

(** [runtime_handle]; [same_authority] tells whether the store shares the
    executor's authority. *)
Definition runtime_handle (same_authority : bool) (config : ToolConfig)
    (binding : ToolCapacityBinding) (attempt_id : pystr) : result (RuntimeToolHandle world) :=
  validated_config ← ToolConfig_model_validate config;
  validated_binding ← ToolCapacityBinding_validate binding;
  require same_authority ValueError
    "Tool executor and Tool Call Store must share one exact EffectLeaseAuthority instance" ;;
  policy_hash ← RewardPolicy_identity_hash reward_policy;
  require (bool_decide (tc_reward_policy_hash validated_config = policy_hash)) ValueError
    "Tool Config reward_policy_hash does not match the executor's exact Reward Policy" ;;
  require (bool_decide (replay_policy =
             if tc_idempotent_replay validated_config then Leasing.IDEMPOTENT else NO_REDRIVE))
    ValueError "explicit ReplayPolicy disagrees with the exact Tool Config" ;;
  RuntimeToolHandle_new validated_config validated_binding (execute validated_config attempt_id).
End Executor.

(** ** Properties over the in-memory ledger *)

Section ExecutorSpecs.
Context `{DSer : !DrSerialize, DSto : !DrStore, DOs : !DrObjectStore, DLaws : !DrObjectStoreLaws}.
Context `{DLease : !DrLease} {SL L M : Type} (authority : LeaseAuthority SL L).
Context (maintenance : LeaseMaintenance SL L M) (evaluator : ToolEvaluator).
Variable parse_result : pyval → result ToolResult.
Variable unicode_name : pystr → option Z.
Variables (reward_policy : RewardPolicy) (owner_id : pystr) (lease_duration : Z).

Abbreviation world := (World MemState SL).
Implicit Types (w : world).
Abbreviation loads := (load_terminal_result memory_backend authority parse_result unicode_name).

(** *** The invariant *)

Lemma spec_evaluate w call config e :
  world_inv w → paid (w_ledger w) call e →
  spec w (evaluate evaluator call config) (λ _ _, True).
Proof.
  intros [Hl Hm Hd Hp] Hpaid. split; [by split|]. split; [|simpl; by destruct (ev_evaluate evaluator _ _ _)].
  split; simpl; [done..|]. intros c. rewrite elem_of_app, list_elem_of_singleton.
  intros [Hc| ->]; [by apply Hp|by exists e].
Qed.

Lemma spec_with_maintenance {A} w lease (body : M → stm world A) (Q : A → world → Prop) :
  world_inv w →
  (∀ m w1, world_step w w1 → world_inv w1 → w_ledger w1 = w_ledger w → spec w1 (body m) Q) →
  (∀ a w1 w2, w_ledger w2 = w_ledger w1 → Q a w1 → Q a w2) →
  spec w (with_maintenance maintenance lease_duration lease body) Q.
Proof.
  intros Hw Hbody HQ. eapply spec_bind.
  { by apply spec_leases with (Q := λ _ w1, w_ledger w1 = w_ledger w). }
  intros m w1 Hs1 Hw1 Hl. destruct (Hbody m w1) as (Hs & Hi & Hq); [done..|].
  unfold spec. destruct (body m w1) as [[a|err] w2]; simpl in *.
  - assert (spec w2 (on_leases (mt_exit SL L M maintenance m) ;; mret a) Q) as (Hs2 & Hi2 & HQ2).
    { eapply spec_bind; [by apply spec_leases with (Q := λ _ w3, w_ledger w3 = w_ledger w2)|].
      intros ? w3 _ Hw3 Hl3. apply spec_ret; [done|]. eapply HQ; [exact Hl3|done]. }
    split; [by etrans|]. by split.
  - assert (spec w2 (on_leases (mt_exit SL L M maintenance m) ;; lift (Err err)) Q)
      as (Hs2 & Hi2 & HQ2).
    { eapply spec_bind; [by apply spec_leases with (Q := λ _ _, True)|].
      intros ? w3 _ Hw3 _. by apply spec_lift. }
    split; [by etrans|]. by split.
Qed.

Lemma ToolResult_validate_self r r' : ToolResult_validate r = Ok r' → r' = r.
Proof. unfold ToolResult_validate. intros H. by inv_ok. Qed.

Lemma successful_result_call call n evaluation config r :
  successful_result reward_policy call n evaluation config = Ok (inl r) →
  tool_call_reference call = Ok (res_call r).
Proof.
  unfold successful_result. intros H. inv_result.
  match goal with H : context [te_eval_config_hash evaluation] |- _ => revert H end.
  case_bool_decide; simpl; [|intros H'; by inv_result].
  match goal with |- context [match ?b with Ok _ => _ | Err _ => _ end] => destruct b as [x|exc] eqn:Hb end.
  - intros [= ->]. inv_result.
    match goal with H : ToolResult_validate _ = Ok r |- _ =>
      pose proof (ToolResult_validate_self _ _ H) end. by subst.
  - destruct (exn_isa _ _); [|done]. intros H'. by inv_result.
Qed.

Lemma spec_evaluate_to_result w call config n e :
  world_inv w → paid (w_ledger w) call e →
  spec w (evaluate_to_result evaluator reward_policy call config n) (λ rf _,
    tool_call_reference call = Ok (res_call rf.1)).
Proof.
  intros Hw Hpaid. unfold evaluate_to_result. eapply spec_bind; [by eapply spec_evaluate|].
  intros outcome w1 _ Hw1 _. apply spec_lift_bind; [done|]. intros built Hbuilt.
  destruct built as [r|failure].
  - apply spec_ret; [done|]. simpl. destruct outcome; [by eapply successful_result_call|done|].
    by inv_result.
  - apply spec_lift_bind; [done|]. intros ref Href. apply spec_lift_bind; [done|].
    intros r ->%ToolResult_validate_self. by apply spec_ret.
Qed.

(** What an execution of [call] returns: the loaded result of its decision. *)
Definition executed (call : ToolCall) (r : ToolResult) (w : world) : Prop :=
  ∃ e, loaded e r w ∧ same_call (tcallr_record (sce_tool_call e)) call.

Lemma loaded_stored w e call r :
  world_inv w → loaded e r w → same_call (tcallr_record (sce_tool_call e)) call →
  dict_get (ms_entries (w_ledger w)) (call_key call) = Some e.
Proof.
  intros Hw He <-. pose proof (ld_stored _ _ _ He) as Hst.
  by rewrite (valid_entry_key _ (world_entry_valid _ _ _ Hw Hst)) in Hst.
Qed.

Lemma loaded_executed w e call r :
  (∃ e', entry_eq e' e = Ok true ∧ loaded e' r w) → same_call (tcallr_record (sce_tool_call e)) call →
  executed call r w.
Proof.
  intros (e' & [[Hsame _] _]%entry_eq_same & He') Hcall. exists e'. split; [done|]. by etrans.
Qed.

Lemma spec_complete_then_load w r t call :
  world_inv w → same_call (tcallr_record (res_call r)) call →
  spec w (completed ← complete memory_backend authority unicode_name r t; loads completed)
    (executed call).
Proof.
  intros Hw Hsame. eapply spec_bind; [by apply spec_complete_call|].
  intros d w1 _ Hw1 [Hd Hcall]. eapply spec_weaken; [by apply spec_load_terminal_result|].
  intros r' w2 _ _ Hloaded.
  exact (loaded_executed _ _ _ _ Hloaded (transitivity Hcall Hsame)).
Qed.

Lemma reference_same call ref : tool_call_reference call = Ok ref → same_call (tcallr_record ref) call.
Proof. by intros ->%tool_call_reference_record. Qed.

Lemma spec_complete_recorded w call t agrees :
  world_inv w →
  spec w (complete_recorded memory_backend authority parse_result unicode_name call t agrees)
    (executed call).
Proof.
  intros Hw. unfold complete_recorded. apply spec_lift_bind; [done|]. intros ref _.
  eapply spec_bind; [by apply spec_load_result|].
  intros r w1 _ Hw1 (call_ref & Href%reference_same & [Hr _]).
  apply spec_lift_bind; [done|]. intros _ _. apply spec_complete_then_load; [done|]. by etrans.
Qed.

Lemma spec_evaluate_under_lease w call config n lease e :
  world_inv w → paid (w_ledger w) call e →
  spec w (evaluate_under_lease maintenance evaluator unicode_name reward_policy
            lease_duration call config n lease)
    (λ rt _, tool_call_reference call = Ok (res_call rt.1)).
Proof.
  intros Hw Hpaid. apply spec_with_maintenance; [done| |done].
  intros m w1 _ Hw1 Hl. eapply spec_bind.
  { eapply spec_evaluate_to_result; [done|]. by rewrite Hl. }
  intros [r failure] w2 _ Hw2 Hr. eapply spec_bind; [by apply spec_persist_result|].
  intros ref w3 _ Hw3 _. eapply (spec_bind _ _ _ (λ _ _, True)).
  { destruct failure as [f|].
    - unfold maintenance_fail. apply spec_lift_bind; [done|]. intros lf _.
      eapply spec_bind; [by apply spec_leases with (Q := λ _ _, True)|].
      intros t w4 _ Hw4 _. by apply spec_lift.
    - eapply spec_bind; [by apply spec_leases with (Q := λ _ _, True)|].
      intros t w4 _ Hw4 _. by apply spec_lift. }
  intros t w4 _ Hw4 _. by apply spec_ret.
Qed.

Lemma spec_raise {A} w c msg (Q : A → world → Prop) : world_inv w → spec w (lift (raise c msg)) Q.
Proof. intros Hw. by apply spec_lift. Qed.

Lemma spec_execute_acquired w call config entry acq e :
  world_inv w → paid (w_ledger w) call e →
  spec w (execute_acquired memory_backend authority maintenance evaluator parse_result unicode_name
            reward_policy lease_duration call config entry acq)
    (executed call).
Proof.
  intros Hw Hpaid. unfold execute_acquired. destruct (ear_outcome L acq).
  all: repeat first [by apply spec_complete_recorded|by apply spec_raise|
                     apply spec_lift_bind; [done|]; intros ? _].
  eapply spec_bind; [by eapply spec_evaluate_under_lease|]. intros [r t] w1 _ Hw1 Hr.
  apply spec_complete_then_load; [done|]. by apply reference_same.
Qed.

Lemma spec_decide_call w call config :
  world_inv w →
  spec w (decide_call memory_backend evaluator call config) (λ er w1,
    decided call er.1 w1 ∧ (er.2 = false → sce_state er.1 ≠ REFUSED)).
Proof.
  intros Hw. unfold decide_call. eapply spec_bind; [by apply spec_get_entry|].
  intros [e|] w1 _ Hw1 He; [apply spec_ret; [done|]; split; [done|by case_bool_decide]|].
  eapply (spec_bind _ _ _ (λ _ _, True)); [split; [done|]; split; [done|]; by case_match|].
  intros [reason|] w2 _ Hw2 _.
  - apply spec_lift_bind; [done|]. intros refusal _.
    eapply spec_bind; [by apply spec_refuse_call|]. intros e w3 _ Hw3 He'. by apply spec_ret.
  - eapply spec_bind; [by apply spec_admit_call|]. intros e w3 _ Hw3 He'.
    apply spec_ret; [done|]. split; [done|by case_bool_decide].
Qed.

Lemma spec_execute w config attempt raw :
  world_inv w →
  spec w (execute memory_backend authority maintenance evaluator parse_result unicode_name
            reward_policy owner_id lease_duration config attempt raw)
    (executed raw).
Proof.
  intros Hw. unfold execute. apply spec_lift_bind; [done|].
  intros call ->%ToolCall_model_validate_Ok. apply spec_lift_bind; [done|]. intros _ _.
  eapply spec_bind; [by apply spec_decide_call|]. intros [e refused] w1 _ Hw1 [[He Hcall] Hs].
  simpl in *. destruct refused.
  - eapply spec_weaken; [by apply spec_load_terminal_result|]. intros r w2 _ _ Hr.
    exact (loaded_executed _ _ _ _ Hr Hcall).
  - apply spec_lift_bind; [done|]. intros request _. eapply spec_bind.
    { by apply spec_leases with (Q := λ _ w2, w_ledger w2 = w_ledger w1). }
    intros acq w2 _ Hw2 Hl. eapply spec_execute_acquired; [done|]. rewrite Hl. apply stored_paid; [done..|by apply Hs].
Qed.
End ExecutorSpecs.

(** *** Calls given to the evaluator *)

Section Evaluations.
Context `{DSer : !DrSerialize, DSto : !DrStore, DOs : !DrObjectStore, DLease : !DrLease}.
Context {SL : Type}.
Abbreviation world := (World MemState SL).

(** [m] gives [call] to the evaluator at most [n] times, and no other call. *)
Definition within {A} (call : ToolCall) (n : nat) (m : stm world A) : Prop := ∀ w,
  ∃ k, (k <= n)%nat ∧ w_evaluations (m w).2 = w_evaluations w ++ replicate k call.

Lemma within_bind {A B} call n1 n2 (m : stm world A) (f : A → stm world B) :
  within call n1 m → (∀ a, within call n2 (f a)) → within call (n1 + n2) (m ≫= f).
Proof.
  intros Hm Hf w. destruct (Hm w) as (k1 & Hk1 & H1). unfold mbind, stm_bind.
  destruct (m w) as [[a|e] w1]; simpl in *; [|exists k1; split; [lia|done]].
  destruct (Hf a w1) as (k2 & Hk2 & H2). exists (k1 + k2)%nat. split; [lia|].
  by rewrite H2, H1, replicate_add, app_assoc.
Qed.

Lemma within_silent {A} call n (m : stm world A) :
  (∀ w, w_evaluations (m w).2 = w_evaluations w) → within call n m.
Proof. intros Hm w. exists 0%nat. split; [lia|]. by rewrite Hm, app_nil_r. Qed.

Lemma within_lift {A} call n (r : result A) : within call n (lift r).
Proof. by apply within_silent. Qed.

Lemma within_ret {A} call n (a : A) : within call n (mret a).
Proof. by apply within_silent. Qed.

Lemma within_ledger {A} call n (m : stm MemState A) : within call n (on_ledger m).
Proof. apply within_silent. intros w. unfold on_ledger. by destruct (m (w_ledger w)). Qed.

Lemma within_leases {A} call n (m : stm SL A) : within call n (on_leases m).
Proof. apply within_silent. intros w. unfold on_leases. by destruct (m (w_leases w)). Qed.

Lemma within_store {A} call n (m : stm ostate A) : within call n (on_store m).
Proof. apply within_silent. intros w. unfold on_store. by destruct (m (w_store w)). Qed.

Lemma within_weaken {A} call n1 n2 (m : stm world A) :
  (n1 <= n2)%nat → within call n1 m → within call n2 m.
Proof. intros Hn Hm w. destruct (Hm w) as (k & Hk & Hw). exists k. split; [lia|done]. Qed.

(** A silent step before the rest. *)
Lemma within_then {A B} call n (m : stm world A) (f : A → stm world B) :
  within call 0 m → (∀ a, within call n (f a)) → within call n (m ≫= f).
Proof. apply within_bind. Qed.
End Evaluations.

Create HintDb evaluations.
#[export] Hint Resolve within_lift within_ret within_ledger within_leases within_store : evaluations.

(** [silent] walks through the steps of an unfolded operation. *)
Ltac silent :=
  cbv zeta;
  repeat first
    [ progress intros
    | solve [auto with evaluations]
    | apply within_then
    | progress case_match ].

Section AtMostOnce.
Context `{DSer : !DrSerialize, DSto : !DrStore, DOs : !DrObjectStore, DLease : !DrLease}.
Context {SL L M : Type} (authority : LeaseAuthority SL L).
Context (maintenance : LeaseMaintenance SL L M) (evaluator : ToolEvaluator).
Variable parse_result : pyval → result ToolResult.
Variable unicode_name : pystr → option Z.
Variables (reward_policy : RewardPolicy) (owner_id : pystr) (lease_duration : Z).
Abbreviation world := (World MemState SL).
Implicit Types (raw call : ToolCall).

Lemma within_put_as raw schema content expected :
  within (SL:=SL) raw 0 (put_as schema content expected).
Proof. unfold put_as, put_exact. silent. Qed.
#[local] Hint Resolve within_put_as : evaluations.

Lemma within_put_exact raw schema content : within (SL:=SL) raw 0 (put_exact schema content).
Proof. unfold put_exact. silent. Qed.
#[local] Hint Resolve within_put_exact : evaluations.

Lemma within_persist_call_chain raw call config :
  within (SL:=SL) raw 0 (persist_call_chain call config).
Proof. unfold persist_call_chain. silent. Qed.

Lemma within_persist_result raw r : within (SL:=SL) raw 0 (persist_result r).
Proof. unfold persist_result. silent. Qed.
#[local] Hint Resolve within_persist_call_chain within_persist_result : evaluations.

Lemma within_get_entry raw call : within (SL:=SL) raw 0 (get_entry memory_backend call).
Proof. unfold get_entry. silent. Qed.

Lemma within_validate_result_authority raw r e :
  within (SL:=SL) raw 0 (validate_result_authority memory_backend r e).
Proof. unfold validate_result_authority. silent. Qed.
#[local] Hint Resolve within_get_entry within_validate_result_authority : evaluations.

Lemma within_complete raw r t :
  within raw 0 (complete memory_backend authority unicode_name r t).
Proof. unfold complete. silent. Qed.

Lemma within_load raw e :
  within raw 0 (load_terminal_result memory_backend authority parse_result unicode_name e).
Proof. unfold load_terminal_result, check_loaded. silent. Qed.

Lemma within_load_result raw ref call :
  within (SL:=SL) raw 0 (load_result parse_result ref call).
Proof. unfold load_result. silent. Qed.
#[local] Hint Resolve within_complete within_load within_load_result : evaluations.

Lemma within_decide_call raw call config :
  within (SL:=SL) raw 0 (decide_call memory_backend evaluator call config).
Proof.
  unfold decide_call, refuse_call, admit_call, validate. silent. by apply within_silent.
Qed.

Lemma within_evaluate_to_result call config n :
  within (SL:=SL) call 1 (evaluate_to_result evaluator reward_policy call config n).
Proof.
  unfold evaluate_to_result. apply (within_bind _ 1 0); [|silent].
  intros w. by exists 1%nat.
Qed.

Lemma within_evaluate_under_lease call config n lease :
  within call 1 (evaluate_under_lease maintenance evaluator unicode_name reward_policy
    lease_duration call config n lease).
Proof.
  unfold evaluate_under_lease, with_maintenance. apply within_then; [auto with evaluations|].
  intros m w.
  match goal with |- context [match ?b w with _ => _ end] => set (body := b) end.
  assert (within call 1 body) as Hbody.
  { apply (within_bind _ 1 0); [apply within_evaluate_to_result|].
    unfold maintenance_succeed, maintenance_fail. silent. }
  destruct (Hbody w) as (k & Hk & Hw). exists k. split; [done|].
  destruct (body w) as [[a|e] w1]; simpl in *; unfold on_leases, mbind, stm_bind;
    by destruct (mt_exit _ _ _ _ _ _) as [[] ?].
Qed.

Lemma within_execute_acquired call config entry acq :
  within call 1 (execute_acquired memory_backend authority maintenance evaluator parse_result
    unicode_name reward_policy lease_duration call config entry acq).
Proof.
  unfold execute_acquired, complete_recorded. destruct (ear_outcome L acq).
  1: do 2 (apply within_then; [auto with evaluations|]; intros ?).
  1: apply (within_bind _ 1 0); [apply within_evaluate_under_lease|silent].
  all: apply (within_weaken _ 0); [lia|silent].
Qed.

Lemma within_execute config attempt raw :
  within raw 1 (execute memory_backend authority maintenance evaluator parse_result unicode_name
    reward_policy owner_id lease_duration config attempt raw).
Proof.
  unfold execute. intros w. unfold mbind at 1, stm_bind at 1, lift at 1.
  destruct (ToolCall_model_validate raw) as [call|] eqn:Hcall;
    [|exists 0%nat; split; [lia|by rewrite app_nil_r]].
  apply ToolCall_model_validate_Ok in Hcall as ->. revert w.
  apply within_then; [apply within_lift|]. intros _.
  apply within_then; [apply within_decide_call|]. intros [e refused].
  destruct refused; [apply (within_weaken raw 0); [lia|apply within_load]|].
  do 2 (apply within_then; [auto with evaluations|]; intros ?).
  apply within_execute_acquired.
Qed.
End AtMostOnce.

(** *** The main theorems *)

(** The scope a call's admission debits. *)
Definition call_scope `{!DrSerialize} (call : ToolCall) : result ScopeKey :=
  '(scope, scope_id) ← capacity_scope_key (tcall_capacity_binding call);
  Ok (ToolCall_store_namespace_key call, tcr_config_hash (tcall_tool_config call),
      ToolCapacityScope_value scope, scope_id).

Section ExecutorTheorems.
Context `{DSer : !DrSerialize, DSto : !DrStore, DOs : !DrObjectStore, DLaws : !DrObjectStoreLaws}.
Context `{DLease : !DrLease} {SL L : Type} (authority : LeaseAuthority SL L).
Variable parse_result : pyval → result ToolResult.
Variable unicode_name : pystr → option Z.

Abbreviation world := (World MemState SL).
Implicit Types (w : world).

(** One operation of any of the programs that share the store: the store's own
    operations, an execution by whatever executor, and what the other users of
    the object store and of the lease authority do. *)
Inductive tool_step w : world → Prop :=
| tool_admits call config : tool_step w (admit_call memory_backend call config w).2
| tool_refuses call config refusal :
    tool_step w (refuse_call memory_backend call config refusal w).2
| tool_completes r t : tool_step w (complete memory_backend authority unicode_name r t w).2
| tool_executes M (maintenance : LeaseMaintenance SL L M) evaluator policy owner duration
    config attempt call :
    tool_step w (execute memory_backend authority maintenance evaluator parse_result unicode_name
                   policy owner duration config attempt call w).2
| tool_others s l :
    grows (w_store w) s →
    tool_step w {| w_store := s; w_ledger := w_ledger w; w_leases := l;
                   w_evaluations := w_evaluations w |}.

Lemma tool_step_ok w w' : tool_step w w' → world_inv w → world_step w w' ∧ world_inv w'.
Proof.
  intros Hstep Hw. destruct Hstep as [call config|call config refusal|r t|M mt ev p o d c a call|s l Hg].
  - by destruct (spec_admit_call w call config Hw) as (? & ? & _).
  - by destruct (spec_refuse_call w call config refusal Hw) as (? & ? & _).
  - by destruct (spec_complete_call authority unicode_name w r t Hw) as (? & ? & _).
  - by destruct (spec_execute authority mt ev parse_result unicode_name p o d w c a call Hw)
      as (? & ? & _).
  - split; [by split|]. destruct Hw as [Hl Hm Hd Hp]. split; simpl; [done..| |done].
    intros k e ref Hk He. destruct (Hd k e ref Hk He) as [r Hr]. exists r.
    by eapply durable_result_grows.
Qed.

Lemma empty_world_inv w :
  w_ledger w = empty_state → w_evaluations w = [] → world_inv w.
Proof.
  intros Hl He. split; rewrite ?Hl, ?He; simpl; [apply empty_inv|by intros ???|done|].
  by intros ? ?%elem_of_nil.
Qed.

Lemma tool_steps_ok w w' : rtc tool_step w w' → world_inv w → world_step w w' ∧ world_inv w'.
Proof.
  induction 1 as [w|w w1 w2 Hstep _ IH]; [done|]. intros Hw.
  destruct (tool_step_ok _ _ Hstep Hw) as [Hs1 Hw1]. destruct (IH Hw1) as [Hs2 Hw2].
  split; [by etrans|done].
Qed.

(** C30. Tool results are durable. Start from an empty ledger and let any
    programs admit, refuse, complete and execute calls, in any order and with
    any failures in between: the ledger only makes the steps of the admission
    authority, and the result that a decided entry references is in the object
    store, valid, addressed by exactly that reference, of exactly that call,
    with the entry's refusal and the entry's ordinal. *)
Theorem tool_results_durable w w' :
  w_ledger w = empty_state → w_evaluations w = [] → rtc tool_step w w' →
  rtc admission_step empty_state (w_ledger w') ∧
  ∀ k e ref, dict_get (ms_entries (w_ledger w')) k = Some e → sce_tool_result_ref e = Some ref →
    ∃ r, durable_result (w_store w') e ref r.
Proof.
  intros Hl He Hsteps. destruct (tool_steps_ok _ _ Hsteps (empty_world_inv _ Hl He)) as [Hs Hw].
  split; [rewrite <-Hl; apply Hs|apply Hw].
Qed.

(** C32. An execution is exact and evaluates at most once. Whether it returns or
    raises, it gives the evaluator the call at most once, and not at all when
    the call's decision is a refusal. A result it returns is the one that the
    call's stored decision references, and carries that decision's refusal or
    ordinal. *)
Theorem execute_exact {M} (maintenance : LeaseMaintenance SL L M) evaluator policy owner duration
    w config attempt call :
  world_inv w →
  let o := execute memory_backend authority maintenance evaluator parse_result unicode_name
             policy owner duration config attempt call w in
  (∃ k, (k <= 1)%nat ∧ w_evaluations o.2 = w_evaluations w ++ replicate k call ∧
     ∀ e, dict_get (ms_entries (w_ledger o.2)) (call_key call) = Some e →
       sce_state e = REFUSED → k = 0%nat) ∧
  ∀ r, o.1 = Ok r → ∃ e, loaded e r o.2 ∧ same_call (tcallr_record (sce_tool_call e)) call.
Proof.
  intros Hw o.
  destruct (within_execute authority maintenance evaluator parse_result unicode_name policy owner
              duration config attempt call w) as (k & Hk & Hev).
  destruct (spec_execute authority maintenance evaluator parse_result unicode_name policy owner
              duration w config attempt call Hw) as (_ & Hw' & Hr).
  fold o in Hev, Hw', Hr. split.
  - exists k. split; [done|]. split; [done|]. intros e He Hs. destruct k as [|k]; [done|].
    destruct (wi_paid _ Hw' call) as [e' He'].
    { rewrite Hev. apply elem_of_app. right. by apply elem_of_cons; left. }
    destruct He'. congruence.
  - intros r Ho. by rewrite Ho in Hr.
Qed.

Lemma length_omap_filter {A B} (f : A → option B) (P : A → Prop) `{!∀ x, Decision (P x)} l :
  (∀ x, P x → is_Some (f x)) → (length (filter P l) <= length (omap f l))%nat.
Proof.
  intros HP. induction l as [|x l IH]; [done|]. rewrite filter_cons. csimpl.
  destruct (decide (P x)) as [Hx|]; [destruct (HP x Hx) as [y ->]; simpl; lia|].
  destruct (f x); simpl; lia.
Qed.

#[export] Instance call_scope_proper : Proper (same_call ==> (=)) call_scope.
Proof.
  intros c c' [_ Hconfig Hbinding _]. unfold call_scope, ToolCall_store_namespace_key.
  by rewrite Hconfig, Hbinding.
Qed.

Lemma paid_entry w sk call e :
  world_inv w → paid (w_ledger w) call e → call_scope call = Ok sk →
  (call_key call, e) ∈ ms_entries (w_ledger w) ∧ scope_key e = Ok sk ∧
  entry_maximum e = tcap_max_accepted_calls (tc_capacity (tcr_record (tcall_tool_config call))).
Proof.
  intros Hw [Hget Hcall _ _] Hsk. pose proof (dict_get_Some _ _ _ Hget) as Hin.
  destruct (inv_entry _ (wi_ledger _ Hw) _ _ Hin) as [_ Hv]. split; [done|].
  split; [|unfold entry_maximum; by rewrite Hcall].
  destruct (valid_scope_key e Hv) as ([s i] & Hi & ->). rewrite <-Hcall in Hsk.
  unfold call_scope in Hsk. rewrite Hi in Hsk. exact Hsk.
Qed.

(** Calls that were paid for and are not the same have different keys. *)
Lemma distinct_calls_keys st calls :
  (∀ call, call ∈ calls → ∃ e, paid st call e) →
  ForallOrdPairs (λ c c', ¬ same_call c c') calls → NoDup (call_key <$> calls).
Proof.
  intros Hpaid. induction 1 as [|c l Hc _ IH]; csimpl; constructor.
  - intros (c' & Hk & Hin)%list_elem_of_fmap. rewrite Forall_forall in Hc. apply (Hc c' Hin).
    destruct (Hpaid c) as [e [Hget Hcall _ _]]; [by apply elem_of_cons; left|].
    destruct (Hpaid c') as [e' [Hget' Hcall' _ _]]; [by apply elem_of_cons; right|].
    rewrite Hk, Hget' in Hget. injection Hget as ->.
    etrans; [by symmetry|exact Hcall'].
  - apply IH. intros c' Hc'. apply Hpaid. by apply elem_of_cons; right.
Qed.

(** C33. The evaluator's work is bounded by the capacity. Whatever programs run,
    crash and retry, the distinct calls of one capacity scope that were ever
    given to an evaluator are at most the number of calls the tool config of
    each of them accepts; calls that differ in the key order of their arguments
    only are the same call. *)
Theorem evaluations_within_capacity w w' calls sk :
  w_ledger w = empty_state → w_evaluations w = [] → rtc tool_step w w' →
  ForallOrdPairs (λ c c', ¬ same_call c c') calls → calls ⊆ w_evaluations w' → (∀ call, call ∈ calls → call_scope call = Ok sk) →
  ∀ call, call ∈ calls →
    (Z.of_nat (length calls) <=
     tcap_max_accepted_calls (tc_capacity (tcr_record (tcall_tool_config call))))%Z.
Proof.
  intros Hl He Hsteps Hnd Hsub Hscope call Hcall.
  destruct (tool_steps_ok _ _ Hsteps (empty_world_inv _ Hl He)) as [_ Hw].
  set (st := w_ledger w'). set (P := λ ke : EntryKey * ToolCallStoreEntry, is_Some (debited sk ke)).
  assert (∀ c, c ∈ calls → ∃ e, paid st c e) as Hpaid by (intros; by apply (wi_paid _ Hw), Hsub).
  assert (length calls <= length (ordinals st sk))%nat as Hlen.
  { etrans; [|apply (length_omap_filter _ P); done].
    rewrite <-(length_fmap call_key calls), <-(length_fmap fst (filter P _)).
    apply submseteq_length, NoDup_submseteq; [by eapply distinct_calls_keys|].
    intros k (c & -> & Hc)%list_elem_of_fmap.
    destruct (Hpaid c Hc) as [e He']. destruct (paid_entry _ _ _ _ Hw He' (Hscope c Hc)) as (? & ? & _).
    apply list_elem_of_fmap. exists (call_key c, e). split; [done|].
    apply list_elem_of_filter. split; [|done]. unfold P, debited. simpl. rewrite decide_True by done.
    pose proof (paid_ordinal _ _ _ He'). by destruct (sce_capacity_debit_ordinal e). }
  pose proof (inv_ordinals _ (wi_ledger _ Hw) sk) as Hperm. fold st in Hperm.
  rewrite Hperm, length_seqZ in Hlen.
  destruct (Hpaid call Hcall) as [e He'].
  destruct (paid_entry _ _ _ _ Hw He' (Hscope call Hcall)) as (Hin & Hsk & <-).
  assert (dict_get (ms_entries st) (call_key call) = Some e) as Hget.
  { apply dict_get_NoDup; [apply Hw|done]. }
  destruct (wi_maximum _ Hw _ _ _ Hget (paid_ordinal _ _ _ He') Hsk) as [n Hn].
  pose proof (inv_capacity _ (wi_ledger _ Hw) _ _ _ Hn) as Hbound.
  unfold consumed in Hlen. fold st in Hn. rewrite Hn in Hlen. simpl in Hlen. lia.
Qed.
End ExecutorTheorems.

(** ** A concrete run

    Two calls of a tool that may be called once: the evaluator rejects the
    first, the second finds no capacity left. *)
Module ConcreteExecutor.
Import Concrete ConcreteLease ConcreteAdmission.

#[export] Instance objects : DrObjectStore := ListStore.list_store.

#[export] Instance objects_laws : DrObjectStoreLaws.
Proof.
  apply ListStore.list_store_laws. intros schema v r. simpl. destruct (is_json v); [|done].
  by intros [= <-].
Qed.

(** Every effect is granted; a lease is its request, owner and attempt. *)
Definition Lease : Type := LeaseRequest * pystr * pystr.

Definition ended (l : Lease) (outcome : TerminalOutcome) (r : ObjectReference)
    (failure : option LeaseTerminalFailure) : Terminal :=
  {| term_request := l.1.1; term_outcome := outcome; term_owner_id := l.1.2;
     term_attempt_id := l.2; term_fence := 1; term_result_ref := Some r;
     term_failure := failure |}.

Definition leases : LeaseAuthority unit Lease :=
  {| la_acquire request owner attempt _ :=
       mret {| ar_request := request; ar_outcome := ACQUIRED;
               ar_lease := Some (request, owner, attempt); ar_terminal := None;
               ar_busy_expires_at := None; ar_existing_request_hash := None;
               ar_existing_replay_policy := None |};
     la_renew l _ := mret l;
     la_succeed l r := mret (ended l SUCCEEDED r None);
     la_fail l r f := mret (ended l FAILED r (Some f));
     la_verify_terminal t := mret t |}.

Definition maintained : LeaseMaintenance unit Lease Lease :=
  {| mt_enter l _ := mret l;
     mt_succeed l r := mret (ended l SUCCEEDED r None);
     mt_fail l r f := mret (ended l FAILED r (Some f));
     mt_exit _ := mret tt |}.

Definition rejecting : ToolEvaluator :=
  {| ev_validate _ _ _ := Ok None;
     ev_evaluate _ _ _ := Ok (EvaluationRejected $"no task") |}.

Definition policy : RewardPolicy :=
  {| rp_policy_name := $"p"; rp_reward_name := $"r"; rp_terms := []; rp_missing_data := FAIL |}.

Definition failed_result (call_id : pystr) (failure : TerminalFailure) : ToolResult :=
  {| res_call := call call_id; res_output := None; res_refusal := None;
     res_terminal_failure := Some failure; res_evaluation_evidence_refs := [];
     res_reward := None; res_provenance_note := None; res_provenance_ordinal := Some 1%Z |}.

Definition rejection : TerminalFailure :=
  get_ok (new_failure TOOL_EVALUATION_REJECTED_CODE
    $"Tool evaluation was rejected after the call was admitted" [($"reason", PStr $"no task")])
    failure.

Definition refusal_result : ToolResult :=
  get_ok (refused_result (call $"bb") (capacity_refusal config)) (failed_result $"bb" rejection).

(** The decoder knows the results of this run. *)
Definition parse (v : pyval) : result ToolResult :=
  of_option (List.find (λ r, bool_decide (ToolResult_record_content r = v))
    [failed_result $"a" rejection; refusal_result]) ValueError "".

Abbreviation run call_id w :=
  (execute memory_backend leases maintained rejecting parse (λ _, None) policy $"owner" 60
    config $"attempt" (tcallr_record (call call_id)) w).

Definition start : World MemState unit :=
  {| w_store := ([], []) : ostate; w_ledger := empty_state; w_leases := tt; w_evaluations := [] |}.
Abbreviation after_a := (run $"a" start).2.
Abbreviation after_b := (run $"bb" after_a).2.

Definition entry_bb : ToolCallStoreEntry :=
  default (entry $"bb" REFUSED) (dict_get (ms_entries (w_ledger after_b)) ($"tools", $"bb")).

Definition eqb {A} `{EqDecision A} (x y : A) : bool := bool_decide (x = y).

Lemma eqb_true {A} `{EqDecision A} (x y : A) : eqb x y = true ↔ x = y.
Proof. apply bool_decide_eq_true. Qed.

Definition written : TypedRef :=
  get_ok (typed_ref_for_record TOOL_RESULT_SCHEMA (ToolResult_record_content refusal_result))
    (blank_ref TOOL_RESULT_SCHEMA).

Lemma all_true {A1 A2 A3 A4 A5} `{EqDecision A1, EqDecision A2, EqDecision A3, EqDecision A4,
    EqDecision A5} (x1 y1 : A1) (x2 y2 : A2) (x3 y3 : A3) (x4 y4 : A4) (x5 y5 : A5) (b : bool) :
  eqb x1 y1 && eqb x2 y2 && eqb x3 y3 && eqb x4 y4 && eqb x5 y5 && b = true →
  (x1 = y1 ∧ x2 = y2) ∧ (x3 = y3 ∧ x4 = y4) ∧ x5 = y5 ∧ b = true.
Proof. rewrite !andb_true_iff, !eqb_true. tauto. Qed.

(** What the run computes, evaluated once. *)
Lemma run_facts :
  (dict_get (ms_entries (w_ledger after_b)) ($"tools", $"bb") = Some entry_bb ∧
   sce_state entry_bb = REFUSED) ∧
  (sce_tool_result_ref entry_bb = Some written ∧ (run $"bb" after_a).1 = Ok refusal_result) ∧
  w_evaluations after_b = [tcallr_record (call $"a")] ∧
  is_ok (call_scope (tcallr_record (call $"a"))) = true.
Proof. apply all_true. vm_compute. reflexivity. Qed.

Lemma run_step call_id w : tool_step leases parse (λ _, None) w (run call_id w).2.
Proof.
  exact (tool_executes leases parse (λ _, None) w Lease maintained rejecting policy $"owner" 60
           config $"attempt" (tcallr_record (call call_id))).
Qed.

Lemma run_steps : rtc (tool_step leases parse (λ _, None)) start after_b.
Proof. exact (rtc_l _ _ _ _ (run_step $"a" start) (rtc_once _ _ (run_step $"bb" after_a))). Qed.

Lemma run_inv w : rtc (tool_step leases parse (λ _, None)) start w → world_inv w.
Proof. intros Hsteps. by apply (tool_steps_ok _ _ _ _ _ Hsteps), empty_world_inv. Qed.

End ConcreteExecutor.

Section ExecutorWitnesses.
Import Concrete ConcreteLease ConcreteAdmission ConcreteExecutor.

Lemma tool_results_durable_witness :
  ∃ r, durable_result (w_store after_b) entry_bb written r.
Proof.
  destruct run_facts as ((Hget & _) & (Hr & _) & _).
  destruct (tool_results_durable leases parse (λ _, None) start after_b eq_refl eq_refl run_steps)
    as [_ Hdurable].
  exact (Hdurable _ _ _ Hget Hr).
Defined.

Lemma refusals_load_witness :
  ∃ r, durable_result (w_store after_b) entry_bb written r ∧
    (r = refusal_result →
     load_terminal_result memory_backend leases parse (λ _, None) entry_bb after_b = (Ok r, after_b)).
Proof.
  destruct run_facts as ((Hget & Hstate) & (Hr & _) & _).
  destruct (refusals_load leases parse (λ _, None) after_b _ entry_bb (run_inv _ run_steps)
              Hget Hstate) as (ref & r & Hr' & Hd & Hload).
  { apply json_has_text. vm_compute. reflexivity. }
  rewrite Hr in Hr'. apply (inj Some) in Hr'. rewrite <-Hr' in Hd. exists r. split; [exact Hd|].
  intros Heq. apply Hload. rewrite Heq. vm_compute. reflexivity.
Defined.

Lemma execute_exact_witness :
  w_evaluations after_b = w_evaluations after_a ∧
  ∃ e, loaded e refusal_result after_b ∧ sce_state e = REFUSED ∧
    same_call (tcallr_record (sce_tool_call e)) (tcallr_record (call $"bb")).
Proof.
  destruct run_facts as ((Hget & Hstate) & (_ & Hrun) & _).
  pose proof (execute_exact leases parse (λ _, None) maintained rejecting policy $"owner" 60
    after_a config $"attempt" (tcallr_record (call $"bb"))
    (run_inv _ (rtc_once _ _ (run_step $"a" start)))) as Hx.
  destruct Hx as [(k & _ & Hev & Hk) Hr]. destruct (Hr _ Hrun) as (e & He & Hcall).
  assert (call_key (tcallr_record (call $"bb")) = ($"tools", $"bb")) as Hkey
    by (vm_compute; reflexivity).
  rewrite Hkey in Hk. rewrite (Hk _ Hget Hstate), app_nil_r in Hev. split; [exact Hev|].
  exists e. split; [exact He|]. split; [|exact Hcall].
  pose proof (loaded_stored _ _ _ _ (run_inv _ run_steps) He Hcall) as Hst.
  rewrite Hkey, Hget in Hst. apply (inj Some) in Hst. rewrite <-Hst. exact Hstate.
Defined.

Lemma evaluations_within_capacity_witness :
  (Z.of_nat (length [tcallr_record (call $"a")]) <=
   tcap_max_accepted_calls (tc_capacity (tcr_record (tcall_tool_config
     (tcallr_record (call $"a"))))))%Z.
Proof.
  destruct run_facts as (_ & _ & Hevals & Hscope). destruct (call_scope (tcallr_record (call $"a"))) as [sk|] eqn:Hsk; [|discriminate Hscope].
  apply (evaluations_within_capacity leases parse (λ _, None) start after_b _ sk eq_refl eq_refl
           run_steps).
  - constructor; constructor.
  - rewrite Hevals. intros c Hc. exact Hc.
  - intros c Hc%list_elem_of_singleton. rewrite Hc. exact Hsk.
  - apply list_elem_of_singleton. reflexivity.
Defined.
End ExecutorWitnesses.
