(* ===== verification/Candidate.v ===== *)
(** * Candidates and their templates

    Models [src/whetstone/experiment/candidate.py]: the contract a prompt
    template is validated and rendered under, candidates and references to
    them. *)

From S2P Require Import Prelude Floats Identity Reward.

Definition CANDIDATE_RECORD_SCHEMA := $"whetstone.optim_candidate".
Definition CANDIDATE_IDENTITY_SCHEMA := $"whetstone.optim_candidate".
Definition CANDIDATE_IDENTITY_SCHEMA_VERSION : Z := 1.

(** ** What the code uses of [str] *)

(** The Unicode tables behind [str.isidentifier], for the characters beyond
    ASCII. *)
Class UnicodeIdentifiers := {
  xid_start : Z → bool;
  xid_continue : Z → bool;
}.

Section Strings.
Context `{Uni : !UnicodeIdentifiers}.
Local Open Scope Z_scope.

Definition LBRACE : Z := 123.
Definition RBRACE : Z := 125.

Definition ident_start (c : Z) : bool :=
  (65 <=? c) && (c <=? 90) || (97 <=? c) && (c <=? 122) || (c =? 95) ||
  (128 <=? c) && xid_start c.
Definition ident_continue (c : Z) : bool :=
  (65 <=? c) && (c <=? 90) || (97 <=? c) && (c <=? 122) || (c =? 95) ||
  (48 <=? c) && (c <=? 57) || (128 <=? c) && xid_continue c.

(** [s.isidentifier()]. *)
Definition isidentifier (s : pystr) : bool :=
  match s with
  | [] => false
  | c :: s => ident_start c && forallb ident_continue s
  end.

(** [text.find(c, start)] of one character. *)
Definition str_find (text : pystr) (c : Z) (start : nat) : option nat :=
  (λ ic, start + ic.1)%nat <$> list_find (λ x, x = c) (drop start text).

(** [text[start:stop]]. *)
Definition slice (text : pystr) (start stop : nat) : pystr := take (stop - start) (drop start text).

(** [text.startswith(p)]. *)
Fixpoint startswith (p text : pystr) : bool :=
  match p, text with
  | [], _ => true
  | _ :: _, [] => false
  | c :: p, d :: text => (c =? d) && startswith p text
  end.

(** [text.count(p)] and [text.replace(p, v)] of a non-empty [p]: occurrences
    from the left that do not overlap; [skip] characters belong to the
    occurrence found last. *)
Fixpoint count_from (skip : nat) (p text : pystr) : nat :=
  match text, skip with
  | [], _ => 0
  | _ :: text', S skip => count_from skip p text'
  | _ :: text', O =>
      if startswith p text then S (count_from (length p - 1) p text') else count_from 0 p text'
  end.

Fixpoint replace_from (skip : nat) (p v text : pystr) : pystr :=
  match text, skip with
  | [], _ => []
  | _ :: text', S skip => replace_from skip p v text'
  | c :: text', O =>
      if startswith p text then v ++ replace_from (length p - 1) p v text'
      else c :: replace_from 0 p v text'
  end.

Definition str_count (text p : pystr) : nat := count_from 0 p text.
Definition str_replace (text p v : pystr) : pystr := replace_from 0 p v text.

(** [text.format_map(values)] where the replacement fields are plain names,
    which is all the templates rendered here have; a field with a conversion,
    an attribute or a format is answered with an error. *)
Fixpoint format_from (skip : nat) (values : list (pystr * pystr)) (text : pystr) : result pystr :=
  match text, skip with
  | [], _ => Ok []
  | _ :: text', S skip => format_from skip values text'
  | c :: text', O =>
      if c =? LBRACE then
        if startswith [LBRACE] text' then
          rest ← format_from 1 values text'; Ok (LBRACE :: rest)
        else
          closing ← of_option (str_find text' RBRACE 0) ValueError
            "expected '}' before end of string";
          let name := take closing text' in
          require (isidentifier name) ValueError "unsupported replacement field" ;;
          value ← of_option (dict_get values name) KeyError "";
          rest ← format_from (S closing) values text';
          Ok (value ++ rest)
      else if c =? RBRACE then
        require (startswith [RBRACE] text') ValueError
          "Single '}' encountered in format string" ;;
        rest ← format_from 1 values text'; Ok (RBRACE :: rest)
      else
        rest ← format_from 0 values text'; Ok (c :: rest)
  end.

Definition format_map (text : pystr) (values : list (pystr * pystr)) : result pystr :=
  format_from 0 values text.
End Strings.

(** ** The render contract *)

Inductive TemplateRenderKind := PYTHON_FORMAT_V1 | LITERAL_REPLACE_V1 | LITERAL_BODY_V1.

#[export] Instance TemplateRenderKind_eq_dec : EqDecision TemplateRenderKind.
Proof. solve_decision. Defined.

Definition TemplateRenderKind_value (k : TemplateRenderKind) : pystr :=
  match k with
  | PYTHON_FORMAT_V1 => $"python_format/v1"
  | LITERAL_REPLACE_V1 => $"literal_replace/v1"
  | LITERAL_BODY_V1 => $"literal_body/v1"
  end.

Record TemplateRenderContract := {
  trc_kind : TemplateRenderKind;
  trc_available_fields : list pystr;
  trc_required_fields : list pystr;
}.

#[export] Instance TemplateRenderContract_eq_dec : EqDecision TemplateRenderContract.
Proof. solve_decision. Defined.

Section Templates.
Context `{Uni : !UnicodeIdentifiers}.

(** The model validator of [TemplateRenderContract]. *)
Definition TemplateRenderContract_validate (self : TemplateRenderContract) :
    result TemplateRenderContract :=
  require (forallb isidentifier (trc_available_fields self ++ trc_required_fields self)) ValueError
    "template render fields must be non-empty identifiers" ;;
  require (all_unique (trc_available_fields self)) ValueError "available_fields must be unique" ;;
  require (forallb (λ f, bool_decide (f ∈ trc_available_fields self)) (trc_required_fields self))
    ValueError "required_fields must be available" ;;
  require (negb (bool_decide (trc_kind self = LITERAL_REPLACE_V1) &&
                 negb (length (trc_available_fields self) =? 1)%nat)) ValueError
    "literal_replace/v1 requires exactly one available field" ;;
  require (negb (bool_decide (trc_kind self = LITERAL_BODY_V1) &&
                 negb (bool_decide (trc_available_fields self = []) &&
                       bool_decide (trc_required_fields self = [])))) ValueError
    "literal_body/v1 has no active fields" ;;
  Ok self.

Definition validate_template_text (template : pyval) : result pystr :=
  match template with
  | PStr s => require (negb (bool_decide (s = []))) ValueError "template must be non-empty" ;; Ok s
  | _ => raise ValueError "template must be a strict string"
  end.

(** [text[index + 1]] is there and is [c]. *)
Definition next_is (text : pystr) (index : nat) (c : Z) : bool :=
  (index + 1 <? length text)%nat && bool_decide (text !! (index + 1)%nat = Some c).

(** The loop of [placeholder_fields] on [python_format/v1]; [None] when the
    turns are used up. *)
Fixpoint fields_loop (turns : nat) (text : pystr) (index : nat) (fields : list pystr) :
    option (result (list pystr)) :=
  match text !! index with
  | None => Some (Ok fields)
  | Some character =>
      match turns with
      | O => None
      | S turns =>
          if (character =? LBRACE)%Z then
            if next_is text index LBRACE then fields_loop turns text (index + 2) fields
            else
              match str_find text RBRACE (index + 1) with
              | None => Some (raise ValueError
                  "template has malformed placeholders: unmatched '{'")
              | Some closing =>
                  let field_name := slice text (index + 1) closing in
                  if bool_decide (LBRACE ∈ field_name) then
                    Some (raise ValueError "template has malformed placeholders: nested '{'")
                  else if negb (isidentifier field_name) then
                    Some (raise ValueError "template has unsupported field expression")
                  else fields_loop turns text (closing + 1) (fields ++ [field_name])
              end
          else if (character =? RBRACE)%Z then
            if next_is text index RBRACE then fields_loop turns text (index + 2) fields
            else Some (raise ValueError "template has malformed placeholders: unmatched '}'")
          else fields_loop turns text (index + 1) fields
      end
  end.

(** [f"{{{field}}}"]. *)
Definition placeholder (field : pystr) : pystr := LBRACE :: field ++ [RBRACE].

(** One turn per character is enough ([fields_loop_spec]). *)
Definition placeholder_fields (self : TemplateRenderContract) (template : pyval) :
    result (list pystr) :=
  text ← validate_template_text template;
  match trc_kind self with
  | LITERAL_BODY_V1 => Ok []
  | LITERAL_REPLACE_V1 =>
      field ← of_option (trc_available_fields self !! 0%nat) IndexError
        "tuple index out of range";
      Ok (replicate (str_count text (placeholder field)) field)
  | PYTHON_FORMAT_V1 =>
      default (raise RuntimeError "turns used up") (fields_loop (length text) text 0 [])
  end.

(** [Counter(l)[x]]. *)
Definition count_of (x : pystr) (l : list pystr) : nat := length (filter (λ y, y = x) l).

Definition validate_template (self : TemplateRenderContract) (template : pyval) :
    result (list pystr) :=
  observed ← placeholder_fields self template;
  require (forallb (λ f, bool_decide (f ∈ trc_available_fields self)) observed) ValueError
    "template contains unavailable fields" ;;
  require (forallb (λ f, count_of f (trc_required_fields self) <=? count_of f observed)%nat
             (trc_required_fields self)) ValueError
    "template does not satisfy required field multiplicity" ;;
  Ok observed.

Definition string_value (values : list (pystr * pyval)) (field : pystr) : option pystr :=
  match dict_get values field with Some (PStr s) => Some s | _ => None end.

(** One turn of the loop that collects the values of the fields. *)
Definition collect_value (values : list (pystr * pyval)) (render_values : list (pystr * pystr))
    (field : pystr) : list (pystr * pystr) :=
  match string_value values field with
  | Some s => dict_set render_values field s
  | None => render_values
  end.

Definition render (self : TemplateRenderContract) (template : pyval)
    (values : list (pystr * pyval)) : result pystr :=
  observed ← validate_template self template;
  text ← validate_template_text template;
  if bool_decide (trc_kind self = LITERAL_BODY_V1) then Ok text
  else
    require (forallb (λ f, bool_decide (f ∈ values.*1)) observed) ValueError
      "render values are missing fields" ;;
    require (forallb (λ f, bool_decide (is_Some (string_value values f))) observed) ValueError
      "render values must be strings" ;;
    let render_values := foldl (collect_value values) [] observed in
    if bool_decide (trc_kind self = LITERAL_REPLACE_V1) then
      if bool_decide (observed = []) then Ok text
      else
        field ← of_option (trc_available_fields self !! 0%nat) IndexError
          "tuple index out of range";
        value ← of_option (dict_get render_values field) KeyError "";
        Ok (str_replace text (placeholder field) value)
    else format_map text render_values.
End Templates.

(** ** Candidates *)

Record Candidate := {
  cand_candidate_id : pystr;
  cand_base_ref : TypedRef;
  cand_payload : list (pystr * pyval);
}.

#[export] Instance Candidate_eq_dec : EqDecision Candidate.
Proof. solve_decision. Defined.

Definition Candidate_identity_payload (self : Candidate) : pyval :=
  PDict [($"candidate_id", PStr (cand_candidate_id self));
         ($"base_ref", TypedRef_dump (cand_base_ref self));
         ($"payload", to_json (cand_payload self))].

Definition Candidate_record_content (self : Candidate) : pyval :=
  PDict [($"candidate_id", PStr (cand_candidate_id self));
         ($"base_ref", TypedRef_dump (cand_base_ref self));
         ($"payload", to_json (cand_payload self))].

Record CandidateRef := {
  candr_record : Candidate;
  candr_record_ref : TypedRef;
  candr_identity_hash : pystr;
}.

#[export] Instance CandidateRef_eq_dec : EqDecision CandidateRef.
Proof. solve_decision. Defined.

Definition CandidateRef_dump (r : CandidateRef) : pyval :=
  PDict [($"record", Candidate_record_content (candr_record r));
         ($"record_ref", TypedRef_dump (candr_record_ref r));
         ($"identity_hash", PStr (candr_identity_hash r))].

Section Candidates.
Context `{DSer : !DrSerialize, DSto : !DrStore}.

Definition Candidate_identity_hash (self : Candidate) : result pystr :=
  compute_identity_hash CANDIDATE_IDENTITY_SCHEMA CANDIDATE_IDENTITY_SCHEMA_VERSION
    (Candidate_identity_payload self).

(** The model validator of [CandidateRef]. *)
Definition CandidateRef_validate (self : CandidateRef) : result CandidateRef :=
  expected_ref ← typed_ref_for_record CANDIDATE_RECORD_SCHEMA
    (Candidate_record_content (candr_record self));
  require (bool_decide (candr_record_ref self = expected_ref)) ValueError
    "candidate record_ref must address the exact candidate record" ;;
  h ← Candidate_identity_hash (candr_record self);
  require (bool_decide (candr_identity_hash self = h)) ValueError
    "candidate identity_hash must match the exact candidate record" ;;
  Ok self.

Definition candidate_reference (candidate : Candidate) : result CandidateRef :=
  ref ← typed_ref_for_record CANDIDATE_RECORD_SCHEMA (Candidate_record_content candidate);
  h ← Candidate_identity_hash candidate;
  CandidateRef_validate
    {| candr_record := candidate; candr_record_ref := ref; candr_identity_hash := h |}.
End Candidates.

(** ** Templates are parsed by a grammar

    The reference: a template is a sequence of characters, doubled braces and
    fields in braces. *)

Inductive segment := Literal (c : Z) | Replacement (name : pystr).

Section TemplateTheorems.
Context `{Uni : !UnicodeIdentifiers}.

Inductive parses : pystr → list segment → Prop :=
| parses_nil : parses [] []
| parses_char c s l : c ≠ LBRACE → c ≠ RBRACE → parses s l → parses (c :: s) (Literal c :: l)
| parses_escape c s l : (c = LBRACE ∨ c = RBRACE) → parses s l → parses (c :: c :: s) (Literal c :: l)
| parses_field f s l : isidentifier f = true → parses s l →
    parses (LBRACE :: f ++ RBRACE :: s) (Replacement f :: l).

Definition segment_field (s : segment) : option pystr :=
  match s with Literal _ => None | Replacement f => Some f end.

(** The text of a segment under the values of the fields. *)
Definition segment_text (value : pystr → pystr) (s : segment) : pystr :=
  match s with Literal c => [c] | Replacement f => value f end.

Lemma ident_continue_not_brace c : ident_continue c = true → c ≠ LBRACE ∧ c ≠ RBRACE.
Proof. intros Hc. split; intros ->; discriminate Hc. Qed.

Lemma ident_start_not_brace c : ident_start c = true → c ≠ LBRACE ∧ c ≠ RBRACE.
Proof. intros Hc. split; intros ->; discriminate Hc. Qed.

Lemma isidentifier_no_brace f : isidentifier f = true → (LBRACE ∉ f) ∧ (RBRACE ∉ f).
Proof.
  destruct f as [|c f]; [done|]. simpl. rewrite andb_true_iff, forallb_Forall, Forall_forall.
  intros [Hc%ident_start_not_brace Hf]. rewrite !not_elem_of_cons.
  split; (split; [naive_solver|]); intros Hin%Hf%ident_continue_not_brace; naive_solver.
Qed.

Lemma list_find_app_brace f s :
  RBRACE ∉ f → list_find (λ x, x = RBRACE) (f ++ RBRACE :: s) = Some (length f, RBRACE).
Proof.
  intros Hf. apply list_find_Some. split_and!.
  - rewrite lookup_app_r by lia. by rewrite Nat.sub_diag.
  - done.
  - intros j y Hj Hlt ->. apply Hf. rewrite lookup_app_l in Hj by done. by eapply list_elem_of_lookup_2.
Qed.

Lemma list_find_brace_Some s n c :
  list_find (λ x, x = RBRACE) s = Some (n, c) →
  s = take n s ++ RBRACE :: drop (S n) s ∧ (RBRACE ∉ take n s) ∧ length (take n s) = n.
Proof.
  intros (Hn & -> & Hbefore)%list_find_Some. split_and!.
  - symmetry. by apply take_drop_middle.
  - intros Hin. apply list_elem_of_lookup in Hin as [j Hj]. apply lookup_take_Some in Hj as [Hj Hlt].
    by eapply Hbefore.
  - apply length_take_le. apply lookup_lt_Some in Hn. lia.
Qed.

Lemma drop_cons_inv (text : pystr) index c s :
  drop index text = c :: s → text !! index = Some c ∧ drop (index + 1) text = s.
Proof.
  intros H. split.
  - by rewrite <-(Nat.add_0_r index), <-lookup_drop, H.
  - by rewrite <-drop_drop, H.
Qed.

Lemma next_is_spec text index c d s :
  drop index text = c :: s → next_is text index d = startswith [d] s.
Proof.
  intros Hs. destruct (drop_cons_inv _ _ _ _ Hs) as [_ Hs']. unfold next_is.
  assert (text !! (index + 1)%nat = s !! 0%nat) as ->
    by (rewrite <-Hs', lookup_drop; f_equal; lia).
  destruct s as [|e s]; simpl; [by rewrite andb_false_r|]. rewrite andb_true_r.
  assert (index + 1 < length text)%nat as ->%Nat.ltb_lt.
  { apply (f_equal length) in Hs'. rewrite length_drop in Hs'. simpl in Hs'. lia. }
  simpl. destruct (Z.eqb_spec d e) as [->|Hne]; [by rewrite bool_decide_true|].
  rewrite bool_decide_false; [done|congruence].
Qed.

(** What can be parsed, by the first character. *)
Lemma parses_other c s l :
  c ≠ LBRACE → c ≠ RBRACE →
  parses (c :: s) l ↔ ∃ l', parses s l' ∧ l = Literal c :: l'.
Proof.
  intros H1 H2. split; [|intros (l' & Hs & ->); by constructor].
  inversion 1; subst; [by eexists|naive_solver|done].
Qed.

Lemma parses_double c s l :
  c = LBRACE ∨ c = RBRACE → parses (c :: c :: s) l ↔ ∃ l', parses s l' ∧ l = Literal c :: l'.
Proof.
  intros Hc. split; [|intros (l' & Hs & ->); by constructor].
  inversion 1 as [| | |f s' l' Hf Hs]; subst; [naive_solver|by eexists|].
  match goal with Heq : f ++ _ = _ |- _ =>
    destruct f as [|d f]; [done|]; injection Heq as -> _ end.
  destruct (isidentifier_no_brace _ Hf) as [Hl _]. set_solver.
Qed.

Lemma field_not_escape f s :
  isidentifier f = true → startswith [LBRACE] (f ++ RBRACE :: s) = false.
Proof.
  intros Hf. destruct (isidentifier_no_brace _ Hf) as [Hl _]. destruct f as [|d f]; [done|].
  cbn [startswith app]. rewrite andb_true_r. apply Z.eqb_neq. set_solver.
Qed.

Lemma parses_single_rbrace s l : startswith [RBRACE] s = false → ¬ parses (RBRACE :: s) l.
Proof. intros Hs. inversion 1; subst; [done|discriminate Hs]. Qed.

Lemma parses_single_lbrace s l :
  startswith [LBRACE] s = false →
  parses (LBRACE :: s) l ↔
    ∃ n c l', list_find (λ x, x = RBRACE) s = Some (n, c) ∧ isidentifier (take n s) = true ∧
      parses (drop (S n) s) l' ∧ l = Replacement (take n s) :: l'.
Proof.
  intros Hs. split.
  - inversion 1 as [| | |f s' l' Hf Hs']; subst; [done|discriminate Hs|].
    destruct (isidentifier_no_brace _ Hf) as [_ Hr]. exists (length f), RBRACE, l'.
    rewrite list_find_app_brace by done. rewrite take_app_length.
    rewrite cons_middle, app_assoc, drop_app_length' by (rewrite length_app; simpl; lia). done.
  - intros (n & c & l' & Hn & Hf & Hs' & ->). apply list_find_brace_Some in Hn as (Heq & _ & _).
    rewrite Heq at 1. by constructor.
Qed.

Lemma parses_unique text l1 l2 : parses text l1 → parses text l2 → l1 = l2.
Proof.
  intros H1. revert l2.
  induction H1 as [|c s l Hl Hr _ IH|c s l Hc _ IH|f s l Hf _ IH]; intros l2 H2.
  - by inversion H2.
  - apply parses_other in H2 as (l' & ? & ->); [|done..]. f_equal. auto.
  - apply parses_double in H2 as (l' & ? & ->); [|done..]. f_equal. auto.
  - destruct (isidentifier_no_brace _ Hf) as [Hlb Hrb].
    assert (startswith [LBRACE] (f ++ RBRACE :: s) = false) as Hno by by apply field_not_escape.
    apply parses_single_lbrace in H2 as (n & c & l' & Hfind & _ & Hs & ->); [|done].
    rewrite list_find_app_brace in Hfind by done. injection Hfind as <- <-.
    rewrite take_app_length. rewrite cons_middle, app_assoc,
      drop_app_length' in Hs by (rewrite length_app; simpl; lia). f_equal. auto.
Qed.

(** The answer the loop owes for what is left of the text. *)
Definition agrees (r : result (list pystr)) (s : pystr) (fields : list pystr) : Prop :=
  ∀ out, r = Ok out ↔ ∃ l, parses s l ∧ out = fields ++ omap segment_field l.

Lemma agrees_step r s s' seg fields :
  (∀ l, parses s l ↔ ∃ l', parses s' l' ∧ l = seg :: l') →
  agrees r s' (fields ++ omap segment_field [seg]) → agrees r s fields.
Proof.
  intros Hs Hr out. rewrite (Hr out). setoid_rewrite Hs. split.
  - intros (l & Hl & ->). exists (seg :: l). split; [by eauto|].
    by rewrite <-app_assoc, <-omap_app.
  - intros (? & (l & Hl & ->) & ->). exists l. split; [done|].
    by rewrite <-app_assoc, <-omap_app.
Qed.

Lemma agrees_error e s fields : (∀ l, ¬ parses s l) → agrees (Err e) s fields.
Proof. intros Hs out. split; [done|]. by intros (l & Hl%Hs & _). Qed.

Lemma agrees_end fields : agrees (Ok fields) [] fields.
Proof.
  intros out. split.
  - intros [= <-]. exists []. split; [constructor|]. by rewrite app_nil_r.
  - intros (l & Hl & ->). inversion Hl; subst. by rewrite app_nil_r.
Qed.

Lemma fields_loop_end text turns index fields :
  drop index text = [] → fields_loop turns text index fields = Some (Ok fields).
Proof.
  intros Hs. assert (text !! index = None) as Hnone.
  { by rewrite <-(Nat.add_0_r index), <-lookup_drop, Hs. }
  destruct turns; simpl; by rewrite Hnone.
Qed.

Lemma parses_field_iff s n c l :
  startswith [LBRACE] s = false → list_find (λ x, x = RBRACE) s = Some (n, c) →
  isidentifier (take n s) = true →
  parses (LBRACE :: s) l ↔ ∃ l', parses (drop (S n) s) l' ∧ l = Replacement (take n s) :: l'.
Proof.
  intros Hs Hfind Hf. rewrite parses_single_lbrace by done. split.
  - intros (n' & c' & l' & Hfind' & _ & ? & ->). rewrite Hfind in Hfind'.
    injection Hfind' as <- <-. by eauto.
  - intros (l' & ? & ->). by exists n, c, l'.
Qed.

Lemma parses_field_not s l n c :
  startswith [LBRACE] s = false → list_find (λ x, x = RBRACE) s = Some (n, c) →
  isidentifier (take n s) = false → ¬ parses (LBRACE :: s) l.
Proof.
  intros Hs Hfind Hf. rewrite parses_single_lbrace by done.
  intros (n' & c' & l' & Hfind' & ? & _). congruence.
Qed.

(** The loop and the grammar agree, within one turn per character left. *)
Lemma fields_loop_spec text turns index fields s :
  drop index text = s → (length s <= turns)%nat →
  ∃ r, fields_loop turns text index fields = Some r ∧ agrees r s fields.
Proof.
  revert index fields s. induction turns as [|turns IH]; intros index fields s Hs Hlen.
  { destruct s as [|c s]; [|simpl in Hlen; lia].
    exists (Ok fields). split; [by apply fields_loop_end|apply agrees_end]. }
  destruct s as [|c s].
  { exists (Ok fields). split; [by apply fields_loop_end|apply agrees_end]. }
  destruct (drop_cons_inv _ _ _ _ Hs) as [Hc Hs']. simpl in Hlen. cbn [fields_loop]. rewrite Hc.
  rewrite !(next_is_spec _ _ _ _ _ Hs). unfold str_find, slice. rewrite Hs'.
  assert (∀ d, startswith [d] s = true → (d = LBRACE ∨ d = RBRACE) →
    ∃ r, fields_loop turns text (index + 2) fields = Some r ∧ agrees r (d :: s) fields) as Hdouble.
  { intros d Hd Hbrace. destruct s as [|e s]; [done|]. simpl in Hd.
    rewrite andb_true_r in Hd. apply Z.eqb_eq in Hd as ->.
    destruct (drop_cons_inv _ _ _ _ Hs') as [_ Hs2]. rewrite <-Nat.add_assoc in Hs2.
    destruct (IH _ fields _ Hs2) as (r & Hr & Hagree); [simpl in Hlen; lia|]. exists r. split; [done|].
    apply (agrees_step _ _ s (Literal e)); [intros l; by apply parses_double|].
    by rewrite app_nil_r. }
  destruct (Z.eqb_spec c LBRACE) as [->|Hl]; [|destruct (Z.eqb_spec c RBRACE) as [->|Hr]].
  - destruct (startswith [LBRACE] s) eqn:Hnext; [by apply Hdouble; auto|].
    destruct (list_find _ s) as [[n d]|] eqn:Hfind; simpl; cycle 1.
    { eexists. split; [done|]. apply agrees_error. intros l.
      rewrite parses_single_lbrace by done. intros (? & ? & ? & ? & _). congruence. }
    replace (index + 1 + n - (index + 1))%nat with n by lia.
    destruct (isidentifier (take n s)) eqn:Hf; cycle 1.
    { case_bool_decide; (eexists; split; [done|]; apply agrees_error; intros l;
        by eapply parses_field_not). }
    rewrite bool_decide_false by (by apply isidentifier_no_brace). simpl.
    destruct (IH (index + 1 + n + 1)%nat (fields ++ [take n s]) (drop (S n) s)) as (r & Hr & Hagree).
    { rewrite <-Hs', drop_drop. f_equal. lia. }
    { rewrite length_drop. lia. }
    exists r. split; [done|]. eapply agrees_step; [intros l; by eapply parses_field_iff|done].
  - destruct (startswith [RBRACE] s) eqn:Hnext; [by apply Hdouble; auto|].
    eexists. split; [done|]. apply agrees_error. intros l. by apply parses_single_rbrace.
  - destruct (IH (index + 1)%nat fields s Hs') as (r & Hr' & Hagree); [lia|]. exists r. split; [done|].
    apply (agrees_step _ _ s (Literal c)); [intros l; by apply parses_other|]. by rewrite app_nil_r.
Qed.

(** ** Rendering *)

Lemma format_from_app values p s :
  format_from (length p) values (p ++ s) = format_from 0 values s.
Proof. induction p as [|c p IH]; simpl; [done|]. exact IH. Qed.

Lemma str_find_field f s :
  isidentifier f = true → str_find (f ++ RBRACE :: s) RBRACE 0 = Some (length f).
Proof.
  intros Hf. destruct (isidentifier_no_brace _ Hf) as [_ Hr]. unfold str_find.
  rewrite drop_0, list_find_app_brace by done. done.
Qed.

(** [format_map] follows the grammar. *)
Lemma format_map_parses values value text l :
  parses text l →
  (∀ f, Replacement f ∈ l → dict_get values f = Some (value f)) →
  format_map text values = Ok (l ≫= segment_text value).
Proof.
  unfold format_map. intros Hp.
  induction Hp as [|c s l Hl Hr _ IH|c s l Hc _ IH|f s l Hf _ IH]; intros Hv.
  - done.
  - cbn [format_from]. rewrite (proj2 (Z.eqb_neq c LBRACE) Hl), (proj2 (Z.eqb_neq c RBRACE) Hr).
    rewrite IH by set_solver. done.
  - assert (format_from 0 values s = Ok (l ≫= segment_text value)) as IH' by (apply IH; set_solver).
    destruct Hc as [-> | ->]; simpl; by rewrite IH'.
  - pose proof (field_not_escape f s Hf) as Hno.
    cbn [format_from]. rewrite Z.eqb_refl, Hno, str_find_field by done. simpl of_option.
    rewrite bind_Ok_l, take_app_length, Hf. simpl require. rewrite bind_Ok_l.
    rewrite (Hv f) by set_solver. simpl of_option. rewrite bind_Ok_l.
    replace (format_from (S (length f)) values (f ++ RBRACE :: s)) with (format_from 0 values s);
      [by rewrite IH by set_solver|].
    rewrite cons_middle, app_assoc, <-format_from_app with (p := f ++ [RBRACE]).
    by rewrite length_app, Nat.add_1_r.
Qed.

(** Occurrences: the text is cut at each of them, and no piece has one. *)
Fixpoint join (sep : pystr) (pieces : list pystr) : pystr :=
  match pieces with
  | [] => []
  | [p] => p
  | p :: pieces => p ++ sep ++ join sep pieces
  end.

Lemma startswith_app p q r : startswith p q = true → startswith p (q ++ r) = true.
Proof.
  revert q. induction p as [|c p IH]; intros [|d q]; try done. cbn [startswith app].
  rewrite !andb_true_iff. naive_solver.
Qed.

Lemma startswith_split p q : startswith p q = true → ∃ r, q = p ++ r.
Proof.
  revert q. induction p as [|c p IH]; intros [|d q]; try done; [by exists []|by exists (d :: q)|].
  cbn [startswith]. rewrite andb_true_iff, Z.eqb_eq. intros [-> [r ->]%IH]. by exists r.
Qed.

Lemma count_skip k p q r : length q = k → count_from k p (q ++ r) = count_from 0 p r.
Proof. intros <-. induction q as [|c q IH]; [done|]. exact IH. Qed.

Lemma replace_skip k p v q r : length q = k → replace_from k p v (q ++ r) = replace_from 0 p v r.
Proof. intros <-. induction q as [|c q IH]; [done|]. exact IH. Qed.

Record cuts (p text : pystr) (pieces : list pystr) : Prop := {
  cuts_text : text = join p pieces;
  cuts_count : S (str_count text p) = length pieces;
  cuts_replace v : str_replace text p v = join v pieces;
  cuts_free : Forall (λ q, str_count q p = 0%nat) pieces;
}.

Lemma join_cons sep q pieces : pieces ≠ [] → join sep (q :: pieces) = q ++ sep ++ join sep pieces.
Proof. by destruct pieces. Qed.

Lemma str_cuts p text : p ≠ [] → ∃ pieces, cuts p text pieces.
Proof.
  intros Hp. remember (length text) as n eqn:Hn. revert text Hn.
  induction n as [n IH] using lt_wf_ind. intros [|c text] Hn; [by exists [[]]; repeat constructor|].
  destruct (startswith p (c :: text)) eqn:Hs.
  - destruct (startswith_split _ _ Hs) as [rest Hrest].
    destruct (IH (length rest)) with (text := rest) as [pieces Hc]; [|done|].
    { apply (f_equal length) in Hrest. rewrite length_app in Hrest.
      destruct p; simpl in *; [done|lia]. }
    destruct Hc as [Ht Hk Hr Hf]. assert (pieces ≠ []) as Hne by by intros ->.
    destruct p as [|d p]; [done|]. injection Hrest as <- Htext.
    exists ([] :: pieces). split.
    + rewrite join_cons by done. simpl. by rewrite <-Ht, Htext.
    + unfold str_count in *. cbn [count_from]. rewrite Hs, Htext, count_skip by (simpl; lia).
      simpl. by rewrite <-Hk.
    + intros v. unfold str_replace in *. cbn [replace_from].
      rewrite Hs, Htext, replace_skip, join_cons by (done || simpl; lia). simpl. by rewrite Hr.
    + by constructor.
  - destruct (IH (length text)) with (text := text) as [pieces Hc]; [simpl in Hn; lia|done|].
    destruct Hc as [Ht Hk Hr Hf]. destruct pieces as [|q pieces]; [done|].
    assert (∀ sep, join sep ((c :: q) :: pieces) = c :: join sep (q :: pieces)) as Hj
      by (by destruct pieces).
    exists ((c :: q) :: pieces). split.
    + by rewrite Hj, <-Ht.
    + unfold str_count in *. cbn [count_from]. by rewrite Hs.
    + intros v. unfold str_replace in *. cbn [replace_from]. by rewrite Hs, Hj, Hr.
    + apply Forall_cons in Hf as [Hq Hqs]. constructor; [|done].
      unfold str_count in *. cbn [count_from]. destruct (startswith p (c :: q)) eqn:Hcq; [|done].
      apply startswith_app with (r := match pieces with [] => [] | _ => p ++ join p pieces end) in Hcq.
      assert (text = q ++ match pieces with [] => [] | _ => p ++ join p pieces end) as Htext.
      { rewrite Ht. destruct pieces; [by rewrite app_nil_r|done]. }
      simpl in Hcq. rewrite <-Htext in Hcq. congruence.
Qed.

Lemma validate_template_text_Ok template text :
  validate_template_text template = Ok text ↔ template = PStr text ∧ text ≠ [].
Proof.
  destruct template; simpl; try naive_solver. split.
  - intros H. by inv_ok.
  - intros [[= ->] Hne]. by rewrite bool_decide_false.
Qed.

(** C34. The scanner is the grammar. On a [python_format/v1] template the index
    loop ends within one turn per character, whatever the text, and it answers
    exactly the fields of the grammar's reading of the text: it returns them, in
    order and with repetitions, when the text is a sequence of plain characters,
    doubled braces and identifiers in braces, and raises otherwise. *)
Theorem placeholder_fields_exact self text :
  trc_kind self = PYTHON_FORMAT_V1 →
  (∃ r, fields_loop (length text) text 0 [] = Some r) ∧
  ∀ fields, placeholder_fields self (PStr text) = Ok fields ↔
    text ≠ [] ∧ ∃ l, parses text l ∧ fields = omap segment_field l.
Proof.
  intros Hkind. destruct (fields_loop_spec text (length text) 0 [] text) as (r & Hr & Hagree);
    [done|done|]. split; [by exists r|]. intros fields.
  rewrite <-(Hagree fields). unfold placeholder_fields. rewrite Hkind, bind_Ok. split.
  - intros (t & [[= <-] Hne]%validate_template_text_Ok & Hf). by rewrite Hr in Hf.
  - intros [Hne ->]. exists text. rewrite validate_template_text_Ok, Hr. done.
Qed.

(** What a rendered template reads, the fields replaced by their values. *)
Definition rendered (self : TemplateRenderContract) (text : pystr) (value : pystr → pystr)
    (out : pystr) : Prop :=
  match trc_kind self with
  | PYTHON_FORMAT_V1 => ∃ l, parses text l ∧ out = l ≫= segment_text value
  | LITERAL_REPLACE_V1 => ∃ f pieces, trc_available_fields self = [f] ∧
      cuts (placeholder f) text pieces ∧ out = join (value f) pieces
  | LITERAL_BODY_V1 => out = text
  end.

Lemma collect_values_get values observed d f s :
  f ∈ observed → string_value values f = Some s →
  dict_get (foldl (collect_value values) d observed) f = Some s.
Proof.
  intros Hf Hs. revert d. induction observed as [|g observed IH] using rev_ind; intros d;
    [by apply elem_of_nil in Hf|].
  rewrite foldl_snoc. unfold collect_value at 1.
  destruct (decide (g = f)) as [->|Hne]; [by rewrite Hs, dict_get_set_eq|].
  apply elem_of_app in Hf as [Hf|Hf%list_elem_of_singleton]; [|congruence].
  destruct (string_value values g); [rewrite dict_get_set_ne by done|]; by apply IH.
Qed.

Lemma string_value_present values f : is_Some (string_value values f) → f ∈ values.*1.
Proof.
  unfold string_value. destruct (dict_get values f) as [v|] eqn:Hv; [|by intros [? ?]].
  intros _. apply dict_get_Some in Hv. apply list_elem_of_fmap. by exists (f, v).
Qed.

Lemma validate_template_fields self text fields :
  validate_template self (PStr text) = Ok fields → placeholder_fields self (PStr text) = Ok fields.
Proof. unfold validate_template. intros H. by inv_ok. Qed.

Lemma validate_template_nonempty self text fields :
  validate_template self (PStr text) = Ok fields →
  validate_template_text (PStr text) = Ok text.
Proof.
  intros H%validate_template_fields. unfold placeholder_fields in H. inv_result.
  match goal with H : validate_template_text _ = Ok _ |- _ =>
    pose proof (proj1 (validate_template_text_Ok _ _) H) as [[= <-] _] end. done.
Qed.

(** The checks of [render] on the values hold exactly when every field has a
    string. *)
Lemma render_values_checked values observed :
  forallb (λ f, bool_decide (f ∈ values.*1)) observed = true ∧
  forallb (λ f, bool_decide (is_Some (string_value values f))) observed = true ↔
  ∀ f, f ∈ observed → is_Some (string_value values f).
Proof.
  rewrite !forallb_Forall, !Forall_forall. setoid_rewrite bool_decide_eq_true.
  split; [by intros [_ H]|]. intros H. split; [|done]. intros f Hf. by apply string_value_present, H.
Qed.

Lemma elem_of_fields f (l : list segment) : Replacement f ∈ l → f ∈ omap segment_field l.
Proof. intros Hf. apply list_elem_of_omap. by exists (Replacement f). Qed.

Lemma replicate_nil_inv {A} n (x : A) : replicate n x = [] → n = 0%nat.
Proof. by destruct n. Qed.

Lemma rendered_python values text fields :
  (∃ l, parses text l ∧ fields = omap segment_field l) →
  (∀ f, f ∈ fields → is_Some (string_value values f)) → ∀ out,
  format_map text (foldl (collect_value values) [] fields) = Ok out ↔
  ∃ l, parses text l ∧ out = l ≫= segment_text (λ f, default [] (string_value values f)).
Proof.
  intros (l & Hl & ->) Hv out.
  assert (∀ l', parses text l' → omap segment_field l' = omap segment_field l →
    format_map text (foldl (collect_value values) [] (omap segment_field l)) =
      Ok (l' ≫= segment_text (λ f, default [] (string_value values f)))) as Hall.
  { intros l' Hl' Heq. apply format_map_parses; [done|]. intros f Hf%elem_of_fields.
    rewrite Heq in Hf. apply collect_values_get; [done|]. by destruct (Hv f Hf) as [s ->]. }
  split.
  - rewrite (Hall l) by done. intros [= <-]. by exists l.
  - intros (l' & Hl' & ->). apply Hall; [done|]. by rewrite (parses_unique text l' l).
Qed.

Lemma iff_conj_dep (P Q R : Prop) : (P → (Q ↔ R)) → (P ∧ Q ↔ P ∧ R).
Proof. tauto. Qed.

(** A literal template's text and fields, by the pieces between placeholders. *)
Lemma literal_fields self text fields :
  trc_kind self = LITERAL_REPLACE_V1 → placeholder_fields self (PStr text) = Ok fields →
  TemplateRenderContract_validate self = Ok self →
  ∃ f pieces, trc_available_fields self = [f] ∧ cuts (placeholder f) text pieces ∧
    fields = replicate (length pieces - 1) f.
Proof.
  intros Hkind Hf Hvalid. unfold placeholder_fields in Hf. rewrite Hkind in Hf. inv_result.
  match goal with H : validate_template_text _ = Ok _ |- _ =>
    apply validate_template_text_Ok in H as [[= <-] _] end.
  unfold TemplateRenderContract_validate in Hvalid. rewrite Hkind in Hvalid. inv_ok.
  destruct (trc_available_fields self) as [|f [|g l]]; try done. simpl in *. simplify_eq.
  destruct (str_cuts (placeholder a0) text) as [pieces Hc]; [done|]. exists a0, pieces.
  split; [done|]. split; [done|]. by rewrite <-(cuts_count _ _ _ Hc), Nat.sub_1_r.
Qed.

(** The last part of [render], once the values are checked. *)
Lemma render_literal values text f pieces out :
  cuts (placeholder f) text pieces →
  (∀ g, g ∈ replicate (length pieces - 1) f → is_Some (string_value values g)) →
  (if bool_decide (replicate (length pieces - 1) f = []) then Ok text
   else value ← of_option (dict_get (foldl (collect_value values) []
                             (replicate (length pieces - 1) f)) f) KeyError "";
        Ok (str_replace text (placeholder f) value)) = Ok out ↔
  out = join (default [] (string_value values f)) pieces.
Proof.
  intros Hc Hv. pose proof (cuts_count _ _ _ Hc) as Hn. case_bool_decide as Hnil.
  - apply replicate_nil_inv in Hnil. destruct pieces as [|p [|q pieces]]; [done| |done].
    rewrite (cuts_text _ _ _ Hc). simpl. naive_solver.
  - destruct (length pieces - 1)%nat as [|n] eqn:Hlen; [done|].
    destruct (Hv f) as [s Hs]; [by left|].
    rewrite (collect_values_get _ _ _ f s) by (done || by left). rewrite Hs. simpl.
    rewrite (cuts_replace _ _ _ Hc). naive_solver.
Qed.

(** C35. Rendering is exact. Under a valid contract, [render] returns exactly
    when the template satisfies the contract and every field it mentions has a
    string among the values, and then the text is the template's with each
    field replaced by its value and each doubled brace by one
    ([python_format/v1]), with every occurrence of the one placeholder replaced
    ([literal_replace/v1]), or the template itself ([literal_body/v1]). *)
Theorem render_exact self text values out :
  TemplateRenderContract_validate self = Ok self →
  render self (PStr text) values = Ok out ↔
  ∃ fields, validate_template self (PStr text) = Ok fields ∧
    (∀ f, f ∈ fields → is_Some (string_value values f)) ∧
    rendered self text (λ f, default [] (string_value values f)) out.
Proof.
  intros Hvalid. unfold render. rewrite bind_Ok. apply exist_proper. intros fields.
  apply iff_conj_dep. intros Hfields.
  rewrite (validate_template_nonempty _ _ _ Hfields), bind_Ok_l. unfold rendered.
  apply validate_template_fields in Hfields. pose proof (render_values_checked values fields) as Hch.
  case_bool_decide as Hbody.
  { rewrite Hbody. unfold placeholder_fields in Hfields. rewrite Hbody in Hfields. inv_result.
    split; [intros [= <-]; split; [by intros ? ?%elem_of_nil|done]|by intros [_ ->]]. }
  destruct (forallb _ fields) eqn:H1; [|split; [done|intros [Hv _]; naive_solver]].
  simpl require. rewrite bind_Ok_l.
  destruct (forallb (λ f, bool_decide (is_Some _)) fields) eqn:H2;
    [|split; [done|intros [Hv _]; naive_solver]].
  simpl require. rewrite bind_Ok_l.
  assert (∀ f, f ∈ fields → is_Some (string_value values f)) as Hv by by apply Hch.
  case_bool_decide as Hlit.
  - rewrite Hlit. destruct (literal_fields _ _ _ Hlit Hfields Hvalid) as (f & pieces & Hav & Hc & ->).
    rewrite Hav. simpl of_option. rewrite bind_Ok_l, (render_literal _ _ _ _ _ Hc Hv).
    split; [by eauto 10|]. intros (_ & f' & pieces' & [= <-] & Hc' & ->).
    by rewrite <-(cuts_replace _ _ _ Hc), <-(cuts_replace _ _ _ Hc').
  - destruct (trc_kind self) eqn:Hkind; [|done..]. 
    assert (∃ l, parses text l ∧ fields = omap segment_field l) as Hl.
    { destruct (fields_loop_spec text (length text) 0 [] text) as (r & Hr & Hagree); [done|done|].
      unfold placeholder_fields in Hfields. rewrite Hkind in Hfields. inv_result.
      match goal with H : validate_template_text _ = Ok _ |- _ =>
        apply validate_template_text_Ok in H as [[= <-] _] end.
      rewrite Hr in *. by apply Hagree. }
    rewrite (rendered_python _ _ _ Hl Hv). tauto.
Qed.
End TemplateTheorems.

(** ** Concrete templates *)
Module ConcreteTemplates.
#[export] Instance ascii_identifiers : UnicodeIdentifiers :=
  {| xid_start := λ _, false; xid_continue := λ _, false |}.

Definition greeting : TemplateRenderContract :=
  {| trc_kind := PYTHON_FORMAT_V1; trc_available_fields := [$"name"; $"day"];
     trc_required_fields := [$"name"] |}.

Definition greeting_text : pystr := $"{{hi}} {name} and {name}".
End ConcreteTemplates.

Section TemplateWitnesses.
Import ConcreteTemplates.

Lemma placeholder_fields_exact_witness :
  placeholder_fields greeting (PStr greeting_text) = Ok [$"name"; $"name"] ∧
  ∃ l, parses greeting_text l ∧ [$"name"; $"name"] = omap segment_field l.
Proof.
  assert (placeholder_fields greeting (PStr greeting_text) = Ok [$"name"; $"name"]) as H
    by (vm_compute; reflexivity).
  split; [exact H|].
  exact (proj2 (proj1 (proj2 (placeholder_fields_exact greeting greeting_text eq_refl) _) H)).
Defined.

Lemma render_exact_witness :
  render greeting (PStr greeting_text) [($"name", PStr $"Ann")] = Ok $"{hi} Ann and Ann" ∧
  rendered greeting greeting_text
    (λ f, default [] (string_value [($"name", PStr $"Ann")] f)) $"{hi} Ann and Ann".
Proof.
  assert (render greeting (PStr greeting_text) [($"name", PStr $"Ann")] = Ok $"{hi} Ann and Ann") as H
    by (vm_compute; reflexivity).
  split; [exact H|].
  destruct (proj1 (render_exact greeting greeting_text [($"name", PStr $"Ann")] _
                     ltac:(vm_compute; reflexivity)) H) as (fields & _ & _ & Hr).
  exact Hr.
Defined.
End TemplateWitnesses.
