(* ===== verification/Cost.v ===== *)
(** * Cost: what a run spent, aggregated from observed calls

    Models [src/whetstone/optim/cost.py] and the classification of output rows
    of [optim/cost_aggregation.py]: the usage of one call, the totals of a
    role, and the rule that a price is reported only when every billable call
    carried one. *)

From S2P Require Import Prelude Floats Identity Reward.

Definition COST_REPORT_SCHEMA := $"whetstone.optim_run_cost".
Definition COST_REPORT_SCHEMA_VERSION : Z := 1.

Inductive CostRole := TASK_MODEL | PROPOSER.

Definition CostRole_value (r : CostRole) : pystr :=
  match r with TASK_MODEL => $"task_model" | PROPOSER => $"proposer" end.

(** [x or 0]. *)
Definition or_zero (x : option Z) : Z := default 0%Z x.

(** The usage of one proposer call, as a step result records it. *)
Record ProposerCallUsage := {
  pcu_call_id : pystr;
  pcu_prompt_tokens : option Z;
  pcu_completion_tokens : option Z;
  pcu_usd : option float;
}.

#[export] Instance ProposerCallUsage_eq_dec : EqDecision ProposerCallUsage.
Proof. solve_decision. Defined.

Definition ProposerCallUsage_dump (u : ProposerCallUsage) : pyval :=
  PDict [($"call_id", PStr (pcu_call_id u));
         ($"prompt_tokens", POption PInt (pcu_prompt_tokens u));
         ($"completion_tokens", POption PInt (pcu_completion_tokens u));
         ($"usd", POption PFloat (pcu_usd u))].

(** [value is not None and value < 0], negated. *)
Definition not_negative (value : option Z) : bool :=
  match value with Some n => negb (n <? 0)%Z | None => true end.
Definition price_not_negative (usd : option float) : bool :=
  match usd with Some f => negb (flt f fzero) | None => true end.

(** [allow_inf_nan=False]. *)
Definition price_finite (usd : option float) : bool :=
  match usd with Some f => fisfinite f | None => true end.

Definition ProposerCallUsage_validate (self : ProposerCallUsage) : result ProposerCallUsage :=
  require (price_finite (pcu_usd self)) ValueError "Input should be a finite number" ;;
  require (not_negative (pcu_prompt_tokens self)) ValueError "prompt_tokens must be non-negative" ;;
  require (not_negative (pcu_completion_tokens self)) ValueError
    "completion_tokens must be non-negative" ;;
  require (price_not_negative (pcu_usd self)) ValueError "usd must be non-negative" ;;
  Ok self.

(** One observed provider call. *)
Record UsageObservation := {
  uo_input_tokens : Z;
  uo_output_tokens : Z;
  uo_usd : option float;
  uo_cached : bool;
  uo_missing_token_breakdown : bool;
}.

Definition ProposerCallUsage_observation (self : ProposerCallUsage) : UsageObservation :=
  let missing := negb (is_some (pcu_prompt_tokens self)) || negb (is_some (pcu_completion_tokens self)) in
  {| uo_input_tokens := or_zero (pcu_prompt_tokens self);
     uo_output_tokens := or_zero (pcu_completion_tokens self);
     uo_usd := pcu_usd self; uo_cached := false; uo_missing_token_breakdown := missing |}.

Record RoleCost := {
  rc_calls : Z;
  rc_input_tokens : Z;
  rc_output_tokens : Z;
  rc_priced_calls : Z;
  rc_unpriced_calls : Z;
  rc_cached_calls : Z;
  rc_rows_missing_token_breakdown : Z;
  rc_usd : option float;
}.

Definition RoleCost_dump (c : RoleCost) : pyval :=
  PDict [($"calls", PInt (rc_calls c)); ($"input_tokens", PInt (rc_input_tokens c));
         ($"output_tokens", PInt (rc_output_tokens c));
         ($"priced_calls", PInt (rc_priced_calls c));
         ($"unpriced_calls", PInt (rc_unpriced_calls c));
         ($"cached_calls", PInt (rc_cached_calls c));
         ($"rows_missing_token_breakdown", PInt (rc_rows_missing_token_breakdown c));
         ($"usd", POption PFloat (rc_usd c))].

Definition RoleCost_validate (self : RoleCost) : result RoleCost :=
  require (price_finite (rc_usd self)) ValueError "Input should be a finite number" ;;
  require (forallb (λ n, negb (n <? 0)%Z)
             [rc_calls self; rc_input_tokens self; rc_output_tokens self; rc_priced_calls self;
              rc_unpriced_calls self; rc_cached_calls self;
              rc_rows_missing_token_breakdown self]) ValueError "must be non-negative" ;;
  require (rc_priced_calls self + rc_unpriced_calls self =? rc_calls self)%Z ValueError
    "priced_calls and unpriced_calls must sum to calls" ;;
  require (negb (rc_calls self <? rc_rows_missing_token_breakdown self)%Z) ValueError
    "rows_missing_token_breakdown cannot exceed calls" ;;
  match rc_usd self with
  | None => Ok tt
  | Some usd =>
      require (rc_unpriced_calls self =? 0)%Z ValueError
        "usd must be absent when any call lacks a price" ;;
      require (negb (rc_calls self =? 0)%Z) ValueError "usd requires at least one priced call" ;;
      require (negb (flt usd fzero)) ValueError "usd must be non-negative"
  end ;;
  Ok self.

(** [sum(...)] of integers. *)
Definition int_sum (l : list Z) : Z := foldr Z.add 0%Z l.

Definition aggregate_role_cost (observations : list UsageObservation) : result RoleCost :=
  let cached := filter (λ item, uo_cached item = true) observations in
  let billable := filter (λ item, uo_cached item = false) observations in
  let priced := omap uo_usd billable in
  let unpriced_count := (length billable - length priced)%nat in
  let complete := negb (length billable =? 0)%nat && (unpriced_count =? 0)%nat in
  RoleCost_validate
    {| rc_calls := Z.of_nat (length billable);
       rc_input_tokens := int_sum (uo_input_tokens <$> billable);
       rc_output_tokens := int_sum (uo_output_tokens <$> billable);
       rc_priced_calls := Z.of_nat (length priced);
       rc_unpriced_calls := Z.of_nat unpriced_count;
       rc_cached_calls := Z.of_nat (length cached);
       rc_rows_missing_token_breakdown :=
         Z.of_nat (length (filter (λ item, uo_missing_token_breakdown item = true) billable));
       rc_usd := if complete then Some (float_sum priced) else None |}.

Record RunCostReport := {
  rcr_schema_version : Z;
  rcr_task_model : RoleCost;
  rcr_proposer : RoleCost;
}.

Definition RunCostReport_record_content (self : RunCostReport) : pyval :=
  PDict [($"schema_version", PInt (rcr_schema_version self));
         ($"task_model", RoleCost_dump (rcr_task_model self));
         ($"proposer", RoleCost_dump (rcr_proposer self))].

(** ** Output rows *)

(** The usage fields of one persisted output row. *)
Record EvalOutputRowUsage := {
  oru_prompt_tokens : option Z;
  oru_completion_tokens : option Z;
  oru_provider_cost : option float;
  oru_cache_hit : bool;
  oru_failed : bool;
  oru_missing : bool;
  oru_provider_error : option (list (pystr * pyval));
}.

Definition REJECTED_RESPONSE_KEY := $"rejected_response".

Definition evidences_provider_response (provider_error : option (list (pystr * pyval))) : bool :=
  match provider_error with
  | None => false
  | Some kvs => negb (bool_decide (default PNone (dict_get kvs REJECTED_RESPONSE_KEY) = PNone))
  end.

Definition response_rejected (self : EvalOutputRowUsage) : bool :=
  evidences_provider_response (oru_provider_error self).

(** A row is a cached call, no call at all, or a billable one. *)
Definition row_observation (row : EvalOutputRowUsage) : option UsageObservation :=
  let has_any_token_count := is_some (oru_prompt_tokens row) || is_some (oru_completion_tokens row) in
  let has_token_breakdown := is_some (oru_prompt_tokens row) && is_some (oru_completion_tokens row) in
  let has_telemetry := has_any_token_count || is_some (oru_provider_cost row) in
  if oru_cache_hit row then
    Some {| uo_input_tokens := 0; uo_output_tokens := 0; uo_usd := None; uo_cached := true;
            uo_missing_token_breakdown := false |}
  else if negb has_telemetry && oru_missing row then None
  else if negb has_telemetry && oru_failed row && negb (response_rejected row) then None
  else
    Some {| uo_input_tokens := or_zero (oru_prompt_tokens row);
            uo_output_tokens := or_zero (oru_completion_tokens row);
            uo_usd := oru_provider_cost row; uo_cached := false;
            uo_missing_token_breakdown := negb has_token_breakdown |}.

(** ** Theorems *)

(** What one observation adds to the totals. *)
Definition observation_ok (o : UsageObservation) : Prop :=
  (0 <= uo_input_tokens o)%Z ∧ (0 <= uo_output_tokens o)%Z.

Lemma int_sum_nonneg {A} (f : A → Z) (l : list A) :
  Forall (λ x, (0 <= f x)%Z) l → (0 <= int_sum (f <$> l))%Z.
Proof.
  induction 1 as [|x l Hx _ IH]; [done|].
  assert (int_sum (f <$> x :: l) = f x + int_sum (f <$> l))%Z as -> by done. lia.
Qed.

Lemma length_omap_le {A B} (f : A → option B) l : (length (omap f l) <= length l)%nat.
Proof. induction l as [|x l IH]; csimpl; [done|]. destruct (f x); csimpl; lia. Qed.

Lemma omap_full {A B} (f : A → option B) l :
  length (omap f l) = length l ↔ Forall (λ x, is_Some (f x)) l.
Proof.
  induction l as [|x l IH]; csimpl; [by split|]. rewrite Forall_cons, <-IH.
  pose proof (length_omap_le f l). destruct (f x) as [y|]; csimpl.
  - split; [intros [= ?]; eauto|]. by intros [_ ->].
  - split; [lia|]. by intros [[? ?] _].
Qed.

Definition billable (observations : list UsageObservation) : list UsageObservation :=
  filter (λ item, uo_cached item = false) observations.

(** Every billable call carried a price, and there is one. *)
Definition all_priced (observations : list UsageObservation) : Prop :=
  billable observations ≠ [] ∧ Forall (λ item, is_Some (uo_usd item)) (billable observations).

Lemma complete_all_priced observations :
  negb (length (billable observations) =? 0)%nat &&
  (length (billable observations) - length (omap uo_usd (billable observations)) =? 0)%nat = true ↔
  all_priced observations.
Proof.
  unfold all_priced. rewrite andb_true_iff, negb_true_iff, Nat.eqb_neq, Nat.eqb_eq, <-omap_full.
  pose proof (length_omap_le uo_usd (billable observations)).
  rewrite length_zero_iff_nil. split; intros [? ?]; (split; [done|lia]).
Qed.

Lemma length_cached observations :
  length (filter (λ item, uo_cached item = true) observations) =
  (length observations - length (billable observations))%nat.
Proof.
  unfold billable. induction observations as [|o l IH]; [done|].
  rewrite !filter_cons. pose proof (length_filter (λ item, uo_cached item = false) l).
  destruct (uo_cached o); simpl; rewrite ?decide_True, ?decide_False by done; simpl; lia.
Qed.

(** The totals of an aggregation satisfy the record's own validator, the price
    aside. *)
Record totals_ok (self : RoleCost) : Prop := {
  tot_in : (0 <= rc_input_tokens self)%Z;
  tot_out : (0 <= rc_output_tokens self)%Z;
  tot_priced : (0 <= rc_priced_calls self)%Z;
  tot_unpriced : (0 <= rc_unpriced_calls self)%Z;
  tot_cached : (0 <= rc_cached_calls self)%Z;
  tot_missing : (0 <= rc_rows_missing_token_breakdown self <= rc_calls self)%Z;
  tot_calls : (rc_priced_calls self + rc_unpriced_calls self = rc_calls self)%Z;
  tot_usd : is_Some (rc_usd self) → rc_calls self ≠ 0%Z ∧ rc_unpriced_calls self = 0%Z;
}.

Lemma totals_valid self :
  totals_ok self →
  is_ok (RoleCost_validate self) = true ↔
  ∀ usd, rc_usd self = Some usd → fisfinite usd = true ∧ flt usd fzero = false.
Proof.
  intros [? ? ? ? ? ? ? Husd]. unfold RoleCost_validate. simpl.
  rewrite (proj2 (Z.ltb_ge _ _)) by lia. rewrite !(proj2 (Z.ltb_ge _ _)) by lia. simpl.
  rewrite (proj2 (Z.eqb_eq (rc_priced_calls self + rc_unpriced_calls self) _)) by lia. simpl.
  destruct (rc_usd self) as [usd|]; simpl; [|naive_solver].
  destruct Husd as [Hne ->]; [done|]. rewrite (proj2 (Z.eqb_neq _ _) Hne). simpl.
  destruct (fisfinite usd) eqn:E1, (flt usd fzero) eqn:E2; simpl;
    (split; [intros ? ? [= <-]; done|intros H; destruct (H usd eq_refl); congruence]).
Qed.

(** The totals of a role account for every call. Over observations with
    non-negative token counts the aggregation returns whenever the price it
    would report is finite and not negative; the cached observations are counted
    apart and add nothing else; calls are the billable observations, priced or
    not; and a price is reported exactly when there is a billable call and each
    of them carried one, and then it is their sum. *)
Theorem role_cost_accounts observations :
  Forall observation_ok (billable observations) →
  let calls := billable observations in
  let total := float_sum (omap uo_usd calls) in
  (is_ok (aggregate_role_cost observations) = true ↔
     (all_priced observations → fisfinite total = true ∧ flt total fzero = false)) ∧
  ∀ c, aggregate_role_cost observations = Ok c →
    rc_calls c = Z.of_nat (length calls) ∧
    rc_cached_calls c = (Z.of_nat (length observations) - rc_calls c)%Z ∧
    rc_input_tokens c = int_sum (uo_input_tokens <$> calls) ∧
    rc_output_tokens c = int_sum (uo_output_tokens <$> calls) ∧
    (rc_priced_calls c + rc_unpriced_calls c = rc_calls c)%Z ∧
    (∀ usd, rc_usd c = Some usd ↔ all_priced observations ∧ usd = total).
Proof.
  intros Hok calls total. unfold aggregate_role_cost. fold (billable observations). fold calls.
  pose proof (complete_all_priced observations) as Hc. fold calls in Hc.
  pose proof (length_omap_le uo_usd calls) as Hle.
  assert (0 <= int_sum (uo_input_tokens <$> calls))%Z as Hin
    by (apply int_sum_nonneg; eapply Forall_impl; [exact Hok|by intros ? []]).
  assert (0 <= int_sum (uo_output_tokens <$> calls))%Z as Hout
    by (apply int_sum_nonneg; eapply Forall_impl; [exact Hok|by intros ? []]).
  pose proof (length_filter (λ item, uo_missing_token_breakdown item = true) calls) as Hmiss.
  rewrite <-Hc, length_cached. fold calls.
  pose proof (length_filter (λ item, uo_cached item = false) observations) as Hlen.
  fold (billable observations) calls in Hlen.
  set (complete := (_ && _)) in *. set (self := {| rc_calls := _ |}).
  assert (∀ c, RoleCost_validate self = Ok c → c = self) as Hself
    by (unfold RoleCost_validate; intros c H; inv_result; done).
  split.
  - rewrite (totals_valid self); [subst self; simpl; destruct complete; naive_solver|].
    subst self. split; simpl; try lia. subst complete.
    intros [? Hu]. destruct (andb _ _) eqn:E in Hu; [|done].
    apply andb_true_iff in E as [E1%negb_true_iff%Nat.eqb_neq E2%Nat.eqb_eq]. lia.
  - intros c Hv%Hself. subst c self. simpl. split_and!; [lia..|].
    intros usd. rewrite <-Hc. destruct complete; naive_solver.
Qed.

(** Two priced calls and a cached one. *)
Definition two_calls : list UsageObservation :=
  [{| uo_input_tokens := 10; uo_output_tokens := 4; uo_usd := Some fone; uo_cached := false;
      uo_missing_token_breakdown := false |};
   {| uo_input_tokens := 0; uo_output_tokens := 0; uo_usd := None; uo_cached := true;
      uo_missing_token_breakdown := false |};
   {| uo_input_tokens := 5; uo_output_tokens := 0; uo_usd := Some fone; uo_cached := false;
      uo_missing_token_breakdown := true |}].

Lemma role_cost_accounts_witness :
  ∃ c, aggregate_role_cost two_calls = Ok c ∧
    rc_calls c = 2%Z ∧ rc_cached_calls c = 1%Z ∧ rc_input_tokens c = 15%Z ∧
    rc_usd c = Some (float_of_Z 2).
Proof.
  assert (Forall observation_ok (billable two_calls)) as Hok
    by (vm_compute; repeat constructor; done).
  destruct (role_cost_accounts two_calls Hok) as [Hret Hc].
  destruct (is_ok_Ok (aggregate_role_cost two_calls)) as [Hex _].
  destruct (Hex (proj2 Hret (λ _, conj eq_refl eq_refl))) as [c E].
  exists c. split; [exact E|].
  destruct (Hc c E) as (H1 & H2 & H3 & _ & _ & H6). rewrite H1 in H2.
  split; [exact H1|]. split; [exact H2|]. split; [exact H3|].
  apply H6. split; [|reflexivity].
  split; [done|]. vm_compute. repeat constructor; eexists; reflexivity.
Defined.
