(* ===== verification/Provider.v ===== *)
(** * Provider: one logical call of a language model

    Models [src/whetstone/provider/policy.py], [classification.py],
    [attempt.py] and [driver.py], with the accounting of
    [src/whetstone/execution/call_support.py]: the execution policy with its
    backoff, the classification of what came back from the transport, the
    record of an attempt and of a call, and the loop that retries.

    The transport and its records are dr-providers': the class [DrProviders]
    names what the code reads of them. *)

From S2P Require Import Prelude Floats Identity Reward Cost.
From Stdlib Require Import SpecFloat.

(** ** dr-providers *)

(** A response, a transport failure and the recoverability class of a failure
    are opaque; of the classes, the code names four. [policy_identity_payload]
    is [ProviderTransportPolicy.identity_payload]. *)
Class DrProviders := {
  ProviderTransportResponse : Type;
  #[global] ProviderTransportResponse_eq_dec :: EqDecision ProviderTransportResponse;
  response_text : ProviderTransportResponse → pystr;
  response_usage : ProviderTransportResponse → option (pystr → option Z);
  response_cost : ProviderTransportResponse → option float;
  response_stop_reason : ProviderTransportResponse → option pystr;
  response_dump : ProviderTransportResponse → pyval;
  RecoverabilityClass : Type;
  #[global] RecoverabilityClass_eq_dec :: EqDecision RecoverabilityClass;
  RATE_LIMITED : RecoverabilityClass;
  RESOURCE_EXHAUSTION : RecoverabilityClass;
  TRANSIENT : RecoverabilityClass;
  PERMANENT : RecoverabilityClass;
  ProviderTransportFailure : Type;
  #[global] ProviderTransportFailure_eq_dec :: EqDecision ProviderTransportFailure;
  failure_status_code : ProviderTransportFailure → option Z;
  failure_recoverability : ProviderTransportFailure → RecoverabilityClass;
  failure_message : ProviderTransportFailure → pystr;
  failure_code : ProviderTransportFailure → option pystr;
  failure_dump : ProviderTransportFailure → pyval;
  ProviderTransportPolicy : Type;
  policy_timeout_seconds : ProviderTransportPolicy → float;
  policy_identity_payload : ProviderTransportPolicy → pyval;
}.

(** [x ** n] of a float and an integer, the C library's [pow]. *)
Class FloatPow := {
  fpow : float → Z → result float;
}.

(** Raising a number that is at least one to a non-negative power overflows or
    gives a number that is at least one. *)
Class FloatPowLaws `{!FloatPow} : Prop := {
  fpow_overflow x n e :
    fisfinite x = true → fle fone x = true → (0 <= n)%Z → fpow x n = Err e →
    exn_cls e = OverflowError;
  fpow_at_least_one x n y :
    fisfinite x = true → fle fone x = true → (0 <= n)%Z → fpow x n = Ok y →
    y = S754_nan ∨ fle fone y = true;
}.

(** ** Classification *)

Inductive SemanticFailureClass :=
| TRANSPORT_ERROR | RATE_LIMIT | TIMEOUT | PROVIDER_REJECTION | BLANK_PROVIDER_GENERATION
| MALFORMED_RESPONSE.

#[export] Instance SemanticFailureClass_eq_dec : EqDecision SemanticFailureClass.
Proof. solve_decision. Defined.

Definition SemanticFailureClass_value (c : SemanticFailureClass) : pystr :=
  match c with
  | TRANSPORT_ERROR => $"transport-error" | RATE_LIMIT => $"rate-limit" | TIMEOUT => $"timeout"
  | PROVIDER_REJECTION => $"provider-rejection"
  | BLANK_PROVIDER_GENERATION => $"blank-provider-generation"
  | MALFORMED_RESPONSE => $"malformed-response"
  end.

Definition SemanticFailureClass_members : list SemanticFailureClass :=
  [TRANSPORT_ERROR; RATE_LIMIT; TIMEOUT; PROVIDER_REJECTION; BLANK_PROVIDER_GENERATION;
   MALFORMED_RESPONSE].

Definition is_blank (text : pystr) : bool := negb (nonblank text).

Section Classification.
Context `{Prov : !DrProviders}.

Inductive ProviderTransportOutcome :=
| Response (response : ProviderTransportResponse)
| TransportFailure (failure : ProviderTransportFailure).

Record ProviderGeneration := {
  pg_text : pystr;
  pg_response : ProviderTransportResponse;
}.

Record ProviderSemanticFailure := {
  psf_failure_class : SemanticFailureClass;
  psf_message : pystr;
  psf_transport_failure : option ProviderTransportFailure;
  psf_rejected_response : option ProviderTransportResponse;
}.

#[export] Instance ProviderGeneration_eq_dec : EqDecision ProviderGeneration.
Proof. solve_decision. Defined.
#[export] Instance ProviderSemanticFailure_eq_dec : EqDecision ProviderSemanticFailure.
Proof. solve_decision. Defined.

(** [ProviderGeneration.model_post_init]. *)
Definition ProviderGeneration_new (text : pystr) (response : ProviderTransportResponse) :
    result ProviderGeneration :=
  require (negb (is_blank text)) ValueError "ProviderGeneration text must be nonblank" ;;
  require (bool_decide (text = response_text response)) ValueError
    "ProviderGeneration text must equal its causal response text" ;;
  Ok {| pg_text := text; pg_response := response |}.

(** [ProviderSemanticFailure.model_post_init]. *)
Definition ProviderSemanticFailure_new (failure_class : SemanticFailureClass) (message : pystr)
    (transport_failure : option ProviderTransportFailure)
    (rejected_response : option ProviderTransportResponse) : result ProviderSemanticFailure :=
  require (negb (Bool.eqb (is_some transport_failure) (is_some rejected_response))) ValueError
    "a ProviderSemanticFailure retains exactly one of transport_failure or rejected_response" ;;
  Ok {| psf_failure_class := failure_class; psf_message := message;
        psf_transport_failure := transport_failure; psf_rejected_response := rejected_response |}.

Definition classify_transport_failure (failure : ProviderTransportFailure) : SemanticFailureClass :=
  let recoverability := failure_recoverability failure in
  if bool_decide (failure_status_code failure = Some 408%Z) then TIMEOUT
  else if bool_decide (recoverability ∈ [RATE_LIMITED; RESOURCE_EXHAUSTION]) then RATE_LIMIT
  else if bool_decide (recoverability = TRANSIENT) then TRANSPORT_ERROR
  else if bool_decide (recoverability = PERMANENT) then PROVIDER_REJECTION
  else MALFORMED_RESPONSE.

(** [ProviderGeneration | ProviderSemanticFailure]. *)
Definition classified : Type := ProviderGeneration + ProviderSemanticFailure.

Definition accept_provider_generation (response : ProviderTransportResponse) : result classified :=
  if is_blank (response_text response) then
    inr <$> ProviderSemanticFailure_new BLANK_PROVIDER_GENERATION
      $"provider returned a blank or whitespace-only generation" None (Some response)
  else inl <$> ProviderGeneration_new (response_text response) response.

Definition classify_outcome (outcome : ProviderTransportOutcome) : result classified :=
  match outcome with
  | Response response => accept_provider_generation response
  | TransportFailure failure =>
      inr <$> ProviderSemanticFailure_new (classify_transport_failure failure)
        (failure_message failure) (Some failure) None
  end.
End Classification.

(** ** The execution policy *)

Record BackoffSchedule := {
  bo_base_seconds : float;
  bo_multiplier : float;
  bo_max_seconds : float;
}.

Definition BackoffSchedule_validate (self : BackoffSchedule) : result BackoffSchedule :=
  require (fisfinite (bo_base_seconds self)) ValueError "base_seconds must be finite" ;;
  require (fisfinite (bo_multiplier self)) ValueError "multiplier must be finite" ;;
  require (fisfinite (bo_max_seconds self)) ValueError "max_seconds must be finite" ;;
  require (negb (flt (bo_base_seconds self) fzero)) ValueError "base_seconds cannot be negative" ;;
  require (negb (flt (bo_multiplier self) fone)) ValueError "multiplier must be >= 1" ;;
  require (negb (flt (bo_max_seconds self) (bo_base_seconds self))) ValueError
    "max_seconds cannot be below base_seconds" ;;
  Ok self.

(** [min(a, b)] and [max(a, b)] of two floats. *)
Definition fmin (a b : float) : float := if flt b a then b else a.
Definition fmax (a b : float) : float := if flt a b then b else a.

Definition delay_for `{!FloatPow} (self : BackoffSchedule) (attempt_number : Z) : result float :=
  require (negb (attempt_number <? 1)%Z) ValueError "attempt_number must be a positive integer" ;;
  if (attempt_number =? 1)%Z then Ok fzero
  else if feq (bo_base_seconds self) fzero || feq (bo_multiplier self) fone ||
          feq (bo_base_seconds self) (bo_max_seconds self)
  then Ok (bo_base_seconds self)
  else
    match fpow (bo_multiplier self) (attempt_number - 2) with
    | Err e => if exn_isa (exn_cls e) OverflowError then Ok (bo_max_seconds self) else Err e
    | Ok power =>
        let delay := fmul (bo_base_seconds self) power in
        Ok (if fisfinite delay then fmin delay (bo_max_seconds self) else bo_max_seconds self)
    end.

Definition BackoffSchedule_identity_payload (self : BackoffSchedule) : pyval :=
  PDict [($"base_seconds", PFloat (bo_base_seconds self));
         ($"multiplier", PFloat (bo_multiplier self));
         ($"max_seconds", PFloat (bo_max_seconds self))].

Definition default_retry_eligibility : list (SemanticFailureClass * bool) :=
  [(TRANSPORT_ERROR, true); (RATE_LIMIT, true); (TIMEOUT, true); (PROVIDER_REJECTION, false);
   (BLANK_PROVIDER_GENERATION, false); (MALFORMED_RESPONSE, false)].

Definition PROVIDER_EXECUTION_POLICY_SCHEMA := $"whetstone.provider_execution_policy".
Definition PROVIDER_EXECUTION_POLICY_SCHEMA_VERSION : Z := 1.

Section Policy.
Context `{Prov : !DrProviders, Pow : !FloatPow}.

Record ProviderExecutionPolicy := {
  pep_transport_policy : ProviderTransportPolicy;
  pep_max_attempts : Z;
  pep_retry_eligibility : list (SemanticFailureClass * bool);
  pep_backoff : BackoffSchedule;
}.

(** The field validator of [max_attempts] and the model validator, after those
    of the backoff. *)
Definition ProviderExecutionPolicy_validate (self : ProviderExecutionPolicy) :
    result ProviderExecutionPolicy :=
  BackoffSchedule_validate (pep_backoff self) ;;
  require (negb (pep_max_attempts self <? 1)%Z) ValueError
    "max_attempts must be a positive integer" ;;
  require (forallb (λ c, bool_decide (c ∈ (pep_retry_eligibility self).*1))
             SemanticFailureClass_members) ValueError
    "retry_eligibility must cover every SemanticFailureClass" ;;
  Ok self.

Definition is_retryable (self : ProviderExecutionPolicy) (failure_class : SemanticFailureClass) :
    result bool :=
  of_option (dict_get (pep_retry_eligibility self) failure_class) KeyError "".

Definition delay_before (self : ProviderExecutionPolicy) (attempt_number : Z) : result float :=
  delay_for (pep_backoff self) attempt_number.

Definition class_leb (a b : SemanticFailureClass * bool) : bool :=
  str_leb (SemanticFailureClass_value a.1) (SemanticFailureClass_value b.1).

Definition ProviderExecutionPolicy_identity_payload (self : ProviderExecutionPolicy) : pyval :=
  PDict [($"transport_policy", policy_identity_payload (pep_transport_policy self));
         ($"max_attempts", PInt (pep_max_attempts self));
         ($"retry_eligibility",
           PDict ((λ item, (SemanticFailureClass_value item.1, PBool item.2)) <$>
                  py_sorted class_leb (pep_retry_eligibility self)));
         ($"backoff", BackoffSchedule_identity_payload (pep_backoff self))].

Definition ProviderExecutionPolicy_identity_hash `{!DrSerialize} (self : ProviderExecutionPolicy) :
    result pystr :=
  document ← build_identity_document PROVIDER_EXECUTION_POLICY_SCHEMA
    PROVIDER_EXECUTION_POLICY_SCHEMA_VERSION (ProviderExecutionPolicy_identity_payload self);
  identity_document_hash document.
End Policy.

(** ** Attempts and results *)

(** A dr-providers [ProviderInvocationEvidence]: what the code reads of it. *)
Record ProviderInvocationEvidence `{!DrProviders} := {
  pie_request_hash : pystr;
  pie_policy_identity : pyval;
  pie_outcome : ProviderTransportOutcome;
}.

Section Attempts.
Context `{DSer : !DrSerialize, Prov : !DrProviders}.

Record ProviderCallAttempt := {
  pca_logical_call_id : pystr;
  pca_attempt_number : Z;
  pca_execution_policy_hash : pystr;
  pca_started_at : float;
  pca_ended_at : float;
  pca_evidence : ProviderInvocationEvidence;
  pca_provider_generation : option ProviderGeneration;
  pca_semantic_failure : option ProviderSemanticFailure;
}.

(** [classified != expected] of an optional outcome that is present. *)
Definition reclassifies {A} `{EqDecision A} (claimed : option A) (expected : option A) : bool :=
  negb (is_some claimed) || bool_decide (claimed = expected).

Definition as_generation (c : classified) : option ProviderGeneration :=
  match c with inl g => Some g | inr _ => None end.
Definition as_failure (c : classified) : option ProviderSemanticFailure :=
  match c with inl _ => None | inr f => Some f end.

Definition ProviderCallAttempt_validate (self : ProviderCallAttempt) : result ProviderCallAttempt :=
  require (negb (bool_decide (pca_logical_call_id self = []))) ValueError
    "logical_call_id must be non-empty" ;;
  require (negb (pca_attempt_number self <? 1)%Z) ValueError
    "attempt_number must be a positive integer" ;;
  require_full_hash (PStr (pca_execution_policy_hash self)) ;;
  require (fisfinite (pca_started_at self) && negb (flt (pca_started_at self) fzero)) ValueError
    "started_at must be finite and non-negative" ;;
  require (fisfinite (pca_ended_at self) && negb (flt (pca_ended_at self) fzero)) ValueError
    "ended_at must be finite and non-negative" ;;
  require (negb (flt (pca_ended_at self) (pca_started_at self))) ValueError
    "ended_at cannot precede started_at" ;;
  require (negb (Bool.eqb (is_some (pca_provider_generation self))
                          (is_some (pca_semantic_failure self)))) ValueError
    "a ProviderCallAttempt holds exactly one of provider_generation or semantic_failure" ;;
  expected ← classify_outcome (pie_outcome (pca_evidence self));
  require (reclassifies (pca_provider_generation self) (as_generation expected)) ValueError
    "provider_generation must exactly reclassify the evidence outcome" ;;
  require (reclassifies (pca_semantic_failure self) (as_failure expected)) ValueError
    "semantic_failure must exactly reclassify the evidence outcome" ;;
  Ok self.

Record ProviderCallResult := {
  pcr_logical_call_id : pystr;
  pcr_request_hash : pyval;
  pcr_execution_policy_hash : pystr;
  pcr_attempts : list ProviderCallAttempt;
  pcr_provider_generation : option ProviderGeneration;
  pcr_semantic_failure : option ProviderSemanticFailure;
}.

(** The loop over the numbered attempts. *)
Fixpoint check_attempts (self : ProviderCallResult) (index : Z)
    (attempts : list ProviderCallAttempt) : result unit :=
  match attempts with
  | [] => Ok tt
  | attempt :: attempts =>
      require (pca_attempt_number attempt =? index)%Z ValueError
        "attempts must be ordered 1..N with contiguous numbers" ;;
      require (bool_decide (pca_logical_call_id attempt = pcr_logical_call_id self)) ValueError
        "every attempt shares the Result's logical_call_id" ;;
      require (bool_decide (pca_execution_policy_hash attempt = pcr_execution_policy_hash self))
        ValueError "every attempt shares the Result's execution_policy_hash" ;;
      check_attempts self (index + 1)%Z attempts
  end.

Fixpoint check_evidence (request_hash : pystr) (policy : pyval)
    (attempts : list ProviderCallAttempt) : result unit :=
  match attempts with
  | [] => Ok tt
  | attempt :: attempts =>
      require (bool_decide (pie_request_hash (pca_evidence attempt) = request_hash)) ValueError
        "every attempt evidence request identity must agree" ;;
      require (py_eq (pie_policy_identity (pca_evidence attempt)) policy) ValueError
        "every attempt evidence policy identity must agree" ;;
      check_evidence request_hash policy attempts
  end.

Definition ProviderCallResult_validate (self : ProviderCallResult) : result ProviderCallResult :=
  require (negb (bool_decide (pcr_logical_call_id self = []))) ValueError
    "logical_call_id must be non-empty" ;;
  match pcr_attempts self, last (pcr_attempts self) with
  | first :: _, Some final =>
      require_full_hash (PStr (pcr_execution_policy_hash self)) ;;
      check_attempts self 1 (pcr_attempts self) ;;
      require (negb (Bool.eqb (is_some (pcr_provider_generation self))
                              (is_some (pcr_semantic_failure self)))) ValueError
        "a ProviderCallResult holds exactly one of provider_generation or semantic_failure" ;;
      require (reclassifies (pcr_provider_generation self) (pca_provider_generation final)) ValueError
        "terminal provider_generation must equal the final attempt's provider_generation" ;;
      require (reclassifies (pcr_semantic_failure self) (pca_semantic_failure final)) ValueError
        "terminal failure must equal the final attempt's failure" ;;
      check_evidence (pie_request_hash (pca_evidence first)) (pie_policy_identity (pca_evidence first))
        (pcr_attempts self) ;;
      Ok self
  | _, _ => raise ValueError "a ProviderCallResult has at least one attempt"
  end.

Definition latency_seconds (self : ProviderCallAttempt) : float :=
  fsub (pca_ended_at self) (pca_started_at self).
Definition attempt_succeeded (self : ProviderCallAttempt) : bool :=
  is_some (pca_provider_generation self).
Definition attempt_failure_class (self : ProviderCallAttempt) : option SemanticFailureClass :=
  psf_failure_class <$> pca_semantic_failure self.
Definition call_succeeded (self : ProviderCallResult) : bool :=
  is_some (pcr_provider_generation self).
Definition attempt_count (self : ProviderCallResult) : nat := length (pcr_attempts self).
End Attempts.

(** ** The driver

    The clock, the sleep and the transport are what the driver is given. What
    it did is a log; the answers are the environment's, one per use, and the
    transport may raise. *)
Inductive driver_event :=
| Slept (seconds : float)
| ReadClock
| Called.

Definition is_called (e : driver_event) : bool := match e with Called => true | _ => false end.
Definition is_read (e : driver_event) : bool := match e with ReadClock => true | _ => false end.

(** How often the transport was called. *)
Definition calls (log : list driver_event) : nat := length (filter is_called log).
Definition reads (log : list driver_event) : nat := length (filter is_read log).

Section Driver.
Context `{DSer : !DrSerialize, Prov : !DrProviders, Pow : !FloatPow}.

Record ProviderGenerateRequest := {
  pgr_identity_hash : pystr;
  pgr_identity_payload : pyval;
}.

Record Driver := {
  drv_request : ProviderGenerateRequest;
  drv_policy : ProviderExecutionPolicy;
  drv_transport : nat → result ProviderInvocationEvidence;
  drv_logical_call_id : pystr;
  drv_clock : nat → float;
}.

Definition driving : Type → Type := stm (list driver_event).

Definition do_sleep (seconds : float) : driving unit := modify (λ log, log ++ [Slept seconds]).
Definition do_clock (self : Driver) : driving float := λ log,
  (Ok (drv_clock self (reads log)), log ++ [ReadClock]).
Definition do_transport (self : Driver) : driving ProviderInvocationEvidence := λ log,
  (drv_transport self (calls log), log ++ [Called]).

Definition call_result (self : Driver) (policy_hash : pystr) (attempts : list ProviderCallAttempt)
    (generation : option ProviderGeneration) (failure : option ProviderSemanticFailure) :
    result ProviderCallResult :=
  ProviderCallResult_validate
    {| pcr_logical_call_id := drv_logical_call_id self;
       pcr_request_hash := pgr_identity_payload (drv_request self);
       pcr_execution_policy_hash := policy_hash; pcr_attempts := attempts;
       pcr_provider_generation := generation; pcr_semantic_failure := failure |}.

(** What follows the loop. *)
Definition give_up_with (self : Driver) (policy_hash : pystr) (attempts : list ProviderCallAttempt) :
    result ProviderCallResult :=
  final ← of_option (last attempts) RuntimeError "";
  call_result self policy_hash attempts None (pca_semantic_failure final).

(** One turn up to its classified attempt. *)
Definition one_attempt (self : Driver) (policy_hash : pystr) (attempt_number : Z) :
    driving (classified * ProviderCallAttempt) :=
  delay ← lift (delay_before (drv_policy self) attempt_number);
  (if flt fzero delay then do_sleep delay else mret tt) ;;
  started_at ← do_clock self;
  evidence ← do_transport self;
  lift (require (bool_decide (pie_request_hash evidence = pgr_identity_hash (drv_request self)))
    ValueError "transport evidence request identity does not match the invoked request") ;;
  lift (require (py_eq (pie_policy_identity evidence)
                   (policy_identity_payload (pep_transport_policy (drv_policy self))))
    ValueError "transport evidence policy identity does not match the invoked transport policy") ;;
  ended_at ← do_clock self;
  classification ← lift (classify_outcome (pie_outcome evidence));
  attempt ← lift (ProviderCallAttempt_validate
    {| pca_logical_call_id := drv_logical_call_id self; pca_attempt_number := attempt_number;
       pca_execution_policy_hash := policy_hash; pca_started_at := started_at;
       pca_ended_at := ended_at; pca_evidence := evidence;
       pca_provider_generation := as_generation classification;
       pca_semantic_failure := as_failure classification |});
  mret (classification, attempt).

(** [for attempt_number in range(1, max_attempts + 1)], and what follows. *)
Fixpoint attempts_loop (self : Driver) (policy_hash : pystr) (numbers : list Z)
    (attempts : list ProviderCallAttempt) : driving ProviderCallResult :=
  match numbers with
  | [] => lift (give_up_with self policy_hash attempts)
  | attempt_number :: numbers =>
      '(classification, attempt) ← one_attempt self policy_hash attempt_number;
      match classification with
      | inl generation =>
          lift (call_result self policy_hash (attempts ++ [attempt]) (Some generation) None)
      | inr failure =>
          retry_eligible ← lift (is_retryable (drv_policy self) (psf_failure_class failure));
          if retry_eligible : bool then attempts_loop self policy_hash numbers (attempts ++ [attempt])
          else lift (give_up_with self policy_hash (attempts ++ [attempt]))
      end
  end.

Definition attempt_numbers (self : Driver) : list Z := seqZ 1 (pep_max_attempts (drv_policy self)).

Definition driver_run (self : Driver) : driving ProviderCallResult :=
  policy_hash ← lift (ProviderExecutionPolicy_identity_hash (drv_policy self));
  attempts_loop self policy_hash (attempt_numbers self) [].

(** [run_provider_call]. *)
Definition run_provider_call (self : Driver) : driving ProviderCallResult :=
  lift (require (negb (bool_decide (drv_logical_call_id self = []))) ValueError
    "logical_call_id must be non-empty") ;;
  driver_run self.
End Driver.

(** ** What a call was billed for ([execution/call_support.py]) *)

Section Telemetry.
Context `{DSer : !DrSerialize, Prov : !DrProviders, Pow : !FloatPow}.

Definition PROVIDER_ERROR_KEY := $"provider_error".
Definition REJECTED_RESPONSE_KEY := $"rejected_response".
Definition GUARD_MARGIN_SECONDS : float := float_of_Z 15.

Definition evidences_provider_response (provider_error : pyval) : bool :=
  match provider_error with
  | PDict body => negb (bool_decide (default PNone (dict_get body REJECTED_RESPONSE_KEY) = PNone))
  | _ => false
  end.

Record CallTelemetry := {
  ct_prompt_tokens : option Z;
  ct_completion_tokens : option Z;
  ct_total_tokens : option Z;
  ct_reasoning_tokens : option Z;
  ct_latency_s : option float;
  ct_finish_reason : option pystr;
  ct_provider_error : option pyval;
  ct_provider_cost : option float;
}.

Definition billed_response (attempt : ProviderCallAttempt) : option ProviderTransportResponse :=
  match pca_provider_generation attempt with
  | Some generation => Some (pg_response generation)
  | None => pca_semantic_failure attempt ≫= psf_rejected_response
  end.

Definition billed_responses (r : ProviderCallResult) : list ProviderTransportResponse :=
  omap billed_response (pcr_attempts r).

(** The loop of [_sum_across]. *)
Fixpoint collect_counts (field : pystr) (responses : list ProviderTransportResponse) :
    option (list Z) :=
  match responses with
  | [] => Some []
  | response :: responses =>
      value ← response_usage response ≫= λ usage, usage field;
      values ← collect_counts field responses;
      Some (value :: values)
  end.

Definition sum_across (responses : list ProviderTransportResponse) (field : pystr) : option Z :=
  match responses with
  | [] => None
  | _ => int_sum <$> collect_counts field responses
  end.

Definition priced (response : ProviderTransportResponse) : bool := is_some (response_cost response).

Definition provider_error_of (r : ProviderCallResult) : option pyval :=
  match pcr_semantic_failure r with
  | Some failure =>
      if call_succeeded r then None else
      Some (PDict ([($"failure_class", PStr (SemanticFailureClass_value (psf_failure_class failure)));
                    ($"message", PStr (psf_message failure))] ++
                   match psf_transport_failure failure with
                   | Some transport_failure => [($"transport_failure", failure_dump transport_failure)]
                   | None => []
                   end ++
                   match psf_rejected_response failure with
                   | Some response => [(REJECTED_RESPONSE_KEY, response_dump response)]
                   | None => []
                   end))
  | None => None
  end.

Definition accepted_latency (r : ProviderCallResult) : option float :=
  attempt ← match list_find attempt_succeeded (pcr_attempts r) with
            | Some (_, attempt) => Some attempt
            | None => last (pcr_attempts r)
            end;
  Some (fmax fzero (fsub (pca_ended_at attempt) (pca_started_at attempt))).

Definition call_telemetry (r : option ProviderCallResult) : CallTelemetry :=
  match r with
  | None => {| ct_prompt_tokens := None; ct_completion_tokens := None; ct_total_tokens := None;
               ct_reasoning_tokens := None; ct_latency_s := None; ct_finish_reason := None;
               ct_provider_error := None; ct_provider_cost := None |}
  | Some r =>
      let responses := billed_responses r in
      {| ct_prompt_tokens := sum_across responses $"prompt_tokens";
         ct_completion_tokens := sum_across responses $"completion_tokens";
         ct_total_tokens := sum_across responses $"total_tokens";
         ct_reasoning_tokens := sum_across responses $"reasoning_tokens";
         ct_latency_s := accepted_latency r;
         ct_finish_reason :=
           pcr_provider_generation r ≫= λ accepted, response_stop_reason (pg_response accepted);
         ct_provider_error := provider_error_of r;
         ct_provider_cost :=
           if negb (bool_decide (responses = [])) && forallb priced responses
           then Some (float_sum (omap response_cost responses)) else None |}
  end.

Definition is_transient_transport_failure (r : ProviderCallResult) : bool :=
  negb (call_succeeded r) &&
  match pcr_semantic_failure r with
  | Some failure => bool_decide (psf_failure_class failure ∈ [TRANSPORT_ERROR; RATE_LIMIT; TIMEOUT])
  | None => false
  end.

Definition failure_code_of (r : ProviderCallResult) : pystr :=
  match pcr_semantic_failure r with
  | Some failure =>
      if call_succeeded r then [] else
      match psf_transport_failure failure ≫= failure_code with
      | Some (c :: code) => c :: code
      | _ => SemanticFailureClass_value (psf_failure_class failure)
      end
  | None => []
  end.

Definition is_rate_limit_failure (r : ProviderCallResult) : bool :=
  existsb (λ attempt, bool_decide (attempt_failure_class attempt = Some RATE_LIMIT)) (pcr_attempts r).

Definition guard_deadline_seconds (policy : ProviderExecutionPolicy) (wire_calls_per_unit : Z) :
    result float :=
  require (negb (wire_calls_per_unit <? 1)%Z) ValueError
    "wire_calls_per_unit must be a positive integer" ;;
  let attempt_timeouts :=
    fmul (float_of_Z (pep_max_attempts policy)) (policy_timeout_seconds (pep_transport_policy policy)) in
  delays ← mapM (delay_before policy) (seqZ 1 (pep_max_attempts policy));
  Ok (fadd (fmul (float_of_Z wire_calls_per_unit) (fadd attempt_timeouts (float_sum delays)))
        GUARD_MARGIN_SECONDS).
End Telemetry.

(** ** Delays *)

(** No minus sign, and a number. *)
Definition fpositive (f : float) : bool :=
  match f with
  | S754_zero _ | S754_infinity false | S754_finite false _ _ => true
  | _ => false
  end.

Lemma fpositive_le f : fpositive f = fle fzero f.
Proof. by destruct f as [[]|[]| |[] m e]. Qed.

Lemma fpositive_lt f : fnumber f → fpositive f = negb (flt f fzero).
Proof. by destruct f as [[]|[]| |[] m e]. Qed.

(** The product of two positive numbers is not negative. *)
Lemma fmul_positive x y :
  fpositive x = true → fpositive y = true → fmul x y ≠ S754_nan → fpositive (fmul x y) = true.
Proof.
  destruct x as [sx|[]| |[] mx ex], y as [sy|[]| |[] my ey]; try done; intros _ _; unfold fmul, SFmul.
  unfold binary_round_aux. simpl xorb. destruct (shr_fexp _ _ _ _ _) as [mrs e].
  destruct (shr_fexp _ _ (round_nearest_even _ _) _ _) as [mrs' e'].
  destruct (shr_m mrs'); [done| |done]. by destruct (_ <=? _)%Z.
Qed.

(** What a schedule's validation establishes. *)
Definition backoff_ok (self : BackoffSchedule) : Prop :=
  fisfinite (bo_base_seconds self) = true ∧ fisfinite (bo_multiplier self) = true ∧
  fisfinite (bo_max_seconds self) = true ∧ fpositive (bo_base_seconds self) = true ∧
  fle fone (bo_multiplier self) = true ∧ fle (bo_base_seconds self) (bo_max_seconds self) = true.

Lemma BackoffSchedule_validate_ok self b : BackoffSchedule_validate self = Ok b → backoff_ok self.
Proof.
  unfold BackoffSchedule_validate. intros H. inv_ok.
  pose proof (fisfinite_number _ Hiv). pose proof (fisfinite_number _ Hiv0).
  pose proof (fisfinite_number _ Hiv1).
  split_and!; try done.
  - rewrite fpositive_lt by done. by rewrite Hiv2.
  - by apply fnumber_lt_false.
  - by apply fnumber_lt_false.
Qed.

Lemma delay_for_bounded `{Pow : !FloatPow, PowLaws : !FloatPowLaws} (self : BackoffSchedule) n :
  backoff_ok self → (1 <= n)%Z →
  ∃ delay, delay_for self n = Ok delay ∧ fisfinite delay = true ∧
    fle fzero delay = true ∧ fle delay (bo_max_seconds self) = true.
Proof.
  intros (Hb & Hm & Hx & Hpos & Hone & Hle) Hn. unfold delay_for.
  pose proof (fisfinite_number _ Hx). rewrite fpositive_le in Hpos.
  rewrite (proj2 (Z.ltb_ge _ _)) by lia. simpl.
  destruct (Z.eqb_spec n 1) as [->|Hn1].
  { exists fzero. split_and!; try done. by eapply fle_trans. }
  destruct (_ || _ || _); [by eexists|].
  assert (∃ d, Ok (bo_max_seconds self) = Ok d ∧ fisfinite d = true ∧ fle fzero d = true ∧
    fle d (bo_max_seconds self) = true) as Hmax.
  { eexists. split_and!; try done; [by eapply fle_trans|by apply fle_refl]. }
  destruct (fpow (bo_multiplier self) (n - 2)) as [power|e] eqn:Hp.
  2: { assert (0 <= n - 2)%Z as Hn2 by lia. by rewrite (fpow_overflow _ _ _ Hm Hone Hn2 Hp). }
  destruct (fisfinite (fmul (bo_base_seconds self) power)) eqn:Hf; [|done].
  assert (fpositive (fmul (bo_base_seconds self) power) = true) as Hd.
  { assert (0 <= n - 2)%Z as Hn2 by lia.
    apply fmul_positive; [by rewrite fpositive_le| |by intros E; rewrite E in Hf].
    destruct (fpow_at_least_one _ _ _ Hm Hone Hn2 Hp) as [->|Hge].
    - by destruct (bo_base_seconds self) as [|[]| |[] ? ?].
    - rewrite fpositive_le. by eapply fle_trans; [|apply Hge]. }
  rewrite fpositive_le in Hd. unfold fmin. destruct (flt _ _) eqn:Hlt; [done|].
  eexists. split_and!; try done. apply fnumber_lt_false; [done|by apply fisfinite_number|done].
Qed.

(** ** The driver, turn by turn *)

(** What the loop makes of the answer to its turn [i], counted from zero. *)
Inductive verdict :=
| Fails (e : exn)
| Stops
| Retries.

(** The sleeps of a log. *)
Definition slept (log : list driver_event) : list float :=
  omap (λ e, match e with Slept seconds => Some seconds | _ => None end) log.

Section DriverTheorems.
Context `{DSer : !DrSerialize, Prov : !DrProviders, Pow : !FloatPow, PowLaws : !FloatPowLaws}.
Implicit Types (self : Driver) (i n turns : nat) (log : list driver_event).

Definition invoked_policy self : pyval :=
  policy_identity_payload (pep_transport_policy (drv_policy self)).

Definition turn_verdict self (i : nat) : verdict :=
  match drv_transport self i with
  | Err e => Fails e
  | Ok evidence =>
      if decide (pie_request_hash evidence = pgr_identity_hash (drv_request self)) then
        if decide (pie_policy_identity evidence = invoked_policy self) then
          match classify_outcome (pie_outcome evidence) with
          | Ok (inl _) => Stops
          | Ok (inr failure) =>
              match is_retryable (drv_policy self) (psf_failure_class failure) with
              | Ok true => Retries
              | Ok false => Stops
              | Err e => Fails e
              end
          | Err e => Fails e
          end
        else Fails (Raise ValueError
          "transport evidence policy identity does not match the invoked transport policy")
      else Fails (Raise ValueError
        "transport evidence request identity does not match the invoked request")
  end.

(** The turn after which the loop is left: the first that does not retry, the
    last allowed one at the latest. *)
Fixpoint final_turn self (turns i : nat) : nat :=
  match turns with
  | S (S _ as turns) =>
      match turn_verdict self i with Retries => final_turn self turns (S i) | _ => i end
  | _ => i
  end.

(** What the caller of the driver provides: a valid policy with its hash, a
    clock that does not run backwards, and transport evidence whose policy
    identity is compared as a document. *)
Record driver_ready self (policy_hash : pystr) : Prop := {
  dr_policy : ProviderExecutionPolicy_validate (drv_policy self) = Ok (drv_policy self);
  dr_call_id : drv_logical_call_id self ≠ [];
  dr_hash : ProviderExecutionPolicy_identity_hash (drv_policy self) = Ok policy_hash;
  dr_full_hash : require_full_hash (PStr policy_hash) = Ok policy_hash;
  dr_clock i : fisfinite (drv_clock self i) = true ∧ fle fzero (drv_clock self i) = true ∧
    fle (drv_clock self i) (drv_clock self (S i)) = true;
  dr_identity i evidence : drv_transport self i = Ok evidence →
    py_eq (pie_policy_identity evidence) (invoked_policy self) =
      bool_decide (pie_policy_identity evidence = invoked_policy self);
}.

Lemma calls_app log log' : calls (log ++ log') = (calls log + calls log')%nat.
Proof. unfold calls. by rewrite filter_app, length_app. Qed.
Lemma reads_app log log' : reads (log ++ log') = (reads log + reads log')%nat.
Proof. unfold reads. by rewrite filter_app, length_app. Qed.
Lemma slept_app log log' : slept (log ++ log') = slept log ++ slept log'.
Proof. apply omap_app. Qed.

Lemma classify_outcome_total (outcome : ProviderTransportOutcome) :
  ∃ c, classify_outcome outcome = Ok c.
Proof.
  destruct outcome as [response|failure]; simpl; [|by eexists].
  unfold accept_provider_generation. destruct (is_blank _) eqn:E; [by eexists|].
  unfold ProviderGeneration_new. rewrite E. simpl. rewrite bool_decide_true by done. by eexists.
Qed.

(** After [n] turns: the transport was called [n] times, and the driver slept
    the positive delays of their numbers. *)
Definition turns_logged self (n : nat) log : Prop :=
  calls log = n ∧
  ∃ delays, mapM (delay_before (drv_policy self)) (seqZ 1 (Z.of_nat n)) = Ok delays ∧
    slept log = filter (λ d, flt fzero d = true) delays.

(** The attempt of turn [i]. *)
Definition attempt_ok self (policy_hash : pystr) (i : nat) (attempt : ProviderCallAttempt) : Prop :=
  pca_attempt_number attempt = (Z.of_nat i + 1)%Z ∧
  pca_logical_call_id attempt = drv_logical_call_id self ∧
  pca_execution_policy_hash attempt = policy_hash ∧
  drv_transport self i = Ok (pca_evidence attempt) ∧
  pie_request_hash (pca_evidence attempt) = pgr_identity_hash (drv_request self) ∧
  pie_policy_identity (pca_evidence attempt) = invoked_policy self ∧
  ∃ c, classify_outcome (pie_outcome (pca_evidence attempt)) = Ok c ∧
    pca_provider_generation attempt = as_generation c ∧ pca_semantic_failure attempt = as_failure c.

Lemma driver_delay self policy_hash (i : nat) :
  driver_ready self policy_hash →
  ∃ delay, delay_before (drv_policy self) (Z.of_nat i + 1) = Ok delay.
Proof.
  intros [Hp _ _ _ _ _]. unfold ProviderExecutionPolicy_validate in Hp. inv_ok.
  destruct (delay_for_bounded (pep_backoff (drv_policy self)) (Z.of_nat i + 1)) as (d & Hd & _);
    [by eapply BackoffSchedule_validate_ok|lia|]. by exists d.
Qed.

Lemma seqZ_snoc (i : nat) : seqZ 1 (Z.of_nat (S i)) = seqZ 1 (Z.of_nat i) ++ [(Z.of_nat i + 1)%Z].
Proof.
  replace (Z.of_nat (S i)) with (Z.of_nat i + 1)%Z by lia. rewrite seqZ_app by lia.
  f_equal. rewrite seqZ_cons by lia. rewrite seqZ_nil by lia. f_equal; lia.
Qed.

Lemma mapM_snoc {A B} (f : A → result B) l ys x y :
  mapM f l = Ok ys → f x = Ok y → mapM f (l ++ [x]) = Ok (ys ++ [y]).
Proof. rewrite !mapM_Ok_Forall2. intros. apply Forall2_app; [done|]. by repeat constructor. Qed.

Lemma turn_logged self (i : nat) log log' delay :
  turns_logged self i log → delay_before (drv_policy self) (Z.of_nat i + 1) = Ok delay →
  calls log' = 1%nat →
  slept log' = (if flt fzero delay then [delay] else []) →
  turns_logged self (S i) (log ++ log').
Proof.
  intros (Hc & delays & Hd & Hs) Hdelay Hc' Hs'. split; [rewrite calls_app; lia|].
  exists (delays ++ [delay]). split; [rewrite seqZ_snoc; by apply mapM_snoc|].
  rewrite slept_app, Hs, Hs', filter_app, filter_cons, filter_nil.
  f_equal. by destruct (flt fzero delay).
Qed.

Lemma clock_reading self policy_hash (i : nat) :
  driver_ready self policy_hash →
  fisfinite (drv_clock self i) && negb (flt (drv_clock self i) fzero) = true.
Proof.
  intros [_ _ _ _ Hc _]. destruct (Hc i) as (Hf & Hz & _). rewrite Hf. simpl.
  rewrite fle_flt in Hz; [done|done|by apply fisfinite_number].
Qed.

Lemma clock_order self policy_hash (i : nat) :
  driver_ready self policy_hash → flt (drv_clock self (S i)) (drv_clock self i) = false.
Proof.
  intros [_ _ _ _ Hc _]. destruct (Hc i) as (Hf & _ & Hle), (Hc (S i)) as (Hf' & _ & _).
  rewrite fle_flt in Hle by (by apply fisfinite_number). by apply negb_true_iff.
Qed.

(** The record of a turn whose answer was classified is valid. *)
Lemma attempt_valid self policy_hash (i k : nat) evidence c :
  driver_ready self policy_hash → classify_outcome (pie_outcome evidence) = Ok c →
  let attempt := {| pca_logical_call_id := drv_logical_call_id self;
    pca_attempt_number := (Z.of_nat i + 1)%Z; pca_execution_policy_hash := policy_hash;
    pca_started_at := drv_clock self k; pca_ended_at := drv_clock self (S k);
    pca_evidence := evidence; pca_provider_generation := as_generation c;
    pca_semantic_failure := as_failure c |} in
  ProviderCallAttempt_validate attempt = Ok attempt.
Proof.
  intros Hr Hc attempt. unfold ProviderCallAttempt_validate. subst attempt.
  cbn [pca_logical_call_id pca_attempt_number pca_execution_policy_hash pca_started_at pca_ended_at
    pca_evidence pca_provider_generation pca_semantic_failure].
  rewrite bool_decide_false by apply (dr_call_id _ _ Hr).
  rewrite (proj2 (Z.ltb_ge _ _)) by lia.
  rewrite (dr_full_hash _ _ Hr), !(clock_reading _ _ _ Hr), (clock_order _ _ _ Hr), Hc. simpl.
  destruct c; simpl; unfold reclassifies; simpl; by rewrite bool_decide_true.
Qed.

(** What happens in turn [i], by its verdict. *)
Definition turn_done self (policy_hash : pystr) (i : nat) (v : verdict)
    (outcome : result (classified * ProviderCallAttempt)) log : Prop :=
  match v with
  | Fails e =>
      outcome = Err e ∨
      ∃ failure attempt, outcome = Ok (inr failure, attempt) ∧
        is_retryable (drv_policy self) (psf_failure_class failure) = Err e
  | v => ∃ c attempt, outcome = Ok (c, attempt) ∧ attempt_ok self policy_hash i attempt ∧
      pca_provider_generation attempt = as_generation c ∧ pca_semantic_failure attempt = as_failure c ∧
      reads log = (2 * S i)%nat ∧
      match c with
      | inl _ => v = Stops
      | inr failure => is_retryable (drv_policy self) (psf_failure_class failure) =
          Ok (match v with Retries => true | _ => false end)
      end
  end.

Lemma one_attempt_spec self policy_hash (i : nat) log :
  driver_ready self policy_hash → turns_logged self i log → reads log = (2 * i)%nat →
  ∃ outcome log', one_attempt self policy_hash (Z.of_nat i + 1) log = (outcome, log') ∧
    turns_logged self (S i) log' ∧ turn_done self policy_hash i (turn_verdict self i) outcome log'.
Proof.
  intros Hr Hlog Hreads. destruct (driver_delay self policy_hash i Hr) as [delay Hdelay].
  pose (sleep := if flt fzero delay then [Slept delay] else []).
  assert (∀ l, calls (sleep ++ l) = calls l ∧ reads (sleep ++ l) = reads l ∧
    slept (sleep ++ l) = (if flt fzero delay then [delay] else []) ++ slept l) as Hsleep.
  { intros l. subst sleep. by destruct (flt fzero delay). }
  assert (∀ l, calls l = 1%nat → slept l = [] → turns_logged self (S i) (log ++ sleep ++ l)) as Hdone.
  { intros l Hc Hs. destruct (Hsleep l) as (Hc' & _ & Hs'). eapply turn_logged; [done|done|congruence|].
    by rewrite Hs', Hs, app_nil_r. }
  unfold one_attempt, lift. unfold mbind, stm_bind. rewrite Hdelay.
  replace ((if flt fzero delay then do_sleep delay else mret tt) log) with (Ok tt, log ++ sleep).
  2: { subst sleep. destruct (flt fzero delay); [done|]. by rewrite app_nil_r. }
  destruct (Hsleep []) as (Hs1 & Hs2 & _). rewrite app_nil_r in Hs1, Hs2.
  destruct Hlog as (Hcalls & _).
  assert (reads (log ++ sleep) = (2 * i)%nat) as H1 by (by rewrite reads_app, Hs2, Hreads, Nat.add_0_r).
  assert (calls ((log ++ sleep) ++ [ReadClock]) = i) as H2.
  { by rewrite !calls_app, Hs1, Hcalls, !Nat.add_0_r. }
  assert (reads (((log ++ sleep) ++ [ReadClock]) ++ [Called]) = S (2 * i)) as H3.
  { by rewrite !reads_app, Hs2, Hreads, !Nat.add_0_r, Nat.add_1_r. }
  cbn [do_clock do_transport]. rewrite H1, H2, H3, <-!app_assoc. cbn [app].
  unfold turn_verdict. destruct (drv_transport self i) as [evidence|e] eqn:Ht.
  2: { eexists _, _. split; [reflexivity|]. split; [by apply Hdone|]. by left. }
  destruct (decide (pie_request_hash evidence = _)) as [Hh|Hh];
    [rewrite bool_decide_true by done|rewrite bool_decide_false by done]; cbn -[Nat.mul].
  2: { eexists _, _. split; [reflexivity|]. split; [by apply Hdone|]. by left. }
  fold (invoked_policy self). rewrite (dr_identity _ _ Hr _ _ Ht).
  destruct (decide (pie_policy_identity evidence = _)) as [Hp|Hp];
    [rewrite bool_decide_true by done|rewrite bool_decide_false by done]; cbn -[Nat.mul].
  2: { eexists _, _. split; [reflexivity|]. split; [by apply Hdone|]. by left. }
  destruct (classify_outcome_total (pie_outcome evidence)) as [c Hc]. rewrite Hc.
  rewrite (attempt_valid _ _ i (2 * i) evidence c Hr Hc).
  eexists _, _. split; [reflexivity|]. split; [by apply Hdone|].
  assert (reads (log ++ sleep ++ [ReadClock; Called; ReadClock]) = (2 * S i)%nat) as Hr'.
  { rewrite reads_app, (proj1 (proj2 (Hsleep _))), Hreads. by replace (2 * S i)%nat with (2 * i + 2)%nat by lia. }
  destruct c as [generation|failure]; cbn.
  - eexists _, _. split; [reflexivity|]. split_and!; try done.
    unfold attempt_ok; cbn. split_and!; try done. by exists (inl generation).
  - assert (∀ policy_hash' attempt, attempt = {| pca_logical_call_id := drv_logical_call_id self;
      pca_attempt_number := (Z.of_nat i + 1)%Z; pca_execution_policy_hash := policy_hash';
      pca_started_at := drv_clock self (2 * i); pca_ended_at := drv_clock self (S (2 * i));
      pca_evidence := evidence; pca_provider_generation := None;
      pca_semantic_failure := Some failure |} → attempt_ok self policy_hash' i attempt) as Hok.
    { intros ? ? ->. unfold attempt_ok; cbn. split_and!; try done. by exists (inr failure). }
    destruct (is_retryable _ _) as [[]|e] eqn:Hretry; cbn.
    + eexists _, _. split; [reflexivity|]. split_and!; try done. by apply Hok.
    + eexists _, _. split; [reflexivity|]. split_and!; try done. by apply Hok.
    + right. by eexists _, _.
Qed.

Lemma is_retryable_total self policy_hash failure_class :
  driver_ready self policy_hash → ∃ b, is_retryable (drv_policy self) failure_class = Ok b.
Proof.
  intros [Hp _ _ _ _ _]. unfold ProviderExecutionPolicy_validate in Hp. inv_ok.
  rewrite forallb_Forall, Forall_forall in Hiv1.
  assert (failure_class ∈ SemanticFailureClass_members) as Hin by (destruct failure_class; set_solver).
  specialize (Hiv1 _ Hin). inv_bool. unfold is_retryable.
  destruct (dict_get _ _) eqn:E; [by eexists|]. by apply dict_get_None in E.
Qed.

Lemma check_attempts_Ok self policy_hash (r : ProviderCallResult) (i : nat) attempts :
  (∀ j attempt, attempts !! j = Some attempt → attempt_ok self policy_hash (i + j) attempt) →
  pcr_logical_call_id r = drv_logical_call_id self → pcr_execution_policy_hash r = policy_hash →
  check_attempts r (Z.of_nat i + 1) attempts = Ok tt.
Proof.
  intros Hok Hid Hhash. revert i Hok. induction attempts as [|attempt attempts IH]; intros i Hok; [done|].
  destruct (Hok 0%nat attempt eq_refl) as (Hn & Hid' & Hhash' & _). simpl.
  rewrite Hn, Nat.add_0_r, Z.eqb_refl, Hid, Hid', Hhash, Hhash', !bool_decide_true by done. simpl.
  replace (Z.of_nat i + 1 + 1)%Z with (Z.of_nat (S i) + 1)%Z by lia. apply IH.
  intros j a Hj. replace (S i + j)%nat with (i + S j)%nat by lia. by apply Hok.
Qed.

Lemma check_evidence_Ok self policy_hash attempts :
  driver_ready self policy_hash →
  (∀ j attempt, attempts !! j = Some attempt → ∃ i, attempt_ok self policy_hash i attempt) →
  check_evidence (pgr_identity_hash (drv_request self)) (invoked_policy self) attempts = Ok tt.
Proof.
  intros Hr. induction attempts as [|attempt attempts IH]; intros Hok; [done|].
  destruct (Hok 0%nat attempt eq_refl) as (i & _ & _ & _ & Ht & Hh & Hp & _). simpl.
  rewrite Hh, (dr_identity _ _ Hr _ _ Ht), !bool_decide_true by done. simpl.
  apply IH. intros j a Hj. by apply (Hok (S j)).
Qed.

(** The result of a call that took turns [0 .. k]. *)
Definition call_ok self (policy_hash : pystr) (k : nat) (r : ProviderCallResult) : Prop :=
  ProviderCallResult_validate r = Ok r ∧ length (pcr_attempts r) = S k ∧
  (∀ i attempt, pcr_attempts r !! i = Some attempt → attempt_ok self policy_hash i attempt) ∧
  ∃ final, last (pcr_attempts r) = Some final ∧
    pcr_provider_generation r = pca_provider_generation final ∧
    pcr_semantic_failure r = pca_semantic_failure final.

Lemma call_result_Ok self policy_hash (k : nat) attempts final :
  driver_ready self policy_hash →
  (∀ i attempt, attempts !! i = Some attempt → attempt_ok self policy_hash i attempt) →
  length attempts = S k → last attempts = Some final →
  ∃ r, call_result self policy_hash attempts (pca_provider_generation final)
         (pca_semantic_failure final) = Ok r ∧ call_ok self policy_hash k r.
Proof.
  intros Hr Hok Hlen Hlast. unfold call_result, ProviderCallResult_validate.
  cbn [pcr_logical_call_id pcr_attempts pcr_execution_policy_hash pcr_provider_generation
    pcr_semantic_failure].
  assert (∃ i, attempts !! i = Some final) as [i Hi].
  { rewrite last_lookup in Hlast. by eexists. }
  destruct attempts as [|first attempts]; [done|].
  destruct (Hok 0%nat first eq_refl) as (_ & _ & _ & _ & Hh & Hp & _).
  destruct (Hok _ _ Hi) as (_ & _ & _ & _ & _ & _ & c & _ & Hg & Hf).
  set (r := Build_ProviderCallResult _ _ _ _ _ _).
  assert (ProviderCallResult_validate r = Ok r) as Hv.
  { unfold ProviderCallResult_validate. subst r.
    cbn [pcr_logical_call_id pcr_attempts pcr_execution_policy_hash pcr_provider_generation
      pcr_semantic_failure].
    rewrite bool_decide_false by apply (dr_call_id _ _ Hr). rewrite Hlast, (dr_full_hash _ _ Hr).
    rewrite (check_attempts_Ok self policy_hash _ 0) by done.
    rewrite Hg, Hf, Hh, Hp, (check_evidence_Ok self policy_hash) by (try done; eauto).
    destruct c; unfold reclassifies; simpl; by rewrite bool_decide_true. }
  exists r. split; [apply Hv|]. split_and!; [done|done|done|]. by exists final.
Qed.

(** The records collected before turn [i]. *)
Definition attempts_ok self (policy_hash : pystr) (attempts : list ProviderCallAttempt) : Prop :=
  ∀ i attempt, attempts !! i = Some attempt → attempt_ok self policy_hash i attempt.

Lemma attempts_ok_snoc self policy_hash attempts attempt :
  attempts_ok self policy_hash attempts → attempt_ok self policy_hash (length attempts) attempt →
  attempts_ok self policy_hash (attempts ++ [attempt]).
Proof. intros Hok Ha j a. rewrite lookup_snoc_Some. intros [[_ ?]|[-> <-]]; auto. Qed.

(** How the driver ends in turn [k]. *)
Definition call_ends self (policy_hash : pystr) (k : nat) (outcome : result ProviderCallResult) : Prop :=
  match turn_verdict self k with
  | Fails e => outcome = Err e
  | _ => ∃ r, outcome = Ok r ∧ call_ok self policy_hash k r
  end.

Lemma attempts_loop_turn self policy_hash numbers (i : nat) attempts log :
  driver_ready self policy_hash → length attempts = i → attempts_ok self policy_hash attempts →
  turns_logged self i log → reads log = (2 * i)%nat →
  ∃ log', turns_logged self (S i) log' ∧
  ((∃ attempt, turn_verdict self i = Retries ∧ reads log' = (2 * S i)%nat ∧
     attempts_ok self policy_hash (attempts ++ [attempt]) ∧
     attempts_loop self policy_hash ((Z.of_nat i + 1)%Z :: numbers) attempts log =
       attempts_loop self policy_hash numbers (attempts ++ [attempt]) log' ∧
     ∃ outcome, give_up_with self policy_hash (attempts ++ [attempt]) = outcome ∧
       call_ends self policy_hash i outcome) ∨
   (turn_verdict self i ≠ Retries ∧ ∃ outcome,
     attempts_loop self policy_hash ((Z.of_nat i + 1)%Z :: numbers) attempts log = (outcome, log') ∧
     call_ends self policy_hash i outcome)).
Proof.
  intros Hr Hlen Hok Hlog Hreads.
  destruct (one_attempt_spec self policy_hash i log Hr Hlog Hreads) as (o & log1 & Ho & Hlog1 & Hdone).
  exists log1. split; [done|]. cbn [attempts_loop]. rewrite !stm_run, Ho.
  unfold call_ends. destruct (turn_verdict self i) as [e| |] eqn:Hv.
  { right. split; [done|]. destruct Hdone as [->|(failure & attempt & _ & Hd)]; [by exists (Err e)|].
    destruct (is_retryable_total self policy_hash (psf_failure_class failure) Hr) as [? ?]. congruence. }
  all: destruct Hdone as (c & attempt & -> & Ha & Hg & Hf & Hreads1 & Hc).
  all: assert (attempts_ok self policy_hash (attempts ++ [attempt])) as Hok'
    by (apply attempts_ok_snoc; [done|by rewrite Hlen]).
  all: destruct (call_result_Ok self policy_hash i (attempts ++ [attempt]) attempt)
    as (r & Hr' & Hcall); rewrite ?last_snoc, ?length_app, ?Hlen; simpl; try (done || lia).
  all: destruct c as [generation|failure]; try done; rewrite ?stm_run; unfold lift.
  - right. split; [done|]. rewrite Hg, Hf in Hr'. simpl in Hr'. rewrite Hr'.
    eexists. split; [done|]. by exists r.
  - right. split; [done|]. rewrite Hc. unfold give_up_with. rewrite last_snoc. rewrite Hg in Hr'.
    simpl in *. rewrite Hr'. eexists. split; [done|]. by exists r.
  - left. exists attempt. split_and!; try done; [by rewrite Hc|].
    unfold give_up_with. rewrite last_snoc. rewrite Hg in Hr'. simpl in *. rewrite Hr'.
    eexists. split; [done|]. by exists r.
Qed.

Lemma attempts_loop_spec self policy_hash turns : ∀ i attempts log,
  driver_ready self policy_hash → (0 < turns)%nat → length attempts = i →
  attempts_ok self policy_hash attempts → turns_logged self i log → reads log = (2 * i)%nat →
  let k := final_turn self turns i in
  ∃ outcome log',
    attempts_loop self policy_hash (seqZ (Z.of_nat i + 1) (Z.of_nat turns)) attempts log =
      (outcome, log') ∧
    turns_logged self (S k) log' ∧ (i <= k < i + turns)%nat ∧
    (∀ j, (i <= j < k)%nat → turn_verdict self j = Retries) ∧ call_ends self policy_hash k outcome.
Proof.
  induction turns as [|turns IH]; intros i attempts log Hr Hpos Hlen Hok Hlog Hreads k; [lia|].
  rewrite seqZ_cons by lia.
  replace (Z.succ (Z.of_nat i + 1)) with (Z.of_nat (S i) + 1)%Z by lia.
  replace (Z.pred (Z.of_nat (S turns))) with (Z.of_nat turns) by lia.
  destruct (attempts_loop_turn self policy_hash (seqZ (Z.of_nat (S i) + 1) (Z.of_nat turns)) i attempts log)
    as (log1 & Hlog1 & [(attempt & Hv & Hreads1 & Hok1 & -> & o & Ho & Hends)|(Hv & o & -> & Hends)]);
    try done.
  - subst k. destruct turns as [|turns].
    + exists o, log1. simpl in *. rewrite <-Ho. split_and!; try done; [lia|lia|]. by rewrite Ho.
    + replace (final_turn self (S (S turns)) i) with (final_turn self (S turns) (S i))
        by (simpl; by rewrite Hv).
      destruct (IH (S i) (attempts ++ [attempt]) log1) as (o' & log' & Hloop & Hlog' & Hrange & Hprev & Hout);
        rewrite ?length_app, ?Hlen; try (done || (simpl; lia)).
      exists o', log'. split_and!; try done; [lia|lia|]. intros j Hj.
      destruct (decide (j = i)) as [->|]; [done|]. apply Hprev. lia.
  - assert (k = i) as ->.
    { subst k. destruct turns; [done|]. simpl. by destruct (turn_verdict self i). }
    exists o, log1. split_and!; try done; lia.
Qed.

Lemma slept_bounded self policy_hash (n : nat) log :
  driver_ready self policy_hash → turns_logged self n log →
  Forall (λ d, fle d (bo_max_seconds (pep_backoff (drv_policy self))) = true) (slept log).
Proof.
  intros [Hp _ _ _ _ _] (_ & delays & Hd & ->). unfold ProviderExecutionPolicy_validate in Hp. inv_ok.
  apply BackoffSchedule_validate_ok in Hiv. apply Forall_forall. intros d [_ Hin]%list_elem_of_filter.
  apply mapM_Ok_Forall2 in Hd. apply list_elem_of_lookup in Hin as [i Hi].
  destruct (Forall2_lookup_r _ _ _ _ _ Hd Hi) as (number & Hn & Hdelay).
  apply lookup_seqZ in Hn as [-> _].
  destruct (delay_for_bounded _ (1 + Z.of_nat i) Hiv) as (d' & Hd' & _ & _ & Hle); [lia|].
  unfold delay_before in Hdelay. congruence.
Qed.

(** C19. A logical call makes its turns until one does not fail with a retryable
    class, and at most [max_attempts]; it calls the transport once a turn and
    sleeps the turn's positive delay, never more than the policy's maximum. It then returns, with a valid record
    whose attempts are those turns and whose outcome is the last one's, unless
    the last turn's transport raised or answered for another request or policy:
    then it raises. *)
Theorem provider_call_exact self (policy_hash : pystr) :
  driver_ready self policy_hash →
  let k := final_turn self (Z.to_nat (pep_max_attempts (drv_policy self))) 0 in
  ∃ outcome log,
    run_provider_call self [] = (outcome, log) ∧ turns_logged self (S k) log ∧
    (Z.of_nat (S k) <= pep_max_attempts (drv_policy self))%Z ∧
    Forall (λ d, fle d (bo_max_seconds (pep_backoff (drv_policy self))) = true) (slept log) ∧
    (∀ i, (i < k)%nat → turn_verdict self i = Retries) ∧
    call_ends self policy_hash k outcome.
Proof.
  intros Hr k. pose proof (dr_policy _ _ Hr) as Hp.
  unfold ProviderExecutionPolicy_validate in Hp. inv_ok.
  destruct (attempts_loop_spec self policy_hash (Z.to_nat (pep_max_attempts (drv_policy self))) 0 [] [])
    as (outcome & log & Hloop & Hlog & Hk & Hprev & Hends); try done; [lia|split; [done|by exists []]|].
  rewrite Z2Nat.id in Hloop by lia. exists outcome, log. split_and!; try done; [|lia|by eapply slept_bounded|].
  - unfold run_provider_call, driver_run, attempt_numbers, lift, mbind, stm_bind.
    rewrite bool_decide_false by apply (dr_call_id _ _ Hr). simpl. by rewrite (dr_hash _ _ Hr).
  - intros i Hi. apply Hprev. lia.
Qed.
End DriverTheorems.

(** ** What is billed *)

Section TelemetryTheorems.
Context `{DSer : !DrSerialize, Prov : !DrProviders, Pow : !FloatPow}.

(** The response an attempt's transport gave, when it gave one. *)
Definition answered (attempt : ProviderCallAttempt) : option ProviderTransportResponse :=
  match pie_outcome (pca_evidence attempt) with
  | Response response => Some response
  | TransportFailure _ => None
  end.

Lemma classify_outcome_cases (outcome : ProviderTransportOutcome) c :
  classify_outcome outcome = Ok c →
  match outcome, c with
  | Response response, inl generation => pg_response generation = response
  | Response response, inr failure =>
      psf_rejected_response failure = Some response ∧ psf_transport_failure failure = None
  | TransportFailure failure, inr f =>
      psf_rejected_response f = None ∧ psf_transport_failure f = Some failure
  | TransportFailure _, inl _ => False
  end.
Proof.
  destruct outcome as [response|failure]; simpl; unfold accept_provider_generation.
  - destruct (is_blank _); unfold ProviderSemanticFailure_new, ProviderGeneration_new; simpl;
      intros H; inv_ok; done.
  - unfold ProviderSemanticFailure_new. simpl. intros H. inv_ok. done.
Qed.

(** Of two optional outcomes of which one is present, the claimed one is the
    expected one. *)
Lemma reclassified (generation : option ProviderGeneration) (failure : option ProviderSemanticFailure) c :
  Bool.eqb (is_some generation) (is_some failure) = false →
  reclassifies generation (as_generation c) = true → reclassifies failure (as_failure c) = true →
  generation = as_generation c ∧ failure = as_failure c.
Proof.
  unfold reclassifies. destruct generation, failure, c; simpl; try done; intros _ H1 H2;
    inv_bool; by simplify_eq.
Qed.

Lemma attempt_classified attempt :
  ProviderCallAttempt_validate attempt = Ok attempt →
  ∃ c, classify_outcome (pie_outcome (pca_evidence attempt)) = Ok c ∧
    pca_provider_generation attempt = as_generation c ∧ pca_semantic_failure attempt = as_failure c.
Proof.
  unfold ProviderCallAttempt_validate. intros H. inv_ok.
  match goal with Hc : classify_outcome _ = Ok ?c |- _ => exists c; split; [done|]; clear Hc end.
  eapply reclassified; eauto.
Qed.

Lemma billed_answered attempt :
  ProviderCallAttempt_validate attempt = Ok attempt → billed_response attempt = answered attempt.
Proof.
  intros (c & Hc & Hg & Hf)%attempt_classified. apply classify_outcome_cases in Hc.
  unfold billed_response, answered. rewrite Hg, Hf.
  destruct (pie_outcome _), c; simpl in *; naive_solver.
Qed.

Lemma billed_responses_answered r :
  Forall (λ a, ProviderCallAttempt_validate a = Ok a) (pcr_attempts r) →
  billed_responses r = omap answered (pcr_attempts r).
Proof.
  unfold billed_responses. induction 1 as [|a l Ha _ IH]; [done|]. csimpl.
  by rewrite (billed_answered a Ha), IH.
Qed.

Lemma collect_counts_Some field responses values :
  collect_counts field responses = Some values ↔
  Forall2 (λ response n, (response_usage response ≫= λ usage, usage field) = Some n) responses values.
Proof.
  revert values. induction responses as [|response responses IH]; intros values; simpl.
  { split; [by intros [= <-]|by inversion 1]. }
  rewrite bind_Some. split.
  - intros (n & Hn & H). apply bind_Some in H as (ns & Hns & [= <-]). constructor; [done|]. by apply IH.
  - inversion 1; subst. eexists. split; [done|]. apply bind_Some. eexists. split; [by apply IH|done].
Qed.

Lemma sum_across_Some responses field total :
  sum_across responses field = Some total ↔
  responses ≠ [] ∧ ∃ values, total = int_sum values ∧
    Forall2 (λ response n, (response_usage response ≫= λ usage, usage field) = Some n) responses values.
Proof.
  unfold sum_across. destruct responses as [|response responses]; [by split; [|intros []]|].
  rewrite fmap_Some. split.
  - intros (values & Hv & ->). split; [done|]. exists values. split; [done|].
    by apply collect_counts_Some.
  - intros (_ & values & -> & Hv). exists values. split; [|done]. by apply collect_counts_Some.
Qed.

Lemma prices_Forall2 responses :
  forallb priced responses = true ↔
  ∃ prices, Forall2 (λ response price, response_cost response = Some price) responses prices ∧
    omap response_cost responses = prices.
Proof.
  unfold priced. induction responses as [|response responses IH]; csimpl.
  { split; [|done]. intros _. exists []. by split. }
  rewrite andb_true_iff, IH, is_some_Some. split.
  - intros ([price Hp] & prices & Hps & <-). exists (price :: omap response_cost responses).
    rewrite Hp. split; [by constructor|done].
  - intros (prices & Hps & Ho). inversion Hps as [|? price ? prices' Hp Hps']; subst.
    split; [by eexists|]. exists prices'. split; [done|]. rewrite Hp in *. congruence.
Qed.

Lemma result_terminal r final c :
  ProviderCallResult_validate r = Ok r → last (pcr_attempts r) = Some final →
  pca_provider_generation final = as_generation c → pca_semantic_failure final = as_failure c →
  pcr_provider_generation r = as_generation c ∧ pcr_semantic_failure r = as_failure c.
Proof.
  unfold ProviderCallResult_validate. intros H Hlast Hg Hf. rewrite Hlast in H.
  destruct (pcr_attempts r); inv_ok. rewrite Hg in *. rewrite Hf in *. by apply reclassified.
Qed.

Lemma prices_cost responses prices :
  Forall2 (λ response price, response_cost response = Some price) responses prices →
  omap response_cost responses = prices ∧ forallb priced responses = true.
Proof.
  unfold priced. induction 1 as [|response price responses prices Hp _ [IH1 IH2]]; csimpl; [done|].
  by rewrite Hp, IH1, IH2.
Qed.

(** C9. A call is billed for exactly the responses its transport gave, rejected
    ones included. Each token count is reported exactly when every billed
    response carried it, as their sum, and the price likewise; the failure body
    of a failed call shows an answer exactly when its last attempt got one. *)
Theorem call_telemetry_exact (r : ProviderCallResult) (final : ProviderCallAttempt) :
  Forall (λ a, ProviderCallAttempt_validate a = Ok a) (pcr_attempts r) →
  ProviderCallResult_validate r = Ok r → last (pcr_attempts r) = Some final →
  (∀ response, response_dump response ≠ PNone) →
  let t := call_telemetry (Some r) in
  let billed := omap answered (pcr_attempts r) in
  let counted field total := billed ≠ [] ∧ ∃ values, total = int_sum values ∧
    Forall2 (λ response n, (response_usage response ≫= λ usage, usage field) = Some n) billed values in
  (∀ n, ct_prompt_tokens t = Some n ↔ counted $"prompt_tokens" n) ∧
  (∀ n, ct_completion_tokens t = Some n ↔ counted $"completion_tokens" n) ∧
  (∀ n, ct_total_tokens t = Some n ↔ counted $"total_tokens" n) ∧
  (∀ n, ct_reasoning_tokens t = Some n ↔ counted $"reasoning_tokens" n) ∧
  (∀ usd, ct_provider_cost t = Some usd ↔ billed ≠ [] ∧ ∃ prices, usd = float_sum prices ∧
     Forall2 (λ response price, response_cost response = Some price) billed prices) ∧
  (is_some (ct_provider_error t) = negb (call_succeeded r)) ∧
  (∀ body, ct_provider_error t = Some body →
     evidences_provider_response body = is_some (answered final)).
Proof.
  intros Ha Hr Hlast Hdump. pose proof (billed_responses_answered r Ha) as Hb.
  assert (ProviderCallAttempt_validate final = Ok final) as Hfinal.
  { rewrite Forall_forall in Ha. apply Ha. by apply last_Some_elem_of. }
  destruct (attempt_classified final Hfinal) as (c & Hc & Hg & Hf).
  apply classify_outcome_cases in Hc.
  destruct (result_terminal r final c Hr Hlast Hg Hf) as [Hrg Hrf].
  intros t billed counted. subst t. simpl. rewrite Hb. fold billed.
  split_and!; try (intros; apply sum_across_Some).
  - intros usd. destruct (decide (billed = [])) as [->|Hne]; [by split; [|intros []]|].
    rewrite bool_decide_false by done. destruct (forallb priced billed) eqn:Hp; simpl.
    + apply prices_Forall2 in Hp as (prices & Hps & <-). split.
      * intros [= <-]. split; [done|]. by eexists.
      * intros (_ & prices & -> & [<- _]%prices_cost). done.
    + split; [done|]. intros (_ & prices & _ & [_ Hp']%prices_cost). congruence.
  - unfold provider_error_of, call_succeeded. rewrite Hrg, Hrf. by destruct c.
  - unfold provider_error_of, call_succeeded. rewrite Hrg, Hrf. intros body Hbody.
    destruct c as [generation|failure]; simplify_eq/=. unfold answered.
    destruct (pie_outcome _); destruct Hc as [-> ->]; [|done].
    unfold evidences_provider_response. by rewrite bool_decide_false by apply Hdump.
Qed.
End TelemetryTheorems.

(** ** A concrete call

    A rate-limited turn, a blank generation that the policy retries, and an
    answer. *)
Module ConcreteProvider.
Import Identity.Concrete.

#[export] Instance providers : DrProviders := {|
  ProviderTransportResponse := pystr;
  response_text t := t;
  response_usage t := Some (λ field, Some (Z.of_nat (length t)));
  response_cost t := Some fone;
  response_stop_reason t := None;
  response_dump t := PStr t;
  RecoverabilityClass := nat;
  RATE_LIMITED := 0%nat; RESOURCE_EXHAUSTION := 1%nat; TRANSIENT := 2%nat; PERMANENT := 3%nat;
  ProviderTransportFailure := nat;
  failure_status_code n := None;
  failure_recoverability n := n;
  failure_message n := [];
  failure_code n := None;
  failure_dump n := PNone;
  ProviderTransportPolicy := unit;
  policy_timeout_seconds p := fone;
  policy_identity_payload p := PStr $"policy";
|}.

#[export] Instance pow : FloatPow := {| fpow x n := if (n =? 0)%Z then Ok fone else Ok x |}.

#[export] Instance pow_laws : FloatPowLaws.
Proof.
  split; intros x n; simpl.
  - intros e _ _ _. by destruct (n =? 0)%Z.
  - intros y _ Hx _. destruct (n =? 0)%Z; intros [= <-]; by right.
Qed.

Definition evidence (outcome : ProviderTransportOutcome) : ProviderInvocationEvidence :=
  {| pie_request_hash := $"request"; pie_policy_identity := PStr $"policy"; pie_outcome := outcome |}.

Definition policy : ProviderExecutionPolicy :=
  {| pep_transport_policy := tt; pep_max_attempts := 3;
     pep_retry_eligibility := dict_set default_retry_eligibility BLANK_PROVIDER_GENERATION true;
     pep_backoff := {| bo_base_seconds := fone; bo_multiplier := float_of_Z 2;
                       bo_max_seconds := float_of_Z 60 |} |}.

Definition driver : Driver :=
  {| drv_request := {| pgr_identity_hash := $"request"; pgr_identity_payload := PStr $"request" |};
     drv_policy := policy;
     drv_transport i := Ok (evidence (match i with
       | O => TransportFailure (0%nat : ProviderTransportFailure)
       | 1%nat => Response (($" ") : ProviderTransportResponse)
       | _ => Response (($"yes") : ProviderTransportResponse)
       end));
     drv_logical_call_id := $"call"; drv_clock _ := fone |}.

Definition policy_hash : pystr :=
  match ProviderExecutionPolicy_identity_hash policy with Ok h => h | Err _ => [] end.

Lemma driver_is_ready : driver_ready driver policy_hash.
Proof.
  split; try by vm_compute.
  intros i ev [= <-]. by vm_compute.
Qed.

Definition call : ProviderCallResult :=
  match (run_provider_call driver []).1 with
  | Ok r => r
  | Err _ => {| pcr_logical_call_id := []; pcr_request_hash := PNone; pcr_execution_policy_hash := [];
                pcr_attempts := []; pcr_provider_generation := None; pcr_semantic_failure := None |}
  end.
Definition final : ProviderCallAttempt :=
  default {| pca_logical_call_id := []; pca_attempt_number := 0; pca_execution_policy_hash := [];
             pca_started_at := fzero; pca_ended_at := fzero;
             pca_evidence := evidence (Response (($"yes") : ProviderTransportResponse));
             pca_provider_generation := None; pca_semantic_failure := None |}
    (last (pcr_attempts call)).

Lemma call_facts :
  Forall (λ a, ProviderCallAttempt_validate a = Ok a) (pcr_attempts call) ∧
  ProviderCallResult_validate call = Ok call ∧ last (pcr_attempts call) = Some final.
Proof. split_and!; [|by vm_compute..]. repeat constructor; by vm_compute. Qed.
End ConcreteProvider.

Section ProviderWitnesses.
Import ConcreteProvider Identity.Concrete.

Lemma provider_call_exact_witness :
  let k := final_turn driver (Z.to_nat (pep_max_attempts (drv_policy driver))) 0 in
  k = 2%nat ∧
  ∃ outcome log,
    run_provider_call driver [] = (outcome, log) ∧ turns_logged driver (S k) log ∧
    (Z.of_nat (S k) <= pep_max_attempts (drv_policy driver))%Z ∧
    Forall (λ d, fle d (bo_max_seconds (pep_backoff (drv_policy driver))) = true) (slept log) ∧
    (∀ i, (i < k)%nat → turn_verdict driver i = Retries) ∧
    call_ends driver policy_hash k outcome.
Proof. split; [by vm_compute|]. exact (provider_call_exact driver policy_hash driver_is_ready). Defined.

Lemma call_telemetry_exact_witness :
  ct_prompt_tokens (call_telemetry (Some call)) = Some 4%Z ∧
  is_some (ct_provider_error (call_telemetry (Some call))) = negb (call_succeeded call).
Proof.
  split; [by vm_compute|]. destruct call_facts as (Ha & Hr & Hl).
  apply (call_telemetry_exact call final Ha Hr Hl). by intros response.
Defined.
End ProviderWitnesses.
