(* ===== verification/OptimContracts.v ===== *)
(** * OptimContracts: the records of an optimization run

    Models [src/whetstone/optim/contracts.py] with what its validators call in
    [optim/proposal/mutation.py], the output of an adapter
    ([optim/adapters.py]) and the evaluation requests and config references the
    records carry ([eval/protocol.py], [eval/config_ref.py]).

    A run is a chain of steps. A step request carries the run, the prior
    result and the budget; a step result carries the request, the candidates it
    proposed and accepted, the evidence it paid for and the debited budget; the
    run's result composes the chain. Each record's model validator is a
    definition here; [_model_validate] runs it after those of the nested
    records, as validating a dump does. *)

From S2P Require Import Prelude Floats Identity Leasing EvalConfigs Reward Tools Admission.
From S2P Require Import Process Claims Candidate Cost.

Definition OPTIM_RUN_SCHEMA := $"whetstone.optim_run".
Definition OPTIM_RUN_SCHEMA_VERSION : Z := 4.
Definition STEP_REQUEST_SCHEMA := $"whetstone.optim_step_request".
Definition STEP_RESULT_SCHEMA := $"whetstone.optim_step_result".
Definition OPTIM_RESULT_SCHEMA := $"whetstone.optim_result".
Definition INTENT_RESOLUTION_SCHEMA_VERSION : Z := -1.
Definition EVAL_EVIDENCE_SCHEMA := $"whetstone.eval_evidence".
Definition EVAL_FAILURE_SCHEMA := $"whetstone.eval_failure".
Definition SUPERSEDED_FAILURE_CODES_KEY := $"superseded_failure_codes".

Inductive StepMode := PURE | PROPOSAL_ONLY | TOOL_USING.
Inductive StepKind := IDENTITY | PROPOSAL | TOOL.
Inductive StepStatus := CONTINUE | COMPLETE | FAILED.
Inductive ResolutionClass := MEASURED | VALIDATION | UNSCORABLE | PROVIDER | INFRASTRUCTURE.

#[export] Instance StepMode_eq_dec : EqDecision StepMode.
Proof. solve_decision. Defined.
#[export] Instance StepKind_eq_dec : EqDecision StepKind.
Proof. solve_decision. Defined.
#[export] Instance StepStatus_eq_dec : EqDecision StepStatus.
Proof. solve_decision. Defined.
#[export] Instance ResolutionClass_eq_dec : EqDecision ResolutionClass.
Proof. solve_decision. Defined.

Definition StepMode_value (m : StepMode) : pystr :=
  match m with
  | PURE => $"pure" | PROPOSAL_ONLY => $"proposal_only" | TOOL_USING => $"tool_using"
  end.
Definition StepKind_value (k : StepKind) : pystr :=
  match k with IDENTITY => $"identity" | PROPOSAL => $"proposal" | TOOL => $"tool" end.
Definition StepStatus_value (s : StepStatus) : pystr :=
  match s with CONTINUE => $"continue" | COMPLETE => $"complete" | FAILED => $"failed" end.
Definition ResolutionClass_value (c : ResolutionClass) : pystr :=
  match c with
  | MEASURED => $"measured" | VALIDATION => $"validation" | UNSCORABLE => $"unscorable"
  | PROVIDER => $"provider" | INFRASTRUCTURE => $"infrastructure"
  end.
Definition IntentOutcome_value (o : IntentOutcome) : pystr :=
  match o with
  | Claims.COMPLETED => $"completed" | REJECTED => $"rejected" | Claims.FAILED => $"failed"
  end.

(** ** Comparing records

    [a == b] of two frozen models compares field by field, and an
    [ImmutableJsonObject] by its canonical JSON: the order of an object's keys
    does not count. Two records are the same when their dumps are, up to that
    order. *)
Definition same {A} (dump : A → pyval) (a b : A) : bool :=
  bool_decide (canonicalize_validated_json (dump a) = canonicalize_validated_json (dump b)).

Definition same_option {A} (dump : A → pyval) (a b : option A) : bool :=
  same (POption dump) a b.

(** [Counter(l)[x]]; [not (Counter(a) - Counter(b))]; [Counter(a) == Counter(b)]. *)
Definition occurrences {A} `{EqDecision A} (x : A) (l : list A) : nat :=
  length (filter (λ y, y = x) l).
Definition counter_within {A} `{EqDecision A} (a b : list A) : bool :=
  forallb (λ x, occurrences x a <=? occurrences x b)%nat a.
Definition counter_eq {A} `{EqDecision A} (a b : list A) : bool :=
  counter_within a b && counter_within b a.

(** [for x in l: f(x)]. *)
Fixpoint for_each {A} (f : A → result unit) (l : list A) : result unit :=
  match l with
  | [] => Ok tt
  | x :: l => f x ;; for_each f l
  end.

(** ** Output contracts *)

Record OutputContract := {
  out_returned_proposal_count : Z;
  out_terminal_proposal_count : option Z;
  out_min_returned_proposal_count : option Z;
  out_require_distinct_bases : bool;
}.

#[export] Instance OutputContract_eq_dec : EqDecision OutputContract.
Proof. solve_decision. Defined.

(** [_validate_shortfall_floor]. *)
Definition OutputContract_validate (self : OutputContract) : result OutputContract :=
  match out_min_returned_proposal_count self with
  | None => Ok self
  | Some floor =>
      require (negb (out_returned_proposal_count self <? floor)%Z) ValueError
        "min_returned_proposal_count cannot exceed the requested returned_proposal_count" ;;
      require (negb (floor <? 1)%Z) ValueError "min_returned_proposal_count must be at least 1" ;;
      Ok self
  end.

Definition accepted_count_for (self : OutputContract) (status : StepStatus) : Z :=
  match status with
  | FAILED => 0
  | COMPLETE => default (out_returned_proposal_count self) (out_terminal_proposal_count self)
  | CONTINUE => out_returned_proposal_count self
  end.

Definition admits_accepted_count (self : OutputContract) (status : StepStatus) (count : Z) : bool :=
  let expected := accepted_count_for self status in
  match status, out_min_returned_proposal_count self with
  | CONTINUE, Some floor => (floor <=? count)%Z && (count <=? expected)%Z
  | _, _ => (count =? expected)%Z
  end.

Definition honors_terminal (self terminal : OutputContract) : bool :=
  (accepted_count_for self COMPLETE =? accepted_count_for terminal COMPLETE)%Z &&
  bool_decide (out_require_distinct_bases self = out_require_distinct_bases terminal).

(** ** Budgets *)

Definition Budget : Type := list (pystr * pyval).

(** [_validate_budget_values]. *)
Definition validate_budget_values (values : Budget) : result unit :=
  for_each (λ item,
    require (negb (bool_decide (item.1 = []))) ValueError "budget labels must be non-empty" ;;
    match item.2 with
    | PInt value => require (negb (value <? 0)%Z) ValueError "budget value cannot be negative"
    | _ => raise ValueError "budget value must be a strict integer"
    end) values.

(** [_budget_dict]. *)
Fixpoint budget_dict (values : Budget) : result (list (pystr * Z)) :=
  match values with
  | [] => Ok []
  | (label, PInt value) :: values => rest ← budget_dict values; Ok ((label, value) :: rest)
  | _ => raise TypeError "validated budget value is not an integer"
  end.

Definition BudgetDelta_validate (consumed : Budget) : result Budget :=
  validate_budget_values consumed ;; Ok consumed.

Record BudgetState := {
  bs_consumed : Budget;
  bs_remaining : Budget;
}.

#[export] Instance BudgetState_eq_dec : EqDecision BudgetState.
Proof. solve_decision. Defined.

Definition BudgetState_validate (self : BudgetState) : result BudgetState :=
  validate_budget_values (bs_consumed self) ;;
  validate_budget_values (bs_remaining self) ;;
  Ok self.

(** The loop of [BudgetState.debit] over the delta. *)
Fixpoint debit_loop (delta : Budget) (consumed remaining : list (pystr * Z)) :
    result (list (pystr * Z) * list (pystr * Z)) :=
  match delta with
  | [] => Ok (consumed, remaining)
  | (label, raw_amount) :: delta =>
      match raw_amount with
      | PInt amount =>
          available ← of_option (dict_get remaining label) ValueError
            "adapter consumed undeclared budget";
          require (negb (available <? amount)%Z) ValueError "adapter consumed more than remains" ;;
          debit_loop delta
            (dict_set consumed label (default 0%Z (dict_get consumed label) + amount)%Z)
            (dict_set remaining label (available - amount)%Z)
      | _ => raise TypeError "validated budget delta is not an integer"
      end
  end.

Definition budget_of (values : list (pystr * Z)) : Budget := (λ kv, (kv.1, PInt kv.2)) <$> values.

Definition debit (self : BudgetState) (delta : Budget) : result BudgetState :=
  consumed ← budget_dict (bs_consumed self);
  remaining ← budget_dict (bs_remaining self);
  '(consumed, remaining) ← debit_loop delta consumed remaining;
  BudgetState_validate {| bs_consumed := budget_of consumed; bs_remaining := budget_of remaining |}.

Definition BudgetState_dump (b : BudgetState) : pyval :=
  PDict [($"consumed", to_json (bs_consumed b)); ($"remaining", to_json (bs_remaining b))].
Definition BudgetDelta_dump (consumed : Budget) : pyval :=
  PDict [($"consumed", to_json consumed)].

(** ** Evaluation requests and config references *)

(** [EvalRequest] of [eval/protocol.py]. *)
Record EvalRequest := {
  er_request_id : pystr;
  er_candidate : Candidate;
  er_metadata : list (pystr * pyval);
}.

Definition EvalRequest_dump (r : EvalRequest) : pyval :=
  PDict [($"request_id", PStr (er_request_id r));
         ($"candidate", Candidate_record_content (er_candidate r));
         ($"metadata", to_json (er_metadata r))].

Record EvalConfigRef := {
  ecr_record : EvalConfig;
  ecr_record_ref : TypedRef;
  ecr_config_hash : pystr;
}.

Definition EvalConfigRef_dump (r : EvalConfigRef) : pyval :=
  PDict [($"record", EvalConfig_dump (ecr_record r));
         ($"record_ref", TypedRef_dump (ecr_record_ref r));
         ($"config_hash", PStr (ecr_config_hash r))].

Record OptimEvalRequest := {
  oer_optim_run_id : pystr;
  oer_optim_step_index : Z;
  oer_eval_request : EvalRequest;
  oer_expected_reward_policy_hash : option pystr;
  oer_task_hashes : option (list pystr);
}.

Definition OptimEvalRequest_dump (r : OptimEvalRequest) : pyval :=
  PDict [($"optim_run_id", PStr (oer_optim_run_id r));
         ($"optim_step_index", PInt (oer_optim_step_index r));
         ($"eval_request", EvalRequest_dump (oer_eval_request r));
         ($"expected_reward_policy_hash", POption PStr (oer_expected_reward_policy_hash r));
         ($"task_hashes", POption (λ l, PList (PStr <$> l)) (oer_task_hashes r))].

Definition OptimEvalRequest_validate (self : OptimEvalRequest) : result OptimEvalRequest :=
  match oer_task_hashes self with
  | None => Ok self
  | Some task_hashes =>
      require (negb (bool_decide (task_hashes = []))) ValueError
        "an Optim Eval Request task subset must not be empty" ;;
      require (all_unique task_hashes) ValueError
        "an Optim Eval Request task subset must be unique" ;;
      Ok self
  end.

Definition non_negative (n : Z) : result unit :=
  NonNegativeInt (PInt n) ;; Ok tt.

Definition OptimEvalRequest_model_validate (self : OptimEvalRequest) : result OptimEvalRequest :=
  non_negative (oer_optim_step_index self) ;; OptimEvalRequest_validate self.

(** ** Runs *)

Record OptimRun := {
  run_run_id : pystr;
  run_optimizer_config : IdentityRef;
  run_adapter_key : pystr;
  run_mode : StepMode;
  run_terminal_output_contract : OutputContract;
  run_template_render_contract : TemplateRenderContract;
  run_initial_candidate_ref : option CandidateRef;
  run_mutation_field : pystr;
  run_reward_policy : option RewardPolicy;
  run_tool_configs : list ToolConfigRef;
}.

(** The model validator of [OptimRun]. *)
Definition OptimRun_validate (self : OptimRun) : result OptimRun :=
  (if bool_decide (run_mode self = PROPOSAL_ONLY) then
     require (is_some (run_reward_policy self)) ValueError
       "a proposal-only run requires an exact Reward Policy"
   else
     require (negb (is_some (run_reward_policy self))) ValueError
       "only a proposal-only run may carry a Reward Policy") ;;
  require (negb (negb (bool_decide (run_mode self = TOOL_USING)) &&
                 negb (bool_decide (run_tool_configs self = [])))) ValueError
    "only tool-using runs may carry Tool Configs" ;;
  require (negb (bool_decide (run_mode self = TOOL_USING) &&
                 bool_decide (run_tool_configs self = []))) ValueError
    "a tool-using run requires a Tool Config" ;;
  require (all_unique (tcr_config_hash <$> run_tool_configs self)) ValueError
    "Optimization Run Tool Configs must be unique" ;;
  Ok self.

Definition OutputContract_dump (c : OutputContract) : pyval :=
  PDict [($"returned_proposal_count", PInt (out_returned_proposal_count c));
         ($"terminal_proposal_count", POption PInt (out_terminal_proposal_count c));
         ($"min_returned_proposal_count", POption PInt (out_min_returned_proposal_count c));
         ($"require_distinct_bases", PBool (out_require_distinct_bases c))].
Definition TemplateRenderContract_dump (c : TemplateRenderContract) : pyval :=
  PDict [($"kind", PStr (TemplateRenderKind_value (trc_kind c)));
         ($"available_fields", PList (PStr <$> trc_available_fields c));
         ($"required_fields", PList (PStr <$> trc_required_fields c))].
Definition IdentityRef_dump (r : IdentityRef) : pyval :=
  PDict [($"record_ref", TypedRef_dump (iref_record_ref r));
         ($"record_hash", PStr (iref_record_hash r))].

Definition OptimRun_identity_payload (self : OptimRun) : pyval :=
  PDict [($"run_id", PStr (run_run_id self));
         ($"optimizer_config", IdentityRef_dump (run_optimizer_config self));
         ($"adapter_key", PStr (run_adapter_key self));
         ($"mode", PStr (StepMode_value (run_mode self)));
         ($"terminal_output_contract", OutputContract_dump (run_terminal_output_contract self));
         ($"template_render_contract",
           TemplateRenderContract_dump (run_template_render_contract self));
         ($"initial_candidate_ref", POption CandidateRef_dump (run_initial_candidate_ref self));
         ($"mutation_field", PStr (run_mutation_field self));
         ($"reward_policy", POption RewardPolicy_dump (run_reward_policy self));
         ($"tool_configs", PList (ToolConfigRef_dump <$> run_tool_configs self))].

(** The dump has the same fields, in the same order. *)
Definition OptimRun_record_content (self : OptimRun) : pyval := OptimRun_identity_payload self.

Record OptimRunRef := {
  runr_record : OptimRun;
  runr_record_ref : TypedRef;
  runr_config_hash : pystr;
}.

Definition OptimRunRef_dump (r : OptimRunRef) : pyval :=
  PDict [($"record", OptimRun_record_content (runr_record r));
         ($"record_ref", TypedRef_dump (runr_record_ref r));
         ($"config_hash", PStr (runr_config_hash r))].

Section Runs.
Context `{DSer : !DrSerialize, DSto : !DrStore, Uni : !UnicodeIdentifiers}.

Definition EvalConfigRef_validate (self : EvalConfigRef) : result EvalConfigRef :=
  require (bool_decide (ecr_config_hash self = ec_config_hash (ecr_record self))) ValueError
    "Eval Config identity_hash must match the exact typed record" ;;
  expected ← typed_ref_for_record SCHEMA_EVAL_CONFIG (EvalConfig_dump (ecr_record self));
  require (bool_decide (ecr_record_ref self = expected)) ValueError
    "Eval Config record_ref must address the exact typed record" ;;
  Ok self.

Definition eval_config_reference (eval_config : EvalConfig) : result EvalConfigRef :=
  ref ← typed_ref_for_record SCHEMA_EVAL_CONFIG (EvalConfig_dump eval_config);
  EvalConfigRef_validate
    {| ecr_record := eval_config; ecr_record_ref := ref;
       ecr_config_hash := ec_config_hash eval_config |}.

Definition OptimRun_identity_hash (self : OptimRun) : result pystr :=
  compute_identity_hash OPTIM_RUN_SCHEMA OPTIM_RUN_SCHEMA_VERSION (OptimRun_identity_payload self).

(** [OptimRun.model_validate] of a dump: nested validators, then its own. *)
Definition OptimRun_model_validate (self : OptimRun) : result OptimRun :=
  OutputContract_validate (run_terminal_output_contract self) ;;
  TemplateRenderContract_validate (run_template_render_contract self) ;;
  match run_initial_candidate_ref self with
  | Some c => CandidateRef_validate c ;; Ok tt | None => Ok tt
  end ;;
  match run_reward_policy self with
  | Some p => RewardPolicy_validate p ;; Ok tt | None => Ok tt
  end ;;
  for_each (λ c, ToolConfigRef_model_validate c ;; Ok tt) (run_tool_configs self) ;;
  OptimRun_validate self.

Definition OptimRunRef_validate (self : OptimRunRef) : result OptimRunRef :=
  expected_ref ← typed_ref_for_record OPTIM_RUN_SCHEMA (OptimRun_record_content (runr_record self));
  require (bool_decide (runr_record_ref self = expected_ref)) ValueError
    "Optimization Run record_ref must address the exact run" ;;
  h ← OptimRun_identity_hash (runr_record self);
  require (bool_decide (runr_config_hash self = h)) ValueError
    "Optimization Run config_hash must match the exact run" ;;
  Ok self.

Definition OptimRunRef_model_validate (self : OptimRunRef) : result OptimRunRef :=
  OptimRun_model_validate (runr_record self) ;;
  OptimRunRef_validate self.

Definition optimization_run_reference (run : OptimRun) : result OptimRunRef :=
  ref ← typed_ref_for_record OPTIM_RUN_SCHEMA (OptimRun_record_content run);
  h ← OptimRun_identity_hash run;
  OptimRunRef_validate {| runr_record := run; runr_record_ref := ref; runr_config_hash := h |}.

(** ** The mutation surface

    The code also accepts a bare run, which it validates in the same way, the
    reference's own validator aside. *)

(** [candidate.payload.get(field)]. *)
Definition payload_get (candidate : Candidate) (field : pystr) : pyval :=
  default PNone (dict_get (cand_payload candidate) field).

Definition validate_candidate_template (candidate : Candidate) (run : OptimRunRef) : result unit :=
  exact_run ← OptimRunRef_model_validate run;
  let field := run_mutation_field (runr_record exact_run) in
  validate_template (run_template_render_contract (runr_record exact_run))
    (payload_get candidate field) ;;
  Ok tt.

(** [candidate.model_dump(mode="json")["payload"]]. *)
Definition payload_json (candidate : Candidate) : list (pystr * pyval) :=
  match to_json (cand_payload candidate) with PDict kvs => kvs | _ => [] end.

Definition diff_check (base proposed : Candidate) (run : OptimRunRef) : result unit :=
  exact_run ← OptimRunRef_model_validate run;
  let field := run_mutation_field (runr_record exact_run) in
  base_ref ← candidate_reference base;
  require (bool_decide (cand_base_ref proposed = candr_record_ref base_ref)) DiffCheckError
    "proposal binds another base, not the exact request candidate" ;;
  value ← match payload_get proposed field with
          | PStr [] => raise DiffCheckError "proposal must supply a non-empty template"
          | PStr value => Ok value
          | _ => raise DiffCheckError "proposal must supply a non-empty template"
          end;
  base_value ← of_option (dict_get (payload_json base) field) DiffCheckError
    "base candidate must supply the mutation field";
  base_value ← match base_value with
               | PStr base_value => Ok base_value
               | _ => raise DiffCheckError "base candidate mutation field must be a string"
               end;
  require (negb (bool_decide (value = base_value))) DiffCheckError
    "proposal mutation must differ from its base" ;;
  prop_others ← canonical_json (PDict (dict_pop (payload_json proposed) field));
  base_others ← canonical_json (PDict (dict_pop (payload_json base) field));
  require (bool_decide (prop_others = base_others)) DiffCheckError
    "proposal changes a field outside the Mutation Surface".

(** [ProposalDraft] of [optim/proposal/proposer.py]. *)
Record ProposalDraft := {
  pd_template : pystr;
  pd_terminal_failure : option TerminalFailure;
  pd_request_evidence : list (pystr * pyval);
  pd_response_evidence : list (pystr * pyval);
  pd_usage : list (pystr * pyval);
  pd_cost : option float;
}.

Definition ProposalDraft_validate (self : ProposalDraft) : result ProposalDraft :=
  (if is_some (pd_terminal_failure self) then
     require (bool_decide (pd_template self = [])) ValueError
       "a failed ProposalDraft carries no template"
   else
     require (negb (bool_decide (pd_template self = []))) ValueError
       "a successful ProposalDraft requires a non-empty template") ;;
  Ok self.

Definition candidate_from_draft (base : Candidate) (candidate_id : pystr) (draft : ProposalDraft)
    (run : OptimRunRef) : result Candidate :=
  exact_run ← OptimRunRef_model_validate run;
  let field := run_mutation_field (runr_record exact_run) in
  require (negb (is_some (pd_terminal_failure draft))) ProposalValidationError "" ;;
  rewrap ValueError ProposalValidationError "proposal template violates its render contract"
    (validate_template (run_template_render_contract (runr_record exact_run))
       (PStr (pd_template draft))) ;;
  base_ref ← candidate_reference base;
  candidate_id ← NonEmptyId (PStr candidate_id);
  payload ← ImmutableJsonObject
    (PDict (dict_set (payload_json base) field (PStr (pd_template draft))));
  payload ← match payload with PFrozen kvs => Ok kvs | _ => raise TypeError "" end;
  let proposed := {| cand_candidate_id := candidate_id;
                     cand_base_ref := candr_record_ref base_ref; cand_payload := payload |} in
  diff_check base proposed exact_run ;;
  Ok proposed.
End Runs.

(** ** Step requests *)

Record OptimStepRequest := {
  sreq_run : OptimRunRef;
  sreq_step_id : pystr;
  sreq_kind : StepKind;
  sreq_kind_label : option pystr;
  sreq_step_index : Z;
  sreq_prior_step_result_ref : option TypedRef;
  sreq_prior_state_ref : option TypedRef;
  sreq_prior_history_ref : option TypedRef;
  sreq_candidates : list Candidate;
  sreq_pools : list (pystr * pyval);
  sreq_hyperparameters : list (pystr * pyval);
  sreq_budget : BudgetState;
  sreq_step_output_contract : OutputContract;
}.

Definition sreq_run_id (self : OptimStepRequest) : pystr := run_run_id (runr_record (sreq_run self)).
Definition sreq_adapter_key (self : OptimStepRequest) : pystr :=
  run_adapter_key (runr_record (sreq_run self)).
Definition sreq_mode (self : OptimStepRequest) : StepMode := run_mode (runr_record (sreq_run self)).
Definition sreq_tool_configs (self : OptimStepRequest) : list ToolConfigRef :=
  run_tool_configs (runr_record (sreq_run self)).

Definition OptimStepRequest_record_content (self : OptimStepRequest) : pyval :=
  PDict [($"run", OptimRunRef_dump (sreq_run self)); ($"step_id", PStr (sreq_step_id self));
         ($"kind", PStr (StepKind_value (sreq_kind self)));
         ($"kind_label", POption PStr (sreq_kind_label self));
         ($"step_index", PInt (sreq_step_index self));
         ($"prior_step_result_ref", POption TypedRef_dump (sreq_prior_step_result_ref self));
         ($"prior_state_ref", POption TypedRef_dump (sreq_prior_state_ref self));
         ($"prior_history_ref", POption TypedRef_dump (sreq_prior_history_ref self));
         ($"candidates", PList (Candidate_record_content <$> sreq_candidates self));
         ($"pools", to_json (sreq_pools self));
         ($"hyperparameters", to_json (sreq_hyperparameters self));
         ($"budget", BudgetState_dump (sreq_budget self));
         ($"step_output_contract", OutputContract_dump (sreq_step_output_contract self))].

Record OptimStepRequestRef := {
  sreqr_record : OptimStepRequest;
  sreqr_record_ref : TypedRef;
}.

Definition OptimStepRequestRef_dump (r : OptimStepRequestRef) : pyval :=
  PDict [($"record", OptimStepRequest_record_content (sreqr_record r));
         ($"record_ref", TypedRef_dump (sreqr_record_ref r))].

Section StepRequests.
Context `{DSer : !DrSerialize, DSto : !DrStore, Uni : !UnicodeIdentifiers}.

(** The model validator of [OptimStepRequest]. *)
Definition OptimStepRequest_validate (self : OptimStepRequest) : result OptimStepRequest :=
  require (negb ((sreq_step_index self =? 0)%Z &&
                 (is_some (sreq_prior_step_result_ref self) || is_some (sreq_prior_state_ref self) ||
                  is_some (sreq_prior_history_ref self)))) ValueError
    "the initial Step Request carries no prior refs" ;;
  require (negb ((0 <? sreq_step_index self)%Z && negb (is_some (sreq_prior_step_result_ref self))))
    ValueError "a noninitial Step Request must reference the prior result" ;;
  require (match sreq_prior_step_result_ref self with
           | Some ref => bool_decide (tref_schema_name ref = STEP_RESULT_SCHEMA)
           | None => true
           end) ValueError "prior_step_result_ref must be a typed Step Result ref" ;;
  require (negb (bool_decide (sreq_mode self = PURE) && negb (bool_decide (sreq_kind self = IDENTITY))))
    ValueError "a pure step must be the identity kind" ;;
  for_each (λ candidate,
    rewrap ValueError ValueError
      "every Step Request candidate must satisfy the exact run template contract"
      (validate_candidate_template candidate (sreq_run self))) (sreq_candidates self) ;;
  Ok self.

Definition OptimStepRequest_model_validate (self : OptimStepRequest) : result OptimStepRequest :=
  OptimRunRef_model_validate (sreq_run self) ;;
  non_negative (sreq_step_index self) ;;
  BudgetState_validate (sreq_budget self) ;;
  OutputContract_validate (sreq_step_output_contract self) ;;
  OptimStepRequest_validate self.

Definition OptimStepRequestRef_validate (self : OptimStepRequestRef) : result OptimStepRequestRef :=
  expected_ref ← typed_ref_for_record STEP_REQUEST_SCHEMA
    (OptimStepRequest_record_content (sreqr_record self));
  require (bool_decide (sreqr_record_ref self = expected_ref)) ValueError
    "Step Request record_ref must address the exact request" ;;
  Ok self.

Definition OptimStepRequestRef_model_validate (self : OptimStepRequestRef) :
    result OptimStepRequestRef :=
  OptimStepRequest_model_validate (sreqr_record self) ;;
  OptimStepRequestRef_validate self.

Definition step_request_reference (request : OptimStepRequest) : result OptimStepRequestRef :=
  ref ← typed_ref_for_record STEP_REQUEST_SCHEMA (OptimStepRequest_record_content request);
  OptimStepRequestRef_validate {| sreqr_record := request; sreqr_record_ref := ref |}.
End StepRequests.

(** ** Evidence *)

Record ResolutionDetail := {
  rd_classification : ResolutionClass;
  rd_message : pystr;
}.

Record IntentResolution := {
  ir_schema_version : Z;
  ir_optim_eval_request : OptimEvalRequest;
  ir_outcome : IntentOutcome;
  ir_detail : ResolutionDetail;
  ir_eval_result_ref : option TypedRef;
  ir_reward_evidence_refs : list TypedRef;
  ir_resolved_eval_config : EvalConfigRef;
  ir_reward_ref : option RewardRef;
  ir_terminal_failure : option TerminalFailure;
}.

Definition IntentResolution_dump (r : IntentResolution) : pyval :=
  PDict [($"schema_version", PInt (ir_schema_version r));
         ($"optim_eval_request", OptimEvalRequest_dump (ir_optim_eval_request r));
         ($"outcome", PStr (IntentOutcome_value (ir_outcome r)));
         ($"detail",
           PDict [($"classification", PStr (ResolutionClass_value (rd_classification (ir_detail r))));
                  ($"message", PStr (rd_message (ir_detail r)))]);
         ($"eval_result_ref", POption TypedRef_dump (ir_eval_result_ref r));
         ($"reward_evidence_refs", PList (TypedRef_dump <$> ir_reward_evidence_refs r));
         ($"resolved_eval_config", EvalConfigRef_dump (ir_resolved_eval_config r));
         ($"reward_ref", POption RewardRef_dump (ir_reward_ref r));
         ($"terminal_failure", POption TerminalFailure_dump (ir_terminal_failure r))].

(** [{COMPLETED: ..., FAILED: ...}.get(outcome)]. *)
Definition expected_result_schema (outcome : IntentOutcome) : option pystr :=
  match outcome with
  | Claims.COMPLETED => Some EVAL_EVIDENCE_SCHEMA
  | Claims.FAILED => Some EVAL_FAILURE_SCHEMA
  | REJECTED => None
  end.

Record SearchEvidence := {
  se_eval_request_id : pystr;
  se_optim_run_id : pystr;
  se_optim_step_index : Z;
  se_candidate : CandidateRef;
  se_outcome : IntentOutcome;
  se_eval_result_ref : option TypedRef;
  se_reward_ref : option RewardRef;
  se_reward_evidence_refs : list TypedRef;
}.

Definition SearchEvidence_dump (e : SearchEvidence) : pyval :=
  PDict [($"eval_request_id", PStr (se_eval_request_id e));
         ($"optim_run_id", PStr (se_optim_run_id e));
         ($"optim_step_index", PInt (se_optim_step_index e));
         ($"candidate", CandidateRef_dump (se_candidate e));
         ($"outcome", PStr (IntentOutcome_value (se_outcome e)));
         ($"eval_result_ref", POption TypedRef_dump (se_eval_result_ref e));
         ($"reward_ref", POption RewardRef_dump (se_reward_ref e));
         ($"reward_evidence_refs", PList (TypedRef_dump <$> se_reward_evidence_refs e))].

(** What both kinds of evidence check of their evaluation result. *)
Definition result_matches_outcome (outcome : IntentOutcome) (eval_result_ref : option TypedRef) :
    result unit :=
  require (negb (negb (bool_decide (outcome = REJECTED)) && negb (is_some eval_result_ref)))
    ValueError "a completed or failed resolution requires an Evaluation Result" ;;
  require (negb (bool_decide (outcome = REJECTED) && is_some eval_result_ref)) ValueError
    "pre-execution rejection must not carry an Evaluation Result".

Definition SearchEvidence_validate (self : SearchEvidence) : result SearchEvidence :=
  result_matches_outcome (se_outcome self) (se_eval_result_ref self) ;;
  match se_reward_ref self with
  | None => require (bool_decide (se_reward_evidence_refs self = [])) ValueError
      "rewardless search evidence carries no Reward evidence refs"
  | Some reward => require (bool_decide (rw_evidence_refs (rwr_record reward) =
                                         se_reward_evidence_refs self)) ValueError
      "search evidence reward_evidence_refs must equal the ordered Reward evidence refs"
  end ;;
  Ok self.

(** [SearchEvidence.evidence_refs]. *)
Definition se_evidence_refs (self : SearchEvidence) : list TypedRef :=
  match se_eval_result_ref self with None => [] | Some ref => [ref] end ++
  match se_reward_ref self with None => [] | Some reward => [rwr_record_ref reward] end ++
  se_reward_evidence_refs self.

Section Evidence.
Context `{DSer : !DrSerialize, DSto : !DrStore}.

(** The reward a resolution carries, and what its absence forbids. *)
Definition check_resolution_reward (self : IntentResolution) : result unit :=
  let expected := oer_expected_reward_policy_hash (ir_optim_eval_request self) in
  require (negb (negb (bool_decide (ir_outcome self = Claims.COMPLETED)) &&
                 is_some (ir_reward_ref self))) ValueError
    "only a completed Intent Resolution may carry a Reward" ;;
  require (negb (negb (is_some expected) && is_some (ir_reward_ref self))) ValueError
    "an official Intent Resolution must not carry a Reward" ;;
  require (negb (bool_decide (ir_outcome self = Claims.COMPLETED) && is_some expected &&
                 negb (is_some (ir_reward_ref self)))) ValueError
    "a completed internal Intent Resolution requires a Reward" ;;
  match ir_reward_ref self with
  | None => require (bool_decide (ir_reward_evidence_refs self = [])) ValueError
      "a rewardless Intent Resolution must not carry Reward evidence refs"
  | Some reward =>
      require (bool_decide (rw_evidence_refs (rwr_record reward) = ir_reward_evidence_refs self))
        ValueError "Reward evidence_refs must exactly equal the Intent Resolution's" ;;
      policy_hash ← Reward_policy_hash (rwr_record reward);
      require (bool_decide (Some policy_hash = expected)) ValueError
        "Reward Policy must match the expected Reward Policy hash"
  end.

(** The model validator of [IntentResolution]. *)
Definition IntentResolution_validate (self : IntentResolution) : result IntentResolution :=
  require (ir_schema_version self =? INTENT_RESOLUTION_SCHEMA_VERSION)%Z ValueError
    "Input should be -1" ;;
  result_matches_outcome (ir_outcome self) (ir_eval_result_ref self) ;;
  match ir_eval_result_ref self with
  | None => Ok tt
  | Some ref =>
      require (bool_decide (Some (tref_schema_name ref) =
                            expected_result_schema (ir_outcome self))) ValueError
        "eval_result_ref must use the schema of its outcome"
  end ;;
  require (negb (bool_decide (ir_outcome self = Claims.COMPLETED) &&
                 negb (bool_decide (rd_classification (ir_detail self) = MEASURED)))) ValueError
    "completed resolution must be classified measured" ;;
  require (negb (bool_decide (ir_outcome self = REJECTED) &&
                 negb (bool_decide (rd_classification (ir_detail self) ∈ [VALIDATION; UNSCORABLE]))))
    ValueError "rejection must be classified validation or unscorable" ;;
  require (Bool.eqb (bool_decide (ir_outcome self = Claims.FAILED))
             (is_some (ir_terminal_failure self))) ValueError
    "a failed Intent Resolution requires exactly one shared terminal failure" ;;
  check_resolution_reward self ;;
  Ok self.

(** [RewardRef.model_validate]. *)
Definition RewardRef_model_validate (reward : RewardRef) : result unit :=
  Reward_validate (rwr_record reward) ;;
  RewardRef_new (rwr_record reward) (rwr_record_ref reward) ;; Ok tt.

Definition option_validate {A} (f : A → result unit) (x : option A) : result unit :=
  match x with None => Ok tt | Some a => f a end.

Definition IntentResolution_model_validate (self : IntentResolution) : result IntentResolution :=
  OptimEvalRequest_model_validate (ir_optim_eval_request self) ;;
  EvalConfigRef_validate (ir_resolved_eval_config self) ;;
  option_validate RewardRef_model_validate (ir_reward_ref self) ;;
  IntentResolution_validate self.

Definition SearchEvidence_model_validate (self : SearchEvidence) : result SearchEvidence :=
  non_negative (se_optim_step_index self) ;;
  CandidateRef_validate (se_candidate self) ;;
  option_validate RewardRef_model_validate (se_reward_ref self) ;;
  SearchEvidence_validate self.

(** What both projections of a resolution build. *)
Definition projected_evidence (resolution : IntentResolution) (optim_run_id : pystr)
    (optim_step_index : Z) : result SearchEvidence :=
  let request := oer_eval_request (ir_optim_eval_request resolution) in
  candidate ← candidate_reference (er_candidate request);
  SearchEvidence_validate
    {| se_eval_request_id := er_request_id request; se_optim_run_id := optim_run_id;
       se_optim_step_index := optim_step_index; se_candidate := candidate;
       se_outcome := ir_outcome resolution; se_eval_result_ref := ir_eval_result_ref resolution;
       se_reward_ref := ir_reward_ref resolution;
       se_reward_evidence_refs := ir_reward_evidence_refs resolution |}.

Definition from_resolution (resolution : IntentResolution) (optim_run_id : pystr)
    (optim_step_index : Z) : result SearchEvidence :=
  let eval_request := ir_optim_eval_request resolution in
  require (bool_decide (oer_optim_run_id eval_request = optim_run_id) &&
           (oer_optim_step_index eval_request =? optim_step_index)%Z) ValueError
    "search evidence run/step must equal the resolved Optim Eval Request binding" ;;
  projected_evidence resolution optim_run_id optim_step_index.

Definition from_replayed_resolution (resolution : IntentResolution) (optim_run_id : pystr)
    (optim_step_index : Z) : result SearchEvidence :=
  require (bool_decide (oer_optim_run_id (ir_optim_eval_request resolution) = optim_run_id))
    ValueError "replayed search evidence must belong to the exact optimization run" ;;
  projected_evidence resolution optim_run_id optim_step_index.
End Evidence.

Record ToolEvidence := {
  te_result : ToolResultRef;
  te_store_entry : ToolCallStoreEntry;
}.

Definition ReplayPolicy_value (p : ReplayPolicy) : pystr :=
  match p with
  | Leasing.IDEMPOTENT => $"idempotent" | DURABLE_WORKFLOW => $"durable_workflow"
  | NO_REDRIVE => $"no_redrive"
  end.
Definition EffectTerminal_dump (t : EffectTerminal) : pyval :=
  PDict [($"request",
           PDict [($"semantic_key", PStr (lr_semantic_key (et_request t)));
                  ($"request_hash", PStr (lr_request_hash (et_request t)));
                  ($"replay_policy", PStr (ReplayPolicy_value (lr_replay_policy (et_request t))))]);
         ($"outcome", PStr (match et_outcome t with
                            | SUCCEEDED => $"succeeded" | Leasing.FAILED => $"failed"
                            | RECOVERY_REQUIRED => $"recovery_required"
                            end));
         ($"owner_id", PStr (et_owner_id t)); ($"attempt_id", PStr (et_attempt_id t));
         ($"fence", PInt (et_fence t)); ($"result_ref", POption TypedRef_dump (et_result_ref t));
         ($"failure", POption TerminalFailure_dump (et_failure t))].
Definition ToolCallStoreEntry_dump (e : ToolCallStoreEntry) : pyval :=
  PDict [($"tool_call", ToolCallRef_dump (sce_tool_call e));
         ($"tool_config", ToolConfigRef_dump (sce_tool_config e));
         ($"store_namespace_key", PStr (sce_store_namespace_key e));
         ($"capacity_scope", PStr (ToolCapacityScope_value (sce_capacity_scope e)));
         ($"capacity_scope_id", PStr (sce_capacity_scope_id e));
         ($"state", PStr (match sce_state e with
                          | ACCEPTED => $"accepted" | REFUSED => $"refused"
                          | Admission.COMPLETED => $"completed"
                          end));
         ($"capacity_debit_ordinal", POption PInt (sce_capacity_debit_ordinal e));
         ($"refusal", POption ToolRefusal_dump (sce_refusal e));
         ($"tool_result_ref", POption TypedRef_dump (sce_tool_result_ref e));
         ($"effect_terminal", POption EffectTerminal_dump (sce_effect_terminal e))].
Definition ToolResultRef_dump (r : ToolResultRef) : pyval :=
  PDict [($"record", ToolResult_record_content (resr_record r));
         ($"record_ref", TypedRef_dump (resr_record_ref r))].
Definition ToolEvidence_dump (e : ToolEvidence) : pyval :=
  PDict [($"result", ToolResultRef_dump (te_result e));
         ($"store_entry", ToolCallStoreEntry_dump (te_store_entry e))].

(** The model validator of [ToolEvidence]. *)
Definition ToolEvidence_validate (self : ToolEvidence) : result ToolEvidence :=
  let entry := te_store_entry self in
  let record := resr_record (te_result self) in
  require (bool_decide (sce_tool_call_ref entry = tcallr_record_ref (res_call record))) ValueError
    "Tool Evidence store entry must cite the exact Tool Call" ;;
  require (bool_decide (sce_tool_result_ref entry = Some (resr_record_ref (te_result self))))
    ValueError "Tool Evidence store entry must cite the exact Tool Result" ;;
  match sce_state entry with
  | REFUSED =>
      require (negb (is_some (res_output record) || is_some (res_terminal_failure record)))
        ValueError "refused Tool Evidence result has no output or terminal failure" ;;
      require (bool_decide (sce_refusal entry = res_refusal record)) ValueError
        "refused Tool Evidence requires the exact Tool Result refusal" ;;
      Ok self
  | ACCEPTED => raise ValueError "Tool Evidence requires a terminal store entry"
  | Admission.COMPLETED =>
      terminal ← of_option (sce_effect_terminal entry) ValueError
        "completed Tool Call Store entry lost its EffectTerminal";
      match et_outcome terminal with
      | SUCCEEDED =>
          require (is_some (res_output record) &&
                   negb (is_some (res_refusal record) || is_some (res_terminal_failure record)))
            ValueError "succeeded EffectTerminal requires the exact successful Tool Result"
      | Leasing.FAILED =>
          require (negb (is_some (res_output record) || is_some (res_refusal record)) &&
                   same_option TerminalFailure_dump (res_terminal_failure record)
                     (et_failure terminal)) ValueError
            "failed EffectTerminal failure must exactly equal the Tool Result terminal failure"
      | RECOVERY_REQUIRED => raise ValueError
          "recovery-required effects have no completed Tool Evidence"
      end ;;
      require (bool_decide (sce_capacity_debit_ordinal entry = res_provenance_ordinal record))
        ValueError "completed Tool Evidence capacity debit ordinal must equal the result's" ;;
      Ok self
  end.

(** ** Step results *)

Record OptimStepResult := {
  sres_request : OptimStepRequestRef;
  sres_proposed_candidates : list CandidateRef;
  sres_accepted_candidates : list CandidateRef;
  sres_resolved_intents : list IntentResolution;
  sres_search_evidence : list SearchEvidence;
  sres_tool_evidence : list ToolEvidence;
  sres_proposer_usage : list ProposerCallUsage;
  sres_state_ref : option TypedRef;
  sres_history_ref : option TypedRef;
  sres_budget_delta : Budget;
  sres_budget : BudgetState;
  sres_status : StepStatus;
  sres_terminal_failure : option TerminalFailure;
  sres_seed_retained : bool;
  sres_retained_candidate_ref : option CandidateRef;
  sres_provenance_note : option pystr;
  sres_provenance_ordinal : option Z;
}.

Definition sres_run_id (self : OptimStepResult) : pystr := sreq_run_id (sreqr_record (sres_request self)).
Definition sres_step_index (self : OptimStepResult) : Z :=
  sreq_step_index (sreqr_record (sres_request self)).
Definition sres_run (self : OptimStepResult) : OptimRunRef := sreq_run (sreqr_record (sres_request self)).

Definition OptimStepResult_record_content (self : OptimStepResult) : pyval :=
  PDict [($"request", OptimStepRequestRef_dump (sres_request self));
         ($"proposed_candidates", PList (CandidateRef_dump <$> sres_proposed_candidates self));
         ($"accepted_candidates", PList (CandidateRef_dump <$> sres_accepted_candidates self));
         ($"resolved_intents", PList (IntentResolution_dump <$> sres_resolved_intents self));
         ($"search_evidence", PList (SearchEvidence_dump <$> sres_search_evidence self));
         ($"tool_evidence", PList (ToolEvidence_dump <$> sres_tool_evidence self));
         ($"proposer_usage", PList (ProposerCallUsage_dump <$> sres_proposer_usage self));
         ($"state_ref", POption TypedRef_dump (sres_state_ref self));
         ($"history_ref", POption TypedRef_dump (sres_history_ref self));
         ($"budget_delta", BudgetDelta_dump (sres_budget_delta self));
         ($"budget", BudgetState_dump (sres_budget self));
         ($"status", PStr (StepStatus_value (sres_status self)));
         ($"terminal_failure", POption TerminalFailure_dump (sres_terminal_failure self));
         ($"seed_retained", PBool (sres_seed_retained self));
         ($"retained_candidate_ref", POption CandidateRef_dump (sres_retained_candidate_ref self));
         ($"provenance_note", POption PStr (sres_provenance_note self));
         ($"provenance_ordinal", POption PInt (sres_provenance_ordinal self))].

Definition codes_of (v : pyval) : option (list pystr) :=
  match v with
  | PList l => mapM (λ x, match x with PStr s => Some s | _ => None end) l
  | _ => None
  end.

(** [_validate_shared_terminal_failure]. *)
Definition validate_shared_terminal_failure (outer : option TerminalFailure)
    (nested : list TerminalFailure) (supersession_allowed : bool) : result unit :=
  match outer, nested with
  | None, _ | _, [] => Ok tt
  | Some outer, _ =>
      if forallb (λ failure, same TerminalFailure_dump failure outer) nested then Ok tt
      else
        require supersession_allowed ValueError
          "a Step Result without tool evidence must adopt the exact nested terminal failure" ;;
        let superseded := match to_json (tf_details outer) with
          | PDict kvs => default PNone (dict_get kvs SUPERSEDED_FAILURE_CODES_KEY)
          | _ => PNone
          end in
        superseded ← of_option (codes_of superseded) ValueError
          "superseded failure codes must be a list of string codes";
        require (bool_decide (py_sorted str_leb superseded = py_sorted str_leb (tf_code <$> nested)))
          ValueError "a superseding Step failure must name the exact set of nested codes"
  end.

Section StepResults.
Context `{DSer : !DrSerialize, DSto : !DrStore, DLease : !DrLease, Uni : !UnicodeIdentifiers}.

(** The model validator of [OptimStepResult] in parts: the candidates' templates. *)
Definition check_result_templates (self : OptimStepResult) (run : OptimRunRef) : result unit :=
  for_each (λ candidate,
    rewrap ValueError ValueError "every candidate must satisfy the exact run template contract"
      (validate_candidate_template (candr_record candidate) run))
    (sres_proposed_candidates self ++ sres_accepted_candidates self).

Definition nonempty {A} (l : list A) : bool := match l with [] => false | _ => true end.

(** Which evidence the mode admits. *)
Definition check_evidence_channels (self : OptimStepResult) (mode : StepMode) : result unit :=
  let intents := nonempty (sres_resolved_intents self) in
  let search := nonempty (sres_search_evidence self) in
  let tool := nonempty (sres_tool_evidence self) in
  require (negb ((intents || search) && tool)) ValueError
    "a Step Result carries intent or tool evidence, never both" ;;
  require (negb (bool_decide (mode = PURE) && (intents || search || tool))) ValueError
    "a pure Step Result carries no execution evidence" ;;
  require (negb (bool_decide (mode = PROPOSAL_ONLY) && tool)) ValueError
    "a proposal-only Step Result carries only Intent Resolutions" ;;
  require (negb (bool_decide (mode = TOOL_USING) && (intents || search))) ValueError
    "a tool-using Step Result carries only Tool Evidence" ;;
  require (all_unique (se_eval_request_id <$> sres_search_evidence self)) ValueError
    "a Step Result must not carry duplicate search evidence Eval Request IDs".

(** A pure step returns its candidates; an effectful one mutates them. *)
Definition check_result_candidates (self : OptimStepResult) (request : OptimStepRequest)
    (request_candidate_refs : list CandidateRef) : result unit :=
  let requested := candr_record_ref <$> request_candidate_refs in
  if bool_decide (sreq_mode request = PURE) then
    require (counter_eq (candr_record_ref <$> sres_proposed_candidates self) requested) ValueError
      "a pure Step Result proposed candidate multiset must equal the request's" ;;
    require (negb (negb (bool_decide (sres_status self = FAILED)) &&
                   negb (counter_eq (candr_record_ref <$> sres_accepted_candidates self) requested)))
      ValueError "a pure Step Result accepted candidate multiset must equal the request's"
  else
    let request_bases :=
      foldl (λ d c, dict_set d (candr_record_ref c) (candr_record c)) [] request_candidate_refs in
    for_each (λ proposed,
      base ← of_option (dict_get request_bases (cand_base_ref (candr_record proposed))) ValueError
        "every effectful proposed candidate must bind an exact request base";
      rewrap DiffCheckError ValueError
        "every effectful proposed candidate must satisfy the canonical Mutation Surface"
        (diff_check base (candr_record proposed) (sreq_run request)))
      (sres_proposed_candidates self).

(** One resolved intent against the request. *)
Definition check_resolved_intent (request : OptimStepRequest) (allowed : list CandidateRef)
    (resolution : IntentResolution) : result unit :=
  let optim_request := ir_optim_eval_request resolution in
  require (bool_decide (oer_optim_run_id optim_request = sreq_run_id request)) ValueError
    "every resolved Intent must belong to the exact request run" ;;
  require (oer_optim_step_index optim_request =? sreq_step_index request)%Z ValueError
    "every resolved Intent must belong to the exact request step" ;;
  candidate_ref ← candidate_reference (er_candidate (oer_eval_request optim_request));
  require (existsb (same CandidateRef_dump candidate_ref) allowed) ValueError
    "every resolved Intent must cite an exact request or proposed candidate" ;;
  reward_policy ← of_option (run_reward_policy (runr_record (sreq_run request))) ValueError
    "a resolved proposal Intent requires the exact run Reward Policy";
  match oer_expected_reward_policy_hash optim_request with
  | None => Ok tt
  | Some expected =>
      policy_hash ← RewardPolicy_identity_hash reward_policy;
      require (bool_decide (expected = policy_hash)) ValueError
        "every resolved Intent must expect the exact run Reward Policy"
  end ;;
  match ir_reward_ref resolution with
  | None => Ok tt
  | Some reward =>
      require (bool_decide (rw_reward_policy (rwr_record reward) = reward_policy)) ValueError
        "every resolved Reward must carry the exact run Reward Policy"
  end.

Definition check_resolved_intents (self : OptimStepResult) (request : OptimStepRequest)
    (allowed : list CandidateRef) : result unit :=
  let intents := sres_resolved_intents self in
  require (all_unique ((λ r, er_request_id (oer_eval_request (ir_optim_eval_request r))) <$> intents))
    ValueError "a Step Result must not carry duplicate Eval Request IDs" ;;
  require (all_unique ((λ r, OptimEvalRequest_dump (ir_optim_eval_request r)) <$> intents))
    ValueError "a Step Result must not carry duplicate Intent Resolutions" ;;
  for_each (check_resolved_intent request allowed) intents.

Definition check_tool_evidence (self : OptimStepResult) (request : OptimStepRequest) : result unit :=
  for_each (λ evidence,
    let call := tcallr_record (res_call (resr_record (te_result evidence))) in
    require (existsb (same ToolConfigRef_dump (tcall_tool_config call)) (sreq_tool_configs request))
      ValueError "every Tool Evidence call must use an exact request Tool Config" ;;
    let binding := tcall_capacity_binding call in
    let expected_subject := match tcb_scope binding with
      | RUN => Some (runr_record_ref (sreq_run request))
      | STEP => Some (sreqr_record_ref (sres_request self))
      | GLOBAL => None
      end in
    require (bool_decide (tcb_subject_ref binding = expected_subject)) ValueError
      "every Tool Evidence call must bind exact request capacity authority")
    (sres_tool_evidence self).

Definition nested_failures (self : OptimStepResult) : list TerminalFailure :=
  omap ir_terminal_failure (sres_resolved_intents self) ++
  omap (λ evidence, res_terminal_failure (resr_record (te_result evidence))) (sres_tool_evidence self).

Definition check_failure (self : OptimStepResult) : result unit :=
  require (Bool.eqb (bool_decide (sres_status self = FAILED)) (is_some (sres_terminal_failure self)))
    ValueError "a failed Step Result requires exactly one shared terminal failure" ;;
  require (negb (bool_decide (sres_status self = FAILED) && nonempty (sres_accepted_candidates self)))
    ValueError "a failed Step Result claims no accepted candidates" ;;
  if bool_decide (sres_status self = FAILED) then
    validate_shared_terminal_failure (sres_terminal_failure self) (nested_failures self)
      (nonempty (sres_tool_evidence self))
  else Ok tt.

Definition check_seed (self : OptimStepResult) (request : OptimStepRequest) : result unit :=
  if sres_seed_retained self then
    require (bool_decide (sres_status self = COMPLETE)) ValueError
      "only a COMPLETE Step Result may retain the seed" ;;
    require (negb (nonempty (sres_accepted_candidates self))) ValueError
      "a seed-retaining Step Result accepts no candidates" ;;
    require (is_some (out_terminal_proposal_count (sreq_step_output_contract request))) ValueError
      "only a Step whose output contract sets terminal_proposal_count may retain the seed" ;;
    seed_ref ← of_option (run_initial_candidate_ref (runr_record (sreq_run request))) ValueError
      "a seed-retaining Step Result requires the run to name its initial_candidate_ref";
    require (same_option CandidateRef_dump (sres_retained_candidate_ref self) (Some seed_ref))
      ValueError "a seed-retaining Step Result must retain the exact run initial candidate"
  else
    require (negb (is_some (sres_retained_candidate_ref self))) ValueError
      "only a seed-retaining Step Result names a retained candidate".

Definition check_cardinality (self : OptimStepResult) (request : OptimStepRequest) : result unit :=
  let contract := sreq_step_output_contract request in
  let accepted := Z.of_nat (length (sres_accepted_candidates self)) in
  if bool_decide (sres_status self = FAILED) then Ok tt
  else
    require (if sres_seed_retained self then (accepted =? 0)%Z
             else admits_accepted_count contract (sres_status self) accepted) ValueError
      "Step Result violates returned proposal cardinality" ;;
    require (negb (out_require_distinct_bases contract) ||
             all_unique ((λ c, cand_base_ref (candr_record c)) <$> sres_proposed_candidates self))
      ValueError "Step Result violates the distinct-base output contract".

(** The model validator of [OptimStepResult]. *)
Definition OptimStepResult_validate (self : OptimStepResult) : result OptimStepResult :=
  let request := sreqr_record (sres_request self) in
  request_candidate_refs ← mapM candidate_reference (sreq_candidates request);
  check_result_templates self (sreq_run request) ;;
  check_evidence_channels self (sreq_mode request) ;;
  check_result_candidates self request request_candidate_refs ;;
  check_resolved_intents self request (request_candidate_refs ++ sres_proposed_candidates self) ;;
  check_tool_evidence self request ;;
  check_failure self ;;
  check_seed self request ;;
  check_cardinality self request ;;
  require (counter_within (candr_record_ref <$> sres_accepted_candidates self)
             (candr_record_ref <$> sres_proposed_candidates self)) ValueError
    "accepted candidate multiset must be contained in proposed candidate multiset" ;;
  require (negb (bool_decide (sres_status self = COMPLETE) &&
                 negb (honors_terminal (sreq_step_output_contract request)
                         (run_terminal_output_contract (runr_record (sreq_run request))))))
    ValueError "a COMPLETE Step must honor the run terminal output contract" ;;
  expected_budget ← debit (sreq_budget request) (sres_budget_delta self);
  require (same BudgetState_dump (sres_budget self) expected_budget) ValueError
    "Step Result budget must exactly debit its Step Request budget" ;;
  Ok self.

(** [ToolEvidence.model_validate]. *)
Definition ToolEvidence_model_validate (self : ToolEvidence) : result ToolEvidence :=
  ToolCallRef_model_validate (res_call (resr_record (te_result self))) ;;
  option_validate RewardRef_model_validate (res_reward (resr_record (te_result self))) ;;
  ToolResult_validate (resr_record (te_result self)) ;;
  ToolResultRef_validate (te_result self) ;;
  entry_model_validate (te_store_entry self) ;;
  ToolEvidence_validate self.

Definition OptimStepResult_model_validate (self : OptimStepResult) : result OptimStepResult :=
  OptimStepRequestRef_model_validate (sres_request self) ;;
  for_each (λ c, CandidateRef_validate c ;; Ok tt) (sres_proposed_candidates self) ;;
  for_each (λ c, CandidateRef_validate c ;; Ok tt) (sres_accepted_candidates self) ;;
  for_each (λ r, IntentResolution_model_validate r ;; Ok tt) (sres_resolved_intents self) ;;
  for_each (λ e, SearchEvidence_model_validate e ;; Ok tt) (sres_search_evidence self) ;;
  for_each (λ e, ToolEvidence_model_validate e ;; Ok tt) (sres_tool_evidence self) ;;
  for_each (λ u, ProposerCallUsage_validate u ;; Ok tt) (sres_proposer_usage self) ;;
  BudgetDelta_validate (sres_budget_delta self) ;;
  BudgetState_validate (sres_budget self) ;;
  option_validate (λ c, CandidateRef_validate c ;; Ok tt) (sres_retained_candidate_ref self) ;;
  OptimStepResult_validate self.
End StepResults.

Record OptimStepResultRef := {
  sresr_record : OptimStepResult;
  sresr_record_ref : TypedRef;
}.

Definition OptimStepResultRef_dump (r : OptimStepResultRef) : pyval :=
  PDict [($"record", OptimStepResult_record_content (sresr_record r));
         ($"record_ref", TypedRef_dump (sresr_record_ref r))].

(** ** The result of a run *)

(** A proposal is the reference of an accepted candidate. *)
Record OptimProposal := { op_candidate : CandidateRef }.

Record OptimResult := {
  ores_run : OptimRunRef;
  ores_proposals : list OptimProposal;
  ores_step_results : list OptimStepResultRef;
  ores_cost : list (pystr * pyval);
  ores_terminal_failure : option TerminalFailure;
  ores_seed_retained : bool;
  ores_provenance_note : option pystr;
  ores_provenance_ordinal : option Z;
}.

Definition OptimResult_record_content (self : OptimResult) : pyval :=
  PDict [($"run", OptimRunRef_dump (ores_run self));
         ($"proposals",
           PList ((λ p, PDict [($"candidate", CandidateRef_dump (op_candidate p))]) <$>
                    ores_proposals self));
         ($"step_results", PList (OptimStepResultRef_dump <$> ores_step_results self));
         ($"cost", to_json (ores_cost self));
         ($"terminal_failure", POption TerminalFailure_dump (ores_terminal_failure self));
         ($"seed_retained", PBool (ores_seed_retained self));
         ($"provenance_note", POption PStr (ores_provenance_note self));
         ($"provenance_ordinal", POption PInt (ores_provenance_ordinal self))].

(** What [OptimResult] requires of a step result after another: its request
    cites the exact prior result, state, history and budget. *)
Definition check_link (prior : OptimStepResultRef) (request : OptimStepRequest) : result unit :=
  let prior_result := sresr_record prior in
  require (bool_decide (sreq_prior_step_result_ref request = Some (sresr_record_ref prior)))
    ValueError "each later Step Request must cite the prior exact result" ;;
  require (bool_decide (sreq_prior_state_ref request = sres_state_ref prior_result)) ValueError
    "each later Step Request must carry the prior exact state" ;;
  require (bool_decide (sreq_prior_history_ref request = sres_history_ref prior_result)) ValueError
    "each later Step Request must carry the prior exact history" ;;
  require (same BudgetState_dump (sreq_budget request) (sres_budget prior_result)) ValueError
    "each later Step Request must carry the prior exact budget".

(** The loop over the step results of a run, from [index] on. *)
Fixpoint check_chain (run : OptimRunRef) (index : Z) (prior : option OptimStepResultRef)
    (results : list OptimStepResultRef) : result unit :=
  match results with
  | [] => Ok tt
  | exact_result :: results =>
      let result := sresr_record exact_result in
      require (sres_step_index result =? index)%Z ValueError
        "Step Result indices must be contiguous from zero" ;;
      require (same OptimRunRef_dump (sres_run result) run) ValueError
        "every Step Result request must belong to the exact run" ;;
      require (negb (nonempty results && negb (bool_decide (sres_status result = CONTINUE))))
        ValueError "only the final Step Result may have terminal status" ;;
      match prior with
      | None => Ok tt
      | Some prior => check_link prior (sreqr_record (sres_request result))
      end ;;
      check_chain run (index + 1) (Some exact_result) results
  end.

(** The model validator of [OptimResult]. *)
Definition OptimResult_validate (self : OptimResult) : result OptimResult :=
  final ← of_option (last (ores_step_results self)) ValueError
    "an Optimization Result composes every ordered Step Result";
  check_chain (ores_run self) 0 None (ores_step_results self) ;;
  let final := sresr_record final in
  require (negb (bool_decide (sres_status final = CONTINUE))) ValueError
    "the final Step Result must have terminal status" ;;
  require (same_option TerminalFailure_dump (ores_terminal_failure self)
             (sres_terminal_failure final)) ValueError
    "Optimization Result failure must match the final Step Result" ;;
  require (Bool.eqb (ores_seed_retained self) (sres_seed_retained final)) ValueError
    "Optimization Result seed_retained must match the final Step Result" ;;
  require (negb (bool_decide (sres_status final = FAILED) && nonempty (ores_proposals self)))
    ValueError "a failed Optimization Result claims no proposals" ;;
  (if bool_decide (sres_status final = COMPLETE) then
     require (same (λ l, PList (CandidateRef_dump <$> l)) (op_candidate <$> ores_proposals self)
                (sres_accepted_candidates final)) ValueError
       "successful proposals must exactly derive from final accepted candidates" ;;
     let contract := run_terminal_output_contract (runr_record (ores_run self)) in
     let expected_proposals :=
       if ores_seed_retained self then 0%Z else accepted_count_for contract COMPLETE in
     require (Z.of_nat (length (ores_proposals self)) =? expected_proposals)%Z ValueError
       "Optimization Result violates terminal proposal cardinality"
   else Ok tt) ;;
  Ok self.

Section Results.
Context `{DSer : !DrSerialize, DSto : !DrStore, DLease : !DrLease, Uni : !UnicodeIdentifiers}.

Definition OptimStepResultRef_validate (self : OptimStepResultRef) : result OptimStepResultRef :=
  expected_ref ← typed_ref_for_record STEP_RESULT_SCHEMA
    (OptimStepResult_record_content (sresr_record self));
  require (bool_decide (sresr_record_ref self = expected_ref)) ValueError
    "Step Result record_ref must address the exact result" ;;
  Ok self.

Definition OptimStepResultRef_model_validate (self : OptimStepResultRef) :
    result OptimStepResultRef :=
  OptimStepResult_model_validate (sresr_record self) ;;
  OptimStepResultRef_validate self.

Definition step_result_reference (result : OptimStepResult) : Prelude.result OptimStepResultRef :=
  ref ← typed_ref_for_record STEP_RESULT_SCHEMA (OptimStepResult_record_content result);
  OptimStepResultRef_validate {| sresr_record := result; sresr_record_ref := ref |}.

Definition optimization_result_reference (result : OptimResult) : Prelude.result TypedRef :=
  typed_ref_for_record OPTIM_RESULT_SCHEMA (OptimResult_record_content result).

Definition OptimResult_model_validate (self : OptimResult) : result OptimResult :=
  OptimRunRef_model_validate (ores_run self) ;;
  for_each (λ p, CandidateRef_validate (op_candidate p) ;; Ok tt) (ores_proposals self) ;;
  for_each (λ r, OptimStepResultRef_model_validate r ;; Ok tt) (ores_step_results self) ;;
  OptimResult_validate self.
End Results.

(** ** What an adapter returns ([optim/adapters.py]) *)

Record AdapterOutput := {
  ao_proposed_candidates : list Candidate;
  ao_accepted_candidates : list Candidate;
  ao_optim_eval_requests : list OptimEvalRequest;
  ao_search_evidence : list SearchEvidence;
  ao_budget_delta : Budget;
  ao_proposed_status : StepStatus;
  ao_terminal_failure : option TerminalFailure;
  ao_seed_retained : bool;
  ao_retained_candidate : option Candidate;
  ao_proposer_usage : list ProposerCallUsage;
  ao_state_delta : list (pystr * pyval);
  ao_history_delta : list (pystr * pyval);
}.

Definition AdapterOutput_dump (o : AdapterOutput) : pyval :=
  PDict [($"proposed_candidates", PList (Candidate_record_content <$> ao_proposed_candidates o));
         ($"accepted_candidates", PList (Candidate_record_content <$> ao_accepted_candidates o));
         ($"optim_eval_requests", PList (OptimEvalRequest_dump <$> ao_optim_eval_requests o));
         ($"search_evidence", PList (SearchEvidence_dump <$> ao_search_evidence o));
         ($"budget_delta", BudgetDelta_dump (ao_budget_delta o));
         ($"proposed_status", PStr (StepStatus_value (ao_proposed_status o)));
         ($"terminal_failure", POption TerminalFailure_dump (ao_terminal_failure o));
         ($"seed_retained", PBool (ao_seed_retained o));
         ($"retained_candidate", POption Candidate_record_content (ao_retained_candidate o));
         ($"proposer_usage", PList (ProposerCallUsage_dump <$> ao_proposer_usage o));
         ($"state_delta", to_json (ao_state_delta o));
         ($"history_delta", to_json (ao_history_delta o))].

(** The model validator of [AdapterOutput]. *)
Definition AdapterOutput_validate (self : AdapterOutput) : result AdapterOutput :=
  let failed := bool_decide (ao_proposed_status self = FAILED) in
  require (Bool.eqb failed (is_some (ao_terminal_failure self))) ValueError
    "a failed Adapter Output requires exactly one shared terminal failure" ;;
  require (negb (failed && nonempty (ao_accepted_candidates self))) ValueError
    "a failed Adapter Output claims no accepted candidates" ;;
  require (negb (failed && nonempty (ao_optim_eval_requests self))) ValueError
    "a failed Adapter Output requests no Evaluations" ;;
  (if ao_seed_retained self then
     require (bool_decide (ao_proposed_status self = COMPLETE)) ValueError
       "only a COMPLETE Adapter Output may retain the seed" ;;
     require (negb (nonempty (ao_accepted_candidates self))) ValueError
       "a seed-retaining Adapter Output accepts no candidates" ;;
     require (is_some (ao_retained_candidate self)) ValueError
       "a seed-retaining Adapter Output must name the retained candidate"
   else
     require (negb (is_some (ao_retained_candidate self))) ValueError
       "only a seed-retaining Adapter Output names a retained candidate") ;;
  require (all_unique (se_eval_request_id <$> ao_search_evidence self)) ValueError
    "Adapter Output search evidence Eval Request IDs must be unique" ;;
  Ok self.

Definition AdapterOutput_model_validate `{!DrSerialize, !DrStore} (self : AdapterOutput) :
    result AdapterOutput :=
  for_each (λ r, OptimEvalRequest_model_validate r ;; Ok tt) (ao_optim_eval_requests self) ;;
  for_each (λ e, SearchEvidence_model_validate e ;; Ok tt) (ao_search_evidence self) ;;
  BudgetDelta_validate (ao_budget_delta self) ;;
  for_each (λ u, ProposerCallUsage_validate u ;; Ok tt) (ao_proposer_usage self) ;;
  AdapterOutput_validate self.

Record AdapterCheckpoint := {
  ck_request_ref : TypedRef;
  ck_adapter_key : pystr;
  ck_output : AdapterOutput;
}.

Definition AdapterCheckpoint_record_content (self : AdapterCheckpoint) : pyval :=
  PDict [($"request_ref", TypedRef_dump (ck_request_ref self));
         ($"adapter_key", PStr (ck_adapter_key self));
         ($"output", AdapterOutput_dump (ck_output self))].

(** ** Budgets are conserved *)

(** The amount of a label in a budget: the sum of its entries. *)
Definition amount_of (label : pystr) (item : pystr * pyval) : Z :=
  match item.2 with PInt n => if decide (item.1 = label) then n else 0 | _ => 0 end.
Definition amount (values : Budget) (label : pystr) : Z := int_sum (amount_of label <$> values).

Definition int_amount (values : list (pystr * Z)) (label : pystr) : Z := amount (budget_of values) label.

(** Labels are non-empty, amounts are integers and not negative. *)
Definition budget_item_ok (item : pystr * pyval) : Prop :=
  item.1 ≠ [] ∧ ∃ n, item.2 = PInt n ∧ (0 <= n)%Z.

Lemma for_each_Ok {A} (f : A → result unit) (l : list A) :
  for_each f l = Ok tt ↔ Forall (λ x, f x = Ok tt) l.
Proof.
  induction l as [|x l IH]; simpl; [by split|]. rewrite Forall_cons, bind_Ok, <-IH.
  split; [by intros ([] & ? & ?)|]. intros [? ?]. by exists tt.
Qed.

Lemma validate_budget_Ok values :
  validate_budget_values values = Ok tt ↔ Forall budget_item_ok values.
Proof.
  unfold validate_budget_values. rewrite for_each_Ok. apply Forall_proper; [|done]. intros [label v].
  unfold budget_item_ok; simpl. rewrite bind_Ok. split.
  - intros (u & Hl & Hv). inv_ok. split; [done|].
    destruct v as [| |n| | | | | |]; try done. exists n. split; [done|]. inv_ok. lia.
 
  - intros (Hl & n & -> & Hn). exists tt. rewrite bool_decide_false by done.
    by rewrite (proj2 (Z.ltb_ge _ _)).
Qed.

Lemma budget_dict_of values ints : budget_dict values = Ok ints → values = budget_of ints.
Proof.
  revert ints. induction values as [|[label v] values IH]; simpl; intros ints H; [by inv_result|].
  destruct v; try done. inv_result. rewrite (IH _ Hiv). done.
Qed.

Lemma budget_dict_items values : Forall budget_item_ok values → ∃ ints, budget_dict values = Ok ints.
Proof.
  induction 1 as [|[label v] values (_ & n & Hv & _) _ [ints IH]]; [by exists []|].
  simpl in *. subst v. rewrite IH. by eexists.
Qed.

Lemma int_amount_cons label n values label' :
  int_amount ((label, n) :: values) label' =
  ((if decide (label = label') then n else 0) + int_amount values label')%Z.
Proof. done. Qed.

Lemma int_amount_set values label n label' :
  int_amount (dict_set values label n) label' =
  (int_amount values label' +
     if decide (label = label') then n - default 0 (dict_get values label) else 0)%Z.
Proof.
  induction values as [|[k v] values IH]; simpl.
  - rewrite int_amount_cons. unfold int_amount. simpl. case_decide; lia.
  - destruct (decide (label = k)) as [->|Hk].
    + rewrite !int_amount_cons. simpl. case_decide; lia.
    + rewrite !int_amount_cons, IH. lia.
Qed.

(** The debit loop moves each amount of the delta from what remains to what is
    consumed. *)
Lemma debit_loop_amounts delta consumed remaining consumed' remaining' label :
  debit_loop delta consumed remaining = Ok (consumed', remaining') →
  int_amount consumed' label = (int_amount consumed label + amount delta label)%Z ∧
  int_amount remaining' label = (int_amount remaining label - amount delta label)%Z.
Proof.
  revert consumed remaining. induction delta as [|[l v] delta IH]; simpl; intros consumed remaining H.
  { inv_result. simplify_eq. unfold amount. simpl. lia. }
  destruct v as [| |n| | | | | |]; try done. inv_result.
  destruct (IH _ _ Hik0) as [-> ->]. rewrite !int_amount_set, Hiv. simpl.
  change (amount ((l, PInt n) :: delta) label) with
    ((if decide (l = label) then n else 0) + amount delta label)%Z.
  case_decide; lia.
Qed.

Lemma debit_amounts self delta budget label :
  debit self delta = Ok budget →
  amount (bs_consumed budget) label = (amount (bs_consumed self) label + amount delta label)%Z ∧
  amount (bs_remaining budget) label = (amount (bs_remaining self) label - amount delta label)%Z.
Proof.
  unfold debit. intros H. inv_result. destruct a1 as [consumed remaining].
  unfold BudgetState_validate in Hik. inv_result. simpl.
  apply (debit_loop_amounts _ _ _ _ _ label) in Hiv1.
  by rewrite (budget_dict_of _ _ Hiv), (budget_dict_of _ _ Hiv0).
Qed.

Lemma amount_nonneg values label : Forall budget_item_ok values → (0 <= amount values label)%Z.
Proof.
  intros H. apply int_sum_nonneg. eapply Forall_impl; [exact H|].
  intros [l v] (_ & n & Hv & Hn). unfold amount_of. simpl in *. subst v. by case_decide.
Qed.

Lemma int_sum_perm l k : l ≡ₚ k → int_sum l = int_sum k.
Proof. unfold int_sum. induction 1; simpl; lia. Qed.

(** Budgets that compare equal hold the same amounts. *)
Lemma canonical_amount (v w : Budget) label :
  Forall budget_item_ok v → Forall budget_item_ok w →
  canonicalize_validated_json (to_json v) = canonicalize_validated_json (to_json w) →
  amount v label = amount w label.
Proof.
  assert (∀ v : Budget, Forall budget_item_ok v →
    (λ kv, (kv.1, canonicalize_validated_json kv.2)) <$>
      ((λ kv, (kv.1, json_value kv.2)) <$> v) = v) as Hid.
  { induction 1 as [|[l x] u (_ & n & Hx & _) _ IH]; [done|]. simpl in Hx. subst x.
    rewrite !fmap_cons. by rewrite IH. }
  intros Hv Hw H. unfold to_json in H. simpl in H. injection H as H.
  unfold amount. apply int_sum_perm. apply fmap_Permutation.
  etrans; [|etrans]; [|apply reflexive_eq, H|].
  - symmetry. etrans; [apply py_sorted_perm|]. by rewrite Hid.
  - etrans; [apply py_sorted_perm|]. by rewrite Hid.
Qed.

Lemma BudgetState_validate_items b b' :
  BudgetState_validate b = Ok b' → Forall budget_item_ok (bs_consumed b) ∧
  Forall budget_item_ok (bs_remaining b).
Proof. unfold BudgetState_validate. intros H. inv_result. by rewrite <-!validate_budget_Ok; destruct a, a0. Qed.

Lemma BudgetState_validate_id b b' : BudgetState_validate b = Ok b' → b' = b.
Proof. unfold BudgetState_validate. intros H. by inv_result. Qed.

Lemma same_budget a b a' b' label :
  BudgetState_validate a = Ok a' → BudgetState_validate b = Ok b' →
  same BudgetState_dump a b = true →
  amount (bs_consumed a) label = amount (bs_consumed b) label ∧
  amount (bs_remaining a) label = amount (bs_remaining b) label.
Proof.
  intros [Ha1 Ha2]%BudgetState_validate_items [Hb1 Hb2]%BudgetState_validate_items H.
  apply bool_decide_eq_true in H. unfold BudgetState_dump in H. cbn -[to_json] in H.
  change (str_leb $"consumed" $"remaining") with true in H. injection H as Hc Hr.
  split; (apply canonical_amount; [done|done|by apply (f_equal PDict)]).
Qed.

(** What the checks of a chain establish. *)
Lemma check_link_Ok prior request :
  check_link prior request = Ok tt ↔
  sreq_prior_step_result_ref request = Some (sresr_record_ref prior) ∧
  sreq_prior_state_ref request = sres_state_ref (sresr_record prior) ∧
  sreq_prior_history_ref request = sres_history_ref (sresr_record prior) ∧
  same BudgetState_dump (sreq_budget request) (sres_budget (sresr_record prior)) = true.
Proof.
  unfold check_link. split; [intros H; by inv_ok|].
  intros (-> & -> & -> & ->). by rewrite !bool_decide_true.
Qed.

Lemma check_chain_cons run index prior r results :
  check_chain run index prior (r :: results) = Ok tt →
  sres_step_index (sresr_record r) = index ∧
  same OptimRunRef_dump (sres_run (sresr_record r)) run = true ∧
  (results ≠ [] → sres_status (sresr_record r) = CONTINUE) ∧
  (∀ p, prior = Some p → check_link p (sreqr_record (sres_request (sresr_record r))) = Ok tt) ∧
  check_chain run (index + 1) (Some r) results = Ok tt.
Proof.
  simpl. intros H. inv_result. split_and!; [by apply Z.eqb_eq|done| | |done].
  - intros Hne. destruct results; [done|]. destruct (sres_status (sresr_record r)) eqn:E; by rewrite ?E in *.
  - intros p ->. by destruct a2.
Qed.

Section BudgetTheorems.
Context `{DSer : !DrSerialize, DSto : !DrStore, DLease : !DrLease, Uni : !UnicodeIdentifiers}.

(** A step result as it is read back: every validator passed. *)
Definition step_ok (r : OptimStepResultRef) : Prop :=
  OptimStepResult_model_validate (sresr_record r) = Ok (sresr_record r).

Lemma OptimStepResult_model_validate_id r r' : OptimStepResult_model_validate r = Ok r' → r' = r.
Proof.
  unfold OptimStepResult_model_validate, OptimStepResult_validate. intros H. by inv_result.
Qed.

Lemma OptimStepResultRef_model_validate_Ok r r' :
  OptimStepResultRef_model_validate r = Ok r' →
  r' = r ∧ step_ok r ∧
  typed_ref_for_record STEP_RESULT_SCHEMA (OptimStepResult_record_content (sresr_record r)) =
    Ok (sresr_record_ref r).
Proof.
  unfold OptimStepResultRef_model_validate, OptimStepResultRef_validate, step_ok. intros H.
  inv_ok. match goal with H : OptimStepResult_model_validate _ = _ |- _ =>
    rewrite H; apply OptimStepResult_model_validate_id in H; subst end.
  split_and!; [done|done|congruence].
Qed.

Definition spent_by (label : pystr) (r : OptimStepResultRef) : Z :=
  amount (sres_budget_delta (sresr_record r)) label.

Definition request_budget (r : OptimStepResultRef) : BudgetState :=
  sreq_budget (sreqr_record (sres_request (sresr_record r))).

Lemma step_budgets r :
  step_ok r →
  (∃ b, BudgetState_validate (request_budget r) = Ok b) ∧
  (∃ b, BudgetState_validate (sres_budget (sresr_record r)) = Ok b) ∧
  Forall budget_item_ok (sres_budget_delta (sresr_record r)) ∧
  ∃ b, debit (request_budget r) (sres_budget_delta (sresr_record r)) = Ok b ∧
    same BudgetState_dump (sres_budget (sresr_record r)) b = true.
Proof.
  unfold step_ok, OptimStepResult_model_validate, OptimStepRequestRef_model_validate,
    OptimStepRequest_model_validate, BudgetDelta_validate, OptimStepResult_validate.
  intros H. inv_result. split_and!; [by eauto..| |by eauto].
  match goal with H : validate_budget_values _ = Ok ?u |- _ =>
    destruct u; by apply validate_budget_Ok end.
Qed.

Lemma debit_valid self delta b : debit self delta = Ok b → BudgetState_validate b = Ok b.
Proof.
  unfold debit. intros H. inv_result. destruct a1 as [c r].
  by rewrite (BudgetState_validate_id _ _ Hik) at 1.
Qed.

(** A step moves its delta from what remains to what is consumed. *)
Lemma step_balance r label :
  step_ok r →
  let budget := sres_budget (sresr_record r) in
  amount (bs_consumed budget) label = (amount (bs_consumed (request_budget r)) label + spent_by label r)%Z ∧
  amount (bs_remaining budget) label = (amount (bs_remaining (request_budget r)) label - spent_by label r)%Z.
Proof.
  intros (_ & [b1 Hb1] & _ & b & Hd & Hs)%step_budgets. simpl.
  unfold spent_by. destruct (debit_amounts _ _ _ label Hd) as [<- <-].
  by eapply same_budget; [|eapply debit_valid|].
Qed.

Lemma chain_balance run index prior results first final label :
  Forall step_ok results → check_chain run index prior results = Ok tt →
  head results = Some first → last results = Some final →
  let spent := int_sum (spent_by label <$> results) in
  let left := sres_budget (sresr_record final) in
  amount (bs_consumed left) label = (amount (bs_consumed (request_budget first)) label + spent)%Z ∧
  amount (bs_remaining left) label = (amount (bs_remaining (request_budget first)) label - spent)%Z.
Proof.
  intros Hok. revert index prior first. induction Hok as [|r results Hr Hok IH]; [done|].
  intros index prior first (_ & _ & _ & _ & Hchain)%check_chain_cons [= <-] Hlast.
  destruct (step_balance r label Hr) as [Hc Hrem].
  destruct results as [|r' results].
  { injection Hlast as <-. unfold int_sum. simpl. lia. }
  rewrite last_cons_cons in Hlast.
  destruct (IH _ _ r' Hchain eq_refl Hlast) as [Hc' Hrem'].
  apply check_chain_cons in Hchain as (_ & _ & _ & Hlink & _).
  destruct (proj1 (check_link_Ok _ _) (Hlink r eq_refl)) as (_ & _ & _ & Hb).
  apply Forall_cons in Hok as [Hr' _].
  destruct (step_budgets r Hr) as (_ & [b1 Hb1] & _).
  destruct (step_budgets r' Hr') as ([b2 Hb2] & _).
  edestruct (same_budget _ _ _ _ label Hb2 Hb1) as [E1 E2]; [done|].
  change (int_sum (spent_by label <$> r :: r' :: results)) with
    (spent_by label r + int_sum (spent_by label <$> r' :: results))%Z.
  unfold request_budget in *. lia.
Qed.

(** C37. A run spends within its budget. In every run result that is accepted,
    for every label, what its steps spent together is what left the remaining
    budget and what was added to the consumed one between the first step's
    request and the final step's result; it is not negative and at most what
    the first request had. *)
Theorem run_within_budget self first final label :
  OptimResult_model_validate self = Ok self →
  head (ores_step_results self) = Some first → last (ores_step_results self) = Some final →
  let spent := int_sum (spent_by label <$> ores_step_results self) in
  let initial := request_budget first in
  let left := sres_budget (sresr_record final) in
  (0 <= spent <= amount (bs_remaining initial) label)%Z ∧
  amount (bs_consumed left) label = (amount (bs_consumed initial) label + spent)%Z ∧
  amount (bs_remaining left) label = (amount (bs_remaining initial) label - spent)%Z.
Proof.
  intros H Hfirst Hfinal. unfold OptimResult_model_validate in H. inv_result.
  destruct a1. apply for_each_Ok in Hiv1.
  assert (Forall step_ok (ores_step_results self)) as Hok.
  { eapply Forall_impl; [exact Hiv1|]. intros r (r' & Hr & _)%bind_Ok.
    by destruct (OptimStepResultRef_model_validate_Ok r r' Hr) as (_ & ? & _). }
  unfold OptimResult_validate in Hik. inv_result.
  match goal with H : check_chain _ _ _ _ = Ok ?u |- _ => destruct u;
    destruct (chain_balance _ _ _ _ first final label Hok H Hfirst Hfinal) as [Hc Hr] end.
  split; [|done]. split.
  - apply (int_sum_nonneg (spent_by label)). eapply Forall_impl; [exact Hok|].
    intros r (_ & _ & Hd & _)%step_budgets. by apply amount_nonneg.
  - rewrite Forall_forall in Hok. destruct (step_budgets final) as (_ & [b Hb] & _).
    { apply Hok. by apply last_Some_elem_of. }
    apply BudgetState_validate_items in Hb as [_ Hb].
    pose proof (amount_nonneg _ label Hb). lia.
Qed.
End BudgetTheorems.

(** ** What a step may propose and accept *)

Section Counters.
Context {A : Type} `{EqDecision A}.
Implicit Types (l k : list A).

Lemma occurrences_cons x y l :
  occurrences x (y :: l) = ((if decide (y = x) then 1 else 0) + occurrences x l)%nat.
Proof. unfold occurrences. rewrite filter_cons. by case_decide. Qed.

Lemma occurrences_perm x l k : l ≡ₚ k → occurrences x l = occurrences x k.
Proof. unfold occurrences. by intros ->. Qed.

Lemma occurrences_elem x l : (0 < occurrences x l)%nat → x ∈ l.
Proof.
  unfold occurrences. intros H. destruct (filter (λ y, y = x) l) as [|y k] eqn:E; simpl in H; [lia|].
  assert (y ∈ filter (λ y, y = x) l) as Hy by (rewrite E; by left).
  by apply list_elem_of_filter in Hy as [-> ?].
Qed.

Lemma occurrences_submseteq l k :
  (∀ x, x ∈ l → (occurrences x l <= occurrences x k)%nat) → l ⊆+ k.
Proof.
  revert k. induction l as [|x l IH]; intros k H; [apply submseteq_nil_l|].
  assert (x ∈ k) as Hx.
  { apply occurrences_elem. specialize (H x (list_elem_of_here _ _)).
    rewrite occurrences_cons, decide_True in H by done. lia. }
  apply elem_of_Permutation in Hx as [k' Hk]. rewrite Hk. apply submseteq_skip, IH.
  intros y Hy. specialize (H y (list_elem_of_further _ _ _ Hy)).
  rewrite (occurrences_perm y _ _ Hk), !occurrences_cons in H. lia.
Qed.

Lemma counter_within_submseteq l k : counter_within l k = true → l ⊆+ k.
Proof.
  unfold counter_within. rewrite forallb_forall. intros H. apply occurrences_submseteq.
  intros x Hx%list_elem_of_In. by apply Nat.leb_le, H.
Qed.

Lemma counter_eq_perm l k : counter_eq l k = true → l ≡ₚ k.
Proof.
  unfold counter_eq. intros [H1 H2]%andb_true_iff.
  by apply (anti_symm submseteq); apply counter_within_submseteq.
Qed.
End Counters.

Lemma foldl_dict_set_get {A K V} `{EqDecision K} (f : A → K) (g : A → V) l d k v :
  dict_get (foldl (λ d x, dict_set d (f x) (g x)) d l) k = Some v →
  dict_get d k = Some v ∨ ∃ x, x ∈ l ∧ f x = k ∧ g x = v.
Proof.
  revert d. induction l as [|x l IH]; intros d; simpl; [by left|].
  intros [H|(y & ? & ? & ?)]%IH; [|right; exists y; split_and!; [by right|done..]].
  destruct (decide (f x = k)) as [<-|Hne].
  - rewrite dict_get_set_eq in H. injection H as <-. right. exists x. by split_and!; [left|..].
  - rewrite dict_get_set_ne in H by done. by left.
Qed.

Section SurfaceTheorems.
Context `{DSer : !DrSerialize, DSto : !DrStore, DLease : !DrLease, Uni : !UnicodeIdentifiers}.

Lemma candidate_reference_record c r : candidate_reference c = Ok r → candr_record r = c.
Proof. unfold candidate_reference, CandidateRef_validate. intros H. by inv_result. Qed.

(** A proposal that changes the mutation field of its base and nothing else. *)
Definition mutates (run : OptimRun) (base proposed : Candidate) : Prop :=
  ∃ base_ref old new,
    candidate_reference base = Ok base_ref ∧ cand_base_ref proposed = candr_record_ref base_ref ∧
    dict_get (payload_json base) (run_mutation_field run) = Some (PStr old) ∧
    payload_get proposed (run_mutation_field run) = PStr new ∧ new ≠ [] ∧ new ≠ old ∧
    canonical_json (PDict (dict_pop (payload_json proposed) (run_mutation_field run))) =
      canonical_json (PDict (dict_pop (payload_json base) (run_mutation_field run))).

Lemma OptimRunRef_model_validate_id run run' : OptimRunRef_model_validate run = Ok run' → run' = run.
Proof. unfold OptimRunRef_model_validate, OptimRunRef_validate. intros H. by inv_result. Qed.

Lemma diff_check_mutates base proposed run u :
  diff_check base proposed run = Ok u → mutates (runr_record run) base proposed.
Proof.
  unfold diff_check. intros H. apply bind_Ok in H as (run' & ->%OptimRunRef_model_validate_id & H).
  inv_result. inv_bool.
  destruct (payload_get proposed _) as [| | | |[|c new]| | | |] eqn:Hnew; try discriminate.
  match goal with H : match ?v with PStr _ => _ | _ => _ end = Ok _ |- _ => destruct v end;
    try discriminate. inv_result.
  do 3 eexists. split_and!; try done. congruence.
Qed.

Lemma for_each_elem {A} (f : A → result unit) l u x :
  for_each f l = Ok u → x ∈ l → ∃ v, f x = Ok v.
Proof.
  destruct u. rewrite for_each_Ok, Forall_forall. intros H Hx. exists tt. by apply H.
Qed.

Lemma result_candidates_mutate self request refs u c :
  mapM candidate_reference (sreq_candidates request) = Ok refs →
  check_result_candidates self request refs = Ok u → sreq_mode request ≠ PURE →
  c ∈ sres_proposed_candidates self →
  ∃ base, base ∈ sreq_candidates request ∧
    mutates (runr_record (sreq_run request)) base (candr_record c).
Proof.
  intros Hrefs H Hmode Hc. unfold check_result_candidates in H.
  rewrite bool_decide_false in H by done.
  eapply for_each_elem in H as [v H]; [|exact Hc]. inv_result.
  match goal with H : dict_get _ _ = Some _ |- _ =>
    apply foldl_dict_set_get in H as [H|(ref & Href & _ & <-)]; [done|] end.
  match goal with H : diff_check _ _ _ = _ |- _ => apply diff_check_mutates in H as Hmut end.
  exists (candr_record ref). split; [|done].
  apply mapM_Ok_Forall2 in Hrefs. apply list_elem_of_lookup_1 in Href as [i Hi].
  destruct (Forall2_lookup_r _ _ _ _ _ Hrefs Hi) as (base & Hb & Hr).
  apply candidate_reference_record in Hr as ->. by eapply list_elem_of_lookup_2.
Qed.

(** The counts a step's contract admits for what it accepts. *)
Definition accepted_counts_ok (self : OptimStepResult) : Prop :=
  let request := sreqr_record (sres_request self) in
  let contract := sreq_step_output_contract request in
  let accepted := Z.of_nat (length (sres_accepted_candidates self)) in
  match sres_status self with
  | FAILED => accepted = 0%Z ∧ is_Some (sres_terminal_failure self)
  | CONTINUE =>
      accepted = out_returned_proposal_count contract ∨
      ∃ floor, out_min_returned_proposal_count contract = Some floor ∧
        (floor <= accepted <= out_returned_proposal_count contract)%Z
  | COMPLETE =>
      let terminal := run_terminal_output_contract (runr_record (sres_run self)) in
      (sres_seed_retained self = false ∧ accepted = accepted_count_for terminal COMPLETE) ∨
      (sres_seed_retained self = true ∧ accepted = 0%Z ∧
       ∃ seed, run_initial_candidate_ref (runr_record (sres_run self)) = Some seed ∧
         same_option CandidateRef_dump (sres_retained_candidate_ref self) (Some seed) = true)
  end.

Lemma step_counts self u v w :
  check_failure self = Ok u → check_seed self (sreqr_record (sres_request self)) = Ok v →
  check_cardinality self (sreqr_record (sres_request self)) = Ok w →
  (sres_status self = COMPLETE →
   honors_terminal (sreq_step_output_contract (sreqr_record (sres_request self)))
     (run_terminal_output_contract (runr_record (sres_run self))) = true) →
  accepted_counts_ok self.
Proof.
  unfold check_failure, check_seed, check_cardinality, accepted_counts_ok.
  intros Hf Hs Hc Hh. apply bind_Ok in Hf as ([] & Hf1 & Hf). apply bind_Ok in Hf as ([] & Hf2 & _).
  apply require_Ok in Hf1, Hf2.
  set (contract := sreq_step_output_contract _) in *. fold (sres_run self) in *.
  set (accepted := Z.of_nat _) in *.
  destruct (sres_status self) eqn:Hst.
  - simpl in Hs, Hc. inv_result. destruct (sres_seed_retained self); [done|].
    unfold admits_accepted_count in *.
    destruct (out_min_returned_proposal_count contract) as [floor|]; inv_bool.
    + right. by exists floor.
    + by left.
  - unfold honors_terminal in Hh. specialize (Hh eq_refl). apply andb_true_iff in Hh as [Hh _].
    apply Z.eqb_eq in Hh. rewrite <-Hh. simpl in Hc. inv_result.
    destruct (sres_seed_retained self); simpl in *; [right|left].
    + inv_ok. split_and!; [done..|]. by eexists.
    + inv_bool. done.
  - simpl in Hf1, Hf2. split; [|by apply is_some_Some; destruct (is_some _)].
    by destruct (sres_accepted_candidates self).
Qed.

(** C38. What a step may propose and accept. In every step result that is
    accepted: the accepted candidates are among the proposed ones, with
    multiplicity; a pure step proposes exactly its request's candidates, and any
    other step only mutations of them, which change the run's mutation field to
    a template the run's contract accepts and nothing else; and the number it
    accepts is the one its contract binds for its status, a failed step
    accepting none and a step that retains the seed naming the run's own. *)
Theorem step_result_candidates self :
  OptimStepResult_model_validate self = Ok self →
  let request := sreqr_record (sres_request self) in
  let run := runr_record (sres_run self) in
  candr_record_ref <$> sres_accepted_candidates self ⊆+
    candr_record_ref <$> sres_proposed_candidates self ∧
  (sreq_mode request = PURE → ∃ refs, mapM candidate_reference (sreq_candidates request) = Ok refs ∧
     candr_record_ref <$> sres_proposed_candidates self ≡ₚ candr_record_ref <$> refs) ∧
  (sreq_mode request ≠ PURE → ∀ c, c ∈ sres_proposed_candidates self →
     ∃ base, base ∈ sreq_candidates request ∧ mutates run base (candr_record c)) ∧
  (∀ c, c ∈ sres_proposed_candidates self ++ sres_accepted_candidates self →
     ∃ fields, validate_template (run_template_render_contract run)
       (payload_get (candr_record c) (run_mutation_field run)) = Ok fields) ∧
  accepted_counts_ok self.
Proof.
  intros H. unfold OptimStepResult_model_validate in H.
  assert (OptimStepResult_validate self = Ok self) as Hv by by inv_result.
  clear H. unfold OptimStepResult_validate in Hv. fold (sres_run self) in Hv.
  set (request := sreqr_record (sres_request self)) in *. inv_result.
  match goal with H : counter_within _ _ = true |- _ => apply counter_within_submseteq in H end.
  split_and!; [done|..].
  - intros Hpure. exists a. split; [done|]. unfold check_result_candidates in *.
    rewrite bool_decide_true in * by done. inv_result. by apply counter_eq_perm.
  - intros Hmode c Hc. by eapply result_candidates_mutate.
  - intros c Hc. eapply for_each_elem in Hiv0 as [u Hu]; [|exact Hc]. apply rewrap_Ok in Hu.
    unfold validate_candidate_template in Hu.
    apply bind_Ok in Hu as (run' & ->%OptimRunRef_model_validate_id & Hu). inv_result. by eexists.
  - eapply step_counts; [done..|]. intros Hst. rewrite bool_decide_true in Hiv9 by done.
    by apply negb_true_iff, negb_false_iff in Hiv9.
Qed.
End SurfaceTheorems.

(** A proposal-only run of two steps: each proposes and accepts one mutation. *)
Module ConcreteRun.
Import Concrete ConcreteLease ConcreteTemplates.

Definition content_ref (schema : pystr) : TypedRef :=
  {| tref_schema_name := schema; tref_content_hash := digest PNone |}.

Definition one_proposal : OutputContract :=
  {| out_returned_proposal_count := 1; out_terminal_proposal_count := None;
     out_min_returned_proposal_count := None; out_require_distinct_bases := true |}.

Definition the_run : OptimRun :=
  {| run_run_id := $"run"; run_optimizer_config :=
       {| iref_record_ref := content_ref $"config"; iref_record_hash := digest PNone |};
     run_adapter_key := $"copro"; run_mode := PROPOSAL_ONLY;
     run_terminal_output_contract := one_proposal;
     run_template_render_contract :=
       {| trc_kind := LITERAL_BODY_V1; trc_available_fields := []; trc_required_fields := [] |};
     run_initial_candidate_ref := None; run_mutation_field := $"prompt";
     run_reward_policy := Some {| rp_policy_name := $"p"; rp_reward_name := $"r"; rp_terms :=
       [{| rt_name := $"score"; rt_weight := fone; rt_maximize := true; rt_worst_value := fzero |}];
       rp_missing_data := FAIL |};
     run_tool_configs := [] |}.

Definition candidate (id : pystr) (base_ref : TypedRef) (prompt : pystr) : Candidate :=
  {| cand_candidate_id := id; cand_base_ref := base_ref;
     cand_payload := [($"prompt", PStr prompt); ($"model", PStr $"m")] |}.

Definition request (run : OptimRunRef) (index : Z) (prior : option TypedRef) (base : Candidate)
    (budget : BudgetState) : OptimStepRequest :=
  {| sreq_run := run; sreq_step_id := $"s"; sreq_kind := PROPOSAL; sreq_kind_label := None;
     sreq_step_index := index; sreq_prior_step_result_ref := prior; sreq_prior_state_ref := None;
     sreq_prior_history_ref := None; sreq_candidates := [base]; sreq_pools := [];
     sreq_hyperparameters := []; sreq_budget := budget;
     sreq_step_output_contract := one_proposal |}.

(** A step that proposes [prompt] and spends [calls]. *)
Definition step_result (req : OptimStepRequest) (id prompt : pystr) (calls : Z)
    (status : StepStatus) : result OptimStepResultRef :=
  base ← of_option (head (sreq_candidates req)) ValueError "";
  base_ref ← candidate_reference base;
  proposed ← candidate_reference (candidate id (candr_record_ref base_ref) prompt);
  exact ← step_request_reference req;
  budget ← debit (sreq_budget req) [($"calls", PInt calls)];
  step_result_reference
    {| sres_request := exact; sres_proposed_candidates := [proposed];
       sres_accepted_candidates := [proposed]; sres_resolved_intents := [];
       sres_search_evidence := []; sres_tool_evidence := []; sres_proposer_usage := [];
       sres_state_ref := None; sres_history_ref := None;
       sres_budget_delta := [($"calls", PInt calls)]; sres_budget := budget;
       sres_status := status; sres_terminal_failure := None; sres_seed_retained := false;
       sres_retained_candidate_ref := None; sres_provenance_note := None;
       sres_provenance_ordinal := None |}.

Definition two_steps : result OptimResult :=
  run ← optimization_run_reference the_run;
  let seed := candidate $"seed" (content_ref $"seed") $"Answer." in
  let budget := {| bs_consumed := []; bs_remaining := [($"calls", PInt 5)] |} in
  first ← step_result (request run 0 None seed budget) $"one" $"Think, then answer." 2 CONTINUE;
  base ← of_option (head (sres_accepted_candidates (sresr_record first))) ValueError "";
  final ← step_result (request run 1 (Some (sresr_record_ref first)) (candr_record base)
                         (sres_budget (sresr_record first)))
            $"two" $"Think twice, then answer." 1 COMPLETE;
  OptimResult_model_validate
    {| ores_run := run;
       ores_proposals := (λ c, {| op_candidate := c |}) <$> sres_accepted_candidates (sresr_record final);
       ores_step_results := [first; final]; ores_cost := []; ores_terminal_failure := None;
       ores_seed_retained := false; ores_provenance_note := None;
       ores_provenance_ordinal := None |}.

(** What the final step spent and left, and that a step result is accepted. *)
Definition spent_and_left (r : OptimResult) : bool :=
  match ores_step_results r with
  | [first; final] =>
      is_ok (OptimResult_model_validate r) && is_ok (OptimStepResult_model_validate (sresr_record first)) &&
      (amount (bs_remaining (request_budget first)) $"calls" =? 5)%Z &&
      (amount (bs_remaining (sres_budget (sresr_record final))) $"calls" =? 2)%Z &&
      negb (bool_decide (sreq_mode (sreqr_record (sres_request (sresr_record first))) = PURE)) &&
      (length (sres_proposed_candidates (sresr_record first)) =? 1)%nat
  | _ => false
  end.

Lemma two_steps_facts :
  match two_steps with Ok r => spent_and_left r | Err _ => false end = true.
Proof. vm_compute. reflexivity. Qed.

Lemma OptimResult_model_validate_id r r' : OptimResult_model_validate r = Ok r' → r' = r.
Proof. unfold OptimResult_model_validate, OptimResult_validate. intros H. by inv_result. Qed.
End ConcreteRun.

Section RunWitnesses.
Import Concrete ConcreteLease ConcreteTemplates ConcreteRun.

Lemma run_within_budget_witness :
  ∃ r first final, OptimResult_model_validate r = Ok r ∧
    ores_step_results r = [first; final] ∧
    int_sum (spent_by $"calls" <$> [first; final]) = 3%Z ∧
    amount (bs_remaining (request_budget first)) $"calls" = 5%Z.
Proof.
  pose proof two_steps_facts as H. destruct two_steps as [r|]; [|discriminate H].
  unfold spent_and_left in H. destruct (ores_step_results r) as [|first [|final [|]]] eqn:E;
    try discriminate H. inv_bool.
  apply is_ok_Ok in H4 as [r' Hr']. pose proof (OptimResult_model_validate_id _ _ Hr') as ->.
  assert (head (ores_step_results r) = Some first) as Hf by (rewrite E; reflexivity).
  assert (last (ores_step_results r) = Some final) as Hl by (rewrite E; reflexivity).
  destruct (run_within_budget r first final $"calls" Hr' Hf Hl) as (_ & _ & Hleft).
  rewrite E in Hleft. exists r, first, final. split_and!; [done..| |done]. lia.
Defined.

Lemma step_result_candidates_witness :
  ∃ self c base, OptimStepResult_model_validate self = Ok self ∧
    c ∈ sres_proposed_candidates self ∧ accepted_counts_ok self ∧
    mutates (runr_record (sres_run self)) base (candr_record c).
Proof.
  pose proof two_steps_facts as H. destruct two_steps as [r|]; [|discriminate H].
  unfold spent_and_left in H. destruct (ores_step_results r) as [|first [|final [|]]];
    try discriminate H. inv_bool.
  apply is_ok_Ok in H3 as [s Hs]. pose proof (OptimStepResult_model_validate_id _ _ Hs) as ->.
  destruct (step_result_candidates _ Hs) as (_ & _ & Hmut & _ & Hcounts).
  destruct (sres_proposed_candidates (sresr_record first)) as [|c l] eqn:E; [discriminate H|].
  destruct (Hmut H0 c (list_elem_of_here _ _)) as (base & _ & Hbase).
  exists (sresr_record first), c, base. split_and!; [done| |done|done]. rewrite E. by left.
Defined.
End RunWitnesses.
