(* ===== verification/IssuedCalls.v ===== *)
(** * IssuedCalls: the durable ledger of the tool calls of one step

    Models [src/whetstone/optim/tools/issued.py]. A tool-using step issues its
    calls through this ledger: a call is claimed by its id, the claim gets the
    next slot of the step, and the slot a terminal result, each bound once in
    the shared store, so that an adapter that is started again must replay the
    same calls in the same order. The methods are programs of [Process.v]; the
    tool call store and the executor of a call are collaborators.

    The file also fixes what the collaborators of the harness may answer and
    how stored documents are read back, which [RunStore.v] and [Harness.v]
    share. *)

From S2P Require Import Prelude Floats Identity Leasing EvalConfigs Reward Tools Admission.
From S2P Require Import Process Candidate Cost OptimContracts.

Definition ISSUED_TOOL_CALL_CLAIM_SCHEMA := $"whetstone.optim_issued_tool_call_claim".
Definition ISSUED_TOOL_CALL_SLOT_SCHEMA := $"whetstone.optim_issued_tool_call_slot".
Definition ISSUED_TOOL_CALL_TERMINAL_SCHEMA := $"whetstone.optim_issued_tool_call_terminal".
Definition ISSUED_TOOL_CALL_KEY_SCHEMA := $"whetstone.optim_issued_tool_call_key".
Definition ISSUED_TOOL_CALL_KEY_SCHEMA_VERSION : Z := 1.
Definition ISSUED_TOOL_CALL_KEY_PREFIX := $"whetstone.optim_issued_tool_call:".
Definition ISSUED_TOOL_CALL_SLOT_KEY_SCHEMA := $"whetstone.optim_issued_tool_call_slot_key".
Definition ISSUED_TOOL_CALL_SLOT_KEY_SCHEMA_VERSION : Z := 1.
Definition ISSUED_TOOL_CALL_SLOT_KEY_PREFIX := $"whetstone.optim_issued_tool_call_slot:".
Definition ISSUED_TOOL_CALL_TERMINAL_KEY_SCHEMA := $"whetstone.optim_issued_tool_call_terminal_key".
Definition ISSUED_TOOL_CALL_TERMINAL_KEY_SCHEMA_VERSION : Z := 1.
Definition ISSUED_TOOL_CALL_TERMINAL_KEY_PREFIX := $"whetstone.optim_issued_tool_call_terminal:".

(** ** Records *)

Record IssuedToolCallClaim := {
  itc_request : OptimStepRequestRef;
  itc_call : ToolCallRef;
}.
Record IssuedToolCallClaimRef := {
  itcr_record : IssuedToolCallClaim;
  itcr_record_ref : TypedRef;
}.
Record IssuedToolCallSlot := {
  its_request : OptimStepRequestRef;
  its_ordinal : Z;
  its_claim : IssuedToolCallClaimRef;
}.
Record IssuedToolCallTerminal := {
  itt_claim : IssuedToolCallClaimRef;
  itt_result : ToolResultRef;
}.

Definition Claim_dump (c : IssuedToolCallClaim) : pyval :=
  PDict [($"request", OptimStepRequestRef_dump (itc_request c));
         ($"call", ToolCallRef_dump (itc_call c))].
Definition ClaimRef_dump (c : IssuedToolCallClaimRef) : pyval :=
  PDict [($"record", Claim_dump (itcr_record c)); ($"record_ref", TypedRef_dump (itcr_record_ref c))].
Definition Slot_dump (s : IssuedToolCallSlot) : pyval :=
  PDict [($"request", OptimStepRequestRef_dump (its_request s)); ($"ordinal", PInt (its_ordinal s));
         ($"claim", ClaimRef_dump (its_claim s))].
Definition Terminal_dump (t : IssuedToolCallTerminal) : pyval :=
  PDict [($"claim", ClaimRef_dump (itt_claim t)); ($"result", ToolResultRef_dump (itt_result t))].

(** Reading a stored document into the fields of a record is pydantic's; the
    record's validators are run on what it reads. *)
Class OptimRecords := {
  decode_run : pyval → result OptimRun;
  decode_step_result : pyval → result OptimStepResult;
  decode_checkpoint : pyval → result AdapterCheckpoint;
  decode_resolution : pyval → result IntentResolution;
  decode_result : pyval → result OptimResult;
  decode_claim : pyval → result IssuedToolCallClaim;
  decode_slot : pyval → result IssuedToolCallSlot;
  decode_terminal : pyval → result IssuedToolCallTerminal;
  decode_row : pyval → result EvalOutputRowUsage;
}.

(** What pydantic reads back from a dump dumps to the same document. *)
Class OptimRecordsLaws `{!OptimRecords} : Prop := {
  decode_step_result_dump r r' :
    decode_step_result (OptimStepResult_record_content r) = Ok r' →
    OptimStepResult_record_content r' = OptimStepResult_record_content r;
}.

(** ** The collaborators' answers

    What a call of a collaborator may return; an answer of another kind than
    the call expects is no answer, and the thread makes no further call. *)
Inductive Answer :=
| AnAdapter (key : pystr) (mode : StepMode) (required_replay_policy : ReplayPolicy)
| AnOutput (output : AdapterOutput)
| AnIssue (call : ToolCall) (handle : nat)
| AnAcquisition (acquisition : EffectAcquireResult unit)
| AnResolution (resolution : IntentResolution)
| AnHandle (config : ToolConfig) (binding : ToolCapacityBinding)
| AnEntry (entry : option ToolCallStoreEntry)
| AnToolResult (result : ToolResult)
| AnRef (ref : TypedRef)
| AnPolicy (policy : ReplayPolicy).

Section Ledger.
Context `{DSer : !DrSerialize, DSto : !DrStore, DLease : !DrLease, Uni : !UnicodeIdentifiers}.
Context `{Recs : !OptimRecords} {Job Outcome : Type}.
Abbreviation program := (prog Job Outcome Answer).

Definition ask_adapter (callee : string) : program (pystr * StepMode * ReplayPolicy) :=
  a ← compute callee; match a with AnAdapter k m p => Ret (k, m, p) | _ => Spin end.
Definition ask_acquisition (callee : string) : program (EffectAcquireResult unit) :=
  a ← compute callee; match a with AnAcquisition r => Ret r | _ => Spin end.
Definition ask_resolution (callee : string) : program IntentResolution :=
  a ← compute callee; match a with AnResolution r => Ret r | _ => Spin end.
Definition ask_output (callee : string) : program AdapterOutput :=
  a ← compute callee; match a with AnOutput o => Ret o | _ => Spin end.
Definition ask_handle (callee : string) : program (ToolConfig * ToolCapacityBinding) :=
  a ← compute callee; match a with AnHandle c b => Ret (c, b) | _ => Spin end.
Definition ask_entry (callee : string) : program (option ToolCallStoreEntry) :=
  a ← compute callee; match a with AnEntry e => Ret e | _ => Spin end.
Definition ask_tool_result (callee : string) : program ToolResult :=
  a ← compute callee; match a with AnToolResult r => Ret r | _ => Spin end.
Definition ask_ref (callee : string) : program TypedRef :=
  a ← compute callee; match a with AnRef r => Ret r | _ => Spin end.

Definition ask_policy (callee : string) : program ReplayPolicy :=
  a ← compute callee; match a with AnPolicy p => Ret p | _ => Spin end.

(** [try: p ... except BaseException: ...; raise] hands the exception on as a
    value. *)
Definition attempt {A} (p : program A) : program (result A) :=
  catch (a ← p; Ret (Ok a)) (λ e, Ret (Err e)).

(** ** Validators and keys *)

Definition ClaimRef_validate (self : IssuedToolCallClaimRef) : result IssuedToolCallClaimRef :=
  expected ← typed_ref_for_record ISSUED_TOOL_CALL_CLAIM_SCHEMA (Claim_dump (itcr_record self));
  require (bool_decide (itcr_record_ref self = expected)) ValueError
    "Issued Tool Call claim ref must address the exact claim" ;;
  Ok self.

Definition Slot_validate (self : IssuedToolCallSlot) : result IssuedToolCallSlot :=
  require (same OptimStepRequestRef_dump (itc_request (itcr_record (its_claim self)))
             (its_request self)) ValueError
    "Issued Tool Call slot and claim must cite the exact request" ;;
  Ok self.

Definition Terminal_validate (self : IssuedToolCallTerminal) : result IssuedToolCallTerminal :=
  require (same ToolCallRef_dump (res_call (resr_record (itt_result self)))
             (itc_call (itcr_record (itt_claim self)))) ValueError
    "Issued Tool Call terminal belongs to another exact call" ;;
  Ok self.

Definition Claim_model_validate (self : IssuedToolCallClaim) : result IssuedToolCallClaim :=
  OptimStepRequestRef_model_validate (itc_request self) ;;
  ToolCallRef_model_validate (itc_call self) ;; Ok self.
Definition ClaimRef_model_validate (self : IssuedToolCallClaimRef) : result IssuedToolCallClaimRef :=
  Claim_model_validate (itcr_record self) ;; ClaimRef_validate self.
Definition Slot_model_validate (self : IssuedToolCallSlot) : result IssuedToolCallSlot :=
  OptimStepRequestRef_model_validate (its_request self) ;;
  ClaimRef_model_validate (its_claim self) ;; Slot_validate self.
Definition ToolResult_model_validate (self : ToolResult) : result ToolResult :=
  ToolCallRef_model_validate (res_call self) ;;
  option_validate RewardRef_model_validate (res_reward self) ;;
  ToolResult_validate self.
Definition Terminal_model_validate (self : IssuedToolCallTerminal) : result IssuedToolCallTerminal :=
  ClaimRef_model_validate (itt_claim self) ;;
  ToolResult_model_validate (resr_record (itt_result self)) ;;
  ToolResultRef_validate (itt_result self) ;; Terminal_validate self.

Definition issued_tool_call_binding_key (request : OptimStepRequestRef) (call_id : pystr) :
    result pystr :=
  compute_prefixed_identity_key ISSUED_TOOL_CALL_KEY_SCHEMA ISSUED_TOOL_CALL_KEY_SCHEMA_VERSION
    ISSUED_TOOL_CALL_KEY_PREFIX
    (PDict [($"step_request_ref", TypedRef_dump (sreqr_record_ref request));
            ($"call_id", PStr call_id)]).

Definition issued_tool_call_slot_binding_key (request : OptimStepRequestRef) (ordinal : Z) :
    result pystr :=
  compute_prefixed_identity_key ISSUED_TOOL_CALL_SLOT_KEY_SCHEMA
    ISSUED_TOOL_CALL_SLOT_KEY_SCHEMA_VERSION ISSUED_TOOL_CALL_SLOT_KEY_PREFIX
    (PDict [($"step_request_ref", TypedRef_dump (sreqr_record_ref request));
            ($"ordinal", PInt ordinal)]).

Definition issued_tool_call_terminal_binding_key (claim : IssuedToolCallClaimRef) : result pystr :=
  compute_prefixed_identity_key ISSUED_TOOL_CALL_TERMINAL_KEY_SCHEMA
    ISSUED_TOOL_CALL_TERMINAL_KEY_SCHEMA_VERSION ISSUED_TOOL_CALL_TERMINAL_KEY_PREFIX
    (PDict [($"issued_tool_call_claim_ref", TypedRef_dump (itcr_record_ref claim))]).

(** ** Reading and writing the store *)

Definition put_ref (schema : pystr) (content : pyval) : program TypedRef :=
  reference ← put schema content; run_result (typed_ref reference).

Definition put_exact (schema : pystr) (content : pyval) : program TypedRef :=
  expected ← run_result (typed_ref_for_record schema content);
  persisted ← put_ref schema content;
  check (bool_decide (persisted = expected)) ValueError "persisted ref failed validation" ;;
  Ret persisted.

Definition resolve_ref (key : pystr) : program (option TypedRef) :=
  reference ← resolve key;
  match reference with
  | None => Ret None
  | Some reference => r ← run_result (typed_ref reference); Ret (Some r)
  end.

Definition claim_reference (request : OptimStepRequestRef) (call : ToolCall) :
    program IssuedToolCallClaimRef :=
  call_ref ← run_result (tool_call_reference call);
  let record := {| itc_request := request; itc_call := call_ref |} in
  ref ← run_result (typed_ref_for_record ISSUED_TOOL_CALL_CLAIM_SCHEMA (Claim_dump record));
  expected ← run_result (ClaimRef_validate {| itcr_record := record; itcr_record_ref := ref |});
  persisted ← put_exact ISSUED_TOOL_CALL_CLAIM_SCHEMA (Claim_dump record);
  check (bool_decide (persisted = itcr_record_ref expected)) ValueError
    "persisted Issued Tool Call claim ref failed validation" ;;
  Ret expected.

Definition load_claim (request : OptimStepRequestRef) (ref : TypedRef) :
    program IssuedToolCallClaimRef :=
  check (bool_decide (tref_schema_name ref = ISSUED_TOOL_CALL_CLAIM_SCHEMA)) ValueError
    "Issued Tool Call claim ref has the wrong schema" ;;
  content ← get (TypedRef_reference ref);
  record ← run_result (decode_claim content ≫= Claim_model_validate);
  exact ← run_result (ClaimRef_validate {| itcr_record := record; itcr_record_ref := ref |});
  check (same OptimStepRequestRef_dump (itc_request (itcr_record exact)) request) ValueError
    "Issued Tool Call claim belongs to another exact request" ;;
  Ret exact.

Definition load_slot (request : OptimStepRequestRef) (ref : TypedRef) (ordinal : Z) :
    program IssuedToolCallSlot :=
  check (bool_decide (tref_schema_name ref = ISSUED_TOOL_CALL_SLOT_SCHEMA)) ValueError
    "Issued Tool Call slot ref has the wrong schema" ;;
  content ← get (TypedRef_reference ref);
  slot ← run_result (decode_slot content ≫= Slot_model_validate);
  exact ← run_result (typed_ref_for_record ISSUED_TOOL_CALL_SLOT_SCHEMA content);
  check (bool_decide (exact = ref)) ValueError "persisted Issued Tool Call slot ref is not exact" ;;
  check (same OptimStepRequestRef_dump (its_request slot) request &&
         (its_ordinal slot =? ordinal)%Z) ValueError
    "Issued Tool Call slot belongs to another request or ordinal" ;;
  claim ← load_claim request (itcr_record_ref (its_claim slot));
  check (same ClaimRef_dump claim (its_claim slot)) ValueError
    "Issued Tool Call slot does not contain its exact durable claim" ;;
  Ret slot.

Definition claim_call_id (claim : IssuedToolCallClaimRef) : pystr :=
  tcall_call_id (tcallr_record (itc_call (itcr_record claim))).

Definition validate_or_reconcile_claim_binding (request : OptimStepRequestRef)
    (claim : IssuedToolCallClaimRef) : program unit :=
  key ← run_result (issued_tool_call_binding_key request (claim_call_id claim));
  bound ← resolve_ref key;
  bound ← match bound with
          | Some bound => Ret (Some bound)
          | None => try_bind key (TypedRef_reference (itcr_record_ref claim)) ;; resolve_ref key
          end;
  match bound with
  | None => throw RuntimeError "Issued Tool Call claim binding disappeared"
  | Some bound =>
      exact ← load_claim request bound;
      check (same ClaimRef_dump exact claim) IssuedToolCallConflictError
        "Tool Call ID is bound to another exact Tool Call"
  end.

(** ** Slots *)

(** [enumerate(refs[:first_gap])]: loading the slots of the contiguous prefix. *)
Fixpoint load_slots (request : OptimStepRequestRef) (ordinal : Z) (refs : list (option TypedRef))
    (seen_claims : list TypedRef) (acc : list IssuedToolCallSlot) :
    program (list IssuedToolCallSlot) :=
  match refs with
  | [] => Ret acc
  | None :: _ => throw AssertionError "contiguous slot prefix contains a gap"
  | Some ref :: refs =>
      slot ← load_slot request ref ordinal;
      let claim_ref := itcr_record_ref (its_claim slot) in
      check (negb (bool_decide (claim_ref ∈ seen_claims))) ValueError
        "Issued Tool Call claim occupies multiple durable slots" ;;
      load_slots request (ordinal + 1) refs (claim_ref :: seen_claims) (acc ++ [slot])
  end.

(** The index of the first [None], or the length. *)
Fixpoint first_gap (refs : list (option TypedRef)) : nat :=
  match refs with Some _ :: refs => S (first_gap refs) | _ => O end.

Definition slots (request : OptimStepRequestRef) (limit : Z) : program (list IssuedToolCallSlot) :=
  overflow_key ← run_result (issued_tool_call_slot_binding_key request limit);
  overflow ← resolve_ref overflow_key;
  check (negb (is_some overflow)) ValueError
    "Issued Tool Call slot ordinal is outside the bounded budget" ;;
  refs ← mapM (λ ordinal : nat,
    key ← run_result (issued_tool_call_slot_binding_key request (Z.of_nat ordinal));
    resolve_ref key) (seq 0 (Z.to_nat limit));
  let gap := first_gap refs in
  check (negb (existsb is_some (drop (S gap) refs))) ValueError
    "Issued Tool Call slots must be contiguous from ordinal zero" ;;
  loaded ← load_slots request 0 (take gap refs) [] [];
  mapM (λ slot, validate_or_reconcile_claim_binding request (its_claim slot)) loaded ;;
  Ret loaded.

(** [_reserve] starts again when another process took the slot, at most once
    per slot of the budget. *)
Fixpoint reserve (turns : nat) (request : OptimStepRequestRef) (limit : Z)
    (claim : IssuedToolCallClaimRef) : program IssuedToolCallSlot :=
  match turns with
  | O => Spin
  | S turns =>
      current ← slots request limit;
      let matching :=
        filter (λ slot, itcr_record_ref (its_claim slot) = itcr_record_ref claim) current in
      match matching with
      | _ :: _ :: _ => throw ValueError "Issued Tool Call claim occupies multiple durable slots"
      | [slot] => Ret slot
      | [] =>
          let ordinal := Z.of_nat (length current) in
          check (negb (limit <=? ordinal)%Z) ValueError
            "Tool Call budget exhausted before dispatch" ;;
          slot ← run_result (Slot_validate
            {| its_request := request; its_ordinal := ordinal; its_claim := claim |});
          slot_ref ← put_exact ISSUED_TOOL_CALL_SLOT_SCHEMA (Slot_dump slot);
          key ← run_result (issued_tool_call_slot_binding_key request ordinal);
          status ← try_bind key (TypedRef_reference slot_ref);
          match status with
          | None => reserve turns request limit claim
          | Some _ =>
              bound ← resolve_ref key;
              check (bool_decide (bound = Some slot_ref)) RuntimeError
                "Issued Tool Call slot binding disappeared" ;;
              Ret slot
          end
      end
  end.

Definition claim_and_reserve (request : OptimStepRequestRef) (limit : Z) (call : ToolCall) :
    program IssuedToolCallClaimRef :=
  let turns := S (Z.to_nat limit) in
  requested ← claim_reference request call;
  key ← run_result (issued_tool_call_binding_key request (tcall_call_id call));
  existing_ref ← resolve_ref key;
  match existing_ref with
  | Some existing_ref =>
      existing ← load_claim request existing_ref;
      check (same ClaimRef_dump existing requested) IssuedToolCallConflictError
        "Tool Call ID is bound to another exact Tool Call" ;;
      reserve turns request limit existing ;;
      Ret existing
  | None =>
      reserve turns request limit requested ;;
      validate_or_reconcile_claim_binding request requested ;;
      Ret requested
  end.

(** ** Terminals *)

Definition load_terminal (ref : TypedRef) (claim : IssuedToolCallClaimRef) :
    program IssuedToolCallTerminal :=
  check (bool_decide (tref_schema_name ref = ISSUED_TOOL_CALL_TERMINAL_SCHEMA)) ValueError
    "Issued Tool Call terminal ref has the wrong schema" ;;
  content ← get (TypedRef_reference ref);
  terminal ← run_result (decode_terminal content ≫= Terminal_model_validate);
  exact ← run_result (typed_ref_for_record ISSUED_TOOL_CALL_TERMINAL_SCHEMA content);
  check (bool_decide (exact = ref)) ValueError
    "persisted Issued Tool Call terminal ref is not exact" ;;
  check (same ClaimRef_dump (itt_claim terminal) claim) ValueError
    "Issued Tool Call terminal belongs to another exact claim" ;;
  Ret terminal.

Definition authoritative_terminal (terminal : IssuedToolCallTerminal) :
    program (ToolResult * ToolCallStoreEntry) :=
  entry ← ask_entry "ToolCallStore.get";
  match entry with
  | None => throw ValueError "Issued Tool Call terminal has no Tool Call Store entry"
  | Some entry =>
      result ← ask_tool_result "ToolCallStore.load_terminal_result";
      reference ← run_result (tool_result_reference result);
      check (same ToolResultRef_dump reference (itt_result terminal)) ValueError
        "Issued Tool Call ledger and Tool Call Store terminal disagree" ;;
      Ret (result, entry)
  end.

Definition terminal_for_claim (claim : IssuedToolCallClaimRef) :
    program (option IssuedToolCallTerminal) :=
  key ← run_result (issued_tool_call_terminal_binding_key claim);
  ref ← resolve_ref key;
  match ref with
  | None => Ret None
  | Some ref => terminal ← load_terminal ref claim; Ret (Some terminal)
  end.

Definition record_terminal (claim : IssuedToolCallClaimRef) (result : ToolResult) :
    program ToolResult :=
  validated ← run_result (ToolResult_model_validate result);
  check (same ToolCallRef_dump (res_call validated) (itc_call (itcr_record claim))) ValueError
    "Tool executor returned a result for another exact Tool Call" ;;
  result_ref ← run_result (tool_result_reference validated);
  persisted ← ask_ref "ToolCallStore.persist_result";
  check (bool_decide (persisted = resr_record_ref result_ref)) ValueError
    "persisted Tool Result ref failed validation" ;;
  entry ← ask_entry "ToolCallStore.get";
  check (is_some entry) ValueError "Tool Result has no Tool Call Store entry" ;;
  authoritative ← ask_tool_result "ToolCallStore.load_terminal_result";
  check (same ToolResult_record_content authoritative validated) ValueError
    "Tool executor result differs from its authoritative terminal" ;;
  terminal ← run_result (Terminal_validate {| itt_claim := claim; itt_result := result_ref |});
  terminal_ref ← put_exact ISSUED_TOOL_CALL_TERMINAL_SCHEMA (Terminal_dump terminal);
  key ← run_result (issued_tool_call_terminal_binding_key claim);
  status ← try_bind key (TypedRef_reference terminal_ref);
  match status with
  | Some _ => Ret tt
  | None =>
      existing_ref ← resolve_ref key;
      match existing_ref with
      | None => throw RuntimeError "Issued Tool Call terminal binding disappeared"
      | Some existing_ref =>
          existing ← load_terminal existing_ref claim;
          check (same Terminal_dump existing terminal) ValueError
            "Issued Tool Call already has another exact terminal"
      end
  end ;;
  bound ← resolve_ref key;
  match bound with
  | None => throw RuntimeError "Issued Tool Call terminal binding disappeared"
  | Some bound =>
      persisted ← load_terminal bound claim;
      check (same Terminal_dump persisted terminal) ValueError
        "Issued Tool Call already has another exact terminal" ;;
      Ret authoritative
  end.

(** ** Issuing calls *)

(** The ledger of one attempt of a step: what it found durable when it started
    and what the adapter issued so far. *)
Record IssuedToolCallLedger := {
  il_request : OptimStepRequestRef;
  il_limit : Z;
  il_active_call_ids : list pystr;
  il_seen_call_ids : list pystr;
  il_replay_prefix : list IssuedToolCallSlot;
  il_replay_ordinal : nat;
}.

Definition with_calls (self : IssuedToolCallLedger) (active seen : list pystr) (ordinal : nat) :
    IssuedToolCallLedger :=
  {| il_request := il_request self; il_limit := il_limit self; il_active_call_ids := active;
     il_seen_call_ids := seen; il_replay_prefix := il_replay_prefix self;
     il_replay_ordinal := ordinal |}.

(** [_active_call_ids.remove(call_id)]. *)
Definition deactivate (self : IssuedToolCallLedger) (call_id : pystr) : IssuedToolCallLedger :=
  with_calls self (filter (λ x, x ≠ call_id) (il_active_call_ids self)) (il_seen_call_ids self)
    (il_replay_ordinal self).

(** [_IssuedToolCallLedger.__init__]. *)
Definition IssuedToolCallLedger_init (request : OptimStepRequestRef) : program IssuedToolCallLedger :=
  let raw_limit := default (PInt 0)
    (dict_get (bs_remaining (sreq_budget (sreqr_record request))) $"tool_calls") in
  match raw_limit with
  | PInt limit =>
      replay_prefix ← slots request limit;
      Ret {| il_request := request; il_limit := limit; il_active_call_ids := [];
             il_seen_call_ids := []; il_replay_prefix := replay_prefix; il_replay_ordinal := 0 |}
  | _ => throw TypeError "validated tool_calls budget is not an integer"
  end.

(** The claim of a call: the next one of the durable prefix, which the call
    must repeat, or a new one; and the terminal it already has. *)
Definition issue_claim (self : IssuedToolCallLedger) (exact_call : ToolCall) :
    program (IssuedToolCallClaimRef * nat) :=
  match il_replay_prefix self !! il_replay_ordinal self with
  | Some expected_slot =>
      let expected := itc_call (itcr_record (its_claim expected_slot)) in
      call_ref ← run_result (tool_call_reference exact_call);
      if same ToolCallRef_dump expected call_ref then
        validate_or_reconcile_claim_binding (il_request self) (its_claim expected_slot) ;;
        Ret (its_claim expected_slot, S (il_replay_ordinal self))
      else if bool_decide (tcall_call_id (tcallr_record expected) = tcall_call_id exact_call) then
        throw IssuedToolCallConflictError "Tool Call ID is bound to another exact Tool Call"
      else
        throw ValueError "recovered adapter must replay the exact durable Tool Call prefix"
  | None =>
      claim ← claim_and_reserve (il_request self) (il_limit self) exact_call;
      Ret (claim, il_replay_ordinal self)
  end.

(** The result of a claimed call: from the ledger, from the tool call store, or
    from the executor. *)
Definition issue_result (claim : IssuedToolCallClaimRef) (existing : option IssuedToolCallTerminal) :
    program ToolResult :=
  match existing with
  | Some existing => '(result, _) ← authoritative_terminal existing; Ret result
  | None =>
      entry ← ask_entry "ToolCallStore.get";
      match entry with
      | Some entry =>
          if bool_decide (sce_state entry ∈ [REFUSED; Admission.COMPLETED]) then
            terminal_result ← ask_tool_result "ToolCallStore.load_terminal_result";
            record_terminal claim terminal_result
          else
            result ← ask_tool_result "RuntimeToolHandle";
            record_terminal claim result
      | None =>
          result ← ask_tool_result "RuntimeToolHandle";
          record_terminal claim result
      end
  end.

(** [issue]: the ledger after it, and the result or the exception the adapter
    gets. *)
Definition issue (self : IssuedToolCallLedger) (call : ToolCall) :
    program (IssuedToolCallLedger * result ToolResult) :=
  match ToolCall_model_validate call with
  | Err e => Ret (self, Err e)
  | Ok exact_call =>
      let call_id := tcall_call_id exact_call in
      if bool_decide (call_id ∈ il_active_call_ids self) || bool_decide (call_id ∈ il_seen_call_ids self)
      then Ret (self, raise ValueError "Tool Call IDs must be unique within a Step attempt")
      else
        let self := with_calls self (call_id :: il_active_call_ids self)
                      (call_id :: il_seen_call_ids self) (il_replay_ordinal self) in
        claimed ← attempt (issue_claim self exact_call);
        match claimed with
        | Err e => Ret (deactivate self call_id, Err e)
        | Ok (claim, replay_ordinal) =>
            let self := with_calls self (il_active_call_ids self) (il_seen_call_ids self)
                          replay_ordinal in
            existing ← attempt (terminal_for_claim claim);
            match existing with
            | Err e => Ret (deactivate self call_id, Err e)
            | Ok existing =>
                result ← attempt (issue_result claim existing);
                Ret (deactivate self call_id, result)
            end
        end
  end.

Definition validate_replay_complete (self : IssuedToolCallLedger) : result unit :=
  require (il_replay_ordinal self =? length (il_replay_prefix self))%nat ValueError
    "recovered adapter skipped its durable Tool Call replay prefix before checkpoint".

(** The loop of [evidence] over the slots. *)
Fixpoint evidence_loop (current : list IssuedToolCallSlot) (seen_claims : list TypedRef)
    (acc : list ToolEvidence) : program (list ToolEvidence) :=
  match current with
  | [] => Ret acc
  | slot :: current =>
      let claim := its_claim slot in
      check (negb (bool_decide (itcr_record_ref claim ∈ seen_claims))) ValueError
        "Issued Tool Call claim occupies multiple durable slots" ;;
      terminal ← terminal_for_claim claim;
      match terminal with
      | None => throw ValueError "Issued Tool Call has no durable terminal result"
      | Some terminal =>
          '(_, entry) ← authoritative_terminal terminal;
          item ← run_result (ToolEvidence_validate
            {| te_result := itt_result terminal; te_store_entry := entry |});
          evidence_loop current (itcr_record_ref claim :: seen_claims) (acc ++ [item])
      end
  end.

Definition evidence (self : IssuedToolCallLedger) : program (list ToolEvidence) :=
  current ← slots (il_request self) (il_limit self);
  evidence_loop current [] [].

Definition budget_delta (self : IssuedToolCallLedger) (adapter_delta : Budget) (issued_count : nat) :
    result Budget :=
  let consumed := dict_pop adapter_delta $"tool_calls" in
  let remaining := bs_remaining (sreq_budget (sreqr_record (il_request self))) in
  BudgetDelta_validate
    (if bool_decide ($"tool_calls" ∈ remaining.*1)
     then dict_set consumed $"tool_calls" (PInt (Z.of_nat issued_count)) else consumed).
End Ledger.
