(* ===== verification/RunCost.v ===== *)
(** * RunCost: the spend of a run, read off its durable evidence

    Models [_evidence_refs], [_tool_failure_evidence_ref],
    [_task_model_observations] and [aggregate_run_cost] of
    [src/whetstone/optim/cost_aggregation.py] over the step results of
    [OptimContracts.v]. Reading the output rows behind an evidence reference is
    a program of [Process.v]; which references and which proposer calls are
    counted is a function of the step results. *)

From S2P Require Import Prelude Floats Identity Leasing Reward Tools Process Claims.
From S2P Require Import Candidate Cost OptimContracts IssuedCalls.

Definition TOOL_EVAL_FAILURE_EVIDENCE_REF_KEY := $"evidence_ref".

(** [_COSTED_EVIDENCE_SCHEMAS]. *)
Definition costed (ref : TypedRef) : bool :=
  bool_decide (tref_schema_name ref ∈ [EVAL_EVIDENCE_SCHEMA; EVAL_FAILURE_SCHEMA]).

(** [_tool_failure_evidence_ref]. *)
Definition tool_failure_evidence_ref (record : ToolResult) : option TypedRef :=
  failure ← res_terminal_failure record;
  raw ← match dict_get (tf_details failure) TOOL_EVAL_FAILURE_EVIDENCE_REF_KEY with
        | Some (PDict kvs) | Some (PFrozen kvs) => Some kvs
        | _ => None
        end;
  ref ← match TypedRef_model_validate (PDict raw) with Ok ref => Some ref | Err _ => None end;
  if bool_decide (tref_schema_name ref = EVAL_FAILURE_SCHEMA) then Some ref else None.

(** [_evidence_refs]: what one step paid for, in order. *)
Definition evidence_refs (result : OptimStepResult) : list TypedRef :=
  filter (λ ref, costed ref = true) (omap ir_eval_result_ref (sres_resolved_intents result)) ++
  filter (λ ref, costed ref = true) (omap se_eval_result_ref (sres_search_evidence result)) ++
  (sres_tool_evidence result ≫= λ evidence,
     let record := resr_record (te_result evidence) in
     filter (λ ref, costed ref = true) (res_evaluation_evidence_refs record) ++
     match tool_failure_evidence_ref record with Some ref => [ref] | None => [] end).

(** The references and the proposer calls counted so far. *)
Record Counted := {
  ct_seen : list TypedRef;
  ct_seen_proposer_calls : list pystr;
  ct_distinct_refs : list TypedRef;
  ct_proposer : list UsageObservation;
}.

Definition count_ref (c : Counted) (ref : TypedRef) : Counted :=
  if bool_decide (ref ∈ ct_seen c) then c
  else {| ct_seen := ref :: ct_seen c; ct_seen_proposer_calls := ct_seen_proposer_calls c;
          ct_distinct_refs := ct_distinct_refs c ++ [ref]; ct_proposer := ct_proposer c |}.

Definition count_usage (c : Counted) (usage : ProposerCallUsage) : Counted :=
  let identified := negb (bool_decide (pcu_call_id usage = [])) in
  if identified && bool_decide (pcu_call_id usage ∈ ct_seen_proposer_calls c) then c
  else {| ct_seen := ct_seen c;
          ct_seen_proposer_calls :=
            if identified then pcu_call_id usage :: ct_seen_proposer_calls c
            else ct_seen_proposer_calls c;
          ct_distinct_refs := ct_distinct_refs c;
          ct_proposer := ct_proposer c ++ [ProposerCallUsage_observation usage] |}.

Definition count_step (c : Counted) (result : OptimStepResult) : Counted :=
  foldl count_usage (foldl count_ref c (evidence_refs result)) (sres_proposer_usage result).

Definition nothing_counted : Counted :=
  {| ct_seen := []; ct_seen_proposer_calls := []; ct_distinct_refs := []; ct_proposer := [] |}.

Definition counted (step_results : list OptimStepResult) : Counted :=
  foldl count_step nothing_counted step_results.

Section RunCost.
Context `{Recs : !OptimRecords} {Job Outcome : Type}.
Abbreviation program := (prog Job Outcome Answer).

(** [evidence.get]: only a mapping has it. *)
Definition mapping_get (value : pyval) (key : pystr) : result (option pyval) :=
  match value with
  | PDict kvs => Ok (dict_get kvs key)
  | _ => raise AttributeError "object has no attribute 'get'"
  end.

(** [record.get("outputs") if isinstance(record, dict) else None], when a list. *)
Definition outputs_rows (record : pyval) : option (list pyval) :=
  match record with
  | PDict kvs => match dict_get kvs $"outputs" with Some (PList rows) => Some rows | _ => None end
  | _ => None
  end.

(** Only the usage fields of the rows are read. *)
Definition rows_usage (items : option (list pyval)) : result (list UsageObservation) :=
  match items with
  | Some items =>
      rows ← mapM decode_row items;
      Ok (omap row_observation (rows : list EvalOutputRowUsage))
  | None => Ok []
  end.

Definition read_rows (outputs_reference : pyval) : program (list UsageObservation) :=
  outputs_ref ← run_result (TypedRef_model_validate outputs_reference);
  record ← get (TypedRef_reference outputs_ref);
  run_result (rows_usage (outputs_rows record)).

(** The rows behind one evidence reference: the body of the loop of
    [_task_model_observations]. *)
Definition row_observations (ref : TypedRef) : program (list UsageObservation) :=
  evidence ← get (TypedRef_reference ref);
  outputs_reference ← run_result (mapping_get evidence $"outputs_ref");
  match outputs_reference with
  | Some (PDict kvs) => read_rows (PDict kvs)
  | _ => Ret []
  end.

Definition task_model_observations (refs : list TypedRef) : program (list UsageObservation) :=
  observations ← mapM row_observations refs;
  Ret (concat observations).

Definition aggregate_run_cost (step_results : list OptimStepResult) : program RunCostReport :=
  let c := counted step_results in
  observations ← task_model_observations (ct_distinct_refs c);
  task_model ← run_result (aggregate_role_cost observations);
  proposer ← run_result (aggregate_role_cost (ct_proposer c));
  Ret {| rcr_schema_version := COST_REPORT_SCHEMA_VERSION; rcr_task_model := task_model;
         rcr_proposer := proposer |}.
End RunCost.

(** ** What is counted

    [accounts c refs usages]: exactly the references [refs] are counted, each
    once; of the calls [usages] the unidentified ones all count, and of those
    of one identity the first. *)
Definition identified (usage : ProposerCallUsage) : Prop := pcu_call_id usage ≠ [].

Definition kept_usages (kept usages : list ProposerCallUsage) : Prop :=
  kept `sublist_of` usages ∧
  filter (λ u, ¬ identified u) kept = filter (λ u, ¬ identified u) usages ∧
  NoDup (pcu_call_id <$> filter identified kept) ∧
  ∀ u, u ∈ usages → pcu_call_id u ∈ pcu_call_id <$> kept.

Definition accounts (c : Counted) (refs : list TypedRef) (usages : list ProposerCallUsage) : Prop :=
  NoDup (ct_distinct_refs c) ∧ (∀ ref, ref ∈ ct_distinct_refs c ↔ ref ∈ refs) ∧
  ∃ kept, ct_proposer c = ProposerCallUsage_observation <$> kept ∧ kept_usages kept usages.

(** The two sets of the loop say what the counted lists hold. *)
Definition consistent (c : Counted) (refs : list TypedRef) (usages : list ProposerCallUsage) : Prop :=
  accounts c refs usages ∧ (∀ ref, ref ∈ ct_seen c ↔ ref ∈ refs) ∧
  (∀ id, id ∈ ct_seen_proposer_calls c ↔ id ≠ [] ∧ id ∈ pcu_call_id <$> usages).

Lemma count_ref_consistent c refs usages ref :
  consistent c refs usages → consistent (count_ref c ref) (refs ++ [ref]) usages.
Proof.
  intros ((Hnd & Hd & Hk) & Hs & Hc). unfold consistent, accounts, count_ref. case_bool_decide as Hin.
  - split_and!; [done| |done| |done]; intros x; rewrite elem_of_app, list_elem_of_singleton;
      [rewrite Hd|rewrite Hs]; (split; [by left|intros [?| ->]; [done|by apply Hs]]).
  - split_and!; simpl; [|intros x; rewrite !elem_of_app, Hd; tauto|done| |done].
    + apply NoDup_app. split_and!; [done| |apply NoDup_singleton].
      intros x Hx ->%list_elem_of_singleton. apply Hin, Hs. by apply Hd.
    + intros x. rewrite elem_of_cons, elem_of_app, list_elem_of_singleton, Hs. tauto.
Qed.

Lemma kept_usages_skip kept usages u :
  identified u → pcu_call_id u ∈ pcu_call_id <$> usages →
  kept_usages kept usages → kept_usages kept (usages ++ [u]).
Proof.
  intros Hid Hin (Hsub & Hun & Hnd & Hcov). split_and!; [by apply sublist_inserts_r| |done|].
  - rewrite Hun, filter_app, filter_cons_False, filter_nil, app_nil_r; [done|naive_solver].
  - intros x. rewrite elem_of_app, list_elem_of_singleton. intros [?| ->]; [auto|].
    apply list_elem_of_fmap in Hin as (v & -> & Hv). auto.
Qed.

Lemma kept_usages_count kept usages u :
  ¬ (identified u ∧ pcu_call_id u ∈ pcu_call_id <$> usages) →
  kept_usages kept usages → kept_usages (kept ++ [u]) (usages ++ [u]).
Proof.
  intros Hnew (Hsub & Hun & Hnd & Hcov). split_and!.
  - by apply sublist_app.
  - by rewrite !filter_app, Hun.
  - rewrite filter_app, fmap_app, NoDup_app. split_and!; [done| |].
    + intros id (v & -> & [_ Hv]%list_elem_of_filter)%list_elem_of_fmap Hu. apply Hnew.
      destruct (decide (identified u)) as [Hid|Hid].
      * rewrite filter_cons_True in Hu by done. csimpl in Hu.
        apply list_elem_of_singleton in Hu. split; [done|]. rewrite <-Hu.
        apply list_elem_of_fmap_2. by eapply elem_of_sublist.
      * rewrite filter_cons_False in Hu by done. by apply elem_of_nil in Hu.
    + rewrite filter_cons. case_decide; csimpl; [apply NoDup_singleton|constructor].
  - intros x. rewrite elem_of_app, fmap_app, elem_of_app, list_elem_of_singleton.
    intros [?| ->]; [left; auto|right; csimpl; by left].
Qed.

Lemma count_usage_consistent c refs usages u :
  consistent c refs usages → consistent (count_usage c u) refs (usages ++ [u]).
Proof.
  intros ((Hnd & Hd & kept & Hk & Hkept) & Hs & Hc). unfold consistent, accounts, count_usage.
  assert (∀ b, bool_decide (pcu_call_id u = []) = b →
    if b then ¬ identified u else identified u) as Hid by (intros [] H; inv_bool; [by intros []|done]).
  destruct (bool_decide (pcu_call_id u = [])) eqn:E; specialize (Hid _ eq_refl); simpl.
  - split_and!; simpl; [done..| |done|].
    + exists (kept ++ [u]). split; [by rewrite fmap_app, Hk|]. apply kept_usages_count; [by intros [? _]|done].
    + intros id. rewrite Hc, fmap_app, elem_of_app. csimpl. rewrite list_elem_of_singleton.
      inv_bool. rewrite E. naive_solver.
  - clear E. case_bool_decide as Hin; simpl.
    + apply Hc in Hin as [_ Hin]. split_and!; [done..| |done|].
      * exists kept. split; [done|]. by apply kept_usages_skip.
      * intros id. rewrite Hc, fmap_app, elem_of_app. csimpl. rewrite list_elem_of_singleton.
        naive_solver.
    + split_and!; simpl; [done..| |done|].
      * exists (kept ++ [u]). split; [by rewrite fmap_app, Hk|]. apply kept_usages_count; [|done].
        intros [? ?]. apply Hin, Hc. done.
      * intros id. rewrite elem_of_cons, Hc, fmap_app, elem_of_app. csimpl.
        rewrite list_elem_of_singleton. unfold identified in Hid. naive_solver.
Qed.

Lemma count_refs_consistent l c refs usages :
  consistent c refs usages → consistent (foldl count_ref c l) (refs ++ l) usages.
Proof.
  revert c refs. induction l as [|ref l IH]; intros c refs H; simpl; [by rewrite app_nil_r|].
  rewrite cons_middle, (assoc_L (++)). by apply IH, count_ref_consistent.
Qed.

Lemma count_usages_consistent l c refs usages :
  consistent c refs usages → consistent (foldl count_usage c l) refs (usages ++ l).
Proof.
  revert c usages. induction l as [|u l IH]; intros c usages H; simpl; [by rewrite app_nil_r|].
  rewrite cons_middle, (assoc_L (++)). by apply IH, count_usage_consistent.
Qed.

Lemma counted_consistent steps :
  consistent (counted steps) (steps ≫= evidence_refs) (steps ≫= sres_proposer_usage).
Proof.
  unfold counted. assert (∀ c refs usages, consistent c refs usages →
    consistent (foldl count_step c steps) (refs ++ (steps ≫= evidence_refs))
      (usages ++ (steps ≫= sres_proposer_usage))) as H.
  { induction steps as [|r steps IH]; intros c refs usages H; csimpl; [by rewrite !app_nil_r|].
    rewrite !(assoc_L (++)). by apply IH, count_usages_consistent, count_refs_consistent. }
  apply (H _ [] []). repeat split; simpl; try set_solver; [constructor|].
  exists []. repeat split; try set_solver; constructor.
Qed.

(** What a replay reports has been counted. *)
Definition replays (steps : list OptimStepResult) (r : OptimStepResult) : Prop :=
  (∀ ref, ref ∈ evidence_refs r → ref ∈ steps ≫= evidence_refs) ∧
  (∀ u, u ∈ sres_proposer_usage r → identified u ∧
     pcu_call_id u ∈ pcu_call_id <$> (steps ≫= sres_proposer_usage)).

Lemma count_step_replay steps r : replays steps r → count_step (counted steps) r = counted steps.
Proof.
  intros [Hrefs Hus]. destruct (counted_consistent steps) as (_ & Hs & Hc). unfold count_step.
  assert (foldl count_ref (counted steps) (evidence_refs r) = counted steps) as ->.
  { induction (evidence_refs r) as [|ref l IH]; simpl; [done|].
    unfold count_ref at 2. rewrite bool_decide_true by (apply Hs, Hrefs; by left).
    apply IH. intros x Hx. apply Hrefs. by right. }
  induction (sres_proposer_usage r) as [|u l IH]; simpl; [done|].
  destruct (Hus u (list_elem_of_here _ _)) as [Hid Hin].
  unfold count_usage at 2. rewrite (bool_decide_false (_ = [])) by done. simpl.
  rewrite bool_decide_true by by apply Hc. apply IH. intros x Hx. apply Hus. by right.
Qed.

Lemma counted_replay steps replayed :
  Forall (replays steps) replayed → counted (steps ++ replayed) = counted steps.
Proof.
  unfold counted at 1. rewrite foldl_app. fold (counted steps).
  induction 1 as [|r l Hr Hl IH]; simpl; [done|]. by rewrite count_step_replay.
Qed.

Section ReplayTheorems.
Context `{Recs : !OptimRecords} {Job Outcome : Type}.

(** C39: a run's spend counts every piece of work once. The evidence read is
    each costed reference a step cites, once, whatever the channels and steps
    that cite it; of the proposer calls every unidentified one counts, and one
    per call id of the others. Hence steps that only report work already
    reported (a resumed run replays its prefix) are free: with them the very
    same evidence is read and the same report computed. *)
Theorem replayed_work_is_free steps replayed :
  Forall (replays steps) replayed →
  accounts (counted (steps ++ replayed)) (steps ≫= evidence_refs) (steps ≫= sres_proposer_usage) ∧
  aggregate_run_cost (Job:=Job) (Outcome:=Outcome) (steps ++ replayed) = aggregate_run_cost steps.
Proof.
  intros Hr. rewrite (counted_replay _ _ Hr). split; [by apply counted_consistent|].
  unfold aggregate_run_cost. by rewrite (counted_replay _ _ Hr).
Qed.
End ReplayTheorems.

(** A step with one evaluation and one identified proposer call, reported
    again by a resumed run. *)
Module ConcreteCost.
Import Concrete ConcreteLease ConcreteTemplates ConcreteRun.

Definition a_usage : ProposerCallUsage :=
  {| pcu_call_id := $"call-1"; pcu_prompt_tokens := Some 7%Z; pcu_completion_tokens := Some 3%Z;
     pcu_usd := None |}.

Definition reporting (r : OptimStepResult) (evidence : list SearchEvidence) : OptimStepResult :=
  {| sres_request := sres_request r; sres_proposed_candidates := sres_proposed_candidates r;
     sres_accepted_candidates := sres_accepted_candidates r; sres_resolved_intents := [];
     sres_search_evidence := evidence; sres_tool_evidence := []; sres_proposer_usage := [a_usage];
     sres_state_ref := None; sres_history_ref := None; sres_budget_delta := sres_budget_delta r;
     sres_budget := sres_budget r; sres_status := sres_status r; sres_terminal_failure := None;
     sres_seed_retained := false; sres_retained_candidate_ref := None;
     sres_provenance_note := None; sres_provenance_ordinal := None |}.

Definition an_evidence (candidate : CandidateRef) : SearchEvidence :=
  {| se_eval_request_id := $"e"; se_optim_run_id := $"run"; se_optim_step_index := 0;
     se_candidate := candidate; se_outcome := COMPLETED;
     se_eval_result_ref := Some (content_ref EVAL_EVIDENCE_SCHEMA); se_reward_ref := None;
     se_reward_evidence_refs := [] |}.

Definition a_step : result OptimStepResult :=
  r ← two_steps;
  first ← of_option (head (ores_step_results r)) ValueError "";
  proposed ← of_option (head (sres_proposed_candidates (sresr_record first))) ValueError "";
  Ok (reporting (sresr_record first) [an_evidence proposed]).

Definition replays_itself (r : OptimStepResult) : bool :=
  bool_decide (evidence_refs r = [content_ref EVAL_EVIDENCE_SCHEMA]) &&
  bool_decide (sres_proposer_usage r = [a_usage]).

Lemma a_step_facts : match a_step with Ok r => replays_itself r | Err _ => false end = true.
Proof. vm_compute. reflexivity. Qed.

(** No stored document is read by these examples. *)
Definition unread {A} (v : pyval) : result A := raise ValueError "".

#[export] Instance unread_records : OptimRecords := {|
  decode_run := unread; decode_step_result := unread; decode_checkpoint := unread;
  decode_resolution := unread; decode_result := unread; decode_claim := unread;
  decode_slot := unread; decode_terminal := unread; decode_row := unread |}.

Lemma replays_self r : replays_itself r = true → replays [r] r.
Proof.
  unfold replays_itself. intros H. inv_bool. split; [set_solver|]. csimpl. rewrite app_nil_r, H.
  intros u ->%list_elem_of_singleton. split; [done|]. by left.
Qed.
End ConcreteCost.

Section CostWitness.
Import Concrete ConcreteLease ConcreteTemplates ConcreteRun ConcreteCost.

Lemma replayed_work_is_free_witness :
  ∃ r, length (evidence_refs r) = 1%nat ∧ length (sres_proposer_usage r) = 1%nat ∧
    accounts (counted [r; r]) ([r] ≫= evidence_refs) ([r] ≫= sres_proposer_usage) ∧
    aggregate_run_cost (Job:=unit) (Outcome:=unit) [r; r] = aggregate_run_cost [r].
Proof.
  pose proof a_step_facts as H. destruct a_step as [r|]; [|discriminate H].
  pose proof (replays_self r H) as Hr.
  destruct (replayed_work_is_free (Job:=unit) (Outcome:=unit) [r] [r]
    (Forall_cons_2 _ _ _ Hr (Forall_nil_2 _))) as [Ha He].
  unfold replays_itself in H. inv_bool. exists r. split_and!; [by rewrite H0|by rewrite H|done..].
Defined.
End CostWitness.
