(* ===== verification/RunStore.v ===== *)
(** * RunStore: the durable records of a run

    Models [src/whetstone/optim/run_store.py]: where a run, its step results
    and its terminal result are bound in the shared store, how they are read
    back and checked, and the guards a new step passes. The methods are
    programs of [Process.v]; [self._bound_run] and the configured replay policy
    are arguments, and [_resolve_binding] and [_put] are [resolve_ref] and
    [put_ref] of [IssuedCalls.v]. *)

From S2P Require Import Prelude Floats Identity Leasing EvalConfigs Reward Tools Admission.
From S2P Require Import Process Candidate Cost OptimContracts IssuedCalls.

Definition ADAPTER_CHECKPOINT_SCHEMA := $"whetstone.optim_adapter_checkpoint".
Definition STATE_SNAPSHOT_SCHEMA := $"whetstone.optim_state_snapshot".
Definition HISTORY_SNAPSHOT_SCHEMA := $"whetstone.optim_history_snapshot".
Definition STEP_RESULT_BINDING_PREFIX := $"whetstone.optim_step_result:v2:".
Definition OPTIM_RESULT_BINDING_PREFIX := $"whetstone.optim_result:v2:".
Definition RUN_BINDING_PREFIX := $"whetstone.optim_run:".

Definition result_binding_key (run_id : pystr) (step_index : Z) : pystr :=
  STEP_RESULT_BINDING_PREFIX ++ run_id ++ $"#" ++ int_text step_index.
Definition terminal_binding_key (run_id : pystr) : pystr := OPTIM_RESULT_BINDING_PREFIX ++ run_id.
Definition run_binding_key (run_id : pystr) : pystr := RUN_BINDING_PREFIX ++ run_id.

Section RunStore.
Context `{DSer : !DrSerialize, DSto : !DrStore, DLease : !DrLease, Uni : !UnicodeIdentifiers}.
Context `{Recs : !OptimRecords} {Job Outcome : Type}.
Abbreviation program := (prog Job Outcome Answer).

Definition resolve_result_binding (run_id : pystr) (step_index : Z) : program (option TypedRef) :=
  resolve_ref (result_binding_key run_id step_index).

Definition resolve_optimization_result (run_id : pystr) : program (option TypedRef) :=
  resolve_ref (terminal_binding_key run_id).

(** ** Reading records back *)

Definition load_run (ref : TypedRef) : program OptimRunRef :=
  check (bool_decide (tref_schema_name ref = OPTIM_RUN_SCHEMA)) ValueError
    "bound run ref has the wrong schema" ;;
  content ← get (TypedRef_reference ref);
  run ← run_result (decode_run content ≫= OptimRun_model_validate);
  exact ← run_result (optimization_run_reference run);
  check (bool_decide (runr_record_ref exact = ref)) ValueError
    "bound Optimization Run ref is not exact" ;;
  Ret exact.

Definition load_result (ref : TypedRef) : program OptimStepResult :=
  check (bool_decide (tref_schema_name ref = STEP_RESULT_SCHEMA)) ValueError
    "Step Result ref has the wrong schema" ;;
  content ← get (TypedRef_reference ref);
  result ← run_result (decode_step_result content ≫= OptimStepResult_model_validate);
  exact ← run_result (step_result_reference result);
  check (bool_decide (sresr_record_ref exact = ref)) ValueError
    "persisted Step Result ref is not exact" ;;
  Ret result.

Definition load_checkpoint (ref : TypedRef) : program AdapterCheckpoint :=
  check (bool_decide (tref_schema_name ref = ADAPTER_CHECKPOINT_SCHEMA)) ValueError
    "Adapter Checkpoint ref has the wrong schema" ;;
  content ← get (TypedRef_reference ref);
  checkpoint ← run_result (decode_checkpoint content);
  run_result (AdapterOutput_model_validate (ck_output checkpoint)) ;;
  exact ← run_result (typed_ref_for_record ADAPTER_CHECKPOINT_SCHEMA
                        (AdapterCheckpoint_record_content checkpoint));
  check (bool_decide (exact = ref)) ValueError "persisted Adapter Checkpoint ref is not exact" ;;
  Ret checkpoint.

(** [_load_terminal]. *)
Definition load_run_result (ref : TypedRef) : program OptimResult :=
  check (bool_decide (tref_schema_name ref = OPTIM_RESULT_SCHEMA)) ValueError
    "Optimization Result ref has the wrong schema" ;;
  content ← get (TypedRef_reference ref);
  result ← run_result (decode_result content ≫= OptimResult_model_validate);
  exact ← run_result (optimization_result_reference result);
  check (bool_decide (exact = ref)) ValueError "persisted Optimization Result ref is not exact" ;;
  Ret result.

(** ** Writing records *)

Definition put_request (request : OptimStepRequest) : program TypedRef :=
  put_ref STEP_REQUEST_SCHEMA (OptimStepRequest_record_content request).
Definition put_result (result : OptimStepResult) : program TypedRef :=
  put_ref STEP_RESULT_SCHEMA (OptimStepResult_record_content result).

Definition persist_tool_config (config : ToolConfigRef) : program unit :=
  let definition := tc_definition (tcr_record config) in
  ref ← put_ref TOOL_DEFINITION_SCHEMA (ToolDefinition_record_content (tdr_record definition));
  check (bool_decide (ref = tdr_record_ref definition)) ValueError
    "persisted Tool Definition ref failed validation" ;;
  ref ← put_ref TOOL_CONFIG_SCHEMA (ToolConfig_record_content (tcr_record config));
  check (bool_decide (ref = tcr_record_ref config)) ValueError
    "persisted Tool Config ref failed validation".

Definition persist_tool_configs (run : OptimRunRef) : program unit :=
  mapM persist_tool_config (run_tool_configs (runr_record run)) ;; Ret tt.

Definition persist_candidate (candidate : Candidate) : program CandidateRef :=
  expected ← run_result (candidate_reference candidate);
  persisted ← put_ref CANDIDATE_RECORD_SCHEMA (Candidate_record_content candidate);
  check (bool_decide (persisted = candr_record_ref expected)) ValueError
    "persisted Candidate ref failed content validation" ;;
  Ret expected.

Definition persist_intent_records (optim_eval_request : OptimEvalRequest) : program unit :=
  let candidate := er_candidate (oer_eval_request optim_eval_request) in
  persisted ← persist_candidate candidate;
  expected ← run_result (candidate_reference candidate);
  check (same CandidateRef_dump persisted expected) ValueError
    "Optim Eval Request candidate ref is not its exact record".

(** An empty delta has no snapshot. *)
Definition persist_snapshot (schema : pystr) (delta : list (pystr * pyval)) :
    program (option TypedRef) :=
  if bool_decide (delta = []) then Ret None
  else persisted ← put_exact schema (to_json delta); Ret (Some persisted).

(** ** Binding a run *)

Definition exact_run (run : OptimRun + OptimRunRef) : result OptimRunRef :=
  match run with
  | inr ref => OptimRunRef_model_validate ref
  | inl run => run ← OptimRun_model_validate run; optimization_run_reference run
  end.

(** What the key of a run is bound to after the attempt to bind it; a conflict
    carries the reference the key is bound to. *)
Definition bind_run (run : OptimRun + OptimRunRef) : program OptimRunRef :=
  exact ← run_result (exact_run run);
  persisted ← put_ref OPTIM_RUN_SCHEMA (OptimRun_record_content (runr_record exact));
  check (bool_decide (persisted = runr_record_ref exact)) ValueError
    "persisted Optimization Run ref failed content validation" ;;
  persist_tool_configs exact ;;
  let key := run_binding_key (run_run_id (runr_record exact)) in
  status ← try_bind key (TypedRef_reference (runr_record_ref exact));
  existing ← resolve_ref key;
  match status with
  | None =>
      check (bool_decide (existing = Some (runr_record_ref exact))) OptimRunConflictError
        "Optimization run is already bound" ;;
      Ret exact
  | Some _ =>
      existing ← run_result (of_option existing RuntimeError "Optimization Run binding disappeared");
      check (bool_decide (existing = runr_record_ref exact)) OptimRunConflictError
        "Optimization run is already bound" ;;
      loaded ← load_run existing;
      check (same OptimRunRef_dump loaded exact) ValueError
        "bound Optimization Run is not its exact record" ;;
      Ret exact
  end.

(** ** The guards of a step *)

Definition validate_bound_run (bound_run : option OptimRunRef) (request : OptimStepRequest) :
    program unit :=
  bound_run ← run_result (of_option bound_run ValueError "bind_run must be called before run_step");
  check (same OptimRunRef_dump (sreq_run request) bound_run) ValueError
    "Step Request belongs to a different exact Optimization Run" ;;
  actual ← resolve_ref (run_binding_key (sreq_run_id request));
  actual ← run_result (of_option actual ValueError "Optimization Run binding is absent");
  check (bool_decide (actual = runr_record_ref (sreq_run request))) ValueError
    "Step Request run is not the durably bound exact run" ;;
  loaded ← load_run actual;
  check (same OptimRunRef_dump loaded (sreq_run request)) ValueError
    "Step Request run ref is not exact".

(** The adapter a registry names, and the replay policy it requires. *)
Definition resolve_compatible_adapter (configured : ReplayPolicy) (adapter_key : pystr)
    (expected_mode : option StepMode) : program ReplayPolicy :=
  '(key, mode, policy) ← ask_adapter "AdapterRegistry.resolve";
  check (bool_decide (key = adapter_key)) ValueError
    "registry returned an adapter under the wrong key" ;;
  check (match expected_mode with Some m => bool_decide (mode = m) | None => true end) ValueError
    "adapter mode does not match request mode" ;;
  check (bool_decide (policy = configured)) AdapterReplayPolicyMismatchError "" ;;
  Ret policy.

(** What a step after [preceding] must cite. *)
Definition check_preceding (request : OptimStepRequest) (preceding : OptimStepResult) :
    result unit :=
  require (bool_decide (sres_run_id preceding = sreq_run_id request)) ValueError
    "preceding Step Result belongs to another run" ;;
  require (same OptimRunRef_dump (sres_run preceding) (sreq_run request)) ValueError
    "preceding Step Result belongs to another exact Optimization Run" ;;
  require (sres_step_index preceding =? sreq_step_index request - 1)%Z ValueError
    "preceding Step Result has the wrong step index" ;;
  require (bool_decide (sres_status preceding = CONTINUE)) ValueError
    "a new Step may follow only a continuing Step Result" ;;
  require (same BudgetState_dump (sreq_budget request) (sres_budget preceding)) ValueError
    "a new Step must carry forward the preceding durable budget" ;;
  require (bool_decide (sreq_prior_state_ref request = sres_state_ref preceding)) ValueError
    "a new Step must cite the preceding exact state, including its absence" ;;
  require (bool_decide (sreq_prior_history_ref request = sres_history_ref preceding)) ValueError
    "a new Step must cite the preceding exact history, including its absence".

Definition check_initial (request : OptimStepRequest) : result unit :=
  require (negb (is_some (sreq_prior_step_result_ref request))) ValueError
    "initial Step Request carries no prior Step Result" ;;
  require (negb (is_some (sreq_prior_state_ref request))) ValueError
    "initial Step Request carries no prior state" ;;
  require (negb (is_some (sreq_prior_history_ref request))) ValueError
    "initial Step Request carries no prior history".

Definition validate_prior_binding (request : OptimStepRequest) : program unit :=
  if (sreq_step_index request =? 0)%Z then run_result (check_initial request)
  else
    actual ← resolve_result_binding (sreq_run_id request) (sreq_step_index request - 1);
    actual ← run_result (of_option actual ValueError
      "noninitial Step Request references no durably bound preceding Step Result");
    check (bool_decide (Some actual = sreq_prior_step_result_ref request)) ValueError
      "prior_step_result_ref does not match the actual preceding Step Result binding" ;;
    preceding ← load_result actual;
    run_result (check_preceding request preceding).
End RunStore.
