(* ===== verification/Harness.v ===== *)
(** * Harness: the steps of an optimization run

    Models [OptimHarness] of [src/whetstone/optim/harness.py] and
    [persist_deferred_intents] of [src/whetstone/platform/deferred_intents.py]:
    binding a run, running a step and terminalizing a run, as programs over the
    shared store. The adapter, the evaluation service, the tool executor and
    the lease authority are collaborators; the tables of the GEPA lineage check
    belong to the GEPA component, which is asked. *)

From S2P Require Import Prelude Floats Identity Leasing EvalConfigs Reward Tools Admission.
From S2P Require Import Process Claims Candidate Cost OptimContracts IssuedCalls RunCost RunStore.

Definition ADAPTER_EFFECT_SCHEMA := $"whetstone.optim_adapter_effect".
Definition ADAPTER_EFFECT_SCHEMA_VERSION : Z := 1.
Definition ADAPTER_EFFECT_KEY_SCHEMA := $"whetstone.optim_adapter_effect_key".
Definition ADAPTER_EFFECT_KEY_SCHEMA_VERSION : Z := 1.
Definition ADAPTER_EFFECT_KEY_PREFIX := $"whetstone.optim_adapter:".
Definition INTENT_EFFECT_SCHEMA := $"whetstone.optim_intent_effect".
Definition INTENT_EFFECT_SCHEMA_VERSION : Z := 1.
Definition INTENT_EFFECT_KEY_SCHEMA := $"whetstone.optim_intent_effect_key".
Definition INTENT_EFFECT_KEY_SCHEMA_VERSION : Z := 2.
Definition INTENT_EFFECT_KEY_PREFIX := $"whetstone.optim_intent:".
Definition GEPA_ADAPTER_KEY := $"gepa".
Definition PLATFORM_DEFERRED_INTENTS_PREFIX := $"whetstone.platform_deferred_intents:".
Definition PLATFORM_DEFERRED_INTENTS_SCHEMA := $"whetstone.platform_deferred_intents".

Definition deferred_intents_binding_key (run_id : pystr) (step_index : Z) : pystr :=
  PLATFORM_DEFERRED_INTENTS_PREFIX ++ run_id ++ $":" ++ int_text step_index.

(** ** The harness *)

Record OptimHarness := {
  h_owner_id : pystr;
  h_adapter_replay_policy : ReplayPolicy;
  h_lease_duration : Z;
  h_evaluation_replay_policy : option ReplayPolicy;
  h_evaluation_is_engine : bool;
  h_has_tool_executor : bool;
  h_bound_run : option OptimRunRef;
  h_last_deferred_platform_intents : list OptimEvalRequest;
}.

(** [OptimHarness.__init__]; no evaluation service is [None]. *)
Definition OptimHarness_init (owner_id : pystr) (adapter_replay_policy : ReplayPolicy)
    (lease_duration : Z) (evaluation_service : option ReplayPolicy) (is_engine : bool)
    (has_tool_executor : bool) : result OptimHarness :=
  require (negb (bool_decide (owner_id = []))) ValueError "owner_id must be non-empty" ;;
  require (negb (lease_duration <=? 0)%Z) ValueError "lease_duration must be positive" ;;
  require (match evaluation_service with
           | Some policy => bool_decide (policy ∈ [Leasing.IDEMPOTENT; DURABLE_WORKFLOW])
           | None => true
           end) ValueError "EvalService replay_policy must be idempotent or durable_workflow" ;;
  Ok {| h_owner_id := owner_id; h_adapter_replay_policy := adapter_replay_policy;
        h_lease_duration := lease_duration; h_evaluation_replay_policy := evaluation_service;
        h_evaluation_is_engine := is_engine; h_has_tool_executor := has_tool_executor;
        h_bound_run := None; h_last_deferred_platform_intents := [] |}.

Definition with_run (self : OptimHarness) (run : OptimRunRef) : OptimHarness :=
  {| h_owner_id := h_owner_id self; h_adapter_replay_policy := h_adapter_replay_policy self;
     h_lease_duration := h_lease_duration self;
     h_evaluation_replay_policy := h_evaluation_replay_policy self;
     h_evaluation_is_engine := h_evaluation_is_engine self;
     h_has_tool_executor := h_has_tool_executor self; h_bound_run := Some run;
     h_last_deferred_platform_intents := h_last_deferred_platform_intents self |}.

Definition with_deferred (self : OptimHarness) (intents : list OptimEvalRequest) : OptimHarness :=
  {| h_owner_id := h_owner_id self; h_adapter_replay_policy := h_adapter_replay_policy self;
     h_lease_duration := h_lease_duration self;
     h_evaluation_replay_policy := h_evaluation_replay_policy self;
     h_evaluation_is_engine := h_evaluation_is_engine self;
     h_has_tool_executor := h_has_tool_executor self; h_bound_run := h_bound_run self;
     h_last_deferred_platform_intents := intents |}.

(** ** Validating what an adapter returned *)
Section Outputs.
Context `{DSer : !DrSerialize, DSto : !DrStore, DLease : !DrLease, Uni : !UnicodeIdentifiers}.

Definition identity_hashes (candidates : list Candidate) : result (list pystr) :=
  refs ← mapM candidate_reference candidates;
  Ok (candr_identity_hash <$> refs).

(** The seed an output retains is the exact initial candidate of the run. *)
Definition check_retained (request : OptimStepRequest) (output : AdapterOutput) : result unit :=
  if ao_seed_retained output then
    require (is_some (out_terminal_proposal_count (sreq_step_output_contract request))) ValueError
      "only a Step whose output contract sets terminal_proposal_count may retain the seed" ;;
    seed_ref ← of_option (run_initial_candidate_ref (runr_record (sreq_run request))) ValueError
      "a seed-retaining Step requires the run to name its initial_candidate_ref";
    retained ← of_option (ao_retained_candidate output) ValueError
      "a seed-retaining Step must retain the exact run initial candidate";
    reference ← candidate_reference retained;
    require (same CandidateRef_dump reference seed_ref) ValueError
      "a seed-retaining Step must retain the exact run initial candidate"
  else Ok tt.

Definition validate_output (request : OptimStepRequest) (output : AdapterOutput) : result unit :=
  require (all_unique ((λ r, er_request_id (oer_eval_request r)) <$> ao_optim_eval_requests output))
    ValueError "Optim Eval Request IDs must be unique within a Step" ;;
  check_retained request output ;;
  let contract := sreq_step_output_contract request in
  let accepted_count := Z.of_nat (length (ao_accepted_candidates output)) in
  (if ao_seed_retained output then
     require (accepted_count =? 0)%Z ValueError
       "adapter violated returned proposal cardinality: expected 0"
   else
     require (admits_accepted_count contract (ao_proposed_status output) accepted_count) ValueError
       "adapter violated returned proposal cardinality") ;;
  require (negb (out_require_distinct_bases contract &&
                 negb (all_unique (cand_base_ref <$> ao_proposed_candidates output)))) ValueError
    "adapter violated the distinct-base output contract" ;;
  accepted ← identity_hashes (ao_accepted_candidates output);
  proposed ← identity_hashes (ao_proposed_candidates output);
  require (counter_within accepted proposed) ValueError
    "accepted candidate multiset must be contained in proposed candidate multiset" ;;
  require (negb (bool_decide (ao_proposed_status output = COMPLETE) &&
                 negb (honors_terminal contract
                         (run_terminal_output_contract (runr_record (sreq_run request))))))
    ValueError "a COMPLETE Step must honor the run terminal output contract".

(** One candidate of the output against the run and the request. *)
Definition check_output_candidate (request : OptimStepRequest)
    (bases : list (TypedRef * Candidate)) (candidate : Candidate) : result unit :=
  rewrap ValueError ValueError "every candidate must satisfy the exact run template contract"
    (validate_candidate_template candidate (sreq_run request)) ;;
  if bool_decide (sreq_mode request = PURE) then Ok tt
  else
    base ← of_option (dict_get bases (cand_base_ref candidate)) ValueError
      "every candidate must bind an exact request candidate as its base";
    rewrap ValueError ValueError "every candidate must satisfy the canonical run mutation diff"
      (diff_check base candidate (sreq_run request)).

Definition validate_output_candidates (request : OptimStepRequest) (output : AdapterOutput) :
    result unit :=
  refs ← mapM candidate_reference (sreq_candidates request);
  let bases := foldl (λ d c, dict_set d (candr_record_ref c) (candr_record c)) [] refs in
  for_each (check_output_candidate request bases) (ao_proposed_candidates output) ;;
  for_each (check_output_candidate request bases) (ao_accepted_candidates output).

(** [{str(c.identity_hash): c for c in ...}]. *)
Definition by_identity (candidates : list CandidateRef) : list (pystr * CandidateRef) :=
  foldl (λ d c, dict_set d (candr_identity_hash c) c) [] candidates.

Definition allowed_candidates (request : OptimStepRequest) (proposed accepted : list CandidateRef) :
    result (list (pystr * CandidateRef)) :=
  refs ← mapM candidate_reference (sreq_candidates request);
  Ok (by_identity (refs ++ proposed ++ accepted)).

Definition check_expected_policy (request : OptimStepRequest) (intent : OptimEvalRequest) :
    result unit :=
  match oer_expected_reward_policy_hash intent with
  | None => Ok tt
  | Some expected =>
      policy ← of_option (run_reward_policy (runr_record (sreq_run request))) ValueError
        "Optim Eval Request must expect the exact run Reward Policy";
      policy_hash ← RewardPolicy_identity_hash policy;
      require (bool_decide (expected = policy_hash)) ValueError
        "Optim Eval Request must expect the exact run Reward Policy"
  end.
End Outputs.

(** ** Effects

    A step's adapter and each of its evaluations run under a lease, so that
    one process runs them and the others read the recorded outcome. *)
Section Harness.
Context `{DSer : !DrSerialize, DSto : !DrStore, DLease : !DrLease, Uni : !UnicodeIdentifiers}.
Context `{Recs : !OptimRecords} {Job Outcome : Type}.
Abbreviation program := (prog Job Outcome Answer).

Definition effect_request_for (key_schema : pystr) (key_version : Z) (prefix : pystr)
    (key_payload : pyval) (schema : pystr) (version : Z) (payload : pyval)
    (replay_policy : ReplayPolicy) : result LeaseRequest :=
  semantic_key ← compute_prefixed_identity_key key_schema key_version prefix key_payload;
  request_hash ← compute_identity_hash schema version payload;
  effect_request semantic_key request_hash replay_policy.

Definition adapter_effect_request (request : OptimStepRequest) (request_ref : TypedRef)
    (replay_policy : ReplayPolicy) : result LeaseRequest :=
  let payload := PDict [($"step_request_ref", TypedRef_dump request_ref);
                        ($"adapter_key", PStr (sreq_adapter_key request))] in
  effect_request_for ADAPTER_EFFECT_KEY_SCHEMA ADAPTER_EFFECT_KEY_SCHEMA_VERSION
    ADAPTER_EFFECT_KEY_PREFIX payload ADAPTER_EFFECT_SCHEMA ADAPTER_EFFECT_SCHEMA_VERSION payload
    replay_policy.

Definition intent_effect_request (self : OptimHarness) (request : OptimStepRequest)
    (intent : OptimEvalRequest) : result LeaseRequest :=
  policy ← of_option (h_evaluation_replay_policy self) RuntimeError "EvalService is not configured";
  exact ← step_request_reference request;
  effect_request_for INTENT_EFFECT_KEY_SCHEMA INTENT_EFFECT_KEY_SCHEMA_VERSION
    INTENT_EFFECT_KEY_PREFIX
    (PDict [($"step_request_ref", TypedRef_dump (sreqr_record_ref exact));
            ($"eval_request_id", PStr (er_request_id (oer_eval_request intent)))])
    INTENT_EFFECT_SCHEMA INTENT_EFFECT_SCHEMA_VERSION
    (PDict [($"optim_eval_request", OptimEvalRequest_dump intent)]) policy.

(** [_acquired_lease]: only a fresh acquisition goes on. *)
Definition acquired_lease (acquisition : EffectAcquireResult unit) : result unit :=
  match ear_outcome _ acquisition with
  | BUSY =>
      of_option (ear_busy_expires_at _ acquisition) RuntimeError "busy effect has no expiration" ;;
      raise EffectBusyError ""
  | REQUEST_CONFLICT => raise EffectRequestConflictError ""
  | AcquireRECOVERY_REQUIRED =>
      of_option (ear_terminal _ acquisition ≫= et_failure) RuntimeError
        "recovery-required effect has no terminal failure" ;;
      raise EffectRecoveryRequiredError ""
  | ACQUIRED =>
      of_option (ear_lease _ acquisition) RuntimeError "unrecognized Effect acquisition outcome"
  | _ => raise RuntimeError "unrecognized Effect acquisition outcome"
  end.

(** The terminal of an effect that has already ended, with its result ref. *)
Definition recorded_effect (acquisition : EffectAcquireResult unit) :
    option (result (TypedRef * option TerminalFailure)) :=
  if bool_decide (ear_outcome _ acquisition ∈ [AcquireSUCCEEDED; AcquireFAILED]) then
    Some (terminal ← of_option (ear_terminal _ acquisition) RuntimeError
                       "terminal effect has no exact ref";
          ref ← of_option (et_result_ref terminal) RuntimeError "terminal effect has no exact ref";
          Ok (ref, et_failure terminal))
  else None.

(** A recorded failure matches the record, and a recorded success has none. *)
Definition check_recorded (acquisition : EffectAcquireResult unit)
    (failure recorded : option TerminalFailure) : result unit :=
  if bool_decide (ear_outcome _ acquisition = AcquireFAILED) then
    require (is_some recorded && same_option TerminalFailure_dump failure recorded) ValueError
      "failed effect does not match its exact recorded failure"
  else
    require (negb (is_some recorded)) ValueError
      "successful effect references a failed record".

(** [with authority.maintain(lease) as maintenance: body]. *)
Definition maintained {A} (body : program A) : program A :=
  ask "EffectLeaseAuthority.maintain" ;;
  finally body (ask "EffectLeaseMaintenance.__exit__").

(** [maintenance.succeed] or [maintenance.fail]. *)
Definition settle (failure : option TerminalFailure) : program unit :=
  ask (if is_some failure then "EffectLeaseMaintenance.fail" else "EffectLeaseMaintenance.succeed").

(** ** Checking an output against the store *)

(** [_require_resolvable_evidence]. *)
Definition require_resolvable_evidence (evidence : SearchEvidence) : program unit :=
  match expected_result_schema (se_outcome evidence), se_eval_result_ref evidence with
  | Some expected, Some ref =>
      check (bool_decide (tref_schema_name ref = expected)) ValueError
        "search evidence eval_result_ref must use the schema of its outcome" ;;
      check (match se_reward_ref evidence with
             | Some reward => bool_decide (tref_schema_name (rwr_record_ref reward) = REWARD_SCHEMA)
             | None => true
             end) ValueError "search evidence reward_ref must use the Reward schema" ;;
      mapM (λ item, catch (get (TypedRef_reference item) ;; Ret tt)
                      (λ _, throw ValueError "search evidence must cite records the store resolves"))
        (se_evidence_refs evidence) ;;
      Ret tt
  | _, _ => Ret tt
  end.

(** [_require_eval_request_on_step]. *)
Definition require_eval_request_on_step (request : OptimStepRequest) (intent : OptimEvalRequest)
    (allowed : list (pystr * CandidateRef)) : program unit :=
  check (bool_decide (oer_optim_run_id intent = sreq_run_id request)) ValueError
    "Optim Eval Request belongs to another optimization run" ;;
  check (oer_optim_step_index intent =? sreq_step_index request)%Z ValueError
    "Optim Eval Request belongs to another optimization step" ;;
  if bool_decide (sreq_adapter_key request = GEPA_ADAPTER_KEY) then
    ask "_require_gepa_assembled_eval_candidate"
  else
    candidate_ref ← run_result (candidate_reference (er_candidate (oer_eval_request intent)));
    check (match dict_get allowed (candr_identity_hash candidate_ref) with
           | Some exact => same CandidateRef_dump exact candidate_ref
           | None => false
           end) ValueError "Optim Eval Request candidate is not an exact Step output candidate".

Definition validate_evidence (request : OptimStepRequest) (evidence : SearchEvidence) :
    program unit :=
  check (bool_decide (se_optim_run_id evidence = sreq_run_id request)) ValueError
    "search evidence belongs to another optimization run" ;;
  check (se_optim_step_index evidence =? sreq_step_index request)%Z ValueError
    "search evidence belongs to another optimization step" ;;
  require_resolvable_evidence evidence.

(** [_validate_output_intents]. *)
Definition validate_output_intents (request : OptimStepRequest) (output : AdapterOutput) :
    program unit :=
  proposed ← run_result (mapM candidate_reference (ao_proposed_candidates output));
  accepted ← run_result (mapM candidate_reference (ao_accepted_candidates output));
  allowed ← run_result (allowed_candidates request proposed accepted);
  mapM (validate_evidence request) (ao_search_evidence output) ;;
  mapM (λ intent, require_eval_request_on_step request intent allowed ;;
                  run_result (check_expected_policy request intent))
    (ao_optim_eval_requests output) ;;
  Ret tt.

(** The three validations every output passes. *)
Definition validate_outputs (request : OptimStepRequest) (output : AdapterOutput) : program unit :=
  run_result (validate_output request output) ;;
  run_result (validate_output_candidates request output) ;;
  validate_output_intents request output.

(** ** The adapter of a step *)

(** The binding of the capacity a tool of the step draws on. *)
Definition step_tool_binding (request : OptimStepRequest) (request_ref : TypedRef)
    (config : ToolConfig) : result ToolCapacityBinding :=
  tool_capacity_binding (tcap_scope (tc_capacity config))
    match tcap_scope (tc_capacity config) with
    | GLOBAL => None
    | RUN => Some (runr_record_ref (sreq_run request))
    | STEP => Some request_ref
    end.

Definition prepare_tool_handle (request : OptimStepRequest) (request_ref : TypedRef)
    (cfg : ToolConfigRef) : program (ToolConfig * ToolCapacityBinding) :=
  binding ← run_result (step_tool_binding request request_ref (tcr_record cfg));
  '(config, handle_binding) ← ask_handle "ToolExecutor.runtime_handle";
  check (same ToolConfig_record_content config (tcr_record cfg)) ValueError
    "ToolExecutor returned a Runtime Tool Handle for another exact Tool Config" ;;
  check (same ToolCapacityBinding_dump handle_binding binding) ValueError
    "ToolExecutor returned a Runtime Tool Handle with another capacity binding" ;;
  check (bool_decide (tcb_scope binding = tcap_scope (tc_capacity (tcr_record cfg)))) ValueError
    "Runtime Tool binding scope must match the exact Tool Config" ;;
  Ret (tcr_record cfg, binding).

Definition prepare_tool_handles (self : OptimHarness) (request : OptimStepRequest)
    (request_ref : TypedRef) : program (list (ToolConfig * ToolCapacityBinding)) :=
  check (h_has_tool_executor self) ValueError "tool-using Step requires a ToolExecutor" ;;
  mapM (prepare_tool_handle request request_ref) (sreq_tool_configs request).

(** What a guarded handle checks of a call before the ledger issues it. *)
Definition guard_call (handle : ToolConfig * ToolCapacityBinding) (call : ToolCall) : result unit :=
  ref ← tool_config_reference handle.1;
  require (same ToolConfigRef_dump (tcall_tool_config call) ref) ValueError
    "Tool Call config must match the Runtime Tool Handle" ;;
  require (same ToolCapacityBinding_dump (tcall_capacity_binding call) handle.2) ValueError
    "Tool Call capacity binding must match the Runtime Tool Handle".

(** [adapter.invoke(request, guarded_handles)]: the adapter calls handles and
    at last returns; what it makes of a result or an exception of a call shows
    in its next answer. *)
Fixpoint invoke_with_tools (turns : nat) (handles : list (ToolConfig * ToolCapacityBinding))
    (ledger : IssuedToolCallLedger) : program (AdapterOutput * IssuedToolCallLedger) :=
  match turns with
  | O => Spin
  | S turns =>
      answer ← compute "OptimizerAdapter.invoke";
      match answer with
      | AnOutput output => Ret (output, ledger)
      | AnIssue call handle =>
          match handles !! handle with
          | None => Spin
          | Some handle =>
              match guard_call handle call with
              | Err _ => invoke_with_tools turns handles ledger
              | Ok _ =>
                  '(ledger, _) ← issue ledger call;
                  invoke_with_tools turns handles ledger
              end
          end
      | _ => Spin
      end
  end.

(** [output.model_copy(update={"budget_delta": delta})]. *)
Definition with_budget_delta (output : AdapterOutput) (delta : Budget) : AdapterOutput :=
  {| ao_proposed_candidates := ao_proposed_candidates output;
     ao_accepted_candidates := ao_accepted_candidates output;
     ao_optim_eval_requests := ao_optim_eval_requests output;
     ao_search_evidence := ao_search_evidence output; ao_budget_delta := delta;
     ao_proposed_status := ao_proposed_status output;
     ao_terminal_failure := ao_terminal_failure output;
     ao_seed_retained := ao_seed_retained output;
     ao_retained_candidate := ao_retained_candidate output;
     ao_proposer_usage := ao_proposer_usage output; ao_state_delta := ao_state_delta output;
     ao_history_delta := ao_history_delta output |}.

Definition invoke_tool_using (turns : nat) (ledger : option IssuedToolCallLedger)
    (handles : list (ToolConfig * ToolCapacityBinding)) : program AdapterOutput :=
  ledger ← run_result (of_option ledger RuntimeError "tool-using Step has no issued-call ledger");
  '(output, ledger) ← invoke_with_tools turns handles ledger;
  run_result (validate_replay_complete ledger) ;;
  check (negb (nonempty (ao_optim_eval_requests output))) ValueError
    "tool-using Steps carry measurement in Tool Results" ;;
  issued ← evidence ledger;
  delta ← run_result (budget_delta ledger (ao_budget_delta output) (length issued));
  Ret (with_budget_delta output delta).

Definition invoke_adapter (turns : nat) (request : OptimStepRequest)
    (ledger : option IssuedToolCallLedger) (handles : list (ToolConfig * ToolCapacityBinding)) :
    program AdapterOutput :=
  match sreq_mode request with
  | PROPOSAL_ONLY => ask_output "OptimizerAdapter.invoke"
  | TOOL_USING => invoke_tool_using turns ledger handles
  | PURE => throw ValueError "unsupported effectful mode"
  end.

(** [_invoke_and_persist_adapter]. *)
Definition invoke_and_persist_adapter (turns : nat) (request : OptimStepRequest)
    (request_ref : TypedRef) (ledger : option IssuedToolCallLedger)
    (handles : list (ToolConfig * ToolCapacityBinding)) : program (AdapterOutput * TypedRef) :=
  raw_output ← invoke_adapter turns request ledger handles;
  output ← run_result (AdapterOutput_model_validate raw_output);
  validate_outputs request output ;;
  let checkpoint := {| ck_request_ref := request_ref; ck_adapter_key := sreq_adapter_key request;
                       ck_output := output |} in
  let content := AdapterCheckpoint_record_content checkpoint in
  checkpoint_ref ← put_ref ADAPTER_CHECKPOINT_SCHEMA content;
  expected ← run_result (typed_ref_for_record ADAPTER_CHECKPOINT_SCHEMA content);
  check (bool_decide (checkpoint_ref = expected)) ValueError
    "persisted Adapter Checkpoint ref failed validation" ;;
  Ret (output, checkpoint_ref).

(** [_validate_checkpoint]. *)
Definition validate_checkpoint (checkpoint : AdapterCheckpoint) (request : OptimStepRequest)
    (request_ref : TypedRef) : program unit :=
  check (bool_decide (ck_request_ref checkpoint = request_ref)) ValueError
    "durable adapter checkpoint belongs to another request" ;;
  check (bool_decide (ck_adapter_key checkpoint = sreq_adapter_key request)) ValueError
    "durable adapter checkpoint belongs to another adapter" ;;
  validate_outputs request (ck_output checkpoint).

(** The output of an effect that already ended. *)
Definition recorded_output (request : OptimStepRequest) (request_ref : TypedRef)
    (acquisition : EffectAcquireResult unit) (terminal : TypedRef * option TerminalFailure) :
    program AdapterOutput :=
  checkpoint ← load_checkpoint terminal.1;
  validate_checkpoint checkpoint request request_ref ;;
  run_result (check_recorded acquisition terminal.2 (ao_terminal_failure (ck_output checkpoint))) ;;
  Ret (ck_output checkpoint).

(** [_effectful_output]. *)
Definition effectful_output (turns : nat) (request : OptimStepRequest) (request_ref : TypedRef)
    (policy : ReplayPolicy) (ledger : option IssuedToolCallLedger)
    (handles : list (ToolConfig * ToolCapacityBinding)) : program AdapterOutput :=
  run_result (adapter_effect_request request request_ref policy) ;;
  acquisition ← ask_acquisition "EffectLeaseAuthority.acquire";
  match recorded_effect acquisition with
  | Some terminal =>
      terminal ← run_result terminal;
      recorded_output request request_ref acquisition terminal
  | None =>
      run_result (acquired_lease acquisition) ;;
      maintained
        ('(output, _) ← invoke_and_persist_adapter turns request request_ref ledger handles;
         settle (ao_terminal_failure output) ;;
         Ret output)
  end.

Definition invoke_pure : program AdapterOutput :=
  raw_output ← ask_output "OptimizerAdapter.invoke";
  output ← run_result (AdapterOutput_model_validate raw_output);
  check (negb (nonempty (ao_optim_eval_requests output))) ValueError
    "a pure Step emits no measurement requests" ;;
  Ret output.

(** ** Measuring what a step proposed *)

(** [_validate_stored_ref]. *)
Definition validate_stored_ref (ref : TypedRef) : program unit :=
  record ← get (TypedRef_reference ref);
  exact ← run_result (typed_ref_for_record (tref_schema_name ref) record);
  check (bool_decide (exact = ref)) ValueError "ref is not exact".

(** [_validate_resolution]. *)
Definition validate_resolution (intent : OptimEvalRequest) (resolution : IntentResolution) :
    program unit :=
  check (same OptimEvalRequest_dump (ir_optim_eval_request resolution) intent) ValueError
    "EvalService resolved another exact Optim Eval Request" ;;
  match ir_eval_result_ref resolution with
  | Some ref => validate_stored_ref ref
  | None => Ret tt
  end ;;
  mapM validate_stored_ref (ir_reward_evidence_refs resolution) ;;
  Ret tt.

(** [_load_intent_resolution]. *)
Definition load_intent_resolution (ref : TypedRef) : program IntentResolution :=
  check (bool_decide (tref_schema_name ref = INTENT_RESOLUTION_SCHEMA)) ValueError
    "Intent Resolution ref has the wrong schema" ;;
  content ← get (TypedRef_reference ref);
  resolution ← run_result (decode_resolution content ≫= IntentResolution_model_validate);
  exact ← run_result (typed_ref_for_record INTENT_RESOLUTION_SCHEMA
                        (IntentResolution_dump resolution));
  check (bool_decide (exact = ref)) ValueError "persisted Intent Resolution ref is not exact" ;;
  Ret resolution.

Definition recorded_resolution (intent : OptimEvalRequest)
    (acquisition : EffectAcquireResult unit) (terminal : TypedRef * option TerminalFailure) :
    program IntentResolution :=
  resolution ← load_intent_resolution terminal.1;
  validate_resolution intent resolution ;;
  run_result (check_recorded acquisition terminal.2 (ir_terminal_failure resolution)) ;;
  ask "EvalService.validate_resolution_graph" ;;
  Ret resolution.

(** The evaluation under its lease. *)
Definition evaluate_intent (intent : OptimEvalRequest) : program IntentResolution :=
  raw ← ask_resolution "EvalService.resolve_optim_eval_request";
  resolution ← run_result (IntentResolution_model_validate raw);
  validate_resolution intent resolution ;;
  ask "EvalService.validate_resolution_graph" ;;
  put_exact INTENT_RESOLUTION_SCHEMA (IntentResolution_dump resolution) ;;
  settle (ir_terminal_failure resolution) ;;
  Ret resolution.

(** [_resolve_one_intent]. *)
Definition resolve_one_intent (self : OptimHarness) (request : OptimStepRequest)
    (intent : OptimEvalRequest) : program IntentResolution :=
  configured ← run_result (of_option (h_evaluation_replay_policy self) RuntimeError
    "EvalService is not configured");
  policy ← ask_policy "EvalService.replay_policy";
  check (bool_decide (policy = configured)) ValueError
    "EvalService replay_policy changed after construction" ;;
  run_result (intent_effect_request self request intent) ;;
  acquisition ← ask_acquisition "EffectLeaseAuthority.acquire";
  match recorded_effect acquisition with
  | Some terminal =>
      terminal ← run_result terminal;
      recorded_resolution intent acquisition terminal
  | None =>
      run_result (acquired_lease acquisition) ;;
      maintained (evaluate_intent intent)
  end.

(** One turn of the loop of [_resolve_intents]: the intent is handed to the
    platform, resolved, or deferred by the service. *)
Inductive Intent := Deferred (intent : OptimEvalRequest) | ResolvedIntent (r : IntentResolution) | Skipped.

Definition resolve_intent (self : OptimHarness) (request : OptimStepRequest) (platform_mode : bool)
    (allowed : list (pystr * CandidateRef)) (intent : OptimEvalRequest) : program Intent :=
  require_eval_request_on_step request intent allowed ;;
  persist_intent_records intent ;;
  if platform_mode then
    ask "EvalEngineService.persist_platform_intent" ;;
    Ret (Deferred intent)
  else
    catch (resolution ← resolve_one_intent self request intent; Ret (ResolvedIntent resolution))
      (λ e, if exn_isa (exn_cls e) EvalPlatformDeferred then Ret Skipped else Throw e).

Definition resolved_of (i : Intent) : option IntentResolution :=
  match i with ResolvedIntent r => Some r | _ => None end.
Definition deferred_of (i : Intent) : option OptimEvalRequest :=
  match i with Deferred r => Some r | _ => None end.

(** [_resolve_intents] up to the deferred intents it records. *)
Definition resolve_intents (self : OptimHarness) (request : OptimStepRequest)
    (output : AdapterOutput) (proposed accepted : list CandidateRef) (platform : bool) :
    program (list IntentResolution * list OptimEvalRequest) :=
  if negb (nonempty (ao_optim_eval_requests output)) then Ret ([], [])
  else
    validate_output_intents request output ;;
    check (is_some (h_evaluation_replay_policy self)) ValueError
      "proposal-only Step with Optim Eval Requests requires EvalService" ;;
    allowed ← run_result (allowed_candidates request proposed accepted);
    let platform_mode := h_evaluation_is_engine self && platform in
    intents ← mapM (resolve_intent self request platform_mode allowed)
                (ao_optim_eval_requests output);
    Ret (omap resolved_of intents, omap deferred_of intents).

Definition persist_deferred_intents (run_id : pystr) (step_index : Z)
    (intents : list OptimEvalRequest) : program unit :=
  reference ← put PLATFORM_DEFERRED_INTENTS_SCHEMA
                (PDict [($"intents", PList (OptimEvalRequest_dump <$> intents))]);
  bind (deferred_intents_binding_key run_id step_index) reference ;;
  Ret tt.

(** ** Running a step *)

(** [run_step] before it does anything: the request and the bound run. *)
Definition open_step (self : OptimHarness) (raw_request : OptimStepRequest) :
    program OptimStepRequest :=
  request ← run_result (OptimStepRequest_model_validate raw_request);
  validate_bound_run (h_bound_run self) request ;;
  Ret request.

(** The result already bound at the request's position, when it is the result
    of this very request. *)
Definition existing_step (request : OptimStepRequest) (exact_request : OptimStepRequestRef)
    (existing_ref : TypedRef) : program (OptimStepResult * TypedRef) :=
  existing ← load_result existing_ref;
  check (bool_decide (sres_run_id existing = sreq_run_id request) &&
         (sres_step_index existing =? sreq_step_index request)%Z) ValueError
    "bound Step Result belongs to another run or position" ;;
  check (same OptimStepRequestRef_dump (sres_request existing) exact_request)
    StepResultConflictError "" ;;
  Ret (existing, existing_ref).

(** The tool evidence of the step and the budget the ledger accounts for. *)
Definition ledger_evidence (ledger : option IssuedToolCallLedger) (output : AdapterOutput) :
    program (list ToolEvidence) :=
  match ledger with
  | None => Ret []
  | Some ledger =>
      tool_evidence ← evidence ledger;
      expected ← run_result (budget_delta ledger (ao_budget_delta output) (length tool_evidence));
      check (same BudgetDelta_dump (ao_budget_delta output) expected) ValueError
        "Adapter checkpoint tool_calls budget does not match the durable issued-call ledger" ;;
      Ret tool_evidence
  end.

(** What a step has measured before its result is assembled. *)
Record StepWork := {
  sw_request : OptimStepRequestRef;
  sw_output : AdapterOutput;
  sw_tool_evidence : list ToolEvidence;
  sw_budget : BudgetState;
  sw_proposed : list CandidateRef;
  sw_accepted : list CandidateRef;
  sw_resolutions : list IntentResolution;
  sw_deferred : list OptimEvalRequest;
}.

(** The adapter's output for a new step, the adapter and its ledger prepared
    first. *)
Definition step_output (self : OptimHarness) (turns : nat) (request : OptimStepRequest)
    (exact_request : OptimStepRequestRef) : program (AdapterOutput * option IssuedToolCallLedger) :=
  policy ← resolve_compatible_adapter (h_adapter_replay_policy self) (sreq_adapter_key request)
             (Some (sreq_mode request));
  request_ref ← put_request request;
  check (bool_decide (request_ref = sreqr_record_ref exact_request)) ValueError
    "persisted request ref failed content validation" ;;
  mapM persist_candidate (sreq_candidates request) ;;
  ledger ← (if bool_decide (sreq_mode request = TOOL_USING)
            then ledger ← IssuedToolCallLedger_init exact_request; Ret (Some ledger)
            else Ret None);
  handles ← (if bool_decide (sreq_mode request = TOOL_USING)
             then prepare_tool_handles self request request_ref else Ret []);
  ask "OptimizerAdapter.bind_eval_context" ;;
  output ← (if bool_decide (sreq_mode request = PURE) then invoke_pure
            else effectful_output turns request request_ref policy ledger handles);
  Ret (output, ledger).

(** [run_step] for a position without a result, up to the resolution of the
    intents. *)
Definition perform_step (self : OptimHarness) (turns : nat) (request : OptimStepRequest)
    (exact_request : OptimStepRequestRef) (platform : bool) : program StepWork :=
  '(output, ledger) ← step_output self turns request exact_request;
  validate_outputs request output ;;
  tool_evidence ← ledger_evidence ledger output;
  budget ← run_result (debit (sreq_budget request) (ao_budget_delta output));
  proposed ← mapM persist_candidate (ao_proposed_candidates output);
  accepted ← mapM persist_candidate (ao_accepted_candidates output);
  '(resolutions, deferred) ←
    (if bool_decide (sreq_mode request = PROPOSAL_ONLY)
     then resolve_intents self request output proposed accepted platform else Ret ([], []));
  Ret {| sw_request := exact_request; sw_output := output; sw_tool_evidence := tool_evidence;
         sw_budget := budget; sw_proposed := proposed; sw_accepted := accepted;
         sw_resolutions := resolutions; sw_deferred := deferred |}.

(** The existing result, or the work of a new step. *)
Definition work_step (self : OptimHarness) (turns : nat) (request : OptimStepRequest)
    (platform : bool) : program ((OptimStepResult * TypedRef) + StepWork) :=
  run_result (for_each (λ candidate, validate_candidate_template candidate (sreq_run request))
                (sreq_candidates request)) ;;
  exact_request ← run_result (step_request_reference request);
  validate_prior_binding request ;;
  existing_ref ← resolve_result_binding (sreq_run_id request) (sreq_step_index request);
  match existing_ref with
  | Some existing_ref =>
      existing ← existing_step request exact_request existing_ref;
      Ret (inl existing)
  | None =>
      work ← perform_step self turns request exact_request platform;
      Ret (inr work)
  end.

Definition assemble_result (work : StepWork) : program OptimStepResult :=
  let output := sw_output work in
  state_ref ← persist_snapshot STATE_SNAPSHOT_SCHEMA (ao_state_delta output);
  history_ref ← persist_snapshot HISTORY_SNAPSHOT_SCHEMA (ao_history_delta output);
  retained ← match ao_retained_candidate output return program (option CandidateRef) with
             | None => Ret None
             | Some candidate => ref ← persist_candidate candidate; Ret (Some ref)
             end;
  run_result (OptimStepResult_validate
    {| sres_request := sw_request work; sres_proposed_candidates := sw_proposed work;
       sres_accepted_candidates := sw_accepted work; sres_resolved_intents := sw_resolutions work;
       sres_search_evidence := ao_search_evidence output;
       sres_tool_evidence := sw_tool_evidence work; sres_proposer_usage := ao_proposer_usage output;
       sres_state_ref := state_ref; sres_history_ref := history_ref;
       sres_budget_delta := ao_budget_delta output; sres_budget := sw_budget work;
       sres_status := ao_proposed_status output;
       sres_terminal_failure := ao_terminal_failure output;
       sres_seed_retained := ao_seed_retained output; sres_retained_candidate_ref := retained;
       sres_provenance_note := None; sres_provenance_ordinal := None |}).

(** Binding the result at its position. *)
Definition bind_step (result : OptimStepResult) : program (OptimStepResult * TypedRef) :=
  result_ref ← put_result result;
  exact ← run_result (step_result_reference result);
  check (bool_decide (result_ref = sresr_record_ref exact)) ValueError
    "persisted Step Result ref failed validation" ;;
  status ← try_bind (result_binding_key (sres_run_id result) (sres_step_index result))
             (TypedRef_reference result_ref);
  match status with
  | None => throw StepResultConflictError ""
  | Some IDEMPOTENT => loaded ← load_result result_ref; Ret (loaded, result_ref)
  | Some _ => Ret (result, result_ref)
  end.

Definition close_step (work : StepWork) : program (OptimStepResult * TypedRef) :=
  let request := sreqr_record (sw_request work) in
  (if nonempty (sw_deferred work)
   then persist_deferred_intents (sreq_run_id request) (sreq_step_index request) (sw_deferred work)
   else Ret tt) ;;
  result ← assemble_result work;
  bind_step result.

(** [run_step]: the harness after it, and the bound result or the exception. *)
Definition run_step (self : OptimHarness) (raw_request : OptimStepRequest) (platform : bool)
    (turns : nat) : program (OptimHarness * result (OptimStepResult * TypedRef)) :=
  opened ← attempt (open_step self raw_request);
  match opened with
  | Err e => Ret (self, Err e)
  | Ok request =>
      let self := with_deferred self [] in
      worked ← attempt (work_step self turns request platform);
      match worked with
      | Err e => Ret (self, Err e)
      | Ok (inl existing) => Ret (self, Ok existing)
      | Ok (inr work) =>
          let self := if nonempty (sw_deferred work) then with_deferred self (sw_deferred work)
                      else self in
          closed ← attempt (close_step work);
          Ret (self, closed)
      end
  end.

(** ** Ending a run *)

(** One turn of the loop of [_assemble_terminal]. *)
Definition terminal_step (run : OptimRunRef) (count : nat) (index : nat)
    (exact_result : OptimStepResultRef) : program OptimStepResult :=
  let run_id := run_run_id (runr_record run) in
  let ref := sresr_record_ref exact_result in
  actual ← resolve_result_binding run_id (Z.of_nat index);
  check (bool_decide (actual = Some ref)) ValueError
    "terminal Step Result refs must match ordered bindings" ;;
  result ← load_result ref;
  reference ← run_result (step_result_reference result);
  check (same OptimStepResultRef_dump reference exact_result) ValueError
    "terminal Step Result is not the exact supplied result" ;;
  check (bool_decide (sres_run_id result = run_id) &&
         (sres_step_index result =? Z.of_nat index)%Z) ValueError
    "terminal Step Result belongs to another run or position" ;;
  check (same OptimRunRef_dump (sres_run result) run) ValueError
    "terminal Step Result request belongs to another exact run" ;;
  check (negb ((index <? count - 1)%nat && negb (bool_decide (sres_status result = CONTINUE))))
    ValueError "only the final terminal Step Result may stop the run" ;;
  Ret result.

(** The loop, [index] steps into it. *)
Fixpoint terminal_steps (run : OptimRunRef) (count : nat) (index : nat)
    (step_results : list OptimStepResultRef) : program (list OptimStepResult) :=
  match step_results with
  | [] => Ret []
  | exact_result :: step_results =>
      result ← terminal_step run count index exact_result;
      results ← terminal_steps run count (S index) step_results;
      Ret (result :: results)
  end.

(** [ImmutableJsonObject(cost.record_content())]. *)
Definition frozen_cost (report : RunCostReport) : result (list (pystr * pyval)) :=
  frozen ← ImmutableJsonObject (RunCostReport_record_content report);
  match frozen with PFrozen kvs => Ok kvs | _ => raise TypeError "" end.

Definition proposals_of (final : OptimStepResult) : list OptimProposal :=
  if bool_decide (sres_status final = FAILED) then []
  else (λ c, {| op_candidate := c |}) <$> sres_accepted_candidates final.

Definition assemble_terminal (run : OptimRunRef) (step_results : list OptimStepResultRef) :
    program OptimResult :=
  results ← terminal_steps run (length step_results) 0 step_results;
  later ← resolve_result_binding (run_run_id (runr_record run)) (Z.of_nat (length step_results));
  check (negb (is_some later)) ValueError
    "terminal Step Result refs omit a later bound Step Result" ;;
  final ← run_result (of_option (last results) ValueError "list index out of range");
  check (negb (bool_decide (sres_status final = CONTINUE))) ValueError
    "cannot terminalize a continuing Step Result" ;;
  cost ← aggregate_run_cost results;
  cost ← run_result (frozen_cost cost);
  run_result (OptimResult_validate
    {| ores_run := run; ores_proposals := proposals_of final; ores_step_results := step_results;
       ores_cost := cost; ores_terminal_failure := sres_terminal_failure final;
       ores_seed_retained := sres_seed_retained final; ores_provenance_note := None;
       ores_provenance_ordinal := None |}).

(** Binding the terminal result of the run, [requested_ref] its reference. *)
Definition bind_terminal (run_id : pystr) (result : OptimResult) (requested_ref : TypedRef) :
    program (OptimResult * TypedRef) :=
  result_ref ← put_ref OPTIM_RESULT_SCHEMA (OptimResult_record_content result);
  check (bool_decide (result_ref = requested_ref)) ValueError
    "persisted Optimization Result ref failed validation" ;;
  status ← try_bind (terminal_binding_key run_id) (TypedRef_reference result_ref);
  match status with
  | None => throw OptimResultConflictError ""
  | Some IDEMPOTENT =>
      bound ← resolve_optimization_result run_id;
      bound ← run_result (of_option bound RuntimeError
        "idempotent Optimization Result binding disappeared");
      replay ← load_run_result bound;
      check (bool_decide (bound = result_ref) && same OptimResult_record_content replay result)
        OptimResultConflictError "" ;;
      Ret (replay, bound)
  | Some _ => Ret (result, result_ref)
  end.

Definition terminalize (self : OptimHarness) (run : OptimRunRef)
    (step_results : list OptimStepResultRef) : program (OptimResult * TypedRef) :=
  bound_run ← run_result (of_option (h_bound_run self) ValueError
    "bind_run must be called before terminalize");
  exact_run ← run_result (OptimRunRef_model_validate run);
  check (same OptimRunRef_dump exact_run bound_run) ValueError
    "terminalize run differs from the bound exact run" ;;
  check (nonempty step_results) ValueError "terminalize requires at least one Step Result" ;;
  exact_step_results ← run_result (mapM OptimStepResultRef_model_validate step_results);
  let run_id := run_run_id (runr_record exact_run) in
  result ← assemble_terminal exact_run exact_step_results;
  requested_ref ← run_result (optimization_result_reference result);
  existing_ref ← resolve_optimization_result run_id;
  match existing_ref with
  | Some existing_ref =>
      existing ← load_run_result existing_ref;
      check (bool_decide (existing_ref = requested_ref) &&
             same OptimResult_record_content existing result) OptimResultConflictError "" ;;
      Ret (existing, existing_ref)
  | None => bind_terminal run_id result requested_ref
  end.

(** [carry_budget_forward]. *)
Definition carry_budget_forward (prior : OptimStepResult) : BudgetState := sres_budget prior.
End Harness.

(** ** Processes

    A process builds a harness and calls it; a foreign process writes objects
    and binds keys that are not the harness's (the adapter, the evaluation
    engine and the platform share the store). Nothing is assumed of the order
    of the calls, of their arguments or of the number of processes. *)
Inductive HarnessCall :=
| BindRun (run : OptimRun + OptimRunRef)
| RunStep (request : OptimStepRequest) (platform : bool) (turns : nat)
| Terminalize (run : OptimRunRef) (step_results : list OptimStepResultRef).

Inductive CallOutcome :=
| RunBound (run : OptimRunRef)
| StepBound (result : OptimStepResult) (ref : TypedRef)
| ResultBound (result : OptimResult) (ref : TypedRef)
| Raised (e : exn).

Inductive ForeignCall :=
| ForeignPut (schema : pystr) (content : pyval)
| ForeignBind (key : pystr) (reference : ObjectReference).

Inductive Job :=
| HarnessJob (harness : OptimHarness) (calls : list HarnessCall)
| ForeignJob (calls : list ForeignCall).

Section Processes.
Context `{DSer : !DrSerialize, DSto : !DrStore, DLease : !DrLease, Uni : !UnicodeIdentifiers}.
Context `{Recs : !OptimRecords} {J O : Type}.
Abbreviation program := (prog J O Answer).

Definition call_harness (self : OptimHarness) (call : HarnessCall) :
    program (OptimHarness * CallOutcome) :=
  match call with
  | BindRun run =>
      bound ← attempt (bind_run run);
      Ret match bound with
          | Ok exact => (with_run self exact, RunBound exact)
          | Err e => (self, Raised e)
          end
  | RunStep request platform turns =>
      '(self, stepped) ← run_step self request platform turns;
      Ret (self, match stepped with Ok (r, ref) => StepBound r ref | Err e => Raised e end)
  | Terminalize run step_results =>
      ended ← attempt (terminalize self run step_results);
      Ret (self, match ended with Ok (r, ref) => ResultBound r ref | Err e => Raised e end)
  end.

Fixpoint serve (self : OptimHarness) (calls : list HarnessCall)
    (outcomes : list (HarnessCall * CallOutcome)) : program (list (HarnessCall * CallOutcome)) :=
  match calls with
  | [] => Ret outcomes
  | call :: calls =>
      '(self, outcome) ← call_harness self call;
      serve self calls (outcomes ++ [(call, outcome)])
  end.

Definition foreign_call (call : ForeignCall) : program unit :=
  match call with
  | ForeignPut schema content => attempt (put schema content) ;; Ret tt
  | ForeignBind key reference => attempt (bind key reference) ;; Ret tt
  end.

End Processes.

Definition harness_code `{DSer : !DrSerialize, DSto : !DrStore, DLease : !DrLease, Uni : !UnicodeIdentifiers}
    `{Recs : !OptimRecords} (job : Job) :
    prog Job (list (HarnessCall * CallOutcome)) Answer (list (HarnessCall * CallOutcome)) :=
  match job with
  | HarnessJob self calls => serve self calls []
  | ForeignJob calls => mapM foreign_call calls ;; Ret []
  end.
