(* ===== verification/RunLog.v ===== *)
(** * RunLog: a run is an append-only log

    The specification of the harness of [Harness.v] and its refinement. What
    the bindings of a run amount to is a log ([RunLog]): the run is opened
    once, step results are appended one after the other, each continuing the
    last, and a final result closes it. [harness_refines_run_log] shows that
    whatever processes run harnesses over one store, and whatever else shares
    the store, each run's bindings only ever move by steps of that log. *)

From S2P Require Import Prelude Floats Identity Leasing EvalConfigs Reward Tools Admission.
From S2P Require Import Process Claims Candidate Cost OptimContracts IssuedCalls RunCost RunStore Harness.

(** ** The specification *)

(** What a bound step result says of its place in the run; documents are
    canonical, as [same] compares them. *)
Record StepEntry := {
  en_ref : TypedRef;
  en_run_ref : TypedRef;
  en_run : pyval;
  en_prior : option TypedRef;
  en_prior_state : option TypedRef;
  en_prior_history : option TypedRef;
  en_budget_before : pyval;
  en_state_ref : option TypedRef;
  en_history_ref : option TypedRef;
  en_budget_after : pyval;
  en_status : StepStatus;
}.

Definition entry_of (ref : TypedRef) (r : OptimStepResult) : StepEntry :=
  let request := sreqr_record (sres_request r) in
  {| en_ref := ref; en_run_ref := runr_record_ref (sreq_run request);
     en_run := canonicalize_validated_json (OptimRunRef_dump (sreq_run request));
     en_prior := sreq_prior_step_result_ref request;
     en_prior_state := sreq_prior_state_ref request;
     en_prior_history := sreq_prior_history_ref request;
     en_budget_before := canonicalize_validated_json (BudgetState_dump (sreq_budget request));
     en_state_ref := sres_state_ref r; en_history_ref := sres_history_ref r;
     en_budget_after := canonicalize_validated_json (BudgetState_dump (sres_budget r));
     en_status := sres_status r |}.

Record RunLog := {
  lg_run : option TypedRef;
  lg_steps : list StepEntry;
  lg_result : option TypedRef;
}.

Definition empty_log : RunLog := {| lg_run := None; lg_steps := []; lg_result := None |}.

(** The first step cites nothing; a later one follows a continuing step of the
    same run and cites its exact result, state, history and budget. *)
Definition continues (prior : option StepEntry) (e : StepEntry) : Prop :=
  match prior with
  | None => en_prior e = None ∧ en_prior_state e = None ∧ en_prior_history e = None
  | Some p =>
      en_status p = CONTINUE ∧ en_prior e = Some (en_ref p) ∧ en_run e = en_run p ∧
      en_prior_state e = en_state_ref p ∧ en_prior_history e = en_history_ref p ∧
      en_budget_before e = en_budget_after p
  end.

Section Specification.
Context `{DSer : !DrSerialize, DSto : !DrStore, DLease : !DrLease, Uni : !UnicodeIdentifiers}.
Variable id : pystr.

Definition run_entry (ref : TypedRef) : Prop :=
  ∃ run, run_run_id run = id ∧ OptimRun_model_validate run = Ok run ∧
    typed_ref_for_record OPTIM_RUN_SCHEMA (OptimRun_record_content run) = Ok ref.

(** An accepted step result of the run at position [i], under its own
    reference. *)
Definition step_entry (i : nat) (e : StepEntry) : Prop :=
  ∃ r, OptimStepResult_validate r = Ok r ∧ sres_run_id r = id ∧ sres_step_index r = Z.of_nat i ∧
    typed_ref_for_record STEP_RESULT_SCHEMA (OptimStepResult_record_content r) = Ok (en_ref e) ∧
    e = entry_of (en_ref e) r.

(** An accepted result of the run that cites exactly the logged steps. *)
Definition result_entry (steps : list StepEntry) (ref : TypedRef) : Prop :=
  ∃ res, OptimResult_validate res = Ok res ∧ run_run_id (runr_record (ores_run res)) = id ∧
    typed_ref_for_record OPTIM_RESULT_SCHEMA (OptimResult_record_content res) = Ok ref ∧
    sresr_record_ref <$> ores_step_results res = en_ref <$> steps ∧
    Forall (λ e, en_run e = canonicalize_validated_json (OptimRunRef_dump (ores_run res))) steps.

Inductive log_step : RunLog → RunLog → Prop :=
| log_open ref :
    run_entry ref →
    log_step empty_log {| lg_run := Some ref; lg_steps := []; lg_result := None |}
| log_append run steps e :
    step_entry (length steps) e → en_run_ref e = run → continues (last steps) e →
    log_step {| lg_run := Some run; lg_steps := steps; lg_result := None |}
             {| lg_run := Some run; lg_steps := steps ++ [e]; lg_result := None |}
| log_finish run steps final ref :
    last steps = Some final → en_status final ≠ CONTINUE → result_entry steps ref →
    log_step {| lg_run := Some run; lg_steps := steps; lg_result := None |}
             {| lg_run := Some run; lg_steps := steps; lg_result := Some ref |}.

(** ** What every log satisfies *)

Definition chained (L : RunLog) : Prop :=
  ∀ i e, lg_steps L !! i = Some e →
    step_entry i e ∧ lg_run L = Some (en_run_ref e) ∧
    continues (match i with O => None | S i => lg_steps L !! i end) e.

Definition log_ok (L : RunLog) : Prop :=
  chained L ∧ (lg_run L = None → L = empty_log) ∧ from_option run_entry True (lg_run L) ∧
  (∀ ref, lg_result L = Some ref →
     result_entry (lg_steps L) ref ∧
     ∃ final, last (lg_steps L) = Some final ∧ en_status final ≠ CONTINUE).

Lemma last_lookup_pred {A} (l : list A) :
  last l = match length l with O => None | S n => l !! n end.
Proof. rewrite last_lookup. by destruct l. Qed.

Lemma log_ok_step L L' : log_step L L' → log_ok L → log_ok L'.
Proof.
  intros Hs (Hc & He & Hr & Hf). destruct Hs as [ref Hrun|run steps e Hstep Hrun Hl|run steps final ref Hl Hst Hres].
  - split_and!; simpl; [by intros i e ?|done|done|done].
  - split_and!; simpl; [|done|done|done].
    intros i e'. simpl. rewrite lookup_app_Some. intros [Hi|[Hi He']].
    + destruct (Hc i e' Hi) as (? & ? & Hk). split_and!; [done..|].
      destruct i as [|i]; [done|]. rewrite lookup_app_l; [done|].
      apply lookup_lt_Some in Hi. simpl in *. lia.
    + apply list_lookup_singleton_Some in He' as [Hz <-].
      assert (i = length steps) as -> by lia. split_and!; [done|by rewrite Hrun|].
      rewrite last_lookup_pred in Hl. destruct (length steps) as [|n] eqn:Hn; [done|].
      rewrite lookup_app_l by lia. done.
  - split_and!; simpl; [done|done|done|]. intros ref' [= <-]. eauto.
Qed.

Lemma log_ok_empty : log_ok empty_log.
Proof. split_and!; simpl; [by intros i e ?|done..]. Qed.

Lemma log_ok_reachable L : rtc log_step empty_log L → log_ok L.
Proof.
  generalize log_ok_empty. generalize empty_log. intros L0 H0. induction 1; eauto using log_ok_step.
Qed.

(** A log that extends another is reached from it. *)
Definition extends (L L' : RunLog) : Prop :=
  (lg_run L = None ∨ lg_run L = lg_run L') ∧ lg_steps L `prefix_of` lg_steps L' ∧
  (lg_result L = None ∨ lg_result L = lg_result L').

Lemma append_all L run n :
  log_ok L → lg_run L = Some run → (n <= length (lg_steps L))%nat →
  rtc log_step {| lg_run := Some run; lg_steps := take n (lg_steps L); lg_result := None |}
               {| lg_run := Some run; lg_steps := lg_steps L; lg_result := None |}.
Proof.
  intros (Hc & _) Hrun. remember (length (lg_steps L) - n)%nat as k eqn:Hk. revert n Hk.
  induction k as [|k IH]; intros n Hk Hn; [by rewrite take_ge by lia|].
  destruct (lookup_lt_is_Some_2 (lg_steps L) n) as [e He]; [lia|].
  destruct (Hc n e He) as (Hs & Hr & Hcont). eapply rtc_l; [|apply (IH (S n)); lia].
  rewrite (take_S_r _ _ _ He). apply log_append.
  - by rewrite length_take_le by lia.
  - congruence.
  - rewrite last_lookup_pred, length_take_le by lia. destruct n as [|n]; [done|].
    by rewrite lookup_take_lt by lia.
Qed.

Lemma extends_reached L L' : log_ok L → log_ok L' → extends L L' → rtc log_step L L'.
Proof.
  intros HL HL' (Hrun & Hsteps & Hres).
  destruct (decide (lg_result L = None)) as [Hnone|Hsome].
  2: { destruct HL as (_ & HE & _ & HF), HL' as (Hc & _).
       destruct Hres as [?|Hres]; [done|]. destruct (lg_result L) as [ref|] eqn:E; [|done].
       destruct (HF ref eq_refl) as (_ & final & Hl & Hst).
       assert (lg_run L = lg_run L') as Hrun' by (destruct Hrun as [Hn|]; [by rewrite (HE Hn) in E|done]).
       assert (lg_steps L = lg_steps L') as Hst'.
       { destruct Hsteps as [[|e k] Hk]; [by rewrite Hk, app_nil_r|]. destruct Hst.
         rewrite last_lookup_pred in Hl. destruct (length (lg_steps L)) as [|n] eqn:Hn; [done|].
         destruct (Hc (S n) e) as (_ & _ & Hcont); [by rewrite Hk, <-Hn, list_lookup_middle|].
         rewrite Hk, lookup_app_l, Hl in Hcont by lia. by destruct Hcont. }
       destruct L, L'; simpl in *. subst. done. }
  destruct (decide (lg_run L' = None)) as [HN|HS].
  { destruct HL as (_ & HE & _), HL' as (_ & HE' & _). rewrite (HE' HN), (HE) by (destruct Hrun; congruence).
    done. }
  destruct (lg_run L') as [run|] eqn:Hr'; [|done].
  assert (rtc log_step L {| lg_run := Some run; lg_steps := lg_steps L; lg_result := None |}) as H1.
  { destruct Hrun as [HN|HR].
    - destruct HL as (_ & HE & _). rewrite (HE HN) in *. simpl. apply rtc_once.
      change {| lg_run := Some run; lg_steps := _; lg_result := _ |} with
        {| lg_run := Some run; lg_steps := []; lg_result := None |}. apply log_open.
      destruct HL' as (_ & _ & Hre & _). by rewrite Hr' in Hre.
    - destruct L; simpl in *. by subst. }
  etransitivity; [exact H1|].
  assert (lg_steps L = take (length (lg_steps L)) (lg_steps L')) as Htake.
  { destruct Hsteps as [k ->]. by rewrite take_app_length. }
  rewrite Htake. etransitivity; [apply (append_all L' run); [done..|by apply prefix_length]|].
  destruct (lg_result L') as [ref|] eqn:E; [|by destruct L'; simpl in *; subst].
  destruct HL' as (_ & _ & _ & HF). destruct (HF ref E) as (Hre & final & Hl & Hst).
  destruct L'; simpl in *. subst. apply rtc_once. by eapply log_finish.
Qed.
End Specification.

(** ** References and documents *)
Section Documents.
Context `{DSer : !DrSerialize, DSto : !DrStore, DOs : !DrObjectStore, DLaws : !DrObjectStoreLaws}.

Lemma TypedRef_reference_inj a b : TypedRef_reference a = TypedRef_reference b → a = b.
Proof. destruct a, b. unfold TypedRef_reference. simpl. by intros [= -> ->]. Qed.

Lemma typed_ref_for_record_Ok schema v reference ref :
  for_record schema v = Ok reference → typed_ref reference = Ok ref →
  typed_ref_for_record schema v = Ok ref.
Proof.
  unfold typed_ref_for_record, typed_ref, TypedRef_new, NonEmptyId, ContentHash,
    ValidatedString_new. intros -> H. inv_result. simpl. by rewrite Hiv1, Hiv0.
Qed.

Lemma typed_ref_for_record_reference schema v ref :
  typed_ref_for_record schema v = Ok ref → for_record schema v = Ok (TypedRef_reference ref).
Proof.
  unfold typed_ref_for_record. intros H. apply bind_Ok in H as (reference & Hr & Hn).
  rewrite Hr. f_equal. symmetry. unfold TypedRef_new in Hn. inv_result.
  unfold NonEmptyId, ContentHash, ValidatedString_new in *. inv_result. by destruct reference.
Qed.
End Documents.

Lemma StepStatus_value_inj a b : StepStatus_value a = StepStatus_value b → a = b.
Proof. destruct a, b; try done; by intros H%py_inj. Qed.

Lemma ref_option_inj (x y : option TypedRef) :
  POption TypedRef_dump x = POption TypedRef_dump y → x = y.
Proof. apply POption_inj; [done|]. apply TypedRef_dump_inj. Qed.

Lemma run_dump_fields a b :
  OptimRunRef_dump a = OptimRunRef_dump b →
  run_run_id (runr_record a) = run_run_id (runr_record b) ∧ runr_record_ref a = runr_record_ref b.
Proof.
  unfold OptimRunRef_dump. hide TypedRef_dump. intros H. injection H. clear H. intros.
  split; [done|]. apply TypedRef_dump_inj. congruence.
Qed.

Lemma request_dump_fields a b :
  OptimStepRequest_record_content a = OptimStepRequest_record_content b →
  OptimRunRef_dump (sreq_run a) = OptimRunRef_dump (sreq_run b) ∧
  sreq_step_index a = sreq_step_index b ∧
  BudgetState_dump (sreq_budget a) = BudgetState_dump (sreq_budget b) ∧
  sreq_prior_step_result_ref a = sreq_prior_step_result_ref b ∧
  sreq_prior_state_ref a = sreq_prior_state_ref b ∧
  sreq_prior_history_ref a = sreq_prior_history_ref b.
Proof.
  unfold OptimStepRequest_record_content. hide OptimRunRef_dump. hide BudgetState_dump.
  hide OutputContract_dump. intros H. injection H. clear H. intros.
  repeat match goal with H : POption TypedRef_dump _ = _ |- _ => apply ref_option_inj in H end.
  split_and!; congruence.
Qed.

(** The entry of a step result is read off its document. *)
Lemma content_fields r r' :
  OptimStepResult_record_content r = OptimStepResult_record_content r' →
  sres_run_id r = sres_run_id r' ∧ sres_step_index r = sres_step_index r' ∧
  ∀ ref, entry_of ref r = entry_of ref r'.
Proof.
  unfold OptimStepResult_record_content, OptimStepRequestRef_dump, entry_of, sres_run_id,
    sres_step_index, sreq_run_id.
  hide OptimStepRequest_record_content. hide BudgetState_dump. hide BudgetDelta_dump.
  intros H. injection H. clear H. intros.
  repeat match goal with H : POption TypedRef_dump _ = _ |- _ => apply ref_option_inj in H end.
  match goal with H : StepStatus_value _ = _ |- _ => apply StepStatus_value_inj in H end.
  destruct (request_dump_fields (sreqr_record (sres_request r)) (sreqr_record (sres_request r')))
    as (Hrun & ? & Hb & ? & ? & ?); [congruence|].
  destruct (run_dump_fields _ _ Hrun) as [? ?].
  split_and!; [done..|]. intros ref. f_equal; congruence.
Qed.

(** ** Keys *)

Lemma result_binding_key_inj id i id' i' :
  result_binding_key id i = result_binding_key id' i' → id = id' ∧ i = i'.
Proof.
  unfold result_binding_key. intros H%app_inv_head.
  apply (split_last 35%Z) in H as [-> H]; [|apply int_text_no_hash..].
  split; [done|]. by apply int_text_inj.
Qed.

Lemma result_terminal_ne id i id' : result_binding_key id i ≠ terminal_binding_key id'.
Proof. apply (prefix_ne 18); [by vm_compute; lia..|by vm_compute]. Qed.
Lemma result_run_ne id i id' : result_binding_key id i ≠ run_binding_key id'.
Proof. apply (prefix_ne 18); [by vm_compute; lia..|by vm_compute]. Qed.
Lemma terminal_run_ne id id' : terminal_binding_key id ≠ run_binding_key id'.
Proof. apply (prefix_ne 18); [by vm_compute; lia..|by vm_compute]. Qed.

(** The keys that are not the harness's. *)
Definition foreign_key (k : pystr) : Prop :=
  (∀ id, k ≠ run_binding_key id) ∧ (∀ id, k ≠ terminal_binding_key id) ∧
  ∀ id i, k ≠ result_binding_key id i.

Lemma prefix_foreign (n : nat) prefix x :
  (n <= length prefix)%nat → (n <= 20)%nat →
  forallb (λ p, negb (bool_decide (take n prefix = take n p)))
    [RUN_BINDING_PREFIX; OPTIM_RESULT_BINDING_PREFIX; STEP_RESULT_BINDING_PREFIX] = true →
  foreign_key (prefix ++ x).
Proof.
  simpl. rewrite !andb_true_iff, !negb_true_iff, !bool_decide_eq_false. intros Hn Hn' (H1 & H2 & H3 & _).
  split_and!; intros id; [| |intros i];
    (apply (prefix_ne n); [done|etransitivity; [exact Hn'|by vm_compute; lia]|done]).
Qed.

(** ** A log in a store *)
Section Representation.
Context `{DSer : !DrSerialize, DSto : !DrStore, DLease : !DrLease, Uni : !UnicodeIdentifiers}.
Context `{DOs : !DrObjectStore, DLaws : !DrObjectStoreLaws}.

Definition bound_to (s : ostate) (key : pystr) (ref : option TypedRef) : Prop :=
  store_resolve s key = TypedRef_reference <$> ref.

(** The bindings of the run [id] in [s] amount to the log [L]. *)
Definition logged (s : ostate) (id : pystr) (L : RunLog) : Prop :=
  bound_to s (run_binding_key id) (lg_run L) ∧
  bound_to s (terminal_binding_key id) (lg_result L) ∧
  (∀ i : nat, bound_to s (result_binding_key id (Z.of_nat i)) (en_ref <$> lg_steps L !! i)) ∧
  ∀ i e, lg_steps L !! i = Some e →
    ∃ r, store_get s (TypedRef_reference (en_ref e)) = Ok (OptimStepResult_record_content r) ∧
         e = entry_of (en_ref e) r.

Lemma bound_to_fun s key x y : bound_to s key x → bound_to s key y → x = y.
Proof.
  unfold bound_to. intros -> H. destruct x as [x|], y as [y|]; simpl in H; try done.
  injection H as H1 H2. f_equal. apply TypedRef_reference_inj. unfold TypedRef_reference. congruence.
Qed.

(** Two entries that their references and stored documents give are equal. *)
Lemma entries_equal s e e' :
  en_ref e = en_ref e' →
  (∃ r, store_get s (TypedRef_reference (en_ref e)) = Ok (OptimStepResult_record_content r) ∧
        e = entry_of (en_ref e) r) →
  (∃ r, store_get s (TypedRef_reference (en_ref e')) = Ok (OptimStepResult_record_content r) ∧
        e' = entry_of (en_ref e') r) → e = e'.
Proof.
  intros He (r & Hg & Hr) (r' & Hg' & Hr'). rewrite <-He, Hg in Hg'. apply (inj Ok) in Hg' as Hcont.
  destruct (content_fields r r') as (_ & _ & Hf); [exact Hcont|].
  rewrite Hr, Hr', <-He. apply Hf.
Qed.

Lemma logged_fun s id L L' : logged s id L → logged s id L' → L = L'.
Proof.
  intros (Hr & Ht & Hs & Hc) (Hr' & Ht' & Hs' & Hc').
  pose proof (bound_to_fun _ _ _ _ Hr Hr'). pose proof (bound_to_fun _ _ _ _ Ht Ht').
  assert (lg_steps L = lg_steps L'); [|destruct L, L'; simpl in *; by subst].
  apply list_eq. intros i. pose proof (bound_to_fun _ _ _ _ (Hs i) (Hs' i)) as He.
  destruct (lg_steps L !! i) as [e|] eqn:E, (lg_steps L' !! i) as [e'|] eqn:E'; try done.
  injection He as He. f_equal. apply (entries_equal s); eauto.
Qed.

(** Bindings and objects only grow, so a later log extends an earlier one. *)
Lemma logged_extends s s' id L L' :
  grows s s' → logged s id L → logged s' id L' → extends L L'.
Proof.
  intros [Hg Hres] (Hr & Ht & Hs & Hc) (Hr' & Ht' & Hs' & Hc').
  assert (∀ key x y, bound_to s key x → bound_to s' key y → x = None ∨ x = y) as Hkey.
  { intros key [x|] y Hx Hy; [right|by left]. symmetry. apply Hres in Hx. by eapply bound_to_fun. }
  split_and!; [by eapply Hkey| |by eapply Hkey].
  assert (∀ i e, lg_steps L !! i = Some e → lg_steps L' !! i = Some e) as Hpre.
  { intros i e He. pose proof (Hs i) as Hi. rewrite He in Hi.
    destruct (Hkey _ _ _ Hi (Hs' i)) as [?|Hi']; [done|]. simpl in Hi'.
    destruct (lg_steps L' !! i) as [e'|] eqn:E'; [|done]. injection Hi' as Hi'.
    f_equal. symmetry. apply (entries_equal s'); [done| |by eapply Hc'].
    destruct (Hc i e He) as (r & Hget & Hr1). exists r. split; [by apply Hg|done]. }
  exists (drop (length (lg_steps L)) (lg_steps L')).
  rewrite <-(take_drop (length (lg_steps L)) (lg_steps L')) at 1. f_equal.
  apply list_eq. intros i. destruct (decide (i < length (lg_steps L))%nat) as [Hi|Hi].
  - rewrite lookup_take_lt by done. destruct (lookup_lt_is_Some_2 _ _ Hi) as [e He].
    by rewrite He, (Hpre i e He).
  - rewrite lookup_take_ge, lookup_ge_None_2 by lia. done.
Qed.

(** ** The invariant of the store *)

Definition runs_inv (s : ostate) : Prop :=
  ∀ id, ∃ L, rtc (log_step id) empty_log L ∧ logged s id L.

Lemma logged_same s s' id L :
  grows s s' →
  (∀ k, (k = run_binding_key id ∨ k = terminal_binding_key id ∨ ∃ i, k = result_binding_key id i) →
     store_resolve s' k = store_resolve s k) →
  logged s id L → logged s' id L.
Proof.
  intros [Hg _] Hk (Hr & Ht & Hs & Hc). unfold logged, bound_to in *.
  split_and!; [rewrite Hk by auto; done..|intros i; rewrite Hk by eauto; done|].
  intros i e He. destruct (Hc i e He) as (r & Hget & Hr'). exists r. split; [by apply Hg|done].
Qed.

Lemma runs_inv_same s s' :
  grows s s' → (∀ k, ¬ foreign_key k → store_resolve s' k = store_resolve s k) →
  runs_inv s → runs_inv s'.
Proof.
  intros Hg Hk Hinv id. destruct (Hinv id) as (L & HL & Hl). exists L. split; [done|].
  eapply logged_same; [done| |done]. intros k Hkey. apply Hk. intros (H1 & H2 & H3).
  destruct Hkey as [->|[->|[i ->]]]; naive_solver.
Qed.

Lemma runs_inv_put s schema v : runs_inv s → runs_inv (store_put s schema v).2.
Proof. apply runs_inv_same; [apply put_grows|]. intros k _. apply put_resolve. Qed.

Lemma runs_inv_foreign s k r : foreign_key k → runs_inv s → runs_inv (store_bind s k r).2.
Proof.
  intros Hf. apply runs_inv_same; [apply bind_grows|]. intros k' Hk'. apply bind_other. by intros ->.
Qed.

(** Binding a key changes nothing or binds it first. *)
Lemma bind_cases s k r :
  (∀ k', store_resolve (store_bind s k r).2 k' = store_resolve s k') ∨
  store_resolve s k = None ∧ store_resolve (store_bind s k r).2 k = Some r.
Proof.
  destruct (store_resolve s k) as [r0|] eqn:E.
  - left. intros k'. destruct (decide (k' = k)) as [->|]; [|by apply bind_other].
    rewrite E. by apply bind_first.
  - destruct (store_resolve (store_bind s k r).2 k) as [r1|] eqn:E1.
    + right. split; [done|]. by rewrite (bind_new s k r r1).
    + left. intros k'. destruct (decide (k' = k)) as [->|]; [congruence|by apply bind_other].
Qed.

(** Binding a first key of the run [id]: it is enough to say what its log
    becomes. *)
Lemma runs_inv_bind s k r id :
  runs_inv s →
  (∀ id', id' ≠ id → k ≠ run_binding_key id' ∧ k ≠ terminal_binding_key id' ∧
     ∀ i, k ≠ result_binding_key id' i) →
  (∀ L, rtc (log_step id) empty_log L → logged s id L → store_resolve s k = None →
     store_resolve (store_bind s k r).2 k = Some r →
     ∃ L', log_step id L L' ∧ logged (store_bind s k r).2 id L') →
  runs_inv (store_bind s k r).2.
Proof.
  intros Hinv Hk Hnew. pose proof (bind_grows s k r) as Hg.
  destruct (bind_cases s k r) as [Hsame|[Hnone Hsome]]; [eapply runs_inv_same; eauto|].
  intros id'. destruct (Hinv id') as (L & HL & Hl). destruct (decide (id' = id)) as [->|Hne].
  - destruct (Hnew L HL Hl Hnone Hsome) as (L' & Hs & Hl'). exists L'. split; [|done].
    by eapply rtc_r.
  - exists L. split; [done|]. eapply logged_same; [done| |done].
    destruct (Hk id' Hne) as (H1 & H2 & H3). intros k' Hk'. apply bind_other.
    destruct Hk' as [->|[->|[i ->]]]; [congruence..|]. intros <-. by eapply H3.
Qed.

(** A bound step result is stored as a step result's document. *)
Lemma bound_step_stored s id i reference :
  runs_inv s → (0 <= i)%Z → store_resolve s (result_binding_key id i) = Some reference →
  ∃ r, store_get s reference = Ok (OptimStepResult_record_content r).
Proof.
  intros Hinv Hi Hres. destruct (Hinv id) as (L & _ & _ & _ & Hs & Hc).
  specialize (Hs (Z.to_nat i)). rewrite Z2Nat.id in Hs by done. unfold bound_to in Hs.
  rewrite Hres in Hs. destruct (lg_steps L !! Z.to_nat i) as [e|] eqn:E; [|done].
  injection Hs as ->. destruct (Hc _ e E) as (r & Hget & _). by exists r.
Qed.

(** ** Opening a run *)

Lemma runs_inv_open s id ref :
  run_entry id ref → runs_inv s →
  runs_inv (store_bind s (run_binding_key id) (TypedRef_reference ref)).2.
Proof.
  intros Hrun Hinv. apply (runs_inv_bind _ _ _ id); [done| |].
  - intros id' Hne. split_and!; [intros H%app_inv_head; congruence| |intros i];
      symmetry; first [apply terminal_run_ne|apply result_run_ne].
  - intros L HL (Hr & Ht & Hs & Hc) Hnone Hsome.
    destruct (log_ok_reachable _ _ HL) as (_ & HE & _ & _).
    assert (lg_run L = None) as HN.
    { unfold bound_to in Hr. rewrite Hnone in Hr. by destruct (lg_run L). }
    rewrite (HE HN) in *. eexists. split; [by apply log_open|]. unfold logged, bound_to in *. simpl in *.
    split_and!; [done| |intros i|done].
    + rewrite bind_other; [done|apply terminal_run_ne].
    + rewrite bind_other; [by apply Hs|apply result_run_ne].
Qed.

(** ** Appending a step *)

(** What the guards of a step have read: nothing before it, or the exact
    preceding result. *)
Definition preceded (s : ostate) (request : OptimStepRequest) : Prop :=
  sreq_step_index request = 0%Z ∧ check_initial request = Ok tt ∨
  (0 < sreq_step_index request)%Z ∧ ∃ p pref,
    store_resolve s (result_binding_key (sreq_run_id request) (sreq_step_index request - 1)) =
      Some (TypedRef_reference pref) ∧
    store_get s (TypedRef_reference pref) = Ok (OptimStepResult_record_content p) ∧
    sreq_prior_step_result_ref request = Some pref ∧ check_preceding request p = Ok tt.

(** What opening a step established: the run is bound, and what precedes it. *)
Definition opened (s : ostate) (request : OptimStepRequest) : Prop :=
  (0 <= sreq_step_index request)%Z ∧
  store_resolve s (run_binding_key (sreq_run_id request)) =
    Some (TypedRef_reference (runr_record_ref (sreq_run request))).

Record step_ready (s : ostate) (ref : TypedRef) (r : OptimStepResult) : Prop := {
  ready_valid : OptimStepResult_validate r = Ok r;
  ready_ref : typed_ref_for_record STEP_RESULT_SCHEMA (OptimStepResult_record_content r) = Ok ref;
  ready_get : store_get s (TypedRef_reference ref) = Ok (OptimStepResult_record_content r);
  ready_opened : opened s (sreqr_record (sres_request r));
  ready_preceded : preceded s (sreqr_record (sres_request r));
}.

Lemma preceded_grows s s' request : grows s s' → preceded s request → preceded s' request.
Proof.
  intros [Hg Hr] [?|(? & p & pref & ? & ? & ?)]; [by left|right]. split; [done|].
  exists p, pref. split_and!; auto; tauto.
Qed.

Lemma opened_grows s s' request : grows s s' → opened s request → opened s' request.
Proof. intros [Hg Hr] [? ?]. split; auto. Qed.

Lemma step_ready_grows s s' ref r : grows s s' → step_ready s ref r → step_ready s' ref r.
Proof.
  intros Hgr [? ? Hget ? ?]. split; [done|done|by apply Hgr|by eapply opened_grows|by eapply preceded_grows].
Qed.

(** The log of the run has the bound entry of every position. *)
Lemma logged_entry s id L (i : nat) ref p :
  logged s id L → store_resolve s (result_binding_key id (Z.of_nat i)) = Some (TypedRef_reference ref) →
  store_get s (TypedRef_reference ref) = Ok (OptimStepResult_record_content p) →
  lg_steps L !! i = Some (entry_of ref p).
Proof.
  intros (_ & _ & Hs & Hc) Hres Hget. specialize (Hs i). unfold bound_to in Hs. rewrite Hres in Hs.
  destruct (lg_steps L !! i) as [e|] eqn:E; [|done].
  assert (en_ref e = ref) as He.
  { apply TypedRef_reference_inj. simpl in Hs. congruence. }
  f_equal. apply (entries_equal s); [done|by eapply Hc|]. exists p. split; [done|]. done.
Qed.

(** The entry of a new step continues the last one of the log. *)
Lemma preceded_continues s L r ref :
  preceded s (sreqr_record (sres_request r)) → (0 <= sres_step_index r)%Z →
  logged s (sres_run_id r) L → lg_steps L !! Z.to_nat (sres_step_index r) = None →
  Z.to_nat (sres_step_index r) = length (lg_steps L) ∧
  continues (last (lg_steps L)) (entry_of ref r).
Proof.
  intros [[Hi Hinit]|(Hi & p & pref & Hres & Hget & Hprior & Hchk)] _ Hl Hnone.
  - unfold sres_step_index in *. rewrite Hi in *. simpl in *. destruct (lg_steps L); [|done].
    split; [done|]. unfold check_initial in Hinit. inv_result. inv_bool.
    simpl. unfold is_some in *. repeat case_match; done.
  - unfold sres_step_index, sres_run_id in *.
    set (request := sreqr_record (sres_request r)) in *.
    assert (sreq_step_index request - 1 = Z.of_nat (Z.to_nat (sreq_step_index request) - 1))%Z
      as Hpred by lia.
    rewrite Hpred in Hres. pose proof (logged_entry _ _ _ _ _ _ Hl Hres Hget) as He.
    pose proof (lookup_lt_Some _ _ _ He). apply lookup_ge_None_1 in Hnone.
    assert (Z.to_nat (sreq_step_index request) = length (lg_steps L)) as Hlen by lia.
    split; [done|]. rewrite last_lookup_pred. destruct (length (lg_steps L)) as [|n] eqn:En; [lia|].
    replace (Z.to_nat (sreq_step_index request) - 1)%nat with n in He by lia. rewrite He.
    unfold check_preceding, same, sres_run in Hchk. inv_ok.
    cbv beta iota zeta delta [continues entry_of en_status en_prior en_ref en_run en_prior_state
      en_state_ref en_prior_history en_history_ref en_budget_before en_budget_after].
    fold request. split_and!; congruence.
Qed.

(** The representation after the next position is bound. *)
Lemma logged_append s id L ref r :
  logged s id L → store_get s (TypedRef_reference ref) = Ok (OptimStepResult_record_content r) →
  store_resolve (store_bind s (result_binding_key id (Z.of_nat (length (lg_steps L))))
                   (TypedRef_reference ref)).2
    (result_binding_key id (Z.of_nat (length (lg_steps L)))) = Some (TypedRef_reference ref) →
  logged (store_bind s (result_binding_key id (Z.of_nat (length (lg_steps L))))
            (TypedRef_reference ref)).2 id
    {| lg_run := lg_run L; lg_steps := lg_steps L ++ [entry_of ref r]; lg_result := lg_result L |}.
Proof.
  intros (Hr & Ht & Hs & Hc) Hget Hsome. unfold logged, bound_to in *. simpl. split_and!.
  - rewrite bind_other; [done|]. intros H. symmetry in H. by apply result_run_ne in H.
  - rewrite bind_other; [done|]. intros H. symmetry in H. by apply result_terminal_ne in H.
  - intros i. destruct (decide (i = length (lg_steps L))) as [->|Hne].
    + by rewrite Hsome, list_lookup_middle.
    + rewrite bind_other; [|intros [_ H]%result_binding_key_inj; lia]. rewrite Hs.
      f_equal. destruct (decide (i < length (lg_steps L))%nat); [by rewrite lookup_app_l|].
      rewrite !lookup_ge_None_2; [done|rewrite length_app; simpl; lia|lia].
  - intros i e. rewrite lookup_app_Some. intros [He|[_ [_ <-]%list_lookup_singleton_Some]].
    + destruct (Hc i e He) as (p & Hp & ?). exists p. by rewrite bind_get.
    + exists r. by rewrite bind_get.
Qed.

Lemma runs_inv_append s r ref :
  step_ready s ref r → runs_inv s →
  runs_inv (store_bind s (result_binding_key (sres_run_id r) (sres_step_index r))
              (TypedRef_reference ref)).2.
Proof.
  intros [Hval Href Hget [Hidx Hrun] Hprec] Hinv.
  assert (sres_step_index r = Z.of_nat (Z.to_nat (sres_step_index r))) as Hi.
  { symmetry. by apply Z2Nat.id. }
  apply (runs_inv_bind _ _ _ (sres_run_id r)); [done| |].
  - intros id' Hne. split_and!; [apply result_run_ne|apply result_terminal_ne|].
    intros i [? _]%result_binding_key_inj. congruence.
  - intros L HL Hl Hnone Hsome. destruct (log_ok_reachable _ _ HL) as (Hch & HE & _ & HF).
    destruct (Hl) as (Hr & Ht & Hs & Hc).
    assert (lg_steps L !! Z.to_nat (sres_step_index r) = None) as Hnew.
    { specialize (Hs (Z.to_nat (sres_step_index r))). rewrite <-Hi in Hs. unfold bound_to in Hs.
      rewrite Hnone in Hs. by destruct (lg_steps L !! _). }
    destruct (preceded_continues _ _ _ ref Hprec Hidx Hl Hnew) as [Hlen Hcont].
    assert (lg_run L = Some (en_run_ref (entry_of ref r))) as HRun.
    { unfold bound_to in Hr. unfold sres_run_id in Hr. rewrite Hrun in Hr.
      destruct (lg_run L) as [run|]; [|done]. f_equal. apply TypedRef_reference_inj.
      simpl in *. congruence. }
    assert (lg_result L = None) as HN.
    { destruct (lg_result L) as [x|] eqn:E; [|done].
      destruct (HF x eq_refl) as (_ & final & Hlast & Hst). rewrite Hlast in Hcont.
      by destruct Hcont. }
    exists {| lg_run := lg_run L; lg_steps := lg_steps L ++ [entry_of ref r]; lg_result := None |}.
    split.
    { destruct L as [run steps res]; simpl in *. subst. apply log_append; [|done|done].
      exists r. rewrite <-Hlen, <-Hi. done. }
    rewrite Hi in Hsome |- *. rewrite Hlen in Hsome |- *. rewrite <-HN.
    by eapply logged_append.
Qed.
(** ** Ending a run *)

(** What [_assemble_terminal] has read: every cited step is bound at its
    position, of the run, and the last one stops it. *)
Definition stopped (s : ostate) (id : pystr) (run : OptimRunRef) (refs : list TypedRef) : Prop :=
  refs ≠ [] ∧
  ∀ i ref, refs !! i = Some ref → ∃ p,
    store_resolve s (result_binding_key id (Z.of_nat i)) = Some (TypedRef_reference ref) ∧
    store_get s (TypedRef_reference ref) = Ok (OptimStepResult_record_content p) ∧
    same OptimRunRef_dump (sres_run p) run = true ∧
    (S i = length refs → sres_status p ≠ CONTINUE).

Lemma stopped_grows s s' id run refs : grows s s' → stopped s id run refs → stopped s' id run refs.
Proof.
  intros [Hg Hr] [? H]. split; [done|]. intros i ref Hi. destruct (H i ref Hi) as (p & ? & ? & ? & ?).
  exists p. split_and!; auto.
Qed.

(** The steps a terminal cites are all the steps of the log. *)
Lemma stopped_steps s id run refs L :
  log_ok id L → logged s id L → stopped s id run refs →
  refs = en_ref <$> lg_steps L ∧
  Forall (λ e, en_run e = canonicalize_validated_json (OptimRunRef_dump run)) (lg_steps L) ∧
  ∃ final, last (lg_steps L) = Some final ∧ en_status final ≠ CONTINUE.
Proof.
  intros (Hch & _) Hl [Hne Hstop].
  assert (∀ i ref, refs !! i = Some ref → ∃ p, lg_steps L !! i = Some (entry_of ref p) ∧
    same OptimRunRef_dump (sres_run p) run = true ∧ (S i = length refs → sres_status p ≠ CONTINUE))
    as Hent.
  { intros i ref Hi. destruct (Hstop i ref Hi) as (p & Hres & Hget & Hrun & Hst). exists p.
    split_and!; [by eapply logged_entry|done..]. }
  assert (length (lg_steps L) = length refs) as Hlen.
  { destruct (lookup_lt_is_Some_2 refs (length refs - 1)) as [ref Hi]; [destruct refs; simpl in *; [done|lia]|].
    destruct (Hent _ _ Hi) as (p & He & _ & Hst). apply lookup_lt_Some in He as Hlt.
    apply lookup_lt_Some in Hi. destruct (decide (length (lg_steps L) = length refs)) as [?|Hd]; [done|].
    destruct (lookup_lt_is_Some_2 (lg_steps L) (length refs)) as [e He']; [lia|].
    destruct (Hch _ _ He') as (_ & _ & Hcont). destruct (length refs) as [|n] eqn:En; [lia|].
    simpl in He. rewrite Nat.sub_0_r in He. rewrite He in Hcont. destruct Hcont as [Hc _].
    simpl in Hc. destruct Hst; [lia|done]. }
  assert (refs = en_ref <$> lg_steps L) as Hrefs.
  { apply list_eq. intros i. rewrite list_lookup_fmap. destruct (refs !! i) as [ref|] eqn:Hi.
    - by destruct (Hent i ref Hi) as (p & -> & _).
    - apply lookup_ge_None_1 in Hi. by rewrite lookup_ge_None_2 by lia. }
  split_and!; [done| |].
  - apply Forall_lookup. intros i e He.
    destruct (Hent i (en_ref e)) as (p & Hp & Hrun & _); [by rewrite Hrefs, list_lookup_fmap, He|].
    rewrite He in Hp. injection Hp as Hp. rewrite Hp. unfold same in Hrun. by inv_bool.
  - destruct (lookup_lt_is_Some_2 refs (length refs - 1)) as [ref Hi]; [destruct refs; simpl in *; [done|lia]|].
    destruct (Hent _ _ Hi) as (p & He & _ & Hst). exists (entry_of ref p).
    rewrite last_lookup, Hlen. apply lookup_lt_Some in Hi. replace (pred _) with (length refs - 1)%nat by lia.
    split; [done|]. apply Hst. lia.
Qed.

Lemma runs_inv_finish s id res ref refs :
  OptimResult_validate res = Ok res → run_run_id (runr_record (ores_run res)) = id →
  typed_ref_for_record OPTIM_RESULT_SCHEMA (OptimResult_record_content res) = Ok ref →
  refs = sresr_record_ref <$> ores_step_results res → stopped s id (ores_run res) refs →
  runs_inv s → runs_inv (store_bind s (terminal_binding_key id) (TypedRef_reference ref)).2.
Proof.
  intros Hval Hid Href Hrefs Hstop Hinv. apply (runs_inv_bind _ _ _ id); [done| |].
  - intros id' Hne. split_and!; [apply terminal_run_ne|intros H%app_inv_head; congruence|].
    intros i H. symmetry in H. by apply result_terminal_ne in H.
  - intros L HL Hl Hnone Hsome. pose proof (log_ok_reachable _ _ HL) as Hok.
    destruct (stopped_steps _ _ _ _ _ Hok Hl Hstop) as (Hall & Hruns & final & Hlast & Hst).
    destruct Hok as (_ & HE & _). destruct Hl as (Hr & Ht & Hs & Hc).
    assert (lg_result L = None) as HN.
    { unfold bound_to in Ht. rewrite Hnone in Ht. by destruct (lg_result L). }
    destruct (lg_run L) as [run|] eqn:HR.
    2: { by rewrite (HE eq_refl) in Hlast. }
    exists {| lg_run := Some run; lg_steps := lg_steps L; lg_result := Some ref |}. split.
    { destruct L as [run' steps res']; simpl in *. subst. eapply log_finish; [done..|].
      exists res. split_and!; [done..|congruence|done]. }
    unfold logged, bound_to in *. simpl. split_and!.
    + rewrite bind_other; [done|]. intros H. symmetry in H. by apply terminal_run_ne in H.
    + done.
    + intros i. rewrite bind_other; [by apply Hs|apply result_terminal_ne].
    + intros i e He. destruct (Hc i e He) as (p & ?). exists p. by rewrite bind_get.
Qed.
End Representation.
