(* ===== verification/Runs.v ===== *)
(** * Runs: the harness refines the run log

    The proofs that every call of a harness keeps the invariant of [RunLog.v],
    and the theorems about processes that share a store. Everything but the
    three bindings of a run, of a step result and of a run result is quiet: it
    binds no key of a run. *)

From S2P Require Import Prelude Floats Identity Leasing EvalConfigs Reward Tools Admission.
From S2P Require Import Process Claims Candidate Cost OptimContracts IssuedCalls RunCost RunStore.
From S2P Require Import Harness RunLog.

(** [solve_quiet] walks down a program that makes no forbidden call. *)
Ltac solve_quiet :=
  cbv zeta;
  repeat lazymatch goal with
    | |- quiet _ (Ret _) => exact I
    | |- quiet _ (Throw _) => exact I
    | |- quiet _ Spin => exact I
    | |- quiet _ (run_result _ ≫= _) => apply quiet_run_bind; intros ? ?
    | |- quiet _ (_ ≫= _) => apply quiet_bind; [|intros ?]
    | |- quiet _ (mapM _ _) => apply quiet_mapM; intros ?
    | |- quiet _ (catch _ _) => apply quiet_catch; [|intros ?]
    | |- quiet _ (finally _ _) => apply quiet_finally
    | |- quiet _ (match ?x with _ => _ end) => destruct x
    | |- quiet _ _ => solve [eauto 4 with quiet nocore]
    end.

(** ** What is quiet *)
Section QuietPrograms.
Context `{DSer : !DrSerialize, DSto : !DrStore, DLease : !DrLease, Uni : !UnicodeIdentifiers}.
Context `{Recs : !OptimRecords} {Job Outcome : Type}.
Abbreviation program := (prog Job Outcome Answer).
Abbreviation silent p := (quiet (Job:=Job) (Outcome:=Outcome) (Answer:=Answer) foreign_key p).

Lemma quiet_attempt {A} (p : program A) : silent p → silent (attempt p).
Proof. intros Hp. unfold attempt. apply quiet_catch; [|done]. by apply quiet_bind. Qed.

Lemma quiet_ask_adapter c : silent (ask_adapter c).
Proof. unfold ask_adapter. solve_quiet. Qed.
Lemma quiet_ask_acquisition c : silent (ask_acquisition c).
Proof. unfold ask_acquisition. solve_quiet. Qed.
Lemma quiet_ask_resolution c : silent (ask_resolution c).
Proof. unfold ask_resolution. solve_quiet. Qed.
Lemma quiet_ask_output c : silent (ask_output c).
Proof. unfold ask_output. solve_quiet. Qed.
Lemma quiet_ask_handle c : silent (ask_handle c).
Proof. unfold ask_handle. solve_quiet. Qed.
Lemma quiet_ask_entry c : silent (ask_entry c).
Proof. unfold ask_entry. solve_quiet. Qed.
Lemma quiet_ask_tool_result c : silent (ask_tool_result c).
Proof. unfold ask_tool_result. solve_quiet. Qed.
Lemma quiet_ask_ref c : silent (ask_ref c).
Proof. unfold ask_ref. solve_quiet. Qed.
Lemma quiet_ask_policy c : silent (ask_policy c).
Proof. unfold ask_policy. solve_quiet. Qed.

Lemma quiet_resolve_ref k : silent (resolve_ref k).
Proof. unfold resolve_ref. solve_quiet. Qed.
Lemma quiet_put_ref schema v : silent (put_ref schema v).
Proof. unfold put_ref. solve_quiet. Qed.
Lemma quiet_put_exact schema v : silent (put_exact schema v).
Proof. unfold put_exact. solve_quiet; unfold put_ref; solve_quiet. Qed.
End QuietPrograms.

#[export] Hint Resolve quiet_attempt quiet_ask_adapter quiet_ask_acquisition quiet_ask_resolution
  quiet_ask_output quiet_ask_handle quiet_ask_entry quiet_ask_tool_result quiet_ask_ref
  quiet_ask_policy quiet_resolve_ref quiet_put_ref quiet_put_exact : quiet.

(** ** The keys of the ledger and of the deferred intents *)
Section ForeignKeys.
Context `{DSer : !DrSerialize, DSto : !DrStore}.

Lemma prefixed_key schema version prefix payload key :
  compute_prefixed_identity_key schema version prefix payload = Ok key →
  ∃ digest, key = prefix ++ digest.
Proof.
  unfold compute_prefixed_identity_key, OpaqueKey, ValidatedString_new. intros H. inv_result.
  by eexists.
Qed.

Lemma claim_key_foreign request call_id key :
  issued_tool_call_binding_key request call_id = Ok key → foreign_key key.
Proof.
  intros [digest ->]%prefixed_key. apply (prefix_foreign 18); [by vm_compute; lia..|by vm_compute].
Qed.

Lemma slot_key_foreign request ordinal key :
  issued_tool_call_slot_binding_key request ordinal = Ok key → foreign_key key.
Proof.
  intros [digest ->]%prefixed_key. apply (prefix_foreign 18); [by vm_compute; lia..|by vm_compute].
Qed.

Lemma terminal_key_foreign claim key :
  issued_tool_call_terminal_binding_key claim = Ok key → foreign_key key.
Proof.
  intros [digest ->]%prefixed_key. apply (prefix_foreign 18); [by vm_compute; lia..|by vm_compute].
Qed.

Lemma deferred_key_foreign run_id step_index : foreign_key (deferred_intents_binding_key run_id step_index).
Proof. apply (prefix_foreign 18); [by vm_compute; lia..|by vm_compute]. Qed.
End ForeignKeys.

#[export] Hint Resolve claim_key_foreign slot_key_foreign terminal_key_foreign deferred_key_foreign : quiet.
#[export] Hint Resolve quiet_bind_key quiet_try_bind : quiet.

(** ** The ledger is quiet *)
Section QuietLedger.
Context `{DSer : !DrSerialize, DSto : !DrStore, DLease : !DrLease, Uni : !UnicodeIdentifiers}.
Context `{Recs : !OptimRecords} {Job Outcome : Type}.
Abbreviation program := (prog Job Outcome Answer).
Abbreviation silent p := (quiet (Job:=Job) (Outcome:=Outcome) (Answer:=Answer) foreign_key p).

Lemma quiet_claim_reference request call : silent (claim_reference request call).
Proof. unfold claim_reference. solve_quiet. Qed.
Lemma quiet_load_claim request ref : silent (load_claim request ref).
Proof. unfold load_claim. solve_quiet. Qed.
#[local] Hint Resolve quiet_claim_reference quiet_load_claim : quiet.
Lemma quiet_load_slot request ref ordinal : silent (load_slot request ref ordinal).
Proof. unfold load_slot. solve_quiet. Qed.
#[local] Hint Resolve quiet_load_slot : quiet.
Lemma quiet_reconcile request claim : silent (validate_or_reconcile_claim_binding request claim).
Proof. unfold validate_or_reconcile_claim_binding. solve_quiet. Qed.
#[local] Hint Resolve quiet_reconcile : quiet.
Lemma quiet_load_slots request ordinal refs seen acc :
  silent (load_slots request ordinal refs seen acc).
Proof.
  revert ordinal seen acc. induction refs as [|[ref|] refs IH]; intros ordinal seen acc;
    cbn [load_slots]; solve_quiet.
Qed.
#[local] Hint Resolve quiet_load_slots : quiet.
Lemma quiet_slots request limit : silent (slots request limit).
Proof. unfold slots. solve_quiet. Qed.
#[local] Hint Resolve quiet_slots : quiet.
Lemma quiet_reserve turns request limit claim : silent (reserve turns request limit claim).
Proof. induction turns as [|turns IH]; cbn [reserve]; solve_quiet. Qed.
#[local] Hint Resolve quiet_reserve : quiet.
Lemma quiet_claim_and_reserve request limit call : silent (claim_and_reserve request limit call).
Proof. unfold claim_and_reserve. solve_quiet. Qed.
Lemma quiet_load_terminal ref claim : silent (load_terminal ref claim).
Proof. unfold load_terminal. solve_quiet. Qed.
Lemma quiet_authoritative_terminal terminal : silent (authoritative_terminal terminal).
Proof. unfold authoritative_terminal. solve_quiet. Qed.
#[local] Hint Resolve quiet_claim_and_reserve quiet_load_terminal quiet_authoritative_terminal : quiet.
Lemma quiet_terminal_for_claim claim : silent (terminal_for_claim claim).
Proof. unfold terminal_for_claim. solve_quiet. Qed.
Lemma quiet_record_terminal claim result : silent (record_terminal claim result).
Proof. unfold record_terminal. solve_quiet. Qed.
#[local] Hint Resolve quiet_terminal_for_claim quiet_record_terminal : quiet.
Lemma quiet_ledger_init request : silent (IssuedToolCallLedger_init request).
Proof. unfold IssuedToolCallLedger_init. solve_quiet. Qed.
Lemma quiet_issue_claim self call : silent (issue_claim self call).
Proof. unfold issue_claim. solve_quiet. Qed.
Lemma quiet_issue_result claim existing : silent (issue_result claim existing).
Proof. unfold issue_result. solve_quiet. Qed.
#[local] Hint Resolve quiet_issue_claim quiet_issue_result : quiet.
Lemma quiet_issue self call : silent (issue self call).
Proof. unfold issue. solve_quiet. Qed.
Lemma quiet_evidence_loop current seen acc : silent (evidence_loop current seen acc).
Proof. revert seen acc. induction current as [|slot current IH]; intros seen acc;
  cbn [evidence_loop]; solve_quiet. Qed.
#[local] Hint Resolve quiet_evidence_loop : quiet.
Lemma quiet_evidence self : silent (evidence self).
Proof. unfold evidence. solve_quiet. Qed.
End QuietLedger.

#[export] Hint Resolve quiet_ledger_init quiet_issue quiet_evidence : quiet.

(** ** The harness is quiet until it binds a result *)
Section QuietHarness.
Context `{DSer : !DrSerialize, DSto : !DrStore, DLease : !DrLease, Uni : !UnicodeIdentifiers}.
Context `{Recs : !OptimRecords} {Job Outcome : Type}.
Abbreviation program := (prog Job Outcome Answer).
Abbreviation silent p := (quiet (Job:=Job) (Outcome:=Outcome) (Answer:=Answer) foreign_key p).

Lemma quiet_load_run ref : silent (load_run ref).
Proof. unfold load_run. solve_quiet. Qed.
Lemma quiet_load_result ref : silent (load_result ref).
Proof. unfold load_result. solve_quiet. Qed.
Lemma quiet_load_checkpoint ref : silent (load_checkpoint ref).
Proof. unfold load_checkpoint. solve_quiet. Qed.
Lemma quiet_load_run_result ref : silent (load_run_result ref).
Proof. unfold load_run_result. solve_quiet. Qed.
Lemma quiet_persist_tool_configs run : silent (persist_tool_configs run).
Proof. unfold persist_tool_configs, persist_tool_config. solve_quiet. Qed.
Lemma quiet_persist_candidate c : silent (persist_candidate c).
Proof. unfold persist_candidate. solve_quiet. Qed.
#[local] Hint Resolve quiet_load_run quiet_load_result quiet_load_checkpoint quiet_load_run_result
  quiet_persist_tool_configs quiet_persist_candidate : quiet.
Lemma quiet_persist_intent_records intent : silent (persist_intent_records intent).
Proof. unfold persist_intent_records. solve_quiet. Qed.
Lemma quiet_persist_snapshot schema delta : silent (persist_snapshot schema delta).
Proof. unfold persist_snapshot. solve_quiet. Qed.
Lemma quiet_resolve_adapter configured key mode : silent (resolve_compatible_adapter configured key mode).
Proof. unfold resolve_compatible_adapter. solve_quiet. Qed.
Lemma quiet_maintained {A} (body : program A) : silent body → silent (maintained body).
Proof. intros Hb. unfold maintained. solve_quiet. Qed.
Lemma quiet_settle failure : silent (settle failure).
Proof. unfold settle. solve_quiet. Qed.
Lemma quiet_eval_request_on_step request intent allowed :
  silent (require_eval_request_on_step request intent allowed).
Proof. unfold require_eval_request_on_step. solve_quiet. Qed.
#[local] Hint Resolve quiet_persist_intent_records quiet_persist_snapshot quiet_resolve_adapter
  quiet_maintained quiet_settle quiet_eval_request_on_step : quiet.
Lemma quiet_validate_evidence request evidence : silent (validate_evidence request evidence).
Proof. unfold validate_evidence, require_resolvable_evidence. solve_quiet. Qed.
#[local] Hint Resolve quiet_validate_evidence : quiet.
Lemma quiet_validate_output_intents request output : silent (validate_output_intents request output).
Proof. unfold validate_output_intents. solve_quiet. Qed.
#[local] Hint Resolve quiet_validate_output_intents : quiet.
Lemma quiet_validate_outputs request output : silent (validate_outputs request output).
Proof. unfold validate_outputs. solve_quiet. Qed.
#[local] Hint Resolve quiet_validate_outputs : quiet.

Lemma quiet_prepare_tool_handles self request ref : silent (prepare_tool_handles self request ref).
Proof. unfold prepare_tool_handles, prepare_tool_handle. solve_quiet. Qed.
Lemma quiet_invoke_with_tools turns handles ledger : silent (invoke_with_tools turns handles ledger).
Proof. revert ledger. induction turns as [|turns IH]; intros ledger;
  cbn [invoke_with_tools]; solve_quiet. Qed.
#[local] Hint Resolve quiet_prepare_tool_handles quiet_invoke_with_tools : quiet.
Lemma quiet_invoke_adapter turns request ledger handles :
  silent (invoke_adapter turns request ledger handles).
Proof. unfold invoke_adapter, invoke_tool_using. solve_quiet. Qed.
#[local] Hint Resolve quiet_invoke_adapter : quiet.
Lemma quiet_invoke_and_persist turns request ref ledger handles :
  silent (invoke_and_persist_adapter turns request ref ledger handles).
Proof. unfold invoke_and_persist_adapter. solve_quiet. Qed.
#[local] Hint Resolve quiet_invoke_and_persist : quiet.
Lemma quiet_recorded_output request ref acquisition terminal :
  silent (recorded_output request ref acquisition terminal).
Proof. unfold recorded_output, validate_checkpoint. solve_quiet. Qed.
#[local] Hint Resolve quiet_recorded_output : quiet.
Lemma quiet_effectful_output turns request ref policy ledger handles :
  silent (effectful_output turns request ref policy ledger handles).
Proof. unfold effectful_output. solve_quiet. apply quiet_maintained. solve_quiet. Qed.
Lemma quiet_invoke_pure : silent invoke_pure.
Proof. unfold invoke_pure. solve_quiet. Qed.
#[local] Hint Resolve quiet_effectful_output quiet_invoke_pure : quiet.
Lemma quiet_step_output self turns request exact : silent (step_output self turns request exact).
Proof. unfold step_output, put_request. solve_quiet. Qed.
#[local] Hint Resolve quiet_step_output : quiet.

Lemma quiet_validate_resolution intent resolution : silent (validate_resolution intent resolution).
Proof. unfold validate_resolution, validate_stored_ref. solve_quiet. Qed.
Lemma quiet_load_intent_resolution ref : silent (load_intent_resolution ref).
Proof. unfold load_intent_resolution. solve_quiet. Qed.
#[local] Hint Resolve quiet_validate_resolution quiet_load_intent_resolution : quiet.
Lemma quiet_resolve_one_intent self request intent : silent (resolve_one_intent self request intent).
Proof.
  unfold resolve_one_intent, recorded_resolution. solve_quiet. apply quiet_maintained.
  unfold evaluate_intent. solve_quiet.
Qed.
#[local] Hint Resolve quiet_resolve_one_intent : quiet.
Lemma quiet_resolve_intents self request output proposed accepted platform :
  silent (resolve_intents self request output proposed accepted platform).
Proof. unfold resolve_intents, resolve_intent. solve_quiet. Qed.
#[local] Hint Resolve quiet_resolve_intents : quiet.
Lemma quiet_ledger_evidence ledger output : silent (ledger_evidence ledger output).
Proof. unfold ledger_evidence. solve_quiet. Qed.
#[local] Hint Resolve quiet_ledger_evidence : quiet.
Lemma quiet_perform_step self turns request exact platform :
  silent (perform_step self turns request exact platform).
Proof. unfold perform_step. solve_quiet. Qed.
Lemma quiet_persist_deferred run_id step_index intents :
  silent (persist_deferred_intents run_id step_index intents).
Proof. unfold persist_deferred_intents. solve_quiet. Qed.
Lemma quiet_aggregate_run_cost results : silent (aggregate_run_cost results).
Proof.
  unfold aggregate_run_cost, task_model_observations, row_observations, read_rows. solve_quiet.
Qed.
End QuietHarness.

#[export] Hint Resolve quiet_load_run quiet_load_result quiet_load_run_result
  quiet_persist_tool_configs quiet_persist_candidate quiet_persist_snapshot quiet_perform_step
  quiet_persist_deferred quiet_aggregate_run_cost quiet_step_output quiet_validate_outputs
  quiet_ledger_evidence quiet_resolve_intents : quiet.

(** ** Every call keeps the invariant *)
Section Safety.
Context `{DSer : !DrSerialize, DSto : !DrStore, DLease : !DrLease, Uni : !UnicodeIdentifiers}.
Context `{Recs : !OptimRecords, RLaws : !OptimRecordsLaws}.
Context `{DOs : !DrObjectStore, DLaws : !DrObjectStoreLaws}.

(** A harness that its constructor made. *)
Definition created (self : OptimHarness) : Prop :=
  ∃ owner_id policy duration service is_engine has_tool_executor,
    OptimHarness_init owner_id policy duration service is_engine has_tool_executor = Ok self.

Definition foreign_call_ok (call : ForeignCall) : Prop :=
  match call with ForeignBind key _ => foreign_key key | ForeignPut _ _ => True end.

(** Any program of a process, whatever its job and outcome. *)
Context {J O : Type} (startable : J → Prop).
Abbreviation program := (prog J O Answer).
Abbreviation silent p := (quiet (Job:=J) (Outcome:=O) (Answer:=Answer) foreign_key p).
Abbreviation safe p Φ s :=
  (Process.safe (Job:=J) (Outcome:=O) (Answer:=Answer) runs_inv startable p Φ (λ _ _, True) s).

Lemma safe_silent {A} (p : program A) s : silent p → safe p (λ _ _, True) s.
Proof.
  apply quiet_safe; [intros; by apply runs_inv_put|intros; by apply runs_inv_foreign].
Qed.

Lemma safe_then {A B} (p : program A) (f : A → program B) Φ s :
  silent p → (∀ a s', grows s s' → safe (f a) Φ s') → safe (p ≫= f) Φ s.
Proof. intros Hp Hf. eapply safe_bind; [by apply safe_silent|]. intros a s' Hg _. by apply Hf. Qed.

Lemma safe_run {A B} (r : result A) (f : A → program B) Φ s :
  (∀ a, r = Ok a → safe (f a) Φ s) → safe (run_result r ≫= f) Φ s.
Proof. intros Hf. by apply safe_run_bind. Qed.

Lemma safe_guard {B} b c msg (f : unit → program B) Φ s :
  (b = true → safe (f tt) Φ s) → safe (check b c msg ≫= f) Φ s.
Proof. intros Hf. by apply safe_check_bind. Qed.

Lemma safe_attempt {A} (p : program A) Φ s :
  safe p Φ s → safe (attempt p) (λ r s', match r with Ok a => Φ a s' | Err _ => True end) s.
Proof.
  intros Hp. unfold attempt. eapply safe_catch; [|by intros e s' _ _].
  eapply safe_bind; [exact Hp|]. by intros a s' _ Ha.
Qed.

Lemma safe_attempt_then {A B} (p : program A) (f : result A → program B) Φ Ψ s :
  safe p Φ s →
  (∀ r s', grows s s' → match r with Ok a => Φ a s' | Err _ => True end → safe (f r) Ψ s') →
  safe (attempt p ≫= f) Ψ s.
Proof. intros Hp Hf. eapply safe_bind; [by apply safe_attempt|]. intros r s' Hg. by apply Hf. Qed.

(** ** Reading and writing *)

Lemma safe_resolve_ref {B} k (f : option TypedRef → program B) Φ s :
  (∀ s1 o, grows s s1 → runs_inv s1 → bound_to s1 k o → safe (f o) Φ s1) →
  safe (resolve_ref k ≫= f) Φ s.
Proof.
  intros Hf. apply safe_resolve. intros s1 Hg Hinv.
  destruct (store_resolve s1 k) as [reference|] eqn:E; [|by apply Hf].
  simpl. destruct (typed_ref reference) as [ref|] eqn:Hr; [|done]. apply Hf; [done..|].
  unfold bound_to. rewrite E. simpl. by destruct (typed_ref_Ok _ _ Hr) as [<- _].
Qed.

Lemma safe_put_ref {B} schema v (f : TypedRef → program B) Φ s :
  (∀ s1 ref, grows s s1 → runs_inv s1 → typed_ref_for_record schema v = Ok ref →
     store_get s1 (TypedRef_reference ref) = Ok v → safe (f ref) Φ s1) →
  safe (put_ref schema v ≫= f) Φ s.
Proof.
  intros Hf. unfold put_ref. eapply safe_bind with (Φ := λ ref s1, runs_inv s1 ∧
    typed_ref_for_record schema v = Ok ref ∧ store_get s1 (TypedRef_reference ref) = Ok v).
  2: { intros ref s1 Hg (? & ? & ?). by apply Hf. }
  apply safe_put; [intros; by apply runs_inv_put| |done].
  intros s1 reference Hg Hinv Hr Hget. destruct (typed_ref reference) as [ref|] eqn:E; [|done].
  simpl. split_and!; [done|by eapply typed_ref_for_record_Ok|].
  by destruct (typed_ref_Ok _ _ E) as [-> _].
Qed.

(** Reading a document back gives a record of the same document. *)
Lemma safe_load_result {B} ref (f : OptimStepResult → program B) Φ s :
  (∀ s1 r v, grows s s1 → runs_inv s1 → store_get s1 (TypedRef_reference ref) = Ok v →
     decode_step_result v = Ok r → safe (f r) Φ s1) →
  safe (load_result ref ≫= f) Φ s.
Proof.
  intros Hf. unfold load_result. eapply safe_bind with (Φ := λ r s1, runs_inv s1 ∧
    ∃ v, store_get s1 (TypedRef_reference ref) = Ok v ∧ decode_step_result v = Ok r).
  2: { intros r s1 Hg (? & v & ? & ?). by eapply Hf. }
  apply safe_guard. intros _. apply safe_get. intros s1 Hg Hinv.
  apply safe_run. intros v Hv. apply safe_run. intros r Hr. apply safe_run. intros exact _.
  apply safe_guard. intros _. simpl. split; [done|]. exists v. split; [done|].
  apply bind_Ok in Hr as (r' & Hr' & Hval). by rewrite (OptimStepResult_model_validate_id _ _ Hval).
Qed.

(** A loaded step result that is bound in a run has the bound document. *)
Lemma loaded_step s id i reference v r :
  runs_inv s → (0 <= i)%Z → store_resolve s (result_binding_key id i) = Some reference →
  store_get s reference = Ok v → decode_step_result v = Ok r →
  OptimStepResult_record_content r = v.
Proof.
  intros Hinv Hi Hres Hget Hdec. destruct (bound_step_stored _ _ _ _ Hinv Hi Hres) as (r0 & Hr0).
  rewrite Hget in Hr0. apply (inj Ok) in Hr0 as ->. by apply decode_step_result_dump.
Qed.

(** ** Binding a run *)

Lemma OptimRun_model_validate_id run run' : OptimRun_model_validate run = Ok run' → run' = run.
Proof. unfold OptimRun_model_validate, OptimRun_validate. intros H. by inv_result. Qed.

Lemma exact_run_Ok run exact :
  exact_run run = Ok exact → OptimRun_model_validate (runr_record exact) = Ok (runr_record exact).
Proof.
  destruct run as [run|ref]; simpl; intros H.
  - apply bind_Ok in H as (run' & Hv & H). pose proof (OptimRun_model_validate_id _ _ Hv) as ->.
    unfold optimization_run_reference, OptimRunRef_validate in H. by inv_result.
  - pose proof (OptimRunRef_model_validate_id _ _ H) as ->.
    unfold OptimRunRef_model_validate in H. inv_result.
    by rewrite <-(OptimRun_model_validate_id _ _ Hiv) at 2.
Qed.

Definition run_bound (exact : OptimRunRef) (s : ostate) : Prop :=
  store_resolve s (run_binding_key (run_run_id (runr_record exact))) =
    Some (TypedRef_reference (runr_record_ref exact)).

Lemma safe_bind_run run s :
  safe (bind_run run) (λ exact s', run_bound exact s' ∧ exact_run run = Ok exact) s.
Proof.
  unfold bind_run. apply safe_run. intros exact Hexact. apply safe_put_ref.
  intros s1 ref _ _ Href _. apply safe_guard. intros Heq. inv_bool. subst ref.
  apply safe_then; [auto with quiet|]. intros _ s2 _. apply safe_try_bind; [|intros s3 status _ _ _|done].
  { intros s3 _ Hinv. apply runs_inv_open; [|done]. exists (runr_record exact).
    split_and!; [done| |done]. by eapply exact_run_Ok. }
  apply safe_resolve_ref. intros s4 o _ _ Ho. destruct status as [st|].
  - apply safe_run. intros existing Hex. apply of_option_Ok in Hex as ->.
    apply safe_guard. intros Heq. inv_bool. subst existing.
    apply safe_then; [auto with quiet|]. intros loaded s5 Hg. apply safe_guard. intros _.
    simpl. split; [|done]. unfold run_bound. by apply Hg.
  - apply safe_guard. intros Heq. inv_bool. by subst o.
Qed.

(** ** Opening a step *)

Lemma non_negative_Ok n u : non_negative n = Ok u → (0 <= n)%Z.
Proof. unfold non_negative, NonNegativeInt. intros H. inv_ok. lia. Qed.

Lemma OptimStepRequest_model_validate_Ok request request' :
  OptimStepRequest_model_validate request = Ok request' →
  request' = request ∧ (0 <= sreq_step_index request)%Z.
Proof.
  unfold OptimStepRequest_model_validate, OptimStepRequest_validate. intros H. inv_result.
  split; [done|]. by eapply non_negative_Ok.
Qed.

Lemma safe_last_check b c msg Φ s : (b = true → Φ tt s) → safe (check b c msg) Φ s.
Proof. intros HΦ. by apply safe_check. Qed.

Lemma safe_validate_bound_run bound_run request s :
  (0 <= sreq_step_index request)%Z →
  safe (validate_bound_run bound_run request) (λ _ s', opened s' request) s.
Proof.
  intros Hi. unfold validate_bound_run. apply safe_run. intros bound _. apply safe_guard. intros _.
  apply safe_resolve_ref. intros s1 o _ _ Ho. apply safe_run. intros actual Hact.
  apply of_option_Ok in Hact as ->. apply safe_guard. intros Heq. inv_bool. subst actual.
  apply safe_then; [auto with quiet|]. intros loaded s2 Hg. apply safe_last_check. intros _.
  split; [done|]. by apply Hg.
Qed.

Lemma safe_open_step self raw_request s :
  safe (open_step self raw_request) (λ request s', request = raw_request ∧ opened s' request) s.
Proof.
  unfold open_step. apply safe_run.
  intros request [-> Hi]%OptimStepRequest_model_validate_Ok.
  eapply safe_bind; [by apply safe_validate_bound_run|]. intros [] s1 _ Hopen. by split.
Qed.

(** ** What precedes a step *)

Lemma safe_validate_prior request s :
  (0 <= sreq_step_index request)%Z →
  safe (validate_prior_binding request) (λ _ s', preceded s' request) s.
Proof.
  intros Hi. unfold validate_prior_binding. destruct (Z.eqb_spec (sreq_step_index request) 0) as [H0|H0].
  - apply safe_run_result; [|done]. intros [] Hinit. by left.
  - unfold resolve_result_binding. apply safe_resolve_ref. intros s1 o _ _ Ho.
    apply safe_run. intros actual Hact. apply of_option_Ok in Hact as ->.
    apply safe_guard. intros Heq. inv_bool. apply safe_load_result.
    intros s2 p v Hg Hinv Hget Hdec. apply safe_run_result; [|done]. intros [] Hchk.
    right. split; [lia|]. exists p, actual. apply Hg in Ho.
    assert (0 <= sreq_step_index request - 1)%Z as Hp by lia.
    pose proof (loaded_step _ _ _ _ _ _ Hinv Hp Ho Hget Hdec) as Hcont.
    split_and!; [done|by rewrite Hcont|done|done].
Qed.

(** ** The work of a step *)

(** A step result is bound at its position under [ref], with its document. *)
Definition step_bound (s : ostate) (r : OptimStepResult) (ref : TypedRef) : Prop :=
  store_resolve s (result_binding_key (sres_run_id r) (sres_step_index r)) =
    Some (TypedRef_reference ref) ∧
  store_get s (TypedRef_reference ref) = Ok (OptimStepResult_record_content r).

(** The step result is of the request. *)
Definition answers (request : OptimStepRequest) (r : OptimStepResult) : Prop :=
  ∃ exact, step_request_reference request = Ok exact ∧
    same OptimStepRequestRef_dump (sres_request r) exact = true.

Lemma content_request r r' :
  OptimStepResult_record_content r = OptimStepResult_record_content r' →
  same OptimStepRequestRef_dump (sres_request r) (sres_request r') = true.
Proof.
  intros H. unfold same. apply bool_decide_eq_true. unfold OptimStepResult_record_content in H.
  hide OptimStepRequestRef_dump. injection H. intros. congruence.
Qed.

Lemma same_refl {A} (dump : A → pyval) a : same dump a a = true.
Proof. unfold same. by rewrite bool_decide_true. Qed.

Definition work_ready (s : ostate) (work : StepWork) : Prop :=
  opened s (sreqr_record (sw_request work)) ∧ preceded s (sreqr_record (sw_request work)).

Definition worked (request : OptimStepRequest) (x : (OptimStepResult * TypedRef) + StepWork)
    (s : ostate) : Prop :=
  match x with
  | inl (r, ref) => step_bound s r ref ∧ answers request r
  | inr work => work_ready s work ∧ step_request_reference request = Ok (sw_request work)
  end.

Lemma step_request_reference_record request exact :
  step_request_reference request = Ok exact → sreqr_record exact = request.
Proof. unfold step_request_reference, OptimStepRequestRef_validate. intros H. by inv_result. Qed.

Lemma safe_existing_step request exact existing_ref s :
  (0 <= sreq_step_index request)%Z →
  bound_to s (result_binding_key (sreq_run_id request) (sreq_step_index request)) (Some existing_ref) →
  safe (existing_step request exact existing_ref) (λ x s', step_bound s' x.1 x.2 ∧
    same OptimStepRequestRef_dump (sres_request x.1) exact = true) s.
Proof.
  intros Hi Hb. unfold existing_step. apply safe_load_result. intros s1 r v Hg Hinv Hget Hdec.
  apply safe_guard. intros Hpos. inv_bool. apply safe_guard. intros Hsame.
  apply Hg in Hb. pose proof (loaded_step _ _ _ _ _ _ Hinv Hi Hb Hget Hdec) as Hcont.
  split; [|exact Hsame]. unfold step_bound. simpl. rewrite H, Hpos, Hcont. done.
Qed.

Lemma safe_perform_step self turns request exact platform s :
  safe (perform_step self turns request exact platform) (λ work _, sw_request work = exact) s.
Proof.
  unfold perform_step.
  apply safe_then; [auto with quiet|]. intros [output ledger] s1 _.
  apply safe_then; [auto with quiet|]. intros _ s2 _.
  apply safe_then; [auto with quiet|]. intros tool_evidence s3 _.
  apply safe_run. intros budget _.
  apply safe_then; [apply quiet_mapM; auto with quiet|]. intros proposed s4 _.
  apply safe_then; [apply quiet_mapM; auto with quiet|]. intros accepted s5 _.
  apply safe_then; [by case_match; auto with quiet|]. by intros [resolutions deferred] s6 _.
Qed.

Lemma safe_work_step self turns request platform s :
  opened s request → safe (work_step self turns request platform) (worked request) s.
Proof.
  intros Hopen. unfold work_step. apply safe_run. intros _ _. apply safe_run. intros exact Hexact.
  pose proof (step_request_reference_record _ _ Hexact) as Hrec.
  eapply safe_bind; [apply safe_validate_prior; apply Hopen|]. intros [] s1 Hg1 Hprec.
  unfold resolve_result_binding. apply safe_resolve_ref. intros s2 o Hg2 _ Ho.
  destruct o as [existing_ref|].
  - eapply safe_bind; [apply safe_existing_step; [apply Hopen|done]|].
    intros [r ref] s3 _ [Hdone Hdump]. split; [exact Hdone|]. by exists exact.
  - eapply safe_bind; [apply safe_perform_step|]. intros work s3 Hg3 Hw. simpl.
    split; [|by rewrite Hw]. unfold work_ready. rewrite Hw, Hrec. split.
    + eapply opened_grows; [|exact Hopen]. by do 2 (etransitivity; [eassumption|]).
    + eapply preceded_grows; [|exact Hprec]. by etransitivity.
Qed.

(** ** Binding its result *)

Lemma OptimStepResult_validate_id r r' : OptimStepResult_validate r = Ok r' → r' = r.
Proof. unfold OptimStepResult_validate. intros H. by inv_result. Qed.

Lemma safe_assemble_result work s :
  safe (assemble_result work)
    (λ r _, OptimStepResult_validate r = Ok r ∧ sres_request r = sw_request work) s.
Proof.
  unfold assemble_result.
  apply safe_then; [auto with quiet|]. intros state_ref s1 _.
  apply safe_then; [auto with quiet|]. intros history_ref s2 _.
  apply safe_then; [destruct (ao_retained_candidate _); [apply quiet_bind|]; auto with quiet|].
  intros retained s3 _. apply safe_run_result; [|done]. intros r Hr.
  pose proof (OptimStepResult_validate_id _ _ Hr) as Hid. by rewrite Hid in *.
Qed.

Lemma safe_bind_step r s :
  OptimStepResult_validate r = Ok r → opened s (sreqr_record (sres_request r)) →
  preceded s (sreqr_record (sres_request r)) →
  safe (bind_step r) (λ x s', step_bound s' x.1 x.2 ∧
    same OptimStepRequestRef_dump (sres_request x.1) (sres_request r) = true) s.
Proof.
  intros Hval Hopen Hprec. unfold bind_step, put_result. apply safe_put_ref.
  intros s1 ref Hg1 _ Href Hget. apply safe_run. intros exact _. apply safe_guard. intros _.
  apply safe_try_bind; [| |done].
  { intros s2 Hg2 Hinv. apply runs_inv_append; [|done]. apply (step_ready_grows s1); [done|].
    split; [done..|by eapply opened_grows|by eapply preceded_grows]. }
  intros s2 status Hg2 Hinv Hst. apply Hg2 in Hget.
  destruct status as [[| |]|]; [by split; [|apply same_refl]| |by split; [|apply same_refl]|done].
  apply safe_load_result. intros s3 r' v Hg3 _ Hget' Hdec. apply Hg3 in Hget, Hst.
  rewrite Hget in Hget'. apply (inj Ok) in Hget' as <-.
  pose proof (decode_step_result_dump _ _ Hdec) as Hcont.
  destruct (content_fields r' r) as (Hid & Hi & _); [done|].
  simpl. split; [|by apply content_request]. unfold step_bound. simpl. by rewrite Hid, Hi, Hcont.
Qed.

Lemma safe_close_step work s :
  work_ready s work →
  safe (close_step work) (λ x s', step_bound s' x.1 x.2 ∧
    same OptimStepRequestRef_dump (sres_request x.1) (sw_request work) = true) s.
Proof.
  intros [Hopen Hprec]. unfold close_step.
  apply safe_then; [by case_match; auto with quiet|]. intros _ s1 Hg1.
  eapply safe_bind; [apply safe_assemble_result|]. intros r s2 Hg2 [Hval Hreq].
  assert (grows s s2) as Hg by (by etransitivity).
  rewrite <-Hreq.
  apply safe_bind_step; [done|rewrite Hreq; by eapply opened_grows|rewrite Hreq; by eapply preceded_grows].
Qed.

Definition step_returned (request : OptimStepRequest)
    (x : OptimHarness * result (OptimStepResult * TypedRef)) (s : ostate) : Prop :=
  match x.2 with Ok (r, ref) => step_bound s r ref ∧ answers request r | Err _ => True end.

Lemma safe_run_step self raw_request platform turns s :
  safe (run_step self raw_request platform turns) (step_returned raw_request) s.
Proof.
  unfold run_step. eapply safe_attempt_then; [apply safe_open_step|].
  intros [request|e] s1 _ Hopen; [|done]. destruct Hopen as [-> Hopen].
  eapply safe_attempt_then; [by apply safe_work_step|].
  intros [[[r ref]|work]|e] s2 _ Hw; [done| |done].
  destruct Hw as [Hw Href]. eapply safe_attempt_then; [by apply safe_close_step|].
  intros [[r ref]|e] s3 _ Hdone; [|done]. destruct Hdone as [Hdone Hdump]. split; [exact Hdone|].
  by exists (sw_request work).
Qed.

(** ** Ending a run *)

(** The step result cited at position [i] is bound there and of the run. *)
Definition cited (run : OptimRunRef) (s : ostate) (i : nat) (ref : TypedRef) (p : OptimStepResult) :
    Prop :=
  store_resolve s (result_binding_key (run_run_id (runr_record run)) (Z.of_nat i)) =
    Some (TypedRef_reference ref) ∧
  store_get s (TypedRef_reference ref) = Ok (OptimStepResult_record_content p) ∧
  same OptimRunRef_dump (sres_run p) run = true.

Lemma cited_grows run s s' i ref p : grows s s' → cited run s i ref p → cited run s' i ref p.
Proof. intros [Hg Hr] (? & ? & ?). split_and!; auto. Qed.

Lemma safe_terminal_step run count index exact_result s :
  safe (terminal_step run count index exact_result)
    (λ p s', cited run s' index (sresr_record_ref exact_result) p) s.
Proof.
  unfold terminal_step, resolve_result_binding. apply safe_resolve_ref. intros s1 o _ _ Ho.
  apply safe_guard. intros Heq. inv_bool. subst o.
  apply safe_load_result. intros s2 p v Hg Hinv Hget Hdec. apply Hg in Ho.
  pose proof (loaded_step _ _ _ _ _ _ Hinv (Nat2Z.is_nonneg _) Ho Hget Hdec) as Hcont.
  apply safe_run. intros reference _. apply safe_guard. intros _. apply safe_guard. intros _.
  apply safe_guard. intros Hrun. apply safe_guard. intros _. split_and!; [done| |done].
  by rewrite Hcont.
Qed.

Definition all_cited (run : OptimRunRef) (s : ostate) (index : nat) (refs : list TypedRef)
    (results : list OptimStepResult) : Prop :=
  length results = length refs ∧
  ∀ i ref p, refs !! i = Some ref → results !! i = Some p → cited run s (index + i) ref p.

Lemma all_cited_grows run s s' index refs results :
  grows s s' → all_cited run s index refs results → all_cited run s' index refs results.
Proof. intros Hg [? H]. split; [done|]. intros i ref p ? ?. eapply cited_grows; eauto. Qed.

Lemma safe_terminal_steps run count index step_results s :
  safe (terminal_steps run count index step_results)
    (λ results s', all_cited run s' index (sresr_record_ref <$> step_results) results) s.
Proof.
  revert index s. induction step_results as [|x step_results IH]; intros index s;
    cbn [terminal_steps]; [by split|].
  eapply safe_bind; [apply safe_terminal_step|]. intros p s1 _ Hp.
  eapply safe_bind; [apply IH|]. intros results s2 Hg [Hlen Hall]. split; [csimpl; by rewrite Hlen|].
  intros [|i] ref q; csimpl; [intros [= <-] [= <-]; rewrite Nat.add_0_r; by eapply cited_grows|].
  intros Hi Hq. rewrite Nat.add_succ_r. by apply (Hall i).
Qed.

Lemma all_cited_stopped run s refs results final :
  all_cited run s 0 refs results → last results = Some final → sres_status final ≠ CONTINUE →
  stopped s (run_run_id (runr_record run)) run refs.
Proof.
  intros [Hlen Hall] Hlast Hst. split.
  { intros ->. by destruct results. }
  intros i ref Hi. destruct (lookup_lt_is_Some_2 results i) as [p Hp].
  { rewrite Hlen. by eapply lookup_lt_Some. }
  destruct (Hall i ref p Hi Hp) as (? & ? & ?). exists p. split_and!; [done..|].
  intros Hn. rewrite last_lookup, Hlen, <-Hn in Hlast. simpl in Hlast. congruence.
Qed.

Lemma OptimResult_validate_id r r' : OptimResult_validate r = Ok r' → r' = r.
Proof. unfold OptimResult_validate. intros H. by inv_result. Qed.

Definition terminal_ready (run : OptimRunRef) (res : OptimResult) (s : ostate) : Prop :=
  OptimResult_validate res = Ok res ∧ ores_run res = run ∧
  stopped s (run_run_id (runr_record run)) run (sresr_record_ref <$> ores_step_results res).

Lemma safe_assemble_terminal run step_results s :
  safe (assemble_terminal run step_results) (terminal_ready run) s.
Proof.
  unfold assemble_terminal. eapply safe_bind; [apply safe_terminal_steps|].
  intros results s1 _ Hall. unfold resolve_result_binding. apply safe_resolve_ref.
  intros s2 o Hg2 _ _. apply safe_guard. intros _. apply safe_run.
  intros final Hfinal. apply of_option_Ok in Hfinal. apply safe_guard. intros Hst. inv_bool.
  apply safe_then; [solve [auto with quiet]|]. intros report s3 Hg3. apply safe_run. intros cost _.
  apply safe_run_result; [|done]. intros res Hres.
  pose proof (OptimResult_validate_id _ _ Hres) as Hid. rewrite Hid in *. split_and!; [done..|].
  simpl. eapply all_cited_stopped; [|done|done]. eapply all_cited_grows; [|exact Hall]. by etransitivity.
Qed.

(** The run result is bound under its own reference. *)
Definition result_bound (s : ostate) (run_id : pystr) (res : OptimResult) (ref : TypedRef) : Prop :=
  store_resolve s (terminal_binding_key run_id) = Some (TypedRef_reference ref) ∧
  typed_ref_for_record OPTIM_RESULT_SCHEMA (OptimResult_record_content res) = Ok ref.

Lemma safe_load_run_result {B} ref (f : OptimResult → program B) Φ s :
  (∀ s1 res, grows s s1 →
     typed_ref_for_record OPTIM_RESULT_SCHEMA (OptimResult_record_content res) = Ok ref →
     safe (f res) Φ s1) →
  safe (load_run_result ref ≫= f) Φ s.
Proof.
  intros Hf. unfold load_run_result. eapply safe_bind with (Φ := λ res _,
    typed_ref_for_record OPTIM_RESULT_SCHEMA (OptimResult_record_content res) = Ok ref).
  2: { intros res s1 Hg Href. by apply Hf. }
  apply safe_guard. intros _. apply safe_get. intros s1 _ _. apply safe_run. intros v _.
  apply safe_run. intros res _. apply safe_run. intros exact Hexact. apply safe_guard.
  intros Heq. inv_bool. by subst exact.
Qed.

Lemma safe_bind_terminal run_id res ref s :
  run_id = run_run_id (runr_record (ores_run res)) →
  terminal_ready (ores_run res) res s → optimization_result_reference res = Ok ref →
  safe (bind_terminal run_id res ref) (λ x s', result_bound s' run_id x.1 x.2) s.
Proof.
  intros -> (Hval & _ & Hstop) Href. unfold bind_terminal. apply safe_put_ref.
  intros s1 ref' Hg1 _ _ _. apply safe_guard. intros Heq. inv_bool. subst ref'.
  apply safe_try_bind; [| |done].
  { intros s2 Hg2 Hinv. eapply runs_inv_finish; [done..| |done].
    eapply stopped_grows; [|exact Hstop]. by etransitivity. }
  intros s2 status Hg2 _ Hst. destruct status as [[| |]|]; [by split| |by split|done].
  unfold resolve_optimization_result. apply safe_resolve_ref. intros s3 o Hg3 _ Ho.
  apply safe_run. intros bound Hb. apply of_option_Ok in Hb as ->.
  apply safe_load_run_result. intros s4 replay Hg4 Hreplay. apply safe_guard. intros _.
  split; [by apply Hg4|done].
Qed.

Lemma safe_terminalize self run step_results s :
  safe (terminalize self run step_results)
    (λ x s', result_bound s' (run_run_id (runr_record run)) x.1 x.2) s.
Proof.
  unfold terminalize. apply safe_run. intros bound_run _. apply safe_run.
  intros exact ->%OptimRunRef_model_validate_id. apply safe_guard. intros _. apply safe_guard.
  intros _. apply safe_run. intros exact_results _.
  eapply safe_bind; [apply safe_assemble_terminal|]. intros res s1 _ Hready.
  apply safe_run. intros ref Href. unfold resolve_optimization_result. apply safe_resolve_ref.
  intros s2 o Hg2 _ Ho. destruct Hready as (Hval & Hrun & Hstop).
  destruct o as [existing_ref|].
  - apply safe_load_run_result. intros s3 existing Hg3 Hex. apply safe_guard. intros _.
    split; [by apply Hg3|done].
  - apply safe_bind_terminal; [by rewrite Hrun| |done]. rewrite Hrun. split_and!; [done..|].
    by eapply stopped_grows.
Qed.

(** ** Processes *)

(** What a call that returned established. *)
Definition call_ok (s : ostate) (x : HarnessCall * CallOutcome) : Prop :=
  match x.2 with
  | RunBound exact => run_bound exact s
  | StepBound r ref => step_bound s r ref
  | ResultBound res ref =>
      match x.1 with
      | Terminalize run _ => result_bound s (run_run_id (runr_record run)) res ref
      | _ => False
      end
  | Raised _ => True
  end.

Lemma call_ok_grows s s' x : grows s s' → call_ok s x → call_ok s' x.
Proof.
  intros [Hg Hr]. unfold call_ok, run_bound, step_bound, result_bound.
  destruct x as [call [exact|r ref|res ref|e]]; simpl; [auto|intros [? ?]; auto|case_match|done];
    try done. intros [? ?]; auto.
Qed.

Lemma safe_call_harness self call s :
  safe (call_harness self call) (λ x s', call_ok s' (call, x.2)) s.
Proof.
  destruct call as [run|request platform turns|run step_results]; unfold call_harness.
  - eapply safe_attempt_then; [apply safe_bind_run|]. by intros [exact|e] s1 _ H; [destruct H|].
  - eapply safe_bind; [apply safe_run_step|]. by intros [self' [[r ref]|e]] s1 _ H; [destruct H|].
  - eapply safe_attempt_then; [apply safe_terminalize|]. by intros [[res ref]|e] s1 _ H.
Qed.

Lemma safe_serve self calls outcomes s :
  Forall (call_ok s) outcomes → safe (serve self calls outcomes) (λ os s', Forall (call_ok s') os) s.
Proof.
  revert self outcomes s. induction calls as [|call calls IH]; intros self outcomes s Hok;
    cbn [serve]; [done|].
  eapply safe_bind; [apply safe_call_harness|]. intros [self' outcome] s1 Hg Hcall.
  apply IH. apply Forall_app. split; [|by apply Forall_singleton].
  eapply Forall_impl; [exact Hok|]. intros x. by apply call_ok_grows.
Qed.

Lemma safe_foreign_calls calls (s : ostate) :
  Forall foreign_call_ok calls → safe (mapM foreign_call calls) (λ _ _, True) s.
Proof.
  intros Hcalls. apply safe_silent. induction Hcalls as [|call calls Hcall Hcalls IH]; [exact I|].
  change (mapM foreign_call (call :: calls))
    with (u ← foreign_call call; k ← mapM foreign_call calls; Ret (u :: k) : program (list unit)).
  apply quiet_bind; [|intros u; apply quiet_bind; [exact IH|done]].
  destruct call; simpl in Hcall; unfold foreign_call; solve_quiet.
Qed.
End Safety.

(** ** The processes that call harnesses *)
Section Jobs.
Context `{DSer : !DrSerialize, DSto : !DrStore, DLease : !DrLease, Uni : !UnicodeIdentifiers}.
Context `{Recs : !OptimRecords, RLaws : !OptimRecordsLaws}.
Context `{DOs : !DrObjectStore, DLaws : !DrObjectStoreLaws}.

(** The jobs that may arrive. *)
Definition admissible (j : Job) : Prop :=
  match j with
  | HarnessJob self _ => created self
  | ForeignJob calls => Forall foreign_call_ok calls
  end.

Abbreviation program := (prog Job (list (HarnessCall * CallOutcome)) Answer).
Abbreviation safe p Φ s :=
  (Process.safe (Job:=Job) (Outcome:=list (HarnessCall * CallOutcome)) (Answer:=Answer) runs_inv admissible p Φ
     (λ _ _, True) s).

Definition job_post (j : Job) (os : list (HarnessCall * CallOutcome)) (s : ostate) : Prop :=
  Forall (call_ok s) os.

Lemma harness_post_stable j : stable (job_post j).
Proof. intros os s s' Hg Hos. eapply Forall_impl; [exact Hos|]. intros x. by apply call_ok_grows. Qed.

Lemma harness_code_safe j s :
  admissible j → runs_inv s → Process.safe runs_inv admissible (harness_code j) (job_post j) (λ _ _, True) s.
Proof.
  destruct j as [self calls|calls]; simpl; intros Hj Hinv; [by apply safe_serve|].
  eapply safe_bind; [by apply safe_foreign_calls|]. intros us s1 _ _. by apply Forall_nil.
Qed.
End Jobs.

(** ** The theorems *)
Section RunTheorems.
Context `{DSer : !DrSerialize, DSto : !DrStore, DLease : !DrLease, Uni : !UnicodeIdentifiers}.
Context `{Recs : !OptimRecords, RLaws : !OptimRecordsLaws}.
Context `{DOs : !DrObjectStore, DLaws : !DrObjectStoreLaws}.

Abbreviation configuration := (config Job (list (HarnessCall * CallOutcome)) Answer).
Abbreviation moves := (rtc (step harness_code admissible)).

(** A store in which no run has been opened, and no process yet. *)
Definition fresh (c : configuration) : Prop :=
  cf_threads c = [] ∧ ∀ key, ¬ foreign_key key → store_resolve (cf_store c) key = None.

Lemma harness_keys_not_foreign id :
  ¬ foreign_key (run_binding_key id) ∧ ¬ foreign_key (terminal_binding_key id) ∧
  ∀ i, ¬ foreign_key (result_binding_key id i).
Proof. unfold foreign_key. naive_solver. Qed.

Lemma fresh_logged c id : fresh c → logged (cf_store c) id empty_log.
Proof.
  intros [_ Hnone]. destruct (harness_keys_not_foreign id) as (H1 & H2 & H3).
  unfold logged, bound_to. simpl. split_and!; [by apply Hnone..| |done].
  intros i. by apply Hnone.
Qed.

Definition runs_ok (c : configuration) : Prop := config_ok runs_inv admissible job_post c.

Lemma fresh_ok c : fresh c → runs_ok c.
Proof.
  intros Hf. split; [|destruct Hf as [-> _]; by apply Forall_nil]. intros id.
  exists empty_log. split; [done|]. by apply fresh_logged.
Qed.

Lemma moves_ok c c' : moves c c' → runs_ok c → runs_ok c'.
Proof.
  apply reachable_ok; [apply harness_post_stable|done|]. intros j s. by apply harness_code_safe.
Qed.

Lemma step_grows c c' : step harness_code admissible c c' → grows (cf_store c) (cf_store c').
Proof.
  intros Hs. destruct Hs as [j Hj|i t X e k x c' Hi Ht Hp]; [done|]. simpl.
  by eapply store_effect_grows, performs_store_effect.
Qed.

Lemma moves_grow c c' : moves c c' → grows (cf_store c) (cf_store c').
Proof. induction 1; [done|]. etransitivity; [by apply step_grows|done]. Qed.

(** What a returned call established. *)
Lemma returned_ok c i t os call outcome :
  runs_ok c → cf_threads c !! i = Some t → th_prog t = Ret os → (call, outcome) ∈ os →
  call_ok (cf_store c) (call, outcome).
Proof.
  intros Hok Hi Ht Hin. pose proof (returned_post _ _ _ _ _ _ _ Hok Hi Ht) as Hpost.
  unfold job_post in Hpost. rewrite Forall_forall in Hpost. by apply Hpost.
Qed.

(** C40: the harness refines the append-only run log. Start from a store in
    which no run was opened and let any number of processes build harnesses and
    call them in any order, with any arguments, crashing anywhere, next to
    processes that use the store for anything else. Between any two moments
    the bindings of every run are exactly those of a log, and the later log is
    reached from the earlier one by its own steps: opening the run once,
    appending an accepted step result that continues the last one (its exact
    result, state, history and budget), and closing the run with an accepted
    result that cites exactly the steps, the last of which stopped. *)
Theorem harness_refines_run_log c0 c c' id :
  fresh c0 → moves c0 c → moves c c' →
  ∃ L L', logged (cf_store c) id L ∧ logged (cf_store c') id L' ∧
    rtc (log_step id) empty_log L ∧ rtc (log_step id) L L'.
Proof.
  intros Hf H0 H1. pose proof (moves_ok _ _ H0 (fresh_ok _ Hf)) as Hok.
  pose proof (moves_ok _ _ H1 Hok) as Hok'.
  destruct (proj1 Hok id) as (L & HL & Hl), (proj1 Hok' id) as (L' & HL' & Hl').
  exists L, L'. split_and!; [done..|]. apply extends_reached; [by apply log_ok_reachable..|].
  eapply logged_extends; [by apply moves_grow|done..].
Qed.

(** C10: a run has one history. Whenever two calls, of the same or of different
    processes, have returned a step result for the same run and position, they
    returned the same document under the same reference, the one bound there;
    two calls that ended the same run returned results under the same
    reference. *)
Theorem harness_results_agree c0 c i t os call outcome j u os' call' outcome' :
  fresh c0 → moves c0 c →
  cf_threads c !! i = Some t → th_prog t = Ret os → (call, outcome) ∈ os →
  cf_threads c !! j = Some u → th_prog u = Ret os' → (call', outcome') ∈ os' →
  (∀ r ref r' ref', outcome = StepBound r ref → outcome' = StepBound r' ref' →
     sres_run_id r = sres_run_id r' → sres_step_index r = sres_step_index r' →
     ref = ref' ∧ OptimStepResult_record_content r = OptimStepResult_record_content r' ∧
     step_bound (cf_store c) r ref) ∧
  (∀ run steps res ref run' steps' res' ref',
     (call, outcome) = (Terminalize run steps, ResultBound res ref) →
     (call', outcome') = (Terminalize run' steps', ResultBound res' ref') →
     run_run_id (runr_record run) = run_run_id (runr_record run') →
     ref = ref' ∧ result_bound (cf_store c) (run_run_id (runr_record run)) res ref).
Proof.
  intros Hf H0 Hi Ht Hin Hj Hu Hin'. pose proof (moves_ok _ _ H0 (fresh_ok _ Hf)) as Hok.
  pose proof (returned_ok _ _ _ _ _ _ Hok Hi Ht Hin) as H1.
  pose proof (returned_ok _ _ _ _ _ _ Hok Hj Hu Hin') as H2. split.
  - intros r ref r' ref' -> -> Hid Hidx. unfold call_ok, step_bound in *. simpl in *.
    destruct H1 as [Hr1 Hg1], H2 as [Hr2 Hg2]. rewrite Hid, Hidx in *. rewrite Hr1 in Hr2.
    assert (ref = ref') as -> by (apply TypedRef_reference_inj; congruence).
    rewrite Hg1 in Hg2. apply (inj Ok) in Hg2. done.
  - intros run steps res ref run' steps' res' ref' [= -> ->] [= -> ->] Hid.
    unfold call_ok, result_bound in *. simpl in *. destruct H1 as [Hr1 Hg1], H2 as [Hr2 _].
    rewrite Hid in *. rewrite Hr1 in Hr2.
    assert (ref = ref') as -> by (apply TypedRef_reference_inj; congruence). done.
Qed.
End RunTheorems.

(** ** A run of two steps, driven by one process and replayed by another *)
Module ConcreteRuns.
Import Concrete ConcreteLease ConcreteTemplates ConcreteRun ListStore.

#[export] Existing Instance list_store.

Lemma schema_kept schema v r : for_record schema v = Ok r → or_schema r = schema.
Proof. simpl. destruct (is_json v); [by intros [= <-]|done]. Qed.

#[export] Instance list_laws : DrObjectStoreLaws := list_store_laws schema_kept.

(** The documents of the run read back as the records they are dumps of. *)
Definition steps_of (r : result OptimResult) : list OptimStepResultRef :=
  match r with Ok r => ores_step_results r | Err _ => [] end.

Definition the_steps : list OptimStepResultRef := Eval vm_compute in steps_of two_steps.

(** The result of the run: its steps cite no evidence, so its cost is none. *)
Definition the_result : result OptimResult :=
  r ← two_steps;
  nothing ← aggregate_role_cost [];
  cost ← frozen_cost {| rcr_schema_version := COST_REPORT_SCHEMA_VERSION;
                        rcr_task_model := nothing; rcr_proposer := nothing |};
  Ok {| ores_run := ores_run r; ores_proposals := ores_proposals r;
        ores_step_results := ores_step_results r; ores_cost := cost;
        ores_terminal_failure := None; ores_seed_retained := false; ores_provenance_note := None;
        ores_provenance_ordinal := None |}.

Definition the_results : list OptimResult :=
  Eval vm_compute in match the_result with Ok r => [r] | Err _ => [] end.

Definition read_back {A} (dump : A → pyval) (table : list A) (v : pyval) : result A :=
  of_option (list_find (λ a, dump a = v) table ≫= λ x, Some x.2) ValueError "".

Lemma read_back_dump {A} (dump : A → pyval) table v a :
  read_back dump table v = Ok a → dump a = v.
Proof.
  unfold read_back. intros H. apply of_option_Ok in H.
  destruct (list_find _ table) as [[i b]|] eqn:E; [|done]. simpl in H. injection H as ->.
  by apply list_find_Some in E as (_ & ? & _).
Qed.

#[export] Instance run_records : OptimRecords := {|
  decode_run := read_back OptimRun_record_content [the_run];
  decode_step_result := read_back OptimStepResult_record_content (sresr_record <$> the_steps);
  decode_checkpoint v := raise ValueError ""; decode_resolution v := raise ValueError "";
  decode_result := read_back OptimResult_record_content the_results; decode_claim v := raise ValueError "";
  decode_slot v := raise ValueError ""; decode_terminal v := raise ValueError "";
  decode_row v := raise ValueError "" |}.

#[export] Instance run_records_laws : OptimRecordsLaws.
Proof. split. intros r r'. apply read_back_dump. Qed.

(** The adapter proposes what the recorded steps propose. *)
Definition output_of (r : OptimStepResult) : AdapterOutput :=
  {| ao_proposed_candidates := candr_record <$> sres_proposed_candidates r;
     ao_accepted_candidates := candr_record <$> sres_accepted_candidates r;
     ao_optim_eval_requests := []; ao_search_evidence := [];
     ao_budget_delta := sres_budget_delta r; ao_proposed_status := sres_status r;
     ao_terminal_failure := None; ao_seed_retained := false; ao_retained_candidate := None;
     ao_proposer_usage := []; ao_state_delta := []; ao_history_delta := [] |}.

Definition acquired : EffectAcquireResult unit :=
  {| ear_request := {| lr_semantic_key := $"k"; lr_request_hash := $"h";
                       lr_replay_policy := Leasing.IDEMPOTENT |};
     ear_outcome := ACQUIRED; ear_lease := Some tt; ear_terminal := None;
     ear_busy_expires_at := None; ear_existing_request_hash := None;
     ear_existing_replay_policy := None |}.

Definition answers_for (r : OptimStepResultRef) : list Answer :=
  [AnAdapter $"copro" PROPOSAL_ONLY Leasing.IDEMPOTENT; AnAcquisition acquired;
   AnOutput (output_of (sresr_record r))].

Definition request_of (r : OptimStepResultRef) : OptimStepRequest :=
  sreqr_record (sres_request (sresr_record r)).

Definition run_of (l : list OptimStepResultRef) : option OptimRunRef :=
  sreq_run ∘ request_of <$> head l.

Definition a_harness : result OptimHarness :=
  OptimHarness_init $"ann" Leasing.IDEMPOTENT 60 None false false.

Definition session : list HarnessCall :=
  match run_of the_steps with
  | Some run =>
      BindRun (inl the_run) :: ((λ r, RunStep (request_of r) false 0) <$> the_steps) ++
      [Terminalize run the_steps]
  | None => []
  end.

Definition empty_configuration : config Job (list (HarnessCall * CallOutcome)) Answer :=
  {| cf_store := ([], []); cf_threads := [] |}.

(** A turn of thread [i]: each call of a collaborator takes the next answer. *)
Definition oracle_for (answers : list Answer) : oracle (Answer:=Answer) :=
  {| or_time := float_of_Z 0; or_ask := Ok tt;
     or_compute := of_option (head answers) RuntimeError "" |}.

Fixpoint plan_turns (fuel : nat) (i : nat) (answers : list Answer)
    (c : config Job (list (HarnessCall * CallOutcome)) Answer) : list (nat * oracle (Answer:=Answer)) :=
  match fuel, cf_threads c !! i with
  | S fuel, Some {| th_prog := Vis e k |} =>
      match Process.run_step harness_code i (oracle_for answers) c with
      | Some c' =>
          (i, oracle_for answers) ::
          plan_turns fuel i (match e with Compute _ => tail answers | _ => answers end) c'
      | None => []
      end
  | _, _ => []
  end.

Definition arrive (c : config Job (list (HarnessCall * CallOutcome)) Answer) :
    config Job (list (HarnessCall * CallOutcome)) Answer :=
  match a_harness with
  | Ok self =>
      {| cf_store := cf_store c;
         cf_threads := cf_threads c ++ [new_thread harness_code (HarnessJob self session)] |}
  | Err _ => c
  end.

Definition two_processes : config Job (list (HarnessCall * CallOutcome)) Answer :=
  arrive (arrive empty_configuration).

Definition first_turns := plan_turns 400 0 (the_steps ≫= answers_for) two_processes.
Definition after_first := run_schedule harness_code first_turns two_processes.
Definition second_turns := plan_turns 400 1 [] after_first.
Definition after_both := run_schedule harness_code second_turns after_first.

Lemma arrives c : rtc (step harness_code admissible) c (arrive c).
Proof.
  unfold arrive. destruct a_harness as [self|] eqn:E; [|done]. apply rtc_once.
  apply (step_arrive _ _ _ (HarnessJob self session)). simpl. unfold created. by do 6 eexists.
Qed.

Lemma empty_fresh : fresh empty_configuration.
Proof. by split. Qed.

Lemma after_first_reached : rtc (step harness_code admissible) empty_configuration after_first.
Proof.
  transitivity (arrive empty_configuration); [apply arrives|]. transitivity two_processes; [apply arrives|].
  apply run_schedule_steps.
Qed.

Lemma after_both_reached : rtc (step harness_code admissible) after_first after_both.
Proof. apply run_schedule_steps. Qed.

Lemma both_reached : rtc (step harness_code admissible) empty_configuration after_both.
Proof. transitivity after_first; [apply after_first_reached|apply after_both_reached]. Qed.

(** The second step and the result are bound. *)
Definition run_facts (c : config Job (list (HarnessCall * CallOutcome)) Answer) : bool :=
  is_some (store_resolve (cf_store c) (result_binding_key $"run" 1)) &&
  is_some (store_resolve (cf_store c) (terminal_binding_key $"run")).

Lemma run_facts_spec c L :
  run_facts c = true → logged (cf_store c) $"run" L → lg_steps L !! 1%nat ≠ None ∧ lg_result L ≠ None.
Proof.
  unfold run_facts. intros H (_ & Ht & Hs & _). specialize (Hs 1%nat). unfold bound_to in *.
  inv_bool. change (Z.of_nat 1) with 1%Z in Hs. rewrite Hs in H0. rewrite Ht in H.
  split; [by destruct (lg_steps L !! 1%nat)|by destruct (lg_result L)].
Qed.

Lemma after_first_facts : run_facts after_first = true.
Proof. vm_compute. reflexivity. Qed.
Lemma after_both_facts : run_facts after_both = true.
Proof. vm_compute. reflexivity. Qed.

(** The two processes returned: the second call of each bound the first step,
    the fourth ended the run. *)
Definition returned_facts (t : option (thread Job (list (HarnessCall * CallOutcome)) Answer)) :
    option (OptimStepResult * TypedRef) :=
  match t with
  | Some {| th_prog := Ret [_; (_, StepBound r ref); _; (Terminalize _ _, ResultBound _ _)] |} =>
      Some (r, ref)
  | _ => None
  end.

Lemma returned_facts_spec t r ref :
  returned_facts t = Some (r, ref) →
  ∃ u os call, t = Some u ∧ th_prog u = Ret os ∧ (call, StepBound r ref) ∈ os.
Proof.
  destruct t as [[job [os|e| |X e k] stop]|]; simpl; try done.
  destruct os as [|x [|[call [?|r' ref'|? ?|?]] [|y [|[[?|? ? ?|? ?] [?|? ?|? ?|?]] [|]]]]]; try done.
  intros [= <- <-]. eexists _, _, call. split_and!; [done..|]. set_solver.
Qed.

Definition same_step (x y : option (OptimStepResult * TypedRef)) : bool :=
  match x, y with
  | Some (r, _), Some (r', _) =>
      bool_decide (sres_run_id r = sres_run_id r') && (sres_step_index r =? sres_step_index r')%Z
  | _, _ => false
  end.

Lemma same_step_spec x y :
  same_step x y = true →
  ∃ r ref r' ref', x = Some (r, ref) ∧ y = Some (r', ref') ∧ sres_run_id r = sres_run_id r' ∧
    sres_step_index r = sres_step_index r'.
Proof.
  destruct x as [[r ref]|], y as [[r' ref']|]; simpl; try done. intros H. inv_bool. by do 4 eexists.
Qed.

Lemma after_both_returned :
  same_step (returned_facts (cf_threads after_both !! 0%nat))
    (returned_facts (cf_threads after_both !! 1%nat)) = true.
Proof. vm_compute. reflexivity. Qed.
End ConcreteRuns.

Section RunWitnesses.
Import Concrete ConcreteLease ConcreteTemplates ConcreteRuns.

Lemma harness_refines_run_log_witness :
  ∃ L L', logged (cf_store after_first) $"run" L ∧ logged (cf_store after_both) $"run" L' ∧
    rtc (log_step $"run") empty_log L ∧ rtc (log_step $"run") L L' ∧
    lg_steps L !! 1%nat ≠ None ∧ lg_result L' ≠ None.
Proof.
  destruct (harness_refines_run_log empty_configuration after_first after_both $"run" empty_fresh
    after_first_reached after_both_reached) as (L & L' & Hl & Hl' & H0 & H1).
  destruct (run_facts_spec _ _ after_first_facts Hl) as [Hs _].
  destruct (run_facts_spec _ _ after_both_facts Hl') as [_ Hr].
  exists L, L'. split_and!; [exact Hl|exact Hl'|exact H0|exact H1|exact Hs|exact Hr].
Defined.

Lemma harness_results_agree_witness :
  ∃ r r' ref, OptimStepResult_record_content r = OptimStepResult_record_content r' ∧
    step_bound (cf_store after_both) r ref.
Proof.
  destruct (same_step_spec _ _ after_both_returned) as (r & ref & r' & ref' & Hx & Hy & Hid & Hi).
  destruct (returned_facts_spec _ _ _ Hx) as (t & os & call & Ht & Hpt & Hin).
  destruct (returned_facts_spec _ _ _ Hy) as (u & os' & call' & Hu & Hpu & Hin').
  destruct (harness_results_agree empty_configuration after_both 0 t os call _ 1 u os' call' _
    empty_fresh both_reached Ht Hpt Hin Hu Hpu Hin')
    as [Hsteps _].
  destruct (Hsteps r ref r' ref' eq_refl eq_refl Hid Hi) as (_ & Hcont & Hbound).
  exists r, r', ref. split; [exact Hcont|exact Hbound].
Defined.
End RunWitnesses.
