(* ===== verification/Copro.v ===== *)
(** * Copro: the measured history of a COPRO run and its driver

    Models [src/whetstone/optim/copro/]: the proposal contract
    ([proposal_contract.py]), the proposer configs ([optim/proposal/proposer.py],
    [optim/codex/proposer.py]), the control ([control.py]) and, of
    [adapter.py], the measured attempts, their ranking, and the driver that
    folds rounds into a state, restores it from a history and plans what comes
    next. The adapter itself is in [CoproAdapter.v]. *)

From S2P Require Import Prelude Floats Identity Leasing EvalConfigs Reward Tools.
From S2P Require Import Claims Candidate Cost OptimContracts.
From Stdlib Require Import SpecFloat.

Definition COPRO_ALGORITHM_VERSION := $"dspy_copro_single_prompt/v1".
Definition COPRO_REFERENCE_COMMIT := $"6f68dcdb3ef46d70bf0c12596699ebc44e82d6b0".
Definition COPRO_CONTROL_SCHEMA := $"whetstone.copro_optimizer_config".
Definition COPRO_CONTROL_SCHEMA_VERSION : Z := 2.
Definition COPRO_PROPOSAL_PROMPT_SCHEMA_TAG := $"copro-pp2".
Definition PROPOSER_CONFIG_SCHEMA := $"whetstone.proposer_config".
Definition PROPOSER_CONFIG_SCHEMA_VERSION : Z := 1.
Definition CODEX_CLI_PROPOSER_CONFIG_SCHEMA := $"whetstone.codex_cli_proposer_config".
Definition CODEX_CLI_PROPOSER_CONFIG_SCHEMA_VERSION : Z := 1.
Definition SEED_PROPOSAL := $"seed_proposal".
Definition HISTORY_PROPOSAL := $"history_proposal".

(** ** The proposal contract *)

Record CoproProposalContractRecord := {
  cpc_contract_version : pystr;
  cpc_target_name : pystr;
  cpc_task_context : pystr;
  cpc_output_rule : pystr;
}.

Definition CoproProposalContractRecord_validate (self : CoproProposalContractRecord) :
    result CoproProposalContractRecord :=
  for_each (λ value, require (nonblank value) ValueError "must be non-empty")
    [cpc_target_name self; cpc_task_context self; cpc_output_rule self] ;;
  Ok self.

Definition validate_mutation (self : CoproProposalContractRecord) (body : pystr) : result unit :=
  require (nonblank body) ValueError "proposal mutation body must be non-empty text".
Definition validate_instruction (self : CoproProposalContractRecord) (body : pystr) : result unit :=
  validate_mutation self body.

Definition CoproProposalContractRecord_dump (c : CoproProposalContractRecord) : pyval :=
  PDict [($"contract_version", PStr (cpc_contract_version c));
         ($"target_name", PStr (cpc_target_name c)); ($"task_context", PStr (cpc_task_context c));
         ($"output_rule", PStr (cpc_output_rule c))].

(** ** Proposer configs *)

Record ProposerConfig := {
  prc_provider_call_config : IdentityRef;
  prc_temperature : option float;
}.
Record CodexCliProposerConfig := {
  ccp_codex_binary : pystr;
  ccp_model : pystr;
  ccp_timeout_seconds : float;
}.

Definition CodexCliProposerConfig_validate (self : CodexCliProposerConfig) :
    result CodexCliProposerConfig :=
  require (negb (bool_decide (ccp_codex_binary self = []))) ValueError
    "Codex proposer binary must be non-empty" ;;
  require (fisfinite (ccp_timeout_seconds self) && flt fzero (ccp_timeout_seconds self)) ValueError
    "Codex proposer timeout_seconds must be finite and positive" ;;
  Ok self.

(** [CoproProposerConfig]. *)
Inductive CoproProposerConfig :=
| ProviderRoute (config : ProposerConfig)
| CodexRoute (config : CodexCliProposerConfig).

Definition ProposerConfig_identity_payload (self : ProposerConfig) : pyval :=
  PDict [($"provider_call_config",
           PDict [($"record_ref", TypedRef_dump (iref_record_ref (prc_provider_call_config self)));
                  ($"identity_hash", PStr (iref_record_hash (prc_provider_call_config self)))]);
         ($"temperature", POption PFloat (prc_temperature self))].
Definition CodexCliProposerConfig_identity_payload (self : CodexCliProposerConfig) : pyval :=
  PDict [($"kind", PStr $"codex_cli"); ($"codex_binary", PStr (ccp_codex_binary self));
         ($"model", PStr (ccp_model self)); ($"timeout_seconds", PFloat (ccp_timeout_seconds self))].

Definition CoproProposerConfig_identity_payload (self : CoproProposerConfig) : pyval :=
  match self with
  | ProviderRoute config => ProposerConfig_identity_payload config
  | CodexRoute config => CodexCliProposerConfig_identity_payload config
  end.

(** [model_dump(mode="json")]. *)
Definition CoproProposerConfig_dump (self : CoproProposerConfig) : pyval :=
  match self with
  | ProviderRoute config =>
      PDict [($"provider_call_config", IdentityRef_dump (prc_provider_call_config config));
             ($"temperature", POption PFloat (prc_temperature config))]
  | CodexRoute config =>
      PDict [($"codex_binary", PStr (ccp_codex_binary config)); ($"model", PStr (ccp_model config));
             ($"timeout_seconds", PFloat (ccp_timeout_seconds config))]
  end.

(** ** The control *)

Record CoproControl := {
  cc_prompt_model : CoproProposerConfig;
  cc_proposal_contract : CoproProposalContractRecord;
  cc_eval_config_ref : EvalConfigRef;
  cc_eval_role : EvalRole;
  cc_provider_execution_policy_ref : option IdentityRef;
  cc_expected_reward_policy_hash : pystr;
  cc_breadth : Z;
  cc_depth : Z;
  cc_track_stats : bool;
  cc_provider_execution_policy_hash : pystr;
  cc_prompt_adapter_identity_hash : pystr;
  cc_algorithm_version : pystr;
  cc_proposal_prompt_schema_tag : pystr;
}.

Record CoproInjectedDefaults := {
  cid_prompt_model : CoproProposerConfig;
  cid_proposal_contract : CoproProposalContractRecord;
  cid_eval_config_ref : EvalConfigRef;
  cid_eval_role : EvalRole;
  cid_provider_execution_policy_ref : option IdentityRef;
  cid_expected_reward_policy_hash : pystr;
  cid_provider_execution_policy_hash : pystr;
  cid_prompt_adapter_output_field : pystr;
}.

(** The proposer may not fix a temperature. *)
Definition temperature_unset (config : CoproProposerConfig) : bool :=
  match config with
  | ProviderRoute config => negb (is_some (prc_temperature config))
  | CodexRoute _ => true
  end.

Definition CoproInjectedDefaults_validate (self : CoproInjectedDefaults) :
    result CoproInjectedDefaults :=
  require_full_hash (PStr (cid_expected_reward_policy_hash self)) ;;
  require_full_hash (PStr (cid_provider_execution_policy_hash self)) ;;
  require (bool_decide (cid_eval_role self = INTERNAL)) ValueError
    "COPRO requires internal evaluation" ;;
  Ok self.

Definition CoproControl_validate (self : CoproControl) : result CoproControl :=
  require (negb (cc_breadth self <=? 1)%Z) ValueError "COPRO breadth must be greater than 1" ;;
  require (negb (cc_depth self <? 1)%Z) ValueError "COPRO depth must be positive" ;;
  require (temperature_unset (cc_prompt_model self)) ValueError
    "COPRO provider proposer must leave temperature unset" ;;
  require_full_hash (PStr (cc_expected_reward_policy_hash self)) ;;
  require_full_hash (PStr (cc_provider_execution_policy_hash self)) ;;
  require_full_hash (PStr (cc_prompt_adapter_identity_hash self)) ;;
  require (bool_decide (cc_eval_role self = INTERNAL)) ValueError
    "COPRO requires internal evaluation" ;;
  require (bool_decide (cc_algorithm_version self = COPRO_ALGORITHM_VERSION)) ValueError
    "COPRO algorithm_version is fixed" ;;
  require (bool_decide (cc_proposal_prompt_schema_tag self = COPRO_PROPOSAL_PROMPT_SCHEMA_TAG))
    ValueError "COPRO proposal prompt schema tag is fixed" ;;
  Ok self.

Definition CoproControl_record_content (self : CoproControl) : pyval :=
  PDict [($"prompt_model", CoproProposerConfig_dump (cc_prompt_model self));
         ($"proposal_contract", CoproProposalContractRecord_dump (cc_proposal_contract self));
         ($"eval_config_ref", EvalConfigRef_dump (cc_eval_config_ref self));
         ($"eval_role", PStr (EvalRole_value (cc_eval_role self)));
         ($"provider_execution_policy_ref",
           POption IdentityRef_dump (cc_provider_execution_policy_ref self));
         ($"expected_reward_policy_hash", PStr (cc_expected_reward_policy_hash self));
         ($"breadth", PInt (cc_breadth self)); ($"depth", PInt (cc_depth self));
         ($"track_stats", PBool (cc_track_stats self));
         ($"provider_execution_policy_hash", PStr (cc_provider_execution_policy_hash self));
         ($"prompt_adapter_identity_hash", PStr (cc_prompt_adapter_identity_hash self));
         ($"algorithm_version", PStr (cc_algorithm_version self));
         ($"proposal_prompt_schema_tag", PStr (cc_proposal_prompt_schema_tag self))].

(** [step_hyperparameters(iteration)]. *)
Definition step_hyperparameters (self : CoproControl) (iteration : Z) : result pyval :=
  require (negb (iteration <? 0)%Z && negb (cc_depth self <=? iteration)%Z) ValueError
    "COPRO iteration exceeds configured depth" ;;
  Ok (PDict [($"breadth", PInt (cc_breadth self)); ($"depth", PInt (cc_depth self));
             ($"track_stats", PBool (cc_track_stats self)); ($"round_index", PInt iteration);
             ($"eval_config_ref", EvalConfigRef_dump (cc_eval_config_ref self));
             ($"eval_role", PStr (EvalRole_value (cc_eval_role self)));
             ($"provider_execution_policy_ref",
               POption IdentityRef_dump (cc_provider_execution_policy_ref self));
             ($"expected_reward_policy_hash", PStr (cc_expected_reward_policy_hash self));
             ($"algorithm_version", PStr (cc_algorithm_version self));
             ($"proposal_prompt_schema_tag", PStr (cc_proposal_prompt_schema_tag self));
             ($"proposal_contract", CoproProposalContractRecord_dump (cc_proposal_contract self));
             ($"provider_execution_policy_hash", PStr (cc_provider_execution_policy_hash self));
             ($"prompt_adapter_identity_hash", PStr (cc_prompt_adapter_identity_hash self))]).

Section Control.
Context `{DSer : !DrSerialize, DSto : !DrStore}.

Definition CoproProposerConfig_identity_hash (self : CoproProposerConfig) : result pystr :=
  match self with
  | ProviderRoute config => compute_identity_hash PROPOSER_CONFIG_SCHEMA
      PROPOSER_CONFIG_SCHEMA_VERSION (ProposerConfig_identity_payload config)
  | CodexRoute config => compute_identity_hash CODEX_CLI_PROPOSER_CONFIG_SCHEMA
      CODEX_CLI_PROPOSER_CONFIG_SCHEMA_VERSION (CodexCliProposerConfig_identity_payload config)
  end.

(** [prompt_adapter_identity_hash] of a plain prompt adapter. *)
Definition prompt_adapter_identity_hash (output_field : pystr) : result pystr :=
  compute_identity_hash $"whetstone.proposal_prompt_adapter" 1
    (PDict [($"output_field", PStr output_field)]).

Definition CoproControl_identity_payload (self : CoproControl) : result pyval :=
  prompt_model_hash ← CoproProposerConfig_identity_hash (cc_prompt_model self);
  Ok (PDict [($"algorithm", PStr $"copro"); ($"algorithm_version", PStr (cc_algorithm_version self));
             ($"reference_commit", PStr COPRO_REFERENCE_COMMIT);
             ($"proposal_prompt_schema_tag", PStr (cc_proposal_prompt_schema_tag self));
             ($"provider_execution_policy_hash", PStr (cc_provider_execution_policy_hash self));
             ($"prompt_adapter_identity_hash", PStr (cc_prompt_adapter_identity_hash self));
             ($"prompt_model",
               PDict [($"identity_hash", PStr prompt_model_hash);
                      ($"config", CoproProposerConfig_identity_payload (cc_prompt_model self))]);
             ($"proposal_contract", CoproProposalContractRecord_dump (cc_proposal_contract self));
             ($"eval_config_ref", EvalConfigRef_dump (cc_eval_config_ref self));
             ($"eval_role", PStr (EvalRole_value (cc_eval_role self)));
             ($"provider_execution_policy_ref",
               POption IdentityRef_dump (cc_provider_execution_policy_ref self));
             ($"expected_reward_policy_hash", PStr (cc_expected_reward_policy_hash self));
             ($"breadth", PInt (cc_breadth self)); ($"depth", PInt (cc_depth self));
             ($"track_stats", PBool (cc_track_stats self))]).

Definition CoproControl_identity_hash (self : CoproControl) : result pystr :=
  payload ← CoproControl_identity_payload self;
  compute_identity_hash COPRO_CONTROL_SCHEMA COPRO_CONTROL_SCHEMA_VERSION payload.

Definition CoproControl_reference (self : CoproControl) : result IdentityRef :=
  record_ref ← typed_ref_for_record COPRO_CONTROL_SCHEMA (CoproControl_record_content self);
  record_hash ← CoproControl_identity_hash self;
  IdentityRef_new record_ref (PStr record_hash).

Definition require_identity_hash (self : CoproControl) (persisted_hash : pystr) : result unit :=
  require_full_hash (PStr persisted_hash) ;;
  expected ← CoproControl_identity_hash self;
  require (bool_decide (persisted_hash = expected)) ValueError
    "optimizer_config_hash conflicts with resolved COPRO control".

Definition configure_copro (prompt_model : option CoproProposerConfig)
    (metric : option EvalConfigRef) (breadth depth : Z) (track_stats : bool)
    (defaults : CoproInjectedDefaults) : result CoproControl :=
  adapter_hash ← prompt_adapter_identity_hash (cid_prompt_adapter_output_field defaults);
  CoproControl_validate
    {| cc_prompt_model := default (cid_prompt_model defaults) prompt_model;
       cc_proposal_contract := cid_proposal_contract defaults;
       cc_eval_config_ref := default (cid_eval_config_ref defaults) metric;
       cc_eval_role := cid_eval_role defaults;
       cc_provider_execution_policy_ref := cid_provider_execution_policy_ref defaults;
       cc_expected_reward_policy_hash := cid_expected_reward_policy_hash defaults;
       cc_breadth := breadth; cc_depth := depth; cc_track_stats := track_stats;
       cc_provider_execution_policy_hash := cid_provider_execution_policy_hash defaults;
       cc_prompt_adapter_identity_hash := adapter_hash;
       cc_algorithm_version := COPRO_ALGORITHM_VERSION;
       cc_proposal_prompt_schema_tag := COPRO_PROPOSAL_PROMPT_SCHEMA_TAG |}.
End Control.

(** ** Measured attempts *)

Record CoproAttempt := {
  ca_occurrence_ordinal : Z;
  ca_round_index : Z;
  ca_run_id : pystr;
  ca_step_index : Z;
  ca_intent_id : pystr;
  ca_candidate : CandidateRef;
  ca_eval_config_ref : EvalConfigRef;
  ca_eval_role : EvalRole;
  ca_provider_execution_policy_ref : option IdentityRef;
  ca_reward : float;
  ca_expected_reward_policy_hash : pystr;
  ca_eval_result_ref : TypedRef;
  ca_reward_evidence_refs : list TypedRef;
  ca_reward_ref : RewardRef;
  ca_mutation_field : pystr;
}.

Definition CoproAttempt_dump (a : CoproAttempt) : pyval :=
  PDict [($"occurrence_ordinal", PInt (ca_occurrence_ordinal a));
         ($"round_index", PInt (ca_round_index a)); ($"run_id", PStr (ca_run_id a));
         ($"step_index", PInt (ca_step_index a)); ($"intent_id", PStr (ca_intent_id a));
         ($"candidate", CandidateRef_dump (ca_candidate a));
         ($"eval_config_ref", EvalConfigRef_dump (ca_eval_config_ref a));
         ($"eval_role", PStr (EvalRole_value (ca_eval_role a)));
         ($"provider_execution_policy_ref",
           POption IdentityRef_dump (ca_provider_execution_policy_ref a));
         ($"reward", PFloat (ca_reward a));
         ($"expected_reward_policy_hash", PStr (ca_expected_reward_policy_hash a));
         ($"eval_result_ref", TypedRef_dump (ca_eval_result_ref a));
         ($"reward_evidence_refs", PList (TypedRef_dump <$> ca_reward_evidence_refs a));
         ($"reward_ref", RewardRef_dump (ca_reward_ref a));
         ($"mutation_field", PStr (ca_mutation_field a))].

Definition candidate_id (self : CoproAttempt) : pystr :=
  cand_candidate_id (candr_record (ca_candidate self)).

(** The value of the mutation field, a string in every valid attempt. *)
Definition instruction (self : CoproAttempt) : pystr :=
  match payload_get (candr_record (ca_candidate self)) (ca_mutation_field self) with
  | PStr value => value
  | _ => []
  end.

Definition prompt_entry (self : CoproAttempt) : pyval :=
  PDict [($"occurrence_ordinal", PInt (ca_occurrence_ordinal self));
         ($"candidate_id", PStr (candidate_id self)); ($"instruction", PStr (instruction self));
         ($"reward", PFloat (ca_reward self))].

Section Attempts.
Context `{DSer : !DrSerialize, DSto : !DrStore}.

(** The model validator of [CoproAttempt]. *)
Definition CoproAttempt_validate (self : CoproAttempt) : result CoproAttempt :=
  require (negb (ca_occurrence_ordinal self <? 0)%Z) ValueError
    "COPRO occurrence_ordinal cannot be negative" ;;
  require (negb (ca_round_index self <? 0)%Z) ValueError "COPRO round_index cannot be negative" ;;
  require (negb (bool_decide (ca_run_id self = [])) && negb (bool_decide (ca_intent_id self = [])))
    ValueError "COPRO attempt run_id and intent_id are required" ;;
  require (ca_step_index self =? ca_round_index self)%Z ValueError
    "COPRO attempt step_index must equal its round_index" ;;
  require (fisfinite (ca_reward self)) ValueError "COPRO attempt reward must be finite" ;;
  require_full_hash (PStr (ca_expected_reward_policy_hash self)) ;;
  require (match payload_get (candr_record (ca_candidate self)) (ca_mutation_field self) with
           | PStr (_ :: _) => true | _ => false end) ValueError
    "COPRO attempt candidate requires a non-empty instruction" ;;
  require (bool_decide (tref_schema_name (ca_eval_result_ref self) = EVAL_EVIDENCE_SCHEMA))
    ValueError "COPRO attempt eval_result_ref must use the evidence schema" ;;
  let reward := rwr_record (ca_reward_ref self) in
  require (feq (rw_value reward) (ca_reward self)) ValueError
    "COPRO attempt reward must match its exact Reward" ;;
  policy_hash ← Reward_policy_hash reward;
  require (bool_decide (policy_hash = ca_expected_reward_policy_hash self)) ValueError
    "COPRO attempt Reward Policy must match its expected hash" ;;
  require (bool_decide (rw_evidence_refs reward = ca_reward_evidence_refs self)) ValueError
    "COPRO attempt Reward citations must match its exact Reward" ;;
  require (bool_decide (ca_eval_role self = INTERNAL)) ValueError
    "COPRO attempt requires internal evaluation" ;;
  Ok self.

(** [CoproAttempt.model_validate] of a dump, after the nested records'. *)
Definition CoproAttempt_model_validate (self : CoproAttempt) : result CoproAttempt :=
  CandidateRef_validate (ca_candidate self) ;;
  EvalConfigRef_validate (ca_eval_config_ref self) ;;
  RewardRef_model_validate (ca_reward_ref self) ;;
  CoproAttempt_validate self.

(** [CoproAttempt.from_resolution]. *)
Definition from_resolution (occurrence_ordinal round_index : Z) (resolution : IntentResolution)
    (expected_run_id : pystr) (expected_eval_config_ref : EvalConfigRef)
    (expected_eval_role : EvalRole) (expected_provider_execution_policy_ref : option IdentityRef)
    (expected_reward_policy_hash mutation_field : pystr) : result CoproAttempt :=
  resolution ← IntentResolution_model_validate resolution;
  require (bool_decide (ir_outcome resolution = Claims.COMPLETED)) ValueError
    "COPRO folds only completed measured resolutions" ;;
  require (bool_decide (rd_classification (ir_detail resolution) = MEASURED)) ValueError
    "COPRO folds only measured resolution details" ;;
  reward_ref ← of_option (ir_reward_ref resolution) ValueError
    "COPRO measured resolution requires Reward ref";
  eval_result_ref ← of_option (ir_eval_result_ref resolution) ValueError
    "COPRO measured resolution requires an Evaluation Result ref";
  let optim_eval_request := ir_optim_eval_request resolution in
  expected_hash ← of_option (oer_expected_reward_policy_hash optim_eval_request) ValueError
    "COPRO folds only internal evaluation intents";
  require (bool_decide (oer_optim_run_id optim_eval_request = expected_run_id)) ValueError
    "COPRO resolution belongs to another run" ;;
  require (oer_optim_step_index optim_eval_request =? round_index)%Z ValueError
    "COPRO resolution belongs to another round" ;;
  require (same EvalConfigRef_dump (ir_resolved_eval_config resolution) expected_eval_config_ref)
    ValueError "COPRO resolution uses an unexpected Eval Config" ;;
  require (bool_decide (expected_eval_role = INTERNAL)) ValueError
    "COPRO folds only internal evaluation intents" ;;
  require (bool_decide (expected_hash = expected_reward_policy_hash)) ValueError
    "COPRO resolution expects an unexpected Reward Policy" ;;
  let reward := rwr_record reward_ref in
  policy_hash ← Reward_policy_hash reward;
  require (bool_decide (policy_hash = expected_reward_policy_hash)) ValueError
    "COPRO Reward uses an unexpected Reward Policy" ;;
  candidate_ref ← candidate_reference (er_candidate (oer_eval_request optim_eval_request));
  CoproAttempt_validate
    {| ca_occurrence_ordinal := occurrence_ordinal; ca_round_index := round_index;
       ca_run_id := expected_run_id; ca_step_index := oer_optim_step_index optim_eval_request;
       ca_intent_id := er_request_id (oer_eval_request optim_eval_request);
       ca_candidate := candidate_ref; ca_eval_config_ref := ir_resolved_eval_config resolution;
       ca_eval_role := expected_eval_role;
       ca_provider_execution_policy_ref := expected_provider_execution_policy_ref;
       ca_reward := rw_value reward; ca_expected_reward_policy_hash := policy_hash;
       ca_eval_result_ref := eval_result_ref;
       ca_reward_evidence_refs := ir_reward_evidence_refs resolution;
       ca_reward_ref := reward_ref; ca_mutation_field := mutation_field |}.
End Attempts.

(** ** Ranking *)

(** The loop of [_unique_measured_attempts]. *)
Definition keep_best (unique : list (pystr * CoproAttempt)) (entry : CoproAttempt) :
    list (pystr * CoproAttempt) :=
  match dict_get unique (instruction entry) with
  | Some prior =>
      if flt (ca_reward prior) (ca_reward entry) then dict_set unique (instruction entry) entry
      else unique
  | None => dict_set unique (instruction entry) entry
  end.

Definition unique_measured_attempts (entries : list CoproAttempt) : list CoproAttempt :=
  (foldl keep_best [] entries).*2.

(** [not (-b.reward < -a.reward)]: the sort by the key [-reward]. *)
Definition reward_leb (a b : CoproAttempt) : bool :=
  negb (flt (fopp (ca_reward b)) (fopp (ca_reward a))).

Definition rank_attempt_history (entries : list CoproAttempt) : list CoproAttempt :=
  py_sorted reward_leb (unique_measured_attempts entries).

(** ** Rounds *)

Record grouping := {
  gr_groups : list (list CoproAttempt);
  gr_current : list CoproAttempt;
  gr_seen : list Z;
}.

(** One turn of the loop of [_rounds_by_index]. *)
Definition group_attempt (g : grouping) (attempt : CoproAttempt) : result grouping :=
  let g :=
    match last (gr_current g) with
    | Some final =>
        if (ca_round_index attempt =? ca_round_index final)%Z then g
        else {| gr_groups := gr_groups g ++ [gr_current g]; gr_current := []; gr_seen := gr_seen g |}
    | None => g
    end in
  match gr_current g with
  | [] =>
      require (negb (bool_decide (ca_round_index attempt ∈ gr_seen g))) ValueError
        "COPRO attempt history revisits an earlier round index" ;;
      require (forallb (λ index, (index <? ca_round_index attempt)%Z) (gr_seen g)) ValueError
        "COPRO attempt history round indices must ascend" ;;
      Ok {| gr_groups := gr_groups g; gr_current := [attempt];
            gr_seen := ca_round_index attempt :: gr_seen g |}
  | current =>
      Ok {| gr_groups := gr_groups g; gr_current := current ++ [attempt]; gr_seen := gr_seen g |}
  end.

Fixpoint group_attempts (g : grouping) (attempts : list CoproAttempt) : result grouping :=
  match attempts with
  | [] => Ok g
  | attempt :: attempts => g ← group_attempt g attempt; group_attempts g attempts
  end.

Definition rounds_by_index (attempts : list CoproAttempt) : result (list (list CoproAttempt)) :=
  g ← group_attempts {| gr_groups := []; gr_current := []; gr_seen := [] |} attempts;
  Ok (match gr_current g with [] => gr_groups g | current => gr_groups g ++ [current] end).

(** ** The driver *)

Record CoproConfig := {
  cfg_breadth : Z;
  cfg_depth : Z;
  cfg_track_stats : bool;
}.

Definition CoproConfig_validate (self : CoproConfig) : result CoproConfig :=
  require (negb (cfg_breadth self <=? 1)%Z) ValueError "COPRO breadth must be greater than 1" ;;
  require (negb (cfg_depth self <? 1)%Z) ValueError "COPRO depth must be positive" ;;
  Ok self.

Record CoproRoundPlan := {
  crp_iteration : Z;
  crp_proposal_mode : pystr;
  crp_proposal_count : Z;
  crp_include_initial_candidate : bool;
  crp_instruction_history : list pyval;
}.

Definition CoproRoundPlan_dump (p : CoproRoundPlan) : pyval :=
  PDict [($"iteration", PInt (crp_iteration p)); ($"proposal_mode", PStr (crp_proposal_mode p));
         ($"proposal_count", PInt (crp_proposal_count p));
         ($"include_initial_candidate", PBool (crp_include_initial_candidate p));
         ($"instruction_history", PList (crp_instruction_history p))].

Record CoproState := {
  cs_initial_candidate : Candidate;
  cs_mutation_field : pystr;
  cs_completed_rounds : Z;
  cs_attempts : list CoproAttempt;
  cs_total_calls : Z;
}.

Definition CoproState_validate (self : CoproState) : result CoproState :=
  require (negb (cs_completed_rounds self <? 0)%Z && negb (cs_total_calls self <? 0)%Z) ValueError
    "COPRO state counters cannot be negative" ;;
  require (cs_total_calls self =? Z.of_nat (length (cs_attempts self)))%Z ValueError
    "COPRO total_calls must equal folded occurrences" ;;
  Ok self.

Definition CoproState_dump (s : CoproState) : pyval :=
  PDict [($"initial_candidate", Candidate_record_content (cs_initial_candidate s));
         ($"mutation_field", PStr (cs_mutation_field s));
         ($"completed_rounds", PInt (cs_completed_rounds s));
         ($"attempts", PList (CoproAttempt_dump <$> cs_attempts s));
         ($"total_calls", PInt (cs_total_calls s))].

(** [==] of the values of a frozen payload. *)
Fixpoint frozen_value_eq `{!DrSerialize} (a b : pyval) {struct a} : result bool :=
  let go := fix go (l1 l2 : list pyval) {struct l1} : result bool :=
    match l1, l2 with
    | [], [] => Ok true
    | x :: l1, y :: l2 =>
        match frozen_value_eq x y with
        | Ok true => go l1 l2
        | r => r
        end
    | _, _ => Ok false
    end in
  match a, b with
  | PFrozen kvs, _ => frozen_eq kvs b
  | PTuple l1, PTuple l2 => go l1 l2
  | _, _ => Ok (scalar_eq a b)
  end.

(** [==] of the dictionaries of fixed fields. *)
Definition fixed_eq `{!DrSerialize} (a b : list (pystr * pyval)) : result bool :=
  if negb (length a =? length b)%nat then Ok false else
  foldr (λ kv rest,
    match dict_get b kv.1 with
    | None => Ok false
    | Some v =>
        match frozen_value_eq kv.2 v with
        | Ok true => rest
        | r => r
        end
    end) (Ok true) a.

(** What every attempt of a state shares. *)
Record expectation := {
  ex_run_id : pystr;
  ex_eval_config_ref : EvalConfigRef;
  ex_eval_role : EvalRole;
  ex_provider_execution_policy_ref : option IdentityRef;
  ex_reward_policy_hash : pystr;
}.

Definition expected_of (attempt : CoproAttempt) : expectation :=
  {| ex_run_id := ca_run_id attempt; ex_eval_config_ref := ca_eval_config_ref attempt;
     ex_eval_role := ca_eval_role attempt;
     ex_provider_execution_policy_ref := ca_provider_execution_policy_ref attempt;
     ex_reward_policy_hash := ca_expected_reward_policy_hash attempt |}.

Section Driver.
Context `{DSer : !DrSerialize}.

(** The body of the loop of [fold_round], but for the intent ids. *)
Definition check_attempt (state : CoproState) (ex : expectation) (expected : Z)
    (prior_intent_ids : list pystr) (attempt : CoproAttempt) : result unit :=
  require (ca_occurrence_ordinal attempt =? expected)%Z ValueError
    "COPRO occurrence ordinals must be contiguous in evaluation order" ;;
  require (ca_round_index attempt =? cs_completed_rounds state)%Z ValueError
    "COPRO attempt round_index does not match state" ;;
  require (bool_decide (ca_run_id attempt = ex_run_id ex)) ValueError
    "COPRO attempts span multiple runs" ;;
  require (same EvalConfigRef_dump (ca_eval_config_ref attempt) (ex_eval_config_ref ex)) ValueError
    "COPRO attempts span multiple Eval Configs" ;;
  require (bool_decide (ca_eval_role attempt = ex_eval_role ex)) ValueError
    "COPRO attempts span multiple Evaluation Roles" ;;
  require (bool_decide (ca_provider_execution_policy_ref attempt =
                        ex_provider_execution_policy_ref ex)) ValueError
    "COPRO attempts span multiple Provider Execution Policies" ;;
  require (bool_decide (ca_expected_reward_policy_hash attempt = ex_reward_policy_hash ex)) ValueError
    "COPRO attempts span multiple Reward Policies" ;;
  require (negb (bool_decide (ca_intent_id attempt ∈ prior_intent_ids))) ValueError
    "COPRO attempt intent IDs must be unique" ;;
  let field := cs_mutation_field state in
  fixed ← fixed_eq (dict_pop (cand_payload (candr_record (ca_candidate attempt))) field)
    (dict_pop (cand_payload (cs_initial_candidate state)) field);
  require fixed ValueError "COPRO attempt changes a field outside the instruction".

Fixpoint check_round (state : CoproState) (ex : expectation) (expected : Z)
    (prior_intent_ids : list pystr) (attempts : list CoproAttempt) : result unit :=
  match attempts with
  | [] => Ok tt
  | attempt :: attempts =>
      check_attempt state ex expected prior_intent_ids attempt ;;
      check_round state ex (expected + 1)%Z (ca_intent_id attempt :: prior_intent_ids) attempts
  end.

Definition initial_state (initial_candidate : Candidate) (mutation_field : pystr) : CoproState :=
  {| cs_initial_candidate := initial_candidate; cs_mutation_field := mutation_field;
     cs_completed_rounds := 0; cs_attempts := []; cs_total_calls := 0 |}.

Definition fold_round (config : CoproConfig) (state : CoproState) (attempts : list CoproAttempt) :
    result CoproState :=
  require (cs_completed_rounds state <? cfg_depth config)%Z ValueError
    "COPRO state already contains configured depth" ;;
  require (negb (cfg_breadth config <? Z.of_nat (length attempts))%Z) ValueError
    "COPRO round exceeded breadth measured occurrences" ;;
  match attempts with
  | [] => raise ValueError "COPRO round requires at least one measured occurrence"
  | first :: _ =>
      check_round state (expected_of (default first (head (cs_attempts state))))
        (Z.of_nat (length (cs_attempts state))) (ca_intent_id <$> cs_attempts state) attempts ;;
      CoproState_validate
        {| cs_initial_candidate := cs_initial_candidate state;
           cs_mutation_field := cs_mutation_field state;
           cs_completed_rounds := cs_completed_rounds state + 1;
           cs_attempts := cs_attempts state ++ attempts;
           cs_total_calls := cs_total_calls state + Z.of_nat (length attempts) |}
  end.

Fixpoint fold_rounds (config : CoproConfig) (state : CoproState)
    (groups : list (list CoproAttempt)) : result CoproState :=
  match groups with
  | [] => Ok state
  | group :: groups => state ← fold_round config state group; fold_rounds config state groups
  end.

Definition restore_state (config : CoproConfig) (initial_candidate : Candidate)
    (attempts : list CoproAttempt) (mutation_field : pystr) : result CoproState :=
  groups ← rounds_by_index attempts;
  fold_rounds config (initial_state initial_candidate mutation_field) groups.

Definition terminal_ranking (attempt_history : list CoproAttempt) : list CoproAttempt :=
  rank_attempt_history attempt_history.

Definition plan_round (config : CoproConfig) (iteration : Z) (initial_candidates : list Candidate)
    (attempt_history : list CoproAttempt) : result CoproRoundPlan :=
  require (length initial_candidates =? 1)%nat ValueError
    "single-prompt COPRO requires exactly one initial candidate" ;;
  require (negb (iteration <? 0)%Z && negb (cfg_depth config <=? iteration)%Z) ValueError
    "COPRO iteration exceeds configured depth" ;;
  let ranked := rank_attempt_history attempt_history in
  if (iteration =? 0)%Z then
    require (bool_decide (length ranked = 0%nat)) ValueError
      "COPRO seed round cannot consume measured history" ;;
    Ok {| crp_iteration := iteration; crp_proposal_mode := SEED_PROPOSAL;
          crp_proposal_count := cfg_breadth config - 1; crp_include_initial_candidate := true;
          crp_instruction_history := [] |}
  else
    require (negb (bool_decide (length ranked = 0%nat))) ValueError
      "COPRO history round requires measured history" ;;
    let selected_best_first := take (Z.to_nat (cfg_breadth config)) ranked in
    Ok {| crp_iteration := iteration; crp_proposal_mode := HISTORY_PROPOSAL;
          crp_proposal_count := cfg_breadth config; crp_include_initial_candidate := false;
          crp_instruction_history := prompt_entry <$> rev selected_best_first |}.

(** The state is the one its own history restores. *)
Definition check_restores (config : CoproConfig) (state : CoproState) : result unit :=
  restored ← restore_state config (cs_initial_candidate state) (cs_attempts state)
    (cs_mutation_field state);
  require (same CoproState_dump restored state) ValueError
    "COPRO state does not match its occurrence history".

Definition advance (config : CoproConfig) (state : CoproState) : result CoproRoundPlan :=
  check_restores config state ;;
  require (cs_completed_rounds state <? cfg_depth config)%Z ValueError
    "COPRO has no round remaining to advance" ;;
  plan_round config (cs_completed_rounds state) [cs_initial_candidate state] (cs_attempts state).
End Driver.

(** ** Statistics *)

(** [statistics.pstdev]: the variance of the data, exactly, and the float
    nearest to its square root. The data are integers over a common power of
    two, [2 ^ low]; the variance is [num / den * 2 ^ (2 * low)]. *)
Definition float_parts (f : float) : Z * Z :=
  match f with
  | S754_finite s m e => (if s then Z.neg m else Z.pos m, e)
  | _ => (0%Z, 0%Z)
  end.

(** The square root of [n / m], its inexactness recorded in the last bit. *)
Definition integer_sqrt_of_frac_rto (n m : Z) : Z :=
  let a := Z.sqrt (n / m) in
  Z.lor a (if (a * a * m =? n)%Z then 0 else 1)%Z.

Definition bit_length (n : Z) : Z := if (n <=? 0)%Z then 0%Z else (Z.log2 n + 1)%Z.

Definition float_sqrt_of_frac (n m : Z) : float :=
  let q := ((bit_length n - bit_length m - 109) / 2)%Z in
  if (0 <=? q)%Z
  then binary_normalize 53 1024 (integer_sqrt_of_frac_rto n (Z.shiftl m (2 * q))) q false
  else binary_normalize 53 1024 (integer_sqrt_of_frac_rto (Z.shiftl n (-2 * q)) m) q false.

Definition pstdev (data : list float) : result float :=
  let parts := float_parts <$> data in
  let low := foldr Z.min 0%Z parts.*2 in
  let xs := (λ p, Z.shiftl p.1 (p.2 - low)) <$> parts in
  let count := Z.of_nat (length data) in
  require (negb (count <? 1)%Z) ValueError "pstdev requires at least one data point" ;;
  let num := (count * int_sum ((λ x, x * x) <$> xs) - int_sum xs * int_sum xs)%Z in
  let den := (count * count)%Z in
  let den := Z.shiftl den (Z.max 0 (-2 * low)) in
  let g := Z.gcd num den in
  Ok (if (num =? 0)%Z then fzero else float_sqrt_of_frac (num / g) (den / g)).

Record CoproStatisticsSeries := {
  css_depth : list Z;
  css_max : list float;
  css_average : list float;
  css_min : list float;
  css_std : list float;
}.
Record CoproStatistics := {
  cst_total_calls : Z;
  cst_results_latest : CoproStatisticsSeries;
  cst_results_best : CoproStatisticsSeries;
}.
Record CoproFinalization := {
  cf_ranked_attempts : list CoproAttempt;
  cf_total_calls : Z;
  cf_statistics : option CoproStatistics;
}.

(** [max(scores)], [sum(scores) / len(scores)], [min(scores)], [pstdev(scores)]. *)
Record score_summary_of := {
  sum_max : float;
  sum_average : float;
  sum_min : float;
  sum_std : float;
}.

Definition score_summary (scores : list float) : result score_summary_of :=
  match scores with
  | [] => raise ValueError "COPRO statistics require measured scores"
  | score :: rest =>
      std ← pstdev scores;
      Ok {| sum_max := foldl (λ a b, if flt a b then b else a) score rest;
            sum_average := fdiv (float_sum scores) (float_of_Z (Z.of_nat (length scores)));
            sum_min := foldl (λ a b, if flt b a then b else a) score rest;
            sum_std := std |}
  end.

Section Finalize.
Context `{DSer : !DrSerialize}.

(** The loop over the rounds: the attempts so far, and the summaries of the
    round and of the ten best so far. *)
Fixpoint summarize_rounds (config : CoproConfig) (cumulative : list CoproAttempt)
    (rounds : list (list CoproAttempt)) :
    result (list score_summary_of * list score_summary_of * Z) :=
  match rounds with
  | [] => Ok ([], [], 0%Z)
  | round_entries :: rounds =>
      require (negb (cfg_breadth config <? Z.of_nat (length round_entries))%Z) ValueError
        "COPRO statistics require at most one breadth-sized batch per depth" ;;
      let cumulative := cumulative ++ round_entries in
      let unique_best := take 10 (rank_attempt_history cumulative) in
      latest ← score_summary (ca_reward <$> round_entries);
      best ← score_summary (ca_reward <$> unique_best);
      '(latests, bests, calls) ← summarize_rounds config cumulative rounds;
      Ok (latest :: latests, best :: bests, Z.of_nat (length round_entries) + calls)%Z
  end.

Definition series (depths : list Z) (summaries : list score_summary_of) : CoproStatisticsSeries :=
  {| css_depth := depths; css_max := sum_max <$> summaries; css_average := sum_average <$> summaries;
     css_min := sum_min <$> summaries; css_std := sum_std <$> summaries |}.

Definition statistics (config : CoproConfig) (rounds : list (list CoproAttempt)) :
    result CoproStatistics :=
  require (Z.of_nat (length rounds) =? cfg_depth config)%Z ValueError
    "COPRO statistics require exactly configured depth rounds" ;;
  '(latests, bests, total_calls) ← summarize_rounds config [] rounds;
  let depths := seqZ 0 (Z.of_nat (length rounds)) in
  Ok {| cst_total_calls := total_calls; cst_results_latest := series depths latests;
        cst_results_best := series depths bests |}.

Definition finalize (config : CoproConfig) (state : CoproState) : result CoproFinalization :=
  check_restores config state ;;
  require (cs_completed_rounds state =? cfg_depth config)%Z ValueError
    "COPRO cannot finalize before configured depth" ;;
  rounds ← rounds_by_index (cs_attempts state);
  statistics ← (if cfg_track_stats config then Some <$> statistics config rounds else Ok None);
  Ok {| cf_ranked_attempts := terminal_ranking (cs_attempts state);
        cf_total_calls := cs_total_calls state; cf_statistics := statistics |}.
End Finalize.

Definition Series_dump (s : CoproStatisticsSeries) : pyval :=
  PDict [($"depth", PList (PInt <$> css_depth s)); ($"max", PList (PFloat <$> css_max s));
         ($"average", PList (PFloat <$> css_average s)); ($"min", PList (PFloat <$> css_min s));
         ($"std", PList (PFloat <$> css_std s))].
Definition CoproStatistics_dump (s : CoproStatistics) : pyval :=
  PDict [($"total_calls", PInt (cst_total_calls s));
         ($"results_latest", Series_dump (cst_results_latest s));
         ($"results_best", Series_dump (cst_results_best s))].
Definition CoproFinalization_dump (f : CoproFinalization) : pyval :=
  PDict [($"ranked_attempts", PList (CoproAttempt_dump <$> cf_ranked_attempts f));
         ($"total_calls", PInt (cf_total_calls f));
         ($"statistics", POption CoproStatistics_dump (cf_statistics f))].

(** ** Ranking is exact *)

(** The position of the first entry with an instruction. *)
Definition first_measured (entries : list CoproAttempt) (i : pystr) : nat :=
  match list_find (λ e, instruction e = i) entries with
  | Some (n, _) => n
  | None => length entries
  end.

(** The first entry that attains the best reward of its instruction. *)
Definition best_of (entries : list CoproAttempt) (e : CoproAttempt) : Prop :=
  ∃ before after, entries = before ++ e :: after ∧
    Forall (λ x, instruction x = instruction e → flt (ca_reward x) (ca_reward e) = true) before ∧
    Forall (λ x, instruction x = instruction e → flt (ca_reward e) (ca_reward x) = false) after.

Definition measured (e : CoproAttempt) : Prop := fisfinite (ca_reward e) = true.

Section Ranking.
Implicit Types (e : CoproAttempt) (entries : list CoproAttempt).

Lemma first_measured_app entries e i :
  i ∈ instruction <$> entries → first_measured (entries ++ [e]) i = first_measured entries i.
Proof.
  intros (x & -> & Hx)%list_elem_of_fmap. unfold first_measured.
  destruct (list_find_elem_of (λ y, instruction y = instruction x) entries x Hx eq_refl) as [[n y] Hn].
  by rewrite Hn, (list_find_app_l _ _ _ _ _ Hn).
Qed.

Lemma first_measured_last entries e :
  instruction e ∉ instruction <$> entries →
  first_measured (entries ++ [e]) (instruction e) = length entries.
Proof.
  intros Hn. unfold first_measured.
  assert (list_find (λ x, instruction x = instruction e) entries = None) as Hf.
  { apply list_find_None, Forall_forall. intros x Hx Heq. apply Hn. rewrite <-Heq. by apply list_elem_of_fmap_2. }
  rewrite list_find_app_r by done. simpl. rewrite decide_True by done. simpl. lia.
Qed.

Lemma first_measured_lt entries i : i ∈ instruction <$> entries → (first_measured entries i < length entries)%nat.
Proof.
  intros (x & -> & Hx)%list_elem_of_fmap. unfold first_measured.
  destruct (list_find_elem_of (λ y, instruction y = instruction x) entries x Hx eq_refl) as [[n y] Hn].
  rewrite Hn. apply list_find_Some in Hn as (Hn & _). by eapply lookup_lt_Some.
Qed.

(** The dictionary after a prefix of the entries. *)
Record unique_inv (entries : list CoproAttempt) (unique : list (pystr * CoproAttempt)) : Prop := {
  ui_keys i : i ∈ unique.*1 ↔ i ∈ instruction <$> entries;
  ui_order : StronglySorted (λ i j, (first_measured entries i < first_measured entries j)%nat) unique.*1;
  ui_best i e : (i, e) ∈ unique → instruction e = i ∧ best_of entries e;
}.

Lemma sorted_NoDup {A} (f : A → nat) (l : list A) :
  StronglySorted (λ x y, (f x < f y)%nat) l → NoDup l.
Proof.
  induction 1 as [|x l Hs IH Hx]; constructor; [|done]. intros Hin.
  rewrite Forall_forall in Hx. specialize (Hx x Hin). simpl in Hx. lia.
Qed.

Lemma ui_NoDup entries unique : unique_inv entries unique → NoDup unique.*1.
Proof. intros [_ Ho _]. by eapply sorted_NoDup. Qed.

Lemma best_of_app entries e x :
  best_of entries e → (instruction x = instruction e → flt (ca_reward e) (ca_reward x) = false) →
  best_of (entries ++ [x]) e.
Proof.
  intros (before & after & -> & Hb & Ha) Hx. exists before, (after ++ [x]).
  rewrite <-app_assoc. split_and!; [done|done|]. apply Forall_app. split; [done|]. by constructor.
Qed.

Lemma sorted_first_app entries e keys :
  (∀ i, i ∈ keys → i ∈ instruction <$> entries) →
  StronglySorted (λ i j, (first_measured entries i < first_measured entries j)%nat) keys →
  StronglySorted (λ i j, (first_measured (entries ++ [e]) i < first_measured (entries ++ [e]) j)%nat) keys.
Proof.
  intros Hk Hs. induction Hs as [|i keys Hs IH Hi]; constructor.
  - apply IH. intros j Hj. apply Hk. by constructor.
  - rewrite Forall_forall in *. intros j Hj.
    rewrite !first_measured_app by (apply Hk; by constructor). by apply Hi.
Qed.

Lemma best_of_reward entries x e :
  best_of entries x → e ∈ entries → instruction e = instruction x → flt (ca_reward x) (ca_reward e) = false.
Proof.
  intros (before & after & -> & Hb & Ha) Hin Heq. rewrite elem_of_app, elem_of_cons in Hin.
  rewrite Forall_forall in Hb, Ha. destruct Hin as [Hin|[->|Hin]].
  - by apply flt_asym, Hb.
  - apply flt_irrefl.
  - by apply Ha.
Qed.

(** A strictly better entry after the best one so far. *)
Lemma best_of_last entries prior e :
  Forall measured (entries ++ [e]) → best_of entries prior → instruction prior = instruction e →
  flt (ca_reward prior) (ca_reward e) = true → best_of (entries ++ [e]) e.
Proof.
  intros Hm Hbest Hi Hlt. exists entries, []. split_and!; [done| |constructor].
  apply Forall_forall. intros x Hx Heq. rewrite Forall_app, !Forall_forall in Hm.
  destruct Hm as [Hm _]. assert (prior ∈ entries) as Hp.
  { destruct Hbest as (? & ? & -> & _). set_solver. }
  eapply flt_not_flt_trans; [| |done|].
  - by apply fisfinite_number, Hm.
  - by apply fisfinite_number, Hm.
  - eapply best_of_reward; [done|done|congruence].
Qed.

Lemma dict_set_elem_NoDup {V} (kvs : list (pystr * V)) k v k' v' :
  (k', v') ∈ dict_set kvs k v → NoDup kvs.*1 → (k', v') = (k, v) ∨ ((k', v') ∈ kvs ∧ k' ≠ k).
Proof.
  intros Hin Hnd. destruct (decide (k' = k)) as [->|Hne].
  - left. apply (dict_get_NoDup _ _ _ (dict_set_NoDup _ k v Hnd)) in Hin.
    rewrite dict_get_set_eq in Hin. congruence.
  - right. apply dict_set_elem in Hin as [[= ? _]|Hin]; done.
Qed.

Lemma StronglySorted_snoc {A} (R : A → A → Prop) l x :
  StronglySorted R l → Forall (λ y, R y x) l → StronglySorted R (l ++ [x]).
Proof.
  induction 1 as [|y l Hs IH Hy]; intros Hx; simpl; [by repeat constructor|].
  inversion_clear Hx. constructor; [by apply IH|]. apply Forall_app. split; [done|]. by constructor.
Qed.

Lemma keep_best_inv entries unique e :
  Forall measured (entries ++ [e]) → unique_inv entries unique →
  unique_inv (entries ++ [e]) (keep_best unique e).
Proof.
  intros Hm Hinv. pose proof (ui_NoDup _ _ Hinv) as Hnd. destruct Hinv as [Hk Ho Hb].
  assert (∀ i, i ∈ instruction <$> entries ++ [e] ↔ i = instruction e ∨ i ∈ instruction <$> entries) as Hk'.
  { intros i. rewrite fmap_app, elem_of_app. csimpl. rewrite list_elem_of_singleton. tauto. }
  assert (StronglySorted (λ i j,
    (first_measured (entries ++ [e]) i < first_measured (entries ++ [e]) j)%nat) unique.*1) as Ho'.
  { apply sorted_first_app; [|done]. intros i. by rewrite Hk. }
  assert (∀ i x, (i, x) ∈ unique → i ≠ instruction e → instruction x = i ∧ best_of (entries ++ [e]) x) as Hother.
  { intros i x Hx Hne. destruct (Hb _ _ Hx) as [Hix Hbx]. split; [done|].
    apply best_of_app; [done|]. congruence. }
  unfold keep_best. destruct (dict_get unique (instruction e)) as [prior|] eqn:Hg.
  - destruct (Hb _ _ (dict_get_Some _ _ _ Hg)) as [Hi Hbest].
    assert (instruction e ∈ unique.*1) as Hke.
    { apply list_elem_of_fmap. exists (instruction e, prior). split; [done|]. by apply dict_get_Some. }
    assert (∀ i, i ∈ unique.*1 ↔ i ∈ instruction <$> entries ++ [e]) as Hsame.
    { intros i. rewrite Hk', Hk. rewrite Hk in Hke. naive_solver. }
    destruct (flt (ca_reward prior) (ca_reward e)) eqn:Hlt; split.
    + intros i. by rewrite dict_set_keys_present.
    + by rewrite dict_set_keys_present.
    + intros i x Hx. apply dict_set_elem_NoDup in Hx as [[= -> ->]|[Hx Hne]]; [|by apply Hother|done].
      split; [done|]. by apply (best_of_last _ prior).
    + done.
    + done.
    + intros i x Hx. destruct (Hb _ _ Hx) as [Hix Hbx]. split; [done|]. apply best_of_app; [done|].
      intros Heq. replace x with prior; [done|].
      apply (dict_get_NoDup _ _ _ Hnd) in Hx. rewrite <-Hix, <-Heq in Hx. congruence.
  - apply dict_get_None in Hg. rewrite dict_set_fresh by done.
    assert (instruction e ∉ instruction <$> entries) as Hfresh by (by rewrite <-Hk). split.
    + intros i. rewrite Hk', fmap_app, elem_of_app, Hk. csimpl. rewrite list_elem_of_singleton. tauto.
    + rewrite fmap_app. csimpl. apply StronglySorted_snoc; [done|]. apply Forall_forall.
      intros i Hi. rewrite first_measured_last by done. rewrite Hk in Hi.
      rewrite first_measured_app by done. by apply first_measured_lt.
    + intros i x [Hx|Hx%list_elem_of_singleton]%elem_of_app.
      * apply Hother; [done|]. intros ->. apply Hg. apply list_elem_of_fmap. by exists (instruction e, x).
      * injection Hx as -> ->. split; [done|]. exists entries, []. split_and!; [done| |constructor].
        apply Forall_forall. intros x Hx Heq. destruct Hfresh. rewrite <-Heq. by apply list_elem_of_fmap_2.
Qed.

Lemma unique_measured_inv entries :
  Forall measured entries → unique_inv entries (foldl keep_best [] entries).
Proof.
  induction entries as [|e entries IH] using rev_ind; intros Hm.
  { split; [done|constructor|by intros ? ? ?%elem_of_nil]. }
  rewrite foldl_app. simpl. apply keep_best_inv; [done|]. apply IH.
  by apply Forall_app in Hm as [? _].
Qed.

(** [-x < -y] is [y < x]. *)
Lemma flt_fopp x y : flt (fopp x) (fopp y) = flt y x.
Proof.
  destruct x as [sx|[]| |[] mx ex], y as [sy|[]| |[] my ey]; try done;
    try (by destruct sx); try (by destruct sy); cbv [flt fopp SFopp SFltb SFcompare negb];
    rewrite ?(Z.compare_antisym ex ey); destruct (ex ?= ey)%Z; simpl; try done;
    rewrite (Pos.compare_cont_antisym _ _ Eq); simpl; by destruct (Pos.compare_cont _ _ _).
Qed.

Lemma reward_leb_flt a b : reward_leb a b = negb (flt (ca_reward a) (ca_reward b)).
Proof. unfold reward_leb. by rewrite flt_fopp. Qed.

Lemma reward_leb_total a b : measured a → measured b → reward_leb a b = true ∨ reward_leb b a = true.
Proof.
  intros Ha Hb. rewrite !reward_leb_flt, !negb_true_iff.
  destruct (flt (ca_reward a) (ca_reward b)) eqn:E; [right; by apply flt_asym|by left].
Qed.

Lemma reward_leb_trans a b c : measured a → measured b → measured c →
  reward_leb a b = true → reward_leb b c = true → reward_leb a c = true.
Proof.
  unfold measured. intros Ha Hb Hc. rewrite !reward_leb_flt, !negb_true_iff.
  apply not_flt_trans; by apply fisfinite_number.
Qed.

(** The instructions of a dictionary's values are its keys. *)
Lemma unique_instructions entries unique :
  unique_inv entries unique → instruction <$> unique.*2 = unique.*1.
Proof.
  intros [_ _ Hb]. rewrite <-list_fmap_compose. apply list_fmap_ext.
  intros n [i e] Hin. simpl. apply (Hb i e). by eapply list_elem_of_lookup_2.
Qed.

Lemma reward_ties r a : measured r → measured a →
  reward_leb r a && reward_leb a r = true ↔ feq (ca_reward a) (ca_reward r) = true.
Proof.
  unfold measured. intros Hr%fisfinite_number Ha%fisfinite_number.
  rewrite andb_true_iff, !reward_leb_flt, !negb_true_iff. split.
  - intros [H1 H2]. destruct (flt_total _ _ Ha Hr) as [?|[?|?]]; congruence.
  - intros He. rewrite (flt_feq_l _ _ _ He), flt_irrefl. split; [|done].
    rewrite (flt_feq_r _ _ _ He). apply flt_irrefl.
Qed.

Lemma StronglySorted_filter {A} (R : A → A → Prop) (P : A → Prop) `{∀ x, Decision (P x)} l :
  StronglySorted R l → StronglySorted R (filter P l).
Proof.
  induction 1 as [|x l Hs IH Hx]; [constructor|]. rewrite filter_cons. case_decide; [|done].
  constructor; [done|]. apply Forall_forall. intros y [_ Hy]%list_elem_of_filter.
  rewrite Forall_forall in Hx. by apply Hx.
Qed.

Lemma StronglySorted_fmap_inv {A B} (R : B → B → Prop) (f : A → B) l :
  StronglySorted R (f <$> l) → StronglySorted (λ x y, R (f x) (f y)) l.
Proof.
  induction l as [|x l IH]; csimpl; intros Hs; [constructor|]. inversion_clear Hs as [|? ? Hl Hx].
  constructor; [by apply IH|]. by rewrite Forall_fmap in Hx.
Qed.

Lemma StronglySorted_weaken {A} (R S : A → A → Prop) l :
  (∀ x y, R x y → S x y) → StronglySorted R l → StronglySorted S l.
Proof.
  intros HRS. induction 1 as [|x l Hs IH Hx]; constructor; [done|].
  eapply Forall_impl; [done|]. eauto.
Qed.

Lemma filter_ext_Forall {A} (P Q : A → Prop) `{∀ x, Decision (P x)} `{∀ x, Decision (Q x)} l :
  Forall (λ x, P x ↔ Q x) l → filter P l = filter Q l.
Proof.
  induction 1 as [|x l Hx Hl IH]; [done|]. rewrite !filter_cons, IH.
  repeat case_decide; naive_solver.
Qed.

Lemma ranked_perm entries : rank_attempt_history entries ≡ₚ unique_measured_attempts entries.
Proof. apply py_sorted_perm. Qed.

Lemma ranked_measured entries :
  Forall measured entries → Forall measured (unique_measured_attempts entries).
Proof.
  intros Hm. destruct (unique_measured_inv entries Hm) as [_ _ Hb]. apply Forall_forall.
  intros e ((i & e') & -> & Hin)%list_elem_of_fmap.
  destruct (Hb _ _ Hin) as (_ & before & after & Heq & _). rewrite Forall_forall in Hm.
  apply Hm. rewrite Heq. set_solver.
Qed.

(** C21. Ranking a measured history keeps one attempt per instruction, the first
    that attains the instruction's best reward, and orders them by descending
    reward; instructions of equal reward keep the order in which they were
    first measured. *)
Theorem rank_attempt_history_exact entries :
  Forall measured entries →
  let ranked := rank_attempt_history entries in
  StronglySorted (λ a b, flt (ca_reward a) (ca_reward b) = false) ranked ∧
  NoDup (instruction <$> ranked) ∧
  (∀ i, i ∈ instruction <$> ranked ↔ i ∈ instruction <$> entries) ∧
  (∀ e, e ∈ ranked → best_of entries e) ∧
  (∀ r, r ∈ ranked →
    StronglySorted
      (λ a b, (first_measured entries (instruction a) < first_measured entries (instruction b))%nat)
      (filter (λ a, feq (ca_reward a) (ca_reward r) = true) ranked)).
Proof.
  intros Hm ranked. pose proof (unique_measured_inv entries Hm) as Hinv.
  pose proof (ranked_measured entries Hm) as Hum. pose proof (ranked_perm entries) as Hp.
  pose proof (unique_instructions _ _ Hinv) as Hi. fold (unique_measured_attempts entries) in Hi.
  split_and!.
  - apply (StronglySorted_weaken (λ a b, reward_leb a b = true)).
    + intros a b. rewrite reward_leb_flt. by intros ?%negb_true_iff.
    + apply (py_sorted_sorted _ measured); [apply reward_leb_total|apply reward_leb_trans|done].
  - subst ranked. rewrite Hp, Hi. by eapply ui_NoDup.
  - intros i. subst ranked. rewrite Hp, Hi. apply Hinv.
  - intros e He. subst ranked. rewrite Hp in He. apply list_elem_of_fmap in He as ([i e'] & -> & Hin).
    by apply (ui_best _ _ Hinv i).
  - intros r Hr. assert (measured r) as Hmr.
    { rewrite Forall_forall in Hum. apply Hum. by rewrite <-Hp. }
    assert (∀ l, Forall measured l → filter (λ a, feq (ca_reward a) (ca_reward r) = true) l =
      filter (λ y, reward_leb r y && reward_leb y r = true) l) as Hties.
    { intros l Hl. apply filter_ext_Forall. eapply Forall_impl; [done|]. intros a Ha. symmetry.
      by apply reward_ties. }
    rewrite Hties by (subst ranked; by rewrite Hp). subst ranked. unfold rank_attempt_history.
    rewrite (py_sorted_ties _ measured); [|apply reward_leb_trans|done|done].
    apply StronglySorted_filter. destruct Hinv as [_ Ho _].
    rewrite <-Hi in Ho.
    exact (StronglySorted_fmap_inv
      (λ i j, (first_measured entries i < first_measured entries j)%nat) instruction _ Ho).
Qed.
End Ranking.

(** ** Rounds restore *)

Section Rounds.
Implicit Types (a : CoproAttempt) (round : list CoproAttempt) (groups : list (list CoproAttempt)).

Definition closed (g : grouping) : list (list CoproAttempt) :=
  match gr_current g with [] => gr_groups g | current => gr_groups g ++ [current] end.

Definition in_round (r : Z) (a : CoproAttempt) : Prop := ca_round_index a = r.

(** Attempts of the current round join it. *)
Lemma group_same_round (r : Z) round g :
  gr_current g ≠ [] → Forall (in_round r) (gr_current g) → Forall (in_round r) round →
  group_attempts g round =
    Ok {| gr_groups := gr_groups g; gr_current := gr_current g ++ round; gr_seen := gr_seen g |}.
Proof.
  revert g. induction round as [|a round IH]; intros g Hne Hcur Hround; simpl.
  { rewrite app_nil_r. by destruct g. }
  apply Forall_cons in Hround as [Ha Hround]. unfold group_attempt.
  destruct (last (gr_current g)) as [final|] eqn:Hlast; [|by apply last_None in Hlast].
  assert (in_round r final) as Hf.
  { rewrite Forall_forall in Hcur. apply Hcur. by apply last_Some_elem_of. }
  unfold in_round in Ha, Hf. rewrite Ha, Hf, Z.eqb_refl.
  destruct (gr_current g) as [|c current] eqn:Hc; [done|]. simpl.
  rewrite IH; simpl; [by rewrite <-app_assoc|done| |done].
  apply Forall_cons in Hcur as [? ?]. constructor; [done|]. apply Forall_app. split; [done|].
  by constructor.
Qed.

(** A round later than everything seen opens a group of its own. *)
Lemma group_new_round (r : Z) round g :
  round ≠ [] → Forall (in_round r) round → Forall (λ s, s < r)%Z (gr_seen g) →
  Forall (λ a, ca_round_index a < r)%Z (gr_current g) →
  group_attempts g round =
    Ok {| gr_groups := closed g; gr_current := round; gr_seen := r :: gr_seen g |}.
Proof.
  destruct round as [|a round]; [done|]. intros _ [Ha Hround]%Forall_cons Hseen Hcur. simpl.
  assert (r ∉ gr_seen g) as Hr.
  { intros Hin. rewrite Forall_forall in Hseen. specialize (Hseen _ Hin). simpl in Hseen. lia. }
  assert (forallb (λ index, (index <? r)%Z) (gr_seen g) = true) as Hall.
  { apply forallb_Forall. eapply Forall_impl; [done|]. intros s. apply Z.ltb_lt. }
  unfold group_attempt, closed. unfold in_round in Ha.
  destruct (gr_current g) as [|c current] eqn:Hc.
  - simpl. rewrite Hc, Ha, bool_decide_false, Hall by done. simpl.
    rewrite (group_same_round r); simpl; [done|done| |done]. by repeat constructor.
  - destruct (last (c :: current)) as [final|] eqn:Hlast; [|by apply last_None in Hlast].
    assert (ca_round_index final < r)%Z as Hf.
    { rewrite Forall_forall in Hcur. apply Hcur. by apply last_Some_elem_of. }
    rewrite (proj2 (Z.eqb_neq _ _)) by lia. cbn [gr_current gr_seen gr_groups].
    rewrite Ha, bool_decide_false, Hall by done. simpl.
    rewrite (group_same_round r); simpl; [done|done| |done]. by repeat constructor.
Qed.

(** Rounds numbered from [r] on. *)
Fixpoint numbered (r : Z) groups : Prop :=
  match groups with
  | [] => True
  | round :: groups => round ≠ [] ∧ Forall (in_round r) round ∧ numbered (r + 1) groups
  end.

Lemma numbered_app (r : Z) groups round :
  numbered r (groups ++ [round]) ↔
  numbered r groups ∧ round ≠ [] ∧ Forall (in_round (r + Z.of_nat (length groups))) round.
Proof.
  revert r. induction groups as [|g groups IH]; intros r; simpl.
  - rewrite Z.add_0_r. tauto.
  - rewrite IH. replace (r + 1 + Z.of_nat (length groups))%Z
      with (r + Z.of_nat (S (length groups)))%Z by lia. tauto.
Qed.

Lemma numbered_breadth (r breadth : Z) groups :
  numbered r groups → Forall (λ g, Z.of_nat (length g) <= breadth)%Z groups →
  Forall (λ g, g ≠ [] ∧ (Z.of_nat (length g) <= breadth)%Z) groups.
Proof.
  intros Hn Hb. revert r Hn. induction Hb as [|g groups Hg _ IH]; intros r; simpl; [by constructor|].
  intros (Hne & _ & Hn). constructor; [done|]. by eapply IH.
Qed.

Lemma group_attempts_app g l1 l2 :
  group_attempts g (l1 ++ l2) = g' ← group_attempts g l1; group_attempts g' l2.
Proof.
  revert g. induction l1 as [|a l1 IH]; intros g; simpl; [done|].
  destruct (group_attempt g a); [|done]. apply IH.
Qed.

Lemma group_numbered (r : Z) groups g :
  numbered r groups → Forall (λ s, s < r)%Z (gr_seen g) →
  Forall (λ a, ca_round_index a < r)%Z (gr_current g) →
  ∃ g', group_attempts g (concat groups) = Ok g' ∧ closed g' = closed g ++ groups.
Proof.
  revert r g. induction groups as [|round groups IH]; intros r g Hn Hseen Hcur; simpl.
  { exists g. by rewrite app_nil_r. }
  destruct Hn as (Hne & Hround & Hn).
  destruct (IH (r + 1)%Z {| gr_groups := closed g; gr_current := round; gr_seen := r :: gr_seen g |} Hn)
    as (g' & Hg' & Hc); simpl.
  - constructor; [lia|]. apply (Forall_impl (λ s, s < r)%Z); [done|]. intros s Hs. simpl in *. lia.
  - apply (Forall_impl (in_round r)); [done|]. intros a Ha. unfold in_round in Ha. lia.
  - exists g'. rewrite group_attempts_app, (group_new_round r) by done. split; [done|].
    rewrite Hc. unfold closed at 1. simpl. destruct round; [done|]. by rewrite <-app_assoc.
Qed.

Lemma rounds_by_index_numbered groups :
  numbered 0 groups → rounds_by_index (concat groups) = Ok groups.
Proof.
  intros Hn. unfold rounds_by_index.
  destruct (group_numbered 0 groups {| gr_groups := []; gr_current := []; gr_seen := [] |} Hn)
    as (g' & -> & Hc); [constructor|constructor|]. simpl. f_equal. exact Hc.
Qed.
End Rounds.

(** ** What folding establishes *)

Section Folding.
Context `{DSer : !DrSerialize}.
Implicit Types (config : CoproConfig) (state : CoproState) (attempts : list CoproAttempt).

(** Consecutive ordinals from [n] on. *)
Definition ordinals_from (n : Z) attempts : Prop :=
  ca_occurrence_ordinal <$> attempts = seqZ n (Z.of_nat (length attempts)).

Lemma ordinals_from_app (n : Z) l1 l2 :
  ordinals_from n l1 → ordinals_from (n + Z.of_nat (length l1)) l2 → ordinals_from n (l1 ++ l2).
Proof.
  unfold ordinals_from. intros H1 H2. rewrite fmap_app, H1, H2, length_app, Nat2Z.inj_add.
  by rewrite seqZ_app by lia.
Qed.

Lemma check_round_Ok state ex (n : Z) prior attempts :
  check_round state ex n prior attempts = Ok tt →
  Forall (in_round (cs_completed_rounds state)) attempts ∧ ordinals_from n attempts ∧
  Forall (λ a, ca_run_id a = ex_run_id ex) attempts ∧
  NoDup (ca_intent_id <$> attempts) ∧ (∀ i, i ∈ ca_intent_id <$> attempts → i ∉ prior).
Proof.
  revert n prior. induction attempts as [|a attempts IH]; intros n prior H; simpl in H.
  { split_and!; try constructor. by intros i ?%elem_of_nil. }
  apply bind_Ok in H as ([] & Ha & H). apply IH in H as (Hr & Ho & Hrun & Hnd & Hp).
  unfold check_attempt in Ha. inv_ok. split_and!.
  - by constructor.
  - unfold ordinals_from in *. csimpl. rewrite Ho, (seqZ_cons (ca_occurrence_ordinal a)) by lia. f_equal.
    f_equal; simpl; lia.
  - by constructor.
  - csimpl. constructor; [|done]. intros Hin. apply (Hp _ Hin). by constructor.
  - csimpl. intros i [->|Hin]%elem_of_cons; [done|]. intros Hi. apply (Hp _ Hin). by constructor.
Qed.

(** The state after a round. *)
Definition folded state attempts : CoproState :=
  {| cs_initial_candidate := cs_initial_candidate state; cs_mutation_field := cs_mutation_field state;
     cs_completed_rounds := cs_completed_rounds state + 1; cs_attempts := cs_attempts state ++ attempts;
     cs_total_calls := cs_total_calls state + Z.of_nat (length attempts) |}.

Lemma fold_round_Ok config state attempts state' :
  fold_round config state attempts = Ok state' ↔
  state' = folded state attempts ∧ (cs_completed_rounds state < cfg_depth config)%Z ∧
  (Z.of_nat (length attempts) <= cfg_breadth config)%Z ∧ (0 <= cs_completed_rounds state + 1)%Z ∧
  cs_total_calls state = Z.of_nat (length (cs_attempts state)) ∧
  ∃ first rest, attempts = first :: rest ∧
    check_round state (expected_of (default first (head (cs_attempts state))))
      (Z.of_nat (length (cs_attempts state))) (ca_intent_id <$> cs_attempts state) attempts = Ok tt.
Proof.
  unfold fold_round, CoproState_validate. split.
  - intros H. inv_ok. destruct attempts as [|first rest]; [done|]. inv_ok. simpl in *.
    rewrite length_app in *. destruct a1. simpl in *. split_and!; try done; [lia|]. by exists first, rest.
  - intros (-> & Hd & Hb & Hc & Ht & first & rest & -> & Hcheck).
    rewrite (proj2 (Z.ltb_lt _ _) Hd), (proj2 (Z.ltb_ge _ _) Hb), Hcheck. simpl.
    unfold folded. simpl. rewrite length_app. simpl.
    rewrite !(proj2 (Z.ltb_ge _ _)) by lia. simpl. by rewrite (proj2 (Z.eqb_eq _ _)) by lia.
Qed.

Lemma fold_rounds_app config state g1 g2 :
  fold_rounds config state (g1 ++ g2) = state' ← fold_rounds config state g1; fold_rounds config state' g2.
Proof.
  revert state. induction g1 as [|g g1 IH]; intros state; simpl; [done|].
  destruct (fold_round config state g); [|done]. apply IH.
Qed.

(** What holds of the state that groups of attempts fold into. *)
Record folds_into config (initial_candidate : Candidate) (field : pystr)
    (groups : list (list CoproAttempt)) state : Prop := {
  fi_initial : cs_initial_candidate state = initial_candidate;
  fi_field : cs_mutation_field state = field;
  fi_attempts : cs_attempts state = concat groups;
  fi_rounds : cs_completed_rounds state = Z.of_nat (length groups);
  fi_depth : (cs_completed_rounds state <= cfg_depth config)%Z;
  fi_calls : cs_total_calls state = Z.of_nat (length (cs_attempts state));
  fi_numbered : numbered 0 groups;
  fi_breadth : Forall (λ g, Z.of_nat (length g) <= cfg_breadth config)%Z groups;
  fi_ordinals : ordinals_from 0 (cs_attempts state);
  fi_intents : NoDup (ca_intent_id <$> cs_attempts state);
  fi_run : ∃ run_id, Forall (λ a, ca_run_id a = run_id) (cs_attempts state);
}.

Lemma fold_rounds_Ok config initial_candidate field groups state :
  (0 <= cfg_depth config)%Z →
  fold_rounds config (initial_state initial_candidate field) groups = Ok state →
  folds_into config initial_candidate field groups state.
Proof.
  intros Hdepth. revert state. induction groups as [|group groups IH] using rev_ind; intros state H.
  { simpl in H. inv_ok. split; try done; by try constructor; exists []. }
  rewrite fold_rounds_app in H. apply bind_Ok in H as (state0 & H0 & H). simpl in H.
  apply bind_Ok in H as (state' & H & [= <-]). apply IH in H0 as [].
  apply fold_round_Ok in H as (-> & Hd & Hb & _ & _ & first & rest & Hg & Hcheck).
  apply check_round_Ok in Hcheck as (Hr & Ho & Hrun & Hnd & Hp).
  assert (concat (groups ++ [group]) = concat groups ++ group) as Hc.
  { rewrite concat_app. simpl. by rewrite app_nil_r. }
  unfold folded; split; simpl; try done.
  - by rewrite Hc, fi_attempts0.
  - rewrite length_app. simpl. lia.
  - lia.
  - rewrite length_app. lia.
  - apply numbered_app. rewrite fi_rounds0 in Hr. split_and!; [done| |done]. by subst.
  - apply Forall_app. split; [done|]. by constructor.
  - by apply ordinals_from_app.
  - rewrite fmap_app. apply NoDup_app. split_and!; [done| |done]. intros i Hi Hi'. by apply (Hp i).
  - destruct fi_run0 as [run_id Hrun0]. destruct (cs_attempts state0) as [|a l] eqn:Ha; simpl in *.
    + by eexists.
    + apply Forall_cons in Hrun0 as [<- Hrun0]. exists (ca_run_id a). constructor; [done|].
      apply Forall_app. by split.
Qed.

Lemma restore_folded config initial_candidate field groups state :
  (0 <= cfg_depth config)%Z →
  fold_rounds config (initial_state initial_candidate field) groups = Ok state →
  rounds_by_index (cs_attempts state) = Ok groups ∧
  restore_state config initial_candidate (cs_attempts state) field = Ok state ∧
  check_restores config state = Ok tt.
Proof.
  intros Hd H. pose proof (fold_rounds_Ok _ _ _ _ _ Hd H) as [].
  assert (rounds_by_index (cs_attempts state) = Ok groups) as Hr.
  { rewrite fi_attempts0. by apply rounds_by_index_numbered. }
  assert (restore_state config initial_candidate (cs_attempts state) field = Ok state) as Hs.
  { unfold restore_state. by rewrite Hr. }
  split_and!; [done|done|]. unfold check_restores. rewrite fi_initial0, fi_field0, Hs. simpl.
  unfold same. by rewrite bool_decide_true.
Qed.

(** Some attempt is kept of a non-empty history. *)
Lemma keep_best_ne unique e : keep_best unique e ≠ [].
Proof.
  unfold keep_best. intros H.
  assert (dict_set unique (instruction e) e ≠ []) as Hs.
  { destruct unique as [|[k v] unique]; simpl; [done|]. by case_decide. }
  destruct (dict_get _ _) eqn:E; [|done]. destruct (flt _ _); [done|]. by rewrite H in E.
Qed.

Lemma ranked_nil attempts : rank_attempt_history attempts = [] ↔ attempts = [].
Proof.
  split; [|by intros ->]. intros H. destruct attempts as [|a attempts _] using rev_ind; [done|].
  pose proof (ranked_perm (attempts ++ [a])) as Hp. rewrite H in Hp.
  apply Permutation_nil_l in Hp. unfold unique_measured_attempts in Hp. rewrite foldl_app in Hp.
  simpl in Hp. symmetry in Hp. by apply fmap_nil_inv, keep_best_ne in Hp.
Qed.

Lemma score_summary_total scores : scores ≠ [] → ∃ s, score_summary scores = Ok s.
Proof.
  destruct scores as [|score rest]; [done|]. intros _. unfold score_summary, pstdev.
  rewrite (proj2 (Z.ltb_ge _ _)) by (simpl; lia). simpl. by eexists.
Qed.

Lemma summarize_rounds_total config cumulative rounds :
  Forall (λ g, g ≠ [] ∧ (Z.of_nat (length g) <= cfg_breadth config)%Z) rounds →
  ∃ latests bests, summarize_rounds config cumulative rounds =
    Ok (latests, bests, Z.of_nat (length (concat rounds))).
Proof.
  intros H. revert cumulative. induction H as [|g rounds [Hne Hb] _ IH]; intros cumulative; simpl.
  { by exists [], []. }
  rewrite (proj2 (Z.ltb_ge _ _)) by done. simpl.
  destruct (score_summary_total (ca_reward <$> g)) as [s1 ->]; [by intros ?%fmap_nil_inv|]. simpl.
  destruct (score_summary_total (ca_reward <$> take 10 (rank_attempt_history (cumulative ++ g)))) as [s2 ->].
  { destruct (rank_attempt_history (cumulative ++ g)) eqn:E; [|done].
    apply (proj1 (ranked_nil _)), app_eq_nil in E. naive_solver. }
  simpl. destruct (IH (cumulative ++ g)) as (l & b & ->). simpl. do 2 eexists. f_equal. f_equal.
  rewrite length_app. lia.
Qed.

(** Below the configured depth a folded state has a plan. *)
Lemma advance_folded config initial_candidate field groups state :
  (0 < cfg_breadth config)%Z → (0 <= cfg_depth config)%Z →
  fold_rounds config (initial_state initial_candidate field) groups = Ok state →
  (cs_completed_rounds state < cfg_depth config)%Z →
  ∃ plan, advance config state = Ok plan ∧ crp_iteration plan = cs_completed_rounds state ∧
    crp_include_initial_candidate plan = bool_decide (groups = []) ∧
    crp_proposal_count plan =
      (if crp_include_initial_candidate plan then cfg_breadth config - 1 else cfg_breadth config)%Z ∧
    crp_proposal_mode plan =
      (if crp_include_initial_candidate plan then SEED_PROPOSAL else HISTORY_PROPOSAL) ∧
    ∃ selected, crp_instruction_history plan = prompt_entry <$> selected ∧
      (selected = [] → crp_include_initial_candidate plan = true) ∧
      (∀ a, a ∈ selected → a ∈ rank_attempt_history (cs_attempts state)).
Proof.
  intros Hbreadth Hd H Hlt. destruct (restore_folded _ _ _ _ _ Hd H) as (_ & _ & Hcheck).
  pose proof (fold_rounds_Ok _ _ _ _ _ Hd H) as []. unfold advance, plan_round. rewrite Hcheck. simpl.
  rewrite (proj2 (Z.ltb_lt _ _) Hlt). simpl.
  rewrite (proj2 (Z.ltb_ge (cs_completed_rounds state) 0)), (proj2 (Z.leb_gt _ _) Hlt) by lia. simpl.
  destruct groups as [|group groups].
  - rewrite fi_rounds0. simpl. rewrite fi_attempts0. simpl. eexists. split_and!; try done.
    exists []. split_and!; [done|done|]. by intros a ?%elem_of_nil.
  - rewrite (proj2 (Z.eqb_neq _ _)) by (simpl in *; lia).
    assert (rank_attempt_history (cs_attempts state) ≠ []) as Hne.
    { intros Hl. apply (proj1 (ranked_nil _)) in Hl. rewrite fi_attempts0 in Hl. simpl in *.
      apply app_eq_nil in Hl. naive_solver. }
    rewrite bool_decide_false by (by intros ?%nil_length_inv). simpl. eexists. split_and!; try done.
    eexists. split_and!; [done| |].
    + intros Hl. apply (f_equal length) in Hl. rewrite length_rev, length_take in Hl. simpl in Hl.
      destruct (rank_attempt_history _); [done|simpl in Hl; lia].
    + intros a. rewrite list_elem_of_In, <-in_rev, <-list_elem_of_In. intros Ha.
      by eapply elem_of_sublist, sublist_take.
Qed.

(** At the configured depth a folded state has its finalization. *)
Lemma finalize_folded config initial_candidate field groups state :
  (0 <= cfg_depth config)%Z →
  fold_rounds config (initial_state initial_candidate field) groups = Ok state →
  cs_completed_rounds state = cfg_depth config →
  ∃ stats, finalize config state =
    Ok {| cf_ranked_attempts := rank_attempt_history (concat groups);
          cf_total_calls := Z.of_nat (length (concat groups)); cf_statistics := stats |} ∧
    is_some stats = cfg_track_stats config ∧
    (∀ s, stats = Some s → statistics config groups = Ok s).
Proof.
  intros Hd H Heq. destruct (restore_folded _ _ _ _ _ Hd H) as (Hr & _ & Hcheck).
  pose proof (fold_rounds_Ok _ _ _ _ _ Hd H) as []. unfold finalize. rewrite Hcheck, Hr. simpl.
  rewrite (proj2 (Z.eqb_eq _ _) Heq). simpl. unfold terminal_ranking. rewrite <-fi_attempts0, fi_calls0.
  destruct (cfg_track_stats config) eqn:Ht; simpl; [|by exists None].
  assert (∃ s, statistics config groups = Ok s) as [s Hs].
  { unfold statistics. rewrite <-Heq, fi_rounds0, Z.eqb_refl. simpl.
    destruct (summarize_rounds_total config [] groups) as (l & b & ->); [|simpl; by eexists].
    by apply (numbered_breadth 0). }
  exists (Some s). rewrite Hs. simpl. split_and!; [done|done|]. by intros ? [= <-].
Qed.

(** C25. Every state folded from rounds of attempts is the one its history
    restores: the rounds are read back off the round indices, and folding them
    again gives the state. So below the configured depth the driver always has
    a plan, asking for one proposal less in the seed round, and at the
    configured depth it always finalizes, statistics included. *)
Theorem copro_state_restores config initial_candidate field groups state :
  CoproConfig_validate config = Ok config →
  fold_rounds config (initial_state initial_candidate field) groups = Ok state →
  rounds_by_index (cs_attempts state) = Ok groups ∧
  restore_state config initial_candidate (cs_attempts state) field = Ok state ∧
  (cs_completed_rounds state = Z.of_nat (length groups) ∧
   cs_completed_rounds state <= cfg_depth config)%Z ∧
  ca_occurrence_ordinal <$> cs_attempts state = seqZ 0 (cs_total_calls state) ∧
  ((cs_completed_rounds state < cfg_depth config)%Z →
   ∃ plan, advance config state = Ok plan ∧ crp_iteration plan = cs_completed_rounds state ∧
     crp_include_initial_candidate plan = bool_decide (groups = []) ∧
     crp_proposal_count plan =
       (if crp_include_initial_candidate plan then cfg_breadth config - 1 else cfg_breadth config)%Z) ∧
  (cs_completed_rounds state = cfg_depth config →
   ∃ f, finalize config state = Ok f ∧ cf_ranked_attempts f = rank_attempt_history (concat groups) ∧
     cf_total_calls f = Z.of_nat (length (concat groups)) ∧
     is_some (cf_statistics f) = cfg_track_stats config).
Proof.
  intros Hc H. unfold CoproConfig_validate in Hc. inv_ok.
  assert (0 <= cfg_depth config)%Z as Hd by lia.
  destruct (restore_folded _ _ _ _ _ Hd H) as (Hr & Hs & Hcheck).
  pose proof (fold_rounds_Ok _ _ _ _ _ Hd H) as [].
  split_and!; try done.
  - unfold ordinals_from in *. by rewrite fi_calls0.
  - intros Hlt. assert (0 < cfg_breadth config)%Z as Hb by lia.
    destruct (advance_folded _ _ _ _ _ Hb Hd H Hlt) as (plan & Hp & Hi & Hinc & Hn & _).
    by exists plan.
  - intros Heq. destruct (finalize_folded _ _ _ _ _ Hd H Heq) as (stats & Hf & Ht & _).
    eexists. split; [exact Hf|]. done.
Qed.
End Folding.


(** ** A run of two rounds *)
Module ConcreteCopro.
Import Concrete ConcreteRun.

Definition metric : EvalConfigRef :=
  {| ecr_record :=
       {| ec_definition_ref :=
            {| dr_definition_id := $"d"; dr_version := $"1"; dr_schema_name := $"s";
               dr_identity_hash := digest PNone |};
          ec_sampling_config_hash := digest PNone;
          ec_evaluation_procedure_config_hash := digest PNone;
          ec_aggregation_config_hash := digest PNone; ec_config_hash := digest PNone |};
     ecr_record_ref := content_ref $"eval"; ecr_config_hash := digest PNone |}.

(** The reward of a score, under the policy of the run. *)
Definition scored (score : Z) : result Reward :=
  policy ← of_option (run_reward_policy the_run) ValueError "";
  apply_reward_policy policy [($"score", PInt score)] INTERNAL [content_ref $"evidence"] None.

Definition attempt (ordinal round : Z) (intent prompt : pystr) (score : Z) : result CoproAttempt :=
  reward ← scored score;
  policy_hash ← Reward_policy_hash reward;
  candidate_ref ← candidate_reference (candidate intent (content_ref $"seed") prompt);
  CoproAttempt_validate
    {| ca_occurrence_ordinal := ordinal; ca_round_index := round; ca_run_id := $"run";
       ca_step_index := round; ca_intent_id := intent; ca_candidate := candidate_ref;
       ca_eval_config_ref := metric; ca_eval_role := INTERNAL;
       ca_provider_execution_policy_ref := None; ca_reward := rw_value reward;
       ca_expected_reward_policy_hash := policy_hash;
       ca_eval_result_ref := content_ref EVAL_EVIDENCE_SCHEMA;
       ca_reward_evidence_refs := rw_evidence_refs reward;
       ca_reward_ref := {| rwr_record := reward; rwr_record_ref := content_ref $"reward" |};
       ca_mutation_field := $"prompt" |}.

Definition attempts_of (l : result (list CoproAttempt)) : list CoproAttempt :=
  match l with Ok l => l | Err _ => [] end.

(** The seed and one proposal, then two more of which one repeats the first
    proposal's instruction and does better. *)
Definition two_rounds : list (list CoproAttempt) := Eval vm_compute in
  [attempts_of (mapM id [attempt 0 0 $"a" $"Answer." 1; attempt 1 0 $"b" $"Think." 3]);
   attempts_of (mapM id [attempt 2 1 $"c" $"Think." 4; attempt 3 1 $"d" $"Explain." 3])].

Definition two_deep : CoproConfig := {| cfg_breadth := 2; cfg_depth := 2; cfg_track_stats := true |}.
Definition seed : Candidate := candidate $"seed" (content_ref $"seed") $"Answer.".

Lemma two_rounds_fold :
  is_ok (fold_rounds two_deep (initial_state seed $"prompt") two_rounds) = true.
Proof. vm_compute. reflexivity. Qed.

Lemma two_rounds_measured : forallb (λ e, fisfinite (ca_reward e)) (concat two_rounds) = true.
Proof. vm_compute. reflexivity. Qed.
End ConcreteCopro.

Section Witnesses.
Import Concrete ConcreteCopro.

Lemma rank_attempt_history_exact_witness :
  ca_intent_id <$> rank_attempt_history (concat two_rounds) = [$"c"; $"d"; $"a"] ∧
  NoDup (instruction <$> rank_attempt_history (concat two_rounds)).
Proof.
  split; [vm_compute; reflexivity|].
  assert (Forall measured (concat two_rounds)) as Hm.
  { apply (proj1 (forallb_Forall _ _)), two_rounds_measured. }
  exact (proj1 (proj2 (rank_attempt_history_exact (concat two_rounds) Hm))).
Defined.

Lemma copro_state_restores_witness :
  ∃ state, restore_state two_deep seed (cs_attempts state) $"prompt" = Ok state ∧
    cs_completed_rounds state = 2%Z ∧
    ∃ f, finalize two_deep state = Ok f ∧ cf_total_calls f = 4%Z.
Proof.
  pose proof two_rounds_fold as H. apply is_ok_Ok in H as [state Hs].
  assert (CoproConfig_validate two_deep = Ok two_deep) as Hc by reflexivity.
  destruct (copro_state_restores two_deep seed $"prompt" two_rounds state Hc Hs)
    as (_ & Hr & [Hd _] & _ & _ & Hf).
  assert (cs_completed_rounds state = 2%Z) as H2 by (rewrite Hd; reflexivity).
  destruct (Hf H2) as (f & Hf' & _ & Hcalls & _).
  exists state. split_and!; [exact Hr|exact H2|]. exists f. split; [exact Hf'|].
  rewrite Hcalls. reflexivity.
Defined.
End Witnesses.
