(* ===== verification/CoproAdapter.v ===== *)
(** * CoproAdapter: one step of a COPRO run

    Models [optim/proposal/proposer.py] (proposal requests and drafts),
    [optim/copro/prompts.py] and, of [optim/copro/adapter.py], the adapter: the
    checks of its request, the finalizing step, the drafts of a round and what
    becomes of them, and the evaluations it asks for. The executor of a
    proposal call is an argument; [repr] and the text of an exception, which
    only appear in prompts and evidence, are parameters ([PyText]). *)

From S2P Require Import Prelude Floats Identity Frozen Leasing EvalConfigs Reward Tools.
From S2P Require Import Claims Candidate Cost Provider OptimContracts Copro.

(** [repr(value)] of a value that is not a string, and [str(exception)]. *)
Class PyText := {
  py_repr : pyval → pystr;
  exn_text : exn → pystr;
}.

Definition PROPOSAL_REQUEST_SCHEMA := $"whetstone.proposal_request".
Definition PROPOSAL_REQUEST_SCHEMA_VERSION : Z := 2.
Definition COPRO_INSTRUCTION_CONTRACT_KEY := $"instruction_contract".
Definition COPRO_INSTRUCTION_HISTORY_KEY := $"instruction_history".
Definition COPRO_ADAPTER_KEY := $"copro".
Definition PURPOSE_METADATA_KEY := $"purpose".
Definition PROPOSAL_CALLS := $"proposal_calls".

(** ** Text *)

(** [s.strip(chars)]: what a predicate holds of is taken off both ends. *)
Fixpoint lstrip (P : Z → bool) (s : pystr) : pystr :=
  match s with
  | c :: s' => if P c then lstrip P s' else s
  | [] => []
  end.
Definition strip (P : Z → bool) (s : pystr) : pystr := rev (lstrip P (rev (lstrip P s))).

(** [draft.template.strip(quote).strip()], of the double quote. *)
Definition strip_draft (s : pystr) : pystr := strip is_space (strip (Z.eqb 34) s).

(** ["\n".join(lines)]. *)
Fixpoint join_lines (lines : list pystr) : pystr :=
  match lines with
  | [] => []
  | [line] => line
  | line :: lines => line ++ 10%Z :: join_lines lines
  end.

(** ** Proposal requests *)

Record ProposalRequest := {
  prq_proposal_mode : pystr;
  prq_request_ordinal : Z;
  prq_proposal_authority_identity_hash : pystr;
  prq_mutation_field : pystr;
  prq_base_candidate : CandidateRef;
  prq_context : list (pystr * pyval);
}.

Definition base_template (self : ProposalRequest) : result pystr :=
  value ← of_option (dict_get (cand_payload (candr_record (prq_base_candidate self)))
                       (prq_mutation_field self)) ValueError
    "base candidate payload must contain the mutation field";
  match value with
  | PStr value => Ok value
  | _ => raise ValueError "base candidate mutation field must be a string"
  end.

Definition ProposalRequest_validate (self : ProposalRequest) : result ProposalRequest :=
  base_template self ;; Ok self.

Definition ProposalRequest_new (proposal_mode : pystr) (request_ordinal : Z)
    (proposal_authority_identity_hash mutation_field : pystr) (base_candidate : CandidateRef)
    (context : list (pystr * pyval)) : result ProposalRequest :=
  proposal_mode ← NonEmptyId (PStr proposal_mode);
  request_ordinal ← NonNegativeInt (PInt request_ordinal);
  authority ← IdentityHash (PStr proposal_authority_identity_hash);
  mutation_field ← NonEmptyId (PStr mutation_field);
  ProposalRequest_validate
    {| prq_proposal_mode := proposal_mode; prq_request_ordinal := request_ordinal;
       prq_proposal_authority_identity_hash := authority; prq_mutation_field := mutation_field;
       prq_base_candidate := base_candidate; prq_context := context |}.

Definition ProposalRequest_identity_payload (self : ProposalRequest) : pyval :=
  PDict [($"proposal_mode", PStr (prq_proposal_mode self));
         ($"request_ordinal", PInt (prq_request_ordinal self));
         ($"proposal_authority_identity_hash", PStr (prq_proposal_authority_identity_hash self));
         ($"mutation_field", PStr (prq_mutation_field self));
         ($"base_candidate",
           PDict [($"record_ref", TypedRef_dump (candr_record_ref (prq_base_candidate self)));
                  ($"identity_hash", PStr (candr_identity_hash (prq_base_candidate self)))]);
         ($"context", to_json (prq_context self))].

Definition ProposalRequest_identity_hash `{!DrSerialize} (self : ProposalRequest) : result pystr :=
  compute_identity_hash PROPOSAL_REQUEST_SCHEMA PROPOSAL_REQUEST_SCHEMA_VERSION
    (ProposalRequest_identity_payload self).

(** ** Drafts *)

Definition usage_tokens (usage : list (pystr * pyval)) (key : pystr) : option Z :=
  match dict_get usage key with
  | Some (PInt value) => Some (Z.max 0 value)
  | _ => None
  end.

Definition draft_failed (self : ProposalDraft) : bool := is_some (pd_terminal_failure self).

(** The items of [value.to_json()]. *)
Definition json_items (value : list (pystr * pyval)) : list (pystr * pyval) :=
  match to_json value with PDict kvs => kvs | _ => [] end.

Definition logical_call_id (self : ProposalDraft) : pystr :=
  match dict_get (json_items (pd_request_evidence self)) $"logical_call_id" with
  | Some (PStr value) => value
  | _ => []
  end.

Definition response_rejected (self : ProposalDraft) : bool :=
  evidences_provider_response
    (default PNone (dict_get (json_items (pd_response_evidence self)) PROVIDER_ERROR_KEY)).

(** [ProposalDraft.call_usage]. *)
Definition call_usage (self : ProposalDraft) : result (option ProposerCallUsage) :=
  let call_id := logical_call_id self in
  if bool_decide (call_id = []) then Ok None else
  let usage := json_items (pd_usage self) in
  let prompt_tokens := usage_tokens usage $"prompt_tokens" in
  let completion_tokens := usage_tokens usage $"completion_tokens" in
  if draft_failed self && negb (is_some prompt_tokens) && negb (is_some completion_tokens) &&
     negb (is_some (pd_cost self)) && negb (response_rejected self) then Ok None
  else Some <$> ProposerCallUsage_validate
    {| pcu_call_id := call_id; pcu_prompt_tokens := prompt_tokens;
       pcu_completion_tokens := completion_tokens; pcu_usd := pd_cost self |}.

(** The items of a dictionary given for an [ImmutableJsonObject] field. *)
Definition frozen_items `{!DrSerialize} (kvs : list (pystr * pyval)) : result (list (pystr * pyval)) :=
  frozen ← frozen_validate (PDict kvs);
  match frozen with
  | PFrozen items => Ok items
  | _ => raise TypeError "immutable JSON object requires a JSON object"
  end.

(** [ProposalDraft.failure]. *)
Definition ProposalDraft_failure `{!DrSerialize} (detail : pystr)
    (request_evidence response_evidence usage : list (pystr * pyval)) (cost : option float) :
    result ProposalDraft :=
  failure ← TerminalFailure_validate $"proposal_failed" detail [];
  request_evidence ← frozen_items request_evidence;
  response_evidence ← frozen_items
    (match response_evidence with
     | [] => [($"finish", PStr $"failed")]
     | evidence => evidence
     end);
  usage ← frozen_items usage;
  require (price_finite cost) ValueError "Input should be a finite number" ;;
  ProposalDraft_validate
    {| pd_template := []; pd_terminal_failure := Some failure;
       pd_request_evidence := request_evidence; pd_response_evidence := response_evidence;
       pd_usage := usage; pd_cost := unsigned_zero <$> cost |}.

(** ** The prompt *)

Definition COPRO_HISTORY_ROLE : pystr :=
  join_lines
    [$"You are an instruction optimizer for large language models. I will give you some task instructions I've tried, along with their corresponding validation scores. The instructions are arranged in increasing order based on their scores, where higher scores indicate better quality.";
     [];
     $"Your task is to propose a new instruction that will lead a good language model to perform the task even better. Don't be afraid to be creative."].

Section Prompt.
Context `{Text : !PyText}.

Definition text_of (value : pyval) : pystr := str_of py_repr value.

Definition instruction_contract_record (request : ProposalRequest) : result (list (pystr * pyval)) :=
  match dict_get (prq_context request) COPRO_INSTRUCTION_CONTRACT_KEY with
  | Some (PFrozen raw_contract) => Ok (json_items raw_contract)
  | _ => raise ValueError "COPRO proposal requires an instruction contract"
  end.

Definition contract_item (contract : list (pystr * pyval)) (key : pystr) : result pyval :=
  of_option (dict_get contract key) KeyError "".

(** An item of [join] that is not formatted must be a string. *)
Definition joined_text (value : pyval) : result pystr :=
  match value with
  | PStr value => Ok value
  | _ => raise TypeError "sequence item: expected str instance"
  end.

Fixpoint history_lines (index : Z) (raw_history : list pyval) : result (list pystr) :=
  match raw_history with
  | [] => Ok []
  | PFrozen entry :: raw_history =>
      lines ← history_lines (index + 1) raw_history;
      Ok (($"Instruction #" ++ int_text index ++ $": " ++
             text_of (default (PStr []) (dict_get entry $"instruction"))) ::
          ($"Resulting Score #" ++ int_text index ++ $": " ++
             text_of (default (PStr $"unscored") (dict_get entry $"reward"))) :: lines)
  | _ :: _ => raise ValueError "COPRO prompt history entries must be records"
  end.

Definition copro_proposal_prompt (request : ProposalRequest) : result pystr :=
  contract ← instruction_contract_record request;
  target_name ← contract_item contract $"target_name";
  task_context ← contract_item contract $"task_context";
  budget_mode ← contract_item contract $"budget_mode";
  output_rule ← contract_item contract $"output_rule";
  let contract_lines rule :=
    [$"Optimization target: " ++ text_of target_name; $"Task context: " ++ text_of task_context;
     $"Budget mode: " ++ text_of budget_mode; $"Output contract:"; rule] in
  if bool_decide (prq_proposal_mode request = SEED_PROPOSAL) then
    rule ← joined_text output_rule;
    Ok (join_lines (contract_lines rule ++ [[]; $"Propose diverse instruction variants for the task."]))
  else if negb (bool_decide (prq_proposal_mode request = HISTORY_PROPOSAL)) then
    raise ValueError "unsupported COPRO proposal mode"
  else
    match default (PTuple []) (dict_get (prq_context request) COPRO_INSTRUCTION_HISTORY_KEY) with
    | PTuple ((_ :: _) as raw_history) =>
        lines ← history_lines 1 raw_history;
        rule ← joined_text output_rule;
        Ok (join_lines (COPRO_HISTORY_ROLE :: [] :: contract_lines rule ++ [[]] ++ lines))
    | _ => raise ValueError "COPRO history prompt requires selected attempts"
    end.
End Prompt.

(** ** The adapter *)

(** What the adapter reads of a [ProposerTransport]. *)
Record ProposerTransport := {
  ptr_execution_policy_hash : pystr;
  ptr_prompt_adapter_identity_hash : pystr;
}.

(** [DurableProposalExecutor.execute], of the proposer's config and transport. *)
Definition ProposalExecution : Type := ProposalRequest → Z → result (list ProposalDraft).

Record CoproAdapter := {
  cad_control : CoproControl;
  cad_transport : ProposerTransport;
  cad_invocations : Z;
}.

Definition CoproAdapter_new (control : CoproControl) (transport : ProposerTransport) :
    result CoproAdapter :=
  require (bool_decide (ptr_execution_policy_hash transport =
                        cc_provider_execution_policy_hash control)) ValueError
    "COPRO provider execution policy conflicts with control" ;;
  require (bool_decide (ptr_prompt_adapter_identity_hash transport =
                        cc_prompt_adapter_identity_hash control)) ValueError
    "COPRO prompt adapter identity conflicts with control" ;;
  Ok {| cad_control := control; cad_transport := transport; cad_invocations := 0 |}.

(** pydantic's decoding of an attempt, before its validators. *)
Class CoproRecords := { decode_attempt : pyval → result CoproAttempt }.

(** An occurrence of a round: the seed, or a candidate made from a draft. *)
Record occurrence := {
  oc_ordinal : Z;
  oc_candidate : Candidate;
  oc_proposed : bool;
}.

(** What the loop over the drafts of a round collects. *)
Record drafting := {
  dg_next_ordinal : Z;
  dg_reserved_candidate_ids : list pystr;
  dg_occurrences : list occurrence;
  dg_rejected : list pyval;
  dg_evidence : list pyval;
}.

Definition GENERATED := $":generated".

(** [while candidate_id in reserved: candidate_id += ":generated"]. *)
Fixpoint fresh_id (turns : nat) (reserved : list pystr) (candidate_id : pystr) : pystr :=
  match turns with
  | O => candidate_id
  | S turns =>
      if bool_decide (candidate_id ∈ reserved)
      then fresh_id turns reserved (candidate_id ++ GENERATED) else candidate_id
  end.

(** The state of a round that its outputs report. *)
Record round_report := {
  rr_plan : CoproRoundPlan;
  rr_rejected : list pyval;
  rr_evidence : list pyval;
  rr_shortfall : pyval;
  rr_proposer_usage : list ProposerCallUsage;
}.

Definition CoproConfig_dump (c : CoproConfig) : pyval :=
  PDict [($"breadth", PInt (cfg_breadth c)); ($"depth", PInt (cfg_depth c));
         ($"track_stats", PBool (cfg_track_stats c))].

Definition evidence_entry (draft_index : Z) (occurrence_ordinal : option Z)
    (candidate_id : option pystr) (disposition : pystr) (reason : option pystr)
    (request response usage : pyval) (cost : option float) : pyval :=
  PDict [($"draft_index", PInt draft_index);
         ($"occurrence_ordinal", POption PInt occurrence_ordinal);
         ($"candidate_id", POption PStr candidate_id); ($"disposition", PStr disposition);
         ($"reason", POption PStr reason); ($"request", request); ($"response", response);
         ($"usage", usage); ($"cost", POption PFloat cost)].

Definition missing_evidence (draft_index : Z) : pyval :=
  evidence_entry draft_index None None $"missing"
    (Some $"transport returned no draft for paid slot") (PDict []) (PDict []) (PDict []) None.

Section Adapter.
Context `{DSer : !DrSerialize, DSto : !DrStore, Uni : !UnicodeIdentifiers, Text : !PyText}.
Context `{Recs : !CoproRecords}.

Definition resolve_mutation_field (run : OptimRunRef) : result pystr :=
  exact_run ← OptimRunRef_model_validate run;
  Ok (run_mutation_field (runr_record exact_run)).

Definition metadata_with_purpose (purpose : pystr) : result (list (pystr * pyval)) :=
  require (nonblank purpose) ValueError "purpose must be non-empty" ;;
  payload ← ImmutableJsonObject (PDict [(PURPOSE_METADATA_KEY, PStr purpose)]);
  match payload with PFrozen items => Ok items | _ => raise TypeError "" end.

Definition render_contract (request : OptimStepRequest) : TemplateRenderContract :=
  run_template_render_contract (runr_record (sreq_run request)).

(** [attempt_history_entries]. *)
Definition history_entry (item : pyval) : result CoproAttempt :=
  match item with
  | PFrozen entry =>
      attempt ← decode_attempt (to_json entry);
      CoproAttempt_model_validate attempt
  | _ => raise ValueError "attempt_history must be a JSON record"
  end.

Definition attempt_history_entries (request : OptimStepRequest) : result (list CoproAttempt) :=
  match default (PTuple []) (dict_get (sreq_pools request) $"attempt_history") with
  | PTuple raw => mapM history_entry raw
  | _ => raise ValueError "attempt_history must be a JSON list"
  end.

Definition normalize_initial_candidate (candidate : Candidate) (request : OptimStepRequest) :
    result Candidate :=
  field ← resolve_mutation_field (sreq_run request);
  match payload_get candidate field with
  | PStr raw => validate_template (render_contract request) (PStr raw) ;; Ok candidate
  | _ => raise ValueError "COPRO initial candidate requires an instruction"
  end.

Definition seed_ref (request : OptimStepRequest) : option CandidateRef :=
  run_initial_candidate_ref (runr_record (sreq_run request)).

(** [candidate_reference(record) == seed_ref]. *)
Definition is_seed (seed : CandidateRef) (record : Candidate) : result bool :=
  reference ← candidate_reference record;
  Ok (same CandidateRef_dump reference seed).

Definition seed_won (ranked : list CoproAttempt) (request : OptimStepRequest) : result bool :=
  match seed_ref request, ranked with
  | Some seed, best :: _ => is_seed seed (candr_record (ca_candidate best))
  | _, _ => Ok false
  end.

(** The ranked candidates but for the seed. *)
Fixpoint proposals_of (seed : option CandidateRef) (ranked : list CoproAttempt) :
    result (list Candidate) :=
  match ranked with
  | [] => Ok []
  | entry :: ranked =>
      let record := candr_record (ca_candidate entry) in
      is_proposal ← match seed with
                    | None => Ok true
                    | Some seed => negb <$> is_seed seed record
                    end;
      proposals ← proposals_of seed ranked;
      Ok (if is_proposal : bool then record :: proposals else proposals)
  end.

Definition accepted_without_seed (ranked : list CoproAttempt) (request : OptimStepRequest)
    (required : Z) : result (option (list Candidate)) :=
  proposals ← proposals_of (seed_ref request) ranked;
  Ok (if (Z.of_nat (length proposals) <? required)%Z then None
      else Some (take (Z.to_nat required) proposals)).

Definition validate_attempt_placeholders (attempts : list CoproAttempt)
    (request : OptimStepRequest) : result unit :=
  for_each (λ attempt,
    rewrap ValueError ValueError "COPRO history violates the run Template Render Contract"
      (validate_template (render_contract request) (PStr (instruction attempt))) ;; Ok tt) attempts.

(** [AdapterOutput(...)], its budget and documents first. *)
Definition AdapterOutput_new (proposed accepted : list Candidate) (requests : list OptimEvalRequest)
    (budget_delta : Budget) (status : StepStatus) (failure : option TerminalFailure)
    (retained : option Candidate) (usage : list ProposerCallUsage)
    (state_delta history_delta : list (pystr * pyval)) : result AdapterOutput :=
  budget_delta ← BudgetDelta_validate budget_delta;
  state_delta ← frozen_items state_delta;
  history_delta ← frozen_items history_delta;
  AdapterOutput_validate
    {| ao_proposed_candidates := proposed; ao_accepted_candidates := accepted;
       ao_optim_eval_requests := requests; ao_search_evidence := [];
       ao_budget_delta := budget_delta; ao_proposed_status := status;
       ao_terminal_failure := failure; ao_seed_retained := is_some retained;
       ao_retained_candidate := retained; ao_proposer_usage := usage;
       ao_state_delta := state_delta; ao_history_delta := history_delta |}.

Definition spent (plan : CoproRoundPlan) : Budget := [(PROPOSAL_CALLS, PInt (crp_proposal_count plan))].

(** A step that fails with a code. *)
Definition fail_with (code message : pystr) (details : list (pystr * pyval))
    (proposed : list Candidate) (budget_delta : Budget) (usage : list ProposerCallUsage)
    (state_delta : list (pystr * pyval)) : result AdapterOutput :=
  failure ← TerminalFailure_validate code message details;
  AdapterOutput_new proposed [] [] budget_delta FAILED (Some failure) None usage state_delta [].

(** *** The request *)

Definition check_history_attempt (control : CoproControl) (run_id : pystr) (attempt : CoproAttempt) :
    result unit :=
  require (bool_decide (ca_run_id attempt = run_id)) ValueError
    "COPRO history belongs to another run" ;;
  require (same EvalConfigRef_dump (ca_eval_config_ref attempt) (cc_eval_config_ref control))
    ValueError "COPRO history uses an unexpected Eval Config" ;;
  require (bool_decide (ca_eval_role attempt = cc_eval_role control)) ValueError
    "COPRO history uses an unexpected Evaluation Role" ;;
  require (bool_decide (ca_provider_execution_policy_ref attempt =
                        cc_provider_execution_policy_ref control)) ValueError
    "COPRO history uses an unexpected Provider Execution Policy" ;;
  require (bool_decide (ca_expected_reward_policy_hash attempt =
                        cc_expected_reward_policy_hash control)) ValueError
    "COPRO history uses an unexpected Reward Policy".

Definition config_of (control : CoproControl) : CoproConfig :=
  {| cfg_breadth := cc_breadth control; cfg_depth := cc_depth control;
     cfg_track_stats := cc_track_stats control |}.

(** From the start of [invoke] to the initial candidate. *)
Definition check_request (self : CoproAdapter) (request : OptimStepRequest) : result Candidate :=
  let control := cad_control self in
  reference ← CoproControl_reference control;
  require (bool_decide (run_optimizer_config (runr_record (sreq_run request)) = reference)) ValueError
    "COPRO run optimizer_config does not bind the exact control" ;;
  CoproConfig_validate (config_of control) ;;
  require (bool_decide (ptr_execution_policy_hash (cad_transport self) =
                        cc_provider_execution_policy_hash control)) ValueError
    "COPRO provider execution policy conflicts with request" ;;
  require (bool_decide (ptr_prompt_adapter_identity_hash (cad_transport self) =
                        cc_prompt_adapter_identity_hash control)) ValueError
    "COPRO prompt adapter identity conflicts with request" ;;
  policy ← of_option (run_reward_policy (runr_record (sreq_run request))) ValueError
    "COPRO requires the exact run Reward Policy";
  policy_hash ← RewardPolicy_identity_hash policy;
  require (bool_decide (policy_hash = cc_expected_reward_policy_hash control)) ValueError
    "COPRO expected Reward Policy conflicts with the exact run" ;;
  match sreq_candidates request with
  | [candidate] => normalize_initial_candidate candidate request
  | _ => raise ValueError "single-prompt COPRO requires exactly one initial candidate"
  end.

(** What [invoke] restores before it decides on the step. *)
Record restored := {
  rs_initial : Candidate;
  rs_mutation_field : pystr;
  rs_history : list CoproAttempt;
  rs_state : CoproState;
}.

Definition restore_request (self : CoproAdapter) (request : OptimStepRequest) : result restored :=
  let control := cad_control self in
  initial ← check_request self request;
  mutation_field ← resolve_mutation_field (sreq_run request);
  value ← frozen_getitem (cand_payload initial) mutation_field;
  validate_instruction (cc_proposal_contract control) (text_of value) ;;
  history ← attempt_history_entries request;
  for_each (check_history_attempt control (sreq_run_id request)) history ;;
  validate_attempt_placeholders history request ;;
  state ← restore_state (config_of control) initial history mutation_field;
  Ok {| rs_initial := initial; rs_mutation_field := mutation_field; rs_history := history;
        rs_state := state |}.

(** *** The finalizing step *)

Definition finalize_step (control : CoproControl) (request : OptimStepRequest) (r : restored) :
    result AdapterOutput :=
  finalization ← finalize (config_of control) (rs_state r);
  let required := accepted_count_for
    (run_terminal_output_contract (runr_record (sreq_run request))) COMPLETE in
  let ranked := cf_ranked_attempts finalization in
  let count := Z.of_nat (length ranked) in
  if bool_decide (ranked = []) then
    fail_with $"copro_no_measured_history" $"COPRO cannot finalize without measured history" []
      [] [] [] []
  else if (count <? required)%Z then
    fail_with $"copro_insufficient_ranked_candidates"
      ($"COPRO finalization produced " ++ int_text count ++
         $" ranked candidates but terminal contract requires " ++ int_text required) [] [] [] [] []
  else
    let state_delta := [($"copro_finalization", CoproFinalization_dump finalization)] in
    won ← seed_won ranked request;
    if won : bool then
      AdapterOutput_new [] [] [] [] COMPLETE None (Some (rs_initial r)) [] state_delta []
    else
      accepted ← accepted_without_seed ranked request required;
      match accepted with
      | None =>
          fail_with $"copro_insufficient_ranked_candidates"
            ($"COPRO finalization ranked " ++ int_text count ++
               $" candidates but too few are proposals; the terminal contract requires " ++
               int_text required) [] [] [] [] state_delta
      | Some accepted =>
          AdapterOutput_new accepted accepted [] [] COMPLETE None None [] state_delta []
      end.

(** *** The proposal request of a round *)

Definition check_iteration (control : CoproControl) (request : OptimStepRequest) (state : CoproState) :
    result Z :=
  iteration ← match default PNone (dict_get (sreq_hyperparameters request) $"round_index") with
              | PInt iteration => Ok iteration
              | _ => raise ValueError "COPRO round_index must be an integer"
              end;
  expected ← step_hyperparameters control iteration;
  expected ← ImmutableJsonObject expected;
  equal ← frozen_eq (sreq_hyperparameters request) expected;
  require equal ValueError "COPRO step hyperparameters do not match the exact control" ;;
  require (iteration =? sreq_step_index request)%Z ValueError
    "COPRO round_index must match the durable step index" ;;
  require (iteration =? cs_completed_rounds state)%Z ValueError
    "COPRO round_index does not match durable measured history" ;;
  Ok iteration.

(** [request.budget.remaining.get("proposal_calls")]. *)
Definition remaining_calls (request : OptimStepRequest) : result (option Z) :=
  match dict_get (bs_remaining (sreq_budget request)) PROPOSAL_CALLS with
  | None | Some PNone => Ok None
  | Some (PInt remaining) => Ok (Some remaining)
  | Some _ => raise TypeError "validated proposal_calls budget is not an integer"
  end.

Definition budget_exhausted (plan : CoproRoundPlan) (remaining : Z) : result AdapterOutput :=
  let amounts := [($"required", PInt (crp_proposal_count plan)); ($"remaining", PInt remaining)] in
  fail_with $"copro_proposal_budget_exhausted" $"COPRO proposal budget is exhausted" amounts [] [] []
    (($"reason", PStr $"proposal budget exhausted") :: amounts).

Definition contract_payload (control : CoproControl) (plan : CoproRoundPlan) : pyval :=
  match CoproProposalContractRecord_dump (cc_proposal_contract control) with
  | PDict kvs => PDict (kvs ++ [($"budget_mode", PStr (crp_proposal_mode plan))])
  | v => v
  end.

Definition proposal_request (control : CoproControl) (request : OptimStepRequest)
    (plan : CoproRoundPlan) (iteration : Z) (mutation_field : pystr) (base : Candidate) :
    result ProposalRequest :=
  base_ref ← candidate_reference base;
  context ← frozen_items
    [(COPRO_INSTRUCTION_CONTRACT_KEY, contract_payload control plan);
     (COPRO_INSTRUCTION_HISTORY_KEY, PList (crp_instruction_history plan))];
  unprompted ← ProposalRequest_new (crp_proposal_mode plan) iteration
    (runr_config_hash (sreq_run request)) mutation_field base_ref context;
  prompt ← copro_proposal_prompt unprompted;
  context ← frozen_items (dict_set (json_items context) $"proposal_prompt" (PStr prompt));
  ProposalRequest_new (prq_proposal_mode unprompted) (prq_request_ordinal unprompted)
    (prq_proposal_authority_identity_hash unprompted) (prq_mutation_field unprompted)
    (prq_base_candidate unprompted) context.

(** *** The drafts of a round *)

(** The candidate of a draft, its template normalized. *)
Definition draft_candidate (control : CoproControl) (run : OptimRunRef) (base : Candidate)
    (candidate_id : pystr) (draft : ProposalDraft) : result Candidate :=
  if draft_failed draft then candidate_from_draft base candidate_id draft run
  else
    let template := strip_draft (pd_template draft) in
    validate_instruction (cc_proposal_contract control) template ;;
    candidate_from_draft base candidate_id
      {| pd_template := template; pd_terminal_failure := pd_terminal_failure draft;
         pd_request_evidence := pd_request_evidence draft;
         pd_response_evidence := pd_response_evidence draft; pd_usage := pd_usage draft;
         pd_cost := pd_cost draft |} run.

Definition draft_evidence (index : Z) (occurrence_ordinal : option Z) (candidate_id : option pystr)
    (disposition : pystr) (reason : option pystr) (draft : ProposalDraft) : pyval :=
  evidence_entry index occurrence_ordinal candidate_id disposition reason
    (to_json (pd_request_evidence draft)) (to_json (pd_response_evidence draft))
    (to_json (pd_usage draft)) (pd_cost draft).

(** One turn of the loop over the drafts. *)
Definition take_draft (control : CoproControl) (run : OptimRunRef) (base : Candidate)
    (index : Z) (st : drafting) (draft : ProposalDraft) : result drafting :=
  let ordinal := dg_next_ordinal st in
  let reserved := dg_reserved_candidate_ids st in
  let candidate_id := fresh_id (length reserved) reserved
    ($"copro:" ++ run_run_id (runr_record run) ++ $":" ++ int_text ordinal) in
  match draft_candidate control run base candidate_id draft with
  | Ok candidate =>
      Ok {| dg_next_ordinal := ordinal + 1; dg_reserved_candidate_ids := candidate_id :: reserved;
            dg_occurrences := dg_occurrences st ++
              [{| oc_ordinal := ordinal; oc_candidate := candidate; oc_proposed := true |}];
            dg_rejected := dg_rejected st;
            dg_evidence := dg_evidence st ++
              [draft_evidence index (Some ordinal) (Some candidate_id) $"accepted" None draft] |}
  | Err e =>
      if exn_isa (exn_cls e) DiffCheckError || exn_isa (exn_cls e) ValueError then
        let disposition := if draft_failed draft then $"provider_failed" else $"rejected" in
        Ok {| dg_next_ordinal := ordinal; dg_reserved_candidate_ids := reserved;
              dg_occurrences := dg_occurrences st;
              dg_rejected := dg_rejected st ++
                [PDict [($"draft_index", PInt index); ($"disposition", PStr disposition);
                        ($"reason", PStr (exn_text e))]];
              dg_evidence := dg_evidence st ++
                [draft_evidence index None None disposition (Some (exn_text e)) draft] |}
      else Err e
  end.

Fixpoint take_drafts (control : CoproControl) (run : OptimRunRef) (base : Candidate)
    (index : Z) (st : drafting) (drafts : list ProposalDraft) : result drafting :=
  match drafts with
  | [] => Ok st
  | draft :: drafts =>
      st ← take_draft control run base index st draft;
      take_drafts control run base (index + 1) st drafts
  end.

(** The usage of the drafts that report one. *)
Fixpoint usages (drafts : list ProposalDraft) : result (list ProposerCallUsage) :=
  match drafts with
  | [] => Ok []
  | draft :: drafts =>
      usage ← call_usage draft;
      rest ← usages drafts;
      Ok (match usage with Some usage => usage :: rest | None => rest end)
  end.

(** The drafts taken, the seed's occurrence and the evidence of missing slots. *)
Definition round_occurrences (plan : CoproRoundPlan) (initial : Candidate) (st : drafting) :
    list occurrence :=
  if crp_include_initial_candidate plan then
    dg_occurrences st ++
      [{| oc_ordinal := dg_next_ordinal st; oc_candidate := initial; oc_proposed := false |}]
  else dg_occurrences st.

Definition round_evidence (plan : CoproRoundPlan) (drafts : list ProposalDraft) (st : drafting) :
    list pyval :=
  let returned := Z.of_nat (length drafts) in
  dg_evidence st ++
    (missing_evidence <$> seqZ returned (crp_proposal_count plan - returned)).

Definition shortfall_of (config : CoproConfig) (plan : CoproRoundPlan) (realized : Z)
    (returned_drafts : Z) (rejected : list pyval) : pyval :=
  PDict [($"requested_proposal_count", PInt (crp_proposal_count plan));
         ($"requested_occurrences", PInt (cfg_breadth config));
         ($"realized_occurrences", PInt realized);
         ($"dropped_occurrences", PInt (cfg_breadth config - realized));
         ($"returned_drafts", PInt returned_drafts); ($"rejected", PList rejected)].

(** *** What becomes of a round *)

Definition ranking_dump (ranked : list CoproAttempt) : pyval := PList (CoproAttempt_dump <$> ranked).

(** A round with more than it asked for. *)
Definition overfull (config : CoproConfig) (report : round_report) (proposed : list Candidate)
    (realized returned_drafts : Z) : result AdapterOutput :=
  let plan := rr_plan report in
  fail_with $"copro_proposal_cardinality" $"COPRO proposer overfilled its round"
    [($"expected_occurrences", PInt (cfg_breadth config)); ($"actual_occurrences", PInt realized);
     ($"requested_proposal_count", PInt (crp_proposal_count plan));
     ($"returned_drafts", PInt returned_drafts)]
    proposed (spent plan) (rr_proposer_usage report)
    [($"reason", PStr $"proposal cardinality"); ($"rejected", PList (rr_rejected report));
     ($"round_plan", CoproRoundPlan_dump plan); ($"proposer_evidence", PList (rr_evidence report));
     ($"proposal_shortfall", rr_shortfall report)].

Definition too_few (message : pystr) (config : CoproConfig) (ranked : list CoproAttempt)
    (required : Z) (report : round_report) (state_delta : list (pystr * pyval)) :
    result AdapterOutput :=
  fail_with $"copro_proposal_round_empty" message
    [($"expected_occurrences", PInt (cfg_breadth config)); ($"actual_occurrences", PInt 0);
     ($"ranked_candidates", PInt (Z.of_nat (length ranked)));
     ($"required_terminal_candidates", PInt required)] []
    (spent (rr_plan report)) (rr_proposer_usage report) state_delta.

Definition terminalize_without_proposals (request : OptimStepRequest) (config : CoproConfig)
    (initial : Candidate) (ranked : list CoproAttempt) (report : round_report) :
    result AdapterOutput :=
  let required := accepted_count_for
    (run_terminal_output_contract (runr_record (sreq_run request))) COMPLETE in
  let plan := rr_plan report in
  let usage := rr_proposer_usage report in
  let state_delta :=
    [($"reason", PStr $"proposal round realized no candidates");
     ($"rejected", PList (rr_rejected report)); ($"round_plan", CoproRoundPlan_dump plan);
     ($"proposer_evidence", PList (rr_evidence report));
     ($"proposal_shortfall", rr_shortfall report); ($"terminal_ranking", ranking_dump ranked)] in
  if (Z.of_nat (length ranked) <? required)%Z then
    too_few $"COPRO proposal round realized no candidates and the run has too little measured history to terminalize"
      config ranked required report state_delta
  else
    won ← seed_won ranked request;
    if won : bool then
      AdapterOutput_new [] [] [] (spent plan) COMPLETE None (Some initial) usage state_delta []
    else
      accepted ← accepted_without_seed ranked request required;
      match accepted with
      | None =>
          too_few $"COPRO proposal round realized no candidates and the run has too few measured proposals to terminalize"
            config ranked required report state_delta
      | Some accepted =>
          AdapterOutput_new accepted accepted [] (spent plan) COMPLETE None None usage state_delta []
      end.

(** [f"{run_id}:{step_index}:{ordinal}:{identity_hash}"]. *)
Definition occurrence_id (run_id : pystr) (step_index ordinal : Z) (identity_hash : pystr) : pystr :=
  run_id ++ $":" ++ int_text step_index ++ $":" ++ int_text ordinal ++ $":" ++ identity_hash.

(** The evaluation an occurrence asks for. *)
Definition eval_request_of (control : CoproControl) (request : OptimStepRequest)
    (plan : CoproRoundPlan) (o : occurrence) : result OptimEvalRequest :=
  candidate_ref ← candidate_reference (oc_candidate o);
  metadata ← metadata_with_purpose (crp_proposal_mode plan);
  request_id ← NonEmptyId (PStr (occurrence_id (sreq_run_id request) (sreq_step_index request)
    (oc_ordinal o) (candr_identity_hash candidate_ref)));
  run_id ← NonEmptyId (PStr (sreq_run_id request));
  step_index ← NonNegativeInt (PInt (sreq_step_index request));
  policy_hash ← IdentityHash (PStr (cc_expected_reward_policy_hash control));
  OptimEvalRequest_validate
    {| oer_optim_run_id := run_id; oer_optim_step_index := step_index;
       oer_eval_request := {| er_request_id := request_id; er_candidate := oc_candidate o;
                              er_metadata := metadata |};
       oer_expected_reward_policy_hash := Some policy_hash; oer_task_hashes := None |}.

Definition continue_round (control : CoproControl) (request : OptimStepRequest)
    (config : CoproConfig) (history ranked : list CoproAttempt) (occurrences : list occurrence)
    (proposed : list Candidate) (report : round_report) : result AdapterOutput :=
  let plan := rr_plan report in
  requests ← mapM (eval_request_of control request plan) occurrences;
  AdapterOutput_new proposed proposed requests (spent plan) CONTINUE None None
    (rr_proposer_usage report)
    [($"copro_config", CoproConfig_dump config); ($"round_plan", CoproRoundPlan_dump plan);
     ($"globally_best_measured", POption CoproAttempt_dump (head ranked));
     ($"terminal_ranking", ranking_dump ranked);
     ($"proposer_evidence", PList (rr_evidence report));
     ($"proposal_shortfall", rr_shortfall report)]
    [($"prior_entries", PList (CoproAttempt_dump <$> history));
     ($"proposed_candidate_ids", PList (PStr <$> (cand_candidate_id <$> proposed)));
     ($"occurrence_ordinals", PList (PInt <$> (oc_ordinal <$> occurrences)));
     ($"proposal_shortfall", rr_shortfall report)].

(** [invoke] once the drafts are there. *)
Definition settle_round (control : CoproControl) (request : OptimStepRequest) (r : restored)
    (plan : CoproRoundPlan) (drafts : list ProposalDraft) : result AdapterOutput :=
  let config := config_of control in
  let initial := rs_initial r in
  let ranked := terminal_ranking (rs_history r) in
  proposer_usage ← usages drafts;
  st ← take_drafts control (sreq_run request) initial 0
    {| dg_next_ordinal := Z.of_nat (length (rs_history r));
       dg_reserved_candidate_ids := [cand_candidate_id initial]; dg_occurrences := [];
       dg_rejected := []; dg_evidence := [] |} drafts;
  let occurrences := round_occurrences plan initial st in
  let proposed := oc_candidate <$> filter (λ o, oc_proposed o = true) occurrences in
  let realized := Z.of_nat (length occurrences) in
  let returned := Z.of_nat (length drafts) in
  let report :=
    {| rr_plan := plan; rr_rejected := dg_rejected st;
       rr_evidence := round_evidence plan drafts st;
       rr_shortfall := shortfall_of config plan realized returned (dg_rejected st);
       rr_proposer_usage := proposer_usage |} in
  if (crp_proposal_count plan <? returned)%Z || (cfg_breadth config <? realized)%Z then
    overfull config report proposed realized returned
  else if bool_decide (proposed = []) then
    terminalize_without_proposals request config initial ranked report
  else continue_round control request config (rs_history r) ranked occurrences proposed report.

(** A step below the configured depth. *)
Definition proposing_step (control : CoproControl) (execute : ProposalExecution)
    (request : OptimStepRequest) (r : restored) : result AdapterOutput :=
  iteration ← check_iteration control request (rs_state r);
  plan ← advance (config_of control) (rs_state r);
  remaining ← remaining_calls request;
  match remaining with
  | Some remaining =>
      if (remaining <? crp_proposal_count plan)%Z then Some <$> budget_exhausted plan remaining
      else Ok None
  | None => Ok None
  end ≫= λ exhausted,
  match exhausted with
  | Some output => Ok output
  | None =>
      proposal ← proposal_request control request plan iteration (rs_mutation_field r) (rs_initial r);
      drafts ← execute proposal (crp_proposal_count plan);
      settle_round control request r plan drafts
  end.

(** The body of [invoke]. *)
Definition invoke_step (self : CoproAdapter) (execute : ProposalExecution)
    (request : OptimStepRequest) : result AdapterOutput :=
  let control := cad_control self in
  r ← restore_request self request;
  if (cc_depth control <=? cs_completed_rounds (rs_state r))%Z
  then finalize_step control request r
  else proposing_step control execute request r.

Definition invoke {H} (execute : ProposalExecution) (request : OptimStepRequest)
    (handles : list H) : stm CoproAdapter AdapterOutput :=
  modify (λ self, {| cad_control := cad_control self; cad_transport := cad_transport self;
                     cad_invocations := cad_invocations self + 1 |}) ;;
  lift (require (bool_decide (length handles = 0%nat)) ValueError
    "COPRO receives no Runtime Tool Handles") ;;
  output ← gets (λ self, invoke_step self execute request);
  lift output.
End Adapter.
