(* ===== verification/CoproRounds.v ===== *)
(** * CoproRounds: what a step of a COPRO run makes of its drafts

    The theorems on [CoproAdapter.v]: every document that a step builds is
    JSON, an exception over a draft is always caught, the occurrences of a
    round are variants of the initial candidate under consecutive ordinals, and
    a round always has an outcome. *)

From S2P Require Import Prelude Floats Identity Frozen Leasing EvalConfigs Reward Tools.
From S2P Require Import Claims Candidate Cost Provider OptimContracts Copro CoproAdapter.

(** Ranking keeps what holds of every attempt. *)
Lemma keep_best_forall (P : CoproAttempt → Prop) unique e :
  Forall (λ kv, P kv.2) unique → P e → Forall (λ kv, P kv.2) (keep_best unique e).
Proof.
  intros H He. assert (Forall (λ kv, P kv.2) (dict_set unique (instruction e) e)) as Hs.
  { rewrite Forall_forall in *. intros x [->|Hx]%dict_set_elem; [done|]. by apply H. }
  unfold keep_best. destruct (dict_get _ _); [by destruct (flt _ _)|done].
Qed.

Lemma ranked_forall (P : CoproAttempt → Prop) entries :
  Forall P entries → Forall P (rank_attempt_history entries).
Proof.
  intros H. rewrite ranked_perm. unfold unique_measured_attempts. apply Forall_fmap.
  assert (∀ unique, Forall (λ kv, P kv.2) unique → Forall (λ kv, P kv.2) (foldl keep_best unique entries))
    as Hfold; [|by apply Hfold].
  induction H as [|e entries He _ IH]; intros unique Hu; simpl; [done|].
  by apply IH, keep_best_forall.
Qed.

(** ** Documents are JSON *)

(** A payload as pydantic leaves it: the frozen image of a JSON object. *)
Definition json_candidate (c : Candidate) : Prop :=
  ∃ kvs, cand_payload c = freeze kvs ∧ is_json (PDict kvs) = true.

Section Documents.
Implicit Types (c : Candidate).

Lemma is_json_option {A} (f : A → pyval) o :
  (∀ x, o = Some x → is_json (f x) = true) → is_json (POption f o) = true.
Proof. destruct o; simpl; auto. Qed.

Lemma is_json_fmap {A} (f : A → pyval) l :
  (∀ x, x ∈ l → is_json (f x) = true) → is_json (PList (f <$> l)) = true.
Proof. intros H. apply is_json_list, Forall_fmap, Forall_forall. exact H. Qed.

Lemma payload_json_freeze c kvs :
  cand_payload c = freeze kvs → is_json (PDict kvs) = true → payload_json c = kvs.
Proof. intros Hc Hj. unfold payload_json. by rewrite Hc, to_json_freeze. Qed.

Lemma json_typed_ref r : is_json (TypedRef_dump r) = true.
Proof. destruct r. json_dict. Qed.

Lemma json_candidate_content c : json_candidate c → is_json (Candidate_record_content c) = true.
Proof.
  intros (kvs & Hc & Hj). unfold Candidate_record_content. json_dict.
  by rewrite Hc, to_json_freeze.
Qed.

Lemma json_round_plan p :
  Forall (λ v, is_json v = true) (crp_instruction_history p) → is_json (CoproRoundPlan_dump p) = true.
Proof. intros H. unfold CoproRoundPlan_dump. json_dict. by apply is_json_list. Qed.

Lemma json_contract (contract : CoproProposalContractRecord) :
  is_json (CoproProposalContractRecord_dump contract) = true.
Proof. unfold CoproProposalContractRecord_dump. json_dict. Qed.

Lemma json_items_freeze kvs : is_json (PDict kvs) = true → json_items (freeze kvs) = kvs.
Proof. intros Hj. unfold json_items. by rewrite to_json_freeze. Qed.

Context `{DSer : !DrSerialize, DSto : !DrStore, DLaws : !DrSerializeLaws, DTot : !DrTotal}.

Lemma frozen_items_json kvs : is_json (PDict kvs) = true → frozen_items kvs = Ok (freeze kvs).
Proof. intros Hj. unfold frozen_items, frozen_validate. by rewrite ImmutableJsonObject_json. Qed.

Lemma candidate_reference_total c : json_candidate c → ∃ r, candidate_reference c = Ok r.
Proof.
  intros Hc. pose proof (json_candidate_content _ Hc) as Hj. unfold candidate_reference.
  destruct (typed_ref_for_record_total CANDIDATE_RECORD_SCHEMA (Candidate_record_content c)) as [ref Href];
    [done|done|].
  destruct (compute_identity_hash_total CANDIDATE_IDENTITY_SCHEMA CANDIDATE_IDENTITY_SCHEMA_VERSION
    (Candidate_record_content c) Hj) as [h Hh].
  unfold Candidate_identity_hash. fold (Candidate_record_content c) in Hh.
  change (Candidate_identity_payload c) with (Candidate_record_content c).
  rewrite Href. simpl. rewrite Hh. simpl. unfold CandidateRef_validate. simpl. rewrite Href. simpl.
  rewrite bool_decide_true by done. simpl. unfold Candidate_identity_hash.
  change (Candidate_identity_payload c) with (Candidate_record_content c). rewrite Hh. simpl.
  rewrite bool_decide_true by done. simpl. by eexists.
Qed.

Lemma CandidateRef_validate_id r r' : CandidateRef_validate r = Ok r' → r' = r.
Proof. unfold CandidateRef_validate. intros H. by inv_result. Qed.

Lemma candidate_reference_Ok c r :
  candidate_reference c = Ok r → candr_record r = c ∧ CandidateRef_validate r = Ok r.
Proof.
  unfold candidate_reference. intros H. apply bind_Ok in H as (ref & _ & H).
  apply bind_Ok in H as (h & _ & H). pose proof H as ->%CandidateRef_validate_id. done.
Qed.
End Documents.

(** ** Candidates made from drafts *)

Section DraftTheorems.
Context `{DSer : !DrSerialize, DSto : !DrStore, Uni : !UnicodeIdentifiers, Text : !PyText}.
Context `{Recs : !CoproRecords, DLaws : !DrSerializeLaws, DTot : !DrTotal}.

Lemma fields_loop_err turns text index fields e :
  fields_loop turns text index fields = Some (Err e) → exn_cls e = ValueError.
Proof.
  revert index fields. induction turns as [|turns IH]; intros index fields; simpl;
    destruct (text !! index) as [c|]; try done.
  destruct (c =? LBRACE)%Z.
  - destruct (next_is text index LBRACE); [apply IH|].
    destruct (str_find _ _ _); [|by intros [= <-]].
    case_bool_decide; [by intros [= <-]|]. destruct (negb _); [by intros [= <-]|apply IH].
  - destruct (c =? RBRACE)%Z; [|apply IH].
    destruct (next_is text index RBRACE); [apply IH|by intros [= <-]].
Qed.

Lemma require_err b c msg e : require b c msg = Err e → exn_cls e = c.
Proof. unfold require. destruct b; [done|]. by intros [= <-]. Qed.

Lemma bind_Err {A B} (r : result A) (f : A → result B) e :
  (r ≫= f) = Err e → r = Err e ∨ ∃ a, r = Ok a ∧ f a = Err e.
Proof. destruct r as [a|e']; [right; by exists a|]. intros [= ->]. by left. Qed.

(** A template is only ever refused with a [ValueError]. *)
Lemma validate_template_err contract v e :
  TemplateRenderContract_validate contract = Ok contract →
  validate_template contract v = Err e → exn_cls e = ValueError.
Proof.
  intros Hc H. unfold validate_template in H. apply bind_Err in H as [H|(observed & _ & H)].
  - unfold placeholder_fields in H. apply bind_Err in H as [H|(text & _ & H)].
    { destruct v; try by injection H as <-. simpl in H. apply bind_Err in H as [H|(? & _ & [=])].
      by eapply require_err. }
    destruct (trc_kind contract) eqn:Hk; [| |done].
    + destruct (fields_loop_spec text (length text) 0 [] text) as (r & Hr & _); [done|done|].
      rewrite Hr in H. simpl in H. subst r. by eapply fields_loop_err.
    + unfold TemplateRenderContract_validate in Hc. inv_ok. rewrite Hk in *.
      destruct (trc_available_fields contract); [|done]. simpl in *. congruence.
  - apply bind_Err in H as [H|(_ & _ & H)]; [by eapply require_err|].
    apply bind_Err in H as [H|(_ & _ & [=])]. by eapply require_err.
Qed.

Lemma isa_ValueError e : exn_cls e = ValueError → exn_isa (exn_cls e) ValueError = true.
Proof. by intros ->. Qed.

(** The exceptions that the loop over the drafts catches. *)
Definition caught (e : exn) : bool :=
  exn_isa (exn_cls e) DiffCheckError || exn_isa (exn_cls e) ValueError.

Lemma caught_class e : exn_cls e ∈ [ValueError; DiffCheckError; ProposalValidationError] → caught e = true.
Proof. unfold caught. rewrite !elem_of_cons, elem_of_nil. by intros [->|[->|[->|[]]]]. Qed.

Variable run : OptimRunRef.
Variable base : Candidate.
Hypothesis run_valid : OptimRunRef_model_validate run = Ok run.
Hypothesis base_json : json_candidate base.

Definition run_field : pystr := run_mutation_field (runr_record run).
Definition run_contract : TemplateRenderContract := run_template_render_contract (runr_record run).

(** What every occurrence of a round is: the base but for the mutation field. *)
Record variant (c : Candidate) : Prop := {
  va_json : json_candidate c;
  va_fixed : dict_pop (cand_payload c) run_field = dict_pop (cand_payload base) run_field;
  va_prompt : ∃ s fields, payload_get c run_field = PStr s ∧ s ≠ [] ∧
    validate_template run_contract (PStr s) = Ok fields;
}.

Lemma run_contract_valid : TemplateRenderContract_validate run_contract = Ok run_contract.
Proof.
  unfold OptimRunRef_model_validate, OptimRun_model_validate in run_valid.
  apply bind_Ok in run_valid as (r & H & _). apply bind_Ok in H as (? & _ & H).
  apply bind_Ok in H as (c & H & _). fold run_contract in H.
  assert (c = run_contract) as ->; [|done]. clear -H. unfold TemplateRenderContract_validate in H.
  by inv_result.
Qed.

Lemma json_draft_payload kvs template :
  cand_payload base = freeze kvs → is_json (PDict kvs) = true →
  is_json (PDict (dict_set kvs run_field (PStr template))) = true.
Proof. intros _ Hj. by apply is_json_set. Qed.

Lemma candidate_from_draft_Ok id draft c :
  candidate_from_draft base id draft run = Ok c →
  variant c ∧ cand_candidate_id c = id ∧ payload_get c run_field = PStr (pd_template draft) ∧
  mutates (runr_record run) base c.
Proof.
  destruct base_json as (kvs & Hb & Hj). unfold candidate_from_draft. rewrite run_valid, bind_Ok_l.
  intros H. rewrite (payload_json_freeze _ _ Hb Hj) in H.
  rewrite ImmutableJsonObject_json in H by (by apply json_draft_payload).
  apply bind_Ok in H as (_ & _ & H). apply bind_Ok in H as (fields & Hf & H).
  apply rewrap_Ok in Hf. apply bind_Ok in H as (base_ref & _ & H).
  apply bind_Ok in H as (id' & Hid & H). rewrite !bind_Ok_l in H.
  apply bind_Ok in H as ([] & Hd & [= <-]). apply diff_check_mutates in Hd as Hmut.
  unfold NonEmptyId, ValidatedString_new in Hid. apply bind_Ok in Hid as (_ & _ & [= <-]).
  assert (dict_get (freeze (dict_set kvs run_field (PStr (pd_template draft)))) run_field =
    Some (PStr (pd_template draft))) as Hget.
  { unfold freeze. by rewrite dict_get_map, dict_get_set_eq. }
  split_and!; [|done| |done]; [|unfold payload_get; cbn [cand_payload]; fold run_field; by rewrite Hget].
  split; cbn [cand_payload].
  - exists (dict_set kvs run_field (PStr (pd_template draft))). split; [done|]. by apply json_draft_payload.
  - rewrite Hb. unfold freeze. rewrite !dict_pop_map, dict_pop_set_any; [done|].
    by apply is_json_dict in Hj as [? _].
  - exists (pd_template draft), fields. unfold payload_get. cbn [cand_payload]. fold run_field.
    rewrite Hget. split_and!; [done| |done]. intros Hnil. rewrite Hnil in Hf.
    unfold validate_template, placeholder_fields in Hf. simpl in Hf. done.
Qed.

Lemma diff_check_err proposed e :
  json_candidate proposed → diff_check base proposed run = Err e → caught e = true.
Proof.
  intros (kp & Hp & Hjp) H. destruct base_json as (kvs & Hb & Hj). unfold diff_check in H.
  rewrite run_valid, bind_Ok_l, (payload_json_freeze _ _ Hb Hj), (payload_json_freeze _ _ Hp Hjp) in H.
  destruct (candidate_reference_total base base_json) as [ref Href]. rewrite Href, bind_Ok_l in H.
  assert (∀ k, k = DiffCheckError → exn_cls e = k → caught e = true) as Hdone.
  { intros k -> Hk. apply caught_class. rewrite Hk. set_solver. }
  apply bind_Err in H as [H|(_ & _ & H)]; [by eapply Hdone, require_err|].
  apply bind_Err in H as [H|(v & _ & H)].
  { destruct (payload_get proposed _) as [| | | |[|c s]| | | |]; try done; by injection H as <-. }
  apply bind_Err in H as [H|(w & _ & H)].
  { destruct (dict_get kvs _); [done|]. by injection H as <-. }
  apply bind_Err in H as [H|(x & _ & H)]; [destruct w; try done; by injection H as <-|].
  apply bind_Err in H as [H|(_ & _ & H)]; [by eapply Hdone, require_err|].
  destruct (canonical_json_total (PDict (dict_pop kp (run_mutation_field (runr_record run)))))
    as [s1 Hs1]; [by apply is_json_pop|].
  destruct (canonical_json_total (PDict (dict_pop kvs (run_mutation_field (runr_record run)))))
    as [s2 Hs2]; [by apply is_json_pop|].
  rewrite Hs1, bind_Ok_l, Hs2, bind_Ok_l in H. by eapply Hdone, require_err.
Qed.

(** Whatever is wrong with a draft is caught. *)
Lemma candidate_from_draft_err id draft e :
  id ≠ [] → candidate_from_draft base id draft run = Err e → caught e = true.
Proof.
  intros Hid H. destruct base_json as (kvs & Hb & Hj). unfold candidate_from_draft in H.
  rewrite run_valid, bind_Ok_l, (payload_json_freeze _ _ Hb Hj) in H.
  rewrite ImmutableJsonObject_json in H by (by apply json_draft_payload).
  apply bind_Err in H as [H|(_ & _ & H)].
  { apply caught_class. rewrite (require_err _ _ _ _ H). set_solver. }
  apply bind_Err in H as [H|(fields & _ & H)].
  { destruct (validate_template _ _) as [?|e'] eqn:Hv; [done|]. simpl in H.
    rewrite (isa_ValueError e') in H by (by eapply validate_template_err, Hv; apply run_contract_valid).
    by injection H as <-. }
  destruct (candidate_reference_total base base_json) as [ref Href]. rewrite Href, bind_Ok_l in H.
  unfold NonEmptyId, ValidatedString_new, nonempty_validate in H.
  rewrite bool_decide_false in H by done. simpl in H. apply bind_Err in H as [H|(? & _ & [=])].
  eapply diff_check_err, H. eexists. split; [done|]. by apply json_draft_payload.
Qed.

(** *** The loop over the drafts *)

Definition nth_id (id : pystr) (n : nat) : pystr := id ++ concat (replicate n GENERATED).

Lemma nth_id_length id n : length (nth_id id n) = (length id + 10 * n)%nat.
Proof.
  unfold nth_id. rewrite length_app. f_equal. induction n as [|n IH]; [done|].
  simpl replicate. rewrite concat_cons, length_app, IH. change (length GENERATED) with 10%nat. lia.
Qed.

Lemma nth_id_S id n : nth_id (id ++ GENERATED) n = nth_id id (S n).
Proof. unfold nth_id. simpl. by rewrite <-app_assoc. Qed.

Lemma fresh_id_nth turns reserved id :
  ∃ n, fresh_id turns reserved id = nth_id id n ∧ (n <= turns)%nat ∧
    (∀ j, (j < n)%nat → nth_id id j ∈ reserved) ∧ ((n < turns)%nat → nth_id id n ∉ reserved).
Proof.
  assert (∀ s, nth_id s 0 = s) as H0 by (intros s; unfold nth_id; simpl; by rewrite app_nil_r).
  revert id. induction turns as [|turns IH]; intros id; simpl.
  { exists 0%nat. rewrite H0. split_and!; try done; lia. }
  case_bool_decide as Hin.
  - destruct (IH (id ++ GENERATED)) as (n & -> & Hn & Hlt & Hfresh). exists (S n).
    rewrite <-nth_id_S. split_and!; [done|lia| |intros ?; apply Hfresh; lia].
    intros [|j] Hj; [by rewrite H0|]. rewrite <-nth_id_S. apply Hlt. lia.
  - exists 0%nat. rewrite H0. split_and!; [done|lia|lia|done].
Qed.

(** The loop that looks for an unused id ends within as many turns as there are
    used ones. *)
Lemma fresh_id_fresh reserved id : fresh_id (length reserved) reserved id ∉ reserved.
Proof.
  destruct (fresh_id_nth (length reserved) reserved id) as (n & -> & Hn & Hlt & Hfresh).
  destruct (decide (n < length reserved)%nat) as [?|Hge]; [by apply Hfresh|]. intros Hin.
  assert (nth_id id <$> seq 0 (S n) ⊆+ reserved) as Hsub%submseteq_length.
  { apply NoDup_submseteq.
    - apply NoDup_fmap_2_strong; [|apply NoDup_seq]. intros i j _ _ Heq%(f_equal length).
      rewrite !nth_id_length in Heq. lia.
    - intros x (j & -> & [_ Hj]%elem_of_seq)%list_elem_of_fmap.
      destruct (decide (j = n)) as [->|]; [done|]. apply Hlt. lia. }
  rewrite length_fmap, length_seq in Hsub. lia.
Qed.

Lemma fresh_id_ne turns reserved id : id ≠ [] → fresh_id turns reserved id ≠ [].
Proof.
  intros Hid. destruct (fresh_id_nth turns reserved id) as (n & -> & _). unfold nth_id. by destruct id.
Qed.

(** The documents of a draft are JSON, as pydantic leaves them. *)
Definition draft_json (draft : ProposalDraft) : Prop :=
  is_json (to_json (pd_request_evidence draft)) = true ∧
  is_json (to_json (pd_response_evidence draft)) = true ∧
  is_json (to_json (pd_usage draft)) = true ∧ price_finite (pd_cost draft) = true.

Record drafted (start : Z) (st : drafting) : Prop := {
  dr_next : dg_next_ordinal st = (start + Z.of_nat (length (dg_occurrences st)))%Z;
  dr_ordinals : oc_ordinal <$> dg_occurrences st = seqZ start (Z.of_nat (length (dg_occurrences st)));
  dr_proposed : Forall (λ o, oc_proposed o = true) (dg_occurrences st);
  dr_variants : Forall (λ o, variant (oc_candidate o)) (dg_occurrences st);
  dr_ids : NoDup (dg_reserved_candidate_ids st);
  dr_reserved : dg_reserved_candidate_ids st =
    rev (cand_candidate_id <$> (oc_candidate <$> dg_occurrences st)) ++ [cand_candidate_id base];
  dr_json : Forall (λ v, is_json v = true) (dg_rejected st ++ dg_evidence st);
}.

Lemma json_evidence index ordinal id disposition reason draft :
  draft_json draft → is_json (draft_evidence index ordinal id disposition reason draft) = true.
Proof.
  intros (H1 & H2 & H3 & H4). unfold draft_evidence, evidence_entry.
  json_dict; try done; by apply is_json_option; intros ? Heq; simpl; rewrite ?Heq in *.
Qed.

Lemma draft_candidate_cases control id draft :
  id ≠ [] →
  match draft_candidate control run base id draft with
  | Ok c => variant c ∧ cand_candidate_id c = id ∧ mutates (runr_record run) base c
  | Err e => caught e = true
  end.
Proof.
  intros Hid. destruct (draft_candidate control run base id draft) as [c|e] eqn:E; unfold draft_candidate in E.
  - destruct (draft_failed draft); [by apply candidate_from_draft_Ok in E as (? & ? & _ & ?)|].
    apply bind_Ok in E as (_ & _ & E). by apply candidate_from_draft_Ok in E as (? & ? & _ & ?).
  - destruct (draft_failed draft); [by eapply candidate_from_draft_err|].
    apply bind_Err in E as [E|(_ & _ & E)]; [|by eapply candidate_from_draft_err].
    apply caught_class. rewrite (require_err _ _ _ _ E). set_solver.
Qed.

Lemma take_draft_total control start index st draft :
  draft_json draft → drafted start st →
  ∃ st', take_draft control run base index st draft = Ok st' ∧ drafted start st' ∧
    (length (dg_occurrences st') <= S (length (dg_occurrences st)))%nat.
Proof.
  intros Hj [Hn Ho Hp Hv Hids Hres Hjs]. unfold take_draft.
  set (reserved := dg_reserved_candidate_ids st) in *.
  set (id := fresh_id _ _ _).
  assert (id ≠ []) as Hid by (by apply fresh_id_ne).
  pose proof (fresh_id_fresh reserved ($"copro:" ++ run_run_id (runr_record run) ++ $":" ++
    int_text (dg_next_ordinal st))) as Hfresh. fold id in Hfresh.
  pose proof (draft_candidate_cases control id draft Hid) as Hc.
  rewrite Forall_app in Hjs. destruct Hjs as [Hjr Hje].
  destruct (draft_candidate control run base id draft) as [c|e].
  - destruct Hc as (Hvar & Hcid & _). eexists. split; [done|]. split; [|simpl; rewrite length_app; simpl; lia].
    split; cbn [dg_next_ordinal dg_occurrences dg_reserved_candidate_ids dg_rejected dg_evidence].
    + rewrite length_app. simpl. lia.
    + rewrite fmap_app, Ho, length_app. csimpl. rewrite Nat2Z.inj_add, seqZ_app by lia. f_equal.
      rewrite Hn. done.
    + apply Forall_app. split; [done|]. by constructor.
    + apply Forall_app. split; [done|]. by constructor.
    + by constructor.
    + rewrite !fmap_app, rev_app_distr. csimpl. by rewrite Hres, Hcid.
    + rewrite !Forall_app. split_and!; [done|done|]. constructor; [|done]. by apply json_evidence.
  - fold (caught e). rewrite Hc. eexists. split; [done|]. split; [|simpl; lia].
    split; cbn [dg_next_ordinal dg_occurrences dg_reserved_candidate_ids dg_rejected dg_evidence]; try done.
    rewrite !Forall_app. split_and!; try done; constructor; [|done| |done].
    + json_dict.
    + by apply json_evidence.
Qed.

Lemma take_drafts_total control start index st drafts :
  Forall draft_json drafts → drafted start st →
  ∃ st', take_drafts control run base index st drafts = Ok st' ∧ drafted start st' ∧
    (length (dg_occurrences st') <= length (dg_occurrences st) + length drafts)%nat.
Proof.
  intros Hj. revert index st. induction Hj as [|draft drafts Hd _ IH]; intros index st Hst; simpl.
  { exists st. split_and!; [done|done|lia]. }
  destruct (take_draft_total control start index st draft Hd Hst) as (st1 & -> & Hst1 & Hl1).
  destruct (IH (index + 1)%Z st1 Hst1) as (st2 & H2 & Hst2 & Hl2).
  exists st2. rewrite bind_Ok_l, H2. split_and!; [done|done|lia].
Qed.

(** *** The outcome of a round *)

Lemma AdapterOutput_new_Ok proposed accepted requests delta status failure retained usage state history o :
  AdapterOutput_new proposed accepted requests delta status failure retained usage state history = Ok o →
  ao_proposed_candidates o = proposed ∧ ao_optim_eval_requests o = requests ∧
  ao_budget_delta o = delta ∧ ao_proposed_status o = status.
Proof.
  unfold AdapterOutput_new, BudgetDelta_validate, AdapterOutput_validate. intros H.
  apply bind_Ok in H as (d & Hd & H). apply bind_Ok in Hd as (_ & _ & [= <-]).
  apply bind_Ok in H as (s & _ & H). apply bind_Ok in H as (h & _ & H).
  repeat (apply bind_Ok in H as (? & _ & H)). by injection H as <-.
Qed.

Lemma fail_with_status code message details proposed delta usage state o :
  fail_with code message details proposed delta usage state = Ok o → ao_proposed_status o = FAILED.
Proof.
  unfold fail_with. intros H. apply bind_Ok in H as (f & _ & H).
  by apply AdapterOutput_new_Ok in H as (_ & _ & _ & ->).
Qed.

Lemma terminalize_ends request config initial ranked report o :
  terminalize_without_proposals request config initial ranked report = Ok o →
  ao_proposed_status o ≠ CONTINUE.
Proof.
  unfold terminalize_without_proposals. intros H.
  destruct (_ <? _)%Z; [by apply fail_with_status in H as ->|]. apply bind_Ok in H as (won & _ & H). destruct won.
  { by apply AdapterOutput_new_Ok in H as (_ & _ & _ & ->). }
  apply bind_Ok in H as ([accepted|] & _ & H).
  - by apply AdapterOutput_new_Ok in H as (_ & _ & _ & ->).
  - by apply fail_with_status in H as ->.
Qed.

Lemma finalize_step_ends control request r o :
  finalize_step control request r = Ok o → ao_proposed_status o ≠ CONTINUE.
Proof.
  unfold finalize_step. intros H. apply bind_Ok in H as (f & _ & H). case_bool_decide.
  { by apply fail_with_status in H as ->. }
  destruct (_ <? _)%Z; [by apply fail_with_status in H as ->|].
  apply bind_Ok in H as (won & _ & H). destruct won.
  { by apply AdapterOutput_new_Ok in H as (_ & _ & _ & ->). }
  apply bind_Ok in H as ([accepted|] & _ & H).
  - by apply AdapterOutput_new_Ok in H as (_ & _ & _ & ->).
  - by apply fail_with_status in H as ->.
Qed.

Lemma drafted_start start :
  drafted start
    {| dg_next_ordinal := start; dg_reserved_candidate_ids := [cand_candidate_id base];
       dg_occurrences := []; dg_rejected := []; dg_evidence := [] |}.
Proof. split; simpl; try done; try constructor; [lia|set_solver|constructor]. Qed.

Lemma round_occurrences_ok plan start st :
  variant base → drafted start st →
  let occurrences := round_occurrences plan base st in
  oc_ordinal <$> occurrences = seqZ start (Z.of_nat (length occurrences)) ∧
  Forall (λ o, variant (oc_candidate o)) occurrences ∧
  length occurrences =
    (length (dg_occurrences st) + if crp_include_initial_candidate plan then 1 else 0)%nat ∧
  filter (λ o, oc_proposed o = true) occurrences = dg_occurrences st.
Proof.
  intros Hbase [Hn Ho Hp Hv _ _ _]. unfold round_occurrences.
  assert (filter (λ o, oc_proposed o = true) (dg_occurrences st) = dg_occurrences st) as Hf.
  { clear -Hp. induction Hp as [|o l Ho _ IH]; [done|]. by rewrite filter_cons, decide_True, IH. }
  destruct (crp_include_initial_candidate plan); [|split_and!; [done|done|lia|done]].
  split_and!.
  - rewrite fmap_app, Ho, length_app. csimpl. rewrite Nat2Z.inj_add, seqZ_app by lia. f_equal.
    by rewrite Hn.
  - apply Forall_app. split; [done|]. by constructor.
  - by rewrite length_app.
  - rewrite filter_app, Hf, filter_cons, decide_False by done. by rewrite app_nil_r.
Qed.

(** A round that continues asks for the evaluation of each occurrence. *)
Lemma settle_continues control request r plan drafts o :
  sreq_run request = run → rs_initial r = base → variant base → Forall draft_json drafts →
  settle_round control request r plan drafts = Ok o → ao_proposed_status o = CONTINUE →
  ∃ occurrences,
    oc_ordinal <$> occurrences =
      seqZ (Z.of_nat (length (rs_history r))) (Z.of_nat (length occurrences)) ∧
    Forall (λ o, variant (oc_candidate o)) occurrences ∧ occurrences ≠ [] ∧
    (Z.of_nat (length occurrences) <= cc_breadth control)%Z ∧
    mapM (eval_request_of control request plan) occurrences = Ok (ao_optim_eval_requests o) ∧
    ao_budget_delta o = spent plan.
Proof.
  intros Hrun Hinit Hbase Hj H Hcont. unfold settle_round in H. rewrite Hrun, Hinit in H.
  apply bind_Ok in H as (usage & _ & H).
  destruct (take_drafts_total control _ 0 _ _ Hj (drafted_start (Z.of_nat (length (rs_history r)))))
    as (st & Hst & Hd & _). rewrite Hst, bind_Ok_l in H.
  destruct (round_occurrences_ok plan _ st Hbase Hd) as (Ho & Hv & Hl & Hf).
  destruct (_ || _) eqn:Hover in H.
  { apply fail_with_status in H. congruence. }
  apply orb_false_iff in Hover as [_ Hbreadth%Z.ltb_ge].
  case_bool_decide as Hnil; [by apply terminalize_ends in H|].
  unfold continue_round in H. apply bind_Ok in H as (requests & Hreq & H).
  apply AdapterOutput_new_Ok in H as (_ & Hr & Hb & _).
  exists (round_occurrences plan base st). split_and!; try done.
  - intros Hn. apply Hnil. by rewrite Hn.
  - by rewrite Hr.
Qed.

(** *** The outcome never fails to be built *)

Lemma spent_ok plan : (0 <= crp_proposal_count plan)%Z → BudgetDelta_validate (spent plan) = Ok (spent plan).
Proof.
  intros H. unfold BudgetDelta_validate, spent, validate_budget_values. cbn [for_each fst snd].
  rewrite bool_decide_false by done. by rewrite (proj2 (Z.ltb_ge _ _) H).
Qed.

Definition output_ok (accepted : list Candidate) (requests : list OptimEvalRequest)
    (status : StepStatus) (failure : option TerminalFailure) (retained : option Candidate) : Prop :=
  match status with
  | FAILED => failure ≠ None ∧ accepted = [] ∧ requests = [] ∧ retained = None
  | COMPLETE => failure = None ∧ (retained = None ∨ accepted = [])
  | CONTINUE => failure = None ∧ retained = None
  end.

Lemma AdapterOutput_new_total proposed accepted requests delta status failure retained usage state history :
  BudgetDelta_validate delta = Ok delta → is_json (PDict state) = true → is_json (PDict history) = true →
  output_ok accepted requests status failure retained →
  ∃ o, AdapterOutput_new proposed accepted requests delta status failure retained usage state history = Ok o.
Proof.
  intros Hd Hs Hh Hok. unfold AdapterOutput_new. rewrite Hd, bind_Ok_l.
  rewrite !frozen_items_json, !bind_Ok_l by done. unfold AdapterOutput_validate. simpl.
  destruct status, failure, retained; simpl in *; destruct_and?; try done;
    try (destruct accepted; [|naive_solver]); try (destruct requests; [|naive_solver]);
    simpl; try (by eexists); naive_solver.
Qed.

Lemma fail_with_total code message details proposed delta usage state :
  code ≠ [] → message ≠ [] → is_json (PDict details) = true →
  BudgetDelta_validate delta = Ok delta → is_json (PDict state) = true →
  ∃ o, fail_with code message details proposed delta usage state = Ok o.
Proof.
  intros Hc Hm Hd Hb Hs. destruct (fail_with code message details proposed delta usage state) as [o|e] eqn:E;
    [by exists o|]. exfalso. unfold fail_with, TerminalFailure_validate, NonEmptyId, ValidatedString_new in E.
  unfold nonempty_validate, frozen_validate in E.
  rewrite !bool_decide_false in E by done. simpl in E.
  rewrite ImmutableJsonObject_json in E by done. rewrite !bind_Ok_l in E.
  destruct (AdapterOutput_new_total proposed [] [] delta FAILED
    (Some {| tf_code := code; tf_message := message; tf_details := freeze details |}) None usage state [])
    as [o Ho]; [done|done|done|done|]. rewrite Ho in E. done.
Qed.

Lemma usages_total drafts :
  Forall (λ d, draft_json d ∧ price_not_negative (pd_cost d) = true) drafts → ∃ u, usages drafts = Ok u.
Proof.
  induction 1 as [|d drafts [(_ & _ & _ & Hf) Hn] _ [u IH]]; simpl; [by eexists|]. rewrite IH.
  unfold call_usage. case_bool_decide; [simpl; by eexists|]. destruct (_ && _); [simpl; by eexists|].
  unfold ProposerCallUsage_validate. simpl. rewrite Hf, Hn. simpl.
  assert (∀ usage key, not_negative (usage_tokens usage key) = true) as Ht.
  { intros usage key. unfold usage_tokens, not_negative.
    destruct (dict_get usage key) as [[]|]; try done. apply negb_true_iff, Z.ltb_ge. lia. }
  rewrite !Ht. simpl. by eexists.
Qed.

(** A measured attempt as a document. *)
Definition attempt_json (a : CoproAttempt) : Prop :=
  is_json (CoproAttempt_dump a) = true ∧ json_candidate (candr_record (ca_candidate a)).

Lemma json_ranking ranked : Forall attempt_json ranked → is_json (ranking_dump ranked) = true.
Proof. rewrite Forall_forall. intros H. apply is_json_fmap. intros a Ha. by apply H. Qed.

Lemma json_prompt_entry a : attempt_json a → is_json (prompt_entry a) = true.
Proof.
  intros [Hj _]. apply is_json_get with (k := $"reward") (v := PFloat (ca_reward a)) in Hj; [|done].
  unfold prompt_entry. by json_dict.
Qed.

Lemma json_shortfall config plan realized returned rejected :
  Forall (λ v, is_json v = true) rejected →
  is_json (shortfall_of config plan realized returned rejected) = true.
Proof. intros H. unfold shortfall_of. json_dict. by apply is_json_list. Qed.

Lemma is_seed_total seed a : attempt_json a → ∃ b, is_seed seed (candr_record (ca_candidate a)) = Ok b.
Proof.
  intros [_ Hc]. unfold is_seed. destruct (candidate_reference_total _ Hc) as [r ->]. simpl. by eexists.
Qed.

Lemma seed_won_total ranked request : Forall attempt_json ranked → ∃ b, seed_won ranked request = Ok b.
Proof.
  intros H. unfold seed_won. destruct (seed_ref request) as [seed|]; [|by eexists].
  destruct H as [|a ranked Ha _]; [by eexists|]. by apply is_seed_total.
Qed.

Lemma accepted_without_seed_total ranked request required :
  Forall attempt_json ranked → ∃ l, accepted_without_seed ranked request required = Ok l.
Proof.
  intros H. unfold accepted_without_seed.
  assert (∃ l, proposals_of (seed_ref request) ranked = Ok l) as [l ->]; [|simpl; by eexists].
  induction H as [|a ranked Ha _ [l IH]]; simpl; [by eexists|].
  destruct (seed_ref request) as [seed|]; [|rewrite IH; simpl; by eexists].
  destruct (is_seed_total seed a Ha) as [b ->]. simpl. rewrite IH. simpl. by eexists.
Qed.

Record report_json (report : round_report) : Prop := {
  rj_rejected : is_json (PList (rr_rejected report)) = true;
  rj_evidence : is_json (PList (rr_evidence report)) = true;
  rj_shortfall : is_json (rr_shortfall report) = true;
  rj_plan : is_json (CoproRoundPlan_dump (rr_plan report)) = true;
  rj_count : (0 <= crp_proposal_count (rr_plan report))%Z;
}.

Lemma overfull_total config report proposed realized returned :
  report_json report → ∃ o, overfull config report proposed realized returned = Ok o.
Proof.
  intros []. unfold overfull.
  apply fail_with_total; [done|done|json_dict|by apply spent_ok|by json_dict].
Qed.

Lemma too_few_total message config ranked required report state :
  message ≠ [] → report_json report → is_json (PDict state) = true →
  ∃ o, too_few message config ranked required report state = Ok o.
Proof.
  intros Hm [] Hs. unfold too_few.
  apply fail_with_total; [done|done|json_dict|by apply spent_ok|done].
Qed.

Lemma terminalize_total request config initial ranked report :
  report_json report → Forall attempt_json ranked →
  ∃ o, terminalize_without_proposals request config initial ranked report = Ok o.
Proof.
  intros Hr Hranked. unfold terminalize_without_proposals. set (state := _ :: _).
  assert (is_json (PDict state) = true) as Hs.
  { destruct Hr. subst state. json_dict; try done. by apply json_ranking. }
  clearbody state. destruct (_ <? _)%Z; [by apply too_few_total|].
  destruct (seed_won_total ranked request Hranked) as [won ->]. rewrite bind_Ok_l.
  pose proof (spent_ok _ (rj_count _ Hr)) as Hspent.
  destruct won; [apply AdapterOutput_new_total; simpl; auto|].
  destruct (accepted_without_seed_total ranked request
    (accepted_count_for (run_terminal_output_contract (runr_record (sreq_run request))) COMPLETE) Hranked)
    as [[accepted|] ->]; rewrite bind_Ok_l; [apply AdapterOutput_new_total; simpl; auto|].
  by apply too_few_total.
Qed.

Lemma eval_request_of_total control request plan o :
  sreq_run_id request ≠ [] → (0 <= sreq_step_index request)%Z → nonblank (crp_proposal_mode plan) = true →
  require_full_hash (PStr (cc_expected_reward_policy_hash control)) =
    Ok (cc_expected_reward_policy_hash control) →
  variant (oc_candidate o) → ∃ r, eval_request_of control request plan o = Ok r.
Proof.
  intros Hrun Hstep Hmode Hhash [Hj _ _]. unfold eval_request_of, metadata_with_purpose.
  destruct (candidate_reference_total _ Hj) as [ref ->]. rewrite bind_Ok_l, Hmode.
  rewrite ImmutableJsonObject_json by json_dict. simpl.
  unfold NonEmptyId, IdentityHash, ValidatedString_new, NonNegativeInt, hash_validate, nonempty_validate.
  assert (∀ ordinal h, occurrence_id (sreq_run_id request) (sreq_step_index request) ordinal h ≠ []) as Hne.
  { intros ordinal h. unfold occurrence_id. by destruct (sreq_run_id request). }
  rewrite Hhash, (bool_decide_false _ (Hne _ _)), (bool_decide_false _ Hrun). simpl.
  rewrite (proj2 (Z.ltb_ge _ _)) by lia. simpl. by eexists.
Qed.

Lemma mapM_total {A B} (f : A → result B) l :
  Forall (λ x, ∃ y, f x = Ok y) l → ∃ k, mapM f l = Ok k.
Proof.
  induction 1 as [|x l [y Hy] _ [k IH]]; simpl; [by eexists|]. rewrite Hy. simpl. rewrite IH.
  simpl. by eexists.
Qed.

Lemma continue_round_total control request config history ranked occurrences proposed report :
  report_json report → Forall attempt_json history → Forall attempt_json ranked →
  Forall (λ o, ∃ r, eval_request_of control request (rr_plan report) o = Ok r) occurrences →
  ∃ o, continue_round control request config history ranked occurrences proposed report = Ok o.
Proof.
  intros Hr Hh Hranked Hocc. unfold continue_round.
  destruct (mapM_total _ _ Hocc) as [requests ->]. rewrite bind_Ok_l.
  pose proof (spent_ok _ (rj_count _ Hr)) as Hspent. destruct Hr.
  apply AdapterOutput_new_total; [done| | |done].
  - json_dict; try done; [|by apply json_ranking].
    apply is_json_option. intros a Ha. apply head_Some in Ha as [l Hl]. subst ranked.
    by apply Forall_cons in Hranked as [[? _] _].
  - json_dict; try done.
    + apply is_json_fmap. rewrite Forall_forall in Hh. intros a Ha. by apply Hh.
    + apply is_json_fmap. done.
    + apply is_json_fmap. done.
Qed.

Definition draft_ok (draft : ProposalDraft) : Prop :=
  draft_json draft ∧ price_not_negative (pd_cost draft) = true.

Lemma settle_round_total control request r plan drafts :
  sreq_run request = run → rs_initial r = base → variant base → Forall draft_ok drafts →
  sreq_run_id request ≠ [] → (0 <= sreq_step_index request)%Z →
  nonblank (crp_proposal_mode plan) = true → (0 <= crp_proposal_count plan)%Z →
  Forall (λ v, is_json v = true) (crp_instruction_history plan) →
  require_full_hash (PStr (cc_expected_reward_policy_hash control)) =
    Ok (cc_expected_reward_policy_hash control) →
  Forall attempt_json (rs_history r) → ∃ o, settle_round control request r plan drafts = Ok o.
Proof.
  intros Hrun Hinit Hbase Hd Hid Hstep Hmode Hcount Hplan Hhash Hhist. unfold settle_round.
  rewrite Hrun, Hinit. destruct (usages_total drafts Hd) as [usage ->]. rewrite bind_Ok_l.
  assert (Forall draft_json drafts) as Hj.
  { eapply Forall_impl; [exact Hd|]. by intros d []. }
  destruct (take_drafts_total control _ 0 _ _ Hj (drafted_start (Z.of_nat (length (rs_history r)))))
    as (st & -> & Hst & _). rewrite bind_Ok_l.
  destruct (round_occurrences_ok plan _ st Hbase Hst) as (_ & Hv & _ & _).
  pose proof (dr_json _ _ Hst) as [Hjr Hje]%Forall_app.
  set (report := {| rr_plan := plan |}). assert (report_json report) as Hr.
  { split; subst report; cbn [rr_plan rr_rejected rr_evidence rr_shortfall];
      [by apply is_json_list| |by refine (json_shortfall _ _ _ _ _ Hjr)|by refine (json_round_plan _ Hplan)|done].
    apply is_json_list, Forall_app. split; [done|]. apply Forall_fmap, Forall_forall. done. }
  assert (Forall attempt_json (terminal_ranking (rs_history r))) as Hranked.
  { unfold terminal_ranking. by apply ranked_forall. }
  destruct (_ || _); [by apply overfull_total|].
  case_bool_decide; [by apply terminalize_total|]. apply continue_round_total; [done|done|done|].
  eapply Forall_impl; [exact Hv|]. intros o Ho. by apply eval_request_of_total.
Qed.
End DraftTheorems.
