(* ===== verification/CoproSteps.v ===== *)
(** * CoproSteps: the steps of a COPRO run, from the first to the last

    Models [optim/copro/step_contract.py]: the budget of a run, the history its
    step results hold, the output contracts and the requests of its steps. A
    COPRO run is then a sequence of requests, invocations and step results, and
    the theorem is that it always ends. *)

From S2P Require Import Prelude Floats Identity Frozen Leasing EvalConfigs Reward Tools.
From S2P Require Import Claims Candidate Cost Provider OptimContracts Copro CoproAdapter CoproRounds.

Definition copro_total_proposal_calls (control : CoproControl) : result Z :=
  require (negb (cc_depth control <? 1)%Z) ValueError "COPRO depth must be at least 1" ;;
  let total := (cc_breadth control - 1)%Z in
  Ok (if (1 <? cc_depth control)%Z then total + cc_breadth control * (cc_depth control - 1) else total)%Z.

Definition continuing_contract (run : OptimRunRef) (returned_proposal_count : Z) :
    result OutputContract :=
  let terminal := run_terminal_output_contract (runr_record run) in
  OutputContract_validate
    {| out_returned_proposal_count := returned_proposal_count;
       out_terminal_proposal_count := Some (accepted_count_for terminal COMPLETE);
       out_min_returned_proposal_count := Some 1%Z;
       out_require_distinct_bases := out_require_distinct_bases terminal |}.

Definition finalizing_contract (run : OptimRunRef) : result OutputContract :=
  let terminal := run_terminal_output_contract (runr_record run) in
  OutputContract_validate
    {| out_returned_proposal_count := out_returned_proposal_count terminal;
       out_terminal_proposal_count := Some (accepted_count_for terminal COMPLETE);
       out_min_returned_proposal_count := None;
       out_require_distinct_bases := out_require_distinct_bases terminal |}.

(** [len({attempt.round_index for attempt in attempt_history})]. *)
Definition copro_completed_rounds (control : CoproControl) (attempt_history : list CoproAttempt) : Z :=
  Z.of_nat (length (remove_dups (ca_round_index <$> attempt_history))).

(** [pools.update(extra_pools)]. *)
Definition update_pools (pools extra_pools : list (pystr * pyval)) : list (pystr * pyval) :=
  foldl (λ pools kv, dict_set pools kv.1 kv.2) pools extra_pools.

Section Steps.
Context `{DSer : !DrSerialize, DSto : !DrStore, Uni : !UnicodeIdentifiers}.

(** The inner loop of [copro_attempt_history]: the attempts of one step. *)
Fixpoint step_attempts (control : CoproControl) (mutation_field run_id : pystr)
    (round_index ordinal : Z) (resolutions : list IntentResolution) : result (list CoproAttempt) :=
  match resolutions with
  | [] => Ok []
  | resolution :: resolutions =>
      attempt ← Copro.from_resolution ordinal round_index resolution run_id
        (cc_eval_config_ref control) (cc_eval_role control)
        (cc_provider_execution_policy_ref control) (cc_expected_reward_policy_hash control)
        mutation_field;
      attempts ← step_attempts control mutation_field run_id round_index (ordinal + 1) resolutions;
      Ok (attempt :: attempts)
  end.

Fixpoint attempts_from (control : CoproControl) (mutation_field : pystr) (round_start : Z)
    (prior_results : list OptimStepResult) : result (list CoproAttempt) :=
  match prior_results with
  | [] => Ok []
  | prior :: prior_results =>
      attempts ← step_attempts control mutation_field (sres_run_id prior) (sres_step_index prior)
        round_start (sres_resolved_intents prior);
      rest ← attempts_from control mutation_field
        (round_start + Z.of_nat (length (sres_resolved_intents prior))) prior_results;
      Ok (attempts ++ rest)
  end.

Definition copro_attempt_history (prior_results : list OptimStepResult) (control : CoproControl)
    (mutation_field : pystr) : result (list CoproAttempt) :=
  attempts_from control mutation_field 0 prior_results.

(** [OptimStepRequest(...)] of the fields both requests give. *)
Definition step_request (run : OptimRunRef) (step_id : pystr) (kind_label : pystr) (step_index : Z)
    (prior : option TypedRef) (state history : option TypedRef) (candidate : Candidate)
    (pools hyperparameters : list (pystr * pyval)) (budget : BudgetState)
    (contract : OutputContract) : result OptimStepRequest :=
  step_id ← NonEmptyId (PStr step_id);
  kind_label ← NonEmptyId (PStr kind_label);
  step_index ← NonNegativeInt (PInt step_index);
  OptimStepRequest_validate
    {| sreq_run := run; sreq_step_id := step_id; sreq_kind := PROPOSAL;
       sreq_kind_label := Some kind_label; sreq_step_index := step_index;
       sreq_prior_step_result_ref := prior; sreq_prior_state_ref := state;
       sreq_prior_history_ref := history; sreq_candidates := [candidate]; sreq_pools := pools;
       sreq_hyperparameters := hyperparameters; sreq_budget := budget;
       sreq_step_output_contract := contract |}.

Definition hyperparameters_of (control : CoproControl) (iteration : Z) :
    result (list (pystr * pyval)) :=
  hyperparameters ← step_hyperparameters control iteration;
  match hyperparameters with PDict kvs => frozen_items kvs | _ => raise TypeError "" end.

Definition build_first (run : OptimRunRef) (initial_candidate : Candidate)
    (control : option CoproControl) (extra_pools : list (pystr * pyval)) : result OptimStepRequest :=
  control ← of_option control ValueError "COPRO initial step requires the exact control";
  pools ← frozen_items (update_pools [($"attempt_history", PList [])] extra_pools);
  hyperparameters ← hyperparameters_of control 0;
  total ← copro_total_proposal_calls control;
  remaining ← frozen_items [(PROPOSAL_CALLS, PInt total)];
  budget ← BudgetState_validate {| bs_consumed := []; bs_remaining := remaining |};
  contract ← continuing_contract run (cc_breadth control - 1);
  step_request run (run_run_id (runr_record run) ++ $":copro:0") $"seed_proposal" 0 None None None
    initial_candidate pools hyperparameters budget contract.

Definition build_next (prior : OptimStepResult) (prior_ref : TypedRef)
    (prior_results : list OptimStepResult) (control : CoproControl) (mutation_field : pystr)
    (extra_pools : list (pystr * pyval)) : result OptimStepRequest :=
  let run := sres_run prior in
  let step_index := (sres_step_index prior + 1)%Z in
  attempt_history ← copro_attempt_history prior_results control mutation_field;
  let finalizing := (cc_depth control <=? copro_completed_rounds control attempt_history)%Z in
  candidate ← of_option (head (sreq_candidates (sreqr_record (sres_request prior)))) IndexError
    "tuple index out of range";
  pools ← frozen_items (update_pools
    [($"attempt_history", PList (CoproAttempt_dump <$> attempt_history))] extra_pools);
  hyperparameters ← hyperparameters_of control
    (if finalizing then Z.min (cc_depth control - 1) step_index else step_index);
  contract ← (if finalizing then finalizing_contract run
              else continuing_contract run (cc_breadth control));
  step_request run (sres_run_id prior ++ $":copro:" ++ int_text step_index)
    (if finalizing then $"copro_finalize" else $"history_proposal") step_index (Some prior_ref)
    (sres_state_ref prior) (sres_history_ref prior) candidate pools hyperparameters
    (sres_budget prior) contract.
End Steps.

(** ** A candidate's fixed fields equal themselves *)

Section FixedFields.
Context `{DSer : !DrSerialize, DSto : !DrStore, DLaws : !DrSerializeLaws, DTot : !DrTotal}.

Lemma scalar_eq_refl v :
  is_json v = true → match v with PList _ | PDict _ => False | _ => True end → scalar_eq v v = true.
Proof.
  destruct v as [|b|n|f|s|l| |kvs|]; try done; intros Hj _; unfold scalar_eq; simpl.
  - apply Z.eqb_refl.
  - apply Z.eqb_refl.
  - apply feq_refl. simpl in Hj. by apply fisfinite_number.
  - by rewrite bool_decide_true.
Qed.

Lemma frozen_value_eq_refl v :
  is_json v = true → frozen_value_eq (freeze_validated_json v) (freeze_validated_json v) = Ok true.
Proof.
  induction v as [|b|n|f|s|l IH| |kvs IH|] using pyval_nested_ind; intros Hj; try done;
    try (cbn -[scalar_eq]; by rewrite scalar_eq_refl).
  - cbn [freeze_validated_json frozen_value_eq]. apply is_json_list in Hj.
    induction IH as [|v l Hv _ IHl]; csimpl; [done|]. apply Forall_cons in Hj as [Hvj Hj].
    rewrite Hv by done. by apply IHl.
  - exact (frozen_eq_refl kvs Hj).
Qed.

Lemma fixed_eq_refl kvs : is_json (PDict kvs) = true → fixed_eq (freeze kvs) (freeze kvs) = Ok true.
Proof.
  intros Hj. unfold fixed_eq. rewrite Nat.eqb_refl. cbn [negb].
  pose proof (proj1 (is_json_dict kvs) Hj) as [Hnd Hvs].
  assert (∀ l, l ⊆ kvs →
    foldr (λ kv rest, match dict_get (freeze kvs) kv.1 with
                      | None => Ok false
                      | Some v => match frozen_value_eq kv.2 v with Ok true => rest | r => r end
                      end) (Ok true) (freeze l) = Ok true) as H; [|by apply H].
  induction l as [|[k v] l IH]; intros Hl; [done|]. unfold freeze at 2. csimpl.
  assert ((k, v) ∈ kvs) as Hin by (apply Hl; by left).
  unfold freeze at 1. rewrite dict_get_map, (dict_get_NoDup _ _ _ Hnd Hin). simpl.
  rewrite Forall_forall in Hvs. rewrite frozen_value_eq_refl by (by apply (Hvs (k, v))).
  apply IH. intros x Hx. apply Hl. by right.
Qed.
End FixedFields.

(** ** The occurrences of a round, measured *)

Lemma occurrence_id_inj run_id (s1 o1 s2 o2 : Z) h1 h2 :
  occurrence_id run_id s1 o1 h1 = occurrence_id run_id s2 o2 h2 → s1 = s2 ∧ o1 = o2.
Proof.
  unfold occurrence_id. intros H. apply app_inv_head in H. simpl in H. injection H as H.
  assert (∀ n : Z, (58 ∉ int_text n)%Z) as Hn by (intros n; apply int_text_not; lia).
  destruct (split_first 58%Z _ _ _ _ (Hn _) (Hn _) H) as [Hs H'].
  destruct (split_first 58%Z _ _ _ _ (Hn _) (Hn _) H') as [Ho _].
  split; by apply int_text_inj.
Qed.

Section Issued.
Context `{DSer : !DrSerialize, DSto : !DrStore, Uni : !UnicodeIdentifiers, Text : !PyText}.
Context `{Recs : !CoproRecords, DLaws : !DrSerializeLaws, DTot : !DrTotal}.
Variables (control : CoproControl) (run : OptimRunRef) (initial : Candidate).

Definition run_id : pystr := run_run_id (runr_record run).

(** What every measured attempt of a run says of its control and its seed. *)
Record issued (a : CoproAttempt) : Prop := {
  is_run : ca_run_id a = run_id;
  is_eval : same EvalConfigRef_dump (ca_eval_config_ref a) (cc_eval_config_ref control) = true;
  is_role : ca_eval_role a = cc_eval_role control;
  is_policy_ref : ca_provider_execution_policy_ref a = cc_provider_execution_policy_ref control;
  is_policy_hash : ca_expected_reward_policy_hash a = cc_expected_reward_policy_hash control;
  is_variant : variant run initial (candr_record (ca_candidate a));
  is_field : ca_mutation_field a = run_field run;
  is_intent : ∃ h, ca_intent_id a = occurrence_id run_id (ca_round_index a) (ca_occurrence_ordinal a) h;
  is_valid : CoproAttempt_model_validate a = Ok a;
}.

Lemma CoproAttempt_validate_id a a' : CoproAttempt_validate a = Ok a' → a' = a.
Proof. unfold CoproAttempt_validate. intros H. by inv_result. Qed.

Lemma IntentResolution_model_validate_Ok r r' :
  IntentResolution_model_validate r = Ok r' →
  r' = r ∧ EvalConfigRef_validate (ir_resolved_eval_config r) = Ok (ir_resolved_eval_config r) ∧
  (∀ reward, ir_reward_ref r = Some reward → RewardRef_model_validate reward = Ok tt).
Proof.
  unfold IntentResolution_model_validate. intros H. apply bind_Ok in H as (_ & _ & H).
  apply bind_Ok in H as (c & Hc & H). apply bind_Ok in H as ([] & Hr & H).
  assert (r' = r) as -> by (unfold IntentResolution_validate in H; by inv_result).
  split_and!; [done| |].
  - assert (c = ir_resolved_eval_config r) as Heq; [|by rewrite Heq in Hc].
    unfold EvalConfigRef_validate in Hc. by inv_result.
  - intros reward Hreward. by rewrite Hreward in Hr.
Qed.

Lemma eval_request_of_Ok request plan o r :
  eval_request_of control request plan o = Ok r →
  oer_optim_run_id r = sreq_run_id request ∧ oer_optim_step_index r = sreq_step_index request ∧
  er_candidate (oer_eval_request r) = oc_candidate o ∧
  ∃ h, er_request_id (oer_eval_request r) =
    occurrence_id (sreq_run_id request) (sreq_step_index request) (oc_ordinal o) h.
Proof.
  unfold eval_request_of. intros H. apply bind_Ok in H as (ref & _ & H).
  apply bind_Ok in H as (metadata & _ & H).
  unfold NonEmptyId, IdentityHash, ValidatedString_new, NonNegativeInt, OptimEvalRequest_validate in H.
  simpl in H. inv_result. simpl. split_and!; try done. by eexists.
Qed.

Lemma from_resolution_issued request plan o ordinal round resolution a :
  sreq_run request = run → eval_request_of control request plan o = Ok (ir_optim_eval_request resolution) →
  variant run initial (oc_candidate o) → oc_ordinal o = ordinal → sreq_step_index request = round →
  Copro.from_resolution ordinal round resolution run_id (cc_eval_config_ref control)
    (cc_eval_role control) (cc_provider_execution_policy_ref control)
    (cc_expected_reward_policy_hash control) (run_field run) = Ok a →
  issued a ∧ ca_round_index a = round ∧ ca_occurrence_ordinal a = ordinal.
Proof.
  intros Hrun Hreq Hvar Hord Hround H. apply eval_request_of_Ok in Hreq as (_ & _ & Hc & h & Hid).
  unfold Copro.from_resolution in H. apply bind_Ok in H as (r & Hr & H).
  apply IntentResolution_model_validate_Ok in Hr as (-> & Heval & Hreward).
  apply bind_Ok in H as (_ & _ & H). apply bind_Ok in H as (_ & _ & H).
  apply bind_Ok in H as (reward & Hrw & H). apply of_option_Ok in Hrw.
  apply bind_Ok in H as (result_ref & _ & H). apply bind_Ok in H as (hash & _ & H).
  inv_result. inv_bool.
  match goal with H : candidate_reference _ = Ok ?x |- _ => apply candidate_reference_Ok in H as [Hrec Hval] end.
  match goal with H : CoproAttempt_validate _ = Ok _ |- _ =>
    pose proof H as ->%CoproAttempt_validate_id; rename H into Hok end.
  split_and!; [|done|done]. unfold sreq_run_id in Hid. rewrite Hrun in Hid.
  split; cbn; try done.
  - by rewrite Hrec, Hc.
  - exists h. by rewrite Hid.
  - unfold CoproAttempt_model_validate. cbn [ca_candidate ca_eval_config_ref ca_reward_ref].
    rewrite Hval, bind_Ok_l, Heval, bind_Ok_l, (Hreward _ Hrw), bind_Ok_l. exact Hok.
Qed.

Lemma step_attempts_issued request plan occurrences resolutions ordinal round attempts :
  sreq_run request = run →
  mapM (eval_request_of control request plan) occurrences = Ok (ir_optim_eval_request <$> resolutions) →
  Forall (λ o, variant run initial (oc_candidate o)) occurrences →
  oc_ordinal <$> occurrences = seqZ ordinal (Z.of_nat (length occurrences)) →
  sreq_step_index request = round →
  step_attempts control (run_field run) run_id round ordinal resolutions = Ok attempts →
  length attempts = length occurrences ∧ Forall issued attempts ∧
  Forall (in_round round) attempts ∧ ordinals_from ordinal attempts.
Proof.
  intros Hrun. revert resolutions ordinal attempts.
  induction occurrences as [|o occurrences IH]; intros [|res resolutions] ordinal attempts Hm Hv Ho Hround H;
    simpl in Hm, H; try (by inv_result).
  apply bind_Ok in H as (a & Ha & H). apply bind_Ok in H as (rest & Hrest & [= <-]).
  apply bind_Ok in Hm as (r & Hr & Hm). apply bind_Ok in Hm as (rs & Hrs & Hm).
  injection Hm as -> ->. apply Forall_cons in Hv as [Hvo Hv].
  csimpl in Ho. rewrite (seqZ_cons ordinal) in Ho by lia. injection Ho as Ho1 Ho2.
  destruct (from_resolution_issued _ _ _ _ _ _ _ Hrun Hr Hvo Ho1 Hround Ha) as (Hi & Hri & Hoi).
  destruct (IH resolutions (ordinal + 1)%Z rest Hrs Hv) as (Hl & His & Hin & Hord); [|done|done|].
  { rewrite Ho2. f_equal; lia. }
  split_and!; [simpl; lia|by constructor|by constructor|].
  unfold ordinals_from in *. csimpl. rewrite Hord, Hoi, (seqZ_cons ordinal) by lia. f_equal. f_equal; lia.
Qed.
(** ** Folding a measured round *)

Hypothesis seed_variant : variant run initial initial.

Lemma same_trans {A} (dump : A → pyval) a b c :
  same dump a c = true → same dump b c = true → same dump a b = true.
Proof. unfold same. rewrite !bool_decide_eq_true. congruence. Qed.

Lemma fixed_fields c :
  variant run initial c →
  fixed_eq (dict_pop (cand_payload c) (run_field run)) (dict_pop (cand_payload initial) (run_field run)) = Ok true.
Proof.
  intros [_ Hf _]. rewrite Hf. destruct (va_json _ _ _ seed_variant) as (kvs & Hk & Hj).
  rewrite Hk. unfold freeze. rewrite dict_pop_map. apply fixed_eq_refl. by apply is_json_pop.
Qed.

Lemma check_round_issued state ex n prior attempts :
  cs_initial_candidate state = initial → cs_mutation_field state = run_field run →
  (∃ e, issued e ∧ ex = expected_of e) →
  Forall issued attempts → Forall (in_round (cs_completed_rounds state)) attempts →
  ordinals_from n attempts → NoDup (ca_intent_id <$> attempts) →
  (∀ i, i ∈ ca_intent_id <$> attempts → i ∉ prior) →
  check_round state ex n prior attempts = Ok tt.
Proof.
  intros Hinit Hfield (e & He & ->) Hi. revert n prior.
  induction Hi as [|a attempts Ha _ IH]; intros n prior Hround Hord Hnd Hprior; simpl; [done|].
  apply Forall_cons in Hround as [Hra Hround]. csimpl in Hnd. apply NoDup_cons in Hnd as [Hna Hnd].
  unfold ordinals_from in Hord. csimpl in Hord. rewrite (seqZ_cons n) in Hord by lia.
  injection Hord as Hoa Hord. destruct Ha, He. unfold in_round in Hra.
  unfold check_attempt, expected_of. cbn [ex_run_id ex_eval_config_ref ex_eval_role
    ex_provider_execution_policy_ref ex_reward_policy_hash].
  rewrite Hoa, Z.eqb_refl, Hra, Z.eqb_refl, (same_trans _ _ _ _ is_eval0 is_eval1).
  rewrite (bool_decide_true (ca_run_id a = _)) by congruence.
  rewrite (bool_decide_true (ca_eval_role a = _)) by congruence.
  rewrite (bool_decide_true (ca_provider_execution_policy_ref a = _)) by congruence.
  rewrite (bool_decide_true (ca_expected_reward_policy_hash a = _)) by congruence.
  cbn [require]. rewrite !bind_Ok_l.
  rewrite bool_decide_false by (apply Hprior; csimpl; by left). cbn [negb require].
  rewrite bind_Ok_l, Hinit, Hfield, fixed_fields, !bind_Ok_l by done.
  apply IH; [done| |done|].
  - unfold ordinals_from. rewrite Hord. f_equal; lia.
  - intros i Hin. rewrite elem_of_cons. intros [->|Hp]; [done|]. apply (Hprior i); [csimpl; by right|done].
Qed.

Lemma issued_intents attempts n :
  Forall issued attempts → ordinals_from n attempts → NoDup (ca_intent_id <$> attempts).
Proof.
  intros Hi Ho. apply NoDup_alt. intros i j x Hx Hy.
  apply list_lookup_fmap_Some in Hx as (a & -> & Ha), Hy as (b & Hab & Hb).
  rewrite Forall_lookup in Hi. destruct (is_intent _ (Hi _ _ Ha)) as [h1 H1].
  destruct (is_intent _ (Hi _ _ Hb)) as [h2 H2]. rewrite H1, H2 in Hab.
  apply occurrence_id_inj in Hab as [_ Hord].
  assert (∀ k c, attempts !! k = Some c → ca_occurrence_ordinal c = (n + Z.of_nat k)%Z) as Hnth.
  { intros k c Hc. apply (f_equal (λ l, l !! k)) in Ho. rewrite list_lookup_fmap, Hc in Ho. simpl in Ho.
    apply lookup_lt_Some in Hc. rewrite lookup_seqZ_lt in Ho by lia. congruence. }
  apply Hnth in Ha, Hb. lia.
Qed.

Lemma fold_issued config state attempts :
  cs_initial_candidate state = initial → cs_mutation_field state = run_field run →
  (0 <= cs_completed_rounds state < cfg_depth config)%Z →
  cs_total_calls state = Z.of_nat (length (cs_attempts state)) →
  ordinals_from 0 (cs_attempts state) → Forall issued (cs_attempts state) →
  attempts ≠ [] → (Z.of_nat (length attempts) <= cfg_breadth config)%Z →
  Forall issued attempts → Forall (in_round (cs_completed_rounds state)) attempts →
  ordinals_from (Z.of_nat (length (cs_attempts state))) attempts →
  fold_round config state attempts = Ok (folded state attempts).
Proof.
  intros Hinit Hfield [Hc Hd] Ht Ho Hi Hne Hb Hia Hra Hoa.
  assert (Forall issued (cs_attempts state ++ attempts)) as Hall by (by apply Forall_app).
  pose proof (issued_intents _ 0 Hall (ordinals_from_app _ _ _ Ho Hoa)) as Hnd.
  rewrite fmap_app, NoDup_app in Hnd. destruct Hnd as (_ & Hdis & Hnd).
  apply fold_round_Ok. split_and!; [done|done|done|lia|done|].
  destruct attempts as [|first rest]; [done|]. exists first, rest. split; [done|].
  apply check_round_issued; try done.
  - exists (default first (head (cs_attempts state))). split; [|done].
    destruct (cs_attempts state); simpl; [by apply Forall_cons in Hia as [? _]|].
    by apply Forall_cons in Hi as [? _].
  - intros i Hin Hp. by apply (Hdis i).
Qed.
End Issued.

(** ** A run: requests, invocations and the step results they leave *)

Section CoproRun.
Context `{DSer : !DrSerialize, DSto : !DrStore, Uni : !UnicodeIdentifiers, Text : !PyText}.
Context `{Recs : !CoproRecords, DLaws : !DrSerializeLaws, DTot : !DrTotal}.
Variables (control : CoproControl) (transport : ProposerTransport) (run : OptimRunRef).
Variables (initial : Candidate) (extra_pools : list (pystr * pyval)) (execute : ProposalExecution).

Abbreviation field := (run_field run).
Abbreviation config := (config_of control).

Definition the_adapter : CoproAdapter :=
  {| cad_control := control; cad_transport := transport; cad_invocations := 0 |}.

(** What the adapter returns on a request; COPRO gets no tool handles. *)
Definition outcome (request : OptimStepRequest) : result AdapterOutput :=
  (invoke (H := unit) execute request [] the_adapter).1.

(** The request that follows the step results so far. *)
Definition next_request (priors : list OptimStepResult) (request : OptimStepRequest) : Prop :=
  match last priors with
  | None => build_first run initial (Some control) extra_pools = Ok request
  | Some prior => ∃ prior_ref,
      build_next prior prior_ref priors control field extra_pools = Ok request
  end.

(** The step result that the harness records for an output: every evaluation
    asked for is resolved, in order, and the budget is debited. *)
Definition recorded (request : OptimStepRequest) (output : AdapterOutput) (r : OptimStepResult) : Prop :=
  sreqr_record (sres_request r) = request ∧
  ir_optim_eval_request <$> sres_resolved_intents r = ao_optim_eval_requests output ∧
  debit (sreq_budget request) (ao_budget_delta output) = Ok (sres_budget r).

(** The step results of a run whose steps all asked to continue. *)
Inductive continued : list OptimStepResult → Prop :=
| continued_start : continued []
| continued_step priors request output r :
    continued priors → next_request priors request → outcome request = Ok output →
    ao_proposed_status output = CONTINUE → recorded request output r → continued (priors ++ [r]).

(** What the run is launched with. *)
Record copro_ready : Prop := {
  crd_control : CoproControl_validate control = Ok control;
  crd_adapter : CoproAdapter_new control transport = Ok the_adapter;
  crd_reference : CoproControl_reference control = Ok (run_optimizer_config (runr_record run));
  crd_policy : ∃ policy, run_reward_policy (runr_record run) = Some policy ∧
    RewardPolicy_identity_hash policy = Ok (cc_expected_reward_policy_hash control);
  crd_run : OptimRunRef_model_validate run = Ok run;
  crd_run_id : run_id run ≠ [];
  crd_field : field ≠ [];
  crd_seed : variant run initial initial;
  crd_prompt : ∃ s, payload_get initial field = PStr s ∧ nonblank s = true;
  crd_pools : is_json (PDict extra_pools) = true ∧ $"attempt_history" ∉ extra_pools.*1;
  crd_execute proposal count drafts : execute proposal count = Ok drafts → Forall draft_ok drafts;
}.

(** A measured attempt is a JSON document that pydantic reads back. *)
Definition readable (a : CoproAttempt) : Prop :=
  is_json (CoproAttempt_dump a) = true ∧ decode_attempt (CoproAttempt_dump a) = Ok a.

Hypothesis ready : copro_ready.

Lemma outcome_eq request : outcome request = invoke_step the_adapter execute request.
Proof. reflexivity. Qed.

(** *** What the requests of a run hold *)

(** The calls left after a number of rounds. *)
Definition calls_left (rounds : nat) : Z :=
  match rounds with
  | O => (cc_breadth control - 1) + cc_breadth control * (cc_depth control - 1)
  | S rounds => cc_breadth control * (cc_depth control - 1 - Z.of_nat rounds)
  end.

(** A request after [rounds] rounds that measured [history]. *)
Record request_for (history : list CoproAttempt) (rounds : nat) (request : OptimStepRequest) : Prop := {
  rf_run : sreq_run request = run;
  rf_index : sreq_step_index request = Z.of_nat rounds;
  rf_candidates : sreq_candidates request = [initial];
  rf_history : dict_get (sreq_pools request) $"attempt_history" =
    Some (PTuple (freeze_validated_json <$> (CoproAttempt_dump <$> history)));
  rf_hyperparameters : (Z.of_nat rounds < cc_depth control)%Z → ∃ kvs,
    step_hyperparameters control (Z.of_nat rounds) = Ok (PDict kvs) ∧
    is_json (PDict kvs) = true ∧ sreq_hyperparameters request = freeze kvs;
  rf_budget : dict_get (bs_remaining (sreq_budget request)) PROPOSAL_CALLS = Some (PInt (calls_left rounds));
}.

Lemma json_hyperparameters (i : Z) v : step_hyperparameters control i = Ok v → ∃ kvs, v = PDict kvs ∧ is_json v = true.
Proof.
  unfold step_hyperparameters. intros H. apply bind_Ok in H as (_ & _ & [= <-]).
  eexists. split; [done|]. json_dict; try (by destruct (cc_eval_config_ref control));
    by destruct (cc_provider_execution_policy_ref control).
Qed.

Lemma hyperparameters_of_Ok (i : Z) items :
  hyperparameters_of control i = Ok items →
  ∃ kvs, step_hyperparameters control i = Ok (PDict kvs) ∧ is_json (PDict kvs) = true ∧ items = freeze kvs.
Proof.
  unfold hyperparameters_of. intros H. apply bind_Ok in H as (v & Hv & H).
  destruct (json_hyperparameters _ _ Hv) as (kvs & -> & Hj). rewrite frozen_items_json in H by done.
  injection H as <-. by exists kvs.
Qed.

Lemma step_request_Ok step_id kind_label index prior state history candidate pools hyperparameters budget contract request :
  step_request run step_id kind_label index prior state history candidate pools hyperparameters budget contract = Ok request →
  sreq_run request = run ∧ sreq_step_index request = index ∧ sreq_candidates request = [candidate] ∧
  sreq_pools request = pools ∧ sreq_hyperparameters request = hyperparameters ∧ sreq_budget request = budget.
Proof.
  unfold step_request, NonEmptyId, ValidatedString_new, NonNegativeInt, OptimStepRequest_validate.
  intros H. by inv_result.
Qed.
Lemma update_pools_get pools extra k : k ∉ extra.*1 → dict_get (update_pools pools extra) k = dict_get pools k.
Proof.
  unfold update_pools. revert pools. induction extra as [|[k' v] extra IH]; intros pools; csimpl; [done|].
  rewrite not_elem_of_cons. intros [Hne Hk]. rewrite IH by done. by rewrite dict_get_set_ne.
Qed.

Lemma update_pools_json pools extra :
  is_json (PDict pools) = true → is_json (PDict extra) = true →
  is_json (PDict (update_pools pools extra)) = true.
Proof.
  intros Hp [_ He]%is_json_dict. revert pools Hp. induction He as [|kv extra Hv _ IH]; intros pools Hp; [done|].
  simpl. apply IH. by apply is_json_set.
Qed.

Lemma pools_for history pools :
  Forall readable history →
  frozen_items (update_pools [($"attempt_history", PList (CoproAttempt_dump <$> history))] extra_pools) =
    Ok pools →
  dict_get pools $"attempt_history" =
    Some (PTuple (freeze_validated_json <$> (CoproAttempt_dump <$> history))).
Proof.
  intros Hread H. destruct (crd_pools ready) as [Hj Hk]. rewrite frozen_items_json in H.
  - injection H as <-. unfold freeze. rewrite dict_get_map, update_pools_get by done. done.
  - apply update_pools_json; [|done]. json_dict. apply is_json_fmap. rewrite Forall_forall in Hread.
    intros a Ha. by apply Hread.
Qed.

Lemma control_bounds : (1 < cc_breadth control ∧ 1 <= cc_depth control)%Z.
Proof. pose proof (crd_control ready) as H. unfold CoproControl_validate in H. inv_ok. lia. Qed.

Lemma build_first_for request :
  build_first run initial (Some control) extra_pools = Ok request → request_for [] 0 request.
Proof.
  intros H. pose proof control_bounds. unfold build_first in H. cbn [of_option] in H. rewrite bind_Ok_l in H.
  apply bind_Ok in H as (pools & Hp & H). apply bind_Ok in H as (hyper & Hh & H).
  apply hyperparameters_of_Ok in Hh as (kvs & Hkvs & Hj & ->).
  apply bind_Ok in H as (total & Ht & H). apply bind_Ok in H as (remaining & Hr & H).
  apply bind_Ok in H as (budget & Hb & H). apply bind_Ok in H as (contract & _ & H).
  apply step_request_Ok in H as (Hrun & Hi & Hc & Hpools & Hhyper & Hbudget).
  split; try done.
  - rewrite Hpools. by apply (pools_for []).
  - intros _. by exists kvs.
  - rewrite Hbudget. apply BudgetState_validate_id in Hb as ->. cbn [bs_remaining].
    rewrite frozen_items_json in Hr by json_dict. injection Hr as <-.
    unfold copro_total_proposal_calls in Ht. inv_ok. simpl. do 2 f_equal.
    destruct (Z.ltb_spec 1 (cc_depth control)); nia.
Qed.

Lemma numbered_ge (r : Z) groups a : numbered r groups → a ∈ concat groups → (r <= ca_round_index a)%Z.
Proof.
  revert r. induction groups as [|g groups IH]; intros r; simpl; [by intros _ ?%elem_of_nil|].
  intros (_ & Hr & Hn) [Ha|Ha]%elem_of_app.
  - rewrite Forall_forall in Hr. specialize (Hr a Ha). unfold in_round in Hr. lia.
  - specialize (IH _ Hn Ha). lia.
Qed.

(** As many rounds are completed as there are rounds. *)
Lemma completed_rounds_numbered groups :
  numbered 0 groups → copro_completed_rounds control (concat groups) = Z.of_nat (length groups).
Proof.
  unfold copro_completed_rounds. intros Hn. f_equal.
  assert (∀ r, numbered r groups →
    ∀ i, i ∈ ca_round_index <$> concat groups ↔ i ∈ seqZ r (Z.of_nat (length groups))) as Hsame.
  { clear Hn. induction groups as [|g groups IH]; intros r; simpl.
    { intros _ i. rewrite elem_of_seqZ, elem_of_nil. lia. }
    intros (Hne & Hr & Hn) i. rewrite fmap_app, elem_of_app, (IH _ Hn), !elem_of_seqZ.
    rewrite Forall_forall in Hr. destruct g as [|a g]; [done|].
    assert (i ∈ ca_round_index <$> a :: g ↔ i = r) as ->; [|lia]. split.
    - intros (x & -> & Hx)%list_elem_of_fmap. by apply Hr.
    - intros ->. apply list_elem_of_fmap. exists a. split; [symmetry; apply Hr|]; by left. }
  assert (remove_dups (ca_round_index <$> concat groups) ≡ₚ seqZ 0 (Z.of_nat (length groups))) as ->.
  { apply NoDup_Permutation; [apply NoDup_remove_dups|apply NoDup_seqZ|].
    intros i. rewrite elem_of_remove_dups. by apply Hsame. }
  rewrite length_seqZ. lia.
Qed.

Lemma build_next_for prior prior_ref priors groups request :
  copro_attempt_history priors control field = Ok (concat groups) → numbered 0 groups →
  Forall readable (concat groups) → sres_run prior = run →
  sreq_candidates (sreqr_record (sres_request prior)) = [initial] →
  (sres_step_index prior + 1)%Z = Z.of_nat (length groups) →
  dict_get (bs_remaining (sres_budget prior)) PROPOSAL_CALLS = Some (PInt (calls_left (length groups))) →
  build_next prior prior_ref priors control field extra_pools = Ok request →
  request_for (concat groups) (length groups) request.
Proof.
  intros Hh Hn Hread Hrun Hcand Hidx Hbud H. unfold build_next in H. rewrite Hh, bind_Ok_l in H.
  rewrite (completed_rounds_numbered _ Hn), Hidx, Hcand, Hrun in H. simpl of_option in H.
  rewrite bind_Ok_l in H. apply bind_Ok in H as (pools & Hp & H). apply bind_Ok in H as (hyper & Hhy & H).
  apply hyperparameters_of_Ok in Hhy as (kvs & Hkvs & Hj & ->). apply bind_Ok in H as (contract & _ & H).
  apply step_request_Ok in H as (Hr & Hi & Hc & Hpools & Hhyper & Hbudget). split; try done.
  - rewrite Hpools. by apply pools_for.
  - intros Hlt. exists kvs. rewrite (proj2 (Z.leb_gt _ _) Hlt) in Hkvs. done.
  - by rewrite Hbudget.
Qed.
(** *** A request of the run is restored *)

Lemma check_request_for history rounds request :
  request_for history rounds request → check_request the_adapter request = Ok initial.
Proof.
  intros [Hrun _ Hcand _ _ _]. pose proof control_bounds as [Hb Hd].
  pose proof (crd_adapter ready) as Ha. unfold CoproAdapter_new in Ha.
  apply bind_Ok in Ha as ([] & H1%require_Ok & Ha). apply bind_Ok in Ha as ([] & H2%require_Ok & _).
  destruct (crd_policy ready) as (policy & Hp & Hph).
  destruct (va_prompt _ _ _ (crd_seed ready)) as (s & fields & Hs & _ & Hf).
  unfold check_request. cbn [cad_control cad_transport the_adapter].
  rewrite (crd_reference ready), bind_Ok_l, Hrun, (bool_decide_true (run_optimizer_config _ = _)) by done.
  cbn [require].
  rewrite bind_Ok_l. unfold CoproConfig_validate. cbn [cfg_breadth cfg_depth config_of].
  rewrite (proj2 (Z.leb_gt _ _) Hb), (proj2 (Z.ltb_ge _ _) Hd). cbn [negb require].
  rewrite !bind_Ok_l, H1, H2. cbn [require]. rewrite !bind_Ok_l, Hp. cbn [of_option].
  rewrite bind_Ok_l, Hph, bind_Ok_l, bool_decide_true by done. cbn [require].
  rewrite bind_Ok_l, Hcand. unfold normalize_initial_candidate, resolve_mutation_field, render_contract.
  rewrite Hrun, (crd_run ready), !bind_Ok_l. fold field. rewrite Hs. unfold run_contract in Hf.
  by rewrite Hf.
Qed.

Lemma history_entry_dump a :
  readable a → CoproAttempt_model_validate a = Ok a →
  history_entry (freeze_validated_json (CoproAttempt_dump a)) = Ok a.
Proof.
  intros [Hj Hd] Hv. assert (∃ kvs, CoproAttempt_dump a = PDict kvs) as [kvs Hk] by (by eexists).
  rewrite Hk in *. unfold history_entry. cbn [freeze_validated_json]. fold (map_values freeze_validated_json kvs).
  fold (freeze kvs). by rewrite to_json_freeze, Hd, bind_Ok_l.
Qed.

Lemma history_for history rounds request :
  request_for history rounds request → Forall readable history → Forall (issued control run initial) history →
  attempt_history_entries request = Ok history.
Proof.
  intros [_ _ _ Hh _ _] Hr Hi. unfold attempt_history_entries. rewrite Hh. cbn [from_option id].
  clear Hh. induction Hr as [|a history Ha _ IH]; [done|].
  apply Forall_cons in Hi as [Hia Hi]. rewrite !fmap_cons. cbn [mapM].
  by rewrite (history_entry_dump _ Ha (is_valid _ _ _ a Hia)), bind_Ok_l, (IH Hi), bind_Ok_l.
Qed.

Lemma history_checks history :
  Forall (issued control run initial) history →
  for_each (check_history_attempt control (run_id run)) history = Ok tt.
Proof.
  intros Hi. apply for_each_Ok. eapply Forall_impl; [exact Hi|]. intros a []. cbv beta.
  unfold check_history_attempt. rewrite is_eval0, !bool_decide_true by congruence. done.
Qed.

Lemma history_placeholders history rounds request :
  request_for history rounds request → Forall (issued control run initial) history →
  validate_attempt_placeholders history request = Ok tt.
Proof.
  intros [Hrun _ _ _ _ _] Hi. apply for_each_Ok. eapply Forall_impl; [exact Hi|]. intros a Ha. cbv beta.
  destruct (va_prompt _ _ _ (is_variant _ _ _ a Ha)) as (s & fields & Hs & _ & Hf).
  unfold instruction, render_contract. rewrite (is_field _ _ _ a Ha), Hs, Hrun.
  unfold run_contract in Hf. by rewrite Hf.
Qed.

Definition restored_state (history : list CoproAttempt) (state : CoproState) : restored :=
  {| rs_initial := initial; rs_mutation_field := field; rs_history := history; rs_state := state |}.

Lemma restored_for groups request state :
  request_for (concat groups) (length groups) request →
  Forall readable (concat groups) → Forall (issued control run initial) (concat groups) →
  fold_rounds config (initial_state initial field) groups = Ok state →
  restore_request the_adapter request = Ok (restored_state (concat groups) state).
Proof.
  intros Hreq Hr Hi Hf. pose proof control_bounds as [_ Hd].
  destruct (restore_folded config initial field groups state) as (_ & Hs & _); [simpl; lia|done|].
  destruct (fold_rounds_Ok config initial field groups state) as []; [simpl; lia|done|].
  rewrite fi_attempts in Hs.
  destruct (crd_prompt ready) as (s & Hp & Hn). unfold restore_request.
  rewrite (check_request_for _ _ _ Hreq), bind_Ok_l. cbn [cad_control the_adapter].
  unfold resolve_mutation_field. rewrite (rf_run _ _ _ Hreq), (crd_run ready), !bind_Ok_l. fold field.
  unfold frozen_getitem. unfold payload_get in Hp.
  destruct (dict_get (cand_payload initial) field) as [v|]; [|done]. simpl in Hp. subst v.
  cbn [of_option]. rewrite bind_Ok_l. unfold validate_instruction, validate_mutation, text_of. simpl str_of.
  rewrite Hn. cbn [require]. rewrite bind_Ok_l, (history_for _ _ _ Hreq Hr Hi), bind_Ok_l.
  unfold sreq_run_id. rewrite (rf_run _ _ _ Hreq). fold (run_id run).
  rewrite (history_checks _ Hi), bind_Ok_l, (history_placeholders _ _ _ Hreq Hi), bind_Ok_l.
  by rewrite Hs.
Qed.
(** *** The proposal request of a round is always built *)

Lemma history_lines_total i selected :
  ∃ lines, history_lines i (freeze_validated_json <$> (prompt_entry <$> selected)) = Ok lines.
Proof.
  revert i. induction selected as [|a selected IH]; intros i; [by eexists|].
  destruct (IH (i + 1)%Z) as [lines H]. rewrite !fmap_cons. unfold prompt_entry at 1.
  cbn [freeze_validated_json history_lines]. rewrite H, bind_Ok_l. by eexists.
Qed.

Definition plan_ok (plan : CoproRoundPlan) : Prop :=
  crp_proposal_mode plan =
    (if crp_include_initial_candidate plan then SEED_PROPOSAL else HISTORY_PROPOSAL) ∧
  ∃ selected, crp_instruction_history plan = prompt_entry <$> selected ∧
    (selected = [] → crp_include_initial_candidate plan = true) ∧ Forall attempt_json selected.

Definition plan_context (plan : CoproRoundPlan) : list (pystr * pyval) :=
  [(COPRO_INSTRUCTION_CONTRACT_KEY, contract_payload control plan);
   (COPRO_INSTRUCTION_HISTORY_KEY, PList (crp_instruction_history plan))].

Lemma plan_context_json plan : plan_ok plan → is_json (PDict (plan_context plan)) = true.
Proof.
  intros (_ & selected & Hsel & _ & Hs).
  unfold plan_context, contract_payload, CoproProposalContractRecord_dump. rewrite Hsel. json_dict. apply is_json_fmap. intros a Ha. rewrite Forall_forall in Hs. by apply json_prompt_entry, Hs.
Qed.

Lemma prompt_total request plan :
  plan_ok plan → prq_proposal_mode request = crp_proposal_mode plan →
  prq_context request = freeze (plan_context plan) → ∃ s, copro_proposal_prompt request = Ok s.
Proof.
  intros (Hmode & selected & Hsel & Hne & _) Hm Hc. unfold copro_proposal_prompt, instruction_contract_record.
  rewrite Hc, Hm, Hmode. unfold plan_context, freeze. rewrite !dict_get_map.
  unfold contract_payload, CoproProposalContractRecord_dump.
  destruct (crp_include_initial_candidate plan); [eexists; reflexivity|].
  assert (selected ≠ []) as Hs by (by intros ->; specialize (Hne eq_refl)).
  destruct (history_lines_total 1 selected) as [lines Hl].
  rewrite Hsel. destruct selected as [|a selected]; [done|]. rewrite fmap_cons in *.
  generalize dependent (prompt_entry <$> selected). generalize (prompt_entry a). intros e entries _ Hl.
  lazy -[history_lines text_of join_lines COPRO_HISTORY_ROLE app].
  match goal with |- context [history_lines 1 ?l] => replace (history_lines 1 l) with (Ok lines) by (symmetry; exact Hl) end.
  by eexists.
Qed.

Lemma config_hash_valid : IdentityHash (PStr (runr_config_hash run)) = Ok (runr_config_hash run).
Proof.
  pose proof (crd_run ready) as H. unfold OptimRunRef_model_validate, OptimRunRef_validate in H.
  apply bind_Ok in H as (? & _ & H). apply bind_Ok in H as (? & _ & H). apply bind_Ok in H as (? & _ & H).
  apply bind_Ok in H as (h & Hh & H). apply bind_Ok in H as (? & Heq%require_Ok & _).
  apply bool_decide_eq_true in Heq as ->. unfold OptimRun_identity_hash, compute_identity_hash in Hh.
  apply bind_Ok in Hh as (? & _ & Hh). apply bind_Ok in Hh as (? & _ & Hh).
  pose proof Hh as Hh'. unfold IdentityHash, ValidatedString_new in Hh'. apply bind_Ok in Hh' as (? & _ & [= ->]).
  exact Hh.
Qed.

Lemma ProposalRequest_new_total mode ordinal base_ref context :
  mode ≠ [] → (0 <= ordinal)%Z → candr_record base_ref = initial →
  ProposalRequest_new mode ordinal (runr_config_hash run) field base_ref context =
    Ok {| prq_proposal_mode := mode; prq_request_ordinal := ordinal;
          prq_proposal_authority_identity_hash := runr_config_hash run;
          prq_mutation_field := field; prq_base_candidate := base_ref; prq_context := context |}.
Proof.
  intros Hm Ho Hb. unfold ProposalRequest_new. rewrite config_hash_valid.
  unfold NonEmptyId, ValidatedString_new, nonempty_validate, NonNegativeInt.
  rewrite (bool_decide_false _ Hm), (bool_decide_false _ (crd_field ready)).
  rewrite (proj2 (Z.ltb_ge _ _) Ho). simpl. unfold ProposalRequest_validate, base_template. simpl.
  rewrite Hb. destruct (crd_prompt ready) as (s & Hp & _). unfold payload_get in Hp.
  destruct (dict_get (cand_payload initial) field) as [v|]; [|done]. simpl in Hp. by subst v.
Qed.

Lemma proposal_request_total request plan i :
  sreq_run request = run → plan_ok plan → (0 <= i)%Z →
  ∃ p, proposal_request control request plan i field initial = Ok p.
Proof.
  intros Hrun Hplan Hi. unfold proposal_request.
  destruct (candidate_reference_total initial (va_json _ _ _ (crd_seed ready))) as [base_ref Href].
  rewrite Href, bind_Ok_l. apply candidate_reference_Ok in Href as [Hrec _].
  fold (plan_context plan). pose proof (plan_context_json _ Hplan) as Hj.
  assert (crp_proposal_mode plan ≠ []) as Hm.
  { destruct Hplan as [-> _]. by destruct (crp_include_initial_candidate plan). }
  rewrite frozen_items_json, bind_Ok_l, Hrun, ProposalRequest_new_total, bind_Ok_l by done.
  destruct (prompt_total {| prq_proposal_mode := crp_proposal_mode plan; prq_request_ordinal := i;
    prq_proposal_authority_identity_hash := runr_config_hash run; prq_mutation_field := field;
    prq_base_candidate := base_ref; prq_context := freeze (plan_context plan) |} plan) as [s Hs]; [done..|].
  rewrite Hs, bind_Ok_l, json_items_freeze by done.
  rewrite frozen_items_json by (by apply is_json_set). rewrite bind_Ok_l.
  cbn [prq_proposal_mode prq_request_ordinal prq_proposal_authority_identity_hash prq_mutation_field
    prq_base_candidate]. rewrite ProposalRequest_new_total by done. by eexists.
Qed.
(** *** A step of the run *)

Lemma check_iteration_for history rounds request state :
  request_for history rounds request → (Z.of_nat rounds < cc_depth control)%Z →
  cs_completed_rounds state = Z.of_nat rounds →
  check_iteration control request state = Ok (Z.of_nat rounds).
Proof.
  intros Hreq Hlt Hc. destruct (rf_hyperparameters _ _ _ Hreq Hlt) as (kvs & Hk & Hj & Hh).
  unfold check_iteration. rewrite Hh.
  assert (dict_get kvs $"round_index" = Some (PInt (Z.of_nat rounds))) as Hg.
  { unfold step_hyperparameters in Hk. apply bind_Ok in Hk as (_ & _ & Hk).
    apply (inj Ok) in Hk. injection Hk as <-. reflexivity. }
  assert (dict_get (freeze kvs) $"round_index" = Some (PInt (Z.of_nat rounds))) as ->.
  { unfold freeze. by rewrite dict_get_map, Hg. }
  cbn [from_option id]. rewrite bind_Ok_l, Hk, bind_Ok_l, ImmutableJsonObject_json, bind_Ok_l, frozen_eq_refl by done.
  cbn [require]. rewrite !bind_Ok_l, (rf_index _ _ _ Hreq), Hc, Z.eqb_refl. done.
Qed.

Lemma run_attempts_json history :
  Forall readable history → Forall (issued control run initial) history → Forall attempt_json history.
Proof.
  rewrite !Forall_forall. intros Hr Hi a Ha. split; [by apply Hr|].
  by apply (va_json _ _ _ (is_variant _ _ _ a (Hi a Ha))).
Qed.

(** Below the configured depth a step asks for its proposals and settles them. *)
Lemma step_below groups request state :
  request_for (concat groups) (length groups) request →
  Forall readable (concat groups) → Forall (issued control run initial) (concat groups) →
  fold_rounds config (initial_state initial field) groups = Ok state →
  (Z.of_nat (length groups) < cc_depth control)%Z →
  ∃ plan proposal,
    advance config state = Ok plan ∧ plan_ok plan ∧ (0 <= crp_proposal_count plan <= calls_left (length groups))%Z ∧
    calls_left (S (length groups)) = (calls_left (length groups) - crp_proposal_count plan)%Z ∧
    remaining_calls request = Ok (Some (calls_left (length groups))) ∧
    outcome request =
      drafts ← execute proposal (crp_proposal_count plan);
      settle_round control request (restored_state (concat groups) state) plan drafts.
Proof.
  intros Hreq Hr Hi Hf Hlt. pose proof control_bounds as [Hb Hd].
  assert (0 <= cfg_depth config)%Z as Hd0 by (simpl; lia).
  assert (0 < cfg_breadth config)%Z as Hb0 by (simpl; lia).
  pose proof (fold_rounds_Ok _ _ _ _ _ Hd0 Hf) as [].
  assert (cs_completed_rounds state < cfg_depth config)%Z as Hlt' by (simpl; lia).
  destruct (advance_folded _ _ _ _ _ Hb0 Hd0 Hf Hlt') as (plan & Hp & _ & Hinc & Hn & Hm & selected & Hs & Hne & Hin).
  assert (plan_ok plan) as Hplan.
  { split; [done|]. exists selected. split_and!; [done|done|]. rewrite Forall_forall. intros a Ha.
    apply Hin in Ha. pose proof (ranked_forall attempt_json _ (run_attempts_json _ Hr Hi)) as Hrank.
    rewrite Forall_forall in Hrank. apply Hrank. by rewrite <-fi_attempts. }
  assert (remaining_calls request = Ok (Some (calls_left (length groups)))) as Hrem.
  { unfold remaining_calls. by rewrite (rf_budget _ _ _ Hreq). }
  assert (0 <= crp_proposal_count plan <= calls_left (length groups) ∧
    calls_left (S (length groups)) = calls_left (length groups) - crp_proposal_count plan)%Z as [Hcount Hleft].
  { rewrite Hn, Hinc. cbn [cfg_breadth config_of]. destruct groups as [|g groups]; simpl in *; nia. }
  destruct (proposal_request_total request plan (Z.of_nat (length groups)) (rf_run _ _ _ Hreq) Hplan)
    as [proposal Hprop]; [lia|].
  exists plan, proposal. split_and!; [done|done|lia|lia|lia|done|].
  rewrite outcome_eq. unfold invoke_step. rewrite (restored_for _ _ _ Hreq Hr Hi Hf), bind_Ok_l.
  cbn [cad_control the_adapter restored_state rs_state].
  rewrite fi_rounds, (proj2 (Z.leb_gt _ _) Hlt). unfold proposing_step. cbn [restored_state rs_state rs_mutation_field rs_initial].
  rewrite (check_iteration_for _ _ _ _ Hreq Hlt fi_rounds), bind_Ok_l, Hp, bind_Ok_l, Hrem, bind_Ok_l.
  rewrite (proj2 (Z.ltb_ge _ _)) by lia. rewrite bind_Ok_l, Hprop. by rewrite bind_Ok_l.
Qed.
(** At the configured depth a step finalizes. *)
Lemma step_at_depth groups request state :
  request_for (concat groups) (length groups) request →
  Forall readable (concat groups) → Forall (issued control run initial) (concat groups) →
  fold_rounds config (initial_state initial field) groups = Ok state →
  (cc_depth control <= Z.of_nat (length groups))%Z →
  outcome request = finalize_step control request (restored_state (concat groups) state).
Proof.
  intros Hreq Hr Hi Hf Hge. pose proof control_bounds as [_ Hd].
  destruct (fold_rounds_Ok config initial field groups state) as []; [simpl; lia|done|].
  rewrite outcome_eq. unfold invoke_step. rewrite (restored_for _ _ _ Hreq Hr Hi Hf), bind_Ok_l.
  cbn [cad_control the_adapter restored_state rs_state].
  by rewrite fi_rounds, (proj2 (Z.leb_le _ _) Hge).
Qed.

Lemma dict_get_budget_of values k : dict_get (budget_of values) k = PInt <$> dict_get values k.
Proof. exact (dict_get_map PInt values k). Qed.

Lemma debit_calls self plan b n :
  debit self (spent plan) = Ok b → dict_get (bs_remaining self) PROPOSAL_CALLS = Some (PInt n) →
  dict_get (bs_remaining b) PROPOSAL_CALLS = Some (PInt (n - crp_proposal_count plan)).
Proof.
  intros H Hg. unfold debit in H. apply bind_Ok in H as (c & _ & H). apply bind_Ok in H as (r & Hr & H).
  rewrite (budget_dict_of _ _ Hr), dict_get_budget_of in Hg.
  destruct (dict_get r PROPOSAL_CALLS) as [m|] eqn:Hm; [|done]. simpl in Hg. injection Hg as ->.
  apply bind_Ok in H as ([c' r'] & Hl & H). apply BudgetState_validate_id in H as ->.
  cbn [bs_remaining]. rewrite dict_get_budget_of.
  unfold spent in Hl. cbn [debit_loop] in Hl. rewrite Hm in Hl. cbn [of_option] in Hl. rewrite bind_Ok_l in Hl.
  apply bind_Ok in Hl as (_ & _ & [= _ <-]). by rewrite dict_get_set_eq.
Qed.

(** A measured round extends the history that the next step restores. *)
Lemma step_extends groups request state output r attempts :
  request_for (concat groups) (length groups) request →
  Forall readable (concat groups) → Forall (issued control run initial) (concat groups) →
  fold_rounds config (initial_state initial field) groups = Ok state →
  outcome request = Ok output → ao_proposed_status output = CONTINUE → recorded request output r →
  step_attempts control field (sres_run_id r) (sres_step_index r)
    (Z.of_nat (length (concat groups))) (sres_resolved_intents r) = Ok attempts →
  fold_rounds config (initial_state initial field) (groups ++ [attempts]) = Ok (folded state attempts) ∧
  Forall (issued control run initial) attempts ∧
  dict_get (bs_remaining (sres_budget r)) PROPOSAL_CALLS = Some (PInt (calls_left (S (length groups)))).
Proof.
  intros Hreq Hr Hi Hf Hout Hcont (Hrec & Hres & Hdebit) Hatt. pose proof control_bounds as [Hb Hd].
  assert (0 <= cfg_depth config)%Z as Hd0 by (simpl; lia).
  pose proof (fold_rounds_Ok _ _ _ _ _ Hd0 Hf) as [].
  destruct (decide (Z.of_nat (length groups) < cc_depth control)%Z) as [Hlt|Hge]; cycle 1.
  { rewrite (step_at_depth _ _ _ Hreq Hr Hi Hf) in Hout by lia. by apply finalize_step_ends in Hout. }
  destruct (step_below _ _ _ Hreq Hr Hi Hf Hlt) as (plan & proposal & _ & _ & _ & Hleft & _ & Heq).
  rewrite Heq in Hout. apply bind_Ok in Hout as (drafts & Hdr & Hout).
  assert (Forall draft_json drafts) as Hjson.
  { eapply Forall_impl; [by eapply (crd_execute ready)|]. by intros d []. }
  destruct (settle_continues run initial (crd_run ready) (va_json _ _ _ (crd_seed ready)) control request
    (restored_state (concat groups) state) plan drafts output (rf_run _ _ _ Hreq) eq_refl (crd_seed ready)
    Hjson Hout Hcont) as (occurrences & Ho & Hv & Hne & Hbr & Hm & Hdelta).
  cbn [restored_state rs_history] in Ho. rewrite <-Hres in Hm.
  unfold sres_run_id, sres_step_index, sreq_run_id in Hatt. rewrite Hrec, (rf_run _ _ _ Hreq) in Hatt.
  fold (run_id run) in Hatt.
  destruct (step_attempts_issued control run initial request plan occurrences _ _ _ _
    (rf_run _ _ _ Hreq) Hm Hv Ho eq_refl Hatt) as (Hl & Hia & Hra & Hoa).
  rewrite (rf_index _ _ _ Hreq) in Hra. split_and!; [|done|].
  - rewrite fold_rounds_app, Hf, bind_Ok_l. cbn [fold_rounds].
    rewrite (fold_issued control run initial (crd_seed ready)); [done|done|done| |done|done| | | |done| |].
    + simpl. lia.
    + by rewrite fi_attempts.
    + intros ->. apply Hne. by destruct occurrences.
    + simpl. lia.
    + by rewrite fi_rounds.
    + by rewrite fi_attempts.
  - rewrite Hdelta in Hdebit. rewrite (debit_calls _ _ _ _ Hdebit (rf_budget _ _ _ Hreq)). by rewrite Hleft.
Qed.
(** *** The whole run *)

Lemma step_attempts_length mutation_field id round ordinal resolutions attempts :
  step_attempts control mutation_field id round ordinal resolutions = Ok attempts →
  length attempts = length resolutions.
Proof.
  revert ordinal attempts. induction resolutions as [|res resolutions IH]; intros ordinal attempts H; simpl in H.
  { by injection H as <-. }
  apply bind_Ok in H as (a & _ & H). apply bind_Ok in H as (rest & Hr & [= <-]). simpl. f_equal. by eapply IH.
Qed.

Lemma attempts_from_snoc start priors r history :
  attempts_from control field start (priors ++ [r]) = Ok history →
  ∃ before attempts, attempts_from control field start priors = Ok before ∧
    step_attempts control field (sres_run_id r) (sres_step_index r)
      (start + Z.of_nat (length before)) (sres_resolved_intents r) = Ok attempts ∧
    history = before ++ attempts.
Proof.
  revert start history. induction priors as [|p priors IH]; intros start history H; simpl in H.
  - apply bind_Ok in H as (attempts & Ha & [= <-]). exists [], attempts. simpl.
    rewrite Z.add_0_r, app_nil_r. done.
  - apply bind_Ok in H as (attempts & Ha & H). apply bind_Ok in H as (rest & Hr & [= <-]).
    destruct (IH _ _ Hr) as (before & last_attempts & Hb & Hl & ->). exists (attempts ++ before), last_attempts.
    simpl. rewrite Ha, bind_Ok_l, Hb, bind_Ok_l, <-app_assoc. split_and!; [done| |done].
    rewrite <-Hl, length_app, (step_attempts_length _ _ _ _ _ _ Ha). f_equal. lia.
Qed.

(** What holds of a run that has continued so far, and of its history. *)
Record run_invariant (priors : list OptimStepResult) (groups : list (list CoproAttempt))
    (state : CoproState) : Prop := {
  ri_history : copro_attempt_history priors control field = Ok (concat groups);
  ri_rounds : length groups = length priors;
  ri_fold : fold_rounds config (initial_state initial field) groups = Ok state;
  ri_issued : Forall (issued control run initial) (concat groups);
  ri_last prior : last priors = Some prior →
    sres_run prior = run ∧ sreq_candidates (sreqr_record (sres_request prior)) = [initial] ∧
    (sres_step_index prior + 1)%Z = Z.of_nat (length priors) ∧
    dict_get (bs_remaining (sres_budget prior)) PROPOSAL_CALLS = Some (PInt (calls_left (length priors)));
}.

Lemma next_request_for priors groups state request :
  run_invariant priors groups state → Forall readable (concat groups) → next_request priors request →
  request_for (concat groups) (length groups) request.
Proof.
  intros [Hh Hl Hf _ Hlast] Hread H. unfold next_request in H. pose proof control_bounds as [_ Hd].
  destruct (last priors) as [prior|] eqn:E.
  - destruct (Hlast prior eq_refl) as (Hrun & Hc & Hi & Hb). destruct H as [prior_ref H].
    rewrite <-Hl in Hi, Hb. eapply build_next_for; try done.
    destruct (fold_rounds_Ok config initial field groups state) as []; [simpl; lia|done|done].
  - apply last_None in E as ->. destruct groups; [|done]. by apply build_first_for.
Qed.

Lemma continued_invariant priors history :
  continued priors → copro_attempt_history priors control field = Ok history → Forall readable history →
  ∃ groups state, concat groups = history ∧ run_invariant priors groups state.
Proof.
  intros Hc. revert history. induction Hc as [|priors request output r Hc IH Hnext Hout Hcont Hrec];
    intros history Hh Hread.
  { injection Hh as <-. exists [], (initial_state initial field). split; [done|]. by split. }
  apply attempts_from_snoc in Hh as Hs. destruct Hs as (before & attempts & Hb & Ha & ->).
  apply Forall_app in Hread as [Hread _].
  destruct (IH before Hb Hread) as (groups & state & <- & Hinv).
  pose proof (next_request_for _ _ _ _ Hinv Hread Hnext) as Hreq. destruct Hinv as [_ Hl Hf Hi _].
  destruct (step_extends groups request state output r attempts Hreq Hread Hi Hf Hout Hcont Hrec Ha)
    as (Hfold & Hissued & Hbud).
  assert (concat (groups ++ [attempts]) = concat groups ++ attempts) as Hcc.
  { rewrite concat_app. simpl. by rewrite app_nil_r. }
  exists (groups ++ [attempts]), (folded state attempts). split; [done|]. split.
  - by rewrite Hcc.
  - rewrite !length_app, Hl. done.
  - done.
  - rewrite Hcc. by apply Forall_app.
  - intros prior. rewrite last_snoc. intros [= <-]. destruct Hrec as (Hr & _ & _).
    unfold sres_run, sres_step_index. rewrite Hr, (rf_run _ _ _ Hreq), (rf_index _ _ _ Hreq).
    rewrite (rf_candidates _ _ _ Hreq), length_app, Hl in *. simpl. rewrite Nat.add_1_r.
    split_and!; [done|done|lia|done].
Qed.

(** The statistics that a finalizing step reports are finite. *)
Definition statistics_finite (history : list CoproAttempt) : Prop :=
  ∀ groups s, concat groups = history → statistics config groups = Ok s →
    is_json (CoproStatistics_dump s) = true.

Lemma finalize_total groups request state :
  fold_rounds config (initial_state initial field) groups = Ok state →
  Forall attempt_json (concat groups) → statistics_finite (concat groups) →
  Z.of_nat (length groups) = cc_depth control →
  ∃ o, finalize_step control request (restored_state (concat groups) state) = Ok o.
Proof.
  intros Hf Hj Hstat Hl. pose proof control_bounds as [_ Hd].
  assert (0 <= cfg_depth config)%Z as Hd0 by (simpl; lia).
  pose proof (fold_rounds_Ok _ _ _ _ _ Hd0 Hf) as [].
  destruct (finalize_folded _ _ _ _ _ Hd0 Hf) as (stats & Hfin & _ & Hs); [simpl; lia|].
  pose proof (ranked_forall attempt_json _ Hj) as Hrank. unfold finalize_step.
  cbn [rs_state rs_initial restored_state]. rewrite Hfin, bind_Ok_l. cbn [cf_ranked_attempts].
  set (required := accepted_count_for _ COMPLETE). set (ranked := rank_attempt_history _) in *.
  assert (BudgetDelta_validate [] = Ok []) as Hnil by done.
  case_bool_decide; [by apply fail_with_total|].
  destruct (_ <? _)%Z; [by apply fail_with_total|].
  set (doc := [_]). assert (is_json (PDict doc) = true) as Hdoc.
  { subst doc. json_dict. unfold CoproFinalization_dump. cbn [cf_ranked_attempts cf_total_calls cf_statistics].
    json_dict; [exact (json_ranking _ Hrank)|]. apply is_json_option. intros s ->.
    by apply (Hstat groups s eq_refl), Hs. }
  clearbody doc. destruct (seed_won_total ranked request Hrank) as [won ->]. rewrite bind_Ok_l.
  destruct won; [apply AdapterOutput_new_total; simpl; auto|].
  destruct (accepted_without_seed_total ranked request required Hrank) as [[accepted|] ->]; rewrite bind_Ok_l;
    [apply AdapterOutput_new_total; simpl; auto|]. by apply fail_with_total.
Qed.

(** A step returns an output, if the proposer answers. *)
Lemma step_returns groups request state :
  request_for (concat groups) (length groups) request → Forall readable (concat groups) →
  Forall (issued control run initial) (concat groups) →
  fold_rounds config (initial_state initial field) groups = Ok state →
  (Z.of_nat (length groups) < cc_depth control)%Z →
  (∀ proposal count, ∃ drafts, execute proposal count = Ok drafts) →
  ∃ output, outcome request = Ok output.
Proof.
  intros Hreq Hread Hi Hf Hlt Hexec.
  destruct (step_below _ _ _ Hreq Hread Hi Hf Hlt) as (plan & proposal & _ & Hplan & Hcount & _ & _ & Heq).
  destruct (Hexec proposal (crp_proposal_count plan)) as [drafts Hdr].
  destruct Hplan as (Hm & selected & Hsel & _ & Hsj). rewrite Heq, Hdr, bind_Ok_l.
  apply (settle_round_total run initial (crd_run ready) (va_json _ _ _ (crd_seed ready))); try done.
  - exact (rf_run _ _ _ Hreq).
  - exact (crd_seed ready).
  - by eapply (crd_execute ready).
  - unfold sreq_run_id. rewrite (rf_run _ _ _ Hreq). exact (crd_run_id ready).
  - rewrite (rf_index _ _ _ Hreq). lia.
  - rewrite Hm. by destruct (crp_include_initial_candidate plan).
  - lia.
  - rewrite Hsel. apply Forall_fmap. eapply Forall_impl; [exact Hsj|]. intros a. apply json_prompt_entry.
  - pose proof (crd_control ready) as Hcv. unfold CoproControl_validate in Hcv.
    do 3 (apply bind_Ok in Hcv as (? & _ & Hcv)). apply bind_Ok in Hcv as (h & Hhash & _).
    pose proof Hhash as Hh2. unfold require_full_hash in Hh2. destruct (_ || _) in Hh2; [done|].
    injection Hh2 as <-. exact Hhash.
  - by apply run_attempts_json.
Qed.

(** C31. A COPRO run always ends. Take any number of steps that continued, each
    asked for what the step contract builds from the results before, invoked,
    evaluated and recorded. They are at most as many as the configured depth;
    their history restores the state of as many completed rounds; the budget
    has at least the calls that the next round plans; and the next step, if
    the proposer answers it, returns an output: the invocation never raises,
    and at the configured depth it ends the run. *)
Theorem copro_run_ends priors history request :
  continued priors → copro_attempt_history priors control field = Ok history →
  Forall readable history → next_request priors request → statistics_finite history →
  (∀ proposal count, ∃ drafts, execute proposal count = Ok drafts) →
  (Z.of_nat (length priors) <= cc_depth control)%Z ∧
  (∃ state, restore_state config initial history field = Ok state ∧
    cs_completed_rounds state = Z.of_nat (length priors) ∧
    ((Z.of_nat (length priors) < cc_depth control)%Z → ∃ plan left,
      advance config state = Ok plan ∧ remaining_calls request = Ok (Some left) ∧
      (crp_proposal_count plan <= left)%Z)) ∧
  ∃ output, outcome request = Ok output ∧
    (Z.of_nat (length priors) = cc_depth control → ao_proposed_status output ≠ CONTINUE).
Proof.
  intros Hc Hh Hread Hnext Hstat Hexec. pose proof control_bounds as [Hb Hd].
  assert (0 <= cfg_depth config)%Z as Hd0 by (simpl; lia).
  destruct (continued_invariant _ _ Hc Hh Hread) as (groups & state & <- & Hinv).
  pose proof (next_request_for _ _ _ _ Hinv Hread Hnext) as Hreq. destruct Hinv as [_ Hl Hf Hi _].
  destruct (restore_folded _ _ _ _ _ Hd0 Hf) as (_ & Hs & _).
  pose proof (fold_rounds_Ok _ _ _ _ _ Hd0 Hf) as []. rewrite fi_attempts in Hs. simpl in fi_depth.
  rewrite <-Hl. split; [lia|].
  destruct (decide (Z.of_nat (length groups) < cc_depth control)%Z) as [Hlt|Hge].
  - destruct (step_below _ _ _ Hreq Hread Hi Hf Hlt) as (plan & proposal & Hp & _ & Hcount & _ & Hrem & _).
    split.
    + exists state. split_and!; [done|done|]. intros _. exists plan, (calls_left (length groups)).
      split_and!; [done|done|lia].
    + destruct (step_returns _ _ _ Hreq Hread Hi Hf Hlt Hexec) as [o Ho]. exists o. split; [done|lia].
  - split; [exists state; split_and!; [done|done|lia]|].
    destruct (finalize_total groups request state Hf (run_attempts_json _ Hread Hi) Hstat) as [o Ho]; [lia|].
    exists o. rewrite (step_at_depth _ _ _ Hreq Hread Hi Hf) by lia. split; [done|].
    intros _. by eapply finalize_step_ends.
Qed.
End CoproRun.

(** ** A run of one round *)
Module ConcreteSteps.
Import Concrete ConcreteTemplates ConcreteRun ConcreteCopro.

#[export] Instance py_text : PyText := {| py_repr v := []; exn_text e := py (exn_msg e) |}.

Definition ok_list {A} (r : result A) : list A := match r with Ok a => [a] | Err _ => [] end.

Definition policy : RewardPolicy :=
  {| rp_policy_name := $"p"; rp_reward_name := $"r"; rp_terms :=
       [{| rt_name := $"score"; rt_weight := fone; rt_maximize := true; rt_worst_value := fzero |}];
     rp_missing_data := FAIL |}.

Definition one_metric : EvalConfigRef := Eval vm_compute in
  default metric (head (ok_list (eval_config_reference (ecr_record metric)))).

Definition one_round : CoproControl :=
  {| cc_prompt_model := CodexRoute
       {| ccp_codex_binary := $"codex"; ccp_model := $"m"; ccp_timeout_seconds := fone |};
     cc_proposal_contract :=
       {| cpc_contract_version := $"v"; cpc_target_name := $"t"; cpc_task_context := $"c";
          cpc_output_rule := $"o" |};
     cc_eval_config_ref := one_metric; cc_eval_role := INTERNAL;
     cc_provider_execution_policy_ref := None;
     cc_expected_reward_policy_hash := default [] (head (ok_list (RewardPolicy_identity_hash policy)));
     cc_breadth := 2; cc_depth := 1; cc_track_stats := true;
     cc_provider_execution_policy_hash := digest PNone;
     cc_prompt_adapter_identity_hash := digest PNone;
     cc_algorithm_version := COPRO_ALGORITHM_VERSION;
     cc_proposal_prompt_schema_tag := COPRO_PROPOSAL_PROMPT_SCHEMA_TAG |}.

Definition transport : ProposerTransport :=
  {| ptr_execution_policy_hash := digest PNone; ptr_prompt_adapter_identity_hash := digest PNone |}.

Definition copro_run : OptimRun :=
  {| run_run_id := $"run";
     run_optimizer_config := default (run_optimizer_config the_run)
       (head (ok_list (CoproControl_reference one_round)));
     run_adapter_key := COPRO_ADAPTER_KEY; run_mode := PROPOSAL_ONLY;
     run_terminal_output_contract := one_proposal;
     run_template_render_contract := run_template_render_contract the_run;
     run_initial_candidate_ref := None; run_mutation_field := $"prompt";
     run_reward_policy := Some policy; run_tool_configs := [] |}.

Definition copro_runs : list OptimRunRef := Eval vm_compute in
  ok_list (optimization_run_reference copro_run).

(** The proposer answers with one draft. *)
Definition draft : ProposalDraft :=
  {| pd_template := $" Think, then answer. "; pd_terminal_failure := None;
     pd_request_evidence := [($"logical_call_id", PStr $"call")]; pd_response_evidence := [];
     pd_usage := []; pd_cost := Some fone |}.
Definition answers : ProposalExecution := λ _ _, Ok [draft].

(** Every evaluation asked for is measured, the first with [n], the next with
    [n + 1], and so on. *)
Fixpoint measure (n : Z) (requests : list OptimEvalRequest) : result (list IntentResolution) :=
  match requests with
  | [] => Ok []
  | request :: requests =>
      reward ← apply_reward_policy policy [($"score", PInt n)] INTERNAL [content_ref $"evidence"] None;
      reward_ref ← reward_reference reward;
      rest ← measure (n + 1) requests;
      Ok ({| ir_schema_version := INTENT_RESOLUTION_SCHEMA_VERSION; ir_optim_eval_request := request;
             ir_resolved_eval_config := one_metric; ir_outcome := Claims.COMPLETED;
             ir_eval_result_ref := Some (content_ref EVAL_EVIDENCE_SCHEMA);
             ir_detail := {| rd_classification := MEASURED; rd_message := [] |};
             ir_terminal_failure := None;
             ir_reward_ref := Some reward_ref;
             ir_reward_evidence_refs := rw_evidence_refs reward |} :: rest)
  end.

(** No attempt to read back yet. *)
Definition nothing_read : CoproRecords := {| decode_attempt v := raise ValueError "" |}.

(** The first step's result, its round measured. *)
Definition first_result (run : OptimRunRef) : result OptimStepResult :=
  request ← build_first run seed (Some one_round) [];
  output ← outcome (Recs := nothing_read) one_round transport answers request;
  resolutions ← measure 1 (ao_optim_eval_requests output);
  exact ← step_request_reference request;
  proposed ← mapM candidate_reference (ao_proposed_candidates output);
  budget ← debit (sreq_budget request) (ao_budget_delta output);
  Ok {| sres_request := exact; sres_proposed_candidates := proposed; sres_accepted_candidates := proposed;
        sres_resolved_intents := resolutions; sres_search_evidence := []; sres_tool_evidence := [];
        sres_proposer_usage := ao_proposer_usage output; sres_state_ref := None; sres_history_ref := None;
        sres_budget_delta := ao_budget_delta output; sres_budget := budget; sres_status := CONTINUE;
        sres_terminal_failure := None; sres_seed_retained := false; sres_retained_candidate_ref := None;
        sres_provenance_note := None; sres_provenance_ordinal := None |}.

Lemma the_copro_run_ok : is_ok (optimization_run_reference copro_run) = true.
Proof. vm_compute. reflexivity. Qed.
Definition the_copro_run : OptimRunRef := Eval vm_compute in got _ the_copro_run_ok.

Lemma first_request_ok : is_ok (build_first the_copro_run seed (Some one_round) []) = true.
Proof. vm_compute. reflexivity. Qed.
Definition first_request : OptimStepRequest := Eval vm_compute in got _ first_request_ok.

Lemma first_output_ok : is_ok (outcome (Recs := nothing_read) one_round transport answers first_request) = true.
Proof. vm_compute. reflexivity. Qed.
Definition first_output : AdapterOutput := Eval vm_compute in got _ first_output_ok.

Lemma first_step_ok : is_ok (first_result the_copro_run) = true.
Proof. vm_compute. reflexivity. Qed.
Definition first_step : OptimStepResult := Eval vm_compute in got _ first_step_ok.

Lemma the_history_ok : is_ok (copro_attempt_history [first_step] one_round $"prompt") = true.
Proof. vm_compute. reflexivity. Qed.
Definition the_history : list CoproAttempt := Eval vm_compute in got _ the_history_ok.

Lemma last_request_ok : is_ok (build_next first_step (content_ref STEP_RESULT_SCHEMA) [first_step] one_round $"prompt" []) = true.
Proof. vm_compute. reflexivity. Qed.
Definition last_request : OptimStepRequest := Eval vm_compute in got _ last_request_ok.

#[export] Instance attempts_read : CoproRecords :=
  {| decode_attempt v :=
       of_option (snd <$> list_find (λ a, CoproAttempt_dump a = v) the_history) ValueError "" |}.

Lemma the_history_readable : Forall readable the_history.
Proof.
  unfold the_history. repeat (apply Forall_cons_2; [split; vm_compute; reflexivity|]). apply Forall_nil_2.
Qed.

Lemma statistics_are_finite : statistics_finite one_round the_history.
Proof.
  intros groups s Hc Hs. pose proof Hs as Hl. unfold statistics in Hl.
  apply bind_Ok in Hl as ([] & Hl%require_Ok & _). apply Z.eqb_eq in Hl. cbn in Hl.
  destruct groups as [|g [|? ?]]; [simpl in Hl; lia| |simpl in Hl; lia]. simpl in Hc. rewrite app_nil_r in Hc. subst g. vm_compute in Hs. injection Hs as <-.
  vm_compute. reflexivity.
Qed.

Lemma seed_is_variant : variant the_copro_run seed seed.
Proof.
  split; [exists (cand_payload seed); split; vm_compute; reflexivity|reflexivity|].
  exists $"Answer.", []. split_and!; [vm_compute; reflexivity|discriminate|vm_compute; reflexivity].
Qed.

Lemma one_round_ready : copro_ready one_round transport the_copro_run seed [] answers.
Proof.
  apply Build_copro_ready.
  - vm_compute. reflexivity.
  - vm_compute. reflexivity.
  - vm_compute. reflexivity.
  - exists policy. split; vm_compute; reflexivity.
  - vm_compute. reflexivity.
  - vm_compute. discriminate.
  - vm_compute. discriminate.
  - exact seed_is_variant.
  - exists $"Answer.". split; vm_compute; reflexivity.
  - split; [reflexivity|]. by intros ?%elem_of_nil.
  - intros proposal count drafts [= <-]. apply Forall_singleton. repeat split; vm_compute; reflexivity.
Qed.

Lemma first_step_continued : continued one_round transport the_copro_run seed [] answers [first_step].
Proof.
  apply (continued_step _ _ _ _ _ _ [] first_request first_output).
  - apply continued_start.
  - vm_compute. reflexivity.
  - vm_compute. reflexivity.
  - reflexivity.
  - split_and!; vm_compute; reflexivity.
Qed.
End ConcreteSteps.

Section Witnesses.
Import Concrete ConcreteTemplates ConcreteRun ConcreteCopro ConcreteSteps.

Lemma copro_run_ends_witness :
  continued one_round transport the_copro_run seed [] answers [first_step] ∧
  ∃ output, outcome one_round transport answers last_request = Ok output ∧
    ao_proposed_status output ≠ CONTINUE.
Proof.
  split; [exact first_step_continued|].
  assert (copro_attempt_history [first_step] one_round (run_field the_copro_run) = Ok the_history) as Hh
    by (vm_compute; reflexivity).
  assert (next_request one_round the_copro_run seed [] [first_step] last_request) as Hn
    by (exists (content_ref STEP_RESULT_SCHEMA); vm_compute; reflexivity).
  destruct (copro_run_ends one_round transport the_copro_run seed [] answers one_round_ready [first_step]
    the_history last_request first_step_continued Hh the_history_readable Hn statistics_are_finite)
    as (_ & _ & output & Ho & Hend); [by intros; eexists|].
  exists output. split; [exact Ho|]. apply Hend. reflexivity.
Defined.
End Witnesses.
