(* ===== verification/Controller.v ===== *)
(** * Controller: driving a run

    Models [coordination/harness_run_controller.py] and the builder it asks for
    requests ([coordination/step_request_builder.py],
    [coordination/step_contracts.py]): a launch binds a run with its opening
    candidate, control and pools; a drive reads the launch back, binds the run,
    and runs the steps its optimizer's contract requests until one stops. The
    registered contracts are an argument; [copro_provider] is COPRO's. *)

From S2P Require Import Prelude Floats Identity Leasing EvalConfigs Reward Tools Admission.
From S2P Require Import Process Candidate Cost OptimContracts IssuedCalls RunStore RunCost.
From S2P Require Import Sampling Frozen Copro CoproAdapter CoproSteps Harness.

Definition RUN_LAUNCH_SCHEMA := $"whetstone.optim_run_launch".
Definition RUN_LAUNCH_SCHEMA_VERSION : Z := 1.
Definition RUN_LAUNCH_BINDING_PREFIX := $"whetstone.optim_run_launch:".
Definition RUN_WORKFLOW_SCHEMA := $"whetstone.coordination.parent_run".
Definition RUN_WORKFLOW_SCHEMA_VERSION : Z := 1.

Definition launch_key (run_id : pystr) : pystr := RUN_LAUNCH_BINDING_PREFIX ++ run_id.
Definition payload_key (run_id : pystr) : pystr := RUN_LAUNCH_BINDING_PREFIX ++ run_id ++ $":payload".

(** ** Requests and launches *)

Record RunRequest := {
  rq_controller_identity_hash : pystr;
  rq_run_id : pystr;
  rq_control_identity_hash : pystr;
}.

Definition RunRequest_validate (self : RunRequest) : result RunRequest :=
  require_full_hash (PStr (rq_controller_identity_hash self)) ;;
  require_full_hash (PStr (rq_control_identity_hash self)) ;;
  require (nonempty (rq_run_id self)) ValueError "run request run_id must be non-empty" ;;
  Ok self.

Definition RunRequest_identity_hash `{!DrSerialize} (self : RunRequest) : result pystr :=
  compute_identity_hash RUN_WORKFLOW_SCHEMA RUN_WORKFLOW_SCHEMA_VERSION
    (PDict [($"controller_identity_hash", PStr (rq_controller_identity_hash self));
            ($"run_id", PStr (rq_run_id self));
            ($"control_identity_hash", PStr (rq_control_identity_hash self))]).

(** The controls of the optimizers. *)
Class OptimizerControls := {
  Control : Type;
  control_identity_hash : Control → result pystr;
  control_dump : Control → pyval;
}.

(** [Candidate.model_validate]. *)
Class LaunchRecords := { decode_candidate : pyval → result Candidate }.

Record OptimRunLaunch `{!OptimizerControls} := {
  la_run : OptimRun;
  la_initial_candidate : Candidate;
  la_control : option Control;
  la_extra_pools : option (list (pystr * pyval));
}.

(** ** Jobs

    A thread drives a run, binds or loads a launch, or uses a harness or the
    store in any other way. *)
Inductive ControllerJob `{!OptimizerControls} :=
| DriveJob (harness : OptimHarness) (request : RunRequest) (steps turns : nat)
| LaunchJob (launch : OptimRunLaunch)
| LoadJob (run_id : pystr)
| SessionJob (harness : OptimHarness) (calls : list HarnessCall)
| OtherJob (calls : list ForeignCall).

Inductive ControllerOutcome `{!OptimizerControls} :=
| Ended (ref : TypedRef)
| Launched (run_ref : OptimRunRef)
| Loaded (launch : OptimRunLaunch)
| Served (outcomes : list (HarnessCall * CallOutcome)).

Section Controller.
Context `{DSer : !DrSerialize, DSto : !DrStore, DLease : !DrLease, Uni : !UnicodeIdentifiers}.
Context `{Recs : !OptimRecords, LRecs : !LaunchRecords, Ctl : !OptimizerControls}.
Abbreviation program := (prog ControllerJob ControllerOutcome Answer).

(** ** Step contracts *)

Record StepContractProvider := {
  scp_adapter_key : pystr;
  scp_parse_control : pyval → result Control;
  scp_requires_control : bool;
  scp_build_first : OptimRunRef → Candidate → option Control → option (list (pystr * pyval)) →
    program OptimStepRequest;
  scp_build_next : OptimStepResult → TypedRef → list OptimStepResult → Control → pystr →
    option (list (pystr * pyval)) → program OptimStepRequest;
}.

(** [_providers()]. *)
Variable providers : list StepContractProvider.

Definition resolve_step_contract_provider (adapter_key : pystr) : result StepContractProvider :=
  of_option (snd <$> list_find (λ p, scp_adapter_key p = adapter_key) providers) ValueError
    "no optimizer step contract registered".

(** [StepRequestBuilder]. *)
Definition builder_build_first (run : OptimRunRef) (adapter_key : pystr) (initial_candidate : Candidate)
    (control : option Control) (extra_pools : option (list (pystr * pyval))) : program OptimStepRequest :=
  provider ← run_result (resolve_step_contract_provider adapter_key);
  scp_build_first provider run initial_candidate control extra_pools.

Definition builder_build_next (prior : OptimStepResult) (prior_ref : TypedRef)
    (prior_results : list OptimStepResult) (control : Control) (mutation_field : pystr)
    (extra_pools : option (list (pystr * pyval))) : program OptimStepRequest :=
  exact ← run_result (step_result_reference prior);
  check (bool_decide (prior_ref = sresr_record_ref exact)) ValueError
    "prior step result ref is not exact" ;;
  let adapter_key := run_adapter_key (runr_record (sres_run prior)) in
  provider ← run_result (resolve_step_contract_provider adapter_key);
  scp_build_next provider prior prior_ref prior_results control mutation_field extra_pools.

(** ** Launches *)

Definition launch_payload (launch : OptimRunLaunch) : pyval :=
  PDict [($"schema_version", PInt RUN_LAUNCH_SCHEMA_VERSION);
         ($"run_id", PStr (run_run_id (la_run launch)));
         ($"initial_candidate", Candidate_record_content (la_initial_candidate launch));
         ($"control", POption control_dump (la_control launch));
         ($"extra_pools", POption PDict (la_extra_pools launch))].

Definition bind_launch (launch : OptimRunLaunch) : program OptimRunRef :=
  match run_initial_candidate_ref (la_run launch) with
  | Some seed_ref =>
      exact ← run_result (candidate_reference (la_initial_candidate launch));
      check (bool_decide (seed_ref = exact)) ValueError
        "run initial_candidate_ref must address the exact launch initial candidate"
  | None => Ret tt
  end ;;
  run_ref ← run_result (optimization_run_reference (la_run launch));
  put OPTIM_RUN_SCHEMA (OptimRun_record_content (runr_record run_ref)) ;;
  match la_control launch with
  | Some control =>
      put (tref_schema_name (iref_record_ref (run_optimizer_config (la_run launch))))
        (control_dump control) ;; Ret tt
  | None => Ret tt
  end ;;
  payload_ref ← put RUN_LAUNCH_SCHEMA (launch_payload launch);
  bind (launch_key (run_run_id (la_run launch))) (TypedRef_reference (runr_record_ref run_ref)) ;;
  bind (payload_key (run_run_id (la_run launch))) payload_ref ;;
  Ret run_ref.

(** [record[k]] and [record.get(k)] of a stored document. *)
Definition doc_field (record : pyval) (k : pystr) : result pyval :=
  match record with
  | PDict kvs => of_option (dict_get kvs k) KeyError ""
  | _ => raise TypeError ""
  end.

Definition doc_get (record : pyval) (k : pystr) : result pyval :=
  match record with
  | PDict kvs => Ok (default PNone (dict_get kvs k))
  | _ => raise AttributeError ""
  end.

(** [None if v is None else dict(v)]; [dict] also takes lists of pairs, which
    [bind_launch] never stores. *)
Definition stored_pools (v : pyval) : result (option (list (pystr * pyval))) :=
  match v with
  | PNone => Ok None
  | PDict kvs => Ok (Some kvs)
  | PList [] => Ok (Some [])
  | _ => raise TypeError ""
  end.

(** The launch of the run that was stored with the payload [record]. *)
Definition parse_launch (run : OptimRun) (record : pyval) : result OptimRunLaunch :=
  initial ← doc_field record $"initial_candidate";
  candidate ← decode_candidate initial;
  stored ← doc_get record $"control";
  control ← match stored with
            | PNone => Ok None
            | stored =>
                provider ← resolve_step_contract_provider (run_adapter_key run);
                control ← scp_parse_control provider stored;
                Ok (Some control)
            end;
  pools ← doc_get record $"extra_pools";
  extra_pools ← stored_pools pools;
  Ok {| la_run := run; la_initial_candidate := candidate; la_control := control;
        la_extra_pools := extra_pools |}.

Definition load_launch (run_id : pystr) : program OptimRunLaunch :=
  run_binding ← resolve (launch_key run_id);
  run_binding ← run_result (of_option run_binding ValueError "optimization run launch is not bound");
  content ← get run_binding;
  run ← run_result (decode_run content ≫= OptimRun_model_validate);
  payload_binding ← resolve (payload_key run_id);
  payload_binding ← run_result (of_option payload_binding ValueError
    "optimization run launch payload is not bound");
  record ← get payload_binding;
  run_result (parse_launch run record).

(** ** Driving *)

Definition check_control (launch : OptimRunLaunch) (request : RunRequest) : result unit :=
  match la_control launch with
  | Some control =>
      h ← control_identity_hash control;
      require (bool_decide (h = rq_control_identity_hash request)) ValueError
        "run control_identity_hash does not match launch control"
  | None =>
      require (bool_decide (iref_record_hash (run_optimizer_config (la_run launch)) =
                            rq_control_identity_hash request)) ValueError
        "run control_identity_hash does not match launch run config"
  end.

(** The loop of [drive]: run the request, then the next one the contract
    builds, until a step stops. *)
Fixpoint drive_steps (steps turns : nat) (self : OptimHarness) (bound : OptimRunRef)
    (control : option Control) (step_results : list OptimStepResultRef)
    (prior_results : list OptimStepResult) (request : OptimStepRequest) :
    program (OptimHarness * list OptimStepResultRef) :=
  match steps with
  | O => Spin
  | S steps =>
      '(self, stepped) ← Harness.run_step self request false turns;
      '(r, result_ref) ← run_result stepped;
      exact ← run_result (step_result_reference r);
      let step_results := step_results ++ [exact] in
      if bool_decide (sres_status r ≠ CONTINUE) then Ret (self, step_results)
      else
        let prior_results := prior_results ++ [r] in
        control ← run_result (of_option control ValueError
          "continuing run requires a bound optimizer control");
        request ← builder_build_next r result_ref prior_results control
                    (run_mutation_field (runr_record bound)) None;
        drive_steps steps turns self bound (Some control) step_results prior_results request
  end.

Definition drive (steps turns : nat) (self : OptimHarness) (request : RunRequest) : program TypedRef :=
  run_result (require_full_hash (PStr (rq_control_identity_hash request))) ;;
  launch ← load_launch (rq_run_id request);
  run_result (check_control launch request) ;;
  bound ← bind_run (inl (la_run launch));
  let self := with_run self bound in
  let adapter_key := run_adapter_key (runr_record bound) in
  provider ← run_result (resolve_step_contract_provider adapter_key);
  check (negb (negb (is_some (la_control launch)) && scp_requires_control provider)) ValueError
    "run launch requires the exact control" ;;
  step_request ← builder_build_first bound adapter_key (la_initial_candidate launch)
                   (la_control launch) (la_extra_pools launch);
  '(self, step_results) ← drive_steps steps turns self bound (la_control launch) [] [] step_request;
  '(_, terminal_ref) ← terminalize self bound step_results;
  check (bool_decide (tref_schema_name terminal_ref = OPTIM_RESULT_SCHEMA)) ValueError
    "terminalize must return an Optimization Result ref" ;;
  Ret terminal_ref.

(** What a thread of the job runs. *)
Definition controller_code (job : ControllerJob) : program ControllerOutcome :=
  match job with
  | DriveJob self request steps turns => ref ← drive steps turns self request; Ret (Ended ref)
  | LaunchJob launch => run_ref ← bind_launch launch; Ret (Launched run_ref)
  | LoadJob run_id => launch ← load_launch run_id; Ret (Loaded launch)
  | SessionJob self calls => outcomes ← serve self calls []; Ret (Served outcomes)
  | OtherJob calls => mapM foreign_call calls ;; Ret (Served [])
  end.
End Controller.

(** ** COPRO's contract *)

(** [CoproControl.model_validate] of a stored document. *)
Class CoproControlRecords := { decode_copro_control : pyval → result CoproControl }.

Section CoproContract.
Context `{DSer : !DrSerialize, DSto : !DrStore, DLease : !DrLease, Uni : !UnicodeIdentifiers}.
Context `{CRecs : !CoproControlRecords}.

Definition copro_controls : OptimizerControls :=
  {| Control := CoproControl; control_identity_hash := CoproControl_identity_hash;
     control_dump := CoproControl_record_content |}.
#[local] Existing Instance copro_controls.

(** [if extra_pools: pools.update(extra_pools)]. *)
Definition copro_provider : StepContractProvider :=
  {| scp_adapter_key := COPRO_ADAPTER_KEY;
     scp_parse_control payload := decode_copro_control payload ≫= CoproControl_validate;
     scp_requires_control := true;
     scp_build_first run candidate control extra_pools :=
       run_result (build_first run candidate control (default [] extra_pools));
     scp_build_next prior prior_ref prior_results control mutation_field extra_pools :=
       run_result (build_next prior prior_ref prior_results control mutation_field (default [] extra_pools)) |}.
End CoproContract.
