(* ===== verification/Drives.v ===== *)
(** * Drives: the controllers of a run

    The theorems about [Controller.v]: what a launch binds is what every drive
    reads, all drives of a run end with the same result, and the steps of a
    drive that ended are those its optimizer's contract asked for. Nothing is
    assumed of the other threads: more drives and launches, harnesses called in
    any other way, and any other use of the store. *)

From S2P Require Import Prelude Floats Identity Leasing EvalConfigs Reward Tools Admission.
From S2P Require Import Process Claims Candidate Cost OptimContracts IssuedCalls RunStore RunCost Harness RunLog Runs.
From S2P Require Import Controller.

Section Drives.
Context `{DSer : !DrSerialize, DSto : !DrStore, DLease : !DrLease, Uni : !UnicodeIdentifiers}.
Context `{Recs : !OptimRecords, RLaws : !OptimRecordsLaws, LRecs : !LaunchRecords}.
Context `{DOs : !DrObjectStore, DLaws : !DrObjectStoreLaws, Ctl : !OptimizerControls}.
Abbreviation program := (prog ControllerJob ControllerOutcome Answer).
Abbreviation silent p := (quiet (Job:=ControllerJob) (Outcome:=ControllerOutcome) (Answer:=Answer) foreign_key p).

(** A contract's builders read and write documents, and bind no key of a run. *)
Record quiet_provider (p : StepContractProvider) : Prop := {
  qp_first run candidate control pools : silent (scp_build_first p run candidate control pools);
  qp_next prior ref priors control field pools :
    silent (scp_build_next p prior ref priors control field pools);
}.

Variable providers : list StepContractProvider.
Hypothesis Hquiet : Forall quiet_provider providers.

(** The jobs that may arrive. *)
Definition startable (j : ControllerJob) : Prop :=
  match j with
  | DriveJob self _ _ _ | SessionJob self _ => created self
  | LaunchJob _ | LoadJob _ => True
  | OtherJob calls => Forall foreign_call_ok calls
  end.

Abbreviation safe p Φ s :=
  (Process.safe (Job:=ControllerJob) (Outcome:=ControllerOutcome) (Answer:=Answer) runs_inv startable p Φ
     (λ _ _, True) s).

Lemma launch_keys_foreign id : foreign_key (launch_key id) ∧ foreign_key (payload_key id).
Proof.
  split; apply (prefix_foreign 20); [by vm_compute; lia|lia|by vm_compute|by vm_compute; lia|lia|by vm_compute].
Qed.

Lemma safe_bound_key {B} k r (f : BindStatus → program B) Φ s :
  foreign_key k →
  (∀ s1 status, grows s s1 → runs_inv s1 → store_resolve s1 k = Some r → safe (f status) Φ s1) →
  safe (bind k r ≫= f) Φ s.
Proof.
  intros Hk Hf. split; [done|]. intros s1 x s2 Hg Hinv He. simpl in He.
  pose proof (runs_inv_foreign s1 k r Hk Hinv) as Hinv2. pose proof (bind_grows s1 k r) as Hg2.
  rewrite He in Hinv2, Hg2. simpl in *. split; [done|]. assert (grows s s2) by (by transitivity s1).
  destruct x as [st|e]; simpl; [|done]. apply Hf; [done..|]. by eapply bind_status.
Qed.

(** ** Launches *)

(** The launch that the bindings of [run_id] lead to. *)
Definition launch_read (s : ostate) (run_id : pystr) (launch : OptimRunLaunch) : Prop :=
  ∃ r v p w run, store_resolve s (launch_key run_id) = Some r ∧ store_get s r = Ok v ∧
    (decode_run v ≫= OptimRun_model_validate) = Ok run ∧
    store_resolve s (payload_key run_id) = Some p ∧ store_get s p = Ok w ∧
    parse_launch providers run w = Ok launch.

Lemma launch_read_grows s s' id launch : grows s s' → launch_read s id launch → launch_read s' id launch.
Proof.
  intros [Hg Hr] (r & v & p & w & run & ? & ? & ? & ? & ? & ?). exists r, v, p, w, run. split_and!; auto.
Qed.

Lemma launch_read_fun s id l l' : launch_read s id l → launch_read s id l' → l = l'.
Proof.
  intros (r & v & p & w & run & H1 & H2 & H3 & H4 & H5 & H6)
    (r' & v' & p' & w' & run' & H1' & H2' & H3' & H4' & H5' & H6').
  rewrite H1 in H1'. injection H1' as <-. rewrite H2 in H2'. injection H2' as <-.
  rewrite H3 in H3'. injection H3' as <-. rewrite H4 in H4'. injection H4' as <-.
  rewrite H5 in H5'. injection H5' as <-. rewrite H6 in H6'. by injection H6'.
Qed.

Lemma safe_load_launch id s : safe (load_launch providers id) (λ l s', launch_read s' id l) s.
Proof.
  unfold load_launch. apply safe_resolve. intros s1 _ _. apply safe_run. intros r Hr%of_option_Ok.
  apply safe_get. intros s2 Hg2 _. apply safe_run. intros v Hv. apply safe_run. intros run Hrun.
  apply safe_resolve. intros s3 Hg3 _. apply safe_run. intros p Hp%of_option_Ok.
  apply safe_get. intros s4 Hg4 _. apply safe_run. intros w Hw. apply safe_run_result; [|done].
  intros launch Hl. exists r, v, p, w, run. split_and!; try done.
  - by apply Hg4, Hg3, Hg2.
  - by apply Hg4, Hg3.
  - by apply Hg4.
Qed.

(** What binding a launch establishes. *)
Definition launch_bound (s : ostate) (launch : OptimRunLaunch) (run_ref : OptimRunRef) : Prop :=
  optimization_run_reference (la_run launch) = Ok run_ref ∧
  store_resolve s (launch_key (run_run_id (la_run launch))) =
    Some (TypedRef_reference (runr_record_ref run_ref)) ∧
  store_get s (TypedRef_reference (runr_record_ref run_ref)) = Ok (OptimRun_record_content (la_run launch)) ∧
  ∃ p, store_resolve s (payload_key (run_run_id (la_run launch))) = Some p ∧
    store_get s p = Ok (launch_payload launch).

Lemma launch_bound_grows s s' l r : grows s s' → launch_bound s l r → launch_bound s' l r.
Proof. intros [Hg Hr] (? & ? & ? & p & ? & ?). split_and!; auto. exists p. auto. Qed.

Lemma optimization_run_reference_Ok run run_ref :
  optimization_run_reference run = Ok run_ref →
  runr_record run_ref = run ∧
  typed_ref_for_record OPTIM_RUN_SCHEMA (OptimRun_record_content run) = Ok (runr_record_ref run_ref).
Proof.
  unfold optimization_run_reference, OptimRunRef_validate. intros H. inv_result. simpl in *. done.
Qed.

Lemma safe_put_doc {B} schema v (f : ObjectReference → program B) Φ s :
  (∀ s1 r, grows s s1 → runs_inv s1 → for_record schema v = Ok r → store_get s1 r = Ok v → safe (f r) Φ s1) →
  safe (put schema v ≫= f) Φ s.
Proof. intros Hf. apply safe_put; [intros; by apply runs_inv_put|exact Hf|done]. Qed.

Lemma typed_ref_for_record_shared schema v r ref :
  for_record schema v = Ok r → typed_ref_for_record schema v = Ok ref → TypedRef_reference ref = r.
Proof.
  unfold typed_ref_for_record, TypedRef_new, NonEmptyId, ContentHash, ValidatedString_new.
  intros -> H. simpl in H. inv_result. unfold TypedRef_reference. simpl. by destruct r.
Qed.

Lemma safe_bind_launch launch s : safe (bind_launch launch) (λ r s', launch_bound s' launch r) s.
Proof.
  destruct (launch_keys_foreign (run_run_id (la_run launch))) as [Hk1 Hk2].
  unfold bind_launch. eapply safe_bind with (Φ := λ _ _, True).
  { destruct (run_initial_candidate_ref _); [|done]. apply safe_run. intros exact _.
    by apply safe_last_check. }
  intros _ s1 _ _. apply safe_run. intros run_ref Href.
  destruct (optimization_run_reference_Ok _ _ Href) as [Hrec Href'].
  apply safe_put_doc. intros s2 r _ _ Hr Hget. rewrite Hrec in Hr, Hget.
  rewrite <-(typed_ref_for_record_shared _ _ _ _ Hr Href') in Hget.
  eapply safe_bind with (Φ := λ _ _, True).
  { destruct (la_control launch); [|done]. apply safe_put_doc. by intros. }
  intros _ s3 Hg3 _. apply safe_put_doc. intros s4 p Hg4 _ _ Hp.
  apply safe_bound_key; [done|]. intros s5 st5 Hg5 _ H5.
  apply safe_bound_key; [done|]. intros s6 st6 Hg6 _ H6.
  split_and!; [done|by apply Hg6|by apply Hg6, Hg5, Hg4, Hg3|]. exists p. split; [done|].
  by apply Hg6, Hg5.
Qed.

(** ** Steps *)

(** What a program returns when it is answered in some way. *)
Inductive built {A} : program A → A → Prop :=
| built_ret a : built (Ret a) a
| built_call X (e : effect ControllerJob ControllerOutcome Answer X) k x a :
    built (k x) a → built (Vis e k) a.

Lemma safe_built {A} (p : program A) Φ s : safe p Φ s → safe p (λ a s', Φ a s' ∧ built p a) s.
Proof.
  revert s. induction p as [a|e| |X e k IH]; intros s Hp; [by split; [|constructor]|done|done|].
  destruct Hp as [Hc Hk]. split; [done|]. intros s1 x s2 Hg Hinv He.
  destruct (Hk s1 x s2 Hg Hinv He) as [Hinv2 Hs]. split; [done|].
  eapply safe_weaken; [|done|by apply IH]. intros a s' _ [? ?]. split; [done|by econstructor].
Qed.

Lemma built_run_result {A} (r : result A) a : built (run_result r) a ↔ r = Ok a.
Proof. split; [destruct r; simpl; by inversion 1|intros ->; constructor]. Qed.

(** The request of step [i] after the results [rs]: the first is one [first]
    allows, the others are what the contract builds from the results so far. *)
Definition asked (first : OptimStepRequest → Prop) (field : pystr) (control : option Control)
    (rs : list OptimStepResult) (i : nat) (request : OptimStepRequest) : Prop :=
  match i with
  | O => first request
  | S j => ∃ prior exact c, rs !! j = Some prior ∧ step_result_reference prior = Ok exact ∧
      control = Some c ∧
      built (builder_build_next providers prior (sresr_record_ref exact) (take (S j) rs) c field None) request
  end.

(** The results follow the contract; each is bound at its position, and all but
    the last, or all of a run that goes on, continue. *)
Definition follows (first : OptimStepRequest → Prop) (field : pystr) (control : option Control)
    (ended : bool) (rs : list OptimStepResult) (s : ostate) : Prop :=
  ∀ i r, rs !! i = Some r →
    (∃ ref, step_bound s r ref) ∧ (∃ request, asked first field control rs i request ∧ answers request r) ∧
    (sres_status r = CONTINUE ↔ S i < length rs ∨ ended = false)%nat.

Lemma asked_app first field control rs rs' i request :
  (i <= length rs)%nat → asked first field control rs i request →
  asked first field control (rs ++ rs') i request.
Proof.
  destruct i as [|j]; intros Hi; [done|]. intros (prior & exact & c & Hp & ? & ? & Hb).
  exists prior, exact, c. rewrite lookup_app_l, take_app_le by lia. done.
Qed.

Lemma step_bound_grows s s' r ref : grows s s' → step_bound s r ref → step_bound s' r ref.
Proof. intros [Hg Hr] [? ?]. split; auto. Qed.

Lemma follows_grows first field control ended rs s s' :
  grows s s' → follows first field control ended rs s → follows first field control ended rs s'.
Proof.
  intros Hg H i r Hi. destruct (H i r Hi) as ([ref Hb] & ? & ?). split_and!; [|done..].
  exists ref. by eapply step_bound_grows.
Qed.

(** One more result. *)
Lemma follows_snoc first field control ended rs r ref request s :
  follows first field control false rs s → step_bound s r ref →
  asked first field control rs (length rs) request → answers request r →
  (sres_status r = CONTINUE ↔ ended = false) →
  follows first field control ended (rs ++ [r]) s.
Proof.
  intros Hf Hb Ha Hans Hst i r' [Hi|[Hge Hi]]%lookup_app_Some.
  - pose proof (lookup_lt_Some _ _ _ Hi) as Hlt.
    destruct (Hf i r' Hi) as (? & (req & Ha' & ?) & Hc). split_and!; [done| |].
    + exists req. split; [|done]. apply asked_app; [lia|done].
    + rewrite Hc, length_app. simpl. split; [intros _; left; lia|by right].
  - apply list_lookup_singleton_Some in Hi as [Hi <-]. assert (i = length rs) as -> by lia.
    split_and!; [by exists ref| |].
    + exists request. split; [|done]. by apply asked_app.
    + rewrite Hst, length_app. simpl. split; [by right|intros [?|?]; [lia|done]].
Qed.

Lemma provider_of key p : resolve_step_contract_provider providers key = Ok p → quiet_provider p.
Proof.
  unfold resolve_step_contract_provider. intros H%of_option_Ok.
  destruct (list_find _ providers) as [[i q]|] eqn:E; [|done]. injection H as ->.
  apply list_find_Some in E as (Hi & _). rewrite Forall_lookup in Hquiet. by eapply Hquiet.
Qed.

Lemma safe_build_next prior ref priors control field pools s :
  safe (builder_build_next providers prior ref priors control field pools) (λ _ _, True) s.
Proof.
  unfold builder_build_next. apply safe_run. intros exact _. apply safe_guard. intros _.
  apply safe_run. intros p Hp%provider_of. apply safe_silent. apply (qp_next p Hp).
Qed.

Lemma safe_drive_steps first field control steps turns self bound refs rs request s :
  run_mutation_field (runr_record bound) = field →
  follows first field control false rs s → asked first field control rs (length rs) request →
  safe (drive_steps providers steps turns self bound control refs rs request)
    (λ _ s', ∃ rs', rs' ≠ [] ∧ follows first field control true rs' s') s.
Proof.
  intros Hfield. revert self refs rs request s. induction steps as [|steps IH];
    intros self refs rs request s Hf Ha; cbn [drive_steps]; [done|].
  eapply safe_bind; [apply safe_run_step|]. intros [self' stepped] s1 Hg1 Hret.
  apply safe_run. intros [r ref] ->. destruct Hret as [Hb Hans].
  apply safe_run. intros exact Hexact.
  apply (follows_grows _ _ _ _ _ _ _ Hg1) in Hf. case_bool_decide as Hst.
  - exists (rs ++ [r]). split; [by destruct rs|]. eapply follows_snoc; try done.
  - apply safe_run. intros c ->%of_option_Ok.
    eapply safe_bind; [apply safe_built, safe_build_next|]. intros request' s2 Hg2 [_ Hbuilt].
    apply IH.
    + eapply follows_grows; [exact Hg2|]. by eapply follows_snoc.
    + rewrite length_app, Nat.add_1_r. exists r, exact, c. rewrite take_ge by (rewrite length_app; simpl; lia).
      split_and!; [by rewrite lookup_app_r, Nat.sub_diag by lia|done|done|].
      rewrite Hfield in Hbuilt. assert (ref = sresr_record_ref exact) as <-; [|done].
      unfold builder_build_next in Hbuilt. rewrite Hexact in Hbuilt. cbn [run_result mbind prog_bind] in Hbuilt.
      unfold check in Hbuilt. case_bool_decide; [done|]. by inversion Hbuilt.
Qed.

(** ** Drives *)

(** What a drive that ended established: it read the launch of its run, the
    control of the request is the launch's, its steps are those the contract of
    the run asked for, and the result it returned is the one bound. *)
Definition drive_done (s : ostate) (request : RunRequest) (ref : TypedRef) : Prop :=
  ∃ launch bound provider res rs,
    launch_read s (rq_run_id request) launch ∧ check_control launch request = Ok tt ∧
    optimization_run_reference (la_run launch) = Ok bound ∧ run_bound bound s ∧
    resolve_step_contract_provider providers (run_adapter_key (la_run launch)) = Ok provider ∧
    rs ≠ [] ∧
    follows (built (scp_build_first provider bound (la_initial_candidate launch) (la_control launch)
                      (la_extra_pools launch)))
      (run_mutation_field (la_run launch)) (la_control launch) true rs s ∧
    result_bound s (run_run_id (la_run launch)) res ref.

Lemma drive_done_grows s s' request ref : grows s s' → drive_done s request ref → drive_done s' request ref.
Proof.
  intros Hg (launch & bound & provider & res & rs & ? & ? & ? & Hb & ? & ? & ? & [Hr ?]).
  exists launch, bound, provider, res, rs. split_and!; try done.
  - by eapply launch_read_grows.
  - by apply Hg.
  - by eapply follows_grows.
  - split; [by apply Hg|done].
Qed.

Lemma safe_drive steps turns self request s :
  safe (drive providers steps turns self request) (λ ref s', drive_done s' request ref) s.
Proof.
  unfold drive. apply safe_run. intros _ _.
  eapply safe_bind; [apply safe_load_launch|]. intros launch s1 _ Hl.
  apply safe_run. intros [] Hc. eapply safe_bind; [apply safe_bind_run|].
  intros bound s2 Hg2 [Hb Hexact]. simpl in Hexact. apply bind_Ok in Hexact as (run & Hv & Href).
  apply OptimRun_model_validate_id in Hv as ->.
  destruct (optimization_run_reference_Ok _ _ Href) as [Hrec _]. rewrite Hrec.
  apply safe_run. intros provider Hp. apply safe_guard. intros _.
  unfold builder_build_first. rewrite Hp. cbn [run_result mbind prog_bind].
  eapply safe_bind; [apply safe_built, safe_silent, (qp_first _ (provider_of _ _ Hp))|].
  intros step_request s3 Hg3 [_ Hbuilt].
  eapply safe_bind; [eapply safe_drive_steps; [by rewrite Hrec|intros i r Hi; by rewrite lookup_nil in Hi|exact Hbuilt]|].
  intros [self' step_results] s4 Hg4 (rs & Hne & Hf).
  eapply safe_bind; [apply safe_terminalize|]. intros [res ref] s5 Hg5 Hres.
  apply safe_guard. intros _. rewrite Hrec in Hres. simpl in Hres.
  exists launch, bound, provider, res, rs. split_and!; try done.
  - eapply launch_read_grows; [|exact Hl]. by do 3 (etransitivity; [eassumption|]).
  - unfold run_bound in *. by apply Hg5, Hg4, Hg3.
  - by eapply follows_grows.
Qed.

Definition controller_post (j : ControllerJob) (o : ControllerOutcome) (s : ostate) : Prop :=
  match j, o with
  | DriveJob _ request _ _, Ended ref => drive_done s request ref
  | LaunchJob launch, Launched run_ref => launch_bound s launch run_ref
  | LoadJob run_id, Loaded launch => launch_read s run_id launch
  | SessionJob _ _, Served os | OtherJob _, Served os => Forall (call_ok s) os
  | _, _ => False
  end.

Lemma controller_post_stable j : stable (controller_post j).
Proof.
  intros o s s' Hg. destruct j, o; simpl; try done.
  - by apply drive_done_grows.
  - by apply launch_bound_grows.
  - by apply launch_read_grows.
  - intros Hos. eapply Forall_impl; [exact Hos|]. intros x. by apply call_ok_grows.
  - intros Hos. eapply Forall_impl; [exact Hos|]. intros x. by apply call_ok_grows.
Qed.

Lemma controller_code_safe j s :
  startable j → runs_inv s → safe (controller_code providers j) (controller_post j) s.
Proof.
  intros Hj _. destruct j; cbn [controller_code].
  - eapply safe_bind; [apply safe_drive|]. by intros ref s' _ H.
  - eapply safe_bind; [apply safe_bind_launch|]. by intros r s' _ H.
  - eapply safe_bind; [apply safe_load_launch|]. by intros l s' _ H.
  - eapply safe_bind; [by apply safe_serve, Forall_nil|]. by intros os s' _ H.
  - eapply safe_bind; [by apply safe_foreign_calls|]. intros os s' _ _. by apply Forall_nil.
Qed.

Abbreviation configuration := (config ControllerJob ControllerOutcome Answer).
Abbreviation moves := (rtc (step (controller_code providers) startable)).

(** A store in which no run has been opened, and no thread yet. *)
Definition untouched (c : configuration) : Prop :=
  cf_threads c = [] ∧ ∀ key, ¬ foreign_key key → store_resolve (cf_store c) key = None.

Definition all_ok (c : configuration) : Prop := config_ok runs_inv startable controller_post c.

Lemma untouched_ok c : untouched c → all_ok c.
Proof.
  intros [Ht Hnone]. split; [|rewrite Ht; by apply Forall_nil]. intros id.
  exists empty_log. split; [done|]. destruct (harness_keys_not_foreign id) as (H1 & H2 & H3).
  unfold logged, bound_to. simpl. split_and!; [by apply Hnone..| |done]. intros i. by apply Hnone.
Qed.

Lemma drives_ok c c' : moves c c' → all_ok c → all_ok c'.
Proof.
  apply reachable_ok; [apply controller_post_stable|done|]. intros j s. by apply controller_code_safe.
Qed.

(** What a thread that returned established. *)
Lemma ended_post c0 c i t o :
  untouched c0 → moves c0 c → cf_threads c !! i = Some t → th_prog t = Ret o →
  controller_post (th_job t) o (cf_store c).
Proof.
  intros Hu Hm. apply returned_post with (inv := runs_inv) (startable := startable).
  eapply drives_ok; [exact Hm|]. by apply untouched_ok.
Qed.

(** C2. Whatever threads drive a run, with whatever harnesses, two drives of the
    run that ended returned the same result, the one bound for it; they were
    given the same control; and the steps of each are exactly those the
    contract of the run asks for: the first request is built from the launch,
    every other from the results so far, each result is bound at its position,
    and the last is the only one that does not continue. *)
Theorem drives_agree c0 c i t self request steps turns ref j u self' request' steps' turns' ref' :
  untouched c0 → moves c0 c →
  cf_threads c !! i = Some t → th_job t = DriveJob self request steps turns → th_prog t = Ret (Ended ref) →
  cf_threads c !! j = Some u → th_job u = DriveJob self' request' steps' turns' →
  th_prog u = Ret (Ended ref') → rq_run_id request = rq_run_id request' →
  ref = ref' ∧ rq_control_identity_hash request = rq_control_identity_hash request' ∧
  drive_done (cf_store c) request ref.
Proof.
  intros Hu Hm Hi Hj Ht Hi' Hj' Ht' Hid.
  pose proof (ended_post _ _ _ _ _ Hu Hm Hi Ht) as H1. rewrite Hj in H1.
  pose proof (ended_post _ _ _ _ _ Hu Hm Hi' Ht') as H2. rewrite Hj' in H2. simpl in H1, H2.
  split_and!; [..|exact H1];
    destruct H1 as (l & b & p & res & rs & Hl & Hc & _ & _ & _ & _ & _ & [Hr _]);
    destruct H2 as (l' & b' & p' & res' & rs' & Hl' & Hc' & _ & _ & _ & _ & _ & [Hr' _]);
    rewrite <-Hid in Hl'; pose proof (launch_read_fun _ _ _ _ Hl Hl') as <-.
  - rewrite Hr in Hr'. apply TypedRef_reference_inj. congruence.
  - unfold check_control in Hc, Hc'. destruct (la_control l) as [control|].
    + apply bind_Ok in Hc as (h & Hh & Hc). rewrite Hh, bind_Ok_l in Hc'. inv_ok. congruence.
    + inv_ok. congruence.
Qed.

(** Pydantic reads back what it dumped, and a control's dump is an object. *)
Record parses_back (p : StepContractProvider) : Prop := {
  pb_control c c' : scp_parse_control p (control_dump c) = Ok c' → control_dump c' = control_dump c;
}.

Lemma parsed_launch launch run launch' :
  Forall parses_back providers → (∀ c, control_dump c ≠ PNone) →
  (∀ c c', decode_candidate (Candidate_record_content c) = Ok c' →
     Candidate_record_content c' = Candidate_record_content c) →
  parse_launch providers run (launch_payload launch) = Ok launch' →
  la_run launch' = run ∧
  Candidate_record_content (la_initial_candidate launch') = Candidate_record_content (la_initial_candidate launch) ∧
  control_dump <$> la_control launch' = control_dump <$> la_control launch ∧
  la_extra_pools launch' = la_extra_pools launch.
Proof.
  intros Hpb Hnone Hcand H. unfold parse_launch, launch_payload in H. cbn [doc_field doc_get] in H.
  change (dict_get _ $"initial_candidate") with (Some (Candidate_record_content (la_initial_candidate launch))) in H.
  change (dict_get _ $"control") with (Some (POption control_dump (la_control launch))) in H.
  change (dict_get _ $"extra_pools") with (Some (POption PDict (la_extra_pools launch))) in H.
  cbn [of_option default] in H. rewrite !bind_Ok_l in H.
  apply bind_Ok in H as (candidate & Hc & H). rewrite bind_Ok_l in H.
  apply bind_Ok in H as (control & Hctl & H). rewrite bind_Ok_l in H.
  apply bind_Ok in H as (pools & Hp & [= <-]). simpl. split_and!; [done|by apply Hcand| |].
  - destruct (la_control launch) as [c|]; simpl in Hctl |- *; [|by injection Hctl as <-].
    assert (∃ p c', scp_parse_control p (control_dump c) = Ok c' ∧ control = Some c' ∧ parses_back p)
      as (p & c' & Hc' & -> & [Hb]); [|simpl; by rewrite (Hb _ _ Hc')].
    assert ((provider ← resolve_step_contract_provider providers (run_adapter_key run);
             control ← scp_parse_control provider (control_dump c); Ok (Some control)) = Ok control) as Hx.
    { pose proof (Hnone c). by destruct (control_dump c). }
    apply bind_Ok in Hx as (p & Hprov & Hx). apply bind_Ok in Hx as (c' & Hc' & [= <-]).
    exists p, c'. split_and!; [done..|].
    unfold resolve_step_contract_provider in Hprov. apply of_option_Ok in Hprov.
    destruct (list_find _ providers) as [[n q]|] eqn:E; [|done]. injection Hprov as ->.
    apply list_find_Some in E as (Hi & _). rewrite Forall_lookup in Hpb. by eapply Hpb.
  - destruct (la_extra_pools launch); simpl in Hp; by injection Hp as <-.
Qed.

(** C15. Two launches of one run that were bound are the same run with the same
    payload, and what is loaded for the run is what was bound: the run, the
    opening candidate, the control and the pools. *)
Theorem launches_agree c0 c i t launch run_ref j u :
  Forall parses_back providers → (∀ control, control_dump control ≠ PNone) →
  (∀ run run', decode_run (OptimRun_record_content run) = Ok run' →
     OptimRun_record_content run' = OptimRun_record_content run) →
  (∀ candidate candidate', decode_candidate (Candidate_record_content candidate) = Ok candidate' →
     Candidate_record_content candidate' = Candidate_record_content candidate) →
  untouched c0 → moves c0 c →
  cf_threads c !! i = Some t → th_job t = LaunchJob launch → th_prog t = Ret (Launched run_ref) →
  cf_threads c !! j = Some u →
  (∀ launch' run_ref', th_job u = LaunchJob launch' → th_prog u = Ret (Launched run_ref') →
     run_run_id (la_run launch') = run_run_id (la_run launch) →
     runr_record_ref run_ref' = runr_record_ref run_ref ∧ launch_payload launch' = launch_payload launch) ∧
  (∀ launch', th_job u = LoadJob (run_run_id (la_run launch)) → th_prog u = Ret (Loaded launch') →
     OptimRun_record_content (la_run launch') = OptimRun_record_content (la_run launch) ∧
     Candidate_record_content (la_initial_candidate launch') =
       Candidate_record_content (la_initial_candidate launch) ∧
     control_dump <$> la_control launch' = control_dump <$> la_control launch ∧
     la_extra_pools launch' = la_extra_pools launch).
Proof.
  intros Hpb Hnone Hrun Hcand Hu Hm Hi Hj Ht Hi'.
  pose proof (ended_post _ _ _ _ _ Hu Hm Hi Ht) as H1. rewrite Hj in H1.
  destruct H1 as (_ & Hr & Hg & p & Hp & Hgp). split.
  - intros launch' run_ref' Hj' Ht' Hid.
    pose proof (ended_post _ _ _ _ _ Hu Hm Hi' Ht') as H2. rewrite Hj' in H2.
    destruct H2 as (_ & Hr' & _ & p' & Hp' & Hgp'). rewrite Hid in *. split.
    + apply TypedRef_reference_inj. congruence.
    + rewrite Hp in Hp'. injection Hp' as <-. rewrite Hgp in Hgp'. by apply (inj Ok) in Hgp'.
  - intros launch' Hj' Ht'.
    pose proof (ended_post _ _ _ _ _ Hu Hm Hi' Ht') as H2. rewrite Hj' in H2.
    destruct H2 as (r & v & p' & w & run & Hr' & Hg' & Hrd & Hp' & Hgp' & Hl).
    rewrite Hr in Hr'. injection Hr' as <-. rewrite Hg in Hg'. injection Hg' as <-.
    rewrite Hp in Hp'. injection Hp' as <-. rewrite Hgp in Hgp'. injection Hgp' as <-.
    destruct (parsed_launch _ _ _ Hpb Hnone Hcand Hl) as (-> & ? & ? & ?). split_and!; [|done..].
    apply bind_Ok in Hrd as (run' & Hdec & Hval). apply OptimRun_model_validate_id in Hval as ->.
    by apply Hrun.
Qed.

(** The run whose id ends in [:payload] shares its key with the payload of
    another run. *)
Lemma payload_key_is_a_launch_key run_id : payload_key run_id = launch_key (run_id ++ $":payload").
Proof. done. Qed.
End Drives.

(** COPRO's contract builds its requests without the store. *)
Lemma copro_provider_quiet `{DrSerialize, !DrStore, !DrLease, !UnicodeIdentifiers, !CoproControlRecords} :
  quiet_provider (Ctl := copro_controls) copro_provider.
Proof. split; intros; simpl; by destruct (_ : result OptimStepRequest). Qed.

(** ** A run of two steps, launched, driven by two controllers and loaded *)
Module ConcreteDrives.
Import Concrete ConcreteLease ConcreteTemplates ConcreteRun ConcreteRuns ListStore.

Definition opening : list Candidate :=
  Eval vm_compute in match the_steps with r :: _ => sreq_candidates (request_of r) | [] => [] end.

#[export] Instance opening_records : LaunchRecords :=
  {| decode_candidate := read_back Candidate_record_content opening |}.

(** A control that is its own hash. *)
#[export] Instance named_controls : OptimizerControls :=
  {| Control := pystr; control_identity_hash c := Ok c; control_dump := PStr |}.

Abbreviation configuration := (config ControllerJob ControllerOutcome Answer).

(** The contract asks for the requests of the recorded steps. *)
Definition recorded : StepContractProvider :=
  {| scp_adapter_key := run_adapter_key the_run;
     scp_parse_control v := match v with PStr c => Ok c | _ => raise ValueError "" end;
     scp_requires_control := true;
     scp_build_first _ _ _ _ := run_result (of_option (request_of <$> the_steps !! 0%nat) ValueError "");
     scp_build_next _ _ priors _ _ _ :=
       run_result (of_option (request_of <$> the_steps !! length priors) ValueError "") |}.

Lemma recorded_quiet : Forall quiet_provider [recorded].
Proof. apply Forall_singleton. split; intros; simpl; [exact I|]. by destruct (of_option _ _ _). Qed.

Lemma recorded_parses_back : Forall parses_back [recorded].
Proof. apply Forall_singleton. split. intros c c'. simpl. by intros [= ->]. Qed.

Definition the_control : pystr := replicate 64 97%Z.
Definition the_request : RunRequest :=
  {| rq_controller_identity_hash := replicate 64 98%Z; rq_run_id := run_run_id the_run;
     rq_control_identity_hash := the_control |}.
Definition launches : list OptimRunLaunch :=
  (λ c, {| la_run := the_run; la_initial_candidate := c; la_control := Some the_control;
           la_extra_pools := Some [] |}) <$> opening.
Definition harnesses : list OptimHarness := match a_harness with Ok self => [self] | Err _ => [] end.

(** The jobs: the launch, two drives, a load. *)
Definition jobs : list ControllerJob :=
  (LaunchJob <$> launches) ++ ((λ self, DriveJob self the_request 5 0) <$> harnesses ++ harnesses) ++
  [LoadJob (run_run_id the_run)].

Definition code := controller_code [recorded].

Definition at_rest : configuration := {| cf_store := ([], []); cf_threads := [] |}.
Definition all_arrived : configuration :=
  {| cf_store := ([], []); cf_threads := new_thread code <$> jobs |}.

(** Thread [i] runs to its end, the collaborators giving it the answers. *)
Fixpoint plan (fuel i : nat) (answers : list Answer) (c : configuration) : list (nat * oracle (Answer:=Answer)) :=
  match fuel, cf_threads c !! i with
  | S fuel, Some {| th_prog := Vis e k |} =>
      match Process.run_step code i (oracle_for answers) c with
      | Some c' =>
          (i, oracle_for answers) ::
          plan fuel i (match e with Compute _ => tail answers | _ => answers end) c'
      | None => []
      end
  | _, _ => []
  end.

Definition run_thread (i : nat) (answers : list Answer) (c : configuration) : configuration :=
  run_schedule code (plan 500 i answers c) c.

Definition finished : configuration :=
  run_thread 3 [] (run_thread 2 [] (run_thread 1 (the_steps ≫= answers_for) (run_thread 0 [] all_arrived))).

Lemma arriving c js :
  Forall startable js →
  rtc (step code startable) c
    {| cf_store := cf_store c; cf_threads := cf_threads c ++ (new_thread code <$> js) |}.
Proof.
  intros Hjs. revert c. induction Hjs as [|j js Hj Hjs IH]; intros c.
  - simpl. rewrite app_nil_r. by destruct c.
  - eapply rtc_l; [by apply (step_arrive _ _ _ j)|]. etrans; [apply IH|]. simpl. by rewrite <-app_assoc.
Qed.

Lemma jobs_startable : Forall startable jobs.
Proof.
  assert (Forall created harnesses) as Hc.
  { unfold harnesses. destruct a_harness as [self|] eqn:E; [|constructor]. apply Forall_singleton.
    unfold created. by do 6 eexists. }
  unfold jobs. apply Forall_app. split; [|apply Forall_app; split; [|by apply Forall_singleton]].
  - apply Forall_fmap, Forall_true. done.
  - apply Forall_fmap, Forall_app. by split.
Qed.

Lemma run_thread_steps i answers c : rtc (step code startable) c (run_thread i answers c).
Proof. apply run_schedule_steps. Qed.

Lemma finished_reached : rtc (step code startable) at_rest finished.
Proof.
  etrans; [apply (arriving at_rest jobs jobs_startable)|].
  change {| cf_store := cf_store at_rest; cf_threads := cf_threads at_rest ++ (new_thread code <$> jobs) |}
    with all_arrived. unfold finished.
  etrans; [apply (run_thread_steps 0 [])|]. etrans; [apply (run_thread_steps 1)|].
  etrans; [apply (run_thread_steps 2 [])|]. apply run_thread_steps.
Qed.

Lemma at_rest_untouched : untouched at_rest.
Proof. by split. Qed.

(** The drives that ended, the launch that was bound and the one that was loaded. *)
Definition ended_drive (x : option (thread ControllerJob ControllerOutcome Answer)) :
    option (RunRequest * TypedRef) :=
  match x with
  | Some {| th_job := DriveJob _ request _ _; th_prog := Ret (Ended ref) |} => Some (request, ref)
  | _ => None
  end.

Lemma ended_drive_spec x request ref :
  ended_drive x = Some (request, ref) →
  ∃ t self steps turns, x = Some t ∧ th_job t = DriveJob self request steps turns ∧ th_prog t = Ret (Ended ref).
Proof.
  destruct x as [[[] [[]|e| |X e k] stop]|]; simpl; try done. intros [= <- <-]. by do 4 eexists.
Qed.

Definition bound_launch (x : option (thread ControllerJob ControllerOutcome Answer)) :
    option (OptimRunLaunch * OptimRunRef) :=
  match x with
  | Some {| th_job := LaunchJob launch; th_prog := Ret (Launched run_ref) |} => Some (launch, run_ref)
  | _ => None
  end.

Lemma bound_launch_spec x launch run_ref :
  bound_launch x = Some (launch, run_ref) →
  ∃ t, x = Some t ∧ th_job t = LaunchJob launch ∧ th_prog t = Ret (Launched run_ref).
Proof.
  destruct x as [[[] [[]|e| |X e k] stop]|]; simpl; try done. intros [= <- <-]. by eexists.
Qed.

Definition loaded_launch (x : option (thread ControllerJob ControllerOutcome Answer)) :
    option (pystr * OptimRunLaunch) :=
  match x with
  | Some {| th_job := LoadJob id; th_prog := Ret (Loaded launch) |} => Some (id, launch)
  | _ => None
  end.

Lemma loaded_launch_spec x id launch :
  loaded_launch x = Some (id, launch) →
  ∃ t, x = Some t ∧ th_job t = LoadJob id ∧ th_prog t = Ret (Loaded launch).
Proof.
  destruct x as [[[] [[]|e| |X e k] stop]|]; simpl; try done. intros [= <- <-]. by eexists.
Qed.

Definition drives_facts (c : configuration) : bool :=
  match ended_drive (cf_threads c !! 1%nat), ended_drive (cf_threads c !! 2%nat) with
  | Some (request, _), Some (request', _) => bool_decide (rq_run_id request = rq_run_id request')
  | _, _ => false
  end.

Lemma drives_facts_spec c :
  drives_facts c = true →
  ∃ request ref request' ref', ended_drive (cf_threads c !! 1%nat) = Some (request, ref) ∧
    ended_drive (cf_threads c !! 2%nat) = Some (request', ref') ∧ rq_run_id request = rq_run_id request'.
Proof.
  unfold drives_facts. destruct (ended_drive _) as [[request ref]|]; [|done].
  destruct (ended_drive _) as [[request' ref']|]; [|done]. intros H%bool_decide_eq_true. by do 4 eexists.
Qed.

Lemma finished_drives : drives_facts finished = true.
Proof. vm_compute. reflexivity. Qed.

Definition launch_facts (c : configuration) : bool :=
  match bound_launch (cf_threads c !! 0%nat), loaded_launch (cf_threads c !! 3%nat) with
  | Some (launch, _), Some (id, _) => bool_decide (id = run_run_id (la_run launch))
  | _, _ => false
  end.

Lemma launch_facts_spec c :
  launch_facts c = true →
  ∃ launch run_ref launch', bound_launch (cf_threads c !! 0%nat) = Some (launch, run_ref) ∧
    loaded_launch (cf_threads c !! 3%nat) = Some (run_run_id (la_run launch), launch').
Proof.
  unfold launch_facts. destruct (bound_launch _) as [[launch run_ref]|]; [|done].
  destruct (loaded_launch _) as [[id launch']|]; [|done]. intros ->%bool_decide_eq_true. by do 3 eexists.
Qed.

Lemma finished_launch : launch_facts finished = true.
Proof. vm_compute. reflexivity. Qed.
End ConcreteDrives.

Section DriveWitnesses.
Import Concrete ConcreteLease ConcreteTemplates ConcreteRun ConcreteRuns ListStore ConcreteDrives.

Lemma drives_agree_witness :
  ∃ request request' ref, rq_run_id request = rq_run_id request' ∧
    rq_control_identity_hash request = rq_control_identity_hash request' ∧
    drive_done [recorded] (cf_store finished) request ref.
Proof.
  destruct (drives_facts_spec _ finished_drives) as (request & ref & request' & ref' & E1 & E2 & H).
  destruct (ended_drive_spec _ _ _ E1) as (t & self & steps & turns & Hi & Hj & Ht).
  destruct (ended_drive_spec _ _ _ E2) as (u & self' & steps' & turns' & Hi' & Hj' & Ht').
  destruct (drives_agree [recorded] recorded_quiet at_rest finished 1 t self request steps turns ref 2 u self'
    request' steps' turns' ref' at_rest_untouched finished_reached Hi Hj Ht Hi' Hj' Ht' H) as (_ & Hc & Hd).
  exists request, request', ref. split; [exact H|]. split; [exact Hc|exact Hd].
Defined.

Lemma launches_agree_witness :
  ∃ launch launch', OptimRun_record_content (la_run launch') = OptimRun_record_content (la_run launch) ∧
    Candidate_record_content (la_initial_candidate launch') =
      Candidate_record_content (la_initial_candidate launch) ∧
    control_dump <$> la_control launch' = control_dump <$> la_control launch ∧
    la_extra_pools launch' = la_extra_pools launch.
Proof.
  destruct (launch_facts_spec _ finished_launch) as (launch & run_ref & launch' & E1 & E2).
  destruct (bound_launch_spec _ _ _ E1) as (t & Hi & Hj & Ht).
  destruct (loaded_launch_spec _ _ _ E2) as (u & Hi' & Hj' & Ht').
  destruct (launches_agree [recorded] recorded_quiet at_rest finished 0 t launch run_ref 3 u recorded_parses_back
    ltac:(by intros) ltac:(intros run run'; apply read_back_dump)
    ltac:(intros candidate candidate'; apply read_back_dump)
    at_rest_untouched finished_reached Hi Hj Ht Hi') as [_ Hload].
  exists launch, launch'. exact (Hload launch' Hj' Ht').
Defined.
End DriveWitnesses.
