(* ===== verification/Miprov2Demos.v ===== *)
(** * Miprov2Demos: demonstrations of a MIPROv2 run

    Models [optim/miprov2/demo_mode.py] and [optim/miprov2/demo.py]: the three
    demonstration regimes, DSPy's acceptance rule of a bootstrapped
    demonstration, and demonstrations with their provenance. *)

From S2P Require Import Prelude Floats Identity Frozen EvalConfigs Reward Tools OptimContracts.

Definition MIPROV2_ACCEPTANCE_SCHEMA := $"whetstone.miprov2_bootstrap_acceptance".
Definition MIPROV2_COMPONENT_DEMO_SCHEMA := $"whetstone.miprov2_component_demo".
Definition MIPROV2_COMPONENT_DEMO_SET_SCHEMA := $"whetstone.miprov2_component_demo_set".
Definition MIPROV2_DEMO_SCHEMA_VERSION : Z := 2.

(** ** Demo modes *)

Inductive Miprov2DemoMode := FEWSHOT | ZEROSHOT | GROUND_ONLY.

#[export] Instance Miprov2DemoMode_eq_dec : EqDecision Miprov2DemoMode.
Proof. solve_decision. Defined.

Definition Miprov2DemoMode_value (m : Miprov2DemoMode) : pystr :=
  match m with
  | FEWSHOT => $"fewshot" | ZEROSHOT => $"zeroshot" | GROUND_ONLY => $"ground_only"
  end.

Definition bootstraps (m : Miprov2DemoMode) : bool := true.
Definition searches_demos (m : Miprov2DemoMode) : bool := bool_decide (m = FEWSHOT).
Definition is_faithful_dspy (m : Miprov2DemoMode) : bool := negb (bool_decide (m = GROUND_ONLY)).

(** ** Acceptance *)

(** [MetricValue]. *)
Inductive MetricValue := MetricBool (b : bool) | MetricFloat (f : float).

#[export] Instance MetricValue_eq_dec : EqDecision MetricValue.
Proof. solve_decision. Defined.

Definition MetricValue_dump (v : MetricValue) : pyval :=
  match v with MetricBool b => PBool b | MetricFloat f => PFloat f end.

(** A boolean compares as 0 or 1. *)
Definition metric_number (v : MetricValue) : float :=
  match v with MetricBool b => if b then fone else fzero | MetricFloat f => f end.

(** [bool(f)]. *)
Definition float_truth (f : float) : bool := negb (feq f fzero).

Definition metric_truth (v : MetricValue) : bool :=
  match v with MetricBool b => b | MetricFloat f => float_truth f end.

Definition bootstrap_accepts (metric_present : bool) (score : option MetricValue)
    (metric_threshold : option float) : result bool :=
  if negb metric_present then Ok true else
  score ← of_option score ValueError "a present metric must have a score";
  match metric_threshold with
  | Some threshold =>
      if float_truth threshold then Ok (fle threshold (metric_number score))
      else Ok (metric_truth score)
  | None => Ok (metric_truth score)
  end.

Record BootstrapAcceptance := {
  ba_source_task_hash : pystr;
  ba_source_generation_hash : pystr;
  ba_source_trace_hash : pystr;
  ba_source_output_hash : pystr;
  ba_source_score_hash : pystr;
  ba_metric_present : bool;
  ba_score : option MetricValue;
  ba_metric_threshold : option float;
  ba_accepted : bool;
}.

Definition full_hash (h : pystr) : result unit := require_full_hash (PStr h) ;; Ok tt.

(** The fields of type [MetricValue] and [FiniteFloat] as they are stored. *)
Definition stored_metric_value (v : MetricValue) : result MetricValue :=
  match v with
  | MetricBool b => Ok (MetricBool b)
  | MetricFloat f => f ← finite_field f; Ok (MetricFloat f)
  end.

Definition stored_numbers (self : BootstrapAcceptance) : result BootstrapAcceptance :=
  score ← match ba_score self with
          | None => Ok None
          | Some v => v ← stored_metric_value v; Ok (Some v)
          end;
  threshold ← match ba_metric_threshold self with
              | None => Ok None
              | Some f => f ← finite_field f; Ok (Some f)
              end;
  Ok {| ba_source_task_hash := ba_source_task_hash self;
        ba_source_generation_hash := ba_source_generation_hash self;
        ba_source_trace_hash := ba_source_trace_hash self;
        ba_source_output_hash := ba_source_output_hash self;
        ba_source_score_hash := ba_source_score_hash self;
        ba_metric_present := ba_metric_present self; ba_score := score;
        ba_metric_threshold := threshold; ba_accepted := ba_accepted self |}.

Definition BootstrapAcceptance_validate (self : BootstrapAcceptance) : result BootstrapAcceptance :=
  self ← stored_numbers self;
  for_each full_hash
    [ba_source_task_hash self; ba_source_generation_hash self; ba_source_trace_hash self;
     ba_source_output_hash self; ba_source_score_hash self] ;;
  require (negb (ba_metric_present self && negb (is_some (ba_score self)))) ValueError
    "a present metric must have a score" ;;
  require (negb (negb (ba_metric_present self) && is_some (ba_score self))) ValueError
    "an absent metric cannot have a score" ;;
  expected ← bootstrap_accepts (ba_metric_present self) (ba_score self) (ba_metric_threshold self);
  require (Bool.eqb (ba_accepted self) expected) ValueError
    "accepted does not match DSPy's threshold rule" ;;
  Ok self.

Definition BootstrapAcceptance_identity_payload (self : BootstrapAcceptance) : pyval :=
  PDict [($"source_task_hash", PStr (ba_source_task_hash self));
         ($"source_generation_hash", PStr (ba_source_generation_hash self));
         ($"source_trace_hash", PStr (ba_source_trace_hash self));
         ($"source_output_hash", PStr (ba_source_output_hash self));
         ($"source_score_hash", PStr (ba_source_score_hash self));
         ($"metric_present", PBool (ba_metric_present self));
         ($"score", POption MetricValue_dump (ba_score self));
         ($"metric_threshold", POption PFloat (ba_metric_threshold self));
         ($"accepted", PBool (ba_accepted self))].

(** ** Observed steps and demonstrations *)

(** [_require_disjoint_fields]. *)
Definition require_disjoint_fields (inputs outputs : list (pystr * pyval)) : result unit :=
  require (forallb (λ name, negb (bool_decide (name ∈ outputs.*1))) inputs.*1) ValueError
    "demo input/output fields overlap".

Record ObservedTraceStep := {
  ots_trace_index : Z;
  ots_component_id : option pystr;
  ots_inputs : list (pystr * pyval);
  ots_outputs : list (pystr * pyval);
}.

Definition ObservedTraceStep_validate (self : ObservedTraceStep) : result ObservedTraceStep :=
  require (negb (ots_trace_index self <? 0)%Z) ValueError "trace_index cannot be negative" ;;
  require (negb (bool_decide (ots_component_id self = Some []))) ValueError
    "component_id must be non-empty when present" ;;
  require_disjoint_fields (ots_inputs self) (ots_outputs self) ;;
  Ok self.

Definition ObservedTraceStep_identity_payload (self : ObservedTraceStep) : pyval :=
  PDict [($"trace_index", PInt (ots_trace_index self));
         ($"component_id", POption PStr (ots_component_id self));
         ($"inputs", to_json (ots_inputs self)); ($"outputs", to_json (ots_outputs self))].

Inductive DemoSourceKind := BOOTSTRAPPED | LABELED.

#[export] Instance DemoSourceKind_eq_dec : EqDecision DemoSourceKind.
Proof. solve_decision. Defined.

Definition DemoSourceKind_value (k : DemoSourceKind) : pystr :=
  match k with BOOTSTRAPPED => $"bootstrapped" | LABELED => $"labeled" end.

Record ComponentDemo := {
  cd_component_id : pystr;
  cd_source_kind : DemoSourceKind;
  cd_inputs : list (pystr * pyval);
  cd_outputs : list (pystr * pyval);
  cd_augmented : bool;
  cd_source_task_hash : pystr;
  cd_source_generation_hash : pystr;
  cd_source_trace_hash : pystr;
  cd_source_output_hash : pystr;
  cd_source_score_hash : pystr;
  cd_source_trace_index : option Z;
  cd_score : option MetricValue;
  cd_acceptance_identity_hash : pystr;
}.

Definition ComponentDemo_validate (self : ComponentDemo) : result ComponentDemo :=
  require (negb (bool_decide (cd_component_id self = []))) ValueError
    "component_id must be non-empty" ;;
  for_each full_hash
    [cd_source_task_hash self; cd_source_generation_hash self; cd_source_trace_hash self;
     cd_source_output_hash self; cd_source_score_hash self; cd_acceptance_identity_hash self] ;;
  require (match cd_source_trace_index self with Some i => negb (i <? 0)%Z | None => true end)
    ValueError "source_trace_index cannot be negative" ;;
  match cd_source_kind self with
  | BOOTSTRAPPED =>
      require (cd_augmented self) ValueError "bootstrapped demos must be augmented" ;;
      require (is_some (cd_source_trace_index self)) ValueError
        "bootstrapped demos require a source trace index"
  | LABELED =>
      require (negb (cd_augmented self)) ValueError "labeled demos cannot be augmented" ;;
      require (negb (is_some (cd_source_trace_index self))) ValueError
        "labeled demos cannot have a source trace index"
  end ;;
  require_disjoint_fields (cd_inputs self) (cd_outputs self) ;;
  Ok self.

(** The identity payload; the dump has the same fields in the same order. *)
Definition ComponentDemo_identity_payload (self : ComponentDemo) : pyval :=
  PDict [($"component_id", PStr (cd_component_id self));
         ($"source_kind", PStr (DemoSourceKind_value (cd_source_kind self)));
         ($"inputs", to_json (cd_inputs self)); ($"outputs", to_json (cd_outputs self));
         ($"augmented", PBool (cd_augmented self));
         ($"source_task_hash", PStr (cd_source_task_hash self));
         ($"source_generation_hash", PStr (cd_source_generation_hash self));
         ($"source_trace_hash", PStr (cd_source_trace_hash self));
         ($"source_output_hash", PStr (cd_source_output_hash self));
         ($"source_score_hash", PStr (cd_source_score_hash self));
         ($"source_trace_index", POption PInt (cd_source_trace_index self));
         ($"score", POption MetricValue_dump (cd_score self));
         ($"acceptance_identity_hash", PStr (cd_acceptance_identity_hash self))].

(** ** Labeled tasks *)

Record LabeledTaskDemo := {
  ltd_source_task_hash : pystr;
  ltd_inputs_by_component : list (pystr * pyval);
  ltd_outputs_by_component : list (pystr * pyval);
}.

Definition LabeledTaskDemo_validate (self : LabeledTaskDemo) : result LabeledTaskDemo :=
  full_hash (ltd_source_task_hash self) ;;
  let inputs := (ltd_inputs_by_component self).*1 in
  let outputs := (ltd_outputs_by_component self).*1 in
  require (forallb (λ c, bool_decide (c ∈ outputs)) inputs &&
           forallb (λ c, bool_decide (c ∈ inputs)) outputs) ValueError
    "labeled input and output component sets must match" ;;
  require (forallb (λ c, negb (bool_decide (c = []))) inputs) ValueError
    "labeled component ids must be non-empty" ;;
  Ok self.

(** [_component_fields]: the plain dictionary of one component. *)
Definition component_fields (by_component : list (pystr * pyval)) (component_id : pystr) :
    result pyval :=
  fields ← of_option (dict_get by_component component_id) ValueError "no component";
  match fields with
  | PFrozen kvs => Ok (to_json kvs)
  | _ => raise ValueError "must be a JSON object"
  end.

Definition inputs_for (self : LabeledTaskDemo) (component_id : pystr) : result pyval :=
  component_fields (ltd_inputs_by_component self) component_id.
Definition outputs_for (self : LabeledTaskDemo) (component_id : pystr) : result pyval :=
  component_fields (ltd_outputs_by_component self) component_id.

(** ** Demo sets *)

Record ComponentDemoSequence := {
  cseq_component_id : pystr;
  cseq_demos : list ComponentDemo;
}.
Record ComponentDemoSet := {
  cset_candidate_seed : Z;
  cset_components : list ComponentDemoSequence;
}.

Definition ComponentDemoSequence_validate (self : ComponentDemoSequence) :
    result ComponentDemoSequence :=
  require (negb (bool_decide (cseq_component_id self = []))) ValueError
    "component_id must be non-empty" ;;
  require (forallb (λ demo, bool_decide (cd_component_id demo = cseq_component_id self))
             (cseq_demos self)) ValueError "all demos must belong to the sequence component" ;;
  Ok self.

Definition ComponentDemoSet_validate (self : ComponentDemoSet) : result ComponentDemoSet :=
  let component_ids := cseq_component_id <$> cset_components self in
  require (negb (bool_decide (component_ids = []))) ValueError
    "a demo set needs at least one component" ;;
  require (all_unique component_ids) ValueError "demo set components must be unique" ;;
  Ok self.

Definition ComponentDemoSequence_model_validate (self : ComponentDemoSequence) :
    result ComponentDemoSequence :=
  for_each (λ demo, ComponentDemo_validate demo ;; Ok tt) (cseq_demos self) ;;
  ComponentDemoSequence_validate self.

(** [ComponentDemoSet.model_validate] of a dump: nested validators first. *)
Definition ComponentDemoSet_model_validate (self : ComponentDemoSet) : result ComponentDemoSet :=
  for_each (λ s, ComponentDemoSequence_model_validate s ;; Ok tt) (cset_components self) ;;
  ComponentDemoSet_validate self.

Definition ComponentDemoSet_dump (self : ComponentDemoSet) : pyval :=
  PDict [($"candidate_seed", PInt (cset_candidate_seed self));
         ($"components",
           PList ((λ s, PDict [($"component_id", PStr (cseq_component_id s));
                               ($"demos", PList (ComponentDemo_identity_payload <$> cseq_demos s))])
                  <$> cset_components self))].

Definition demos_for (self : ComponentDemoSet) (component_id : pystr) :
    result (list ComponentDemo) :=
  of_option (cseq_demos <$>
      head (filter (λ s, cseq_component_id s = component_id) (cset_components self)))
    KeyError "component_id".

Definition proposal_demo_context (demo_candidates : list ComponentDemoSet)
    (demo_mode : Miprov2DemoMode) : list ComponentDemoSet := demo_candidates.

Definition study_demo_context (demo_candidates : list ComponentDemoSet)
    (demo_mode : Miprov2DemoMode) : option (list ComponentDemoSet) :=
  if searches_demos demo_mode then Some demo_candidates else None.

Section Identities.
Context `{DSer : !DrSerialize, DSto : !DrStore}.

Definition BootstrapAcceptance_identity_hash (self : BootstrapAcceptance) : result pystr :=
  compute_identity_hash MIPROV2_ACCEPTANCE_SCHEMA MIPROV2_DEMO_SCHEMA_VERSION
    (BootstrapAcceptance_identity_payload self).

Definition ComponentDemo_identity_hash (self : ComponentDemo) : result pystr :=
  compute_identity_hash MIPROV2_COMPONENT_DEMO_SCHEMA MIPROV2_DEMO_SCHEMA_VERSION
    (ComponentDemo_identity_payload self).

Definition ComponentDemoSet_identity_hash (self : ComponentDemoSet) : result pystr :=
  compute_identity_hash MIPROV2_COMPONENT_DEMO_SET_SCHEMA MIPROV2_DEMO_SCHEMA_VERSION
    (ComponentDemoSet_dump self).

(** A plain dictionary given for an [ImmutableJsonObject] field is frozen. *)
Definition frozen_fields (value : pyval) : result (list (pystr * pyval)) :=
  frozen ← frozen_validate value;
  match frozen with PFrozen kvs => Ok kvs | _ => raise TypeError "" end.

(** [LabeledTaskDemo.for_component]. *)
Definition for_component (self : LabeledTaskDemo) (component_id : pystr) : result ComponentDemo :=
  require (is_some (dict_get (ltd_inputs_by_component self) component_id)) ValueError
    "labeled task has no component" ;;
  inputs ← inputs_for self component_id;
  outputs ← outputs_for self component_id;
  source_hash ← compute_identity_hash $"whetstone.miprov2_labeled_demo_source"
    MIPROV2_DEMO_SCHEMA_VERSION
    (PDict [($"source_task_hash", PStr (ltd_source_task_hash self));
            ($"component_id", PStr component_id); ($"inputs", inputs); ($"outputs", outputs)]);
  acceptance_hash ← compute_identity_hash MIPROV2_ACCEPTANCE_SCHEMA MIPROV2_DEMO_SCHEMA_VERSION
    (PDict [($"source_kind", PStr (DemoSourceKind_value LABELED));
            ($"source_hash", PStr source_hash); ($"accepted", PBool true)]);
  inputs ← frozen_fields inputs;
  outputs ← frozen_fields outputs;
  ComponentDemo_validate
    {| cd_component_id := component_id; cd_source_kind := LABELED; cd_inputs := inputs;
       cd_outputs := outputs; cd_augmented := false;
       cd_source_task_hash := ltd_source_task_hash self;
       cd_source_generation_hash := source_hash; cd_source_trace_hash := source_hash;
       cd_source_output_hash := source_hash; cd_source_score_hash := source_hash;
       cd_source_trace_index := None; cd_score := None;
       cd_acceptance_identity_hash := acceptance_hash |}.
End Identities.

(** ** Theorems *)

Lemma compute_identity_hash_full `{!DrSerialize, !DrStore} schema version payload h :
  compute_identity_hash schema version payload = Ok h → full_hash h = Ok tt.
Proof.
  unfold compute_identity_hash, full_hash, IdentityHash, ValidatedString_new, hash_validate.
  intros (? & _ & (d & _ & Hc)%bind_Ok)%bind_Ok.
  apply bind_Ok in Hc as ([] & Hd & [= <-]). by apply bind_Ok in Hd as (? & -> & _).
Qed.

Lemma LabeledTaskDemo_validate_known self component_id :
  LabeledTaskDemo_validate self = Ok self → component_id ∈ (ltd_inputs_by_component self).*1 →
  full_hash (ltd_source_task_hash self) = Ok tt ∧ component_id ≠ [] ∧
  component_id ∈ (ltd_outputs_by_component self).*1.
Proof.
  unfold LabeledTaskDemo_validate. intros Hv Hin. apply bind_Ok in Hv as ([] & ? & H). cbv zeta in H.
  apply bind_Ok in H as ([] & Hs%require_Ok & H). apply andb_true_iff in Hs as [Hs _].
  apply bind_Ok in H as ([] & Hn%require_Ok & _).
  rewrite forallb_Forall, Forall_forall in Hs, Hn.
  specialize (Hs _ Hin). specialize (Hn _ Hin). cbv beta in Hs, Hn.
  apply bool_decide_eq_true in Hs. apply negb_true_iff, bool_decide_eq_false in Hn. done.
Qed.

Section Labeled.
Context `{DSer : !DrSerialize, DSto : !DrStore, DLaws : !DrSerializeLaws, DTot : !DrTotal}.

(** A labeled task has a demonstration for each of its components: a valid one,
    which carries exactly the fields of the component and whose provenance is
    the task. *)
Lemma for_component_total self component_id inputs outputs :
  LabeledTaskDemo_validate self = Ok self →
  dict_get (ltd_inputs_by_component self) component_id = Some (PFrozen (freeze inputs)) →
  dict_get (ltd_outputs_by_component self) component_id = Some (PFrozen (freeze outputs)) →
  is_json (PDict inputs) = true → is_json (PDict outputs) = true →
  (∀ name, name ∈ inputs.*1 → name ∉ outputs.*1) →
  ∃ demo, for_component self component_id = Ok demo ∧ ComponentDemo_validate demo = Ok demo ∧
    cd_component_id demo = component_id ∧ cd_source_kind demo = LABELED ∧
    cd_inputs demo = freeze inputs ∧ cd_outputs demo = freeze outputs ∧
    cd_source_task_hash demo = ltd_source_task_hash self.
Proof.
  intros Hv Hi Ho Hji Hjo Hdis.
  destruct (LabeledTaskDemo_validate_known _ component_id Hv) as (Ht & Hc & _).
  { destruct (decide (component_id ∈ (ltd_inputs_by_component self).*1)) as [|Hn]; [done|].
    apply dict_get_None in Hn. congruence. }
  unfold for_component, inputs_for, outputs_for, component_fields.
  rewrite Hi, Ho. cbn [is_some of_option].
  rewrite require_true, !bind_Ok_l, !to_json_freeze by done.
  match goal with |- context [compute_identity_hash ?s ?v ?p] =>
    destruct (compute_identity_hash_total s v p) as [h1 Hh1]; [by json_dict|rewrite Hh1] end.
  rewrite bind_Ok_l.
  match goal with |- context [compute_identity_hash ?s ?v ?p] =>
    destruct (compute_identity_hash_total s v p) as [h2 Hh2]; [by json_dict|rewrite Hh2] end.
  rewrite bind_Ok_l. unfold frozen_fields, frozen_validate.
  rewrite !ImmutableJsonObject_json, !bind_Ok_l by done.
  match goal with |- context [ComponentDemo_validate ?d] =>
    assert (ComponentDemo_validate d = Ok d) as Hd; [|by exists d; rewrite Hd] end.
  unfold ComponentDemo_validate;
    cbn [cd_component_id cd_source_task_hash cd_source_generation_hash cd_source_trace_hash
         cd_source_output_hash cd_source_score_hash cd_acceptance_identity_hash cd_source_kind
         cd_source_trace_index cd_augmented cd_inputs cd_outputs is_some negb for_each].
  rewrite bool_decide_false by done. rewrite Ht, !(compute_identity_hash_full _ _ _ _ Hh1),
    (compute_identity_hash_full _ _ _ _ Hh2).
  unfold require_disjoint_fields. rewrite (proj2 (forallb_Forall _ _)); [done|].
  apply Forall_forall. intros name Hn. apply negb_true_iff, bool_decide_eq_false.
  unfold freeze in *; rewrite map_values_keys in *; by apply Hdis.
Qed.
End Labeled.
