(* ===== verification/Miprov2Evals.v ===== *)
(** * Miprov2Evals: derived evaluation configs of a MIPROv2 run

    Models [optim/miprov2/eval_config.py]: the execution policy of an
    evaluation, the derivation of an evaluation config for an exact ordered
    batch of tasks, and the binding that ties the derived config, its task set
    and its seed plan to the request they answer. *)

From S2P Require Import Prelude Floats Identity Frozen EvalConfigs Reward Plan Tools OptimContracts.
From S2P Require Import Miprov2Demos.

Definition MIPROV2_EVAL_EXECUTION_POLICY_SCHEMA :=
  $"whetstone.miprov2_evaluation_execution_policy".
Definition MIPROV2_EVAL_EXECUTION_POLICY_SCHEMA_VERSION : Z := 1.
Definition MIPROV2_EVAL_BINDING_REQUEST_SCHEMA := $"whetstone.miprov2_eval_binding_request".
Definition MIPROV2_EVAL_BINDING_REQUEST_SCHEMA_VERSION : Z := 1.
Definition MIPROV2_EVAL_BINDING_SCHEMA := $"whetstone.miprov2_eval_binding".
Definition MIPROV2_EVAL_BINDING_SCHEMA_VERSION : Z := 1.

#[export] Instance EvalConfigRef_eq_dec : EqDecision EvalConfigRef.
Proof. solve_decision. Defined.

(** [Miprov2EvalPurpose]. *)
Inductive Miprov2EvalPurpose := BOOTSTRAP | BASELINE | SAMPLE | PROMOTION.

#[export] Instance Miprov2EvalPurpose_eq_dec : EqDecision Miprov2EvalPurpose.
Proof. solve_decision. Defined.

Definition Miprov2EvalPurpose_value (p : Miprov2EvalPurpose) : pystr :=
  match p with
  | BOOTSTRAP => $"bootstrap" | BASELINE => $"baseline" | SAMPLE => $"sample"
  | PROMOTION => $"promotion"
  end.

(** ** Execution policies *)

Record Miprov2EvaluationExecutionPolicy := {
  mep_max_errors : Z;
  mep_provide_traceback : option bool;
  mep_task_model_identity_hash : pystr;
  mep_provider_execution_policy_hash : pystr;
  mep_provider_parameters : list (pystr * pyval);
  mep_generation_id : option Z;
  mep_copy_task_model : bool;
}.

Definition Miprov2EvaluationExecutionPolicy_validate (self : Miprov2EvaluationExecutionPolicy) :
    result Miprov2EvaluationExecutionPolicy :=
  require (negb (mep_max_errors self <=? 0)%Z) ValueError "max_errors must be positive" ;;
  require (match mep_generation_id self with Some g => negb (g <? 0)%Z | None => true end)
    ValueError "generation_id cannot be negative" ;;
  for_each full_hash
    [mep_task_model_identity_hash self; mep_provider_execution_policy_hash self] ;;
  Ok self.

(** The identity payload; the dump has the same fields in the same order. *)
Definition Miprov2EvaluationExecutionPolicy_identity_payload
    (self : Miprov2EvaluationExecutionPolicy) : pyval :=
  PDict [($"max_errors", PInt (mep_max_errors self));
         ($"provide_traceback", POption PBool (mep_provide_traceback self));
         ($"task_model_identity_hash", PStr (mep_task_model_identity_hash self));
         ($"provider_execution_policy_hash", PStr (mep_provider_execution_policy_hash self));
         ($"provider_parameters", to_json (mep_provider_parameters self));
         ($"generation_id", POption PInt (mep_generation_id self));
         ($"copy_task_model", PBool (mep_copy_task_model self))].

(** ** Requests and bindings *)

Record EvalBindingRequest := {
  ebr_control_identity_hash : pystr;
  ebr_source_eval_config : EvalConfigRef;
  ebr_purpose : Miprov2EvalPurpose;
  ebr_effect_identity_hash : pystr;
  ebr_execution_policy : Miprov2EvaluationExecutionPolicy;
  ebr_task_batch_hashes : list pystr;
  ebr_num_seeds : Z;
}.

Definition EvalBindingRequest_identity_payload (self : EvalBindingRequest) : pyval :=
  PDict [($"control_identity_hash", PStr (ebr_control_identity_hash self));
         ($"source_eval_config", EvalConfigRef_dump (ebr_source_eval_config self));
         ($"purpose", PStr (Miprov2EvalPurpose_value (ebr_purpose self)));
         ($"effect_identity_hash", PStr (ebr_effect_identity_hash self));
         ($"execution_policy",
           Miprov2EvaluationExecutionPolicy_identity_payload (ebr_execution_policy self));
         ($"task_batch_hashes", PList (PStr <$> ebr_task_batch_hashes self));
         ($"num_seeds", PInt (ebr_num_seeds self))].

Record EvalBinding := {
  eb_request : EvalBindingRequest;
  eb_task_set : TaskSet;
  eb_seed_plan : SeedPlan;
  eb_sampling_config : SamplingConfig;
  eb_eval_config : EvalConfigRef;
}.

Definition pairs_dump {A} (f : A → pyval) (pairs : list (pystr * A)) : pyval :=
  PList ((λ pair, PList [PStr pair.1; f pair.2]) <$> pairs).

Definition TaskSet_dump (t : TaskSet) : pyval :=
  PDict [($"manifest_id", PStr (ts_manifest_id t)); ($"version", PStr (ts_version t));
         ($"dataset_revision", PStr (ts_dataset_revision t));
         ($"task_hashes", PList (PStr <$> ts_task_hashes t));
         ($"selection_rule",
           POption (λ r, PDict [($"kind", PStr (sr_kind r));
                                ($"params", pairs_dump PStr (sr_params r))])
             (ts_selection_rule t))].

Definition SeedPlan_dump (p : SeedPlan) : pyval :=
  PDict [($"plan_id", PStr (sp_plan_id p)); ($"version", PStr (sp_version p));
         ($"task_hashes", PList (PStr <$> sp_task_hashes p));
         ($"num_seeds", PInt (sp_num_seeds p)); ($"rng_seeds", pairs_dump PInt (sp_rng_seeds p))].

Definition SamplingConfig_dump (c : SamplingConfig) : pyval :=
  PDict [($"definition_ref", DefinitionRef_dump (sc_definition_ref c));
         ($"assignment", assignment_payload (sc_assignment c));
         ($"config_hash", PStr (sc_config_hash c))].

(** The identity payload; the dump has the same fields in the same order. *)
Definition EvalBinding_identity_payload (self : EvalBinding) : pyval :=
  PDict [($"request", EvalBindingRequest_identity_payload (eb_request self));
         ($"task_set", TaskSet_dump (eb_task_set self));
         ($"seed_plan", SeedPlan_dump (eb_seed_plan self));
         ($"sampling_config", SamplingConfig_dump (eb_sampling_config self));
         ($"eval_config", EvalConfigRef_dump (eb_eval_config self))].

Section Derivation.
Context `{DSer : !DrSerialize, DSto : !DrStore}.

Definition Miprov2EvaluationExecutionPolicy_identity_hash
    (self : Miprov2EvaluationExecutionPolicy) : result pystr :=
  compute_identity_hash MIPROV2_EVAL_EXECUTION_POLICY_SCHEMA
    MIPROV2_EVAL_EXECUTION_POLICY_SCHEMA_VERSION
    (Miprov2EvaluationExecutionPolicy_identity_payload self).

(** [_canonical_eval_config_hash]. *)
Definition canonical_eval_config_hash (eval_config : EvalConfigRef) : result pystr :=
  let record := ecr_record eval_config in
  identity_hash_for SCHEMA_EVAL_CONFIG
    (EvalConfig_payload (dr_identity_hash (ec_definition_ref record))
       (ec_sampling_config_hash record) (ec_evaluation_procedure_config_hash record)
       (ec_aggregation_config_hash record)).

(** [_require_canonical_eval_config]. *)
Definition require_canonical_eval_config (eval_config : EvalConfigRef) : result unit :=
  let record := ecr_record eval_config in
  for_each full_hash
    [dr_identity_hash (ec_definition_ref record); ec_sampling_config_hash record;
     ec_evaluation_procedure_config_hash record; ec_aggregation_config_hash record;
     ec_config_hash record] ;;
  canonical ← canonical_eval_config_hash eval_config;
  require (bool_decide (ecr_config_hash eval_config = canonical)) ValueError
    "has a non-canonical Eval Config identity" ;;
  expected_reference ← eval_config_reference record;
  require (bool_decide (ecr_record_ref eval_config = ecr_record_ref expected_reference)) ValueError
    "record_ref does not address its exact record".

(** [_canonical_sampling_config_hash]. *)
Definition canonical_sampling_config_hash (sampling_config : SamplingConfig) : result pystr :=
  identity_hash_for SCHEMA_SAMPLING_CONFIG
    (PDict [($"definition_identity", PStr (dr_identity_hash (sc_definition_ref sampling_config)));
            ($"assignment", assignment_payload (sc_assignment sampling_config))]).

Definition derive_eval_config_reference (source_eval_config : EvalConfigRef)
    (sampling_config : SamplingConfig) : result EvalConfigRef :=
  require_canonical_eval_config source_eval_config ;;
  full_hash (dr_identity_hash (sc_definition_ref sampling_config)) ;;
  full_hash (sc_config_hash sampling_config) ;;
  expected_sampling_hash ← canonical_sampling_config_hash sampling_config;
  require (bool_decide (sc_config_hash sampling_config = expected_sampling_hash)) ValueError
    "sampling_config has a non-canonical identity" ;;
  let source := ecr_record source_eval_config in
  config_hash ← identity_hash_for SCHEMA_EVAL_CONFIG
    (EvalConfig_payload (dr_identity_hash (ec_definition_ref source))
       (sc_config_hash sampling_config) (ec_evaluation_procedure_config_hash source)
       (ec_aggregation_config_hash source));
  eval_config_reference
    {| ec_definition_ref := ec_definition_ref source;
       ec_sampling_config_hash := sc_config_hash sampling_config;
       ec_evaluation_procedure_config_hash := ec_evaluation_procedure_config_hash source;
       ec_aggregation_config_hash := ec_aggregation_config_hash source;
       ec_config_hash := config_hash |}.

Definition EvalBindingRequest_validate (self : EvalBindingRequest) : result EvalBindingRequest :=
  full_hash (ebr_control_identity_hash self) ;;
  full_hash (ebr_effect_identity_hash self) ;;
  require_canonical_eval_config (ebr_source_eval_config self) ;;
  require (negb (bool_decide (ebr_task_batch_hashes self = []) || (ebr_num_seeds self <=? 0)%Z))
    ValueError "Eval Config derivation requires tasks and positive repeats" ;;
  require (all_unique (ebr_task_batch_hashes self)) ValueError
    "Eval Config derivation tasks must be unique" ;;
  for_each full_hash (ebr_task_batch_hashes self) ;;
  Ok self.

(** [EvalBindingRequest.model_validate] of a dump. *)
Definition EvalBindingRequest_model_validate (self : EvalBindingRequest) :
    result EvalBindingRequest :=
  EvalConfigRef_validate (ebr_source_eval_config self) ;;
  Miprov2EvaluationExecutionPolicy_validate (ebr_execution_policy self) ;;
  EvalBindingRequest_validate self.

Definition EvalBindingRequest_identity_hash (self : EvalBindingRequest) : result pystr :=
  compute_identity_hash MIPROV2_EVAL_BINDING_REQUEST_SCHEMA
    MIPROV2_EVAL_BINDING_REQUEST_SCHEMA_VERSION (EvalBindingRequest_identity_payload self).

Definition EvalBinding_validate (self : EvalBinding) : result EvalBinding :=
  let tasks := ebr_task_batch_hashes (eb_request self) in
  require (bool_decide (ts_task_hashes (eb_task_set self) = tasks) &&
           negb (is_some (ts_selection_rule (eb_task_set self)))) ValueError
    "bound Task Set has the wrong ordered tasks" ;;
  require (bool_decide (sp_task_hashes (eb_seed_plan self) = tasks) &&
           (sp_num_seeds (eb_seed_plan self) =? ebr_num_seeds (eb_request self))%Z) ValueError
    "bound TaskTrial Plan conflicts with request" ;;
  task_set_hash ← TaskSet_identity_hash (eb_task_set self);
  seed_plan_hash ← SeedPlan_identity_hash (eb_seed_plan self);
  full_hash task_set_hash ;;
  full_hash seed_plan_hash ;;
  require (bool_decide (sc_assignment (eb_sampling_config self) =
      [($"task_set_hash", PStr task_set_hash); ($"seed_plan_hash", PStr seed_plan_hash)]))
    ValueError
    "bound Sampling Config does not bind the exact ordered Task Set and TaskTrial Plan" ;;
  full_hash (dr_identity_hash (sc_definition_ref (eb_sampling_config self))) ;;
  expected_sampling_hash ← canonical_sampling_config_hash (eb_sampling_config self);
  require (bool_decide (sc_config_hash (eb_sampling_config self) = expected_sampling_hash))
    ValueError "bound Sampling Config identity is not canonical" ;;
  expected_eval_config ← derive_eval_config_reference
    (ebr_source_eval_config (eb_request self)) (eb_sampling_config self);
  require (bool_decide (eb_eval_config self = expected_eval_config)) ValueError
    "bound Eval Config is not the canonical source derivation" ;;
  Ok self.

(** [EvalBinding.model_validate] of a dump. *)
Definition EvalBinding_model_validate (self : EvalBinding) : result EvalBinding :=
  EvalBindingRequest_model_validate (eb_request self) ;;
  TaskSet_validate (eb_task_set self) ;;
  SeedPlan_validate (eb_seed_plan self) ;;
  EvalConfigRef_validate (eb_eval_config self) ;;
  EvalBinding_validate self.

Definition EvalBinding_identity_hash (self : EvalBinding) : result pystr :=
  compute_identity_hash MIPROV2_EVAL_BINDING_SCHEMA MIPROV2_EVAL_BINDING_SCHEMA_VERSION
    (EvalBinding_identity_payload self).
End Derivation.

(** ** Theorems *)

Section Theorems.
Context `{DSer : !DrSerialize, DSto : !DrStore}.
Implicit Types source derived : EvalConfigRef.

Lemma full_hash_Ok h u : full_hash h = Ok u → full_hash h = Ok tt.
Proof. by destruct u. Qed.

Lemma for_each_full_hash hs : for_each full_hash hs = Ok tt ↔ Forall (λ h, full_hash h = Ok tt) hs.
Proof.
  induction hs as [|h hs IH]; simpl; [by split|]. rewrite Forall_cons, <-IH. split.
  - intros ([] & Hh & Hs)%bind_Ok. done.
  - intros [-> ->]. done.
Qed.

Lemma eval_config_reference_ids record ref :
  eval_config_reference record = Ok ref →
  ecr_record ref = record ∧ ecr_config_hash ref = ec_config_hash record.
Proof.
  intros (r & _ & H)%bind_Ok. unfold EvalConfigRef_validate in H.
  apply bind_Ok in H as (? & _ & (? & _ & (? & _ & [= <-])%bind_Ok)%bind_Ok). done.
Qed.

Lemma derived_record source sampling derived :
  derive_eval_config_reference source sampling = Ok derived →
  eval_config_reference (ecr_record derived) = Ok derived ∧
  ec_definition_ref (ecr_record derived) = ec_definition_ref (ecr_record source) ∧
  ec_sampling_config_hash (ecr_record derived) = sc_config_hash sampling ∧
  ec_evaluation_procedure_config_hash (ecr_record derived) =
    ec_evaluation_procedure_config_hash (ecr_record source) ∧
  ec_aggregation_config_hash (ecr_record derived) = ec_aggregation_config_hash (ecr_record source).
Proof.
  unfold derive_eval_config_reference. intros H. do 5 apply bind_Ok in H as (? & _ & H).
  cbv zeta in H. apply bind_Ok in H as (? & _ & H).
  destruct (eval_config_reference_ids _ _ H) as [Hr _]. rewrite !Hr. by rewrite H.
Qed.

(** What is derived is canonical again. *)
Lemma derived_canonical source sampling derived :
  derive_eval_config_reference source sampling = Ok derived →
  require_canonical_eval_config derived = Ok tt.
Proof.
  intros Hd. destruct (derived_record _ _ _ Hd) as (Href & Hdef & Hs & Hp & Ha).
  unfold derive_eval_config_reference in Hd.
  apply bind_Ok in Hd as ([] & Hsrc & Hd). apply bind_Ok in Hd as ([] & _ & Hd).
  apply bind_Ok in Hd as ([] & Hfull & Hd). do 2 apply bind_Ok in Hd as (? & _ & Hd).
  cbv zeta in Hd. apply bind_Ok in Hd as (h & Hh & Hd).
  pose proof (eval_config_reference_ids _ _ Hd) as [Hrec Hid]. cbn [ec_config_hash] in Hid.
  unfold require_canonical_eval_config in Hsrc. cbv zeta in Hsrc.
  apply bind_Ok in Hsrc as ([] & Hsrc%for_each_full_hash & _).
  rewrite !Forall_cons in Hsrc. destruct Hsrc as (H1 & _ & H3 & H4 & _).
  unfold require_canonical_eval_config. rewrite (proj2 (for_each_full_hash _)).
  2:{ rewrite !Forall_cons, Hdef, Hs, Hp, Ha. 
      refine (conj H1 (conj Hfull (conj H3 (conj H4 (conj _ (Forall_nil_2 _)))))).
      rewrite Hrec. exact (compute_identity_hash_full _ _ _ _ Hh). }
  rewrite bind_Ok_l. unfold canonical_eval_config_hash. rewrite Hdef, Hs, Hp, Ha, Hh, bind_Ok_l.
  rewrite Hid, bool_decide_true by done. rewrite require_true, bind_Ok_l, Href, bind_Ok_l.
  by rewrite bool_decide_true.
Qed.

(** Deriving again for another batch forgets the first one: the derivation of a
    derived config is the derivation of its source. *)
Lemma derive_absorbs source sampling derived sampling' :
  derive_eval_config_reference source sampling = Ok derived →
  derive_eval_config_reference derived sampling' = derive_eval_config_reference source sampling'.
Proof.
  intros Hd. destruct (derived_record _ _ _ Hd) as (_ & Hdef & _ & Hp & Ha).
  pose proof (derived_canonical _ _ _ Hd) as Hc.
  unfold derive_eval_config_reference in *. apply bind_Ok in Hd as ([] & Hsrc & _).
  by rewrite Hc, Hsrc, Hdef, Hp, Ha.
Qed.
End Theorems.
