(* ===== verification/Miprov2Random.v ===== *)
(** * Miprov2Random: the replayable random numbers of a MIPROv2 run

    Models [optim/miprov2/rng.py]. A checkpoint records the seed of a
    generator, every draw made from it and its state; it is valid only when
    replaying the draws from the seed gives their results and that state, so
    that a run resumes where it stopped. [random.Random], whose Mersenne
    Twister is C code, is a parameter. *)

From S2P Require Import Prelude Floats Identity Frozen EvalConfigs Reward Plan Tools OptimContracts.
From S2P Require Import Miprov2Demos.

Definition MIPROV2_DEMO_BRIDGE_VERSION := $"whetstone_component_demo_bridge/v1".

(** [random.Random]: a generator, the positions its methods pick, and its
    state. Every method picks positions of a sequence from its length alone. *)
Class PyRandom := {
  rng : Type;
  rng_seeded : Z → rng;
  (** [sample] of [k] positions of [n]; [shuffle] of [n]; [choice] of [n]. *)
  rng_sample : rng → Z → Z → list Z * rng;
  rng_shuffle : rng → Z → list Z * rng;
  rng_choice : rng → Z → Z * rng;
  rng_randint : rng → Z → Z → Z * rng;
  (** [getstate] and [setstate]. *)
  rng_getstate : rng → Z * list Z * option float;
  rng_setstate : Z * list Z * option float → result rng;
}.

Class PyRandomLaws `{!PyRandom} : Prop := {
  rng_setstate_getstate r : rng_setstate (rng_getstate r) = Ok r;
  rng_gauss_finite r f : (rng_getstate r).2 = Some f → fisfinite f = true;
  rng_sample_picks r n k : (0 ≤ k ≤ n)%Z →
    let picked := (rng_sample r n k).1 in
    Z.of_nat (length picked) = k ∧ NoDup picked ∧ Forall (λ i, 0 ≤ i < n)%Z picked;
  rng_shuffle_permutes r n : (rng_shuffle r n).1 ≡ₚ range n;
  rng_choice_picks r n : (0 < n)%Z → (0 ≤ (rng_choice r n).1 < n)%Z;
  rng_randint_between r a b : (a ≤ b)%Z → (a ≤ (rng_randint r a b).1 ≤ b)%Z;
}.

(** [seq[index] for index in indices]; positions outside are left out. *)
Definition pick {A} (population : list A) (indices : list Z) : list A :=
  omap (λ i, if (i <? 0)%Z then None else population !! Z.to_nat i) indices.

Definition len {A} (l : list A) : Z := Z.of_nat (length l).

(** ** States *)

Record Miprov2RandomState := {
  rs_version : Z;
  rs_internal : list Z;
  rs_gaussian_next : option float;
}.

(** [==] of two states. *)
Definition state_eq (a b : Miprov2RandomState) : bool :=
  (rs_version a =? rs_version b)%Z && bool_decide (rs_internal a = rs_internal b) &&
  match rs_gaussian_next a, rs_gaussian_next b with
  | None, None => true
  | Some x, Some y => feq x y
  | _, _ => false
  end.

(** ** Draws *)

Inductive RngPhase := DATASET_PHASE | BOOTSTRAP_PHASE | PROPOSAL_PHASE | EVALUATION_PHASE.
Inductive Miprov2RngOperation := SAMPLE_OP | SHUFFLE_OP | CHOICE_OP | RANDINT_OP.

#[export] Instance Miprov2RngOperation_eq_dec : EqDecision Miprov2RngOperation.
Proof. solve_decision. Defined.

(** The table of [_replay_draw]. *)
Definition allowed_operations (phase : RngPhase) : list Miprov2RngOperation :=
  match phase with
  | DATASET_PHASE => [SAMPLE_OP]
  | BOOTSTRAP_PHASE => [SHUFFLE_OP; RANDINT_OP]
  | PROPOSAL_PHASE => [CHOICE_OP; RANDINT_OP]
  | EVALUATION_PHASE => [SAMPLE_OP]
  end.

Record Miprov2RngDraw := {
  rd_ordinal : Z;
  rd_phase : RngPhase;
  rd_operation : Miprov2RngOperation;
  rd_arguments : list pyval;
  rd_result : pyval;
}.

Record Miprov2RngCheckpoint := {
  rc_seed : Z;
  rc_state : Miprov2RandomState;
  rc_draws : list Miprov2RngDraw;
}.

Definition Miprov2RngDraw_validate (self : Miprov2RngDraw) : result Miprov2RngDraw :=
  require (negb (rd_ordinal self <? 0)%Z) ValueError "RNG draw ordinal cannot be negative" ;;
  Ok self.

(** [_lists_for_tuples]. *)
Fixpoint lists_for_tuples (value : pyval) : pyval :=
  match value with
  | PFrozen kvs => to_json kvs
  | PTuple l | PList l => PList (lists_for_tuples <$> l)
  | PDict kvs => PDict ((λ kv, (kv.1, lists_for_tuples kv.2)) <$> kvs)
  | _ => value
  end.

(** [_json_value], the serializer. *)
Fixpoint rng_json_value (value : pyval) : pyval :=
  match value with
  | PFrozen kvs => to_json kvs
  | PTuple l => PList (rng_json_value <$> l)
  | _ => value
  end.

(** The items of a list or a tuple. *)
Definition sequence_items (value : pyval) : option (list pyval) :=
  match value with PList l | PTuple l => Some l | _ => None end.

(** ** Durable bindings *)

Record Miprov2DurableBindings := {
  mdb_control_identity_hash : pystr;
  mdb_prompt_route_identity_hash : pystr;
  mdb_task_route_identity_hash : pystr;
  mdb_execution_policy_identity_hash : pystr;
  mdb_prompt_adapter_identity_hash : pystr;
  mdb_proposal_executor_policy_identity_hash : pystr;
  mdb_proposal_transport_durability_identity_hash : pystr;
  mdb_base_candidate_identity_hash : pystr;
  mdb_teacher_candidate_identity_hash : pystr;
}.

Definition Miprov2DurableBindings_validate (self : Miprov2DurableBindings) :
    result Miprov2DurableBindings :=
  for_each full_hash
    [mdb_control_identity_hash self; mdb_prompt_route_identity_hash self;
     mdb_task_route_identity_hash self; mdb_execution_policy_identity_hash self;
     mdb_prompt_adapter_identity_hash self; mdb_proposal_executor_policy_identity_hash self;
     mdb_proposal_transport_durability_identity_hash self; mdb_base_candidate_identity_hash self;
     mdb_teacher_candidate_identity_hash self] ;;
  Ok self.

(** ** Checkpoints *)

Section Checkpoints.
Context `{DSer : !DrSerialize, Rand : !PyRandom}.

Definition state_from_random (r : rng) : Miprov2RandomState :=
  let '(version, internal, gaussian_next) := rng_getstate r in
  {| rs_version := version; rs_internal := internal; rs_gaussian_next := gaussian_next |}.

Definition state_seeded (seed : Z) : Miprov2RandomState := state_from_random (rng_seeded seed).

(** [Miprov2RandomState.restore]. *)
Definition restore (self : Miprov2RandomState) : result rng :=
  match rng_setstate (rs_version self, rs_internal self, rs_gaussian_next self) with
  | Ok r => Ok r
  | Err e =>
      if exn_isa (exn_cls e) TypeError || exn_isa (exn_cls e) ValueError
      then raise ValueError "invalid serialized MIPROv2 RNG state" else Err e
  end.

(** [_freeze_json_value]. *)
Fixpoint freeze_json_value (value : pyval) : result pyval :=
  match value with
  | PFrozen _ => Ok value
  | PTuple l => items ← mapM freeze_json_value l; Ok (PTuple items)
  | _ =>
      wrapper ← ImmutableJsonObject (PDict [($"value", value)]);
      match wrapper with
      | PFrozen kvs => frozen_getitem kvs $"value"
      | _ => raise TypeError ""
      end
  end.

(** The constructor of a draw: its JSON values are frozen first. *)
Definition Miprov2RngDraw_new (ordinal : Z) (phase : RngPhase) (operation : Miprov2RngOperation)
    (arguments : list pyval) (result : pyval) : Prelude.result Miprov2RngDraw :=
  arguments ← mapM freeze_json_value arguments;
  result ← freeze_json_value result;
  Miprov2RngDraw_validate
    {| rd_ordinal := ordinal; rd_phase := phase; rd_operation := operation;
       rd_arguments := arguments; rd_result := result |}.

(** [_replay_draw]: the value drawn, and the generator after it. *)
Definition replay_draw (r : rng) (draw : Miprov2RngDraw) : result (pyval * rng) :=
  require (bool_decide (rd_operation draw ∈ allowed_operations (rd_phase draw))) ValueError
    "RNG operation is invalid in this phase" ;;
  match rd_operation draw with
  | SAMPLE_OP =>
      '(population_spec, count) ← match rd_arguments draw with
        | [population_spec; count] => Ok (population_spec, count)
        | _ => raise ValueError "sample draw requires population and count"
        end;
      count ← match count with
        | PInt count => Ok count
        | _ => raise ValueError "sample count must be an integer"
        end;
      population ← match population_spec with
        | PInt n =>
            require (negb (n <? 0)%Z) ValueError "sample population size cannot be negative" ;;
            Ok (PInt <$> range n)
        | _ => of_option (sequence_items population_spec) ValueError
                 "sample population must be a size or sequence"
        end;
      require (negb (count <? 0)%Z && negb (len population <? count)%Z) ValueError
        "Sample larger than population or is negative" ;;
      let '(picked, r) := rng_sample r (len population) count in
      Ok (PTuple (pick population picked), r)
  | SHUFFLE_OP =>
      items ← match rd_arguments draw with
        | [sequence] => of_option (sequence_items sequence) ValueError
                          "shuffle draw requires one ordered sequence"
        | _ => raise ValueError "shuffle draw requires one ordered sequence"
        end;
      let '(order, r) := rng_shuffle r (len items) in
      Ok (PTuple (pick items order), r)
  | CHOICE_OP =>
      require (negb (bool_decide (rd_arguments draw = []))) ValueError
        "choice draw requires a nonempty sequence" ;;
      let '(index, r) := rng_choice r (len (rd_arguments draw)) in
      chosen ← of_option (head (pick (rd_arguments draw) [index])) IndexError "";
      Ok (chosen, r)
  | RANDINT_OP =>
      '(low, high) ← match rd_arguments draw with
        | [PInt low; PInt high] => Ok (low, high)
        | _ => raise ValueError "randint draw requires two integer bounds"
        end;
      require (low <=? high)%Z ValueError "empty range in randrange" ;;
      let '(value, r) := rng_randint r low high in
      Ok (PInt value, r)
  end.

(** The loop of [_validate_checkpoint]. *)
Fixpoint replay_draws (r : rng) (draws : list Miprov2RngDraw) : result rng :=
  match draws with
  | [] => Ok r
  | draw :: draws =>
      '(actual, r) ← replay_draw r draw;
      require (py_eq (lists_for_tuples actual) (lists_for_tuples (rd_result draw))) ValueError
        "RNG draw result does not match replay" ;;
      replay_draws r draws
  end.

Definition Miprov2RngCheckpoint_validate (self : Miprov2RngCheckpoint) :
    result Miprov2RngCheckpoint :=
  require (bool_decide (rd_ordinal <$> rc_draws self = range (len (rc_draws self)))) ValueError
    "RNG draw ordinals must be contiguous from zero" ;;
  r ← replay_draws (rng_seeded (rc_seed self)) (rc_draws self);
  require (state_eq (state_from_random r) (rc_state self)) ValueError
    "serialized MIPROv2 RNG state does not match seed and draws" ;;
  Ok self.

(** [Miprov2RngCheckpoint.seeded]. *)
Definition checkpoint_seeded (seed : Z) : result Miprov2RngCheckpoint :=
  Miprov2RngCheckpoint_validate
    {| rc_seed := seed; rc_state := state_seeded seed; rc_draws := [] |}.

(** [Miprov2RngCheckpoint.from_random]. *)
Definition checkpoint_from_random (r : rng) (seed : Z) (draws : list Miprov2RngDraw) :
    result Miprov2RngCheckpoint :=
  Miprov2RngCheckpoint_validate
    {| rc_seed := seed; rc_state := state_from_random r; rc_draws := draws |}.

Definition append (self : Miprov2RngCheckpoint) (r : rng) (phase : RngPhase)
    (operation : Miprov2RngOperation) (arguments : list pyval) (result : pyval) :
    Prelude.result Miprov2RngCheckpoint :=
  draw ← Miprov2RngDraw_new (len (rc_draws self)) phase operation arguments result;
  Miprov2RngCheckpoint_validate
    {| rc_seed := rc_seed self; rc_state := state_from_random r;
       rc_draws := rc_draws self ++ [draw] |}.

Definition after_validation_sampling (seed population_size : Z)
    (sample_indices : option (list Z)) : result Miprov2RngCheckpoint :=
  checkpoint ← checkpoint_seeded seed;
  match sample_indices with
  | None => Ok checkpoint
  | Some sample_indices =>
      require (negb (Z.max 0 population_size <? len sample_indices)%Z) ValueError
        "Sample larger than population or is negative" ;;
      let '(sampled, r) := rng_sample (rng_seeded seed) (Z.max 0 population_size) (len sample_indices) in
      require (bool_decide (sampled = sample_indices)) ValueError
        "validation sample does not match the shared MIPROv2 RNG" ;;
      append checkpoint r DATASET_PHASE SAMPLE_OP
        [PInt population_size; PInt (len sample_indices)] (PTuple (PInt <$> sampled))
  end.
End Checkpoints.

(** ** Theorems *)

Lemma py_eq_refl v : is_json v = true → py_eq v v = true.
Proof.
  induction v as [| | | | |l IH| |kvs IH|] using pyval_nested_ind; try done.
  - intros _. cbn. by destruct b.
  - intros _. cbn. apply Z.eqb_refl.
  - intros Hf%fisfinite_number. by apply feq_refl.
  - intros _. cbn. by apply bool_decide_eq_true.
  - rewrite is_json_list. intros Hl. cbn. induction Hl as [|x l Hx _ IHl]; [done|].
    inversion_clear IH. apply andb_true_iff. by auto.
  - intros Hj. pose proof (proj1 (is_json_dict kvs) Hj) as [Hnd Hl]. cbn.
    rewrite Nat.eqb_refl. cbn [andb]. apply forallb_Forall, Forall_forall. intros [k w] Hin. cbn.
    rewrite (dict_get_NoDup _ _ _ Hnd Hin). rewrite Forall_forall in IH, Hl.
    by apply (IH (k, w)), (Hl (k, w)).
Qed.

(** The frozen image of a JSON value. *)
Definition frozen_json (v : pyval) : bool := deeply_immutable v && is_json (json_value v).

Lemma frozen_json_tuple l : frozen_json (PTuple l) = true ↔ Forall (λ v, frozen_json v = true) l.
Proof.
  unfold frozen_json. cbn. rewrite andb_true_iff, !forallb_Forall, Forall_fmap.
  induction l as [|v l IH]; [split; [by constructor|by repeat constructor]|].
  rewrite !Forall_cons, andb_true_iff, <-IH. cbn. tauto.
Qed.

Lemma lists_for_tuples_json v : deeply_immutable v = true → lists_for_tuples v = json_value v.
Proof.
  induction v as [| | | | | |l IH| |kvs IH] using pyval_nested_ind; try done.
  cbn. rewrite forallb_Forall. intros Hl. f_equal. induction Hl as [|v l Hv _ IHl]; [done|].
  inversion_clear IH. cbn. f_equal; auto.
Qed.

Lemma frozen_lists_eq v :
  frozen_json v = true → py_eq (lists_for_tuples v) (lists_for_tuples v) = true.
Proof.
  unfold frozen_json. intros [Hd Hj]%andb_true_iff. rewrite lists_for_tuples_json by done.
  by apply py_eq_refl.
Qed.

Lemma pick_forall {A} (P : A → Prop) population indices :
  Forall P population → Forall P (pick population indices).
Proof.
  intros H. unfold pick. induction indices as [|i indices IH]; csimpl; [constructor|].
  destruct (i <? 0)%Z; [done|]. destruct (population !! _) eqn:E; [|done].
  constructor; [exact (Forall_lookup_1 P _ _ _ H E)|done].
Qed.

Lemma pick_cons {A} (population : list A) i indices x :
  (0 ≤ i)%Z → population !! Z.to_nat i = Some x →
  pick population (i :: indices) = x :: pick population indices.
Proof. intros Hi Hx. unfold pick. simpl omap. by rewrite (proj2 (Z.ltb_ge _ _) Hi), Hx. Qed.

Lemma length_pick {A} (population : list A) indices :
  Forall (λ i, 0 ≤ i < len population)%Z indices → len (pick population indices) = len indices.
Proof.
  unfold len. induction 1 as [|i indices Hi _ IH]; [done|].
  assert (is_Some (population !! Z.to_nat i)) as [x Hx] by (apply lookup_lt_is_Some_2; lia).
  rewrite (pick_cons _ _ _ x) by (done || lia). cbn [length]. rewrite !Nat2Z.inj_succ. by rewrite IH.
Qed.

Lemma ints_frozen (ns : list Z) : Forall (λ v, frozen_json v = true) (PInt <$> ns).
Proof. apply Forall_fmap, Forall_forall. done. Qed.

Section Replay.
Context `{DSer : !DrSerialize, DLaws : !DrSerializeLaws, Rand : !PyRandom, RLaws : !PyRandomLaws}.

Lemma freeze_frozen v : frozen_json v = true → freeze_json_value v = Ok v.
Proof.
  induction v as [| | | | |l IH|l IH|kvs IH|kvs IH] using pyval_nested_ind; try done; intros Hf.
  1-5: cbn -[ImmutableJsonObject]; rewrite ImmutableJsonObject_json; [done|].
  1-5: apply is_json_dict; split; [by repeat constructor; set_solver|repeat constructor; done].
  rewrite frozen_json_tuple in Hf. cbn.
  assert (mapM freeze_json_value l = Ok l) as ->; [|done].
  induction Hf as [|v l Hv _ IHl]; [done|]. inversion_clear IH as [|?? Hi Hrest]. cbn.
  by rewrite (Hi Hv), bind_Ok_l, (IHl Hrest).
Qed.

Lemma freeze_all_frozen l : Forall (λ v, frozen_json v = true) l → mapM freeze_json_value l = Ok l.
Proof.
  induction 1 as [|v l Hv _ IH]; [done|]. cbn. by rewrite freeze_frozen, bind_Ok_l, IH.
Qed.

(** What is drawn from frozen arguments is frozen. *)
Lemma replay_draw_frozen r draw actual r' :
  Forall (λ v, frozen_json v = true) (rd_arguments draw) →
  replay_draw r draw = Ok (actual, r') → frozen_json actual = true.
Proof.
  intros Ha H. unfold replay_draw in H. apply bind_Ok in H as ([] & _ & H).
  destruct (rd_operation draw).
  - apply bind_Ok in H as ([spec count] & Hs & H). apply bind_Ok in H as (k & _ & H).
    apply bind_Ok in H as (population & Hp & H). apply bind_Ok in H as ([] & _ & H).
    destruct (rng_sample _ _ _) as [picked r2]. simplify_eq.
    apply frozen_json_tuple, pick_forall.
    destruct (rd_arguments draw) as [|x [|y [|]]]; try done. simplify_eq.
    inversion_clear Ha as [|?? Hx _].
    destruct spec; try done; [|by apply of_option_Ok in Hp; simplify_eq/=; apply frozen_json_tuple].
    apply bind_Ok in Hp as ([] & _ & [= <-]). apply ints_frozen.
  - apply bind_Ok in H as (items & Hi & H). destruct (rng_shuffle _ _) as [order r2]. simplify_eq.
    apply frozen_json_tuple, pick_forall. destruct (rd_arguments draw) as [|x [|]]; try done.
    apply of_option_Ok in Hi. inversion_clear Ha as [|?? Hx _].
    destruct x; simplify_eq/=. by apply frozen_json_tuple.
  - apply bind_Ok in H as ([] & _ & H). destruct (rng_choice _ _) as [index r2].
    apply bind_Ok in H as (chosen & Hc & [= <- <-]). apply of_option_Ok in Hc.
    assert (Forall (λ v, frozen_json v = true) (pick (rd_arguments draw) [index])) as Hp
      by by apply pick_forall.
    destruct (pick _ _) as [|c l]; simplify_eq/=. by inversion_clear Hp.
  - apply bind_Ok in H as ([low high] & _ & H). apply bind_Ok in H as ([] & _ & H).
    destruct (rng_randint _ _ _) as [value r2]. by simplify_eq.
Qed.

Lemma replay_draws_app r draws draws' :
  replay_draws r (draws ++ draws') = (r' ← replay_draws r draws; replay_draws r' draws').
Proof.
  revert r. induction draws as [|draw draws IH]; intros r; [done|]. cbn [replay_draws app].
  destruct (replay_draw r draw) as [[actual r1]|e]; [cbn|done].
  destruct (require _ _ _) as [[]|e]; [cbn|done]. apply IH.
Qed.

(** A checkpoint is live at a generator: it is what replaying it gives. *)
Definition live (checkpoint : Miprov2RngCheckpoint) (r : rng) : Prop :=
  rd_ordinal <$> rc_draws checkpoint = range (len (rc_draws checkpoint)) ∧
  replay_draws (rng_seeded (rc_seed checkpoint)) (rc_draws checkpoint) = Ok r ∧
  rc_state checkpoint = state_from_random r.

Lemma state_eq_refl r : state_eq (state_from_random r) (state_from_random r) = true.
Proof.
  unfold state_eq, state_from_random. pose proof (rng_gauss_finite r) as Hg.
  destruct (rng_getstate r) as [[version internal] gaussian]. cbn in *.
  rewrite Z.eqb_refl, bool_decide_true by done. destruct gaussian as [f|]; [cbn|done].
  by apply feq_refl, fisfinite_number, Hg.
Qed.

Lemma live_valid checkpoint r : live checkpoint r → Miprov2RngCheckpoint_validate checkpoint = Ok checkpoint.
Proof.
  intros (Ho & Hr & Hs). unfold Miprov2RngCheckpoint_validate.
  by rewrite bool_decide_true, require_true, bind_Ok_l, Hr, bind_Ok_l, Hs, state_eq_refl.
Qed.

Lemma live_restores checkpoint r : live checkpoint r → restore (rc_state checkpoint) = Ok r.
Proof.
  intros (_ & _ & ->). unfold restore, state_from_random.
  pose proof (rng_setstate_getstate r) as H. destruct (rng_getstate r) as [[version internal] g].
  cbn. by rewrite H.
Qed.

Lemma seeded_live seed :
  ∃ checkpoint, checkpoint_seeded seed = Ok checkpoint ∧ live checkpoint (rng_seeded seed).
Proof.
  set (checkpoint := {| rc_seed := seed; rc_state := state_seeded seed; rc_draws := [] |}).
  assert (live checkpoint (rng_seeded seed)) as Hl by by split_and!.
  exists checkpoint. split; [exact (live_valid _ _ Hl)|done].
Qed.

(** The next draw a program makes of a live generator: recording what was drawn
    never fails, and the checkpoint is live at the generator it left. *)
Lemma append_live checkpoint r phase operation arguments actual r' :
  live checkpoint r → Forall (λ v, frozen_json v = true) arguments →
  replay_draw r {| rd_ordinal := len (rc_draws checkpoint); rd_phase := phase;
                   rd_operation := operation; rd_arguments := arguments;
                   rd_result := PNone |} = Ok (actual, r') →
  ∃ checkpoint', append checkpoint r' phase operation arguments actual = Ok checkpoint' ∧
    live checkpoint' r' ∧ rc_seed checkpoint' = rc_seed checkpoint ∧
    length (rc_draws checkpoint') = S (length (rc_draws checkpoint)).
Proof.
  intros (Ho & Hr & Hs) Ha Hd. assert (frozen_json actual = true) as Hf by (eapply replay_draw_frozen; [|exact Hd]; exact Ha).
  set (draw := {| rd_ordinal := len (rc_draws checkpoint); rd_phase := phase;
    rd_operation := operation; rd_arguments := arguments; rd_result := actual |}).
  set (checkpoint' := {| rc_seed := rc_seed checkpoint; rc_state := state_from_random r';
    rc_draws := rc_draws checkpoint ++ [draw] |}).
  assert (live checkpoint' r') as Hl.
  { split_and!; [|cbn|done].
    - cbn [rc_draws checkpoint']. rewrite fmap_app, Ho. unfold len, range.
      rewrite length_app, Nat2Z.inj_add, seqZ_app by lia. done.
    - rewrite replay_draws_app, Hr, bind_Ok_l. cbn [replay_draws].
      change (replay_draw r draw) with
        (replay_draw r {| rd_ordinal := len (rc_draws checkpoint); rd_phase := phase;
          rd_operation := operation; rd_arguments := arguments; rd_result := PNone |}).
      rewrite Hd, bind_Ok_l. cbn [rd_result draw]. by rewrite frozen_lists_eq. }
  exists checkpoint'. split_and!; [|done|done|by cbn; rewrite length_app; cbn; lia].
  unfold append, Miprov2RngDraw_new. rewrite freeze_all_frozen, bind_Ok_l by done.
  rewrite freeze_frozen, bind_Ok_l by done. unfold Miprov2RngDraw_validate. cbn [rd_ordinal].
  rewrite (proj2 (Z.ltb_ge _ _)) by (unfold len; lia). cbn [negb]. rewrite require_true, !bind_Ok_l.
  exact (live_valid _ _ Hl).
Qed.

(** Sampling positions of a range gives the positions. *)
Lemma pick_range n picked :
  Forall (λ i, 0 ≤ i < n)%Z picked → pick (PInt <$> range n) picked = PInt <$> picked.
Proof.
  induction 1 as [|i picked Hi _ IH]; [done|].
  rewrite (pick_cons _ _ _ (PInt i)); [by rewrite IH|lia|].
  rewrite list_lookup_fmap. unfold range. rewrite lookup_seqZ_lt by lia. simpl. do 2 f_equal. lia.
Qed.

(** A run resumes after its validation sample: the checkpoint of the sample that
    the seed gives is live at the generator that sampled it. *)
Lemma validation_sampling_live seed n k :
  (0 ≤ k ≤ n)%Z →
  ∃ checkpoint, after_validation_sampling seed n (Some (rng_sample (rng_seeded seed) n k).1) =
      Ok checkpoint ∧ live checkpoint (rng_sample (rng_seeded seed) n k).2.
Proof.
  intros Hk. destruct (rng_sample_picks (rng_seeded seed) n k Hk) as (Hlen & _ & Hin).
  destruct (seeded_live seed) as (checkpoint & Hc & Hl). unfold after_validation_sampling, len.
  rewrite Hc, bind_Ok_l, Hlen, Z.max_r by lia. rewrite (proj2 (Z.ltb_ge _ _)) by lia.
  cbn [negb]. rewrite require_true, bind_Ok_l.
  destruct (rng_sample (rng_seeded seed) n k) as [sampled r] eqn:Es. cbn [fst snd] in *.
  rewrite bool_decide_true, require_true, bind_Ok_l by done.
  destruct (append_live checkpoint (rng_seeded seed) DATASET_PHASE SAMPLE_OP
    [PInt n; PInt k] (PTuple (PInt <$> sampled)) r) as (checkpoint' & Ha & Hl' & _); [done| | |by eauto].
  { repeat constructor. }
  unfold replay_draw. cbn [rd_operation rd_phase rd_arguments].
  rewrite bool_decide_true by (apply list_elem_of_here). rewrite require_true, !bind_Ok_l.
  rewrite (proj2 (Z.ltb_ge n 0)) by lia. cbn [negb]. rewrite require_true, !bind_Ok_l.
  assert (len (PInt <$> range n) = n) as Hn
    by (unfold len, range; rewrite length_fmap, length_seqZ; lia).
  rewrite Hn, (proj2 (Z.ltb_ge k 0)), (proj2 (Z.ltb_ge n k)) by lia. cbn [negb andb].
  rewrite require_true, bind_Ok_l, Es. by rewrite pick_range.
Qed.
End Replay.
