(* ===== verification/Miprov2Render.v ===== *)
(** * Miprov2Render: the prompt a MIPROv2 candidate is rendered to

    Models [optim/miprov2/render.py]: a component's instruction between its
    metadata and its demonstrations, whose text must not act as a template.
    [json.dumps] is that of [JsonText]; [repr] of a float is the parameter
    [FloatText]. *)

From S2P Require Import Prelude Floats Identity Frozen Leasing EvalConfigs Reward Plan Aggregate Tools.
From S2P Require Import JsonText Claims Candidate Cost OptimContracts CoproAdapter.

Section Json.
Context `{DText : !FloatText}.

(** ** Composition *)

(** [_format_literal_text]. *)
Definition format_literal_text (value : pystr) (contract : TemplateRenderContract) : result pystr :=
  match trc_kind contract with
  | PYTHON_FORMAT_V1 =>
      Ok (str_replace (str_replace value [LBRACE] [LBRACE; LBRACE]) [RBRACE] [RBRACE; RBRACE])
  | LITERAL_REPLACE_V1 =>
      field ← of_option (trc_available_fields contract !! 0%nat) IndexError
        "tuple index out of range";
      require (str_count value (placeholder field) =? 0)%nat ValueError
        "literal_replace/v1 cannot losslessly compose text containing the active token" ;;
      Ok value
  | LITERAL_BODY_V1 => Ok value
  end.

Definition format_literal_json (value : pyval) (contract : TemplateRenderContract) : result pystr :=
  text ← json_dumps value; format_literal_text text contract.

(** [component.get(key)]. *)
Definition component_get (component : list (pystr * pyval)) (key : pystr) : pyval :=
  default PNone (dict_get component key).

(** A non-empty [str] of a component. *)
Definition component_text (component : list (pystr * pyval)) (key : pystr) (msg : string) :
    result pystr :=
  match component_get component key with
  | PStr ((_ :: _) as s) => Ok s
  | _ => raise ValueError msg
  end.

Definition instruction_text (component : list (pystr * pyval)) : result pystr :=
  component_text component $"instruction" "MIPROv2 instruction must be non-empty".

Definition component_metadata (component_id : pystr) (component : list (pystr * pyval))
    (ordinal : Z) : pyval :=
  PDict [($"component_id", PStr component_id);
         ($"demo_identity_hash", component_get component $"demo_identity_hash");
         ($"demo_index", component_get component $"demo_index");
         ($"instruction_identity_hash", component_get component $"instruction_identity_hash");
         ($"instruction_index", component_get component $"instruction_index");
         ($"ordinal", PInt ordinal)].

(** The sections of one component. *)
Definition component_sections (contract : TemplateRenderContract) (ordinal : Z)
    (component : list (pystr * pyval)) : result (list pystr) :=
  component_id ← component_text component $"component_id"
    "MIPROv2 component_id must be non-empty";
  instruction ← instruction_text component;
  rendered_component_id ← format_literal_text component_id contract;
  metadata ← format_literal_json (component_metadata component_id component ordinal) contract;
  demonstrations ← match component_get component $"demo_set" with
                   | PNone => Ok $"[]"
                   | demo_set => format_literal_json demo_set contract
                   end;
  Ok [$"## Component " ++ int_text (ordinal + 1) ++ $": " ++ rendered_component_id;
      $"### Metadata"; metadata; $"### Instruction"; instruction; $"### Demonstrations";
      demonstrations].

Definition compose_user_prompt_template (components : list (list (pystr * pyval)))
    (contract : TemplateRenderContract) : result pystr :=
  require (length components =? 1)%nat ValueError
    "MIPROv2 rendering requires exactly one optimizable component" ;;
  sections ← mapM (λ entry, component_sections contract entry.1 entry.2)
    (zip (range (Z.of_nat (length components))) components);
  Ok (join_lines (concat sections)).
End Json.

Section Candidates.
Context `{DSer : !DrSerialize, DSto : !DrStore, Uni : !UnicodeIdentifiers, DText : !FloatText}.

Definition candidate_from_components (base : CandidateRef) (candidate_id : pystr)
    (components : list (list (pystr * pyval))) (run : OptimRunRef) : result Candidate :=
  exact_run ← OptimRunRef_model_validate run;
  template ← compose_user_prompt_template components
    (run_template_render_contract (runr_record exact_run));
  draft ← ProposalDraft_validate
    {| pd_template := template; pd_terminal_failure := None; pd_request_evidence := [];
       pd_response_evidence := []; pd_usage := []; pd_cost := None |};
  candidate ← candidate_from_draft (candr_record base) candidate_id draft run;
  require (bool_decide (cand_base_ref candidate = candr_record_ref base)) AssertionError
    "canonical candidate did not bind the exact base" ;;
  diff_check (candr_record base) candidate run ;;
  Ok candidate.
End Candidates.

(** ** Only the instruction is a template *)

Section Composed.
Context `{Uni : !UnicodeIdentifiers, DText : !FloatText}.

Lemma parses_app s1 s2 l1 l2 : parses s1 l1 → parses s2 l2 → parses (s1 ++ s2) (l1 ++ l2).
Proof.
  intros H1 H2. induction H1 as [|c s l Hl Hr _ IH|c s l Hc _ IH|f s l Hf _ IH]; simpl; [done| | |].
  - by constructor.
  - by constructor.
  - rewrite <-app_assoc. by apply (parses_field f (s ++ s2)).
Qed.

Lemma parses_plain s : LBRACE ∉ s → RBRACE ∉ s → parses s (Literal <$> s).
Proof.
  induction s as [|c s IH]; [by constructor|]. rewrite !not_elem_of_cons. intros [H1 H1'] [H2 H2'].
  constructor; [done..|]. by apply IH.
Qed.

(** [str.replace] of one character. *)
Lemma str_replace_char s c v : str_replace s [c] v = s ≫= λ d, if (c =? d)%Z then v else [d].
Proof.
  unfold str_replace. induction s as [|d s IH]; [done|].
  cbn [replace_from startswith length Nat.sub mbind list_bind]. rewrite andb_true_r.
  by destruct (c =? d)%Z; rewrite IH.
Qed.

(** Doubling the braces of a text makes a template of it that reads as the
    text. *)
Lemma parses_escaped s :
  parses (str_replace (str_replace s [LBRACE] [LBRACE; LBRACE]) [RBRACE] [RBRACE; RBRACE])
    (Literal <$> s).
Proof.
  rewrite !str_replace_char. induction s as [|c s IH]; [by constructor|].
  cbn [mbind list_bind fmap list_fmap]. destruct (Z.eqb_spec LBRACE c) as [<-|Hl].
  - cbn. constructor; [by left|done].
  - cbn [app mbind list_bind]. destruct (Z.eqb_spec RBRACE c) as [<-|Hr].
    + cbn. constructor; [by right|done].
    + cbn. by constructor.
Qed.

(** A template that reads as a fixed text. *)
Definition reads_as (s text : pystr) : Prop := parses s (Literal <$> text).

Lemma reads_as_app s1 s2 t1 t2 : reads_as s1 t1 → reads_as s2 t2 → reads_as (s1 ++ s2) (t1 ++ t2).
Proof. unfold reads_as. rewrite fmap_app. apply parses_app. Qed.

Lemma reads_as_plain s : LBRACE ∉ s → RBRACE ∉ s → reads_as s s.
Proof. apply parses_plain. Qed.

Lemma placeholder_fields_parses self text fields :
  trc_kind self = PYTHON_FORMAT_V1 →
  placeholder_fields self (PStr text) = Ok fields ↔
  text ≠ [] ∧ ∃ l, parses text l ∧ fields = omap segment_field l.
Proof.
  intros Hkind. destruct (fields_loop_spec text (length text) 0 [] text) as (r & Hr & Hagree);
    [done|done|]. rewrite <-(Hagree fields). unfold placeholder_fields. rewrite Hkind, bind_Ok. split.
  - intros (t & [[= <-] Hne]%validate_template_text_Ok & Hf). by rewrite Hr in Hf.
  - intros [Hne ->]. exists text. rewrite validate_template_text_Ok, Hr. done.
Qed.

Lemma literal_fields_none (text : pystr) : omap segment_field (Literal <$> text) = [].
Proof. by induction text. Qed.

Lemma literal_text value (text : pystr) : (Literal <$> text) ≫= segment_text value = text.
Proof. induction text as [|c text IH]; [done|]. cbn. by rewrite IH. Qed.

(** *** Occurrences of a placeholder, line by line *)

Lemma ident_no_newline f : isidentifier f = true → 10%Z ∉ placeholder f.
Proof.
  intros Hf. unfold placeholder. rewrite not_elem_of_cons, not_elem_of_app, list_elem_of_singleton.
  split; [done|]. split; [|done]. destruct f as [|c f]; [done|].
  simpl in Hf. rewrite andb_true_iff, forallb_Forall, Forall_forall in Hf. destruct Hf as [Hc Hf].
  rewrite not_elem_of_cons. split; [by intros <-|]. by intros Hin%Hf.
Qed.

Lemma startswith_line p s r : 10%Z ∉ p → startswith p (s ++ 10%Z :: r) = startswith p s.
Proof.
  revert s. induction p as [|c p IH]; intros [|d s] Hp; [done|done| |];
    rewrite not_elem_of_cons in Hp; cbn [startswith app].
  - by rewrite (proj2 (Z.eqb_neq _ _)) by naive_solver.
  - by rewrite IH by naive_solver.
Qed.

Lemma startswith_length p s : startswith p s = true → (length p ≤ length s)%nat.
Proof. intros (r & ->)%startswith_split. rewrite length_app. lia. Qed.

(** An occurrence lies within a line. *)
Lemma count_replace_line p v s r k :
  p ≠ [] → 10%Z ∉ p → (k ≤ length s)%nat →
  count_from k p (s ++ 10%Z :: r) = (count_from k p s + count_from 0 p r)%nat ∧
  replace_from k p v (s ++ 10%Z :: r) = replace_from k p v s ++ 10%Z :: replace_from 0 p v r.
Proof.
  intros Hne Hp. revert k. induction s as [|c s IH]; intros k Hk.
  - assert (k = 0%nat) as -> by (simpl in Hk; lia). cbn [app count_from replace_from].
    pose proof (startswith_line p [] r Hp) as Hs. cbn [app] in Hs. rewrite Hs.
    destruct p as [|d p]; done.
  - destruct k as [|k]; cbn [app count_from replace_from]; [|by apply IH; simpl in Hk; lia].
    pose proof (startswith_line p (c :: s) r Hp) as Hs. cbn [app] in Hs. rewrite Hs.
    destruct (startswith p (c :: s)) eqn:E.
    + apply startswith_length in E. simpl in E.
      destruct (IH (length p - 1)%nat) as [-> ->]; [lia|]. by rewrite <-app_assoc.
    + destruct (IH 0%nat) as [-> ->]; [lia|]. done.
Qed.

Lemma str_count_line p s r :
  p ≠ [] → 10%Z ∉ p → str_count (s ++ 10%Z :: r) p = (str_count s p + str_count r p)%nat.
Proof. intros Hne Hp. apply (count_replace_line p [] s r 0); [done..|lia]. Qed.

Lemma str_replace_line p v s r :
  p ≠ [] → 10%Z ∉ p → str_replace (s ++ 10%Z :: r) p v = str_replace s p v ++ 10%Z :: str_replace r p v.
Proof. intros Hne Hp. apply (count_replace_line p v s r 0); [done..|lia]. Qed.

Lemma str_replace_none p v s : str_count s p = 0%nat → str_replace s p v = s.
Proof.
  unfold str_count, str_replace. induction s as [|c s IH]; [done|]. cbn [count_from replace_from].
  destruct (startswith p (c :: s)); [done|]. intros H. by rewrite IH.
Qed.

(** No placeholder begins in a text without an opening brace. *)
Lemma str_count_plain f s r :
  LBRACE ∉ s → str_count (s ++ r) (placeholder f) = str_count r (placeholder f).
Proof.
  unfold str_count. induction s as [|c s IH]; [done|]. rewrite not_elem_of_cons. intros [Hc Hs].
  cbn [app count_from]. unfold placeholder at 1. cbn [startswith].
  rewrite (proj2 (Z.eqb_neq _ _)) by done. cbn [andb]. by apply IH.
Qed.

(** *** Texts that are no template *)

(** A text that a template of the contract holds as fixed text, and reads as. *)
Definition silent (contract : TemplateRenderContract) (s text : pystr) : Prop :=
  match trc_kind contract with
  | PYTHON_FORMAT_V1 => reads_as s text
  | LITERAL_REPLACE_V1 => s = text ∧
      ∀ f, trc_available_fields contract !! 0%nat = Some f → str_count s (placeholder f) = 0%nat
  | LITERAL_BODY_V1 => s = text
  end.

Lemma silent_format_literal contract value text :
  format_literal_text value contract = Ok text → silent contract text value.
Proof.
  unfold format_literal_text, silent. destruct (trc_kind contract).
  - intros [= <-]. apply parses_escaped.
  - intros (f & Hf & H)%bind_Ok. apply bind_Ok in H as ([] & Hn%require_Ok & [= <-]).
    split; [done|]. intros g Hg. rewrite Hg in Hf. injection Hf as ->. by apply Nat.eqb_eq.
  - by intros [= <-].
Qed.

Lemma silent_plain_app contract s r text :
  LBRACE ∉ s → RBRACE ∉ s → silent contract r text → silent contract (s ++ r) (s ++ text).
Proof.
  unfold silent. intros Hl Hr. destruct (trc_kind contract).
  - apply reads_as_app. by apply reads_as_plain.
  - intros [-> H]. split; [done|]. intros f Hf. rewrite str_count_plain by done. by apply H.
  - by intros ->.
Qed.

Lemma silent_plain contract s : LBRACE ∉ s → RBRACE ∉ s → silent contract s s.
Proof.
  intros Hl Hr. rewrite <-(app_nil_r s). apply silent_plain_app; [done..|].
  unfold silent. destruct (trc_kind contract); [constructor|done|done].
Qed.

(** A valid contract's placeholder holds no newline. *)
Lemma valid_placeholder contract f :
  TemplateRenderContract_validate contract = Ok contract →
  trc_available_fields contract !! 0%nat = Some f → 10%Z ∉ placeholder f.
Proof.
  unfold TemplateRenderContract_validate. intros ([] & H%require_Ok & _)%bind_Ok Hf.
  apply ident_no_newline. rewrite forallb_Forall, Forall_app, Forall_forall in H.
  by apply H, (list_elem_of_lookup_2 _ 0).
Qed.

Lemma silent_line contract s text s' text' :
  TemplateRenderContract_validate contract = Ok contract →
  silent contract s text → silent contract s' text' →
  silent contract (s ++ 10%Z :: s') (text ++ 10%Z :: text').
Proof.
  intros Hvalid. unfold silent. destruct (trc_kind contract).
  - intros H H'. apply reads_as_app; [done|]. apply (reads_as_app [10%Z] s' [10%Z] text'); [|done].
    by apply reads_as_plain; apply (bool_decide_unpack _).
  - intros [-> H] [-> H']. split; [done|]. intros f Hf.
    rewrite str_count_line by (done || by eapply valid_placeholder). by rewrite H, H'.
  - by intros -> ->.
Qed.

(** *** A template between lines that are none *)

(** The fields of a template are read off the same way whatever its text. *)
Lemma validate_template_with contract template template' fields :
  validate_template contract (PStr template) = Ok fields →
  placeholder_fields contract (PStr template') = Ok fields →
  validate_template contract (PStr template') = Ok fields.
Proof.
  intros Hv Hf. pose proof (validate_template_fields _ _ _ Hv) as Hg. unfold validate_template in *.
  by rewrite Hg, bind_Ok_l in Hv; rewrite Hf, bind_Ok_l.
Qed.

(** The end of [render], once the template is accepted. *)
Definition substituted (contract : TemplateRenderContract) (fields : list pystr) (text : pystr)
    (values : list (pystr * pyval)) : result pystr :=
  let render_values := foldl (collect_value values) [] fields in
  match trc_kind contract with
  | LITERAL_BODY_V1 => Ok text
  | LITERAL_REPLACE_V1 =>
      if bool_decide (fields = []) then Ok text
      else
        field ← of_option (trc_available_fields contract !! 0%nat) IndexError
          "tuple index out of range";
        value ← of_option (dict_get render_values field) KeyError "";
        Ok (str_replace text (placeholder field) value)
  | PYTHON_FORMAT_V1 => format_map text render_values
  end.

Lemma render_substituted contract template fields values out :
  validate_template contract (PStr template) = Ok fields →
  render contract (PStr template) values = Ok out ↔
  (trc_kind contract ≠ LITERAL_BODY_V1 → ∀ f, f ∈ fields → is_Some (string_value values f)) ∧
  substituted contract fields template values = Ok out.
Proof.
  intros Hv. unfold render, substituted.
  rewrite Hv, bind_Ok_l, (validate_template_nonempty _ _ _ Hv), bind_Ok_l.
  pose proof (render_values_checked values fields) as Hch.
  destruct (trc_kind contract); simpl bool_decide; cbv iota; [| |naive_solver].
  all: rewrite <-Hch; split;
    [by intros (? & H1%require_Ok & (? & H2%require_Ok & H)%bind_Ok)%bind_Ok
    |intros [H H']; destruct H as [H1 H2]; [done|];
     by rewrite H1, require_true, bind_Ok_l, H2, require_true, bind_Ok_l].
Qed.

Section Framed.
Context (contract : TemplateRenderContract) (Hvalid : TemplateRenderContract_validate contract = Ok contract).
Context (s1 before s2 after : pystr) (H1 : silent contract s1 before) (H2 : silent contract s2 after).
Context (template : pystr) (fields : list pystr).
Context (Hv : validate_template contract (PStr template) = Ok fields).

Definition framed : pystr := s1 ++ 10%Z :: template ++ 10%Z :: s2.

Lemma framed_text : validate_template_text (PStr framed) = Ok framed.
Proof. apply validate_template_text_Ok. split; [done|]. unfold framed. by destruct s1. Qed.

Lemma framed_parses l :
  trc_kind contract = PYTHON_FORMAT_V1 → parses template l →
  parses framed ((Literal <$> (before ++ [10%Z])) ++ l ++ (Literal <$> (10%Z :: after))).
Proof.
  intros Hk Hl. unfold silent, framed in *. rewrite Hk in *.
  assert (reads_as [10%Z] [10%Z]) as Hn
    by (apply reads_as_plain; by apply (bool_decide_unpack _)).
  replace (s1 ++ 10%Z :: template ++ 10%Z :: s2) with
    ((s1 ++ [10%Z]) ++ template ++ [10%Z] ++ s2) by by rewrite <-app_assoc.
  apply parses_app; [by apply reads_as_app|]. apply parses_app; [done|].
  by apply (reads_as_app [10%Z] s2 [10%Z] after).
Qed.

Lemma framed_count f :
  trc_kind contract = LITERAL_REPLACE_V1 → trc_available_fields contract !! 0%nat = Some f →
  str_count framed (placeholder f) = str_count template (placeholder f) ∧
  ∀ v, str_replace framed (placeholder f) v =
    before ++ 10%Z :: str_replace template (placeholder f) v ++ 10%Z :: after.
Proof.
  intros Hk Hf. pose proof (valid_placeholder _ _ Hvalid Hf) as Hp. unfold silent, framed in *.
  rewrite Hk in *. destruct H1 as [<- Hc1], H2 as [<- Hc2].
  rewrite !str_count_line by done. rewrite Hc1, Hc2 by done. split; [lia|]. intros v.
  rewrite !str_replace_line by done. by rewrite (str_replace_none _ v s1), (str_replace_none _ v s2) by auto.
Qed.

Lemma framed_fields : validate_template contract (PStr framed) = Ok fields.
Proof.
  apply (validate_template_with contract template); [done|].
  pose proof (validate_template_fields _ _ _ Hv) as Hf.
  destruct (trc_kind contract) eqn:Hk.
  - rewrite placeholder_fields_parses in * by done. destruct Hf as (_ & l & Hl & ->).
    split; [by unfold framed; destruct s1|]. eexists. split; [by apply framed_parses|].
    by rewrite !omap_app, !literal_fields_none, app_nil_r.
  - unfold placeholder_fields in *. rewrite framed_text, bind_Ok_l, Hk.
    rewrite (validate_template_nonempty _ _ _ Hv), bind_Ok_l, Hk in Hf.
    apply bind_Ok in Hf as (f & Ef & Hf). rewrite Ef, bind_Ok_l.
    destruct (trc_available_fields contract !! 0%nat) as [g|] eqn:Eg; [|done]. injection Ef as ->.
    by rewrite (proj1 (framed_count _ Hk Eg)).
  - unfold placeholder_fields in *. rewrite framed_text, bind_Ok_l, Hk.
    by rewrite (validate_template_nonempty _ _ _ Hv), bind_Ok_l, Hk in Hf.
Qed.

Lemma framed_substituted values out :
  (trc_kind contract ≠ LITERAL_BODY_V1 → ∀ f, f ∈ fields → is_Some (string_value values f)) →
  substituted contract fields template values = Ok out →
  substituted contract fields framed values = Ok (before ++ 10%Z :: out ++ 10%Z :: after).
Proof.
  intros Hs. unfold substituted. pose proof (validate_template_fields _ _ _ Hv) as Hf.
  destruct (trc_kind contract) eqn:Hk.
  - rewrite placeholder_fields_parses in Hf by done. destruct Hf as (_ & l & Hl & ->).
    rewrite rendered_python; [|by exists l|by apply Hs]. intros (l' & Hl' & ->).
    assert (l' = l) as -> by by eapply parses_unique. apply rendered_python.
    + eexists. split; [by apply framed_parses|].
      by rewrite !omap_app, !literal_fields_none, app_nil_r.
    + by apply Hs.
    + eexists. split; [by apply framed_parses|]. rewrite !bind_app, !literal_text.
      by rewrite <-!app_assoc.
  - unfold placeholder_fields in Hf. rewrite (validate_template_nonempty _ _ _ Hv), bind_Ok_l, Hk in Hf.
    apply bind_Ok in Hf as (f & Ef & Hf). apply (inj Ok) in Hf.
    destruct (trc_available_fields contract !! 0%nat) as [g|] eqn:Eg; [|done]. injection Ef as ->.
    destruct (framed_count _ Hk Eg) as [Hc Hr]. case_bool_decide as Hnil.
    + intros [= <-]. rewrite Hnil in Hf. apply replicate_nil_inv in Hf.
      rewrite <-(str_replace_none (placeholder f) [] framed), Hr by by rewrite Hc.
      by rewrite str_replace_none.
    + simpl of_option. rewrite !bind_Ok_l. intros (v & -> & [= <-])%bind_Ok.
      by rewrite bind_Ok_l, Hr.
  - unfold silent, framed in *. rewrite Hk in *. rewrite H1, H2. by intros [= <-].
Qed.

Lemma framed_template :
  validate_template contract (PStr framed) = Ok fields ∧
  ∀ values out, render contract (PStr template) values = Ok out →
    render contract (PStr framed) values = Ok (before ++ 10%Z :: out ++ 10%Z :: after).
Proof.
  split; [apply framed_fields|]. intros values out.
  rewrite !(render_substituted contract _ fields) by (done || apply framed_fields).
  intros [Hs Ho]. split; [done|]. by apply framed_substituted.
Qed.
End Framed.

(** *** The prompt *)

Lemma component_text_Ok component key msg s :
  component_text component key msg = Ok s → component_get component key = PStr s.
Proof. unfold component_text. destruct (component_get component key) as [| | | |[|]| | | |]; naive_solver. Qed.

(** [json.dumps] of the demonstrations of a component. *)
Definition demonstrations_json (component : list (pystr * pyval)) : result pystr :=
  match component_get component $"demo_set" with
  | PNone => Ok $"[]"
  | demo_set => json_dumps demo_set
  end.

Lemma demonstrations_silent component contract text :
  match component_get component $"demo_set" with
  | PNone => Ok $"[]"
  | demo_set => format_literal_json demo_set contract
  end = Ok text → ∃ demos, demonstrations_json component = Ok demos ∧ silent contract text demos.
Proof.
  unfold demonstrations_json. destruct (component_get component $"demo_set");
    try (intros (demos & Hd & H)%bind_Ok; exists demos; split;
         [exact Hd|by apply silent_format_literal]).
  intros [= <-]. eexists. split; [done|]. apply silent_plain; by apply (bool_decide_unpack _).
Qed.

(** C17. Only the instruction of a composed prompt is a template. Under a valid
    contract of any of the three kinds, and whatever the component's id,
    metadata and demonstrations hold, braces and placeholders included, a
    composed prompt has exactly the fields of its instruction, and it renders,
    under any values, to what the instruction renders to between two texts that
    no value changes: the id and the metadata, and the demonstrations, exactly
    as [json.dumps] writes them. *)
Theorem composed_prompt_exact contract component text :
  TemplateRenderContract_validate contract = Ok contract →
  compose_user_prompt_template [component] contract = Ok text →
  ∃ id metadata instruction demos,
    component_get component $"component_id" = PStr id ∧
    json_dumps (component_metadata id component 0) = Ok metadata ∧
    component_get component $"instruction" = PStr instruction ∧
    demonstrations_json component = Ok demos ∧
    ∀ fields, validate_template contract (PStr instruction) = Ok fields →
    validate_template contract (PStr text) = Ok fields ∧
    ∀ values out, render contract (PStr instruction) values = Ok out →
      render contract (PStr text) values =
        Ok (join_lines [$"## Component 1: " ++ id; $"### Metadata"; metadata; $"### Instruction";
                        out; $"### Demonstrations"; demos]).
Proof.
  intros Hvalid H. unfold compose_user_prompt_template in H. cbn [length Nat.eqb] in H.
  rewrite require_true, bind_Ok_l in H. apply bind_Ok in H as (sections & Hs & H).
  apply (inj Ok) in H. subst text.
  change (zip (range (Z.of_nat 1)) [component]) with [(0%Z, component)] in Hs.
  cbn [mapM fst snd] in Hs. apply bind_Ok in Hs as (lines & Hl & Hs).
  unfold component_sections in Hl. apply bind_Ok in Hl as (id & Hid & Hl).
  apply bind_Ok in Hl as (instruction & Hi & Hl). apply bind_Ok in Hl as (rid & Hrid & Hl).
  apply bind_Ok in Hl as (meta & Hmeta & Hl). apply bind_Ok in Hl as (demos & Hdemos & Hl).
  apply (inj Ok) in Hl, Hs. subst lines. subst sections.
  apply silent_format_literal in Hrid. apply bind_Ok in Hmeta as (m & Hm & Hmeta).
  apply silent_format_literal in Hmeta. apply demonstrations_silent in Hdemos as (d & Hd & Hdemos).
  apply component_text_Ok in Hid, Hi. exists id, m, instruction, d. do 4 (split; [done|]).
  assert (∀ s, bool_decide ((LBRACE ∉ s) ∧ (RBRACE ∉ s)) = true → silent contract s s) as plain.
  { intros s [Hl Hr]%bool_decide_eq_true. by apply silent_plain. }
  assert (silent contract (join_lines [$"## Component 1: " ++ rid; $"### Metadata"; meta; $"### Instruction"])
    (join_lines [$"## Component 1: " ++ id; $"### Metadata"; m; $"### Instruction"])) as H1.
  { repeat (apply silent_line; [done| |]); [|by apply plain|done|by apply plain].
    by apply silent_plain_app; [apply (bool_decide_unpack _)..|]. }
  assert (silent contract (join_lines [$"### Demonstrations"; demos])
    (join_lines [$"### Demonstrations"; d])) as H2.
  { apply silent_line; [done|by apply plain|done]. }
  intros fields Hf. destruct (framed_template contract Hvalid _ _ _ _ H1 H2 instruction fields Hf)
    as [Hv Hr].
  assert (∀ top a middle bottom, join_lines [top; $"### Metadata"; a; $"### Instruction"; middle;
      $"### Demonstrations"; bottom] = join_lines [top; $"### Metadata"; a; $"### Instruction"] ++
      10%Z :: middle ++ 10%Z :: join_lines [$"### Demonstrations"; bottom]) as frame.
  { intros top a middle bottom. cbn [join_lines].
    by repeat (rewrite <-app_assoc; cbn [app]). }
  change (join_lines (concat _)) with (join_lines [$"## Component 1: " ++ rid; $"### Metadata"; meta;
    $"### Instruction"; instruction; $"### Demonstrations"; demos]). split.
  - rewrite frame. exact Hv.
  - intros values out Ho. rewrite !frame. by apply Hr.
Qed.
End Composed.

Module ConcretePrompt.
Definition component : list (pystr * pyval) :=
  [($"component_id", PStr $"a{b}"); ($"instruction_index", PInt 2);
   ($"instruction", PStr ConcreteTemplates.greeting_text); ($"instruction_identity_hash", PStr $"hash");
   ($"demo_index", PInt 0); ($"demo_set", PDict [($"input", PStr $"{day}")]);
   ($"demo_identity_hash", PStr $"hash")].

(** Its demonstrations as JSON. *)
Definition demonstrations : pystr :=
  [123%Z; 34%Z] ++ $"input" ++ [34%Z; 58%Z; 34%Z] ++ $"{day}" ++ [34%Z; 125%Z].

(** One placeholder, replaced as it stands. *)
Definition note : TemplateRenderContract :=
  {| trc_kind := LITERAL_REPLACE_V1; trc_available_fields := [$"name"];
     trc_required_fields := [$"name"] |}.

Definition literal_component (id : pystr) : list (pystr * pyval) :=
  [($"component_id", PStr id); ($"instruction", PStr $"Ask {name}.")].
End ConcretePrompt.

Section PromptWitness.
Import ConcreteTemplates ConcretePrompt.

#[local] Instance zero_text : FloatText :=
  {| float_of_text := λ _, Ok fzero; float_repr := λ _, $"0.0" |}.

(** The braces of the id and of the demonstrations are no fields. *)
Lemma composed_prompt_exact_witness :
  ∃ text metadata,
    compose_user_prompt_template [component] greeting = Ok text ∧
    render greeting (PStr text) [($"name", PStr $"Ann")] =
      Ok (join_lines [$"## Component 1: a{b}"; $"### Metadata"; metadata; $"### Instruction";
                      $"{hi} Ann and Ann"; $"### Demonstrations"; demonstrations]).
Proof.
  destruct (compose_user_prompt_template [component] greeting) as [text|e] eqn:E.
  - destruct (composed_prompt_exact greeting component text ltac:(vm_compute; reflexivity) E)
      as (id & metadata & instruction & demos & Hid & _ & Hi & Hd & H).
    exists text, metadata. split; [reflexivity|].
    injection Hid as <-. injection Hi as <-.
    assert (Ok demos = Ok demonstrations) as Hg by (rewrite <-Hd; vm_compute; reflexivity).
    apply (inj Ok) in Hg. subst demos.
    apply (proj2 (H [$"name"; $"name"] ltac:(vm_compute; reflexivity))).
    vm_compute; reflexivity.
  - vm_compute in E. discriminate E.
Defined.

(** Under [literal_replace/v1] the braces are left as they are, and a component
    whose id holds the placeholder is refused. *)
Example literal_prompt :
  (text ← compose_user_prompt_template [literal_component $"a{b}"] note;
   render note (PStr text) [($"name", PStr $"{b}")]) =
  (metadata ← json_dumps (component_metadata $"a{b}" (literal_component $"a{b}") 0);
   Ok (join_lines [$"## Component 1: a{b}"; $"### Metadata"; metadata; $"### Instruction";
                   $"Ask {b}."; $"### Demonstrations"; $"[]"])) ∧
  is_ok (compose_user_prompt_template [literal_component $"a{name}"] note) = false.
Proof. vm_compute. split; reflexivity. Qed.
End PromptWitness.
