(* ===== verification/Miprov2Space.v ===== *)
(** * Miprov2Space: the search space and the schedule of a MIPROv2 study

    Models, of [optim/miprov2/study.py], [Miprov2ParameterSpace] (one choice of
    an instruction, and of a demonstration set when they are searched, for each
    predictor) and [Miprov2StudySchedule] (when a candidate is evaluated on the
    whole validation set). *)

From S2P Require Import Prelude Floats Identity Frozen EvalConfigs Reward Plan Tools OptimContracts.
From S2P Require Import Miprov2Demos Miprov2Random.

(** ** [int(text)]

    Of a text without digits beyond ASCII; those are a parameter. *)

Class UnicodeDigits := { decimal_digit : Z → option Z }.

Section IntText.
Context `{Digits : !UnicodeDigits}.

Definition digit_value (c : Z) : option Z :=
  if ((48 <=? c) && (c <=? 57))%Z then Some (c - 48)%Z
  else if (c <? 128)%Z then None else decimal_digit c.

(** Digits with single underscores between them. *)
Fixpoint digits_value (acc : Z) (s : pystr) : option Z :=
  match s with
  | [] => Some acc
  | c :: s' =>
      if (c =? 95)%Z then
        match s' with
        | d :: s'' => v ← digit_value d; digits_value (10 * acc + v)%Z s''
        | [] => None
        end
      else v ← digit_value c; digits_value (10 * acc + v)%Z s'
  end.

Definition unsigned_value (s : pystr) : option Z :=
  match s with
  | c :: s' => v ← digit_value c; digits_value v s'
  | [] => None
  end.

Fixpoint drop_spaces (s : pystr) : pystr :=
  match s with
  | c :: s' => if is_space c then drop_spaces s' else s
  | [] => []
  end.

(** A [ValueError] also beyond 4300 digits. *)
Definition py_int (text : pystr) : result Z :=
  let s := rev (drop_spaces (rev (drop_spaces text))) in
  let value :=
    match s with
    | 45%Z :: s' => Z.opp <$> unsigned_value s'
    | 43%Z :: s' => unsigned_value s'
    | _ => unsigned_value s
    end in
  require (Z.of_nat (length (filter (λ c, is_Some (digit_value c)) s)) <=? 4300)%Z ValueError
    "Exceeds the limit (4300 digits) for integer string conversion" ;;
  of_option value ValueError "invalid literal for int()".
End IntText.

(** [name.split("_", maxsplit=n)]. *)
Fixpoint split_underscore (n : nat) (current : pystr) (s : pystr) : list pystr :=
  match s with
  | [] => [current]
  | c :: s' =>
      match n with
      | O => [current ++ s]
      | S n' =>
          if (c =? 95)%Z then current :: split_underscore n' [] s'
          else split_underscore n (current ++ [c]) s'
      end
  end.

(** ** The parameter space *)

(** [TrialParams]. *)
Abbreviation TrialParams := (list (pystr * Z)).

Record Miprov2ParameterSpace := {
  ps_instruction_pools : list (list pystr);
  ps_demo_pools : option (list (list pystr));
}.

#[export] Instance Miprov2ParameterSpace_eq_dec : EqDecision Miprov2ParameterSpace.
Proof. solve_decision. Defined.

Definition pools_dump (pools : list (list pystr)) : pyval :=
  PList ((λ pool, PList (PStr <$> pool)) <$> pools).

Definition Miprov2ParameterSpace_identity_payload (self : Miprov2ParameterSpace) : pyval :=
  PDict [($"instruction_pool_identity_hashes", pools_dump (ps_instruction_pools self));
         ($"demo_pool_identity_hashes", POption pools_dump (ps_demo_pools self))].

Definition check_pool (msg : string) (pool : list pystr) : result unit :=
  require (negb (bool_decide (pool = []))) ValueError msg ;;
  for_each full_hash pool.

Definition Miprov2ParameterSpace_validate (self : Miprov2ParameterSpace) :
    result Miprov2ParameterSpace :=
  require (negb (bool_decide (ps_instruction_pools self = []))) ValueError
    "at least one predictor is required" ;;
  for_each (check_pool "instruction candidate pools must all be non-empty")
    (ps_instruction_pools self) ;;
  match ps_demo_pools self with
  | None => Ok tt
  | Some demos =>
      require (length demos =? length (ps_instruction_pools self))%nat ValueError
        "demo candidate pools must match predictor count" ;;
      for_each (check_pool "demo candidate pools must all be non-empty") demos
  end ;;
  Ok self.

Definition instruction_candidate_counts (self : Miprov2ParameterSpace) : list Z :=
  len <$> ps_instruction_pools self.
Definition demo_candidate_counts (self : Miprov2ParameterSpace) : option (list Z) :=
  (λ pools : list (list pystr), len <$> pools) <$> ps_demo_pools self.

Definition instruction_name (index : Z) : pystr := int_text index ++ $"_predictor_instruction".
Definition demos_name (index : Z) : pystr := int_text index ++ $"_predictor_demos".

(** The predictors of a space. *)
Definition predictors (self : Miprov2ParameterSpace) : list Z :=
  range (len (ps_instruction_pools self)).

Definition parameter_names (self : Miprov2ParameterSpace) : list pystr :=
  predictors self ≫= λ index,
    instruction_name index :: (if is_some (ps_demo_pools self) then [demos_name index] else []).

Definition baseline_params (self : Miprov2ParameterSpace) : TrialParams :=
  (λ name, (name, 0%Z)) <$> parameter_names self.

(** [pools[index]], by an index that is not negative. *)
Definition pool_at (pools : list (list pystr)) (index : Z) : result (list pystr) :=
  of_option (pools !! Z.to_nat index) IndexError "tuple index out of range".

Section Space.
Context `{DSer : !DrSerialize, DSto : !DrStore, Digits : !UnicodeDigits}.

Definition Miprov2ParameterSpace_identity_hash (self : Miprov2ParameterSpace) : result pystr :=
  compute_identity_hash $"whetstone.miprov2_parameter_space" 1
    (Miprov2ParameterSpace_identity_payload self).

Definition candidate_count (self : Miprov2ParameterSpace) (name : pystr) : result Z :=
  match split_underscore 2 [] name with
  | [number; predictor; kind] =>
      require (bool_decide (predictor = $"predictor")) ValueError "unknown MIPROv2 parameter" ;;
      index ← rewrap ValueError ValueError "unknown MIPROv2 parameter" (py_int number);
      require ((0 <=? index)%Z && (index <? len (ps_instruction_pools self))%Z) ValueError
        "unknown MIPROv2 parameter" ;;
      if bool_decide (kind = $"instruction") then
        pool ← pool_at (ps_instruction_pools self) index; Ok (len pool)
      else
        match bool_decide (kind = $"demos"), ps_demo_pools self with
        | true, Some demos => pool ← pool_at demos index; Ok (len pool)
        | _, _ => raise ValueError "unknown MIPROv2 parameter"
        end
  | _ => raise ValueError "unknown MIPROv2 parameter"
  end.

(** [normalize] of a tuple. *)
Definition normalize (self : Miprov2ParameterSpace) (params : TrialParams) : result TrialParams :=
  require (bool_decide (params.*1 = parameter_names self)) ValueError
    "parameters are not in predictor-major instruction/demo order" ;;
  for_each (λ param,
    count ← candidate_count self param.1;
    require ((0 <=? param.2)%Z && (param.2 <? count)%Z) ValueError
      "category is outside its search space") params ;;
  Ok params.

(** [normalize] of a mapping. *)
Definition normalize_mapping (self : Miprov2ParameterSpace) (params : list (pystr * Z)) :
    result TrialParams :=
  let names := parameter_names self in
  require (forallb (λ name, bool_decide (name ∈ names)) params.*1 &&
           forallb (λ name, bool_decide (name ∈ params.*1)) names) ValueError
    "parameter mapping does not match the MIPROv2 space" ;;
  normalized ← mapM (λ name, value ← of_option (dict_get params name) KeyError ""; Ok (name, value))
    names;
  normalize self normalized.

Definition as_dict (self : Miprov2ParameterSpace) (params : TrialParams) :
    result (list (pystr * Z)) :=
  normalized ← normalize self params;
  Ok (dict_of normalized).

(** [list(range(self.candidate_count(name)))] of every parameter. *)
Definition distributions (self : Miprov2ParameterSpace) : result (list (pystr * Z)) :=
  mapM (λ name, count ← candidate_count self name; Ok (name, count)) (parameter_names self).

Definition distribution_identity_hash (self : Miprov2ParameterSpace) : result pystr :=
  parameters ← distributions self;
  compute_identity_hash $"whetstone.miprov2_optuna_distributions" 1
    (PDict [($"parameters",
      PList ((λ p, PDict [($"name", PStr p.1); ($"distribution", PStr $"categorical");
                          ($"choices", PList (PInt <$> range p.2))]) <$> parameters))]).

(** One predictor of a combination. *)
Definition selected_item (self : Miprov2ParameterSpace) (values : list (pystr * Z)) (index : Z) :
    result pyval :=
  pool ← pool_at (ps_instruction_pools self) index;
  instruction_index ← of_option (dict_get values (instruction_name index)) KeyError "";
  instruction_hash ← of_option (pool !! Z.to_nat instruction_index) IndexError
    "tuple index out of range";
  demo ← match ps_demo_pools self with
    | None => Ok []
    | Some demos =>
        demo_index ← of_option (dict_get values (demos_name index)) KeyError "";
        demo_pool ← pool_at demos index;
        demo_hash ← of_option (demo_pool !! Z.to_nat demo_index) IndexError
          "tuple index out of range";
        Ok [($"demo_index", PInt demo_index); ($"demo_identity_hash", PStr demo_hash)]
    end;
  Ok (PDict ([($"predictor_index", PInt index); ($"instruction_index", PInt instruction_index);
              ($"instruction_identity_hash", PStr instruction_hash)] ++ demo)).

Definition combination_identity_hash (self : Miprov2ParameterSpace) (params : TrialParams) :
    result pystr :=
  normalized ← normalize self params;
  selected ← mapM (selected_item self (dict_of normalized)) (predictors self);
  compute_identity_hash $"whetstone.miprov2_trial_combination" 1
    (PDict [($"selected", PList selected)]).
End Space.

(** ** The schedule *)

Record Miprov2StudySchedule := {
  sch_num_trials : Z;
  sch_minibatch : bool;
  sch_minibatch_size : Z;
  sch_valset_size : Z;
  sch_minibatch_full_eval_steps : Z;
}.

#[export] Instance Miprov2StudySchedule_eq_dec : EqDecision Miprov2StudySchedule.
Proof. solve_decision. Defined.

(** The identity payload; the dump has the same fields in the same order. *)
Definition Miprov2StudySchedule_identity_payload (self : Miprov2StudySchedule) : pyval :=
  PDict [($"num_trials", PInt (sch_num_trials self)); ($"minibatch", PBool (sch_minibatch self));
         ($"minibatch_size", PInt (sch_minibatch_size self));
         ($"valset_size", PInt (sch_valset_size self));
         ($"minibatch_full_eval_steps", PInt (sch_minibatch_full_eval_steps self))].

Definition Miprov2StudySchedule_validate (self : Miprov2StudySchedule) :
    result Miprov2StudySchedule :=
  require (negb (sch_num_trials self <=? 0)%Z) ValueError "num_trials must be positive" ;;
  require (negb (sch_minibatch_size self <=? 0)%Z) ValueError "minibatch_size must be positive" ;;
  require (negb (sch_valset_size self <=? 0)%Z) ValueError "valset_size must be positive" ;;
  require (negb (sch_minibatch_full_eval_steps self <=? 0)%Z) ValueError
    "minibatch_full_eval_steps must be positive" ;;
  require (negb (sch_minibatch self && (sch_valset_size self <? sch_minibatch_size self)%Z))
    ValueError "minibatch_size cannot exceed valset_size" ;;
  Ok self.

Definition adjusted_num_trials (self : Miprov2StudySchedule) : Z :=
  if negb (sch_minibatch self) then sch_num_trials self else
  let extra_at_end :=
    if negb (sch_num_trials self mod sch_minibatch_full_eval_steps self =? 0)%Z then 1%Z else 0%Z in
  (sch_num_trials self + sch_num_trials self / sch_minibatch_full_eval_steps self + 1 +
   extra_at_end)%Z.

Definition promotion_due (self : Miprov2StudySchedule) (optuna_trial_number : Z) : bool :=
  if negb (sch_minibatch self) then false else
  let display_trial_number := (optuna_trial_number + 1)%Z in
  (display_trial_number mod (sch_minibatch_full_eval_steps self + 1) =? 0)%Z ||
  (display_trial_number =? adjusted_num_trials self - 1)%Z.

(** ** Cadence *)

Section Cadence.
Variable schedule : Miprov2StudySchedule.
Hypothesis valid : Miprov2StudySchedule_validate schedule = Ok schedule.

Lemma schedule_positive :
  (0 < sch_num_trials schedule ∧ 0 < sch_valset_size schedule ∧
   0 < sch_minibatch_full_eval_steps schedule)%Z.
Proof.
  pose proof valid as H. unfold Miprov2StudySchedule_validate in H.
  apply bind_Ok in H as ([] & H1%require_Ok & H). apply bind_Ok in H as ([] & _ & H).
  apply bind_Ok in H as ([] & H2%require_Ok & H). apply bind_Ok in H as ([] & H3%require_Ok & _).
  rewrite negb_true_iff, Z.leb_gt in H1, H2, H3. lia.
Qed.

(** How many promotions are among the first [k] samples of the schedule. *)
Definition promotions_before (k : Z) : Z :=
  if sch_minibatch schedule then
    (k / sch_minibatch_full_eval_steps schedule +
     (if (k =? sch_num_trials schedule)%Z &&
         negb (k mod sch_minibatch_full_eval_steps schedule =? 0)%Z then 1 else 0))%Z
  else 0%Z.

(** The number that trial [k] of the sampled trials, counted from zero, has. *)
Definition sample_number (k : Z) : Z := (1 + k + promotions_before k)%Z.

Lemma promotion_cadence k :
  (0 ≤ k < sch_num_trials schedule)%Z →
  promotion_due schedule (sample_number k) = sch_minibatch schedule &&
    (((k + 1) mod sch_minibatch_full_eval_steps schedule =? 0)%Z ||
     (k + 1 =? sch_num_trials schedule)%Z).
Proof.
  intros Hk. destruct schedule_positive as (Hn & _ & Hs).
  unfold promotion_due, sample_number, promotions_before, adjusted_num_trials.
  destruct (sch_minibatch schedule); [cbn [negb andb]|done].
  rewrite (proj2 (Z.eqb_neq k _)) by lia. cbn [andb].
  set (s := sch_minibatch_full_eval_steps schedule) in *. set (n := sch_num_trials schedule) in *.
  pose proof (Z.div_mod k s ltac:(lia)) as Ek. pose proof (Z.mod_pos_bound k s Hs) as Bk.
  pose proof (Z.div_mod n s ltac:(lia)) as En. pose proof (Z.mod_pos_bound n s Hs) as Bn.
  set (q := (k / s)%Z) in *. set (r := (k mod s)%Z) in *.
  set (qn := (n / s)%Z) in *. set (rn := (n mod s)%Z) in *.
  apply eq_true_iff_eq. rewrite !orb_true_iff, !Z.eqb_eq.
  assert ((1 + k + (q + 0) + 1) mod (s + 1) = 0 ↔ r = s - 1)%Z as ->.
  { replace (1 + k + (q + 0) + 1)%Z with (q * (s + 1) + (r + 2))%Z by lia.
    rewrite Z.add_comm, Z.mod_add by lia. split.
    - intros H. destruct (decide (r + 2 < s + 1)%Z); [rewrite Z.mod_small in H; lia|lia].
    - intros ->. replace (s - 1 + 2)%Z with (s + 1)%Z by lia. apply Z.mod_same. lia. }
  assert ((k + 1) mod s = 0 ↔ r = s - 1)%Z as ->.
  { replace (k + 1)%Z with (q * s + (r + 1))%Z by lia.
    rewrite Z.add_comm, Z.mod_add by lia. split.
    - intros H. destruct (decide (r + 1 < s)%Z); [rewrite Z.mod_small in H; lia|lia].
    - intros ->. replace (s - 1 + 1)%Z with s by lia. apply Z.mod_same. lia. }
  assert (q ≤ qn)%Z as Hq by nia.
  destruct (Z.eqb_spec rn 0) as [Hr|Hr]; cbn [negb]; [|nia].
  split; [intros [->|H]; [by left|]|intros [->|H]; [by left|]]; nia.
Qed.

(** A promotion takes the trial number after its sample. *)
Lemma promotions_before_succ k :
  (0 ≤ k < sch_num_trials schedule)%Z →
  promotions_before (k + 1) =
    (promotions_before k + (if promotion_due schedule (sample_number k) then 1 else 0))%Z.
Proof.
  intros Hk. rewrite promotion_cadence by done. destruct schedule_positive as (Hn & _ & Hs).
  unfold promotions_before. destruct (sch_minibatch schedule); [cbn [andb]|done].
  rewrite (proj2 (Z.eqb_neq k _)) by lia. cbn [andb].
  set (s := sch_minibatch_full_eval_steps schedule) in *. set (n := sch_num_trials schedule) in *.
  pose proof (Z.div_mod k s ltac:(lia)) as Ek. pose proof (Z.mod_pos_bound k s Hs) as Bk.
  pose proof (Z.div_mod (k + 1) s ltac:(lia)) as E1. pose proof (Z.mod_pos_bound (k + 1) s Hs) as B1.
  destruct (Z.eqb_spec ((k + 1) mod s) 0), (Z.eqb_spec (k + 1) n); cbn [negb orb andb]; nia.
Qed.

Lemma sample_number_succ k :
  (0 ≤ k < sch_num_trials schedule)%Z →
  sample_number (k + 1) =
    (sample_number k + 1 + (if promotion_due schedule (sample_number k) then 1 else 0))%Z.
Proof. intros Hk. unfold sample_number at 1 2. rewrite promotions_before_succ by done. lia. Qed.

Lemma sample_number_first : sample_number 0 = 1%Z.
Proof.
  destruct schedule_positive as (Hn & _ & Hs). unfold sample_number, promotions_before.
  rewrite (proj2 (Z.eqb_neq 0 _)), Z.div_0_l by lia. by destruct (sch_minibatch schedule).
Qed.

(** All trials of a minibatch schedule, the baseline included. *)
Lemma sample_number_last :
  sch_minibatch schedule = true →
  sample_number (sch_num_trials schedule) = adjusted_num_trials schedule.
Proof.
  intros Hm. unfold sample_number, promotions_before, adjusted_num_trials.
  rewrite Hm, Z.eqb_refl. cbn [negb andb]. lia.
Qed.
End Cadence.
