(* ===== verification/Miprov2Study.v ===== *)
(** * Miprov2Study: the durable study of a MIPROv2 run

    Models, of [optim/miprov2/study.py], the records of a study (observations,
    candidate assemblies, promotions and the transcript), the choice of the
    candidate to promote, and [Miprov2Study], which rebuilds optuna's study from
    the transcript, suggests the next trial and records what it scored. optuna
    is a parameter ([Optuna]); [repr] of a float is too ([FloatText]). *)

From S2P Require Import Prelude Floats Identity Frozen Leasing EvalConfigs Reward Plan Aggregate Tools.
From S2P Require Import Claims Candidate Cost OptimContracts Copro CoproAdapter.
From S2P Require Import Miprov2Demos Miprov2Evals Miprov2Random Miprov2Control Miprov2Render Miprov2Space.
From Stdlib Require Import SpecFloat.

Definition MIPROV2_STUDY_SCHEMA := $"whetstone.miprov2_study_transcript".
Definition MIPROV2_STUDY_SCHEMA_VERSION : Z := 7.
Definition MIPROV2_CANDIDATE_ASSEMBLY_SCHEMA := $"whetstone.miprov2_candidate_assembly".
Definition MIPROV2_CANDIDATE_ASSEMBLY_SCHEMA_VERSION : Z := 4.
Definition MIPROV2_CANDIDATE_RENDERING_SCHEMA := $"whetstone.miprov2_candidate_rendering".
Definition MIPROV2_CANDIDATE_RENDERING_SCHEMA_VERSION : Z := 1.
Definition MIPROV2_CANDIDATE_PROGRAM_SCHEMA := $"whetstone.miprov2_candidate_program".
Definition MIPROV2_CANDIDATE_PROGRAM_SCHEMA_VERSION : Z := 1.
Definition MIPROV2_INSTRUCTION_SCHEMA := $"whetstone.miprov2_instruction".

(** ** [round(x, 2)] *)

(** The quotient rounded half to even. *)
Definition div_half_even (n d : Z) : Z :=
  let q := (n / d)%Z in
  match (2 * (n mod d) ?= d)%Z with
  | Lt => q
  | Gt => (q + 1)%Z
  | Eq => if Z.even q then q else (q + 1)%Z
  end.

(** The float nearest to the decimal with two places nearest to [x]; a float
    with a non-negative exponent is an integer already. *)
Definition round2 (x : float) : float :=
  match x with
  | S754_finite s m e =>
      if (0 <=? e)%Z then x else
      match div_half_even (Z.pos m * 100) (2 ^ (- e)) with
      | Z.pos hundredths =>
          let '(mz, ez, lz) := SFdiv_core_binary 53 1024 (Z.pos hundredths) 0 100 0 in
          binary_round_aux 53 1024 s mz ez lz
      | _ => S754_zero s
      end
  | _ => x
  end.

(** [_require_finite]. *)
Definition require_finite_score (value : float) : result unit :=
  require (fisfinite value) ValueError "must be finite".

(** ** Observations *)

(** [EvalPurpose]. *)
Inductive EvalPurpose := MIPROV2_BASELINE | MIPROV2_SAMPLE | MIPROV2_PROMOTION.

#[export] Instance EvalPurpose_eq_dec : EqDecision EvalPurpose.
Proof. solve_decision. Defined.

Definition EvalPurpose_value (p : EvalPurpose) : pystr :=
  match p with
  | MIPROV2_BASELINE => $"miprov2_baseline" | MIPROV2_SAMPLE => $"miprov2_sample"
  | MIPROV2_PROMOTION => $"miprov2_promotion"
  end.

(** [purpose.removeprefix("miprov2_")]. *)
Definition derivation_purpose (p : EvalPurpose) : Miprov2EvalPurpose :=
  match p with
  | MIPROV2_BASELINE => BASELINE | MIPROV2_SAMPLE => SAMPLE | MIPROV2_PROMOTION => PROMOTION
  end.

Record EvalObservation := {
  eo_run_id : pystr;
  eo_intent_id : pystr;
  eo_effect_identity_hash : pystr;
  eo_purpose : EvalPurpose;
  eo_candidate : CandidateRef;
  eo_task_batch_hashes : list pystr;
  eo_eval_config : EvalConfigRef;
  eo_eval_binding : EvalBinding;
  eo_eval_role : EvalRole;
  eo_provider_execution_policy_ref : option IdentityRef;
  eo_eval_result_ref : TypedRef;
  eo_expected_reward_policy_hash : pystr;
  eo_reward_ref : option RewardRef;
  eo_normalized_score : float;
}.

(** The identity payload; the dump has the same fields in the same order. *)
Definition EvalObservation_dump (self : EvalObservation) : pyval :=
  PDict [($"run_id", PStr (eo_run_id self)); ($"intent_id", PStr (eo_intent_id self));
         ($"effect_identity_hash", PStr (eo_effect_identity_hash self));
         ($"purpose", PStr (EvalPurpose_value (eo_purpose self)));
         ($"candidate", CandidateRef_dump (eo_candidate self));
         ($"task_batch_hashes", PList (PStr <$> eo_task_batch_hashes self));
         ($"eval_config", EvalConfigRef_dump (eo_eval_config self));
         ($"eval_binding", EvalBinding_identity_payload (eo_eval_binding self));
         ($"eval_role", PStr (EvalRole_value (eo_eval_role self)));
         ($"provider_execution_policy_ref",
           POption IdentityRef_dump (eo_provider_execution_policy_ref self));
         ($"eval_result_ref", TypedRef_dump (eo_eval_result_ref self));
         ($"expected_reward_policy_hash", PStr (eo_expected_reward_policy_hash self));
         ($"reward_ref", POption RewardRef_dump (eo_reward_ref self));
         ($"normalized_score", PFloat (eo_normalized_score self))].

Record BaselineObservation := {
  bo_categorical_combination_identity_hash : pystr;
  bo_evaluated_base_candidate : CandidateRef;
  bo_score : float;
  bo_evaluation : EvalObservation;
}.

Definition BaselineObservation_dump (self : BaselineObservation) : pyval :=
  PDict [($"categorical_combination_identity_hash",
           PStr (bo_categorical_combination_identity_hash self));
         ($"evaluated_base_candidate", CandidateRef_dump (bo_evaluated_base_candidate self));
         ($"score", PFloat (bo_score self));
         ($"evaluation", EvalObservation_dump (bo_evaluation self))].

(** ** Assemblies *)

Record Miprov2ComponentSelection := {
  cs_component_id : pystr;
  cs_instruction_index : Z;
  cs_instruction : pystr;
  cs_instruction_identity_hash : pystr;
  cs_demo_index : option Z;
  cs_demo_set : option ComponentDemoSet;
  cs_demo_identity_hash : option pystr;
}.

(** The fields of the dump, the component given to the renderer. *)
Definition Miprov2ComponentSelection_fields (self : Miprov2ComponentSelection) :
    list (pystr * pyval) :=
  [($"component_id", PStr (cs_component_id self));
   ($"instruction_index", PInt (cs_instruction_index self));
   ($"instruction", PStr (cs_instruction self));
   ($"instruction_identity_hash", PStr (cs_instruction_identity_hash self));
   ($"demo_index", POption PInt (cs_demo_index self));
   ($"demo_set", POption ComponentDemoSet_dump (cs_demo_set self));
   ($"demo_identity_hash", POption PStr (cs_demo_identity_hash self))].

Record Miprov2CandidateRendering := {
  cr_control_identity_hash : pystr;
  cr_base_candidate_identity_hash : pystr;
  cr_categorical_combination_identity_hash : pystr;
  cr_components : list Miprov2ComponentSelection;
}.

Definition Miprov2CandidateRendering_fields (self : Miprov2CandidateRendering) :
    list (pystr * pyval) :=
  [($"control_identity_hash", PStr (cr_control_identity_hash self));
   ($"base_candidate_identity_hash", PStr (cr_base_candidate_identity_hash self));
   ($"categorical_combination_identity_hash",
     PStr (cr_categorical_combination_identity_hash self));
   ($"renderer_version", PStr MIPROV2_CANDIDATE_RENDERER_VERSION);
   ($"components", PList ((λ c, PDict (Miprov2ComponentSelection_fields c)) <$> cr_components self))].

Record Miprov2CandidateAssemblyBinding := {
  ca_params : TrialParams;
  ca_categorical_combination_identity_hash : pystr;
  ca_assembled : CandidateRef;
  ca_program_identity_hash : pystr;
  ca_rendering : Miprov2CandidateRendering;
  ca_optimizer_config : IdentityRef;
  ca_base_candidate : CandidateRef;
  ca_program_layout : Miprov2ProgramLayout;
  ca_prompt_adapter_identity_hash : pystr;
  ca_run : OptimRunRef;
}.

(** [[[name, value] for name, value in params]]. *)
Definition params_dump (params : TrialParams) : pyval := pairs_dump PInt params.

Definition Miprov2CandidateAssemblyBinding_dump (self : Miprov2CandidateAssemblyBinding) : pyval :=
  PDict [($"params", params_dump (ca_params self));
         ($"categorical_combination_identity_hash",
           PStr (ca_categorical_combination_identity_hash self));
         ($"candidate", CandidateRef_dump (ca_assembled self));
         ($"program_identity_hash", PStr (ca_program_identity_hash self));
         ($"rendering", PDict (Miprov2CandidateRendering_fields (ca_rendering self)));
         ($"optimizer_config", IdentityRef_dump (ca_optimizer_config self));
         ($"base_candidate", CandidateRef_dump (ca_base_candidate self));
         ($"program_layout", Miprov2ProgramLayout_dump (ca_program_layout self));
         ($"prompt_adapter_identity_hash", PStr (ca_prompt_adapter_identity_hash self));
         ($"run", OptimRunRef_dump (ca_run self))].

(** ** Samples and promotions *)

Record Promotion := {
  pr_trial_number : Z;
  pr_params : TrialParams;
  pr_candidate_combination_identity_hash : pystr;
  pr_evaluated_candidate_identity_hash : pystr;
  pr_candidate_assembly : Miprov2CandidateAssemblyBinding;
  pr_source_sample_trial_number : Z;
  pr_minibatch_mean : float;
  pr_full_score : float;
  pr_evaluation : EvalObservation;
}.

Definition Promotion_dump (self : Promotion) : pyval :=
  PDict [($"trial_number", PInt (pr_trial_number self)); ($"params", params_dump (pr_params self));
         ($"candidate_combination_identity_hash",
           PStr (pr_candidate_combination_identity_hash self));
         ($"evaluated_candidate_identity_hash", PStr (pr_evaluated_candidate_identity_hash self));
         ($"candidate_assembly",
           Miprov2CandidateAssemblyBinding_dump (pr_candidate_assembly self));
         ($"source_sample_trial_number", PInt (pr_source_sample_trial_number self));
         ($"minibatch_mean", PFloat (pr_minibatch_mean self));
         ($"full_score", PFloat (pr_full_score self));
         ($"evaluation", EvalObservation_dump (pr_evaluation self))].

Record SampleObservation := {
  so_trial_number : Z;
  so_params : TrialParams;
  so_candidate_combination_identity_hash : pystr;
  so_evaluated_candidate_identity_hash : pystr;
  so_candidate_assembly : Miprov2CandidateAssemblyBinding;
  so_score : float;
  so_evaluation : EvalObservation;
  so_batch_full_evaluation : bool;
  so_promotion : option Promotion;
}.

Definition SampleObservation_dump (self : SampleObservation) : pyval :=
  PDict [($"trial_number", PInt (so_trial_number self)); ($"params", params_dump (so_params self));
         ($"candidate_combination_identity_hash",
           PStr (so_candidate_combination_identity_hash self));
         ($"evaluated_candidate_identity_hash", PStr (so_evaluated_candidate_identity_hash self));
         ($"candidate_assembly",
           Miprov2CandidateAssemblyBinding_dump (so_candidate_assembly self));
         ($"score", PFloat (so_score self));
         ($"evaluation", EvalObservation_dump (so_evaluation self));
         ($"batch_full_evaluation", PBool (so_batch_full_evaluation self));
         ($"promotion", POption Promotion_dump (so_promotion self))].

(** [sample.model_copy(update={"promotion": promotion})]. *)
Definition with_promotion (self : SampleObservation) (promotion : option Promotion) :
    SampleObservation :=
  {| so_trial_number := so_trial_number self; so_params := so_params self;
     so_candidate_combination_identity_hash := so_candidate_combination_identity_hash self;
     so_evaluated_candidate_identity_hash := so_evaluated_candidate_identity_hash self;
     so_candidate_assembly := so_candidate_assembly self; so_score := so_score self;
     so_evaluation := so_evaluation self;
     so_batch_full_evaluation := so_batch_full_evaluation self; so_promotion := promotion |}.

Record StudySuggestion := {
  ss_trial_number : Z;
  ss_params : TrialParams;
  ss_candidate_combination_identity_hash : pystr;
}.

#[export] Instance StudySuggestion_eq_dec : EqDecision StudySuggestion.
Proof. solve_decision. Defined.

Definition StudySuggestion_validate (self : StudySuggestion) : result StudySuggestion :=
  require (negb (ss_trial_number self <? 1)%Z) ValueError
    "suggestion trial_number must be positive" ;;
  full_hash (ss_candidate_combination_identity_hash self) ;;
  Ok self.

Definition StudySuggestion_identity_payload (self : StudySuggestion) : pyval :=
  PDict [($"trial_number", PInt (ss_trial_number self)); ($"params", params_dump (ss_params self));
         ($"candidate_combination_identity_hash",
           PStr (ss_candidate_combination_identity_hash self))].

Record PromotionCandidate := {
  pc_params : TrialParams;
  pc_candidate_combination_identity_hash : pystr;
  pc_evaluated_candidate_identity_hash : pystr;
  pc_candidate_assembly : Miprov2CandidateAssemblyBinding;
  pc_source_sample_trial_number : Z;
  pc_minibatch_mean : float;
}.

Definition PromotionCandidate_identity_payload (self : PromotionCandidate) : pyval :=
  PDict [($"params", params_dump (pc_params self));
         ($"candidate_combination_identity_hash",
           PStr (pc_candidate_combination_identity_hash self));
         ($"evaluated_candidate_identity_hash", PStr (pc_evaluated_candidate_identity_hash self));
         ($"candidate_assembly",
           Miprov2CandidateAssemblyBinding_dump (pc_candidate_assembly self));
         ($"source_sample_trial_number", PInt (pc_source_sample_trial_number self));
         ($"minibatch_mean", PFloat (pc_minibatch_mean self))].

Inductive FullSource := BASELINE_SOURCE | SAMPLE_SOURCE | PROMOTION_SOURCE.

Record FullEvaluation := {
  fe_source : FullSource;
  fe_trial_number : Z;
  fe_params : TrialParams;
  fe_candidate_combination_identity_hash : pystr;
  fe_evaluated_candidate_identity_hash : pystr;
  fe_score : float;
}.

Definition FullSource_value (s : FullSource) : pystr :=
  match s with
  | BASELINE_SOURCE => $"baseline" | SAMPLE_SOURCE => $"sample" | PROMOTION_SOURCE => $"promotion"
  end.

Definition FullEvaluation_identity_payload (self : FullEvaluation) : pyval :=
  PDict [($"source", PStr (FullSource_value (fe_source self)));
         ($"trial_number", PInt (fe_trial_number self)); ($"params", params_dump (fe_params self));
         ($"candidate_combination_identity_hash",
           PStr (fe_candidate_combination_identity_hash self));
         ($"evaluated_candidate_identity_hash", PStr (fe_evaluated_candidate_identity_hash self));
         ($"score", PFloat (fe_score self))].

Definition FullEvaluation_validate (self : FullEvaluation) : result FullEvaluation :=
  require (negb (fe_trial_number self <? 0)%Z) ValueError "trial_number cannot be negative" ;;
  full_hash (fe_candidate_combination_identity_hash self) ;;
  full_hash (fe_evaluated_candidate_identity_hash self) ;;
  require_finite_score (fe_score self) ;;
  Ok self.

(** ** The transcript *)

Record StudyTranscript := {
  st_demo_mode : Miprov2DemoMode;
  st_seed : Z;
  st_run_id : pystr;
  st_validation_task_hashes : list pystr;
  st_validation_eval_source : EvalConfigRef;
  st_validation_num_seeds : Z;
  st_reward_policy_hash : pystr;
  st_optimizer_config : IdentityRef;
  st_prompt_adapter_identity_hash : pystr;
  st_expected_base_candidate : CandidateRef;
  st_program_layout : Miprov2ProgramLayout;
  st_run : OptimRunRef;
  st_instruction_pools : list (list pystr);
  st_demo_pools : option (list (list pystr));
  st_parameter_space_identity_hash : pystr;
  st_distribution_identity_hash : pystr;
  st_schedule : Miprov2StudySchedule;
  st_baseline : BaselineObservation;
  st_samples : list SampleObservation;
}.

Definition whetstone_deviation (self : StudyTranscript) : option pystr :=
  if is_faithful_dspy (st_demo_mode self) then None
  else Some ($"demo_mode:" ++ Miprov2DemoMode_value (st_demo_mode self)).

(** [parameter_space], before its own validation. *)
Definition transcript_space (self : StudyTranscript) : Miprov2ParameterSpace :=
  {| ps_instruction_pools := st_instruction_pools self; ps_demo_pools := st_demo_pools self |}.

(** The fields from [seed] on; the dump has [optuna_version] and [demo_mode]
    before them. *)
Definition transcript_fields (self : StudyTranscript) : list (pystr * pyval) :=
  [($"seed", PInt (st_seed self)); ($"run_id", PStr (st_run_id self));
   ($"validation_task_hashes", PList (PStr <$> st_validation_task_hashes self));
   ($"validation_eval_source", EvalConfigRef_dump (st_validation_eval_source self));
   ($"validation_num_seeds", PInt (st_validation_num_seeds self));
   ($"reward_policy_hash", PStr (st_reward_policy_hash self));
   ($"optimizer_config", IdentityRef_dump (st_optimizer_config self));
   ($"prompt_adapter_identity_hash", PStr (st_prompt_adapter_identity_hash self));
   ($"expected_base_candidate", CandidateRef_dump (st_expected_base_candidate self));
   ($"program_layout", Miprov2ProgramLayout_dump (st_program_layout self));
   ($"run", OptimRunRef_dump (st_run self));
   ($"instruction_pool_identity_hashes", pools_dump (st_instruction_pools self));
   ($"demo_pool_identity_hashes", POption pools_dump (st_demo_pools self));
   ($"parameter_space_identity_hash", PStr (st_parameter_space_identity_hash self));
   ($"distribution_identity_hash", PStr (st_distribution_identity_hash self));
   ($"schedule", Miprov2StudySchedule_identity_payload (st_schedule self));
   ($"baseline", BaselineObservation_dump (st_baseline self));
   ($"samples", PList (SampleObservation_dump <$> st_samples self))].

Definition StudyTranscript_identity_payload (self : StudyTranscript) : pyval :=
  PDict ([($"schema_name", PStr MIPROV2_STUDY_SCHEMA);
          ($"schema_version", PInt MIPROV2_STUDY_SCHEMA_VERSION);
          ($"algorithm_version", PStr MIPROV2_ALGORITHM_VERSION);
          ($"whetstone_deviation", POption PStr (whetstone_deviation self));
          ($"demo_mode", PStr (Miprov2DemoMode_value (st_demo_mode self)));
          ($"reference_commit", PStr MIPROV2_REFERENCE_COMMIT);
          ($"optuna_version", PStr MIPROV2_OPTUNA_VERSION)] ++ transcript_fields self).

(** [model_dump(mode="json")]. *)
Definition StudyTranscript_dump (self : StudyTranscript) : pyval :=
  PDict ([($"schema_name", PStr MIPROV2_STUDY_SCHEMA);
          ($"schema_version", PInt MIPROV2_STUDY_SCHEMA_VERSION);
          ($"algorithm_version", PStr MIPROV2_ALGORITHM_VERSION);
          ($"reference_commit", PStr MIPROV2_REFERENCE_COMMIT);
          ($"optuna_version", PStr MIPROV2_OPTUNA_VERSION);
          ($"demo_mode", PStr (Miprov2DemoMode_value (st_demo_mode self)))] ++ transcript_fields self).

(** The transcript with one more sample. *)
Definition with_samples (self : StudyTranscript) (samples : list SampleObservation) :
    StudyTranscript :=
  {| st_demo_mode := st_demo_mode self; st_seed := st_seed self; st_run_id := st_run_id self;
     st_validation_task_hashes := st_validation_task_hashes self;
     st_validation_eval_source := st_validation_eval_source self;
     st_validation_num_seeds := st_validation_num_seeds self;
     st_reward_policy_hash := st_reward_policy_hash self;
     st_optimizer_config := st_optimizer_config self;
     st_prompt_adapter_identity_hash := st_prompt_adapter_identity_hash self;
     st_expected_base_candidate := st_expected_base_candidate self;
     st_program_layout := st_program_layout self; st_run := st_run self;
     st_instruction_pools := st_instruction_pools self; st_demo_pools := st_demo_pools self;
     st_parameter_space_identity_hash := st_parameter_space_identity_hash self;
     st_distribution_identity_hash := st_distribution_identity_hash self;
     st_schedule := st_schedule self; st_baseline := st_baseline self; st_samples := samples |}.

(** A failure of [model_validate] of a transcript is a [ValidationError]. *)
Definition mismatch_if_invalid {A} (r : result A) : result A :=
  match r with
  | Ok a => Ok a
  | Err e =>
      if exn_isa (exn_cls e) ValueError || exn_isa (exn_cls e) AssertionError
      then raise StudyTranscriptMismatch "transcript fails its identity and evidence contract"
      else Err e
  end.

(** ** Validation

    The validator of each record, and [model_validate] of its dump, which runs
    the validators of its fields first. *)

Section Validation.
Context `{DSer : !DrSerialize, DSto : !DrStore, Uni : !UnicodeIdentifiers, DText : !FloatText}.
Context `{Digits : !UnicodeDigits}.

Definition EvalObservation_validate (self : EvalObservation) : result EvalObservation :=
  CandidateRef_validate (eo_candidate self) ;;
  EvalBinding_model_validate (eo_eval_binding self) ;;
  option_validate RewardRef_model_validate (eo_reward_ref self) ;;
  require (negb (bool_decide (eo_run_id self = []) || bool_decide (eo_intent_id self = [])))
    ValueError "evaluation observation run_id and intent_id are required" ;;
  full_hash (eo_effect_identity_hash self) ;;
  full_hash (eo_expected_reward_policy_hash self) ;;
  require (negb (bool_decide (eo_task_batch_hashes self = []))) ValueError
    "task_batch_hashes must not be empty" ;;
  for_each full_hash (eo_task_batch_hashes self) ;;
  require (bool_decide (eo_eval_config self = eb_eval_config (eo_eval_binding self))) ValueError
    "evaluation Eval Config differs from its derivation binding" ;;
  require (bool_decide (eo_eval_role self = INTERNAL)) ValueError
    "MIPROv2 requires internal evaluation" ;;
  (if bool_decide (tref_schema_name (eo_eval_result_ref self) = EVAL_EVIDENCE_SCHEMA) then
     reward ← of_option (eo_reward_ref self) ValueError
       "measured observation requires exact RewardRef";
     policy_hash ← Reward_policy_hash (rwr_record reward);
     require (bool_decide (policy_hash = eo_expected_reward_policy_hash self)) ValueError
       "observation Reward uses another policy" ;;
     require (feq (round2 (fmul (rw_value (rwr_record reward)) (float_of_Z 100)))
                (eo_normalized_score self)) ValueError
       "observation score differs from exact Reward"
   else if bool_decide (tref_schema_name (eo_eval_result_ref self) = EVAL_FAILURE_SCHEMA) then
     require (negb (is_some (eo_reward_ref self) || negb (feq (eo_normalized_score self) fzero)))
       ValueError "failed observation has zero score and no Reward"
   else raise ValueError "observation has the wrong Evaluation Result schema") ;;
  require_finite_score (eo_normalized_score self) ;;
  Ok self.

Definition EvalObservation_model_validate (self : EvalObservation) : result EvalObservation :=
  EvalConfigRef_validate (eo_eval_config self) ;;
  EvalObservation_validate self.

Definition BaselineObservation_validate (self : BaselineObservation) : result BaselineObservation :=
  let identity_hash := candr_identity_hash (bo_evaluated_base_candidate self) in
  full_hash (bo_categorical_combination_identity_hash self) ;;
  full_hash identity_hash ;;
  require (bool_decide (candr_identity_hash (eo_candidate (bo_evaluation self)) = identity_hash))
    ValueError "baseline evidence does not match evaluated candidate" ;;
  require (bool_decide (eo_purpose (bo_evaluation self) = MIPROV2_BASELINE)) ValueError
    "baseline evidence has the wrong purpose" ;;
  require_finite_score (bo_score self) ;;
  require (feq (bo_score self) (eo_normalized_score (bo_evaluation self))) ValueError
    "baseline score does not match verified evaluation" ;;
  Ok self.

Definition BaselineObservation_model_validate (self : BaselineObservation) :
    result BaselineObservation :=
  CandidateRef_validate (bo_evaluated_base_candidate self) ;;
  EvalObservation_model_validate (bo_evaluation self) ;;
  BaselineObservation_validate self.

Definition instruction_identity_hash (instruction : pystr) : result pystr :=
  compute_identity_hash MIPROV2_INSTRUCTION_SCHEMA 1
    (PDict [($"instruction", PStr instruction)]).

Definition Miprov2ComponentSelection_validate (self : Miprov2ComponentSelection) :
    result Miprov2ComponentSelection :=
  require (negb (bool_decide (cs_component_id self = []))) ValueError
    "component_id must be non-empty" ;;
  require (negb (cs_instruction_index self <? 0)%Z) ValueError
    "instruction_index cannot be negative" ;;
  expected_instruction ← instruction_identity_hash (cs_instruction self);
  require (bool_decide (cs_instruction_identity_hash self = expected_instruction)) ValueError
    "instruction identity does not match its text" ;;
  require (Bool.eqb (is_some (cs_demo_index self)) (is_some (cs_demo_set self))) ValueError
    "demo index and structured demo must be paired" ;;
  require (Bool.eqb (is_some (cs_demo_set self)) (is_some (cs_demo_identity_hash self))) ValueError
    "structured demo and identity must be paired" ;;
  require (match cs_demo_index self with Some i => negb (i <? 0)%Z | None => true end) ValueError
    "demo_index cannot be negative" ;;
  match cs_demo_set self with
  | None => Ok tt
  | Some demo_set =>
      h ← ComponentDemoSet_identity_hash demo_set;
      require (bool_decide (cs_demo_identity_hash self = Some h)) ValueError
        "demo identity does not match structured demo" ;;
      require (bool_decide (cseq_component_id <$> cset_components demo_set =
                            [cs_component_id self])) ValueError
        "structured demo must contain only its selected component"
  end ;;
  Ok self.

Definition Miprov2ComponentSelection_model_validate (self : Miprov2ComponentSelection) :
    result Miprov2ComponentSelection :=
  option_validate (λ demos, ComponentDemoSet_model_validate demos ;; Ok tt) (cs_demo_set self) ;;
  Miprov2ComponentSelection_validate self.

Definition Miprov2CandidateRendering_validate (self : Miprov2CandidateRendering) :
    result Miprov2CandidateRendering :=
  for_each full_hash
    [cr_control_identity_hash self; cr_base_candidate_identity_hash self;
     cr_categorical_combination_identity_hash self] ;;
  require (length (cr_components self) =? 1)%nat ValueError
    "candidate rendering requires exactly one component" ;;
  Ok self.

Definition Miprov2CandidateRendering_model_validate (self : Miprov2CandidateRendering) :
    result Miprov2CandidateRendering :=
  for_each (λ c, Miprov2ComponentSelection_model_validate c ;; Ok tt) (cr_components self) ;;
  Miprov2CandidateRendering_validate self.

Definition Miprov2CandidateRendering_identity_hash (self : Miprov2CandidateRendering) :
    result pystr :=
  compute_identity_hash MIPROV2_CANDIDATE_RENDERING_SCHEMA
    MIPROV2_CANDIDATE_RENDERING_SCHEMA_VERSION (PDict (Miprov2CandidateRendering_fields self)).

(** [_require_run_authorities]. *)
Definition require_run_authorities (run : OptimRunRef) (optimizer_config : IdentityRef)
    (reward_policy_hash : option pystr) : result unit :=
  require (bool_decide (run_optimizer_config (runr_record run) = optimizer_config)) ValueError
    "optimization run optimizer_config does not bind the exact MIPROv2 control" ;;
  match reward_policy_hash with
  | None => Ok tt
  | Some reward_policy_hash =>
      full_hash reward_policy_hash ;;
      bound ← match run_reward_policy (runr_record run) with
              | None => Ok false
              | Some policy =>
                  h ← RewardPolicy_identity_hash policy; Ok (bool_decide (h = reward_policy_hash))
              end;
      require bound ValueError
        "optimization run reward policy does not bind the exact MIPROv2 reward policy"
  end.

(** The id of an assembled candidate. *)
Definition rendered_candidate_id (rendering_hash : pystr) : pystr :=
  $"miprov2-" ++ take 24 rendering_hash.

Definition Miprov2CandidateAssemblyBinding_validate (self : Miprov2CandidateAssemblyBinding) :
    result Miprov2CandidateAssemblyBinding :=
  for_each full_hash
    [ca_categorical_combination_identity_hash self; ca_program_identity_hash self;
     ca_prompt_adapter_identity_hash self] ;;
  require_run_authorities (ca_run self) (ca_optimizer_config self) None ;;
  diff_check (candr_record (ca_base_candidate self)) (candr_record (ca_assembled self))
    (ca_run self) ;;
  require (bool_decide (cand_base_ref (candr_record (ca_assembled self)) =
                        candr_record_ref (ca_base_candidate self))) ValueError
    "assembled candidate must bind its exact base" ;;
  let rendering := ca_rendering self in
  require (bool_decide (cr_control_identity_hash rendering =
                        iref_record_hash (ca_optimizer_config self)) &&
           bool_decide (cr_base_candidate_identity_hash rendering =
                        candr_identity_hash (ca_base_candidate self)) &&
           bool_decide (cr_categorical_combination_identity_hash rendering =
                        ca_categorical_combination_identity_hash self)) ValueError
    "candidate rendering context does not match assembly" ;;
  rendering_hash ← Miprov2CandidateRendering_identity_hash rendering;
  expected_candidate ← candidate_from_components (ca_base_candidate self)
    (rendered_candidate_id rendering_hash)
    (Miprov2ComponentSelection_fields <$> cr_components rendering) (ca_run self);
  expected ← candidate_reference expected_candidate;
  require (same CandidateRef_dump expected (ca_assembled self)) ValueError
    "assembled candidate differs from deterministic rendering" ;;
  expected_program_hash ← compute_identity_hash MIPROV2_CANDIDATE_PROGRAM_SCHEMA
    MIPROV2_CANDIDATE_PROGRAM_SCHEMA_VERSION
    (PDict [($"candidate", CandidateRef_dump (ca_assembled self))]);
  require (bool_decide (ca_program_identity_hash self = expected_program_hash)) ValueError
    "program identity does not match canonical candidate rendering" ;;
  Ok self.

Definition Miprov2CandidateAssemblyBinding_model_validate
    (self : Miprov2CandidateAssemblyBinding) : result Miprov2CandidateAssemblyBinding :=
  CandidateRef_validate (ca_assembled self) ;;
  Miprov2CandidateRendering_model_validate (ca_rendering self) ;;
  CandidateRef_validate (ca_base_candidate self) ;;
  Miprov2ProgramLayout_model_validate (ca_program_layout self) ;;
  OptimRunRef_model_validate (ca_run self) ;;
  Miprov2CandidateAssemblyBinding_validate self.

Definition Promotion_validate (self : Promotion) : result Promotion :=
  require (negb (pr_trial_number self <? 1)%Z) ValueError
    "promotion trial_number must be positive" ;;
  require (negb (pr_source_sample_trial_number self <? 1)%Z) ValueError
    "source_sample_trial_number must be positive" ;;
  full_hash (pr_candidate_combination_identity_hash self) ;;
  full_hash (pr_evaluated_candidate_identity_hash self) ;;
  require (bool_decide (candr_identity_hash (eo_candidate (pr_evaluation self)) =
                        pr_evaluated_candidate_identity_hash self)) ValueError
    "promotion evidence does not match evaluated candidate" ;;
  require (bool_decide (eo_purpose (pr_evaluation self) = MIPROV2_PROMOTION)) ValueError
    "promotion evidence has the wrong purpose" ;;
  require (bool_decide (candr_identity_hash (ca_assembled (pr_candidate_assembly self)) =
                        pr_evaluated_candidate_identity_hash self)) ValueError
    "promotion candidate does not match its assembly binding" ;;
  require_finite_score (pr_minibatch_mean self) ;;
  require_finite_score (pr_full_score self) ;;
  require (feq (pr_full_score self) (eo_normalized_score (pr_evaluation self))) ValueError
    "promotion score does not match verified evaluation" ;;
  Ok self.

Definition Promotion_model_validate (self : Promotion) : result Promotion :=
  Miprov2CandidateAssemblyBinding_model_validate (pr_candidate_assembly self) ;;
  EvalObservation_model_validate (pr_evaluation self) ;;
  Promotion_validate self.

Definition SampleObservation_validate (self : SampleObservation) : result SampleObservation :=
  require (negb (so_trial_number self <? 1)%Z) ValueError "sample trial_number must be positive" ;;
  full_hash (so_candidate_combination_identity_hash self) ;;
  full_hash (so_evaluated_candidate_identity_hash self) ;;
  require (bool_decide (candr_identity_hash (eo_candidate (so_evaluation self)) =
                        so_evaluated_candidate_identity_hash self)) ValueError
    "sample evidence does not match evaluated candidate" ;;
  require (bool_decide (eo_purpose (so_evaluation self) = MIPROV2_SAMPLE)) ValueError
    "sample evidence has the wrong purpose" ;;
  require (bool_decide (candr_identity_hash (ca_assembled (so_candidate_assembly self)) =
                        so_evaluated_candidate_identity_hash self)) ValueError
    "sample candidate does not match its assembly binding" ;;
  require_finite_score (so_score self) ;;
  require (feq (so_score self) (eo_normalized_score (so_evaluation self))) ValueError
    "sample score does not match verified evaluation" ;;
  Ok self.

Definition SampleObservation_model_validate (self : SampleObservation) :
    result SampleObservation :=
  Miprov2CandidateAssemblyBinding_model_validate (so_candidate_assembly self) ;;
  EvalObservation_model_validate (so_evaluation self) ;;
  option_validate (λ p, Promotion_model_validate p ;; Ok tt) (so_promotion self) ;;
  SampleObservation_validate self.

Definition PromotionCandidate_validate (self : PromotionCandidate) : result PromotionCandidate :=
  full_hash (pc_candidate_combination_identity_hash self) ;;
  full_hash (pc_evaluated_candidate_identity_hash self) ;;
  require (bool_decide (candr_identity_hash (ca_assembled (pc_candidate_assembly self)) =
                        pc_evaluated_candidate_identity_hash self)) ValueError
    "promotion candidate does not match its assembly binding" ;;
  require (negb (pc_source_sample_trial_number self <? 1)%Z) ValueError
    "source_sample_trial_number must be positive" ;;
  require_finite_score (pc_minibatch_mean self) ;;
  Ok self.

(** ** What an observation must be bound to *)

(** [pool[index]]; a negative index counts from the end. *)
Definition pool_item (pool : list pystr) (index : Z) : result pystr :=
  let index := if (index <? 0)%Z then (index + len pool)%Z else index in
  of_option (if (index <? 0)%Z then None else pool !! Z.to_nat index) IndexError
    "tuple index out of range".

(** One component of a rendering against the selected categories. *)
Definition check_component (space : Miprov2ParameterSpace) (values : list (pystr * Z))
    (entry : Z * Miprov2ComponentSelection) : result unit :=
  let '(index, component) := entry in
  instruction_index ← of_option (dict_get values (instruction_name index)) KeyError "";
  require (cs_instruction_index component =? instruction_index)%Z ValueError
    "candidate instruction differs from the selected category" ;;
  pool ← pool_at (ps_instruction_pools space) index;
  instruction_hash ← pool_item pool instruction_index;
  require (bool_decide (instruction_hash = cs_instruction_identity_hash component)) ValueError
    "candidate instruction differs from the selected category" ;;
  match ps_demo_pools space with
  | None =>
      require (negb (is_some (cs_demo_index component))) ValueError
        "candidate without a demo dimension cannot select a demo"
  | Some demos =>
      demo_index ← of_option (dict_get values (demos_name index)) KeyError "";
      require (bool_decide (cs_demo_index component = Some demo_index)) ValueError
        "candidate demo differs from the selected category" ;;
      pool ← pool_at demos index;
      demo_hash ← pool_item pool demo_index;
      require (bool_decide (Some demo_hash = cs_demo_identity_hash component)) ValueError
        "candidate demo differs from the selected category"
  end.

(** [_require_candidate_assembly]. *)
Definition require_candidate_assembly (assembly : Miprov2CandidateAssemblyBinding)
    (space : Miprov2ParameterSpace) (expected_params : TrialParams) (expected_combination : pystr)
    (optimizer_config : IdentityRef) (expected_base_candidate : CandidateRef)
    (prompt_adapter_identity_hash : pystr) (program_layout : Miprov2ProgramLayout)
    (run : OptimRunRef) : result unit :=
  require (bool_decide (ca_params assembly = expected_params)) ValueError
    "candidate assembly parameters do not match the observation" ;;
  require (bool_decide (ca_categorical_combination_identity_hash assembly = expected_combination))
    ValueError "candidate assembly does not match the categorical combination" ;;
  require (bool_decide (ca_optimizer_config assembly = optimizer_config) &&
           bool_decide (candr_identity_hash (ca_base_candidate assembly) =
                        candr_identity_hash expected_base_candidate) &&
           bool_decide (ca_prompt_adapter_identity_hash assembly = prompt_adapter_identity_hash))
    ValueError "candidate assembly context does not match the study contract" ;;
  require (same CandidateRef_dump (ca_base_candidate assembly) expected_base_candidate) ValueError
    "candidate assembly does not bind the exact native base candidate" ;;
  require (bool_decide (ca_program_layout assembly = program_layout)) ValueError
    "candidate assembly does not bind the exact program topology" ;;
  require (same OptimRunRef_dump (ca_run assembly) run) ValueError
    "candidate assembly does not bind the exact optimization run" ;;
  let components := cr_components (ca_rendering assembly) in
  require (bool_decide (cs_component_id <$> components =
                        mcs_component_id <$> mpl_component_specs program_layout)) ValueError
    "candidate rendering does not match program topology" ;;
  for_each (check_component space (dict_of expected_params))
    (zip (range (len components)) components) ;;
  require (bool_decide (cand_base_ref (candr_record (ca_assembled assembly)) =
                        candr_record_ref expected_base_candidate)) ValueError
    "assembled candidate does not bind the exact input CandidateRef" ;;
  diff_check (candr_record expected_base_candidate) (candr_record (ca_assembled assembly)) run.

(** [_validate_evaluation_binding], of a transcript and of a study. *)
Definition validate_evaluation_binding (run_id : pystr) (optimizer_config : IdentityRef)
    (validation_eval_source : EvalConfigRef) (validation_num_seeds : Z) (reward_policy_hash : pystr)
    (binding : EvalObservation) (expected_purpose : EvalPurpose) (expected_tasks : list pystr) :
    result unit :=
  require (bool_decide (eo_run_id binding = run_id)) ValueError
    "evaluation binding belongs to another run" ;;
  require (bool_decide (eo_purpose binding = expected_purpose)) ValueError
    "evaluation binding has the wrong purpose" ;;
  require (bool_decide (eo_task_batch_hashes binding = expected_tasks)) ValueError
    "evaluation task order does not match the persisted study contract" ;;
  let request := eb_request (eo_eval_binding binding) in
  require (bool_decide (ebr_control_identity_hash request = iref_record_hash optimizer_config) &&
           bool_decide (ebr_source_eval_config request = validation_eval_source) &&
           bool_decide (ebr_purpose request = derivation_purpose expected_purpose) &&
           bool_decide (ebr_effect_identity_hash request = eo_effect_identity_hash binding) &&
           bool_decide (ebr_task_batch_hashes request = expected_tasks) &&
           (ebr_num_seeds request =? validation_num_seeds)%Z) ValueError
    "evaluation derivation does not match the persisted study contract" ;;
  require (bool_decide (eo_expected_reward_policy_hash binding = reward_policy_hash)) ValueError
    "evaluation reward policy does not match the persisted study contract".

(** ** The transcript's contract *)

Section Contract.
Variable self : StudyTranscript.

Definition transcript_evaluation_binding (binding : EvalObservation) (expected_purpose : EvalPurpose)
    (expected_tasks : list pystr) : result unit :=
  validate_evaluation_binding (st_run_id self) (st_optimizer_config self)
    (st_validation_eval_source self) (st_validation_num_seeds self) (st_reward_policy_hash self)
    binding expected_purpose expected_tasks.

(** [parameter_space]. *)
Definition parameter_space : result Miprov2ParameterSpace :=
  Miprov2ParameterSpace_validate (transcript_space self).

Definition validate_candidate_assembly (assembly : Miprov2CandidateAssemblyBinding)
    (expected_params : TrialParams) (expected_combination : pystr) : result unit :=
  space ← parameter_space;
  require_candidate_assembly assembly space expected_params expected_combination
    (st_optimizer_config self) (st_expected_base_candidate self)
    (st_prompt_adapter_identity_hash self) (st_program_layout self) (st_run self).

(** The tasks a sample must have been evaluated on. *)
Definition expected_sample_tasks (sample : SampleObservation) : result (list pystr) :=
  let tasks := eo_task_batch_hashes (so_evaluation sample) in
  let schedule := st_schedule self in
  require (len tasks =? (if sch_minibatch schedule then sch_minibatch_size schedule
                         else sch_valset_size schedule))%Z ValueError
    "sample task batch does not match persisted schedule" ;;
  require (Bool.eqb (so_batch_full_evaluation sample) (sch_valset_size schedule <=? len tasks)%Z)
    ValueError "batch_full_evaluation does not match task batch size" ;;
  if so_batch_full_evaluation sample then Ok (st_validation_task_hashes self) else
  require (all_unique tasks &&
           forallb (λ task, bool_decide (task ∈ st_validation_task_hashes self)) tasks) ValueError
    "minibatch tasks must be a unique ordered subset of the validation set" ;;
  Ok tasks.

(** A new intent id. *)
Definition see_intent (seen : list pystr) (evaluation : EvalObservation) : result (list pystr) :=
  require (negb (bool_decide (eo_intent_id evaluation ∈ seen))) ValueError
    "evaluation intent IDs must be unique" ;;
  Ok (eo_intent_id evaluation :: seen).

Definition check_promotion (space : Miprov2ParameterSpace) (seen : list pystr)
    (promotion : Promotion) : result (list pystr) :=
  transcript_evaluation_binding (pr_evaluation promotion) MIPROV2_PROMOTION
    (st_validation_task_hashes self) ;;
  seen ← see_intent seen (pr_evaluation promotion);
  expected_promotion_candidate ← combination_identity_hash space (pr_params promotion);
  require (bool_decide (pr_candidate_combination_identity_hash promotion =
                        expected_promotion_candidate)) ValueError
    "promotion candidate identity does not match parameters" ;;
  validate_candidate_assembly (pr_candidate_assembly promotion) (pr_params promotion)
    expected_promotion_candidate ;;
  Ok seen.

(** One turn of the loop over the samples. *)
Definition check_sample (space : Miprov2ParameterSpace) (seen : list pystr)
    (sample : SampleObservation) : result (list pystr) :=
  normalized ← rewrap ValueError ValueError "sample parameters do not match the frozen search space"
    (normalize space (so_params sample));
  expected_candidate ← combination_identity_hash space normalized;
  require (bool_decide (so_candidate_combination_identity_hash sample = expected_candidate))
    ValueError "sample candidate identity does not match parameters" ;;
  validate_candidate_assembly (so_candidate_assembly sample) normalized expected_candidate ;;
  expected_tasks ← expected_sample_tasks sample;
  transcript_evaluation_binding (so_evaluation sample) MIPROV2_SAMPLE expected_tasks ;;
  seen ← see_intent seen (so_evaluation sample);
  require (Bool.eqb (promotion_due (st_schedule self) (so_trial_number sample))
             (is_some (so_promotion sample))) ValueError
    "promotion presence does not match persisted cadence" ;;
  match so_promotion sample with
  | None => Ok seen
  | Some promotion => check_promotion space seen promotion
  end.

Fixpoint check_samples (space : Miprov2ParameterSpace) (seen : list pystr)
    (samples : list SampleObservation) : result unit :=
  match samples with
  | [] => Ok tt
  | sample :: samples => seen ← check_sample space seen sample; check_samples space seen samples
  end.

(** The fields that do not depend on the observations. *)
Definition check_study_fields (space : Miprov2ParameterSpace) : result unit :=
  require (negb (bool_decide (st_run_id self = []))) ValueError "run_id must be non-empty" ;;
  require (Bool.eqb (searches_demos (st_demo_mode self)) (is_some (st_demo_pools self))) ValueError
    "demo_mode conflicts with the presence of a searched demo dimension" ;;
  require (bool_decide (run_run_id (runr_record (st_run self)) = st_run_id self)) ValueError
    "study run_id conflicts with the exact run" ;;
  require (negb (bool_decide (st_validation_task_hashes self = []))) ValueError
    "validation_task_hashes must not be empty" ;;
  for_each full_hash (st_validation_task_hashes self) ;;
  require (all_unique (st_validation_task_hashes self)) ValueError
    "validation task identities must be unique" ;;
  require (len (st_validation_task_hashes self) =? sch_valset_size (st_schedule self))%Z ValueError
    "validation task identities do not match persisted valset size" ;;
  for_each full_hash
    [st_reward_policy_hash self; st_prompt_adapter_identity_hash self;
     st_parameter_space_identity_hash self; st_distribution_identity_hash self] ;;
  require_run_authorities (st_run self) (st_optimizer_config self)
    (Some (st_reward_policy_hash self)) ;;
  space_hash ← Miprov2ParameterSpace_identity_hash space;
  require (bool_decide (st_parameter_space_identity_hash self = space_hash)) ValueError
    "parameter_space_identity_hash does not match exact pools" ;;
  distribution_hash ← distribution_identity_hash space;
  require (bool_decide (st_distribution_identity_hash self = distribution_hash)) ValueError
    "distribution_identity_hash does not match exact space" ;;
  require (len (mpl_component_specs (st_program_layout self)) =?
           len (ps_instruction_pools space))%Z ValueError
    "program topology does not match the frozen search space" ;;
  require (forallb (λ spec, bool_decide (mcs_prompt_format_identity_hash spec =
                                         st_prompt_adapter_identity_hash self))
             (mpl_component_specs (st_program_layout self))) ValueError
    "program topology conflicts with the prompt adapter".

Definition check_baseline (space : Miprov2ParameterSpace) : result unit :=
  baseline_combination ← combination_identity_hash space (baseline_params space);
  require (bool_decide (bo_categorical_combination_identity_hash (st_baseline self) =
                        baseline_combination)) ValueError
    "baseline categorical identity does not match all-zero params" ;;
  require (same CandidateRef_dump (bo_evaluated_base_candidate (st_baseline self))
             (st_expected_base_candidate self)) ValueError
    "baseline candidate does not match the expected native base" ;;
  transcript_evaluation_binding (bo_evaluation (st_baseline self)) MIPROV2_BASELINE
    (st_validation_task_hashes self).

(** [_validate_contract]. *)
Definition StudyTranscript_validate : result StudyTranscript :=
  space ← parameter_space;
  check_study_fields space ;;
  check_baseline space ;;
  require (len (st_samples self) <=? sch_num_trials (st_schedule self))%Z ValueError
    "sample count exceeds persisted num_trials" ;;
  check_samples space [eo_intent_id (bo_evaluation (st_baseline self))] (st_samples self) ;;
  Ok self.

Definition StudyTranscript_model_validate : result StudyTranscript :=
  EvalConfigRef_validate (st_validation_eval_source self) ;;
  CandidateRef_validate (st_expected_base_candidate self) ;;
  Miprov2ProgramLayout_model_validate (st_program_layout self) ;;
  OptimRunRef_model_validate (st_run self) ;;
  Miprov2StudySchedule_validate (st_schedule self) ;;
  BaselineObservation_model_validate (st_baseline self) ;;
  for_each (λ sample, SampleObservation_model_validate sample ;; Ok tt) (st_samples self) ;;
  StudyTranscript_validate.
End Contract.
End Validation.

(** ** The candidate to promote *)

(** The scores of each combination in the order of its first observation, with
    that observation. *)
Fixpoint group_scores (groups : list (pystr * (SampleObservation * list float)))
    (samples : list SampleObservation) : list (pystr * (SampleObservation * list float)) :=
  match samples with
  | [] => groups
  | sample :: samples =>
      let key := so_candidate_combination_identity_hash sample in
      let '(first, values) := default (sample, []) (dict_get groups key) in
      group_scores (dict_set groups key (first, values ++ [so_score sample])) samples
  end.

(** The combinations that were promoted. *)
Definition promoted_combinations (samples : list SampleObservation) : list pystr :=
  omap (λ sample, pr_candidate_combination_identity_hash <$> so_promotion sample) samples.

Section Promoting.
Context `{DSer : !DrSerialize}.

Definition ranked_candidate (group : pystr * (SampleObservation * list float)) :
    result PromotionCandidate :=
  let '(key, (first, values)) := group in
  PromotionCandidate_validate
    {| pc_params := so_params first; pc_candidate_combination_identity_hash := key;
       pc_evaluated_candidate_identity_hash := so_evaluated_candidate_identity_hash first;
       pc_candidate_assembly := so_candidate_assembly first;
       pc_source_sample_trial_number := so_trial_number first;
       pc_minibatch_mean := fdiv (float_sum values) (float_of_Z (len values)) |}.

(** [sorted(..., key=minibatch_mean, reverse=True)]. *)
Definition rank_candidates (candidates : list PromotionCandidate) : list PromotionCandidate :=
  py_sorted (λ a b, negb (flt (pc_minibatch_mean a) (pc_minibatch_mean b))) candidates.

Definition select_promotion (samples : list SampleObservation) : result PromotionCandidate :=
  let promoted := promoted_combinations samples in
  candidates ← mapM ranked_candidate (group_scores [] samples);
  let ranked := rank_candidates candidates in
  match find (λ candidate,
          negb (bool_decide (pc_candidate_combination_identity_hash candidate ∈ promoted))) ranked with
  | Some candidate => Ok candidate
  | None => of_option (last ranked) ValueError "No valid program found in param_score_dict"
  end.
End Promoting.

(** The manifest of [control.py] names other versions of two schemas than the
    modules that write them. *)
Lemma manifest_versions_differ :
  dict_get MIPROV2_PHASE_SCHEMA_MANIFEST MIPROV2_STUDY_SCHEMA ≠ Some MIPROV2_STUDY_SCHEMA_VERSION ∧
  dict_get MIPROV2_PHASE_SCHEMA_MANIFEST MIPROV2_COMPONENT_DEMO_SET_SCHEMA ≠
    Some MIPROV2_DEMO_SCHEMA_VERSION.
Proof. split; vm_compute; discriminate. Qed.
