(* ===== verification/Miprov2Replay.v ===== *)
(** * Miprov2Replay: the study of a MIPROv2 run, rebuilt from its transcript

    Models [Miprov2Study] of [optim/miprov2/study.py]. A study keeps nothing but
    its contract: every call rebuilds optuna's study from the transcript, by
    asking for the recorded trials again, so that a run can be resumed in any
    process. optuna is the parameter [Optuna], what the code relies on of it is
    [OptunaLaws]. *)

From S2P Require Import Prelude Floats Identity Frozen Leasing EvalConfigs Reward Plan Aggregate Tools.
From S2P Require Import Claims Candidate Cost OptimContracts Copro CoproAdapter.
From S2P Require Import Miprov2Demos Miprov2Evals Miprov2Random Miprov2Control Miprov2Render Miprov2Space.
From S2P Require Import Miprov2Study.

(** optuna: what [import optuna] finds ([None] when the module is missing, else
    its [__version__]), studies with a seeded TPE sampler, and trials, which
    are told apart by their numbers. *)
Class Optuna := {
  optuna_module : option (option pystr);
  optuna_study : Type;
  create_study : Z → optuna_study;
  (** [[t.number for t in study.trials]]. *)
  trial_numbers : optuna_study → list Z;
  (** The numbers of the trials that were asked for and not told yet:
      [study.get_trials(states=(TrialState.RUNNING,))]. *)
  running_trials : optuna_study → list Z;
  (** Every parameter of every trial with the number of its categories, which
      are [range(n)]: [t.distributions.items()] for [t in study.trials]. *)
  trial_distributions : optuna_study → list (pystr * Z);
  (** [study.add_trial(create_trial(params, distributions, value))]; a
      categorical distribution over [range(n)] is [n]. *)
  add_trial : list (pystr * Z) → list (pystr * Z) → float → optuna_study → result optuna_study;
  study_ask : optuna_study → Z * optuna_study;
  (** [trial.suggest_categorical(name, range(n))]. *)
  suggest_categorical : Z → pystr → Z → optuna_study → result (Z * optuna_study);
  study_tell : Z → float → optuna_study → result optuna_study;
}.

(** optuna refuses a parameter whose categories are not those it had before
    ("CategoricalDistribution does not support dynamic value space"). *)
Definition compatible (distributions known : list (pystr * Z)) : Prop :=
  ∀ name n n', (name, n) ∈ distributions → (name, n') ∈ known → n = n'.

(** Trials are numbered in the order in which they are added or asked for. A
    complete trial may be added when its parameters are categories of their
    distributions, which are those of the trials before it, and its value is a
    number; it never runs. A trial that is asked for runs until it is told a
    number, which finishes it. Only a running trial takes suggestions and may
    be told: optuna raises [RuntimeError] and [ValueError] otherwise. *)
Class OptunaLaws `{!Optuna} : Prop := {
  optuna_installed : optuna_module = Some (Some MIPROV2_OPTUNA_VERSION);
  create_study_empty seed :
    let study := create_study seed in
    trial_numbers study = [] ∧ running_trials study = [] ∧ trial_distributions study = [];
  add_trial_total params distributions value study :
    params.*1 = distributions.*1 →
    Forall2 (λ p d, 0 ≤ p.2 < d.2)%Z params distributions →
    compatible distributions (trial_distributions study) → fisfinite value = true →
    ∃ study', add_trial params distributions value study = Ok study' ∧
      trial_numbers study' = trial_numbers study ++ [len (trial_numbers study)] ∧
      running_trials study' = running_trials study ∧
      trial_distributions study' ⊆ distributions ++ trial_distributions study;
  study_ask_numbers study :
    let n := len (trial_numbers study) in
    let study' := (study_ask study).2 in
    (study_ask study).1 = n ∧
    trial_numbers study' = trial_numbers study ++ [n] ∧
    running_trials study' = running_trials study ++ [n] ∧
    trial_distributions study' ⊆ trial_distributions study;
  suggest_total number name n study :
    (0 < n)%Z → number ∈ running_trials study →
    compatible [(name, n)] (trial_distributions study) →
    ∃ choice study', suggest_categorical number name n study = Ok (choice, study') ∧
      (0 ≤ choice < n)%Z ∧ trial_numbers study' = trial_numbers study ∧
      running_trials study' = running_trials study ∧
      trial_distributions study' ⊆ (name, n) :: trial_distributions study;
  tell_total number value study :
    number ∈ running_trials study → fisfinite value = true →
    ∃ study', study_tell number value study = Ok study' ∧
      trial_numbers study' = trial_numbers study ∧
      running_trials study' = filter (λ running, running ≠ number) (running_trials study) ∧
      trial_distributions study' ⊆ trial_distributions study;
}.

Record Miprov2Study := {
  sy_seed : Z;
  sy_demo_mode : Miprov2DemoMode;
  sy_space : Miprov2ParameterSpace;
  sy_schedule : Miprov2StudySchedule;
  sy_run_id : pystr;
  sy_validation_task_hashes : list pystr;
  sy_validation_eval_source : EvalConfigRef;
  sy_validation_num_seeds : Z;
  sy_reward_policy_hash : pystr;
  sy_optimizer_config : IdentityRef;
  sy_prompt_adapter_identity_hash : pystr;
  sy_expected_base_candidate : CandidateRef;
  sy_program_layout : Miprov2ProgramLayout;
  sy_run : OptimRunRef;
}.

Section Study.
Context `{DSer : !DrSerialize, DSto : !DrStore, Uni : !UnicodeIdentifiers, DText : !FloatText}.
Context `{Digits : !UnicodeDigits, Opt : !Optuna}.

(** The constructor's checks. *)
Definition Miprov2Study_new (self : Miprov2Study) : result Miprov2Study :=
  require (bool_decide (run_run_id (runr_record (sy_run self)) = sy_run_id self)) ValueError
    "study run_id conflicts with the exact run" ;;
  require (Bool.eqb (searches_demos (sy_demo_mode self)) (is_some (ps_demo_pools (sy_space self))))
    ValueError "demo_mode conflicts with the parameter space demo dimension" ;;
  require_run_authorities (sy_run self) (sy_optimizer_config self)
    (Some (sy_reward_policy_hash self)) ;;
  Ok self.

Definition import_optuna : result unit :=
  version ← of_option optuna_module RuntimeError
    "MIPROv2 requires the frozen optuna==4.8.0 dependency";
  require (bool_decide (version = Some MIPROV2_OPTUNA_VERSION)) RuntimeError
    "MIPROv2 requires optuna==4.8.0".

(** The transcript a study starts from. *)
Definition starting_transcript (self : Miprov2Study) (space_hash distribution_hash : pystr)
    (baseline : BaselineObservation) : StudyTranscript :=
  {| st_demo_mode := sy_demo_mode self; st_seed := sy_seed self; st_run_id := sy_run_id self;
     st_validation_task_hashes := sy_validation_task_hashes self;
     st_validation_eval_source := sy_validation_eval_source self;
     st_validation_num_seeds := sy_validation_num_seeds self;
     st_reward_policy_hash := sy_reward_policy_hash self;
     st_optimizer_config := sy_optimizer_config self;
     st_prompt_adapter_identity_hash := sy_prompt_adapter_identity_hash self;
     st_expected_base_candidate := sy_expected_base_candidate self;
     st_program_layout := sy_program_layout self; st_run := sy_run self;
     st_instruction_pools := ps_instruction_pools (sy_space self);
     st_demo_pools := ps_demo_pools (sy_space self);
     st_parameter_space_identity_hash := space_hash;
     st_distribution_identity_hash := distribution_hash; st_schedule := sy_schedule self;
     st_baseline := baseline; st_samples := [] |}.

Definition initial_transcript (self : Miprov2Study) (baseline_score : float)
    (baseline_evaluation : EvalObservation) : result StudyTranscript :=
  combination ← combination_identity_hash (sy_space self) (baseline_params (sy_space self));
  baseline ← BaselineObservation_validate
    {| bo_categorical_combination_identity_hash := combination;
       bo_evaluated_base_candidate := sy_expected_base_candidate self;
       bo_score := baseline_score; bo_evaluation := baseline_evaluation |};
  space_hash ← Miprov2ParameterSpace_identity_hash (sy_space self);
  distribution_hash ← distribution_identity_hash (sy_space self);
  StudyTranscript_validate (starting_transcript self space_hash distribution_hash baseline).

(** ** The bound transcript *)

(** What a recorded promotion must be. *)
Definition promotion_matches (promotion : Promotion) (selected : PromotionCandidate) : bool :=
  bool_decide (pr_params promotion = pc_params selected) &&
  bool_decide (pr_candidate_combination_identity_hash promotion =
               pc_candidate_combination_identity_hash selected) &&
  (pr_source_sample_trial_number promotion =? pc_source_sample_trial_number selected)%Z &&
  feq (pr_minibatch_mean promotion) (pc_minibatch_mean selected) &&
  bool_decide (pr_evaluated_candidate_identity_hash promotion =
               pc_evaluated_candidate_identity_hash selected) &&
  same Miprov2CandidateAssemblyBinding_dump (pr_candidate_assembly promotion)
    (pc_candidate_assembly selected).

(** The loop over the samples: what was replayed and the next trial number. *)
Fixpoint check_chronology (schedule : Miprov2StudySchedule) (replayed : list SampleObservation)
    (expected_trial_number : Z) (samples : list SampleObservation) : result unit :=
  match samples with
  | [] => Ok tt
  | sample :: samples =>
      require (so_trial_number sample =? expected_trial_number)%Z StudyTranscriptMismatch
        "sample trial chronology differs from promotion schedule" ;;
      require (Bool.eqb (promotion_due schedule (so_trial_number sample))
                 (is_some (so_promotion sample))) StudyTranscriptMismatch
        "promotion presence differs from persisted cadence" ;;
      expected_trial_number ←
        match so_promotion sample with
        | None => Ok expected_trial_number
        | Some promotion =>
            selected ← select_promotion (replayed ++ [with_promotion sample None]);
            require (pr_trial_number promotion =? so_trial_number sample + 1)%Z
              StudyTranscriptMismatch
              "promotion trial chronology differs from promotion-before-tell ordering" ;;
            require (promotion_matches promotion selected) StudyTranscriptMismatch
              "promotion does not match stable mean ranking" ;;
            Ok (expected_trial_number + 1)%Z
        end;
      check_chronology schedule (replayed ++ [sample]) (expected_trial_number + 1)%Z samples
  end.

(** The comparison of the transcript with the study's contract. *)
Definition contract_matches (self : Miprov2Study) (transcript : StudyTranscript)
    (space_hash distribution_hash : pystr) : bool :=
  (st_seed transcript =? sy_seed self)%Z &&
  bool_decide (st_run_id transcript = sy_run_id self) &&
  bool_decide (st_validation_task_hashes transcript = sy_validation_task_hashes self) &&
  bool_decide (st_validation_eval_source transcript = sy_validation_eval_source self) &&
  bool_decide (st_reward_policy_hash transcript = sy_reward_policy_hash self) &&
  bool_decide (st_optimizer_config transcript = sy_optimizer_config self) &&
  bool_decide (st_prompt_adapter_identity_hash transcript = sy_prompt_adapter_identity_hash self) &&
  same CandidateRef_dump (st_expected_base_candidate transcript) (sy_expected_base_candidate self) &&
  bool_decide (st_program_layout transcript = sy_program_layout self) &&
  same OptimRunRef_dump (st_run transcript) (sy_run self) &&
  bool_decide (transcript_space transcript = sy_space self) &&
  bool_decide (st_parameter_space_identity_hash transcript = space_hash) &&
  bool_decide (st_distribution_identity_hash transcript = distribution_hash) &&
  bool_decide (st_schedule transcript = sy_schedule self).

(** [_require_bound_transcript]. *)
Definition require_bound_transcript (self : Miprov2Study) (transcript : StudyTranscript) :
    result unit :=
  validated ← mismatch_if_invalid (StudyTranscript_model_validate transcript);
  require (same StudyTranscript_dump validated transcript) StudyTranscriptMismatch
    "transcript changes under canonical validation" ;;
  space_hash ← Miprov2ParameterSpace_identity_hash (sy_space self);
  distribution_hash ← distribution_identity_hash (sy_space self);
  require (contract_matches self transcript space_hash distribution_hash) StudyTranscriptMismatch
    "transcript does not match the bound MIPROv2 study contract" ;;
  check_chronology (sy_schedule self) [] 1 (st_samples transcript).

(** ** Rebuilding optuna's study *)

(** [_suggest]: one predictor after the other. *)
Fixpoint suggest_loop (number : Z) (demos : option (list Z)) (counts : list (Z * Z))
    (study : optuna_study) : result (TrialParams * optuna_study) :=
  match counts with
  | [] => Ok ([], study)
  | (index, instruction_count) :: counts =>
      '(instruction, study) ← suggest_categorical number (instruction_name index) instruction_count
        study;
      '(demo, study) ←
        match demos with
        | None => Ok ([], study)
        | Some demos =>
            demo_count ← of_option (demos !! Z.to_nat index) IndexError "tuple index out of range";
            '(demo, study) ← suggest_categorical number (demos_name index) demo_count study;
            Ok ([(demos_name index, demo)], study)
        end;
      '(params, study) ← suggest_loop number demos counts study;
      Ok ((instruction_name index, instruction) :: demo ++ params, study)
  end.

Definition suggest (self : Miprov2Study) (number : Z) (study : optuna_study) :
    result (TrialParams * optuna_study) :=
  let counts := instruction_candidate_counts (sy_space self) in
  '(params, study) ← suggest_loop number (demo_candidate_counts (sy_space self))
    (zip (range (len counts)) counts) study;
  params ← normalize (sy_space self) params;
  Ok (params, study).

(** [study.add_trial(create_trial(...))] and [study.trials[-1].number]. *)
Definition add_frozen_trial (self : Miprov2Study) (study : optuna_study) (params : TrialParams)
    (value : float) : result optuna_study :=
  values ← as_dict (sy_space self) params;
  choices ← distributions (sy_space self);
  add_trial values choices value study.

Definition add_completed_trial (self : Miprov2Study) (study : optuna_study) (params : TrialParams)
    (value : float) : result (Z * optuna_study) :=
  import_optuna ;;
  study ← add_frozen_trial self study params value;
  number ← of_option (last (trial_numbers study)) IndexError "list index out of range";
  Ok (number, study).

(** One recorded sample: its trial is asked for again and must come out as it
    was recorded. *)
Definition replay_sample (self : Miprov2Study) (replayed : list SampleObservation)
    (recorded : SampleObservation) (study : optuna_study) : result optuna_study :=
  let '(number, study) := study_ask study in
  '(params, study) ← suggest self number study;
  require (number =? so_trial_number recorded)%Z StudyTranscriptMismatch
    "sample trial number differs during reconstruction" ;;
  expected_params ← rewrap ValueError StudyTranscriptMismatch
    "sample parameters do not match the frozen search space"
    (normalize (sy_space self) (so_params recorded));
  require (bool_decide (params = expected_params)) StudyTranscriptMismatch
    "sample parameters differ during reconstruction" ;;
  expected_combination ← combination_identity_hash (sy_space self) params;
  require (bool_decide (so_candidate_combination_identity_hash recorded = expected_combination))
    StudyTranscriptMismatch "sample candidate identity differs during reconstruction" ;;
  require (Bool.eqb (promotion_due (sy_schedule self) number) (is_some (so_promotion recorded)))
    StudyTranscriptMismatch "promotion presence differs from persisted cadence" ;;
  study ←
    match so_promotion recorded with
    | None => Ok study
    | Some promoted =>
        selected ← select_promotion (replayed ++ [with_promotion recorded None]);
        require (promotion_matches promoted selected) StudyTranscriptMismatch
          "promotion does not match stable mean ranking" ;;
        '(added, study) ← add_completed_trial self study (pr_params promoted)
          (pr_full_score promoted);
        require (added =? pr_trial_number promoted)%Z StudyTranscriptMismatch
          "promotion trial number differs during reconstruction" ;;
        Ok study
    end;
  study_tell number (so_score recorded) study.

Fixpoint replay_samples (self : Miprov2Study) (replayed samples : list SampleObservation)
    (study : optuna_study) : result optuna_study :=
  match samples with
  | [] => Ok study
  | recorded :: samples =>
      study ← replay_sample self replayed recorded study;
      replay_samples self (replayed ++ [recorded]) samples study
  end.

(** [_reconstruct]. *)
Definition reconstruct (self : Miprov2Study) (transcript : StudyTranscript) : result optuna_study :=
  import_optuna ;;
  study ← add_frozen_trial self (create_study (sy_seed self)) (baseline_params (sy_space self))
    (bo_score (st_baseline transcript));
  first ← of_option (head (trial_numbers study)) IndexError "list index out of range";
  require (first =? 0)%Z StudyTranscriptMismatch "Optuna did not assign the baseline to trial zero" ;;
  replay_samples self [] (st_samples transcript) study.

Definition reconstruct_study (self : Miprov2Study) (transcript : StudyTranscript) :
    result optuna_study :=
  require_bound_transcript self transcript ;;
  reconstruct self transcript.

(** ** Suggesting and recording *)

(** [_suggestion] of the next trial, and optuna's study after it. *)
Definition next_suggestion (self : Miprov2Study) (study : optuna_study) :
    result (StudySuggestion * optuna_study) :=
  let '(number, study) := study_ask study in
  '(params, study) ← suggest self number study;
  combination ← combination_identity_hash (sy_space self) params;
  suggestion ← StudySuggestion_validate
    {| ss_trial_number := number; ss_params := params;
       ss_candidate_combination_identity_hash := combination |};
  Ok (suggestion, study).

Definition require_not_exhausted (self : Miprov2Study) (transcript : StudyTranscript) : result unit :=
  require (len (st_samples transcript) <? sch_num_trials (sy_schedule self))%Z ValueError
    "MIPROv2 sampled trial schedule is exhausted".

Definition suggest_next (self : Miprov2Study) (transcript : StudyTranscript) :
    result StudySuggestion :=
  require_bound_transcript self transcript ;;
  require_not_exhausted self transcript ;;
  study ← reconstruct self transcript;
  '(suggestion, _) ← next_suggestion self study;
  Ok suggestion.

(** [_validate_next_suggestion]. *)
Definition validate_next_suggestion (self : Miprov2Study) (transcript : StudyTranscript)
    (suggestion : StudySuggestion) : result unit :=
  require_bound_transcript self transcript ;;
  require_not_exhausted self transcript ;;
  expected ← suggest_next self transcript;
  require (bool_decide (expected = suggestion)) StudyTranscriptMismatch
    "stored suggestion does not match reconstructed Optuna trial".

Definition study_evaluation_binding (self : Miprov2Study) (binding : EvalObservation)
    (expected_purpose : EvalPurpose) (expected_tasks : list pystr) : result unit :=
  validate_evaluation_binding (sy_run_id self) (sy_optimizer_config self)
    (sy_validation_eval_source self) (sy_validation_num_seeds self) (sy_reward_policy_hash self)
    binding expected_purpose expected_tasks.

(** The tasks a provisional sample must have been evaluated on. *)
Definition provisional_tasks (self : Miprov2Study) (tasks : list pystr) : result (list pystr) :=
  let schedule := sy_schedule self in
  require (len tasks =? (if sch_minibatch schedule then sch_minibatch_size schedule
                         else sch_valset_size schedule))%Z ValueError
    "sample task batch does not match persisted schedule" ;;
  if (sch_valset_size schedule <=? len tasks)%Z then Ok (sy_validation_task_hashes self) else
  require (all_unique tasks &&
           forallb (λ task, bool_decide (task ∈ sy_validation_task_hashes self)) tasks) ValueError
    "sample tasks must be a unique ordered validation subset" ;;
  Ok tasks.

(** [_provisional_sample]. *)
Definition provisional_sample (self : Miprov2Study) (suggestion : StudySuggestion) (score : float)
    (evaluation : EvalObservation) (candidate_assembly : Miprov2CandidateAssemblyBinding) :
    result SampleObservation :=
  require_candidate_assembly candidate_assembly (sy_space self) (ss_params suggestion)
    (ss_candidate_combination_identity_hash suggestion) (sy_optimizer_config self)
    (sy_expected_base_candidate self) (sy_prompt_adapter_identity_hash self)
    (sy_program_layout self) (sy_run self) ;;
  expected_tasks ← provisional_tasks self (eo_task_batch_hashes evaluation);
  study_evaluation_binding self evaluation MIPROV2_SAMPLE expected_tasks ;;
  SampleObservation_validate
    {| so_trial_number := ss_trial_number suggestion; so_params := ss_params suggestion;
       so_candidate_combination_identity_hash := ss_candidate_combination_identity_hash suggestion;
       so_evaluated_candidate_identity_hash := candr_identity_hash (ca_assembled candidate_assembly);
       so_candidate_assembly := candidate_assembly; so_score := score; so_evaluation := evaluation;
       so_batch_full_evaluation :=
         (sch_valset_size (sy_schedule self) <=? len (eo_task_batch_hashes evaluation))%Z;
       so_promotion := None |}.

Definition promotion_candidate (self : Miprov2Study) (transcript : StudyTranscript)
    (suggestion : StudySuggestion) (score : float) (evaluation : EvalObservation)
    (candidate_assembly : Miprov2CandidateAssemblyBinding) : result (option PromotionCandidate) :=
  validate_next_suggestion self transcript suggestion ;;
  provisional ← provisional_sample self suggestion score evaluation candidate_assembly;
  if negb (promotion_due (sy_schedule self) (ss_trial_number suggestion)) then Ok None else
  selected ← select_promotion (st_samples transcript ++ [provisional]);
  Ok (Some selected).

(** The promotion that a due sample is recorded with. *)
Definition record_promotion (self : Miprov2Study) (observed : list SampleObservation)
    (promotion_full_score : float) (promotion_evaluation : EvalObservation) (study : optuna_study) :
    result (Promotion * optuna_study) :=
  require (len (eo_task_batch_hashes promotion_evaluation) =? sch_valset_size (sy_schedule self))%Z
    ValueError "promotion task batch must cover validation set" ;;
  selected ← select_promotion observed;
  study_evaluation_binding self promotion_evaluation MIPROV2_PROMOTION
    (sy_validation_task_hashes self) ;;
  require (bool_decide (candr_identity_hash (eo_candidate promotion_evaluation) =
                        pc_evaluated_candidate_identity_hash selected)) ValueError
    "promotion evaluation does not match the selected first-observed candidate" ;;
  '(number, study) ← add_completed_trial self study (pc_params selected) promotion_full_score;
  promotion ← Promotion_validate
    {| pr_trial_number := number; pr_params := pc_params selected;
       pr_candidate_combination_identity_hash := pc_candidate_combination_identity_hash selected;
       pr_evaluated_candidate_identity_hash := pc_evaluated_candidate_identity_hash selected;
       pr_candidate_assembly := pc_candidate_assembly selected;
       pr_source_sample_trial_number := pc_source_sample_trial_number selected;
       pr_minibatch_mean := pc_minibatch_mean selected; pr_full_score := promotion_full_score;
       pr_evaluation := promotion_evaluation |};
  Ok (promotion, study).

(** Both results of a promotion, when it is due; neither, when it is not. *)
Definition promotion_result (due : bool) (promotion_full_score : option float)
    (promotion_evaluation : option EvalObservation) : result (option (float * EvalObservation)) :=
  match due, promotion_full_score, promotion_evaluation with
  | true, Some score, Some evaluation => Ok (Some (score, evaluation))
  | true, _, _ => raise ValueError "a promotion evaluation is required at this trial"
  | false, None, None => Ok None
  | false, _, _ => raise ValueError "promotion evaluation supplied off cadence"
  end.

Definition record_sample (self : Miprov2Study) (transcript : StudyTranscript)
    (suggestion : StudySuggestion) (score : float) (evaluation : EvalObservation)
    (candidate_assembly : Miprov2CandidateAssemblyBinding) (promotion_full_score : option float)
    (promotion_evaluation : option EvalObservation) : result StudyTranscript :=
  validate_next_suggestion self transcript suggestion ;;
  study ← reconstruct self transcript;
  '(reproduced, study) ← next_suggestion self study;
  require (bool_decide (reproduced = suggestion)) StudyTranscriptMismatch
    "stored suggestion does not match reconstructed Optuna trial" ;;
  provisional ← provisional_sample self suggestion score evaluation candidate_assembly;
  promotion ← promotion_result
    (promotion_due (sy_schedule self) (ss_trial_number suggestion))
    promotion_full_score promotion_evaluation;
  '(promotion, study) ←
    match promotion with
    | None => Ok (None, study)
    | Some (full_score, full_evaluation) =>
        '(promotion, study) ← record_promotion self (st_samples transcript ++ [provisional])
          full_score full_evaluation study;
        Ok (Some promotion, study)
    end;
  study_tell (ss_trial_number suggestion) score study ;;
  StudyTranscript_model_validate
    (with_samples transcript (st_samples transcript ++ [with_promotion provisional promotion])).

(** ** The best full evaluation *)

Definition better_sample (self : Miprov2Study) (best : FullEvaluation) (sample : SampleObservation) :
    result FullEvaluation :=
  if negb (sch_minibatch (sy_schedule self)) && flt (fe_score best) (so_score sample) then
    FullEvaluation_validate
      {| fe_source := SAMPLE_SOURCE; fe_trial_number := so_trial_number sample;
         fe_params := so_params sample;
         fe_candidate_combination_identity_hash := so_candidate_combination_identity_hash sample;
         fe_evaluated_candidate_identity_hash := so_evaluated_candidate_identity_hash sample;
         fe_score := so_score sample |}
  else Ok best.

Definition better_promotion (best : FullEvaluation) (sample : SampleObservation) :
    result FullEvaluation :=
  match so_promotion sample with
  | Some promotion =>
      if flt (fe_score best) (pr_full_score promotion) then
        FullEvaluation_validate
          {| fe_source := PROMOTION_SOURCE; fe_trial_number := pr_trial_number promotion;
             fe_params := pr_params promotion;
             fe_candidate_combination_identity_hash :=
               pr_candidate_combination_identity_hash promotion;
             fe_evaluated_candidate_identity_hash := pr_evaluated_candidate_identity_hash promotion;
             fe_score := pr_full_score promotion |}
      else Ok best
  | None => Ok best
  end.

Fixpoint best_loop (self : Miprov2Study) (best : FullEvaluation) (samples : list SampleObservation) :
    result FullEvaluation :=
  match samples with
  | [] => Ok best
  | sample :: samples =>
      best ← better_sample self best sample;
      best ← better_promotion best sample;
      best_loop self best samples
  end.

Definition best_full_evaluation (self : Miprov2Study) (transcript : StudyTranscript) :
    result FullEvaluation :=
  require_bound_transcript self transcript ;;
  let baseline := st_baseline transcript in
  best ← FullEvaluation_validate
    {| fe_source := BASELINE_SOURCE; fe_trial_number := 0;
       fe_params := baseline_params (sy_space self);
       fe_candidate_combination_identity_hash := bo_categorical_combination_identity_hash baseline;
       fe_evaluated_candidate_identity_hash :=
         candr_identity_hash (bo_evaluated_base_candidate baseline);
       fe_score := bo_score baseline |};
  best_loop self best (st_samples transcript).
End Study.
