(* ===== verification/Miprov2Resume.v ===== *)
(** * Miprov2Resume: a MIPROv2 study keeps its schedule and can be resumed

    The theorems of [Miprov2Replay]: the trials of an accepted transcript are
    those of the schedule, every transcript a study produces is accepted and
    optuna's study is rebuilt from it in step, and recording refuses what the
    schedule does not allow. A small study is run at the end. *)

From S2P Require Import Prelude Floats Identity Frozen Leasing EvalConfigs Reward Plan Aggregate Tools.
From S2P Require Import Claims Candidate Cost OptimContracts Copro CoproAdapter.
From S2P Require Import Miprov2Demos Miprov2Evals Miprov2Random Miprov2Control Miprov2Render Miprov2Space.
From S2P Require Import Miprov2Study Miprov2Replay.

(** ** The schedule of a bound transcript *)

Section Schedule.
Context `{DSer : !DrSerialize, DSto : !DrStore, Uni : !UnicodeIdentifiers, DText : !FloatText}.
Context `{Digits : !UnicodeDigits}.

Lemma mismatch_if_invalid_Ok {A} (r : result A) a : mismatch_if_invalid r = Ok a → r = Ok a.
Proof. destruct r as [|e]; simpl; [done|]. by destruct (_ || _). Qed.

(** What [model_validate] of a transcript says of its schedule. *)
Lemma transcript_validated t t' :
  StudyTranscript_model_validate t = Ok t' →
  t' = t ∧ Miprov2StudySchedule_validate (st_schedule t) = Ok (st_schedule t) ∧
  (len (st_samples t) ≤ sch_num_trials (st_schedule t))%Z.
Proof.
  unfold StudyTranscript_model_validate. intros H.
  do 4 apply bind_Ok in H as (? & _ & H). apply bind_Ok in H as (s & Hs & H).
  do 2 apply bind_Ok in H as (? & _ & H). unfold StudyTranscript_validate in H.
  apply bind_Ok in H as (? & _ & H). do 2 apply bind_Ok in H as (? & _ & H).
  apply bind_Ok in H as (? & Hn%require_Ok & H). apply bind_Ok in H as (? & _ & H).
  apply (inj Ok) in H. subst t'. split; [done|]. split; [|by apply Z.leb_le].
  rewrite Hs. f_equal. unfold Miprov2StudySchedule_validate in Hs.
  do 5 apply bind_Ok in Hs as (? & _ & Hs). by apply (inj Ok) in Hs.
Qed.

(** A bound transcript. *)
Definition bound (y : Miprov2Study) (t : StudyTranscript) : Prop :=
  require_bound_transcript y t = Ok tt.

Lemma bound_parts y t :
  bound y t ↔
  StudyTranscript_model_validate t = Ok t ∧
  ∃ space_hash distribution_hash,
    Miprov2ParameterSpace_identity_hash (sy_space y) = Ok space_hash ∧
    distribution_identity_hash (sy_space y) = Ok distribution_hash ∧
    contract_matches y t space_hash distribution_hash = true ∧
    check_chronology (sy_schedule y) [] 1 (st_samples t) = Ok tt.
Proof.
  unfold bound, require_bound_transcript. split.
  - intros (v & Hv & H)%bind_Ok. apply mismatch_if_invalid_Ok in Hv.
    pose proof (transcript_validated _ _ Hv) as (-> & _). split; [done|].
    apply bind_Ok in H as ([] & _ & H). apply bind_Ok in H as (s & Hs & H).
    apply bind_Ok in H as (d & Hd & H). apply bind_Ok in H as ([] & Hc%require_Ok & H). eauto 10.
  - intros (Hv & s & d & Hs & Hd & Hc & Hch). rewrite Hv. simpl mismatch_if_invalid.
    rewrite bind_Ok_l. unfold same. rewrite bool_decide_true, require_true, bind_Ok_l by done.
    by rewrite Hs, bind_Ok_l, Hd, bind_Ok_l, Hc, require_true, bind_Ok_l.
Qed.

Lemma contract_schedule y t s d :
  contract_matches y t s d = true →
  st_schedule t = sy_schedule y ∧ transcript_space t = sy_space y ∧
  st_distribution_identity_hash t = d ∧ st_parameter_space_identity_hash t = s.
Proof.
  unfold contract_matches. rewrite !andb_true_iff, !bool_decide_eq_true. naive_solver.
Qed.

Lemma bound_schedule y t :
  bound y t →
  Miprov2StudySchedule_validate (sy_schedule y) = Ok (sy_schedule y) ∧
  (len (st_samples t) ≤ sch_num_trials (sy_schedule y))%Z ∧
  check_chronology (sy_schedule y) [] 1 (st_samples t) = Ok tt.
Proof.
  intros (Hv & s & d & _ & _ & Hc & Hch)%bound_parts.
  apply contract_schedule in Hc as (Hsch & _). apply transcript_validated in Hv as (_ & Hv & Hn).
  by rewrite Hsch in *.
Qed.

(** The expected number of the trial after a sample. *)
Definition after_sample (sample : SampleObservation) (number : Z) : Z :=
  (number + 1 + (if is_some (so_promotion sample) then 1 else 0))%Z.

Lemma chronology_step schedule replayed number sample samples :
  check_chronology schedule replayed number (sample :: samples) = Ok tt →
  so_trial_number sample = number ∧
  is_some (so_promotion sample) = promotion_due schedule number ∧
  (∀ p, so_promotion sample = Some p → pr_trial_number p = (number + 1)%Z) ∧
  check_chronology schedule (replayed ++ [sample]) (after_sample sample number) samples = Ok tt.
Proof.
  cbn [check_chronology]. intros ([] & Hn%require_Ok & H)%bind_Ok. apply Z.eqb_eq in Hn.
  apply bind_Ok in H as ([] & Hd%require_Ok & H). apply eqb_prop in Hd. rewrite Hn in Hd.
  split; [done|]. split; [done|]. unfold after_sample.
  destruct (so_promotion sample) as [p|]; simpl is_some; cbv iota.
  - apply bind_Ok in H as (n & Hp & H). apply bind_Ok in Hp as (selected & _ & Hp).
    apply bind_Ok in Hp as ([] & Hpn%require_Ok & Hp). apply bind_Ok in Hp as ([] & _ & [= <-]).
    apply Z.eqb_eq in Hpn. split; [by intros ? [= <-]; lia|].
    done.
  - rewrite bind_Ok_l in H. split; [done|]. by rewrite Z.add_0_r.
Qed.

Lemma chronology_numbers schedule samples replayed k :
  Miprov2StudySchedule_validate schedule = Ok schedule →
  (0 ≤ k)%Z → (k + len samples ≤ sch_num_trials schedule)%Z →
  check_chronology schedule replayed (sample_number schedule k) samples = Ok tt →
  (∀ i sample, samples !! i = Some sample →
    let number := sample_number schedule (k + Z.of_nat i) in
    so_trial_number sample = number ∧
    is_some (so_promotion sample) = promotion_due schedule number ∧
    ∀ p, so_promotion sample = Some p → pr_trial_number p = (number + 1)%Z) ∧
  sample_number schedule (k + len samples) =
    (sample_number schedule k + len samples + len (promoted_combinations samples))%Z.
Proof.
  intros Hs. revert replayed k. induction samples as [|sample samples IH]; intros replayed k Hk Hn H.
  { split; [by intros [|i] sample|]. unfold len, promoted_combinations. simpl.
    by rewrite !Z.add_0_r. }
  apply chronology_step in H as (Hnum & Hdue & Hpn & H).
  unfold len in Hn. rewrite length_cons, Nat2Z.inj_succ in Hn.
  assert (after_sample sample (sample_number schedule k) = sample_number schedule (k + 1)) as Ha.
  { rewrite sample_number_succ by (done || lia). unfold after_sample. by rewrite Hdue. }
  rewrite Ha in H. apply IH in H as [IHs IHn]; [|lia|unfold len; lia].
  split.
  - intros [|i] s Hl; [simplify_list_eq; by rewrite Z.add_0_r|].
    replace (k + Z.of_nat (S i))%Z with (k + 1 + Z.of_nat i)%Z by lia. by apply IHs.
  - assert (len (promoted_combinations (sample :: samples)) =
      (if is_some (so_promotion sample) then 1 else 0) + len (promoted_combinations samples))%Z as Hp.
    { unfold promoted_combinations, len. cbn [omap list_omap].
      destruct (so_promotion sample); cbn [fmap option_fmap option_map is_some length]; lia. }
    rewrite Hp. replace (k + len (sample :: samples))%Z with (k + 1 + len samples)%Z
      by (unfold len; rewrite length_cons; lia).
    rewrite IHn, <-Ha. unfold after_sample, len. rewrite length_cons. lia.
Qed.

(** C8. The trials of a study are those of its schedule. In a transcript that a
    study accepts as its own, at most [num_trials] samples were taken, the
    sample at position [k] has the number that leaves room for the baseline and
    the promotions before it, it is promoted exactly when minibatches are used
    and it completes [minibatch_full_eval_steps] samples or is the last one,
    and its promotion has the next number. Once every sample of a minibatch
    study is taken, the baseline, the samples and the promotions are
    [adjusted_num_trials] trials. *)
Theorem study_schedule_exact y t :
  require_bound_transcript y t = Ok tt →
  (len (st_samples t) ≤ sch_num_trials (sy_schedule y))%Z ∧
  (∀ k sample, st_samples t !! k = Some sample →
    so_trial_number sample = sample_number (sy_schedule y) (Z.of_nat k) ∧
    is_some (so_promotion sample) = sch_minibatch (sy_schedule y) &&
      ((Z.of_nat (S k) mod sch_minibatch_full_eval_steps (sy_schedule y) =? 0)%Z ||
       (Z.of_nat (S k) =? sch_num_trials (sy_schedule y))%Z) ∧
    ∀ p, so_promotion sample = Some p → pr_trial_number p = (so_trial_number sample + 1)%Z) ∧
  (sch_minibatch (sy_schedule y) = true → len (st_samples t) = sch_num_trials (sy_schedule y) →
   (1 + len (st_samples t) + len (promoted_combinations (st_samples t)))%Z =
     adjusted_num_trials (sy_schedule y)).
Proof.
  intros (Hs & Hn & Hch)%bound_schedule. set (schedule := sy_schedule y) in *.
  rewrite <-(sample_number_first schedule Hs) in Hch.
  apply chronology_numbers in Hch as [Hnum Hlast]; [|done|lia|lia].
  rewrite Z.add_0_l in Hlast. split; [done|]. split.
  - intros k sample Hk. destruct (Hnum k sample Hk) as (H1 & H2 & H3). rewrite Z.add_0_l in *.
    split; [done|]. split; [|intros p Hp; rewrite H1; by apply H3].
    apply lookup_lt_Some in Hk. rewrite H2, promotion_cadence by (done || unfold len in *; lia).
    by rewrite Nat2Z.inj_succ, <-Z.add_1_r.
  - intros Hm Hfull. rewrite <-(sample_number_last schedule Hm), <-Hfull, Hlast.
    by rewrite (sample_number_first schedule Hs).
Qed.
End Schedule.

(** ** A study resumes *)

(** A space of one predictor, whose pools are not empty. *)
Definition one_predictor (space : Miprov2ParameterSpace) : Prop :=
  ∃ pool, ps_instruction_pools space = [pool] ∧ (0 < len pool)%Z ∧
    match ps_demo_pools space with
    | None => True
    | Some demos => ∃ demo_pool, demos = [demo_pool] ∧ (0 < len demo_pool)%Z
    end.

Section Resumes.
Context `{DSer : !DrSerialize, DSto : !DrStore, Uni : !UnicodeIdentifiers, DText : !FloatText}.
Context `{Digits : !UnicodeDigits, Opt : !Optuna, DTot : !DrTotal, OLaws : !OptunaLaws}.

Lemma space_one_predictor space :
  Miprov2ParameterSpace_validate space = Ok space → len (ps_instruction_pools space) = 1%Z →
  one_predictor space.
Proof.
  unfold Miprov2ParameterSpace_validate, one_predictor, len. intros H Hl.
  destruct (ps_instruction_pools space) as [|pool [|]]; [done| |simpl in Hl; lia].
  apply bind_Ok in H as (? & _ & H). apply bind_Ok in H as ([] & Hp & H).
  apply bind_Ok in H as (? & Hd & _). exists pool. split; [done|].
  apply bind_Ok in Hp as (? & Hp & _). apply bind_Ok in Hp as (? & Hp%require_Ok & _).
  split; [by destruct pool; [|simpl; lia]|].
  destruct (ps_demo_pools space) as [demos|]; [|done].
  apply bind_Ok in Hd as (? & Hdl%require_Ok & Hd). apply Nat.eqb_eq in Hdl.
  destruct demos as [|demo [|]]; try done. exists demo. split; [done|].
  apply bind_Ok in Hd as (? & Hd & _). apply bind_Ok in Hd as (? & Hd%require_Ok & _).
  by destruct demo; [|simpl; lia].
Qed.

(** The parameters of one predictor. *)
Lemma one_predictor_names space :
  one_predictor space →
  parameter_names space =
    instruction_name 0 :: (if is_some (ps_demo_pools space) then [demos_name 0] else []).
Proof.
  intros (pool & Hp & _). unfold parameter_names, predictors, len. rewrite Hp. cbn [length].
  change (range (Z.of_nat 1)) with [0%Z]. cbn [mbind list_bind]. by rewrite app_nil_r.
Qed.

Lemma instruction_count space pool :
  ps_instruction_pools space = [pool] → candidate_count space (instruction_name 0) = Ok (len pool).
Proof. intros H. unfold candidate_count. rewrite H. reflexivity. Qed.

Lemma demos_count space pool demo_pool :
  ps_instruction_pools space = [pool] → ps_demo_pools space = Some [demo_pool] →
  candidate_count space (demos_name 0) = Ok (len demo_pool).
Proof. intros Hi Hd. unfold candidate_count. rewrite Hi, Hd. reflexivity. Qed.

Lemma in_range_Ok a n msg u :
  require ((0 <=? a)%Z && (a <? n)%Z) ValueError msg = Ok u ↔ (0 ≤ a < n)%Z.
Proof. rewrite require_Ok, andb_true_iff, Z.leb_le, Z.ltb_lt. done. Qed.

(** Normalized parameters are a choice from every pool, and optuna may add a
    trial of them. *)
Lemma normalized_choices space params p :
  one_predictor space → normalize space params = Ok p →
  p = params ∧ as_dict space params = Ok params ∧
  ∃ choices, distributions space = Ok choices ∧ params.*1 = choices.*1 ∧
    Forall2 (λ p d, 0 ≤ p.2 < d.2)%Z params choices.
Proof.
  intros Hone Hn. pose proof Hn as Hn'. unfold normalize in Hn.
  apply bind_Ok in Hn as (? & Hk%require_Ok & Hn). apply bool_decide_eq_true in Hk.
  apply bind_Ok in Hn as ([] & Hr & Hn). apply (inj Ok) in Hn. subst p. split; [done|].
  unfold as_dict, distributions. rewrite Hn', bind_Ok_l. rewrite one_predictor_names in * by done.
  destruct Hone as (pool & Hp & _ & Hd). pose proof (instruction_count _ _ Hp) as Hi.
  destruct params as [|[k a] params]; [done|]. injection Hk as -> Hk.
  cbn [for_each] in Hr. apply bind_Ok in Hr as ([] & Ha & Hr). cbn [fst snd] in Ha.
  rewrite Hi, bind_Ok_l in Ha. apply in_range_Ok in Ha.
  destruct (ps_demo_pools space) as [demos|] eqn:Ed; cbn [is_some] in *.
  - destruct Hd as (demo_pool & -> & _). pose proof (demos_count _ _ _ Hp Ed) as Hd.
    destruct params as [|[k' b] [|]]; [done| |done]. injection Hk as ->.
    cbn [for_each] in Hr. apply bind_Ok in Hr as ([] & Hb & _). cbn [fst snd] in Hb.
    rewrite Hd, bind_Ok_l in Hb. apply in_range_Ok in Hb. split; [reflexivity|].
    cbn [mapM]. rewrite Hi, Hd, !bind_Ok_l. eexists. split; [reflexivity|].
    split; [done|]. rewrite !Forall2_cons. split; [done|]. split; [done|constructor].
  - destruct params; [|done]. split; [reflexivity|].
    cbn [mapM]. rewrite Hi, !bind_Ok_l. eexists. split; [reflexivity|].
    split; [done|]. rewrite !Forall2_cons. split; [done|constructor].
Qed.

Lemma normalize_one space a :
  one_predictor space → ps_demo_pools space = None →
  (0 ≤ a < len (default [] (head (ps_instruction_pools space))))%Z →
  normalize space [(instruction_name 0, a)] = Ok [(instruction_name 0, a)].
Proof.
  intros Hone Hd Ha. unfold normalize. rewrite one_predictor_names, Hd by done.
  destruct Hone as (pool & Hp & _). rewrite Hp in Ha. cbn [head default] in Ha.
  rewrite bool_decide_true, require_true, bind_Ok_l by done. cbn [for_each fst snd].
  rewrite (instruction_count _ _ Hp), bind_Ok_l. by rewrite (proj2 (in_range_Ok _ _ _ tt) Ha).
Qed.

Lemma normalize_two space a b demos :
  one_predictor space → ps_demo_pools space = Some demos →
  (0 ≤ a < len (default [] (head (ps_instruction_pools space))))%Z →
  (0 ≤ b < len (default [] (head demos)))%Z →
  normalize space [(instruction_name 0, a); (demos_name 0, b)] =
    Ok [(instruction_name 0, a); (demos_name 0, b)].
Proof.
  intros Hone Hd Ha Hb. unfold normalize. rewrite one_predictor_names, Hd by done.
  destruct Hone as (pool & Hp & _ & Hone). rewrite Hp in Ha. cbn [head default] in Ha.
  rewrite Hd in Hone. destruct Hone as (demo_pool & -> & _). cbn [head default] in Hb.
  rewrite bool_decide_true, require_true, bind_Ok_l by done. cbn [for_each fst snd].
  rewrite (instruction_count _ _ Hp), bind_Ok_l. rewrite (proj2 (in_range_Ok _ _ _ tt) Ha).
  rewrite bind_Ok_l, (demos_count _ _ _ Hp Hd), bind_Ok_l.
  by rewrite (proj2 (in_range_Ok _ _ _ tt) Hb).
Qed.

(** A study with the trials [0], …, [n - 1], of which some run, whose parameters
    are the space's. *)
Record numbered (space : Miprov2ParameterSpace) (study : optuna_study) (n : Z) (running : list Z) :
    Prop := {
  nb_pos : (0 ≤ n)%Z;
  nb_numbers : trial_numbers study = range n;
  nb_running : running_trials study = running;
  nb_distributions :
    ∀ name k, (name, k) ∈ trial_distributions study → candidate_count space name = Ok k;
}.

Lemma numbered_len space study n running :
  numbered space study n running → len (trial_numbers study) = n.
Proof. intros [Hn H _ _]. unfold len, range in *. rewrite H, length_seqZ. lia. Qed.

Lemma range_succ n : (0 ≤ n)%Z → range n ++ [n] = range (n + 1).
Proof.
  intros Hn. unfold range. rewrite (seqZ_app 0 n 1) by lia. f_equal.
Qed.

(** A distribution of the space is compatible with the trials so far. *)
Lemma numbered_compatible space study n running distributions :
  numbered space study n running →
  (∀ name k, (name, k) ∈ distributions → candidate_count space name = Ok k) →
  compatible distributions (trial_distributions study).
Proof.
  intros Hs Hd name k k' Hk Hk'. apply Hd in Hk. apply (nb_distributions _ _ _ _ Hs) in Hk'.
  congruence.
Qed.

(** A study that differs in the trials that run. *)
Lemma numbered_same space study study' n running running' :
  numbered space study n running → trial_numbers study' = trial_numbers study →
  running_trials study' = running' →
  (∀ name k, (name, k) ∈ trial_distributions study' →
    (name, k) ∈ trial_distributions study ∨ candidate_count space name = Ok k) →
  numbered space study' n running'.
Proof. intros [Hn Hs Hr Hd] H1 H2 H3. split; [done|congruence|done|]. naive_solver. Qed.

(** A study with one more trial. *)
Lemma numbered_succ space study study' n running running' :
  numbered space study n running →
  trial_numbers study' = trial_numbers study ++ [len (trial_numbers study)] →
  running_trials study' = running' →
  (∀ name k, (name, k) ∈ trial_distributions study' →
    (name, k) ∈ trial_distributions study ∨ candidate_count space name = Ok k) →
  numbered space study' (n + 1) running'.
Proof.
  intros Hs H'. rewrite (numbered_len _ _ _ _ Hs) in H'. destruct Hs as [Hn Hs Hr Hd].
  intros H2 H3. split; [lia|by rewrite H', Hs, range_succ|done|]. naive_solver.
Qed.

Lemma ask_numbered space study n running :
  numbered space study n running →
  (study_ask study).1 = n ∧ numbered space (study_ask study).2 (n + 1) (running ++ [n]).
Proof.
  intros Hs. destruct (study_ask_numbers study) as (H1 & H2 & H3 & H4).
  rewrite (numbered_len _ _ _ _ Hs) in H1, H3. split; [done|].
  eapply numbered_succ; [done|done|by rewrite H3, (nb_running _ _ _ _ Hs)|]. intros name k Hk.
  left. by apply H4.
Qed.

(** One suggestion to a running trial. *)
Lemma suggest_numbered space study n running number name count :
  numbered space study n running → number ∈ running → candidate_count space name = Ok count →
  (0 < count)%Z →
  ∃ choice study', suggest_categorical number name count study = Ok (choice, study') ∧
    (0 ≤ choice < count)%Z ∧ numbered space study' n running.
Proof.
  intros Hs Hin Hc Hpos.
  destruct (suggest_total number name count study Hpos) as (choice & s & H & Hr & H1 & H2 & H3).
  { by rewrite (nb_running _ _ _ _ Hs). }
  { eapply numbered_compatible; [done|]. by intros ? ? [= -> ->]%list_elem_of_singleton. }
  exists choice, s. split; [done|]. split; [done|].
  eapply numbered_same; [done|done|by rewrite H2, (nb_running _ _ _ _ Hs)|]. intros name' k Hk.
  apply H3, elem_of_cons in Hk as [[= -> ->]|Hk]; auto.
Qed.

(** optuna suggests normalized parameters for a running trial. *)
Lemma suggest_normalized y number study n running :
  one_predictor (sy_space y) → numbered (sy_space y) study n running → number ∈ running →
  ∃ params study', suggest y number study = Ok (params, study') ∧
    normalize (sy_space y) params = Ok params ∧ numbered (sy_space y) study' n running.
Proof.
  intros Hone Hs Hin. pose proof Hone as (pool & Hp & Hpos & Hd).
  destruct (suggest_numbered _ _ _ _ number (instruction_name 0) (len pool) Hs Hin)
    as (a & s1 & Ha & Hra & Hs1); [by apply instruction_count|done|].
  unfold suggest, instruction_candidate_counts, demo_candidate_counts. rewrite Hp.
  cbn [fmap list_fmap]. change (range (len [len pool])) with [0%Z]. cbn [zip zip_with suggest_loop].
  rewrite Ha, bind_Ok_l. destruct (ps_demo_pools (sy_space y)) as [demos|] eqn:Ed.
  - destruct Hd as (demo_pool & -> & Hdpos).
    destruct (suggest_numbered _ _ _ _ number (demos_name 0) (len demo_pool) Hs1 Hin)
      as (b & s2 & Hb & Hrb & Hs2); [by eapply demos_count|done|].
    cbn [fmap option_fmap option_map list_fmap].
    change ([len demo_pool] !! Z.to_nat 0) with (Some (len demo_pool)). cbn [of_option].
    rewrite bind_Ok_l, Hb, !bind_Ok_l. cbn [app fst snd].
    assert (normalize (sy_space y) [(instruction_name 0, a); (demos_name 0, b)] =
      Ok [(instruction_name 0, a); (demos_name 0, b)]) as Hn.
    { apply (normalize_two _ _ _ [demo_pool]); [done|done|by rewrite Hp|done]. }
    rewrite Hn. eexists _, s2. split; [reflexivity|]. by split.
  - cbn [fmap option_fmap option_map]. rewrite !bind_Ok_l. cbn [app].
    assert (normalize (sy_space y) [(instruction_name 0, a)] = Ok [(instruction_name 0, a)]) as Hn.
    { apply normalize_one; [done|done|by rewrite Hp]. }
    rewrite Hn. eexists _, s1. split; [reflexivity|]. by split.
Qed.

(** Every choice has an identity. *)
Lemma combination_total space params p :
  one_predictor space → normalize space params = Ok p →
  ∃ h, combination_identity_hash space params = Ok h ∧ full_hash h = Ok tt.
Proof.
  intros Hone Hn. destruct (normalized_choices _ _ _ Hone Hn) as (-> & Hdict & choices & Hc & Hk & Hr).
  unfold as_dict in Hdict. rewrite Hn, bind_Ok_l in Hdict. apply (inj Ok) in Hdict.
  unfold combination_identity_hash. rewrite Hn, bind_Ok_l, Hdict.
  assert (∃ item, mapM (selected_item space params) (predictors space) = Ok [item] ∧
    is_json item = true) as (item & -> & Hj); [|rewrite bind_Ok_l].
  { unfold distributions in Hc. rewrite one_predictor_names in Hc by done.
    destruct Hone as (pool & Hp & _ & Hd). unfold predictors. rewrite Hp.
    change (range (len [pool])) with [0%Z]. cbn [mapM]. unfold selected_item, pool_at. rewrite Hp.
    cbn [mapM] in Hc. rewrite (instruction_count _ _ Hp), !bind_Ok_l in Hc.
    destruct (ps_demo_pools space) as [demos|] eqn:Ed; cbn [is_some mapM] in Hc.
    - destruct Hd as (demo_pool & -> & _). rewrite (demos_count _ _ _ Hp Ed), !bind_Ok_l in Hc.
      apply (inj Ok) in Hc. subst choices.
      destruct params as [|[k a] [|[k' b] [|]]]; try done. injection Hk as -> ->.
      rewrite !Forall2_cons in Hr. destruct Hr as (Ha & Hb & _). cbn [fst snd] in Ha, Hb.
      destruct (lookup_lt_is_Some_2 pool (Z.to_nat a)) as [ha Hha]; [unfold len in Ha; lia|].
      destruct (lookup_lt_is_Some_2 demo_pool (Z.to_nat b)) as [hb Hhb]; [unfold len in Hb; lia|].
      change ([pool] !! Z.to_nat 0) with (Some pool).
      change ([demo_pool] !! Z.to_nat 0) with (Some demo_pool).
      change (dict_get [(instruction_name 0, a); (demos_name 0, b)] (instruction_name 0))
        with (Some a).
      change (dict_get [(instruction_name 0, a); (demos_name 0, b)] (demos_name 0)) with (Some b).
      cbn [of_option]. rewrite !bind_Ok_l, Hha. cbn [of_option]. rewrite !bind_Ok_l, Hhb.
      cbn [of_option]. rewrite !bind_Ok_l. eexists. split; reflexivity.
    - apply (inj Ok) in Hc. subst choices. destruct params as [|[k a] [|]]; try done.
      injection Hk as ->. rewrite !Forall2_cons in Hr. destruct Hr as (Ha & _). cbn [fst snd] in Ha.
      destruct (lookup_lt_is_Some_2 pool (Z.to_nat a)) as [ha Hha]; [unfold len in Ha; lia|].
      change ([pool] !! Z.to_nat 0) with (Some pool).
      change (dict_get [(instruction_name 0, a)] (instruction_name 0)) with (Some a).
      cbn [of_option]. rewrite !bind_Ok_l, Hha. cbn [of_option]. rewrite !bind_Ok_l.
      eexists. split; reflexivity. }
  match goal with |- context [compute_identity_hash ?s ?v ?p] =>
    destruct (compute_identity_hash_total s v p) as [h Hh] end.
  - cbn. by rewrite Hj.
  - exists h. split; [done|]. by eapply compute_identity_hash_full.
Qed.

Lemma distributions_counts space choices name k :
  distributions space = Ok choices → (name, k) ∈ choices → candidate_count space name = Ok k.
Proof.
  intros Hc%mapM_Ok_Forall2 (i & Hi)%list_elem_of_lookup.
  destruct (Forall2_lookup_r _ _ _ _ _ Hc Hi) as (name' & _ & H).
  apply bind_Ok in H as (count & H & [= -> ->]). done.
Qed.

(** A complete trial of normalized parameters can be added. *)
Lemma add_frozen_total y study params value n running :
  one_predictor (sy_space y) → fisfinite value = true → numbered (sy_space y) study n running →
  normalize (sy_space y) params = Ok params →
  ∃ study', add_frozen_trial y study params value = Ok study' ∧
    numbered (sy_space y) study' (n + 1) running.
Proof.
  intros Hone Hv Hs Hn.
  destruct (normalized_choices _ _ _ Hone Hn) as (_ & Hd & choices & Hc & Hk & Hr).
  destruct (add_trial_total params choices value study Hk Hr) as (s & Hs' & H1 & H2 & H3); [|done|].
  { eapply numbered_compatible; [done|]. intros name k. by apply distributions_counts. }
  exists s. unfold add_frozen_trial. rewrite Hd, bind_Ok_l, Hc, bind_Ok_l. split; [done|].
  eapply numbered_succ; [done|done|by rewrite H2, (nb_running _ _ _ _ Hs)|]. intros name k Hk'.
  apply H3, elem_of_app in Hk' as [Hk'|Hk']; [right|by left]. by eapply distributions_counts.
Qed.

Lemma add_frozen_numbered y study params value study' n running :
  one_predictor (sy_space y) → fisfinite value = true → numbered (sy_space y) study n running →
  add_frozen_trial y study params value = Ok study' →
  numbered (sy_space y) study' (n + 1) running.
Proof.
  intros Hone Hv Hs H. pose proof H as H'. unfold add_frozen_trial in H'.
  apply bind_Ok in H' as (values & Hvals & _). unfold as_dict in Hvals.
  apply bind_Ok in Hvals as (p & Hn & _).
  destruct (normalized_choices _ _ _ Hone Hn) as (-> & _).
  destruct (add_frozen_total y study params value n running Hone Hv Hs Hn) as (s & Hs' & Hnum).
  rewrite H in Hs'. apply (inj Ok) in Hs'. by subst s.
Qed.

Lemma add_completed_numbered y study params value number study' n running :
  one_predictor (sy_space y) → fisfinite value = true → numbered (sy_space y) study n running →
  add_completed_trial y study params value = Ok (number, study') →
  number = n ∧ numbered (sy_space y) study' (n + 1) running.
Proof.
  intros Hone Hv Hs H. unfold add_completed_trial in H. apply bind_Ok in H as (? & _ & H).
  apply bind_Ok in H as (s & Hadd & H). apply bind_Ok in H as (k & Hk & H).
  apply (inj Ok) in H. injection H as -> ->.
  pose proof (add_frozen_numbered _ _ _ _ _ _ _ Hone Hv Hs Hadd) as Hs'. split; [|done].
  rewrite (nb_numbers _ _ _ _ Hs'), <-range_succ, last_snoc in Hk by apply (nb_pos _ _ _ _ Hs).
  by apply (inj Ok) in Hk.
Qed.

Lemma tell_numbered space study number value study' n running :
  numbered space study n running → number ∈ running → fisfinite value = true →
  study_tell number value study = Ok study' →
  numbered space study' n (filter (λ k, k ≠ number) running).
Proof.
  intros Hs Hin Hv H. destruct (tell_total number value study) as (s & Hs' & H1 & H2 & H3);
    [by rewrite (nb_running _ _ _ _ Hs)|done|].
  rewrite H in Hs'. apply (inj Ok) in Hs'. subst s. rewrite (nb_running _ _ _ _ Hs) in H2.
  eapply numbered_same; [done..|]. intros name k Hk. left. by apply H3.
Qed.

Lemma import_optuna_Ok : import_optuna = Ok tt.
Proof. unfold import_optuna. by rewrite optuna_installed. Qed.

(** The next trial of a study. *)
Lemma next_suggestion_total y study n :
  one_predictor (sy_space y) → numbered (sy_space y) study n [] → (1 ≤ n)%Z →
  ∃ suggestion study', next_suggestion y study = Ok (suggestion, study') ∧
    ss_trial_number suggestion = n ∧ numbered (sy_space y) study' (n + 1) [n].
Proof.
  intros Hone Hs Hn. destruct (ask_numbered _ _ _ _ Hs) as [Hnum Hs1]. unfold next_suggestion.
  destruct (study_ask study) as [number s1]. cbn [fst snd] in *. subst number.
  destruct (suggest_normalized y n s1 _ _ Hone Hs1) as (params & s2 & Hsug & Hnorm & Hs2);
    [by left|].
  destruct (combination_total _ _ _ Hone Hnorm) as (h & Hh & Hfull).
  rewrite Hsug, bind_Ok_l, Hh, bind_Ok_l. unfold StudySuggestion_validate.
  cbn [ss_trial_number ss_candidate_combination_identity_hash].
  rewrite (proj2 (Z.ltb_ge n 1)) by lia. cbn [negb]. rewrite require_true, bind_Ok_l, Hfull.
  eexists _, s2. split; [reflexivity|]. by split.
Qed.

(** What recording a promotion gives. *)
Lemma record_promotion_Ok y observed full_score evaluation study promotion study' :
  record_promotion y observed full_score evaluation study = Ok (promotion, study') →
  ∃ selected, select_promotion observed = Ok selected ∧ promotion_matches promotion selected = true ∧
    fisfinite (pr_full_score promotion) = true ∧
    add_completed_trial y study (pr_params promotion) (pr_full_score promotion) =
      Ok (pr_trial_number promotion, study').
Proof.
  unfold record_promotion. intros (? & _ & H)%bind_Ok. apply bind_Ok in H as (selected & Hs & H).
  do 2 apply bind_Ok in H as (? & _ & H). apply bind_Ok in H as ([number s] & Hadd & H).
  apply bind_Ok in H as (p & Hp & H). apply (inj Ok) in H. injection H as -> ->.
  exists selected. split; [done|]. unfold Promotion_validate in Hp.
  do 7 apply bind_Ok in Hp as (? & _ & Hp). apply bind_Ok in Hp as (? & Hm%require_Ok & Hp).
  apply bind_Ok in Hp as (? & Hf%require_Ok & Hp). apply bind_Ok in Hp as (? & _ & Hp).
  apply (inj Ok) in Hp. subst promotion. cbn [pr_minibatch_mean pr_full_score] in Hm, Hf.
  split; [|by split]. unfold promotion_matches, same.
  cbn [pr_params pr_candidate_combination_identity_hash pr_source_sample_trial_number
       pr_minibatch_mean pr_evaluated_candidate_identity_hash pr_candidate_assembly].
  rewrite feq_refl by (by apply fisfinite_number). by rewrite !bool_decide_true, Z.eqb_refl.
Qed.

(** How a recorded sample continues optuna's study. *)
Definition continues (y : Miprov2Study) (observed : list SampleObservation) (number : Z)
    (study : optuna_study) (promotion : option Promotion) (study' : optuna_study) : Prop :=
  is_some promotion = promotion_due (sy_schedule y) number ∧
  match promotion with
  | None => study' = study
  | Some promotion =>
      ∃ selected, select_promotion observed = Ok selected ∧
        promotion_matches promotion selected = true ∧ fisfinite (pr_full_score promotion) = true ∧
        add_completed_trial y study (pr_params promotion) (pr_full_score promotion) =
          Ok (pr_trial_number promotion, study')
  end.

Lemma promotion_result_Ok due score evaluation r :
  promotion_result due score evaluation = Ok r → is_some r = due.
Proof. by destruct due, score, evaluation; simpl; intros [= <-]. Qed.

Lemma with_promotion_None sample promotion :
  so_promotion sample = None → with_promotion (with_promotion sample promotion) None = sample.
Proof. destruct sample; simpl. by intros ->. Qed.

(** Recording and replaying make the same calls of optuna. *)
Lemma replay_recorded y replayed suggestion study s1 provisional promotion s2 s3 :
  next_suggestion y study = Ok (suggestion, s1) → so_promotion provisional = None →
  so_trial_number provisional = ss_trial_number suggestion →
  so_params provisional = ss_params suggestion →
  so_candidate_combination_identity_hash provisional =
    ss_candidate_combination_identity_hash suggestion →
  continues y (replayed ++ [provisional]) (ss_trial_number suggestion) s1 promotion s2 →
  study_tell (ss_trial_number suggestion) (so_score provisional) s2 = Ok s3 →
  replay_sample y replayed (with_promotion provisional promotion) study = Ok s3.
Proof.
  intros Hsug Hnone Hnum Hpar Hcomb [Hdue Hcont] Htell.
  unfold next_suggestion in Hsug. unfold replay_sample. destruct (study_ask study) as [number s0].
  apply bind_Ok in Hsug as ([params s0'] & Hs & Hsug).
  apply bind_Ok in Hsug as (combination & Hc & Hsug). apply bind_Ok in Hsug as (sg & Hv & Hsug).
  apply (inj Ok) in Hsug. injection Hsug as -> ->. unfold StudySuggestion_validate in Hv.
  do 2 apply bind_Ok in Hv as (? & _ & Hv). apply (inj Ok) in Hv. subst suggestion.
  cbn [ss_trial_number ss_params ss_candidate_combination_identity_hash] in *.
  cbn [with_promotion so_trial_number so_params so_candidate_combination_identity_hash so_score
       so_promotion]. rewrite Hs, bind_Ok_l, Hnum, Z.eqb_refl, require_true, bind_Ok_l, Hpar.
  assert (normalize (sy_space y) params = Ok params) as ->.
  { unfold suggest in Hs. apply bind_Ok in Hs as ([ps s] & _ & Hs).
    apply bind_Ok in Hs as (p & Hn & Hs). apply (inj Ok) in Hs. injection Hs as -> ->.
    pose proof Hn as Hn'. unfold normalize in Hn'. do 2 apply bind_Ok in Hn' as (? & _ & Hn').
    apply (inj Ok) in Hn'. by subst ps. }
  cbn [rewrap]. rewrite bind_Ok_l, bool_decide_true, require_true, bind_Ok_l by done.
  rewrite Hc, bind_Ok_l, Hcomb, bool_decide_true, require_true, bind_Ok_l by done.
  rewrite <-Hdue, eqb_reflx, require_true, bind_Ok_l. destruct promotion as [promotion|].
  - destruct Hcont as (selected & Hsel & Hm & _ & Hadd). rewrite with_promotion_None by done.
    rewrite Hsel, bind_Ok_l, Hm, require_true, bind_Ok_l, Hadd, bind_Ok_l, Z.eqb_refl.
    by rewrite require_true, !bind_Ok_l.
  - subst s2. by rewrite bind_Ok_l.
Qed.

Lemma replay_samples_snoc y replayed samples recorded study :
  replay_samples y replayed (samples ++ [recorded]) study =
    (study ← replay_samples y replayed samples study;
     replay_sample y (replayed ++ samples) recorded study).
Proof.
  revert replayed study. induction samples as [|sample samples IH]; intros replayed study.
  - simpl. rewrite app_nil_r. by destruct (replay_sample y replayed recorded study).
  - cbn [app replay_samples]. destruct (replay_sample y replayed sample study) as [s|]; [|done].
    rewrite !bind_Ok_l, IH. by rewrite <-app_assoc.
Qed.

(** The trial number after some samples. *)
Definition after_samples (samples : list SampleObservation) (number : Z) : Z :=
  (number + len samples + len (promoted_combinations samples))%Z.

Lemma check_chronology_snoc schedule replayed number samples sample :
  check_chronology schedule replayed number samples = Ok tt →
  check_chronology schedule (replayed ++ samples) (after_samples samples number) [sample] = Ok tt →
  check_chronology schedule replayed number (samples ++ [sample]) = Ok tt.
Proof.
  revert replayed number. induction samples as [|s samples IH]; intros replayed number H H'.
  - unfold after_samples, len, promoted_combinations in H'. simpl in H'.
    by rewrite app_nil_r, !Z.add_0_r in H'.
  - cbn [check_chronology app] in H |- *. apply bind_Ok in H as ([] & -> & H).
    apply bind_Ok in H as ([] & -> & H). rewrite !bind_Ok_l.
    apply bind_Ok in H as (n & Hn & H). rewrite Hn, bind_Ok_l. apply IH; [done|].
    rewrite <-app_assoc. cbn [app]. revert H'. replace (after_samples (s :: samples) number)
      with (after_samples samples (n + 1)); [done|].
    unfold after_samples, len, promoted_combinations. cbn [omap list_omap].
    destruct (so_promotion s); cbn [fmap option_fmap option_map].
    + apply bind_Ok in Hn as (? & _ & Hn). do 2 apply bind_Ok in Hn as (? & _ & Hn).
      apply (inj Ok) in Hn. rewrite !length_cons. lia.
    + apply (inj Ok) in Hn. rewrite !length_cons. lia.
Qed.

Lemma space_validated space s : Miprov2ParameterSpace_validate space = Ok s → s = space.
Proof.
  unfold Miprov2ParameterSpace_validate. intros H. do 3 apply bind_Ok in H as (? & _ & H).
  by apply (inj Ok) in H.
Qed.

(** What a valid transcript says of its space and of its baseline. *)
Lemma transcript_baseline t :
  StudyTranscript_model_validate t = Ok t →
  one_predictor (transcript_space t) ∧
  normalize (transcript_space t) (baseline_params (transcript_space t)) =
    Ok (baseline_params (transcript_space t)) ∧
  fisfinite (bo_score (st_baseline t)) = true.
Proof.
  unfold StudyTranscript_model_validate. intros H. do 2 apply bind_Ok in H as (? & _ & H).
  apply bind_Ok in H as (layout & Hl & H). do 2 apply bind_Ok in H as (? & _ & H).
  apply bind_Ok in H as (b & Hb & H). apply bind_Ok in H as (? & _ & H).
  unfold StudyTranscript_validate in H. apply bind_Ok in H as (space & Hs & H).
  unfold parameter_space in Hs. pose proof (space_validated _ _ Hs) as ->.
  apply bind_Ok in H as ([] & Hf & H). apply bind_Ok in H as ([] & Hbase & _).
  unfold Miprov2ProgramLayout_model_validate in Hl. apply bind_Ok in Hl as (? & _ & Hl).
  unfold Miprov2ProgramLayout_validate in Hl. apply bind_Ok in Hl as (? & _ & Hl).
  apply bind_Ok in Hl as (? & Hl%require_Ok & _). apply Nat.eqb_eq in Hl.
  unfold check_study_fields in Hf. do 11 apply bind_Ok in Hf as (? & _ & Hf).
  do 2 apply bind_Ok in Hf as (? & _ & Hf). apply bind_Ok in Hf as (? & Hlen%require_Ok & _).
  apply Z.eqb_eq in Hlen. unfold len in Hlen at 1. rewrite Hl in Hlen.
  assert (one_predictor (transcript_space t)) as Hone by (by apply space_one_predictor).
  split; [done|]. unfold check_baseline, combination_identity_hash in Hbase.
  apply bind_Ok in Hbase as (h & Hbase & _). apply bind_Ok in Hbase as (p & Hn & _).
  destruct (normalized_choices _ _ _ Hone Hn) as (-> & _). split; [done|].
  unfold BaselineObservation_model_validate in Hb. do 2 apply bind_Ok in Hb as (? & _ & Hb).
  unfold BaselineObservation_validate in Hb. do 4 apply bind_Ok in Hb as (? & _ & Hb).
  by apply bind_Ok in Hb as (? & Hb%require_Ok & _).
Qed.

Lemma bound_space y t :
  bound y t → one_predictor (sy_space y) ∧
  normalize (sy_space y) (baseline_params (sy_space y)) = Ok (baseline_params (sy_space y)) ∧
  fisfinite (bo_score (st_baseline t)) = true.
Proof.
  intros (Hv & s & d & _ & _ & Hc & _)%bound_parts. apply contract_schedule in Hc as (_ & <- & _).
  by apply transcript_baseline.
Qed.

(** The number of the next trial of a transcript. *)
Definition next_number (y : Miprov2Study) (t : StudyTranscript) : Z :=
  sample_number (sy_schedule y) (len (st_samples t)).

Lemma bound_next_number y t : bound y t → next_number y t = after_samples (st_samples t) 1.
Proof.
  intros (Hs & Hn & Hch)%bound_schedule.
  rewrite <-(sample_number_first _ Hs) in Hch.
  apply chronology_numbers in Hch as [_ Hlast]; [|done|lia|lia].
  rewrite Z.add_0_l in Hlast. unfold next_number, after_samples. by rewrite Hlast, (sample_number_first _ Hs).
Qed.

(** optuna's study can be rebuilt, with one trial for every number before the
    next one, none of which runs. *)
Definition replays (y : Miprov2Study) (t : StudyTranscript) : Prop :=
  ∃ study, reconstruct y t = Ok study ∧ numbered (sy_space y) study (next_number y t) [].

Lemma replays_baseline y t : bound y t → st_samples t = [] → replays y t.
Proof.
  intros Hb Hnil. destruct (bound_space _ _ Hb) as (Hone & Hn & Hf).
  assert (numbered (sy_space y) (create_study (sy_seed y)) 0 []) as H0.
  { destruct (create_study_empty (sy_seed y)) as (H1 & H2 & H3).
    split; [done|done|done|]. rewrite H3. by intros ? ? ?%elem_of_nil. }
  destruct (add_frozen_total y _ _ _ _ _ Hone Hf H0 Hn) as (study & Hadd & Hs).
  exists study. rewrite (bound_next_number _ _ Hb), Hnil. unfold reconstruct.
  rewrite import_optuna_Ok, bind_Ok_l, Hadd, bind_Ok_l.
  rewrite (nb_numbers _ _ _ _ Hs). change (range (0 + 1)) with [0%Z]. cbn [head of_option]. by rewrite Hnil.
Qed.

Lemma provisional_sample_Ok y suggestion score evaluation assembly provisional :
  provisional_sample y suggestion score evaluation assembly = Ok provisional →
  so_promotion provisional = None ∧ so_trial_number provisional = ss_trial_number suggestion ∧
  so_params provisional = ss_params suggestion ∧
  so_candidate_combination_identity_hash provisional =
    ss_candidate_combination_identity_hash suggestion ∧
  so_score provisional = score ∧ fisfinite score = true.
Proof.
  unfold provisional_sample. intros (? & _ & H)%bind_Ok. do 2 apply bind_Ok in H as (? & _ & H).
  unfold SampleObservation_validate in H. do 6 apply bind_Ok in H as (? & _ & H).
  apply bind_Ok in H as (? & Hf%require_Ok & H). apply bind_Ok in H as (? & _ & H).
  apply (inj Ok) in H. by subst provisional.
Qed.

(** The steps of a recording that returned. *)
Record recording (y : Miprov2Study) (t : StudyTranscript) (suggestion : StudySuggestion)
    (score : float) (t' : StudyTranscript) : Prop := {
  rc_bound : bound y t;
  rc_open : (len (st_samples t) < sch_num_trials (sy_schedule y))%Z;
  rc_steps : ∃ study s1 provisional promotion s2 s3,
    reconstruct y t = Ok study ∧ next_suggestion y study = Ok (suggestion, s1) ∧
    so_promotion provisional = None ∧ so_trial_number provisional = ss_trial_number suggestion ∧
    so_params provisional = ss_params suggestion ∧
    so_candidate_combination_identity_hash provisional =
      ss_candidate_combination_identity_hash suggestion ∧
    so_score provisional = score ∧ fisfinite score = true ∧
    continues y (st_samples t ++ [provisional]) (ss_trial_number suggestion) s1 promotion s2 ∧
    study_tell (ss_trial_number suggestion) score s2 = Ok s3 ∧
    t' = with_samples t (st_samples t ++ [with_promotion provisional promotion]);
  rc_valid : StudyTranscript_model_validate t' = Ok t';
}.

Lemma record_sample_steps y t suggestion score evaluation assembly full_score full_evaluation t' :
  record_sample y t suggestion score evaluation assembly full_score full_evaluation = Ok t' →
  recording y t suggestion score t'.
Proof.
  unfold record_sample. intros ([] & Hv & H)%bind_Ok. unfold validate_next_suggestion in Hv.
  apply bind_Ok in Hv as ([] & Hb & Hv). apply bind_Ok in Hv as ([] & Hopen%require_Ok & _).
  apply Z.ltb_lt in Hopen. apply bind_Ok in H as (study & Hr & H).
  apply bind_Ok in H as ([reproduced s1] & Hsug & H).
  apply bind_Ok in H as ([] & He%require_Ok & H). apply bool_decide_eq_true in He. subst reproduced.
  apply bind_Ok in H as (provisional & Hp & H). apply bind_Ok in H as (result & Hres & H).
  apply promotion_result_Ok in Hres.
  apply provisional_sample_Ok in Hp as (Hnone & Hnum & Hpar & Hcomb & Hscore & Hfin).
  apply bind_Ok in H as ([promotion s2] & Hpro & H). apply bind_Ok in H as (s3 & Htell & H).
  assert (continues y (st_samples t ++ [provisional]) (ss_trial_number suggestion) s1 promotion s2)
    as Hcont.
  { destruct result as [[fs fe]|].
    - apply bind_Ok in Hpro as ([p s] & Hpro & Heq). apply (inj Ok) in Heq. injection Heq as <- ->.
      split; [done|]. by apply record_promotion_Ok in Hpro.
    - apply (inj Ok) in Hpro. injection Hpro as <- ->. by split. }
  pose proof (transcript_validated _ _ H) as (-> & _).
  split; [done|done| |done]. by exists study, s1, provisional, promotion, s2, s3.
Qed.

Lemma reconstruct_snoc y t sample study s :
  reconstruct y t = Ok study → replay_sample y (st_samples t) sample study = Ok s →
  reconstruct y (with_samples t (st_samples t ++ [sample])) = Ok s.
Proof.
  unfold reconstruct. intros H Hs. apply bind_Ok in H as ([] & -> & H).
  apply bind_Ok in H as (base & Hbase & H). apply bind_Ok in H as (first & Hfirst & H).
  apply bind_Ok in H as ([] & Hzero & H). cbn [with_samples st_baseline st_samples].
  rewrite bind_Ok_l, Hbase, bind_Ok_l, Hfirst, bind_Ok_l, Hzero, bind_Ok_l.
  by rewrite replay_samples_snoc, H, bind_Ok_l, app_nil_l.
Qed.

(** A promotion takes the number after its sample. *)
Lemma continues_numbered y observed number s1 promotion s2 n :
  one_predictor (sy_space y) → numbered (sy_space y) s1 (n + 1) [n] →
  continues y observed number s1 promotion s2 →
  numbered (sy_space y) s2 (n + 1 + (if is_some promotion then 1 else 0)) [n] ∧
  ∀ p, promotion = Some p → pr_trial_number p = (n + 1)%Z.
Proof.
  intros Hone Hs1 [_ Hcont]. destruct promotion as [p|]; cbn [is_some].
  - destruct Hcont as (selected & _ & _ & Hpf & Hadd).
    apply (add_completed_numbered _ _ _ _ _ _ _ _ Hone Hpf Hs1) in Hadd as [Hadd Hs2].
    split; [done|]. by intros ? [= <-].
  - subst s2. by rewrite Z.add_0_r.
Qed.

Lemma next_number_snoc y t sample :
  Miprov2StudySchedule_validate (sy_schedule y) = Ok (sy_schedule y) →
  (len (st_samples t) < sch_num_trials (sy_schedule y))%Z →
  is_some (so_promotion sample) = promotion_due (sy_schedule y) (next_number y t) →
  next_number y (with_samples t (st_samples t ++ [sample])) =
    (next_number y t + 1 + (if is_some (so_promotion sample) then 1 else 0))%Z.
Proof.
  intros Hs Hopen ->. unfold next_number. cbn [with_samples st_samples].
  replace (len (st_samples t ++ [sample])) with (len (st_samples t) + 1)%Z
    by (unfold len; rewrite length_app; simpl; lia).
  apply sample_number_succ; [done|unfold len in *; lia].
Qed.

(** The chronology of a transcript with one more sample. *)
Lemma bound_snoc y t provisional promotion s1 s2 :
  bound y t → so_promotion provisional = None → so_trial_number provisional = next_number y t →
  continues y (st_samples t ++ [provisional]) (next_number y t) s1 promotion s2 →
  (∀ p, promotion = Some p → pr_trial_number p = (next_number y t + 1)%Z) →
  let t' := with_samples t (st_samples t ++ [with_promotion provisional promotion]) in
  StudyTranscript_model_validate t' = Ok t' → bound y t'.
Proof.
  intros Hb Hnone Htrial [Hdue Hcont] Hpn t' Hvalid.
  pose proof (bound_next_number _ _ Hb) as Hafter.
  apply bound_parts in Hb as (_ & sh & dh & Hsh & Hdh & Hc & Hch). apply bound_parts.
  split; [done|]. exists sh, dh. split; [done|]. split; [done|]. split; [exact Hc|].
  cbn [t' with_samples st_samples]. apply check_chronology_snoc; [done|].
  rewrite app_nil_l, <-Hafter. cbn [check_chronology with_promotion so_trial_number so_promotion].
  rewrite Htrial, Z.eqb_refl, require_true, bind_Ok_l, <-Hdue, eqb_reflx, require_true, bind_Ok_l.
  destruct promotion as [p|]; [|by rewrite !bind_Ok_l].
  destruct Hcont as (selected & Hsel & Hm & _ & _). rewrite (Hpn p eq_refl), Z.eqb_refl.
  replace (with_promotion _ None) with provisional
    by (symmetry; by apply (with_promotion_None provisional (Some p))).
  by rewrite Hsel, bind_Ok_l, require_true, bind_Ok_l, Hm.
Qed.

(** A recording keeps the transcript bound, and optuna's study can be rebuilt
    from it. *)
Lemma recording_resumes y t suggestion score t' :
  recording y t suggestion score t' → replays y t → bound y t' ∧ replays y t'.
Proof.
  intros [Hb Hopen Hsteps Hvalid] (study & Hr & Hnum).
  destruct Hsteps as (study0 & s1 & provisional & promotion & s2 & s3 & Hr' & Hsug & Hnone & Htrial &
    Hpar & Hcomb & Hscore & Hfin & Hcont & Htell & ->).
  rewrite Hr in Hr'. apply (inj Ok) in Hr'. subst study0.
  destruct (bound_space _ _ Hb) as (Hone & _ & _).
  destruct (bound_schedule _ _ Hb) as (Hs & _ & _).
  assert (1 ≤ next_number y t)%Z as Hpos
    by (rewrite (bound_next_number _ _ Hb); unfold after_samples, len; lia).
  destruct (next_suggestion_total y study _ Hone Hnum Hpos) as (sg & s & Hsug' & Hn & Hs1).
  rewrite Hsug in Hsug'. apply (inj Ok) in Hsug'. injection Hsug' as <- <-.
  destruct (continues_numbered _ _ _ _ _ _ _ Hone Hs1 Hcont) as [Hs2 Hpn].
  split; [eapply bound_snoc; [done|done|congruence|by rewrite <-Hn|done|done]|].
  exists s3. split.
  - eapply reconstruct_snoc; [exact Hr|]. eapply replay_recorded; try done. by rewrite Hscore.
  - rewrite next_number_snoc; [|done|done|destruct Hcont as [Hdue _]; by rewrite <-Hn].
    cbn [with_promotion so_promotion].
    rewrite Hn in Htell. apply (tell_numbered _ _ _ _ _ _ _ Hs2) in Htell; [|by left|done].
    by rewrite filter_cons_False, filter_nil in Htell by naive_solver.
Qed.

(** The transcripts of a study: its first one, for an evaluation of the base
    candidate, and those that recording samples gives. *)
Inductive study_run (y : Miprov2Study) : StudyTranscript → Prop :=
| study_starts score evaluation t :
    EvalObservation_model_validate evaluation = Ok evaluation →
    initial_transcript y score evaluation = Ok t → study_run y t
| study_records t suggestion score evaluation assembly full_score full_evaluation t' :
    study_run y t →
    record_sample y t suggestion score evaluation assembly full_score full_evaluation = Ok t' →
    study_run y t'.

(** The records a study is made of are valid. *)
Record study_ready (y : Miprov2Study) : Prop := {
  syr_source : is_ok (EvalConfigRef_validate (sy_validation_eval_source y)) = true;
  syr_base : is_ok (CandidateRef_validate (sy_expected_base_candidate y)) = true;
  syr_layout : is_ok (Miprov2ProgramLayout_model_validate (sy_program_layout y)) = true;
  syr_run : is_ok (OptimRunRef_model_validate (sy_run y)) = true;
  syr_schedule : is_ok (Miprov2StudySchedule_validate (sy_schedule y)) = true;
}.

Lemma initial_transcript_bound y score evaluation t :
  study_ready y → EvalObservation_model_validate evaluation = Ok evaluation →
  initial_transcript y score evaluation = Ok t → bound y t ∧ st_samples t = [].
Proof.
  intros [(source & Hsource)%(proj1 (is_ok_Ok _)) (base & Hbase)%(proj1 (is_ok_Ok _)) (layout & Hlayout)%(proj1 (is_ok_Ok _))
    (run & Hrun)%(proj1 (is_ok_Ok _)) (sched & Hsched)%(proj1 (is_ok_Ok _))] Hev H.
  unfold initial_transcript in H. apply bind_Ok in H as (combination & _ & H).
  apply bind_Ok in H as (baseline & Hb & H). apply bind_Ok in H as (sh & Hsh & H).
  apply bind_Ok in H as (dh & Hdh & H).
  set (t0 := starting_transcript y sh dh baseline) in H.
  assert (BaselineObservation_validate baseline = Ok baseline ∧
    bo_evaluated_base_candidate baseline = sy_expected_base_candidate y ∧
    bo_evaluation baseline = evaluation) as (Hb' & Hcand & Hbev).
  { pose proof Hb as Hv. unfold BaselineObservation_validate in Hv.
    do 6 apply bind_Ok in Hv as (? & _ & Hv). apply (inj Ok) in Hv. by subst baseline. }
  assert (StudyTranscript_model_validate t0 = Ok t) as Hvalid.
  { unfold StudyTranscript_model_validate. cbn [t0 starting_transcript st_validation_eval_source
      st_expected_base_candidate st_program_layout st_run st_schedule st_baseline st_samples].
    rewrite Hsource, bind_Ok_l, Hbase, bind_Ok_l, Hlayout, bind_Ok_l, Hrun, bind_Ok_l, Hsched.
    rewrite bind_Ok_l. unfold BaselineObservation_model_validate.
    by rewrite Hcand, Hbase, bind_Ok_l, Hbev, Hev, bind_Ok_l, Hb', bind_Ok_l. }
  pose proof (transcript_validated _ _ Hvalid) as (-> & _). split; [|done].
  apply bound_parts. split; [done|]. exists sh, dh. split; [done|]. split; [done|].
  split; [|done]. unfold contract_matches, same.
  cbn [t0 starting_transcript st_seed st_run_id st_validation_task_hashes st_validation_eval_source
       st_reward_policy_hash st_optimizer_config st_prompt_adapter_identity_hash
       st_expected_base_candidate st_program_layout st_run st_parameter_space_identity_hash
       st_distribution_identity_hash st_schedule].
  assert (transcript_space t0 = sy_space y) as -> by (by destruct y as [? ? []]).
  by rewrite Z.eqb_refl, !bool_decide_true by done.
Qed.

Lemma study_run_resumes y t : study_ready y → study_run y t → bound y t ∧ replays y t.
Proof.
  intros Hy. induction 1 as [score evaluation t Hev Hi|t sg score ev asm fs fe t' _ [Hb Hr] Hrec].
  - destruct (initial_transcript_bound _ _ _ _ Hy Hev Hi) as [Hb Hnil]. split; [done|].
    by apply replays_baseline.
  - by eapply recording_resumes; [eapply record_sample_steps|].
Qed.

(** C5. A study can always be resumed from its transcript. Every transcript
    that starting a study and recording samples gives is accepted as the
    study's own by any process, optuna's study is rebuilt from it, with one
    trial for the baseline, for every sample and for every promotion, numbered
    in this order and every one finished, and as long as samples are left the
    next suggestion is made, with the next number of the schedule. *)
Theorem study_resumes y t :
  study_ready y → study_run y t →
  require_bound_transcript y t = Ok tt ∧
  (∃ study, reconstruct_study y t = Ok study ∧ trial_numbers study = range (next_number y t) ∧
    running_trials study = []) ∧
  next_number y t = (1 + len (st_samples t) + len (promoted_combinations (st_samples t)))%Z ∧
  ((len (st_samples t) < sch_num_trials (sy_schedule y))%Z →
   ∃ suggestion, suggest_next y t = Ok suggestion ∧ ss_trial_number suggestion = next_number y t) ∧
  (len (st_samples t) = sch_num_trials (sy_schedule y) →
   suggest_next y t = raise ValueError "MIPROv2 sampled trial schedule is exhausted").
Proof.
  intros Hy Ht. destruct (study_run_resumes _ _ Hy Ht) as [Hb (study & Hr & Hnum)].
  split; [done|]. split.
  { exists study. unfold reconstruct_study. rewrite Hb, bind_Ok_l. split; [done|]. by destruct Hnum. }
  split; [by apply bound_next_number|]. unfold suggest_next, require_not_exhausted.
  split; intros Hlen.
  - destruct (bound_space _ _ Hb) as (Hone & _ & _).
    destruct (next_suggestion_total y study _ Hone Hnum) as (suggestion & s & Hs & Hn & _).
    { rewrite (bound_next_number _ _ Hb). unfold after_samples, len. lia. }
    exists suggestion. split; [|done]. rewrite Hb, bind_Ok_l, (proj2 (Z.ltb_lt _ _) Hlen).
    by rewrite require_true, bind_Ok_l, Hr, bind_Ok_l, Hs, bind_Ok_l.
  - by rewrite Hb, bind_Ok_l, (proj2 (Z.ltb_ge _ _)) by lia.
Qed.

(** C23. Recording a sample refuses what the schedule does not allow. For a
    transcript the study accepts, it fails with [ValueError] once the schedule
    is exhausted, with [StudyTranscriptMismatch] for any suggestion other than
    the study's next one, and, for the next one and a sound sample, with
    [ValueError] when a promotion is due and its score or its evaluation is
    missing, or one is given when none is due; a transcript the study does not
    accept fails as it fails to bind. *)
Theorem record_sample_refuses y t suggestion score evaluation assembly full_score full_evaluation :
  let recorded :=
    record_sample y t suggestion score evaluation assembly full_score full_evaluation in
  (∀ e, require_bound_transcript y t = Err e → recorded = Err e) ∧
  (require_bound_transcript y t = Ok tt →
   (len (st_samples t) = sch_num_trials (sy_schedule y) →
    recorded = raise ValueError "MIPROv2 sampled trial schedule is exhausted") ∧
   (∀ next, suggest_next y t = Ok next → suggestion ≠ next →
    ∃ msg, recorded = raise StudyTranscriptMismatch msg) ∧
   (∀ provisional, suggest_next y t = Ok suggestion →
    provisional_sample y suggestion score evaluation assembly = Ok provisional →
    if promotion_due (sy_schedule y) (ss_trial_number suggestion)
    then full_score = None ∨ full_evaluation = None → ∃ msg, recorded = raise ValueError msg
    else full_score ≠ None ∨ full_evaluation ≠ None → ∃ msg, recorded = raise ValueError msg)).
Proof.
  cbv zeta. unfold record_sample, validate_next_suggestion. split; [by intros e ->|]. intros Hb.
  rewrite Hb, !bind_Ok_l. unfold require_not_exhausted. split; [|split].
  - intros Hlen. by rewrite (proj2 (Z.ltb_ge _ _)) by lia.
  - intros next Hnext Hne. rewrite Hnext. unfold suggest_next, require_not_exhausted in Hnext.
    rewrite Hb, bind_Ok_l in Hnext. apply bind_Ok in Hnext as ([] & -> & _). rewrite !bind_Ok_l.
    rewrite bool_decide_false by congruence. by eexists.
  - intros provisional Hnext Hp. rewrite Hnext. unfold suggest_next, require_not_exhausted in Hnext.
    rewrite Hb, bind_Ok_l in Hnext. apply bind_Ok in Hnext as ([] & -> & Hnext).
    rewrite !bind_Ok_l, bool_decide_true, require_true, bind_Ok_l by done.
    apply bind_Ok in Hnext as (study & -> & Hnext). rewrite bind_Ok_l.
    apply bind_Ok in Hnext as ([sg s] & -> & Hnext). apply (inj Ok) in Hnext. subst sg.
    rewrite bind_Ok_l, bool_decide_true, require_true, bind_Ok_l, Hp, bind_Ok_l by done.
    destruct (promotion_due _ _), full_score, full_evaluation; simpl; naive_solver.
Qed.
End Resumes.

(** A study of another demo mode or of another number of repeats: the check of
    a transcript compares neither. *)
Definition with_mode_and_seeds (self : Miprov2Study) (demo_mode : Miprov2DemoMode) (num_seeds : Z) :
    Miprov2Study :=
  {| sy_seed := sy_seed self; sy_demo_mode := demo_mode; sy_space := sy_space self;
     sy_schedule := sy_schedule self; sy_run_id := sy_run_id self;
     sy_validation_task_hashes := sy_validation_task_hashes self;
     sy_validation_eval_source := sy_validation_eval_source self;
     sy_validation_num_seeds := num_seeds; sy_reward_policy_hash := sy_reward_policy_hash self;
     sy_optimizer_config := sy_optimizer_config self;
     sy_prompt_adapter_identity_hash := sy_prompt_adapter_identity_hash self;
     sy_expected_base_candidate := sy_expected_base_candidate self;
     sy_program_layout := sy_program_layout self; sy_run := sy_run self |}.

Lemma bound_ignores_mode_and_seeds `{DSer : !DrSerialize, DSto : !DrStore, Uni : !UnicodeIdentifiers}
    `{DText : !FloatText, Digits : !UnicodeDigits} y t demo_mode num_seeds :
  require_bound_transcript (with_mode_and_seeds y demo_mode num_seeds) t =
  require_bound_transcript y t.
Proof. done. Qed.

(** ** A concrete study

    Two trials over two instructions, without demonstrations: one task, a
    minibatch of one, and a promotion after every sample. Every evaluation
    fails, so that every score is zero. *)
Module ConcreteStudy.
Import Concrete ConcreteTemplates ConcreteRun ConcreteCopro ConcreteMiprov2.

(** A study of the trials' numbers, those that run and their parameters. *)
Record small_study := {
  sst_trials : list Z;
  sst_running : list Z;
  sst_distributions : list (pystr * Z);
}.

(** The categories of a parameter never change. *)
Definition is_compatible (distributions known : list (pystr * Z)) : bool :=
  forallb (λ d, forallb (λ k, negb (bool_decide (d.1 = k.1)) || (d.2 =? k.2)%Z) known) distributions.

Definition check_compatible (distributions : list (pystr * Z)) (study : small_study) : result unit :=
  require (is_compatible distributions (sst_distributions study)) ValueError
    "CategoricalDistribution does not support dynamic value space".

Definition check_running (number : Z) (study : small_study) : result unit :=
  require (bool_decide (number ∈ sst_running study)) RuntimeError "the trial has finished".

(** A sampler that suggests category [number mod n]. *)
#[export] Instance round_robin : Optuna := {|
  optuna_module := Some (Some MIPROV2_OPTUNA_VERSION);
  optuna_study := small_study;
  create_study _ := {| sst_trials := []; sst_running := []; sst_distributions := [] |};
  trial_numbers := sst_trials;
  running_trials := sst_running;
  trial_distributions := sst_distributions;
  add_trial _ distributions _ study :=
    check_compatible distributions study ;;
    Ok {| sst_trials := sst_trials study ++ [len (sst_trials study)];
          sst_running := sst_running study;
          sst_distributions := distributions ++ sst_distributions study |};
  study_ask study :=
    (len (sst_trials study),
     {| sst_trials := sst_trials study ++ [len (sst_trials study)];
        sst_running := sst_running study ++ [len (sst_trials study)];
        sst_distributions := sst_distributions study |});
  suggest_categorical number name n study :=
    check_running number study ;; check_compatible [(name, n)] study ;;
    Ok ((number mod n)%Z,
        {| sst_trials := sst_trials study; sst_running := sst_running study;
           sst_distributions := (name, n) :: sst_distributions study |});
  study_tell number _ study :=
    check_running number study ;;
    Ok {| sst_trials := sst_trials study;
          sst_running := filter (λ running, running ≠ number) (sst_running study);
          sst_distributions := sst_distributions study |};
|}.

Lemma check_compatible_Ok distributions study :
  compatible distributions (sst_distributions study) → check_compatible distributions study = Ok tt.
Proof.
  intros H. apply require_Ok. unfold is_compatible. rewrite forallb_Forall, Forall_forall.
  intros [name n] Hd. rewrite forallb_Forall, Forall_forall. intros [name' n'] Hk. cbn [fst snd].
  case_bool_decide as Hn; [subst name'|done]. apply Z.eqb_eq. by eapply H.
Qed.

Lemma check_running_Ok number study : number ∈ sst_running study → check_running number study = Ok tt.
Proof. intros H. unfold check_running. by rewrite bool_decide_true. Qed.

#[export] Instance round_robin_laws : OptunaLaws.
Proof.
  split; simpl; [done|done| |done| |].
  - intros params distributions value study _ _ Hc _. rewrite check_compatible_Ok by done.
    eexists. by split.
  - intros number name n study Hn Hr Hc. rewrite check_running_Ok, bind_Ok_l, check_compatible_Ok by done.
    eexists _, _. split; [reflexivity|]. split; [by apply Z.mod_pos_bound|done].
  - intros number value study Hr _. rewrite check_running_Ok by done. eexists. by split.
Qed.

#[export] Instance zero_text : FloatText :=
  {| float_of_text := λ _, Ok fzero; float_repr := λ _, $"0.0" |}.
#[export] Instance no_digits : UnicodeDigits := {| decimal_digit := λ _, None |}.

Definition config : IdentityRef :=
  {| iref_record_ref := content_ref $"config"; iref_record_hash := digest PNone |}.

Definition layout : Miprov2ProgramLayout :=
  {| mpl_layout_id := $"layout"; mpl_component_specs :=
       [{| mcs_component_id := $"generate"; mcs_prompt_format_identity_hash := digest PNone |}] |}.

Definition source_definition : DefinitionRef := ec_definition_ref (ecr_record metric).

(** The evaluation source, with its canonical identity. *)
Definition source : result EvalConfigRef :=
  h ← canonical_eval_config_hash metric;
  eval_config_reference
    {| ec_definition_ref := source_definition; ec_sampling_config_hash := digest PNone;
       ec_evaluation_procedure_config_hash := digest PNone;
       ec_aggregation_config_hash := digest PNone; ec_config_hash := h |}.

Definition run_ref : result OptimRunRef := optimization_run_reference the_run.

Definition policy_hash : result pystr :=
  policy ← of_option (run_reward_policy the_run) ValueError ""; RewardPolicy_identity_hash policy.

Definition the_space : result Miprov2ParameterSpace :=
  first ← instruction_identity_hash $"Answer."; second ← instruction_identity_hash $"Think first.";
  Miprov2ParameterSpace_validate
    {| ps_instruction_pools := [[first; second]]; ps_demo_pools := None |}.

Definition the_study : result Miprov2Study :=
  space ← the_space; source ← source; run ← run_ref; policy_hash ← policy_hash;
  Miprov2Study_new
    {| sy_seed := 9; sy_demo_mode := ZEROSHOT; sy_space := space;
       sy_schedule := {| sch_num_trials := 2; sch_minibatch := true; sch_minibatch_size := 1;
                         sch_valset_size := 1; sch_minibatch_full_eval_steps := 1 |};
       sy_run_id := $"run"; sy_validation_task_hashes := [digest PNone];
       sy_validation_eval_source := source; sy_validation_num_seeds := 1;
       sy_reward_policy_hash := policy_hash; sy_optimizer_config := config;
       sy_prompt_adapter_identity_hash := digest PNone; sy_expected_base_candidate := base;
       sy_program_layout := layout; sy_run := run |}.

(** The derived evaluation config of the one task, for a purpose. *)
Definition binding (purpose : Miprov2EvalPurpose) : result EvalBinding :=
  source ← source;
  let tasks := [digest PNone] in
  let task_set := {| ts_manifest_id := $"m"; ts_version := $"1"; ts_dataset_revision := $"r";
                     ts_task_hashes := tasks; ts_selection_rule := None |} in
  let plan := {| sp_plan_id := $"p"; sp_version := $"1"; sp_task_hashes := tasks; sp_num_seeds := 1;
                 sp_rng_seeds := [] |} in
  task_set_hash ← TaskSet_identity_hash task_set; plan_hash ← SeedPlan_identity_hash plan;
  let assignment := [($"task_set_hash", PStr task_set_hash); ($"seed_plan_hash", PStr plan_hash)] in
  h ← canonical_sampling_config_hash {| sc_definition_ref := source_definition;
        sc_assignment := assignment; sc_config_hash := [] |};
  let sampling := {| sc_definition_ref := source_definition; sc_assignment := assignment;
                     sc_config_hash := h |} in
  derived ← derive_eval_config_reference source sampling;
  EvalBinding_model_validate
    {| eb_request :=
         {| ebr_control_identity_hash := digest PNone; ebr_source_eval_config := source;
            ebr_purpose := purpose; ebr_effect_identity_hash := digest PNone;
            ebr_execution_policy :=
              {| mep_max_errors := 1; mep_provide_traceback := None;
                 mep_task_model_identity_hash := digest PNone;
                 mep_provider_execution_policy_hash := digest PNone;
                 mep_provider_parameters := []; mep_generation_id := None;
                 mep_copy_task_model := false |};
            ebr_task_batch_hashes := tasks; ebr_num_seeds := 1 |};
       eb_task_set := task_set; eb_seed_plan := plan; eb_sampling_config := sampling;
       eb_eval_config := derived |}.

(** A failed evaluation. *)
Definition observed (purpose : EvalPurpose) (intent : pystr) (candidate : CandidateRef) :
    result EvalObservation :=
  binding ← binding (derivation_purpose purpose); policy_hash ← policy_hash;
  EvalObservation_model_validate
    {| eo_run_id := $"run"; eo_intent_id := intent; eo_effect_identity_hash := digest PNone;
       eo_purpose := purpose; eo_candidate := candidate; eo_task_batch_hashes := [digest PNone];
       eo_eval_config := eb_eval_config binding; eo_eval_binding := binding;
       eo_eval_role := INTERNAL; eo_provider_execution_policy_ref := None;
       eo_eval_result_ref := content_ref EVAL_FAILURE_SCHEMA;
       eo_expected_reward_policy_hash := policy_hash; eo_reward_ref := None;
       eo_normalized_score := fzero |}.

(** The candidate of a suggestion that selects the second instruction. *)
Definition assembly (suggestion : StudySuggestion) : result Miprov2CandidateAssemblyBinding :=
  h ← instruction_identity_hash $"Think first."; run ← run_ref;
  let component :=
    {| cs_component_id := $"generate"; cs_instruction_index := 1; cs_instruction := $"Think first.";
       cs_instruction_identity_hash := h; cs_demo_index := None; cs_demo_set := None;
       cs_demo_identity_hash := None |} in
  let rendering :=
    {| cr_control_identity_hash := digest PNone;
       cr_base_candidate_identity_hash := candr_identity_hash base;
       cr_categorical_combination_identity_hash :=
         ss_candidate_combination_identity_hash suggestion; cr_components := [component] |} in
  rendering_hash ← Miprov2CandidateRendering_identity_hash rendering;
  proposed ← candidate_from_components base (rendered_candidate_id rendering_hash)
    [Miprov2ComponentSelection_fields component] run;
  assembled ← candidate_reference proposed;
  program_hash ← compute_identity_hash MIPROV2_CANDIDATE_PROGRAM_SCHEMA
    MIPROV2_CANDIDATE_PROGRAM_SCHEMA_VERSION (PDict [($"candidate", CandidateRef_dump assembled)]);
  Miprov2CandidateAssemblyBinding_model_validate
    {| ca_params := ss_params suggestion;
       ca_categorical_combination_identity_hash :=
         ss_candidate_combination_identity_hash suggestion;
       ca_assembled := assembled; ca_program_identity_hash := program_hash;
       ca_rendering := rendering; ca_optimizer_config := config; ca_base_candidate := base;
       ca_program_layout := layout; ca_prompt_adapter_identity_hash := digest PNone;
       ca_run := run |}.

Lemma the_study_ok : is_ok the_study = true.
Proof. vm_compute. reflexivity. Qed.
Definition study : Miprov2Study := Eval vm_compute in got _ the_study_ok.

Lemma baseline_ok : is_ok (observed MIPROV2_BASELINE $"i0" base) = true.
Proof. vm_compute. reflexivity. Qed.
Definition baseline_evaluation : EvalObservation := Eval vm_compute in got _ baseline_ok.

Lemma start_ok : is_ok (initial_transcript study fzero baseline_evaluation) = true.
Proof. vm_compute. reflexivity. Qed.
Definition start : StudyTranscript := Eval vm_compute in got _ start_ok.

Lemma first_suggestion_ok : is_ok (suggest_next study start) = true.
Proof. vm_compute. reflexivity. Qed.
Definition first_suggestion : StudySuggestion := Eval vm_compute in got _ first_suggestion_ok.

Lemma first_assembly_ok : is_ok (assembly first_suggestion) = true.
Proof. vm_compute. reflexivity. Qed.
Definition first_assembly : Miprov2CandidateAssemblyBinding :=
  Eval vm_compute in got _ first_assembly_ok.

Lemma sample_ok : is_ok (observed MIPROV2_SAMPLE $"i1" (ca_assembled first_assembly)) = true.
Proof. vm_compute. reflexivity. Qed.
Definition sample_evaluation : EvalObservation := Eval vm_compute in got _ sample_ok.

Lemma promotion_ok : is_ok (observed MIPROV2_PROMOTION $"i2" (ca_assembled first_assembly)) = true.
Proof. vm_compute. reflexivity. Qed.
Definition promotion_evaluation : EvalObservation := Eval vm_compute in got _ promotion_ok.

Definition recorded : result StudyTranscript :=
  record_sample study start first_suggestion fzero sample_evaluation first_assembly (Some fzero)
    (Some promotion_evaluation).

Lemma recorded_ok : is_ok recorded = true.
Proof. vm_compute. reflexivity. Qed.
Definition one_sample : StudyTranscript := Eval vm_compute in got _ recorded_ok.

Lemma recorded_one_sample : recorded = Ok one_sample.
Proof. vm_compute. reflexivity. Qed.

Lemma study_is_ready : study_ready study.
Proof. split; vm_compute; reflexivity. Qed.
End ConcreteStudy.

Section StudyWitnesses.
Import Concrete ConcreteTemplates ConcreteMiprov2 ConcreteStudy.

Lemma study_schedule_exact_witness :
  require_bound_transcript study one_sample = Ok tt ∧
  ∀ k sample, st_samples one_sample !! k = Some sample →
    so_trial_number sample = sample_number (sy_schedule study) (Z.of_nat k).
Proof.
  assert (require_bound_transcript study one_sample = Ok tt) as H by (vm_compute; reflexivity).
  split; [exact H|]. intros k sample Hk.
  exact (proj1 (proj1 (proj2 (study_schedule_exact study one_sample H)) k sample Hk)).
Defined.

Lemma study_resumes_witness :
  study_run study one_sample ∧ next_number study one_sample = 3%Z ∧
  ∃ suggestion, suggest_next study one_sample = Ok suggestion ∧ ss_trial_number suggestion = 3%Z.
Proof.
  assert (study_run study one_sample) as Hrun.
  { apply (study_records study start first_suggestion fzero sample_evaluation first_assembly
      (Some fzero) (Some promotion_evaluation)).
    - apply (study_starts study fzero baseline_evaluation); vm_compute; reflexivity.
    - exact recorded_one_sample. }
  split; [exact Hrun|]. split; [vm_compute; reflexivity|].
  destruct (proj1 (proj2 (proj2 (proj2 (study_resumes study one_sample study_is_ready Hrun))))
    ltac:(vm_compute; reflexivity)) as (suggestion & Hs & Hn).
  exists suggestion. split; [exact Hs|]. rewrite Hn. vm_compute. reflexivity.
Defined.

(** The promotion is left out. *)
Lemma record_sample_refuses_witness :
  ∃ msg, record_sample study start first_suggestion fzero sample_evaluation first_assembly
    None (Some promotion_evaluation) = raise ValueError msg.
Proof.
  destruct (provisional_sample study first_suggestion fzero sample_evaluation first_assembly)
    as [provisional|e] eqn:E; [|vm_compute in E; discriminate E].
  assert (require_bound_transcript study start = Ok tt) as Hb by (vm_compute; reflexivity).
  assert (suggest_next study start = Ok first_suggestion) as Hn by (vm_compute; reflexivity).
  pose proof (proj2 (proj2 (proj2 (record_sample_refuses study start first_suggestion fzero
    sample_evaluation first_assembly None (Some promotion_evaluation)) Hb)) provisional Hn E) as H.
  assert (promotion_due (sy_schedule study) (ss_trial_number first_suggestion) = true) as Hd
    by (vm_compute; reflexivity).
  rewrite Hd in H. exact (H (or_introl eq_refl)).
Defined.
End StudyWitnesses.
